(* ===== verification/_CoqProject ===== *)
-Q . S2P
Prelude.v
Spinlock.v
ListSpec.v
WmcList.v
Util.v
Vsprintf.v
Bitmap.v
IdHash.v
Fs.v
DenemeFs.v
DenemeSpec.v
DenemeProps.v
DenemeRefine.v
Vfs.v
VfsFile.v
VfsProps.v
Cga.v
CgaProps.v
Keyboard.v
PhysMem.v
VirtMem.v
VirtRefs.v
VirtMap.v
VirtProps.v
UserMem.v
Descr.v
Kmalloc.v
Buddy.v
KmallocTest.v
KmallocProps.v
HeapProps.v
FsHeap.v
PathProps.v
Task.v
Sched.v
SchedProps.v
SchedOps.v
Console.v
ConsoleProps.v
Ipc.v
Process.v
ProcessProps.v
ForkProps.v
Syscall.v
Trap.v
TrapProps.v
System.v
Exec.v
ExecProps.v
Pic.v
Monitor.v
MonitorLine.v
MonitorProps.v
Boot.v
BootProps.v
Lib.v
Newlib.v
LibProps.v
LibFiles.v
BrkProps.v
User.v
TestFiles.v
TestSignals.v
TestIpc.v
TestTasks.v
UserProps.v
TestRuns.v
