(* ===== verification/Prelude.v ===== *)
(** MakarnaX: a development beside its kernel.

    MakarnaX is a small 32-bit x86 kernel in C++: paging with segmentation, a buddy
    heap, processes with signals, shared memory and semaphores, a file system in
    memory and a text console. This library models the kernel's code function by
    function, as executable definitions, and proves what it does, where it goes
    wrong included. Paths below are relative to the root of the sources.

    * How the code is modelled

    A function that changes state is a computation of the monad [M S] below: from a
    state to [Done result state] or to [Stop fault]. [PanicCalled] is PANIC,
    [AssertFailed] an ASSERT that fails, [BadAccess] an access the C code may not make
    (NULL, past an array, an unmapped page), [Blocked] a wait for another task,
    [MonitorEntered] the monitor called from the keyboard, [OutOfFuel] a loop that was
    given too little fuel. Integers are [Z] with the
    wrap-around of their C type written out ([u8], [u16], [u32], [i32]). Pointers are
    addresses; the memory behind them is a finite map in the component's state, so
    that aliasing is as in the code. A component that runs in a larger state is
    lifted with [zoom].

    The code outside of the repository, and what cannot be run here, are parameters:
    the devices behind the ports (Cga.Ports), the sizes of the structures the compiler
    lays out and the contents of fresh memory ([build] in Ipc, the [junk] of DenemeFs),
    and what the boot loader and the linker leave ([platform] in Monitor, [image] in
    Boot).

    * The files, in their order

    Prelude: machine integers, the monad, generic lemmas and tactics.
    Spinlock (kernel/spinlock.cpp): pushcli and popcli on every state with a
    processor ([HasCpu]), the lock, and several processors on one lock as a step
    relation.
    ListSpec, WmcList (include/wmc/): the abstract lists the kernel is modelled on,
    and the pointer code of [List_2] with the proof that it implements them.
    Util (lib/genel_fonksiyonlar.c, include/genel_fonksiyonlar.h): numbers, paths and
    command lines. Vsprintf (lib/vsprintf.c): the formatting of the messages.
    Bitmap (include/asm/x86.h, include/data_structures/bitmap.h): bit arrays.
    IdHash (include/wmc/idhashtable.h): the hash table of tasks and ipc objects.
    Fs, DenemeFs (kernel/fs/denemefs/): the file system in memory; DenemeSpec is the
    abstract tree, DenemeProps and DenemeRefine the proof that it is implemented.
    Vfs, VfsFile (kernel/fs/): inodes, the cache of directory entries, path
    resolution, open files, devices and the system calls on them; VfsProps its
    theorems.
    Cga, Keyboard (kernel/console.cpp, kernel/keyboard.cpp): the screen, the serial
    port and the keyboard's tables; CgaProps the theorems of the screen.
    PhysMem, VirtMem (kernel/memory/): page frames and page tables; VirtRefs, VirtMap
    and VirtProps their invariant and theorems. UserMem: memory as the running program
    sees it, the access of the processor and not of a source file (a store needs PTE_W,
    the kernel's too, since vm_init sets CR0_WP), and what verify_user_addr says of it.
    Descr (kernel/trap.h, kernel/traphandler.S): segment and gate descriptors, the GDT,
    the IDT, and what the entry points of traps push behind the processor's frame.
    Kmalloc (kernel/memory/kmalloc.cpp): the heap; Buddy is the abstract heap,
    KmallocProps and HeapProps the proof, KmallocTest the heap's self-test of the
    boot. FsHeap: the heap is what the file system asks for. PathProps: path resolution
    through the cache of directory entries is a walk of the abstract tree.
    Task, Sched (kernel/task.h, kernel/sched.cpp, kernel/signal.cpp): the state of the
    processes and the scheduler's queues; SchedProps and SchedOps their theorems.
    Console (kernel/console.cpp, kernel/print.c): the input buffer with its sleeping
    readers, and the kernel's messages; ConsoleProps its theorems.
    Ipc, Process (kernel/ipc/, kernel/task.cpp, kernel/task_exit.cpp,
    kernel/signal.cpp, kernel/trap.cpp): shared memory, semaphores, fork, exit, wait,
    signal delivery, page faults, and schedule() as a whole; ProcessProps, and ForkProps
    on the copy of the memory in do_fork.
    Syscall, Trap (kernel/syscall.cpp, kernel/syscall_table.c, kernel/trap.cpp): the
    calls, their tables and the dispatch of traps; TrapProps its theorems.
    System (kernel/fs/sys_fs.cpp): everything put together, with the parameters and
    results of the file system's calls in the memory of the running program.
    Exec (kernel/fs/exec.cpp, kernel/elf.h): execve, the loading of an ELF file and the
    first stack of a program; ExecProps.
    Pic (kernel/picirq.cpp, kernel/timer.cpp): the interrupt controllers and the timer,
    with the devices' data sheets as the interfaces Pic8259 and Pit8253.
    Monitor (kernel/kernel_monitor.cpp, kernel/panic.cpp): the debugging prompt, its
    commands and the panics, on the state [mach] of the whole machine; MonitorLine and
    MonitorProps.
    Boot (kernel/init.cpp, kernel/memory/memory.cpp, kernel/task.cpp): main, the kernel
    task, the first program; BootProps runs it on one machine, as a test of the model.
    Lib, Newlib (lib/, user_programs/lib/sys/): the functions a program calls, as traps
    of the running program; LibProps, LibFiles and BrkProps their theorems.
    User (lib/, from the program's side): programs as interaction trees over their
    system calls and their memory, the library as such trees, and the machine of the
    kernel with the programs of all tasks; UserProps relates these models to Lib.
    TestFiles, TestSignals, TestIpc, TestTasks (user_programs/test/, user_programs/bin/,
    include/signal.h, include/sys/wait.h): the programs of the repository. TestRuns runs
    them on the machine, as tests of the model.

    * How the parts interact

    PhysMem's state is inside VirtMem's ([mm]); the heap runs on the temporary pages
    of [mm] behind the interface Kmalloc.TmpPages, whose promise PageSource is
    discharged by VirtMap's lemmas in KmallocProps. The file system allocates through
    Fs.Alloc; AllocSpec is its promise and FsHeap the instance. The processes reach
    memory, files and console through Task.KernEnv, which System implements; their
    theorems hold for every instance. The tables of Syscall reach the file system
    through Syscall.UserCalls, which System implements as well. The screen's and the
    keyboard's theorems hold for every device that keeps the promises Crt and
    Inputs; CgaProps builds one such device for the witnesses.

    A task that calls schedule() leaves a [frame], the place it will return to.
    schedule() runs the other tasks' frames until some task is about to return to its
    program, which is where a system call ends. The child of main's fork goes on in
    Boot.main_child.

    A library function is a computation on the kernel: Lib.syscall stores the registers
    into the trap frame of the running task, runs Trap.trap_handler with the tables of
    Syscall, Exec and System behind it, and goes on if the trap ends in the same place
    of the same program.

    User.machine keeps what the processor runs, and for every task the places of its
    program that are suspended, with how each goes on. A step is an event of the running
    program, the return of a function or an interrupt; a trap suspends the program, runs
    trap_handler, and the machine goes on at the place that the trap frame of the task
    the kernel came back to names: a suspended one, the start of a function (a signal's
    handler, a new program), or no code at all, where the processor faults.
    Lib's functions and User's trees are the same calls seen from the two sides
    (user_library_is_lib), and a program alone on the machine runs as its tree on the
    kernel (machine_runs_program).

    * What is proved

    Memory: frames are queued and counted exactly (page_allocator_refines,
    pm_init_builds_free_list), reference counts agree with the page tables under every
    sequence of operations, mappings that are replaced included (vm_reference_counts),
    page_alloc_insert maps what it says (page_alloc_insert_maps), and do_fork gives the
    child the parent's bytes in frames of its own or goes on to an error end, and
    disturbs nobody (fork_copies_memory; what ipc_fork, the copy of the kernel stack and
    the error ends do from there on is modelled and not in the theorem). The heap keeps
    its blocks apart, runs every script of calls and gives its pages back
    (kmalloc_correct, kfree_correct, heap_scripts_run).
    Data structures: the lists and the hash table implement sequences and finite maps
    (list_refines, idht_refines_map); numbers and paths (int_to_string_roundtrip,
    path_walk_is_split, number_reads_back, vsprintf_terminates).
    Programs: a verified range of addresses can be read, and stored to where its pages
    are writable (verified_range_is_usable), a new program finds its arguments
    (program_finds_its_arguments), the libraries reach the kernel's functions by the
    listed numbers and registers (library_calls_reach_kernel), what a program writes to
    a file it reads back (program_reads_what_it_wrote), and its heap grows or stays
    (sbrk_grows).
    Scheduling: the queues are consistent and the choice is fair (scheduler_invariant,
    round_robin); what signals and semaphores do in each state (send_signal_cases,
    stop_signal_panics, semwait_cases).
    Files: denemefs implements the abstract tree (denemefs_refines, denemefs_boot), what
    is written is read (write_read_roundtrip, chunked_read), and a path leads where the
    walk of the tree leads, whatever is in the cache (path_resolution).
    Console: the screen is a terminal (screen_is_terminal, text_is_displayed), the input
    is a queue (console_input_is_queue), and what is typed on a US keyboard is read
    (typed_text_is_read). The monitor edits lines and runs the commands they name
    (readline_edits, runcmd_runs_words).
    Entry: descriptors, gates, traps and calls lead to their handlers, by the numbers of
    the manuals and of syscall.h (segment_roundtrip, gdt_matches_conversions,
    idt_dispatches, trap_dispatch, syscall_dispatch); the enabled interrupts lead to
    their gates, at the rate the kernel counts with (irqs_reach_their_gates,
    timer_runs_at_hz).
    The model itself: a library call as Lib and as User have it is the same
    (user_library_is_lib), a program alone on the machine runs as its tree on the kernel
    (machine_runs_program), and computed runs of the boot and of the test programs are
    recorded (kernel_boots, single_programs_run, task_programs_run). These compare the
    models with each other and with the expected output of one machine; they say nothing
    of other machines or inputs.
    Faults of the code: the theorems that say so in their comment, as
    spinlock_no_mutual_exclusion, segment_free_first_page_only,
    verify_ignores_permissions, relative_path_drops_reference, stop_signal_panics,
    signal_resume_stops, segment_needs_memsz_bytes; and in part idt_dispatches (two
    entry points), verified_range_is_usable (read-only pages) and screen_is_terminal
    (the row behind the screen).

    * Bounds and fuel

    Loops over lists and ranges recurse on them. The rest has fuel: [sched_fuel] is
    the number of tasks and one more, and every turn of schedule() that goes on ends
    a task; [vsprintf] gets the length of its format (enough by vsprintf_terminates);
    path walks and hash chains the size of what they walk; the loops of console.cpp
    one turn for each byte of the devices; [user_string_max] bounds the strings read
    from a program at 16 KB, which is the model's bound and not the code's. The monitor
    waits for input: [polls] says how often it asks (enough for a line by
    readline_edits), and so does the parameter of Lib.sys_cgetc. The loops of the programs
    need none, since they are trees; [solo] counts the events, and the machine runs the
    steps it is given. TestRuns gives more steps than the programs take, which the
    recorded ends show.

    * What is not modelled

    Assembly (boot.S, traphandler.S, crt0.S) but for what the entry points of traps
    push, the registers a trap stores and what the switch of tasks does to the state.
    Messages printed by print_info and its like are left out of the functions that print
    them; __kernel_print itself is in Console. Time passes with do_timer only. The
    compiler's headers (stddef.h, stdarg.h) are vendored. newlib's functions are
    parameters of the programs that call them, and cross_compile_error.c is there to be
    rejected by the compiler. What user_programs keep in registers and on their stacks
    between two events is in the tree, not in the memory of the machine: a program that
    overwrites its own frame is not followed.

    * Plan

    The rest of do_fork: the shared region, the kernel stack and the error ends; the
    boot with its fork for every machine, not only the one of BootProps; the
    interleavings of two programs that share memory and a semaphore; the system calls on
    files as a whole against the abstract tree.*)

From stdpp Require Export base numbers strings option list gmap.

#[export] Set Default Goal Selector "!".
Global Open Scope Z_scope.

(** * Machine integers *)

(** Conversions to the C types of the sources (types.h): unsigned values wrap
    modulo 2^w, [int] is two's complement. *)
Definition u8 (z : Z) : Z := z mod 2 ^ 8.
Definition u16 (z : Z) : Z := z mod 2 ^ 16.
Definition u32 (z : Z) : Z := z mod 2 ^ 32.
Definition i32 (z : Z) : Z :=
  let m := z mod 2 ^ 32 in if m <? 2 ^ 31 then m else m - 2 ^ 32.

(** A value that fits the unsigned type of width [w]. *)
Definition fits (w z : Z) : Prop := 0 <= z < 2 ^ w.

#[export] Instance fits_dec w z : Decision (fits w z).
Proof. unfold fits. apply _. Defined.

Lemma u32_fits z : fits 32 (u32 z).
Proof. unfold fits, u32. apply Z.mod_pos_bound. lia. Qed.

Lemma u32_small z : 0 <= z < 2 ^ 32 -> u32 z = z.
Proof. unfold u32. apply Z.mod_small. Qed.

Lemma u32_u32 z : u32 (u32 z) = u32 z.
Proof. apply u32_small, u32_fits. Qed.

Lemma u32_add_l a b : u32 (u32 a + b) = u32 (a + b).
Proof. unfold u32. apply Zplus_mod_idemp_l. Qed.

Lemma u32_add_r a b : u32 (a + u32 b) = u32 (a + b).
Proof. unfold u32. apply Zplus_mod_idemp_r. Qed.

Lemma u32_sub_l a b : u32 (u32 a - b) = u32 (a - b).
Proof. unfold u32. apply Zminus_mod_idemp_l. Qed.

Lemma u32_i32 z : u32 (i32 z) = u32 z.
Proof.
  unfold i32, u32. case_match; [apply Z.mod_mod; lia|].
  rewrite <- (Z.mod_add (z mod 2 ^ 32 - 2 ^ 32) 1) by lia. rewrite Z.mul_1_l, Z.sub_add. apply Z.mod_mod. lia.
Qed.

Lemma i32_small z : - 2 ^ 31 <= z < 2 ^ 31 -> i32 z = z.
Proof.
  intros H. unfold i32.
  destruct (Z.ltb_spec z 0).
  - replace (z mod 2 ^ 32) with (z + 2 ^ 32).
    + destruct (Z.ltb_spec (z + 2 ^ 32) (2 ^ 31)); lia.
    + symmetry. rewrite <- (Z.mod_add z 1 (2 ^ 32)) by lia.
      rewrite Z.mul_1_l. apply Z.mod_small. lia.
  - rewrite Z.mod_small by lia.
    destruct (Z.ltb_spec z (2 ^ 31)); lia.
Qed.

(** Bits of masks: the three shapes of mask the kernel uses. *)
Lemma land_ones_mod z n : 0 <= n -> Z.land z (2 ^ n - 1) = z mod 2 ^ n.
Proof. intros. rewrite <- Z.land_ones by lia. by rewrite Z.ones_equiv, <- Z.sub_1_r. Qed.

Lemma testbit_high z n i : fits n z -> n <= i -> Z.testbit z i = false.
Proof.
  intros [H0 H1] Hi.
  destruct (Z.ltb_spec n 0) as [Hn|Hn].
  { rewrite Z.pow_neg_r in H1; lia. }
  rewrite <- (Z.mod_small z (2 ^ n)) by done.
  apply Z.mod_pow2_bits_high. lia.
Qed.

(** Two fields of a word: the low one has [n] bits. *)
Lemma lor_fields hi lo n : 0 <= n -> fits n lo -> Z.lor (hi * 2 ^ n) lo = hi * 2 ^ n + lo.
Proof.
  intros Hn Hlo. symmetry. apply Z.add_nocarry_lor. apply Z.bits_inj'. intros i Hi.
  rewrite Z.land_spec, Z.bits_0. destruct (Z.ltb_spec i n).
  - by rewrite Z.mul_pow2_bits_low.
  - by rewrite (testbit_high lo n i), andb_false_r.
Qed.

(** Clearing the low [n] bits of a 32-bit word is subtracting the remainder. *)
Lemma land_clear_low z n :
  fits 32 z -> 0 <= n <= 32 ->
  Z.land z (Z.lxor (2 ^ 32 - 1) (2 ^ n - 1)) = z - z mod 2 ^ n.
Proof.
  intros Hz Hn.
  replace (z - z mod 2 ^ n) with (Z.shiftl (Z.shiftr z n) n).
  - apply Z.bits_inj'. intros i Hi.
    rewrite Z.land_spec, Z.lxor_spec, Z.shiftl_spec by lia.
    replace (2 ^ 32 - 1) with (Z.ones 32) by reflexivity.
    replace (2 ^ n - 1) with (Z.ones n) by (rewrite Z.ones_equiv; lia).
    destruct (Z.ltb_spec i n).
    + rewrite (Z.ones_spec_low n) by lia. rewrite (Z.ones_spec_low 32) by lia.
      rewrite (Z.testbit_neg_r _ (i - n)) by lia. by rewrite andb_false_r.
    + rewrite (Z.ones_spec_high n) by lia.
      rewrite Z.shiftr_spec by lia. replace (i - n + n) with i by lia.
      destruct (Z.ltb_spec i 32).
      * rewrite Z.ones_spec_low by lia. by rewrite andb_true_r.
      * rewrite (testbit_high z 32 i) by done. done.
  - rewrite Z.shiftl_mul_pow2, Z.shiftr_div_pow2 by lia.
    pose proof (Z.div_mod z (2 ^ n)). lia.
Qed.

(** The null pointer. *)
Definition NULL : Z := 0.

(** * The kernel's state and failure monad

    A kernel function is a partial state transformer. It stops the machine in
    exactly the ways the code can: a failed [ASSERT], an explicit [PANIC], or an
    access to memory that is not there. [Blocked] marks a call of schedule() in the
    middle of an operation that is not modelled in steps: the task sleeps, and the
    run of the operation is over for the model. [MonitorEntered] is the kernel monitor
    taking the machine over from the keyboard. [OutOfFuel] marks a model bound that
    was too small; it is no behaviour of the code, and theorems exclude it. *)
Inductive fault :=
| AssertFailed
| PanicCalled
| BadAccess
| Blocked
| MonitorEntered
| OutOfFuel.

#[export] Instance fault_eq_dec : EqDecision fault.
Proof. solve_decision. Defined.

Inductive outcome (S A : Type) :=
| Done (a : A) (s : S)
| Stop (f : fault).
Arguments Done {S A} a s.
Arguments Stop {S A} f.

Definition M (S A : Type) : Type := S -> outcome S A.

#[export] Instance M_ret {S} : MRet (M S) := fun A a s => Done a s.
#[export] Instance M_bind {S} : MBind (M S) := fun A B k m s =>
  match m s with
  | Done a s' => k a s'
  | Stop f => Stop f
  end.

Definition get {S} : M S S := fun s => Done s s.
Definition gets {S A} (f : S -> A) : M S A := fun s => Done (f s) s.
Definition put {S} (s : S) : M S unit := fun _ => Done tt s.
Definition modify {S} (f : S -> S) : M S unit := fun s => Done tt (f s).
Definition stop {S A} (f : fault) : M S A := fun _ => Stop f.

(** ASSERT(b) and PANIC(msg) of include/kernel/kernel.h: both end in
    [__panic...], which never returns. *)
Definition ASSERT {S} (b : bool) : M S unit :=
  if b then mret tt else stop AssertFailed.
Definition PANIC {S A} : M S A := stop PanicCalled.

(** Reading through a pointer or an index that must be valid. *)
Definition deref {S A} (o : option A) : M S A :=
  match o with Some a => mret a | None => stop BadAccess end.

Definition when {S} (b : bool) (m : M S unit) : M S unit :=
  if b then m else mret tt.

(** [for x in l { body }] without early exit. *)
Fixpoint iterM {S X} (f : X -> M S unit) (l : list X) : M S unit :=
  match l with
  | [] => mret tt
  | x :: l' => f x ;; iterM f l'
  end.

(** [for x in l { body }] where the body may leave the loop with a value
    ([return], [goto], [break]); [None] when the loop runs to its end. *)
Fixpoint iter_until {S X R} (f : X -> M S (option R)) (l : list X) : M S (option R) :=
  match l with
  | [] => mret None
  | x :: l' => r ← f x ; match r with Some v => mret (Some v) | None => iter_until f l' end
  end.

(** A loop of at most [n] turns with a state, which the body may leave ([None]). The
    number of turns is binary, so that a loop with the bound 2^32-1 can be run. *)
Fixpoint loop_pos {S A} (n : positive) (f : A -> M S (option A)) (a : A) : M S (option A) :=
  match n with
  | xH => f a
  | xO n => o ← loop_pos n f a; match o with Some a => loop_pos n f a | None => mret None end
  | xI n => o ← f a;
            match o with
            | Some a => o ← loop_pos n f a; match o with Some a => loop_pos n f a | None => mret None end
            | None => mret None
            end
  end.
Definition loop_upto {S A} (n : Z) (f : A -> M S (option A)) (a : A) : M S unit :=
  match n with Zpos n => _ ← loop_pos n f a; mret tt | _ => mret tt end.
(** The same turn by turn. *)
Fixpoint loop_nat {S A} (n : nat) (f : A -> M S (option A)) (a : A) : M S (option A) :=
  match n with
  | O => mret (Some a)
  | S n => o ← f a; match o with Some a => loop_nat n f a | None => mret None end
  end.

(** The values [lo, lo+step, ...] strictly below [hi]: the index of
    [for (i = lo ; i < hi ; i += step)]. *)
Fixpoint range_from (n : nat) (lo step : Z) : list Z :=
  match n with O => [] | S n => lo :: range_from n (lo + step) step end.
Definition range_step (lo hi step : Z) : list Z :=
  range_from (Z.to_nat ((hi - lo + step - 1) / step)) lo step.

(** A component's operations used inside a larger state. *)
Definition zoom {G S A} (getter : G -> S) (setter : S -> G -> G) (m : M S A) : M G A :=
  fun g => match m (getter g) with
           | Done a s => Done a (setter s g)
           | Stop f => Stop f
           end.

Lemma loop_nat_add {S A} n m (f : A -> M S (option A)) a s :
  loop_nat (n + m) f a s = (o ← loop_nat n f a; match o with Some a => loop_nat m f a | None => mret None end) s.
Proof.
  revert a s. induction n as [|n IH]; intros a s; [done|]. cbn [loop_nat Nat.add]. unfold mbind, M_bind in *.
  destruct (f a s) as [[a'|] s'|]; [|done..]. apply IH.
Qed.

Lemma loop_pos_nat {S A} p (f : A -> M S (option A)) a s : loop_pos p f a s = loop_nat (Pos.to_nat p) f a s.
Proof.
  assert (E : forall p' a s, (forall a s, loop_pos p' f a s = loop_nat (Pos.to_nat p') f a s) ->
    (o ← loop_pos p' f a; match o with Some a => loop_pos p' f a | None => mret None end) s =
    loop_nat (Pos.to_nat p' + Pos.to_nat p') f a s).
  { intros p' b t IH. rewrite loop_nat_add. unfold mbind, M_bind. rewrite IH.
    destruct (loop_nat (Pos.to_nat p') f b t) as [[b'|] t'|]; [apply IH|done..]. }
  revert a s. induction p as [p IH|p IH|]; intros a s; cbn [loop_pos].
  - rewrite Pos2Nat.inj_xI. replace (Datatypes.S (2 * Pos.to_nat p)) with (1 + (Pos.to_nat p + Pos.to_nat p))%nat by lia.
    rewrite loop_nat_add. cbn [loop_nat]. specialize (E p). revert E. unfold mbind, M_bind, mret, M_ret. intros E.
    destruct (f a s) as [[a'|] s'|]; [|done..]. by apply E.
  - rewrite Pos2Nat.inj_xO. replace (2 * Pos.to_nat p)%nat with (Pos.to_nat p + Pos.to_nat p)%nat by lia. by apply E.
  - change (Pos.to_nat 1) with 1%nat. cbn [loop_nat]. unfold mbind, M_bind, mret, M_ret. by destruct (f a s) as [[]|].
Qed.

Lemma loop_upto_nat {S A} n (f : A -> M S (option A)) a s :
  loop_upto n f a s = (_ ← loop_nat (Z.to_nat n) f a; mret tt) s.
Proof.
  destruct n as [|p|p]; [done| |done]. cbn [loop_upto Z.to_nat]. unfold mbind, M_bind. by rewrite loop_pos_nat.
Qed.

(** * A small total-correctness logic

    [wp m s Q]: from [s] the operation returns, without stopping the machine,
    in a result and a state related by [Q]. *)
Definition wp {S A} (m : M S A) (s : S) (Q : A -> S -> Prop) : Prop :=
  match m s with Done a s' => Q a s' | Stop _ => False end.

Section wp_rules.
Context {S : Type}.
Implicit Types s : S.

Lemma wp_iff {A} (m : M S A) s Q :
  wp m s Q <-> exists a s', m s = Done a s' /\ Q a s'.
Proof.
  unfold wp. destruct (m s) as [a s'|f].
  - split; [eauto|]. intros (a0 & s0 & [= <- <-] & H). done.
  - split; [done|]. by intros (a0 & s0 & H & _).
Qed.

Lemma wp_done {A} (m : M S A) s a s' Q : m s = Done a s' -> Q a s' -> wp m s Q.
Proof. unfold wp. by intros ->. Qed.

Lemma wp_mono {A} (m : M S A) s (Q Q' : A -> S -> Prop) :
  wp m s Q -> (forall a s', Q a s' -> Q' a s') -> wp m s Q'.
Proof. unfold wp. destruct (m s); eauto. Qed.

Lemma wp_bind {A B} (m : M S A) (k : A -> M S B) s Q :
  wp m s (fun a s' => wp (k a) s' Q) -> wp (m ≫= k) s Q.
Proof. unfold wp, mbind, M_bind. by destruct (m s). Qed.

Lemma wp_ret {A} (a : A) s (Q : A -> S -> Prop) : Q a s -> wp (mret a) s Q.
Proof. done. Qed.

Lemma wp_get s (Q : S -> S -> Prop) : Q s s -> wp get s Q.
Proof. done. Qed.

Lemma wp_gets {A} (f : S -> A) s (Q : A -> S -> Prop) : Q (f s) s -> wp (gets f) s Q.
Proof. done. Qed.

Lemma wp_put s s' (Q : unit -> S -> Prop) : Q tt s' -> wp (put s') s Q.
Proof. done. Qed.

Lemma wp_modify f s (Q : unit -> S -> Prop) : Q tt (f s) -> wp (modify f) s Q.
Proof. done. Qed.

Lemma wp_assert b s (Q : unit -> S -> Prop) : b = true -> Q tt s -> wp (ASSERT b) s Q.
Proof. by intros ->. Qed.

Lemma wp_deref {A} (o : option A) a s (Q : A -> S -> Prop) :
  o = Some a -> Q a s -> wp (deref o) s Q.
Proof. by intros ->. Qed.

Lemma wp_when (b : bool) (m : M S unit) s (Q : unit -> S -> Prop) :
  (b = true -> wp m s Q) -> (b = false -> Q tt s) -> wp (when b m) s Q.
Proof. destruct b; simpl; intros H1 H2; [by apply H1 | by apply H2]. Qed.

(** A loop keeps an invariant indexed by the elements still to visit. *)
Lemma wp_iterM {X} (f : X -> M S unit) (I : list X -> S -> Prop) l s Q :
  I l s ->
  (forall x l' s', I (x :: l') s' -> wp (f x) s' (fun _ => I l')) ->
  (forall s', I [] s' -> Q tt s') ->
  wp (iterM f l) s Q.
Proof.
  intros HI Hstep Hend. revert s HI.
  induction l as [|x l IH]; intros s HI; simpl.
  - apply wp_ret. by apply Hend.
  - apply wp_bind. eapply wp_mono; [by apply Hstep|]. intros u s' HI'. by apply IH.
Qed.
End wp_rules.

(** One step of symbolic execution on a [wp] goal. *)
Ltac wp_step :=
  lazymatch goal with
  | |- wp (mbind _ _) _ _ => apply wp_bind
  | |- wp (mret _) _ _ => apply wp_ret
  | |- wp get _ _ => apply wp_get
  | |- wp (gets _) _ _ => apply wp_gets
  | |- wp (put _) _ _ => apply wp_put
  | |- wp (modify _) _ _ => apply wp_modify
  | |- wp (ASSERT _) _ _ => apply wp_assert
  | |- wp (deref _) _ _ => eapply wp_deref
  | |- wp (when _ _) _ _ => apply wp_when
  end.
Ltac wp_steps := repeat (wp_step; simpl).

(** What an operation leaves alone, when it returns: [f] of the state. *)
Definition keeps_proj {S X A} (f : S -> X) (m : M S A) : Prop :=
  forall s, match m s with Done _ s' => f s' = f s | Stop _ => True end.

Section keeps.
Context {S X : Type} (f : S -> X).
Notation keeps := (keeps_proj f).

Lemma keeps_bind {A B} (m : M S A) (k : A -> M S B) : keeps m -> (forall a, keeps (k a)) -> keeps (m ≫= k).
Proof.
  intros Hm Hk s. unfold mbind, M_bind. specialize (Hm s). destruct (m s) as [a s1|]; [|done].
  specialize (Hk a s1). destruct (k a s1); [congruence|done].
Qed.
(** An operation that looks at the state. *)
Lemma keeps_get {A} (k : S -> M S A) :
  (forall s, match k s s with Done _ s' => f s' = f s | Stop _ => True end) -> keeps (get ≫= k).
Proof. intros H s. exact (H s). Qed.
Lemma keeps_ret {A} (a : A) : keeps (mret a).
Proof. by intros s. Qed.
Lemma keeps_stop {A} e : keeps (stop e : M S A).
Proof. by intros s. Qed.
Lemma keeps_assert b : keeps (ASSERT b).
Proof. by destruct b. Qed.
Lemma keeps_deref {A} (o : option A) : keeps (deref o).
Proof. by destruct o. Qed.
Lemma keeps_modify (g : S -> S) : (forall s, f (g s) = f s) -> keeps (modify g).
Proof. intros H s. apply H. Qed.
Lemma keeps_when b m : keeps m -> keeps (when b m).
Proof. destruct b; [done|]. by intros _ s. Qed.
Lemma keeps_done {A} (m : M S A) s a s' : keeps m -> m s = Done a s' -> f s' = f s.
Proof. intros H E. specialize (H s). by rewrite E in H. Qed.
End keeps.

Create HintDb keeps.
#[export] Hint Resolve keeps_bind keeps_ret keeps_stop keeps_assert keeps_deref keeps_when : keeps.
(** Cases of a [keeps_proj] goal, with the lemmas of the database. *)
Ltac keeps_go :=
  repeat (first [ progress (intros; cbn beta iota zeta) | assumption
    | solve [auto 2 with keeps nocore]
    | apply keeps_ret | apply keeps_stop | apply keeps_assert | apply keeps_deref | apply keeps_when | apply keeps_bind
    | match goal with |- keeps_proj _ (match ?x with _ => _ end) => destruct x end ]).

(** Reducing a monadic term on a known state. *)
Lemma bind_done {S A B} (m : M S A) (k : A -> M S B) s a s' :
  m s = Done a s' -> (m ≫= k) s = k a s'.
Proof. unfold mbind, M_bind. by intros ->. Qed.

Lemma bind_stop {S A B} (m : M S A) (k : A -> M S B) s f :
  m s = Stop f -> (m ≫= k) s = Stop f.
Proof. unfold mbind, M_bind. by intros ->. Qed.

Lemma bind_inv {S A B} (m : M S A) (k : A -> M S B) s b s2 :
  (m ≫= k) s = Done b s2 -> exists a s1, m s = Done a s1 /\ k a s1 = Done b s2.
Proof. unfold mbind, M_bind. destruct (m s); naive_solver. Qed.

Lemma bind_assoc {S A B C} (m : M S A) (f : A -> M S B) (g : B -> M S C) s :
  ((m ≫= f) ≫= g) s = (m ≫= (fun x => f x ≫= g)) s.
Proof. unfold mbind, M_bind. by destruct (m s). Qed.

Lemma bind_ret_r {S A} (m : M S A) s : (m ≫= mret) s = m s.
Proof. unfold mbind, M_bind. by destruct (m s). Qed.

Ltac m_unfold :=
  cbv beta iota zeta delta
    [ASSERT PANIC deref when stop get gets put modify mbind M_bind mret M_ret negb andb orb].

(** Invert a run that returned: one hypothesis per command. *)
Ltac bind_inv H :=
  let a := fresh "a" in let s := fresh "s" in let H1 := fresh "Hrun" in
  apply bind_inv in H as (a & s & H1 & H).

(** * Lists and options *)

Lemma range_step_seqZ lo hi step :
  range_step lo hi step = (fun k => lo + k * step) <$> seqZ 0 ((hi - lo + step - 1) / step).
Proof.
  unfold range_step, seqZ. generalize (Z.to_nat ((hi - lo + step - 1) / step)) as n. intros n. revert lo.
  induction n as [|n IH]; intros lo; [done|]. cbn [range_from seq fmap list_fmap]. f_equal; [lia|].
  rewrite IH, <- !list_fmap_compose, <- fmap_S_seq, <- !list_fmap_compose. apply list_fmap_ext.
  intros i x _. unfold compose. lia.
Qed.

Lemma range_step_nil lo hi step : 0 < step -> hi <= lo -> range_step lo hi step = [].
Proof.
  intros. rewrite range_step_seqZ, seqZ_nil; [done|].
  assert ((hi - lo + step - 1) / step < 1) by (apply Z.div_lt_upper_bound; lia). lia.
Qed.

Lemma range_step_cons lo hi step :
  0 < step -> lo < hi -> range_step lo hi step = lo :: range_step (lo + step) hi step.
Proof.
  intros. rewrite !range_step_seqZ.
  replace ((hi - lo + step - 1) / step) with (1 + (hi - (lo + step) + step - 1) / step).
  - assert (0 <= (hi - (lo + step) + step - 1) / step) by (apply Z.div_pos; lia).
    rewrite seqZ_cons by lia. simpl. f_equal; [lia|].
    rewrite <- (fmap_add_seqZ 1 0), <- list_fmap_compose.
    replace (Z.pred (1 + _)) with ((hi - (lo + step) + step - 1) / step) by lia.
    apply list_fmap_ext. intros i x _. simpl. lia.
  - replace (hi - lo + step - 1) with (hi - (lo + step) + step - 1 + 1 * step) by lia.
    rewrite Z.div_add by lia. lia.
Qed.

Lemma elem_of_range_step lo hi step x :
  0 < step ->
  x ∈ range_step lo hi step <-> lo <= x < hi /\ (x - lo) mod step = 0.
Proof.
  intros Hs. rewrite range_step_seqZ, list_elem_of_fmap. split.
  - intros (k & -> & Hk%elem_of_seqZ).
    assert (k + 1 <= (hi - lo + step - 1) / step) as Hk1 by lia.
    apply (Z.mul_le_mono_nonneg_r _ _ step) in Hk1; [|lia].
    pose proof (Z.mul_div_le (hi - lo + step - 1) step ltac:(lia)).
    split; [nia|]. replace (lo + k * step - lo) with (k * step) by lia. apply Z.mod_mul. lia.
  - intros [Hx Hm]. exists ((x - lo) / step).
    pose proof (Z.div_mod (x - lo) step ltac:(lia)).
    split; [lia|]. apply elem_of_seqZ. split; [apply Z.div_pos; lia|].
    rewrite Z.add_0_l. apply Z.div_lt_upper_bound; [lia|].
    pose proof (Z.div_mod (hi - lo + step - 1) step ltac:(lia)).
    pose proof (Z.mod_pos_bound (hi - lo + step - 1) step ltac:(lia)). nia.
Qed.

(** A loop that carries a value. *)
Fixpoint foldM {S X B} (f : B -> X -> M S B) (b : B) (l : list X) : M S B :=
  match l with
  | [] => mret b
  | x :: l' => b' ← f b x; foldM f b' l'
  end.

Lemma iter_until_ext {S X R} (f g : X -> M S (option R)) l s :
  (forall x s, f x s = g x s) -> iter_until f l s = iter_until g l s.
Proof.
  intros Hfg. revert s. induction l as [|x l IH]; intros s; [done|]. cbn [iter_until].
  unfold mbind, M_bind in *. rewrite Hfg. destruct (g x s) as [[r|] s'|]; [done|apply IH|done].
Qed.

(** A search: the elements that fail the test [p] are passed without effect. *)
Lemma iter_until_split {S X R} (f : X -> M S (option R)) (p : X -> bool) l s :
  (forall x, x ∈ l -> p x = false -> f x s = Done None s) ->
  (exists l1 x l2, l = l1 ++ x :: l2 /\ p x = true /\ (forall y, y ∈ l1 -> p y = false) /\
     iter_until f l s = iter_until f (x :: l2) s) \/
  ((forall x, x ∈ l -> p x = false) /\ iter_until f l s = Done None s).
Proof.
  induction l as [|x l IH]; intros Hf; [right; split; [set_solver|done]|].
  destruct (p x) eqn:Hp.
  { left. exists [], x, l. split_and!; [done..|set_solver|done]. }
  destruct IH as [(l1 & y & l2 & -> & Hy & Hl1 & Hr)|[Hl Hr]]; [by intros; apply Hf; [right|]|left|right].
  - exists (x :: l1), y, l2. split_and!; [done..| |].
    + intros z [->|Hz]%elem_of_cons; [done|by apply Hl1].
    + cbn [iter_until]. erewrite bind_done by (apply Hf; [by left|done]). exact Hr.
  - split; [intros z [->|Hz]%elem_of_cons; [done|by apply Hl]|].
    cbn [iter_until]. erewrite bind_done by (apply Hf; [by left|done]). exact Hr.
Qed.

(** The first index of a range that passes. *)
Lemma seqZ_split lo n l1 x l2 : seqZ lo n = l1 ++ x :: l2 ->
  lo <= x < lo + n /\ (forall y, y ∈ l1 <-> lo <= y < x).
Proof.
  intros E. assert (Hl : l1 = seqZ lo (x - lo) /\ lo <= x < lo + n).
  { revert lo n E. induction l1 as [|z l1 IH]; intros lo n E.
    - destruct (Z.ltb_spec 0 n) as [Hn|Hn]; [|by rewrite seqZ_nil in E].
      rewrite seqZ_cons in E by done. injection E as -> _. split; [|lia]. by rewrite seqZ_nil by lia.
    - destruct (Z.ltb_spec 0 n) as [Hn|Hn]; [|by rewrite seqZ_nil in E].
      rewrite seqZ_cons in E by done. injection E as -> E. apply IH in E as [-> Hx].
      split; [|lia]. rewrite (seqZ_cons z (x - z)) by lia. f_equal. f_equal. lia. }
  destruct Hl as [-> Hx]. split; [done|]. intros y. rewrite elem_of_seqZ. lia.
Qed.
