(* ===== verification/Spinlock.v ===== *)
(** Interrupt masking and spinlocks (kernel/spinlock.cpp).

    [Cpu] is the interrupt flag of the processor and the two fields pushcli and
    popcli keep in the running task. Every component state that runs kernel code
    is an instance of [HasCpu], so the same [pushcli], [popcli] and lock
    operations run in all of them. Critical sections are compared up to the
    equivalence [cpu_equiv]: [before_pushcli] is dead while [n_cli] is zero. *)

From S2P Require Import Prelude.

(** eflags.IF, task_curr->n_cli and task_curr->before_pushcli. *)
Record Cpu := mkCpu {
  IF : bool;
  n_cli : Z;
  before_pushcli : bool;
}.

Class HasCpu (S : Type) := {
  cpu_of : S -> Cpu;
  set_cpu : Cpu -> S -> S;
  cpu_of_set : forall c s, cpu_of (set_cpu c s) = c;
  set_cpu_of : forall s, set_cpu (cpu_of s) s = s;
  set_cpu_set : forall c c' s, set_cpu c (set_cpu c' s) = set_cpu c s;
}.

#[export] Instance HasCpu_Cpu : HasCpu Cpu := {
  cpu_of c := c;
  set_cpu c _ := c;
  cpu_of_set _ _ := eq_refl;
  set_cpu_of _ := eq_refl;
  set_cpu_set _ _ _ := eq_refl;
}.

(** ** pushcli and popcli *)

Definition do_pushcli (c : Cpu) : Cpu :=
  (* eflags is read before cli() *)
  mkCpu false (n_cli c + 1) (if n_cli c =? 0 then IF c else before_pushcli c).

(** None: the PANIC of an unmatched popif. *)
Definition do_popcli (c : Cpu) : option Cpu :=
  let n := n_cli c - 1 in
  if n <? 0 then None
  else Some (mkCpu ((n =? 0) && before_pushcli c) n (before_pushcli c)).

Section cpu_ops.
Context {S : Type} `{HasCpu S}.

Definition pushcli : M S unit :=
  modify (fun s => set_cpu (do_pushcli (cpu_of s)) s).

Definition popcli : M S unit :=
  s ← get;
  match do_popcli (cpu_of s) with
  | None => PANIC
  | Some c => put (set_cpu c s)
  end.

Definition cli : M S unit :=
  modify (fun s => set_cpu (mkCpu false (n_cli (cpu_of s)) (before_pushcli (cpu_of s))) s).
Definition sti : M S unit :=
  modify (fun s => set_cpu (mkCpu true (n_cli (cpu_of s)) (before_pushcli (cpu_of s))) s).

(** eflags_read and eflags_load: only the IF bit matters to the model. *)
Definition eflags_read : M S bool := gets (fun s => IF (cpu_of s)).
Definition eflags_load (b : bool) : M S unit :=
  modify (fun s => set_cpu (mkCpu b (n_cli (cpu_of s)) (before_pushcli (cpu_of s))) s).

(** include/kernel/debug.h, with interrupt_check enabled. *)
Definition ASSERT_int_disable : M S unit := b ← eflags_read; ASSERT (negb b).
Definition ASSERT_int_enable : M S unit := b ← eflags_read; ASSERT b.
End cpu_ops.

(** ** The lock word *)

(** [while (xchg(&l->locked, 1) == 0);] run by one processor: the new value of
    the word, None while it is still spinning after [fuel] exchanges. *)
Fixpoint spin (fuel : nat) (locked : Z) : option Z :=
  match fuel with
  | O => None
  | Datatypes.S n => if locked =? 0 then spin n 1 else Some 1
  end.

(** Two exchanges always end the loop, see [spin_two]. *)
Definition spin_fuel : nat := 2.

Section locks.
Context {S : Type} `{HasCpu S} (view : S -> Z) (upd : Z -> S -> S).

Definition spinlock_init : M S unit := modify (upd 0).

Definition spinlock_acquire : M S unit :=
  pushcli ;;
  l ← gets view;
  match spin spin_fuel l with
  | Some l' => modify (upd l')
  | None => stop OutOfFuel
  end.

Definition spinlock_release : M S unit :=
  modify (upd 0) ;; popcli.
End locks.

(** ** Several processors: the lock word as a shared register *)

(** One processor inside acquire / critical section / release. *)
Inductive cpu_pc := Outside | Spinning | Critical.

Record smp := mkSmp { word : Z; pcs : list cpu_pc }.

(** One atomic step of processor [i]. *)
Inductive smp_step : smp -> smp -> Prop :=
| step_enter w ps i :
    ps !! i = Some Outside -> smp_step (mkSmp w ps) (mkSmp w (<[i:=Spinning]> ps))
| step_xchg_again w ps i :
    ps !! i = Some Spinning -> w = 0 -> smp_step (mkSmp w ps) (mkSmp 1 ps)
| step_xchg_exit w ps i :
    ps !! i = Some Spinning -> w <> 0 ->
    smp_step (mkSmp w ps) (mkSmp 1 (<[i:=Critical]> ps))
| step_release w ps i :
    ps !! i = Some Critical -> smp_step (mkSmp w ps) (mkSmp 0 (<[i:=Outside]> ps)).

(** * Properties *)

(** The task fields and the interrupt flag are consistent. *)
Definition cpu_ok (c : Cpu) : Prop := 0 <= n_cli c /\ (0 < n_cli c -> IF c = false).

Definition cpu_equiv (c c' : Cpu) : Prop :=
  IF c = IF c' /\ n_cli c = n_cli c' /\ (0 < n_cli c -> before_pushcli c = before_pushcli c').

#[export] Instance cpu_equiv_equivalence : Equivalence cpu_equiv.
Proof.
  split.
  - by intros [i n b].
  - intros [i n b] [i' n' b'] (Hi & Hn & Hb); simpl in *; subst.
    split_and!; simpl; [done..|]. intros Hn. by rewrite Hb.
  - intros [i n b] [i' n' b'] [i2 n2 b2] (Hi & Hn & Hb) (Hi2 & Hn2 & Hb2); simpl in *; subst.
    split_and!; simpl; [done..|]. intros Hn. by rewrite Hb, Hb2.
Qed.

#[export] Instance cpu_ok_proper : Proper (cpu_equiv ==> iff) cpu_ok.
Proof. intros [i n b] [i' n' b'] (Hi & Hn & _); simpl in *; subst. done. Qed.

#[export] Instance do_pushcli_proper : Proper (cpu_equiv ==> cpu_equiv) do_pushcli.
Proof.
  intros [i n b] [i' n' b'] (Hi & Hn & Hb); simpl in *; subst.
  unfold do_pushcli, cpu_equiv; simpl. split_and!; [done..|]. intros Hpos.
  destruct (Z.eqb_spec n' 0); [done|]. apply Hb. lia.
Qed.

Lemma do_pushcli_ok c : cpu_ok c -> cpu_ok (do_pushcli c).
Proof. intros [H _]. split; simpl; [lia|done]. Qed.

Lemma do_pushcli_IF c : IF (do_pushcli c) = false.
Proof. done. Qed.

(** Whatever a balanced body leaves behind, popcli undoes the pushcli. *)
Lemma do_popcli_equiv c c' :
  cpu_ok c -> cpu_equiv c' (do_pushcli c) ->
  exists c2, do_popcli c' = Some c2 /\ cpu_equiv c2 c.
Proof.
  destruct c as [i n b], c' as [i' n' b'].
  intros [Hn Hi] (Hi' & Hn' & Hb); simpl in *; subst.
  unfold do_popcli; simpl. replace (n + 1 - 1) with n by lia.
  destruct (Z.ltb_spec n 0); [lia|]. eexists; split; [done|].
  specialize (Hb ltac:(lia)).
  unfold cpu_equiv; simpl. destruct (Z.eqb_spec n 0) as [->|Hne]; simpl.
  - subst b'. split_and!; [done..|lia].
  - split_and!; [|done|done]. symmetry. apply Hi. lia.
Qed.

Section critical_sections.
Context {S : Type} `{HasCpu S}.
Implicit Types s : S.

(** A section [pushcli; body; popcli] whose body is balanced is balanced. *)
Lemma wp_critical {A} (body : M S A) s (Q : A -> S -> Prop) :
  cpu_ok (cpu_of s) ->
  wp body (set_cpu (do_pushcli (cpu_of s)) s) (fun a s' =>
    cpu_equiv (cpu_of s') (do_pushcli (cpu_of s)) /\
    forall c, cpu_equiv c (cpu_of s) -> Q a (set_cpu c s')) ->
  wp (pushcli ;; (a ← body; popcli ;; mret a)) s Q.
Proof.
  intros Hok Hb. wp_step. unfold pushcli. wp_step. wp_step. eapply wp_mono; [exact Hb|].
  intros a s' [Heq HQ]. wp_step. unfold popcli. wp_step. wp_step.
  destruct (do_popcli_equiv (cpu_of s) (cpu_of s') Hok Heq) as (c2 & -> & Hc2).
  wp_step. wp_step. by apply HQ.
Qed.

(** pushcli cannot fail. *)
Lemma pushcli_done s : pushcli s = Done tt (set_cpu (do_pushcli (cpu_of s)) s).
Proof. done. Qed.

(** The popcli that ends a balanced section. *)
Lemma popcli_run s s3 :
  cpu_ok (cpu_of s) -> cpu_equiv (cpu_of s3) (do_pushcli (cpu_of s)) ->
  exists c, popcli s3 = Done tt (set_cpu c s3) /\ cpu_equiv c (cpu_of s).
Proof.
  intros Hok He. destruct (do_popcli_equiv _ _ Hok He) as (c & Hp & Hc).
  exists c. split; [|done]. unfold popcli. m_unfold. by rewrite Hp.
Qed.
End critical_sections.

Lemma spin_two l : spin spin_fuel l = Some 1.
Proof. unfold spin_fuel; simpl. by destruct (l =? 0). Qed.

Section locks_spec.
Context {S : Type} `{HasCpu S} (view : S -> Z) (upd : Z -> S -> S).

Lemma spinlock_acquire_run s :
  spinlock_acquire view upd s = Done tt (upd 1 (set_cpu (do_pushcli (cpu_of s)) s)).
Proof.
  unfold spinlock_acquire, pushcli. m_unfold. by rewrite spin_two.
Qed.
End locks_spec.

(** *** Well-bracketed sequences of pushcli and popcli *)

Inductive cli_op := Push | Pop.

Definition cli_op_run (o : cli_op) : M Cpu unit :=
  match o with Push => pushcli | Pop => popcli end.

(** Well-bracketed traces: what code made of nested critical sections executes. *)
Inductive balanced : list cli_op -> Prop :=
| bal_nil : balanced []
| bal_section l : balanced l -> balanced (Push :: l ++ [Pop])
| bal_app l1 l2 : balanced l1 -> balanced l2 -> balanced (l1 ++ l2).

Lemma iterM_app {S X} (f : X -> M S unit) l1 l2 s :
  iterM f (l1 ++ l2) s = (iterM f l1 ;; iterM f l2) s.
Proof.
  revert s. induction l1 as [|x l1 IH]; intros s; simpl; [done|].
  unfold mbind, M_bind in *. destruct (f x s) as [u s'|]; [apply IH|done].
Qed.

(** Any well-nested sequence of pushcli and popcli, run from a consistent
    state, returns without a panic and restores the interrupt flag and the
    nesting depth; in a nested state the saved flag is restored too. *)
Theorem cli_balanced_restores l c :
  balanced l -> cpu_ok c ->
  exists c', iterM cli_op_run l c = Done tt c' /\ cpu_equiv c' c.
Proof.
  intros Hl. revert c. induction Hl as [|l Hl IH|l1 l2 H1 IH1 H2 IH2]; intros c Hc.
  - exists c. split; [done|reflexivity].
  - destruct (IH (do_pushcli c) (do_pushcli_ok c Hc)) as (c1 & Hr & He).
    destruct (do_popcli_equiv c c1 Hc He) as (c2 & Hp & He2).
    exists c2. split; [|done].
    simpl. rewrite (bind_done _ _ _ tt (do_pushcli c)) by done.
    rewrite iterM_app, (bind_done _ _ _ _ _ Hr). simpl.
    unfold popcli. m_unfold. simpl. by rewrite Hp.
  - destruct (IH1 c Hc) as (c1 & Hr1 & He1).
    destruct (IH2 c1) as (c2 & Hr2 & He2); [by rewrite He1|].
    exists c2. rewrite iterM_app, (bind_done _ _ _ _ _ Hr1).
    split; [done|]. by rewrite He2.
Qed.

Lemma cli_balanced_restores_witness :
  exists c', iterM cli_op_run [Push; Push; Pop; Push; Pop; Pop] (mkCpu true 0 false) = Done tt c'
             /\ cpu_equiv c' (mkCpu true 0 false).
Proof.
  apply (cli_balanced_restores [Push; Push; Pop; Push; Pop; Pop]).
  - change (balanced (Push :: ([Push] ++ [] ++ [Pop]) ++ (Push :: [] ++ [Pop]) ++ [Pop])).
    rewrite app_assoc. apply bal_section, bal_app; apply (bal_section []), bal_nil.
  - split; simpl; [lia|discriminate].
Defined.

(** C38. spinlock_acquire tests the exchanged value the wrong way round: with two
    processors a state with both inside the critical section is reachable from
    the initialised lock, so on more than one processor the lock excludes nobody. *)
Theorem spinlock_no_mutual_exclusion :
  exists s, rtc smp_step (mkSmp 0 [Outside; Outside]) s /\ pcs s = [Critical; Critical].
Proof.
  exists (mkSmp 1 [Critical; Critical]). split; [|done].
  eapply rtc_l; [by apply (step_enter 0 _ 0)|]. simpl.
  eapply rtc_l; [by apply (step_enter 0 _ 1)|]. simpl.
  eapply rtc_l; [by apply (step_xchg_again 0 _ 0)|].
  eapply rtc_l; [by apply (step_xchg_exit 1 _ 0)|]. simpl.
  eapply rtc_l; [by apply (step_xchg_exit 1 _ 1)|]. simpl.
  apply rtc_refl.
Qed.
