(* ===== verification/ListSpec.v ===== *)
(** The abstract specification of the intrusive lists of include/wmc/__list.h.

    A node of a [List_2] records the list it is in ([__list]); the abstract store
    is that owner map together with the sequence of nodes of each list. The
    kernel's components run on this specification; the file WmcList proves that
    the pointer code implements it. [K] names the lists (a run queue, a size
    class of the allocator, ...), nodes are named by integers. *)

From S2P Require Import Prelude.

Section lstore.
Context {K : Type} `{Countable K}.

Record lstore := mkLstore {
  ls_lists : gmap K (list Z);
  ls_owner : gmap Z K;
}.

Implicit Types (ls : lstore) (l : K) (n : Z).

(** The nodes of a list from begin() to end(). *)
Definition ls_get ls l : list Z := default [] (ls_lists ls !! l).
Definition ls_size ls l : Z := Z.of_nat (length (ls_get ls l)).

(** List::init. *)
Definition ls_init l ls : lstore := mkLstore (<[l := []]> (ls_lists ls)) (ls_owner ls).

(** ListNode::is_free and ListNode::init / set_free. *)
Definition ls_is_free n ls : bool := bool_decide (ls_owner ls !! n = None).
Definition ls_node_init n ls : lstore := mkLstore (ls_lists ls) (delete n (ls_owner ls)).

(** Insertion before an iterator: [Some p] is a node, [None] is end(). *)
Fixpoint ins_before (pos : option Z) n (xs : list Z) : list Z :=
  match xs with
  | [] => [n]
  | x :: xs' => if bool_decide (pos = Some x) then n :: x :: xs' else x :: ins_before pos n xs'
  end.

(** List::insert; false is error(). *)
Definition ls_insert l (pos : option Z) n ls : bool * lstore :=
  if ls_is_free n ls then
    (true, mkLstore (<[l := ins_before pos n (ls_get ls l)]> (ls_lists ls))
                    (<[n := l]> (ls_owner ls)))
  else (false, ls).

(** List::erase of a node, error() for a node of no list or of another list. *)
Definition ls_erase l n ls : bool * lstore :=
  if bool_decide (ls_owner ls !! n = Some l) then
    (true, mkLstore (<[l := filter (.≠ n) (ls_get ls l)]> (ls_lists ls))
                    (delete n (ls_owner ls)))
  else (false, ls).

Definition ls_front ls l : option Z := head (ls_get ls l).
Definition ls_back ls l : option Z := last (ls_get ls l).

Definition ls_push_front l n ls := ls_insert l (ls_front ls l) n ls.
Definition ls_push_back l n ls := ls_insert l None n ls.
(** erase(begin()) of an empty list meets the sentinel and fails. *)
Definition ls_pop_front l ls : bool * lstore :=
  match ls_front ls l with Some n => ls_erase l n ls | None => (false, ls) end.
Definition ls_pop_back l ls : bool * lstore :=
  match ls_back ls l with Some n => ls_erase l n ls | None => (false, ls) end.

(** Every list is duplicate free and the owner map is its membership. *)
Definition ls_wf ls : Prop :=
  (forall l, NoDup (ls_get ls l)) /\
  (forall l n, n ∈ ls_get ls l <-> ls_owner ls !! n = Some l).

(** ** Laws *)

Lemma ls_get_insert ls l xs o : ls_get (mkLstore (<[l := xs]> (ls_lists ls)) o) l = xs.
Proof. unfold ls_get; simpl. by rewrite lookup_insert_eq. Qed.

Lemma ls_get_insert_ne ls l l' xs o :
  l <> l' -> ls_get (mkLstore (<[l := xs]> (ls_lists ls)) o) l' = ls_get ls l'.
Proof. intros. unfold ls_get; simpl. by rewrite lookup_insert_ne. Qed.

Lemma ins_before_perm pos n xs : ins_before pos n xs ≡ₚ n :: xs.
Proof.
  induction xs as [|x xs IH]; simpl; [done|].
  case_bool_decide; [done|]. rewrite IH. apply Permutation_swap.
Qed.

Lemma ins_before_None n xs : ins_before None n xs = xs ++ [n].
Proof. induction xs as [|x xs IH]; simpl; [done|]. by rewrite IH. Qed.

Lemma ins_before_mid n p xs ys :
  p ∉ xs -> ins_before (Some p) n (xs ++ p :: ys) = xs ++ n :: p :: ys.
Proof.
  induction xs as [|x xs IH]; simpl; intros Hp.
  - by rewrite bool_decide_true.
  - rewrite bool_decide_false by set_solver. rewrite IH by set_solver. done.
Qed.

Lemma ins_before_head n xs : ins_before (head xs) n xs = n :: xs.
Proof. destruct xs; simpl; [done|]. by rewrite bool_decide_true. Qed.

Lemma ls_wf_empty : ls_wf (mkLstore ∅ ∅).
Proof.
  split; intros; unfold ls_get; simpl; rewrite !lookup_empty; simpl.
  - constructor.
  - set_solver.
Qed.

Lemma ls_wf_init l ls : ls_wf ls -> ls_get ls l = [] -> ls_wf (ls_init l ls).
Proof.
  intros [Hnd Hown] Hg.
  assert (Hs : forall l', ls_get (ls_init l ls) l' = ls_get ls l').
  { intros l'. unfold ls_init. destruct (decide (l = l')) as [<-|Hne].
    - by rewrite ls_get_insert, Hg.
    - by rewrite ls_get_insert_ne. }
  split; intros; rewrite Hs; [apply Hnd|apply Hown].
Qed.

Lemma ls_owner_free ls n : ls_is_free n ls = true <-> ls_owner ls !! n = None.
Proof. unfold ls_is_free. by rewrite bool_decide_eq_true. Qed.

(** Any sequence with one free node more, at any position. *)
Lemma ls_wf_insert_mid ls l n ys zs :
  ls_wf ls -> ls_owner ls !! n = None -> ls_get ls l = ys ++ zs ->
  ls_wf (mkLstore (<[l := ys ++ n :: zs]> (ls_lists ls)) (<[n := l]> (ls_owner ls))).
Proof.
  intros [Hnd Hown] Hf Hg.
  assert (Hn : forall l', n ∉ ls_get ls l').
  { intros l' Hin%Hown. congruence. }
  assert (Hp : ys ++ n :: zs ≡ₚ n :: ls_get ls l).
  { rewrite Hg. symmetry. apply Permutation_middle. }
  split.
  - intros l'. destruct (decide (l = l')) as [<-|Hne].
    + rewrite ls_get_insert, Hp. by constructor.
    + by rewrite ls_get_insert_ne.
  - intros l' m. simpl. destruct (decide (l = l')) as [<-|Hne].
    + rewrite ls_get_insert, Hp.
      destruct (decide (n = m)) as [<-|Hnm]; simplify_map_eq; [set_solver|].
      rewrite elem_of_cons, Hown. naive_solver.
    + rewrite ls_get_insert_ne by done.
      destruct (decide (n = m)) as [<-|Hnm]; simplify_map_eq; [|apply Hown].
      split; [by intros ?%Hn|naive_solver].
Qed.

Lemma ins_before_app pos n (xs : list Z) :
  exists ys zs, xs = ys ++ zs /\ ins_before pos n xs = ys ++ n :: zs.
Proof.
  induction xs as [|x xs (ys & zs & -> & IH)]; simpl; [by exists [], []|].
  case_bool_decide; [by eexists [], _|]. rewrite IH. by exists (x :: ys), zs.
Qed.

Lemma ls_insert_wf l pos n ls : ls_wf ls -> ls_wf (ls_insert l pos n ls).2.
Proof.
  intros Hwf. unfold ls_insert. destruct (ls_is_free n ls) eqn:Hf; simpl; [|done].
  apply bool_decide_eq_true in Hf.
  destruct (ins_before_app pos n (ls_get ls l)) as (ys & zs & Hg & ->).
  by apply ls_wf_insert_mid.
Qed.

Lemma ls_erase_wf l n ls : ls_wf ls -> ls_wf (ls_erase l n ls).2.
Proof.
  intros [Hnd Hown]. unfold ls_erase. case_bool_decide as Hn; simpl; [|done].
  split.
  - intros l'. destruct (decide (l = l')) as [<-|Hne].
    + rewrite ls_get_insert. by apply NoDup_filter.
    + by rewrite ls_get_insert_ne.
  - intros l' m. simpl. destruct (decide (l = l')) as [<-|Hne].
    + rewrite ls_get_insert, list_elem_of_filter, Hown.
      destruct (decide (n = m)) as [<-|Hnm]; simplify_map_eq; naive_solver.
    + rewrite ls_get_insert_ne by done. rewrite Hown.
      destruct (decide (n = m)) as [<-|Hnm]; simplify_map_eq; naive_solver.
Qed.

Lemma ls_front_owner ls l n : ls_wf ls -> ls_front ls l = Some n -> ls_owner ls !! n = Some l.
Proof.
  intros [_ Hown] Hf. apply Hown. unfold ls_front in Hf.
  destruct (ls_get ls l); simplify_eq/=. set_solver.
Qed.

Lemma ls_pop_front_wf l ls : ls_wf ls -> ls_wf (ls_pop_front l ls).2.
Proof. intros. unfold ls_pop_front. destruct (ls_front ls l); [by apply ls_erase_wf|done]. Qed.

Lemma filter_ne_notin n (xs : list Z) : n ∉ xs -> filter (.≠ n) xs = xs.
Proof.
  intros Hn. induction xs as [|y ys IHy]; [done|].
  rewrite filter_cons_True by set_solver. by rewrite IHy by set_solver.
Qed.

Lemma filter_ne_cons n (xs : list Z) : NoDup (n :: xs) -> filter (.≠ n) (n :: xs) = xs.
Proof.
  intros [Hn _]%NoDup_cons. rewrite filter_cons_False by naive_solver.
  by apply filter_ne_notin.
Qed.

Lemma filter_ne_mid n (xs ys : list Z) :
  NoDup (xs ++ n :: ys) -> filter (.≠ n) (xs ++ n :: ys) = xs ++ ys.
Proof.
  intros Hnd. rewrite filter_app.
  apply NoDup_app in Hnd as (_ & Hd & Hnd).
  rewrite (filter_ne_cons n ys) by done. rewrite filter_ne_notin; [done|].
  intros Hin%Hd. set_solver.
Qed.

(** push then look: the queue discipline clients rely on. *)
Lemma ls_push_back_get l n ls :
  ls_is_free n ls = true ->
  ls_push_back l n ls =
    (true, mkLstore (<[l := ls_get ls l ++ [n]]> (ls_lists ls)) (<[n := l]> (ls_owner ls))).
Proof. intros Hf. unfold ls_push_back, ls_insert. by rewrite Hf, ins_before_None. Qed.

Lemma ls_push_front_get l n ls :
  ls_is_free n ls = true ->
  ls_push_front l n ls =
    (true, mkLstore (<[l := n :: ls_get ls l]> (ls_lists ls)) (<[n := l]> (ls_owner ls))).
Proof.
  intros Hf. unfold ls_push_front, ls_insert, ls_front. by rewrite Hf, ins_before_head.
Qed.

Lemma ls_pop_front_get l n xs ls :
  ls_wf ls -> ls_get ls l = n :: xs ->
  ls_pop_front l ls =
    (true, mkLstore (<[l := xs]> (ls_lists ls)) (delete n (ls_owner ls))).
Proof.
  intros [Hnd Hown] Hg. unfold ls_pop_front, ls_front. rewrite Hg; simpl.
  unfold ls_erase. rewrite bool_decide_true by (apply Hown; rewrite Hg; set_solver).
  rewrite Hg, filter_ne_cons; [done|]. rewrite <- Hg. apply Hnd.
Qed.

Lemma ls_insert_owner_other l pos n ls m :
  m <> n -> ls_owner (ls_insert l pos n ls).2 !! m = ls_owner ls !! m.
Proof.
  intros. unfold ls_insert. destruct (ls_is_free n ls); simpl; [|done].
  by rewrite lookup_insert_ne.
Qed.

(** Membership after an insertion or an erasure. *)
Lemma ls_insert_free l pos n ls :
  ls_owner ls !! n = None -> ls_insert l pos n ls = (true, (ls_insert l pos n ls).2).
Proof. intros Hf%ls_owner_free. unfold ls_insert. by rewrite Hf. Qed.

Lemma ls_insert_elem l pos n ls x l' :
  ls_owner ls !! n = None ->
  x ∈ ls_get (ls_insert l pos n ls).2 l' <-> x ∈ ls_get ls l' \/ (x = n /\ l' = l).
Proof.
  intros Hf%ls_owner_free. unfold ls_insert. rewrite Hf. simpl. destruct (decide (l = l')) as [<-|Hne].
  - rewrite ls_get_insert, ins_before_perm, elem_of_cons. naive_solver.
  - rewrite ls_get_insert_ne by done. naive_solver.
Qed.

Lemma ls_erase_owned l n ls :
  ls_owner ls !! n = Some l -> ls_erase l n ls = (true, (ls_erase l n ls).2).
Proof. intros Hl. unfold ls_erase. by rewrite bool_decide_true. Qed.

Lemma ls_erase_elem l n ls x l' :
  ls_wf ls -> ls_owner ls !! n = Some l ->
  x ∈ ls_get (ls_erase l n ls).2 l' <-> x ∈ ls_get ls l' /\ x <> n.
Proof.
  intros [_ Hown] Hl. unfold ls_erase. rewrite bool_decide_true by done. simpl.
  destruct (decide (l = l')) as [<-|Hne].
  - rewrite ls_get_insert, list_elem_of_filter. naive_solver.
  - rewrite ls_get_insert_ne by done. split; [|naive_solver]. intros Hx. split; [done|].
    intros ->. apply Hown in Hx. congruence.
Qed.

Lemma ls_node_init_free n ls : ls_owner ls !! n = None -> ls_node_init n ls = ls.
Proof. intros Hn. unfold ls_node_init. rewrite delete_id by done. by destruct ls. Qed.
End lstore.

Arguments lstore K {_ _} : assert.
