(* ===== verification/WmcList.v ===== *)
(** The pointer implementation of the intrusive doubly linked lists
    (include/wmc/__list.h, compiled with NODE_LIST_LINK: [List_2]).

    Memory is a map from node addresses to their three words. A list is named
    by the address of its sentinel node [__] (the C++ object and its sentinel
    are at a constant offset of each other), so [end()] is that address; NULL
    and [error()] are 0. The refinement theorems at the end state that these
    pointer manipulations implement the operations of ListSpec. *)

From S2P Require Import Prelude ListSpec.

(** struct ListNode. *)
Record ListNode := mkListNode { __prev : Z; __next : Z; __list : Z }.

(** All nodes, sentinels included, and the [__size] of every list. *)
Record heap := mkHeap { nodes : gmap Z ListNode; sizes : gmap Z Z }.

Definition rd (n : Z) : M heap ListNode := h ← get; deref (nodes h !! n).
Definition wr (n : Z) (f : ListNode -> ListNode) : M heap unit :=
  nd ← rd n; modify (fun h => mkHeap (<[n := f nd]> (nodes h)) (sizes h)).
Definition set_prev (p : Z) (nd : ListNode) := mkListNode p (__next nd) (__list nd).
Definition set_next (p : Z) (nd : ListNode) := mkListNode (__prev nd) p (__list nd).
Definition set_list (l : Z) (nd : ListNode) := mkListNode (__prev nd) (__next nd) l.
Definition add_size (l d : Z) : M heap unit :=
  h ← get; sz ← deref (sizes h !! l);
  put (mkHeap (nodes h) (<[l := u32 (sz + d)]> (sizes h))).

(** ** ListNode *)

Definition node_init (n : Z) : M heap unit :=
  modify (fun h => mkHeap (<[n := mkListNode NULL NULL NULL]> (nodes h)) (sizes h)).
Definition is_free (n : Z) : M heap bool := nd ← rd n; mret (__list nd =? NULL).
Definition set_free (n : Z) : M heap unit := wr n (set_list NULL).

(** ** ListIterator *)

Definition iter_incr (i : Z) : M heap Z := nd ← rd i; mret (__next nd).
Definition iter_decr (i : Z) : M heap Z := nd ← rd i; mret (__prev nd).

(** operator- and operator+: step [n] times, stopping at end(). *)
Fixpoint iter_minus (i : Z) (n : nat) : M heap Z :=
  match n with
  | O => mret i
  | S n' =>
      t ← iter_decr i; nd ← rd t;
      if t =? __list nd then mret t else iter_minus t n'
  end.
Fixpoint iter_plus (i : Z) (n : nat) : M heap Z :=
  match n with
  | O => mret i
  | S n' =>
      t ← iter_incr i; nd ← rd t;
      if t =? __list nd then mret t else iter_plus t n'
  end.

(** ** List *)

Definition list_init (l : Z) : M heap unit :=
  modify (fun h => mkHeap (<[l := mkListNode l l l]> (nodes h)) (<[l := 0]> (sizes h))).

Definition insert (l pos n : Z) : M heap Z :=
  b ← is_free n;
  if negb b then mret NULL else
  wr n (set_list l) ;;
  wr n (set_next pos) ;;
  ndpos ← rd pos; wr n (set_prev (__prev ndpos)) ;;
  nd ← rd n; wr (__prev nd) (set_next n) ;;
  wr pos (set_prev n) ;;
  add_size l 1 ;;
  mret n.

Definition erase (l pos : Z) : M heap Z :=
  if pos =? l then mret NULL else
  nd ← rd pos;
  if negb (__list nd =? l) then mret NULL else
  wr (__prev nd) (set_next (__next nd)) ;;
  nd1 ← rd pos; wr (__next nd1) (set_prev (__prev nd1)) ;;
  nd2 ← rd pos;
  set_free pos ;;
  add_size l (-1) ;;
  mret (__next nd2).

Definition size (l : Z) : M heap Z := h ← get; deref (sizes h !! l).
Definition begin (l : Z) : M heap Z := nd ← rd l; mret (__next nd).
Definition end_ (l : Z) : Z := l.
Definition front (l : Z) : M heap Z := nd ← rd l; mret (__next nd).
Definition back (l : Z) : M heap Z := nd ← rd l; mret (__prev nd).

Definition push_front (l n : Z) : M heap bool :=
  b ← begin l; r ← insert l b n; mret (negb (r =? NULL)).
Definition push_back (l n : Z) : M heap bool :=
  r ← insert l (end_ l) n; mret (negb (r =? NULL)).
Definition pop_front (l : Z) : M heap bool :=
  b ← begin l; r ← erase l b; mret (negb (NULL =? r)).
Definition pop_back (l : Z) : M heap bool :=
  e ← iter_minus (end_ l) 1; r ← erase l e; mret (negb (NULL =? r)).

(** * Representation *)

(** Membership in explicit lists, ignoring the rest of the context. *)
Ltac in_list :=
  repeat match goal with H : forall _, _ |- _ => clear H end;
  simpl in *; repeat (progress rewrite ?elem_of_app, ?elem_of_cons, ?elem_of_nil in *); tauto.

Section segments.
(** [nx] and [pv] are the next and previous pointers stored in memory. *)
Implicit Types (nx pv : Z -> option Z) (xs ys : list Z).

Fixpoint seg nx pv (a : Z) xs (b : Z) : Prop :=
  match xs with
  | [] => nx a = Some b /\ pv b = Some a
  | x :: xs' => nx a = Some x /\ pv x = Some a /\ seg nx pv x xs' b
  end.

Lemma seg_app nx pv a xs y ys b :
  seg nx pv a (xs ++ y :: ys) b <-> seg nx pv a xs y /\ seg nx pv y ys b.
Proof.
  revert a. induction xs as [|x xs IH]; intros a; simpl; [tauto|]. rewrite IH. tauto.
Qed.

Lemma seg_last nx pv a xs b : seg nx pv a xs b -> pv b = Some (default a (last xs)).
Proof.
  revert a. induction xs as [|x xs IH]; intros a; simpl; [tauto|].
  intros (_ & _ & Hs%IH). rewrite Hs. change (match xs with [] => _ | _ => _ end) with (last (x :: xs)).
  rewrite last_cons. by destruct (last xs).
Qed.

Lemma seg_first nx pv a xs b : seg nx pv a xs b -> nx a = Some (default b (head xs)).
Proof. destruct xs; simpl; tauto. Qed.

Lemma seg_frame nx pv nx' pv' a xs b :
  seg nx pv a xs b ->
  (forall y, y ∈ a :: xs -> nx' y = nx y) ->
  (forall y, y ∈ xs ++ [b] -> pv' y = pv y) ->
  seg nx' pv' a xs b.
Proof.
  revert a. induction xs as [|x xs IH]; intros a; simpl.
  - intros [Hn Hp] Hn' Hp'. rewrite Hn', Hp' by in_list. done.
  - intros (Hn & Hp & Hs) Hn' Hp'.
    split_and!; [rewrite Hn' by in_list; done|rewrite Hp' by in_list; done|].
    apply IH; [done|intros; apply Hn'; in_list|intros; apply Hp'; in_list].
Qed.

(** Redirecting the last link of a segment. *)
Lemma seg_retarget nx pv nx' pv' a xs b c :
  seg nx pv a xs b -> NoDup (a :: xs) ->
  (forall y, y ∈ a :: xs -> y <> default a (last xs) -> nx' y = nx y) ->
  (forall y, y ∈ xs -> pv' y = pv y) ->
  nx' (default a (last xs)) = Some c -> pv' c = Some (default a (last xs)) ->
  seg nx' pv' a xs c.
Proof.
  revert a. induction xs as [|x xs IH]; intros a; simpl; [done|].
  intros (Hn & Hp & Hs) Hnd Hn' Hp' Hlast Hc.
  assert (Heq : default a (last (x :: xs)) = default x (last xs)).
  { rewrite last_cons. by destruct (last xs). }
  simpl in Heq. rewrite Heq in *.
  assert (Hin : default x (last xs) ∈ x :: xs).
  { destruct (last xs) as [z|] eqn:Hz; simpl; [|in_list].
    apply last_Some_elem_of in Hz. in_list. }
  apply NoDup_cons in Hnd as [Hax Hnd].
  split_and!.
  - rewrite Hn'; [done|in_list|]. intros Ha. rewrite Ha in Hax. done.
  - rewrite Hp' by in_list. done.
  - apply IH; try done.
    + intros y Hy Hne. apply Hn'; [in_list|done].
    + intros y Hy. apply Hp'. in_list.
Qed.

(** Redirecting the first link of a segment. *)
Lemma seg_resource nx pv nx' pv' a c xs b :
  seg nx pv a xs b -> NoDup (xs ++ [b]) ->
  (forall y, y ∈ xs -> nx' y = nx y) ->
  (forall y, y ∈ xs ++ [b] -> y <> default b (head xs) -> pv' y = pv y) ->
  nx' c = Some (default b (head xs)) -> pv' (default b (head xs)) = Some c ->
  seg nx' pv' c xs b.
Proof.
  destruct xs as [|x xs]; simpl; [done|].
  intros (Hn & Hp & Hs) [Hx Hnd]%NoDup_cons Hn' Hp' Hc Hx'.
  split_and!; [done|done|].
  eapply seg_frame; [exact Hs| |].
  - intros y Hy. apply Hn'. done.
  - intros y Hy. apply Hp'; [in_list|]. intros ->. done.
Qed.
End segments.

Definition nx_of (h : heap) (a : Z) : option Z := __next <$> nodes h !! a.
Definition pv_of (h : heap) (a : Z) : option Z := __prev <$> nodes h !! a.
Definition ls_of (h : heap) (a : Z) : option Z := __list <$> nodes h !! a.

(** The heap represents the abstract store [ls]. *)
Record repr (h : heap) (ls : lstore Z) : Prop := mkRepr {
  repr_wf : ls_wf ls;
  repr_seg : forall l xs, ls_lists ls !! l = Some xs -> seg (nx_of h) (pv_of h) l xs l;
  repr_size : forall l xs, ls_lists ls !! l = Some xs ->
    sizes h !! l = Some (u32 (Z.of_nat (length xs)));
  repr_sentinel : forall l, is_Some (ls_lists ls !! l) ->
    l <> NULL /\ ls_of h l = Some l /\ ls_owner ls !! l = None;
  repr_owner : forall n l, ls_owner ls !! n = Some l -> is_Some (ls_lists ls !! l);
  repr_link : forall n, is_Some (nodes h !! n) -> ls_lists ls !! n = None ->
    ls_of h n = Some (default NULL (ls_owner ls !! n));
  repr_null : nodes h !! NULL = None;
}.

(** * Effects of the pointer operations *)

(** Evaluate lookups in a memory with known updates. *)
Ltac mem_simpl :=
  repeat (m_unfold; cbn [nodes sizes __prev __next __list set_prev set_next set_list]; first
    [ rewrite lookup_insert_eq | rewrite lookup_insert_ne by congruence
    | match goal with H : nodes _ !! _ = Some _ |- _ => rewrite H end
    | match goal with H : sizes _ !! _ = Some _ |- _ => rewrite H end ]);
  m_unfold; cbn [nodes sizes __prev __next __list set_prev set_next set_list].

Ltac field_cases :=
  intros a; unfold nx_of, pv_of, ls_of; cbn [nodes]; rewrite !lookup_insert;
  repeat case_decide; subst; mem_simpl; try done; try congruence.

Lemma insert_run l pos n h ndn ndpos ndpp sz :
  nodes h !! n = Some ndn -> __list ndn = NULL ->
  nodes h !! pos = Some ndpos -> nodes h !! __prev ndpos = Some ndpp ->
  sizes h !! l = Some sz -> pos <> n -> __prev ndpos <> n ->
  exists h', insert l pos n h = Done n h' /\
    (forall a, nx_of h' a = if decide (a = __prev ndpos) then Some n
                            else if decide (a = n) then Some pos else nx_of h a) /\
    (forall a, pv_of h' a = if decide (a = pos) then Some n
                            else if decide (a = n) then Some (__prev ndpos) else pv_of h a) /\
    (forall a, ls_of h' a = if decide (a = n) then Some l else ls_of h a) /\
    sizes h' = <[l := u32 (sz + 1)]> (sizes h).
Proof.
  intros Hn Hfree Hpos Hpp Hsz Hne Hne2.
  unfold insert, is_free, add_size, wr, rd.
  mem_simpl. rewrite Hfree. cbn [Z.eqb NULL negb]. mem_simpl.
  destruct (decide (__prev ndpos = pos)) as [He|He].
  - rewrite He in Hpp |- *. assert (ndpp = ndpos) as -> by congruence. mem_simpl.
    eexists; split; [reflexivity|]. split_and!; [..|done]; field_cases.
  - mem_simpl. eexists; split; [reflexivity|]. split_and!; [..|done]; field_cases.
Qed.

Lemma erase_run l pos h nd ndp ndx sz :
  nodes h !! pos = Some nd -> __list nd = l -> pos <> l ->
  nodes h !! __prev nd = Some ndp -> nodes h !! __next nd = Some ndx ->
  sizes h !! l = Some sz -> __prev nd <> pos -> __next nd <> pos ->
  exists h', erase l pos h = Done (__next nd) h' /\
    (forall a, nx_of h' a = if decide (a = __prev nd) then Some (__next nd) else nx_of h a) /\
    (forall a, pv_of h' a = if decide (a = __next nd) then Some (__prev nd) else pv_of h a) /\
    (forall a, ls_of h' a = if decide (a = pos) then Some NULL else ls_of h a) /\
    sizes h' = <[l := u32 (sz + -1)]> (sizes h).
Proof.
  intros Hpos Hl Hne Hp Hx Hsz Hnp Hnx.
  unfold erase, set_free, add_size, wr, rd.
  rewrite (proj2 (Z.eqb_neq _ _) Hne). mem_simpl. rewrite Hl, Z.eqb_refl. mem_simpl.
  destruct (decide (__prev nd = __next nd)) as [He|He].
  - rewrite He in Hp |- *. assert (ndx = ndp) as -> by congruence. mem_simpl.
    eexists; split; [reflexivity|]. split_and!; [..|done]; field_cases.
  - mem_simpl. eexists; split; [reflexivity|]. split_and!; [..|done]; field_cases.
Qed.

(** * Refinement *)

Lemma ls_get_some (ls : lstore Z) l xs : ls_lists ls !! l = Some xs -> ls_get ls l = xs.
Proof. unfold ls_get. by intros ->. Qed.

Section repr_facts.
Context (h : heap) (ls : lstore Z) (R : repr h ls).

Lemma repr_NoDup l xs : ls_lists ls !! l = Some xs -> NoDup (l :: xs).
Proof using R.
  intros Hl. apply NoDup_cons. split.
  - intros Hin. pose proof (repr_sentinel _ _ R l ltac:(eauto)) as (_ & _ & Ho).
    rewrite <- (ls_get_some _ _ _ Hl) in Hin.
    apply (proj2 (repr_wf _ _ R)) in Hin. congruence.
  - rewrite <- (ls_get_some _ _ _ Hl). apply (proj1 (repr_wf _ _ R)).
Qed.

Lemma repr_owner_in l xs y :
  ls_lists ls !! l = Some xs -> y ∈ xs <-> ls_owner ls !! y = Some l.
Proof using R. intros Hl. rewrite <- (ls_get_some _ _ _ Hl). apply (repr_wf _ _ R). Qed.

Lemma repr_free_out l xs y :
  ls_lists ls !! l = Some xs -> ls_owner ls !! y = None -> ls_lists ls !! y = None ->
  y ∉ l :: xs.
Proof using R.
  intros Hl Ho Hs [->|Hin]%elem_of_cons; [congruence|].
  apply (repr_owner_in l) in Hin; [congruence|done].
Qed.

Lemma repr_disjoint l xs l' xs' y :
  ls_lists ls !! l = Some xs -> ls_lists ls !! l' = Some xs' -> l <> l' ->
  y ∈ l :: xs -> y ∉ l' :: xs'.
Proof using R.
  intros Hl Hl' Hne Hy Hy'.
  pose proof (repr_sentinel _ _ R l ltac:(eauto)) as (_ & _ & Ho).
  pose proof (repr_sentinel _ _ R l' ltac:(eauto)) as (_ & _ & Ho').
  apply elem_of_cons in Hy as [->|Hy%(repr_owner_in l)];
    apply elem_of_cons in Hy' as [->|Hy'%(repr_owner_in l')]; congruence.
Qed.
End repr_facts.

Lemma seg_cut nx pv l xs ys :
  seg nx pv l (xs ++ ys) l -> seg nx pv l xs (default l (head ys)).
Proof. destruct ys as [|y ys]; simpl; [by rewrite app_nil_r|]. intros [? _]%seg_app. done. Qed.

Lemma seg_glue nx pv l xs n ys :
  seg nx pv l xs n -> seg nx pv n ys l -> seg nx pv l (xs ++ n :: ys) l.
Proof. intros. by apply seg_app. Qed.

Lemma seg_tail nx pv l xs ys :
  seg nx pv l (xs ++ ys) l -> seg nx pv (default l (last xs)) ys l.
Proof.
  destruct xs as [|x xs _] using rev_ind; [done|].
  rewrite last_snoc, <- app_assoc; simpl. by intros [_ ?]%seg_app.
Qed.

Lemma seg_next_last nx pv a xs b : seg nx pv a xs b -> nx (default a (last xs)) = Some b.
Proof.
  revert a. induction xs as [|x xs IH]; intros a; simpl; [tauto|].
  intros (_ & _ & Hs%IH). change (match xs with [] => _ | _ => _ end) with (last (x :: xs)).
  rewrite last_cons. by destruct (last xs).
Qed.

Lemma default_last_in (a : Z) xs : default a (last xs) ∈ a :: xs.
Proof.
  destruct (last xs) eqn:E; simpl; [|by left]. apply last_Some_elem_of in E. by right.
Qed.
Lemma default_head_in (b : Z) xs : default b (head xs) ∈ b :: xs.
Proof. destruct xs; simpl; set_solver. Qed.

(** An iterator position splits the sequence. *)
Lemma ins_before_split l pos n (xs : list Z) :
  match pos with Some p => p ∈ xs | None => True end -> NoDup xs ->
  exists ys zs, xs = ys ++ zs /\ default l (head zs) = default l pos
                /\ ins_before pos n xs = ys ++ n :: zs.
Proof.
  destruct pos as [p|]; intros Hp Hnd.
  - apply list_elem_of_split in Hp as (ys & zs & ->).
    exists ys, (p :: zs). split_and!; [done..|]. apply ins_before_mid.
    apply NoDup_app in Hnd as (_ & Hd & _). intros Hin%Hd. set_solver.
  - exists xs, []. rewrite app_nil_r, ins_before_None. done.
Qed.

Lemma field_some {B} (f : ListNode -> B) h a b :
  f <$> nodes h !! a = Some b -> exists nd, nodes h !! a = Some nd /\ f nd = b.
Proof. intros (nd & ? & ?)%fmap_Some. eauto. Qed.

Lemma node_exists_ls h a : is_Some (nodes h !! a) <-> is_Some (ls_of h a).
Proof. unfold ls_of. by rewrite fmap_is_Some. Qed.

Lemma list_cycle_NoDup (l : Z) ys zs :
  NoDup (l :: ys ++ zs) ->
  NoDup (l :: ys) /\ NoDup (zs ++ [l]) /\ (forall y, y ∈ ys -> y ∉ l :: zs).
Proof.
  intros [Hl (Hy & Hd & Hz)%NoDup_app]%NoDup_cons. split_and!.
  - apply NoDup_cons. split; [in_list|done].
  - apply NoDup_app. split_and!; [done|set_solver|apply NoDup_singleton].
  - intros y Hyy [->|Hin]%elem_of_cons; [apply Hl; in_list|by apply (Hd y)].
Qed.

Definition same_nodes (h h' : heap) : Prop :=
  forall a, is_Some (nodes h' !! a) <-> is_Some (nodes h !! a).

#[export] Instance same_nodes_preorder : PreOrder same_nodes.
Proof. split; [by intros h a|]. intros h h1 h2 H1 H2 a. by rewrite (H2 a). Qed.

Lemma same_nodes_ls h h' n v :
  (forall a, ls_of h' a = if decide (a = n) then Some v else ls_of h a) ->
  is_Some (nodes h !! n) -> same_nodes h h'.
Proof.
  intros Hls Hn a. rewrite !node_exists_ls, Hls. case_decide as E; [|done]. subst.
  rewrite <- node_exists_ls. split; [done|eauto].
Qed.

(** Only list [l] and the free node [n] were touched. *)
Lemma repr_update h ls h' ls' l xs xs' n :
  repr h ls -> ls_lists ls !! l = Some xs ->
  ls_lists ls' = <[l := xs']> (ls_lists ls) -> ls_wf ls' ->
  ls_lists ls !! n = None -> n <> l -> n <> NULL ->
  (ls_owner ls !! n = None \/ ls_owner ls !! n = Some l) ->
  (forall m, m <> n -> ls_owner ls' !! m = ls_owner ls !! m) ->
  (ls_owner ls' !! n = None \/ ls_owner ls' !! n = Some l) ->
  (forall y, y ∉ l :: xs -> y <> n -> nx_of h' y = nx_of h y /\ pv_of h' y = pv_of h y) ->
  (forall y, y <> n -> ls_of h' y = ls_of h y) ->
  ls_of h' n = Some (default NULL (ls_owner ls' !! n)) ->
  seg (nx_of h') (pv_of h') l xs' l ->
  sizes h' = <[l := u32 (Z.of_nat (length xs'))]> (sizes h) ->
  repr h' ls'.
Proof.
  intros R Hl Hls' Hwf Hn Hnl Hn0 Hon Hom Hon' Hfr Hlf Hln Hseg Hsz.
  assert (Hnout : forall l0 xs0, ls_lists ls !! l0 = Some xs0 -> l0 <> l -> n ∉ l0 :: xs0).
  { intros l0 xs0 H0 Hne [->|Hin]%elem_of_cons; [congruence|].
    apply (repr_owner_in h ls R) with (l := l0) in Hin; [|done]. naive_solver. }
  split.
  - done.
  - intros l0 xs0. rewrite Hls'. destruct (decide (l = l0)) as [<-|Hne].
    { rewrite lookup_insert_eq. by intros [= <-]. }
    rewrite lookup_insert_ne by done. intros H0.
    assert (Hd : forall y, y ∈ l0 :: xs0 -> nx_of h' y = nx_of h y /\ pv_of h' y = pv_of h y).
    { intros y Hy. apply Hfr.
      - by eapply (repr_disjoint h ls R l0 xs0 l xs).
      - intros ->. by eapply Hnout. }
    eapply seg_frame; [by eapply repr_seg|..].
    + intros y Hy. by apply Hd.
    + intros y Hy. apply Hd. set_solver.
  - intros l0 xs0. rewrite Hls', Hsz. destruct (decide (l = l0)) as [<-|Hne].
    + rewrite !lookup_insert_eq. by intros [= <-].
    + rewrite !lookup_insert_ne by done. apply (repr_size _ _ R).
  - intros l0. rewrite Hls', lookup_insert_is_Some'. intros H0.
    assert (is_Some (ls_lists ls !! l0)) as Hs by (destruct H0 as [<-|?]; eauto).
    destruct (repr_sentinel _ _ R _ Hs) as (? & ? & ?).
    assert (l0 <> n) by (intros ->; rewrite Hn in Hs; by destruct Hs).
    rewrite Hlf, Hom by done. done.
  - intros m l0 Hm. rewrite Hls', lookup_insert_is_Some'.
    destruct (decide (m = n)) as [->|Hne]; [left; naive_solver|].
    right. rewrite Hom in Hm by done. by eapply repr_owner.
  - intros m Hm Hlm. destruct (decide (m = n)) as [->|Hne]; [done|].
    rewrite Hlf, Hom by done. apply (repr_link _ _ R).
    + apply node_exists_ls. rewrite <- Hlf by done. by apply node_exists_ls.
    + destruct (decide (m = l)) as [->|?]; rewrite Hls' in Hlm; [by rewrite lookup_insert_eq in Hlm|].
      by rewrite lookup_insert_ne in Hlm.
  - apply eq_None_not_Some. rewrite node_exists_ls, Hlf by done.
    rewrite <- node_exists_ls, (repr_null _ _ R). by intros [].
Qed.

(** Linking a node in. *)
Lemma seg_insert nx pv nx' pv' l ys zs n :
  seg nx pv l (ys ++ zs) l -> NoDup (l :: ys ++ zs) -> n ∉ l :: ys ++ zs ->
  (forall a, nx' a = if decide (a = default l (last ys)) then Some n
                     else if decide (a = n) then Some (default l (head zs)) else nx a) ->
  (forall a, pv' a = if decide (a = default l (head zs)) then Some n
                     else if decide (a = n) then Some (default l (last ys)) else pv a) ->
  seg nx' pv' l (ys ++ n :: zs) l.
Proof.
  intros Hseg Hnd Hn Hnx Hpv.
  pose proof (seg_cut _ _ _ _ _ Hseg) as Hs1. pose proof (seg_tail _ _ _ _ _ Hseg) as Hs2.
  pose proof (default_last_in l ys) as Hpp. pose proof (default_head_in l zs) as Hpa.
  set (pp := default l (last ys)) in *. set (pa := default l (head zs)) in *.
  pose proof (list_cycle_NoDup _ _ _ Hnd) as (Hndy & Hndz & Hdis).
  assert (Hpan : pa <> n) by (intros E; rewrite E in Hpa; apply Hn; in_list).
  assert (Hppn : pp <> n) by (intros E; rewrite E in Hpp; apply Hn; in_list).
  apply seg_glue.
  - eapply seg_retarget; [exact Hs1|done|..]; fold pp.
    + intros y Hy Hne. rewrite Hnx, !decide_False; [done|intros ->; apply Hn; in_list|done].
    + intros y Hy. rewrite Hpv, !decide_False; [done|intros ->; apply Hn; in_list|].
      intros E. apply (Hdis y Hy). rewrite E. done.
    + by rewrite Hnx, decide_True.
    + rewrite Hpv, decide_False by congruence. by rewrite decide_True.
  - eapply seg_resource; [exact Hs2|done|..]; fold pa.
    + intros y Hy. rewrite Hnx, !decide_False; [done|intros ->; apply Hn; in_list|].
      intros E. rewrite E in Hy. apply elem_of_cons in Hpp as [Hpp|Hpp].
      * rewrite Hpp in Hy. apply NoDup_cons in Hnd as [Hl _]. apply Hl. in_list.
      * apply (Hdis pp Hpp). in_list.
    + intros y Hy Hne. rewrite Hpv, !decide_False; [done|intros ->; apply Hn; in_list|done].
    + rewrite Hnx, decide_False by congruence. by rewrite decide_True.
    + by rewrite Hpv, decide_True.
Qed.

(** Linking a node out. *)
Lemma seg_erase nx pv nx' pv' l ys zs n :
  seg nx pv l (ys ++ n :: zs) l -> NoDup (l :: ys ++ n :: zs) ->
  (forall a, nx' a = if decide (a = default l (last ys)) then Some (default l (head zs)) else nx a) ->
  (forall a, pv' a = if decide (a = default l (head zs)) then Some (default l (last ys)) else pv a) ->
  seg nx' pv' l (ys ++ zs) l.
Proof.
  intros [Hs1 Hs2]%seg_app Hnd Hnx Hpv.
  assert (Hnd' : NoDup (l :: ys ++ zs)).
  { eapply sublist_NoDup; [exact Hnd|]. constructor. apply sublist_app; [done|]. by constructor. }
  pose proof (list_cycle_NoDup _ _ _ Hnd') as (Hndy & Hndz & Hdis).
  pose proof (default_last_in l ys) as Hpp. pose proof (default_head_in l zs) as Hpa.
  assert (Hr : seg nx' pv' l ys (default l (head zs))).
  { eapply seg_retarget; [exact Hs1|done|..].
    - intros y Hy Hne. by rewrite Hnx, decide_False.
    - intros y Hy. rewrite Hpv, decide_False; [done|]. intros E. apply (Hdis y Hy). by rewrite E.
    - by rewrite Hnx, decide_True.
    - by rewrite Hpv, decide_True. }
  destruct zs as [|z zs]; simpl in *.
  - by rewrite app_nil_r.
  - apply seg_app. split; [done|]. destruct Hs2 as (_ & _ & Hs2).
    eapply seg_frame; [exact Hs2|..].
    + intros y Hy. rewrite Hnx, decide_False; [done|]. intros E.
      apply elem_of_cons in Hpp as [Hpp|Hpp].
      * apply NoDup_cons in Hnd' as [Hl _]. apply Hl. rewrite <- Hpp, <- E. in_list.
      * apply (Hdis _ Hpp). rewrite <- E. in_list.
    + intros y Hy. rewrite Hpv, decide_False; [done|]. intros ->.
      apply NoDup_cons in Hndz as [Hz _]. done.
Qed.

(** The preconditions under which the C++ code may be called: the list and the
    node exist, the node is no sentinel, the iterator points into the list. *)
Definition insert_pre (h : heap) (ls : lstore Z) (l : Z) (pos : option Z) (n : Z) : Prop :=
  is_Some (ls_lists ls !! l) /\ is_Some (nodes h !! n) /\ ls_lists ls !! n = None /\
  match pos with Some p => p ∈ ls_get ls l | None => True end.

Lemma repr_node_link h ls n :
  repr h ls -> is_Some (nodes h !! n) -> ls_lists ls !! n = None ->
  exists nd, nodes h !! n = Some nd /\ __list nd = default NULL (ls_owner ls !! n).
Proof. intros R Hn Hs. by apply field_some, (repr_link _ _ R). Qed.

Lemma insert_refused h ls l pos n :
  repr h ls -> is_Some (nodes h !! n) -> ls_lists ls !! n = None -> ls_is_free n ls = false ->
  insert l pos n h = Done NULL h.
Proof.
  intros R Hn Hns Hf. destruct (repr_node_link h ls n R Hn Hns) as (nd & Hnd & Hlink).
  unfold ls_is_free in Hf. rewrite bool_decide_eq_false in Hf.
  destruct (ls_owner ls !! n) as [l0|] eqn:Ho; [|done]. simpl in Hlink.
  destruct (repr_sentinel _ _ R l0 (repr_owner _ _ R _ _ Ho)) as (Hl0 & _).
  unfold insert, is_free, rd. mem_simpl. rewrite Hlink, (proj2 (Z.eqb_neq _ _) Hl0).
  by m_unfold.
Qed.

Lemma insert_accepted h ls l xs ys zs n :
  repr h ls -> ls_lists ls !! l = Some xs -> xs = ys ++ zs ->
  is_Some (nodes h !! n) -> ls_lists ls !! n = None -> ls_owner ls !! n = None ->
  exists h', insert l (default l (head zs)) n h = Done n h' /\
    repr h' (mkLstore (<[l := ys ++ n :: zs]> (ls_lists ls)) (<[n := l]> (ls_owner ls))) /\
    same_nodes h h'.
Proof.
  intros R Hl -> Hn Hns Ho. destruct (repr_node_link h ls n R Hn Hns) as (nd & Hnd & Hlink).
  rewrite Ho in Hlink. pose proof (repr_NoDup h ls R l _ Hl) as Hdup.
  pose proof (repr_free_out h ls R l _ n Hl Ho Hns) as Hout.
  pose proof (repr_seg _ _ R l _ Hl) as Hseg.
  pose proof (seg_cut _ _ _ _ _ Hseg) as Hs1.
  pose proof (default_last_in l ys) as Hpp. pose proof (default_head_in l zs) as Hpa.
  destruct (field_some _ _ _ _ (seg_last _ _ _ _ _ Hs1)) as (ndpos & Hndpos & Hprev).
  destruct (field_some _ _ _ _ (seg_next_last _ _ _ _ _ Hs1)) as (ndpp & Hndpp & _).
  rewrite <- Hprev in Hndpp.
  destruct (insert_run l (default l (head zs)) n h nd ndpos ndpp (u32 (Z.of_nat (length (ys ++ zs)))))
    as (h' & Hrun & Hnx & Hpv & Hls & Hsz); [done..|by apply (repr_size _ _ R)| | |].
  { intros E. rewrite E in Hpa. apply Hout. in_list. }
  { rewrite Hprev. intros E. rewrite E in Hpp. apply Hout. in_list. }
  rewrite Hprev in Hnx, Hpv. exists h'. split; [done|].
  split; [|by eapply same_nodes_ls; [exact Hls|]].
  assert (Hnl : n <> l) by (intros ->; apply Hout; in_list).
  eapply (repr_update h ls h' _ l _ (ys ++ n :: zs) n R Hl); simpl; try done.
  - by apply ls_wf_insert_mid; [apply (repr_wf _ _ R)|..|by apply ls_get_some].
  - intros ->. by rewrite (repr_null _ _ R) in Hnd.
  - by left.
  - intros m Hm. by rewrite lookup_insert_ne.
  - right. by rewrite lookup_insert_eq.
  - intros y Hy Hyn. rewrite Hnx, Hpv, !decide_False; try done; intros ->; apply Hy; in_list.
  - intros y Hy. by rewrite Hls, decide_False.
  - by rewrite Hls, decide_True, lookup_insert_eq.
  - by eapply seg_insert.
  - rewrite Hsz. f_equal. rewrite u32_add_l. f_equal. rewrite !length_app. simpl. lia.
Qed.

(** List::insert implements the abstract insertion on every branch: a node
    that is already in a list is refused with error() and nothing changes,
    otherwise it is linked in before the iterator in the list, in its owner
    field and in the size, and every other list of the heap is untouched. *)
Lemma insert_refines h ls l pos n :
  repr h ls -> insert_pre h ls l pos n ->
  exists h', insert l (default l pos) n h =
               Done (if (ls_insert l pos n ls).1 then n else NULL) h'
             /\ repr h' (ls_insert l pos n ls).2 /\ same_nodes h h'.
Proof.
  intros R ([xs Hl] & Hn & Hns & Hpos). unfold ls_insert.
  destruct (ls_is_free n ls) eqn:Hf; simpl.
  2:{ exists h. split; [by eapply insert_refused|]. split; [done|reflexivity]. }
  rewrite (ls_get_some _ _ _ Hl) in Hpos |- *.
  pose proof (repr_NoDup h ls R l xs Hl) as [_ Hnd]%NoDup_cons.
  destruct (ins_before_split l pos n xs Hpos Hnd) as (ys & zs & Hxs & Hhd & Hins).
  rewrite <- Hhd, Hins. apply (insert_accepted h ls l xs ys zs n); try done.
  by apply ls_owner_free.
Qed.

Definition erase_pre (h : heap) (ls : lstore Z) (l n : Z) : Prop :=
  is_Some (ls_lists ls !! l) /\ is_Some (nodes h !! n) /\ ls_lists ls !! n = None.

(** The node after [n] in its list, end() for the last one. *)
Fixpoint succ_in (l n : Z) (xs : list Z) : Z :=
  match xs with
  | [] => l
  | x :: xs' => if x =? n then default l (head xs') else succ_in l n xs'
  end.

Lemma succ_in_mid l n ys zs : n ∉ ys -> succ_in l n (ys ++ n :: zs) = default l (head zs).
Proof.
  induction ys as [|y ys IH]; simpl; intros Hn.
  - by rewrite Z.eqb_refl.
  - destruct (Z.eqb_spec y n) as [->|]; [set_solver|]. apply IH. set_solver.
Qed.

Lemma member_not_null h ls l xs y :
  repr h ls -> ls_lists ls !! l = Some xs -> y ∈ l :: xs -> y <> NULL.
Proof.
  intros R Hl Hy ->. assert (is_Some (nodes h !! NULL)) as [nd Hnd].
  - apply elem_of_cons in Hy as [<-|Hy].
    + destruct (repr_sentinel _ _ R _ ltac:(eauto)) as (_ & Hls & _).
      apply node_exists_ls. eauto.
    + pose proof (repr_seg _ _ R _ _ Hl) as Hseg.
      apply list_elem_of_split in Hy as (ys & zs & ->).
      apply seg_app in Hseg as [Hseg%seg_last _].
      apply field_some in Hseg as (nd & ? & _). eauto.
  - rewrite (repr_null _ _ R) in Hnd. done.
Qed.

Lemma erase_accepted h ls l ys zs n :
  repr h ls -> ls_lists ls !! l = Some (ys ++ n :: zs) ->
  exists h', erase l n h = Done (default l (head zs)) h' /\
    repr h' (mkLstore (<[l := ys ++ zs]> (ls_lists ls)) (delete n (ls_owner ls))) /\
    same_nodes h h'.
Proof.
  intros R Hl. pose proof (repr_NoDup h ls R l _ Hl) as Hdup.
  pose proof (repr_seg _ _ R l _ Hl) as Hseg. pose proof Hseg as [Hs1 Hs2]%seg_app.
  assert (Ho : ls_owner ls !! n = Some l) by (eapply repr_owner_in; [done..|in_list]).
  assert (Hns : ls_lists ls !! n = None).
  { destruct (ls_lists ls !! n) eqn:E; [|done].
    destruct (repr_sentinel _ _ R n ltac:(eauto)) as (_ & _ & ?). congruence. }
  destruct (field_some _ _ _ _ (seg_last _ _ _ _ _ Hs1)) as (nd & Hnd & Hprev).
  destruct (field_some _ _ _ _ (seg_first _ _ _ _ _ Hs2)) as (nd' & Hnd' & Hnext).
  assert (nd' = nd) as -> by congruence.
  destruct (field_some _ _ _ _ (seg_next_last _ _ _ _ _ Hs1)) as (ndp & Hndp & _).
  assert (exists ndx, nodes h !! default l (head zs) = Some ndx) as [ndx Hndx].
  { destruct zs as [|z zs]; simpl in *; [destruct Hs2 as [_ Hp]|destruct Hs2 as (_ & Hp & _)];
      apply field_some in Hp as (? & ? & _); eauto. }
  destruct (repr_node_link h ls n R ltac:(eauto) Hns) as (nd2 & Hnd2 & Hlink).
  assert (nd2 = nd) as -> by congruence. rewrite Ho in Hlink. simpl in Hlink.
  assert (Hnl : n <> l) by (intros ->; apply NoDup_cons in Hdup as [Hx _]; apply Hx; in_list).
  pose proof (default_last_in l ys) as Hpp. pose proof (default_head_in l zs) as Hpa.
  assert (Hnin : n ∉ l :: ys ++ zs).
  { apply NoDup_cons in Hdup as [_ Hdup]. rewrite <- Permutation_middle in Hdup.
    apply NoDup_cons in Hdup as [Hx _]. rewrite elem_of_cons. naive_solver. }
  rewrite <- Hprev in Hndp. rewrite <- Hnext in Hndx.
  destruct (erase_run l n h nd ndp ndx (u32 (Z.of_nat (length (ys ++ n :: zs)))))
    as (h' & Hrun & Hnx & Hpv & Hls & Hsz); [done..|by apply (repr_size _ _ R)| | |].
  { rewrite Hprev. intros E. apply Hnin. rewrite <- E. in_list. }
  { rewrite Hnext. intros E. apply Hnin. rewrite <- E. in_list. }
  rewrite Hprev, Hnext in *. exists h'. split; [done|].
  split; [|by eapply same_nodes_ls; [exact Hls|]].
  eapply (repr_update h ls h' _ l _ (ys ++ zs) n R Hl); simpl; try done.
  - pose proof (ls_erase_wf l n ls (repr_wf _ _ R)) as Hwf. unfold ls_erase in Hwf.
    rewrite bool_decide_true, (ls_get_some _ _ _ Hl), filter_ne_mid in Hwf; [done| |done].
    by apply NoDup_cons in Hdup as [_ ?].
  - intros ->. by rewrite (repr_null _ _ R) in Hnd.
  - by right.
  - intros m Hm. by rewrite lookup_delete_ne.
  - left. by rewrite lookup_delete_eq.
  - intros y Hy Hyn. rewrite Hnx, Hpv, !decide_False; try done; intros ->; apply Hy; in_list.
  - intros y Hy. by rewrite Hls, decide_False.
  - by rewrite Hls, decide_True, lookup_delete_eq.
  - by eapply seg_erase.
  - rewrite Hsz. f_equal. rewrite u32_add_l. f_equal. rewrite !length_app. simpl. lia.
Qed.

Lemma erase_refused h ls l n :
  repr h ls -> is_Some (nodes h !! n) -> ls_owner ls !! n <> Some l ->
  l <> NULL -> (n = l \/ ls_lists ls !! n = None) ->
  erase l n h = Done NULL h.
Proof.
  intros R Hn Ho Hl0 Hs. unfold erase, rd. destruct (Z.eqb_spec n l) as [|Hne]; [done|].
  destruct Hs as [|Hs]; [done|].
  destruct (repr_node_link h ls n R Hn Hs) as (nd & Hnd & Hlink).
  mem_simpl. rewrite Hlink. destruct (Z.eqb_spec (default NULL (ls_owner ls !! n)) l) as [E|E].
  - destruct (ls_owner ls !! n); simpl in E; congruence.
  - by m_unfold.
Qed.

(** List::erase implements the abstract removal on every branch: a node of
    another list or of no list is refused with error() and nothing changes,
    otherwise it is unlinked, marked free, the size drops by one, the iterator
    after it is returned, and every other list of the heap is untouched. *)
Lemma erase_refines h ls l n :
  repr h ls -> erase_pre h ls l n ->
  exists h', erase l n h =
               Done (if (ls_erase l n ls).1 then succ_in l n (ls_get ls l) else NULL) h'
             /\ repr h' (ls_erase l n ls).2 /\ same_nodes h h'.
Proof.
  intros R ([xs Hl] & Hn & Hns). unfold ls_erase. case_bool_decide as Ho; simpl.
  - apply (repr_owner_in h ls R l xs n Hl) in Ho as Hin.
    apply list_elem_of_split in Hin as (ys & zs & ->).
    pose proof (repr_NoDup h ls R l _ Hl) as [_ Hnd]%NoDup_cons.
    rewrite (ls_get_some _ _ _ Hl), filter_ne_mid by done.
    rewrite succ_in_mid.
    + by apply erase_accepted.
    + apply NoDup_app in Hnd as (_ & Hd & _). intros Hin%Hd. set_solver.
  - exists h. split; [|split; [done|reflexivity]]. eapply erase_refused; eauto.
    apply (repr_sentinel _ _ R l). eauto.
Qed.

Lemma begin_run h ls l xs :
  repr h ls -> ls_lists ls !! l = Some xs -> begin l h = Done (default l (head xs)) h.
Proof.
  intros R Hl. pose proof (seg_first _ _ _ _ _ (repr_seg _ _ R _ _ Hl)) as Hf.
  apply field_some in Hf as (nd & Hnd & Hf). unfold begin, rd. mem_simpl. by rewrite Hf.
Qed.

Lemma iter_back_run h ls l xs :
  repr h ls -> ls_lists ls !! l = Some xs ->
  iter_minus (end_ l) 1 h = Done (default l (last xs)) h.
Proof.
  intros R Hl. pose proof (repr_seg _ _ R _ _ Hl) as Hseg.
  pose proof (seg_last _ _ _ _ _ Hseg) as Hf. apply field_some in Hf as (nd & Hnd & Hf).
  pose proof (seg_next_last _ _ _ _ _ Hseg) as Hb. apply field_some in Hb as (nb & Hnb & _).
  cbn [iter_minus]. unfold iter_decr, end_, rd. mem_simpl. rewrite Hf. mem_simpl.
  by destruct (_ =? _).
Qed.

(** *** Sequences of operations *)

Inductive list_op :=
| OpInsert (l : Z) (pos : option Z) (n : Z)
| OpErase (l n : Z)
| OpPushFront (l n : Z)
| OpPushBack (l n : Z)
| OpPopFront (l : Z)
| OpPopBack (l : Z).

Definition op_run (o : list_op) : M heap bool :=
  match o with
  | OpInsert l pos n => r ← insert l (default l pos) n; mret (negb (r =? NULL))
  | OpErase l n => r ← erase l n; mret (negb (r =? NULL))
  | OpPushFront l n => push_front l n
  | OpPushBack l n => push_back l n
  | OpPopFront l => pop_front l
  | OpPopBack l => pop_back l
  end.

Definition op_spec (o : list_op) (ls : lstore Z) : bool * lstore Z :=
  match o with
  | OpInsert l pos n => ls_insert l pos n ls
  | OpErase l n => ls_erase l n ls
  | OpPushFront l n => ls_push_front l n ls
  | OpPushBack l n => ls_push_back l n ls
  | OpPopFront l => ls_pop_front l ls
  | OpPopBack l => ls_pop_back l ls
  end.

(** What a caller has to respect; [known] are the allocated nodes. *)
Definition op_pre (known : Z -> Prop) (o : list_op) (ls : lstore Z) : Prop :=
  match o with
  | OpInsert l pos n =>
      is_Some (ls_lists ls !! l) /\ known n /\ ls_lists ls !! n = None /\
      match pos with Some p => p ∈ ls_get ls l | None => True end
  | OpErase l n | OpPushFront l n | OpPushBack l n =>
      is_Some (ls_lists ls !! l) /\ known n /\ ls_lists ls !! n = None
  | OpPopFront l | OpPopBack l => is_Some (ls_lists ls !! l)
  end.

Fixpoint trace_run (os : list list_op) : M heap (list bool) :=
  match os with
  | [] => mret []
  | o :: os' => b ← op_run o; bs ← trace_run os'; mret (b :: bs)
  end.

Fixpoint trace_spec (os : list list_op) (ls : lstore Z) : list bool * lstore Z :=
  match os with
  | [] => ([], ls)
  | o :: os' => let '(b, ls1) := op_spec o ls in
                let '(bs, ls2) := trace_spec os' ls1 in (b :: bs, ls2)
  end.

Fixpoint trace_pre (known : Z -> Prop) (os : list list_op) (ls : lstore Z) : Prop :=
  match os with
  | [] => True
  | o :: os' => op_pre known o ls /\ trace_pre known os' (op_spec o ls).2
  end.

#[export] Instance op_pre_dec known `{!forall n, Decision (known n)} o ls :
  Decision (op_pre known o ls).
Proof. destruct o as [l [p|] n|l n|l n|l n|l|l]; simpl; apply _. Defined.

#[export] Instance trace_pre_dec known `{!forall n, Decision (known n)} os :
  forall ls, Decision (trace_pre known os ls).
Proof. induction os as [|o os IH]; intros ls; simpl; apply _. Defined.

Lemma succ_in_not_null h ls l n :
  repr h ls -> is_Some (ls_lists ls !! l) -> succ_in l n (ls_get ls l) <> NULL.
Proof.
  intros R [xs Hl]. rewrite (ls_get_some _ _ _ Hl).
  assert (Hin : forall ys, (forall y, y ∈ ys -> y ∈ xs) -> succ_in l n ys ∈ l :: xs).
  { induction ys as [|y ys IH]; simpl; intros Hsub; [set_solver|].
    destruct (y =? n); [|apply IH; set_solver].
    destruct ys; simpl; [set_solver|]. apply elem_of_cons. right. apply Hsub. in_list. }
  eapply member_not_null; [done|done|]. by apply Hin.
Qed.

Lemma insert_flag h ls l pos n :
  repr h ls -> insert_pre h ls l pos n ->
  exists h', (r ← insert l (default l pos) n; mret (negb (r =? NULL))) h =
               Done (ls_insert l pos n ls).1 h'
             /\ repr h' (ls_insert l pos n ls).2 /\ same_nodes h h'.
Proof.
  intros R Hpre. destruct (insert_refines h ls l pos n R Hpre) as (h' & Hrun & HR & Hs).
  exists h'. split; [|done]. rewrite (bind_done _ _ _ _ _ Hrun). m_unfold.
  destruct (ls_insert l pos n ls).1; [|done].
  destruct (Z.eqb_spec n NULL) as [->|]; [|done].
  destruct Hpre as (_ & Hn & _). rewrite (repr_null _ _ R) in Hn. by destruct Hn.
Qed.

Lemma erase_flag h ls l n :
  repr h ls -> erase_pre h ls l n ->
  exists h', (r ← erase l n; mret (negb (r =? NULL))) h = Done (ls_erase l n ls).1 h'
             /\ repr h' (ls_erase l n ls).2 /\ same_nodes h h'.
Proof.
  intros R Hpre. destruct (erase_refines h ls l n R Hpre) as (h' & Hrun & HR & Hs).
  exists h'. split; [|done]. rewrite (bind_done _ _ _ _ _ Hrun). m_unfold.
  destruct (ls_erase l n ls).1; [|done].
  destruct (Z.eqb_spec (succ_in l n (ls_get ls l)) NULL) as [E|]; [|done].
  destruct Hpre as (Hl & _). by apply (succ_in_not_null h) in E.
Qed.

(** pop at an iterator that is either end() or an element. *)
Lemma erase_end_flag h ls l xs x :
  repr h ls -> ls_lists ls !! l = Some xs -> (x = head xs \/ x = last xs) ->
  exists h', (r ← erase l (default l x); mret (negb (NULL =? r))) h =
               Done (match x with Some n => ls_erase l n ls | None => (false, ls) end).1 h'
    /\ repr h' (match x with Some n => ls_erase l n ls | None => (false, ls) end).2
    /\ same_nodes h h'.
Proof.
  intros R Hl Hx. destruct x as [n|]; simpl.
  - assert (Hin : n ∈ xs).
    { destruct Hx as [Hx|Hx]; symmetry in Hx.
      - destruct xs; simplify_eq/=. by left.
      - by apply last_Some_elem_of in Hx. }
    assert (Ho : ls_owner ls !! n = Some l) by (by eapply repr_owner_in).
    assert (Hns : ls_lists ls !! n = None).
    { destruct (ls_lists ls !! n) eqn:E; [|done].
      destruct (repr_sentinel _ _ R n ltac:(eauto)) as (_ & _ & ?). congruence. }
    assert (Hk : is_Some (nodes h !! n)).
    { pose proof (repr_seg _ _ R _ _ Hl) as Hseg.
      apply list_elem_of_split in Hin as (ys & zs & ->).
      apply seg_app in Hseg as [Hseg%seg_last _]. apply field_some in Hseg as (? & ? & _). eauto. }
    destruct (erase_flag h ls l n R) as (h' & Hrun & HR); [by split_and!; eauto|].
    exists h'. split; [|done]. rewrite <- Hrun. m_unfold. destruct (erase l n h); [|done].
    by rewrite Z.eqb_sym.
  - exists h. split; [|split; [done|reflexivity]].
    unfold erase. rewrite Z.eqb_refl. by m_unfold.
Qed.

Lemma op_refines h ls o :
  repr h ls -> op_pre (fun n => is_Some (nodes h !! n)) o ls ->
  exists h', op_run o h = Done (op_spec o ls).1 h'
             /\ repr h' (op_spec o ls).2 /\ same_nodes h h'.
Proof.
  intros R Hpre. destruct o as [l pos n|l n|l n|l n|l|l]; simpl in *.
  - by apply insert_flag.
  - by apply erase_flag.
  - destruct Hpre as ([xs Hl] & Hn & Hs). unfold push_front.
    rewrite (bind_done _ _ _ _ _ (begin_run h ls l xs R Hl)).
    unfold ls_push_front, ls_front. rewrite (ls_get_some _ _ _ Hl).
    apply insert_flag; [done|]. split_and!; eauto. rewrite (ls_get_some _ _ _ Hl).
    destruct xs; simpl; [done|by left].
  - destruct Hpre as (Hl & Hn & Hs). unfold push_back, ls_push_back, end_.
    by apply (insert_flag h ls l None n).
  - destruct Hpre as [xs Hl]. unfold pop_front.
    rewrite (bind_done _ _ _ _ _ (begin_run h ls l xs R Hl)).
    unfold ls_pop_front, ls_front. rewrite (ls_get_some _ _ _ Hl).
    apply (erase_end_flag h ls l xs); eauto.
  - destruct Hpre as [xs Hl]. unfold pop_back.
    rewrite (bind_done _ _ _ _ _ (iter_back_run h ls l xs R Hl)).
    unfold ls_pop_back, ls_back. rewrite (ls_get_some _ _ _ Hl).
    apply (erase_end_flag h ls l xs); eauto.
Qed.

Lemma op_pre_mono (P Q : Z -> Prop) o ls :
  (forall n, P n -> Q n) -> op_pre P o ls -> op_pre Q o ls.
Proof. destruct o; simpl; naive_solver. Qed.

Lemma trace_pre_mono (P Q : Z -> Prop) os ls :
  (forall n, P n -> Q n) -> trace_pre P os ls -> trace_pre Q os ls.
Proof.
  intros HPQ. revert ls. induction os as [|o os IH]; intros ls; simpl; [done|].
  intros [H1 H2]. split; [by eapply op_pre_mono|by apply IH].
Qed.

(** *** Building a heap: List::init and ListNode::init *)

Lemma repr_empty : repr (mkHeap ∅ ∅) (mkLstore ∅ ∅).
Proof.
  split; simpl; try done; try (by intros ? ? ?%lookup_empty_Some).
  - apply ls_wf_empty.
  - intros l Hl. rewrite lookup_empty in Hl. by destruct Hl.
  - intros n Hn. rewrite lookup_empty in Hn. by destruct Hn.
Qed.

(** C6. The pointer code of include/wmc/__list.h refines the abstract lists:
    for every sequence of insert, erase, push_front, push_back, pop_front and
    pop_back that respects the calling conventions, on any number of lists
    sharing one heap of nodes, the code never touches memory it must not, gives
    the success flags of the abstract operations, and ends in a heap that
    represents the abstract result. *)
Theorem list_refines h ls os :
  repr h ls -> trace_pre (fun n => is_Some (nodes h !! n)) os ls ->
  exists h', trace_run os h = Done (trace_spec os ls).1 h' /\ repr h' (trace_spec os ls).2.
Proof.
  revert h ls. induction os as [|o os IH]; intros h ls R; simpl; [by eauto|].
  intros [Hpre Hrest]. destruct (op_refines h ls o R Hpre) as (h1 & Hrun & R1 & Hs).
  rewrite (bind_done _ _ _ _ _ Hrun). destruct (op_spec o ls) as [b ls1]; simpl in *.
  destruct (IH h1 ls1 R1) as (h2 & Hrun2 & R2).
  { eapply trace_pre_mono; [|exact Hrest]. intros n. apply Hs. }
  rewrite (bind_done _ _ _ _ _ Hrun2). destruct (trace_spec os ls1) as [bs ls2]; simpl in *.
  exists h2. by m_unfold.
Qed.
Lemma repr_fresh h ls a :
  repr h ls -> nodes h !! a = None -> ls_lists ls !! a = None /\ ls_owner ls !! a = None /\
  forall l xs, ls_lists ls !! l = Some xs -> a ∉ l :: xs.
Proof.
  intros R Ha.
  assert (Hout : forall l xs, ls_lists ls !! l = Some xs -> a ∉ l :: xs).
  { intros l xs Hl Hin. pose proof (repr_seg _ _ R _ _ Hl) as Hseg.
    apply elem_of_cons in Hin as [->|Hin].
    - apply seg_first, field_some in Hseg as (? & ? & _). congruence.
    - apply list_elem_of_split in Hin as (ys & zs & ->).
      apply seg_app in Hseg as [Hseg%seg_last _]. apply field_some in Hseg as (? & ? & _).
      congruence. }
  split_and!; [| |done].
  - destruct (ls_lists ls !! a) eqn:E; [|done]. exfalso. apply (Hout _ _ E). by left.
  - destruct (ls_owner ls !! a) as [l|] eqn:E; [|done]. exfalso.
    destruct (repr_owner _ _ R _ _ E) as [xs Hl]. apply (Hout _ _ Hl).
    apply elem_of_cons. right. by eapply repr_owner_in.
Qed.

(** Memory for one more node or sentinel. *)
Lemma repr_alloc h ls a nd szs :
  repr h ls -> nodes h !! a = None -> a <> NULL ->
  (forall l xs, ls_lists ls !! l = Some xs -> szs !! l = sizes h !! l) ->
  let h' := mkHeap (<[a := nd]> (nodes h)) szs in
  (forall l xs, ls_lists ls !! l = Some xs ->
     seg (nx_of h') (pv_of h') l xs l /\ szs !! l = Some (u32 (Z.of_nat (length xs))) /\
     ls_of h' l = Some l) /\
  (forall n, n <> a -> ls_of h' n = ls_of h n) /\ nodes h' !! NULL = None.
Proof.
  intros R Ha H0 Hsz h'.
  assert (Hsame : forall n, n <> a -> nodes h' !! n = nodes h !! n).
  { intros n Hn. unfold h'; simpl. by rewrite lookup_insert_ne. }
  split_and!.
  - intros l xs Hl. destruct (repr_fresh h ls a R Ha) as (_ & _ & Hout).
    specialize (Hout l xs Hl). split_and!.
    + eapply seg_frame; [by apply (repr_seg _ _ R)|..]; intros y Hy; unfold nx_of, pv_of;
        rewrite Hsame; try done; intros ->; apply Hout; in_list.
    + rewrite (Hsz l xs Hl). by apply (repr_size _ _ R).
    + unfold ls_of. rewrite Hsame by (intros ->; apply Hout; by left).
      by apply (repr_sentinel _ _ R); eauto.
  - intros n Hn. unfold ls_of. by rewrite Hsame.
  - rewrite Hsame by done. apply (repr_null _ _ R).
Qed.

Lemma repr_node_init h ls n :
  repr h ls -> nodes h !! n = None -> n <> NULL ->
  exists h', node_init n h = Done tt h' /\ repr h' ls /\
    nodes h' = <[n := mkListNode NULL NULL NULL]> (nodes h).
Proof.
  intros R Hn H0. eexists. split; [done|]. split; [|done].
  destruct (repr_fresh h ls n R Hn) as (Hl & Ho & _).
  destruct (repr_alloc h ls n (mkListNode NULL NULL NULL) (sizes h) R Hn H0) as (H1 & H2 & H3); [done|].
  split; simpl.
  - apply (repr_wf _ _ R).
  - intros l xs Hxs. by apply H1.
  - intros l xs Hxs. by apply H1.
  - intros l [xs Hxs]. destruct (repr_sentinel _ _ R l) as (? & ? & ?); [eauto|].
    split_and!; try done. by eapply H1.
  - apply (repr_owner _ _ R).
  - intros m Hm Hlm. destruct (decide (m = n)) as [->|Hne].
    + unfold ls_of; simpl. by rewrite lookup_insert_eq, Ho.
    + rewrite H2 by done. apply (repr_link _ _ R); [|done].
      by rewrite lookup_insert_ne in Hm.
  - done.
Qed.

Lemma repr_list_init h ls l :
  repr h ls -> nodes h !! l = None -> l <> NULL ->
  exists h', list_init l h = Done tt h' /\ repr h' (ls_init l ls) /\
    nodes h' = <[l := mkListNode l l l]> (nodes h).
Proof.
  intros R Hn H0. eexists. split; [done|]. split; [|done].
  destruct (repr_fresh h ls l R Hn) as (Hl & Ho & Hout).
  destruct (repr_alloc h ls l (mkListNode l l l) (<[l := 0]> (sizes h)) R Hn H0) as (H1 & H2 & H3).
  { intros l0 xs Hxs. apply lookup_insert_ne. congruence. }
  assert (Hs : ls_of (mkHeap (<[l := mkListNode l l l]> (nodes h)) (<[l := 0]> (sizes h))) l = Some l).
  { unfold ls_of; simpl. by rewrite lookup_insert_eq. }
  split; simpl; unfold ls_init; simpl.
  - apply ls_wf_init; [apply (repr_wf _ _ R)|]. unfold ls_get. by rewrite Hl.
  - intros l0 xs. destruct (decide (l = l0)) as [<-|Hne].
    + rewrite lookup_insert_eq. intros [= <-]. simpl. unfold nx_of, pv_of; simpl.
      by rewrite lookup_insert_eq.
    + rewrite lookup_insert_ne by done. intros Hxs. by apply H1.
  - intros l0 xs. destruct (decide (l = l0)) as [<-|Hne].
    + rewrite !lookup_insert_eq. by intros [= <-].
    + rewrite (lookup_insert_ne (ls_lists ls)) by done. intros Hxs. by apply H1.
  - intros l0. destruct (decide (l = l0)) as [<-|Hne].
    + intros _. by split_and!.
    + rewrite lookup_insert_ne by done. intros [xs Hxs].
      destruct (repr_sentinel _ _ R l0) as (? & ? & ?); [eauto|].
      split_and!; try done. by eapply H1.
  - intros n l0 Hnl. rewrite lookup_insert_is_Some'. right. by eapply repr_owner.
  - intros m Hm Hlm. destruct (decide (l = m)) as [<-|Hne]; [by rewrite lookup_insert_eq in Hlm|].
    rewrite lookup_insert_ne in Hm by done. rewrite lookup_insert_ne in Hlm by done.
    rewrite H2 by done. by apply (repr_link _ _ R).
  - done.
Qed.

(** A list at 64 and three nodes, built by the init functions. *)
Definition demo_init : M heap unit :=
  list_init 64 ;; node_init 1 ;; node_init 2 ;; node_init 3.

Lemma demo_list_repr :
  exists h, demo_init (mkHeap ∅ ∅) = Done tt h /\ repr h (ls_init 64 (mkLstore ∅ ∅)) /\
    (forall n, n = 1 \/ n = 2 \/ n = 3 -> is_Some (nodes h !! n)).
Proof.
  destruct (repr_list_init _ _ 64 repr_empty) as (h0 & E0 & R0 & N0); [reflexivity|discriminate|].
  destruct (repr_node_init _ _ 1 R0) as (h1 & E1 & R1 & N1); [rewrite N0; reflexivity|discriminate|].
  destruct (repr_node_init _ _ 2 R1) as (h2 & E2 & R2 & N2); [rewrite N1, N0; reflexivity|discriminate|].
  destruct (repr_node_init _ _ 3 R2) as (h3 & E3 & R3 & N3); [rewrite N2, N1, N0; reflexivity|discriminate|].
  exists h3. split_and!; [|done|].
  - unfold demo_init. by rewrite (bind_done _ _ _ _ _ E0), (bind_done _ _ _ _ _ E1),
      (bind_done _ _ _ _ _ E2), E3.
  - rewrite N3, N2, N1, N0. intros n [->|[->| ->]]; eexists; reflexivity.
Qed.

Definition demo_trace : list list_op :=
  [OpPushBack 64 1; OpPushBack 64 2; OpPushFront 64 3; OpPushBack 64 1;
   OpErase 64 1; OpInsert 64 (Some 2) 1; OpPopBack 64; OpPopFront 64].

Lemma list_refines_witness :
  exists h h', demo_init (mkHeap ∅ ∅) = Done tt h /\
    trace_run demo_trace h = Done [true; true; true; false; true; true; true; true] h' /\
    repr h' (trace_spec demo_trace (ls_init 64 (mkLstore ∅ ∅))).2.
Proof.
  destruct demo_list_repr as (h & Hrun & R & Hk).
  destruct (list_refines h (ls_init 64 (mkLstore ∅ ∅)) demo_trace R) as (h' & Ht & R').
  - apply (trace_pre_mono (fun n => n ∈ [1; 2; 3])); [intros n Hn; apply Hk; set_solver|].
    apply (bool_decide_unpack _). vm_compute. exact I.
  - exists h, h'. split; [exact Hrun|]. split; [exact Ht|exact R'].
Defined.
