(* ===== verification/Util.v ===== *)
(** Number and path parsing, and page rounding
    (include/genel_fonksiyonlar.h, lib/genel_fonksiyonlar.c).

    A C string is the list of its bytes, with or without the terminating zero;
    a read past the list, or a write past a buffer of the code, is [None]. The
    reference definitions ([be_digits], [path_comps]) are in the second half. *)

From S2P Require Import Prelude.

(** * Definitions *)

(** ** Page rounding *)

Definition PAGE_SIZE : Z := 0x1000.

Definition roundUp (x : Z) : Z := Z.land (u32 (x + 0x1000 - 1)) (Z.lxor 0xFFFFFFFF (0x1000 - 1)).
Definition roundDown (x : Z) : Z := Z.land x (Z.lxor 0xFFFFFFFF (0x1000 - 1)).
Definition isRounded (x : Z) : bool := Z.land x 0xFFF =? 0.

(** ** Numbers *)

(** the string literal 0123456789abcdef *)
Definition hex_chars : list Z := [48;49;50;51;52;53;54;55;56;57;97;98;99;100;101;102].

(** do { buf[i++] = digits[num % base]; num /= base; } while (num > 0) *)
Fixpoint its_digits (fuel : nat) (num base : Z) (buf : list Z) : option (list Z) :=
  match fuel with
  | O => None
  | S f =>
      c ← hex_chars !! Z.to_nat (num mod base);
      if 0 <? num / base then its_digits f (num / base) base (buf ++ [c])
      else Some (buf ++ [c])
  end.

(** for (j = 0; i > j; i--, j++) swap(buf[i], buf[j]) *)
Fixpoint its_swap (fuel : nat) (i j : Z) (buf : list Z) : option (list Z) :=
  match fuel with
  | O => None
  | S f =>
      if j <? i then
        a ← buf !! Z.to_nat i; b ← buf !! Z.to_nat j;
        its_swap f (i - 1) (j + 1) (<[Z.to_nat j := a]> (<[Z.to_nat i := b]> buf))
      else Some buf
  end.

(** 32 digits are enough for a 32-bit number in base 2 or more. *)
Definition its_fuel : nat := 33.

(** The digits written, without the final zero, and the returned size. *)
Definition intToString (num base : Z) : option (list Z * Z) :=
  buf ← its_digits its_fuel num base [];
  buf' ← its_swap its_fuel (Z.of_nat (length buf) - 1) 0 buf;
  Some (buf', Z.of_nat (length buf)).

(** Both parsers stop at the first other character. *)
Fixpoint str_to_int_loop (s : list Z) (i : Z) : Z :=
  match s with
  | [] => i
  | c :: s' =>
      if c =? 0 then i else
      let i := u32 (Z.shiftl i 4) in
      if (97 <=? c) && (c <=? 102) then str_to_int_loop s' (u32 (i + (c - 97) + 10))
      else if (48 <=? c) && (c <=? 57) then str_to_int_loop s' (u32 (i + (c - 48)))
      else Z.shiftr i 4
  end.
Definition str_to_int (s : list Z) : Z := str_to_int_loop s 0.

(** int arithmetic; C division truncates. *)
Fixpoint atoi_loop (s : list Z) (i : Z) : Z :=
  match s with
  | [] => i
  | c :: s' =>
      if c =? 0 then i else
      let i := i32 (i * 10) in
      if (48 <=? c) && (c <=? 57) then atoi_loop s' (i32 (i + (c - 48)))
      else Z.quot i 10
  end.
Definition atoi (s : list Z) : Z := atoi_loop s 0.

(** ** Command lines *)

Definition is_blank (c : Z) : bool := (c =? 32) || (c =? 9) || (c =? 10).

(** [argv] has the 11 entries of its declaration; an entry is an offset in
    [cmd]. [cmd] includes its final zero and [before] is the byte in front. *)
Record args := mkArgs { argc : Z; argv : list (option Z) }.

Definition argv_set (k : Z) (v : option Z) (a : args) : option args :=
  if bool_decide (Z.to_nat k < length (argv a))%nat
  then Some (mkArgs (argc a) (<[Z.to_nat k := v]> (argv a))) else None.

Fixpoint parse_cmd_loop (rest : list Z) (pos : Z) (prev : Z) (cmd : list Z) (a : args)
  : option (list Z * args) :=
  match rest with
  | [] => None
  | c :: rest' =>
      if c =? 0 then Some (cmd, a)
      else if is_blank c then
        let cmd := <[Z.to_nat pos := 0]> cmd in
        let a := if negb (prev =? 0) && (argc a <? 10) then mkArgs (argc a + 1) (argv a) else a in
        a ← argv_set (argc a) (Some (pos + 1)) a;
        parse_cmd_loop rest' (pos + 1) 0 cmd a
      else parse_cmd_loop rest' (pos + 1) c cmd a
  end.

Definition parse_cmd (before : Z) (cmd : list Z) : option (list Z * args) :=
  '(cmd, a) ← parse_cmd_loop cmd 0 before cmd (mkArgs 0 (Some 0 :: replicate 10 None));
  o ← argv a !! Z.to_nat (argc a);
  p ← o;
  c ← cmd !! Z.to_nat p;
  let a := if negb (c =? 0) then mkArgs (argc a + 1) (argv a) else a in
  a ← argv_set (argc a) None a;
  Some (cmd, a).

(** ** Paths *)

(** char buf[256]: the text written so far, before its final zero. *)
Definition buf_put (c : Z) (buf : list Z) : option (list Z) :=
  if bool_decide (length buf < 256)%nat then Some (buf ++ [c]) else None.
Definition buf_close (r : Z) (buf : list Z) : option (Z * list Z) :=
  if bool_decide (length buf < 256)%nat then Some (r, buf) else None.

Fixpoint parse_path_loop (fuel : nat) (path : list Z) (i : Z) (buf : list Z)
  : option (Z * list Z) :=
  match fuel with
  | O => buf_close 0 buf
  | S f =>
      c ← path !! Z.to_nat i;
      if c =? 0 then buf_close 0 buf
      else if (0 <? Z.of_nat (length buf)) && (c =? 47) then buf_close (i + 1) buf
      else buf' ← (if negb (c =? 47) then buf_put c buf else Some buf);
           parse_path_loop f path (i + 1) buf'
  end.

(** The fuel is the loop's own bound [i < len]. *)
Definition parse_path_i (path : list Z) (len i : Z) : option (Z * list Z) :=
  parse_path_loop (Z.to_nat (len - i)) path i [].

(** * Reference definitions and lemmas *)

(** ** Rounding *)

Lemma roundDown_spec x : fits 32 x -> roundDown x = x - x mod 4096.
Proof.
  intros Hx. unfold roundDown.
  change 0xFFFFFFFF with (2 ^ 32 - 1). change (0x1000 - 1) with (2 ^ 12 - 1).
  by apply land_clear_low.
Qed.

Lemma roundUp_spec x : fits 32 (x + 4095) -> roundUp x = (x + 4095) - (x + 4095) mod 4096.
Proof.
  intros Hx. unfold roundUp. replace (x + 0x1000 - 1) with (x + 4095) by lia.
  rewrite u32_small by done. change (Z.land (x + 4095) _) with (roundDown (x + 4095)).
  by apply roundDown_spec.
Qed.

Lemma isRounded_spec x : isRounded x = (x mod 4096 =? 0).
Proof. unfold isRounded. change 0xFFF with (2 ^ 12 - 1). by rewrite land_ones_mod. Qed.

(** ** Digits *)

(** The positional representation, most significant digit first. *)
Fixpoint be_digits (fuel : nat) (num base : Z) : list Z :=
  match fuel with
  | O => []
  | S f => (if 0 <? num / base then be_digits f (num / base) base else []) ++ [num mod base]
  end.

Definition digit_char (d : Z) : Z := if d <? 10 then 48 + d else 87 + d.

Lemma hex_chars_lookup d : 0 <= d < 16 -> hex_chars !! Z.to_nat d = Some (digit_char d).
Proof.
  intros Hd. assert (Hall : Forall (fun d => hex_chars !! Z.to_nat d = Some (digit_char d)) (seqZ 0 16)).
  { apply (bool_decide_unpack _). vm_compute. exact I. }
  rewrite Forall_forall in Hall. apply Hall, elem_of_seqZ. lia.
Qed.

Lemma its_digits_spec fuel num base buf :
  0 <= num < 2 ^ Z.of_nat fuel -> 2 <= base <= 16 -> (0 < fuel)%nat ->
  its_digits fuel num base buf = Some (buf ++ reverse (digit_char <$> be_digits fuel num base)).
Proof.
  intros Hn Hb. revert num buf Hn. induction fuel as [|f IH]; intros num buf Hn Hf; [lia|].
  cbn [its_digits be_digits].
  pose proof (Z.mod_pos_bound num base ltac:(lia)).
  rewrite hex_chars_lookup by lia. simpl.
  rewrite fmap_app, reverse_app. simpl.
  destruct (Z.ltb_spec 0 (num / base)) as [Hq|Hq]; [|done].
  assert (Hlt : num / base < 2 ^ Z.of_nat f).
  { apply Z.div_lt_upper_bound; [lia|]. rewrite Nat2Z.inj_succ, Z.pow_succ_r in Hn by lia.
    assert (0 < 2 ^ Z.of_nat f) by lia. nia. }
  rewrite IH; [by rewrite <- app_assoc|lia|]. destruct f; [simpl in Hlt; lia|lia].
Qed.

Lemma be_digits_bound fuel num base :
  2 <= base -> Forall (fun d => 0 <= d < base) (be_digits fuel num base).
Proof.
  intros Hb. revert num. induction fuel as [|f IH]; intros num; simpl; [constructor|].
  apply Forall_app. split; [destruct (0 <? num / base); auto|].
  constructor; [|constructor]. apply Z.mod_pos_bound. lia.
Qed.

(** Horner's scheme gives the number back. *)
Lemma be_digits_value fuel num base :
  0 <= num < 2 ^ Z.of_nat fuel -> 2 <= base ->
  foldl (fun i d => i * base + d) 0 (be_digits fuel num base) = num.
Proof.
  intros Hn Hb. revert num Hn. induction fuel as [|f IH]; intros num Hn.
  { simpl in *. lia. }
  cbn [be_digits]. rewrite foldl_app. simpl.
  pose proof (Z.div_mod num base ltac:(lia)) as Hdm.
  pose proof (Z.mod_pos_bound num base ltac:(lia)).
  assert (0 <= num / base) by (apply Z.div_pos; lia).
  destruct (Z.ltb_spec 0 (num / base)) as [Hq|Hq]; [|simpl; nia].
  rewrite IH; [nia|]. split; [lia|]. apply Z.div_lt_upper_bound; [lia|].
  rewrite Nat2Z.inj_succ, Z.pow_succ_r in Hn by lia. assert (0 < 2 ^ Z.of_nat f) by lia. nia.
Qed.

(** ** Reversal in place *)

Lemma swap_ends (pre mid post : list Z) x y :
  let buf := pre ++ x :: mid ++ y :: post in
  let j := length pre in let i := (length pre + S (length mid))%nat in
  buf !! i = Some y /\ buf !! j = Some x /\
  <[j := y]> (<[i := x]> buf) = (pre ++ [y]) ++ mid ++ x :: post.
Proof.
  intros buf j i. unfold buf, i, j. split_and!.
  - rewrite lookup_app_r by lia. replace (_ - _)%nat with (S (length mid)) by lia.
    simpl. rewrite lookup_app_r by lia. by rewrite Nat.sub_diag.
  - rewrite lookup_app_r by lia. by rewrite Nat.sub_diag.
  - rewrite insert_app_r. simpl.
    replace (length mid) with (length mid + 0)%nat at 1 by lia. rewrite insert_app_r. simpl.
    replace (length pre) with (length pre + 0)%nat at 1 by lia. rewrite insert_app_r. simpl.
    by rewrite <- app_assoc.
Qed.

Lemma its_swap_spec fuel (pre mid post : list Z) :
  (length mid < 2 * fuel)%nat ->
  its_swap fuel (Z.of_nat (length pre + length mid) - 1) (Z.of_nat (length pre)) (pre ++ mid ++ post)
  = Some (pre ++ reverse mid ++ post).
Proof.
  revert pre mid post. induction fuel as [|f IH]; intros pre mid post Hl; [lia|]. simpl.
  destruct mid as [|x mid]; simpl.
  { destruct (Z.ltb_spec (Z.of_nat (length pre)) (Z.of_nat (length pre + 0) - 1)); [lia|done]. }
  destruct mid as [|y mid _] using rev_ind; simpl.
  { destruct (Z.ltb_spec (Z.of_nat (length pre)) (Z.of_nat (length pre + 1) - 1)); [lia|done]. }
  rewrite length_app in *. simpl in *.
  destruct (Z.ltb_spec (Z.of_nat (length pre)) (Z.of_nat (length pre + S (length mid + 1)) - 1)); [|lia].
  idtac. replace (Z.to_nat (Z.of_nat (length pre + S (length mid + 1)) - 1))
    with (length pre + S (length mid))%nat by lia.
  rewrite Nat2Z.id, <- app_assoc. simpl.
  destruct (swap_ends pre mid post x y) as (-> & -> & Hins). simpl in *. rewrite Hins.
  replace (Z.of_nat (length pre + S (length mid + 1)) - 1 - 1)
    with (Z.of_nat (length (pre ++ [y]) + length mid) - 1) by (rewrite length_app; simpl; lia).
  replace (Z.of_nat (length pre) + 1) with (Z.of_nat (length (pre ++ [y])))
    by (rewrite length_app; simpl; lia).
  rewrite IH by (rewrite length_app in Hl; simpl in Hl; lia). rewrite reverse_cons, reverse_app. simpl. by rewrite <- !app_assoc.
Qed.

Lemma be_digits_length fuel num base : (length (be_digits fuel num base) <= fuel)%nat.
Proof.
  revert num. induction fuel as [|f IH]; intros num; simpl; [lia|].
  rewrite length_app. simpl. destruct (0 <? num / base); simpl; [specialize (IH (num / base)); lia|lia].
Qed.

Lemma intToString_digits num base :
  fits 32 num -> 2 <= base <= 16 ->
  intToString num base = Some (digit_char <$> be_digits its_fuel num base,
                               Z.of_nat (length (be_digits its_fuel num base))).
Proof.
  intros Hn Hb. unfold intToString.
  rewrite its_digits_spec; [|unfold fits in Hn; exact ltac:(change (2 ^ Z.of_nat its_fuel) with (2 ^ 33); lia)|lia|unfold its_fuel; lia].
  set (ds := digit_char <$> be_digits its_fuel num base).
  assert (Hlen : (length ds <= 33)%nat) by (unfold ds; rewrite length_fmap; apply be_digits_length).
  rewrite <- (length_fmap digit_char). fold ds. clearbody ds.
  cbn [mbind option_bind app].
  pose proof (its_swap_spec its_fuel [] (reverse ds) []) as Hs.
  cbn [length app] in Hs. rewrite !app_nil_r, Nat.add_0_l in Hs. change (Z.of_nat 0) with 0 in Hs.
  rewrite Hs by (rewrite length_reverse; unfold its_fuel; lia).
  cbn [mbind option_bind]. by rewrite reverse_involutive, length_reverse.
Qed.

(** ** Parsing digits *)

Lemma str_to_int_step s i d :
  0 <= d < 16 -> fits 32 i ->
  str_to_int_loop (digit_char d :: s) i = str_to_int_loop s (u32 (i * 16 + d)).
Proof.
  intros Hd Hi. unfold digit_char. simpl. rewrite Z.shiftl_mul_pow2 by lia. change (2 ^ 4) with 16.
  destruct (Z.ltb_spec d 10).
  - destruct (Z.eqb_spec (48 + d) 0); [lia|]. destruct (Z.leb_spec 97 (48 + d)); [lia|].
    destruct (Z.leb_spec 48 (48 + d)); [|lia]. destruct (Z.leb_spec (48 + d) 57); [|lia]. simpl.
    rewrite u32_add_l. do 2 f_equal. lia.
  - destruct (Z.eqb_spec (87 + d) 0); [lia|]. destruct (Z.leb_spec 97 (87 + d)); [|lia].
    destruct (Z.leb_spec (87 + d) 102); [|lia]. simpl.
    replace (u32 (i * 16) + (87 + d - 97) + 10) with (u32 (i * 16) + d) by lia.
    by rewrite u32_add_l.
Qed.

Lemma atoi_step s i d :
  0 <= d < 10 -> 0 <= i * 10 + d < 2 ^ 31 -> 0 <= i ->
  atoi_loop (digit_char d :: s) i = atoi_loop s (i * 10 + d).
Proof.
  intros Hd Hi H0. unfold digit_char. simpl.
  destruct (Z.ltb_spec d 10); [|lia].
  destruct (Z.eqb_spec (48 + d) 0); [lia|].
  destruct (Z.leb_spec 48 (48 + d)); [|lia]. destruct (Z.leb_spec (48 + d) 57); [|lia]. simpl.
  rewrite (i32_small (i * 10)) by lia. rewrite i32_small by lia. f_equal. lia.
Qed.

Lemma horner_mono base ds i :
  1 <= base -> 0 <= i -> Forall (fun d => 0 <= d) ds ->
  i <= foldl (fun i d => i * base + d) i ds.
Proof.
  intros Hb. revert i. induction ds as [|d ds IH]; intros i Hi Hds; simpl; [lia|].
  apply Forall_cons in Hds as [Hd Hds].
  transitivity (i * base + d); [nia|]. apply IH; [nia|done].
Qed.

Lemma str_to_int_digits ds i :
  0 <= i -> Forall (fun d => 0 <= d < 16) ds -> foldl (fun i d => i * 16 + d) i ds < 2 ^ 32 ->
  str_to_int_loop (digit_char <$> ds) i = foldl (fun i d => i * 16 + d) i ds.
Proof.
  revert i. induction ds as [|d ds IH]; intros i Hi Hds Hlt; [done|].
  apply Forall_cons in Hds as [Hd Hds]. cbn [fmap list_fmap foldl] in *.
  assert (Hm : i * 16 + d <= foldl (fun i d => i * 16 + d) (i * 16 + d) ds).
  { apply horner_mono; [lia|lia|]. eapply Forall_impl; [exact Hds|]. simpl. lia. }
  rewrite str_to_int_step; [|lia|unfold fits; lia].
  rewrite u32_small by lia. apply IH; [lia|done|done].
Qed.

Lemma atoi_digits ds i :
  0 <= i -> Forall (fun d => 0 <= d < 10) ds -> foldl (fun i d => i * 10 + d) i ds < 2 ^ 31 ->
  atoi_loop (digit_char <$> ds) i = foldl (fun i d => i * 10 + d) i ds.
Proof.
  revert i. induction ds as [|d ds IH]; intros i Hi Hds Hlt; [done|].
  apply Forall_cons in Hds as [Hd Hds]. cbn [fmap list_fmap foldl] in *.
  assert (Hm : i * 10 + d <= foldl (fun i d => i * 10 + d) (i * 10 + d) ds).
  { apply horner_mono; [lia|lia|]. eapply Forall_impl; [exact Hds|]. simpl. lia. }
  rewrite atoi_step by lia. apply IH; [lia|done|done].
Qed.

(** The terminating zero ends both loops. *)
Lemma str_to_int_app_nul s : forall i, str_to_int_loop (s ++ [0]) i = str_to_int_loop s i.
Proof. induction s as [|c s IH]; intros i; simpl; [done|]. by rewrite !IH. Qed.

Lemma atoi_app_nul s : forall i, atoi_loop (s ++ [0]) i = atoi_loop s i.
Proof. induction s as [|c s IH]; intros i; simpl; [done|]. by rewrite !IH. Qed.

Lemma str_to_int_be fuel num :
  0 <= num < 2 ^ Z.of_nat fuel -> num < 2 ^ 32 ->
  str_to_int ((digit_char <$> be_digits fuel num 16) ++ [0]) = num.
Proof.
  intros Hn H32. pose proof (be_digits_value fuel num 16 Hn ltac:(lia)) as Hv.
  unfold str_to_int. rewrite str_to_int_app_nul, str_to_int_digits;
    [done|done|by apply be_digits_bound|by rewrite Hv].
Qed.

Lemma atoi_be fuel num :
  0 <= num < 2 ^ Z.of_nat fuel -> num < 2 ^ 31 ->
  atoi ((digit_char <$> be_digits fuel num 10) ++ [0]) = num.
Proof.
  intros Hn H32. pose proof (be_digits_value fuel num 10 Hn ltac:(lia)) as Hv.
  unfold atoi. rewrite atoi_app_nul, atoi_digits;
    [done|done|by apply be_digits_bound|by rewrite Hv].
Qed.

(** ** Path components *)

(** The names of a path, empty ones left out: the path split at its slashes. *)
Fixpoint path_comps (cur : list Z) (s : list Z) : list (list Z) :=
  match s with
  | [] => if bool_decide (cur = []) then [] else [cur]
  | c :: s' =>
      if c =? 47 then (if bool_decide (cur = []) then [] else [cur]) ++ path_comps [] s'
      else path_comps (cur ++ [c]) s'
  end.

(** The names dirent_find meets: it calls parse_path_i until it returns 0. *)
Fixpoint path_names (fuel : nat) (path : list Z) (len i : Z) : option (list (list Z)) :=
  match fuel with
  | O => None
  | S f =>
      '(i', buf) ← parse_path_i path len i;
      rest ← (if 0 <? i' then path_names f path len i' else Some []);
      Some (if bool_decide (buf = []) then rest else buf :: rest)
  end.

Lemma path_comps_cur cur s :
  cur <> [] -> exists c, c ∈ path_comps cur s /\ (length cur <= length c)%nat.
Proof.
  revert cur. induction s as [|x s IH]; intros cur Hc; simpl.
  - rewrite bool_decide_false by done. exists cur. split; [by left|lia].
  - destruct (x =? 47).
    + rewrite bool_decide_false by done. exists cur. split; [by left|lia].
    + destruct (IH (cur ++ [x])) as (c & Hin & Hl); [by destruct cur|].
      exists c. split; [done|]. rewrite length_app in Hl. simpl in Hl. lia.
Qed.

(** One call: the next name and where to go on. *)
Lemma parse_path_loop_spec pre s post buf :
  Forall (.≠ 0) s -> (forall c, c ∈ path_comps buf s -> (length c < 256)%nat) ->
  exists r b, parse_path_loop (length s) (pre ++ s ++ post) (Z.of_nat (length pre)) buf = Some (r, b)
    /\ ((r = 0 /\ path_comps buf s = if bool_decide (b = []) then [] else [b])
        \/ (b <> [] /\ exists s1 s2, s = s1 ++ s2 /\ s1 <> [] /\
             r = Z.of_nat (length pre + length s1) /\ path_comps buf s = b :: path_comps [] s2)).
Proof.
  revert pre buf. induction s as [|x s IH]; intros pre buf Hz Hb.
  - exists 0, buf. simpl. unfold buf_close. simpl in Hb.
    rewrite bool_decide_true; [by eauto|].
    destruct (decide (buf = [])) as [->|Hne]; [simpl; lia|].
    rewrite bool_decide_false in Hb by done. apply Hb. by left.
  - apply Forall_cons in Hz as [Hx Hz]. cbn [length parse_path_loop app].
    rewrite Nat2Z.id, lookup_app_r, Nat.sub_diag by lia. cbn [lookup list_lookup mbind option_bind].
    destruct (Z.eqb_spec x 0); [done|].
    assert (Hnext : forall buf', path_comps buf (x :: s) = path_comps buf' s ->
      exists r b, parse_path_loop (length s) (pre ++ x :: s ++ post) (Z.of_nat (length pre) + 1) buf'
        = Some (r, b) /\
        ((r = 0 /\ path_comps buf (x :: s) = if bool_decide (b = []) then [] else [b])
         \/ (b <> [] /\ exists s1 s2, x :: s = s1 ++ s2 /\ s1 <> [] /\
              r = Z.of_nat (length pre + length s1) /\ path_comps buf (x :: s) = b :: path_comps [] s2))).
    { intros buf' E. rewrite E in *. destruct (IH (pre ++ [x]) buf' Hz Hb) as (r & b & Hr & Hcase).
      exists r, b. rewrite <- !app_assoc in Hr. simpl in Hr.
      replace (Z.of_nat (length (pre ++ [x]))) with (Z.of_nat (length pre) + 1) in Hr
        by (rewrite length_app; simpl; lia).
      split; [exact Hr|]. destruct Hcase as [?|(Hbn & s1 & s2 & -> & Hs1 & -> & ?)]; [by left|].
      right. split; [done|]. exists (x :: s1), s2. rewrite length_app. simpl.
      split_and!; [done|done|lia|done]. }
    destruct (Z.eqb_spec x 47) as [->|Hsl]; simpl.
    + destruct buf as [|y buf]; simpl.
      * apply Hnext. done.
      * unfold buf_close. rewrite bool_decide_true by (apply Hb; simpl; by left).
        eexists _, _. split; [done|]. right. split; [done|].
        exists [47], s. split_and!; [done|done|simpl; lia|done].
    + rewrite andb_false_r. unfold buf_put.
      assert (E : path_comps buf (x :: s) = path_comps (buf ++ [x]) s).
      { simpl. by destruct (Z.eqb_spec x 47). }
      rewrite bool_decide_true.
      * simpl. by apply Hnext.
      * destruct (path_comps_cur (buf ++ [x]) s) as (c & Hin & Hl); [by destruct buf|].
        rewrite <- E in Hin. apply Hb in Hin. rewrite length_app in Hl. simpl in Hl. lia.
Qed.

Lemma path_names_spec fuel pre s post :
  Forall (.≠ 0) s -> (forall c, c ∈ path_comps [] s -> (length c < 256)%nat) ->
  (length s < fuel)%nat ->
  path_names fuel (pre ++ s ++ post) (Z.of_nat (length pre + length s)) (Z.of_nat (length pre))
  = Some (path_comps [] s).
Proof.
  revert pre s. induction fuel as [|f IH]; intros pre s Hz Hb Hl; [lia|].
  cbn [path_names]. unfold parse_path_i.
  replace (Z.to_nat (Z.of_nat (length pre + length s) - Z.of_nat (length pre)))
    with (length s) by lia.
  destruct (parse_path_loop_spec pre s post [] Hz Hb) as (r & b & -> & Hcase).
  cbn [mbind option_bind]. destruct Hcase as [[-> ->]|(Hbn & s1 & s2 & -> & Hs1 & -> & E)].
  - simpl. by case_bool_decide.
  - destruct s1 as [|x s1]; [done|].
    destruct (Z.ltb_spec 0 (Z.of_nat (length pre + length (x :: s1)))); [|simpl in *; lia].
    rewrite E in *. rewrite Forall_app in Hz. destruct Hz as [_ Hz2].
    specialize (IH (pre ++ x :: s1) s2 Hz2).
    rewrite !length_app in *. cbn [length] in *.
    rewrite <- !app_assoc in *. replace (length pre + S (length s1) + length s2)%nat
      with (length pre + (S (length s1) + length s2))%nat in IH by lia.
    rewrite IH; [|intros c Hc; apply Hb; by right|lia]. simpl. by rewrite bool_decide_false.
Qed.

(** * Properties *)

(** Every 32-bit number printed by intToString is read back: base 16 by
    str_to_int, base 10 (below 2^31, the range of int) by atoi; the returned size
    is the number of characters written, and never more than 33. *)
Theorem int_to_string_roundtrip num :
  fits 32 num ->
  (exists s n, intToString num 16 = Some (s, n) /\ n = Z.of_nat (length s) /\ n <= 33 /\
     str_to_int (s ++ [0]) = num) /\
  (num < 2 ^ 31 ->
   exists s n, intToString num 10 = Some (s, n) /\ n = Z.of_nat (length s) /\ n <= 33 /\
     atoi (s ++ [0]) = num).
Proof.
  intros Hn.
  assert (Hn33 : 0 <= num < 2 ^ Z.of_nat its_fuel).
  { unfold fits in Hn. change (2 ^ Z.of_nat its_fuel) with (2 ^ 33). lia. }
  pose proof (be_digits_length its_fuel num) as Hl.
  pose proof (str_to_int_be its_fuel num Hn33) as Hs.
  pose proof (atoi_be its_fuel num Hn33) as Ha.
  pose proof (fun b => intToString_digits num b Hn) as Hi.
  assert (its_fuel = 33)%nat as H33 by done. revert Hl Hs Ha Hi H33. generalize its_fuel.
  intros F Hl Hs Ha Hi H33.
  split; [|intros H31]; eexists _, _; (split; [apply Hi; lia|]);
    rewrite length_fmap; (split_and!; [done| |]).
  - specialize (Hl 16). lia.
  - apply Hs, Hn.
  - specialize (Hl 10). lia.
  - by apply Ha.
Qed.

Lemma int_to_string_roundtrip_witness :
  exists s n, intToString 0xC0000000 16 = Some (s, n) /\ n = Z.of_nat (length s) /\ n <= 33 /\
    str_to_int (s ++ [0]) = 0xC0000000.
Proof. apply (int_to_string_roundtrip 0xC0000000). split; lia. Defined.

(** Walking a path with parse_path_i visits exactly the names between its
    slashes, in order: leading, trailing and doubled slashes are ignored, and
    names up to the 255 characters of the buffer are read without overrunning it. *)
Theorem path_walk_is_split path post :
  Forall (.≠ 0) path ->
  Forall (fun c => (length c < 256)%nat) (path_comps [] path) ->
  path_names (S (length path)) (path ++ post) (Z.of_nat (length path)) 0 = Some (path_comps [] path).
Proof.
  intros Hz Hb. apply (path_names_spec _ [] path post); [done| |lia].
  by rewrite Forall_forall in Hb.
Qed.

(** "//bin/ls/" *)
Lemma path_walk_is_split_witness :
  path_names 10 [47;47;98;105;110;47;108;115;47;0] 9 0 = Some [[98;105;110];[108;115]].
Proof.
  apply (path_walk_is_split [47;47;98;105;110;47;108;115;47] [0]);
    apply (bool_decide_unpack _); vm_compute; exact I.
Defined.

(** parse_cmd with eleven words counts eleven arguments and stores the final
    null pointer in argv[11], outside the array of eleven it is given; ten words
    are the most it handles. *)
Theorem parse_cmd_overflow :
  parse_cmd 0 (flat_map (fun c => [c; 32]) (seqZ 97 10) ++ [107; 0]) = None /\
  exists cmd a, parse_cmd 0 (flat_map (fun c => [c; 32]) (seqZ 97 9) ++ [106; 0]) = Some (cmd, a)
    /\ argc a = 10 /\ argv a !! 10%nat = Some None.
Proof.
  split; [vm_compute; reflexivity|]. eexists _, _.
  split; [vm_compute; reflexivity|]. split; reflexivity.
Qed.
