(* ===== verification/Vsprintf.v ===== *)
(** Formatted output (lib/vsprintf.c): skip_atoi, number and vsprintf.

    A C string is the list of its bytes without the final zero; [number] and
    [vsprintf] give the bytes they store behind [str]. The arguments of a call are
    a list of values; reading one of the wrong type, or one more than there are, is
    undefined. The reading function [read_digits] of the second half is the
    reference for the digits. *)

From S2P Require Import Prelude Util.

Notation cstr := (list Z).

(** * Definitions *)

(** The characters of a literal, and its escapes: a backslash with n or t. *)
Fixpoint unescape (s : list Z) : cstr :=
  match s with
  | 92 :: 110 :: s => 10 :: unescape s
  | 92 :: 116 :: s => 9 :: unescape s
  | c :: s => c :: unescape s
  | [] => []
  end.
Definition c_str (s : string) : cstr :=
  unescape ((fun a => Z.of_N (Ascii.N_of_ascii a)) <$> String.list_ascii_of_string s).

(** ['0'], ['%'] and the like are written as their codes. *)
Definition is_digit (c : Z) : bool := (48 <=? c) && (c <=? 57).

(** The value, and what is left of the string. *)
Fixpoint skip_atoi (i : Z) (s : cstr) : Z * cstr :=
  match s with
  | c :: s' => if is_digit c then skip_atoi (i * 10 + c - 48) s' else (i, s)
  | [] => (i, [])
  end.

Definition ZEROPAD : Z := 1.
Definition SIGN : Z := 2.
Definition PLUS : Z := 4.
Definition SPACE : Z := 8.
Definition LEFT : Z := 16.
Definition SPECIAL : Z := 32.
Definition SMALL : Z := 64.
(** A test [type&f]. *)
Definition has (type f : Z) : bool := negb (Z.land type f =? 0).

(** ** number *)

(** 0123456789 and the letters *)
Definition digits_of (small : bool) : cstr :=
  seqZ 48 10 ++ seqZ (if small then 97 else 65) 26.

(** while (num!=0) tmp[i++]=digits[do_div(num,base)]; do_div divides unsigned.
    The fuel is the number of entries of [tmp], and one: [None] is a store behind
    the array. *)
Fixpoint number_digits (fuel : nat) (digits : cstr) (num base : Z) (tmp : cstr) : option cstr :=
  match fuel with
  | O => None
  | S f =>
      if num =? 0 then Some tmp else
      c ← digits !! Z.to_nat (num mod base);
      number_digits f digits (num / base) base (tmp ++ [c])
  end.
Definition tmp_size : nat := 36.

(** while (size-->0) *str++ = c: the bytes and the new size. *)
Definition pad_loop (size c : Z) : cstr * Z := (replicate (Z.to_nat size) c, Z.min size 0 - 1).

(** The sign character, 0 for none. *)
Definition sign_char (num type : Z) : Z :=
  if has type SIGN && (num <? 0) then 45
  else if has type PLUS then 43 else if has type SPACE then 32 else 0.

(** None: the null pointer of a base out of range, or a store behind [tmp]. *)
Definition number (num base size precision type : Z) : option cstr :=
  let num := i32 num in
  let digits := digits_of (has type SMALL) in
  let type := if has type LEFT then Z.land type (Z.lnot ZEROPAD) else type in
  if (base <? 2) || (36 <? base) then None else
  let c := if has type ZEROPAD then 48 else 32 in
  let sign := sign_char num type in
  let num := if has type SIGN && (num <? 0) then i32 (- num) else num in
  let size := if sign =? 0 then size else size - 1 in
  let size := if has type SPECIAL
              then if base =? 16 then size - 2 else if base =? 8 then size - 1 else size
              else size in
  tmp ← (if num =? 0 then Some [48] else number_digits (S tmp_size) digits (u32 num) base []);
  let i := Z.of_nat (length tmp) in
  let precision := if precision <? i then i else precision in
  let size := size - precision in
  let '(s1, size) := if negb (has type (ZEROPAD + LEFT)) then pad_loop size 32 else ([], size) in
  let s2 := if sign =? 0 then [] else [sign] in
  s3 ← (if has type SPECIAL then
          if base =? 8 then Some [48]
          else if base =? 16 then x ← digits !! 33%nat; Some [48; x] else Some []
        else Some []);
  let '(s4, size) := if negb (has type LEFT) then pad_loop size c else ([], size) in
  let s5 := replicate (Z.to_nat (precision - i)) 48 in
  let '(s6, _) := pad_loop size 32 in
  Some (s1 ++ s2 ++ s3 ++ s4 ++ s5 ++ reverse tmp ++ s6).

(** ** vsprintf *)

(** An argument: a number, a string, or the address of an int. *)
Inductive va_value := VInt (v : Z) | VStr (s : cstr) | VLoc (p : Z).
Notation va_list := (list va_value).

(** What a call has done: the bytes, and the stores of the n conversions. *)
Record vs_out := mkOut { vs_text : cstr; vs_stores : list (Z * Z) }.
Definition emit (s : cstr) (o : vs_out) : vs_out := mkOut (vs_text o ++ s) (vs_stores o).

(** Undefined: an argument is missing or has the wrong type. *)
Definition va_int (args : va_list) : option (Z * va_list) :=
  match args with VInt v :: a => Some (v, a) | VLoc v :: a => Some (v, a) | _ => None end.
Definition va_str (args : va_list) : option (cstr * va_list) :=
  match args with VStr s :: a => Some (s, a) | _ => None end.
Definition va_loc (args : va_list) : option (Z * va_list) :=
  match args with VLoc p :: a => Some (p, a) | _ => None end.

(** *fmt, the zero at the end included, and ++fmt. *)
Definition peek (fmt : cstr) : Z := default 0 (head fmt).
Notation next fmt := (tail fmt).

Definition flag_of (c : Z) : option Z :=
  if c =? 45 then Some LEFT else if c =? 43 then Some PLUS else if c =? 32 then Some SPACE
  else if c =? 35 then Some SPECIAL else if c =? 48 then Some ZEROPAD else None.
(** repeat: ... goto repeat *)
Fixpoint vs_flags (flags : Z) (fmt : cstr) : Z * cstr :=
  match fmt with
  | c :: fmt' => match flag_of c with
                 | Some f => vs_flags (Z.lor flags f) fmt'
                 | None => (flags, fmt)
                 end
  | [] => (flags, [])
  end.

(** get field width: the star is not passed. *)
Definition vs_width (flags : Z) (fmt : cstr) (args : va_list) : option (Z * Z * cstr * va_list) :=
  if is_digit (peek fmt) then let '(w, fmt) := skip_atoi 0 fmt in Some (w, flags, fmt, args)
  else if peek fmt =? 42 then
    '(w, args) ← va_int args;
    if i32 w <? 0 then Some (- i32 w, Z.lor flags LEFT, fmt, args) else Some (i32 w, flags, fmt, args)
  else Some (-1, flags, fmt, args).

Definition vs_precision (fmt : cstr) (args : va_list) : option (Z * cstr * va_list) :=
  if peek fmt =? 46 then
    let fmt := next fmt in
    '(p, fmt, args) ←
      (if is_digit (peek fmt) then let '(p, fmt) := skip_atoi 0 fmt in Some (p, fmt, args)
       else if peek fmt =? 42 then '(p, args) ← va_int args; Some (i32 p, fmt, args)
       else Some (-1, fmt, args));
    Some ((if p <? 0 then 0 else p), fmt, args)
  else Some (-1, fmt, args).

Definition vs_qualifier (fmt : cstr) : cstr :=
  if (peek fmt =? 104) || (peek fmt =? 108) || (peek fmt =? 76) then next fmt else fmt.

(** case 'c' *)
Definition vs_char (flags width c : Z) : cstr :=
  let '(s1, w) := if has flags LEFT then ([], width)
                  else (replicate (Z.to_nat (width - 1)) 32, Z.min (width - 1) 0) in
  s1 ++ [u8 c] ++ replicate (Z.to_nat (w - 1)) 32.

(** case 's' *)
Definition vs_string (flags width precision : Z) (s : cstr) : cstr :=
  let len := Z.of_nat (length s) in
  let len := if precision <? 0 then len else if precision <? len then precision else len in
  let '(s1, w) := if has flags LEFT then ([], width)
                  else (replicate (Z.to_nat (width - len)) 32, Z.min width len - 1) in
  s1 ++ take (Z.to_nat len) s ++ replicate (Z.to_nat (w - len)) 32.

(** The switch, with [fmt] at the conversion: what is left behind it. *)
Definition vs_convert (flags width precision : Z) (fmt : cstr) (args : va_list) (o : vs_out)
  : option (vs_out * cstr * va_list) :=
  let c := peek fmt in
  let num base width flags :=
    '(v, args) ← va_int args; s ← number v base width precision flags;
    Some (emit s o, next fmt, args) in
  if c =? 99 then '(v, args) ← va_int args; Some (emit (vs_char flags width v) o, next fmt, args)
  else if c =? 115 then
    '(s, args) ← va_str args; Some (emit (vs_string flags width precision s) o, next fmt, args)
  else if c =? 111 then num 8 width flags
  else if c =? 112 then
    if width =? -1 then num 16 8 (Z.lor flags ZEROPAD) else num 16 width flags
  else if c =? 120 then num 16 width (Z.lor flags SMALL)
  else if c =? 88 then num 16 width flags
  else if (c =? 100) || (c =? 105) then num 10 width (Z.lor flags SIGN)
  else if c =? 117 then num 10 width flags
  else if c =? 110 then
    '(p, args) ← va_loc args;
    Some (mkOut (vs_text o) (vs_stores o ++ [(p, Z.of_nat (length (vs_text o)))]), next fmt, args)
  else
    let o := if c =? 37 then o else emit [37] o in
    Some ((if c =? 0 then o else emit [c] o), next fmt, args).

(** One iteration, [fmt] not at its end. *)
Definition vs_step (fmt : cstr) (args : va_list) (o : vs_out) : option (vs_out * cstr * va_list) :=
  if negb (peek fmt =? 37) then Some (emit [peek fmt] o, next fmt, args) else
  let '(flags, fmt) := vs_flags 0 (next fmt) in
  '(width, flags, fmt, args) ← vs_width flags fmt args;
  '(precision, fmt, args) ← vs_precision fmt args;
  vs_convert flags width precision (vs_qualifier fmt) args o.

Inductive vs_result := VsDone (o : vs_out) | VsUndefined | VsOutOfFuel.

Fixpoint vs_loop (fuel : nat) (fmt : cstr) (args : va_list) (o : vs_out) : vs_result :=
  match fmt with
  | [] => VsDone o
  | _ =>
      match fuel with
      | O => VsOutOfFuel
      | S f => match vs_step fmt args o with
               | None => VsUndefined
               | Some (o, fmt, args) => vs_loop f fmt args o
               end
      end
  end.

(** Every iteration passes a byte of the format, see [vsprintf_terminates]. The
    returned length is that of [vs_text]. *)
Definition vsprintf (fmt : cstr) (args : va_list) : vs_result :=
  vs_loop (length fmt) fmt args (mkOut [] []).

(** * Reference definitions and lemmas *)

(** The value of a digit, and of a string of digits. *)
Definition digit_val (c : Z) : Z :=
  if is_digit c then c - 48 else if 97 <=? c then c - 87 else c - 55.
Definition read_digits (base : Z) (s : cstr) : Z := foldl (fun i c => i * base + digit_val c) 0 s.

(** What the digits of a call stand for. *)
Definition magnitude (num type : Z) : Z := if has type SIGN then Z.abs (i32 num) else u32 num.
Definition sign_part (num type : Z) : cstr :=
  let s := sign_char (i32 num) type in if s =? 0 then [] else [s].
Definition prefix_part (base type : Z) : cstr :=
  if has type SPECIAL then
    if base =? 8 then [48] else if base =? 16 then [48; if has type SMALL then 120 else 88] else []
  else [].

Lemma has_lor t f g : has t (Z.lor f g) = has t f || has t g.
Proof.
  unfold has. rewrite Z.land_lor_distr_r, <- negb_andb. f_equal. apply eq_true_iff_eq.
  rewrite andb_true_iff, !Z.eqb_eq. apply Z.lor_eq_0_iff.
Qed.

(** Clearing one flag leaves the others. *)
Lemma has_clear t f : Z.land (Z.lnot ZEROPAD) f = f -> has (Z.land t (Z.lnot ZEROPAD)) f = has t f.
Proof. intros E. unfold has. by rewrite <- Z.land_assoc, E. Qed.

Lemma has_cleared t : has (Z.land t (Z.lnot ZEROPAD)) ZEROPAD = false.
Proof. unfold has. rewrite <- Z.land_assoc. by rewrite Z.land_0_r. Qed.

Definition dchar (small : bool) (d : Z) : Z := if d <? 10 then 48 + d else (if small then 87 else 55) + d.

Lemma digits_of_lookup small d : 0 <= d < 36 -> digits_of small !! Z.to_nat d = Some (dchar small d).
Proof.
  intros Hd.
  assert (Hall : Forall (fun d => digits_of small !! Z.to_nat d = Some (dchar small d)) (seqZ 0 36)).
  { destruct small; apply (bool_decide_unpack _); vm_compute; exact I. }
  rewrite Forall_forall in Hall. apply Hall, elem_of_seqZ. lia.
Qed.

Lemma digit_val_dchar small d : 0 <= d < 36 -> digit_val (dchar small d) = d.
Proof.
  intros Hd. assert (Hall : Forall (fun d => digit_val (dchar small d) = d) (seqZ 0 36)).
  { destruct small; apply (bool_decide_unpack _); vm_compute; exact I. }
  rewrite Forall_forall in Hall. apply Hall, elem_of_seqZ. lia.
Qed.

(** Dividing by the base leaves a bit less. *)
Lemma div_base_bound f num base :
  0 <= num < 2 ^ Z.of_nat (S f) -> 2 <= base -> 0 <= num / base < 2 ^ Z.of_nat f.
Proof.
  intros Hn Hb. split; [apply Z.div_pos; lia|]. apply Z.div_lt_upper_bound; [lia|].
  rewrite Nat2Z.inj_succ, Z.pow_succ_r in Hn by lia. assert (0 < 2 ^ Z.of_nat f) by lia. nia.
Qed.

Lemma number_digits_S f digits num base tmp :
  number_digits (S f) digits num base tmp =
    if num =? 0 then Some tmp else
    c ← digits !! Z.to_nat (num mod base); number_digits f digits (num / base) base (tmp ++ [c]).
Proof. done. Qed.
#[local] Arguments number_digits : simpl never.

Lemma number_digits_spec f small num base tmp :
  0 < num < 2 ^ Z.of_nat f -> 2 <= base <= 36 ->
  number_digits (S f) (digits_of small) num base tmp =
    Some (tmp ++ reverse (dchar small <$> be_digits f num base)).
Proof.
  intros Hn Hb. revert num tmp Hn. induction f as [|f IH]; intros num tmp Hn; [change (2 ^ Z.of_nat 0) with 1 in Hn; lia|].
  rewrite number_digits_S. cbn [be_digits]. destruct (Z.eqb_spec num 0); [lia|].
  assert (Hm : 0 <= num mod base < 36) by (pose proof (Z.mod_pos_bound num base ltac:(lia)); lia).
  rewrite digits_of_lookup by exact Hm. simpl mbind. rewrite fmap_app, reverse_app. simpl.
  destruct (div_base_bound f num base) as [H1 H2]; [lia..|].
  destruct (Z.ltb_spec 0 (num / base)) as [Hq|Hq].
  - rewrite IH by lia. by rewrite <- app_assoc.
  - replace (num / base) with 0 by lia. by rewrite number_digits_S.
Qed.

Lemma be_digits_head f num base : 0 < num < 2 ^ Z.of_nat f -> 2 <= base ->
  exists d ds, be_digits f num base = d :: ds /\ d <> 0.
Proof.
  intros Hn Hb. revert num Hn. induction f as [|f IH]; intros num Hn; [change (2 ^ Z.of_nat 0) with 1 in Hn; lia|].
  cbn [be_digits]. destruct (div_base_bound f num base) as [H1 H2]; [lia..|].
  destruct (Z.ltb_spec 0 (num / base)) as [Hq|Hq].
  - destruct (IH (num / base)) as (d & ds & -> & Hd); [lia|]. by exists d, (ds ++ [num mod base]).
  - exists (num mod base), []. split; [done|].
    pose proof (Z.div_mod num base ltac:(lia)) as Hdm.
    assert (E : num / base = 0) by lia. rewrite E in Hdm. lia.
Qed.

Lemma read_digits_dchar small base ds : 2 <= base <= 36 -> Forall (fun d => 0 <= d < base) ds ->
  read_digits base (dchar small <$> ds) = foldl (fun i d => i * base + d) 0 ds.
Proof.
  intros Hb Hds. unfold read_digits.
  assert (H : forall i, foldl (fun i c => i * base + digit_val c) i (dchar small <$> ds) =
                        foldl (fun i d => i * base + d) i ds); [|apply H].
  induction Hds as [|d ds Hd Hds IH]; intros i; [done|]. simpl.
  rewrite digit_val_dchar by lia. apply IH.
Qed.

(** The digits of a number: they read back, and the first is no zero. *)
Definition digits_ok (base num : Z) (ds : cstr) : Prop :=
  read_digits base ds = num /\ (ds = [48] \/ exists c ds', ds = c :: ds' /\ c <> 48).

Lemma number_tmp small z base : - 2 ^ 31 <= z < 2 ^ 31 -> 2 <= base <= 36 ->
  exists tmp, (if z =? 0 then Some [48]
               else number_digits (S tmp_size) (digits_of small) (u32 z) base []) = Some tmp /\
    digits_ok base (u32 z) (reverse tmp).
Proof.
  intros Hz Hb. destruct (Z.eqb_spec z 0) as [->|Hnz].
  { exists [48]. split; [done|]. split; [|by left]. done. }
  assert (Hn' : 0 < u32 z < 2 ^ Z.of_nat tmp_size).
  { split; [|apply Z.lt_trans with (2 ^ 32); [apply (u32_fits z)|done]].
    unfold u32. Z.to_euclidean_division_equations. lia. }
  rewrite number_digits_spec by done.
  eexists. split; [done|]. rewrite app_nil_l, reverse_involutive.
  pose proof (be_digits_bound tmp_size (u32 z) base ltac:(lia)) as Hbd. split.
  - rewrite read_digits_dchar by done. apply be_digits_value; lia.
  - right. destruct (be_digits_head tmp_size (u32 z) base) as (d & ds & E & Hd); [done|lia|].
    rewrite E in *. apply Forall_cons in Hbd as [Hd2 _].
    exists (dchar small d), (dchar small <$> ds). split; [done|].
    unfold dchar. repeat case_match; lia.
Qed.

Lemma i32_range z : - 2 ^ 31 <= i32 z < 2 ^ 31.
Proof. unfold i32. pose proof (Z.mod_pos_bound z (2 ^ 32) ltac:(lia)). repeat case_match; lia. Qed.

(** The number the digits are taken from. *)
Lemma number_magnitude num type :
  u32 (if has type SIGN && (i32 num <? 0) then i32 (- i32 num) else i32 num) = magnitude num type.
Proof.
  unfold magnitude. pose proof (i32_range num) as Hi.
  destruct (has type SIGN); simpl; [|apply u32_i32].
  destruct (Z.ltb_spec (i32 num) 0); [rewrite u32_i32|]; rewrite u32_small; lia.
Qed.

Lemma digits_of_33 small : digits_of small !! 33%nat = Some (if small then 120 else 88).
Proof. by destruct small. Qed.

(** The flags after LEFT has cleared ZEROPAD. *)
Definition pad_flags (type : Z) : Z := if has type LEFT then Z.land type (Z.lnot ZEROPAD) else type.

Lemma pad_flags_has type f : Z.land (Z.lnot ZEROPAD) f = f -> has (pad_flags type) f = has type f.
Proof. intros Hf. unfold pad_flags. case_match; [by apply has_clear|done]. Qed.

Lemma pad_flags_sign num type : sign_char num (pad_flags type) = sign_char num type.
Proof. unfold sign_char. by rewrite !pad_flags_has. Qed.

(** The sign and the prefix, and the room they take. *)
Lemma sign_size sg size :
  (if sg =? 0 then size else size - 1) = size - Z.of_nat (length (if sg =? 0 then [] else [sg])).
Proof. case_match; simpl; lia. Qed.
Lemma prefix_size base type size :
  (if has type SPECIAL then if base =? 16 then size - 2 else if base =? 8 then size - 1 else size else size)
  = size - Z.of_nat (length (prefix_part base type)).
Proof.
  unfold prefix_part. destruct (has type SPECIAL); [|simpl; lia].
  destruct (Z.eqb_spec base 8) as [->|]; simpl; [lia|]. case_match; simpl; lia.
Qed.
Lemma prefix_digits base type :
  (if has type SPECIAL then
     if base =? 8 then Some [48]
     else if base =? 16 then x ← digits_of (has type SMALL) !! 33%nat; Some [48; x] else Some []
   else Some []) = Some (prefix_part base type).
Proof. unfold prefix_part. rewrite digits_of_33. by repeat case_match. Qed.

Lemma pad_done n c : replicate (Z.to_nat (Z.min n 0 - 1)) c = ([] : cstr).
Proof. by replace (Z.to_nat _) with O by lia. Qed.

Lemma skip_atoi_length i s n s' : skip_atoi i s = (n, s') -> (length s' <= length s)%nat.
Proof.
  revert i. induction s as [|c s IH]; intros i; simpl; [by intros [= <- <-]|].
  destruct (is_digit c); [intros H%IH; lia|]. intros [= <- <-]. simpl. lia.
Qed.
Lemma vs_flags_length f s f' s' : vs_flags f s = (f', s') -> (length s' <= length s)%nat.
Proof.
  revert f. induction s as [|c s IH]; intros f; simpl; [by intros [= <- <-]|].
  destruct (flag_of c); [intros H%IH; lia|]. intros [= <- <-]. simpl. lia.
Qed.
Lemma next_length (s : cstr) : (length (next s) <= length s)%nat.
Proof. destruct s; simpl; lia. Qed.

(** Every part of a conversion leaves a suffix of the format. *)
Lemma vs_width_length f s a w f' s' a' : vs_width f s a = Some (w, f', s', a') -> (length s' <= length s)%nat.
Proof.
  unfold vs_width. destruct (is_digit _); [|destruct (_ =? 42)].
  - destruct (skip_atoi 0 s) eqn:E. apply skip_atoi_length in E. by intros [= <- <- <- <-].
  - destruct (va_int a) as [[v a2]|]; [|done]. simpl. case_match; by intros [= <- <- <- <-].
  - by intros [= <- <- <- <-].
Qed.
Lemma vs_precision_length s a p s' a' : vs_precision s a = Some (p, s', a') -> (length s' <= length s)%nat.
Proof.
  unfold vs_precision. destruct (_ =? 46); [|by intros [= <- <- <-]].
  pose proof (next_length s). destruct (is_digit _); [|destruct (_ =? 42)].
  - destruct (skip_atoi 0 (next s)) eqn:E. apply skip_atoi_length in E. intros [= <- <- <-]. lia.
  - destruct (va_int a) as [[v a2]|]; [|done]. by intros [= <- <- <-].
  - by intros [= <- <- <-].
Qed.
Lemma vs_convert_length f w p s a o o' s' a' :
  vs_convert f w p s a o = Some (o', s', a') -> (length s' <= length s)%nat.
Proof.
  assert (Hs : s' = next s -> (length s' <= length s)%nat) by (intros ->; apply next_length).
  unfold vs_convert, mbind, option_bind. intros E. apply Hs. by repeat case_match; simplify_eq.
Qed.

Lemma vs_step_length fmt a o o' fmt' a' :
  fmt <> [] -> vs_step fmt a o = Some (o', fmt', a') -> (length fmt' < length fmt)%nat.
Proof.
  unfold vs_step. destruct fmt as [|c fmt]; [done|]. intros _. case_match.
  { intros [= <- <- <-]. simpl. lia. }
  simpl next. destruct (vs_flags 0 fmt) as [f s1] eqn:E1. apply vs_flags_length in E1.
  destruct (vs_width f s1 a) as [[[[w f2] s2] a2]|] eqn:E2; [|done]. apply vs_width_length in E2. simpl.
  destruct (vs_precision s2 a2) as [[[p s3] a3]|] eqn:E3; [|done]. apply vs_precision_length in E3. simpl.
  intros E4%vs_convert_length. unfold vs_qualifier in E4. pose proof (next_length s3).
  destruct (_ || _) in E4; simpl in *; lia.
Qed.

(** ** Properties *)

(** C35. What number prints, for every base from 2 to 36, field width, precision and
    set of flags: spaces, the sign, the prefix 0 or 0x, zeros, the digits, spaces.
    The digits read back as the number (its absolute value under SIGN, the unsigned
    word else) and have no leading zero; the whole is as wide as asked for, or as
    wide as it has to be; LEFT puts the spaces behind, ZEROPAD uses zeros. *)
Theorem number_reads_back num base size precision type : 2 <= base <= 36 ->
  exists pad zs trail ds,
    let sgn := sign_part num type in
    let pfx := prefix_part base type in
    let out := replicate pad 32 ++ sgn ++ pfx ++ replicate zs 48 ++ ds ++ replicate trail 32 in
    number num base size precision type = Some out /\
    digits_ok base (magnitude num type) ds /\
    Z.of_nat (length out) =
      Z.max size (Z.of_nat (length sgn + length pfx) + Z.max precision (Z.of_nat (length ds))) /\
    (if has type LEFT then pad = O /\ zs = Z.to_nat (precision - Z.of_nat (length ds))
     else trail = O /\ (has type ZEROPAD = true -> pad = O)).
Proof.
  intros Hb. unfold number. fold (pad_flags type). rewrite pad_flags_sign.
  rewrite !(pad_flags_has type SIGN), !(pad_flags_has type SPECIAL), (pad_flags_has type LEFT) by done.
  destruct (Z.ltb_spec base 2); [lia|]. destruct (Z.ltb_spec 36 base); [lia|]. cbn [orb].
  rewrite <- number_magnitude.
  assert (Hr : - 2 ^ 31 <= (if has type SIGN && (i32 num <? 0) then i32 (- i32 num) else i32 num) < 2 ^ 31)
    by (case_match; apply i32_range).
  destruct (number_tmp (has type SMALL) _ base Hr Hb) as (tmp & -> & Hds). cbn [mbind option_bind].
  set (m := u32 _) in *. clearbody m. clear Hr.
  change (ZEROPAD + LEFT) with (Z.lor ZEROPAD LEFT). rewrite has_lor, (pad_flags_has type LEFT) by done.
  replace (has (pad_flags type) ZEROPAD) with (negb (has type LEFT) && has type ZEROPAD)
    by (unfold pad_flags; destruct (has type LEFT) eqn:EL; [by rewrite has_cleared|done]).
  rewrite sign_size, prefix_size, prefix_digits. fold (sign_part num type). cbn [mbind option_bind].
  set (i := Z.of_nat (length tmp)).
  set (sgn := sign_part num type). set (pfx := prefix_part base type).
  assert (Hl : Z.of_nat (length (reverse tmp)) = i) by (unfold i; by rewrite length_reverse).
  replace (if precision <? i then i else precision) with (Z.max precision i) by (case_match; lia).
  set (r := size - Z.of_nat (length sgn) - Z.of_nat (length pfx) - Z.max precision i).
  set (z := Z.to_nat (Z.max precision i - i)).
  destruct (has type LEFT), (has type ZEROPAD); cbn [negb andb orb pad_loop];
    [exists O, z, (Z.to_nat r), (reverse tmp)|exists O, z, (Z.to_nat r), (reverse tmp)
    |exists O, (Z.to_nat r + z)%nat, O, (reverse tmp)|exists (Z.to_nat r), z, O, (reverse tmp)].
  all: split_and!; try done.
  all: try (rewrite !length_app, !length_replicate; lia).
  all: rewrite ?Hl, ?pad_done; try (unfold z; lia).
  - by rewrite replicate_add, <- !app_assoc.
  - replace (Z.min (Z.min r 0 - 1) 0 - 1) with (Z.min (Z.min r 0) 0 - 2) by lia.
    by replace (Z.to_nat (Z.min (Z.min r 0) 0 - 2)) with O by lia.
Qed.

(** printf's conversion %#012x of 0xdeadbeef. *)
Lemma number_reads_back_witness :
  2 <= 16 <= 36 /\
  exists pad zs trail ds,
    number 0xdeadbeef 16 12 (-1) (Z.lor SPECIAL (Z.lor SMALL ZEROPAD)) =
      Some (replicate pad 32 ++ [] ++ [48; 120] ++ replicate zs 48 ++ ds ++ replicate trail 32) /\
    digits_ok 16 0xdeadbeef ds.
Proof.
  split; [lia|].
  destruct (number_reads_back 0xdeadbeef 16 12 (-1) (Z.lor SPECIAL (Z.lor SMALL ZEROPAD)) ltac:(lia))
    as (pad & zs & trail & ds & Hn & Hd & _).
  exists pad, zs, trail, ds. split; [exact Hn|exact Hd].
Defined.

Example printed_numbers :
  number 0xdeadbeef 16 12 (-1) (Z.lor SPECIAL (Z.lor SMALL ZEROPAD)) =
    Some [48; 120; 48; 48; 100; 101; 97; 100; 98; 101; 101; 102] /\
  number (2 ^ 31) 10 0 (-1) SIGN = Some [45; 50; 49; 52; 55; 52; 56; 51; 54; 52; 56].
Proof. by vm_compute. Qed.

(** C36. vsprintf ends on every format and list of arguments: each turn of its loop
    passes at least one byte of the format, so [vsprintf]'s fuel, the length of the
    format, is enough and more changes nothing. *)
Theorem vsprintf_terminates fmt args o fuel : (length fmt <= fuel)%nat ->
  vs_loop fuel fmt args o = vs_loop (length fmt) fmt args o /\
  vs_loop fuel fmt args o <> VsOutOfFuel.
Proof.
  intros Hf. assert (H : forall n m fmt args o, (length fmt <= n)%nat -> (length fmt <= m)%nat ->
    vs_loop n fmt args o = vs_loop m fmt args o /\ vs_loop n fmt args o <> VsOutOfFuel).
  { clear. induction n as [|n IH]; intros m fmt args o Hn Hm; destruct fmt as [|c fmt]; simpl in Hn; try lia.
    - by destruct m.
    - by destruct m.
    - destruct m as [|m]; simpl in Hm; [lia|]. cbn [vs_loop].
      destruct (vs_step (c :: fmt) args o) as [[[o' fmt'] args']|] eqn:E; [|done].
      apply vs_step_length in E; [|done]. simpl in E. apply IH; lia. }
  by apply H.
Qed.

Lemma vsprintf_terminates_witness :
  (length [37; 42; 100] <= 5)%nat /\
  vs_loop 5 [37; 42; 100] [VInt 5; VInt 7] (mkOut [] []) <> VsOutOfFuel.
Proof. split; [simpl; lia|]. apply (vsprintf_terminates [37; 42; 100]). simpl. lia. Defined.

(** A width given as an argument is read and forgotten: the star is printed, and the
    number is not converted ("%*d" of 5 and 7). *)
Example star_width_is_printed : vsprintf [37; 42; 100] [VInt 5; VInt 7] = VsDone (mkOut [37; 42; 100] []).
Proof. by vm_compute. Qed.
