(* ===== verification/Bitmap.v ===== *)
(** Bit arrays (the bit operations of include/asm/x86.h and
    include/data_structures/bitmap.h). A bitmap is the list of its 32-bit words;
    a position outside of it is [None]. *)

From S2P Require Import Prelude.

(** * Definitions *)

(** ** One word *)

(** bsfl of the complement; 32 when every bit is set. *)
Definition bit_find_first_zero (w : Z) : Z :=
  default 32 (snd <$> list_find (fun i => Z.testbit w i = false) (seqZ 0 32)).
(** bsrl of the complement. *)
Definition bit_find_last_zero (w : Z) : Z :=
  default 32 (snd <$> list_find (fun i => Z.testbit w i = false) (reverse (seqZ 0 32))).

(** The bit instructions with a register operand take the bit modulo 32. *)
Definition bit_set (w bit : Z) : Z := Z.lor w (Z.shiftl 1 (bit mod 32)).
Definition bit_reset (w bit : Z) : Z := Z.ldiff w (Z.shiftl 1 (bit mod 32)).
Definition bit_complement (w bit : Z) : Z := Z.lxor w (Z.shiftl 1 (bit mod 32)).
Definition bit_test (w bit : Z) : bool := Z.testbit w (bit mod 32).

(** ** The array *)

(** [words] are the first [size >> 2] words. *)
Fixpoint find_zero_from (i : Z) (words : list Z) : Z :=
  match words with
  | [] => -1
  | w :: ws =>
      if w =? 0xffffffff then find_zero_from (i + 1) ws
      else 32 * i + bit_find_first_zero w
  end.
Definition bitmap_find_first_zero (bm : list Z) (size : Z) : Z :=
  find_zero_from 0 (take (Z.to_nat (Z.shiftr size 2)) bm).

Definition bitmap_upd (f : Z -> Z -> Z) (bm : list Z) (pos : Z) : option (list Z) :=
  w ← bm !! Z.to_nat (pos / 32); Some (<[Z.to_nat (pos / 32) := f w (pos mod 32)]> bm).
Definition bitmap_set := bitmap_upd bit_set.
Definition bitmap_reset := bitmap_upd bit_reset.
Definition bitmap_complement := bitmap_upd bit_complement.
Definition bitmap_test (bm : list Z) (pos : Z) : option bool :=
  w ← bm !! Z.to_nat (pos / 32); Some (bit_test w (pos mod 32)).

(** * Lemmas *)

(** The bitmap as a predicate on positions. *)
Definition bm_bit (bm : list Z) (pos : Z) : bool := default false (bitmap_test bm pos).
Definition bm_wf (bm : list Z) : Prop := Forall (fits 32) bm.
Definition bm_len (bm : list Z) : Z := 32 * Z.of_nat (length bm).

Lemma full_word w : fits 32 w -> (forall i, 0 <= i < 32 -> Z.testbit w i = true) -> w = 0xffffffff.
Proof.
  intros Hw Hall. apply Z.bits_inj'. intros i Hi. change 0xffffffff with (Z.ones 32).
  destruct (Z.ltb_spec i 32).
  - rewrite Hall by lia. by rewrite Z.ones_spec_low by lia.
  - rewrite (testbit_high w 32) by done. by rewrite Z.ones_spec_high by lia.
Qed.

Lemma full_word_bits i : 0 <= i < 32 -> Z.testbit 0xffffffff i = true.
Proof. intros. change 0xffffffff with (Z.ones 32). by rewrite Z.ones_spec_low by lia. Qed.

Lemma bit_find_first_zero_spec w :
  fits 32 w -> w <> 0xffffffff ->
  let p := bit_find_first_zero w in
  0 <= p < 32 /\ Z.testbit w p = false /\ forall j, 0 <= j < p -> Z.testbit w j = true.
Proof.
  intros Hw Hne p. unfold p, bit_find_first_zero.
  destruct (list_find _ _) as [[k x]|] eqn:E; simpl.
  - apply list_find_Some in E as (Hk & Hx & Hmin).
    apply lookup_seqZ in Hk as [-> Hk]. split_and!; [lia|lia|done|].
    intros j Hj. destruct (Z.testbit w j) eqn:Ej; [done|].
    exfalso. eapply (Hmin (Z.to_nat j) j); [|lia|done]. apply lookup_seqZ. lia.
  - apply list_find_None in E. exfalso. apply Hne, full_word; [done|].
    intros i Hi. rewrite Forall_forall in E. specialize (E i ltac:(apply elem_of_seqZ; lia)).
    simpl in E. by destruct (Z.testbit w i).
Qed.

Lemma find_zero_from_spec i words :
  0 <= i -> Forall (fits 32) words ->
  let r := find_zero_from i words in
  (r = -1 /\ Forall (.= 0xffffffff) words) \/
  (32 * i <= r < 32 * (i + Z.of_nat (length words)) /\
   exists w, words !! Z.to_nat (r / 32 - i) = Some w /\ Z.testbit w (r mod 32) = false /\
     (forall j, 0 <= j < r mod 32 -> Z.testbit w j = true) /\
     (forall k v, 0 <= k < r / 32 - i -> words !! Z.to_nat k = Some v -> v = 0xffffffff)).
Proof.
  intros Hi Hws. revert i Hi. induction Hws as [|w ws Hw Hws IH]; intros i Hi; simpl.
  { left. by split. }
  destruct (Z.eqb_spec w 0xffffffff) as [->|Hne].
  - destruct (IH (i + 1) ltac:(lia)) as [[-> Hall]|(Hr & w & Hl & Hb & Hlow & Hpre)].
    + left. split; [done|by constructor].
    + right. set (r := find_zero_from (i + 1) ws) in *. split; [lia|].
      assert (i + 1 <= r / 32) by (apply Z.div_le_lower_bound; lia).
      exists w. replace (Z.to_nat (r / 32 - i)) with (S (Z.to_nat (r / 32 - (i + 1)))) by lia.
      split_and!; [done|done|done|]. intros k v Hk Hv.
      destruct (Z.eqb_spec k 0) as [->|]; [by injection Hv|].
      replace (Z.to_nat k) with (S (Z.to_nat (k - 1))) in Hv by lia.
      apply (Hpre (k - 1)); [lia|done].
  - right. destruct (bit_find_first_zero_spec w Hw Hne) as (Hp & Hb & Hlow).
    set (p := bit_find_first_zero w) in *.
    assert (Hd : (32 * i + p) / 32 = i).
    { symmetry. apply (Z.div_unique _ _ _ p); lia. }
    assert (Hm : (32 * i + p) mod 32 = p).
    { symmetry. apply (Z.mod_unique _ _ i); lia. }
    split; [lia|]. exists w. rewrite Hd, Hm, Z.sub_diag. split_and!; [done|done|done|].
    intros k v Hk. lia.
Qed.

Lemma bm_bit_lookup bm pos w :
  bm !! Z.to_nat (pos / 32) = Some w -> bm_bit bm pos = Z.testbit w (pos mod 32).
Proof.
  intros Hw. unfold bm_bit, bitmap_test. rewrite Hw. simpl. unfold bit_test.
  by rewrite Z.mod_mod by lia.
Qed.

Lemma bm_word bm pos :
  0 <= pos < bm_len bm -> exists w, bm !! Z.to_nat (pos / 32) = Some w.
Proof.
  intros Hp. apply lookup_lt_is_Some. unfold bm_len in Hp.
  assert (pos / 32 < Z.of_nat (length bm)) by (apply Z.div_lt_upper_bound; lia).
  assert (0 <= pos / 32) by (apply Z.div_pos; lia). lia.
Qed.

(** The result of the search: the first clear position of the whole bitmap. *)
Lemma bitmap_ffz_spec bm :
  bm_wf bm ->
  let r := bitmap_find_first_zero bm (4 * Z.of_nat (length bm)) in
  (r = -1 /\ forall j, 0 <= j < bm_len bm -> bm_bit bm j = true) \/
  (0 <= r < bm_len bm /\ bm_bit bm r = false /\ forall j, 0 <= j < r -> bm_bit bm j = true).
Proof.
  intros Hwf r. assert (Hr0 : r = find_zero_from 0 bm).
  { unfold r, bitmap_find_first_zero.
    replace (Z.to_nat (Z.shiftr (4 * Z.of_nat (length bm)) 2)) with (length bm).
    - by rewrite take_ge by lia.
    - rewrite Z.shiftr_div_pow2 by lia. change (2 ^ 2) with 4.
      rewrite Z.mul_comm, Z.div_mul by lia. lia. }
  destruct (find_zero_from_spec 0 bm ltac:(lia) Hwf) as [[Hr Hall]|(Hr & w & Hl & Hb & Hlow & Hpre)];
    cbv zeta in *; rewrite <- Hr0 in *; clearbody r; clear Hr0.
  - left. split; [done|]. intros j Hj. destruct (bm_word bm j Hj) as [w Hw].
    rewrite (bm_bit_lookup _ _ _ Hw). rewrite Forall_lookup in Hall. rewrite (Hall _ _ Hw).
    apply full_word_bits. by apply Z.mod_pos_bound.
  - right. unfold bm_len. rewrite Z.sub_0_r in *. split_and!; [lia|lia| |].
    + by rewrite (bm_bit_lookup _ _ _ Hl).
    + intros j Hj. destruct (bm_word bm j) as [v Hv]; [unfold bm_len; lia|].
      rewrite (bm_bit_lookup _ _ _ Hv).
      assert (j / 32 <= r / 32) by (apply Z.div_le_mono; lia).
      assert (0 <= j / 32) by (apply Z.div_pos; lia).
      destruct (Z.eqb_spec (j / 32) (r / 32)) as [E|Hne].
      * rewrite E in Hv. simplify_eq. apply Hlow.
        pose proof (Z.div_mod j 32). pose proof (Z.div_mod r 32).
        pose proof (Z.mod_pos_bound j 32). lia.
      * rewrite (Hpre (j / 32) v); [|lia|done]. apply full_word_bits. by apply Z.mod_pos_bound.
Qed.

Lemma testbit_shiftl1 b i : 0 <= b -> 0 <= i -> Z.testbit (Z.shiftl 1 b) i = (i =? b).
Proof.
  intros. rewrite Z.shiftl_spec by lia. destruct (Z.eqb_spec i b) as [->|].
  - by rewrite Z.sub_diag.
  - destruct (Z.ltb_spec i b); [by rewrite Z.testbit_neg_r by lia|].
    change 1 with (2 ^ 0). by rewrite Z.pow2_bits_false by lia.
Qed.

(** An update acts on one position. *)
Lemma bitmap_upd_spec f (g : bool -> bool) bm pos :
  (forall w b i, 0 <= b < 32 -> 0 <= i ->
     Z.testbit (f w b) i = if i =? b then g (Z.testbit w i) else Z.testbit w i) ->
  (forall w b, fits 32 w -> 0 <= b < 32 -> fits 32 (f w b)) ->
  bm_wf bm -> 0 <= pos < bm_len bm ->
  exists bm', bitmap_upd f bm pos = Some bm' /\ bm_wf bm' /\ length bm' = length bm /\
    bm_bit bm' pos = g (bm_bit bm pos) /\
    forall j, 0 <= j -> j <> pos -> bm_bit bm' j = bm_bit bm j.
Proof.
  intros Hf Hfits Hwf Hp. destruct (bm_word bm pos Hp) as [w Hw].
  pose proof (Z.mod_pos_bound pos 32 ltac:(lia)) as Hpm.
  unfold bitmap_upd. rewrite Hw. simpl. eexists. split; [done|].
  assert (Hl : (Z.to_nat (pos / 32) < length bm)%nat) by (by eapply lookup_lt_Some).
  split_and!.
  - apply Forall_insert; [done|]. apply Hfits; [|lia]. unfold bm_wf in Hwf.
    rewrite Forall_lookup in Hwf. by eapply Hwf.
  - apply length_insert.
  - rewrite (bm_bit_lookup _ _ (f w (pos mod 32))) by (by apply list_lookup_insert_eq).
    rewrite Hf by lia. rewrite Z.eqb_refl. by rewrite (bm_bit_lookup _ _ _ Hw).
  - intros j Hj Hne. destruct (decide (Z.to_nat (j / 32) = Z.to_nat (pos / 32))) as [E|Hd].
    + rewrite (bm_bit_lookup _ j (f w (pos mod 32))) by (rewrite E; by apply list_lookup_insert_eq).
      rewrite (bm_bit_lookup bm j w) by (by rewrite E).
      pose proof (Z.mod_pos_bound j 32 ltac:(lia)).
      rewrite Hf by lia. destruct (Z.eqb_spec (j mod 32) (pos mod 32)) as [Em|]; [|done].
      assert (0 <= j / 32) by (apply Z.div_pos; lia). assert (0 <= pos / 32) by (apply Z.div_pos; lia).
      pose proof (Z.div_mod j 32). pose proof (Z.div_mod pos 32). lia.
    + unfold bm_bit, bitmap_test. by rewrite list_lookup_insert_ne by done.
Qed.

Lemma fits_bits w : 0 <= w -> (forall i, 32 <= i -> Z.testbit w i = false) -> fits 32 w.
Proof.
  intros Hw Hb. replace w with (w mod 2 ^ 32); [apply Z.mod_pos_bound; lia|].
  apply Z.bits_inj'. intros i Hi. destruct (Z.ltb_spec i 32).
  - by rewrite Z.mod_pow2_bits_low.
  - rewrite Z.mod_pow2_bits_high by lia. by rewrite Hb.
Qed.

Lemma bitmap_set_spec bm pos :
  bm_wf bm -> 0 <= pos < bm_len bm ->
  exists bm', bitmap_set bm pos = Some bm' /\ bm_wf bm' /\ length bm' = length bm /\
    bm_bit bm' pos = true /\ forall j, 0 <= j -> j <> pos -> bm_bit bm' j = bm_bit bm j.
Proof.
  assert (Hs : forall w b i, 0 <= b < 32 -> 0 <= i ->
    Z.testbit (bit_set w b) i = if i =? b then true else Z.testbit w i).
  { intros w b i Hb Hi. unfold bit_set. rewrite Z.lor_spec, Z.mod_small, testbit_shiftl1 by lia.
    destruct (i =? b); [by rewrite orb_true_r|by rewrite orb_false_r]. }
  apply (bitmap_upd_spec bit_set (fun _ => true)); [done|].
  intros w b Hw Hb. apply fits_bits.
  - unfold bit_set. apply Z.lor_nonneg. split; [apply Hw|]. apply Z.shiftl_nonneg. lia.
  - intros i Hi. rewrite Hs by lia. destruct (Z.eqb_spec i b); [lia|]. by apply (testbit_high w 32).
Qed.

Lemma bitmap_reset_spec bm pos :
  bm_wf bm -> 0 <= pos < bm_len bm ->
  exists bm', bitmap_reset bm pos = Some bm' /\ bm_wf bm' /\ length bm' = length bm /\
    bm_bit bm' pos = false /\ forall j, 0 <= j -> j <> pos -> bm_bit bm' j = bm_bit bm j.
Proof.
  assert (Hs : forall w b i, 0 <= b < 32 -> 0 <= i ->
    Z.testbit (bit_reset w b) i = if i =? b then false else Z.testbit w i).
  { intros w b i Hb Hi. unfold bit_reset. rewrite Z.ldiff_spec, Z.mod_small, testbit_shiftl1 by lia.
    destruct (i =? b); [by rewrite andb_false_r|by rewrite andb_true_r]. }
  apply (bitmap_upd_spec bit_reset (fun _ => false)); [done|].
  intros w b Hw Hb. apply fits_bits.
  - unfold bit_reset. apply Z.ldiff_nonneg. left. apply Hw.
  - intros i Hi. rewrite Hs by lia. destruct (i =? b); [done|]. by apply (testbit_high w 32).
Qed.
