(* ===== verification/IdHash.v ===== *)
(** The id hash table (include/wmc/idhashtable.h): chained buckets of nodes
    that live inside the objects they index.

    The store maps node addresses to their two link words and to the id word
    of the surrounding object. The refinement theorem relates the chains to a
    finite map from ids to nodes. *)

From S2P Require Import Prelude.

(** * Definitions *)

(** IdHashTableNode, with the id its object has. *)
Record hnode := mkHnode { h_prev : Z; h_next : Z; h_id : Z }.

(** [tab]: __table, one word per bucket; [hcount]: __count. *)
Record idht := mkIdht { tab : list Z; hcount : Z; hnodes : gmap Z hnode }.

Definition hrd (n : Z) : M idht hnode := t ← get; deref (hnodes t !! n).
Definition hwr (n : Z) (f : hnode -> hnode) : M idht unit :=
  nd ← hrd n; modify (fun t => mkIdht (tab t) (hcount t) (<[n := f nd]> (hnodes t))).
Definition h_set_prev (p : Z) (nd : hnode) := mkHnode p (h_next nd) (h_id nd).
Definition h_set_next (p : Z) (nd : hnode) := mkHnode (h_prev nd) p (h_id nd).

Definition ht_init (memory_size : Z) : M idht unit :=
  modify (fun t => mkIdht (replicate (Z.to_nat (memory_size / 4)) NULL) 0 (hnodes t)).

Definition hnode_init (n : Z) : M idht unit :=
  hwr n (fun nd => mkHnode NULL NULL (h_id nd)).
Definition hnode_is_free (nd : hnode) : bool := (h_prev nd =? NULL) && (h_next nd =? NULL).

Definition bucket_of (id : Z) : M idht Z :=
  t ← get; mret (id mod Z.of_nat (length (tab t))).
Definition bucket_head (hash : Z) : M idht Z :=
  t ← get; deref (tab t !! Z.to_nat hash).
Definition bucket_set (hash n : Z) : M idht unit :=
  modify (fun t => mkIdht (<[Z.to_nat hash := n]> (tab t)) (hcount t) (hnodes t)).
Definition add_count (d : Z) : M idht unit :=
  modify (fun t => mkIdht (tab t) (u32 (hcount t + d)) (hnodes t)).

(** The walk down a chain: the first node with this id, or NULL. *)
Fixpoint ht_walk (fuel : nat) (i id : Z) : M idht Z :=
  match fuel with
  | O => stop OutOfFuel
  | S f =>
      if i =? NULL then mret NULL else
      nd ← hrd i;
      if h_id nd =? id then mret i else ht_walk f (h_next nd) id
  end.

(** A chain has no more nodes than there are nodes. *)
Definition ht_fuel (t : idht) : nat := S (size (hnodes t)).

Definition ht_put (n : Z) : M idht Z :=
  nd ← hrd n;
  if negb (hnode_is_free nd) then mret (-1) else
  hash ← bucket_of (h_id nd);
  i ← bucket_head hash;
  t ← get;
  r ← ht_walk (ht_fuel t) i (h_id nd);
  if negb (r =? NULL) then mret (-1) else
  (if negb (i =? NULL)
   then hwr n (h_set_next i) ;; hwr i (h_set_prev n)
   else hwr n (h_set_prev 0xffffffff)) ;;
  bucket_set hash n ;;
  add_count 1 ;;
  mret 0.

Definition ht_get (id : Z) : M idht Z :=
  hash ← bucket_of id;
  i ← bucket_head hash;
  t ← get;
  ht_walk (ht_fuel t) i id.

Definition ht_remove (n : Z) : M idht Z :=
  nd ← hrd n;
  let unlink :=
    nd ← hrd n;
    when (negb (h_next nd =? NULL)) (hwr (h_next nd) (h_set_prev (h_prev nd))) ;;
    hwr n (h_set_prev NULL) ;; hwr n (h_set_next NULL) ;;
    add_count (-1) ;;
    mret 0 in
  if negb (h_prev nd =? NULL) then
    hwr (h_prev nd) (h_set_next (h_next nd)) ;; unlink
  else
    hash ← bucket_of (h_id nd);
    i ← bucket_head hash;
    if negb (i =? n) then mret (-1) else
    bucket_set hash (h_next nd) ;; unlink.

(** * Representation *)

Implicit Types (t : idht) (m : gmap Z Z) (xs : list Z).

Fixpoint chain (hn : gmap Z hnode) (p : Z) xs : Prop :=
  match xs with
  | [] => p = NULL
  | x :: xs' => p = x /\ exists nd, hn !! x = Some nd /\ chain hn (h_next nd) xs'
  end.

Definition nid (hn : gmap Z hnode) (n : Z) : option Z := h_id <$> hn !! n.

(** The buckets [bs] hold the nodes of [m], each in the bucket of its id. *)
Record ht_repr t m (bs : list (list Z)) : Prop := {
  hr_len : length bs = length (tab t);
  hr_pos : (0 < length (tab t))%nat;
  hr_chain : forall k p xs, tab t !! k = Some p -> bs !! k = Some xs -> chain (hnodes t) p xs;
  hr_bucket : forall k xs n, bs !! k = Some xs -> n ∈ xs ->
    exists id, nid (hnodes t) n = Some id /\ m !! id = Some n /\
      k = Z.to_nat (id mod Z.of_nat (length (tab t)));
  hr_nodup : forall k xs, bs !! k = Some xs -> NoDup xs;
  hr_map : forall id n, m !! id = Some n ->
    0 <= id /\ n <> NULL /\ nid (hnodes t) n = Some id /\
    exists xs, bs !! Z.to_nat (id mod Z.of_nat (length (tab t))) = Some xs /\ n ∈ xs;
  hr_used : forall id n, m !! id = Some n ->
    exists nd, hnodes t !! n = Some nd /\ hnode_is_free nd = false;
}.

Lemma chain_frame hn hn' p xs :
  chain hn p xs ->
  (forall x nd, x ∈ xs -> hn !! x = Some nd ->
     exists nd', hn' !! x = Some nd' /\ h_next nd' = h_next nd) ->
  chain hn' p xs.
Proof.
  revert p. induction xs as [|x xs IH]; intros p; simpl; [done|].
  intros (-> & nd & Hx & Hc) Hs. split; [done|].
  destruct (Hs x nd ltac:(set_solver) Hx) as (nd' & Hx' & En).
  exists nd'. rewrite En. split; [done|]. apply IH; [done|]. intros. apply Hs; set_solver.
Qed.

Lemma chain_dom hn p xs x : chain hn p xs -> x ∈ xs -> is_Some (hn !! x).
Proof.
  revert p. induction xs as [|y xs IH]; intros p; simpl; [set_solver|].
  intros (-> & nd & Hy & Hc) [->|Hin]%elem_of_cons; [by rewrite Hy|by eapply IH].
Qed.

(** The walk finds the node with the id among the nodes of the chain. *)
Lemma ht_walk_chain t fuel p xs id :
  chain (hnodes t) p xs -> (length xs < fuel)%nat -> Forall (.≠ NULL) xs ->
  exists r, ht_walk fuel p id t = Done r t /\
    ((r = NULL /\ forall x, x ∈ xs -> nid (hnodes t) x <> Some id) \/
     (r ∈ xs /\ nid (hnodes t) r = Some id)).
Proof.
  revert p xs. induction fuel as [|f IH]; intros p xs Hc Hl Hnz; [lia|]. simpl.
  destruct xs as [|x xs]; simpl in *.
  - subst p. rewrite Z.eqb_refl. exists NULL. split; [done|]. left. set_solver.
  - destruct Hc as (-> & nd & Hx & Hc). apply Forall_cons in Hnz as [Hx0 Hnz].
    destruct (Z.eqb_spec x NULL); [done|].
    unfold hrd. m_unfold. rewrite Hx.
    destruct (Z.eqb_spec (h_id nd) id) as [<-|Hne].
    + exists x. split; [done|]. right. unfold nid. rewrite Hx. set_solver.
    + destruct (IH (h_next nd) xs Hc ltac:(lia) Hnz) as (r & Hr & Hcase).
      exists r. split; [exact Hr|]. destruct Hcase as [[-> Hno]|[Hin Hid]].
      * left. split; [done|]. intros y [->|Hy]%elem_of_cons; [|by apply Hno].
        unfold nid. rewrite Hx. simpl. congruence.
      * right. split; [set_solver|done].
Qed.

Section repr.
Context t m bs (R : ht_repr t m bs).

Lemma hr_hash_lt id :
  (Z.to_nat (id mod Z.of_nat (length (tab t))) < length (tab t))%nat.
Proof.
  pose proof (hr_pos _ _ _ R). pose proof (Z.mod_pos_bound id (Z.of_nat (length (tab t)))). lia.
Qed.

Lemma hr_at id :
  let k := Z.to_nat (id mod Z.of_nat (length (tab t))) in
  exists p xs, tab t !! k = Some p /\ bs !! k = Some xs /\ chain (hnodes t) p xs /\
    (length xs < ht_fuel t)%nat /\ Forall (.≠ NULL) xs.
Proof.
  intros k. pose proof (hr_hash_lt id) as Hk. fold k in Hk.
  destruct (lookup_lt_is_Some_2 _ _ Hk) as [p Hp].
  rewrite <- (hr_len _ _ _ R) in Hk. destruct (lookup_lt_is_Some_2 _ _ Hk) as [xs Hxs].
  exists p, xs. pose proof (hr_chain _ _ _ R k p xs Hp Hxs) as Hc.
  split_and!; [done|done|done| |].
  - unfold ht_fuel. apply Nat.lt_succ_r.
    rewrite <- (size_dom (hnodes t)), <- (size_list_to_set (C:=gset Z) xs)
      by (by eapply hr_nodup).
    apply subseteq_size. intros x Hx%elem_of_list_to_set. apply elem_of_dom. by eapply chain_dom.
  - apply Forall_forall. intros x Hx.
    destruct (hr_bucket _ _ _ R k xs x Hxs Hx) as (i & _ & Hm & _). by eapply hr_map.
Qed.

(** get is the finite map's lookup. *)
Lemma ht_get_run id : 0 <= id -> ht_get id t = Done (default NULL (m !! id)) t.
Proof.
  intros Hid. destruct (hr_at id) as (p & xs & Hp & Hxs & Hc & Hl & Hnz).
  unfold ht_get, bucket_of, bucket_head. m_unfold. rewrite Hp.
  destruct (ht_walk_chain t _ p xs id Hc Hl Hnz) as (r & -> & Hcase). f_equal.
  destruct Hcase as [[-> Hno]|[Hin Hn]].
  - destruct (m !! id) as [n|] eqn:E; [|done]. exfalso.
    destruct (hr_map _ _ _ R _ _ E) as (_ & _ & Hnid & ys & Hys & Hin).
    rewrite Hxs in Hys. simplify_eq. by apply (Hno n).
  - destruct (hr_bucket _ _ _ R _ xs r Hxs Hin) as (i & Hi & Hm & _).
    rewrite Hn in Hi. simplify_eq. by rewrite Hm.
Qed.
End repr.

(** The store after a put: the new node, the old head, the bucket. *)
Lemma ht_put_repr t m bs n nd p xs hn' :
  ht_repr t m bs -> hnodes t !! n = Some nd -> hnode_is_free nd = true ->
  0 <= h_id nd -> n <> NULL -> m !! h_id nd = None ->
  let k := Z.to_nat (h_id nd mod Z.of_nat (length (tab t))) in
  tab t !! k = Some p -> bs !! k = Some xs ->
  (exists nd', hn' !! n = Some nd' /\ h_next nd' = p /\ h_id nd' = h_id nd /\ hnode_is_free nd' = false) ->
  (forall x nx, x <> n -> hnodes t !! x = Some nx ->
     exists nx', hn' !! x = Some nx' /\ h_next nx' = h_next nx /\ h_id nx' = h_id nx /\
       (hnode_is_free nx = false -> hnode_is_free nx' = false)) ->
  ht_repr (mkIdht (<[k := n]> (tab t)) (u32 (hcount t + 1)) hn') (<[h_id nd := n]> m)
          (<[k := n :: xs]> bs).
Proof.
  intros R Hn Hf Hid Hn0 Hm k Hp Hxs (nd' & Hnd' & Enx & Eid & Enf) Hother.
  assert (Hkeq : Z.to_nat (h_id nd mod Z.of_nat (length (tab t))) = k) by done. clearbody k.
  assert (Hk : (k < length (tab t))%nat) by (by eapply lookup_lt_Some).
  assert (Hkb : (k < length bs)%nat) by (by eapply lookup_lt_Some).
  assert (Hnotin : forall j ys, bs !! j = Some ys -> n ∉ ys).
  { intros j ys Hj Hin. destruct (hr_bucket _ _ _ R j ys n Hj Hin) as (id & Hi & Hmi & _).
    unfold nid in Hi. rewrite Hn in Hi. simpl in Hi. congruence. }
  assert (Hnid : forall x id, nid (hnodes t) x = Some id -> nid hn' x = Some id).
  { intros x id. unfold nid. destruct (decide (x = n)) as [->|Hne].
    - rewrite Hn, Hnd'. simpl. congruence.
    - destruct (hnodes t !! x) as [nx|] eqn:Ex; [|done]. simpl.
      destruct (Hother x nx Hne Ex) as (nx' & -> & _ & Ei & _). simpl. congruence. }
  split; simpl; rewrite ?length_insert.
  - apply (hr_len _ _ _ R).
  - apply (hr_pos _ _ _ R).
  - intros j q ys Hq Hys. destruct (decide (j = k)) as [->|Hj].
    + rewrite list_lookup_insert_eq in Hq by done; rewrite list_lookup_insert_eq in Hys by done. simplify_eq. simpl. split; [done|].
      exists nd'. split; [done|]. eapply chain_frame; [by eapply hr_chain|].
      intros x nx Hx Hnx. destruct (Hother x nx) as (nx' & ? & ? & _); eauto.
      intros ->. by eapply Hnotin.
    + rewrite list_lookup_insert_ne in Hq by done; rewrite list_lookup_insert_ne in Hys by done.
      eapply chain_frame; [by eapply hr_chain|].
      intros x nx Hx Hnx. destruct (Hother x nx) as (nx' & ? & ? & _); eauto.
      intros ->. by eapply Hnotin.
  - intros j ys x Hys Hx.
    assert (Hold : forall zs, bs !! j = Some zs -> x ∈ zs ->
      exists id, nid hn' x = Some id /\ <[h_id nd:=n]> m !! id = Some x /\
        j = Z.to_nat (id mod Z.of_nat (length (tab t)))).
    { intros zs Hzs Hin. destruct (hr_bucket _ _ _ R j zs x Hzs Hin) as (id & Hi & Hmi & Hj).
      exists id. split_and!; [by apply Hnid| |done]. rewrite lookup_insert_ne by congruence. done. }
    destruct (decide (j = k)) as [->|Hj].
    + rewrite list_lookup_insert_eq in Hys by done. simplify_eq.
      apply elem_of_cons in Hx as [->|Hx]; [|by eapply Hold].
      exists (h_id nd). unfold nid. rewrite Hnd', lookup_insert_eq. simpl. split_and!; [congruence|done|done].
    + rewrite list_lookup_insert_ne in Hys by done. by eapply Hold.
  - intros j ys Hys. destruct (decide (j = k)) as [->|Hj].
    + rewrite list_lookup_insert_eq in Hys by done. simplify_eq.
      constructor; [by eapply Hnotin|by eapply hr_nodup].
    + rewrite list_lookup_insert_ne in Hys by done. by eapply hr_nodup.
  - intros id x. destruct (decide (id = h_id nd)) as [->|Hne].
    + rewrite lookup_insert_eq. intros [= <-]. split_and!; [done|done| |].
      * unfold nid. rewrite Hnd'. simpl. congruence.
      * exists (n :: xs). rewrite Hkeq, list_lookup_insert_eq by done. split; [done|by left].
    + rewrite lookup_insert_ne by done. intros Hx.
      destruct (hr_map _ _ _ R _ _ Hx) as (? & ? & Hi & ys & Hys & Hin).
      split_and!; [done|done|by apply Hnid|].
      destruct (decide (Z.to_nat (id mod Z.of_nat (length (tab t))) = k)) as [E|Hj].
      * rewrite E in *. exists (n :: xs). rewrite list_lookup_insert_eq by done. simplify_eq.
        split; [done|by right].
      * exists ys. by rewrite list_lookup_insert_ne.
  - intros id x. destruct (decide (id = h_id nd)) as [->|Hne].
    + rewrite lookup_insert_eq. intros [= <-]. eauto.
    + rewrite lookup_insert_ne by done. intros Hx. destruct (hr_used _ _ _ R _ _ Hx) as (nx & Hnx & Hu).
      destruct (decide (x = n)) as [->|Hxn]; [congruence|].
      destruct (Hother x nx Hxn Hnx) as (nx' & ? & _ & _ & Hu'). eauto.
Qed.

(** The two ways put links the node in. *)
Lemma ht_put_run t m bs n nd :
  ht_repr t m bs -> hnodes t !! n = Some nd -> hnode_is_free nd = true ->
  0 <= h_id nd -> n <> NULL -> m !! h_id nd = None ->
  exists t' bs', ht_put n t = Done 0 t' /\ ht_repr t' (<[h_id nd := n]> m) bs' /\
    hcount t' = u32 (hcount t + 1).
Proof.
  intros R Hn Hf Hid Hn0 Hm. destruct (hr_at _ _ _ R (h_id nd)) as (p & xs & Hp & Hxs & Hc & Hl & Hnz).
  pose proof (ht_put_repr t m bs n nd p xs) as Hput.
  unfold ht_put, hrd. rewrite (bind_done _ _ t nd t) by (m_unfold; by rewrite Hn).
  rewrite Hf. cbv [negb]. unfold bucket_of, bucket_head, hwr, bucket_set, add_count, hrd. m_unfold. rewrite Hp. m_unfold.
  destruct (ht_walk_chain t (ht_fuel t) p xs (h_id nd) Hc Hl Hnz) as (r & -> & Hcase).
  assert (r = NULL) as ->.
  { destruct Hcase as [[? _]|[Hin Hi]]; [done|].
    destruct (hr_bucket _ _ _ R _ xs r Hxs Hin) as (i & Hi' & Hmi & _). congruence. }
  rewrite Z.eqb_refl. apply andb_prop in Hf as [Hp0%Z.eqb_eq Hn0'%Z.eqb_eq].
  destruct (Z.eqb_spec p NULL) as [->|Hpn]; simpl.
  - rewrite Hn. eexists _, _. split; [done|]. split; [|done].
    eapply Hput; eauto.
    + unfold hnode_is_free. by rewrite Hp0, Hn0'.
    + cbn [hnodes]. eexists. rewrite lookup_insert_eq. split; [done|]. done.
    + intros x nx Hx Hnx. exists nx. cbn [hnodes]. by rewrite lookup_insert_ne.
  - destruct xs as [|x xs]; simpl in Hc; [done|]. destruct Hc as (-> & nx & Hx & Hc).
    assert (Hxn : n <> x).
    { intros ->. destruct (hr_bucket _ _ _ R _ _ x Hxs ltac:(by left)) as (i & Hi & Hmi & _).
      unfold nid in Hi. rewrite Hn in Hi. simpl in Hi. congruence. }
    rewrite Hn. simpl. rewrite lookup_insert_ne, Hx by done. simpl.
    eexists _, _. split; [done|]. split; [|done]. eapply Hput; eauto.
    + unfold hnode_is_free. by rewrite Hp0, Hn0'.
    + cbn [hnodes]. exists (h_set_next x nd). rewrite lookup_insert_ne, lookup_insert_eq by done. split_and!; [done..|].
      unfold hnode_is_free; simpl. destruct (Z.eqb_spec x NULL); [done|by rewrite andb_false_r].
    + intros y ny Hy Hny. destruct (decide (y = x)) as [->|Hyx].
      * exists (h_set_prev n nx). rewrite lookup_insert_eq. simplify_eq. split_and!; [done..|].
        intros _. unfold hnode_is_free; simpl. by destruct (Z.eqb_spec n NULL).
      * exists ny. by rewrite lookup_insert_ne, lookup_insert_ne by done.
Qed.

(** An empty table. *)
Lemma ht_init_repr hn size :
  4 <= size ->
  exists t, ht_init size (mkIdht [] 0 hn) = Done tt t /\ hnodes t = hn /\
    ht_repr t ∅ (replicate (Z.to_nat (size / 4)) []).
Proof.
  intros Hs. eexists. split; [done|]. split; [done|].
  assert (1 <= size / 4) by (apply Z.div_le_lower_bound; lia).
  split; simpl; rewrite ?length_replicate; try done.
  - lia.
  - intros k p xs [-> _]%lookup_replicate [-> _]%lookup_replicate. done.
  - intros k xs n [-> _]%lookup_replicate. set_solver.
  - intros k xs [-> _]%lookup_replicate. constructor.
Qed.

(** * Properties *)

(** C37. The hash table implements a finite map from ids to objects: put of a
    free node succeeds exactly when its id is not taken, a refused put (-1)
    changes nothing, an accepted put adds one binding and counts it, and get
    before and after is the map's lookup, NULL for a missing id; no chain walk
    runs past its end. *)
Theorem idht_refines_map t m bs n nd :
  ht_repr t m bs -> hnodes t !! n = Some nd -> hnode_is_free nd = true ->
  0 <= h_id nd -> n <> NULL ->
  (forall id, 0 <= id -> ht_get id t = Done (default NULL (m !! id)) t) /\
  match m !! h_id nd with
  | Some _ => ht_put n t = Done (-1) t
  | None => exists t' bs', ht_put n t = Done 0 t' /\ ht_repr t' (<[h_id nd := n]> m) bs' /\
      hcount t' = u32 (hcount t + 1) /\
      forall id, 0 <= id -> ht_get id t' = Done (default NULL (<[h_id nd := n]> m !! id)) t'
  end.
Proof.
  intros R Hn Hf Hid Hn0. split; [intros; by eapply ht_get_run|].
  destruct (m !! h_id nd) as [x|] eqn:Hm.
  - pose proof (ht_get_run _ _ _ R (h_id nd) Hid) as Hg. rewrite Hm in Hg. simpl in Hg.
    unfold ht_get, bucket_of, bucket_head in Hg.
    unfold ht_put, hrd, bucket_of, bucket_head. revert Hg. m_unfold. rewrite Hn. cbv [negb].
    rewrite Hf. destruct (tab t !! _) as [p|]; [|done]. intros ->.
    destruct (Z.eqb_spec x NULL) as [->|]; [|done]. by destruct (hr_map _ _ _ R _ _ Hm) as (_ & ? & _).
  - destruct (ht_put_run t m bs n nd R Hn Hf Hid Hn0 Hm) as (t' & bs' & Hp & R' & Hc).
    exists t', bs'. split_and!; [done|done|done|]. intros. by eapply ht_get_run.
Qed.

(** The task table's 1024 buckets, one object of id 1 at address 64. *)
Lemma idht_refines_map_witness :
  exists t, ht_init 4096 (mkIdht [] 0 {[64 := mkHnode 0 0 1]}) = Done tt t /\
    exists t' bs', ht_put 64 t = Done 0 t' /\ ht_repr t' (<[1 := 64]> ∅) bs' /\ hcount t' = u32 (0 + 1).
Proof.
  destruct (ht_init_repr {[64 := mkHnode 0 0 1]} 4096 ltac:(lia)) as (t & Hi & Hn & R).
  exists t. split; [exact Hi|].
  destruct (idht_refines_map t ∅ _ 64 (mkHnode 0 0 1) R) as (_ & t' & bs' & Hp & R' & Hc & _).
  - rewrite Hn. reflexivity.
  - reflexivity.
  - simpl. lia.
  - discriminate.
  - exists t', bs'. split; [exact Hp|]. split; [exact R'|]. rewrite Hc. by injection Hi as <-.
Defined.

(** remove cannot take out the only node of a bucket: put marks it with the
    previous pointer 0xffffffff, which remove dereferences; with a second node in
    the bucket the removal of the first works. *)
Theorem ht_remove_single_faults :
  let t0 := mkIdht (replicate 4 NULL) 0 {[64 := mkHnode 0 0 1; 128 := mkHnode 0 0 5]} in
  (exists t, ht_put 64 t0 = Done 0 t /\ ht_remove 64 t = Stop BadAccess) /\
  (exists t, (ht_put 64 ;; ht_put 128 ;; ht_remove 128) t0 = Done 0 t /\ ht_get 1 t = Done 64 t /\
     ht_get 5 t = Done NULL t).
Proof.
  intros t0. split.
  - eexists. split; [vm_compute; reflexivity|]. vm_compute. reflexivity.
  - eexists. split; [vm_compute; reflexivity|]. split; vm_compute; reflexivity.
Qed.
