(* ===== verification/Fs.v ===== *)
(** The data of the file system (kernel/fs/fs.h, kernel/fs/denemefs/denemefs.h)
    and the interface to the heap its structures come from.

    A C string is the list of its bytes without the final zero. A structure the
    kernel allocates is named by its kernel address. *)

From S2P Require Import Prelude.

(** * Definitions *)

Notation cstr := (list Z).

(** strcmp(a, b) == 0 *)
Definition streq (a b : cstr) : bool := bool_decide (a = b).

(** strrchr(s, c): the index of the last [c]. *)
Fixpoint strrchr (s : cstr) (c : Z) : option nat :=
  match s with
  | [] => None
  | x :: s' => match strrchr s' c with Some i => Some (S i) | None => if x =? c then Some O else None end
  end.

Definition SLASH : Z := 47.

(** ** Types of fs.h *)

Definition FT_regular : Z := 1.
Definition FT_dir : Z := 2.
Definition FT_chrdev : Z := 4.

(** The bit fields read:1, write:1, __:6, type:8. *)
Record FileMode := mkMode { fm_read : Z; fm_write : Z; fm_rest : Z; fm_type : Z }.
Definition mode_zero : FileMode := mkMode 0 0 0 0.
Definition fm_mode (m : FileMode) : Z := fm_read m + 2 * fm_write m + 4 * fm_rest m.

(** The tables of operations an inode's [op] can point to. *)
Inductive inode_operations := denemefs_dir_inode_op | denemefs_file_inode_op | chrdev_inode_operations.

#[export] Instance inode_operations_eq_dec : EqDecision inode_operations.
Proof. solve_decision. Defined.

(** [lock_val] and [wait_list] are the structure lock; [superblock] is an address. *)
Record inode := mkInode {
  ino : Z; ref_count : Z; op : option inode_operations; mode : FileMode; dev : Z; superblock : Z;
  isize : Z; lock_val : Z; wait_list : list Z }.

(** A structure on the stack or from the heap before its fields are set. *)
Definition inode_zero : inode := mkInode 0 0 None mode_zero 0 0 0 0 [].

Definition set_ino (v : Z) (i : inode) : inode :=
  mkInode v (ref_count i) (op i) (mode i) (dev i) (superblock i) (isize i) (lock_val i) (wait_list i).
Definition set_ref_count (v : Z) (i : inode) : inode :=
  mkInode (ino i) v (op i) (mode i) (dev i) (superblock i) (isize i) (lock_val i) (wait_list i).
Definition set_lock_val (v : Z) (i : inode) : inode :=
  mkInode (ino i) (ref_count i) (op i) (mode i) (dev i) (superblock i) (isize i) v (wait_list i).
Definition set_wait_list (v : list Z) (i : inode) : inode :=
  mkInode (ino i) (ref_count i) (op i) (mode i) (dev i) (superblock i) (isize i) (lock_val i) v.
(** What a lookup fills in. *)
Definition set_found (no : Z) (o : inode_operations) (m : FileMode) (sb size : Z) (i : inode) : inode :=
  mkInode no (ref_count i) (Some o) m (dev i) sb size (lock_val i) (wait_list i).

(** ** Types of denemefs.h *)

Definition Deneme_subdentry_count : Z := 56.
Definition Deneme_name_size : Z := 32.

Record subdentry := mkSd { sd_n : Z; sd_no : list Z; sd_name : list cstr }.
(** sizeof(struct Deneme_subdentry) *)
Definition sizeof_subdentry : Z := 4 + 4 * Deneme_subdentry_count + Deneme_name_size * Deneme_subdentry_count.
Definition sd_zero : subdentry := mkSd 0 (replicate 56 0) (replicate 56 []).

Record Deneme_inode := mkDi { d_mode : FileMode; nlinks : Z; d_size : Z; d_dev : Z; d_data : Z }.
Definition di_zero : Deneme_inode := mkDi mode_zero 0 0 0 NULL.
Definition set_nlinks (v : Z) (d : Deneme_inode) : Deneme_inode := mkDi (d_mode d) v (d_size d) (d_dev d) (d_data d).
Definition set_d_mode (v : FileMode) (d : Deneme_inode) : Deneme_inode := mkDi v (nlinks d) (d_size d) (d_dev d) (d_data d).
Definition set_d_size (v : Z) (d : Deneme_inode) : Deneme_inode := mkDi (d_mode d) (nlinks d) v (d_dev d) (d_data d).
Definition set_d_dev (v : Z) (d : Deneme_inode) : Deneme_inode := mkDi (d_mode d) (nlinks d) (d_size d) v (d_data d).
Definition set_d_data (v : Z) (d : Deneme_inode) : Deneme_inode := mkDi (d_mode d) (nlinks d) (d_size d) (d_dev d) v.

(** What an inode's data points to. *)
Inductive fobj := ODir (sd : subdentry) | OBytes (bs : list Z).

(** ** The heap the file system allocates from *)

Class Alloc (H : Type) := {
  al_malloc : Z -> M H Z;
  al_free : Z -> M H unit;
}.

(** What it promises: with [L] the addresses in use, an allocation of at most 2044
    bytes returns a new address or NULL, and an address in use can be freed. *)
Class AllocSpec (H : Type) `{!Alloc H} := {
  al_ok : gset Z -> H -> Prop;
  al_malloc_run : forall L h size, al_ok L h -> size <= 2044 ->
    (exists h', al_malloc size h = Done NULL h') \/
    (exists p h', al_malloc size h = Done p h' /\ p <> NULL /\ p ∉ L /\ al_ok ({[p]} ∪ L) h');
  al_free_run : forall L h p, al_ok L h -> p ∈ L ->
    exists h', al_free p h = Done tt h' /\ al_ok (L ∖ {[p]}) h';
}.
