(* ===== verification/DenemeFs.v ===== *)
(** denemefs, the file system in memory (kernel/fs/denemefs/).

    The inode table [di] has a hundred entries; the data of a directory is a
    structure with 56 slots, the data of a file its bytes. [fs_data] maps the
    addresses of these objects to what they hold. An access outside an array, a
    name that does not fit its slot, and data that is not of the type the code takes
    it for stop the model with BadAccess: the code goes on with whatever is there. *)

From S2P Require Import Prelude Fs.

(** * Definitions *)

Record dfs (H : Type) := mkDfs { fs_di : list Deneme_inode; fs_data : gmap Z fobj; fs_heap : H }.
Arguments mkDfs {H} _ _ _.
Arguments fs_di {H} _.
Arguments fs_data {H} _.
Arguments fs_heap {H} _.

Section denemefs.
Context {H : Type} `{!Alloc H}.
Notation FS := (dfs H).

Definition set_fs_di (d : list Deneme_inode) (s : FS) : FS := mkDfs d (fs_data s) (fs_heap s).
Definition set_fs_data (d : gmap Z fobj) (s : FS) : FS := mkDfs (fs_di s) d (fs_heap s).
Definition in_alloc {A} (m : M H A) : M FS A := zoom fs_heap (fun h s => mkDfs (fs_di s) (fs_data s) h) m.

(** di[no] *)
Definition di_rd (no : Z) : M FS Deneme_inode := s ← get; deref (fs_di s !! Z.to_nat no).
Definition di_wr (no : Z) (f : Deneme_inode -> Deneme_inode) : M FS unit :=
  d ← di_rd no; modify (fun s => set_fs_di (<[Z.to_nat no := f d]> (fs_di s)) s).

(** Objects in memory, by their type. *)
Definition sd_rd (p : Z) : M FS subdentry :=
  s ← get; match fs_data s !! p with Some (ODir sd) => mret sd | _ => stop BadAccess end.
Definition bytes_rd (p : Z) : M FS (list Z) :=
  s ← get; match fs_data s !! p with Some (OBytes bs) => mret bs | _ => stop BadAccess end.
Definition obj_wr (p : Z) (o : fobj) : M FS unit := modify (fun s => set_fs_data (<[p := o]> (fs_data s)) s).

(** kmalloc followed by memset(p, 0, size), which writes through p. *)
Definition kmalloc_zeroed (size : Z) (o : fobj) : M FS Z :=
  p ← in_alloc (al_malloc size);
  if p =? NULL then stop BadAccess else obj_wr p o ;; mret p.

Definition kfree_obj (p : Z) : M FS unit :=
  in_alloc (al_free p) ;; modify (fun s => set_fs_data (base.delete p (fs_data s)) s).

(** ** denemefs.cpp *)

Definition inode_op_of (d : Deneme_inode) : M FS inode_operations :=
  if fm_type (d_mode d) =? FT_dir then mret denemefs_dir_inode_op
  else if fm_type (d_mode d) =? FT_regular then mret denemefs_file_inode_op
  else PANIC.

Definition lookup_slot (i_dir : inode) (sd : subdentry) (name : cstr) (i_dest : inode) (i : Z)
  : M FS (option inode) :=
  nm ← deref (sd_name sd !! Z.to_nat i);
  if streq nm name then
    no ← deref (sd_no sd !! Z.to_nat i);
    d ← di_rd no;
    ASSERT (0 <? nlinks d) ;;
    o ← inode_op_of d;
    mret (Some (set_found no o (d_mode d) (superblock i_dir) (d_size d) i_dest))
  else mret None.

Definition denemefs_lookup (i_dir : inode) (name : cstr) (i_dest : inode) : M FS (Z * inode) :=
  dir ← di_rd (ino i_dir);
  if negb (fm_type (d_mode dir) =? FT_dir) then mret (-2, i_dest) else
  sd ← sd_rd (d_data dir);
  r ← iter_until (lookup_slot i_dir sd name i_dest) (seqZ 0 (sd_n sd));
  mret (match r with Some i => (0, i) | None => (-1, i_dest) end).

Definition denemefs_free_inode (i : inode) : M FS unit :=
  d ← di_rd (ino i);
  when (negb (d_data d =? NULL)) (kfree_obj (d_data d)) ;;
  di_wr (ino i) (fun _ => di_zero).

Definition find_empty_di : M FS Z :=
  r ← iter_until (fun i =>
        d ← di_rd i;
        if nlinks d =? 0 then di_wr i (set_nlinks 1) ;; mret (Some i) else mret None) (seqZ 0 100);
  mret (default (-1) r).

Definition denemefs_new_inode (dest : inode) : M FS (Z * inode) :=
  no ← find_empty_di;
  if no <? 0 then mret (-1, dest) else
  di_wr no (set_nlinks 1) ;; mret (0, set_ino no dest).

Definition denemefs_permission (i : inode) (flags : Z) : M FS Z :=
  d ← di_rd (ino i);
  if negb (Z.land (fm_write (d_mode d)) (fm_read (d_mode d)) =? 0) then mret 1
  else if Z.land flags 3 =? 1 then mret 1 else mret 0.

(** ** dir.cpp *)

(** Stores into the arrays of a directory. strcpy needs room for the final zero. *)
Definition arr_set {A} (n : Z) (v : A) (l : list A) : M FS (list A) :=
  if bool_decide (0 <= n < Z.of_nat (length l)) then mret (<[Z.to_nat n := v]> l) else stop BadAccess.
Definition fits_slot (name : cstr) : bool := Z.of_nat (length name) <? Deneme_name_size.
Definition name_set (n : Z) (name : cstr) (l : list cstr) : M FS (list cstr) :=
  if fits_slot name then arr_set n name l else stop BadAccess.

Definition denemefs_add_entry (dir : inode) (name : cstr) (i : inode) : M FS Z :=
  '(r, _) ← denemefs_lookup dir name inode_zero;
  if r =? 0 then mret (-1) else
  d ← di_rd (ino dir); sd ← sd_rd (d_data d);
  no ← arr_set (sd_n sd) (ino i) (sd_no sd);
  names ← name_set (sd_n sd) name (sd_name sd);
  obj_wr (d_data d) (ODir (mkSd (i32 (sd_n sd + 1)) no names)) ;;
  mret 0.

(** [data]: the address of the directory's structure. *)
Definition remove_slot (data : Z) (sd : subdentry) (name : cstr) (i : Z) : M FS (option unit) :=
  nm ← deref (sd_name sd !! Z.to_nat i);
  if streq nm name then
    no ← arr_set i 0 (sd_no sd);
    names ← name_set i [] (sd_name sd);
    obj_wr data (ODir (mkSd (sd_n sd) no names)) ;;
    mret (Some tt)
  else mret None.

Definition denemefs_remove_entry (dir : inode) (name : cstr) : M FS Z :=
  d ← di_rd (ino dir); sd ← sd_rd (d_data d);
  r ← iter_until (remove_slot (d_data d) sd name) (seqZ 0 (sd_n sd));
  mret (match r with Some _ => 0 | None => -1 end).

(** The mode a creating call asks for, in the bits of a new inode. *)
Definition set_rw (rw : Z) (m : FileMode) : FileMode :=
  mkMode (Z.land rw 1) (Z.shiftr (Z.land rw 2) 1) (fm_rest m) (fm_type m).
Definition set_type (t : Z) (m : FileMode) : FileMode := mkMode (fm_read m) (fm_write m) (fm_rest m) t.

(** What mkdir, create and mknod share: a new inode with an entry, or -1. *)
Definition new_entry (i_dir : inode) (name : cstr) : M FS (option inode) :=
  '(r, i) ← denemefs_new_inode inode_zero;
  if r <? 0 then mret None else
  r ← denemefs_add_entry i_dir name i;
  if r <? 0 then denemefs_free_inode i ;; mret None else mret (Some i).

Definition denemefs_mkdir (i_dir : inode) (name : cstr) (rw : Z) : M FS Z :=
  o ← new_entry i_dir name;
  match o with
  | None => mret (-1)
  | Some i =>
      p ← kmalloc_zeroed sizeof_subdentry (ODir sd_zero);
      di_wr (ino i) (fun d => set_d_mode (set_type FT_dir (set_rw rw (d_mode d)))
                                (set_d_size sizeof_subdentry (set_d_data p d))) ;;
      mret 0
  end.

Definition is_empty_dir (i : inode) : M FS bool :=
  d ← di_rd (ino i); sd ← sd_rd (d_data d); mret (sd_n sd =? 0).

Definition denemefs_rmdir (i_dir : inode) (name : cstr) : M FS Z :=
  '(r, i) ← denemefs_lookup i_dir name inode_zero;
  if r <? 0 then mret (-1) else
  if negb (fm_type (mode i) =? FT_dir) then mret (-2) else
  e ← is_empty_dir i;
  if negb e then mret (-3) else
  r ← denemefs_remove_entry i_dir name; ASSERT (r =? 0) ;;
  denemefs_free_inode i ;; mret 0.

(** The entry stored to *udirent, and the new f->fpos. *)
Definition denemefs_readdir (i : inode) (fpos : Z) : M FS (Z * Z * option (Z * cstr)) :=
  d ← di_rd (ino i);
  if negb (fm_type (d_mode d) =? FT_dir) then mret (-1, fpos, None) else
  sd ← sd_rd (d_data d);
  if sd_n sd <=? 0 then mret (-2, fpos, None) else
  if sd_n sd <=? fpos then mret (-3, fpos, None) else
  if fpos <? 0 then stop BadAccess else
  no ← deref (sd_no sd !! Z.to_nat fpos);
  nm ← deref (sd_name sd !! Z.to_nat fpos);
  mret (0, i32 (fpos + 1), Some (no, nm)).

(** ** file.cpp *)

(** The bytes stored to buf. [src[i]] is the byte at [data + fpos + i], an address
    that wraps like [i + f->fpos]. *)
Fixpoint read_loop (bs : list Z) (fpos size_in : Z) (size : nat) (i : Z) : M FS (list Z) :=
  match size with
  | O => mret []
  | S n =>
      if u32 (i + fpos) <? size_in then
        b ← deref (bs !! Z.to_nat (u32 (i + fpos)));
        rest ← read_loop bs fpos size_in n (i + 1);
        mret (b :: rest)
      else mret []
  end.

Definition denemefs_read (i : inode) (fpos size : Z) : M FS (Z * list Z) :=
  d ← di_rd (ino i);
  if negb (fm_type (d_mode d) =? FT_regular) then mret (u32 (-1), []) else
  if (u32 fpos <? d_size d) && (0 <? size) then
    bs ← bytes_rd (d_data d);
    out ← read_loop bs fpos (d_size d) (Z.to_nat size) 0;
    mret (Z.of_nat (length out), out)
  else mret (0, []).

(** [buf]: the bytes of the user's buffer, as many as size says. *)
Fixpoint write_loop (bs : list Z) (fpos size_in : Z) (buf : list Z) (i : Z) : M FS (list Z * Z) :=
  match buf with
  | [] => mret (bs, i)
  | b :: buf' =>
      if u32 (i + fpos) <? size_in then
        bs' ← arr_set (u32 (i + fpos)) b bs;
        write_loop bs' fpos size_in buf' (i + 1)
      else mret (bs, i)
  end.

Definition denemefs_write (i : inode) (fpos : Z) (buf : list Z) : M FS Z :=
  d ← di_rd (ino i);
  if negb (fm_type (d_mode d) =? FT_regular) then mret (u32 (-1)) else
  if (u32 fpos <? d_size d) && (0 <? Z.of_nat (length buf)) then
    bs ← bytes_rd (d_data d);
    '(bs', n) ← write_loop bs fpos (d_size d) buf 0;
    obj_wr (d_data d) (OBytes bs') ;;
    mret n
  else mret 0.

Definition file_size : Z := 1000.

Definition denemefs_create (i_dir : inode) (name : cstr) (rw : Z) (i_dest : inode) : M FS (Z * inode) :=
  o ← new_entry i_dir name;
  match o with
  | None => mret (-1, i_dest)
  | Some i =>
      p ← kmalloc_zeroed file_size (OBytes (replicate (Z.to_nat file_size) 0));
      di_wr (ino i) (fun d => set_d_mode (set_type FT_regular (set_rw rw (d_mode d)))
                                (set_d_size file_size (set_d_data p d))) ;;
      '(r, dest) ← denemefs_lookup i_dir name i_dest;
      ASSERT (r =? 0) ;;
      mret (0, dest)
  end.

Definition denemefs_unlink (i_dir : inode) (name : cstr) : M FS Z :=
  '(r, i) ← denemefs_lookup i_dir name inode_zero;
  if r <? 0 then mret (-1) else
  if negb (fm_type (mode i) =? FT_regular) then mret (-1) else
  r ← denemefs_remove_entry i_dir name; ASSERT (r =? 0) ;;
  denemefs_free_inode i ;; mret 0.

Definition denemefs_mknod (i_dir : inode) (name : cstr) (m : FileMode) (dv : Z) : M FS Z :=
  o ← new_entry i_dir name;
  match o with
  | None => mret (-1)
  | Some i =>
      di_wr (ino i) (fun d => set_d_size 0 (set_d_data NULL (set_d_dev dv (set_d_mode m d)))) ;;
      mret 0
  end.

(** ** The initial RAM disk: a tar archive at [initrd_start] (include/tar.h) *)

Definition i8 (c : Z) : Z := if c <? 128 then c else c - 256.

(** The digits of the size field, the last one first. *)
Definition tar_digit (a : Z * Z) (c : Z) : Z * Z := (u32 (a.1 + (i8 c - 48) * a.2), u32 (a.2 * 8)).
Definition tar_getsize (field : list Z) : Z := (foldl tar_digit (0, 1) (rev (take 11 field))).1.

Section init.
Context (initrd_start : Z) (initrd : list Z).

(** The bytes of the archive from an address on. *)
Definition initrd_from (a : Z) : M FS (list Z) :=
  if a <? initrd_start then stop BadAccess else mret (drop (Z.to_nat (a - initrd_start)) initrd).
Fixpoint cstr_of (bs : list Z) : option cstr :=
  match bs with [] => None | c :: bs' => if c =? 0 then Some [] else cons c <$> cstr_of bs' end.

(** A regular file of the archive becomes a file whose data is in the archive. *)
Definition mount_file (root : inode) (path : cstr) (data size : Z) : M FS unit :=
  name ← deref ((fun k => drop (S k) path) <$> strrchr path SLASH);
  '(r, i) ← denemefs_create root name 1 inode_zero;
  ASSERT (r =? 0) ;;
  bs ← initrd_from data;
  obj_wr data (OBytes (take (Z.to_nat size) bs)) ;;
  di_wr (ino i) (fun d => set_d_size size (set_d_data data d)).

Fixpoint mount_loop (fuel : nat) (root : inode) (address : Z) : M FS unit :=
  match fuel with
  | O => stop OutOfFuel
  | S f =>
      h ← initrd_from address;
      path ← deref (cstr_of h);
      flag ← deref (h !! 156%nat);
      if bool_decide (path = []) then mret tt else
      let size := tar_getsize (take 12 (drop 124 h)) in
      when (flag =? 48) (mount_file root path (u32 (address + 512)) size) ;;
      let address := u32 (address + (size / 512 + 1) * 512) in
      mount_loop f root (if size mod 512 =? 0 then address else u32 (address + 512))
  end.

(** Every header of the archive is 512 bytes behind the one before. *)
Definition mount_initrd (root : inode) : M FS unit :=
  mount_loop (S (length initrd / 512)) root initrd_start.

(** strcpy to the start of a file's data *)
Definition file_strcpy (i : inode) (text : cstr) : M FS unit :=
  d ← di_rd (ino i); bs ← bytes_rd (d_data d);
  if (length bs <? length text + 1)%nat then stop BadAccess else
  obj_wr (d_data d) (OBytes (text ++ [0] ++ drop (length text + 1) bs)).

Definition str_home : cstr := [104;111;109;101].
Definition str_dosya1 : cstr := [100;111;115;121;97;49].
Definition str_dosya2 : cstr := [100;111;115;121;97;50].
Definition str_d1_icerik : cstr := [100;49;32;105;99;101;114;105;107].
Definition str_data2 : cstr := [100;97;116;97;50].
Definition str_dir1 : cstr := [100;105;114;49].
Definition str_dir11 : cstr := [100;105;114;49;49].
Definition str_initrd : cstr := [105;110;105;116;114;100].

Definition checked (m : M FS Z) : M FS unit := r ← m; ASSERT (r =? 0).
Definition checked_i (m : M FS (Z * inode)) : M FS inode := '(r, i) ← m; ASSERT (r =? 0) ;; mret i.

(** The root directory. [junk] is what its memory holds: only the count is set. *)
Definition init_root (junk : subdentry) : M FS unit :=
  modify (set_fs_di (replicate 100 di_zero)) ;;
  di_wr 0 (fun d => set_nlinks 1 (set_d_mode (mkMode 1 0 0 FT_dir) d)) ;;
  p ← in_alloc (al_malloc sizeof_subdentry);
  di_wr 0 (fun d => set_d_size sizeof_subdentry (set_d_data p d)) ;;
  if p =? NULL then stop BadAccess else obj_wr p (ODir (mkSd 0 (sd_no junk) (sd_name junk))).

Definition denemefs_init (junk : subdentry) : M FS unit :=
  init_root junk ;;
  let root := set_ino 0 inode_zero in
  checked (denemefs_mkdir root str_home 3) ;;
  _ ← checked_i (denemefs_lookup root str_home inode_zero);
  f1 ← checked_i (denemefs_create root str_dosya1 1 inode_zero);
  file_strcpy f1 str_d1_icerik ;;
  f2 ← checked_i (denemefs_create root str_dosya2 3 inode_zero);
  file_strcpy f2 str_data2 ;;
  checked (denemefs_mkdir root str_dir1 3) ;;
  dir1 ← checked_i (denemefs_lookup root str_dir1 inode_zero);
  checked (denemefs_mkdir dir1 str_dir11 3) ;;
  when (negb (initrd_start =? 0)) (
    checked (denemefs_mkdir root str_initrd 1) ;;
    d ← checked_i (denemefs_lookup root str_initrd inode_zero);
    mount_initrd d).
End init.
End denemefs.
