(* ===== verification/DenemeSpec.v ===== *)
(** The abstract file system: what denemefs promises to its callers.

    A file is its bytes, a directory a finite map from names to inode numbers with
    the number of slots it has used up, which never comes down again. *)

From S2P Require Import Prelude Fs DenemeFs.

Inductive anode :=
| AFile (rw : Z * Z) (bs : list Z)
| ADir (rw : Z * Z) (used : Z) (ents : gmap cstr Z).

Notation afs := (gmap Z anode).

(** ** The calls of the file system and their answers *)

Inductive fcall :=
| CLookup (dir : Z) (name : cstr)
| CCreate (dir : Z) (name : cstr) (rw : Z)
| CMkdir (dir : Z) (name : cstr) (rw : Z)
| CUnlink (dir : Z) (name : cstr)
| CRmdir (dir : Z) (name : cstr)
| CRead (no pos size : Z)
| CWrite (no pos : Z) (buf : list Z).

Inductive fres := RCode (r : Z) | RFound (i : inode) | RData (bs : list Z).

(** ** The abstract operations *)

(** The read and write bits of a new inode. *)
Definition rw_of (rw : Z) : Z * Z := (Z.land rw 1, Z.shiftr (Z.land rw 2) 1).

Definition anode_op (nd : anode) : inode_operations :=
  match nd with AFile _ _ => denemefs_file_inode_op | ADir _ _ _ => denemefs_dir_inode_op end.
Definition anode_mode (nd : anode) : FileMode :=
  match nd with AFile rw _ => mkMode rw.1 rw.2 0 FT_regular | ADir rw _ _ => mkMode rw.1 rw.2 0 FT_dir end.
Definition anode_size (nd : anode) : Z :=
  match nd with AFile _ bs => Z.of_nat (length bs) | ADir _ _ _ => sizeof_subdentry end.
Definition afound (sb no : Z) (nd : anode) (dest : inode) : inode :=
  set_found no (anode_op nd) (anode_mode nd) sb (anode_size nd) dest.

(** The lowest inode number that is not in use. *)
Definition fresh (a : afs) : option Z := head (filter (fun i => a !! i = None) (seqZ 0 100)).

Definition new_file (rw : Z) : anode := AFile (rw_of rw) (replicate (Z.to_nat file_size) 0).
Definition new_dir (rw : Z) : anode := ADir (rw_of rw) 0 ∅.

(** A new node [nd] under [name] in a directory; None when the name is taken or no
    inode is left. *)
Definition acreate (dir : Z) (name : cstr) (nd : anode) (a : afs) : option (Z * afs) :=
  no ← fresh a;
  match a !! dir with
  | Some (ADir rw u m) =>
      match m !! name with
      | Some _ => None
      | None => Some (no, <[no := nd]> (<[dir := ADir rw (u + 1) (<[name := no]> m)]> a))
      end
  | _ => None
  end.

Definition aremove (dir : Z) (name : cstr) (rw : Z * Z) (u : Z) (m : gmap cstr Z) (no : Z) (a : afs) : afs :=
  base.delete no (<[dir := ADir rw u (base.delete name m)]> a).

Definition aread (pos size : Z) (bs : list Z) : list Z :=
  take (Z.to_nat size) (drop (Z.to_nat (u32 pos)) bs).
(** The bytes that fit before the end of the file are stored. *)
Definition awrite (pos : Z) (buf bs : list Z) : list Z :=
  let p := Z.to_nat (u32 pos) in
  let b := take (length bs - p) buf in
  take p bs ++ b ++ drop (p + length b) bs.

Definition astep (c : fcall) (a : afs) : fres * afs :=
  match c with
  | CLookup dir name =>
      match a !! dir with
      | Some (ADir _ _ m) =>
          match m !! name ≫= fun no => pair no <$> a !! no with
          | Some (no, nd) => (RFound (afound 0 no nd inode_zero), a)
          | None => (RCode (-1), a)
          end
      | _ => (RCode (-2), a)
      end
  | CCreate dir name rw =>
      match acreate dir name (new_file rw) a with
      | Some (no, a') => (RFound (afound 0 no (new_file rw) inode_zero), a')
      | None => (RCode (-1), a)
      end
  | CMkdir dir name rw =>
      match acreate dir name (new_dir rw) a with Some (_, a') => (RCode 0, a') | None => (RCode (-1), a) end
  | CUnlink dir name =>
      match a !! dir with
      | Some (ADir rw u m) =>
          match m !! name ≫= fun no => pair no <$> a !! no with
          | Some (no, AFile _ _) => (RCode 0, aremove dir name rw u m no a)
          | _ => (RCode (-1), a)
          end
      | _ => (RCode (-1), a)
      end
  | CRmdir dir name =>
      match a !! dir with
      | Some (ADir rw u m) =>
          match m !! name ≫= fun no => pair no <$> a !! no with
          | Some (no, ADir _ used _) =>
              if used =? 0 then (RCode 0, aremove dir name rw u m no a) else (RCode (-3), a)
          | Some (_, AFile _ _) => (RCode (-2), a)
          | None => (RCode (-1), a)
          end
      | _ => (RCode (-1), a)
      end
  | CRead no pos size =>
      match a !! no with Some (AFile _ bs) => (RData (aread pos size bs), a) | _ => (RCode (u32 (-1)), a) end
  | CWrite no pos buf =>
      match a !! no with
      | Some (AFile rw bs) =>
          (RCode (Z.of_nat (length (take (length bs - Z.to_nat (u32 pos)) buf))),
           <[no := AFile rw (awrite pos buf bs)]> a)
      | _ => (RCode (u32 (-1)), a)
      end
  end.

(** ** What the callers have to respect

    The directory exists, the name is neither empty nor too long for a slot, and a
    new entry has a slot left. *)
Definition name_ok (name : cstr) : Prop := name <> [] /\ fits_slot name = true.
Definition dir_at (a : afs) (dir : Z) (P : Z -> Prop) : Prop :=
  match a !! dir with Some (ADir _ u _) => P u | _ => False end.

Definition call_ok (a : afs) (c : fcall) : Prop :=
  match c with
  | CLookup d nm | CUnlink d nm | CRmdir d nm => name_ok nm /\ dir_at a d (fun _ => True)
  | CCreate d nm _ | CMkdir d nm _ => name_ok nm /\ dir_at a d (fun u => u < Deneme_subdentry_count)
  | CRead no _ _ | CWrite no _ _ => is_Some (a !! no)
  end.

#[export] Instance name_ok_dec name : Decision (name_ok name).
Proof. unfold name_ok. apply _. Defined.
#[export] Instance dir_at_dec a dir (P : Z -> Prop) `{!forall u, Decision (P u)} : Decision (dir_at a dir P).
Proof. unfold dir_at. destruct (a !! dir) as [[]|]; apply _. Defined.
#[export] Instance call_ok_dec a c : Decision (call_ok a c).
Proof. destruct c; cbn [call_ok]; apply _. Defined.

(** ** Well-formed trees *)

Definition entry (a : afs) (dir : Z) (name : cstr) (no : Z) : Prop :=
  exists rw u m, a !! dir = Some (ADir rw u m) /\ m !! name = Some no.

(** The inodes that paths from the root lead to. *)
Inductive reach (a : afs) : Z -> Prop :=
| reach_root : reach a 0
| reach_entry dir name no : reach a dir -> entry a dir name no -> reach a no.

Record tree_ok (a : afs) : Prop := mkTree {
  tr_root : exists rw u m, a !! 0 = Some (ADir rw u m);
  tr_range : forall no, is_Some (a !! no) -> 0 <= no < 100;
  tr_refs : forall dir name no, entry a dir name no -> is_Some (a !! no) /\ no <> 0 /\ name <> [];
  tr_uniq : forall dir name dir' name' no, entry a dir name no -> entry a dir' name' no -> dir = dir' /\ name = name';
  tr_reach : forall no, is_Some (a !! no) -> reach a no;
  tr_empty : forall dir rw m, a !! dir = Some (ADir rw 0 m) -> m = ∅;
  tr_used : forall dir rw u m, a !! dir = Some (ADir rw u m) -> 0 <= u <= Deneme_subdentry_count;
}.

Lemma fresh_spec a no : fresh a = Some no -> a !! no = None /\ 0 <= no < 100 /\ (forall i, 0 <= i < no -> is_Some (a !! i)).
Proof.
  unfold fresh. intros Hh.
  assert (G : forall n lo, head (filter (fun i => a !! i = None) (seqZ lo (Z.of_nat n))) = Some no ->
    a !! no = None /\ lo <= no < lo + Z.of_nat n /\ (forall i, lo <= i < no -> is_Some (a !! i))).
  { induction n as [|n IH]; intros lo; [done|]. rewrite seqZ_cons by lia.
    replace (Z.pred (Z.of_nat (S n))) with (Z.of_nat n) by lia. replace (Z.succ lo) with (lo + 1) by lia.
    rewrite filter_cons. case_decide as Hd; simpl; intros E.
    - injection E as <-. split_and!; [done|lia..|]. intros i Hi. lia.
    - apply IH in E as (Hn & Hr & Hb). split_and!; [done|lia..|]. intros i Hi.
      destruct (decide (i = lo)) as [->|]; [by apply not_eq_None_Some|apply Hb; lia]. }
  apply (G 100%nat 0) in Hh as (? & ? & ?). split_and!; (done || lia).
Qed.

Lemma fresh_none a : fresh a = None -> forall i, 0 <= i < 100 -> is_Some (a !! i).
Proof.
  unfold fresh. intros Hh i Hi. apply not_eq_None_Some. intros Hn.
  assert (Hin : i ∈ filter (fun i => a !! i = None) (seqZ 0 100)).
  { apply list_elem_of_filter. split; [done|]. apply elem_of_seqZ. lia. }
  destruct (filter _ _); [set_solver|done].
Qed.

(** ** The tree stays well formed *)

Definition leaf (nd : anode) : Prop := match nd with AFile _ _ => True | ADir _ _ m => m = ∅ end.

Section tree.
Context (a : afs) (T : tree_ok a).

Lemma entry_create dir name rw u m no nd :
  a !! dir = Some (ADir rw u m) -> m !! name = None -> a !! no = None -> leaf nd ->
  let a' := <[no := nd]> (<[dir := ADir rw (u + 1) (<[name := no]> m)]> a) in
  forall d n x, entry a' d n x <-> entry a d n x \/ (d = dir /\ n = name /\ x = no).
Proof.
  intros Hd Hn Hno Hl a' d n x. unfold entry, a'. assert (dir <> no) by congruence. split.
  - intros (rw' & u' & m' & Hd' & Hx). destruct (decide (d = no)) as [->|].
    { rewrite lookup_insert_eq in Hd'. injection Hd' as ->. simpl in Hl. subst m'. done. }
    rewrite lookup_insert_ne in Hd' by done. destruct (decide (d = dir)) as [->|].
    + rewrite lookup_insert_eq in Hd'. injection Hd' as <- <- <-.
      apply lookup_insert_Some in Hx as [[<- <-]|[Hne Hx]]; [by right|left; eauto].
    + rewrite lookup_insert_ne in Hd' by done. left; eauto.
  - intros [(rw' & u' & m' & Hd' & Hx)|(-> & -> & ->)].
    + assert (d <> no) by congruence. rewrite lookup_insert_ne by done. destruct (decide (d = dir)) as [->|].
      * rewrite Hd in Hd'. injection Hd' as <- <- <-. rewrite lookup_insert_eq. do 3 eexists. split; [done|].
        rewrite lookup_insert_ne; [done|]. congruence.
      * rewrite lookup_insert_ne by done. eauto.
    + rewrite lookup_insert_ne, lookup_insert_eq by done. do 3 eexists. split; [done|]. apply lookup_insert_eq.
Qed.

Lemma reach_mono a1 a2 : (forall d n x, entry a1 d n x -> entry a2 d n x) -> forall no, reach a1 no -> reach a2 no.
Proof. intros He no Hr. induction Hr as [|d n x _ IH Hx]; [by constructor|]. eapply reach_entry; eauto. Qed.

Lemma create_tree dir name nd no a' :
  acreate dir name nd a = Some (no, a') -> leaf nd -> (forall rw u m, nd = ADir rw u m -> u = 0) ->
  name <> [] -> dir_at a dir (fun u => u < Deneme_subdentry_count) -> tree_ok a'.
Proof.
  unfold acreate, dir_at. destruct (fresh a) as [no'|] eqn:Hf; [|done]. simpl.
  destruct (a !! dir) as [[|rw u m]|] eqn:Hd; [done| |done].
  destruct (m !! name) eqn:Hn; [done|]. intros [= -> <-] Hl Hu Hname Hlt.
  apply fresh_spec in Hf as (Hno & Hr & _). assert (Hne : dir <> no) by congruence.
  pose proof (entry_create dir name rw u m no nd Hd Hn Hno Hl) as He.
  assert (H0 : no <> 0) by (intros ->; destruct (tr_root a T) as (? & ? & ? & E); congruence).
  assert (Hnone : forall d n, ~ entry a d n no).
  { intros d n E. apply (tr_refs a T) in E as ([? E] & _). congruence. }
  split.
  - rewrite lookup_insert_ne by done. destruct (tr_root a T) as (rw0 & u0 & m0 & E0).
    destruct (decide (dir = 0)) as [->|]; [rewrite lookup_insert_eq; eauto|rewrite lookup_insert_ne by done; eauto].
  - intros x. rewrite !lookup_insert_is_Some. intros [<-|[_ [<-|[_ Hx]]]]; [done| |by apply (tr_range a T)].
    apply (tr_range a T). eauto.
  - intros d n x [E|(-> & -> & ->)]%He.
    + destruct (tr_refs a T _ _ _ E) as (Hx & ? & ?). split_and!; [|done..].
      rewrite !lookup_insert_is_Some. destruct (decide (no = x)); [by left|right; split; [done|]].
      destruct (decide (dir = x)); [by left|by right].
    + split_and!; [|done..]. rewrite lookup_insert_is_Some. by left.
  - intros d n d' n' x [E|(Ed & En & Ex)]%He [E'|(Ed' & En' & Ex')]%He; subst; try done.
    + by eapply (tr_uniq a T).
    + by destruct (Hnone d n).
    + by destruct (Hnone d' n').
  - assert (Hm : forall x, reach a x -> reach (<[no:=nd]> (<[dir:=ADir rw (u + 1) (<[name:=no]> m)]> a)) x).
    { apply reach_mono. intros d n x E. apply He. by left. }
    intros x. rewrite !lookup_insert_is_Some. intros [<-|[_ [<-|[_ Hx]]]].
    + eapply reach_entry; [apply Hm, (tr_reach a T dir); eauto|]. apply He. by right.
    + apply Hm, (tr_reach a T). eauto.
    + by apply Hm, (tr_reach a T).
  - intros d rw' m' [[<- E]|[Hd' [[<- E]|[Hd'' E]]%lookup_insert_Some]]%lookup_insert_Some.
    + subst nd. done.
    + injection E as _ E _. pose proof (tr_used a T _ _ _ _ Hd). lia.
    + by eapply (tr_empty a T).
  - intros d rw' u' m' [[<- E]|[Hd' [[<- E]|[Hd'' E]]%lookup_insert_Some]]%lookup_insert_Some.
    + apply Hu in E as ->. unfold Deneme_subdentry_count. lia.
    + injection E as _ <- _. pose proof (tr_used a T _ _ _ _ Hd). lia.
    + by eapply (tr_used a T).
Qed.

Lemma entry_remove dir name rw u m no nd :
  a !! dir = Some (ADir rw u m) -> m !! name = Some no -> a !! no = Some nd -> leaf nd ->
  forall d n x, entry (aremove dir name rw u m no a) d n x <-> entry a d n x /\ ~ (d = dir /\ n = name).
Proof.
  intros Hd Hn Hno Hl d n x. unfold entry, aremove.
  assert (Hne : no <> dir) by (intros ->; rewrite Hd in Hno; injection Hno as <-; simpl in Hl; by subst m).
  split.
  - intros (rw' & u' & m' & [Hne' Hd']%lookup_delete_Some & Hx). destruct (decide (dir = d)) as [<-|].
    + rewrite lookup_insert_eq in Hd'. injection Hd' as <- <- <-. apply lookup_delete_Some in Hx as [Hn' Hx].
      split; [eauto|]. intros [_ ->]. done.
    + rewrite lookup_insert_ne in Hd' by done. split; [eauto|]. intros [-> _]. done.
  - intros [(rw' & u' & m' & Hd' & Hx) Hnot]. assert (no <> d).
    { intros ->. rewrite Hd' in Hno. injection Hno as <-. simpl in Hl. subst m'. done. }
    rewrite lookup_delete_ne by done. destruct (decide (dir = d)) as [<-|].
    + rewrite lookup_insert_eq. rewrite Hd in Hd'. injection Hd' as <- <- <-. do 3 eexists. split; [done|].
      apply lookup_delete_Some. split; [|done]. intros ->. by apply Hnot.
    + rewrite lookup_insert_ne by done. eauto.
Qed.

Lemma remove_tree dir name rw u m no nd :
  a !! dir = Some (ADir rw u m) -> m !! name = Some no -> a !! no = Some nd -> leaf nd ->
  tree_ok (aremove dir name rw u m no a).
Proof.
  intros Hd Hn Hno Hl. pose proof (entry_remove dir name rw u m no nd Hd Hn Hno Hl) as He.
  assert (E0 : entry a dir name no) by (unfold entry; eauto).
  destruct (tr_refs a T _ _ _ E0) as (_ & H0 & _).
  assert (Hne : no <> dir) by (intros ->; rewrite Hd in Hno; injection Hno as <-; simpl in Hl; by subst m).
  assert (Hin : forall x, is_Some (aremove dir name rw u m no a !! x) <-> x <> no /\ is_Some (a !! x)).
  { intros x. unfold aremove. rewrite lookup_delete_is_Some, lookup_insert_is_Some.
    destruct (decide (dir = x)) as [<-|]; [|naive_solver]. rewrite Hd. naive_solver. }
  assert (Hdir : forall d rw' u' m', aremove dir name rw u m no a !! d = Some (ADir rw' u' m') ->
    exists m'', a !! d = Some (ADir rw' u' m'') /\ (m'' = ∅ -> m' = ∅)).
  { intros d rw' u' m'. unfold aremove. intros [Hne' [[<- E]|[Hd'' E]]%lookup_insert_Some]%lookup_delete_Some; [|eauto].
    injection E as <- <- <-. exists m. split; [done|]. intros ->. done. }
  split.
  - unfold aremove. rewrite lookup_delete_ne by done. destruct (tr_root a T) as (rw0 & u0 & m0 & E).
    destruct (decide (dir = 0)) as [->|]; [rewrite lookup_insert_eq; eauto|rewrite lookup_insert_ne by done; eauto].
  - intros x [_ Hx]%Hin. by apply (tr_range a T).
  - intros d n x [E Hnot]%He. destruct (tr_refs a T _ _ _ E) as (Hx & ? & ?). split_and!; [|done..].
    apply Hin. split; [|done]. intros ->. by apply Hnot, (tr_uniq a T _ _ _ _ _ E E0).
  - intros d n d' n' x [E _]%He [E' _]%He. by eapply (tr_uniq a T).
  - assert (Hr : forall x, reach a x -> x <> no -> reach (aremove dir name rw u m no a) x).
    { intros x Hx. induction Hx as [|d n x Hd' IH Hx]; intros Hxn; [by constructor|].
      eapply reach_entry; [apply IH|apply He; split; [exact Hx|]].
      - intros ->. destruct Hx as (rw' & u' & m' & Hx & Hm). rewrite Hx in Hno. injection Hno as <-. simpl in Hl. by subst m'.
      - intros [-> ->]. apply Hxn. destruct Hx as (rw' & u' & m' & Hx & Hm). congruence. }
    intros x [Hxn Hx]%Hin. by apply Hr, Hxn; apply (tr_reach a T).
  - intros d rw' m' (m'' & Hm & Hem)%Hdir. apply Hem. by eapply (tr_empty a T).
  - intros d rw' u' m' (m'' & Hm & Hem)%Hdir. by eapply (tr_used a T).
Qed.

Lemma write_tree no rw bs bs' : a !! no = Some (AFile rw bs) -> tree_ok (<[no := AFile rw bs']> a).
Proof.
  intros Hno. assert (He : forall d n x, entry (<[no := AFile rw bs']> a) d n x <-> entry a d n x).
  { intros d n x. unfold entry. destruct (decide (no = d)) as [<-|].
    - rewrite lookup_insert_eq, Hno. naive_solver.
    - by rewrite lookup_insert_ne. }
  assert (Hin : forall x, is_Some (<[no := AFile rw bs']> a !! x) <-> is_Some (a !! x)).
  { intros x. rewrite lookup_insert_is_Some. destruct (decide (no = x)) as [<-|]; [|naive_solver]. rewrite Hno. naive_solver. }
  assert (Hdir : forall d rw' u m, <[no := AFile rw bs']> a !! d = Some (ADir rw' u m) -> a !! d = Some (ADir rw' u m)).
  { intros d rw' u m [[_ [=]]|[_ E]]%lookup_insert_Some. done. }
  split.
  - destruct (tr_root a T) as (rw0 & u0 & m0 & E). rewrite lookup_insert_ne by congruence. eauto.
  - intros x Hx%Hin. by apply (tr_range a T).
  - intros d n x E%He. rewrite Hin. by apply (tr_refs a T _ _ _ E).
  - intros d n d' n' x E%He E'%He. by eapply (tr_uniq a T).
  - intros x Hx%Hin. eapply reach_mono; [|by apply (tr_reach a T)]. intros d n y. apply He.
  - intros d rw' m Hm%Hdir. by eapply (tr_empty a T).
  - intros d rw' u m Hm%Hdir. by eapply (tr_used a T).
Qed.

(** Every call leaves a tree. *)
Lemma astep_tree c : call_ok a c -> tree_ok (astep c a).2.
Proof.
  destruct c as [d nm|d nm rw|d nm rw|d nm|d nm|no pos size|no pos buf]; cbn [call_ok astep].
  - intros _. destruct (a !! d) as [[]|]; [done| |done]. by destruct (_ ≫= _) as [[]|].
  - intros [[Hn _] Hd]. destruct (acreate d nm _ a) as [[no a']|] eqn:E; [|done]. by eapply create_tree.
  - intros [[Hn _] Hd]. destruct (acreate d nm _ a) as [[no a']|] eqn:E; [|done].
    eapply create_tree; [done|done| |done|done]. by intros ? ? ? [= _ <- _].
  - intros _. destruct (a !! d) as [[|rw u m]|] eqn:Hd; [done| |done].
    destruct (m !! nm) as [no|] eqn:Hn; simpl; [|done].
    destruct (a !! no) as [[|]|] eqn:Hno; simpl; [|done..]. by eapply remove_tree.
  - intros _. destruct (a !! d) as [[|rw u m]|] eqn:Hd; [done| |done].
    destruct (m !! nm) as [no|] eqn:Hn; simpl; [|done].
    destruct (a !! no) as [[|rw' u' m']|] eqn:Hno; simpl; [done| |done].
    destruct (Z.eqb_spec u' 0) as [->|]; [|done]. eapply remove_tree; [done..|]. by eapply (tr_empty a T).
  - intros _. by destruct (a !! no) as [[]|].
  - intros _. destruct (a !! no) as [[rw bs|]|] eqn:E; [|done..]. by eapply write_tree.
Qed.
End tree.
