(* ===== verification/DenemeProps.v ===== *)
(** denemefs implements the abstract file system of DenemeSpec: a representation
    relation, one lemma per operation, and the properties. *)

From S2P Require Import Prelude Fs DenemeFs DenemeSpec.

Local Ltac go H := rewrite (bind_done _ _ _ _ _ H).

(** * The representation relation *)

Definition slot (sd : subdentry) (i : Z) (nm : cstr) (no : Z) : Prop :=
  0 <= i < sd_n sd /\ sd_name sd !! Z.to_nat i = Some nm /\ sd_no sd !! Z.to_nat i = Some no.

Record dir_repr (sd : subdentry) (u : Z) (m : gmap cstr Z) : Prop := mkDirRepr {
  dr_n : sd_n sd = u /\ 0 <= u <= Deneme_subdentry_count;
  dr_len : length (sd_no sd) = 56%nat /\ length (sd_name sd) = 56%nat;
  dr_map : forall nm no, nm <> [] -> (m !! nm = Some no <-> exists i, slot sd i nm no);
  dr_uniq : forall i j nm no no', nm <> [] -> slot sd i nm no -> slot sd j nm no' -> i = j;
  dr_empty : m !! [] = None;
}.

Definition obj_repr (o : fobj) (nd : anode) : Prop :=
  match nd, o with
  | AFile _ bs, OBytes bs' => bs' = bs /\ Z.of_nat (length bs) < 2 ^ 31
  | ADir _ u m, ODir sd => dir_repr sd u m
  | _, _ => False
  end.

(** ** Slots of a directory *)

Lemma to_nat_inj i j : 0 <= i -> 0 <= j -> Z.to_nat i = Z.to_nat j -> i = j.
Proof. lia. Qed.

Lemma dir_repr_add sd u m nm no :
  dir_repr sd u m -> u < Deneme_subdentry_count -> nm <> [] -> m !! nm = None ->
  dir_repr (mkSd (i32 (sd_n sd + 1)) (<[Z.to_nat (sd_n sd) := no]> (sd_no sd)) (<[Z.to_nat (sd_n sd) := nm]> (sd_name sd)))
    (u + 1) (<[nm := no]> m).
Proof.
  intros [[<- Hu] [Hl1 Hl2] Hm Huq He] Hlt Hnm Hnone. set (n := sd_n sd) in *. unfold Deneme_subdentry_count in *.
  assert (Hi32 : i32 (n + 1) = n + 1) by (apply i32_small; lia).
  assert (Hs : forall i nm' no', slot (mkSd (i32 (n + 1)) (<[Z.to_nat n := no]> (sd_no sd)) (<[Z.to_nat n := nm]> (sd_name sd))) i nm' no' <->
    slot sd i nm' no' \/ (i = n /\ nm' = nm /\ no' = no)).
  { intros i nm' no'. unfold slot; cbn [sd_n sd_name sd_no]. rewrite Hi32. fold n. destruct (decide (i = n)) as [->|Hi].
    - rewrite !list_lookup_insert_eq by lia. split; [intros (_ & [= <-] & [= <-]); by right|].
      intros [(? & _)|(_ & -> & ->)]; [lia|]. split_and!; (done || lia).
    - destruct (decide (0 <= i)); [|split; [intros (? & _); lia|intros [(? & _)|(? & _)]; lia]].
      rewrite !list_lookup_insert_ne by lia. split; [|intros [(? & ? & ?)|(? & _)]; [split_and!; (done || lia)|done]].
      intros (? & ? & ?). left. split_and!; (done || lia). }
  split; cbn [sd_n sd_no sd_name].
  - unfold Deneme_subdentry_count. split; [done|lia].
  - by rewrite !length_insert.
  - intros nm' no' Hn'. setoid_rewrite Hs. destruct (decide (nm = nm')) as [<-|Hne].
    + rewrite lookup_insert_eq. split; [intros [= <-]; exists n; by right|].
      intros (i & [Hi|(_ & _ & ->)]); [|done]. exfalso. assert (m !! nm = Some no') by (apply Hm; eauto). congruence.
    + rewrite lookup_insert_ne, Hm by done. split; intros (i & Hi); exists i; [by left|]. destruct Hi as [|(_ & -> & _)]; done.
  - intros i j nm' x y Hn' [Hi|(Ei & En & _)]%Hs [Hj|(Ej & En' & _)]%Hs; subst.
    + by eapply Huq.
    + assert (m !! nm = Some x) by (apply Hm; eauto). congruence.
    + assert (m !! nm = Some y) by (apply Hm; eauto). congruence.
    + done.
  - by rewrite lookup_insert_ne by done.
Qed.

Lemma dir_repr_remove sd u m nm i no :
  dir_repr sd u m -> nm <> [] -> slot sd i nm no ->
  dir_repr (mkSd (sd_n sd) (<[Z.to_nat i := 0]> (sd_no sd)) (<[Z.to_nat i := []]> (sd_name sd))) u (base.delete nm m).
Proof.
  intros [[<- Hu] [Hl1 Hl2] Hm Huq He] Hnm Hi. unfold Deneme_subdentry_count in *.
  assert (Hs : forall j nm' no', nm' <> [] ->
    slot (mkSd (sd_n sd) (<[Z.to_nat i := 0]> (sd_no sd)) (<[Z.to_nat i := []]> (sd_name sd))) j nm' no' <->
    slot sd j nm' no' /\ j <> i).
  { intros j nm' no' Hn'. unfold slot; cbn [sd_n sd_name sd_no]. destruct Hi as (Hi & _).
    destruct (decide (j = i)) as [->|Hj].
    - rewrite !list_lookup_insert_eq by lia. naive_solver.
    - split.
      + intros (Hr & Hx). rewrite !list_lookup_insert_ne in Hx by lia. done.
      + intros [(Hr & Hx) _]. rewrite !list_lookup_insert_ne by lia. done. }
  split; cbn [sd_n sd_no sd_name].
  - done.
  - by rewrite !length_insert.
  - intros nm' no' Hn'. destruct (decide (nm = nm')) as [<-|Hne].
    + rewrite lookup_delete_eq. split; [done|]. intros (j & [Hj Hji]%Hs); [|done]. by destruct Hji; eapply Huq.
    + rewrite lookup_delete_ne, Hm by done. split; intros (j & Hj); exists j.
      * apply Hs; [done|]. split; [done|]. intros ->. destruct Hi as (_ & Hi & _), Hj as (_ & Hj & _). congruence.
      * by apply Hs in Hj as [? _].
  - intros j k nm' x y Hn' [Hj _]%Hs [Hk _]%Hs; [|done..]. by eapply Huq.
  - by rewrite lookup_delete_ne by done.
Qed.

Lemma dir_repr_zero : dir_repr sd_zero 0 ∅.
Proof.
  split; cbn; [unfold Deneme_subdentry_count; lia|done| | |done].
  - intros nm no _. rewrite lookup_empty. split; [done|]. intros (i & Hi & _). cbn in Hi. lia.
  - intros i j nm no no' _ (Hi & _). cbn in Hi. lia.
Qed.

Section refinement.
Context {H : Type} `{AS : AllocSpec H}.
Notation FS := (dfs H).
Implicit Types (s : FS) (a : afs) (nd : anode).

Record node_repr s (d : Deneme_inode) nd : Prop := mkNode {
  nr_links : nlinks d = 1;
  nr_mode : d_mode d = anode_mode nd;
  nr_size : d_size d = anode_size nd;
  nr_null : d_data d <> NULL;
  nr_data : exists o, fs_data s !! d_data d = Some o /\ obj_repr o nd;
}.

(** [core a s]: the nodes of [a] are in the inode table, each with its own data;
    what is in the other entries of the table does not matter. *)
Record core a s : Prop := mkCore {
  co_len : length (fs_di s) = 100%nat;
  co_node : forall no nd, a !! no = Some nd ->
    0 <= no < 100 /\ exists d, fs_di s !! Z.to_nat no = Some d /\ node_repr s d nd;
  co_inj : forall i j d d', is_Some (a !! i) -> is_Some (a !! j) ->
    fs_di s !! Z.to_nat i = Some d -> fs_di s !! Z.to_nat j = Some d' -> d_data d = d_data d' -> i = j;
  co_heap : exists L, al_ok L (fs_heap s) /\
    forall i d, is_Some (a !! i) -> fs_di s !! Z.to_nat i = Some d -> d_data d ∈ L;
}.

Definition unused a s (P : Z -> Prop) : Prop :=
  forall i, 0 <= i < 100 -> a !! i = None -> P i -> fs_di s !! Z.to_nat i = Some di_zero.

(** The file system [a] in the state [s]. *)
Definition repr a s : Prop := tree_ok a /\ core a s /\ unused a s (fun _ => True).

(** ** Reading *)

Lemma di_rd_run no d s : fs_di s !! Z.to_nat no = Some d -> di_rd no s = Done d s.
Proof. intros E. unfold di_rd. m_unfold. by rewrite E. Qed.

Lemma di_wr_run no d f s : fs_di s !! Z.to_nat no = Some d ->
  di_wr no f s = Done tt (set_fs_di (<[Z.to_nat no := f d]> (fs_di s)) s).
Proof. intros E. unfold di_wr. by go (di_rd_run no d s E). Qed.

Lemma sd_rd_run p sd s : fs_data s !! p = Some (ODir sd) -> sd_rd p s = Done sd s.
Proof. intros E. unfold sd_rd. m_unfold. by rewrite E. Qed.

Lemma bytes_rd_run p bs s : fs_data s !! p = Some (OBytes bs) -> bytes_rd p s = Done bs s.
Proof. intros E. unfold bytes_rd. m_unfold. by rewrite E. Qed.

(** The structure of a directory. *)
Lemma core_dir a s dir rw u m : core a s -> a !! dir = Some (ADir rw u m) ->
  exists d sd, 0 <= dir < 100 /\ fs_di s !! Z.to_nat dir = Some d /\ d_mode d = mkMode rw.1 rw.2 0 FT_dir /\
    nlinks d = 1 /\ d_size d = sizeof_subdentry /\
    fs_data s !! d_data d = Some (ODir sd) /\ dir_repr sd u m.
Proof.
  intros C Hd. destruct (co_node a s C _ _ Hd) as (Hr & d & Hdi & [Hl Hm Hz _ (o & Ho & Hor)]).
  destruct o as [sd|]; [|done]. by exists d, sd.
Qed.

Lemma slot_names sd u m i nm : dir_repr sd u m -> 0 <= i < u -> sd_name sd !! Z.to_nat i = Some nm ->
  exists no, slot sd i nm no.
Proof.
  intros [[<- Hu] [Hl1 Hl2] _ _ _] Hi Hnm.
  destruct (lookup_lt_is_Some_2 (sd_no sd) (Z.to_nat i)) as [no Hno].
  { unfold Deneme_subdentry_count in Hu. lia. }
  by exists no.
Qed.

Definition names_at (sd : subdentry) (nm : cstr) (i : Z) : bool := bool_decide (sd_name sd !! Z.to_nat i = Some nm).

(** The search for a name among the slots of a directory. *)
Lemma slot_search {R} sd u m nm (f : Z -> M FS (option R)) s :
  dir_repr sd u m -> nm <> [] ->
  (forall i nm', 0 <= i < u -> sd_name sd !! Z.to_nat i = Some nm' -> nm' <> nm -> f i s = Done None s) ->
  (forall i no r s', slot sd i nm no -> m !! nm = Some no -> f i s = Done (Some r) s' ->
     iter_until f (seqZ 0 (sd_n sd)) s = Done (Some r) s') /\
  (m !! nm = None -> iter_until f (seqZ 0 (sd_n sd)) s = Done None s).
Proof.
  intros D Hnm Hf. destruct (dr_n _ _ _ D) as [Hu Hub]. destruct (dr_len _ _ _ D) as [_ Hl].
  assert (Hnames : forall i, 0 <= i < u -> exists nm', sd_name sd !! Z.to_nat i = Some nm').
  { intros i Hi. apply lookup_lt_is_Some_2. unfold Deneme_subdentry_count in Hub. lia. }
  destruct (iter_until_split f (names_at sd nm) (seqZ 0 (sd_n sd)) s) as [(l1 & i & l2 & E & Hp & _ & Hr)|[Hno Hr]].
  - intros i [Hi0 Hi]%elem_of_seqZ Hp. rewrite Hu in Hi. destruct (Hnames i) as [nm' Hnm']; [lia|].
    apply (Hf i nm'); [lia|done|]. intros ->. unfold names_at in Hp. by rewrite bool_decide_true in Hp.
  - apply bool_decide_eq_true in Hp. destruct (seqZ_split _ _ _ _ _ E) as [Hi _].
    destruct (slot_names _ _ _ i nm D) as [no Hs]; [lia|done|].
    assert (Hm : m !! nm = Some no) by (apply (dr_map _ _ _ D); eauto). split; [|congruence].
    intros j no' r s' Hj Hm' Hfr. rewrite (dr_uniq _ _ _ D j i nm no' no Hnm Hj Hs) in Hfr.
    rewrite Hr. cbn [iter_until]. by go Hfr.
  - split; [|done]. intros j no r s' (Hj & Hn & _) Hm Hfr. specialize (Hno j). rewrite elem_of_seqZ in Hno.
    specialize (Hno ltac:(lia)). unfold names_at in Hno. by rewrite bool_decide_true in Hno.
Qed.

Lemma inode_op_run d nd s : d_mode d = anode_mode nd -> inode_op_of d s = Done (anode_op nd) s.
Proof. intros E. unfold inode_op_of. rewrite E. by destruct nd. Qed.

Lemma lookup_run a s i_dir dir rw u m nm dest : core a s -> ino i_dir = dir ->
  a !! dir = Some (ADir rw u m) -> nm <> [] ->
  (forall no, m !! nm = Some no -> is_Some (a !! no)) ->
  denemefs_lookup i_dir nm dest s = Done
    (match m !! nm ≫= fun no => pair no <$> a !! no with
     | Some (no, nd) => (0, afound (superblock i_dir) no nd dest)
     | None => (-1, dest) end) s.
Proof.
  intros C <- Hd Hnm Href. destruct (core_dir a s _ rw u m C Hd) as (d & sd & Hr & Hdi & Hm & _ & _ & Hsd & D).
  unfold denemefs_lookup. go (di_rd_run _ _ _ Hdi). rewrite Hm. cbn [fm_type]. change (FT_dir =? FT_dir) with true.
  cbn [negb]. go (sd_rd_run _ _ _ Hsd).
  destruct (slot_search sd u m nm (lookup_slot i_dir sd nm dest) s D Hnm) as [Hfound Hnone].
  { intros i nm' Hi Hnm' Hne. unfold lookup_slot. m_unfold. rewrite Hnm'. unfold streq.
    by rewrite bool_decide_false. }
  destruct (m !! nm) as [no|] eqn:Hmn; cbn [mbind option_bind]; [|by go (Hnone eq_refl)].
  destruct (Href no eq_refl) as [nd Hnd]. rewrite Hnd. cbn [fmap option_fmap option_map].
  assert (Hs : exists i, slot sd i nm no) by (by apply (dr_map _ _ _ D)). destruct Hs as [i Hs].
  destruct (co_node a s C _ _ Hnd) as (Hrn & dn & Hdn & [Hl Hmn' Hz _ _]).
  assert (Hrun : lookup_slot i_dir sd nm dest i s = Done (Some (afound (superblock i_dir) no nd dest)) s).
  { destruct Hs as (_ & Hn & Hno). unfold lookup_slot. rewrite Hn. cbn [deref].
    go (eq_refl : (mret nm : M FS cstr) s = Done nm s). unfold streq. rewrite bool_decide_true by done.
    rewrite Hno. cbn [deref]. go (eq_refl : (mret no : M FS Z) s = Done no s). go (di_rd_run _ _ _ Hdn).
    rewrite Hl. cbn [ASSERT Z.ltb Z.compare]. go (eq_refl : (mret tt : M FS unit) s = Done tt s).
    go (inode_op_run dn nd s Hmn'). unfold afound. by rewrite Hmn', Hz. }
  by go (Hfound i no _ s Hs eq_refl Hrun).
Qed.

(** ** Writing *)

Lemma core_sub a a' s : a' ⊆ a -> core a s -> core a' s.
Proof.
  intros Hsub [Hl Hn Hi (L & HL & Hd)]. assert (Hs : forall i, is_Some (a' !! i) -> is_Some (a !! i)).
  { intros i [x Hx]. exists x. by eapply lookup_weaken. }
  split; [done| | |].
  - intros no nd E. eapply Hn, lookup_weaken; eauto.
  - intros i j d d' H1 H2. apply Hi; by apply Hs.
  - exists L. split; [done|]. intros i d Hx. apply Hd. by apply Hs.
Qed.

(** A state that agrees with [s] on the nodes of [a]. *)
Lemma core_frame a s s' :
  core a s -> length (fs_di s') = 100%nat ->
  (forall i, is_Some (a !! i) -> fs_di s' !! Z.to_nat i = fs_di s !! Z.to_nat i) ->
  (forall i d, is_Some (a !! i) -> fs_di s !! Z.to_nat i = Some d -> fs_data s' !! d_data d = fs_data s !! d_data d) ->
  (exists L, al_ok L (fs_heap s') /\ forall i d, is_Some (a !! i) -> fs_di s !! Z.to_nat i = Some d -> d_data d ∈ L) ->
  core a s'.
Proof.
  intros [Hl Hn Hi _] Hl' Hdi Hda (L & HL & Hd). split; [done| | |].
  - intros no nd E. destruct (Hn no nd E) as (Hr & d & Hd' & [? ? ? ? (o & Ho & Hor)]). split; [done|].
    exists d. rewrite Hdi by eauto. split; [done|]. split; [done..|]. exists o. by rewrite (Hda no d) by eauto.
  - intros i j d d' H1 H2. rewrite !Hdi by done. by apply Hi.
  - exists L. split; [done|]. intros i d Hx. rewrite Hdi by done. by apply Hd.
Qed.

(** One node more, or one node changed. *)
Lemma core_insert a s s' no nd d :
  core a s -> 0 <= no < 100 -> length (fs_di s') = 100%nat ->
  (forall i, is_Some (a !! i) -> i <> no -> fs_di s' !! Z.to_nat i = fs_di s !! Z.to_nat i) ->
  (forall i d', is_Some (a !! i) -> i <> no -> fs_di s !! Z.to_nat i = Some d' ->
     fs_data s' !! d_data d' = fs_data s !! d_data d' /\ d_data d' <> d_data d) ->
  fs_di s' !! Z.to_nat no = Some d -> node_repr s' d nd ->
  (exists L, al_ok L (fs_heap s') /\ d_data d ∈ L /\
     forall i d', is_Some (a !! i) -> i <> no -> fs_di s !! Z.to_nat i = Some d' -> d_data d' ∈ L) ->
  core (<[no := nd]> a) s'.
Proof.
  intros C Hr Hl' Hdi Hda Hd Hnd (L & HL & HdL & HL').
  assert (C' : core (base.delete no a) s').
  { apply (core_frame _ s); [by apply (core_sub a); [apply delete_subseteq|]|done| | |].
    - intros i [Hne Hi]%lookup_delete_is_Some. by apply Hdi.
    - intros i d' [Hne Hi]%lookup_delete_is_Some Hi'. by apply (Hda i).
    - exists L. split; [done|]. intros i d' [Hne Hi]%lookup_delete_is_Some. by apply HL'. }
  assert (Hother : forall i d', is_Some (a !! i) -> i <> no -> fs_di s' !! Z.to_nat i = Some d' ->
    d_data d' <> d_data d /\ d_data d' ∈ L).
  { intros i d' Hi Hne E. rewrite Hdi in E by done. split; [by eapply Hda|by eapply HL']. }
  split; [done| | |].
  - intros i nd' [[<- <-]|[Hne Hi]]%lookup_insert_Some; [by split; [|exists d]|].
    apply (co_node _ _ C'). by rewrite lookup_delete_ne.
  - intros i j di dj Hi Hj Ei Ej E. rewrite lookup_insert_is_Some' in Hi, Hj.
    destruct (decide (no = i)) as [<-|Hni], (decide (no = j)) as [<-|Hnj]; [done| | |].
    + destruct Hj as [->|Hj]; [done|]. assert (di = d) as -> by congruence.
      destruct (Hother j dj Hj) as [Hx _]; [congruence|done|]. congruence.
    + destruct Hi as [->|Hi]; [done|]. assert (dj = d) as -> by congruence.
      destruct (Hother i di Hi) as [Hx _]; [congruence|done|]. congruence.
    + destruct Hi as [->|Hi]; [done|]. destruct Hj as [->|Hj]; [done|].
      eapply (co_inj _ _ C'); try eassumption; rewrite lookup_delete_ne by done; done.
  - exists L. split; [done|]. intros i di. rewrite lookup_insert_is_Some'. intros Hi Ei.
    destruct (decide (no = i)) as [<-|Hni]; [assert (di = d) as -> by congruence; done|].
    destruct Hi as [->|Hi]; [done|]. by eapply Hother; [| |done].
Qed.

(** A node with new contents at the same place. *)
Lemma core_update a s no nd nd' d o :
  core a s -> a !! no = Some nd -> fs_di s !! Z.to_nat no = Some d ->
  anode_mode nd' = anode_mode nd -> anode_size nd' = anode_size nd -> obj_repr o nd' ->
  core (<[no := nd']> a) (set_fs_data (<[d_data d := o]> (fs_data s)) s).
Proof.
  intros C Hno Hd Hm Hz Ho. destruct (co_node a s C no nd Hno) as (Hr & d' & Hd' & [? ? ? ? _]).
  assert (d' = d) as -> by congruence. destruct (co_heap a s C) as (L & HL & HdL).
  assert (Hne : forall i di, is_Some (a !! i) -> i <> no -> fs_di s !! Z.to_nat i = Some di -> d_data di <> d_data d).
  { intros i di Hi Hin Hdi E. by apply Hin, (co_inj a s C i no di d). }
  apply (core_insert a s _ no nd' d); [done|done|apply (co_len a s C)|done| |done| |].
  - intros i di Hi Hin Hdi. pose proof (Hne i di Hi Hin Hdi). split; [|done]. cbn. by rewrite lookup_insert_ne.
  - split; [done|congruence..|done|]. exists o. cbn. by rewrite lookup_insert_eq.
  - exists L. split_and!; [done|by eapply HdL; eauto|]. intros i di Hi _ Hdi. by eapply HdL.
Qed.

(** The inode table away from the nodes of [a]. *)
Lemma core_di_other a s no d : core a s -> a !! no = None -> 0 <= no ->
  core a (set_fs_di (<[Z.to_nat no := d]> (fs_di s)) s).
Proof.
  intros C Hno Hr. apply (core_frame a s); [done|by cbn; rewrite length_insert, (co_len a s C)| |done|apply (co_heap a s C)].
  intros i Hi. cbn. destruct Hi as [nd Hi]. destruct (co_node a s C i nd Hi) as (Hir & _).
  apply list_lookup_insert_ne. intros E%to_nat_inj; [congruence|lia..].
Qed.

(** ** A new inode with an entry *)

Lemma zero_entry a s no : core a s -> unused a s (fun _ => True) -> 0 <= no < 100 -> a !! no = None ->
  fs_di s !! Z.to_nat no = Some di_zero.
Proof. intros C Hu Hr Hno. by apply Hu. Qed.

Definition taken (no : Z) s : FS := set_fs_di (<[Z.to_nat no := set_nlinks 1 di_zero]> (fs_di s)) s.

Lemma find_empty_run a s : core a s -> unused a s (fun _ => True) ->
  find_empty_di s = match fresh a with Some no => Done no (taken no s) | None => Done (-1) s end.
Proof.
  intros C Hu. unfold find_empty_di.
  set (f := fun i => d ← di_rd i; if nlinks d =? 0 then di_wr i (set_nlinks 1) ;; mret (Some i) else mret None).
  assert (Hused : forall i, is_Some (a !! i) -> f i s = Done None s).
  { intros i [nd Hi]. destruct (co_node a s C i nd Hi) as (_ & d & Hd & [Hl _ _ _ _]). unfold f.
    go (di_rd_run _ _ _ Hd). by rewrite Hl. }
  destruct (iter_until_split f (fun i => bool_decide (a !! i = None)) (seqZ 0 100) s)
    as [(l1 & i & l2 & E & Hp%bool_decide_eq_true & Hl1 & Hr)|[Hall Hr]].
  { intros i _ Hp%bool_decide_eq_false. apply Hused. by apply not_eq_None_Some. }
  - destruct (seqZ_split _ _ _ _ _ E) as [Hi Hbefore]. destruct (fresh a) as [no|] eqn:Hf.
    + apply fresh_spec in Hf as (Hno & Hnr & Hlow). assert (no = i) as ->.
      { destruct (Z.lt_trichotomy no i) as [Hlt|[?|Hgt]]; [|done|].
        - specialize (Hl1 no). rewrite Hbefore in Hl1. specialize (Hl1 ltac:(lia)).
          by rewrite bool_decide_true in Hl1.
        - destruct (Hlow i) as [? Hx]; [lia|]. congruence. }
      pose proof (zero_entry a s i C Hu ltac:(lia) Hp) as Hz.
      assert (Hfi : f i s = Done (Some i) (taken i s)).
      { unfold f. go (di_rd_run _ _ _ Hz). cbn [nlinks di_zero Z.eqb]. by go (di_wr_run _ _ (set_nlinks 1) _ Hz). }
      cbn [iter_until] in Hr. rewrite (bind_done _ _ _ _ _ Hfi) in Hr. by go Hr.
    + destruct (fresh_none a Hf i) as [? Hx]; [lia|]. congruence.
  - destruct (fresh a) as [no|] eqn:Hf.
    + apply fresh_spec in Hf as (Hno & Hnr & _). specialize (Hall no). rewrite elem_of_seqZ in Hall.
      specialize (Hall ltac:(lia)). by rewrite bool_decide_true in Hall.
    + by go Hr.
Qed.

Lemma new_inode_run a s dest : core a s -> unused a s (fun _ => True) ->
  denemefs_new_inode dest s =
    match fresh a with Some no => Done (0, set_ino no dest) (taken no s) | None => Done (-1, dest) s end.
Proof.
  intros C Hu. unfold denemefs_new_inode. pose proof (find_empty_run a s C Hu) as Hf.
  destruct (fresh a) as [no|] eqn:E; go Hf; [|done].
  apply fresh_spec in E as (_ & Hr & _). destruct (Z.ltb_spec no 0); [lia|].
  assert (Ht : fs_di (taken no s) !! Z.to_nat no = Some (set_nlinks 1 di_zero)).
  { cbn. apply list_lookup_insert_eq. rewrite (co_len a s C). lia. }
  go (di_wr_run _ _ (set_nlinks 1) _ Ht). unfold taken, set_fs_di; cbn. do 2 f_equal. by rewrite list_insert_insert_eq.
Qed.

Lemma add_entry_run a s i_dir dir rw u m nm i :
  core a s -> ino i_dir = dir -> a !! dir = Some (ADir rw u m) -> name_ok nm ->
  (forall no, m !! nm = Some no -> is_Some (a !! no)) ->
  match m !! nm with
  | Some _ => denemefs_add_entry i_dir nm i s = Done (-1) s
  | None => u < Deneme_subdentry_count -> exists d sd, fs_di s !! Z.to_nat dir = Some d /\
      dir_repr sd (u + 1) (<[nm := ino i]> m) /\
      denemefs_add_entry i_dir nm i s = Done 0 (set_fs_data (<[d_data d := ODir sd]> (fs_data s)) s)
  end.
Proof.
  intros C <- Hd [Hnm Hfit] Href. pose proof (lookup_run a s i_dir _ rw u m nm inode_zero C eq_refl Hd Hnm Href) as Hl.
  destruct (m !! nm) as [no|] eqn:Hm; cbn [mbind option_bind] in Hl; unfold denemefs_add_entry.
  - destruct (Href no eq_refl) as [nd Hnd]. rewrite Hnd in Hl. cbn in Hl. by go Hl.
  - intros Hu. go Hl. cbn [Z.eqb]. destruct (core_dir a s _ rw u m C Hd) as (d & sd & Hr & Hdi & _ & _ & _ & Hsd & D).
    destruct (dr_n _ _ _ D) as [Hn Hub]. destruct (dr_len _ _ _ D) as [Hl1 Hl2].
    eexists d, _. split_and!; [done|by apply (dir_repr_add sd u m nm (ino i))|].
    go (di_rd_run _ _ _ Hdi). go (sd_rd_run _ _ _ Hsd). unfold Deneme_subdentry_count in *.
    unfold name_set, arr_set. rewrite Hfit, !bool_decide_true by lia. done.
Qed.

Lemma free_unused_run no i s d : ino i = no -> fs_di s !! Z.to_nat no = Some d -> d_data d = NULL ->
  denemefs_free_inode i s = Done tt (set_fs_di (<[Z.to_nat no := di_zero]> (fs_di s)) s).
Proof.
  intros <- Hd Hn. unfold denemefs_free_inode. go (di_rd_run _ _ _ Hd). rewrite Hn. cbn [when negb Z.eqb NULL].
  go (eq_refl : (mret tt : M FS unit) s = Done tt s). exact (di_wr_run _ _ (fun _ => di_zero) _ Hd).
Qed.

(** The state behind new_entry: the directory has its entry, the inode is taken. *)
Lemma new_entry_run a s i_dir dir rw u m nm :
  repr a s -> ino i_dir = dir -> a !! dir = Some (ADir rw u m) -> name_ok nm -> u < Deneme_subdentry_count ->
  match fresh a, m !! nm with
  | Some no, None => exists s', new_entry i_dir nm s = Done (Some (set_ino no inode_zero)) s' /\
      core (<[dir := ADir rw (u + 1) (<[nm := no]> m)]> a) s' /\ unused a s' (fun i => i <> no) /\
      fs_di s' !! Z.to_nat no = Some (set_nlinks 1 di_zero) /\ fs_heap s' = fs_heap s
  | _, _ => new_entry i_dir nm s = Done None s
  end.
Proof.
  intros (T & C & Hun) <- Hd Hnm Hu. unfold new_entry.
  pose proof (new_inode_run a s inode_zero C Hun) as Hni.
  destruct (fresh a) as [no|] eqn:Hf; [|by go Hni].
  apply fresh_spec in Hf as (Hno & Hr & _). pose proof (zero_entry a s no C Hun Hr Hno) as Hz.
  pose proof (core_di_other a s no (set_nlinks 1 di_zero) C Hno ltac:(lia)) as C1.
  change (set_fs_di _ s) with (taken no s) in C1.
  assert (Ht : fs_di (taken no s) !! Z.to_nat no = Some (set_nlinks 1 di_zero)).
  { cbn. apply list_lookup_insert_eq. rewrite (co_len a s C). lia. }
  assert (Href : forall x, m !! nm = Some x -> is_Some (a !! x)).
  { intros x Hx. eapply (tr_refs a T (ino i_dir) nm). by exists rw, u, m. }
  pose proof (add_entry_run a (taken no s) i_dir _ rw u m nm (set_ino no inode_zero) C1 eq_refl Hd Hnm Href) as Hadd.
  go Hni. cbn [Z.ltb Z.compare]. destruct (m !! nm) as [x|] eqn:Hm.
  - go Hadd. cbn [Z.ltb Z.compare]. go (free_unused_run no (set_ino no inode_zero) _ _ eq_refl Ht eq_refl).
    unfold taken, set_fs_di; cbn. rewrite list_insert_insert_eq, list_insert_id by done. by destruct s.
  - destruct (Hadd Hu) as (d & sd & Hdi & D & Hrun). go Hrun. cbn [Z.ltb Z.compare].
    eexists. split_and!; [reflexivity| | |done|done].
    + by eapply (core_update a (taken no s)).
    + intros i Hi Hai Hne. cbn. rewrite list_lookup_insert_ne by lia. by apply Hun.
Qed.

Lemma kmalloc_zeroed_run a s size o : core a s -> size <= 2044 ->
  ((exists h, al_malloc size (fs_heap s) = Done NULL h) /\ kmalloc_zeroed size o s = Stop BadAccess) \/
  (exists p h L, kmalloc_zeroed size o s = Done p (mkDfs (fs_di s) (<[p := o]> (fs_data s)) h) /\ p <> NULL /\
     al_malloc size (fs_heap s) = Done p h /\ al_ok L h /\ p ∈ L /\
     forall i d, is_Some (a !! i) -> fs_di s !! Z.to_nat i = Some d -> d_data d ∈ L /\ d_data d <> p).
Proof.
  intros C Hsz. destruct (co_heap a s C) as (L & HL & HdL). unfold kmalloc_zeroed, in_alloc, zoom.
  destruct (al_malloc_run L (fs_heap s) size HL Hsz) as [(h & Hr)|(p & h & Hr & Hp & HpL & HL')].
  - left. split; [by exists h|]. m_unfold. by rewrite Hr.
  - right. exists p, h, ({[p]} ∪ L). m_unfold. rewrite Hr. rewrite (proj2 (Z.eqb_neq p NULL)) by done.
    split_and!; [done..|set_solver|]. intros i d Hi Hd. pose proof (HdL i d Hi Hd). set_solver.
Qed.

(** The new inode gets its data and its fields. *)
Lemma fill_run a s no nd size o F :
  core a s -> a !! no = None -> 0 <= no < 100 -> fs_di s !! Z.to_nat no = Some (set_nlinks 1 di_zero) ->
  size <= 2044 -> obj_repr o nd ->
  (forall p, F p (set_nlinks 1 di_zero) = mkDi (anode_mode nd) 1 (anode_size nd) 0 p) ->
  ((exists h, al_malloc size (fs_heap s) = Done NULL h) /\ kmalloc_zeroed size o s = Stop BadAccess) \/
  (exists p s1 s2, kmalloc_zeroed size o s = Done p s1 /\ di_wr no (F p) s1 = Done tt s2 /\
     core (<[no := nd]> a) s2 /\ (forall i, i <> no -> 0 <= i -> fs_di s2 !! Z.to_nat i = fs_di s !! Z.to_nat i) /\
     al_malloc size (fs_heap s) = Done p (fs_heap s2) /\ p <> NULL).
Proof.
  intros C Hno Hr Hd Hsz Ho HF.
  destruct (kmalloc_zeroed_run a s size o C Hsz) as [Hnull|(p & h & L & Hrun & Hp & Hh & HL & HpL & Hother)]; [by left|right].
  eexists p, _, _. split; [exact Hrun|]. split; [by eapply di_wr_run|]. rewrite HF. split; [|split; [|by split]].
  - apply (core_insert a s _ no nd (mkDi (anode_mode nd) 1 (anode_size nd) 0 p)); [done|done| | | | | |].
    + cbn. by rewrite length_insert, (co_len a s C).
    + intros i [x Hi] Hne. destruct (co_node a s C i x Hi) as [Hir _]. cbn. apply list_lookup_insert_ne. lia.
    + intros i d Hi Hne Hdi. destruct (Hother i d Hi Hdi). cbn. by rewrite lookup_insert_ne by done.
    + cbn. apply list_lookup_insert_eq. rewrite (co_len a s C). lia.
    + split; [done..|]. exists o. cbn. by rewrite lookup_insert_eq.
    + exists L. split_and!; [done..|]. intros i d Hi _ Hdi. by eapply Hother.
  - intros i Hne Hi. cbn. apply list_lookup_insert_ne. lia.
Qed.

(** ** Removing an entry and its inode *)

Lemma remove_entry_run a s i_dir dir rw u m nm no :
  core a s -> ino i_dir = dir -> a !! dir = Some (ADir rw u m) -> nm <> [] -> m !! nm = Some no ->
  exists d sd, fs_di s !! Z.to_nat dir = Some d /\ dir_repr sd u (base.delete nm m) /\
    denemefs_remove_entry i_dir nm s = Done 0 (set_fs_data (<[d_data d := ODir sd]> (fs_data s)) s).
Proof.
  intros C <- Hd Hnm Hm. destruct (core_dir a s _ rw u m C Hd) as (d & sd & Hr & Hdi & _ & _ & _ & Hsd & D).
  assert (Hs : exists i, slot sd i nm no) by (by apply (dr_map _ _ _ D)). destruct Hs as [i Hs].
  exists d, (mkSd (sd_n sd) (<[Z.to_nat i := 0]> (sd_no sd)) (<[Z.to_nat i := []]> (sd_name sd))).
  split_and!; [done|by apply (dir_repr_remove sd u m nm i no)|].
  unfold denemefs_remove_entry. go (di_rd_run _ _ _ Hdi). go (sd_rd_run _ _ _ Hsd).
  destruct (slot_search sd u m nm (remove_slot (d_data d) sd nm) s D Hnm) as [Hfound _].
  { intros j nm' Hj Hn Hne. unfold remove_slot. rewrite Hn. cbn [deref].
    go (eq_refl : (mret nm' : M FS cstr) s = Done nm' s). unfold streq. by rewrite bool_decide_false. }
  assert (Hrun : remove_slot (d_data d) sd nm i s = Done (Some tt)
    (set_fs_data (<[d_data d := ODir (mkSd (sd_n sd) (<[Z.to_nat i := 0]> (sd_no sd)) (<[Z.to_nat i := []]> (sd_name sd)))]>
       (fs_data s)) s)).
  { unfold remove_slot. destruct Hs as (Hi & Hn & _). rewrite Hn. cbn [deref].
    go (eq_refl : (mret nm : M FS cstr) s = Done nm s). unfold streq. rewrite bool_decide_true by done.
    destruct (dr_len _ _ _ D) as [Hl1 Hl2]. destruct (dr_n _ _ _ D) as [Hn' Hub]. unfold Deneme_subdentry_count in Hub.
    unfold name_set, arr_set. change (fits_slot []) with true. cbv iota. by rewrite Hl1, Hl2, !bool_decide_true by lia. }
  by go (Hfound i no _ _ Hs Hm Hrun).
Qed.

Lemma free_node_run a s no nd i : core a s -> unused a s (fun _ => True) -> a !! no = Some nd -> ino i = no ->
  exists s', denemefs_free_inode i s = Done tt s' /\ core (base.delete no a) s' /\
    unused (base.delete no a) s' (fun _ => True).
Proof.
  intros C Hu Hno <-. destruct (co_node a s C _ nd Hno) as (Hr & d & Hd & [_ _ _ Hnull _]).
  destruct (co_heap a s C) as (L & HL & HdL).
  destruct (al_free_run L (fs_heap s) (d_data d) HL) as (h & Hfree & HL'); [by eapply HdL; eauto|].
  unfold denemefs_free_inode. go (di_rd_run _ _ _ Hd). rewrite (proj2 (Z.eqb_neq _ NULL)) by done. cbn [negb when].
  set (s1 := mkDfs (fs_di s) (base.delete (d_data d) (fs_data s)) h).
  assert (Hk : kfree_obj (d_data d) s = Done tt s1).
  { unfold kfree_obj, in_alloc, zoom. m_unfold. by rewrite Hfree. }
  go Hk. eexists. split; [apply (di_wr_run _ d (fun _ => di_zero) s1 Hd)|].
  assert (Hdiff : forall j dj, is_Some (base.delete (ino i) a !! j) -> fs_di s !! Z.to_nat j = Some dj ->
    0 <= j /\ j <> ino i /\ d_data dj <> d_data d).
  { intros j dj [Hne [x Hj]]%lookup_delete_is_Some Hdj. destruct (co_node a s C j x Hj) as [? _].
    split_and!; [lia|done|]. intros E. apply Hne. symmetry. by eapply (co_inj a s C); eauto. }
  split.
  - apply (core_frame _ s); [by apply (core_sub a); [apply delete_subseteq|]| | | |].
    + cbn. by rewrite length_insert, (co_len a s C).
    + intros j Hj. assert (Hj' : is_Some (a !! j)) by (by apply lookup_delete_is_Some in Hj as [_ ?]).
      destruct Hj' as [x Hx]. destruct (co_node a s C j x Hx) as (_ & dj & Hdj & _).
      destruct (Hdiff j dj Hj Hdj) as (? & ? & _). cbn. apply list_lookup_insert_ne. lia.
    + intros j dj Hj Hdj. destruct (Hdiff j dj Hj Hdj) as (_ & _ & Hne). cbn. by rewrite lookup_delete_ne by done.
    + exists (L ∖ {[d_data d]}). split; [done|]. intros j dj Hj Hdj. destruct (Hdiff j dj Hj Hdj) as (_ & _ & Hne).
      apply elem_of_difference. split; [|set_solver]. apply lookup_delete_is_Some in Hj as [_ Hj]. by eapply HdL.
  - intros j Hj Hjn _. cbn. destruct (decide (j = ino i)) as [->|Hne].
    + apply list_lookup_insert_eq. rewrite (co_len a s C). lia.
    + rewrite list_lookup_insert_ne by lia. rewrite lookup_delete_ne in Hjn by done. by apply Hu.
Qed.

(** The end of unlink and rmdir. *)
Lemma remove_name_run a s i_dir dir rw u m nm no nd i :
  repr a s -> ino i_dir = dir -> a !! dir = Some (ADir rw u m) -> nm <> [] -> m !! nm = Some no ->
  a !! no = Some nd -> leaf nd -> ino i = no ->
  exists s', (r ← denemefs_remove_entry i_dir nm; ASSERT (r =? 0) ;; denemefs_free_inode i ;; mret 0) s = Done 0 s' /\
    repr (aremove dir nm rw u m no a) s'.
Proof.
  intros (T & C & Hu) <- Hd Hnm Hm Hno Hl Hi.
  destruct (remove_entry_run a s i_dir _ rw u m nm no C eq_refl Hd Hnm Hm) as (d & sd & Hdi & D & Hrun).
  assert (C1 : core (<[ino i_dir := ADir rw u (base.delete nm m)]> a) (set_fs_data (<[d_data d := ODir sd]> (fs_data s)) s)).
  { by eapply core_update. }
  assert (Hne : ino i_dir <> no) by (intros <-; rewrite Hd in Hno; injection Hno as <-; simpl in Hl; by subst m).
  destruct (free_node_run _ _ no nd i C1) as (s' & Hfree & C2 & Hu2).
  { intros j Hj Hjn _. cbn. apply lookup_insert_None in Hjn as [Hjn _]. by apply Hu. }
  { by rewrite lookup_insert_ne. }
  { done. }
  exists s'. go Hrun. cbn [Z.eqb ASSERT]. erewrite bind_done by reflexivity. go Hfree.
  split; [done|]. split; [|done]. by eapply remove_tree.
Qed.

(** ** Reading and writing bytes *)

Lemma u32_add_pos p fpos i n : u32 fpos = p -> 0 <= i -> p + i <= n -> n < 2 ^ 31 -> u32 (i + fpos) = p + i.
Proof.
  intros <- Hi Hn Hb. rewrite Z.add_comm, <- u32_add_l. apply u32_small.
  pose proof (u32_fits fpos) as [? ?]. lia.
Qed.

Lemma read_loop_run bs fpos n i s :
  0 <= i -> u32 fpos + i <= Z.of_nat (length bs) < 2 ^ 31 ->
  read_loop bs fpos (Z.of_nat (length bs)) n i s = Done (take n (drop (Z.to_nat (u32 fpos + i)) bs)) s.
Proof.
  revert i. induction n as [|n IH]; intros i Hi [Hle Hlt]; cbn [read_loop]; [by rewrite take_0|].
  pose proof (u32_fits fpos) as [Hp _].
  rewrite (u32_add_pos (u32 fpos) fpos i (Z.of_nat (length bs))) by (done || lia).
  destruct (Z.ltb_spec (u32 fpos + i) (Z.of_nat (length bs))) as [Hl|Hl].
  - destruct (lookup_lt_is_Some_2 bs (Z.to_nat (u32 fpos + i))) as [b Hb]; [lia|]. rewrite Hb. cbn [deref].
    go (eq_refl : (mret b : M FS Z) s = Done b s). erewrite bind_done by (apply IH; lia).
    rewrite (drop_S bs b (Z.to_nat (u32 fpos + i))) by done. cbn [take].
    by replace (Z.to_nat (u32 fpos + (i + 1))) with (S (Z.to_nat (u32 fpos + i))) by lia.
  - rewrite drop_ge by lia. by rewrite take_nil.
Qed.

Lemma write_loop_run bs fpos buf i s :
  0 <= i -> u32 fpos + i <= Z.of_nat (length bs) < 2 ^ 31 ->
  let q := Z.to_nat (u32 fpos + i) in let b := take (length bs - q) buf in
  write_loop bs fpos (Z.of_nat (length bs)) buf i s =
    Done (take q bs ++ b ++ drop (q + length b) bs, i + Z.of_nat (length b)) s.
Proof.
  revert i bs. induction buf as [|x buf IH]; intros i bs Hi [Hle Hlt]; cbn [write_loop].
  { cbv zeta. rewrite take_nil. cbn [app length]. rewrite Nat.add_0_r, take_drop, Z.add_0_r. done. }
  pose proof (u32_fits fpos) as [Hp _].
  rewrite (u32_add_pos (u32 fpos) fpos i (Z.of_nat (length bs))) by (done || lia). cbv zeta.
  destruct (Z.ltb_spec (u32 fpos + i) (Z.of_nat (length bs))) as [Hl|Hl].
  - unfold arr_set. rewrite bool_decide_true by lia.
    go (eq_refl : (mret (<[Z.to_nat (u32 fpos + i) := x]> bs) : M FS (list Z)) s = _).
    set (q := Z.to_nat (u32 fpos + i)) in *.
    assert (Hq : Z.to_nat (u32 fpos + (i + 1)) = S q) by lia.
    assert (Hqe : (length bs - q = S (length bs - S q))%nat) by lia.
    rewrite <- (length_insert bs q x). rewrite IH by (rewrite ?length_insert; lia).
    rewrite Hq, length_insert, Hqe. cbn [take]. f_equal. f_equal.
    + rewrite (take_S_r _ q x) by (apply list_lookup_insert_eq; lia).
      rewrite take_insert_ge by lia. rewrite <- app_assoc. cbn [app length]. do 3 f_equal.
      rewrite drop_insert_lt by lia. f_equal. lia.
    + cbn [length]. lia.
  - replace (length bs - Z.to_nat (u32 fpos + i))%nat with 0%nat by lia. rewrite take_0. cbn [app length].
    rewrite Nat.add_0_r, take_drop, Z.add_0_r. done.
Qed.

(** The regular file in entry [no] of the inode table, whatever else there is. *)
Definition file_at s (no : Z) (rw : Z * Z) (bs : list Z) (d : Deneme_inode) : Prop :=
  fs_di s !! Z.to_nat no = Some d /\ d_mode d = mkMode rw.1 rw.2 0 FT_regular /\
    d_size d = Z.of_nat (length bs) /\ fs_data s !! d_data d = Some (OBytes bs) /\ Z.of_nat (length bs) < 2 ^ 31.

Lemma core_file a s no rw bs : core a s -> a !! no = Some (AFile rw bs) -> exists d, file_at s no rw bs d.
Proof.
  intros C Hno. destruct (co_node a s C _ _ Hno) as (Hr & d & Hd & [_ Hm Hz _ (o & Ho & Hor)]).
  destruct o as [|bs']; [done|]. destruct Hor as [-> Hl]. by exists d.
Qed.

Lemma read_at s i pos size rw bs d : file_at s (ino i) rw bs d ->
  denemefs_read i pos size s = Done (Z.of_nat (length (aread pos size bs)), aread pos size bs) s.
Proof.
  intros (Hd & Hm & Hz & Hbs & Hl).
  unfold denemefs_read. go (di_rd_run _ _ _ Hd). rewrite Hm, Hz. cbn [fm_type negb]. change (FT_regular =? FT_regular) with true.
  cbn [negb]. unfold aread. pose proof (u32_fits pos) as [Hp _].
  destruct (Z.ltb_spec (u32 pos) (Z.of_nat (length bs))) as [Hlt|Hge]; cbn [andb].
  - destruct (Z.ltb_spec 0 size) as [Hs|Hs]; [|by replace (Z.to_nat size) with 0%nat by lia].
    go (bytes_rd_run _ _ _ Hbs). erewrite bind_done by (apply read_loop_run; lia). by rewrite Z.add_0_r.
  - rewrite drop_ge by lia. by rewrite take_nil.
Qed.

Lemma read_run a s i pos size rw bs : core a s -> a !! ino i = Some (AFile rw bs) ->
  denemefs_read i pos size s = Done (Z.of_nat (length (aread pos size bs)), aread pos size bs) s.
Proof. intros C Hno. destruct (core_file a s _ rw bs C Hno) as (d & Hd). by eapply read_at. Qed.

Lemma length_awrite pos buf bs : length (awrite pos buf bs) = length bs.
Proof. unfold awrite. rewrite !length_app, length_drop, !length_take. lia. Qed.

Definition put_bytes (p : Z) (bs : list Z) s : FS := set_fs_data (<[p := OBytes bs]> (fs_data s)) s.

Lemma write_at s i pos buf rw bs d : file_at s (ino i) rw bs d ->
  denemefs_write i pos buf s =
    Done (Z.of_nat (length (take (length bs - Z.to_nat (u32 pos)) buf))) (put_bytes (d_data d) (awrite pos buf bs) s).
Proof.
  intros (Hd & Hm & Hz & Hbs & Hl).
  unfold denemefs_write. go (di_rd_run _ _ _ Hd). rewrite Hm, Hz. cbn [fm_type]. change (FT_regular =? FT_regular) with true.
  cbn [negb]. pose proof (u32_fits pos) as [Hp _]. unfold awrite.
  destruct ((u32 pos <? Z.of_nat (length bs)) && (0 <? Z.of_nat (length buf))) eqn:E.
  - apply andb_prop in E as [Hlt%Z.ltb_lt _]. go (bytes_rd_run _ _ _ Hbs).
    erewrite bind_done by (apply write_loop_run; lia). by rewrite !Z.add_0_r, Z.add_0_l.
  - assert (Hnil : take (length bs - Z.to_nat (u32 pos)) buf = []).
    { apply andb_false_iff in E as [E%Z.ltb_ge|E%Z.ltb_ge].
      - replace (length bs - Z.to_nat (u32 pos))%nat with 0%nat by lia. apply take_0.
      - destruct buf; [apply take_nil|simpl in E; lia]. }
    rewrite Hnil. cbn [app length]. rewrite Nat.add_0_r, take_drop. unfold put_bytes. rewrite insert_id by done. by destruct s.
Qed.

Lemma write_run a s i pos buf rw bs : core a s -> a !! ino i = Some (AFile rw bs) ->
  exists s', denemefs_write i pos buf s = Done (Z.of_nat (length (take (length bs - Z.to_nat (u32 pos)) buf))) s' /\
    core (<[ino i := AFile rw (awrite pos buf bs)]> a) s' /\ fs_di s' = fs_di s.
Proof.
  intros C Hno. destruct (core_file a s _ rw bs C Hno) as (d & Hf). rewrite (write_at _ _ _ _ _ _ _ Hf).
  eexists. split; [reflexivity|]. split; [|done]. destruct Hf as (Hd & Hm & Hz & Hbs & Hl).
  apply (core_update a s (ino i) (AFile rw bs) (AFile rw (awrite pos buf bs)) d _ C Hno Hd eq_refl).
  - cbn [anode_size]. f_equal. apply length_awrite.
  - split; [done|]. by rewrite length_awrite.
Qed.
End refinement.
