(* ===== verification/DenemeRefine.v ===== *)
(** The properties of denemefs: it refines the abstract file system, the boot
    builds its first tree, and what becomes of the slots of a directory. *)

From S2P Require Import Prelude Fs DenemeFs DenemeSpec DenemeProps.

Local Ltac go H := rewrite (bind_done _ _ _ _ _ H).

Section calls.
Context {H : Type} `{AS : AllocSpec H}.
Notation FS := (dfs H).
Implicit Types (s : FS) (a : afs).

(** ** The calls, on the code *)

Definition inode_at (no : Z) : inode := set_ino no inode_zero.

Definition run_call (c : fcall) : M FS fres :=
  match c with
  | CLookup d nm => '(r, i) ← denemefs_lookup (inode_at d) nm inode_zero;
      mret (if r =? 0 then RFound i else RCode r)
  | CCreate d nm rw => '(r, i) ← denemefs_create (inode_at d) nm rw inode_zero;
      mret (if r =? 0 then RFound i else RCode r)
  | CMkdir d nm rw => r ← denemefs_mkdir (inode_at d) nm rw; mret (RCode r)
  | CUnlink d nm => r ← denemefs_unlink (inode_at d) nm; mret (RCode r)
  | CRmdir d nm => r ← denemefs_rmdir (inode_at d) nm; mret (RCode r)
  | CRead no pos size => '(r, bs) ← denemefs_read (inode_at no) pos size;
      mret (if r =? Z.of_nat (length bs) then RData bs else RCode r)
  | CWrite no pos buf => r ← denemefs_write (inode_at no) pos buf; mret (RCode r)
  end.

(** kmalloc has no memory for the kernel: the code writes through NULL. *)
Definition exhausted s : Prop := exists size h, size <= 2044 /\ al_malloc size (fs_heap s) = Done NULL h.

Definition refines_step c a s : Prop :=
  (exhausted s /\ run_call c s = Stop BadAccess) \/
  (exists s', run_call c s = Done (astep c a).1 s' /\ repr (astep c a).2 s').

Lemma dir_at_inv a d P : dir_at a d P -> exists rw u m, a !! d = Some (ADir rw u m) /\ P u.
Proof. unfold dir_at. destruct (a !! d) as [[|rw u m]|]; [done| |done]. eauto. Qed.

Lemma repr_lookup a s i_dir d rw u m nm dest :
  repr a s -> ino i_dir = d -> a !! d = Some (ADir rw u m) -> nm <> [] ->
  denemefs_lookup i_dir nm dest s = Done
    (match m !! nm ≫= fun no => pair no <$> a !! no with
     | Some (no, nd) => (0, afound (superblock i_dir) no nd dest) | None => (-1, dest) end) s.
Proof.
  intros (T & C & _) Hi Hd Hnm. rewrite (lookup_run a s i_dir d rw u m nm dest C Hi Hd Hnm); [done|].
  intros no Hno. eapply (tr_refs a T d nm). by exists rw, u, m.
Qed.

Lemma lookup_refines a s d nm : repr a s -> call_ok a (CLookup d nm) -> refines_step (CLookup d nm) a s.
Proof.
  intros R [[Hnm _] (rw & u & m & Hd & _)%dir_at_inv]. right. exists s.
  cbn [run_call astep]. go (repr_lookup a s (inode_at d) d rw u m nm inode_zero R eq_refl Hd Hnm). rewrite Hd.
  by destruct (m !! nm ≫= _) as [[no nd]|].
Qed.

(** mkdir and create: [body] fills the new inode, [ok] answers. *)
Lemma create_state a s d nm nd rw u m no s1 s2 :
  repr a s -> a !! d = Some (ADir rw u m) -> name_ok nm -> u < Deneme_subdentry_count ->
  leaf nd -> (forall rw' u' m', nd = ADir rw' u' m' -> u' = 0) ->
  fresh a = Some no -> m !! nm = None ->
  unused a s1 (fun i => i <> no) ->
  core (<[no := nd]> (<[d := ADir rw (u + 1) (<[nm := no]> m)]> a)) s2 ->
  (forall i, i <> no -> 0 <= i -> fs_di s2 !! Z.to_nat i = fs_di s1 !! Z.to_nat i) ->
  acreate d nm nd a = Some (no, <[no := nd]> (<[d := ADir rw (u + 1) (<[nm := no]> m)]> a)) /\
  repr (<[no := nd]> (<[d := ADir rw (u + 1) (<[nm := no]> m)]> a)) s2.
Proof.
  intros (T & C & Hu) Hd [Hnm Hfit] Hlt Hl Hl' Hf Hm Hu1 C2 Hsame.
  assert (Hc : acreate d nm nd a = Some (no, <[no := nd]> (<[d := ADir rw (u + 1) (<[nm := no]> m)]> a))).
  { unfold acreate. rewrite Hf. cbn. by rewrite Hd, Hm. }
  split; [done|]. split; [|split; [done|]].
  - eapply create_tree; [exact T|exact Hc|done..|]. unfold dir_at. by rewrite Hd.
  - intros i Hi Hin _. apply lookup_insert_None in Hin as [Hin Hne]. apply lookup_insert_None in Hin as [Hin _].
    rewrite Hsame by (done || lia). by apply Hu1.
Qed.

Lemma acreate_fail a d nm nd rw u m : a !! d = Some (ADir rw u m) ->
  fresh a = None \/ is_Some (m !! nm) -> acreate d nm nd a = None.
Proof.
  intros Hd Hx. unfold acreate. destruct (fresh a); [|done]. cbn. rewrite Hd. destruct Hx as [|[x ->]]; done.
Qed.

(** [h'] is [h] behind one allocation that did not fail. *)
Definition allocated (h h' : H) : Prop := exists size p, size <= 2044 /\ al_malloc size h = Done p h' /\ p <> NULL.

Section creating.
Context a s (i_dir : inode) d nm (rw' : Z) rw u m (R : repr a s) (Hi : ino i_dir = d)
  (Hd : a !! d = Some (ADir rw u m)) (Hnm : name_ok nm) (Hlt : u < Deneme_subdentry_count).

Lemma mkdir_run :
  (exhausted s /\ denemefs_mkdir i_dir nm rw' s = Stop BadAccess) \/
  (exists s', match acreate d nm (new_dir rw') a with
     | Some (_, a') => denemefs_mkdir i_dir nm rw' s = Done 0 s' /\ repr a' s' /\ allocated (fs_heap s) (fs_heap s')
     | None => denemefs_mkdir i_dir nm rw' s = Done (-1) s /\ s' = s
     end).
Proof.
  unfold denemefs_mkdir. pose proof (new_entry_run a s i_dir d rw u m nm R Hi Hd Hnm Hlt) as Hne.
  destruct (fresh a) as [no|] eqn:Hf; [destruct (m !! nm) as [x|] eqn:Hm|].
  1,3: right; exists s; rewrite (acreate_fail a d nm _ rw u m Hd) by eauto; by go Hne.
  destruct Hne as (s1 & Hrun & C1 & Hu1 & Hd1 & Hh1). go Hrun. pose proof (fresh_spec a no Hf) as (Hno & Hr & _).
  assert (Hno1 : <[d := ADir rw (u + 1) (<[nm := no]> m)]> a !! no = None) by (by rewrite lookup_insert_ne by congruence).
  destruct (fill_run _ s1 no (new_dir rw') sizeof_subdentry (ODir sd_zero)
    (fun p d => set_d_mode (set_type FT_dir (set_rw rw' (d_mode d))) (set_d_size sizeof_subdentry (set_d_data p d)))
    C1 Hno1 Hr Hd1) as [[(h & Hex) Hst]|(p & s2 & s3 & Hk & Hw & C3 & Hsame & Hh & Hp)]; [done|exact dir_repr_zero|done| |].
  - left. split; [exists sizeof_subdentry, h; split; [done|by rewrite <- Hh1]|]. by apply bind_stop.
  - right. exists s3. destruct (create_state a s d nm (new_dir rw') rw u m no s1 s3) as [-> R']; try done.
    { by intros ? ? ? [= _ <- _]. }
    split_and!; [|done|]; [go Hk; cbn [ino inode_zero set_ino]; by go Hw|].
    exists sizeof_subdentry, p. rewrite <- Hh1. done.
Qed.

Lemma create_run dest :
  (exhausted s /\ denemefs_create i_dir nm rw' dest s = Stop BadAccess) \/
  (exists s', match acreate d nm (new_file rw') a with
     | Some (no, a') => denemefs_create i_dir nm rw' dest s = Done (0, afound (superblock i_dir) no (new_file rw') dest) s' /\
         repr a' s' /\ allocated (fs_heap s) (fs_heap s')
     | None => denemefs_create i_dir nm rw' dest s = Done (-1, dest) s /\ s' = s
     end).
Proof.
  unfold denemefs_create. pose proof (new_entry_run a s i_dir d rw u m nm R Hi Hd Hnm Hlt) as Hne.
  destruct (fresh a) as [no|] eqn:Hf; [destruct (m !! nm) as [x|] eqn:Hm|].
  1,3: right; exists s; rewrite (acreate_fail a d nm _ rw u m Hd) by eauto; by go Hne.
  destruct Hne as (s1 & Hrun & C1 & Hu1 & Hd1 & Hh1). go Hrun. pose proof (fresh_spec a no Hf) as (Hno & Hr & _).
  assert (Hno1 : <[d := ADir rw (u + 1) (<[nm := no]> m)]> a !! no = None) by (by rewrite lookup_insert_ne by congruence).
  destruct (fill_run _ s1 no (new_file rw') file_size (OBytes (replicate (Z.to_nat file_size) 0))
    (fun p d => set_d_mode (set_type FT_regular (set_rw rw' (d_mode d))) (set_d_size file_size (set_d_data p d)))
    C1 Hno1 Hr Hd1) as [[(h & Hex) Hst]|(p & s2 & s3 & Hk & Hw & C3 & Hsame & Hh & Hp)]; [done|split; done|done| |].
  - left. split; [exists file_size, h; split; [done|by rewrite <- Hh1]|]. by apply bind_stop.
  - right. exists s3. destruct (create_state a s d nm (new_file rw') rw u m no s1 s3) as [-> R']; try done.
    assert (Hd3 : <[no := new_file rw']> (<[d := ADir rw (u + 1) (<[nm := no]> m)]> a) !! d =
      Some (ADir rw (u + 1) (<[nm := no]> m))) by (rewrite lookup_insert_ne by congruence; apply lookup_insert_eq).
    pose proof (repr_lookup _ s3 i_dir d _ _ _ nm dest R' Hi Hd3 (proj1 Hnm)) as Hlk.
    rewrite lookup_insert_eq in Hlk. cbn [mbind option_bind] in Hlk. rewrite lookup_insert_eq in Hlk.
    cbn [fmap option_fmap option_map] in Hlk.
    split_and!; [|done|]; [go Hk; cbn [ino inode_zero set_ino]; go Hw; by go Hlk|].
    exists file_size, p. rewrite <- Hh1. done.
Qed.
End creating.

Lemma mkdir_refines a s d nm rw' : repr a s -> call_ok a (CMkdir d nm rw') -> refines_step (CMkdir d nm rw') a s.
Proof.
  intros R [Hnm (rw & u & m & Hd & Hlt)%dir_at_inv]. unfold refines_step. cbn [run_call astep].
  destruct (mkdir_run a s (inode_at d) d nm rw' rw u m R eq_refl Hd Hnm Hlt) as [[Hex Hst]|(s' & Hrun)].
  - left. split; [done|]. by apply bind_stop.
  - right. exists s'. destruct (acreate d nm _ a) as [[no a']|].
    + destruct Hrun as (Hrun & R' & _). by go Hrun.
    + destruct Hrun as [Hrun ->]. by go Hrun.
Qed.

Lemma create_refines a s d nm rw' : repr a s -> call_ok a (CCreate d nm rw') -> refines_step (CCreate d nm rw') a s.
Proof.
  intros R [Hnm (rw & u & m & Hd & Hlt)%dir_at_inv]. unfold refines_step. cbn [run_call astep].
  destruct (create_run a s (inode_at d) d nm rw' rw u m R eq_refl Hd Hnm Hlt inode_zero) as [[Hex Hst]|(s' & Hrun)].
  - left. split; [done|]. by apply bind_stop.
  - right. exists s'. destruct (acreate d nm _ a) as [[no a']|].
    + destruct Hrun as (Hrun & R' & _). by go Hrun.
    + destruct Hrun as [Hrun ->]. by go Hrun.
Qed.

Lemma unlink_refines a s d nm : repr a s -> call_ok a (CUnlink d nm) -> refines_step (CUnlink d nm) a s.
Proof.
  intros R [[Hnm _] (rw & u & m & Hd & _)%dir_at_inv]. right. cbn [run_call astep]. rewrite Hd.
  pose proof (repr_lookup a s (inode_at d) d rw u m nm inode_zero R eq_refl Hd Hnm) as Hl. unfold denemefs_unlink.
  destruct (m !! nm) as [no|] eqn:Hm; cbn [mbind option_bind] in *; [|exists s; split; [erewrite bind_done; [reflexivity|by go Hl]|done]].
  destruct (a !! no) as [nd|] eqn:Hno; cbn [fmap option_fmap option_map] in *; [|exists s; split; [erewrite bind_done; [reflexivity|by go Hl]|done]].
  destruct nd as [rwf bs|]; [|exists s; split; [erewrite bind_done; [reflexivity|by go Hl]|done]].
  destruct (remove_name_run a s (inode_at d) d rw u m nm no (AFile rwf bs) (afound 0 no (AFile rwf bs) inode_zero))
    as (s' & Hrun & R'); [done..|]. exists s'. split; [|done].
  erewrite bind_done; [reflexivity|]. go Hl. exact Hrun.
Qed.

Lemma rmdir_refines a s d nm : repr a s -> call_ok a (CRmdir d nm) -> refines_step (CRmdir d nm) a s.
Proof.
  intros R [[Hnm _] (rw & u & m & Hd & _)%dir_at_inv]. right. cbn [run_call astep]. rewrite Hd.
  pose proof (repr_lookup a s (inode_at d) d rw u m nm inode_zero R eq_refl Hd Hnm) as Hl. unfold denemefs_rmdir.
  destruct (m !! nm) as [no|] eqn:Hm; cbn [mbind option_bind] in *; [|exists s; split; [erewrite bind_done; [reflexivity|by go Hl]|done]].
  destruct (a !! no) as [nd|] eqn:Hno; cbn [fmap option_fmap option_map] in *; [|exists s; split; [erewrite bind_done; [reflexivity|by go Hl]|done]].
  destruct nd as [|rw' u' m']; [exists s; split; [erewrite bind_done; [reflexivity|by go Hl]|done]|]. destruct R as (T & C & Hu).
  destruct (core_dir a s no rw' u' m' C Hno) as (dd & sd & _ & Hdi & _ & _ & _ & Hsd & D).
  assert (He : is_empty_dir (afound 0 no (ADir rw' u' m') inode_zero) s = Done (u' =? 0) s).
  { unfold is_empty_dir. cbn [afound ino set_found]. go (di_rd_run _ _ _ Hdi). go (sd_rd_run _ _ _ Hsd).
    by rewrite (proj1 (dr_n _ _ _ D)). }
  destruct (Z.eqb_spec u' 0) as [->|Hne].
  - destruct (remove_name_run a s (inode_at d) d rw u m nm no (ADir rw' 0 m') (afound 0 no (ADir rw' 0 m') inode_zero))
      as (s' & Hrun & R'); [by split|done..|by eapply (tr_empty a T)|done|]. exists s'. split; [|done].
    erewrite bind_done; [reflexivity|]. go Hl. cbn [Z.ltb Z.compare]. cbn [afound mode set_found anode_mode fm_type].
    change (FT_dir =? FT_dir) with true. cbn [negb]. go He. exact Hrun.
  - exists s. split; [|by split]. erewrite bind_done; [reflexivity|]. go Hl. cbn [Z.ltb Z.compare].
    cbn [afound mode set_found anode_mode fm_type]. change (FT_dir =? FT_dir) with true. cbn [negb]. by go He.
Qed.

Lemma read_refines a s no pos size : repr a s -> call_ok a (CRead no pos size) -> refines_step (CRead no pos size) a s.
Proof.
  intros R [nd Hno]. right. exists s. cbn [run_call astep]. rewrite Hno. pose proof R as (T & C & _).
  destruct nd as [rw bs|rw u m].
  - go (read_run a s (inode_at no) pos size rw bs C Hno). by rewrite Z.eqb_refl.
  - destruct (core_dir a s no rw u m C Hno) as (d & sd & _ & Hd & Hm & _).
    erewrite bind_done; [|unfold denemefs_read; go (di_rd_run _ _ _ Hd); rewrite Hm; reflexivity]. done.
Qed.

Lemma write_refines a s no pos buf : repr a s -> call_ok a (CWrite no pos buf) -> refines_step (CWrite no pos buf) a s.
Proof.
  intros R [nd Hno]. right. cbn [run_call astep]. rewrite Hno. pose proof R as (T & C & Hu).
  destruct nd as [rw bs|rw u m].
  - destruct (write_run a s (inode_at no) pos buf rw bs C Hno) as (s' & Hrun & C' & Hdi). exists s'. go Hrun.
    split; [done|]. split; [by eapply write_tree|split; [done|]]. intros i Hi Hin _. rewrite Hdi. cbn [snd] in Hin.
    apply lookup_insert_None in Hin as [Hin _]. by apply Hu.
  - exists s. destruct (core_dir a s no rw u m C Hno) as (d & sd & _ & Hd & Hm & _).
    erewrite bind_done; [|unfold denemefs_write; go (di_rd_run _ _ _ Hd); rewrite Hm; reflexivity]. done.
Qed.

Lemma call_refines c a s : repr a s -> call_ok a c -> refines_step c a s.
Proof.
  destruct c; [apply lookup_refines|apply create_refines|apply mkdir_refines|apply unlink_refines
    |apply rmdir_refines|apply read_refines|apply write_refines].
Qed.

(** ** Sequences of calls *)

Fixpoint run_calls (cs : list fcall) : M FS (list fres) :=
  match cs with [] => mret [] | c :: cs' => r ← run_call c; rs ← run_calls cs'; mret (r :: rs) end.

Fixpoint asteps (cs : list fcall) (a : afs) : list fres * afs :=
  match cs with
  | [] => ([], a)
  | c :: cs' => let '(r, a') := astep c a in let '(rs, a'') := asteps cs' a' in (r :: rs, a'')
  end.

Fixpoint calls_ok (a : afs) (cs : list fcall) : Prop :=
  match cs with [] => True | c :: cs' => call_ok a c /\ calls_ok (astep c a).2 cs' end.

#[export] Instance calls_ok_dec a cs : Decision (calls_ok a cs).
Proof. revert a. induction cs as [|c cs IH]; intros a; cbn [calls_ok]; apply _. Defined.

(** ** The boot *)

(** A heap whose next [n] allocations do not fail. *)
Fixpoint supplies (n : nat) (h : H) : Prop :=
  match n with
  | O => True
  | S n' => forall size p h', size <= 2044 -> al_malloc size h = Done p h' -> p <> NULL /\ supplies n' h'
  end.

Lemma supplies_not_exhausted n s : supplies (S n) (fs_heap s) -> ~ exhausted s.
Proof. intros Hs (size & h & Hsz & E). by destruct (Hs size NULL h Hsz E). Qed.

Lemma supplies_allocated n h h' : supplies (S n) h -> allocated h h' -> supplies n h'.
Proof. intros Hs (size & p & Hsz & Hr & _). by eapply Hs. Qed.

Definition text (s : cstr) : list Z := s ++ [0] ++ replicate (1000 - (length s + 1)) 0.

(** The tree of denemefs_init without an initial RAM disk. *)
Definition boot_tree : afs :=
  {[ 0 := ADir (1, 0) 4 {[str_home := 1; str_dosya1 := 2; str_dosya2 := 3; str_dir1 := 4]};
     1 := ADir (1, 1) 0 ∅;
     2 := AFile (1, 0) (text str_d1_icerik);
     3 := AFile (1, 1) (text str_data2);
     4 := ADir (1, 1) 1 {[str_dir11 := 5]};
     5 := ADir (1, 1) 0 ∅ ]}.

Section boot_steps.
Context a s (R : repr a s).

Lemma boot_mkdir i_dir d nm rw' rw u m n no a' :
  ino i_dir = d -> a !! d = Some (ADir rw u m) -> name_ok nm -> u < Deneme_subdentry_count ->
  acreate d nm (new_dir rw') a = Some (no, a') -> supplies (S n) (fs_heap s) ->
  exists s', checked (denemefs_mkdir i_dir nm rw') s = Done tt s' /\ repr a' s' /\ supplies n (fs_heap s').
Proof.
  intros Hi Hd Hnm Hu Hc Hs. destruct (mkdir_run a s i_dir d nm rw' rw u m R Hi Hd Hnm Hu) as [[Hex _]|(s' & Hrun)].
  { by destruct (supplies_not_exhausted n s Hs). }
  rewrite Hc in Hrun. destruct Hrun as (Hrun & R' & Hal). exists s'. unfold checked. go Hrun.
  split_and!; [done..|by eapply supplies_allocated].
Qed.

Lemma boot_create i_dir d nm rw' rw u m n no a' :
  ino i_dir = d -> a !! d = Some (ADir rw u m) -> name_ok nm -> u < Deneme_subdentry_count ->
  acreate d nm (new_file rw') a = Some (no, a') -> supplies (S n) (fs_heap s) ->
  exists s', checked_i (denemefs_create i_dir nm rw' inode_zero) s =
      Done (afound (superblock i_dir) no (new_file rw') inode_zero) s' /\ repr a' s' /\ supplies n (fs_heap s').
Proof.
  intros Hi Hd Hnm Hu Hc Hs. destruct (create_run a s i_dir d nm rw' rw u m R Hi Hd Hnm Hu inode_zero) as [[Hex _]|(s' & Hrun)].
  { by destruct (supplies_not_exhausted n s Hs). }
  rewrite Hc in Hrun. destruct Hrun as (Hrun & R' & Hal). exists s'. unfold checked_i. go Hrun.
  split_and!; [done..|by eapply supplies_allocated].
Qed.

Lemma boot_lookup i_dir d nm rw u m no nd :
  ino i_dir = d -> a !! d = Some (ADir rw u m) -> nm <> [] -> m !! nm = Some no -> a !! no = Some nd ->
  checked_i (denemefs_lookup i_dir nm inode_zero) s = Done (afound (superblock i_dir) no nd inode_zero) s.
Proof.
  intros Hi Hd Hnm Hm Hno. unfold checked_i. go (repr_lookup a s i_dir d rw u m nm inode_zero R Hi Hd Hnm).
  rewrite Hm. cbn [mbind option_bind]. by rewrite Hno.
Qed.

Lemma boot_strcpy i no rw bs t n : ino i = no -> a !! no = Some (AFile rw bs) -> (length t + 1 <= length bs)%nat ->
  supplies n (fs_heap s) ->
  exists s', file_strcpy i t s = Done tt s' /\ repr (<[no := AFile rw (t ++ [0] ++ drop (length t + 1) bs)]> a) s' /\
    supplies n (fs_heap s').
Proof.
  intros <- Hno Ht Hs. destruct R as (T & C & Hu). destruct (core_file a s _ rw bs C Hno) as (d & Hd & _ & _ & Hbs & Hl).
  assert (Hlen : length (t ++ [0] ++ drop (length t + 1) bs) = length bs).
  { rewrite !length_app, length_drop. cbn [length]. lia. }
  eexists. split; [|split].
  - unfold file_strcpy. go (di_rd_run _ _ _ Hd). go (bytes_rd_run _ _ _ Hbs).
    destruct (Nat.ltb_spec (length bs) (length t + 1)); [lia|]. reflexivity.
  - split; [by eapply write_tree|split].
    + eapply core_update; [done..|by cbn [anode_size]; rewrite Hlen|split; [done|by rewrite Hlen]].
    + intros j Hj Hjn _. apply lookup_insert_None in Hjn as [Hjn _]. by apply Hu.
  - done.
Qed.
End boot_steps.

Lemma boot_root junk s L : al_ok L (fs_heap s) -> length (sd_no junk) = 56%nat -> length (sd_name junk) = 56%nat ->
  supplies 6 (fs_heap s) ->
  exists s', init_root junk s = Done tt s' /\ repr {[0 := ADir (1, 0) 0 ∅]} s' /\ supplies 5 (fs_heap s').
Proof.
  intros HL Hl1 Hl2 Hs. destruct (al_malloc_run L (fs_heap s) sizeof_subdentry HL ltac:(done)) as [(h & Hr)|(p & h & Hr & Hp & HpL & HL')].
  { by destruct (supplies_not_exhausted 5 s Hs); exists sizeof_subdentry, h. }
  exists (mkDfs (mkDi (mkMode 1 0 0 FT_dir) 1 sizeof_subdentry 0 p :: replicate 99 di_zero)
      (<[p := ODir (mkSd 0 (sd_no junk) (sd_name junk))]> (fs_data s)) h).
  split_and!; [| |by destruct (Hs sizeof_subdentry p h ltac:(done) Hr)].
  { unfold init_root. set (s0 := set_fs_di (replicate 100 di_zero) s).
    go (eq_refl : modify (set_fs_di (replicate 100 di_zero)) s = Done tt s0).
    go (di_wr_run 0 di_zero (fun d => set_nlinks 1 (set_d_mode (mkMode 1 0 0 FT_dir) d)) s0 eq_refl).
    set (s1 := set_fs_di _ s0).
    assert (Hm : in_alloc (al_malloc sizeof_subdentry) s1 = Done p (mkDfs (fs_di s1) (fs_data s1) h)).
    { unfold in_alloc, zoom. change (fs_heap s1) with (fs_heap s). by rewrite Hr. }
    go Hm. set (s2 := mkDfs _ _ h).
    go (di_wr_run 0 (mkDi (mkMode 1 0 0 FT_dir) 1 0 0 NULL) (fun d => set_d_size sizeof_subdentry (set_d_data p d)) s2 eq_refl).
    by rewrite (proj2 (Z.eqb_neq p NULL)). }
  assert (Hat : forall i nd, ({[0 := ADir (1, 0) 0 ∅]} : afs) !! i = Some nd -> i = 0 /\ nd = ADir (1, 0) 0 ∅).
  { intros i nd [<- <-]%lookup_singleton_Some. done. }
  assert (He : forall d n x, ~ entry {[0 := ADir (1, 0) 0 ∅]} d n x).
  { intros d n x (rw & u & m & [_ [= -> -> ->]]%Hat & Hx). done. }
  split; [|split].
  - split.
    + do 3 eexists. apply lookup_singleton_eq.
    + intros no [nd [-> _]%Hat]. lia.
    + intros d n x E. by destruct (He d n x).
    + intros d n d' n' x E. by destruct (He d n x).
    + intros no [nd [-> _]%Hat]. constructor.
    + by intros d rw m [_ [= _ ->]]%Hat.
    + intros d rw u m [_ [= _ -> _]]%Hat. unfold Deneme_subdentry_count. lia.
  - split.
    + done.
    + intros no nd [-> ->]%Hat. split; [lia|]. eexists. split; [reflexivity|]. split; [done..|].
      eexists. cbn [d_data fs_data]. rewrite lookup_insert_eq. split; [done|].
      split; cbn [sd_n sd_no sd_name]; [unfold Deneme_subdentry_count; lia|done| | |done].
      * intros nm no _. rewrite lookup_empty. split; [done|]. intros (i & Hi & _). cbn in Hi. lia.
      * intros i j nm no no' _ (Hi & _). cbn in Hi. lia.
    + intros i j d d' [x [-> _]%Hat] [y [-> _]%Hat]. done.
    + exists ({[p]} ∪ L). split; [done|]. intros i d [x [-> _]%Hat] [= <-]. set_solver.
  - intros i Hi Hn _. cbn [fs_di]. apply lookup_singleton_None in Hn. replace (Z.to_nat i) with (S (Z.to_nat (i - 1))) by lia.
    cbn [lookup list_lookup]. apply lookup_replicate_2. lia.
Qed.

(** The trees on the way. *)
Definition grow (dir : Z) (nm : cstr) (nd : anode) (a : afs) : afs :=
  match acreate dir nm nd a with Some (_, a') => a' | None => a end.
Definition t0 : afs := {[0 := ADir (1, 0) 0 ∅]}.
Definition t1 : afs := grow 0 str_home (new_dir 3) t0.
Definition t2 : afs := grow 0 str_dosya1 (new_file 1) t1.
Definition zeros : list Z := replicate (Z.to_nat file_size) 0.
Definition t3 : afs := <[2 := AFile (1, 0) (str_d1_icerik ++ [0] ++ drop (length str_d1_icerik + 1) zeros)]> t2.
Definition t4 : afs := grow 0 str_dosya2 (new_file 3) t3.
Definition t5 : afs := <[3 := AFile (1, 1) (str_data2 ++ [0] ++ drop (length str_data2 + 1) zeros)]> t4.
Definition t6 : afs := grow 0 str_dir1 (new_dir 3) t5.
Definition t7 : afs := grow 4 str_dir11 (new_dir 3) t6.

Local Ltac cmp := vm_compute; reflexivity.

Lemma boot_run junk s L initrd :
  al_ok L (fs_heap s) -> length (sd_no junk) = 56%nat -> length (sd_name junk) = 56%nat -> supplies 6 (fs_heap s) ->
  exists s', denemefs_init 0 initrd junk s = Done tt s' /\ repr boot_tree s'.
Proof.
  intros HL Hl1 Hl2 Hs. destruct (boot_root junk s L HL Hl1 Hl2 Hs) as (s1 & Hr1 & R1 & S1).
  unfold denemefs_init. go Hr1. set (root := set_ino 0 inode_zero).
  destruct (boot_mkdir t0 s1 R1 root 0 str_home 3 _ _ _ 4 1 t1 eq_refl ltac:(cmp) ltac:(by split) eq_refl ltac:(cmp) S1)
    as (s2 & Hr2 & R2 & S2). go Hr2.
  go (boot_lookup t1 s2 R2 root 0 str_home _ _ _ 1 _ eq_refl ltac:(cmp) ltac:(done) ltac:(cmp) ltac:(cmp)).
  destruct (boot_create t1 s2 R2 root 0 str_dosya1 1 _ _ _ 3 2 t2 eq_refl ltac:(cmp) ltac:(by split) eq_refl ltac:(cmp) S2)
    as (s3 & Hr3 & R3 & S3). go Hr3.
  destruct (boot_strcpy t2 s3 R3 (afound (superblock root) 2 (new_file 1) inode_zero) 2 (1, 0) zeros str_d1_icerik 3
    eq_refl ltac:(cmp) ltac:(vm_compute; lia) S3) as (s4 & Hr4 & R4 & S4). go Hr4.
  destruct (boot_create t3 s4 R4 root 0 str_dosya2 3 _ _ _ 2 3 t4 eq_refl ltac:(cmp) ltac:(by split) eq_refl ltac:(cmp) S4)
    as (s5 & Hr5 & R5 & S5). go Hr5.
  destruct (boot_strcpy t4 s5 R5 (afound (superblock root) 3 (new_file 3) inode_zero) 3 (1, 1) zeros str_data2 2
    eq_refl ltac:(cmp) ltac:(vm_compute; lia) S5) as (s6 & Hr6 & R6 & S6). go Hr6.
  destruct (boot_mkdir t5 s6 R6 root 0 str_dir1 3 _ _ _ 1 4 t6 eq_refl ltac:(cmp) ltac:(by split) eq_refl ltac:(cmp) S6)
    as (s7 & Hr7 & R7 & S7). go Hr7.
  go (boot_lookup t6 s7 R7 root 0 str_dir1 _ _ _ 4 (new_dir 3) eq_refl ltac:(cmp) ltac:(done) ltac:(cmp) ltac:(cmp)).
  destruct (boot_mkdir t6 s7 R7 (afound (superblock root) 4 (new_dir 3) inode_zero) 4 str_dir11 3 _ _ _ 0 5 t7
    eq_refl ltac:(cmp) ltac:(by split) eq_refl ltac:(cmp) S7) as (s8 & Hr8 & R8 & S8).
  go Hr8. exists s8. split; [done|]. by replace boot_tree with t7 by cmp.
Qed.

(** ** What a write changes *)

Lemma awrite_lookup pos buf bs k : 0 <= pos -> pos + Z.of_nat (length buf) <= Z.of_nat (length bs) < 2 ^ 31 ->
  awrite pos buf bs !! k =
    if decide (Z.to_nat pos <= k < Z.to_nat pos + length buf)%nat then buf !! (k - Z.to_nat pos)%nat else bs !! k.
Proof.
  intros Hp [Hle Hlt]. unfold awrite. rewrite u32_small by lia. set (q := Z.to_nat pos).
  rewrite (take_ge buf) by lia. rewrite !lookup_app, length_take, lookup_drop. rewrite Nat.min_l by lia.
  case_decide as Hk.
  - rewrite lookup_take_ge by lia. destruct (lookup_lt_is_Some_2 buf (k - q)) as [x Hx]; [lia|]. by rewrite Hx.
  - destruct (decide (k < q)%nat) as [Hkq|Hkq].
    + rewrite lookup_take_lt by lia. destruct (lookup_lt_is_Some_2 bs k) as [x Hx]; [lia|]. by rewrite Hx.
    + rewrite lookup_take_ge by lia. rewrite (proj2 (lookup_ge_None buf (k - q))) by lia. f_equal. lia.
Qed.

Lemma aread_lookup pos size bs k : 0 <= pos < 2 ^ 32 ->
  aread pos size bs !! k = if decide (Z.of_nat k < size) then bs !! (Z.to_nat pos + k)%nat else None.
Proof.
  intros Hp. unfold aread. rewrite u32_small by lia. case_decide.
  - by rewrite lookup_take_lt, lookup_drop by lia.
  - by rewrite lookup_take_ge by lia.
Qed.

Lemma aread_awrite pos buf bs : 0 <= pos -> pos + Z.of_nat (length buf) <= Z.of_nat (length bs) < 2 ^ 31 ->
  aread pos (Z.of_nat (length buf)) (awrite pos buf bs) = buf.
Proof.
  intros Hp Hl. apply list_eq. intros k. rewrite aread_lookup, awrite_lookup by (done || lia).
  destruct (decide (Z.of_nat k < Z.of_nat (length buf))).
  - rewrite decide_True by lia. f_equal. lia.
  - symmetry. apply lookup_ge_None. lia.
Qed.

Lemma aread_elsewhere pos buf bs p size : 0 <= pos -> pos + Z.of_nat (length buf) <= Z.of_nat (length bs) < 2 ^ 31 ->
  0 <= p < 2 ^ 32 -> p + size <= pos \/ pos + Z.of_nat (length buf) <= p ->
  aread p size (awrite pos buf bs) = aread p size bs.
Proof.
  intros Hp Hl Hpp Hd. apply list_eq. intros k. rewrite !aread_lookup, awrite_lookup by done.
  case_decide; [|done]. by rewrite decide_False by lia.
Qed.

Lemma full_add_entry a s i_dir rw m nm i : core a s -> a !! ino i_dir = Some (ADir rw Deneme_subdentry_count m) ->
  name_ok nm -> m !! nm = None -> denemefs_add_entry i_dir nm i s = Stop BadAccess.
Proof.
  intros C Hd [Hnm Hfit] Hm.
  pose proof (lookup_run a s i_dir _ rw _ m nm inode_zero C eq_refl Hd Hnm ltac:(by rewrite Hm)) as Hl.
  rewrite Hm in Hl. cbn [mbind option_bind] in Hl. unfold denemefs_add_entry. go Hl. cbn [Z.eqb].
  destruct (core_dir a s _ rw _ m C Hd) as (d & sd & Hr & Hdi & _ & _ & _ & Hsd & D).
  go (di_rd_run _ _ _ Hdi). go (sd_rd_run _ _ _ Hsd). apply bind_stop. unfold arr_set.
  destruct (dr_n _ _ _ D) as [-> _]. destruct (dr_len _ _ _ D) as [-> _]. done.
Qed.

Lemma full_new_entry a s dir rw m nm no : repr a s -> a !! dir = Some (ADir rw Deneme_subdentry_count m) ->
  name_ok nm -> m !! nm = None -> fresh a = Some no -> new_entry (inode_at dir) nm s = Stop BadAccess.
Proof.
  intros (T & C & Hu) Hd Hnm Hm Hf. unfold new_entry. pose proof (new_inode_run a s inode_zero C Hu) as Hni.
  rewrite Hf in Hni. go Hni. apply fresh_spec in Hf as (Hno & Hr & _). cbn [Z.ltb Z.compare]. apply bind_stop.
  eapply (full_add_entry a); [|exact Hd|done|done]. apply (core_di_other a s no _ C Hno). lia.
Qed.

(** * Properties *)

(** C20. denemefs refines its specification: from a state that represents the tree
    [a], any sequence of calls a caller may make runs to its end without stopping
    the kernel, answers what the specification answers, and ends in a state that
    represents the specification's tree, which is well formed. The one exception is
    a heap without memory: the call that finds it so stops the kernel, after the
    calls before it have answered as specified. *)
Theorem denemefs_refines cs a s :
  repr a s -> calls_ok a cs ->
  (exists s', run_calls cs s = Done (asteps cs a).1 s' /\ repr (asteps cs a).2 s') \/
  (exists cs1 cs2 s1, cs = cs1 ++ cs2 /\ run_calls cs1 s = Done (asteps cs1 a).1 s1 /\ exhausted s1 /\
     run_calls cs s = Stop BadAccess).
Proof.
  revert a s. induction cs as [|c cs IH]; intros a s R Hok; [left; by exists s|].
  destruct Hok as [Hc Hok]. cbn [run_calls asteps].
  destruct (call_refines c a s R Hc) as [[Hex Hst]|(s1 & Hrun & R1)].
  { right. exists [], (c :: cs), s. split_and!; [done..|]. by apply bind_stop. }
  go Hrun. destruct (astep c a) as [r a1] eqn:Ha. cbn [fst snd] in *.
  destruct (IH a1 s1 R1 Hok) as [(s' & Hrs & R')|(cs1 & cs2 & s2 & -> & Hrs & Hex & Hst)].
  - left. exists s'. go Hrs. by destruct (asteps cs a1).
  - right. exists (c :: cs1), cs2, s2. split_and!; [done| |done|by apply bind_stop].
    cbn [run_calls asteps]. rewrite Ha. go Hrun. go Hrs. by destruct (asteps cs1 a1).
Qed.

(** C24. denemefs_init without an initial RAM disk: with memory for its six
    allocations, and whatever the memory of the root directory held, the boot ends
    with exactly the tree /home, /dosya1, /dosya2, /dir1, /dir1/dir11 and the texts
    of the two files. *)
Theorem denemefs_boot junk s L initrd :
  al_ok L (fs_heap s) -> length (sd_no junk) = 56%nat -> length (sd_name junk) = 56%nat ->
  supplies 6 (fs_heap s) ->
  exists s', denemefs_init 0 initrd junk s = Done tt s' /\ tree_ok boot_tree /\ repr boot_tree s'.
Proof.
  intros HL Hl1 Hl2 Hs. destruct (boot_run junk s L initrd HL Hl1 Hl2 Hs) as (s' & Hr & R).
  exists s'. split_and!; [done|apply R|done].
Qed.

(** C21. Round trip through a file: bytes written inside the file are all accepted
    and read back, and no read of other bytes, of this file or of another, sees a
    difference. *)
Theorem write_read_roundtrip a s no rw bs pos buf :
  repr a s -> a !! no = Some (AFile rw bs) -> 0 <= pos -> pos + Z.of_nat (length buf) <= Z.of_nat (length bs) ->
  exists s', denemefs_write (inode_at no) pos buf s = Done (Z.of_nat (length buf)) s' /\
    denemefs_read (inode_at no) pos (Z.of_nat (length buf)) s' = Done (Z.of_nat (length buf), buf) s' /\
    forall no' rw' bs' p size, a !! no' = Some (AFile rw' bs') -> 0 <= p < 2 ^ 32 ->
      no' <> no \/ p + size <= pos \/ pos + Z.of_nat (length buf) <= p ->
      exists r, denemefs_read (inode_at no') p size s = Done r s /\ denemefs_read (inode_at no') p size s' = Done r s'.
Proof.
  intros (T & C & Hu) Hno Hp Hle. destruct (core_file a s no rw bs C Hno) as (_ & _ & _ & _ & _ & Hlt).
  destruct (write_run a s (inode_at no) pos buf rw bs C Hno) as (s' & Hw & C' & _). exists s'.
  cbn [inode_at set_ino ino] in C'. rewrite u32_small, take_ge in Hw by lia. split_and!; [done| |].
  - rewrite (read_run _ s' (inode_at no) pos _ rw (awrite pos buf bs) C') by apply lookup_insert_eq.
    by rewrite aread_awrite by done.
  - intros no' rw' bs' p size Hno' Hpp Hd. eexists. split; [by eapply read_run|].
    destruct (decide (no' = no)) as [->|Hne].
    + assert (bs' = bs) as -> by congruence. destruct Hd as [|Hd]; [done|].
      rewrite (read_run _ s' (inode_at no) p size rw (awrite pos buf bs) C') by apply lookup_insert_eq.
      by rewrite aread_elsewhere by done.
    + apply (read_run _ s' (inode_at no') p size rw' bs' C'). by rewrite lookup_insert_ne.
Qed.

(** C28. Slots of a directory are never given back. A directory that has ever had an
    entry cannot be removed, empty or not; and when its 56 slots have been used, the
    next new name stops the kernel with a store behind the array, although the
    directory may be empty and there is an inode left. *)
Theorem directory_slots_are_lost a s dir rw u m :
  repr a s -> a !! dir = Some (ADir rw u m) ->
  (0 < u -> forall parent nm, entry a parent nm dir -> denemefs_rmdir (inode_at parent) nm s = Done (-3) s) /\
  (u = Deneme_subdentry_count -> forall nm mode dest, name_ok nm -> m !! nm = None -> is_Some (fresh a) ->
     denemefs_create (inode_at dir) nm mode dest s = Stop BadAccess /\
     denemefs_mkdir (inode_at dir) nm mode s = Stop BadAccess).
Proof.
  intros R Hd. split.
  - intros Hu parent nm (rwp & up & mp & Hp & Hm). pose proof R as (T & C & _).
    destruct (tr_refs a T parent nm dir) as (_ & _ & Hnm); [by exists rwp, up, mp|].
    pose proof (repr_lookup a s (inode_at parent) parent rwp up mp nm inode_zero R eq_refl Hp Hnm) as Hl.
    rewrite Hm in Hl. cbn [mbind option_bind] in Hl. rewrite Hd in Hl. cbn [fmap option_fmap option_map] in Hl.
    unfold denemefs_rmdir. go Hl. cbn [Z.ltb Z.compare afound mode set_found anode_mode fm_type].
    change (FT_dir =? FT_dir) with true. cbn [negb].
    destruct (core_dir a s dir rw u m C Hd) as (dd & sd & _ & Hdi & _ & _ & _ & Hsd & D).
    unfold is_empty_dir. cbn [ino set_found]. erewrite bind_done; [|go (di_rd_run _ _ _ Hdi); go (sd_rd_run _ _ _ Hsd); reflexivity].
    rewrite (proj1 (dr_n _ _ _ D)). destruct (Z.eqb_spec u 0); [lia|]. done.
  - intros -> nm mode dest Hnm Hm [no Hf]. pose proof (full_new_entry a s dir rw m nm no R Hd Hnm Hm Hf) as Hst.
    split; by apply bind_stop.
Qed.
End calls.

(** * The properties at a small heap *)

(** An allocator that never reuses an address. *)
Definition bump_malloc (size : Z) : M Z Z := fun h => Done h (h + 2048).
#[export] Instance Alloc_bump : Alloc Z := {| al_malloc := bump_malloc; al_free := fun _ h => Done tt h |}.
#[export] Instance AllocSpec_bump : AllocSpec Z.
Proof.
  refine {| al_ok := fun L h => 0 < h /\ forall p, p ∈ L -> p < h |}.
  - intros L h size [Hh HL] _. right. exists h, (h + 2048). split_and!; [done|unfold NULL; lia| |lia|].
    + intros Hin. apply HL in Hin. lia.
    + intros p [->%elem_of_singleton|Hp]%elem_of_union; [lia|]. apply HL in Hp. lia.
  - intros L h p [Hh HL] Hp. exists h. split; [done|]. split; [done|]. intros q [Hq _]%elem_of_difference. by apply HL.
Defined.

Lemma bump_supplies n h : 0 < h -> supplies n h.
Proof.
  revert h. induction n as [|n IH]; intros h Hh; [done|]. intros size p h' _ [= <- <-].
  split; [unfold NULL; lia|]. apply IH. lia.
Qed.

Definition demo_junk : subdentry := mkSd 7 (replicate 56 9) (replicate 56 [33]).
Definition demo_fs0 : dfs Z := mkDfs [] ∅ 0x10000000.
Definition demo_fs : dfs Z :=
  match denemefs_init 0 [] demo_junk demo_fs0 with Done _ s => s | Stop _ => demo_fs0 end.

Lemma bump_heap_ok : al_ok ∅ (fs_heap demo_fs0).
Proof. split; [done|set_solver]. Qed.

Lemma demo_repr : repr boot_tree demo_fs.
Proof.
  destruct (boot_run demo_junk demo_fs0 ∅ [] bump_heap_ok eq_refl eq_refl (bump_supplies 6 (fs_heap demo_fs0) eq_refl)) as (s & Hr & R).
  unfold demo_fs. by rewrite Hr.
Qed.

Definition demo_calls : list fcall :=
  [CCreate 4 [120] 3; CWrite 6 998 [1; 2; 3]; CRead 6 998 9; CMkdir 0 [121] 3; CRmdir 0 str_dir1; CRmdir 0 [121];
   CUnlink 4 [120]; CLookup 4 [120]; CRmdir 0 str_dir1].

Lemma demo_calls_ok : calls_ok boot_tree demo_calls.
Proof. apply (bool_decide_unpack _). vm_compute. exact I. Qed.

Lemma denemefs_refines_witness :
  (exists s', run_calls demo_calls demo_fs = Done (asteps demo_calls boot_tree).1 s' /\ repr (asteps demo_calls boot_tree).2 s') \/
  (exists cs1 cs2 s1, demo_calls = cs1 ++ cs2 /\ run_calls cs1 demo_fs = Done (asteps cs1 boot_tree).1 s1 /\ exhausted s1 /\
     run_calls demo_calls demo_fs = Stop BadAccess).
Proof. apply (denemefs_refines demo_calls boot_tree demo_fs demo_repr demo_calls_ok). Defined.

(** The answers of these calls. *)
Example demo_answers : (asteps demo_calls boot_tree).1 =
  [RFound (mkInode 6 0 (Some denemefs_file_inode_op) (mkMode 1 1 0 FT_regular) 0 0 1000 0 []); RCode 2; RData [1; 2];
   RCode 0; RCode (-3); RCode 0; RCode 0; RCode (-1); RCode (-3)].
Proof. vm_compute. reflexivity. Qed.

Lemma denemefs_boot_witness :
  exists s', denemefs_init 0 [] demo_junk demo_fs0 = Done tt s' /\ tree_ok boot_tree /\ repr boot_tree s'.
Proof. apply (denemefs_boot demo_junk demo_fs0 ∅ [] bump_heap_ok eq_refl eq_refl (bump_supplies 6 (fs_heap demo_fs0) eq_refl)). Defined.

Lemma write_read_roundtrip_witness :
  exists s', denemefs_write (inode_at 3) 2 [7; 8] demo_fs = Done 2 s' /\
    denemefs_read (inode_at 3) 2 2 s' = Done (2, [7; 8]) s' /\
    forall no' rw' bs' p size, boot_tree !! no' = Some (AFile rw' bs') -> 0 <= p < 2 ^ 32 ->
      no' <> 3 \/ p + size <= 2 \/ 2 + 2 <= p ->
      exists r, denemefs_read (inode_at no') p size demo_fs = Done r demo_fs /\
        denemefs_read (inode_at no') p size s' = Done r s'.
Proof.
  apply (write_read_roundtrip boot_tree demo_fs 3 (1, 1) (text str_data2) 2 [7; 8] demo_repr).
  - reflexivity.
  - lia.
  - vm_compute. discriminate.
Defined.

Lemma directory_slots_are_lost_witness :
  denemefs_rmdir (inode_at 0) str_dir1 demo_fs = Done (-3) demo_fs.
Proof.
  refine (proj1 (directory_slots_are_lost boot_tree demo_fs 4 (1, 1) 1 {[str_dir11 := 5]} demo_repr _) _ 0 str_dir1 _).
  - reflexivity.
  - lia.
  - eexists _, _, _. split; reflexivity.
Defined.
