(* ===== verification/Vfs.v ===== *)
(** The virtual file system up to path resolution: inodes (kernel/fs/inode.cpp) and
    directory entries with their cache (kernel/fs/dirent.cpp).

    Structures are named by their addresses; the children of a directory entry are
    the list of ListSpec that its address keys. A task that finds an inode locked
    sleeps until the lock is given to it: the model's run of the call ends there
    with [Blocked]. [v_woken] collects the tasks an unlock wakes. *)

From S2P Require Import Prelude Spinlock ListSpec Util Fs DenemeFs.

(** * Definitions *)

Definition TASK_MAX_FILE_NR : Z := 32.
Definition MAX_DIRENTRY_NAME_SIZE : Z := 256.
Definition sizeof_inode : Z := 52.
Definition sizeof_dirent : Z := 308.
Definition sizeof_file : Z := 16.

Record dirent := mkDirent {
  d_lock : Z; d_refs : Z; d_inode : Z; d_name : cstr; d_parent : Z; d_mounted : Z }.
Definition set_d_lock (v : Z) (d : dirent) : dirent :=
  mkDirent v (d_refs d) (d_inode d) (d_name d) (d_parent d) (d_mounted d).
Definition set_d_refs (v : Z) (d : dirent) : dirent :=
  mkDirent (d_lock d) v (d_inode d) (d_name d) (d_parent d) (d_mounted d).
Definition set_d_inode (v : Z) (d : dirent) : dirent :=
  mkDirent (d_lock d) (d_refs d) v (d_name d) (d_parent d) (d_mounted d).
Definition set_d_name (v : cstr) (d : dirent) : dirent :=
  mkDirent (d_lock d) (d_refs d) (d_inode d) v (d_parent d) (d_mounted d).
Definition set_d_parent (v : Z) (d : dirent) : dirent :=
  mkDirent (d_lock d) (d_refs d) (d_inode d) (d_name d) v (d_mounted d).
Definition set_d_mounted (v : Z) (d : dirent) : dirent :=
  mkDirent (d_lock d) (d_refs d) (d_inode d) (d_name d) (d_parent d) v.

(** The tables of operations a file's [fo] can point to. *)
Inductive file_operations :=
| denemefs_dir_op | denemefs_file_op | chrdev_file_op | stdin_operations | stdout_operations.

Record file := mkFile { f_fo : file_operations; f_inode : Z; f_pos : Z; f_flags : Z }.

(** The files of a task: [files] holds addresses, NULL for a free descriptor. *)
Record Task_FS := mkTaskFs { fs_pwd : Z; fs_root : Z; fs_files : list Z }.

Record vfs (H : Type) := mkVfs {
  v_fs : dfs H;
  v_inodes : gmap Z inode;
  v_dirents : gmap Z dirent;
  v_childs : lstore Z;
  v_files : gmap Z file;
  v_tasks : gmap Z Task_FS;
  v_task0_root : Z;
  v_chrdevs : list (option (cstr * file_operations));
  v_out : list (list Z);
  v_woken : list Z;
}.
Arguments mkVfs {H} _ _ _ _ _ _ _ _ _ _.
Arguments v_fs {H} _.
Arguments v_inodes {H} _.
Arguments v_dirents {H} _.
Arguments v_childs {H} _.
Arguments v_files {H} _.
Arguments v_tasks {H} _.
Arguments v_task0_root {H} _.
Arguments v_chrdevs {H} _.
Arguments v_out {H} _.
Arguments v_woken {H} _.

Definition set_v_fs {H} x (s : vfs H) : vfs H := mkVfs x (v_inodes s) (v_dirents s) (v_childs s) (v_files s)
  (v_tasks s) (v_task0_root s) (v_chrdevs s) (v_out s) (v_woken s).
Definition set_v_inodes {H} x (s : vfs H) : vfs H := mkVfs (v_fs s) x (v_dirents s) (v_childs s) (v_files s)
  (v_tasks s) (v_task0_root s) (v_chrdevs s) (v_out s) (v_woken s).
Definition set_v_dirents {H} x (s : vfs H) : vfs H := mkVfs (v_fs s) (v_inodes s) x (v_childs s) (v_files s)
  (v_tasks s) (v_task0_root s) (v_chrdevs s) (v_out s) (v_woken s).
Definition set_v_childs {H} x (s : vfs H) : vfs H := mkVfs (v_fs s) (v_inodes s) (v_dirents s) x (v_files s)
  (v_tasks s) (v_task0_root s) (v_chrdevs s) (v_out s) (v_woken s).
Definition set_v_files {H} x (s : vfs H) : vfs H := mkVfs (v_fs s) (v_inodes s) (v_dirents s) (v_childs s) x
  (v_tasks s) (v_task0_root s) (v_chrdevs s) (v_out s) (v_woken s).
Definition set_v_tasks {H} x (s : vfs H) : vfs H := mkVfs (v_fs s) (v_inodes s) (v_dirents s) (v_childs s) (v_files s)
  x (v_task0_root s) (v_chrdevs s) (v_out s) (v_woken s).
Definition set_v_task0_root {H} x (s : vfs H) : vfs H := mkVfs (v_fs s) (v_inodes s) (v_dirents s) (v_childs s) (v_files s)
  (v_tasks s) x (v_chrdevs s) (v_out s) (v_woken s).
Definition set_v_chrdevs {H} x (s : vfs H) : vfs H := mkVfs (v_fs s) (v_inodes s) (v_dirents s) (v_childs s) (v_files s)
  (v_tasks s) (v_task0_root s) x (v_out s) (v_woken s).
Definition set_v_out {H} x (s : vfs H) : vfs H := mkVfs (v_fs s) (v_inodes s) (v_dirents s) (v_childs s) (v_files s)
  (v_tasks s) (v_task0_root s) (v_chrdevs s) x (v_woken s).
Definition set_v_woken {H} x (s : vfs H) : vfs H := mkVfs (v_fs s) (v_inodes s) (v_dirents s) (v_childs s) (v_files s)
  (v_tasks s) (v_task0_root s) (v_chrdevs s) (v_out s) x.

(** The processor under the file system is the one under its heap. *)
#[export] Instance HasCpu_dfs {H} `{!HasCpu H} : HasCpu (dfs H).
Proof.
  refine {| cpu_of s := cpu_of (fs_heap s); set_cpu c s := mkDfs (fs_di s) (fs_data s) (set_cpu c (fs_heap s)) |}.
  - intros c s. apply cpu_of_set.
  - intros [d o h]. simpl. by rewrite set_cpu_of.
  - intros c c' s. simpl. by rewrite set_cpu_set.
Defined.
#[export] Instance HasCpu_vfs {H} `{!HasCpu H} : HasCpu (vfs H).
Proof.
  refine {| cpu_of s := cpu_of (v_fs s); set_cpu c s := set_v_fs (set_cpu c (v_fs s)) s |}.
  - intros c s. apply cpu_of_set.
  - intros []. unfold set_v_fs; cbn -[set_cpu cpu_of]. by rewrite set_cpu_of.
  - intros c c' []. unfold set_v_fs; cbn -[set_cpu cpu_of]. by rewrite set_cpu_set.
Defined.

Section vfs.
Context {H : Type} `{!HasCpu H} `{!Alloc H}.
Notation V := (vfs H).

Definition in_dfs {A} (m : M (dfs H) A) : M V A := zoom v_fs set_v_fs m.

(** kmalloc of a structure that is written at once. *)
Definition kmalloc_struct (size : Z) : M V Z :=
  p ← in_dfs (in_alloc (al_malloc size)); if p =? NULL then stop BadAccess else mret p.

(** ** inode.cpp *)

Definition ino_rd (p : Z) : M V inode := s ← get; deref (v_inodes s !! p).
Definition ino_put (p : Z) (i : inode) : M V unit := modify (fun s => set_v_inodes (<[p := i]> (v_inodes s)) s).
Definition ino_wr (p : Z) (f : inode -> inode) : M V unit := i ← ino_rd p; ino_put p (f i).

Definition inode_lock (p : Z) : M V unit :=
  pushcli ;;
  i ← ino_rd p;
  (if 0 <? lock_val i then ino_wr p (set_lock_val (lock_val i - 1)) else stop Blocked) ;;
  i ← ino_rd p; ASSERT (lock_val i =? 0) ;;
  popcli.

Definition inode_unlock (p : Z) : M V unit :=
  pushcli ;;
  i ← ino_rd p; ASSERT (lock_val i =? 0) ;;
  (match wait_list i with
   | t :: l => ino_wr p (set_wait_list l) ;; modify (fun s => set_v_woken (v_woken s ++ [t]) s)
   | [] => ino_wr p (set_lock_val (lock_val i + 1))
   end) ;;
  popcli.

Definition inode_alloc : M V Z :=
  p ← kmalloc_struct sizeof_inode;
  ino_put p (set_lock_val 1 (set_ref_count 1 inode_zero)) ;;
  mret p.

Definition inode_dup (p : Z) : M V Z :=
  if p =? NULL then mret NULL else
  inode_lock p ;;
  ino_wr p (fun i => set_ref_count (i32 (ref_count i + 1)) i) ;;
  inode_unlock p ;;
  mret p.

Definition __inode_free (p : Z) : M V unit :=
  i ← ino_rd p;
  ASSERT (bool_decide (wait_list i = [])) ;;
  ASSERT (ref_count i =? 0) ;;
  in_dfs (in_alloc (al_free p)) ;;
  modify (fun s => set_v_inodes (base.delete p (v_inodes s)) s).

Definition inode_free (p : Z) : M V unit :=
  inode_lock p ;;
  ino_wr p (fun i => set_ref_count (i32 (ref_count i - 1)) i) ;;
  i ← ino_rd p;
  if ref_count i <? 0 then __inode_free p else inode_unlock p.

(** The permission operation of a table; None for a null pointer. *)
Definition op_permission (o : inode_operations) (i : inode) (flags : Z) : M V Z :=
  match o with
  | denemefs_dir_inode_op | denemefs_file_inode_op => in_dfs (denemefs_permission i flags)
  | chrdev_inode_operations => mret 0
  end.

Definition inode_permission (p flags : Z) : M V Z :=
  i ← ino_rd p; o ← deref (op i);
  r ← op_permission o i flags;
  if negb (r =? 0) then mret 1
  else if Z.land (fm_mode (mode i)) flags =? flags then mret 1 else mret 0.

(** ** dirent.cpp *)

Definition dr_rd (d : Z) : M V dirent := s ← get; deref (v_dirents s !! d).
Definition dr_put (d : Z) (e : dirent) : M V unit := modify (fun s => set_v_dirents (<[d := e]> (v_dirents s)) s).
Definition dr_wr (d : Z) (f : dirent -> dirent) : M V unit := e ← dr_rd d; dr_put d (f e).

(** dirent->lock *)
Definition dr_acquire (d : Z) : M V unit :=
  _ ← dr_rd d;
  spinlock_acquire (fun s => default 0 (d_lock <$> v_dirents s !! d))
    (fun v s => set_v_dirents (alter (set_d_lock v) d (v_dirents s)) s).
Definition dr_release (d : Z) : M V unit :=
  _ ← dr_rd d;
  spinlock_release (fun v s => set_v_dirents (alter (set_d_lock v) d (v_dirents s)) s).

(** Lists of children. *)
Definition childs (d : Z) : M V (list Z) := gets (fun s => ls_get (v_childs s) d).
Definition ch_op (f : lstore Z -> bool * lstore Z) : M V bool :=
  s ← get; let '(r, l) := f (v_childs s) in put (set_v_childs l s) ;; mret r.

(** inode and name are what the memory held. *)
Definition dirent_alloc : M V Z :=
  d ← kmalloc_struct sizeof_dirent;
  dr_put d (mkDirent 0 1 NULL [] NULL 0) ;;
  modify (fun s => set_v_childs (ls_init d (ls_node_init d (v_childs s))) s) ;;
  mret d.

Definition dirent_dup (d : Z) : M V Z :=
  dr_acquire d ;;
  dr_wr d (fun e => set_d_refs (i32 (d_refs e + 1)) e) ;;
  dr_release d ;;
  mret d.

Definition __dirent_free (d : Z) : M V unit :=
  e ← dr_rd d; s ← get;
  ASSERT (d_refs e =? 0) ;;
  ASSERT (negb (d =? v_task0_root s)) ;;
  ASSERT (negb (d_parent e =? NULL)) ;;
  p ← dr_rd (d_parent e);
  ASSERT (negb (d_lock p =? 0)) ;;
  ASSERT (negb (d_lock e =? 0)) ;;
  in_dfs (in_alloc (al_free d)) ;;
  modify (fun s => set_v_dirents (base.delete d (v_dirents s)) s).

Definition dirent_free (d : Z) : M V unit :=
  pushcli ;;
  dr_wr d (fun e => set_d_refs (i32 (d_refs e - 1)) e) ;;
  e ← dr_rd d;
  when (d_refs e <? 0) (__dirent_free d) ;;
  popcli.

(** The recursion goes down one level of the cache with every step of [fuel], and a
    level has no more children than there are entries. *)
Fixpoint delete_childs (delete : Z -> M V unit) (n : nat) (dir : Z) : M V unit :=
  match n with
  | O => l ← childs dir; match l with [] => mret tt | _ => stop OutOfFuel end
  | S n' =>
      l ← childs dir;
      match l with
      | [] => mret tt
      | d :: _ =>
          ok ← ch_op (ls_pop_front dir); ASSERT ok ;;
          delete d ;; delete_childs delete n' dir
      end
  end.

Fixpoint dirent_delete_fuel (fuel : nat) (dir : Z) : M V unit :=
  match fuel with
  | O => stop OutOfFuel
  | S f =>
      e ← dr_rd dir; p ← dr_rd (d_parent e);
      ASSERT (negb (d_lock p =? 0)) ;;
      dr_acquire dir ;;
      s ← get;
      delete_childs (dirent_delete_fuel f) (size (v_dirents s)) dir ;;
      dr_wr dir (set_d_inode NULL) ;;
      dr_wr dir (set_d_parent NULL) ;;
      dr_release dir ;;
      dirent_free dir
  end.
Definition dirent_delete (dir : Z) : M V unit :=
  s ← get; dirent_delete_fuel (S (size (v_dirents s))) dir.

Definition dirent_cache_add (d_par : Z) (name : cstr) (i_child : Z) : M V Z :=
  e ← dr_rd d_par; i ← ino_rd (d_inode e);
  ASSERT (lock_val i =? 0) ;;
  d ← dirent_alloc;
  (if Z.of_nat (length name) <? MAX_DIRENTRY_NAME_SIZE then dr_wr d (set_d_name name) else stop BadAccess) ;;
  dr_wr d (set_d_inode i_child) ;;
  _ ← ch_op (ls_push_back d_par d);
  dr_wr d (set_d_parent d_par) ;;
  mret d.

(** inode->op->lookup, which fills the structure at [p]. *)
Definition op_lookup (i : inode) (name : cstr) (p : Z) : M V Z :=
  o ← deref (op i);
  match o with
  | denemefs_dir_inode_op | denemefs_file_inode_op =>
      dest ← ino_rd p;
      '(r, dest') ← in_dfs (denemefs_lookup i name dest);
      ino_put p dest' ;; mret r
  | chrdev_inode_operations => stop BadAccess
  end.

Definition str_dot : cstr := [46].
Definition str_dotdot : cstr := [46; 46].

(** [cur]: task_curr. *)
Section current.
Context (cur : Z).

Definition curr_fs : M V Task_FS := s ← get; deref (v_tasks s !! cur).

(** . and .. *)
Definition lookup_dots (dir : Z) (name : cstr) : M V (option Z) :=
  if streq name str_dot then d ← dirent_dup dir; mret (Some d)
  else if streq name str_dotdot then
    t ← curr_fs;
    if dir =? fs_root t then d ← dirent_dup dir; mret (Some d)
    else e ← dr_rd dir; d ← dirent_dup (d_parent e); mret (Some d)
  else mret None.

(** A child of that name in the cache. *)
Definition lookup_cache (dir : Z) (name : cstr) : M V (option Z) :=
  l ← childs dir;
  iter_until (fun c => e ← dr_rd c; if streq (d_name e) name then d ← dirent_dup c; mret (Some d) else mret None) l.

(** The entry on the disk gets an inode and an entry in the cache. *)
Definition lookup_disk (dir : Z) (name : cstr) : M V (Z * option Z) :=
  dr_acquire dir ;;
  e ← dr_rd dir;
  inode_lock (d_inode e) ;;
  popcli ;;
  p ← inode_alloc;
  i ← ino_rd (d_inode e);
  r ← op_lookup i name p;
  o ← (if r <? 0 then inode_free p ;; mret None
       else c ← dirent_cache_add dir name p; d ← dirent_dup c; mret (Some d));
  e ← dr_rd dir;
  inode_unlock (d_inode e) ;;
  dr_release dir ;;
  mret (r, o).

(** The result and *d. *)
Definition dirent_lookup (dir : Z) (name : cstr) : M V (Z * option Z) :=
  e ← dr_rd dir;
  if d_inode e =? NULL then mret (-1, None) else
  pushcli ;;
  o ← lookup_dots dir name;
  match o with
  | Some d => popcli ;; mret (0, Some d)
  | None =>
      o ← lookup_cache dir name;
      match o with
      | Some d => popcli ;; mret (0, Some d)
      | None => lookup_disk dir name
      end
  end.

(** parse_path_i reads [path] with its final zero; a length behind that zero is as
    good as one more than the length of the string. *)
Definition parse_next (path : cstr) (len i : Z) : M V (Z * cstr) :=
  deref (parse_path_i (path ++ [0]) (Z.min len (Z.of_nat (length path) + 1)) i).

(** One turn of dirent_find for every name of the path, and the last. *)
Fixpoint find_loop (fuel : nat) (path : cstr) (len i curr r : Z) : M V (Z * Z) :=
  match fuel with
  | O => stop OutOfFuel
  | S f =>
      '(i', name) ← parse_next path len i;
      if bool_decide (name = []) then (if 0 <? i' then find_loop f path len i' curr r else mret (r, curr)) else
      '(r, o) ← dirent_lookup curr name;
      dirent_free curr ;;
      if r <? 0 then mret (r, NULL) else
      next ← deref o;
      if 0 <? i' then find_loop f path len i' next r else mret (r, next)
  end.

Definition dirent_find (path : cstr) (len : Z) : M V (Z * Z) :=
  t ← curr_fs;
  curr ← dirent_dup (if bool_decide (head path = Some SLASH) then fs_root t else fs_pwd t);
  find_loop (S (S (length path))) path len 0 curr 0.

(** The result, *d_parent and *name. *)
Definition dirent_find2 (path : cstr) : M V (Z * Z * cstr) :=
  match strrchr path SLASH with
  | None => t ← curr_fs; mret (0, fs_pwd t, path)
  | Some k =>
      '(r, d) ← dirent_find path (Z.of_nat k);
      if r <? 0 then mret (-1, NULL, []) else mret (0, d, drop (S k) path)
  end.

Definition dirent_cache_remove (path : cstr) : M V unit :=
  '(r, dir, name) ← dirent_find2 path;
  if r <? 0 then mret tt else
  dr_acquire dir ;;
  l ← childs dir;
  _ ← iter_until (fun c =>
        e ← dr_rd c;
        if streq (d_name e) name then
          ok ← ch_op (ls_erase dir c); ASSERT ok ;;
          dirent_delete c ;; mret (Some tt)
        else mret None) l;
  dr_release dir ;;
  dirent_free dir.

(** ** inode_find and inode_find2 *)

Definition inode_find (path : cstr) (len : Z) : M V (Z * Z) :=
  '(r, d) ← dirent_find path len;
  if r <? 0 then mret (r, NULL) else
  e ← dr_rd d;
  i ← inode_dup (d_inode e);
  dirent_free d ;;
  if i =? NULL then mret (-1, NULL) else mret (0, i).

Definition inode_find2 (path : cstr) : M V (Z * Z * cstr) :=
  '(r, d, name) ← dirent_find2 path;
  if r <? 0 then mret (r, NULL, name) else
  e ← dr_rd d;
  i ← inode_dup (d_inode e);
  dirent_free d ;;
  if i =? NULL then mret (-1, NULL, name) else mret (0, i, name).

(** ** dirent_topath *)

(** dir_stack: the entries from [d] up to the one below the root, at most 100. *)
Fixpoint topath_stack (fuel : nat) (d : Z) (stack : list Z) : M V (list Z) :=
  match fuel with
  | O => stop OutOfFuel
  | S f =>
      e ← dr_rd d;
      if d_parent e =? NULL then mret stack else
      if (100 <=? length stack)%nat then stop BadAccess else
      topath_stack f (d_parent e) (d :: stack)
  end.

(** Stores of [n] bytes into the caller's buffer. *)
Definition buf_store (k : Z) (bs : list Z) (buf : list Z) : M V (list Z) :=
  if (0 <=? k) && (k + Z.of_nat (length bs) <=? Z.of_nat (length buf)) then
    mret (take (Z.to_nat k) buf ++ bs ++ drop (Z.to_nat k + length bs) buf)
  else stop BadAccess.

(** strncpy(dest, src, n): at most n bytes of the string, zeros up to n. *)
Definition buf_strncpy (k : Z) (src : cstr) (n : Z) (buf : list Z) : M V (list Z) :=
  if Z.of_nat (length buf) <? n then stop BadAccess else
  let m := Z.to_nat n in
  buf_store k (take m src ++ replicate (m - length src) 0) buf.

(** [size] is unsigned. *)
Fixpoint topath_names (names : list cstr) (j size : Z) (buf : list Z) : M V (Z * list Z) :=
  match names with
  | [] => mret (j, buf)
  | name :: names' =>
      if negb (0 <? size) then mret (j, buf) else
      let len := Z.of_nat (length name) in
      buf ← buf_strncpy j name (u32 (size - 1)) buf;
      let size := u32 (size - (len + 1)) in
      let j := j + (len + 1) in
      buf ← buf_store (j - 1) [if bool_decide (names' = []) then 0 else SLASH] buf;
      topath_names names' j size buf
  end.

(** [buf]: the caller's buffer, as long as size says. *)
Definition dirent_topath (d : Z) (buf : list Z) : M V (Z * list Z) :=
  pushcli ;;
  s ← get;
  stack ← topath_stack (S (size (v_dirents s))) d [];
  names ← foldM (fun l d => e ← dr_rd d; mret (l ++ [d_name e])) [] stack;
  let size := Z.of_nat (length buf) in
  buf ← buf_store 0 [SLASH; 0] buf;
  '(j, buf) ← topath_names names 1 size buf;
  popcli ;;
  mret (j, buf).
End current.
End vfs.
