(* ===== verification/VfsFile.v ===== *)
(** Open files and the system calls on them: kernel/fs/file.cpp,
    kernel/fs/task_fs.cpp, kernel/fs/sys_fs.cpp, the character devices of
    kernel/fs/devices.cpp, and init_fs (kernel/fs/init_fs.cpp with
    denemefs_read_super).

    A system call is modelled behind user_to_kernel_check: its strings are values,
    what it stores to the user's memory is part of its result. A call through a null
    function pointer or through NULL stops the model with BadAccess. *)

From S2P Require Import Prelude Spinlock ListSpec Util Fs DenemeFs Vfs.

(** * Definitions *)

Definition MAX_CHRDEV : Z := 64.

(** struct stat: the fields that depend on the file. *)
Record stat := mkStat { st_ino : Z; st_size : Z; st_blocks : Z }.

Section files.
Context {H : Type} `{!HasCpu H} `{!Alloc H}.
Notation V := (vfs H).

Definition fl_rd (f : Z) : M V file := s ← get; deref (v_files s !! f).
Definition fl_put (f : Z) (x : file) : M V unit := modify (fun s => set_v_files (<[f := x]> (v_files s)) s).
Definition set_f_pos (v : Z) (x : file) : file := mkFile (f_fo x) (f_inode x) v (f_flags x).
Definition set_f_fo (v : file_operations) (x : file) : file := mkFile v (f_inode x) (f_pos x) (f_flags x).

(** ** devices.cpp *)

Definition register_chrdev (no : Z) (name : cstr) (fo : file_operations) : M V Z :=
  if MAX_CHRDEV <=? no then mret (-1) else
  s ← get;
  o ← deref (v_chrdevs s !! Z.to_nat no);
  match o with
  | Some _ => mret (-2)
  | None => put (set_v_chrdevs (<[Z.to_nat no := Some (name, fo)]> (v_chrdevs s)) s) ;; mret 0
  end.

(** chrdev_no is signed here: below zero it is no index. *)
Definition unregister_chrdev (no : Z) (name : cstr) : M V Z :=
  if MAX_CHRDEV <=? no then mret (-1) else
  if no <? 0 then stop BadAccess else
  s ← get;
  o ← deref (v_chrdevs s !! Z.to_nat no);
  match o with
  | None => mret (-2)
  | Some (name', _) =>
      if negb (streq name' name) then mret (-3) else
      put (set_v_chrdevs (<[Z.to_nat no := None]> (v_chrdevs s)) s) ;; mret 0
  end.

Definition chrdev_open (f : Z) : M V Z :=
  x ← fl_rd f; i ← ino_rd (f_inode x);
  if MAX_CHRDEV <=? dev i then mret (-1) else
  if dev i <? 0 then stop BadAccess else
  s ← get;
  o ← deref (v_chrdevs s !! Z.to_nat (dev i));
  match o with
  | None => mret (-1)
  | Some (_, fo) => fl_put f (set_f_fo fo x) ;; mret 0
  end.

Definition str_stdin : cstr := [115; 116; 100; 105; 110].
Definition str_stdout : cstr := [115; 116; 100; 111; 117; 116].
Definition init_devices : M V unit :=
  modify (set_v_chrdevs (replicate (Z.to_nat MAX_CHRDEV) None)) ;;
  _ ← register_chrdev 10 str_stdin stdin_operations;
  _ ← register_chrdev 11 str_stdout stdout_operations;
  mret tt.

(** ** The tables of file operations *)

(** The result, and the bytes stored to the buffer. *)
Definition fo_read (x : file) (size : Z) : M V (Z * list Z) :=
  match f_fo x with
  | denemefs_file_op => i ← ino_rd (f_inode x); in_dfs (denemefs_read i (f_pos x) size)
  | stdin_operations => mret (0, [])
  | _ => stop BadAccess
  end.

(** stdio_write prints the buffer up to its first zero. *)
Definition fo_write (x : file) (buf : list Z) : M V Z :=
  match f_fo x with
  | denemefs_file_op => i ← ino_rd (f_inode x); in_dfs (denemefs_write i (f_pos x) buf)
  | stdout_operations => modify (fun s => set_v_out (v_out s ++ [buf]) s) ;; mret (Z.of_nat (length buf))
  | _ => stop BadAccess
  end.

(** None: the table has no open operation. *)
Definition fo_open (fo : file_operations) : option (Z -> M V Z) :=
  match fo with
  | chrdev_file_op | stdin_operations | stdout_operations => Some chrdev_open
  | _ => None
  end.

Definition default_file_ops (o : inode_operations) : file_operations :=
  match o with
  | denemefs_dir_inode_op => denemefs_dir_op
  | denemefs_file_inode_op => denemefs_file_op
  | chrdev_inode_operations => chrdev_file_op
  end.

(** inode->op->create, mkdir, unlink and rmdir are those of a directory. *)
Definition op_dir {A} (i : inode) (m : M (dfs H) A) : M V A :=
  o ← deref (op i); match o with denemefs_dir_inode_op => in_dfs m | _ => stop BadAccess end.

(** ** file.cpp *)

Definition file_close (f : Z) : M V Z :=
  x ← fl_rd f; i ← ino_rd (f_inode x);
  ASSERT (0 <? ref_count i) ;;
  inode_free (f_inode x) ;;
  in_dfs (in_alloc (al_free f)) ;;
  modify (fun s => set_v_files (base.delete f (v_files s)) s) ;;
  mret 0.

Definition file_read (f size : Z) : M V (Z * list Z) :=
  x ← fl_rd f;
  if negb (Z.land (f_flags x) 1 =? 1) then mret (-1, []) else
  '(r, bs) ← fo_read x size;
  if i32 r <? 0 then mret (-1, []) else
  fl_put f (set_f_pos (i32 (f_pos x + r)) x) ;; mret (r, bs).

Definition file_write (f : Z) (buf : list Z) : M V Z :=
  x ← fl_rd f;
  if negb (Z.land (f_flags x) 2 =? 2) then mret (-1) else
  r ← fo_write x buf;
  if i32 r <? 0 then mret (-1) else
  fl_put f (set_f_pos (i32 (f_pos x + r)) x) ;; mret r.

Definition file_dup (f : Z) : M V Z :=
  g ← kmalloc_struct sizeof_file;
  x ← fl_rd f; fl_put g x ;;
  ino_wr (f_inode x) (fun i => set_ref_count (i32 (ref_count i + 1)) i) ;;
  mret g.

Definition file_stat_inode (p : Z) : M V (Z * option stat) :=
  i ← ino_rd p; mret (0, Some (mkStat (ino i) (isize i) (isize i / 512))).

Section current.
Context (cur : Z).

(** The result and *f. *)
Definition file_open (path : cstr) (flags : Z) : M V (Z * Z) :=
  let flags := if flags =? 0 then 1 else flags in
  ASSERT_int_disable ;;
  '(r, p) ← inode_find cur path (u32 (-1));
  if r <? 0 then mret (r, NULL) else
  ok ← inode_permission p flags;
  if ok =? 0 then mret (-1, NULL) else
  f ← kmalloc_struct sizeof_file;
  p ← inode_dup p;
  i ← ino_rd p; o ← deref (op i);
  let fo := default_file_ops o in
  fl_put f (mkFile fo p 0 flags) ;;
  match fo_open fo with
  | Some m => r ← m f; if r <? 0 then PANIC else mret (r, f)
  | None => mret (r, f)
  end.

Definition unlink (path : cstr) (file_type : Z) : M V Z :=
  '(r, p, name) ← inode_find2 cur path;
  if r <? 0 then mret (-1) else
  inode_lock p ;;
  ok ← inode_permission p 3;
  r ← (if ok =? 0 then mret (-1) else
       i ← ino_rd p;
       r ← (if file_type =? FT_regular then op_dir i (denemefs_unlink i name)
            else if file_type =? FT_dir then op_dir i (denemefs_rmdir i name)
            else mret r);
       if r <? 0 then mret r else dirent_cache_remove cur path ;; mret 0);
  inode_unlock p ;;
  mret r.

Definition create (path : cstr) (fmode : FileMode) : M V Z :=
  '(r, p, name) ← inode_find2 cur path;
  if r <? 0 then mret (-1) else
  ok ← inode_permission p 3;
  if ok =? 0 then mret (-2) else
  i ← ino_rd p;
  if fm_type fmode =? FT_regular then
    '(r, _) ← op_dir i (denemefs_create i name (fm_mode fmode) inode_zero);
    mret (if r <? 0 then -3 else 0)
  else if fm_type fmode =? FT_dir then
    r ← op_dir i (denemefs_mkdir i name (fm_mode fmode));
    mret (if r <? 0 then -3 else 0)
  else mret (-4).

Definition file_stat (path : cstr) : M V (Z * option stat) :=
  '(r, p) ← inode_find cur path (u32 (-1));
  if r <? 0 then mret (-1, None) else file_stat_inode p.

(** ** task_fs.cpp *)

Definition curr_wr_fs (f : Task_FS -> Task_FS) : M V unit :=
  t ← curr_fs cur; modify (fun s => set_v_tasks (<[cur := f t]> (v_tasks s)) s).
Definition set_files (l : list Z) (t : Task_FS) : Task_FS := mkTaskFs (fs_pwd t) (fs_root t) l.
Definition set_pwd (d : Z) (t : Task_FS) : Task_FS := mkTaskFs d (fs_root t) (fs_files t).

Definition fs_task_init (t root : Z) : M V Z :=
  r ← dirent_dup root; p ← dirent_dup root;
  modify (fun s => set_v_tasks (<[t := mkTaskFs p r (default [] (fs_files <$> v_tasks s !! t))]> (v_tasks s)) s) ;;
  mret 0.

Definition fs_fork (c : Z) : M V Z :=
  t ← curr_fs cur;
  r ← dirent_dup (fs_root t); p ← dirent_dup (fs_pwd t);
  l ← foldM (fun l f => g ← (if f =? NULL then mret NULL else file_dup f); mret (l ++ [g])) [] (fs_files t);
  modify (fun s => set_v_tasks (<[c := mkTaskFs p r l]> (v_tasks s)) s) ;;
  mret 0.

Definition close_slot (fd : Z) : M V unit :=
  t ← curr_fs cur;
  f ← deref (fs_files t !! Z.to_nat fd);
  if f =? NULL then mret tt else
  _ ← file_close f; curr_wr_fs (fun t => set_files (<[Z.to_nat fd := NULL]> (fs_files t)) t).
Definition task_curr_free_files : M V unit := iterM close_slot (seqZ 0 TASK_MAX_FILE_NR).

Definition task_curr_get_file (fd : Z) : M V Z :=
  ASSERT (fd <? TASK_MAX_FILE_NR) ;; ASSERT (0 <=? fd) ;;
  t ← curr_fs cur; deref (fs_files t !! Z.to_nat fd).

Definition file_stat_fd (fd : Z) : M V (Z * option stat) :=
  f ← task_curr_get_file fd;
  if (fd =? 1) || (fd =? 2) || (fd =? 0) then mret (-1, None) else
  x ← fl_rd f; file_stat_inode (f_inode x).

Definition file_lseek (fd offset whence : Z) : M V Z :=
  f ← task_curr_get_file fd;
  if whence =? 0 then x ← fl_rd f; fl_put f (set_f_pos offset x) ;; mret 0
  else if whence =? 1 then x ← fl_rd f; fl_put f (set_f_pos (i32 (f_pos x + offset)) x) ;; mret 0
  else if whence =? 2 then
    x ← fl_rd f; i ← ino_rd (f_inode x);
    fl_put f (set_f_pos (i32 (isize i - offset)) x) ;; mret 0
  else mret (-1).

(** ** sys_fs.cpp *)

(** task_curr->fs.files[fd]: the index is not tested. *)
Definition fd_rd (fd : Z) : M V Z :=
  t ← curr_fs cur;
  if Z.of_nat (length (fs_files t)) <=? fd then stop BadAccess else deref (fs_files t !! Z.to_nat fd).

Definition sys_open (path : cstr) (flags : Z) : M V Z :=
  pushcli ;;
  '(r, f) ← file_open path flags;
  if r <? 0 then popcli ;; mret r else
  fd ← iter_until (fun fd =>
         t ← curr_fs cur; g ← deref (fs_files t !! Z.to_nat fd);
         if g =? NULL then
           curr_wr_fs (fun t => set_files (<[Z.to_nat fd := f]> (fs_files t)) t) ;;
           x ← fl_rd f; ino_wr (f_inode x) (fun i => set_ref_count (i32 (ref_count i + 1)) i) ;;
           mret (Some fd)
         else mret None) (seqZ 3 (TASK_MAX_FILE_NR - 3));
  popcli ;;
  mret (default (-1) fd).

Definition sys_close (fd : Z) : M V Z :=
  pushcli ;;
  f ← fd_rd fd;
  if f =? NULL then popcli ;; mret (-1) else
  _ ← file_close f;
  curr_wr_fs (fun t => set_files (<[Z.to_nat fd := NULL]> (fs_files t)) t) ;;
  popcli ;;
  mret 0.

Definition sys_read (fd size : Z) : M V (Z * list Z) := f ← fd_rd fd; file_read f size.
Definition sys_write (fd : Z) (buf : list Z) : M V Z := f ← fd_rd fd; file_write f buf.

(** The bits of a mode argument; those of the field __ are not set. *)
Definition mode_of (m type : Z) : FileMode := mkMode (Z.land m 1) (Z.land (Z.shiftr m 1) 1) 0 type.
Definition sys_creat (path : cstr) (m : Z) : M V Z := create path (mode_of m FT_regular).
Definition sys_mkdir (path : cstr) (m : Z) : M V Z := create path (mode_of m FT_dir).
Definition sys_mknod (path : cstr) (m : Z) : M V Z := create path (mode_of m FT_chrdev).
Definition sys_unlink (path : cstr) : M V Z := unlink path FT_regular.
Definition sys_rmdir (path : cstr) : M V Z := unlink path FT_dir.
Definition sys_stat (path : cstr) : M V (Z * option stat) := file_stat path.
Definition sys_lstat (path : cstr) : M V (Z * option stat) := file_stat path.
Definition sys_fstat (fd : Z) : M V (Z * option stat) := file_stat_fd fd.
Definition sys_lseek (fd offset whence : Z) : M V Z := file_lseek fd offset whence.

Definition sys_chdir (path : cstr) : M V Z :=
  '(r, d) ← dirent_find cur path (u32 (-1));
  if r <? 0 then mret r else curr_wr_fs (set_pwd d) ;; mret 0.

(** [buf]: the user's buffer, as long as size says; the buffer afterwards. *)
Definition sys_getcwd (buf : list Z) : M V (Z * list Z) :=
  t ← curr_fs cur;
  '(_, buf) ← dirent_topath (fs_pwd t) buf;
  mret (0, buf).

(** [dd_fd]: dirp->dd_fd. The entry stored to the user. *)
Definition sys_readdir (dd_fd : Z) : M V (Z * option (Z * cstr)) :=
  if (dd_fd =? -1) || (TASK_MAX_FILE_NR <? dd_fd) then mret (-1, None) else
  if dd_fd <? 0 then stop BadAccess else
  f ← fd_rd dd_fd;
  x ← fl_rd f;
  match f_fo x with
  | denemefs_dir_op =>
      i ← ino_rd (f_inode x);
      '(r, pos, ent) ← in_dfs (denemefs_readdir i (f_pos x));
      fl_put f (set_f_pos pos x) ;; mret (r, ent)
  | _ => mret (-2, None)
  end.
End current.

(** ** init_fs *)

(** denemefs_read_super for the superblock at [sb] with dev and fs_type 123. *)
Definition denemefs_read_super (sb : Z) : M V Z :=
  d ← dirent_alloc;
  dr_wr d (set_d_mounted 1) ;;
  dr_wr d (set_d_name []) ;;
  p ← inode_alloc;
  dr_wr d (set_d_inode p) ;;
  r ← in_dfs (di_rd 0);
  ino_wr p (fun i => mkInode 0 (ref_count i) (Some denemefs_dir_inode_op) (mode i) (dev i) sb (d_size r)
                       (lock_val i) (wait_list i)) ;;
  mret d.

(** The root directory. [sb]: the address of superblocks[0]. *)
Definition init_fs (initrd_start : Z) (initrd : list Z) (junk : subdentry) (sb : Z) : M V Z :=
  in_dfs (denemefs_init initrd_start initrd junk) ;;
  init_devices ;;
  denemefs_read_super sb.
End files.
