(* ===== verification/VfsProps.v ===== *)
(** Properties of the virtual file system: reading in pieces, and the reference that
    the calls making and removing entries take away from the working directory when their
    path is relative. *)

From S2P Require Import Prelude Spinlock ListSpec Util Fs DenemeFs DenemeSpec DenemeProps DenemeRefine Vfs VfsFile.

Local Ltac go H := rewrite (bind_done _ _ _ _ _ H).

(** * Runs up to the state of the processor *)

Section cpu.
Context {H : Type} `{!HasCpu H} `{!Alloc H}.
Notation V := (vfs H).
Implicit Types s : V.

(** [s'] is [s] but for an equivalent processor. *)
Definition veq s s' : Prop := exists c, s' = set_cpu c s /\ cpu_equiv c (cpu_of s).

Lemma veq_refl s : veq s s.
Proof. exists (cpu_of s). split; [by rewrite set_cpu_of|done]. Qed.

Lemma veq_trans s1 s2 s3 : veq s1 s2 -> veq s2 s3 -> veq s1 s3.
Proof.
  intros (c & -> & Hc) (c' & -> & Hc'). exists c'. split; [apply set_cpu_set|].
  rewrite cpu_of_set in Hc'. by etrans.
Qed.

Lemma veq_cpu s s' : veq s s' -> cpu_equiv (cpu_of s') (cpu_of s).
Proof. intros (c & -> & Hc). by rewrite cpu_of_set. Qed.

Lemma veq_fields s s' : veq s s' ->
  v_inodes s' = v_inodes s /\ v_dirents s' = v_dirents s /\ v_childs s' = v_childs s /\ v_files s' = v_files s /\
  v_tasks s' = v_tasks s /\ v_task0_root s' = v_task0_root s /\ fs_di (v_fs s') = fs_di (v_fs s) /\
  fs_data (v_fs s') = fs_data (v_fs s).
Proof. by intros (c & -> & _). Qed.

Lemma ino_rd_run p i s : v_inodes s !! p = Some i -> ino_rd p s = Done i s.
Proof. intros E. unfold ino_rd. m_unfold. by rewrite E. Qed.

Lemma ino_wr_run p i f s : v_inodes s !! p = Some i ->
  ino_wr p f s = Done tt (set_v_inodes (<[p := f i]> (v_inodes s)) s).
Proof. intros E. unfold ino_wr. by go (ino_rd_run p i s E). Qed.

Lemma dr_rd_run d e s : v_dirents s !! d = Some e -> dr_rd d s = Done e s.
Proof. intros E. unfold dr_rd. m_unfold. by rewrite E. Qed.

Lemma dr_wr_run d e f s : v_dirents s !! d = Some e ->
  dr_wr d f s = Done tt (set_v_dirents (<[d := f e]> (v_dirents s)) s).
Proof. intros E. unfold dr_wr. by go (dr_rd_run d e s E). Qed.

Definition upd_ino (p : Z) (i : inode) s : V := set_v_inodes (<[p := i]> (v_inodes s)) s.
Definition upd_dr (d : Z) (e : dirent) s : V := set_v_dirents (<[d := e]> (v_dirents s)) s.

(** An unlocked inode without waiters. *)
Definition ino_free (i : inode) : Prop := lock_val i = 1 /\ wait_list i = [].

Lemma inode_lock_run p i s : v_inodes s !! p = Some i -> lock_val i = 1 -> cpu_ok (cpu_of s) ->
  exists s', inode_lock p s = Done tt s' /\ veq (upd_ino p (set_lock_val 0 i) s) s'.
Proof.
  intros Hi Hl Hok. unfold inode_lock. go (pushcli_done s). set (s1 := set_cpu _ s).
  assert (Hi1 : v_inodes s1 !! p = Some i) by done. go (ino_rd_run p i s1 Hi1). rewrite Hl. change (0 <? 1) with true. cbv iota.
  go (ino_wr_run p i (set_lock_val (1 - 1)) s1 Hi1). set (s2 := set_v_inodes _ s1).
  assert (Hi2 : v_inodes s2 !! p = Some (set_lock_val 0 i)) by (cbn; by rewrite lookup_insert_eq).
  go (ino_rd_run p _ s2 Hi2). cbn [lock_val set_lock_val Z.eqb ASSERT]. erewrite bind_done by reflexivity.
  destruct (popcli_run s s2 Hok) as (c' & Hp & Hc'); [by rewrite <- (cpu_of_set (do_pushcli (cpu_of s)) s)|].
  rewrite Hp. eexists. split; [reflexivity|]. exists c'. split; [|done].
  unfold s2, upd_ino. change (set_lock_val (1 - 1) i) with (set_lock_val 0 i).
  change (set_cpu c' (set_v_inodes (<[p:=set_lock_val 0 i]> (v_inodes s1)) s1))
    with (set_v_inodes (<[p:=set_lock_val 0 i]> (v_inodes s)) (set_cpu c' s1)).
  unfold s1. by rewrite set_cpu_set.
Qed.

Lemma inode_unlock_run p i s : v_inodes s !! p = Some i -> lock_val i = 0 -> wait_list i = [] -> cpu_ok (cpu_of s) ->
  exists s', inode_unlock p s = Done tt s' /\ veq (upd_ino p (set_lock_val 1 i) s) s'.
Proof.
  intros Hi Hl Hw Hok. unfold inode_unlock. go (pushcli_done s). set (s1 := set_cpu _ s).
  assert (Hi1 : v_inodes s1 !! p = Some i) by done. go (ino_rd_run p i s1 Hi1). rewrite Hl.
  cbn [Z.eqb ASSERT]. erewrite bind_done by reflexivity. rewrite Hw.
  go (ino_wr_run p i (set_lock_val (0 + 1)) s1 Hi1). set (s2 := set_v_inodes _ s1).
  destruct (popcli_run s s2 Hok) as (c' & Hp & Hc'); [by rewrite <- (cpu_of_set (do_pushcli (cpu_of s)) s)|].
  rewrite Hp. eexists. split; [reflexivity|]. exists c'. split; [|done].
  unfold s2, upd_ino. change (set_lock_val (0 + 1) i) with (set_lock_val 1 i).
  change (set_cpu c' (set_v_inodes (<[p:=set_lock_val 1 i]> (v_inodes s1)) s1))
    with (set_v_inodes (<[p:=set_lock_val 1 i]> (v_inodes s)) (set_cpu c' s1)).
  unfold s1. by rewrite set_cpu_set.
Qed.

Lemma veq_upd_ino p i s s' : veq s s' -> veq (upd_ino p i s) (upd_ino p i s').
Proof. intros (c & -> & Hc). by exists c. Qed.
Lemma veq_upd_dr d e s s' : veq s s' -> veq (upd_dr d e s) (upd_dr d e s').
Proof. intros (c & -> & Hc). by exists c. Qed.
Lemma upd_ino_twice p i i' s : upd_ino p i' (upd_ino p i s) = upd_ino p i' s.
Proof. destruct s. unfold upd_ino, set_v_inodes; cbn. by rewrite insert_insert_eq. Qed.
Lemma upd_dr_twice d e e' s : upd_dr d e' (upd_dr d e s) = upd_dr d e' s.
Proof. destruct s. unfold upd_dr, set_v_dirents; cbn. by rewrite insert_insert_eq. Qed.
Lemma upd_ino_lookup p i s : v_inodes (upd_ino p i s) !! p = Some i.
Proof. cbn. apply lookup_insert_eq. Qed.
Lemma upd_dr_lookup d e s : v_dirents (upd_dr d e s) !! d = Some e.
Proof. cbn. apply lookup_insert_eq. Qed.

Lemma veq_ok s s' : veq s s' -> cpu_ok (cpu_of s) -> cpu_ok (cpu_of s').
Proof. intros Hv Hok. by rewrite (veq_cpu s s' Hv). Qed.

Lemma inode_dup_run p i s : p <> NULL -> v_inodes s !! p = Some i -> ino_free i -> cpu_ok (cpu_of s) ->
  exists s', inode_dup p s = Done p s' /\ veq (upd_ino p (set_ref_count (i32 (ref_count i + 1)) i) s) s'.
Proof.
  intros Hp Hi [Hl Hw] Hok. unfold inode_dup. rewrite (proj2 (Z.eqb_neq p NULL)) by done.
  destruct (inode_lock_run p i s Hi Hl Hok) as (s1 & H1 & V1). go H1.
  destruct (veq_fields _ _ V1) as (F1 & _).
  assert (Hi1 : v_inodes s1 !! p = Some (set_lock_val 0 i)) by (by rewrite F1, upd_ino_lookup).
  go (ino_wr_run p _ (fun i => set_ref_count (i32 (ref_count i + 1)) i) s1 Hi1).
  set (i2 := set_ref_count (i32 (ref_count i + 1)) (set_lock_val 0 i)).
  change (set_v_inodes _ s1) with (upd_ino p i2 s1).
  destruct (inode_unlock_run p i2 (upd_ino p i2 s1) (upd_ino_lookup _ _ _) eq_refl Hw) as (s2 & H2 & V2).
  { by apply (veq_ok _ _ V1). }
  go H2. exists s2. split; [done|]. eapply veq_trans; [|exact V2]. rewrite upd_ino_twice.
  eapply (veq_upd_ino p (set_lock_val 1 i2)) in V1. rewrite upd_ino_twice in V1.
  assert (Ei : set_lock_val 1 i2 = set_ref_count (i32 (ref_count i + 1)) i) by (destruct i; cbn in *; by subst).
  by rewrite Ei in *.
Qed.

Lemma dirent_free_run d e s : v_dirents s !! d = Some e -> 0 < d_refs e < 2 ^ 31 -> cpu_ok (cpu_of s) ->
  exists s', dirent_free d s = Done tt s' /\ veq (upd_dr d (set_d_refs (d_refs e - 1) e) s) s'.
Proof.
  intros Hd Hr Hok. unfold dirent_free. go (pushcli_done s). set (s1 := set_cpu _ s).
  assert (Hd1 : v_dirents s1 !! d = Some e) by done.
  go (dr_wr_run d e (fun e => set_d_refs (i32 (d_refs e - 1)) e) s1 Hd1). rewrite i32_small by lia.
  set (e' := set_d_refs (d_refs e - 1) e). change (set_v_dirents _ s1) with (upd_dr d e' s1).
  go (dr_rd_run d e' _ (upd_dr_lookup d e' s1)). change (d_refs e') with (d_refs e - 1).
  destruct (Z.ltb_spec (d_refs e - 1) 0); [lia|]. cbn [when]. erewrite bind_done by reflexivity.
  destruct (popcli_run s (upd_dr d e' s1) Hok) as (c' & Hp & Hc'); [by rewrite <- (cpu_of_set (do_pushcli (cpu_of s)) s)|].
  rewrite Hp. eexists. split; [reflexivity|]. exists c'. split; [|done].
  change (set_cpu c' (upd_dr d e' s1)) with (upd_dr d e' (set_cpu c' s1)). unfold s1. by rewrite set_cpu_set.
Qed.

(** The last reference is not there any more. *)
Lemma dirent_free_zero d e s : v_dirents s !! d = Some e -> d_refs e = 0 -> dirent_free d s = Stop AssertFailed.
Proof.
  intros Hd Hr. unfold dirent_free. go (pushcli_done s). set (s1 := set_cpu _ s).
  assert (Hd1 : v_dirents s1 !! d = Some e) by done.
  go (dr_wr_run d e (fun e => set_d_refs (i32 (d_refs e - 1)) e) s1 Hd1). rewrite Hr.
  set (e' := set_d_refs (i32 (0 - 1)) e). change (set_v_dirents _ s1) with (upd_dr d e' s1).
  go (dr_rd_run d e' _ (upd_dr_lookup d e' s1)). change (d_refs e' <? 0) with true. cbn [when].
  apply bind_stop. unfold __dirent_free. go (dr_rd_run d e' _ (upd_dr_lookup d e' s1)). done.
Qed.
End cpu.

(** * Reading in pieces *)

Section reading.
Context {H : Type} `{!HasCpu H} `{AS : AllocSpec H} (cur : Z).
Notation V := (vfs H).
Implicit Types s : V.

Lemma aread_split pos n m bs : 0 <= n -> 0 <= m -> 0 <= pos < 2 ^ 31 -> Z.of_nat (length bs) < 2 ^ 31 ->
  aread pos (n + m) bs = aread pos n bs ++ aread (pos + Z.of_nat (length (aread pos n bs))) m bs.
Proof.
  intros Hn Hm Hp Hl. unfold aread. rewrite u32_small by lia. rewrite length_take, length_drop.
  rewrite u32_small by lia. rewrite Z2Nat.inj_add by lia. rewrite <- take_take_drop. f_equal.
  destruct (decide (Z.to_nat n <= length bs - Z.to_nat pos)%nat) as [Hle|Hgt].
  - rewrite Nat.min_l by done. rewrite drop_drop. f_equal. f_equal. lia.
  - rewrite Nat.min_r by lia. rewrite (drop_ge (drop _ bs)) by (rewrite length_drop; lia).
    rewrite (drop_ge bs) by lia. by rewrite !take_nil.
Qed.

(** An open regular file. *)
Definition open_file s (f : Z) (x : file) (rw : Z * Z) (bs : list Z) (d : Deneme_inode) : Prop :=
  exists i, v_files s !! f = Some x /\ f_fo x = denemefs_file_op /\ v_inodes s !! f_inode x = Some i /\
    file_at (v_fs s) (ino i) rw bs d.
Definition reads_from (a : afs) s (f : Z) (x : file) (bs : list Z) : Prop :=
  exists i rw, v_files s !! f = Some x /\ f_fo x = denemefs_file_op /\ v_inodes s !! f_inode x = Some i /\
    a !! ino i = Some (AFile rw bs).

Lemma reads_open a s f x bs : repr a (v_fs s) -> reads_from a s f x bs -> exists rw d, open_file s f x rw bs d.
Proof.
  intros (_ & C & _) (i & rw & Hf & Hfo & Hi & Ha). destruct (core_file _ _ _ _ _ C Ha) as [d Hd].
  by exists rw, d, i.
Qed.

Lemma file_read_at s f x rw bs d size : open_file s f x rw bs d -> Z.land (f_flags x) 1 = 1 ->
  0 <= f_pos x < 2 ^ 31 - Z.of_nat (length bs) ->
  let out := aread (f_pos x) size bs in
  file_read f size s = Done (Z.of_nat (length out), out)
    (set_v_files (<[f := set_f_pos (f_pos x + Z.of_nat (length out)) x]> (v_files s)) s).
Proof.
  intros (i & Hf & Hfo & Hi & Ha) Hfl Hp out. unfold file_read.
  assert (Hrd : fl_rd f s = Done x s) by (unfold fl_rd; m_unfold; by rewrite Hf). go Hrd. rewrite Hfl.
  cbn [Z.eqb negb Pos.eqb]. assert (Hfr : fo_read x size s = Done (Z.of_nat (length out), out) s).
  { unfold fo_read. rewrite Hfo. go (ino_rd_run (f_inode x) i s Hi). unfold in_dfs, zoom.
    rewrite (read_at (v_fs s) i (f_pos x) size rw bs d Ha). destruct s; done. }
  assert (Hlen : Z.of_nat (length out) <= Z.of_nat (length bs)).
  { unfold out, aread. rewrite length_take, length_drop. lia. }
  go Hfr. rewrite i32_small by lia. destruct (Z.ltb_spec (Z.of_nat (length out)) 0); [lia|].
  rewrite i32_small by lia. done.
Qed.

Lemma file_write_at s f x rw bs d buf : open_file s f x rw bs d -> Z.land (f_flags x) 2 = 2 ->
  0 <= f_pos x < 2 ^ 31 - Z.of_nat (length bs) ->
  let n := Z.of_nat (length (take (length bs - Z.to_nat (f_pos x)) buf)) in
  file_write f buf s = Done n
    (set_v_files (<[f := set_f_pos (f_pos x + n) x]> (v_files s))
       (set_v_fs (put_bytes (d_data d) (awrite (f_pos x) buf bs) (v_fs s)) s)).
Proof.
  intros (i & Hf & Hfo & Hi & Ha) Hfl Hp n. unfold file_write.
  assert (Hrd : fl_rd f s = Done x s) by (unfold fl_rd; m_unfold; by rewrite Hf). go Hrd. rewrite Hfl.
  cbn [Z.eqb negb Pos.eqb]. set (s1 := set_v_fs _ s).
  assert (Hfr : fo_write x buf s = Done n s1).
  { unfold fo_write. rewrite Hfo. go (ino_rd_run (f_inode x) i s Hi). unfold in_dfs, zoom.
    rewrite (write_at (v_fs s) i (f_pos x) buf rw bs d Ha). rewrite u32_small by lia. done. }
  assert (Hlen : 0 <= n <= Z.of_nat (length bs)) by (unfold n; rewrite length_take; lia).
  go Hfr. rewrite i32_small by lia. destruct (Z.ltb_spec n 0); [lia|]. rewrite i32_small by lia. done.
Qed.

Lemma file_read_run a s f x bs size : repr a (v_fs s) -> reads_from a s f x bs -> Z.land (f_flags x) 1 = 1 ->
  0 <= f_pos x < 2 ^ 31 - Z.of_nat (length bs) ->
  let out := aread (f_pos x) size bs in
  file_read f size s = Done (Z.of_nat (length out), out)
    (set_v_files (<[f := set_f_pos (f_pos x + Z.of_nat (length out)) x]> (v_files s)) s).
Proof. intros R Hr. destruct (reads_open a s f x bs R Hr) as (rw & d & Ho). by eapply file_read_at. Qed.

(** Reading in pieces: two reads of an open file return together the bytes one
    read of the sum of the sizes returns, and leave the same state. *)
Theorem chunked_read a s f x bs n m :
  repr a (v_fs s) -> reads_from a s f x bs -> Z.land (f_flags x) 1 = 1 ->
  0 <= n -> 0 <= m -> 0 <= f_pos x -> f_pos x + 2 * Z.of_nat (length bs) < 2 ^ 31 ->
  exists b1 b2 s', file_read f (n + m) s = Done (Z.of_nat (length (b1 ++ b2)), b1 ++ b2) s' /\
    ('(r1, o1) ← file_read f n; '(r2, o2) ← file_read f m; mret (r1, o1, (r2, o2))) s =
      Done (Z.of_nat (length b1), b1, (Z.of_nat (length b2), b2)) s'.
Proof.
  intros R Hrf Hfl Hn Hm Hp Hb. set (b1 := aread (f_pos x) n bs).
  assert (Hlen : Z.of_nat (length b1) <= Z.of_nat (length bs)).
  { unfold b1, aread. rewrite length_take, length_drop. lia. }
  set (x1 := set_f_pos (f_pos x + Z.of_nat (length b1)) x). set (b2 := aread (f_pos x1) m bs).
  pose proof (file_read_run a s f x bs (n + m) R Hrf Hfl ltac:(lia)) as Hall. cbv zeta in Hall.
  rewrite aread_split in Hall by lia. fold b1 in Hall. change (f_pos x + Z.of_nat (length b1)) with (f_pos x1) in Hall.
  fold b2 in Hall. exists b1, b2. eexists. split; [exact Hall|].
  go (file_read_run a s f x bs n R Hrf Hfl ltac:(lia)). fold b1 x1. set (s1 := set_v_files _ s).
  assert (Hrf1 : reads_from a s1 f x1 bs).
  { destruct Hrf as (i & rw & Hf & Hfo & Hi & Ha). exists i, rw. split_and!; try done. cbn. apply lookup_insert_eq. }
  go (file_read_run a s1 f x1 bs m R Hrf1 Hfl ltac:(cbn; lia)). fold b2. unfold s1, set_v_files; cbn.
  rewrite insert_insert_eq, length_app, Nat2Z.inj_add, Z.add_assoc. done.
Qed.

(** ** Calls that make or remove an entry of a directory *)

(** The cached entries and the tasks. *)
Definition paths_of s : gmap Z dirent * gmap Z Task_FS := (v_dirents s, v_tasks s).
Notation keeps := (keeps_proj paths_of).
Lemma paths_inj s s' : paths_of s' = paths_of s -> v_dirents s' = v_dirents s /\ v_tasks s' = v_tasks s.
Proof. unfold paths_of. by intros [= -> ->]. Qed.

Lemma keeps_paths_dfs {A} (m : M (dfs H) A) : keeps (in_dfs m).
Proof. intros s. unfold in_dfs, zoom. by destruct (m (v_fs s)). Qed.
Lemma keeps_paths_pushcli : keeps pushcli.
Proof. done. Qed.
Lemma keeps_paths_popcli : keeps popcli.
Proof. intros s. unfold popcli. m_unfold. by destruct (do_popcli _). Qed.
Lemma keeps_paths_ino_rd p : keeps (ino_rd p).
Proof. apply keeps_get. intros s. by destruct (v_inodes s !! p). Qed.
#[local] Hint Resolve keeps_paths_dfs keeps_paths_pushcli keeps_paths_popcli keeps_paths_ino_rd : keeps.
Lemma keeps_paths_ino_wr p f : keeps (ino_wr p f).
Proof. unfold ino_wr, ino_put. keeps_go. Qed.
Lemma keeps_paths_woken t : keeps (modify (fun s => set_v_woken (v_woken s ++ [t]) s)).
Proof. by apply keeps_modify. Qed.
#[local] Hint Resolve keeps_paths_ino_wr keeps_paths_woken : keeps.
Lemma keeps_paths_lock p : keeps (inode_lock p).
Proof. unfold inode_lock. keeps_go. Qed.
Lemma keeps_paths_unlock p : keeps (inode_unlock p).
Proof. unfold inode_unlock. keeps_go. Qed.
Lemma keeps_paths_permission p flags : keeps (inode_permission p flags).
Proof. unfold inode_permission, op_permission. keeps_go. Qed.
Lemma keeps_paths_op {A} i (m : M (dfs H) A) : keeps (op_dir i m).
Proof. unfold op_dir. keeps_go. Qed.
#[local] Hint Resolve keeps_paths_lock keeps_paths_unlock keeps_paths_permission keeps_paths_op : keeps.

(** inode_find2 with a path without a slash: the inode is the working directory's,
    which gets a reference more, and its entry has one less. *)
Lemma inode_find2_relative s t e i name :
  v_tasks s !! cur = Some t -> v_dirents s !! fs_pwd t = Some e -> d_inode e <> NULL ->
  v_inodes s !! d_inode e = Some i -> ino_free i -> cpu_ok (cpu_of s) ->
  strrchr name SLASH = None -> 0 <= d_refs e < 2 ^ 31 ->
  if d_refs e =? 0 then inode_find2 cur name s = Stop AssertFailed
  else exists s', inode_find2 cur name s = Done (0, d_inode e, name) s' /\
    v_dirents s' = <[fs_pwd t := set_d_refs (d_refs e - 1) e]> (v_dirents s) /\ v_tasks s' = v_tasks s /\
    v_inodes s' !! d_inode e = Some (set_ref_count (i32 (ref_count i + 1)) i) /\ fs_di (v_fs s') = fs_di (v_fs s).
Proof.
  intros Ht Hd Hn Hi Hfree Hok Hname Hr. unfold inode_find2, dirent_find2. rewrite Hname.
  assert (Hc : curr_fs cur s = Done t s) by (unfold curr_fs; m_unfold; by rewrite Ht).
  assert (H2 : (t ← curr_fs cur; mret (0, fs_pwd t, name)) s = Done (0, fs_pwd t, name) s) by (by go Hc).
  destruct (inode_dup_run (d_inode e) i s Hn Hi Hfree Hok) as (s1 & H1 & V1).
  destruct (veq_fields _ _ V1) as (Fi & Fd & _ & _ & Ft & _ & Fdi & _).
  assert (Hd1 : v_dirents s1 !! fs_pwd t = Some e) by (by rewrite Fd).
  pose proof (veq_ok _ _ V1 Hok) as Hok1. destruct (Z.eqb_spec (d_refs e) 0) as [Hz|Hz].
  - go H2. cbn [Z.ltb Z.compare]. go (dr_rd_run _ _ _ Hd). go H1. apply bind_stop. by eapply dirent_free_zero.
  - destruct (dirent_free_run (fs_pwd t) e s1 Hd1 ltac:(lia) Hok1) as (s2 & H3 & V2). exists s2.
    destruct (veq_fields _ _ V2) as (Gi & Gd & _ & _ & Gt & _ & Gdi & _). split_and!.
    + go H2. cbn [Z.ltb Z.compare]. go (dr_rd_run _ _ _ Hd). go H1. go H3. by rewrite (proj2 (Z.eqb_neq _ NULL)) by done.
    + rewrite Gd. cbn. by rewrite Fd.
    + rewrite Gt. cbn. by rewrite Ft.
    + rewrite Gi. cbn. rewrite Fi. apply upd_ino_lookup.
    + rewrite Gdi. cbn. by rewrite Fdi.
Qed.

(** The calls of sys_fs.cpp that go through inode_find2. *)
Definition making_calls (name : cstr) (m : Z) : list (M V Z) := [sys_creat cur name m; sys_mkdir cur name m; sys_mknod cur name m].
Definition removing_calls (name : cstr) : list (M V Z) := [sys_unlink cur name; sys_rmdir cur name].

Lemma create_after name m s s1 p r s' : inode_find2 cur name s = Done (0, p, name) s1 -> create cur name m s = Done r s' ->
  paths_of s' = paths_of s1.
Proof.
  intros H1. unfold create. go H1. cbv iota. change (0 <? 0) with false. cbv iota.
  match goal with |- ?g s1 = _ -> _ => assert (K : keeps g) by keeps_go end. by apply keeps_done.
Qed.

Lemma unlink_after name type s s1 p r s' : inode_find2 cur name s = Done (0, p, name) s1 -> unlink cur name type s = Done r s' -> r < 0 ->
  paths_of s' = paths_of s1.
Proof.
  intros H1 E Hr. unfold unlink in E. rewrite (bind_done _ _ _ _ _ H1) in E. cbv iota in E. change (0 <? 0) with false in E. cbv iota in E.
  apply bind_inv in E as (u & s2 & E2 & E). apply bind_inv in E as (ok & s3 & E3 & E).
  apply bind_inv in E as (r4 & s4 & E4 & E). apply bind_inv in E as (u' & s5 & E5 & E). injection E as -> <-.
  rewrite (keeps_done paths_of _ _ _ _ (keeps_paths_unlock p) E5), <- (keeps_done paths_of _ _ _ _ (keeps_paths_lock p) E2),
    <- (keeps_done paths_of _ _ _ _ (keeps_paths_permission p 3) E3). destruct (ok =? 0); [by injection E4 as _ <-|].
  apply bind_inv in E4 as (i & s6 & E6 & E4). apply bind_inv in E4 as (r7 & s7 & E7 & E4).
  rewrite <- (keeps_done paths_of _ _ _ _ (keeps_paths_ino_rd p) E6).
  assert (K : paths_of s7 = paths_of s6).
  { revert E7. match goal with |- ?g s6 = _ -> _ => assert (K : keeps g) by keeps_go end. by apply keeps_done. }
  rewrite <- K. destruct (r7 <? 0); [by injection E4 as _ <-|].
  apply bind_inv in E4 as (u8 & s8 & _ & E4). injection E4 as <- <-. lia.
Qed.

(** C22. creat, mkdir, mknod, unlink and rmdir with a path without a slash take a
    reference of the working directory's cached entry away that they never took
    (open, stat, chdir and execve, which resolve the path from the entry on, take one
    and give it back). Without a reference left each of these calls stops the kernel;
    otherwise every creat, mkdir and mknod that returns, whatever it answers, and every
    unlink and rmdir that fails leave the count one lower and change no other entry.
    mknod does return, with -2 or -4: [d_refs] calls of it and one more stop the kernel. *)
Theorem relative_path_drops_reference s t e i name m :
  v_tasks s !! cur = Some t -> v_dirents s !! fs_pwd t = Some e -> d_inode e <> NULL ->
  v_inodes s !! d_inode e = Some i -> ino_free i -> cpu_ok (cpu_of s) ->
  strrchr name SLASH = None -> 0 <= d_refs e < 2 ^ 31 ->
  let dropped s' := v_dirents s' = <[fs_pwd t := set_d_refs (d_refs e - 1) e]> (v_dirents s) /\ v_tasks s' = v_tasks s in
  if d_refs e =? 0
  then Forall (fun call => call s = Stop AssertFailed) (making_calls name m ++ removing_calls name)
  else Forall (fun call => forall r s', call s = Done r s' -> dropped s') (making_calls name m) /\
    Forall (fun call => forall r s', call s = Done r s' -> r < 0 -> dropped s') (removing_calls name) /\
    (op i = Some denemefs_dir_inode_op -> is_Some (fs_di (v_fs s) !! Z.to_nat (ino i)) ->
     exists r s', sys_mknod cur name m s = Done r s' /\ (r = -2 \/ r = -4)).
Proof.
  intros Ht Hd Hn Hi Hfree Hok Hname Hr dropped.
  pose proof (inode_find2_relative s t e i name Ht Hd Hn Hi Hfree Hok Hname Hr) as F. destruct (d_refs e =? 0).
  { repeat constructor; by apply bind_stop. }
  destruct F as (s1 & F & Fd & Ft & Fi & Fdi). unfold dropped. rewrite <- Fd, <- Ft. split_and!.
  - repeat (apply Forall_cons_2; [intros r s' E; by eapply paths_inj, create_after|]). apply Forall_nil_2.
  - repeat (apply Forall_cons_2; [intros r s' E Hneg; by eapply paths_inj, unlink_after|]). apply Forall_nil_2.
  - intros Hop [d Hdi]. unfold sys_mknod, create. go F. change (0 <? 0) with false. cbv iota.
    assert (Hp : exists ok, inode_permission (d_inode e) 3 s1 = Done ok s1).
    { unfold inode_permission. go (ino_rd_run _ _ _ Fi). cbn [op set_ref_count]. rewrite Hop. cbn [deref].
      erewrite bind_done by reflexivity. assert (Ho : exists v, op_permission denemefs_dir_inode_op (set_ref_count (i32 (ref_count i + 1)) i) 3 s1 = Done v s1).
      { unfold op_permission, in_dfs, zoom, denemefs_permission. rewrite (bind_done _ _ _ _ _ (di_rd_run (ino i) d (v_fs s1) ltac:(by rewrite Fdi))).
        destruct (negb _); [|destruct (_ =? 1)]; destruct s1; by eexists. }
      destruct Ho as [v Ho]. go Ho. destruct (negb _); [|destruct (_ =? 3)]; by eexists. }
    destruct Hp as [ok Hp]. go Hp. destruct (ok =? 0); [by exists (-2), s1; auto|]. go (ino_rd_run _ _ _ Fi).
    exists (-4), s1. auto.
Qed.
End reading.

(** * The properties at a small heap *)

(** An allocator that never reuses an address, and a processor. *)
Record bump := mkBump { next : Z; bump_cpu : Cpu }.
#[export] Instance HasCpu_bump : HasCpu bump.
Proof. refine {| cpu_of := bump_cpu; set_cpu c b := mkBump (next b) c |}; [done|by intros []|done]. Defined.
#[export] Instance Alloc_bump_cpu : Alloc bump := {|
  al_malloc size := fun b => Done (next b) (mkBump (next b + 2048) (bump_cpu b));
  al_free _ := fun b => Done tt b |}.
#[export] Instance AllocSpec_bump_cpu : AllocSpec bump.
Proof.
  refine {| al_ok := fun L b => al_ok L (next b) |}.
  - intros L b size Hok Hsz. destruct (al_malloc_run L (next b) size Hok Hsz) as [(h & [= E _])|(p & h & [= <- <-] & Hp & HL & Hok')].
    + left. exists (mkBump (next b + 2048) (bump_cpu b)). cbn. by rewrite E.
    + right. by exists (next b), (mkBump (next b + 2048) (bump_cpu b)).
  - intros L b p Hok Hp. exists b. split; [done|]. by destruct (al_free_run L (next b) p Hok Hp) as (h & [= <-] & Hok').
Defined.

Lemma bump_cpu_supplies n b : 0 < next b -> supplies n b.
Proof.
  revert b. induction n as [|n IH]; intros b Hb; [done|]. intros size p h' _ [= <- <-].
  split; [unfold NULL; lia|]. apply IH. cbn. lia.
Qed.

Definition demo_dfs0 : dfs bump := mkDfs [] ∅ (mkBump 0x10000000 (mkCpu true 0 false)).
Definition demo_dfs : dfs bump := match denemefs_init 0 [] demo_junk demo_dfs0 with Done _ s => s | Stop _ => demo_dfs0 end.

Lemma demo_dfs_repr : repr boot_tree demo_dfs.
Proof.
  assert (Hok : al_ok (∅ : gset Z) (fs_heap demo_dfs0)) by (split; [done|set_solver]).
  destruct (boot_run demo_junk demo_dfs0 ∅ [] Hok eq_refl eq_refl (bump_cpu_supplies 6 (fs_heap demo_dfs0) eq_refl)) as (s & Hr & R).
  unfold demo_dfs. by rewrite Hr.
Qed.

(** /dosya2 is open at 0x20; the working directory is the entry 0x40 of the root. *)
Definition demo_inode (no : Z) : inode := set_lock_val 1 (set_ref_count 1 (inode_at no)).
Definition demo_root : inode :=
  let i := demo_inode 0 in mkInode 0 1 (Some denemefs_dir_inode_op) (mode i) (dev i) (superblock i) (isize i) 1 [].
Definition demo_vfs : vfs bump :=
  mkVfs demo_dfs {[ 0x10 := demo_inode 3; 0x30 := demo_root ]} {[ 0x40 := mkDirent 0 1 0x30 [] NULL 1 ]} (mkLstore ∅ ∅)
    {[ 0x20 := mkFile denemefs_file_op 0x10 0 1 ]} {[ 1 := mkTaskFs 0x40 0x40 (replicate 32 NULL) ]} 0x40 [] [] [].

Lemma chunked_read_witness :
  exists b1 b2 s', file_read 0x20 (2 + 3) demo_vfs = Done (Z.of_nat (length (b1 ++ b2)), b1 ++ b2) s' /\
    ('(r1, o1) ← file_read 0x20 2; '(r2, o2) ← file_read 0x20 3; mret (r1, o1, (r2, o2))) demo_vfs =
      Done (Z.of_nat (length b1), b1, (Z.of_nat (length b2), b2)) s'.
Proof.
  apply (chunked_read boot_tree demo_vfs 0x20 (mkFile denemefs_file_op 0x10 0 1) (text str_data2) 2 3 demo_dfs_repr).
  - exists (demo_inode 3), (1, 1). split_and!; reflexivity.
  - reflexivity.
  - lia.
  - lia.
  - cbn. lia.
  - vm_compute. reflexivity.
Defined.

(** The first two calls on a directory entry with one reference. *)
Lemma relative_path_drops_reference_witness :
  (exists s', sys_creat 1 [120] 3 demo_vfs = Done (-2) s' /\
     v_dirents s' = <[0x40 := mkDirent 0 0 0x30 [] NULL 1]> (v_dirents demo_vfs)) /\
  (let none := set_v_dirents {[ 0x40 := mkDirent 0 0 0x30 [] NULL 1 ]} demo_vfs in sys_unlink 1 [120] none = Stop AssertFailed).
Proof.
  set (t := mkTaskFs 0x40 0x40 (replicate 32 NULL)). set (e n := mkDirent 0 n 0x30 [] NULL 1).
  assert (Hok : cpu_ok (cpu_of demo_vfs)) by (split; vm_compute; discriminate). split.
  - assert (E : exists s', sys_creat 1 [120] 3 demo_vfs = Done (-2) s') by (eexists; vm_compute; reflexivity).
    destruct E as [s' E]. exists s'. split; [exact E|].
    pose proof (relative_path_drops_reference 1 demo_vfs t (e 1) demo_root [120] 3 eq_refl eq_refl ltac:(discriminate)
      eq_refl ltac:(split; reflexivity) Hok eq_refl ltac:(cbn; lia)) as [P _].
    apply Forall_cons in P as [P _]. exact (proj1 (P _ _ E)).
  - intros none.
    pose proof (relative_path_drops_reference 1 none t (e 0) demo_root [120] 3 eq_refl eq_refl ltac:(discriminate)
      eq_refl ltac:(split; reflexivity) Hok eq_refl ltac:(cbn; lia)) as P.
    cbn [d_refs e Z.eqb] in P. apply Forall_app in P as [_ P]. apply Forall_cons in P as [P _]. exact P.
Defined.

(** ** Whole system calls from the boot on *)

Definition demo_boot : M (vfs bump) Z :=
  root ← init_fs 0 [] demo_junk 0x500; _ ← fs_task_init 1 root; modify (set_v_task0_root root) ;; mret root.
Definition demo_v0 : vfs bump :=
  mkVfs demo_dfs0 ∅ ∅ (mkLstore ∅ ∅) ∅ {[ 1 := mkTaskFs NULL NULL (replicate 32 NULL) ]} NULL [] [] [].
Definition demo_run {A} (m : M (vfs bump) A) : option A :=
  match (demo_boot ;; m) demo_v0 with Done a _ => Some a | Stop _ => None end.

(** The first task makes four files with relative names: the kernel stops. *)
Example relative_creat_stops_kernel :
  demo_run (a ← sys_creat 1 [120] 3; b ← sys_creat 1 [121] 3; c ← sys_creat 1 [122] 3; mret [a; b; c]) = Some [-2; -2; -2] /\
  demo_run (iterM (fun n => _ ← sys_creat 1 [n] 3; mret tt) [120; 121; 122; 123]) = None.
Proof. split; vm_compute; reflexivity. Qed.

(** A descriptor outlives its file: after unlink and creat it reads the new file. *)
Definition str_home_x : cstr := SLASH :: str_home ++ [SLASH; 120].
Definition str_home_y : cstr := SLASH :: str_home ++ [SLASH; 121].
Example unlinked_descriptor_reads_new_file :
  demo_run (_ ← sys_creat 1 str_home_x 3; fd ← sys_open 1 str_home_x 3; _ ← sys_unlink 1 str_home_x;
            _ ← sys_creat 1 str_home_y 3; fd2 ← sys_open 1 str_home_y 3; _ ← sys_write 1 fd2 [1; 2; 3];
            sys_read 1 fd 3) = Some (3, [1; 2; 3]).
Proof. vm_compute. reflexivity. Qed.

(** getcwd: a buffer that fits, and one that is too short. *)
Example getcwd_buffers :
  demo_run (_ ← sys_chdir 1 (SLASH :: str_dir1 ++ SLASH :: str_dir11); sys_getcwd 1 (replicate 12 7)) =
    Some (0, SLASH :: str_dir1 ++ SLASH :: str_dir11 ++ [0]) /\
  demo_run (_ ← sys_chdir 1 (SLASH :: str_dir1 ++ SLASH :: str_dir11); sys_getcwd 1 (replicate 8 7)) = None.
Proof. split; vm_compute; reflexivity. Qed.
