(* ===== verification/Cga.v ===== *)
(** The console's devices: the text screen and the serial ports of
    kernel/console.cpp, with the state of the whole console.

    The devices are behind the ports: [Ports D] gives what in and out do to the
    state [D] of the hardware, a parameter of the model. The screen memory at 0xb8000 is a function from byte offsets. *)

From S2P Require Import Prelude Spinlock.

(** * Definitions *)

(** [p_ready d]: at most so many reads of the ports of a device find it busy or
    give input, in state [d]. It is the fuel of the loops on the ports, no part of
    the machine. *)
Class Ports (D : Type) := {
  p_in : Z -> D -> Z * D;
  p_out : Z -> Z -> D -> D;
  p_ready : D -> nat;
}.

(** struct Console with its lock, the static variables of console.cpp and
    keyboard.cpp, the screen and the processor. *)
Record con (D : Type) := mkCon {
  con_dev : D;
  con_cpu : Cpu;
  cga_memory : Z -> Z;
  con_buff : list Z;
  con_rpos : Z;
  con_wpos : Z;
  console_lock : Z;
  COM1 : Z; COM2 : Z; COM3 : Z; COM4 : Z;
  kb_shift : Z;
  shiftcode : list Z;
  togglecode : list Z;
}.
Arguments mkCon {D}. Arguments con_dev {D}. Arguments con_cpu {D}. Arguments cga_memory {D}.
Arguments con_buff {D}. Arguments con_rpos {D}. Arguments con_wpos {D}. Arguments console_lock {D}.
Arguments COM1 {D}. Arguments COM2 {D}. Arguments COM3 {D}. Arguments COM4 {D}.
Arguments kb_shift {D}. Arguments shiftcode {D}. Arguments togglecode {D}.

Section con_fields.
Context {D : Type}.
Implicit Types c : con D.

Definition set_con_dev (v : D) c : con D :=
  mkCon v (con_cpu c) (cga_memory c) (con_buff c) (con_rpos c) (con_wpos c) (console_lock c)
        (COM1 c) (COM2 c) (COM3 c) (COM4 c) (kb_shift c) (shiftcode c) (togglecode c).
Definition set_con_cpu (v : Cpu) c : con D :=
  mkCon (con_dev c) v (cga_memory c) (con_buff c) (con_rpos c) (con_wpos c) (console_lock c)
        (COM1 c) (COM2 c) (COM3 c) (COM4 c) (kb_shift c) (shiftcode c) (togglecode c).
Definition set_cga_memory (v : Z -> Z) c : con D :=
  mkCon (con_dev c) (con_cpu c) v (con_buff c) (con_rpos c) (con_wpos c) (console_lock c)
        (COM1 c) (COM2 c) (COM3 c) (COM4 c) (kb_shift c) (shiftcode c) (togglecode c).
Definition set_console (b : list Z) (r w : Z) c : con D :=
  mkCon (con_dev c) (con_cpu c) (cga_memory c) b r w (console_lock c)
        (COM1 c) (COM2 c) (COM3 c) (COM4 c) (kb_shift c) (shiftcode c) (togglecode c).
Definition set_console_lock (v : Z) c : con D :=
  mkCon (con_dev c) (con_cpu c) (cga_memory c) (con_buff c) (con_rpos c) (con_wpos c) v
        (COM1 c) (COM2 c) (COM3 c) (COM4 c) (kb_shift c) (shiftcode c) (togglecode c).
Definition set_COM (p1 p2 p3 p4 : Z) c : con D :=
  mkCon (con_dev c) (con_cpu c) (cga_memory c) (con_buff c) (con_rpos c) (con_wpos c) (console_lock c)
        p1 p2 p3 p4 (kb_shift c) (shiftcode c) (togglecode c).
Definition set_kb_shift (v : Z) c : con D :=
  mkCon (con_dev c) (con_cpu c) (cga_memory c) (con_buff c) (con_rpos c) (con_wpos c) (console_lock c)
        (COM1 c) (COM2 c) (COM3 c) (COM4 c) v (shiftcode c) (togglecode c).
Definition set_kb_codes (s t : list Z) c : con D :=
  mkCon (con_dev c) (con_cpu c) (cga_memory c) (con_buff c) (con_rpos c) (con_wpos c) (console_lock c)
        (COM1 c) (COM2 c) (COM3 c) (COM4 c) (kb_shift c) s t.

#[export] Instance HasCpu_con : HasCpu (con D).
Proof.
  refine {| cpu_of := con_cpu; set_cpu := set_con_cpu |}.
  - done.
  - by intros [].
  - done.
Defined.
End con_fields.

Section cga.
Context {D : Type} `{!Ports D}.
Notation C := (con D).

(** asm/io.h: a port is 16 bits wide, a byte 8. *)
Definition inb (port : Z) : M C Z :=
  c ← get; let '(v, d) := p_in (u16 port) (con_dev c) in put (set_con_dev d c) ;; mret (u8 v).
Definition outb (port v : Z) : M C unit :=
  modify (fun c => set_con_dev (p_out (u16 port) (u8 v) (con_dev c)) c).

(** ** The screen *)

Definition CRTPORT : Z := 0x3d4.
Definition TAB_SIZE : Z := 8.
Definition CHAR_COLOR : Z := 0x0700.
Definition sizeof_row : Z := 160.

(** &cga_memory[y][x], as an offset; a store of a 16-bit cell. *)
Definition cga_addr (y x : Z) : Z := sizeof_row * y + 2 * x.
Definition store16 (a v : Z) (m : Z -> Z) : Z -> Z :=
  fun o => if o =? a then v mod 256 else if o =? a + 1 then v / 256 else m o.
Definition cga_wr (y x v : Z) : M C unit :=
  modify (fun c => set_cga_memory (store16 (cga_addr y x) v (cga_memory c)) c).
Definition memmove_bytes (dst src n : Z) (m : Z -> Z) : Z -> Z :=
  fun o => if (dst <=? o) && (o <? dst + n) then m (src + (o - dst)) else m o.
Definition memset_bytes (dst v n : Z) (m : Z -> Z) : Z -> Z :=
  fun o => if (dst <=? o) && (o <? dst + n) then v else m o.

(** The switch on the character: the cursor behind it. *)
Definition cga_char (ch x y : Z) : M C (Z * Z) :=
  let k := Z.land ch 0xff in
  if k =? 8 then
    if negb (Z.lor x y =? 0) then
      let '(x, y) := if x =? 0 then (0, u8 (y - 1)) else (u8 (x - 1), y) in
      cga_wr y x (Z.lor 32 CHAR_COLOR) ;; mret (x, y)
    else mret (x, y)
  else if k =? 10 then mret (0, u8 (y + 1))
  else if k =? 9 then mret (u8 (x + (TAB_SIZE - x mod TAB_SIZE)), y)
  else
    cga_wr y x (Z.lor k CHAR_COLOR) ;;
    let x := u8 (x + 1) in
    mret (if x =? 0 then (0, u8 (y + 1)) else (x, y)).

Definition cga_scroll (x y : Z) : M C Z :=
  if 24 <? y then
    modify (fun c => set_cga_memory (memmove_bytes (cga_addr 0 0) (cga_addr 1 0) (sizeof_row * 25) (cga_memory c)) c) ;;
    let y := u8 (y - 1) in
    modify (fun c => set_cga_memory (memset_bytes (cga_addr y x) 0 (sizeof_row - x) (cga_memory c)) c) ;;
    mret y
  else mret y.

Definition cga_putc (ch : Z) : M C unit :=
  pushcli ;;
  outb CRTPORT 14 ;;
  hi ← inb (CRTPORT + 1);
  outb CRTPORT 15 ;;
  lo ← inb (CRTPORT + 1);
  let cursor_pos := Z.lor (Z.shiftl hi 8) lo in
  '(x, y) ← cga_char ch (u8 (cursor_pos mod 80)) (u8 (cursor_pos / 80));
  y ← cga_scroll x y;
  let cursor_pos := y * 80 + x in
  outb CRTPORT 14 ;;
  outb (CRTPORT + 1) (Z.shiftr cursor_pos 8) ;;
  outb CRTPORT 15 ;;
  outb (CRTPORT + 1) cursor_pos ;;
  cga_wr y x (Z.lor 32 CHAR_COLOR) ;;
  popcli.

(** ** The serial ports *)

(** The BIOS data area at 0x400. *)
Definition find_com_ports (bda : list Z) : M C unit :=
  p1 ← deref (bda !! 0%nat); p2 ← deref (bda !! 1%nat);
  p3 ← deref (bda !! 2%nat); p4 ← deref (bda !! 3%nat);
  modify (set_COM (u16 p1) (u16 p2) (u16 p3) (u16 p4)).

Definition init_serial (port : Z) : M C unit :=
  eflags ← eflags_read;
  cli ;;
  outb (port + 1) 0x00 ;;
  outb (port + 3) 0x80 ;;
  outb (port + 0) 0x03 ;;
  outb (port + 1) 0x00 ;;
  outb (port + 3) 0x03 ;;
  outb (port + 2) 0xC7 ;;
  outb (port + 4) 0x0B ;;
  eflags_load eflags.

Definition serial_init (bda : list Z) : M C unit :=
  find_com_ports bda ;; c ← get; init_serial (COM1 c).

(** COM_N_getc and COM_N_putc: the macros' argument is the variable of the port.
    The receiver tests its own port, and reads the first one. *)
Definition COM_N_getc (COM : C -> Z) : M C Z :=
  c ← get;
  ASSERT (negb (COM c =? 0)) ;;
  pushcli ;;
  st ← inb (COM1 c + 5);
  r ← (if Z.land st 1 =? 0 then mret (-1) else inb (COM1 c));
  popcli ;;
  mret r.

Fixpoint com_wait (fuel : nat) (port : Z) : M C unit :=
  match fuel with
  | O => stop OutOfFuel
  | S f => st ← inb (port + 5); if Z.land st 0x20 =? 0 then com_wait f port else mret tt
  end.
Definition COM_N_putc (COM : C -> Z) (ch : Z) : M C unit :=
  c ← get;
  ASSERT (negb (COM c =? 0)) ;;
  pushcli ;;
  com_wait (S (p_ready (con_dev c))) (COM c) ;;
  outb (COM c) ch ;;
  popcli.

Definition console_putc (ch : Z) : M C unit :=
  cga_putc ch ;;
  c ← get;
  if negb (COM1 c =? 0) then COM_N_putc COM1 ch else mret tt.
End cga.
