(* ===== verification/CgaProps.v ===== *)
(** The text screen: cga_putc on a display controller that keeps the cursor as
    documented implements a terminal on positions 0 to 2000 ([tty_step]); text is
    displayed behind the cursor, line after line, whatever has to scroll. *)

From S2P Require Import Prelude Spinlock Cga.

(** * Definitions *)

(** The cursor registers of the display controller: the index register at 0x3d4
    selects the register that is read and written at 0x3d5. *)
Class Crt (D : Type) `{!Ports D} := {
  crt_index : D -> Z;
  crt_reg : D -> Z -> Z;
  crt_select v d : crt_index (p_out 0x3d4 v d) = v;
  crt_select_reg v d r : crt_reg (p_out 0x3d4 v d) r = crt_reg d r;
  crt_read d : fst (p_in 0x3d5 d) = crt_reg d (crt_index d);
  crt_read_index d : crt_index (snd (p_in 0x3d5 d)) = crt_index d;
  crt_read_reg d r : crt_reg (snd (p_in 0x3d5 d)) r = crt_reg d r;
  crt_write_index v d : crt_index (p_out 0x3d5 v d) = crt_index d;
  crt_write v d r : crt_reg (p_out 0x3d5 v d) r = if r =? crt_index d then v else crt_reg d r;
}.

Definition crt_cursor {D} `{Crt D} (d : D) : Z := 256 * u8 (crt_reg d 14) + u8 (crt_reg d 15).

(** The terminal: the bytes of the screen, and the cursor as a position. *)
Definition BLANK : Z := 0x0720.
Definition tty : Type := (Z -> Z) * Z.

(** The character itself: the bytes, the new position, and its row. *)
Definition tty_char (ch : Z) (s : tty) : (Z -> Z) * Z * Z :=
  let '(m, p) := s in
  let k := ch mod 256 in
  if k =? 8 then
    if p =? 0 then (m, 0, 0)
    else let q := if p mod 80 =? 0 then p - 80 else p - 1 in (store16 (2 * q) BLANK m, q, q / 80)
  else if k =? 10 then let q := (p / 80 + 1) * 80 in (m, q, q / 80)
  else if k =? 9 then (m, p + (8 - (p mod 80) mod 8), p / 80)
  else (store16 (2 * p) (k + CHAR_COLOR) m, p + 1, p / 80).

(** A row below the screen moves everything up by one row. *)
Definition tty_step (s : tty) (ch : Z) : tty :=
  let '(m, q, row) := tty_char ch s in
  let '(m, q) :=
    if 24 <? row
    then (memset_bytes (2 * (q - 80)) 0 (160 - (q - 80 * row)) (memmove_bytes 0 160 4000 m), q - 80)
    else (m, q) in
  (store16 (2 * q) BLANK m, q).

(** * Properties *)

Section cga_run.
Context {D : Type} `{Crt D}.
Notation C := (con D).
Implicit Types (c : C) (d : D).

(** What cga_putc changes of the console. *)
Definition con_upd (d : D) (cpu : Cpu) (m : Z -> Z) c : C :=
  set_con_dev d (set_con_cpu cpu (set_cga_memory m c)).

Lemma inb_run port c :
  inb port c = Done (u8 (fst (p_in (u16 port) (con_dev c)))) (set_con_dev (snd (p_in (u16 port) (con_dev c))) c).
Proof. unfold inb. m_unfold. by destruct (p_in _ _). Qed.

Lemma u8_u8 z : u8 (u8 z) = u8 z.
Proof. apply Z.mod_mod. lia. Qed.

Lemma u8_fits z : fits 8 (u8 z).
Proof. apply Z.mod_pos_bound. lia. Qed.

(** Selecting a register, and reading and writing it. *)
Lemma select_run r c : 0 <= r < 256 ->
  exists d', outb CRTPORT r c = Done tt (set_con_dev d' c) /\
    crt_index d' = r /\ (forall x, crt_reg d' x = crt_reg (con_dev c) x).
Proof.
  intros Hr. exists (p_out 0x3d4 r (con_dev c)). unfold outb, modify. change (u16 CRTPORT) with 0x3d4.
  replace (u8 r) with r by (symmetry; apply Z.mod_small; lia).
  split; [done|]. split; [apply crt_select|intros; apply crt_select_reg].
Qed.
Lemma crt_read_run c :
  exists d', inb (CRTPORT + 1) c = Done (u8 (crt_reg (con_dev c) (crt_index (con_dev c)))) (set_con_dev d' c) /\
    (forall x, crt_reg d' x = crt_reg (con_dev c) x).
Proof.
  rewrite inb_run. change (u16 (CRTPORT + 1)) with 0x3d5. rewrite crt_read.
  eexists. split; [done|]. intros. apply crt_read_reg.
Qed.
Lemma crt_write_run v c :
  exists d', outb (CRTPORT + 1) v c = Done tt (set_con_dev d' c) /\
    (forall x, crt_reg d' x = if x =? crt_index (con_dev c) then u8 v else crt_reg (con_dev c) x).
Proof. eexists. split; [done|]. intros. change (u16 (CRTPORT + 1)) with 0x3d5. apply crt_write. Qed.

Local Ltac go H := rewrite (bind_done _ _ _ _ _ H).

(** The cursor is read... *)
Lemma read_cursor_run {A} (k : Z -> M C A) c :
  exists d', (outb CRTPORT 14 ;; hi ← inb (CRTPORT + 1); outb CRTPORT 15 ;; lo ← inb (CRTPORT + 1);
              k (Z.lor (Z.shiftl hi 8) lo)) c = k (crt_cursor (con_dev c)) (set_con_dev d' c).
Proof.
  destruct (select_run 14 c) as (d1 & E1 & I1 & R1); [lia|]. go E1.
  destruct (crt_read_run (set_con_dev d1 c)) as (d2 & E2 & R2). go E2.
  destruct (select_run 15 (set_con_dev d2 c)) as (d3 & E3 & I3 & R3); [lia|]. simpl in *. go E3.
  destruct (crt_read_run (set_con_dev d3 c)) as (d4 & E4 & R4). go E4.
  exists d4. simpl. rewrite I1, I3, R3, R2, R1. unfold crt_cursor.
  f_equal. rewrite Z.shiftl_mul_pow2, lor_fields by (lia || apply u8_fits).
  rewrite !R1. lia.
Qed.

(** ... and written. *)
Lemma write_cursor_run {A} p (k : M C A) c : 0 <= p < 2 ^ 16 ->
  exists d', (outb CRTPORT 14 ;; outb (CRTPORT + 1) (Z.shiftr p 8) ;;
              outb CRTPORT 15 ;; outb (CRTPORT + 1) p ;; k) c = k (set_con_dev d' c) /\
    crt_cursor d' = p.
Proof.
  intros Hp. destruct (select_run 14 c) as (d1 & E1 & I1 & R1); [lia|]. go E1.
  destruct (crt_write_run (Z.shiftr p 8) (set_con_dev d1 c)) as (d2 & E2 & R2). go E2.
  destruct (select_run 15 (set_con_dev d2 c)) as (d3 & E3 & I3 & R3); [lia|]. simpl in *. go E3.
  destruct (crt_write_run p (set_con_dev d3 c)) as (d4 & E4 & R4). go E4.
  exists d4. split; [done|]. simpl in *. unfold crt_cursor. rewrite !R4, I3. cbn. rewrite R3, R2, I1. cbn.
  rewrite !u8_u8, Z.shiftr_div_pow2 by lia. unfold u8. Z.to_euclidean_division_equations. lia.
Qed.

(** ** One character *)

Definition con_mem (m : Z -> Z) c : C := set_cga_memory m c.

(** Positions are rows and columns. *)
Lemma pos_div y x : 0 <= x < 80 -> (80 * y + x) / 80 = y.
Proof. intros. symmetry. by apply (Z.div_unique_pos _ _ _ x). Qed.

Lemma cga_wr_run y x v q c : 2 * q = cga_addr y x ->
  cga_wr y x v c = Done tt (set_cga_memory (store16 (2 * q) v (cga_memory c)) c).
Proof. unfold cga_wr, modify. by intros ->. Qed.

(** The switch, on a position of the screen or just behind it. *)
Lemma cga_char_run ch p c m q row : 0 <= p <= 2000 -> tty_char ch (cga_memory c, p) = (m, q, row) ->
  exists x, cga_char ch (u8 (p mod 80)) (u8 (p / 80)) c = Done (x, row) (set_cga_memory m c) /\
    q = 80 * row + x /\ 0 <= x <= 80 /\ 0 <= row <= 26 /\ (row = 26 -> x = 0).
Proof.
  intros Hp Ht.
  assert (Hx : 0 <= p mod 80 < 80) by (apply Z.mod_pos_bound; lia).
  assert (Hy : 0 <= p / 80 <= 25) by (Z.to_euclidean_division_equations; lia).
  assert (Hpp : p = 80 * (p / 80) + p mod 80) by (apply Z.div_mod; lia).
  unfold tty_char in Ht. set (x := p mod 80) in *. set (y := p / 80) in *. clearbody x y. subst p.
  assert (Hsmall : forall z, 0 <= z < 256 -> u8 z = z) by (intros; by apply Z.mod_small).
  rewrite (Hsmall x), (Hsmall y) by lia. unfold cga_char. change 0xff with (2 ^ 8 - 1).
  rewrite land_ones_mod by lia. change (2 ^ 8) with 256.
  assert (Hself : set_cga_memory (cga_memory c) c = c) by by destruct c.
  pose proof (Z.mod_pos_bound ch 256 ltac:(lia)) as Hk. remember (ch mod 256) as k eqn:Ek. clear Ek.
  cbv zeta in Ht. revert Ht.
  destruct (Z.eqb_spec k 8) as [Ek|]; [|destruct (Z.eqb_spec k 10) as [Ek|]; [|destruct (Z.eqb_spec k 9) as [Ek|]]].
  - destruct (Z.eqb_spec (Z.lor x y) 0) as [[-> ->]%Z.lor_eq_0_iff|Hxy]; cbn [negb].
    + intros [= <- <- <-]. exists 0. rewrite Hself. split_and!; [done|lia..].
    + destruct (Z.eqb_spec (80 * y + x) 0) as [E|E].
      { assert (x = 0 /\ y = 0) as [-> ->] by lia. done. }
      destruct (Z.eqb_spec x 0) as [->|Hx0]; intros [= <- <- <-].
      * rewrite (Hsmall (y - 1)) by lia.
        replace (80 * y + 0 - 80) with (80 * (y - 1) + 0) by lia. rewrite pos_div by lia.
        rewrite (bind_done _ _ _ _ _ (cga_wr_run (y - 1) 0 _ (80 * (y - 1) + 0) c ltac:(unfold cga_addr, sizeof_row; lia))).
        exists 0. split_and!; [done|lia..].
      * rewrite (Hsmall (x - 1)) by lia.
        replace (80 * y + x - 1) with (80 * y + (x - 1)) by lia. rewrite pos_div by lia.
        rewrite (bind_done _ _ _ _ _ (cga_wr_run y (x - 1) _ (80 * y + (x - 1)) c ltac:(unfold cga_addr, sizeof_row; lia))).
        exists (x - 1). split_and!; [done|lia..].
  - intros [= <- <- <-]. exists 0. rewrite Hself, (Hsmall (y + 1)) by lia.
    replace ((y + 1) * 80) with (80 * (y + 1) + 0) by lia. rewrite pos_div by lia. split_and!; [done|lia..].
  - intros [= <- <- <-]. exists (x + (8 - x mod 8)). unfold TAB_SIZE.
    assert (0 <= x mod 8 < 8) by (apply Z.mod_pos_bound; lia).
    assert (x + (8 - x mod 8) <= 80) by (Z.to_euclidean_division_equations; lia).
    rewrite Hself, Hsmall by lia. split_and!; [done|lia..].
  - intros [= <- <- <-]. exists (x + 1).
    replace (Z.lor k CHAR_COLOR) with (k + CHAR_COLOR)
      by (rewrite Z.lor_comm; change CHAR_COLOR with (7 * 2 ^ 8); rewrite lor_fields by (done || lia); lia).
    rewrite (bind_done _ _ _ _ _ (cga_wr_run y x _ (80 * y + x) c ltac:(unfold cga_addr, sizeof_row; lia))).
    rewrite (Hsmall (x + 1)) by lia. destruct (Z.eqb_spec (x + 1) 0); [lia|].
    split_and!; [done|lia..].
Qed.

Lemma cga_scroll_run x row c : 0 <= x <= 80 -> 0 <= row <= 26 ->
  let q := 80 * row + x in
  cga_scroll x row c =
    Done (if 24 <? row then row - 1 else row)
      (set_cga_memory (if 24 <? row
         then memset_bytes (2 * (q - 80)) 0 (160 - (q - 80 * row)) (memmove_bytes 0 160 4000 (cga_memory c))
         else cga_memory c) c).
Proof.
  intros Hx Hrow q. unfold cga_scroll. destruct (Z.ltb_spec 24 row); [|by destruct c].
  replace (u8 (row - 1)) with (row - 1) by (symmetry; apply Z.mod_small; lia).
  unfold cga_addr, sizeof_row, q.
  replace (2 * (80 * row + x - 80)) with (160 * (row - 1) + 2 * x) by lia.
  replace (80 * row + x - 80 * row) with x by lia. done.
Qed.

Lemma crt_cursor_nonneg d : 0 <= crt_cursor d.
Proof.
  unfold crt_cursor. pose proof (u8_fits (crt_reg d 14)). pose proof (u8_fits (crt_reg d 15)).
  unfold fits in *. lia.
Qed.

(** cga_putc behind the reading of the cursor. *)
Definition cga_rest (ch p : Z) : M C unit :=
  '(x, y) ← cga_char ch (u8 (p mod 80)) (u8 (p / 80));
  y ← cga_scroll x y;
  let p := y * 80 + x in
  outb CRTPORT 14 ;; outb (CRTPORT + 1) (Z.shiftr p 8) ;; outb CRTPORT 15 ;; outb (CRTPORT + 1) p ;;
  cga_wr y x (Z.lor 32 CHAR_COLOR) ;;
  popcli.

(** cga_putc is one step of the terminal. *)
Lemma cga_putc_run ch c m q : cpu_ok (con_cpu c) -> crt_cursor (con_dev c) <= 2000 ->
  tty_step (cga_memory c, crt_cursor (con_dev c)) ch = (m, q) ->
  exists d' cpu', cga_putc ch c = Done tt (con_upd d' cpu' m c) /\ crt_cursor d' = q /\
    cpu_equiv cpu' (con_cpu c) /\ 0 <= q <= 2000.
Proof.
  intros Hcpu Hp Ht. pose proof (crt_cursor_nonneg (con_dev c)) as Hp0.
  set (c1 := set_con_cpu (do_pushcli (con_cpu c)) c).
  assert (E0 : pushcli c = Done tt c1) by done. unfold cga_putc. go E0.
  destruct (read_cursor_run (cga_rest ch) c1) as (d1 & E1).
  unfold tty_step in Ht. destruct (tty_char ch _) as [[m1 q1] row] eqn:Hc.
  destruct (cga_char_run ch (crt_cursor (con_dev c)) (set_con_dev d1 c1) m1 q1 row)
    as (x & E2 & -> & Hx & Hrow & H26); [lia|exact Hc|].
  set (c2 := set_cga_memory m1 (set_con_dev d1 c1)) in *.
  pose proof (cga_scroll_run x row c2 Hx Hrow) as E3. cbv zeta in E3. cbn [cga_memory set_cga_memory c2] in E3.
  set (row' := if 24 <? row then row - 1 else row) in *. set (c3 := set_cga_memory (if 24 <? row then _ else _) c2) in *.
  assert (Hq : (cga_memory c3, row' * 80 + x) =
               (if 24 <? row then (memset_bytes (2 * (80 * row + x - 80)) 0 (160 - (80 * row + x - 80 * row))
                                     (memmove_bytes 0 160 4000 m1), 80 * row + x - 80) else (m1, 80 * row + x)))
    by (unfold row', c3; destruct (24 <? row); simpl; f_equal; lia).
  rewrite <- Hq in Ht. injection Ht as <- <-.
  assert (Hbound : 0 <= row' * 80 + x <= 2000) by (unfold row'; destruct (Z.ltb_spec 24 row); lia).
  destruct (write_cursor_run (row' * 80 + x) (cga_wr row' x (Z.lor 32 CHAR_COLOR) ;; popcli) c3) as (d2 & E4 & Hcur); [lia|].
  pose proof (cga_wr_run row' x (Z.lor 32 CHAR_COLOR) (row' * 80 + x) (set_con_dev d2 c3)
    ltac:(unfold cga_addr, sizeof_row; lia)) as E5.
  set (c4 := set_cga_memory _ (set_con_dev d2 c3)) in *.
  destruct (@popcli_run C HasCpu_con c c4 Hcpu) as (cpu' & E6 & Hcpu'); [reflexivity|].
  exists d2, cpu'. split_and!; [|done|done|lia|lia].
  etransitivity; [exact E1|]. unfold cga_rest. go E2. go E3.
  etransitivity; [exact E4|]. go E5. by rewrite E6.
Qed.

(** ** The terminal *)

Lemma store16_other a v (m : Z -> Z) o : o < a \/ a + 1 < o -> store16 a v m o = m o.
Proof. intros. unfold store16. destruct (Z.eqb_spec o a), (Z.eqb_spec o (a + 1)); lia || done. Qed.

Lemma tty_char_bound ch m p m' q row : 0 <= p <= 2000 -> tty_char ch (m, p) = (m', q, row) ->
  0 <= row <= 26 /\ 80 * row <= q <= 80 * row + 80 /\ (row = 26 -> q = 2080) /\
  (forall o, o < 0 \/ 4160 <= o -> m' o = m o).
Proof.
  intros Hp Ht. assert (Hy : 0 <= p / 80 <= 25) by (Z.to_euclidean_division_equations; lia).
  unfold tty_char in Ht. revert Ht.
  pose proof (Z.div_mod p 80 ltac:(lia)). pose proof (Z.mod_pos_bound p 80 ltac:(lia)).
  pose proof (Z.mod_pos_bound (p mod 80) 8 ltac:(lia)).
  assert (p mod 80 + (8 - (p mod 80) mod 8) <= 80) by (Z.to_euclidean_division_equations; lia).
  repeat case_match; intros [= <- <- <-]; repeat split; try (Z.to_euclidean_division_equations; lia); try done;
    intros; apply store16_other; lia.
Qed.

(** The terminal writes the 26 rows only. *)
Lemma tty_step_frame s ch o : 0 <= s.2 <= 2000 -> o < 0 \/ 4160 <= o ->
  (tty_step s ch).1 o = s.1 o.
Proof.
  destruct s as [m p]. intros Hp Ho. simpl in *. unfold tty_step.
  destruct (tty_char ch (m, p)) as [[m' q] row] eqn:Ht.
  apply tty_char_bound in Ht as (Hr & Hq & H26 & Hm); [|done]. destruct (Z.ltb_spec 24 row).
  - simpl. rewrite store16_other by lia. unfold memset_bytes, memmove_bytes.
    repeat case_match; simplify_eq/=; try lia; by apply Hm.
  - simpl. rewrite store16_other by lia. by apply Hm.
Qed.

(** The cursor is on a blank. *)
Lemma tty_step_blank st ch : (tty_step st ch).1 (2 * (tty_step st ch).2) = 32 /\ (tty_step st ch).1 (2 * (tty_step st ch).2 + 1) = 7.
Proof.
  unfold tty_step. destruct (tty_char ch st) as [[m q] row]. destruct (24 <? row); cbn [fst snd]; unfold store16;
    rewrite !Z.eqb_refl; (split; [done|]); by rewrite (proj2 (Z.eqb_neq _ _)) by lia.
Qed.

Lemma tty_step_bound m p ch m' q : 0 <= p <= 2000 -> tty_step (m, p) ch = (m', q) -> 0 <= q <= 2000.
Proof.
  intros Hp. unfold tty_step. destruct (tty_char ch (m, p)) as [[m1 q1] row] eqn:Ht.
  apply tty_char_bound in Ht as (Hr & Hq & H26 & _); [|done].
  destruct (Z.ltb_spec 24 row); intros [= _ <-]; lia.
Qed.

Lemma screen_run s c : cpu_ok (con_cpu c) -> crt_cursor (con_dev c) <= 2000 ->
  exists d' cpu', let r := foldl tty_step (cga_memory c, crt_cursor (con_dev c)) s in
    iterM cga_putc s c = Done tt (con_upd d' cpu' r.1 c) /\ crt_cursor d' = r.2 /\
    cpu_equiv cpu' (con_cpu c) /\ 0 <= r.2 <= 2000.
Proof.
  revert c. induction s as [|ch s IH]; intros c Hcpu Hp.
  - exists (con_dev c), (con_cpu c). simpl. pose proof (crt_cursor_nonneg (con_dev c)).
    split_and!; [by destruct c|done..|lia|lia].
  - simpl. destruct (tty_step _ ch) as [m q] eqn:Ht.
    destruct (cga_putc_run ch c m q Hcpu Hp Ht) as (d1 & cpu1 & E & <- & Hc1 & Hq).
    destruct (IH (con_upd d1 cpu1 m c)) as (d2 & cpu2 & E2 & Hq2 & Hc2 & Hb2);
      [simpl; by rewrite Hc1|simpl; lia|].
    exists d2, cpu2. simpl in *. go E. rewrite E2.
    split_and!; [done|done|by rewrite Hc2|lia|lia].
Qed.

Definition printable (ch : Z) : Prop := ch mod 256 <> 8 /\ ch mod 256 <> 9 /\ ch mod 256 <> 10.

(** A printed character: the screen scrolls by one row behind its last position. *)
Lemma tty_put m p ch : 0 <= p <= 2000 -> printable ch ->
  let k := if p =? 2000 then 1 else 0 in
  (tty_step (m, p) ch).2 = p + 1 - 80 * k /\
  (forall j b, 0 <= j -> j + 80 * k <= p -> b = 0 \/ b = 1 ->
     (tty_step (m, p) ch).1 (2 * j + b) =
       if j + 80 * k =? p then (if b =? 0 then ch mod 256 else 7) else m (2 * (j + 80 * k) + b)).
Proof.
  intros Hp (H8 & H9 & H10) k. unfold tty_step, tty_char.
  pose proof (Z.mod_pos_bound ch 256 ltac:(lia)) as Hk. remember (ch mod 256) as c eqn:Ec. clear Ec.
  destruct (Z.eqb_spec c 8), (Z.eqb_spec c 10), (Z.eqb_spec c 9); try done.
  assert (Hlo : (c + CHAR_COLOR) mod 256 = c).
  { change CHAR_COLOR with (7 * 256). rewrite Z.mod_add by lia. by apply Z.mod_small. }
  assert (Hhi : (c + CHAR_COLOR) / 256 = 7).
  { change CHAR_COLOR with (7 * 256). rewrite Z.div_add, Z.div_small by lia. done. }
  destruct (Z.eqb_spec p 2000) as [->|Hne]; subst k.
  - change (24 <? 2000 / 80) with true. split; [done|]. intros j b Hj Hjp Hb.
    cbn [fst]. rewrite store16_other by lia. unfold memset_bytes, memmove_bytes.
    destruct (Z.leb_spec (2 * (2000 + 1 - 80)) (2 * j + b)); [lia|].
    destruct (Z.leb_spec 0 (2 * j + b)); [|lia]. destruct (Z.ltb_spec (2 * j + b) (0 + 4000)); [|lia].
    cbn [andb]. unfold store16. destruct (Z.eqb_spec (j + 80 * 1) 2000).
    + assert (j = 1920) as -> by lia. destruct Hb as [-> | ->]; [exact Hlo|exact Hhi].
    + destruct (Z.eqb_spec (160 + (2 * j + b - 0)) (2 * 2000)); [lia|].
      destruct (Z.eqb_spec (160 + (2 * j + b - 0)) (2 * 2000 + 1)); [lia|]. f_equal. lia.
  - destruct (Z.ltb_spec 24 (p / 80)); [Z.to_euclidean_division_equations; lia|].
    cbn [fst snd]. split; [lia|]. intros j b Hj Hjp Hb. rewrite store16_other by lia. unfold store16.
    destruct (Z.eqb_spec (j + 80 * 0) p).
    + assert (j = p) as -> by lia. destruct Hb as [-> | ->].
      * rewrite Z.add_0_r, !Z.eqb_refl. exact Hlo.
      * rewrite Z.eqb_refl. destruct (Z.eqb_spec (2 * p + 1) (2 * p)); [lia|exact Hhi].
    + destruct (Z.eqb_spec (2 * j + b) (2 * p)); [lia|].
      destruct (Z.eqb_spec (2 * j + b) (2 * p + 1)); [lia|]. f_equal. lia.
Qed.

(** The rows that text up to position [e] scrolls away. *)
Definition scrolled (e : Z) : Z := Z.max 0 ((e - 2000 + 79) / 80).

Lemma scrolled_step e : 0 <= e -> e - 80 * scrolled e <= 2000 /\
  scrolled (e + 1) = scrolled e + (if e - 80 * scrolled e =? 2000 then 1 else 0).
Proof.
  intros He. unfold scrolled. destruct (Z.eqb_spec (e - 80 * Z.max 0 ((e - 2000 + 79) / 80)) 2000);
    Z.to_euclidean_division_equations; lia.
Qed.

Lemma tty_text m p s : 0 <= p <= 2000 -> Forall printable s ->
  let e := p + Z.of_nat (length s) in
  let r := foldl tty_step (m, p) s in
  r.2 = e - 80 * scrolled e /\
  (forall j b, 0 <= j -> j + 80 * scrolled e < e -> b = 0 \/ b = 1 ->
     r.1 (2 * j + b) =
       let i := j + 80 * scrolled e in
       if i <? p then m (2 * i + b)
       else if b =? 0 then default 0 (s !! Z.to_nat (i - p)) mod 256 else 7).
Proof.
  intros Hp. induction s as [|ch s IH] using rev_ind; intros Hs e r.
  { assert (E : scrolled e = 0) by (unfold scrolled, e; simpl; Z.to_euclidean_division_equations; lia).
    unfold r. simpl. rewrite E. unfold e. simpl. split; [lia|]. intros j b Hj Hje Hb.
    destruct (Z.ltb_spec (j + 80 * 0) p); [f_equal; lia|lia]. }
  apply Forall_app in Hs as [Hs [Hch _]%Forall_cons]. specialize (IH Hs). cbv zeta in IH.
  set (e0 := p + Z.of_nat (length s)) in *. destruct IH as [IHq IHm].
  assert (Ee : e = e0 + 1) by (unfold e, e0; rewrite length_app; simpl; lia).
  destruct (scrolled_step e0) as [Hb1 Hsc]; [unfold e0; lia|].
  unfold r. rewrite foldl_app. cbn [foldl]. destruct (foldl tty_step (m, p) s) as [m0 q0]. cbn [fst snd] in *.
  assert (Hq0 : 0 <= q0 <= 2000).
  { rewrite IHq. split; [|lia]. unfold scrolled, e0. Z.to_euclidean_division_equations; lia. }
  destruct (tty_put m0 q0 ch Hq0 Hch) as [Hq Hm]. rewrite <- IHq in Hsc.
  set (k := if q0 =? 2000 then 1 else 0) in *. assert (Hk : 0 <= k) by (unfold k; by case_match). rewrite Ee, Hsc. split; [lia|].
  intros j b Hj Hje Hb. rewrite Hm by lia. destruct (Z.eqb_spec (j + 80 * k) q0) as [E|E].
  - replace (j + 80 * (scrolled e0 + k)) with e0 by lia. destruct (Z.ltb_spec e0 p); [unfold e0 in *; lia|].
    replace (Z.to_nat (e0 - p)) with (length s) by (unfold e0; lia).
    by rewrite list_lookup_middle.
  - rewrite IHm by lia. replace (j + 80 * (scrolled e0 + k)) with (j + 80 * k + 80 * scrolled e0) by lia.
    destruct (Z.ltb_spec (j + 80 * k + 80 * scrolled e0) p); [done|]. destruct (b =? 0); [|done].
    rewrite lookup_app_l by (unfold e0 in *; lia). done.
Qed.
End cga_run.

(** ** A machine

    A display controller, a keyboard that has bytes to give, and a serial port that
    has received bytes and is always ready to send. *)
Record pc := mkPc {
  pc_index : Z; pc_regs : Z -> Z; pc_keys : list Z; pc_serial : list Z; pc_sent : list Z;
}.
#[export] Instance Ports_pc : Ports pc := {
  p_in port d :=
    if port =? 0x3d5 then (pc_regs d (pc_index d), d)
    else if port =? 0x64 then (match pc_keys d with [] => 0 | _ => 1 end, d)
    else if port =? 0x60 then
      (default 0 (head (pc_keys d)),
       mkPc (pc_index d) (pc_regs d) (tail (pc_keys d)) (pc_serial d) (pc_sent d))
    else if port =? 0x3fd then (0x20 + match pc_serial d with [] => 0 | _ => 1 end, d)
    else if port =? 0x3f8 then
      (default 0 (head (pc_serial d)),
       mkPc (pc_index d) (pc_regs d) (pc_keys d) (tail (pc_serial d)) (pc_sent d))
    else (0, d);
  p_out port v d :=
    if port =? 0x3d4 then mkPc v (pc_regs d) (pc_keys d) (pc_serial d) (pc_sent d)
    else if port =? 0x3d5 then
      mkPc (pc_index d) (fun r => if r =? pc_index d then v else pc_regs d r)
           (pc_keys d) (pc_serial d) (pc_sent d)
    else if port =? 0x3f8 then mkPc (pc_index d) (pc_regs d) (pc_keys d) (pc_serial d) (pc_sent d ++ [v])
    else d;
  p_ready d := (length (pc_keys d) + length (pc_serial d))%nat;
}.
#[export] Instance Crt_pc : Crt pc.
Proof. by refine {| crt_index := pc_index; crt_reg := pc_regs |}. Defined.

(** The console behind init_console, the cursor at [p]. *)
Definition demo_con (p : Z) (keys serial : list Z) : con pc :=
  mkCon (mkPc 0 (fun r => if r =? 14 then p / 256 else p mod 256) keys serial []) (mkCpu true 0 false)
    (fun _ => 0) (replicate 512 0) 0 0 0 0x3f8 0 0 0 0 (replicate 256 0) (replicate 256 0).

(** ** Theorems *)

(** C32. Every text, control characters included, from every cursor on the screen or
    just behind it: cga_putc returns for all of its characters with the interrupt
    state restored, the screen memory and the cursor are those of the terminal, and the
    cursor is again on the screen or just behind it, on a light grey blank. No byte of
    the 16 KB is touched but the first 4160: those of the 25 rows on the screen, the
    first 4000, and those of a 26th row that is not displayed. The blank of a cursor
    behind the screen is stored there, at byte 4000, although the comment at cga_memory
    says that only the 4000 bytes on the screen are used. *)
Theorem screen_is_terminal {D} `{Crt D} s (c : con D) :
  cpu_ok (con_cpu c) -> crt_cursor (con_dev c) <= 2000 ->
  exists d' cpu', let r := foldl tty_step (cga_memory c, crt_cursor (con_dev c)) s in
    iterM cga_putc s c = Done tt (con_upd d' cpu' r.1 c) /\ crt_cursor d' = r.2 /\
    cpu_equiv cpu' (con_cpu c) /\ 0 <= r.2 <= 2000 /\
    (s <> [] -> r.1 (2 * r.2) = 32 /\ r.1 (2 * r.2 + 1) = 7) /\
    (forall o, o < 0 \/ 4160 <= o -> r.1 o = cga_memory c o) /\
    (s <> [] -> r.2 = 2000 -> r.1 4000 = 32).
Proof.
  intros Hcpu Hp. destruct (screen_run s c Hcpu Hp) as (d & cpu & Hr & Hd & Hc & Hb).
  exists d, cpu. assert (Hbl : s <> [] -> let r := foldl tty_step (cga_memory c, crt_cursor (con_dev c)) s in
    r.1 (2 * r.2) = 32 /\ r.1 (2 * r.2 + 1) = 7).
  { intros Hne. destruct s as [|ch s _] using rev_ind; [done|]. cbv zeta. rewrite foldl_app. apply tty_step_blank. }
  split_and!; [done|done|done|lia|lia|done| |].
  - intros o Ho.
    assert (Hfold : forall m p, 0 <= p <= 2000 -> (foldl tty_step (m, p) s).1 o = m o).
    { clear -Ho. induction s as [|ch s IH]; intros m p Hp; [done|]. cbn [foldl].
      pose proof (tty_step_frame (m, p) ch o Hp Ho) as Hf.
      destruct (tty_step (m, p) ch) as [m' q] eqn:E. rewrite IH; [done|].
      by apply (tty_step_bound m p ch) in E. }
    apply Hfold. split; [apply crt_cursor_nonneg|done].
  - intros Hne E. destruct (Hbl Hne) as [H1 _]. by rewrite E in H1.
Qed.

Lemma screen_is_terminal_witness :
  (exists d' cpu', let r := foldl tty_step (fun _ => 0, 1999) [65; 9; 10; 8] in
    iterM cga_putc [65; 9; 10; 8] (demo_con 1999 [] []) = Done tt (con_upd d' cpu' r.1 (demo_con 1999 [] [])) /\
    crt_cursor d' = 1840) /\
  (exists d' cpu', let r := foldl tty_step (fun _ => 0, 1999) [65] in
    iterM cga_putc [65] (demo_con 1999 [] []) = Done tt (con_upd d' cpu' r.1 (demo_con 1999 [] [])) /\
    crt_cursor d' = 2000 /\ r.1 4000 = 32).
Proof.
  assert (Hcpu : cpu_ok (con_cpu (demo_con 1999 [] []))) by (split; simpl; [lia|done]).
  assert (Hp : crt_cursor (con_dev (demo_con 1999 [] [])) <= 2000) by (vm_compute; discriminate).
  split.
  - destruct (screen_is_terminal [65; 9; 10; 8] (demo_con 1999 [] []) Hcpu Hp) as (d & cpu & Hr & Hd & _).
    exists d, cpu. split; [exact Hr|]. etransitivity; [exact Hd|]. vm_compute. reflexivity.
  - destruct (screen_is_terminal [65] (demo_con 1999 [] []) Hcpu Hp) as (d & cpu & Hr & Hd & _ & _ & _ & _ & Hb).
    exists d, cpu. split; [exact Hr|]. split; [etransitivity; [exact Hd|]; vm_compute; reflexivity|].
    apply Hb; [discriminate|vm_compute; reflexivity].
Defined.

(** Text without control characters is displayed: the cursor ends behind it,
    moved up with the rows that scroll away ([scrolled], as few as it needs), and
    every position before the cursor shows the character of the text that belongs
    there, light grey on black, or what was on the screen before the text. *)
Theorem text_is_displayed {D} `{Crt D} s (c : con D) :
  cpu_ok (con_cpu c) -> crt_cursor (con_dev c) <= 2000 -> Forall printable s ->
  exists c', let p := crt_cursor (con_dev c) in let e := p + Z.of_nat (length s) in
    iterM cga_putc s c = Done tt c' /\
    crt_cursor (con_dev c') = e - 80 * scrolled e /\
    (forall j b, 0 <= j < crt_cursor (con_dev c') -> b = 0 \/ b = 1 ->
       cga_memory c' (2 * j + b) =
         let i := j + 80 * scrolled e in
         if i <? p then cga_memory c (2 * i + b)
         else if b =? 0 then default 0 (s !! Z.to_nat (i - p)) mod 256 else 7).
Proof.
  intros Hcpu Hp Hs. destruct (screen_run s c Hcpu Hp) as (d & cpu & Hr & Hd & Hc & Hb).
  destruct (tty_text (cga_memory c) (crt_cursor (con_dev c)) s) as [Hq Hm];
    [split; [apply crt_cursor_nonneg|done]|done|].
  exists (con_upd d cpu (foldl tty_step (cga_memory c, crt_cursor (con_dev c)) s).1 c).
  cbn [con_upd con_dev set_con_dev cga_memory set_con_cpu set_cga_memory].
  split_and!; [done|by rewrite Hd|]. intros j b Hj Hb2. apply Hm; [lia| |done]. lia.
Qed.

Lemma text_is_displayed_witness :
  exists c', iterM cga_putc [72; 105] (demo_con 2000 [] []) = Done tt c' /\
    crt_cursor (con_dev c') = 1922 /\ cga_memory c' (2 * 1920) = 72 /\ cga_memory c' (2 * 1921) = 105.
Proof.
  destruct (text_is_displayed [72; 105] (demo_con 2000 [] [])) as (c' & Hr & Hq & Hm).
  - split; simpl; [lia|done].
  - vm_compute. discriminate.
  - repeat constructor; discriminate.
  - assert (Hq' : crt_cursor (con_dev c') = 1922) by (rewrite Hq; vm_compute; reflexivity).
    exists c'. split; [exact Hr|]. split; [exact Hq'|]. rewrite Hq' in Hm. split.
    + exact (Hm 1920 0 ltac:(lia) ltac:(by left)).
    + exact (Hm 1921 0 ltac:(lia) ltac:(by left)).
Defined.
