(* ===== verification/Keyboard.v ===== *)
(** The keyboard (kernel/keyboard.cpp): scan codes to characters.

    keyboard_getc reads one byte of the controller. It gives -1 when there is none, 0
    when the byte is no character of its own, and the character else. The tables are
    those of the source, a row of it in half a line. *)

From S2P Require Import Prelude Spinlock Cga.

(** * Definitions *)

Definition KBSTATP : Z := 0x64.
Definition KBS_DIB : Z := 0x01.
Definition KBDATAP : Z := 0x60.

Definition SHIFT : Z := 1.
Definition CTL : Z := 2.
Definition ALT : Z := 4.
Definition CAPSLOCK : Z := 8.
Definition NUMLOCK : Z := 16.
Definition SCROLLLOCK : Z := 32.
Definition E0ESC : Z := 64.

Definition KEY_HOME : Z := 0xE0.
Definition KEY_END : Z := 0xE1.
Definition KEY_UP : Z := 0xE2.
Definition KEY_DN : Z := 0xE3.
Definition KEY_LF : Z := 0xE4.
Definition KEY_RT : Z := 0xE5.
Definition KEY_PGUP : Z := 0xE6.
Definition KEY_PGDN : Z := 0xE7.
Definition KEY_INS : Z := 0xE8.
Definition KEY_DEL : Z := 0xE9.

Definition normalmap : list Z :=
  [0; 27; 49; 50; 51; 52; 53; 54; 55; 56; 57; 48; 45; 61; 8; 9;
   113; 119; 101; 114; 116; 121; 117; 105; 111; 112; 91; 93; 10; 0; 97; 115;
   100; 102; 103; 104; 106; 107; 108; 59; 39; 96; 0; 92; 122; 120; 99; 118;
   98; 110; 109; 44; 46; 47; 0; 42; 0; 32; 0; 0; 0; 0; 0; 0;
   0; 0; 0; 0; 0; 0; 0; 55; 56; 57; 45; 52; 53; 54; 43; 49;
   50; 51; 48; 46; 0; 0; 0; 0; 0; 0; 0; 0; 0; 0; 0; 0;
   0; 0; 0; 0; 0; 0; 0; 0; 0; 0; 0; 0; 0; 0; 0; 0;
   0; 0; 0; 0; 0; 0; 0; 0; 0; 0; 0; 0; 0; 0; 0; 0;
   0; 0; 0; 0; 0; 0; 0; 0; 0; 0; 0; 0; 0; 0; 0; 0;
   0; 0; 0; 0; 0; 0; 0; 0; 0; 0; 0; 0; 10; 0; 0; 0;
   0; 0; 0; 0; 0; 0; 0; 0; 0; 0; 0; 0; 0; 0; 0; 0;
   0; 0; 0; 0; 0; 47; 0; 0; 0; 0; 0; 0; 0; 0; 0; 0;
   0; 0; 0; 0; 0; 0; 0; KEY_HOME; KEY_UP; KEY_PGUP; 0; KEY_LF; 0; KEY_RT; 0; KEY_END;
   KEY_DN; KEY_PGDN; KEY_INS; KEY_DEL; 0; 0; 0; 0; 0; 0; 0; 0; 0; 0; 0; 0;
   0; 0; 0; 0; 0; 0; 0; 0; 0; 0; 0; 0; 0; 0; 0; 0;
   0; 0; 0; 0; 0; 0; 0; 0; 0; 0; 0; 0; 0; 0; 0; 0].

Definition shiftmap : list Z :=
  [0; 27; 33; 64; 35; 36; 37; 94; 38; 42; 40; 41; 95; 43; 8; 9;
   81; 87; 69; 82; 84; 89; 85; 73; 79; 80; 123; 125; 10; 0; 65; 83;
   68; 70; 71; 72; 74; 75; 76; 58; 34; 126; 0; 124; 90; 88; 67; 86;
   66; 78; 77; 60; 62; 63; 0; 42; 0; 32; 0; 0; 0; 0; 0; 0;
   0; 0; 0; 0; 0; 0; 0; 55; 56; 57; 45; 52; 53; 54; 43; 49;
   50; 51; 48; 46; 0; 0; 0; 0; 0; 0; 0; 0; 0; 0; 0; 0;
   0; 0; 0; 0; 0; 0; 0; 0; 0; 0; 0; 0; 0; 0; 0; 0;
   0; 0; 0; 0; 0; 0; 0; 0; 0; 0; 0; 0; 0; 0; 0; 0;
   0; 0; 0; 0; 0; 0; 0; 0; 0; 0; 0; 0; 0; 0; 0; 0;
   0; 0; 0; 0; 0; 0; 0; 0; 0; 0; 0; 0; 10; 0; 0; 0;
   0; 0; 0; 0; 0; 0; 0; 0; 0; 0; 0; 0; 0; 0; 0; 0;
   0; 0; 0; 0; 0; 47; 0; 0; 0; 0; 0; 0; 0; 0; 0; 0;
   0; 0; 0; 0; 0; 0; 0; KEY_HOME; KEY_UP; KEY_PGUP; 0; KEY_LF; 0; KEY_RT; 0; KEY_END;
   KEY_DN; KEY_PGDN; KEY_INS; KEY_DEL; 0; 0; 0; 0; 0; 0; 0; 0; 0; 0; 0; 0;
   0; 0; 0; 0; 0; 0; 0; 0; 0; 0; 0; 0; 0; 0; 0; 0;
   0; 0; 0; 0; 0; 0; 0; 0; 0; 0; 0; 0; 0; 0; 0; 0].

Definition ctlmap : list Z :=
  [0; 0; 0; 0; 0; 0; 0; 0; 0; 0; 0; 0; 0; 0; 0; 0;
   17; 23; 5; 18; 20; 25; 21; 9; 15; 16; 0; 0; 13; 0; 1; 19;
   4; 6; 7; 8; 10; 11; 12; 0; 0; 0; 0; 28; 26; 24; 3; 22;
   2; 14; 13; 0; 0; 239; 0; 0; 0; 0; 0; 0; 0; 0; 0; 0;
   0; 0; 0; 0; 0; 0; 0; 0; 0; 0; 0; 0; 0; 0; 0; 0;
   0; 0; 0; 0; 0; 0; 0; 0; 0; 0; 0; 0; 0; 0; 0; 0;
   0; 0; 0; 0; 0; 0; 0; 0; 0; 0; 0; 0; 0; 0; 0; 0;
   0; 0; 0; 0; 0; 0; 0; 0; 0; 0; 0; 0; 0; 0; 0; 0;
   0; 0; 0; 0; 0; 0; 0; 0; 0; 0; 0; 0; 0; 0; 0; 0;
   0; 0; 0; 0; 0; 0; 0; KEY_HOME; 0; 0; 0; 0; 0; 0; 0; 0;
   0; 0; 0; 0; 0; 0; 0; 0; 0; 0; 0; 0; 0; 0; 0; 0;
   0; 0; 0; 0; 0; 239; 0; 0; 0; 0; 0; 0; 0; 0; 0; 0;
   0; 0; 0; 0; 0; 0; 0; 0; KEY_UP; KEY_PGUP; 0; KEY_LF; 0; KEY_RT; 0; KEY_END;
   KEY_DN; KEY_PGDN; KEY_INS; KEY_DEL; 0; 0; 0; 0; 0; 0; 0; 0; 0; 0; 0; 0;
   0; 0; 0; 0; 0; 0; 0; 0; 0; 0; 0; 0; 0; 0; 0; 0;
   0; 0; 0; 0; 0; 0; 0; 0; 0; 0; 0; 0; 0; 0; 0; 0].

(** charcode[shift & (CTL | SHIFT)] *)
Definition charcode : list (list Z) := [normalmap; shiftmap; ctlmap; ctlmap].

Section keyboard.
Context {D : Type} `{!Ports D}.
Notation C := (con D).

(** A condition [shift & f]. *)
Definition kb_has (shift f : Z) : bool := negb (Z.land shift f =? 0).
(** shift &= ~m, on 32 bits *)
Definition kb_clear (shift m : Z) : Z := Z.land shift (Z.lxor 0xFFFFFFFF m).

(** start_kernel_monitor takes the machine over, in the middle of the interrupt. *)
Definition start_kernel_monitor {A} : M C A := stop MonitorEntered.

(** A key that is pressed, [data] with its escape bit: the character. *)
Definition kb_key (data : Z) : M C Z :=
  c ← get;
  sc ← deref (shiftcode c !! Z.to_nat data);
  modify (set_kb_shift (Z.lor (kb_shift c) sc)) ;;
  tc ← deref (togglecode c !! Z.to_nat data);
  let shift := Z.lxor (Z.lor (kb_shift c) sc) tc in
  modify (set_kb_shift shift) ;;
  map ← deref (charcode !! Z.to_nat (Z.land shift (Z.lor CTL SHIFT)));
  ch ← deref (map !! Z.to_nat data);
  let ch :=
    if kb_has shift CAPSLOCK then
      if (97 <=? ch) && (ch <=? 122) then u32 (ch + (65 - 97))
      else if (65 <=? ch) && (ch <=? 90) then u32 (ch + (97 - 65)) else ch
    else ch in
  if (Z.land (Z.lxor 0xFFFFFFFF shift) (Z.lor CTL ALT) =? 0) && (ch =? KEY_DEL)
  then start_kernel_monitor
  else mret (i32 ch).

Definition keyboard_getc : M C Z :=
  ASSERT_int_disable ;;
  st ← inb KBSTATP;
  if Z.land st KBS_DIB =? 0 then mret (-1) else
  data ← inb KBDATAP;
  c ← get;
  let shift := kb_shift c in
  if data =? 0xE0 then modify (set_kb_shift (Z.lor shift E0ESC)) ;; mret 0
  else if negb (Z.land data 0x80 =? 0) then
    let data := if kb_has shift E0ESC then data else Z.land data 0x7F in
    sc ← deref (shiftcode c !! Z.to_nat data);
    modify (set_kb_shift (kb_clear shift (Z.lor sc E0ESC))) ;; mret 0
  else if kb_has shift E0ESC then
    modify (set_kb_shift (kb_clear shift E0ESC)) ;; kb_key (Z.lor data 0x80)
  else kb_key data.

(** The tables of keyboard_init. *)
Definition kb_shiftcode : list Z :=
  <[0xB8%nat := ALT]> (<[0x9D%nat := CTL]> (<[0x38%nat := ALT]> (<[0x36%nat := SHIFT]>
    (<[0x2A%nat := SHIFT]> (<[0x1D%nat := CTL]> (replicate 256 0)))))).
Definition kb_togglecode : list Z :=
  <[0x46%nat := SCROLLLOCK]> (<[0x45%nat := NUMLOCK]> (<[0x3A%nat := CAPSLOCK]> (replicate 256 0))).
Definition kb_init_codes : M C unit := modify (set_kb_codes kb_shiftcode kb_togglecode).
End keyboard.
