(* ===== verification/PhysMem.v ===== *)
(** Physical pages (kernel/memory/physical.h, kernel/memory/physical.cpp).

    [pages] is the array of page descriptors indexed by frame number; a pointer
    [Page*] is the index of its descriptor and the free list runs through the
    20-bit field the descriptors share with the reference count. The second half
    relates this encoding to a queue of free frames and a map of reference
    counts, and states that every operation implements the abstract one. *)

From S2P Require Import Prelude Spinlock Util.

(** * Definitions *)

Definition ENOMEM : Z := 12.

Inductive PageType := Type_unknown | Type_available | Type_kernel.

#[export] Instance PageType_eq_dec : EqDecision PageType.
Proof. solve_decision. Defined.

(** struct Page; the first field is 20 bits wide. *)
Record Page := mkPage { nextFreeIndexOrRefCount : Z; free : bool; type : PageType }.

#[export] Instance Page_eq_dec : EqDecision Page.
Proof. solve_decision. Defined.

Definition u20 (z : Z) : Z := z mod 2 ^ 20.
Definition set_nfr (v : Z) (p : Page) : Page := mkPage (u20 v) (free p) (type p).
Definition set_pfree (b : bool) (p : Page) : Page := mkPage (nextFreeIndexOrRefCount p) b (type p).
Definition set_ptype (t : PageType) (p : Page) : Page := mkPage (nextFreeIndexOrRefCount p) (free p) t.

(** Page::Page; the field [free] is cleared. *)
Definition new_Page (t : PageType) (rc : Z) : Page := mkPage (u20 rc) false t.

(** The descriptors, the list head and the processor. *)
Record pm := mkPm {
  pages : gmap Z Page;
  fl_begin : option Z;
  fl_end : option Z;
  fl_count : Z;
  pm_cpu : Cpu;
}.

#[export] Instance HasCpu_pm : HasCpu pm := {
  cpu_of := pm_cpu;
  set_cpu c s := mkPm (pages s) (fl_begin s) (fl_end s) (fl_count s) c;
  cpu_of_set _ _ := eq_refl;
  set_cpu_of s := match s with mkPm _ _ _ _ _ => eq_refl end;
  set_cpu_set _ _ _ := eq_refl;
}.

Definition pageIndex (pa : Z) : Z := pa / 0x1000.
(** Page::addr *)
Definition page_addr (i : Z) : Z := u32 (i * 0x1000).

Definition page_rd (i : Z) : M pm Page := s ← get; deref (pages s !! i).
Definition page_wr (i : Z) (f : Page -> Page) : M pm unit :=
  p ← page_rd i;
  modify (fun s => mkPm (<[i := f p]> (pages s)) (fl_begin s) (fl_end s) (fl_count s) (pm_cpu s)).
(** [pages[i] = p] *)
Definition page_put (i : Z) (p : Page) : M pm unit := page_wr i (fun _ => p).

(** ** FreePageList *)

Definition set_fl (b e : option Z) (c : Z) : M pm unit :=
  modify (fun s => mkPm (pages s) b e c (pm_cpu s)).

Definition fl_init : M pm unit := set_fl None None 0.

Definition nextFree (i : Z) : M pm (option Z) :=
  p ← page_rd i;
  mret (if free p then Some (nextFreeIndexOrRefCount p) else None).

Definition fl_insert (node : Z) : M pm unit :=
  ASSERT (negb (node =? 0)) ;;
  page_wr node (set_nfr 0) ;;
  s ← get;
  (match fl_begin s with
   | Some b =>
       e ← deref (fl_end s);
       page_wr e (set_nfr node) ;;
       set_fl (Some b) (Some node) (fl_count s)
   | None => set_fl (Some node) (Some node) (fl_count s)
   end) ;;
  s ← get;
  set_fl (fl_begin s) (fl_end s) (u32 (fl_count s + 1)).

Definition getFirst : M pm (option Z) :=
  s ← get;
  match fl_begin s with
  | None => mret None
  | Some p =>
      set_fl (Some p) (fl_end s) (u32 (fl_count s - 1)) ;;
      nx ← nextFree p;
      set_fl nx (fl_end s) (u32 (fl_count s - 1)) ;;
      page_wr p (set_nfr 0) ;;
      when (bool_decide (fl_end s = Some p)) (set_fl None None (u32 (fl_count s - 1))) ;;
      mret (Some p)
  end.

(** ** Pages *)

Definition refcount_get (p : Page) : Z := if free p then 0 else nextFreeIndexOrRefCount p.

(** The assertion on the type is an assignment in the source. *)
Definition page_alloc : M pm (Z * option Z) :=
  ASSERT_int_disable ;;
  o ← getFirst;
  match o with
  | Some i =>
      p ← page_rd i;
      ASSERT (free p) ;;
      page_wr i (set_ptype Type_available) ;;
      page_wr i (set_pfree false) ;;
      mret (0, Some i)
  | None => mret (- ENOMEM, None)
  end.

Definition page_free (i : Z) : M pm unit :=
  ASSERT_int_disable ;;
  p ← page_rd i;
  ASSERT (bool_decide (type p = Type_available)) ;;
  ASSERT (negb (free p)) ;;
  ASSERT (refcount_get p =? 0) ;;
  when (refcount_get p =? 0)
    (page_wr i (set_pfree true) ;; fl_insert i).

Definition refcount_inc (i : Z) : M pm Z :=
  p ← page_rd i;
  ASSERT (negb (free p)) ;;
  page_wr i (set_nfr (nextFreeIndexOrRefCount p + 1)) ;;
  mret (u20 (nextFreeIndexOrRefCount p + 1)).

Definition refcount_dec (i : Z) : M pm Z :=
  pushcli ;;
  p ← page_rd i;
  ASSERT (negb (free p)) ;;
  ASSERT (negb (i =? 0)) ;;
  page_wr i (set_nfr (nextFreeIndexOrRefCount p - 1)) ;;
  p ← page_rd i;
  let rc := refcount_get p in
  ASSERT (-1 <? rc) ;;
  when (rc =? 0) (page_free i) ;;
  popcli ;;
  mret rc.

Definition page_dec_refCount (paddr : Z) : M pm Z :=
  ASSERT_int_disable ;;
  ASSERT (isRounded paddr) ;;
  refcount_dec (pageIndex paddr).

Definition mem_free (s : pm) : Z := u32 (Z.shiftl (fl_count s) 12).

(** ** Boot *)

(** The parts of the multiboot information the kernel reads. *)
Record mmap_entry := mkMmap { addr_low : Z; addr_high : Z; len_low : Z; mm_type : Z }.
Record multiboot := mkMultiboot {
  mb_flags : Z;
  mods : list (Z * Z);    (* mod_start, mod_end *)
  mem_lower : Z;
  mem_upper : Z;
  mmap : list mmap_entry;
}.

(** What detect_memory leaves in globals: pages_nr, memoryEnd, the initrd. *)
Record meminfo := mkMeminfo { pages_nr : Z; memoryEnd : Z; initrd_start : Z; initrd_end : Z }.

Definition sizeof_Page : Z := 4.

Definition detect_memory (mb : multiboot) (kernel_end : Z) : M pm meminfo :=
  ird ← (match mods mb with
         | [] => mret (0, 0)
         | [a] => mret a
         | _ => PANIC
         end);
  let pages_base := if kernel_end <? ird.2 then roundUp ird.2 else roundUp kernel_end in
  let physicalEnd := u32 (Z.shiftl (mem_upper mb) 10 + Z.shiftl 1 20) in
  let nr := physicalEnd / 0x1000 in
  let mend := roundUp (u32 (pages_base + nr * sizeof_Page)) in
  modify (fun s => mkPm (list_to_map ((fun i => (i, new_Page Type_unknown 1)) <$> seqZ 0 nr))
                        (fl_begin s) (fl_end s) (fl_count s) (pm_cpu s)) ;;
  mret (mkMeminfo nr mend ird.1 ird.2).

(** The body of the inner loop of pm_init, for the frame at address [i]. *)
Definition pm_init_page (mend i : Z) : M pm unit :=
  if i <? 0x100000 then
    page_put (pageIndex i) (new_Page Type_available 1) ;;
    page_wr (pageIndex i) (set_nfr 1)
  else if i <? mend then page_put (pageIndex i) (new_Page Type_kernel 1)
  else page_put (pageIndex i) (new_Page Type_available 0) ;; page_free (pageIndex i).

Definition pm_init_entry (mend : Z) (e : mmap_entry) : M pm unit :=
  when (mm_type e =? 1) (
    let start := roundUp (addr_low e) in
    let end_ := roundDown (u32 (addr_low e + len_low e)) in
    if 0 <? addr_high e then mret tt
    else iterM (pm_init_page mend) (range_step start end_ 0x1000)).

Definition pm_init (mb : multiboot) (mend : Z) : M pm unit :=
  fl_init ;;
  if negb (Z.testbit (mb_flags mb) 6) then PANIC
  else iterM (pm_init_entry mend) (mmap mb).

Definition mem_total (mi : meminfo) : Z := u32 (Z.shiftl (pages_nr mi) 12).
Definition mem_lowFree (mb : multiboot) : Z := roundUp (u32 (Z.shiftl (mem_lower mb) 10)).

(** * The free list as a queue *)

Implicit Types (s : pm) (q : list Z) (x : Z).

(** [q] are the frames on the free list, first to last. *)
Record fl_repr s q : Prop := {
  fr_begin : fl_begin s = head q;
  fr_end : fl_end s = last q;
  fr_count : fl_count s = u32 (Z.of_nat (length q));
  fr_nodup : NoDup q;
  fr_range : Forall (fun x => 0 < x < 2 ^ 20) q;
  fr_chain : forall i x, q !! i = Some x ->
    exists t, pages s !! x = Some (mkPage (default 0 (q !! S i)) true t);
  fr_free : forall x p, pages s !! x = Some p -> free p = true -> x ∈ q;
}.

(** The descriptor of a frame that is not free. *)
Definition used_page s x (p : Page) : Prop := pages s !! x = Some p /\ free p = false.

Lemma used_not_in s q x p : fl_repr s q -> used_page s x p -> x ∉ q.
Proof.
  intros R [Hx Hf] [i Hi]%list_elem_of_lookup. destruct (fr_chain _ _ R _ _ Hi) as [t Ht]. by simplify_eq.
Qed.

Lemma page_rd_run s i p : pages s !! i = Some p -> page_rd i s = Done p s.
Proof. intros H. unfold page_rd. m_unfold. by rewrite H. Qed.

Lemma page_wr_run s i p f :
  pages s !! i = Some p ->
  page_wr i f s = Done tt (mkPm (<[i := f p]> (pages s)) (fl_begin s) (fl_end s) (fl_count s) (pm_cpu s)).
Proof. intros H. unfold page_wr. by rewrite (bind_done _ _ _ _ _ (page_rd_run _ _ _ H)). Qed.

Lemma int_disable_run {S} `{HasCpu S} (s : S) :
  IF (cpu_of s) = false -> ASSERT_int_disable s = Done tt s.
Proof. intros H'. unfold ASSERT_int_disable, eflags_read. m_unfold. by rewrite H'. Qed.

Lemma u20_small z : 0 <= z < 2 ^ 20 -> u20 z = z.
Proof. apply Z.mod_small. Qed.

(** ** Taking the first frame *)

Definition alloc_state s x q : pm :=
  mkPm (<[x := mkPage 0 false Type_available]> (pages s)) (head q) (last q)
       (u32 (Z.of_nat (length q))) (pm_cpu s).

Lemma getFirst_cons s x q t :
  fl_repr s (x :: q) -> pages s !! x = Some (mkPage (default 0 (head q)) true t) ->
  getFirst s = Done (Some x) (mkPm (<[x := mkPage 0 true t]> (pages s)) (head q) (last q)
       (u32 (Z.of_nat (length q))) (pm_cpu s)).
Proof.
  intros R Hx. unfold getFirst, nextFree, set_fl, page_wr, page_rd. m_unfold.
  rewrite (fr_begin _ _ R). simpl. rewrite Hx. simpl. rewrite Hx. simpl.
  rewrite (fr_end _ _ R), (fr_count _ _ R), u32_sub_l.
  replace (Z.of_nat (length (x :: q)) - 1) with (Z.of_nat (length q)) by (simpl; lia).
  unfold set_nfr; simpl. change (u20 0) with 0.
  destruct q as [|y q]; simpl.
  - by rewrite bool_decide_true.
  - rewrite bool_decide_false; [done|]. intros E%last_Some_elem_of.
    pose proof (fr_nodup _ _ R) as [Hnd _]%NoDup_cons. done.
Qed.

Lemma page_alloc_cons s x q :
  fl_repr s (x :: q) -> IF (cpu_of s) = false ->
  page_alloc s = Done (0, Some x) (alloc_state s x q).
Proof.
  intros R HIF. destruct (fr_chain _ _ R 0%nat x) as [t Ht]; [done|].
  unfold page_alloc. rewrite (bind_done _ _ _ _ _ (int_disable_run s HIF)).
  assert (Hh : default 0 ((x :: q) !! 1%nat) = default 0 (head q)) by (by destruct q).
  rewrite Hh in Ht. rewrite (bind_done _ _ _ _ _ (getFirst_cons _ _ _ _ R Ht)).
  unfold page_wr, page_rd. m_unfold. simpl. rewrite lookup_insert_eq. simpl.
  rewrite lookup_insert_eq. simpl. rewrite lookup_insert_eq. simpl. by rewrite !insert_insert_eq.
Qed.

Lemma page_alloc_nil s :
  fl_repr s [] -> IF (cpu_of s) = false -> page_alloc s = Done (- ENOMEM, None) s.
Proof.
  intros R HIF. unfold page_alloc. rewrite (bind_done _ _ _ _ _ (int_disable_run s HIF)).
  unfold getFirst. m_unfold. by rewrite (fr_begin _ _ R).
Qed.

Lemma alloc_state_repr s x q : fl_repr s (x :: q) -> fl_repr (alloc_state s x q) q.
Proof.
  intros R. pose proof (fr_nodup _ _ R) as [Hx Hnd]%NoDup_cons.
  pose proof (fr_range _ _ R) as [_ Hr]%Forall_cons.
  split; simpl; try done.
  - intros i y Hi. destruct (fr_chain _ _ R (S i) y Hi) as [t Ht]. exists t.
    rewrite lookup_insert_ne; [done|]. intros ->. by apply Hx, list_elem_of_lookup_2 with i.
  - intros y p. destruct (decide (y = x)) as [->|Hne].
    + rewrite lookup_insert_eq. intros [= <-]. done.
    + rewrite lookup_insert_ne by done. intros Hy Hf.
      pose proof (fr_free _ _ R _ _ Hy Hf) as Hin. set_solver.
Qed.

(** ** Giving a frame back *)

Definition relink (q : list Z) x (ps : gmap Z Page) : gmap Z Page :=
  match last q with Some e => alter (set_nfr x) e ps | None => ps end.

Definition free_state s x q : pm :=
  mkPm (relink q x (<[x := mkPage 0 true Type_available]> (pages s)))
       (head (q ++ [x])) (Some x) (u32 (Z.of_nat (length q) + 1)) (pm_cpu s).

Lemma page_free_run s x q :
  fl_repr s q -> IF (cpu_of s) = false -> 0 < x < 2 ^ 20 ->
  used_page s x (mkPage 0 false Type_available) ->
  page_free x s = Done tt (free_state s x q).
Proof.
  intros R HIF Hr [Hx _]. assert (Hnin : x ∉ q) by (by eapply used_not_in; [|split]).
  unfold page_free. rewrite (bind_done _ _ _ _ _ (int_disable_run s HIF)).
  rewrite (bind_done _ _ _ _ _ (page_rd_run _ _ _ Hx)).
  unfold fl_insert, page_wr, page_rd, set_fl. m_unfold. simpl. rewrite Hx. simpl.
  destruct (Z.eqb_spec x 0); [lia|]. simpl. rewrite lookup_insert_eq. simpl.
  rewrite insert_insert_eq. unfold set_nfr, set_pfree; simpl. change (u20 0) with 0.
  rewrite (fr_begin _ _ R), (fr_end _ _ R), (fr_count _ _ R).
  unfold free_state, relink. destruct q as [|y q]; simpl; [done|].
  change (match q with [] => Some y | _ => last q end) with (last (y :: q)).
  destruct (last (y :: q)) as [e|] eqn:El; [|by apply last_None in El].
  simpl. assert (He : e ∈ y :: q) by (by apply last_Some_elem_of).
  apply list_elem_of_lookup in He as [i Hi]. destruct (fr_chain _ _ R _ _ Hi) as [t Ht].
  rewrite lookup_insert_ne, Ht by (intros <-; by apply Hnin, list_elem_of_lookup_2 with i).
  simpl. rewrite u32_add_l. f_equal. f_equal.
  apply map_eq. intros z. destruct (decide (z = e)) as [->|Hze].
  - rewrite lookup_insert_eq, lookup_alter_eq, lookup_insert_ne, Ht; [done|].
    intros <-. by apply Hnin, list_elem_of_lookup_2 with i.
  - by rewrite lookup_insert_ne, lookup_alter_ne.
Qed.

Lemma free_state_used s x q y p :
  fl_repr s q -> y <> x -> used_page (free_state s x q) y p <-> used_page s y p.
Proof.
  intros R Hne. unfold used_page, free_state, relink; simpl.
  destruct (last q) as [e|] eqn:El.
  - apply last_Some_elem_of, list_elem_of_lookup in El as [i Hi].
    destruct (fr_chain _ _ R _ _ Hi) as [t Ht].
    destruct (decide (y = e)) as [->|Hye].
    + rewrite lookup_alter_eq, lookup_insert_ne, Ht by done. simpl. naive_solver.
    + by rewrite lookup_alter_ne, lookup_insert_ne.
  - by rewrite lookup_insert_ne.
Qed.

Lemma relink_lookup s x q y :
  y ∉ q -> relink q x (<[x := mkPage 0 true Type_available]> (pages s)) !! y =
           <[x := mkPage 0 true Type_available]> (pages s) !! y.
Proof.
  intros Hy. unfold relink. destruct (last q) as [e|] eqn:El; [|done].
  apply last_Some_elem_of in El. by rewrite lookup_alter_ne by (intros ->; done).
Qed.

Lemma last_index q i (e : Z) : NoDup q -> last q = Some e -> q !! i = Some e -> S i = length q.
Proof.
  intros Hnd Hl Hi. rewrite last_lookup in Hl.
  pose proof (NoDup_lookup _ _ _ _ Hnd Hi Hl). pose proof (lookup_lt_Some _ _ _ Hi). lia.
Qed.

Lemma free_state_repr s x q :
  fl_repr s q -> 0 < x < 2 ^ 20 -> x ∉ q -> fl_repr (free_state s x q) (q ++ [x]).
Proof.
  intros R Hr Hnin. pose proof (fr_nodup _ _ R) as Hnd.
  split; simpl.
  - done.
  - by rewrite last_snoc.
  - rewrite length_app. simpl. f_equal. lia.
  - apply NoDup_app. split_and!; [done|set_solver|apply NoDup_singleton].
  - apply Forall_app. split; [apply (fr_range _ _ R)|by apply Forall_singleton].
  - intros i y Hi. destruct (decide (i < length q)%nat) as [Hlt|Hge].
    + rewrite lookup_app_l in Hi by done. destruct (fr_chain _ _ R i y Hi) as [t Ht].
      assert (y <> x) by (intros ->; by apply Hnin, list_elem_of_lookup_2 with i).
      unfold relink. destruct (last q) as [e|] eqn:El.
      2: { apply last_None in El. subst q. simpl in Hlt. lia. }
      destruct (decide (y = e)) as [->|Hye].
      * pose proof (last_index q i e Hnd El Hi) as Hlen.
        rewrite lookup_alter_eq, lookup_insert_ne, Ht by done. exists t. simpl.
        rewrite lookup_app_r by lia. replace (S i - length q)%nat with 0%nat by lia. simpl.
        unfold set_nfr. simpl. by rewrite u20_small by lia.
      * rewrite lookup_alter_ne, lookup_insert_ne by done. exists t. rewrite Ht. do 3 f_equal.
        rewrite lookup_app_l; [done|].
        destruct (decide (S i = length q)) as [E|]; [|lia]. exfalso. apply Hye.
        rewrite last_lookup in El. rewrite <- E in El. simpl in El. congruence.
    + rewrite lookup_app_r in Hi by lia.
      destruct (i - length q)%nat eqn:E; [|by destruct n]. simpl in Hi. injection Hi as <-.
      rewrite relink_lookup, lookup_insert_eq by done. exists Type_available.
      rewrite lookup_app_r by lia. by replace (S i - length q)%nat with 1%nat by lia.
  - intros y p Hy Hf. apply elem_of_app.
    destruct (decide (y = x)) as [->|Hne]; [right; by left|].
    destruct (decide (y ∈ q)) as [|Hnq]; [by left|].
    rewrite relink_lookup, lookup_insert_ne in Hy by done. left. by eapply fr_free.
Qed.

(** ** Reference counts *)

Definition count_state s x (rc : Z) (t : PageType) : pm :=
  mkPm (<[x := mkPage rc false t]> (pages s)) (fl_begin s) (fl_end s) (fl_count s) (pm_cpu s).

Lemma refcount_inc_run s x rc t :
  used_page s x (mkPage rc false t) -> 0 <= rc < 2 ^ 20 - 1 ->
  refcount_inc x s = Done (rc + 1) (count_state s x (rc + 1) t).
Proof.
  intros [Hx _] Hrc. unfold refcount_inc.
  rewrite (bind_done _ _ _ _ _ (page_rd_run _ _ _ Hx)). simpl.
  unfold page_wr, page_rd. m_unfold. rewrite Hx. simpl. unfold set_nfr; simpl.
  by rewrite u20_small by lia.
Qed.

Lemma count_state_repr s q x p rc t :
  fl_repr s q -> used_page s x p -> fl_repr (count_state s x rc t) q.
Proof.
  intros R Hx. assert (Hnin : x ∉ q) by (by eapply used_not_in).
  split; simpl; try apply R.
  - intros i y Hi. destruct (fr_chain _ _ R i y Hi) as [t' Ht]. exists t'.
    rewrite lookup_insert_ne; [done|]. intros ->. by apply Hnin, list_elem_of_lookup_2 with i.
  - intros y py. destruct (decide (y = x)) as [->|Hne].
    + rewrite lookup_insert_eq. intros [= <-]. done.
    + rewrite lookup_insert_ne by done. apply (fr_free _ _ R).
Qed.

Lemma count_state_used s x rc t y p :
  y <> x -> used_page (count_state s x rc t) y p <-> used_page s y p.
Proof. intros. unfold used_page; simpl. by rewrite lookup_insert_ne. Qed.

(** The state after dropping one of [rc] references. *)
Definition dec_state s x rc t q : pm :=
  if rc =? 1 then free_state s x q else count_state s x (rc - 1) t.

Lemma fl_repr_cpu s q c : fl_repr s q -> fl_repr (set_cpu c s) q.
Proof. intros R. split; apply R. Qed.

Lemma refcount_dec_run s q x rc t :
  fl_repr s q -> cpu_ok (cpu_of s) -> 0 < x < 2 ^ 20 -> 1 <= rc < 2 ^ 20 ->
  (rc = 1 -> t = Type_available) ->
  used_page s x (mkPage rc false t) ->
  exists c, cpu_equiv c (cpu_of s) /\
    refcount_dec x s = Done (rc - 1) (set_cpu c (dec_state s x rc t q)).
Proof.
  intros R Hok Hxr Hrc Ht [Hx Hf].
  set (s1 := set_cpu (do_pushcli (cpu_of s)) s).
  set (s2 := count_state s1 x (rc - 1) t).
  assert (Hd : exists s3, (when (rc - 1 =? 0) (page_free x)) s2 = Done tt s3 /\
    cpu_of s3 = do_pushcli (cpu_of s) /\ forall c, set_cpu c s3 = set_cpu c (dec_state s x rc t q)).
  { unfold dec_state. destruct (Z.eqb_spec rc 1) as [->|Hne]; simpl.
    - eexists. split; [|split].
      + apply (page_free_run s2 x q); [|done|done|].
        * apply (count_state_repr _ _ _ (mkPage 1 false t)); [by apply fl_repr_cpu|by split].
        * split; [|done]. simpl. rewrite lookup_insert_eq. by rewrite Ht.
      + done.
      + intros c. unfold free_state, s2, count_state; simpl. by rewrite insert_insert_eq.
    - destruct (Z.eqb_spec (rc - 1) 0); [lia|]. by eexists. }
  destruct Hd as (s3 & Hrun & Hcpu & Hs3).
  destruct (do_popcli_equiv (cpu_of s) (cpu_of s3) Hok) as (c & Hpop & Hc); [by rewrite Hcpu|].
  exists c. split; [done|]. unfold refcount_dec, pushcli.
  rewrite (bind_done _ _ s tt s1) by done.
  rewrite (bind_done _ _ s1 (mkPage rc false t) s1) by (by apply page_rd_run).
  simpl. destruct (Z.eqb_spec x 0); [lia|].
  assert (Hw : page_wr x (set_nfr (rc - 1)) s1 = Done tt s2).
  { rewrite (page_wr_run s1 x (mkPage rc false t)) by done. unfold set_nfr; simpl.
    by rewrite u20_small by lia. }
  unfold ASSERT at 1 2. cbn [negb].
  rewrite (bind_done (mret tt) _ s1 tt s1), (bind_done (mret tt) _ s1 tt s1) by done.
  rewrite (bind_done _ _ _ _ _ Hw).
  rewrite (bind_done _ _ s2 (mkPage (rc - 1) false t) s2)
    by (apply page_rd_run; simpl; by rewrite lookup_insert_eq).
  unfold refcount_get; cbn [free nextFreeIndexOrRefCount].
  destruct (Z.ltb_spec (-1) (rc - 1)); [|lia]. cbn [ASSERT].
  rewrite (bind_done (mret tt) _ s2 tt s2) by done.
  rewrite (bind_done _ _ _ _ _ Hrun). unfold popcli. m_unfold. rewrite Hpop. by rewrite Hs3.
Qed.

(** * The abstract allocator and the refinement *)

(** Free frames in order, and the reference counts of the others. *)
Record apm := mkApm { queue : list Z; refs : gmap Z (Z * PageType) }.

Record pm_abs s (a : apm) : Prop := {
  pa_fl : fl_repr s (queue a);
  pa_cpu : cpu_ok (cpu_of s) /\ IF (cpu_of s) = false;
  pa_refs : forall x rc t, refs a !! x = Some (rc, t) <-> used_page s x (mkPage rc false t);
}.

Inductive pm_op := PAlloc | PFree (x : Z) | PInc (x : Z) | PDec (x : Z).

Definition pm_op_run (o : pm_op) : M pm (Z * option Z) :=
  match o with
  | PAlloc => page_alloc
  | PFree x => page_free x ;; mret (0, None)
  | PInc x => r ← refcount_inc x; mret (r, None)
  | PDec x => r ← page_dec_refCount (page_addr x); mret (r, None)
  end.

Definition pm_op_spec (o : pm_op) (a : apm) : (Z * option Z) * apm :=
  match o with
  | PAlloc =>
      match queue a with
      | [] => ((- ENOMEM, None), a)
      | x :: q => ((0, Some x), mkApm q (<[x := (0, Type_available)]> (refs a)))
      end
  | PFree x => ((0, None), mkApm (queue a ++ [x]) (delete x (refs a)))
  | PInc x =>
      let '(rc, t) := default (0, Type_unknown) (refs a !! x) in
      ((rc + 1, None), mkApm (queue a) (<[x := (rc + 1, t)]> (refs a)))
  | PDec x =>
      let '(rc, t) := default (0, Type_unknown) (refs a !! x) in
      ((rc - 1, None),
       if rc =? 1 then mkApm (queue a ++ [x]) (delete x (refs a))
       else mkApm (queue a) (<[x := (rc - 1, t)]> (refs a)))
  end.

(** The caller's obligations: a frame is freed when unreferenced and only
    references that exist are dropped. *)
Definition pm_op_pre (o : pm_op) (a : apm) : Prop :=
  match o with
  | PAlloc => True
  | PFree x => 0 < x < 2 ^ 20 /\ refs a !! x = Some (0, Type_available)
  | PInc x => is_Some (refs a !! x) /\ 0 <= (default (0, Type_unknown) (refs a !! x)).1 < 2 ^ 20 - 1
  | PDec x => 0 < x < 2 ^ 20 /\ is_Some (refs a !! x) /\
      1 <= (default (0, Type_unknown) (refs a !! x)).1 < 2 ^ 20 /\
      (default (0, Type_unknown) (refs a !! x)).2 = Type_available
  end.

#[export] Instance pm_op_pre_dec o a : Decision (pm_op_pre o a).
Proof. destruct o; simpl; apply _. Defined.

Lemma pm_abs_cpu s a c :
  pm_abs s a -> cpu_equiv c (cpu_of s) -> pm_abs (set_cpu c s) a.
Proof.
  intros [H1 [H2 H3] H4] Hc. split; simpl.
  - by apply fl_repr_cpu.
  - split; [by rewrite Hc|]. by destruct Hc as (-> & _).
  - done.
Qed.

Lemma pm_abs_count s a x rc t rc' :
  pm_abs s a -> refs a !! x = Some (rc, t) ->
  pm_abs (count_state s x rc' t) (mkApm (queue a) (<[x := (rc', t)]> (refs a))).
Proof.
  intros A Hx. pose proof (proj1 (pa_refs _ _ A x rc t) Hx) as Hu. split; simpl.
  - by eapply count_state_repr; [apply A|].
  - apply A.
  - intros y rcy ty. destruct (decide (y = x)) as [->|Hne].
    + rewrite lookup_insert_eq. unfold used_page; simpl. rewrite lookup_insert_eq. naive_solver.
    + rewrite lookup_insert_ne, count_state_used by done. apply A.
Qed.

Lemma pm_abs_free s a x rc t :
  pm_abs s a -> 0 < x < 2 ^ 20 -> refs a !! x = Some (rc, t) ->
  pm_abs (free_state s x (queue a)) (mkApm (queue a ++ [x]) (delete x (refs a))).
Proof.
  intros A Hr Hx. pose proof (proj1 (pa_refs _ _ A x rc t) Hx) as Hu.
  assert (Hnin : x ∉ queue a) by (by eapply used_not_in; [apply A|]).
  split; simpl.
  - by apply free_state_repr; [apply A|..].
  - apply A.
  - intros y rcy ty. destruct (decide (y = x)) as [->|Hne].
    + rewrite lookup_delete_eq. unfold used_page; simpl. rewrite relink_lookup, lookup_insert_eq by done.
      naive_solver.
    + rewrite lookup_delete_ne, free_state_used by (done || apply A). apply A.
Qed.

Lemma page_addr_index x : 0 < x < 2 ^ 20 -> pageIndex (page_addr x) = x /\ isRounded (page_addr x) = true.
Proof.
  intros Hx. unfold pageIndex, page_addr. rewrite u32_small by lia.
  rewrite isRounded_spec, Z.div_mul by lia. split; [done|]. apply Z.eqb_eq, Z.mod_mul. lia.
Qed.

Lemma pm_op_refines s a o :
  pm_abs s a -> pm_op_pre o a ->
  exists s', pm_op_run o s = Done (pm_op_spec o a).1 s' /\ pm_abs s' (pm_op_spec o a).2.
Proof.
  intros A Hpre. pose proof (pa_fl _ _ A) as R. destruct (pa_cpu _ _ A) as [Hok HIF].
  destruct o as [|x|x|x]; simpl in *.
  - destruct (queue a) as [|x q] eqn:Eq.
    + exists s. split; [by apply page_alloc_nil|done].
    + eexists. split; [by apply page_alloc_cons|]. split; simpl.
      * by apply alloc_state_repr.
      * done.
      * intros y rc t. destruct (decide (y = x)) as [->|Hne].
        -- rewrite lookup_insert_eq. unfold used_page; simpl. rewrite lookup_insert_eq. naive_solver.
        -- rewrite lookup_insert_ne by done. unfold used_page; simpl. rewrite lookup_insert_ne by done.
           apply A.
  - destruct Hpre as [Hr Hx]. eexists. split; [|by eapply pm_abs_free].
    erewrite bind_done by (apply page_free_run; [done|done|done|]; by apply A). done.
  - destruct Hpre as [[[rc t] Hx] Hrc]. rewrite Hx in *. simpl in *.
    eexists. split; [|by eapply pm_abs_count].
    erewrite bind_done by (apply refcount_inc_run; [by apply A|done]). done.
  - destruct Hpre as (Hr & [[rc t] Hx] & Hrc & Ht). rewrite Hx in *. simpl in *. subst t.
    destruct (page_addr_index x Hr) as [Ei Er]. unfold page_dec_refCount. rewrite Ei, Er.
    destruct (refcount_dec_run s (queue a) x rc Type_available R Hok Hr Hrc) as (c & Hc & Hrun);
      [done|by apply A|].
    exists (set_cpu c (dec_state s x rc Type_available (queue a))). split.
    + erewrite bind_done; [done|]. rewrite (bind_done ASSERT_int_disable _ s tt s) by (by apply int_disable_run).
      exact Hrun.
    + unfold dec_state. destruct (rc =? 1).
      * apply pm_abs_cpu; [by eapply pm_abs_free|done].
      * apply pm_abs_cpu; [by eapply pm_abs_count|done].
Qed.

Fixpoint pm_trace_run (os : list pm_op) : M pm (list (Z * option Z)) :=
  match os with
  | [] => mret []
  | o :: os' => r ← pm_op_run o; rs ← pm_trace_run os'; mret (r :: rs)
  end.

Fixpoint pm_trace_spec (os : list pm_op) (a : apm) : list (Z * option Z) * apm :=
  match os with
  | [] => ([], a)
  | o :: os' => let '(r, a1) := pm_op_spec o a in
                let '(rs, a2) := pm_trace_spec os' a1 in (r :: rs, a2)
  end.

Fixpoint pm_trace_pre (os : list pm_op) (a : apm) : Prop :=
  match os with
  | [] => True
  | o :: os' => pm_op_pre o a /\ pm_trace_pre os' (pm_op_spec o a).2
  end.

#[export] Instance pm_trace_pre_dec os : forall a, Decision (pm_trace_pre os a).
Proof. induction os as [|o os IH]; intros a; simpl; apply _. Defined.

(** ** Boot: the free list built from the memory map *)

(** The frames of one map entry, and those of them that become free. *)
Definition entry_frames (e : mmap_entry) : list Z :=
  if (mm_type e =? 1) && negb (0 <? addr_high e)
  then range_step (roundUp (addr_low e)) (roundDown (u32 (addr_low e + len_low e))) 0x1000
  else [].
Definition free_frames (mend : Z) (e : mmap_entry) : list Z :=
  pageIndex <$> filter (fun i => 0x100000 <= i /\ mend <= i) (entry_frames e).

(** What the loops of pm_init keep: the queue so far, every frame still to come
    is a used descriptor. *)
Definition boot_inv (q : list Z) s : Prop := fl_repr s q /\ IF (cpu_of s) = false.

Lemma pm_init_page_run mend i q s :
  boot_inv q s -> 0 < pageIndex i < 2 ^ 20 \/ i < 0x100000 ->
  (exists p, used_page s (pageIndex i) p) ->
  exists s', pm_init_page mend i s = Done tt s' /\
    boot_inv (q ++ (if bool_decide (0x100000 <= i /\ mend <= i) then [pageIndex i] else [])) s' /\
    (forall y p, y <> pageIndex i -> used_page s' y p <-> used_page s y p) /\
    (bool_decide (0x100000 <= i /\ mend <= i) = false -> exists p, used_page s' (pageIndex i) p).
Proof.
  intros [R HIF] Hr [p Hp]. unfold pm_init_page, page_put.
  assert (Hnew : forall t rc, rc = 0 \/ rc = 1 ->
     page_wr (pageIndex i) (fun _ => new_Page t rc) s = Done tt (count_state s (pageIndex i) rc t)).
  { intros t rc Hrc. rewrite (page_wr_run _ _ _ _ (proj1 Hp)). unfold new_Page.
    by destruct Hrc as [-> | ->]. }
  assert (Hcount : forall t rc,
    boot_inv (q ++ []) (count_state s (pageIndex i) rc t) /\
    (forall y p, y <> pageIndex i -> used_page (count_state s (pageIndex i) rc t) y p <-> used_page s y p) /\
    (exists p, used_page (count_state s (pageIndex i) rc t) (pageIndex i) p)).
  { intros t rc. rewrite app_nil_r. split_and!.
    - split; [by eapply count_state_repr|done].
    - intros. by apply count_state_used.
    - exists (mkPage rc false t). split; [|done]. simpl. by rewrite lookup_insert_eq. }
  destruct (Z.ltb_spec i 0x100000).
  - rewrite bool_decide_false by lia. rewrite (bind_done _ _ _ _ _ (Hnew Type_available 1 ltac:(by right))).
    eexists. split; [apply page_wr_run; simpl; by rewrite lookup_insert_eq|].
    unfold set_nfr, count_state; simpl. rewrite insert_insert_eq. change (u20 1) with 1.
    destruct (Hcount Type_available 1) as (H1 & H2 & H3). by split_and!.
  - destruct (Z.ltb_spec i mend).
    + rewrite bool_decide_false by lia. rewrite Hnew by (by right). eexists. split; [done|].
      destruct (Hcount Type_kernel 1) as (H1 & H2 & H3). by split_and!.
    + rewrite bool_decide_true by lia. rewrite (bind_done _ _ _ _ _ (Hnew Type_available 0 ltac:(by left))).
      destruct (Hcount Type_available 0) as ([H1 _] & H2 & H3). rewrite app_nil_r in H1.
      assert (Hu : used_page (count_state s (pageIndex i) 0 Type_available) (pageIndex i)
                     (mkPage 0 false Type_available)).
      { split; [|done]. simpl. by rewrite lookup_insert_eq. }
      eexists. split; [apply (page_free_run _ _ q); [done|done|lia|done]|]. split_and!.
      * split; [|done]. apply free_state_repr; [done|lia|by eapply used_not_in].
      * intros y py Hy. by rewrite free_state_used, H2.
      * done.
Qed.

Lemma pm_init_frames_run mend l q s :
  boot_inv q s -> NoDup (pageIndex <$> l) ->
  (forall i, i ∈ l -> 0 <= i < 2 ^ 32 /\ exists p, used_page s (pageIndex i) p) ->
  exists s', iterM (pm_init_page mend) l s = Done tt s' /\
    boot_inv (q ++ (pageIndex <$> filter (fun i => 0x100000 <= i /\ mend <= i) l)) s' /\
    (forall y p, y ∉ pageIndex <$> l -> used_page s' y p <-> used_page s y p).
Proof.
  revert q s. induction l as [|i l IH]; intros q s Hinv Hnd Hl; simpl.
  { exists s. rewrite app_nil_r. by split_and!. }
  cbn [fmap list_fmap] in Hnd. apply NoDup_cons in Hnd as [Hi Hnd].
  destruct (Hl i ltac:(by left)) as [Hir Hp].
  destruct (pm_init_page_run mend i q s Hinv) as (s1 & Hrun & Hinv1 & Hother & _); [|done|].
  { destruct (Z.ltb_spec i 0x100000); [by right|left]. unfold pageIndex. split.
    - apply Z.div_str_pos. lia.
    - apply Z.div_lt_upper_bound; lia. }
  rewrite (bind_done _ _ _ _ _ Hrun).
  destruct (IH _ s1 Hinv1 Hnd) as (s2 & Hrun2 & Hinv2 & Hother2).
  { intros j Hj. destruct (Hl j ltac:(by right)) as [Hjr [p' Hp']]. split; [done|].
    exists p'. apply Hother; [|done]. intros E. apply Hi. rewrite <- E. by apply list_elem_of_fmap_2. }
  exists s2. split; [done|]. split.
  - rewrite <- app_assoc in Hinv2. rewrite filter_cons.
    by destruct (bool_decide_reflect (0x100000 <= i /\ mend <= i)) as [H|H];
      [rewrite decide_True by done|rewrite decide_False by done].
  - intros y py Hy. rewrite Hother2 by set_solver. apply Hother. set_solver.
Qed.

Lemma pm_init_entries_run mend es q s :
  boot_inv q s -> NoDup (pageIndex <$> (es ≫= entry_frames)) ->
  (forall i, i ∈ es ≫= entry_frames -> 0 <= i < 2 ^ 32 /\ exists p, used_page s (pageIndex i) p) ->
  exists s', iterM (pm_init_entry mend) es s = Done tt s' /\
    boot_inv (q ++ (es ≫= free_frames mend)) s'.
Proof.
  revert q s. induction es as [|e es IH]; intros q s Hinv Hnd Hl; simpl.
  { exists s. by rewrite app_nil_r. }
  change ((e :: es) ≫= entry_frames) with (entry_frames e ++ (es ≫= entry_frames)) in *.
  rewrite fmap_app in Hnd. apply NoDup_app in Hnd as (Hnd1 & Hdis & Hnd2).
  assert (He : exists s', pm_init_entry mend e s = Done tt s' /\
    boot_inv (q ++ free_frames mend e) s' /\
    (forall y p, y ∉ pageIndex <$> entry_frames e -> used_page s' y p <-> used_page s y p)).
  { pose proof (pm_init_frames_run mend (entry_frames e) q s Hinv Hnd1) as Hrun.
    destruct Hrun as (s' & Hrun & Hrest); [intros; apply Hl, elem_of_app; by left|].
    exists s'. split; [|done]. rewrite <- Hrun. unfold pm_init_entry, entry_frames.
    destruct (mm_type e =? 1); simpl; [|done]. by destruct (0 <? addr_high e). }
  destruct He as (s1 & Hrun & Hinv1 & Hother). rewrite (bind_done _ _ _ _ _ Hrun).
  destruct (IH _ s1 Hinv1 Hnd2) as (s2 & Hrun2 & Hinv2).
  { intros i Hi. destruct (Hl i ltac:(apply elem_of_app; by right)) as [Hir [p Hp]]. split; [done|].
    exists p. apply Hother; [|done]. intros Hin. apply (Hdis _ Hin). by apply list_elem_of_fmap_2. }
  exists s2. split; [done|].
  change ((e :: es) ≫= free_frames mend) with (free_frames mend e ++ (es ≫= free_frames mend)).
  by rewrite app_assoc.
Qed.

(** ** Concrete states for the witnesses *)

(** The abstract state of a known free list. *)
Definition abs_of s q : apm :=
  mkApm q (omap (fun p => if free p then None else Some (nextFreeIndexOrRefCount p, type p)) (pages s)).

Lemma abs_of_abs s q :
  fl_repr s q -> cpu_ok (cpu_of s) -> IF (cpu_of s) = false -> pm_abs s (abs_of s q).
Proof.
  intros R Hok HIF. split; [done|done|]. intros x rc t. simpl. unfold used_page.
  rewrite lookup_omap. destruct (pages s !! x) as [[n f ty]|] eqn:E; simpl; [|naive_solver].
  destruct f; simpl; naive_solver.
Qed.

(** Frames 5 and 6 free, 7 in use. *)
Definition demo_pm : pm :=
  mkPm {[5 := mkPage 6 true Type_available; 6 := mkPage 0 true Type_available;
         7 := mkPage 0 false Type_available]} (Some 5) (Some 6) 2 (mkCpu false 0 false).

Lemma demo_pm_abs : pm_abs demo_pm (abs_of demo_pm [5; 6]).
Proof.
  apply abs_of_abs; [|split; simpl; [lia|done]|done]. split; try done.
  - apply (bool_decide_unpack _). vm_compute. exact I.
  - apply (bool_decide_unpack _). vm_compute. exact I.
  - intros [|[|i]] x; simpl; intros Hi; simplify_eq; exists Type_available; reflexivity.
  - assert (Hall : map_Forall (fun x p => free p = true -> x ∈ [5; 6]) (pages demo_pm)).
    { apply (bool_decide_unpack _). vm_compute. exact I. }
    intros x p Hx. by apply (Hall x p Hx).
Qed.

(** 2 MB of memory, the kernel ending at 0x120000. *)
Definition demo_mb : multiboot :=
  mkMultiboot 0x40 [] 640 1024 [mkMmap 0 0 0x9fc00 1; mkMmap 0x9fc00 0 0x400 2; mkMmap 0x100000 0 0x100000 1].
Definition demo_pages : pm :=
  mkPm (list_to_map ((fun i => (i, new_Page Type_unknown 1)) <$> seqZ 0 512)) None None 0 (mkCpu false 0 false).

(** * Properties *)

(** C5. The page allocator implements its specification: over every sequence of
    page_alloc, page_free, refcount_inc and page_dec_refCount that respects the
    callers' obligations, frames are handed out first-in first-out, each operation
    returns what the queue and the reference counts say (-ENOMEM for the empty
    queue), a frame returns to the queue exactly when its last reference goes, and
    no assertion of the allocator fails. *)
Theorem page_allocator_refines s a os :
  pm_abs s a -> pm_trace_pre os a ->
  exists s', pm_trace_run os s = Done (pm_trace_spec os a).1 s' /\ pm_abs s' (pm_trace_spec os a).2.
Proof.
  revert s a. induction os as [|o os IH]; intros s a A; simpl; [by eauto|].
  intros [Hpre Hrest]. destruct (pm_op_refines s a o A Hpre) as (s1 & Hrun & A1).
  rewrite (bind_done _ _ _ _ _ Hrun). destruct (pm_op_spec o a) as [r a1]; simpl in *.
  destruct (IH s1 a1 A1 Hrest) as (s2 & Hrun2 & A2).
  rewrite (bind_done _ _ _ _ _ Hrun2). destruct (pm_trace_spec os a1) as [rs a2]; simpl in *.
  by exists s2.
Qed.

Lemma page_allocator_refines_witness :
  exists s', pm_trace_run [PAlloc; PInc 5; PInc 5; PFree 7; PDec 5; PDec 5; PAlloc; PAlloc; PAlloc; PAlloc] demo_pm
    = Done [(0, Some 5); (1, None); (2, None); (0, None); (1, None); (0, None);
            (0, Some 6); (0, Some 7); (0, Some 5); (- ENOMEM, None)] s' /\ queue (abs_of s' []) = [].
Proof.
  destruct (page_allocator_refines demo_pm (abs_of demo_pm [5; 6])
    [PAlloc; PInc 5; PInc 5; PFree 7; PDec 5; PDec 5; PAlloc; PAlloc; PAlloc; PAlloc]) as (s' & Hrun & _).
  - apply demo_pm_abs.
  - apply (bool_decide_unpack _). vm_compute. exact I.
  - exists s'. split; [|reflexivity]. rewrite Hrun. vm_compute. reflexivity.
Defined.

(** C29. pm_init turns the boot loader's memory map into the free list: exactly
    the whole pages of available regions below 4 GB that lie above low memory and
    above the memory the kernel uses are free, in the order of the map, each once. *)
Theorem pm_init_builds_free_list mb mend s :
  Z.testbit (mb_flags mb) 6 = true -> IF (cpu_of s) = false ->
  NoDup (pageIndex <$> (mmap mb ≫= entry_frames)) ->
  (forall x p, pages s !! x = Some p -> free p = false) ->
  (forall i, i ∈ mmap mb ≫= entry_frames -> 0 <= i < 2 ^ 32 /\ is_Some (pages s !! pageIndex i)) ->
  exists s', pm_init mb mend s = Done tt s' /\ fl_repr s' (mmap mb ≫= free_frames mend).
Proof.
  intros Hfl HIF Hnd Hused Hl. unfold pm_init, fl_init, set_fl.
  rewrite Hfl. rewrite (bind_done _ _ s tt (mkPm (pages s) None None 0 (pm_cpu s))) by done.
  destruct (pm_init_entries_run mend (mmap mb) [] (mkPm (pages s) None None 0 (pm_cpu s)))
    as (s' & Hrun & R & _).
  - split; [|done]. split; simpl; try done.
    + constructor.
    + intros x p Hx. by rewrite (Hused x p Hx).
  - done.
  - intros i Hi. destruct (Hl i Hi) as [Hir [p Hp]]. split; [done|]. exists p. split; [done|]. by eapply Hused.
  - by exists s'.
Qed.

Lemma pm_init_builds_free_list_witness :
  exists mi s1, detect_memory demo_mb 0x120000 demo_pages = Done mi demo_pages /\
    memoryEnd mi = 0x121000 /\ pages_nr mi = 512 /\
    pm_init demo_mb 0x121000 demo_pages = Done tt s1 /\ fl_repr s1 (seqZ 0x121 (512 - 0x121)).
Proof.
  exists (mkMeminfo 512 0x121000 0 0).
  destruct (pm_init_builds_free_list demo_mb 0x121000 demo_pages) as (s1 & Hrun & R).
  - reflexivity.
  - reflexivity.
  - apply (bool_decide_unpack _). vm_compute. exact I.
  - assert (Hall : map_Forall (fun _ p => free p = false) (pages demo_pages)).
    { apply (bool_decide_unpack _). vm_compute. exact I. }
    intros x p Hx. by apply (Hall x p Hx).
  - assert (Hall : Forall (fun i => 0 <= i < 2 ^ 32 /\ is_Some (pages demo_pages !! pageIndex i))
                          (mmap demo_mb ≫= entry_frames)).
    { apply (bool_decide_unpack _). vm_compute. exact I. }
    intros i Hi. rewrite Forall_forall in Hall. by apply Hall.
  - exists s1. split; [vm_cast_no_check (@eq_refl (outcome pm meminfo) (Done (mkMeminfo 512 0x121000 0 0) demo_pages))|]. split; [reflexivity|]. split; [reflexivity|].
    split; [exact Hrun|].
    replace (seqZ 0x121 (512 - 0x121)) with (mmap demo_mb ≫= free_frames 0x121000); [exact R|].
    vm_compute. reflexivity.
Defined.
