(* ===== verification/VirtMem.v ===== *)
(** Virtual memory (kernel/memory/virtual.h, kernel/memory/virtual.cpp).

    The state adds to the physical pages of PhysMem the page tables, the page
    directories and the bitmap of temporary kernel pages. A page table is named
    by the kernel address it is reached through ([pgtables[i]]); its words are
    in [ptes], and [tables] are the tables that are mapped: an access to any
    other is a fault. Two directories that share a table (link_pgtables) share
    its words. The addresses are those of the configuration of kernel_conf.h
    (segmentation, kernel in the last gigabyte). *)

From S2P Require Import Prelude Spinlock Util Bitmap PhysMem.

(** * Definitions *)

(** ** The address space *)

Definition MMAP_KERNEL_BASE : Z := 0xC0000000.
Definition MMAP_KERNEL_TOP : Z := 0xF0000000.
Definition MMAP_KERNEL_TMP_PAGE_BASE : Z := 0xD0000000.
Definition MMAP_USER_BASE : Z := 0.
Definition MMAP_USER_TOP : Z := 0xC0000000.

Definition va2kaddr (a : Z) : Z := u32 (a - MMAP_KERNEL_BASE).
Definition kaddr2va (a : Z) : Z := u32 (a + MMAP_KERNEL_BASE).
Definition uaddr2va (a : Z) : Z := u32 (a + MMAP_USER_BASE).
Definition va2uaddr (a : Z) : Z := u32 (a - MMAP_USER_BASE).
Definition uaddr2kaddr (a : Z) : Z := va2kaddr (uaddr2va a).
Definition kaddr2uaddr (a : Z) : Z := va2uaddr (kaddr2va a).

Definition PTE_P : Z := 1.
Definition PTE_W : Z := 2.
Definition PTE_U : Z := 4.

(** ** Page table and directory entries *)

(** PTE_t and PDE_t have the same layout: permissions and frame number. *)
Definition PTE_t (physAddr perm : Z) : Z := Z.lor (Z.land physAddr 0xFFFFF000) (Z.land perm 0xFFF).
Definition PDE_t (physAddr perm : Z) : Z := Z.lor (Z.land physAddr 0xFFFFF000) (Z.land perm 0xFFF).
Definition present (w : Z) : bool := Z.testbit w 0.
Definition phys_pgno (w : Z) : Z := Z.land (Z.shiftr w 12) 0xFFFFF.
Definition physAddr (w : Z) : Z := u32 (phys_pgno w * 0x1000).
Definition perm (w : Z) : Z := Z.land w 0xFFF.
Definition phys_page (w : Z) : Z := pageIndex (physAddr w).

(** VA_t *)
Definition pdx (va : Z) : Z := Z.land (Z.shiftr va 22) 0x3FF.
Definition ptx (va : Z) : Z := Z.land (Z.shiftr va 12) 0x3FF.
Definition va_addr (va : Z) : Z := u32 ((pdx va * 1024 + ptx va) * 0x1000).

(** ** State *)

Record PageDirInfo := mkDir {
  pgdir_pa : Z;
  pgdir : gmap Z Z;       (* the PDE words *)
  pgtables : gmap Z Z;    (* the tables' kernel addresses, absent is NULL *)
  count_user : Z;
  count_kernel : Z;
  count_stack : Z;
  count_program : Z;
  count_shared : Z;
  start_brk : Z;
  end_brk : Z;
}.

Record mm := mkMM {
  phys : pm;
  ptes : gmap (Z * Z) Z;
  tables : gset Z;
  frames : gmap Z (list Z);   (* contents of the user pages, by frame *)
  dirs : gmap Z PageDirInfo;
  tmp_pages : list Z;
  cr3_dir : Z;                (* the directory whose address cr3 holds *)
  tlb_log : list Z;           (* the addresses given to invlpg *)
}.

Definition set_phys (p : pm) (s : mm) : mm :=
  mkMM p (ptes s) (tables s) (frames s) (dirs s) (tmp_pages s) (cr3_dir s) (tlb_log s).
Definition set_ptes (e : gmap (Z * Z) Z) (t : gset Z) (s : mm) : mm :=
  mkMM (phys s) e t (frames s) (dirs s) (tmp_pages s) (cr3_dir s) (tlb_log s).
Definition set_frames (f : gmap Z (list Z)) (s : mm) : mm :=
  mkMM (phys s) (ptes s) (tables s) f (dirs s) (tmp_pages s) (cr3_dir s) (tlb_log s).
Definition set_dirs (ds : gmap Z PageDirInfo) (s : mm) : mm :=
  mkMM (phys s) (ptes s) (tables s) (frames s) ds (tmp_pages s) (cr3_dir s) (tlb_log s).
Definition set_tmp (b : list Z) (s : mm) : mm :=
  mkMM (phys s) (ptes s) (tables s) (frames s) (dirs s) b (cr3_dir s) (tlb_log s).
Definition set_cr3 (d : Z) (s : mm) : mm :=
  mkMM (phys s) (ptes s) (tables s) (frames s) (dirs s) (tmp_pages s) d (tlb_log s).
Definition set_tlb (l : list Z) (s : mm) : mm :=
  mkMM (phys s) (ptes s) (tables s) (frames s) (dirs s) (tmp_pages s) (cr3_dir s) l.

#[export] Instance HasCpu_mm : HasCpu mm := {
  cpu_of s := cpu_of (phys s);
  set_cpu c s := set_phys (set_cpu c (phys s)) s;
  cpu_of_set _ _ := eq_refl;
  set_cpu_of s := match s with mkMM (mkPm _ _ _ _ _) _ _ _ _ _ _ _ => eq_refl end;
  set_cpu_set _ _ _ := eq_refl;
}.

(** The page allocator inside the larger state. *)
Definition zp {A} (m : M pm A) : M mm A := zoom phys set_phys m.

(** kernel_dir *)
Definition KDIR : Z := 0.

Definition dir_rd (d : Z) : M mm PageDirInfo := s ← get; deref (dirs s !! d).
Definition dir_wr (d : Z) (f : PageDirInfo -> PageDirInfo) : M mm unit :=
  i ← dir_rd d; modify (fun s => set_dirs (<[d := f i]> (dirs s)) s).
Definition set_counts (u k : Z) (i : PageDirInfo) : PageDirInfo :=
  mkDir (pgdir_pa i) (pgdir i) (pgtables i) (u32 u) (u32 k) (count_stack i) (count_program i)
        (count_shared i) (start_brk i) (end_brk i).
Definition add_user (n : Z) (i : PageDirInfo) := set_counts (count_user i + n) (count_kernel i) i.
Definition add_kernel (n : Z) (i : PageDirInfo) := set_counts (count_user i) (count_kernel i + n) i.
(** An entry of the directory and of its array of table pointers. *)
Definition set_pde (n w : Z) (i : PageDirInfo) : PageDirInfo :=
  mkDir (pgdir_pa i) (<[n := w]> (pgdir i)) (pgtables i) (count_user i) (count_kernel i)
        (count_stack i) (count_program i) (count_shared i) (start_brk i) (end_brk i).
Definition set_pgtable (n k : Z) (i : PageDirInfo) : PageDirInfo :=
  mkDir (pgdir_pa i) (pgdir i) (<[n := k]> (pgtables i)) (count_user i) (count_kernel i)
        (count_stack i) (count_program i) (count_shared i) (start_brk i) (end_brk i).
Definition pgtable_of (i : PageDirInfo) (n : Z) : Z := default NULL (pgtables i !! n).

(** A word of a mapped table. *)
Definition pte_rd (l : Z * Z) : M mm Z :=
  s ← get;
  if bool_decide (l.1 ∈ tables s) then mret (default 0 (ptes s !! l)) else stop BadAccess.
Definition pte_wr (l : Z * Z) (w : Z) : M mm unit :=
  s ← get;
  if bool_decide (l.1 ∈ tables s) then put (set_ptes (<[l := w]> (ptes s)) (tables s) s)
  else stop BadAccess.

Definition drop_table (k : Z) (e : gmap (Z * Z) Z) : gmap (Z * Z) Z :=
  filter (fun lw => lw.1.1 <> k) e.
(** memset of a freshly mapped page that becomes a table. *)
Definition table_clear (k : Z) : M mm unit :=
  modify (fun s => set_ptes (drop_table k (ptes s)) ({[k]} ∪ tables s) s).
(** The page at this address is not mapped any more. *)
Definition table_unmap (k : Z) : M mm unit :=
  modify (fun s => set_ptes (drop_table k (ptes s)) (tables s ∖ {[k]}) s).

(** ** Temporary kernel pages, first part *)

Definition sizeof_tmp_pages : Z := 128.

Definition tmp_page_get : M mm Z :=
  ASSERT_int_disable ;;
  s ← get;
  let r := bitmap_find_first_zero (tmp_pages s) sizeof_tmp_pages in
  if -1 <? r then
    b ← deref (bitmap_set (tmp_pages s) r);
    modify (set_tmp b) ;;
    mret (u32 (MMAP_KERNEL_TMP_PAGE_BASE + r * 0x1000))
  else
    ASSERT (negb (r =? -2)) ;;
    mret 0.

Definition tmp_page_put (va : Z) : M mm unit :=
  ASSERT_int_disable ;;
  let i := u32 (va - MMAP_KERNEL_TMP_PAGE_BASE) / 0x1000 in
  s ← get;
  b ← deref (bitmap_test (tmp_pages s) i);
  ASSERT b ;;
  bm ← deref (bitmap_reset (tmp_pages s) i);
  modify (set_tmp bm).

(** ** Mapping and unmapping *)

(** Some: the table and the index in it. *)
Definition page_get (d va : Z) : M mm (option (Z * Z)) :=
  i ← dir_rd d;
  let k := pgtable_of i (pdx va) in
  mret (if k =? NULL then None else Some (k, ptx va)).

(** The accounting by address range that ends both insert and remove. *)
Definition account (d v n : Z) : M mm unit :=
  if (MMAP_USER_BASE <=? v) && (v <? MMAP_USER_TOP) then dir_wr d (add_user n)
  else if (MMAP_KERNEL_BASE <=? v) && (v <? MMAP_KERNEL_TOP) then dir_wr d (add_kernel n)
  else PANIC.

Definition page_remove (d va : Z) (invl : bool) : M mm Z :=
  pushcli ;;
  o ← page_get d va;
  match o with
  | None => popcli ;; mret (- ENOMEM)
  | Some l =>
      w ← pte_rd l;
      if negb (present w) then popcli ;; mret (- ENOMEM) else
      refCount ← zp (page_dec_refCount (physAddr w));
      pte_wr l (PTE_t 0 0) ;;
      let v := va_addr va in
      account d v (-1) ;;
      s ← get;
      i ← dir_rd d;
      cur ← dir_rd (cr3_dir s);
      when (invl && ((d =? KDIR) || (pgdir_pa cur =? pgdir_pa i)))
        (modify (fun s => set_tlb (v :: tlb_log s) s)) ;;
      popcli ;;
      mret refCount
  end.

(** page_insert once the entry [l] is there, up to the return. *)
Definition insert_entry (d p va perm : Z) (l : Z * Z) : M mm Z :=
  w ← pte_rd l;
  when (present w) (r ← page_remove d va true; ASSERT (-1 <? r)) ;;
  rc ← zp (refcount_inc p);
  pte_wr l (PTE_t (page_addr p) perm) ;;
  account d (va_addr va) 1 ;;
  popcli ;;
  mret rc.

(** page_insert creates a missing table with pde_alloc, which maps a temporary
    page, which inserts into the kernel directory. [fuel] bounds this nesting;
    [insert_fuel] is enough because the table of the temporary pages exists. *)
Section mapping.
Context (insert : Z -> Z -> Z -> Z -> M mm Z).

Definition tmp_page_alloc_map_with (perm : Z) : M mm (Z * option Z * Z) :=
  ASSERT_int_disable ;;
  va ← tmp_page_get;
  if va =? 0 then mret (- ENOMEM, None, va) else
  '(err, p) ← zp page_alloc;
  if err <? 0 then tmp_page_put va ;; mret (err, p, va) else
  i ← deref p;
  err ← insert KDIR i va perm;
  if err <? 0 then zp (page_free i) ;; tmp_page_put va ;; mret (err, p, va)
  else mret (0, p, va).

Definition pde_alloc_with (d pde_no : Z) : M mm Z :=
  '(err, p, pt_va) ← tmp_page_alloc_map_with (Z.lor PTE_P PTE_W);
  if err <? 0 then mret (- ENOMEM) else
  let pt := va2kaddr pt_va in
  table_clear pt ;;
  pushcli ;;
  i ← deref p;
  dir_wr d (set_pde pde_no (PDE_t (page_addr i) (Z.lor PTE_P (Z.lor PTE_U PTE_W)))) ;;
  dir_wr d (set_pgtable pde_no pt) ;;
  dir_wr d (add_kernel 1) ;;
  popcli ;;
  mret 0.

Definition page_get_c_with (d va : Z) : M mm (option (Z * Z)) :=
  o ← page_get d va;
  match o with
  | Some l => mret (Some l)
  | None =>
      r ← pde_alloc_with d (pdx va);
      if r <? 0 then mret None else
      o ← page_get d va;
      ASSERT (bool_decide (is_Some o)) ;;
      mret o
  end.

Definition page_insert_with (d p va perm : Z) : M mm Z :=
  pushcli ;;
  o ← page_get_c_with d va;
  match o with
  | None => popcli ;; mret (- ENOMEM)
  | Some l => insert_entry d p va perm l
  end.
End mapping.

Fixpoint page_insert_fuel (fuel : nat) (d p va perm : Z) : M mm Z :=
  match fuel with
  | O => stop OutOfFuel
  | S f => page_insert_with (page_insert_fuel f) d p va perm
  end.

Definition insert_fuel : nat := 2.
Definition page_insert := page_insert_fuel insert_fuel.
(** The outer calls: an insert below them has one level less. *)
Definition tmp_page_alloc_map := tmp_page_alloc_map_with page_insert.
Definition pde_alloc := pde_alloc_with page_insert.
Definition page_get_c := page_get_c_with page_insert.

Definition tmp_page_free (va : Z) : M mm Z :=
  ASSERT_int_disable ;;
  ASSERT ((MMAP_KERNEL_TMP_PAGE_BASE <=? va) && (va <? MMAP_KERNEL_TOP)) ;;
  r ← page_remove KDIR va true;
  (* the memory behind va2kaddr va is gone *)
  when (-1 <? r) (table_unmap (va2kaddr va) ;; tmp_page_put va) ;;
  mret r.

Definition pde_free (d pde_no : Z) : M mm Z :=
  pushcli ;;
  i ← dir_rd d;
  r ← tmp_page_free (kaddr2va (pgtable_of i pde_no));
  ASSERT (r =? 0) ;;
  dir_wr d (add_kernel (-1)) ;;
  i ← dir_rd d;
  dir_wr d (set_pde pde_no (Z.ldiff (default 0 (pgdir i !! pde_no)) 1)) ;;
  dir_wr d (set_pgtable pde_no NULL) ;;
  popcli ;;
  mret 0.

Definition page_alloc_insert (d va perm : Z) : M mm Z :=
  pushcli ;;
  '(r, p) ← zp page_alloc;
  if r <? 0 then popcli ;; mret r else
  i ← deref p;
  r ← page_insert d i va perm;
  when (r <? 0) (zp (page_free i)) ;;
  popcli ;;
  mret r.

(** ** Segments *)

Definition segment_alloc_page (d i perm : Z) : M mm (option (Z * Z)) :=
  '(err, p) ← zp page_alloc;
  if err <? 0 then mret (Some (i, err)) else
  f ← deref p;
  err ← page_insert d f i perm;
  if err <? 0 then zp (page_free f) ;; mret (Some (i, err)) else mret None.

Definition segment_alloc (d va len perm : Z) : M mm Z :=
  ASSERT_int_disable ;;
  s ← get; i0 ← dir_rd d;
  let before := mem_free (phys s) in
  let end_ := roundUp (u32 (va + len)) in
  let va := roundDown va in
  r ← iter_until (fun i => segment_alloc_page d i perm) (range_step va end_ 0x1000);
  match r with
  | None => mret 0
  | Some (end_, err) =>
      iterM (fun i => r ← page_remove d i true; ASSERT (r =? 0)) (range_step va end_ 0x1000) ;;
      iterM (fun i => _ ← pde_free d i; mret tt) (range_step (pdx va) (pdx end_) 1) ;;
      i1 ← dir_rd d; s1 ← get;
      ASSERT (count_kernel i1 =? count_kernel i0) ;;
      ASSERT (mem_free (phys s1) =? before) ;;
      mret err
  end.

Definition segment_free (d va len : Z) : M mm unit :=
  ASSERT_int_disable ;;
  let end_ := roundUp (u32 (va + len)) in
  let va := roundDown va in
  iterM (fun i => _ ← page_remove d va true; mret tt) (range_step va end_ 0x1000).

(** ** Copying and sharing *)

(** memcpy between the page at [va] of the running directory and a frame. *)
Definition copy_frame (va p : Z) : M mm unit :=
  s ← get;
  o ← page_get (cr3_dir s) va;
  l ← deref o;
  w ← pte_rd l;
  modify (fun s => set_frames (<[p := default [] (frames s !! phys_page w)]> (frames s)) s).

Definition copy_page_from_current (dest va pm : Z) : M mm Z :=
  ASSERT_int_disable ;;
  '(r, p, tmp_va) ← tmp_page_alloc_map (Z.lor PTE_P PTE_W);
  if r <? 0 then mret r else
  f ← deref p;
  copy_frame va f ;;
  r ← page_insert dest f va (Z.land pm 0x7);
  if r <? 0 then
    r' ← tmp_page_free tmp_va; ASSERT (r' =? 0) ;; mret r
  else
    r' ← tmp_page_free tmp_va; ASSERT (-1 <? r') ;; mret 0.

(** The test is [!pte | !pte->present]: without a table the second operand
    reads address 0 of the kernel segment, the mapped frame 0, and is ignored. *)
Definition copy_pages_page (d src i : Z) : M mm (option Z) :=
  o ← page_get src i;
  match o with
  | None => mret None
  | Some l =>
  w ← pte_rd l;
  if negb (present w) then mret None else
  err ← copy_page_from_current d i (perm w);
  if err <? 0 then mret (Some err) else mret None
  end.

Definition copy_pages (d src start end_ : Z) : M mm Z :=
  ASSERT_int_disable ;;
  s ← get;
  cur ← dir_rd (cr3_dir s); si ← dir_rd src;
  if pgdir_pa si =? pgdir_pa cur then
    r ← iter_until (copy_pages_page d src) (range_step start end_ 0x1000);
    mret (default 0 r)
  else PANIC.

Definition link_pgtables (d src start end_ : Z) : M mm Z :=
  ASSERT_int_disable ;;
  iterM (fun i =>
    si ← dir_rd src;
    dir_wr d (set_pde i (default 0 (pgdir si !! i))) ;;
    dir_wr d (set_pgtable i (pgtable_of si i)))
    (range_step (pdx start) (pdx end_) 1) ;;
  mret 0.

Definition link_pages_page (d src perm i : Z) : M mm (option unit) :=
  o ← page_get src i;
  match o with
  | None => mret None
  | Some l =>
      w ← pte_rd l;
      if negb (present w) then mret None else
      r ← page_insert d (phys_page w) i perm;
      if r <? 0 then mret (Some tt) else mret None
  end.

Definition link_pages (d src start end_ perm : Z) : M mm Z :=
  ASSERT_int_disable ;;
  r ← iter_until (link_pages_page d src perm) (range_step start end_ 0x1000);
  match r with
  | None => mret 0
  | Some _ =>
      iterM (fun i => _ ← pde_free d i; mret tt) (range_step (pdx start) (pdx end_) 1) ;;
      mret (- ENOMEM)
  end.

(** ** User addresses *)

(** C's [!x] is 1 for zero and 0 otherwise. *)
Definition lnot (x : Z) : Z := if x =? 0 then 1 else 0.

Definition verify_page (d pm i : Z) : M mm (option Z) :=
  o ← page_get d i;
  match o with
  | None => mret (Some (-1))
  | Some l =>
      w ← pte_rd l;
      if negb (present w) || negb (Z.land pm (lnot (Z.land (perm w) pm)) =? 0)
      then mret (Some (-1)) else mret None
  end.

Definition verify_user_addr (d addr len pm : Z) : M mm Z :=
  let va := uaddr2va addr in
  let lim := u32 (va + len) in
  if (MMAP_USER_TOP <=? va) || (MMAP_USER_TOP <? lim) then mret (-1)
  else if (va <? MMAP_USER_BASE) || (lim <? MMAP_USER_BASE) then mret (-1)
  else r ← iter_until (verify_page d pm) (range_step va (roundUp lim) 0x1000);
       mret (default 0 r).

(** ** Boot *)

(** Where the linker script puts the read-only part of the kernel. *)
Record layout := mkLayout { text_start : Z; rodata_end : Z }.

Definition boot_page : M mm Z :=
  '(_, p) ← zp page_alloc; i ← deref p; mret (page_addr i).

(** One page table of the identity map; the count of mapped pages goes on. *)
Definition vm_init_table (ly : layout) (pageCount : Z) (mapped i : Z) : M mm Z :=
  pt ← boot_page;
  table_clear pt ;;
  let hi := i + pdx MMAP_KERNEL_BASE in
  dir_wr KDIR (set_pde hi (PDE_t pt (Z.lor PTE_P PTE_W))) ;;
  dir_wr KDIR (set_pgtable hi pt) ;;
  dir_wr KDIR (set_pde i (PDE_t pt (Z.lor PTE_P PTE_W))) ;;
  dir_wr KDIR (set_pgtable i pt) ;;
  foldM (fun mapped j =>
    if pageCount <? mapped then pte_wr (pt, j) (PTE_t 0 0) ;; mret mapped
    else
      let pa := u32 ((i * 1024 + j) * 0x1000) in
      pte_wr (pt, j) (PTE_t pa (if (text_start ly <=? pa) && (pa <? rodata_end ly)
                                then PTE_P else Z.lor PTE_P PTE_W)) ;;
      mret (mapped + 1)) mapped (seqZ 0 1024).

Definition page_table_count (mend : Z) : Z * Z :=
  let pageCount := mend / 0x1000 + 1 in
  let n := pageCount / 1024 + 1 in
  let n := if n * 1024 <? pageCount + n then n + 1 else n in
  (pageCount + n, n).

Definition tmp_page_init (pa : Z) : M mm unit :=
  modify (set_tmp (replicate 32 0)) ;;
  dir_wr KDIR (set_pde (pdx MMAP_KERNEL_TMP_PAGE_BASE) (PDE_t pa (Z.lor PTE_P PTE_W))) ;;
  dir_wr KDIR (set_pgtable (pdx MMAP_KERNEL_TMP_PAGE_BASE) pa).

Definition vm_init (ly : layout) (mend : Z) : M mm unit :=
  pgdir ← boot_page;
  modify (fun s => set_dirs (<[KDIR := mkDir pgdir ∅ ∅ 0 0 0 0 0 0 0]> (dirs s)) s) ;;
  _ ← boot_page;    (* kernel_dir->pgtables, the array of pointers *)
  init_free ← foldM (fun l _ => p ← boot_page; mret (l ++ [p])) [] (seqZ 0 10);
  let '(pageCount, n) := page_table_count mend in
  mapped ← foldM (vm_init_table ly pageCount) 0 (seqZ 0 n);
  modify (set_cr3 KDIR) ;;
  (* the identity map of the low addresses goes *)
  iterM (fun i => dir_wr KDIR (set_pde i (PDE_t 0 0)) ;; dir_wr KDIR (set_pgtable i NULL))
    (seqZ 0 (Z.shiftr mapped 10 + 1)) ;;
  pa ← deref (init_free !! 0%nat);
  table_clear pa ;;
  tmp_page_init pa.
