(* ===== verification/VirtRefs.v ===== *)
(** Reference counts and page table entries: the frame level of the proofs
    about VirtMem. [refs_ok base ph e] says that for every frame from [base] on
    the reference count of its descriptor is the number of present entries of
    [e] that map it; a free frame is mapped nowhere. *)

From S2P Require Import Prelude Spinlock Util PhysMem VirtMem.

Implicit Types (e : gmap (Z * Z) Z) (ph : pm) (l : Z * Z) (w p : Z).

(** ** Words *)

Lemma land_low_split a b :
  fits 32 a -> fits 12 b ->
  Z.lor (Z.land a 0xFFFFF000) b = (a / 4096) * 4096 + b.
Proof.
  intros Ha Hb. assert (E : Z.land a 0xFFFFF000 = (a / 4096) * 4096).
  { pose proof (land_clear_low a 12 Ha ltac:(lia)) as H.
    change (Z.lxor (2 ^ 32 - 1) (2 ^ 12 - 1)) with 0xFFFFF000 in H. rewrite H.
    change (2 ^ 12) with 4096. pose proof (Z.div_mod a 4096). lia. }
  rewrite E. by apply (lor_fields (a / 4096) b 12).
Qed.

Lemma perm_bits pm : fits 12 (Z.land pm 0xFFF).
Proof. change 0xFFF with (2 ^ 12 - 1). rewrite land_ones_mod by lia. apply Z.mod_pos_bound. lia. Qed.

Lemma page_addr_small p : 0 <= p < 2 ^ 20 -> page_addr p = p * 4096.
Proof. intros. unfold page_addr. apply u32_small. lia. Qed.

(** The entry of frame [p]: its frame number, its permissions. *)
Lemma PTE_t_value p pm :
  0 <= p < 2 ^ 20 -> PTE_t (page_addr p) pm = p * 4096 + Z.land pm 0xFFF.
Proof.
  intros Hp. unfold PTE_t. rewrite page_addr_small by done.
  rewrite land_low_split; [by rewrite Z.div_mul by lia|unfold fits; lia|apply perm_bits].
Qed.

Lemma PTE_t_perm p pm : 0 <= p < 2 ^ 20 -> perm (PTE_t (page_addr p) pm) = Z.land pm 0xFFF.
Proof.
  intros Hp. rewrite PTE_t_value by done. unfold perm at 1.
  change 0xFFF with (2 ^ 12 - 1) at 2. pose proof (perm_bits pm) as Hb. unfold fits in Hb.
  rewrite land_ones_mod by lia. change (2 ^ 12) with 4096 in *.
  rewrite Z.add_comm, Z.mod_add by lia. apply Z.mod_small. lia.
Qed.

Lemma PTE_t_bit p pm i : 0 <= p < 2 ^ 20 -> 0 <= i < 12 -> Z.testbit (PTE_t (page_addr p) pm) i = Z.testbit pm i.
Proof.
  intros Hp Hi. pose proof (PTE_t_perm p pm Hp) as H. apply (f_equal (fun z => Z.testbit z i)) in H.
  unfold perm in H. change 0xFFF with (Z.ones 12) in H. by rewrite !Z.land_spec, Z.ones_spec_low, !andb_true_r in H by lia.
Qed.

Lemma PTE_t_present p pm :
  0 <= p < 2 ^ 20 -> present (PTE_t (page_addr p) pm) = Z.testbit pm 0.
Proof. intros Hp. by apply PTE_t_bit. Qed.

Lemma PTE_t_page p pm : 0 <= p < 2 ^ 20 -> phys_page (PTE_t (page_addr p) pm) = p.
Proof.
  intros Hp. rewrite PTE_t_value by done. unfold phys_page, physAddr, phys_pgno, pageIndex.
  pose proof (perm_bits pm) as Hb. unfold fits in Hb. change (2 ^ 12) with 4096 in Hb.
  rewrite Z.shiftr_div_pow2 by lia. change (2 ^ 12) with 4096.
  rewrite Z.add_comm, Z.div_add by lia. rewrite (Z.div_small (Z.land pm 0xFFF)) by lia.
  rewrite Z.add_0_l. change 0xFFFFF with (2 ^ 20 - 1). rewrite land_ones_mod, Z.mod_small by lia.
  rewrite u32_small by lia. change 0x1000 with 4096. by rewrite Z.div_mul by lia.
Qed.

(** The physical address of any entry is the address of its frame. *)
Lemma physAddr_page w : physAddr w = page_addr (phys_page w) /\ 0 <= phys_page w < 2 ^ 20.
Proof.
  assert (Hp : 0 <= phys_pgno w < 2 ^ 20).
  { unfold phys_pgno. change 0xFFFFF with (2 ^ 20 - 1). rewrite land_ones_mod by lia.
    apply Z.mod_pos_bound. lia. }
  unfold phys_page, physAddr, pageIndex, page_addr. rewrite !(u32_small (phys_pgno w * 0x1000)) by lia.
  change 0x1000 with 4096. rewrite Z.div_mul by lia. split; [by rewrite u32_small by lia|done].
Qed.

Lemma PTE_zero_absent : present (PTE_t 0 0) = false.
Proof. reflexivity. Qed.

(** ** Counting the entries that map a frame *)

Definition maps_to p (lw : (Z * Z) * Z) : Prop := present lw.2 = true /\ phys_page lw.2 = p.

#[export] Instance maps_to_dec p lw : Decision (maps_to p lw).
Proof. unfold maps_to. apply _. Defined.

Definition nrefs e p : Z := Z.of_nat (size (filter (maps_to p) e)).

(** The entry at a location, absent words being zero. *)
Definition pte_at e l : Z := default 0 (e !! l).

Lemma nrefs_nonneg e p : 0 <= nrefs e p.
Proof. unfold nrefs. lia. Qed.

Lemma not_present_filter e l p : present (pte_at e l) = false -> filter (maps_to p) e !! l = None.
Proof.
  intros Hp. apply map_lookup_filter_None. destruct (e !! l) as [w|] eqn:E; [right|by left].
  intros w' Hw' [Hpr _]. simplify_eq/=. unfold pte_at in Hp. rewrite E in Hp. simpl in *. congruence.
Qed.

Lemma nrefs_delete e l p :
  nrefs (delete l e) p = nrefs e p - (if bool_decide (maps_to p (l, pte_at e l)) then 1 else 0).
Proof.
  unfold nrefs. rewrite map_filter_delete.
  destruct (filter (maps_to p) e !! l) as [w|] eqn:E.
  - pose proof (map_lookup_filter_Some_1_1 _ _ _ _ E) as Hl.
    pose proof (map_lookup_filter_Some_1_2 _ _ _ _ E) as Hm.
    rewrite bool_decide_true by (unfold pte_at; by rewrite Hl).
    rewrite map_size_delete_Some by eauto.
    assert (size (filter (maps_to p) e) <> 0%nat).
    { intros H0%map_size_empty_inv. by rewrite H0 in E. }
    lia.
  - rewrite bool_decide_false.
    + rewrite delete_id by done. lia.
    + intros [Hpr Hpg]. unfold pte_at in *. simpl in *. apply map_lookup_filter_None in E.
      destruct (e !! l) as [w|] eqn:El; [|done]. simpl in *. destruct E as [|E]; [done|].
      by apply (E w).
Qed.

Lemma nrefs_set e l w p :
  nrefs (<[l := w]> e) p =
  nrefs e p - (if bool_decide (maps_to p (l, pte_at e l)) then 1 else 0)
            + (if bool_decide (maps_to p (l, w)) then 1 else 0).
Proof.
  rewrite <- nrefs_delete. unfold nrefs. rewrite <- insert_delete_eq, map_filter_insert.
  case_bool_decide as Hm.
  - rewrite decide_True by done. rewrite map_size_insert_None; [lia|].
    apply map_lookup_filter_None. left. apply lookup_delete_eq.
  - rewrite decide_False by done. rewrite delete_delete_eq. lia.
Qed.

(** ** The invariant *)

Record refs_ok (base : Z) ph e : Prop := {
  ro_fl : exists q, fl_repr ph q;
  ro_cpu : cpu_ok (cpu_of ph) /\ IF (cpu_of ph) = false;
  ro_base : 0 < base;
  ro_free : forall p pg, pages ph !! p = Some pg -> free pg = true -> base <= p;
  ro_page : forall p pg, pages ph !! p = Some pg -> base <= p ->
    (free pg = false -> type pg = Type_available) /\ p < 2 ^ 20 /\
    0 <= nextFreeIndexOrRefCount pg < 2 ^ 20;
  ro_count : forall p pg, pages ph !! p = Some pg -> base <= p -> refcount_get pg = nrefs e p;
  ro_in : forall l w, e !! l = Some w -> present w = true -> base <= phys_page w ->
    is_Some (pages ph !! phys_page w);
}.

Section refs.
Context (base : Z).

Lemma refs_ok_cpu ph e c : refs_ok base ph e -> cpu_equiv c (cpu_of ph) -> refs_ok base (set_cpu c ph) e.
Proof.
  intros [[q R] [Hok HIF] H1 H2 H3 H4 H5] Hc. split; simpl; try done.
  - exists q. by apply fl_repr_cpu.
  - split; [by rewrite Hc|]. by destruct Hc as (-> & _).
Qed.

Lemma refs_ok_set_cpu ph e c :
  refs_ok base ph e -> cpu_ok c -> IF c = false -> refs_ok base (set_cpu c ph) e.
Proof.
  intros [[q R] _ H1 H2 H3 H4 H5] Hok HIF. split; simpl; try done.
  exists q. by apply fl_repr_cpu.
Qed.

(** Frames that are neither given out nor taken back keep their state. *)
Definition same_but ph ph' x : Prop :=
  (forall y pg, y <> x -> used_page ph' y pg <-> used_page ph y pg) /\
  (forall y, is_Some (pages ph' !! y) <-> is_Some (pages ph !! y)) /\
  (forall y pg, y <> x -> pages ph' !! y = Some pg -> free pg = true ->
     exists pg', pages ph !! y = Some pg' /\ free pg' = true) /\
  (forall y pg, pages ph' !! y = Some pg -> 0 <= nextFreeIndexOrRefCount pg < 2 ^ 20 \/
     pages ph !! y = Some pg).

Lemma refs_ok_step ph e ph' e' x :
  refs_ok base ph e -> base <= x -> same_but ph ph' x -> is_Some (pages ph !! x) ->
  (exists q, fl_repr ph' q) -> cpu_ok (cpu_of ph') /\ IF (cpu_of ph') = false ->
  (forall pg, pages ph' !! x = Some pg ->
     (free pg = false -> type pg = Type_available) /\ refcount_get pg = nrefs e' x) ->
  (forall y, y <> x -> nrefs e' y = nrefs e y) ->
  (forall l w, e' !! l = Some w -> present w = true -> e !! l = Some w \/ phys_page w = x) ->
  refs_ok base ph' e'.
Proof.
  intros R Hx (Hused & Hdom & Hfree & Hrange) Hxs Hfl Hcpu Hxp Hn He. split; try done.
  - apply R.
  - intros p pg Hp Hf. destruct (decide (p = x)) as [->|Hne]; [done|].
    destruct (Hfree p pg Hne Hp Hf) as (pg' & Hp' & Hf'). by eapply ro_free.
  - intros p pg Hp Hb. assert (Hr : 0 <= nextFreeIndexOrRefCount pg < 2 ^ 20).
    { destruct (Hrange p pg Hp) as [?|Hp']; [done|]. by eapply ro_page. }
    assert (Hp20 : p < 2 ^ 20).
    { destruct (proj1 (Hdom p) ltac:(eauto)) as [pg' Hp']. by eapply (ro_page base ph e R p pg'). }
    split_and!; [|done|lia|lia]. intros Hf. destruct (decide (p = x)) as [->|Hne].
    + by apply Hxp.
    + destruct (proj1 (Hused p pg Hne) ltac:(done)) as [Hp' _]. by apply (ro_page base ph e R p pg).
  - intros p pg Hp Hb. destruct (decide (p = x)) as [->|Hne]; [by apply Hxp|].
    rewrite Hn by done. destruct (free pg) eqn:Hf.
    + destruct (Hfree p pg Hne Hp Hf) as (pg' & Hp' & Hf').
      rewrite <- (ro_count base ph e R p pg' Hp' Hb). unfold refcount_get. by rewrite Hf, Hf'.
    + destruct (proj1 (Hused p pg Hne) ltac:(done)) as [Hp' _]. by apply (ro_count base ph e R).
  - intros l w Hl Hpr Hb. apply Hdom. destruct (He l w Hl Hpr) as [Hl'| ->]; [|done].
    by eapply (ro_in base ph e R).
Qed.

Lemma count_state_same ph x pg rc t :
  used_page ph x pg -> 0 <= rc < 2 ^ 20 -> same_but ph (count_state ph x rc t) x.
Proof.
  intros [Hx Hf] Hrc. split_and!.
  - intros. by apply count_state_used.
  - intros y. simpl. destruct (decide (y = x)) as [->|Hne].
    + rewrite lookup_insert_eq, Hx. split; eauto.
    + by rewrite lookup_insert_ne.
  - intros y py Hne. simpl. rewrite lookup_insert_ne by done. eauto.
  - intros y py. simpl. destruct (decide (y = x)) as [->|Hne].
    + rewrite lookup_insert_eq. intros [= <-]. by left.
    + rewrite lookup_insert_ne by done. by right.
Qed.

Lemma free_state_same ph x q pg :
  fl_repr ph q -> used_page ph x pg -> 0 < x < 2 ^ 20 -> same_but ph (free_state ph x q) x.
Proof.
  intros R Hu Hr. assert (Hnin : x ∉ q) by (by eapply used_not_in).
  assert (Hlast : forall y, y ∈ q -> exists n t, pages (free_state ph x q) !! y = Some (mkPage n true t)
            /\ (0 <= n < 2 ^ 20 \/ pages ph !! y = Some (mkPage n true t))).
  { intros y [i Hi]%list_elem_of_lookup. pose proof (free_state_repr ph x q R Hr Hnin) as R'.
    destruct (fr_chain _ _ R' i y) as [t Ht]; [by rewrite lookup_app_l by (by eapply lookup_lt_Some)|].
    eexists _, _. split; [done|]. left.
    destruct ((q ++ [x]) !! S i) as [z|] eqn:Ez; simpl; [|lia].
    pose proof (fr_range _ _ R') as Hall. rewrite Forall_lookup in Hall. specialize (Hall _ _ Ez).
    simpl in Hall. lia. }
  split_and!.
  - intros. by apply free_state_used.
  - intros y. destruct (decide (y ∈ q)) as [Hy|Hy].
    + destruct (Hlast y Hy) as (n & t & -> & _). apply list_elem_of_lookup in Hy as [i Hi].
      destruct (fr_chain _ _ R i y Hi) as [t' ->]. split; eauto.
    + simpl. rewrite relink_lookup by done. destruct (decide (y = x)) as [->|Hne].
      * destruct Hu as [-> _]. rewrite lookup_insert_eq. split; eauto.
      * by rewrite lookup_insert_ne.
  - intros y py Hne Hy Hf. destruct (decide (y ∈ q)) as [Hin|Hnq].
    + apply list_elem_of_lookup in Hin as [i Hi]. destruct (fr_chain _ _ R i y Hi) as [t' Ht].
      eexists. by split.
    + simpl in Hy. rewrite relink_lookup, lookup_insert_ne in Hy by done. eauto.
  - intros y py Hy. destruct (decide (y ∈ q)) as [Hin|Hnq].
    + destruct (Hlast y Hin) as (n & t & Hy' & Hcase). rewrite Hy in Hy'. simplify_eq. exact Hcase.
    + simpl in Hy. rewrite relink_lookup in Hy by done. destruct (decide (y = x)) as [->|Hne].
      * rewrite lookup_insert_eq in Hy. simplify_eq/=. left. simpl. lia.
      * rewrite lookup_insert_ne in Hy by done. by right.
Qed.

(** Allocation: no memory, or an unmapped frame with no references. *)
Lemma refs_alloc ph e :
  refs_ok base ph e ->
  page_alloc ph = Done (- ENOMEM, None) ph \/
  exists x ph', page_alloc ph = Done (0, Some x) ph' /\ refs_ok base ph' e /\ cpu_of ph' = cpu_of ph /\
    base <= x < 2 ^ 20 /\ nrefs e x = 0 /\ used_page ph' x (mkPage 0 false Type_available) /\
    (forall y pg, y <> x -> used_page ph' y pg <-> used_page ph y pg) /\
    (forall pg, ~ used_page ph x pg).
Proof.
  intros R. destruct (ro_fl _ _ _ R) as [[|x q] F]; [left|right].
  { apply page_alloc_nil; [done|apply R]. }
  destruct (fr_chain _ _ F 0%nat x) as [t Ht]; [done|].
  pose proof (ro_free _ _ _ R _ _ Ht ltac:(done)) as Hb.
  pose proof (ro_count _ _ _ R _ _ Ht Hb) as Hn. cbv [refcount_get free] in Hn.
  destruct (ro_page _ _ _ R _ _ Ht Hb) as (_ & H20 & _).
  assert (Hother : forall y pg, y <> x -> pages (alloc_state ph x q) !! y = Some pg <-> pages ph !! y = Some pg).
  { intros y pg Hne. simpl. by rewrite lookup_insert_ne. }
  assert (Hnew : pages (alloc_state ph x q) !! x = Some (mkPage 0 false Type_available))
    by (simpl; apply lookup_insert_eq).
  exists x, (alloc_state ph x q). split; [by apply page_alloc_cons; [|apply R]|].
  split_and!; [|done|done|done|done|by split|intros; unfold used_page; by rewrite Hother|].
  2: { intros pg [Hpg Hfr]. by simplify_eq. }
  apply (refs_ok_step ph e _ e x R Hb); [|by eauto|exists q; by apply alloc_state_repr|apply R| |done|by eauto].
  - split_and!.
    + intros y pg Hne. unfold used_page. by rewrite Hother.
    + intros y. destruct (decide (y = x)) as [->|Hne]; [rewrite Hnew, Ht; split; eauto|].
      simpl. by rewrite lookup_insert_ne.
    + intros y pg Hne Hy%Hother Hf; [|done]. eauto.
    + intros y pg. destruct (decide (y = x)) as [->|Hne].
      * rewrite Hnew. intros [= <-]. left. simpl. lia.
      * rewrite Hother by done. by right.
  - intros pg. rewrite Hnew. intros [= <-]. done.
Qed.

(** Giving back a frame that is mapped nowhere. *)
Lemma refs_page_free ph e x :
  refs_ok base ph e -> base <= x -> nrefs e x = 0 ->
  used_page ph x (mkPage 0 false Type_available) ->
  exists ph', page_free x ph = Done tt ph' /\ refs_ok base ph' e /\ cpu_of ph' = cpu_of ph /\
    (forall y pg, y <> x -> used_page ph' y pg <-> used_page ph y pg).
Proof.
  intros R Hb Hn Hu. destruct (ro_fl _ _ _ R) as [q F].
  pose proof (ro_base _ _ _ R). destruct (ro_page _ _ _ R _ _ (proj1 Hu) Hb) as (_ & H20 & _).
  assert (Hnin : x ∉ q) by (by eapply used_not_in).
  exists (free_state ph x q). split; [apply page_free_run; [done|apply R|lia|done]|].
  split_and!; [|done|by intros; apply free_state_used].
  apply (refs_ok_step ph e _ e x R Hb); [..|done|by eauto].
  - by eapply free_state_same; [| |lia].
  - destruct Hu as [-> _]. eauto.
  - eexists. apply free_state_repr; [done|lia|done].
  - apply R.
  - intros pg. simpl. rewrite relink_lookup, lookup_insert_eq by done. intros [= <-]. done.
Qed.

Lemma maps_to_frame l w p : present w = true -> bool_decide (maps_to p (l, w)) = bool_decide (phys_page w = p).
Proof. intros Hw. apply bool_decide_ext. unfold maps_to; simpl. tauto. Qed.

Lemma maps_to_absent l w p : present w = false -> bool_decide (maps_to p (l, w)) = false.
Proof. intros Hw. apply bool_decide_false. intros [H _]. simpl in H. congruence. Qed.

(** A mapped frame is in use, with its references counted. *)
Lemma refs_used ph e x : refs_ok base ph e -> base <= x -> 0 < nrefs e x ->
  used_page ph x (mkPage (nrefs e x) false Type_available).
Proof.
  intros R Hb Hn. assert (Hm : filter (maps_to x) e <> ∅) by (intros E; unfold nrefs in Hn; rewrite E, map_size_empty in Hn; lia).
  apply map_choose in Hm as (l & w & Hw). apply map_lookup_filter_Some in Hw as [Hl [Hp Hx]]. cbn in Hp, Hx. subst x.
  destruct (ro_in _ _ _ R l w Hl Hp Hb) as [[rc f t] Hpg]. pose proof (ro_count _ _ _ R _ _ Hpg Hb) as Hc.
  destruct (ro_page _ _ _ R _ _ Hpg Hb) as (Ht & _). unfold refcount_get in Hc. destruct f; cbn in Hc, Ht; [lia|].
  specialize (Ht eq_refl) as ->. split; [by rewrite Hpg, Hc|done].
Qed.

(** Mapping a used frame at an absent entry: one reference more. *)
Lemma refs_map ph e x rc l w :
  refs_ok base ph e -> base <= x -> used_page ph x (mkPage rc false Type_available) ->
  rc < 2 ^ 20 - 1 -> present (pte_at e l) = false -> present w = true -> phys_page w = x ->
  refcount_inc x ph = Done (rc + 1) (count_state ph x (rc + 1) Type_available) /\
  refs_ok base (count_state ph x (rc + 1) Type_available) (<[l := w]> e).
Proof.
  intros R Hb Hu Hrc Hl Hw Hwp.
  destruct (ro_page _ _ _ R _ _ (proj1 Hu) Hb) as (_ & _ & Hr). cbn in Hr.
  pose proof (ro_count _ _ _ R _ _ (proj1 Hu) Hb) as Hn. cbv [refcount_get free nextFreeIndexOrRefCount] in Hn.
  split; [apply refcount_inc_run; [done|lia]|].
  assert (Hset : forall y, nrefs (<[l := w]> e) y = nrefs e y + if bool_decide (y = x) then 1 else 0).
  { intros y. rewrite nrefs_set, maps_to_absent, maps_to_frame, Hwp by done.
    rewrite (bool_decide_ext (x = y) (y = x)) by (split; congruence). lia. }
  apply (refs_ok_step ph e _ _ x R Hb).
  - eapply count_state_same; [done|lia].
  - destruct Hu as [-> _]. eauto.
  - destruct (ro_fl _ _ _ R) as [q F]. exists q. by eapply count_state_repr.
  - apply R.
  - intros pg. simpl. rewrite lookup_insert_eq. intros [= <-]. split; [done|].
    rewrite Hset, bool_decide_true by done. cbv [refcount_get free nextFreeIndexOrRefCount]. lia.
  - intros y Hne. rewrite Hset, bool_decide_false by done. lia.
  - intros l' w' Hl' Hw'. destruct (decide (l' = l)) as [->|Hne].
    + rewrite lookup_insert_eq in Hl'. simplify_eq. by right.
    + rewrite lookup_insert_ne in Hl' by done. by left.
Qed.

(** Unmapping: one reference less, and the frame is free when it was the last. *)
Lemma refs_unmap ph e l w x :
  refs_ok base ph e -> e !! l = Some w -> present w = true -> phys_page w = x -> base <= x ->
  exists ph', page_dec_refCount (physAddr w) ph = Done (nrefs e x - 1) ph' /\
    refs_ok base ph' (<[l := PTE_t 0 0]> e) /\ cpu_equiv (cpu_of ph') (cpu_of ph) /\ 1 <= nrefs e x /\
    (forall y pg, y <> x -> used_page ph' y pg <-> used_page ph y pg).
Proof.
  intros R Hl Hw Hwp Hb. destruct (physAddr_page w) as [Ea _]. rewrite Hwp in Ea.
  destruct (ro_in _ _ _ R l w Hl Hw ltac:(lia)) as [pg Hpg]. rewrite Hwp in Hpg.
  assert (Hset : forall y, nrefs (<[l := PTE_t 0 0]> e) y = nrefs e y - if bool_decide (y = x) then 1 else 0).
  { intros y. rewrite nrefs_set. unfold pte_at. rewrite Hl. change (default 0 (Some w)) with w.
    rewrite (maps_to_absent l (PTE_t 0 0)) by done.
    rewrite maps_to_frame, Hwp by done. rewrite (bool_decide_ext (x = y) (y = x)) by (split; congruence). lia. }
  assert (H1 : 1 <= nrefs e x).
  { pose proof (nrefs_nonneg (<[l := PTE_t 0 0]> e) x) as H0. rewrite Hset, bool_decide_true in H0 by done. lia. }
  pose proof (ro_count _ _ _ R _ _ Hpg Hb) as Hn.
  destruct (ro_page _ _ _ R _ _ Hpg Hb) as (Hty & H20 & Hr).
  destruct pg as [rc f t]; destruct f; cbv [refcount_get free nextFreeIndexOrRefCount] in Hn; [lia|].
  specialize (Hty eq_refl). simpl in Hty, Hr. subst t.
  pose proof (ro_base _ _ _ R) as Hb0. destruct (ro_fl _ _ _ R) as [q F].
  assert (Hu : used_page ph x (mkPage rc false Type_available)) by done.
  destruct (refcount_dec_run ph q x rc Type_available F) as (c & Hc & Hrun);
    [apply R|lia|lia|done|done|].
  set (ph1 := dec_state ph x rc Type_available q) in *.
  assert (Hcpu1 : cpu_of ph1 = cpu_of ph) by (unfold ph1, dec_state; by destruct (rc =? 1)).
  exists (set_cpu c ph1). rewrite <- Hn.
  assert (Hinv : refs_ok base ph1 (<[l := PTE_t 0 0]> e)).
  { apply (refs_ok_step ph e _ _ x R Hb).
    - unfold ph1, dec_state. destruct (Z.eqb_spec rc 1).
      + by eapply free_state_same; [| |lia].
      + eapply count_state_same; [done|lia].
    - eauto.
    - unfold ph1, dec_state. destruct (Z.eqb_spec rc 1).
      + exists (q ++ [x]). apply free_state_repr; [done|lia|by eapply used_not_in].
      + exists q. by eapply count_state_repr.
    - rewrite Hcpu1. apply R.
    - intros pg. rewrite Hset, bool_decide_true by done. unfold ph1, dec_state. destruct (Z.eqb_spec rc 1); simpl.
      + rewrite relink_lookup, lookup_insert_eq by (by eapply used_not_in). intros [= <-].
        cbv [refcount_get free]. split; [done|lia].
      + rewrite lookup_insert_eq. intros [= <-]. cbv [refcount_get free nextFreeIndexOrRefCount]. split; [done|lia].
    - intros y Hne. rewrite Hset, bool_decide_false by done. lia.
    - intros l' w' Hl' Hw'. destruct (decide (l' = l)) as [->|Hne].
      + rewrite lookup_insert_eq in Hl'. simplify_eq.
      + rewrite lookup_insert_ne in Hl' by done. by left. }
  split_and!.
  - unfold page_dec_refCount. rewrite (bind_done ASSERT_int_disable _ ph tt ph) by (apply int_disable_run, R).
    rewrite Ea. destruct (page_addr_index x ltac:(lia)) as [-> ->]. exact Hrun.
  - apply refs_ok_cpu; [done|by rewrite Hcpu1].
  - by rewrite cpu_of_set.
  - lia.
  - intros y pg Hne. unfold used_page. change (pages (set_cpu c ph1)) with (pages ph1).
    unfold ph1, dec_state. destruct (rc =? 1); [by apply free_state_used|by apply count_state_used].
Qed.
End refs.
