(* ===== verification/VirtMap.v ===== *)
(** The mapping invariant of VirtMem and the operations that keep it.

    [mm_ok base s]: the reference counts agree with the page tables (VirtRefs),
    every table pointer of every directory is mapped, and the bitmap of temporary
    pages covers the entries of its table and the tables that live there. The
    lemmas run page_remove, page_insert, tmp_page_alloc_map, tmp_page_free and
    page_alloc_insert from such a state; the theorem at the end closes them under
    arbitrary sequences. *)

From S2P Require Import Prelude Spinlock Util Bitmap PhysMem VirtMem VirtRefs.

Implicit Types (s : mm) (l : Z * Z) (d va : Z).

(** * The invariant *)

Definition TMPX : Z := pdx MMAP_KERNEL_TMP_PAGE_BASE.
Definition tmp_va (r : Z) : Z := MMAP_KERNEL_TMP_PAGE_BASE + r * 0x1000.

(** The table pointers of a directory, and where an address is looked up. *)
Definition tabs_of s d : option (gmap Z Z) := pgtables <$> dirs s !! d.
Definition table_at (ts : gmap Z Z) (n : Z) : option Z :=
  let k := default NULL (ts !! n) in if k =? NULL then None else Some k.
Definition loc_of s d va : option (Z * Z) :=
  ts ← tabs_of s d; k ← table_at ts (pdx va); Some (k, ptx va).
Definition tmp_table s : option Z := ts ← tabs_of s KDIR; table_at ts TMPX.

Record mm_ok (base : Z) s : Prop := {
  mo_refs : refs_ok base (phys s) (ptes s);
  mo_live : forall l w, ptes s !! l = Some w -> l.1 ∈ tables s;
  mo_bm : bm_wf (tmp_pages s) /\ length (tmp_pages s) = 32%nat;
  mo_tmp : exists K, tmp_table s = Some K /\ K ∈ tables s;
  mo_tabs : forall d ts n k, tabs_of s d = Some ts -> table_at ts n = Some k ->
    k ∈ tables s /\ (tmp_table s = Some k -> n = TMPX);
  mo_slots : forall K r, tmp_table s = Some K -> present (pte_at (ptes s) (K, r)) = true ->
    0 <= r /\ bm_bit (tmp_pages s) r = true /\ base <= phys_page (pte_at (ptes s) (K, r));
  mo_kaddr : forall r, 0 <= r < 1024 -> va2kaddr (tmp_va r) ∈ tables s ->
    bm_bit (tmp_pages s) r = true;
  mo_cr3 : is_Some (dirs s !! cr3_dir s);
}.

(** What the mapping operations leave alone. *)
Record same_maps s s' : Prop := {
  sm_tables : tables s' = tables s;
  sm_tabs : forall d, tabs_of s' d = tabs_of s d;
  sm_len : length (tmp_pages s') = length (tmp_pages s);
  sm_bits : forall r, 0 <= r -> bm_bit (tmp_pages s') r = bm_bit (tmp_pages s) r;
  sm_wf : bm_wf (tmp_pages s) -> bm_wf (tmp_pages s');
  sm_cr3 : cr3_dir s' = cr3_dir s;
}.

#[export] Instance same_maps_refl : Reflexive same_maps.
Proof. by split. Qed.

#[export] Instance same_maps_trans : Transitive same_maps.
Proof.
  intros s1 s2 s3 [] []. split; try congruence; [|by auto].
  intros r Hr. etransitivity; eauto.
Qed.

Lemma same_maps_loc s s' d va : same_maps s s' -> loc_of s' d va = loc_of s d va.
Proof. intros H. unfold loc_of. by rewrite (sm_tabs _ _ H). Qed.

Lemma same_maps_tmp s s' : same_maps s s' -> tmp_table s' = tmp_table s.
Proof. intros H. unfold tmp_table. by rewrite (sm_tabs _ _ H). Qed.

Lemma same_maps_cpu s c : same_maps s (set_cpu c s).
Proof. by split. Qed.

Section keep.
Context (base : Z).

Lemma tabs_dir s d ts : tabs_of s d = Some ts -> exists i, dirs s !! d = Some i /\ pgtables i = ts.
Proof. unfold tabs_of. destruct (dirs s !! d) as [i|]; simpl; naive_solver. Qed.

(** A change of one entry and of descriptors. *)
Lemma mm_ok_set s s' l w :
  mm_ok base s -> refs_ok base (phys s') (ptes s') -> same_maps s s' ->
  ptes s' = <[l := w]> (ptes s) -> l.1 ∈ tables s ->
  (tmp_table s = Some l.1 -> present w = true ->
     0 <= l.2 /\ bm_bit (tmp_pages s) l.2 = true /\ base <= phys_page w) ->
  mm_ok base s'.
Proof.
  intros O R Sm He Hl Hnew. split.
  - done.
  - rewrite He, (sm_tables _ _ Sm). intros l' w' Hl'. destruct (decide (l' = l)) as [->|Hne]; [done|].
    rewrite lookup_insert_ne in Hl' by done. by eapply mo_live.
  - rewrite (sm_len _ _ Sm). split; [apply (sm_wf _ _ Sm)|]; apply (mo_bm _ _ O).
  - rewrite (same_maps_tmp _ _ Sm), (sm_tables _ _ Sm). apply O.
  - intros d ts n k. rewrite (sm_tabs _ _ Sm), (sm_tables _ _ Sm), (same_maps_tmp _ _ Sm). apply O.
  - intros K r. rewrite (same_maps_tmp _ _ Sm), He. intros HK. unfold pte_at.
    destruct (decide (l = (K, r))) as [->|Hne].
    + rewrite lookup_insert_eq. simpl. intros Hp. destruct (Hnew HK Hp) as (H0 & Hb & Hbase).
      simpl in *. by rewrite (sm_bits _ _ Sm).
    + rewrite lookup_insert_ne by done. intros Hp. destruct (mo_slots _ _ O K r HK Hp) as (H0 & ?).
      by rewrite (sm_bits _ _ Sm).
  - intros r Hr. rewrite (sm_tables _ _ Sm), (sm_bits _ _ Sm) by lia. by apply O.
  - rewrite (sm_cr3 _ _ Sm). pose proof (mo_cr3 _ _ O) as [i Hi].
    pose proof (sm_tabs _ _ Sm (cr3_dir s)) as Ht. unfold tabs_of in Ht. rewrite Hi in Ht.
    destruct (dirs s' !! cr3_dir s); [eauto|done].
Qed.

Lemma mm_ok_cpu s c :
  mm_ok base s -> cpu_ok c -> IF c = false -> mm_ok base (set_cpu c s).
Proof.
  intros O Hok HIF. destruct O as [R H1 H2 H3 H4 H5 H6 H7]. split; try done.
  destruct R as [[q F] _ B1 B2 B3 B4 B5]. split; try done. exists q. by apply fl_repr_cpu.
Qed.

Lemma mm_ok_push s : mm_ok base s -> mm_ok base (set_cpu (do_pushcli (cpu_of s)) s).
Proof. intros O. apply mm_ok_cpu; [done| |done]. apply do_pushcli_ok. apply (mo_refs _ _ O). Qed.

Lemma mm_ok_equiv s c c0 :
  mm_ok base s -> cpu_ok c0 -> IF c0 = false -> cpu_equiv c c0 -> mm_ok base (set_cpu c s).
Proof. intros O Hok HIF Hc. apply mm_ok_cpu; [done|by rewrite Hc|]. by destruct Hc as (-> & _). Qed.

Lemma mm_cpu s : mm_ok base s -> cpu_ok (cpu_of s) /\ IF (cpu_of s) = false.
Proof. intros O. apply (mo_refs _ _ O). Qed.

(** ** Runs of the small operations *)

Lemma zp_run {A} (m : M pm A) s a ph : m (phys s) = Done a ph -> zp m s = Done a (set_phys ph s).
Proof. unfold zp, zoom. by intros ->. Qed.

Lemma dir_rd_run s d i : dirs s !! d = Some i -> dir_rd d s = Done i s.
Proof. intros H. unfold dir_rd. m_unfold. by rewrite H. Qed.

Lemma dir_wr_run s d i f :
  dirs s !! d = Some i -> dir_wr d f s = Done tt (set_dirs (<[d := f i]> (dirs s)) s).
Proof. intros H. unfold dir_wr. by rewrite (bind_done _ _ _ _ _ (dir_rd_run _ _ _ H)). Qed.

Lemma page_get_run s d va ts : tabs_of s d = Some ts -> page_get d va s = Done (loc_of s d va) s.
Proof.
  intros Ht. destruct (tabs_dir _ _ _ Ht) as (i & Hi & <-). unfold page_get.
  rewrite (bind_done _ _ _ _ _ (dir_rd_run _ _ _ Hi)). unfold loc_of. rewrite Ht. simpl.
  unfold table_at, pgtable_of. m_unfold. by destruct (_ =? NULL).
Qed.

Lemma loc_of_tabs s d va l : loc_of s d va = Some l -> exists ts, tabs_of s d = Some ts.
Proof. unfold loc_of. destruct (tabs_of s d); simpl; eauto. done. Qed.

Lemma loc_of_table s d va l :
  mm_ok base s -> loc_of s d va = Some l ->
  l.1 ∈ tables s /\ l.2 = ptx va /\ (tmp_table s = Some l.1 -> pdx va = TMPX).
Proof.
  intros O. unfold loc_of. destruct (tabs_of s d) as [ts|] eqn:Et; simpl; [|done].
  destruct (table_at ts (pdx va)) as [k|] eqn:Ek; simpl; [|done]. intros [= <-]. simpl.
  destruct (mo_tabs _ _ O d ts (pdx va) k Et Ek). by split_and!.
Qed.

Lemma pte_rd_run s l : l.1 ∈ tables s -> pte_rd l s = Done (pte_at (ptes s) l) s.
Proof. intros H. unfold pte_rd. m_unfold. by rewrite bool_decide_true. Qed.

Lemma pte_wr_run s l w :
  l.1 ∈ tables s -> pte_wr l w s = Done tt (set_ptes (<[l := w]> (ptes s)) (tables s) s).
Proof. intros H. unfold pte_wr. m_unfold. by rewrite bool_decide_true. Qed.

Lemma tabs_of_insert s d i i' d' :
  dirs s !! d = Some i -> pgtables i' = pgtables i ->
  tabs_of (set_dirs (<[d := i']> (dirs s)) s) d' = tabs_of s d'.
Proof.
  intros Hi Hp. unfold tabs_of; simpl. destruct (decide (d = d')) as [<-|Hne].
  - rewrite lookup_insert_eq, Hi. simpl. by rewrite Hp.
  - by rewrite lookup_insert_ne.
Qed.

(** The address ranges of the accounting; beyond them the kernel panics. *)
Definition accountable (v : Z) : bool := (0 <=? v) && (v <? MMAP_KERNEL_TOP).

Lemma account_run s d v n ts :
  tabs_of s d = Some ts -> accountable v = true ->
  exists ds, account d v n s = Done tt (set_dirs ds s) /\
    (forall d', tabs_of (set_dirs ds s) d' = tabs_of s d').
Proof.
  intros Ht Hv. destruct (tabs_dir _ _ _ Ht) as (i & Hi & _). unfold account.
  assert (Hone : forall f, (forall j, pgtables (f j) = pgtables j) -> exists ds,
    dir_wr d f s = Done tt (set_dirs ds s) /\ (forall d', tabs_of (set_dirs ds s) d' = tabs_of s d')).
  { intros f Hf. exists (<[d := f i]> (dirs s)). split; [by apply dir_wr_run|].
    intros d'. by eapply tabs_of_insert. }
  unfold accountable in Hv. apply andb_prop in Hv as [H0%Z.leb_le H1%Z.ltb_lt].
  destruct (MMAP_USER_BASE <=? v) eqn:E1; [|unfold MMAP_USER_BASE in *; apply Z.leb_gt in E1; lia].
  destruct (v <? MMAP_USER_TOP) eqn:E2; simpl; [by apply Hone|].
  apply Z.ltb_ge in E2. unfold MMAP_KERNEL_BASE, MMAP_USER_TOP, MMAP_KERNEL_TOP in *.
  destruct (Z.leb_spec 0xC0000000 v); [|lia]. destruct (Z.ltb_spec v 0xF0000000); [|lia].
  simpl. by apply Hone.
Qed.

(** ** page_remove *)

(** Used frames other than [x] keep their descriptors. *)
Definition used_but s s' (x : Z) : Prop :=
  forall y pg, y <> x -> used_page (phys s') y pg <-> used_page (phys s) y pg.

(** The TLB entry is flushed for the running and for the kernel directory. *)
Lemma flush_run s d va invl ts :
  tabs_of s d = Some ts -> is_Some (dirs s !! cr3_dir s) ->
  exists log, (s ← get; i ← dir_rd d; cur ← dir_rd (cr3_dir s);
    when (invl && ((d =? KDIR) || (pgdir_pa cur =? pgdir_pa i)))
      (modify (fun s => set_tlb (va_addr va :: tlb_log s) s))) s = Done tt (set_tlb log s).
Proof.
  intros Ht [cur Hcur]. destruct (tabs_dir _ _ _ Ht) as (i & Hi & _).
  rewrite (bind_done get _ s s s) by done.
  rewrite (bind_done _ _ _ _ _ (dir_rd_run _ _ _ Hi)), (bind_done _ _ _ _ _ (dir_rd_run _ _ _ Hcur)).
  destruct (invl && _); [by eexists|]. exists (tlb_log s). by destruct s.
Qed.

Lemma page_remove_run s d va invl l :
  mm_ok base s -> loc_of s d va = Some l -> present (pte_at (ptes s) l) = true ->
  base <= phys_page (pte_at (ptes s) l) -> accountable (va_addr va) = true ->
  let x := phys_page (pte_at (ptes s) l) in
  exists s', page_remove d va invl s = Done (nrefs (ptes s) x - 1) s' /\ mm_ok base s' /\
    same_maps s s' /\ ptes s' = <[l := PTE_t 0 0]> (ptes s) /\ used_but s s' x /\
    1 <= nrefs (ptes s) x /\ cpu_equiv (cpu_of s') (cpu_of s).
Proof.
  intros O Hl Hp Hb Hv x. destruct (loc_of_tabs _ _ _ _ Hl) as [ts Ht].
  destruct (loc_of_table _ _ _ _ O Hl) as (Hin & _ & _). destruct (mm_cpu _ O) as [Hok HIF].
  assert (Hw : ptes s !! l = Some (pte_at (ptes s) l)).
  { unfold pte_at in *. by destruct (ptes s !! l). }
  set (s1 := set_cpu (do_pushcli (cpu_of s)) s).
  assert (O1 : mm_ok base s1) by (by apply mm_ok_push).
  destruct (refs_unmap base (phys s1) (ptes s) l _ x (mo_refs _ _ O1) Hw Hp eq_refl Hb)
    as (ph & Hdec & R & Hcpu & H1 & Hu).
  set (s2 := set_ptes (<[l := PTE_t 0 0]> (ptes s)) (tables s) (set_phys ph s1)).
  destruct (account_run s2 d (va_addr va) (-1) ts Ht Hv) as (ds & Hacc & Htabs).
  set (s3 := set_dirs ds s2) in *.
  destruct (flush_run s3 d va invl ts) as [log Hfl]; [by rewrite Htabs| |].
  { destruct (mo_cr3 _ _ O) as [i Hi]. pose proof (Htabs (cr3_dir s)) as Hc. unfold tabs_of in Hc.
    simpl in Hc. rewrite Hi in Hc. simpl. destruct (ds !! cr3_dir s); [eauto|done]. }
  set (s4 := set_tlb log s3) in *.
  destruct (popcli_run s s4 Hok) as (c & Hpop & Hc); [exact Hcpu|].
  assert (Sm : same_maps s (set_cpu c s4)).
  { by split. }
  exists (set_cpu c s4). split_and!; [|..|done|done|exact Hu|done|done].
  - unfold page_remove, pushcli. rewrite (bind_done _ _ s tt s1) by done.
    rewrite (bind_done _ _ _ _ _ (page_get_run s1 d va ts Ht)).
    change (loc_of s1 d va) with (loc_of s d va). rewrite Hl.
    rewrite (bind_done _ _ _ _ _ (pte_rd_run s1 l Hin)). change (ptes s1) with (ptes s). rewrite Hp.
    cbn [negb]. rewrite (bind_done _ _ _ _ _ (zp_run _ s1 _ _ Hdec)).
    rewrite (bind_done _ _ _ tt s2) by (by rewrite pte_wr_run).
    rewrite (bind_done _ _ _ _ _ Hacc).
    rewrite (bind_done get _ s3 s3 s3) by done. rewrite (bind_done get _ s3 s3 s3) in Hfl by done.
    apply bind_inv in Hfl as (i & s3' & Hi & Hfl). rewrite (bind_done _ _ _ _ _ Hi).
    apply bind_inv in Hfl as (cur & s3'' & Hcur & Hfl). rewrite (bind_done _ _ _ _ _ Hcur).
    rewrite (bind_done _ _ _ _ _ Hfl), (bind_done _ _ _ _ _ Hpop). done.
  - apply (mm_ok_set s _ l (PTE_t 0 0)); try done.
    apply refs_ok_set_cpu; [exact R|by rewrite Hc|by destruct Hc as (-> & _)].
Qed.

(** ** page_insert *)

(** The state in which an entry has just been written. *)
Definition mapped_at s s' l p pm rc : Prop :=
  mm_ok base s' /\ same_maps s s' /\ ptes s' = <[l := PTE_t (page_addr p) pm]> (ptes s) /\
  used_page (phys s') p (mkPage rc false Type_available) /\ used_but s s' p.

Lemma mapped_at_cpu s s' c l p pm rc :
  mapped_at (set_cpu c s) s' l p pm rc -> mapped_at s s' l p pm rc.
Proof.
  intros (H1 & H2 & H3 & H4 & H5). split_and!; try done.
  etransitivity; [apply same_maps_cpu|exact H2].
Qed.

Lemma frame_range s p pg : mm_ok base s -> base <= p -> pages (phys s) !! p = Some pg -> 0 <= p < 2 ^ 20.
Proof.
  intros O Hb Hp. pose proof (ro_base _ _ _ (mo_refs _ _ O)).
  destruct (ro_page _ _ _ (mo_refs _ _ O) p pg Hp Hb) as (_ & ? & _). lia.
Qed.

Lemma insert_entry_run s0 s d va p pm l rc :
  cpu_ok (cpu_of s0) -> IF (cpu_of s0) = false -> cpu_equiv (cpu_of s) (do_pushcli (cpu_of s0)) ->
  mm_ok base s -> loc_of s d va = Some l -> present (pte_at (ptes s) l) = false ->
  base <= p -> used_page (phys s) p (mkPage rc false Type_available) -> rc < 2 ^ 20 - 1 ->
  Z.testbit pm 0 = true -> accountable (va_addr va) = true ->
  (tmp_table s = Some l.1 -> 0 <= l.2 /\ bm_bit (tmp_pages s) l.2 = true) ->
  exists s', insert_entry d p va pm l s = Done (rc + 1) s' /\ mapped_at s s' l p pm (rc + 1) /\
    cpu_equiv (cpu_of s') (cpu_of s0).
Proof.
  intros Hok HIF Hpush O Hl Hp Hb Hu Hrc Hpm Hv Hslot.
  destruct (loc_of_tabs _ _ _ _ Hl) as [ts Ht]. destruct (loc_of_table _ _ _ _ O Hl) as (Hin & _ & _).
  pose proof (frame_range _ _ _ O Hb (proj1 Hu)) as Hpr.
  set (w := PTE_t (page_addr p) pm).
  destruct (refs_map base (phys s) (ptes s) p rc l w (mo_refs _ _ O) Hb Hu Hrc Hp) as [Hinc R].
  { unfold w. by rewrite PTE_t_present. }
  { by apply PTE_t_page. }
  set (s2 := set_ptes (<[l := w]> (ptes s)) (tables s) (set_phys (count_state (phys s) p (rc + 1) Type_available) s)).
  destruct (account_run s2 d (va_addr va) 1 ts Ht Hv) as (ds & Hacc & Htabs).
  set (s3 := set_dirs ds s2) in *.
  destruct (popcli_run s0 s3 Hok) as (c & Hpop & Hc); [exact Hpush|].
  assert (Sm : same_maps s (set_cpu c s3)) by (by split).
  exists (set_cpu c s3). split; [|split; [|done]].
  - unfold insert_entry. rewrite (bind_done _ _ _ _ _ (pte_rd_run s l Hin)), Hp. cbn [when].
    rewrite (bind_done (mret tt) _ s tt s) by done.
    rewrite (bind_done _ _ _ _ _ (zp_run _ s _ _ Hinc)).
    rewrite (bind_done _ _ _ tt s2) by (by rewrite pte_wr_run).
    by rewrite (bind_done _ _ _ _ _ Hacc), (bind_done _ _ _ _ _ Hpop).
  - split_and!; [|done|done| |].
    + apply (mm_ok_set s _ l w); try done.
      * apply refs_ok_set_cpu; [exact R|by rewrite Hc|by destruct Hc as (-> & _)].
      * intros HK _. destruct (Hslot HK). split_and!; [done|done|]. unfold w. by rewrite PTE_t_page.
    + split; [|done]. simpl. apply lookup_insert_eq.
    + intros y pg Hne. by apply count_state_used.
Qed.

(** With the table there, page_insert is that. *)
Lemma page_insert_core ins s d va p pm l rc :
  mm_ok base s -> loc_of s d va = Some l -> present (pte_at (ptes s) l) = false ->
  base <= p -> used_page (phys s) p (mkPage rc false Type_available) -> rc < 2 ^ 20 - 1 ->
  Z.testbit pm 0 = true -> accountable (va_addr va) = true ->
  (tmp_table s = Some l.1 -> 0 <= l.2 /\ bm_bit (tmp_pages s) l.2 = true) ->
  exists s', page_insert_with ins d p va pm s = Done (rc + 1) s' /\ mapped_at s s' l p pm (rc + 1) /\
    cpu_equiv (cpu_of s') (cpu_of s).
Proof.
  intros O Hl Hp Hb Hu Hrc Hpm Hv Hslot. destruct (mm_cpu _ O) as [Hok HIF].
  destruct (loc_of_tabs _ _ _ _ Hl) as [ts Ht].
  set (s1 := set_cpu (do_pushcli (cpu_of s)) s).
  destruct (insert_entry_run s s1 d va p pm l rc) as (s' & Hrun & Hm & Hc); try done.
  { by apply mm_ok_push. }
  exists s'. split; [|split; [by eapply mapped_at_cpu|done]].
  unfold page_insert_with, pushcli.
  rewrite (bind_done _ _ s tt s1) by done.
  rewrite (bind_done (page_get_c_with ins d va) _ s1 (Some l) s1); [exact Hrun|].
  unfold page_get_c_with. rewrite (bind_done _ _ _ _ _ (page_get_run s1 d va ts Ht)).
  change (loc_of s1 d va) with (loc_of s d va). by rewrite Hl.
Qed.

Lemma pte_at_insert e l w l' : pte_at (<[l := w]> e) l' = if bool_decide (l' = l) then w else pte_at e l'.
Proof.
  unfold pte_at. case_bool_decide as E; [subst; by rewrite lookup_insert_eq|by rewrite lookup_insert_ne].
Qed.

(** An entry that is there is replaced: page_remove of the old frame, then the new one. *)
Lemma page_replace_run ins s d va p pm l rc :
  mm_ok base s -> loc_of s d va = Some l -> present (pte_at (ptes s) l) = true ->
  let x := phys_page (pte_at (ptes s) l) in
  base <= x -> base <= p -> used_page (phys s) p (mkPage rc false Type_available) -> rc < 2 ^ 20 - 1 ->
  (x = p -> 2 <= rc) -> Z.testbit pm 0 = true -> accountable (va_addr va) = true ->
  (tmp_table s = Some l.1 -> 0 <= l.2 /\ bm_bit (tmp_pages s) l.2 = true) ->
  exists s', page_insert_with ins d p va pm s = Done (if x =? p then rc else rc + 1) s' /\ mm_ok base s' /\
    same_maps s s' /\ ptes s' = <[l := PTE_t (page_addr p) pm]> (ptes s) /\ cpu_equiv (cpu_of s') (cpu_of s).
Proof.
  intros O Hl Hp x Hbx Hb Hu Hrc Hxp Hpm Hv Hslot. destruct (mm_cpu _ O) as [Hok HIF].
  destruct (loc_of_tabs _ _ _ _ Hl) as [ts Ht]. destruct (loc_of_table _ _ _ _ O Hl) as (Hin & _ & _).
  set (s1 := set_cpu (do_pushcli (cpu_of s)) s). assert (O1 : mm_ok base s1) by (by apply mm_ok_push).
  destruct (page_remove_run s1 d va true l O1 Hl Hp Hbx Hv) as (s2 & Hrem & O2 & Sm & He & Hub & H1 & Hc).
  change (ptes s1) with (ptes s) in *. fold x in Hub, H1, Hrem.
  pose proof (ro_count _ _ _ (mo_refs _ _ O) _ _ (proj1 Hu) Hb) as Hn. cbv [refcount_get free nextFreeIndexOrRefCount] in Hn.
  assert (Hu2 : used_page (phys s2) p (mkPage (if x =? p then rc - 1 else rc) false Type_available)).
  { destruct (Z.eqb_spec x p) as [E|E]; [|by apply Hub].
    assert (Hn2 : nrefs (ptes s2) p = rc - 1).
    { rewrite He, nrefs_set, (maps_to_absent l (PTE_t 0 0)), maps_to_frame by done. fold x. rewrite bool_decide_true by done. lia. }
    rewrite <- Hn2. apply (refs_used base _ _ _ (mo_refs _ _ O2) Hb). rewrite Hn2. specialize (Hxp E). lia. }
  assert (Hl2 : loc_of s2 d va = Some l) by (by rewrite (same_maps_loc _ _ _ _ Sm)).
  destruct (insert_entry_run s s2 d va p pm l (if x =? p then rc - 1 else rc) Hok HIF Hc O2 Hl2)
    as (s' & Hrun & (O' & Sm' & He' & _) & Hc'); try done.
  { by rewrite He, pte_at_insert, bool_decide_true. }
  { destruct (x =? p); lia. }
  { rewrite (same_maps_tmp _ _ Sm). intros HK. destruct (Hslot HK) as [H0 Hbit]. by rewrite (sm_bits _ _ Sm). }
  exists s'. split_and!; [|done|by etrans; [apply (same_maps_cpu s (do_pushcli (cpu_of s)))|etrans]|by rewrite He', He, insert_insert_eq|done].
  unfold page_insert_with, pushcli. rewrite (bind_done _ _ s tt s1) by done.
  rewrite (bind_done (page_get_c_with ins d va) _ s1 (Some l) s1).
  - assert (E : insert_entry d p va pm l s1 = insert_entry d p va pm l s2).
    { unfold insert_entry. rewrite (bind_done _ _ _ _ _ (pte_rd_run s1 l Hin)). change (ptes s1) with (ptes s). rewrite Hp. cbn [when].
      rewrite (bind_done (_ ← page_remove d va true; _) _ s1 tt s2).
      - rewrite (bind_done _ _ _ _ _ (pte_rd_run s2 l ltac:(by rewrite (sm_tables _ _ Sm)))).
        by rewrite He, pte_at_insert, bool_decide_true.
      - rewrite (bind_done _ _ _ _ _ Hrem). by destruct (Z.ltb_spec (-1) (nrefs (ptes s) x - 1)); [|lia]. }
    rewrite E, Hrun. f_equal. destruct (x =? p); lia.
  - unfold page_get_c_with. rewrite (bind_done _ _ _ _ _ (page_get_run s1 d va ts Ht)).
    change (loc_of s1 d va) with (loc_of s d va). by rewrite Hl.
Qed.

(** ** Temporary pages *)

Lemma tmp_va_arith r : 0 <= r < 1024 ->
  pdx (tmp_va r) = TMPX /\ ptx (tmp_va r) = r /\ accountable (va_addr (tmp_va r)) = true /\
  u32 (tmp_va r) = tmp_va r /\ u32 (tmp_va r - MMAP_KERNEL_TMP_PAGE_BASE) / 0x1000 = r /\
  0 < tmp_va r /\ tmp_va r < MMAP_KERNEL_TOP.
Proof.
  intros Hr. assert (Hall : Forall (fun r => pdx (tmp_va r) = TMPX /\ ptx (tmp_va r) = r /\
    accountable (va_addr (tmp_va r)) = true /\ u32 (tmp_va r) = tmp_va r /\
    u32 (tmp_va r - MMAP_KERNEL_TMP_PAGE_BASE) / 0x1000 = r /\
    0 < tmp_va r /\ tmp_va r < MMAP_KERNEL_TOP) (seqZ 0 1024)).
  { apply (bool_decide_unpack _). vm_compute. exact I. }
  rewrite Forall_forall in Hall. apply Hall, elem_of_seqZ. lia.
Qed.

(** Marking a free slot and giving it back. *)
Lemma tmp_page_get_run s :
  mm_ok base s ->
  tmp_page_get s = Done 0 s \/
  exists r bm, tmp_page_get s = Done (tmp_va r) (set_tmp bm s) /\ 0 <= r < 1024 /\
    bm_bit (tmp_pages s) r = false /\ bm_bit bm r = true /\ bm_wf bm /\ length bm = 32%nat /\
    (forall j, 0 <= j -> j <> r -> bm_bit bm j = bm_bit (tmp_pages s) j).
Proof.
  intros O. destruct (mo_bm _ _ O) as [Hwf Hlen]. destruct (mm_cpu _ O) as [_ HIF].
  pose proof (bitmap_ffz_spec (tmp_pages s) Hwf) as H. unfold bm_len in H. rewrite Hlen in H.
  change (4 * Z.of_nat 32) with sizeof_tmp_pages in H. change (32 * Z.of_nat 32) with 1024 in H.
  unfold tmp_page_get. rewrite (bind_done ASSERT_int_disable _ s tt s) by (by apply int_disable_run).
  rewrite (bind_done get _ s s s) by done.
  destruct H as [[-> _]|(Hr & Hb & _)]; [by left|right].
  set (r := bitmap_find_first_zero (tmp_pages s) sizeof_tmp_pages) in *. clearbody r.
  destruct (bitmap_set_spec (tmp_pages s) r Hwf) as (bm & Hset & Hwf' & Hlen' & Hbit & Hoth).
  { unfold bm_len. rewrite Hlen. lia. }
  exists r, bm. destruct (Z.ltb_spec (-1) r); [|lia]. rewrite Hset.
  destruct (tmp_va_arith r Hr) as (_ & _ & _ & Hu & _). fold (tmp_va r). rewrite Hu.
  split_and!; try done; [lia|lia|congruence].
Qed.

Lemma tmp_page_put_run s r :
  bm_wf (tmp_pages s) -> length (tmp_pages s) = 32%nat -> IF (cpu_of s) = false ->
  0 <= r < 1024 -> bm_bit (tmp_pages s) r = true ->
  exists bm, tmp_page_put (tmp_va r) s = Done tt (set_tmp bm s) /\ bm_wf bm /\ length bm = 32%nat /\
    bm_bit bm r = false /\ (forall j, 0 <= j -> j <> r -> bm_bit bm j = bm_bit (tmp_pages s) j).
Proof.
  intros Hwf Hlen HIF Hr Hb.
  destruct (bitmap_reset_spec (tmp_pages s) r Hwf) as (bm & Hres & Hwf' & Hlen' & Hbit & Hoth).
  { unfold bm_len. rewrite Hlen. lia. }
  exists bm. split_and!; try done; [|congruence].
  destruct (tmp_va_arith r Hr) as (_ & _ & _ & _ & Ei & _).
  unfold tmp_page_put. rewrite Ei. rewrite (bind_done ASSERT_int_disable _ s tt s) by (by apply int_disable_run).
  rewrite (bind_done get _ s s s) by done. unfold bm_bit in Hb.
  destruct (bitmap_test (tmp_pages s) r) as [b|]; simpl in Hb; [|done]. subst b.
  by rewrite Hres.
Qed.

Lemma mm_ok_tmp s bm :
  mm_ok base s -> bm_wf bm -> length bm = 32%nat ->
  (forall K r, tmp_table s = Some K -> present (pte_at (ptes s) (K, r)) = true -> bm_bit bm r = true) ->
  (forall r, 0 <= r < 1024 -> va2kaddr (tmp_va r) ∈ tables s -> bm_bit bm r = true) ->
  mm_ok base (set_tmp bm s).
Proof.
  intros O Hwf Hlen H1 H2. destruct O as [R M1 _ M3 M4 M5 _ M7]. split; try done.
  intros K r HK Hp. destruct (M5 K r HK Hp) as (? & _ & ?). split_and!; [done|by eapply H1|done].
Qed.

Lemma mm_ok_phys s ph : mm_ok base s -> refs_ok base ph (ptes s) -> mm_ok base (set_phys ph s).
Proof. intros [_ M1 M2 M3 M4 M5 M6 M7] R. by split. Qed.

(** A slot that is not marked backs no table and no mapping. *)
Lemma free_slot s r K :
  mm_ok base s -> tmp_table s = Some K -> 0 <= r < 1024 -> bm_bit (tmp_pages s) r = false ->
  present (pte_at (ptes s) (K, r)) = false /\ va2kaddr (tmp_va r) ∉ tables s.
Proof.
  intros O HK Hr Hb. split.
  - destruct (present _) eqn:E; [|done]. destruct (mo_slots _ _ O K r HK E) as (_ & ? & _). congruence.
  - intros Hin. pose proof (mo_kaddr _ _ O r Hr Hin). congruence.
Qed.

Definition tmp_alloc_done s s' (K r p pm : Z) : Prop :=
  mm_ok base s' /\ tables s' = tables s /\ (forall d, tabs_of s' d = tabs_of s d) /\
  (forall j, 0 <= j -> bm_bit (tmp_pages s') j = (j =? r) || bm_bit (tmp_pages s) j) /\
  ptes s' = <[(K, r) := PTE_t (page_addr p) pm]> (ptes s) /\
  used_page (phys s') p (mkPage 1 false Type_available) /\ used_but s s' p /\ base <= p /\
  nrefs (ptes s) p = 0 /\ (forall pg, ~ used_page (phys s) p pg) /\
  length (tmp_pages s') = 32%nat /\ cpu_equiv (cpu_of s') (cpu_of s).

Definition tmp_alloc_failed s s' : Prop :=
  mm_ok base s' /\ same_maps s s' /\ ptes s' = ptes s /\ phys s' = phys s.

Lemma loc_tmp s r K : tmp_table s = Some K -> 0 <= r < 1024 -> loc_of s KDIR (tmp_va r) = Some (K, r).
Proof.
  intros HK Hr. destruct (tmp_va_arith r Hr) as (Hpd & Hpt & _). unfold loc_of, tmp_table in *.
  destruct (tabs_of s KDIR); simpl in *; [|done]. rewrite Hpd, HK. simpl. by rewrite Hpt.
Qed.

Lemma tmp_alloc_run ins s pm :
  mm_ok base s -> Z.testbit pm 0 = true ->
  (exists o va s', tmp_page_alloc_map_with (page_insert_with ins) pm s = Done (- ENOMEM, o, va) s' /\
     tmp_alloc_failed s s') \/
  (exists K r p s', tmp_page_alloc_map_with (page_insert_with ins) pm s = Done (0, Some p, tmp_va r) s' /\
     0 <= r < 1024 /\ tmp_table s = Some K /\ bm_bit (tmp_pages s) r = false /\
     tmp_alloc_done s s' K r p pm).
Proof.
  intros O Hpm. destruct (mo_tmp _ _ O) as (K & HK & HKin). destruct (mo_bm _ _ O) as [Hwf0 Hlen0].
  destruct (mm_cpu _ O) as [Hok HIF]. unfold tmp_page_alloc_map_with.
  rewrite (bind_done ASSERT_int_disable _ s tt s) by (by apply int_disable_run).
  destruct (tmp_page_get_run s O) as [Hget|(r & bm & Hget & Hr & Hb & Hb' & Hwf & Hlen & Hoth)];
    rewrite (bind_done _ _ _ _ _ Hget); [left; by eexists _, _, _|].
  destruct (tmp_va_arith r Hr) as (_ & _ & Hacc & _ & _ & Hpos & _).
  destruct (Z.eqb_spec (tmp_va r) 0); [lia|].
  destruct (free_slot s r K O HK Hr Hb) as [Habs Hnin].
  assert (Hmono : forall j, 0 <= j -> bm_bit (tmp_pages s) j = true -> bm_bit bm j = true).
  { intros j Hj Hj1. destruct (decide (j = r)) as [->|Hne]; [done|by rewrite Hoth]. }
  assert (O1 : mm_ok base (set_tmp bm s)).
  { apply mm_ok_tmp; [done|done|done|..].
    - intros K' j HK' Hp. destruct (mo_slots _ _ O K' j HK' Hp) as (? & ? & _). by apply Hmono.
    - intros j Hj Hin. apply Hmono; [lia|]. by apply (mo_kaddr _ _ O). }
  destruct (refs_alloc base (phys s) (ptes s) (mo_refs _ _ O))
    as [Hal|(p & ph & Hal & R & Hcpu & Hpb & Hn & Hu & Hub & Hfresh)].
  - left. rewrite (bind_done _ _ _ _ _ (zp_run _ (set_tmp bm s) _ _ Hal)). cbn [Z.ltb ENOMEM].
    destruct (tmp_page_put_run (set_tmp bm s) r Hwf Hlen HIF Hr Hb')
      as (bm' & Hput & Hwf' & Hlen' & Hbr & Hoth'). simpl in Hoth'.
    assert (Hbits : forall j, 0 <= j -> bm_bit bm' j = bm_bit (tmp_pages s) j).
    { intros j Hj. destruct (decide (j = r)) as [->|Hne]; [congruence|]. by rewrite Hoth', Hoth. }
    destruct (Z.ltb_spec (- ENOMEM) 0); [|unfold ENOMEM in *; lia].
    change (set_phys (phys s) (set_tmp bm s)) with (set_tmp bm s).
    rewrite (bind_done _ _ _ _ _ Hput). eexists _, _, _. split; [done|].
    split_and!; [|split; simpl; [done|done|congruence|exact Hbits|done|done]|done|done]. apply (mm_ok_tmp s bm'); try done.
    + intros K' j HK' Hp. destruct (mo_slots _ _ O K' j HK' Hp) as (? & ? & _). by rewrite Hbits.
    + intros j Hj Hin. rewrite Hbits by lia. by apply (mo_kaddr _ _ O).
  - right. rewrite (bind_done _ _ _ _ _ (zp_run _ (set_tmp bm s) _ _ Hal)). cbn [deref].
    change (0 <? 0) with false. cbv iota.
    set (s2 := set_phys ph (set_tmp bm s)).
    assert (O2 : mm_ok base s2) by (by apply mm_ok_phys).
    destruct (page_insert_core ins s2 KDIR (tmp_va r) p pm (K, r) 0) as (s3 & Hins & Hm & Hc); try done.
    { by apply (loc_tmp s). }
    { lia. }
    { simpl. split; [lia|done]. }
    rewrite (bind_done (mret p) _ s2 p s2) by done.
    rewrite (bind_done _ _ _ _ _ Hins). change (0 + 1) with 1 in *. change (1 <? 0) with false. cbv iota.
    destruct Hm as (O3 & Sm & He & Hu3 & Hub3).
    exists K, r, p, s3. split; [done|]. split_and!; try done; [lia|lia|].
    unfold tmp_alloc_done. split_and!; try done.
    + apply (sm_tables _ _ Sm).
    + intros d. by rewrite (sm_tabs _ _ Sm).
    + intros j Hj. rewrite (sm_bits _ _ Sm) by done. simpl. destruct (Z.eqb_spec j r) as [->|Hne]; simpl.
      * done.
      * by apply Hoth.
    + intros y pg Hne. rewrite (Hub3 y pg Hne). by apply Hub.
    + lia.
    + by rewrite (sm_len _ _ Sm).
    + etransitivity; [exact Hc|]. change (cpu_of s2) with (cpu_of ph). rewrite Hcpu. reflexivity.
Qed.

(** ** Creating a table *)

Lemma tmp_kaddr r : 0 <= r < 1024 ->
  va2kaddr (tmp_va r) <> NULL /\ kaddr2va (va2kaddr (tmp_va r)) = tmp_va r.
Proof.
  intros Hr. assert (Hall : Forall (fun r => va2kaddr (tmp_va r) <> NULL /\
    kaddr2va (va2kaddr (tmp_va r)) = tmp_va r) (seqZ 0 1024)).
  { apply (bool_decide_unpack _). vm_compute. exact I. }
  rewrite Forall_forall in Hall. apply Hall, elem_of_seqZ. lia.
Qed.

Lemma tmp_kaddr_inj r r' :
  0 <= r < 1024 -> 0 <= r' < 1024 -> va2kaddr (tmp_va r) = va2kaddr (tmp_va r') -> r = r'.
Proof.
  intros Hr Hr' E. destruct (tmp_kaddr r Hr) as [_ E1]. destruct (tmp_kaddr r' Hr') as [_ E2].
  rewrite E, E2 in E1. unfold tmp_va in E1. lia.
Qed.

Lemma table_at_insert ts n k m :
  k <> NULL -> table_at (<[n := k]> ts) m = if bool_decide (m = n) then Some k else table_at ts m.
Proof.
  intros Hk. unfold table_at. case_bool_decide as E.
  - subst m. rewrite lookup_insert_eq. simpl. by destruct (Z.eqb_spec k NULL).
  - by rewrite lookup_insert_ne.
Qed.

Lemma drop_table_fresh s k : mm_ok base s -> k ∉ tables s -> drop_table k (ptes s) = ptes s.
Proof.
  intros O Hk. unfold drop_table. apply map_filter_id. intros l w Hl E. apply Hk. rewrite <- E.
  by apply (mo_live _ _ O l w).
Qed.

(** A new empty table in a marked slot, entered in directory [d]. *)
Lemma mm_ok_new_table s d n r i i' :
  mm_ok base s -> 0 <= r < 1024 -> bm_bit (tmp_pages s) r = true ->
  let k := va2kaddr (tmp_va r) in
  k ∉ tables s -> dirs s !! d = Some i -> table_at (pgtables i) n = None ->
  pgtables i' = <[n := k]> (pgtables i) ->
  let s' := set_dirs (<[d := i']> (dirs s)) (set_ptes (ptes s) ({[k]} ∪ tables s) s) in
  mm_ok base s' /\ (forall d', d' <> d -> tabs_of s' d' = tabs_of s d') /\
  tabs_of s' d = Some (<[n := k]> (pgtables i)) /\ tmp_table s' = tmp_table s.
Proof.
  intros O Hr Hb k Hk Hi Hn Hi' s'. destruct (tmp_kaddr r Hr) as [Hk0 _].
  assert (Hoth : forall d', d' <> d -> tabs_of s' d' = tabs_of s d').
  { intros d' Hne. unfold tabs_of; simpl. by rewrite lookup_insert_ne. }
  assert (Hd : tabs_of s' d = Some (<[n := k]> (pgtables i))).
  { unfold tabs_of; simpl. rewrite lookup_insert_eq. simpl. by rewrite Hi'. }
  destruct (mo_tmp _ _ O) as (K & HK & HKin).
  assert (Htmp : tmp_table s' = tmp_table s).
  { unfold tmp_table. destruct (decide (d = KDIR)) as [->|Hne]; [|by rewrite Hoth].
    rewrite Hd. unfold tabs_of. rewrite Hi. simpl. rewrite table_at_insert by done.
    rewrite bool_decide_false; [done|]. intros <-. unfold tmp_table, tabs_of in HK.
    rewrite Hi in HK. simpl in HK. congruence. }
  split_and!; try done. split; try done.
  - apply O.
  - intros l w Hl. simpl. apply elem_of_union_r. by apply (mo_live _ _ O l w).
  - apply (mo_bm _ _ O).
  - rewrite Htmp. exists K. split; [done|]. simpl. by apply elem_of_union_r.
  - intros d' ts m k'. rewrite Htmp. destruct (decide (d' = d)) as [->|Hne].
    + rewrite Hd. intros [= <-]. rewrite table_at_insert by done. case_bool_decide as E.
      * intros [= <-]. split; [simpl; set_solver|]. intros E2. rewrite HK in E2. congruence.
      * intros Hk'. destruct (mo_tabs _ _ O d (pgtables i) m k') as [? ?]; [unfold tabs_of; by rewrite Hi|done|].
        split; [simpl; set_solver|done].
    + rewrite Hoth by done. intros Ht Hk'. destruct (mo_tabs _ _ O d' ts m k' Ht Hk').
      split; [simpl; set_solver|done].
  - intros K' j. rewrite Htmp. apply (mo_slots _ _ O).
  - intros j Hj [E%elem_of_singleton|Hin]%elem_of_union.
    + apply tmp_kaddr_inj in E; [by subst j|lia|lia].
    + by apply (mo_kaddr _ _ O).
  - simpl. destruct (mo_cr3 _ _ O) as [c Hc]. destruct (decide (cr3_dir s = d)) as [->|Hne].
    + rewrite lookup_insert_eq. eauto.
    + rewrite lookup_insert_ne by done. eauto.
Qed.

(** The three writes of pde_alloc to the directory are one update. *)
Lemma dir_wr3 s d i f g h :
  dirs s !! d = Some i ->
  (dir_wr d f ;; dir_wr d g ;; dir_wr d h) s = Done tt (set_dirs (<[d := h (g (f i))]> (dirs s)) s).
Proof.
  intros Hi. rewrite (bind_done _ _ _ _ _ (dir_wr_run s d i f Hi)).
  rewrite (bind_done _ _ _ _ _ (dir_wr_run _ d (f i) g (lookup_insert_eq _ _ _))).
  rewrite (dir_wr_run _ d (g (f i)) h (lookup_insert_eq _ _ _)).
  simpl. unfold set_dirs; simpl. by rewrite !insert_insert_eq.
Qed.

Definition pde_alloc_done s s' d n (ts : gmap Z Z) : Prop :=
  mm_ok base s' /\
  exists K r p, tmp_table s = Some K /\ tmp_table s' = Some K /\ 0 <= r < 1024 /\
    (va2kaddr (tmp_va r) ∉ tables s) /\
    (forall d', d' <> d -> tabs_of s' d' = tabs_of s d') /\
    tabs_of s' d = Some (<[n := va2kaddr (tmp_va r)]> ts) /\
    ptes s' = <[(K, r) := PTE_t (page_addr p) (Z.lor PTE_P PTE_W)]> (ptes s) /\
    present (pte_at (ptes s) (K, r)) = false /\
    (forall pg, ~ used_page (phys s) p pg) /\ used_but s s' p /\ nrefs (ptes s) p = 0 /\
    cpu_equiv (cpu_of s') (cpu_of s) /\ tables s' = {[va2kaddr (tmp_va r)]} ∪ tables s.

Lemma pde_alloc_run ins s d n ts :
  mm_ok base s -> tabs_of s d = Some ts -> table_at ts n = None ->
  (exists s', pde_alloc_with (page_insert_with ins) d n s = Done (- ENOMEM) s' /\ tmp_alloc_failed s s') \/
  (exists s', pde_alloc_with (page_insert_with ins) d n s = Done 0 s' /\ pde_alloc_done s s' d n ts).
Proof.
  intros O Ht Hn. destruct (mm_cpu _ O) as [Hok HIF]. unfold pde_alloc_with.
  destruct (tmp_alloc_run ins s (Z.lor PTE_P PTE_W) O eq_refl)
    as [(o & va & s1 & Hrun & Hf)|(K & r & p & s1 & Hrun & Hr & HK & Hb & Hd)];
    rewrite (bind_done _ _ _ _ _ Hrun); [left; by exists s1|right].
  destruct Hd as (O1 & Htab & Htabs & Hbits & He & Hu & Hub & Hpb & Hnp & Hfresh & Hlen & Hcpu).
  change (0 <? 0) with false. cbv iota. set (k := va2kaddr (tmp_va r)).
  destruct (free_slot s r K O HK Hr Hb) as [Habs Hnin]. fold k in Hnin.
  assert (Hnin1 : k ∉ tables s1) by (by rewrite Htab).
  assert (Hb1 : bm_bit (tmp_pages s1) r = true) by (by rewrite Hbits, Z.eqb_refl by lia).
  assert (Ht1 : tabs_of s1 d = Some ts) by (by rewrite Htabs).
  destruct (tabs_dir _ _ _ Ht1) as (i & Hi & <-).
  set (s2 := set_ptes (ptes s1) ({[k]} ∪ tables s1) s1).
  assert (Hclr : table_clear k s1 = Done tt s2).
  { unfold table_clear, modify. by rewrite drop_table_fresh. }
  rewrite (bind_done _ _ _ _ _ Hclr).
  set (s3 := set_cpu (do_pushcli (cpu_of s2)) s2).
  unfold pushcli. rewrite (bind_done _ _ s2 tt s3) by done. cbn [deref].
  rewrite (bind_done (mret p) _ s3 p s3) by done.
  set (i' := add_kernel 1 (set_pgtable n k (set_pde n (PDE_t (page_addr p) (Z.lor PTE_P (Z.lor PTE_U PTE_W))) i))).
  destruct (mm_ok_new_table s1 d n r i i' O1 Hr Hb1 Hnin1 Hi Hn eq_refl) as (O4 & Hoth & Hdd & Htmp).
  set (s4 := set_dirs (<[d := i']> (dirs s1)) (set_ptes (ptes s1) ({[k]} ∪ tables s1) s1)) in *.
  destruct (mm_cpu _ O1) as [Hok1 HIF1].
  destruct (popcli_run s1 (set_cpu (cpu_of s3) s4) Hok1) as (c & Hpop & Hc); [reflexivity|].
  assert (Hw : forall B (kk : unit -> M mm B), (dir_wr d (set_pde n (PDE_t (page_addr p) (Z.lor PTE_P (Z.lor PTE_U PTE_W)))) ;;
      dir_wr d (set_pgtable n k) ;; (dir_wr d (add_kernel 1) ≫= kk)) s3 = kk tt (set_cpu (cpu_of s3) s4)).
  { intros B kk. pose proof (dir_wr3 s3 d i (set_pde n (PDE_t (page_addr p) (Z.lor PTE_P (Z.lor PTE_U PTE_W))))
      (set_pgtable n k) (add_kernel 1) Hi) as H3.
    unfold mbind, M_bind in *. destruct (dir_wr d _ s3) as [u1 t1|]; [|done].
    destruct (dir_wr d _ t1) as [u2 t2|]; [|done]. by rewrite H3. }
  eexists. split; [rewrite Hw; by rewrite (bind_done _ _ _ _ _ Hpop)|].
  split; [by eapply (mm_ok_equiv s4 c (cpu_of s1))|].
  exists K, r, p. split_and!; try done.
  - change (tmp_table s4 = Some K). transitivity (tmp_table s1); [exact Htmp|]. unfold tmp_table. by rewrite Htabs.
  - lia.
  - lia.
  - intros d' Hne. change (tabs_of s4 d' = tabs_of s d'). by rewrite Hoth, Htabs.
  - by etransitivity.
  - change (tables s4 = {[k]} ∪ tables s). unfold s4. cbn. by rewrite Htab.
Qed.

(** ** page_insert as the other files call it *)

(** The tables and the directories behind an insertion at [va]: a new table may have
    been made, in a free slot of the temporary pages. *)
Definition new_table s s' d va : Prop :=
  (tables s' = tables s /\ forall d', tabs_of s' d' = tabs_of s d') \/
  exists ts K r, let k := va2kaddr (tmp_va r) in
    tabs_of s d = Some ts /\ table_at ts (pdx va) = None /\ tmp_table s = Some K /\ 0 <= r < 1024 /\
    present (pte_at (ptes s) (K, r)) = false /\ k ∉ tables s /\ tables s' = {[k]} ∪ tables s /\
    tabs_of s' d = Some (<[pdx va := k]> ts) /\ forall d', d' <> d -> tabs_of s' d' = tabs_of s d'.

(** What a mapping of frame [p] at [va] in directory [d] leaves. *)
Definition insert_done s s' d va p pm rc : Prop :=
  exists l, loc_of s' d va = Some l /\ pte_at (ptes s') l = PTE_t (page_addr p) pm /\
    (forall d' va' l', loc_of s d' va' = Some l' -> loc_of s' d' va' = Some l') /\
    (forall l', l' <> l -> tmp_table s <> Some l'.1 -> pte_at (ptes s') l' = pte_at (ptes s) l') /\
    used_page (phys s') p (mkPage rc false Type_available) /\
    (forall y pg, y <> p -> used_page (phys s) y pg -> used_page (phys s') y pg) /\
    (forall l', l' <> l -> present (pte_at (ptes s) l') = true -> pte_at (ptes s') l' = pte_at (ptes s) l') /\
    new_table s s' d va.

Definition insert_failed s s' d va : Prop :=
  loc_of s d va = None /\ same_maps s s' /\ ptes s' = ptes s /\
  (forall y pg, used_page (phys s') y pg <-> used_page (phys s) y pg).

Lemma loc_none_table s d va ts : tabs_of s d = Some ts -> loc_of s d va = None -> table_at ts (pdx va) = None.
Proof. unfold loc_of. intros ->. simpl. destruct (table_at ts (pdx va)); done. Qed.

Lemma loc_of_some s d va ts k :
  tabs_of s d = Some ts -> table_at ts (pdx va) = Some k -> loc_of s d va = Some (k, ptx va).
Proof. unfold loc_of. intros -> H. simpl. by rewrite H. Qed.

(** After pde_alloc the old locations are still there. *)
Lemma pde_alloc_locs s s' d n ts d' va' l' :
  pde_alloc_done s s' d n ts -> tabs_of s d = Some ts -> table_at ts n = None ->
  loc_of s d' va' = Some l' -> loc_of s' d' va' = Some l'.
Proof.
  intros (_ & K & r & p & _ & _ & Hr & _ & Hoth & Hd & _) Ht Hn.
  destruct (decide (d' = d)) as [->|Hne].
  - unfold loc_of. rewrite Ht, Hd. simpl. rewrite table_at_insert by (by apply tmp_kaddr).
    case_bool_decide as E; [by rewrite E, Hn|done].
  - unfold loc_of. by rewrite Hoth.
Qed.

(** The table is missing: pde_alloc, then the entry. *)
Lemma page_insert_new f s d va p pm rc ts :
  mm_ok base s -> tabs_of s d = Some ts -> table_at ts (pdx va) = None ->
  base <= p -> used_page (phys s) p (mkPage rc false Type_available) -> rc < 2 ^ 20 - 1 ->
  Z.testbit pm 0 = true -> accountable (va_addr va) = true -> pdx va <> TMPX ->
  exists z s', page_insert_fuel (S (S f)) d p va pm s = Done z s' /\ mm_ok base s' /\
    cpu_equiv (cpu_of s') (cpu_of s) /\
    ((z = - ENOMEM /\ insert_failed s s' d va) \/ (z = rc + 1 /\ insert_done s s' d va p pm (rc + 1))).
Proof.
  intros O Ht Hn Hb Hu Hrc Hpm Hv Hx. destruct (mm_cpu _ O) as [Hok HIF].
  set (s1 := set_cpu (do_pushcli (cpu_of s)) s).
  assert (O1 : mm_ok base s1) by (by apply mm_ok_push).
  assert (Hloc : loc_of s d va = None) by (unfold loc_of; rewrite Ht; simpl; by rewrite Hn).
  cbn [page_insert_fuel]. unfold page_insert_with at 1. unfold pushcli.
  rewrite (bind_done _ _ s tt s1) by done. unfold page_get_c_with at 1.
  destruct (pde_alloc_run (page_insert_fuel f) s1 d (pdx va) ts O1 Ht Hn)
    as [(s2 & Hrun & O2 & Sm & He & Hph)|(s2 & Hrun & Hd)].
  - destruct (popcli_run s s2 Hok) as (c & Hpop & Hc); [by unfold cpu_of; simpl; rewrite Hph|].
    exists (- ENOMEM), (set_cpu c s2). split_and!; [|by eapply (mm_ok_equiv s2 c (cpu_of s))|done|left].
    + rewrite (bind_done _ _ s1 None s2); [by rewrite (bind_done _ _ _ _ _ Hpop)|].
      rewrite (bind_done _ _ _ _ _ (page_get_run s1 d va ts Ht)).
      change (loc_of s1 d va) with (loc_of s d va). rewrite Hloc.
      rewrite (bind_done _ _ _ _ _ Hrun). done.
    + split; [done|]. split_and!; [done| |done|].
      * etransitivity; [apply (same_maps_cpu s (do_pushcli (cpu_of s)))|].
        etransitivity; [exact Sm|]. apply same_maps_cpu.
      * intros y pg. simpl. unfold used_page. simpl. by rewrite Hph.
  - pose proof Hd as (O2 & K & r & x & HK & HK2 & Hr & Hnin & Hoth & Hdd & He & Habs & Hfresh & Hub & _ & Hc2 & Htb).
    destruct (tmp_kaddr r Hr) as [Hk0 _]. set (k := va2kaddr (tmp_va r)) in *.
    assert (Hat : table_at (<[pdx va := k]> ts) (pdx va) = Some k)
      by (rewrite table_at_insert, bool_decide_true by done; done).
    pose proof (loc_of_some s2 d va _ _ Hdd Hat) as Hl2.
    assert (Hpx : p <> x) by (intros ->; by eapply Hfresh).
    assert (HKk : K <> k).
    { intros ->. apply Hnin. destruct (mo_tmp _ _ O) as (K' & HK' & Hin). change (tables s1) with (tables s).
      change (tmp_table s1) with (tmp_table s) in HK. by simplify_eq. }
    assert (Hnone : pte_at (ptes s2) (k, ptx va) = 0).
    { rewrite He, pte_at_insert, bool_decide_false by congruence. unfold pte_at.
      destruct (ptes s1 !! (k, ptx va)) as [w|] eqn:Ew; [|done]. exfalso.
      apply Hnin. exact (mo_live _ _ O1 _ _ Ew). }
    destruct (insert_entry_run s s2 d va p pm (k, ptx va) rc Hok HIF Hc2 O2 Hl2) as (s3 & Hins & Hm & Hc3); try done.
    { by rewrite Hnone. }
    { by apply (Hub p). }
    { simpl. rewrite HK2. intros [= ->]. done. }
    destruct Hm as (O3 & Sm3 & He3 & Hu3 & Hub3).
    exists (rc + 1), s3. split_and!; [|done|done|right].
    + rewrite (bind_done _ _ s1 (Some (k, ptx va)) s2); [exact Hins|].
      rewrite (bind_done _ _ _ _ _ (page_get_run s1 d va ts Ht)).
      change (loc_of s1 d va) with (loc_of s d va). rewrite Hloc.
      rewrite (bind_done _ _ _ _ _ Hrun). change (0 <? 0) with false. cbv iota.
      rewrite (bind_done _ _ _ _ _ (page_get_run s2 d va _ Hdd)), Hl2. done.
    + split; [done|]. exists (k, ptx va). split_and!; [|..|done| | |].
      * by rewrite (same_maps_loc _ _ _ _ Sm3).
      * by rewrite He3, pte_at_insert, bool_decide_true.
      * intros d' va' l' Hl'. rewrite (same_maps_loc _ _ _ _ Sm3).
        by eapply (pde_alloc_locs s1 s2 d (pdx va) ts).
      * intros l' Hne Htmp. rewrite He3, pte_at_insert, bool_decide_false by done.
        rewrite He, pte_at_insert, bool_decide_false; [done|]. intros ->. by apply Htmp.
      * intros y pg Hne Hy. apply (Hub3 y pg Hne). apply Hub; [|done]. intros ->. by eapply Hfresh.
      * intros l' Hne Hp. rewrite He3, pte_at_insert, bool_decide_false by done.
        rewrite He, pte_at_insert, bool_decide_false; [done|]. intros ->. change (ptes s1) with (ptes s) in Habs. congruence.
      * right. exists ts, K, r. split_and!; [exact Ht|exact Hn|exact HK|lia|lia|exact Habs|exact Hnin|..].
        -- by rewrite (sm_tables _ _ Sm3).
        -- by rewrite (sm_tabs _ _ Sm3).
        -- intros d' Hne. rewrite (sm_tabs _ _ Sm3). by apply Hoth.
Qed.

Lemma page_insert_run s d va p pm rc ts :
  mm_ok base s -> tabs_of s d = Some ts ->
  base <= p -> used_page (phys s) p (mkPage rc false Type_available) -> rc < 2 ^ 20 - 1 ->
  Z.testbit pm 0 = true -> accountable (va_addr va) = true -> pdx va <> TMPX ->
  (forall l, loc_of s d va = Some l -> present (pte_at (ptes s) l) = false) ->
  exists z s', page_insert d p va pm s = Done z s' /\ mm_ok base s' /\
    cpu_equiv (cpu_of s') (cpu_of s) /\
    ((z = - ENOMEM /\ insert_failed s s' d va) \/ (z = rc + 1 /\ insert_done s s' d va p pm (rc + 1))).
Proof.
  intros O Ht Hb Hu Hrc Hpm Hv Hx Habs. unfold page_insert, insert_fuel.
  destruct (loc_of s d va) as [l|] eqn:Hl.
  - destruct (loc_of_table _ _ _ _ O Hl) as (Hin & Hl2 & Htx).
    destruct (page_insert_core (page_insert_fuel 1) s d va p pm l rc O Hl (Habs _ eq_refl) Hb Hu Hrc Hpm Hv)
      as (s' & Hrun & (O' & Sm & He & Hu' & Hub) & Hc); [by intros ?%Htx|].
    exists (rc + 1), s'. split_and!; [exact Hrun|done|done|right]. split; [done|].
    exists l. split_and!; [by rewrite (same_maps_loc _ _ _ _ Sm)|..|done| | |].
    + by rewrite He, pte_at_insert, bool_decide_true.
    + intros d' va' l' Hl'. by rewrite (same_maps_loc _ _ _ _ Sm).
    + intros l' Hne _. by rewrite He, pte_at_insert, bool_decide_false.
    + intros y pg Hne Hy. by apply Hub.
    + intros l' Hne _. by rewrite He, pte_at_insert, bool_decide_false.
    + left. split; [exact (sm_tables _ _ Sm)|exact (sm_tabs _ _ Sm)].
  - apply (page_insert_new 0 s d va p pm rc ts); try done. by eapply loc_none_table.
Qed.

Lemma mm_ok_page_free s p :
  mm_ok base s -> base <= p -> nrefs (ptes s) p = 0 ->
  used_page (phys s) p (mkPage 0 false Type_available) ->
  exists s', zp (page_free p) s = Done tt s' /\ mm_ok base s' /\ cpu_of s' = cpu_of s /\
    same_maps s s' /\ ptes s' = ptes s /\
    (forall y pg, y <> p -> used_page (phys s') y pg <-> used_page (phys s) y pg).
Proof.
  intros O Hb Hn Hu. destruct (refs_page_free base _ _ p (mo_refs _ _ O) Hb Hn Hu) as (ph & Hrun & R & Hc & Hub).
  exists (set_phys ph s). split_and!; [by apply zp_run|by apply mm_ok_phys|done|by split|done|done].
Qed.

(** page_alloc_insert: a new frame at an absent entry, or nothing. *)
Lemma page_alloc_insert_run s d va pm ts :
  mm_ok base s -> tabs_of s d = Some ts -> Z.testbit pm 0 = true -> accountable (va_addr va) = true ->
  pdx va <> TMPX -> (forall l, loc_of s d va = Some l -> present (pte_at (ptes s) l) = false) ->
  exists z s', page_alloc_insert d va pm s = Done z s' /\ mm_ok base s' /\
    cpu_equiv (cpu_of s') (cpu_of s) /\
    ((z = - ENOMEM /\ same_maps s s' /\ ptes s' = ptes s) \/
     (z = 1 /\ exists p, base <= p /\ nrefs (ptes s) p = 0 /\ insert_done s s' d va p pm 1)).
Proof.
  intros O Ht Hpm Hv Hx Habs. destruct (mm_cpu _ O) as [Hok HIF].
  set (s1 := set_cpu (do_pushcli (cpu_of s)) s).
  assert (O1 : mm_ok base s1) by (by apply mm_ok_push).
  unfold page_alloc_insert, pushcli. rewrite (bind_done _ _ s tt s1) by done.
  destruct (refs_alloc base (phys s1) (ptes s) (mo_refs _ _ O1))
    as [Hal|(p & ph & Hal & R & Hcpu & Hpb & Hn & Hu & Hub & Hfresh)];
    rewrite (bind_done _ _ _ _ _ (zp_run _ s1 _ _ Hal)).
  - destruct (popcli_run s s1 Hok) as (c & Hpop & Hc); [reflexivity|].
    exists (- ENOMEM), (set_cpu c s1). split_and!; [|by eapply (mm_ok_equiv s1 c (cpu_of s))|done|left; by split_and!].
    change (- ENOMEM <? 0) with true. cbv iota. change (set_phys (phys s1) s1) with s1.
    by rewrite (bind_done _ _ _ _ _ Hpop).
  - change (0 <? 0) with false. cbv iota. set (s2 := set_phys ph s1). cbn [deref].
    rewrite (bind_done (mret p) _ s2 p s2) by done.
    assert (O2 : mm_ok base s2) by (by apply mm_ok_phys).
    assert (Hc2 : cpu_of s2 = do_pushcli (cpu_of s)) by (unfold cpu_of; simpl; exact Hcpu).
    destruct (page_insert_run s2 d va p pm 0 ts O2 Ht) as (z & s3 & Hrun & O3 & Hc3 & Hcase);
      try done; [lia|].
    rewrite (bind_done _ _ _ _ _ Hrun).
    destruct Hcase as [[-> (Hloc & Sm & He & Hus)]|[-> Hd]].
    + destruct (mm_ok_page_free s3 p O3) as (s4 & Hfree & O4 & Hc4 & Sm4 & He4 & _);
        [lia|by rewrite He|by apply Hus|].
      destruct (popcli_run s s4 Hok) as (c & Hpop & Hc); [by rewrite Hc4, Hc3, Hc2|].
      exists (- ENOMEM), (set_cpu c s4).
      split_and!; [|by eapply (mm_ok_equiv s4 c (cpu_of s))|done|left; split_and!; [done| |]].
      * change (- ENOMEM <? 0) with true. cbn [when].
        by rewrite (bind_done _ _ _ _ _ Hfree), (bind_done _ _ _ _ _ Hpop).
      * etransitivity; [apply (same_maps_cpu s (do_pushcli (cpu_of s)))|].
        etransitivity; [|apply same_maps_cpu]. etransitivity; [|exact Sm4].
        etransitivity; [|exact Sm]. by split.
      * simpl. by rewrite He4, He.
    + destruct (popcli_run s s3 Hok) as (c & Hpop & Hc); [by rewrite Hc3, Hc2|].
      exists 1, (set_cpu c s3). split_and!; [|by eapply (mm_ok_equiv s3 c (cpu_of s))|done|right].
      * change (0 + 1 <? 0) with false. cbn [when]. rewrite (bind_done (mret tt) _ s3 tt s3) by done.
        by rewrite (bind_done _ _ _ _ _ Hpop).
      * split; [done|]. exists p. split_and!; [lia|done|]. change (0 + 1) with 1 in Hd.
        destruct Hd as (l & H1 & H2 & H3 & H4 & H5 & H6 & H7 & H8). exists l. split_and!; try done.
        intros y pg Hne Hy. apply H6; [done|]. by apply (Hub y pg Hne).
Qed.

(** page_alloc_insert where a frame is mapped: the frame is replaced by a new one, or
    nothing happens. *)
Lemma page_alloc_replace_run s d va pm l :
  mm_ok base s -> loc_of s d va = Some l -> present (pte_at (ptes s) l) = true -> base <= phys_page (pte_at (ptes s) l) ->
  Z.testbit pm 0 = true -> accountable (va_addr va) = true -> pdx va <> TMPX ->
  exists z s', page_alloc_insert d va pm s = Done z s' /\ mm_ok base s' /\
    ((z = - ENOMEM /\ same_maps s s' /\ ptes s' = ptes s) \/
     (z = 1 /\ exists p, base <= p /\ nrefs (ptes s) p = 0 /\ same_maps s s' /\
        ptes s' = <[l := PTE_t (page_addr p) pm]> (ptes s))).
Proof.
  intros O Hl Hp Hbx Hpm Hv Hx. destruct (mm_cpu _ O) as [Hok HIF].
  set (s1 := set_cpu (do_pushcli (cpu_of s)) s). assert (O1 : mm_ok base s1) by (by apply mm_ok_push).
  unfold page_alloc_insert, pushcli. rewrite (bind_done _ _ s tt s1) by done.
  destruct (refs_alloc base (phys s1) (ptes s) (mo_refs _ _ O1))
    as [Hal|(p & ph & Hal & R & Hcpu & Hpb & Hn & Hu & Hub & Hfresh)];
    rewrite (bind_done _ _ _ _ _ (zp_run _ s1 _ _ Hal)).
  - destruct (popcli_run s s1 Hok) as (c & Hpop & Hc); [reflexivity|].
    exists (- ENOMEM), (set_cpu c s1). split_and!; [|by eapply (mm_ok_equiv s1 c (cpu_of s))|left; by split_and!].
    change (- ENOMEM <? 0) with true. cbv iota. change (set_phys (phys s1) s1) with s1.
    by rewrite (bind_done _ _ _ _ _ Hpop).
  - change (0 <? 0) with false. cbv iota. set (s2 := set_phys ph s1). cbn [deref].
    rewrite (bind_done (mret p) _ s2 p s2) by done. assert (O2 : mm_ok base s2) by (by apply mm_ok_phys).
    assert (Hc2 : cpu_of s2 = do_pushcli (cpu_of s)) by (unfold cpu_of; simpl; exact Hcpu).
    assert (Hne : phys_page (pte_at (ptes s) l) <> p).
    { intros E. assert (Hw : ptes s !! l = Some (pte_at (ptes s) l)) by (unfold pte_at in *; by destruct (ptes s !! l)).
      destruct (refs_unmap base (phys s) (ptes s) l _ _ (mo_refs _ _ O) Hw Hp eq_refl Hbx) as (_ & _ & _ & _ & H1 & _).
      rewrite E in H1. lia. }
    destruct (loc_of_table _ _ _ _ O Hl) as (_ & Hl2 & Htx).
    destruct (page_replace_run (page_insert_fuel 1) s2 d va p pm l 0 O2 Hl Hp Hbx ltac:(lia) Hu ltac:(lia) ltac:(done) Hpm Hv)
      as (s3 & Hrun & O3 & Sm & He & Hc3); [by intros ?%Htx|].
    rewrite (proj2 (Z.eqb_neq _ _)) in Hrun by done.
    change (page_insert_with (page_insert_fuel 1) d p va pm s2) with (page_insert d p va pm s2) in Hrun.
    rewrite (bind_done _ _ _ _ _ Hrun).
    destruct (popcli_run s s3 Hok) as (c & Hpop & Hc); [by rewrite <- Hc2|].
    exists 1, (set_cpu c s3). split_and!; [|by eapply (mm_ok_equiv s3 c (cpu_of s))|right].
    + change (0 + 1 <? 0) with false. cbn [when]. rewrite (bind_done (mret tt) _ s3 tt s3) by done.
      by rewrite (bind_done _ _ _ _ _ Hpop).
    + split; [done|]. exists p. split_and!; [lia|done| |done].
      destruct Sm. by split.
Qed.

(** tmp_page_free of a page that is no table. *)
Lemma tmp_page_free_run s r K :
  mm_ok base s -> tmp_table s = Some K -> 0 <= r < 1024 -> present (pte_at (ptes s) (K, r)) = true ->
  va2kaddr (tmp_va r) ∉ tables s ->
  let x := phys_page (pte_at (ptes s) (K, r)) in
  exists s', tmp_page_free (tmp_va r) s = Done (nrefs (ptes s) x - 1) s' /\ mm_ok base s' /\
    ptes s' = <[(K, r) := PTE_t 0 0]> (ptes s) /\ tables s' = tables s /\
    (forall d, tabs_of s' d = tabs_of s d) /\ bm_bit (tmp_pages s') r = false /\
    (forall j, 0 <= j -> j <> r -> bm_bit (tmp_pages s') j = bm_bit (tmp_pages s) j) /\
    cpu_equiv (cpu_of s') (cpu_of s).
Proof.
  intros O HK Hr Hp Hnin x. destruct (mm_cpu _ O) as [Hok HIF].
  destruct (tmp_va_arith r Hr) as (_ & _ & Hacc & _ & _ & Hpos & Htop).
  destruct (mo_slots _ _ O K r HK Hp) as (_ & Hbit & Hbase).
  destruct (page_remove_run s KDIR (tmp_va r) true (K, r) O (loc_tmp s r K HK Hr) Hp Hbase Hacc)
    as (s1 & Hrem & O1 & Sm & He & Hub & H1 & Hc1). fold x in Hrem, H1, Hub.
  unfold tmp_page_free. rewrite (bind_done ASSERT_int_disable _ s tt s) by (by apply int_disable_run).
  replace ((MMAP_KERNEL_TMP_PAGE_BASE <=? tmp_va r) && (tmp_va r <? MMAP_KERNEL_TOP)) with true
    by (symmetry; apply andb_true_intro; unfold tmp_va in *; split; [apply Z.leb_le|apply Z.ltb_lt]; lia).
  cbn [ASSERT]. rewrite (bind_done (mret tt) _ s tt s) by done.
  rewrite (bind_done _ _ _ _ _ Hrem).
  destruct (Z.ltb_spec (-1) (nrefs (ptes s) x - 1)); [|lia]. cbn [when].
  assert (Hnin1 : va2kaddr (tmp_va r) ∉ tables s1) by (by rewrite (sm_tables _ _ Sm)).
  assert (Hun : table_unmap (va2kaddr (tmp_va r)) s1 = Done tt s1).
  { unfold table_unmap, modify. rewrite (drop_table_fresh s1) by done. f_equal.
    destruct s1. unfold set_ptes; simpl in *. f_equal. set_solver. }
  destruct (mm_cpu _ O1) as [Hok1 HIF1]. destruct (mo_bm _ _ O1) as [Hwf1 Hlen1].
  destruct (tmp_page_put_run s1 r Hwf1 Hlen1 HIF1 Hr) as (bm & Hput & Hwf & Hlen & Hb & Hoth).
  { by rewrite (sm_bits _ _ Sm) by lia. }
  exists (set_tmp bm s1). split_and!; [|..|done|exact (sm_tables _ _ Sm)|exact (sm_tabs _ _ Sm)|done| |done].
  - rewrite (bind_done (table_unmap _ ;; tmp_page_put _) _ s1 tt (set_tmp bm s1)); [done|].
    by rewrite (bind_done _ _ _ _ _ Hun).
  - apply mm_ok_tmp; try done.
    + intros K' j HK' Hp'. rewrite (same_maps_tmp _ _ Sm), HK in HK'. simplify_eq.
      destruct (decide (j = r)) as [->|Hne].
      * rewrite He, pte_at_insert, bool_decide_true in Hp' by done. done.
      * destruct (mo_slots _ _ O1 K' j) as (? & ? & _); [by rewrite (same_maps_tmp _ _ Sm)|done|].
        by rewrite Hoth.
    + intros j Hj Hin. destruct (decide (j = r)) as [->|Hne]; [done|]. rewrite Hoth by (done || lia).
      by apply (mo_kaddr _ _ O1).
  - intros j Hj Hne. simpl. rewrite Hoth by done. by apply (sm_bits _ _ Sm).
Qed.
End keep.
