(* ===== verification/VirtProps.v ===== *)
(** Properties of the virtual memory operations: safety of the reference
    counts over arbitrary sequences of operations and what each leaves mapped, what page_alloc_insert maps,
    what segment_free leaves behind, and what verify_user_addr does not check. *)

From S2P Require Import Prelude Spinlock Util Bitmap PhysMem VirtMem VirtRefs VirtMap.

Implicit Types (s : mm) (l : Z * Z) (d va : Z).

(** * Sequences of operations *)

Inductive vm_op :=
| VInsert (d p va pm : Z)
| VAllocInsert (d va pm : Z)
| VRemove (d va : Z)
| VTmpAlloc (pm : Z)
| VTmpFree (r : Z).

Definition vm_op_run (o : vm_op) : M mm Z :=
  match o with
  | VInsert d p va pm => page_insert d p va pm
  | VAllocInsert d va pm => page_alloc_insert d va pm
  | VRemove d va => page_remove d va true
  | VTmpAlloc pm => '(err, _, _) ← tmp_page_alloc_map pm; mret err
  | VTmpFree r => tmp_page_free (tmp_va r)
  end.

Definition entry_absent s d va : Prop :=
  forall l, loc_of s d va = Some l -> present (pte_at (ptes s) l) = false.

(** What is mapped at an address. *)
Definition entry_maps s d va (P : Z -> Prop) : Prop :=
  forall l, loc_of s d va = Some l -> present (pte_at (ptes s) l) = true -> P (phys_page (pte_at (ptes s) l)).

(** What the callers respect: mappings are made at accounted addresses outside the
    temporary pages, managed frames only are unmapped or replaced, a frame is not
    mapped in its own place when that is its only one (page_insert would free it), and
    the page of a page table is not freed under it. *)
Definition vm_op_pre (base : Z) (o : vm_op) s : Prop :=
  match o with
  | VInsert d p va pm =>
      is_Some (tabs_of s d) /\ base <= p /\
      (exists rc, used_page (phys s) p (mkPage rc false Type_available) /\ rc < 2 ^ 20 - 1 /\
         entry_maps s d va (fun x => base <= x /\ (x = p -> 2 <= rc))) /\
      Z.testbit pm 0 = true /\ accountable (va_addr va) = true /\ pdx va <> TMPX
  | VAllocInsert d va pm =>
      is_Some (tabs_of s d) /\ Z.testbit pm 0 = true /\ accountable (va_addr va) = true /\
      pdx va <> TMPX /\ entry_maps s d va (fun x => base <= x)
  | VRemove d va =>
      is_Some (tabs_of s d) /\ accountable (va_addr va) = true /\ entry_maps s d va (fun x => base <= x)
  | VTmpAlloc pm => Z.testbit pm 0 = true
  | VTmpFree r =>
      0 <= r < 1024 /\ (va2kaddr (tmp_va r) ∉ tables s) /\
      exists K, tmp_table s = Some K /\ present (pte_at (ptes s) (K, r)) = true
  end.

(** What an operation that does not fail leaves at its address: the new frame with the
    permissions it was given, whatever was there, or nothing. *)
Definition vm_op_done (base : Z) (o : vm_op) s s' : Prop :=
  match o with
  | VInsert d p va pm => exists l, loc_of s' d va = Some l /\ pte_at (ptes s') l = PTE_t (page_addr p) pm
  | VAllocInsert d va pm => exists l p, loc_of s' d va = Some l /\ pte_at (ptes s') l = PTE_t (page_addr p) pm /\
      base <= p /\ nrefs (ptes s) p = 0
  | VRemove d va => entry_absent s' d va
  | VTmpAlloc pm => exists K r p, tmp_table s = Some K /\ present (pte_at (ptes s) (K, r)) = false /\
      pte_at (ptes s') (K, r) = PTE_t (page_addr p) pm /\ nrefs (ptes s) p = 0
  | VTmpFree r => forall K, tmp_table s' = Some K -> present (pte_at (ptes s') (K, r)) = false
  end.

Definition vm_step (base : Z) s s' : Prop :=
  exists o z, vm_op_pre base o s /\ vm_op_run o s = Done z s'.

Section ops.
Context (base : Z).

(** Nothing to unmap: -ENOMEM and only the processor changes. *)
Lemma page_remove_absent s d va ts :
  mm_ok base s -> tabs_of s d = Some ts -> entry_absent s d va ->
  exists c, page_remove d va true s = Done (- ENOMEM) (set_cpu c s) /\ cpu_equiv c (cpu_of s).
Proof.
  intros O Ht Habs. destruct (mm_cpu _ _ O) as [Hok HIF].
  set (s1 := set_cpu (do_pushcli (cpu_of s)) s).
  destruct (popcli_run s s1 Hok) as (c & Hpop & Hc); [reflexivity|].
  exists c. split; [|done]. unfold page_remove, pushcli.
  rewrite (bind_done _ _ s tt s1) by done.
  rewrite (bind_done _ _ _ _ _ (page_get_run s1 d va ts Ht)).
  change (loc_of s1 d va) with (loc_of s d va). destruct (loc_of s d va) as [l|] eqn:Hl.
  - destruct (loc_of_table _ _ _ _ _ O Hl) as (Hin & _).
    rewrite (bind_done _ _ _ _ _ (pte_rd_run s1 l Hin)). change (ptes s1) with (ptes s).
    rewrite (Habs l Hl). cbn [negb]. by rewrite (bind_done _ _ _ _ _ Hpop).
  - by rewrite (bind_done _ _ _ _ _ Hpop).
Qed.

(** The entry of an address: none, absent or present. *)
Lemma entry_cases s d va : entry_absent s d va \/ exists l, loc_of s d va = Some l /\ present (pte_at (ptes s) l) = true.
Proof.
  unfold entry_absent. destruct (loc_of s d va) as [l|]; [|by left].
  destruct (present (pte_at (ptes s) l)) eqn:E; [right; by exists l|left; by intros ? [= <-]].
Qed.

Lemma insert_ok s d p va pm : mm_ok base s -> vm_op_pre base (VInsert d p va pm) s ->
  exists z s', page_insert d p va pm s = Done z s' /\ mm_ok base s' /\ (z = - ENOMEM \/ 0 <= z) /\
    (0 <= z -> vm_op_done base (VInsert d p va pm) s s').
Proof.
  intros O ([ts Ht] & Hb & (rc & Hu & Hrc & Hm) & Hpm & Hv & Hx).
  assert (H0 : 0 <= rc) by (destruct (ro_page _ _ _ (mo_refs _ _ O) p _ (proj1 Hu) Hb) as (_ & _ & H); simpl in H; lia).
  destruct (entry_cases s d va) as [Habs|(l & Hl & Hp)].
  - destruct (page_insert_run base s d va p pm rc ts) as (z & s' & Hrun & O' & _ & Hz); try done.
    exists z, s'. split_and!; [done|done|destruct Hz as [[-> _]|[-> _]]; [by left|right; lia]|].
    intros Hz0. destruct Hz as [[-> _]|[_ (l & H1 & H2 & _)]]; [by unfold ENOMEM in Hz0|by exists l].
  - destruct (Hm l Hl Hp) as [Hbx Hxp]. destruct (loc_of_table _ _ _ _ _ O Hl) as (_ & _ & Htx).
    destruct (page_replace_run base (page_insert_fuel 1) s d va p pm l rc O Hl Hp Hbx Hb Hu Hrc Hxp Hpm Hv)
      as (s' & Hrun & O' & Sm & He & _); [by intros ?%Htx|].
    eexists _, s'. split_and!; [exact Hrun|done|right; case_match; lia|].
    intros _. exists l. split; [by rewrite (same_maps_loc _ _ _ _ Sm)|]. by rewrite He, pte_at_insert, bool_decide_true.
Qed.

Lemma alloc_insert_ok s d va pm : mm_ok base s -> vm_op_pre base (VAllocInsert d va pm) s ->
  exists z s', page_alloc_insert d va pm s = Done z s' /\ mm_ok base s' /\ (z = - ENOMEM \/ 0 <= z) /\
    (0 <= z -> vm_op_done base (VAllocInsert d va pm) s s').
Proof.
  intros O ([ts Ht] & Hpm & Hv & Hx & Hm). destruct (entry_cases s d va) as [Habs|(l & Hl & Hp)].
  - destruct (page_alloc_insert_run base s d va pm ts) as (z & s' & Hrun & O' & _ & Hz); try done.
    exists z, s'. split_and!; [done|done|destruct Hz as [[-> _]|[-> _]]; [by left|right; lia]|].
    intros Hz0. destruct Hz as [[-> _]|[_ (p & Hb & Hn & l & H1 & H2 & _)]]; [by unfold ENOMEM in Hz0|by exists l, p].
  - destruct (page_alloc_replace_run base s d va pm l O Hl Hp (Hm l Hl Hp) Hpm Hv Hx) as (z & s' & Hrun & O' & Hz).
    exists z, s'. split_and!; [done|done|destruct Hz as [[-> _]|[-> _]]; [by left|right; lia]|].
    intros Hz0. destruct Hz as [[-> _]|[_ (p & Hb & Hn & Sm & He)]]; [by unfold ENOMEM in Hz0|]. exists l, p.
    split_and!; [by rewrite (same_maps_loc _ _ _ _ Sm)| |done|done]. by rewrite He, pte_at_insert, bool_decide_true.
Qed.

Lemma remove_ok s d va : mm_ok base s -> vm_op_pre base (VRemove d va) s ->
  exists z s', page_remove d va true s = Done z s' /\ mm_ok base s' /\ (z = - ENOMEM \/ 0 <= z) /\ entry_absent s' d va.
Proof.
  intros O ([ts Ht] & Hv & Hm). destruct (entry_cases s d va) as [Habs|(l & Hl & Hp)].
  - destruct (page_remove_absent s d va ts O Ht Habs) as (c & Hrun & Hc).
    eexists _, _. split_and!; [done|by eapply (mm_ok_equiv base s c (cpu_of s)); [| apply (mm_cpu _ _ O).. |]|by left|done].
  - destruct (page_remove_run base s d va true l O Hl Hp (Hm l Hl Hp) Hv)
      as (s' & Hrun & O' & Sm & He & H1 & H2 & _).
    eexists _, s'. split_and!; [done|done|right; lia|]. intros l'. rewrite (same_maps_loc _ _ _ _ Sm), Hl. intros [= <-].
    by rewrite He, pte_at_insert, bool_decide_true.
Qed.

Lemma tmp_free_ok s r : mm_ok base s -> vm_op_pre base (VTmpFree r) s ->
  exists z s', tmp_page_free (tmp_va r) s = Done z s' /\ mm_ok base s' /\ (z = - ENOMEM \/ 0 <= z) /\ vm_op_done base (VTmpFree r) s s'.
Proof.
  intros O (Hr & Hnin & K & HK & Hp).
  destruct (tmp_page_free_run base s r K O HK Hr Hp Hnin) as (s' & Hrun & O' & He & _ & Htabs & _).
  eexists _, s'. split_and!; [done|done|right|].
  - destruct (mo_slots _ _ O K r HK Hp) as (_ & _ & Hb).
    assert (Hw : ptes s !! (K, r) = Some (pte_at (ptes s) (K, r))).
    { unfold pte_at in *. by destruct (ptes s !! (K, r)). }
    destruct (refs_unmap base (phys s) (ptes s) (K, r) _ _ (mo_refs _ _ O) Hw Hp eq_refl Hb)
      as (_ & _ & _ & _ & ? & _). lia.
  - intros K'. unfold tmp_table. rewrite Htabs. fold (tmp_table s). rewrite HK. intros [= <-].
    by rewrite He, pte_at_insert, bool_decide_true.
Qed.

Lemma tmp_alloc_ok s pm : mm_ok base s -> Z.testbit pm 0 = true ->
  exists z s', vm_op_run (VTmpAlloc pm) s = Done z s' /\ mm_ok base s' /\ (z = - ENOMEM \/ 0 <= z) /\
    (0 <= z -> vm_op_done base (VTmpAlloc pm) s s').
Proof.
  intros O Hpre. cbn [vm_op_run]. unfold tmp_page_alloc_map, page_insert, insert_fuel.
  destruct (tmp_alloc_run base (page_insert_fuel 1) s pm O Hpre)
    as [(o & va & s' & Hrun & O' & _)|(K & r & p & s' & Hrun & Hr & HK & Hbit & O' & _ & _ & _ & He & _ & _ & _ & Hn & _)].
  - eexists _, s'. split; [erewrite bind_done by exact Hrun; reflexivity|]. split_and!; [done|by left|]. by unfold ENOMEM.
  - eexists _, s'. split; [erewrite bind_done by exact Hrun; reflexivity|]. split_and!; [done|right; lia|]. intros _.
    exists K, r, p. split_and!; [done|by eapply free_slot|by rewrite He, pte_at_insert, bool_decide_true|done].
Qed.

Lemma vm_op_ok s o :
  mm_ok base s -> vm_op_pre base o s ->
  exists z s', vm_op_run o s = Done z s' /\ mm_ok base s' /\ (z = - ENOMEM \/ 0 <= z) /\ (0 <= z -> vm_op_done base o s s').
Proof.
  intros O Hpre. destruct o as [d p va pm|d va pm|d va|pm|r]; cbn [vm_op_run].
  - by apply insert_ok.
  - by apply alloc_insert_ok.
  - destruct (remove_ok s d va O Hpre) as (z & s' & H1 & H2 & H3 & H4). by exists z, s'.
  - by apply tmp_alloc_ok.
  - destruct (tmp_free_ok s r O Hpre) as (z & s' & H1 & H2 & H3 & H4). by exists z, s'.
Qed.

Lemma vm_reach_ok s0 s : mm_ok base s0 -> rtc (vm_step base) s0 s -> mm_ok base s.
Proof.
  intros O Hr. revert O. induction Hr as [|s1 s2 s3 (o & z & Hpre & Hrun) _ IH]; intros O; [done|].
  apply IH. destruct (vm_op_ok s1 o O Hpre) as (z' & s' & Hrun' & O' & _). congruence.
Qed.
End ops.

(** ** The states of the witnesses *)

(** Frames [base .. base+n-1] free, the kernel directory with the table of the
    temporary pages at 0x1000, and one empty directory. *)
Definition demo_frames (base n : Z) : gmap Z Page :=
  list_to_map ((fun i => (i, mkPage (if i =? base + n - 1 then 0 else i + 1) true Type_available))
               <$> seqZ base n).
Definition demo_mm (base n : Z) : mm :=
  mkMM (mkPm (demo_frames base n) (Some base) (Some (base + n - 1)) n (mkCpu false 0 false))
       ∅ {[0x1000]} ∅
       {[KDIR := mkDir 0x2000 {[TMPX := PDE_t 0x1000 3]} {[TMPX := 0x1000]} 0 0 0 0 0 0 0;
         1 := mkDir 0x3000 ∅ ∅ 0 0 0 0 0 0 0]}
       (replicate 32 0) KDIR [].

Lemma demo_mm_ok_n n : n = 4 \/ n = 8 -> mm_ok 5 (demo_mm 5 n).
Proof.
  intros Hn.
  assert (Hpages : map_Forall (fun x p => free p = true /\ type p = Type_available /\ 5 <= x < 2 ^ 20 /\
    0 <= nextFreeIndexOrRefCount p < 2 ^ 20 /\ x ∈ seqZ 5 n) (demo_frames 5 n)).
  { destruct Hn as [-> | ->]; apply (bool_decide_unpack _); vm_compute; exact I. }
  assert (HK : forall d ts m k, tabs_of (demo_mm 5 n) d = Some ts -> table_at ts m = Some k ->
     k = 0x1000 /\ m = TMPX).
  { intros d ts m k. unfold tabs_of, demo_mm; cbn [dirs].
    destruct (decide (d = KDIR)) as [->|H0]; [|destruct (decide (d = 1)) as [->|H1]].
    - rewrite lookup_insert_eq. intros [= <-]. unfold table_at.
      destruct (decide (m = TMPX)) as [->|Hm]; [rewrite lookup_singleton_eq; by intros [= <-]|].
      by rewrite lookup_singleton_ne.
    - rewrite lookup_insert_ne, lookup_singleton_eq by done. intros [= <-]. done.
    - rewrite lookup_insert_ne, lookup_singleton_ne by done. done. }
  assert (Hmap : forall l w, ptes (demo_mm 5 n) !! l = Some w -> False) by (intros l w; unfold demo_mm; cbn [ptes]; by rewrite lookup_empty).
  split; try done.
  - split; try done.
    + exists (seqZ 5 n). destruct Hn as [-> | ->]; (split; try done;
        [by apply (bool_decide_unpack _); vm_compute|by apply (bool_decide_unpack _); vm_compute|
         intros i x Hi; do 8 (destruct i as [|i]; [simpl in Hi; simplify_eq; exists Type_available; reflexivity|]); done|
         intros x p Hx _; by destruct (Hpages x p Hx) as (_ & _ & _ & _ & ?)]).
    + intros x p Hx _. destruct (Hpages x p Hx) as (_ & _ & ? & _). lia.
    + intros x p Hx _. by destruct (Hpages x p Hx) as (_ & ? & [_ ?] & ? & _).
    + intros x p Hx _. destruct (Hpages x p Hx) as (Hf & _). unfold refcount_get. by rewrite Hf.
  - split; [|done]. apply (bool_decide_unpack _). vm_compute. exact I.
  - exists 0x1000. split; [reflexivity|]. simpl. set_solver.
  - intros d ts m k Ht Hk. destruct (HK d ts m k Ht Hk) as [-> ->]. split; [simpl; set_solver|done].
  - intros r Hr. simpl. intros E%elem_of_singleton. exfalso.
    assert (Hall : Forall (fun r => va2kaddr (tmp_va r) <> 0x1000) (seqZ 0 1024)).
    { apply (bool_decide_unpack _). vm_compute. exact I. }
    rewrite Forall_forall in Hall. apply (Hall r); [apply elem_of_seqZ; lia|done].
Qed.

Lemma demo_mm_ok : mm_ok 5 (demo_mm 5 4).
Proof. apply demo_mm_ok_n. by left. Qed.

(** * Properties *)

(** C1. The reference counts are safe under every sequence of page_insert,
    page_alloc_insert, page_remove, tmp_page_alloc_map and tmp_page_free that
    respects the callers' obligations, mappings over a frame that is already there
    included: no operation stops the kernel, each returns -ENOMEM or a count; an
    insertion that does not fail leaves at its address the frame and the permissions it
    was given, a removal nothing ([vm_op_done]); and in every state reached each present
    entry of a page table that maps a managed frame maps a frame that is not free, whose
    reference count is exactly the number of entries that map it; a free frame is
    mapped nowhere. *)
Theorem vm_reference_counts base s0 s :
  mm_ok base s0 -> rtc (vm_step base) s0 s ->
  (forall o, vm_op_pre base o s ->
     exists z s', vm_op_run o s = Done z s' /\ (z = - ENOMEM \/ 0 <= z) /\ (0 <= z -> vm_op_done base o s s')) /\
  (forall l, present (pte_at (ptes s) l) = true -> base <= phys_page (pte_at (ptes s) l) ->
     exists pg, used_page (phys s) (phys_page (pte_at (ptes s) l)) pg /\
       nextFreeIndexOrRefCount pg = nrefs (ptes s) (phys_page (pte_at (ptes s) l))) /\
  (forall p pg, pages (phys s) !! p = Some pg -> free pg = true -> nrefs (ptes s) p = 0).
Proof.
  intros O0 Hr. pose proof (vm_reach_ok base s0 s O0 Hr) as O. pose proof (mo_refs _ _ O) as R.
  split_and!.
  - intros o Hpre. destruct (vm_op_ok base s o O Hpre) as (z & s' & ? & _ & ? & ?). eauto.
  - intros l Hp Hb. assert (Hl : ptes s !! l = Some (pte_at (ptes s) l)).
    { unfold pte_at in *. by destruct (ptes s !! l). }
    destruct (ro_in _ _ _ R l _ Hl Hp Hb) as [pg Hpg]. exists pg.
    pose proof (ro_count _ _ _ R _ _ Hpg Hb) as Hc.
    destruct (refs_unmap base (phys s) (ptes s) l _ _ R Hl Hp eq_refl Hb) as (_ & _ & _ & _ & H1 & _).
    unfold refcount_get in Hc. destruct (free pg) eqn:Hf; [lia|]. by repeat split.
  - intros p pg Hpg Hf. pose proof (ro_free _ _ _ R p pg Hpg Hf) as Hb.
    rewrite <- (ro_count _ _ _ R p pg Hpg Hb). unfold refcount_get. by rewrite Hf.
Qed.

(** Two mappings at the same address: the second replaces the first, whose frame is
    free again. *)
Lemma vm_reference_counts_witness :
  exists s s', rtc (vm_step 5) (demo_mm 5 4) s /\ present (pte_at (ptes s) (va2kaddr (tmp_va 0), 1)) = true /\
    vm_op_run (VAllocInsert 1 0x1000 5) s = Done 1 s' /\ vm_op_done 5 (VAllocInsert 1 0x1000 5) s s' /\
    (forall p pg, pages (phys s) !! p = Some pg -> free pg = true -> nrefs (ptes s) p = 0).
Proof.
  assert (Hpre : vm_op_pre 5 (VAllocInsert 1 0x1000 7) (demo_mm 5 4)).
  { split; [eexists; reflexivity|]. split; [reflexivity|]. split; [reflexivity|].
    split; [vm_compute; discriminate|]. intros l Hl. vm_compute in Hl. discriminate. }
  destruct (vm_op_run (VAllocInsert 1 0x1000 7) (demo_mm 5 4)) as [z s|] eqn:E.
  - assert (Hr : rtc (vm_step 5) (demo_mm 5 4) s).
    { apply rtc_once. exists (VAllocInsert 1 0x1000 7), z. split; [exact Hpre|exact E]. }
    destruct (vm_reference_counts 5 (demo_mm 5 4) s demo_mm_ok Hr) as (Hop & _ & Hfree).
    vm_compute in E. injection E as _ <-.
    match type of Hr with rtc _ _ ?s1 => set (s := s1) in * end.
    assert (Hpre' : vm_op_pre 5 (VAllocInsert 1 0x1000 5) s).
    { split; [eexists; reflexivity|]. split; [reflexivity|]. split; [reflexivity|].
      split; [vm_compute; discriminate|]. intros l Hl _. vm_compute in Hl. injection Hl as <-. vm_compute. discriminate. }
    destruct (Hop _ Hpre') as (z' & s' & Hrun & _ & Hd).
    assert (Ez : z' = 1) by (clear -Hrun; vm_compute in Hrun; by injection Hrun as <- _). subst z'.
    exists s, s'. split; [exact Hr|]. split; [vm_compute; reflexivity|]. split; [exact Hrun|]. split; [by apply Hd|exact Hfree].
  - vm_compute in E. discriminate.
Defined.

(** C14. page_alloc_insert maps a frame that nobody maps: on success the address
    translates to a managed frame that was unmapped before, with the requested
    permissions and reference count one; every other translation, in every
    directory, is unchanged (the tables of the temporary pages apart). Without
    memory it returns -ENOMEM and leaves all page tables and directories as they were. *)
Theorem page_alloc_insert_maps base s d va pm :
  mm_ok base s -> vm_op_pre base (VAllocInsert d va pm) s -> entry_absent s d va ->
  exists z s', page_alloc_insert d va pm s = Done z s' /\
    ((z = - ENOMEM /\ same_maps s s' /\ ptes s' = ptes s) \/
     (z = 1 /\ exists p l, base <= p /\ nrefs (ptes s) p = 0 /\
        loc_of s' d va = Some l /\ phys_page (pte_at (ptes s') l) = p /\
        perm (pte_at (ptes s') l) = Z.land pm 0xFFF /\
        used_page (phys s') p (mkPage 1 false Type_available) /\
        forall d' va' l', loc_of s d' va' = Some l' -> tmp_table s <> Some l'.1 -> l' <> l ->
          loc_of s' d' va' = Some l' /\ pte_at (ptes s') l' = pte_at (ptes s) l')).
Proof.
  intros O ([ts Ht] & Hpm & Hv & Hx & _) Habs.
  destruct (page_alloc_insert_run base s d va pm ts) as (z & s' & Hrun & O' & _ & Hcase); try done.
  exists z, s'. split; [done|]. destruct Hcase as [?|(-> & p & Hb & Hn & l & Hl & Hpte & Hlocs & Hoth & Hu & _)].
  - by left.
  - right. split; [done|]. exists p, l.
    pose proof (frame_range base s' p _ O' Hb (proj1 Hu)) as Hpr.
    split_and!; try done; rewrite ?Hpte.
    + by apply PTE_t_page.
    + by apply PTE_t_perm.
    + intros d' va' l' Hl' Htmp Hne. split; [by apply Hlocs|by apply Hoth].
Qed.

Lemma page_alloc_insert_maps_witness :
  exists z s', page_alloc_insert 1 0x1000 7 (demo_mm 5 4) = Done z s' /\ z = 1.
Proof.
  destruct (page_alloc_insert_maps 5 (demo_mm 5 4) 1 0x1000 7) as (z & s' & Hrun & Hcase).
  - apply demo_mm_ok.
  - split; [eexists; reflexivity|]. split; [reflexivity|]. split; [reflexivity|].
    split; [vm_compute; discriminate|]. intros l Hl. vm_compute in Hl. discriminate.
  - intros l Hl. vm_compute in Hl. discriminate.
  - exists z, s'. split; [exact Hrun|]. vm_compute in Hrun. injection Hrun as <- _. reflexivity.
Defined.

(** ** segment_free *)

Lemma page_remove_again base s d va n :
  mm_ok base s -> is_Some (tabs_of s d) -> entry_absent s d va ->
  exists s', iterM (fun _ : Z => _ ← page_remove d va true; mret tt) n s = Done tt s' /\
    ptes s' = ptes s /\ same_maps s s'.
Proof.
  revert s. induction n as [|x n IH]; intros s O [ts Ht] Habs; cbn [iterM]; [by exists s|].
  destruct (page_remove_absent base s d va ts O Ht Habs) as (c & Hrun & Hc).
  rewrite (bind_done _ _ s tt (set_cpu c s)) by (by rewrite (bind_done _ _ _ _ _ Hrun)).
  destruct (IH (set_cpu c s)) as (s' & Hrun' & He & Sm).
  - by eapply (mm_ok_equiv base s c (cpu_of s)); [| apply (mm_cpu _ _ O).. |].
  - eauto.
  - done.
  - exists s'. split_and!; [done|done|]. etransitivity; [apply same_maps_cpu|exact Sm].
Qed.

(** C23. segment_free unmaps only the first page of the segment, whatever its
    length: its loop passes the start address instead of the loop variable, so
    every other page of the segment stays mapped and referenced. *)
Theorem segment_free_first_page_only base s d va len l :
  mm_ok base s -> loc_of s d (roundDown va) = Some l -> present (pte_at (ptes s) l) = true ->
  base <= phys_page (pte_at (ptes s) l) -> accountable (va_addr (roundDown va)) = true ->
  roundDown va < roundUp (u32 (va + len)) ->
  exists s', segment_free d va len s = Done tt s' /\ ptes s' = <[l := PTE_t 0 0]> (ptes s) /\
    forall va' l', loc_of s d va' = Some l' -> l' <> l ->
      loc_of s' d va' = Some l' /\ pte_at (ptes s') l' = pte_at (ptes s) l'.
Proof.
  intros O Hl Hp Hb Hv Hlen.
  destruct (page_remove_run base s d (roundDown va) true l O Hl Hp Hb Hv)
    as (s1 & Hrun & O1 & Sm & He & _).
  destruct (loc_of_tabs _ _ _ _ Hl) as [ts Ht].
  destruct (page_remove_again base s1 d (roundDown va)
    (range_step (roundDown va + 0x1000) (roundUp (u32 (va + len))) 0x1000) O1) as (s2 & Hrun2 & He2 & Sm2).
  { rewrite (sm_tabs _ _ Sm). eauto. }
  { intros l'. rewrite (same_maps_loc _ _ _ _ Sm), Hl. intros [= <-].
    rewrite He, pte_at_insert, bool_decide_true; done. }
  exists s2. split_and!.
  - unfold segment_free. rewrite (bind_done ASSERT_int_disable _ s tt s)
      by (apply int_disable_run, (mm_cpu _ _ O)).
    rewrite range_step_cons by lia. cbn [iterM].
    rewrite (bind_done _ _ s tt s1) by (by rewrite (bind_done _ _ _ _ _ Hrun)). exact Hrun2.
  - by rewrite He2.
  - intros va' l' Hl' Hne. rewrite (same_maps_loc _ _ _ _ Sm2), (same_maps_loc _ _ _ _ Sm).
    split; [done|]. by rewrite He2, He, pte_at_insert, bool_decide_false.
Qed.

(** Two pages at 0x1000, freed as a segment: the page at 0x2000 is still there. *)
Lemma segment_free_first_page_only_witness :
  exists s s', (page_alloc_insert 1 0x1000 7 ;; page_alloc_insert 1 0x2000 7) (demo_mm 5 4) = Done 1 s /\
    segment_free 1 0x1000 0x2000 s = Done tt s' /\
    present (pte_at (ptes s') (va2kaddr (tmp_va 0), 2)) = true.
Proof.
  assert (Hpre : forall s va z s', mm_ok 5 s -> vm_op_pre 5 (VAllocInsert 1 va 7) s ->
    page_alloc_insert 1 va 7 s = Done z s' -> mm_ok 5 s').
  { intros s va z s' O Hp Hrun. destruct (vm_op_ok 5 s (VAllocInsert 1 va 7) O Hp) as (z' & s2 & Hr & O2 & _).
    cbn [vm_op_run] in Hr. congruence. }
  destruct (page_alloc_insert 1 0x1000 7 (demo_mm 5 4)) as [z1 s1|] eqn:E1; [|vm_compute in E1; discriminate].
  assert (O1 : mm_ok 5 s1).
  { apply (Hpre _ _ _ _ demo_mm_ok) in E1; [exact E1|].
    split; [eexists; reflexivity|]. split; [reflexivity|]. split; [reflexivity|].
    split; [vm_compute; discriminate|]. intros l Hl. vm_compute in Hl. discriminate. }
  destruct (page_alloc_insert 1 0x2000 7 s1) as [z2 s2|] eqn:E2;
    [|vm_compute in E1; injection E1 as _ <-; vm_compute in E2; discriminate].
  assert (O2 : mm_ok 5 s2).
  { apply (Hpre _ _ _ _ O1) in E2; [exact E2|]. vm_compute in E1. injection E1 as _ <-.
    split; [eexists; reflexivity|]. split; [reflexivity|]. split; [reflexivity|].
    split; [vm_compute; discriminate|]. intros l Hl Hp. vm_compute in Hl. injection Hl as <-. vm_compute in Hp. discriminate. }
  assert (E : (page_alloc_insert 1 0x1000 7 ;; page_alloc_insert 1 0x2000 7) (demo_mm 5 4) = Done z2 s2)
    by (rewrite (bind_done _ _ _ _ _ E1); exact E2).
  vm_compute in E1. injection E1 as _ <-. vm_compute in E2. injection E2 as <- <-.
  destruct (segment_free_first_page_only 5 _ 1 0x1000 0x2000 (va2kaddr (tmp_va 0), 1) O2)
    as (s' & Hrun & He & _); [reflexivity|reflexivity|vm_compute; discriminate|reflexivity|reflexivity|].
  eexists _, s'. split; [exact E|]. split; [exact Hrun|]. rewrite He. vm_compute. reflexivity.
Defined.

(** ** verify_user_addr *)

Lemma verify_page_perm d pm i s : verify_page d pm i s = verify_page d 0 i s.
Proof.
  unfold verify_page, mbind, M_bind. destruct (page_get d i s) as [[l|] s'|]; [|done|done].
  destruct (pte_rd l s') as [w s''|]; [|done]. rewrite Z.land_0_l. cbn [Z.eqb negb].
  destruct (present w) eqn:Hw; simpl; [|done].
  replace (Z.land pm (lnot (Z.land (perm w) pm))) with 0; [done|].
  symmetry. unfold lnot. destruct (Z.eqb_spec (Z.land (perm w) pm) 0) as [E|]; [|apply Z.land_0_r].
  apply Z.bits_inj'. intros j Hj. rewrite Z.land_spec, Z.bits_0.
  destruct (decide (j = 0)) as [->|Hne].
  - apply (f_equal (fun z => Z.testbit z 0)) in E. rewrite Z.land_spec, Z.bits_0 in E.
    unfold perm, present in *. rewrite Z.land_spec, Hw in E. simpl in E. rewrite Z.bit0_odd. by rewrite E.
  - change 1 with (2 ^ 0). by rewrite Z.pow2_bits_false, andb_false_r by lia.
Qed.

(** verify_user_addr ignores the permissions it is asked to check: with any
    mask it accepts and rejects exactly what it does with no mask at all, because
    the complement is a logical negation; a system call that asks for a writable
    user range also gets read-only and supervisor pages. *)
Theorem verify_ignores_permissions d addr len pm s :
  verify_user_addr d addr len pm s = verify_user_addr d addr len 0 s.
Proof.
  unfold verify_user_addr. destruct (_ || _); [done|]. destruct (_ || _); [done|].
  unfold mbind, M_bind. rewrite (iter_until_ext (verify_page d pm) (verify_page d 0)); [done|].
  intros i s'. apply verify_page_perm.
Qed.

(** With the length -1 the upper bound wraps around: every page-aligned user
    address above the first page is accepted without looking at any page table,
    mapped or not. *)
Theorem verify_wraps_length d k pm s :
  1 <= k < 0xC0000 ->
  verify_user_addr d (k * 0x1000) 0xFFFFFFFF pm s = Done 0 s.
Proof.
  intros Hk. unfold verify_user_addr, uaddr2va, MMAP_USER_TOP, MMAP_USER_BASE.
  rewrite Z.add_0_r, (u32_small (k * 0x1000)) by lia.
  replace (u32 (k * 0x1000 + 0xFFFFFFFF)) with (k * 0x1000 - 1).
  2: { unfold u32. replace (k * 0x1000 + 0xFFFFFFFF) with (k * 0x1000 - 1 + 1 * 2 ^ 32) by lia.
       rewrite Z.mod_add by lia. rewrite Z.mod_small; lia. }
  destruct (Z.leb_spec 0xC0000000 (k * 0x1000)); [lia|].
  destruct (Z.ltb_spec 0xC0000000 (k * 0x1000 - 1)); [lia|].
  destruct (Z.ltb_spec (k * 0x1000) 0); [lia|]. destruct (Z.ltb_spec (k * 0x1000 - 1) 0); [lia|].
  cbn [orb]. rewrite range_step_nil; [done|lia|].
  rewrite roundUp_spec by (unfold fits; lia).
  replace (k * 0x1000 - 1 + 4095) with (4094 + k * 4096) by lia. rewrite Z.mod_add by lia.
  rewrite Z.mod_small by lia. lia.
Qed.

Lemma verify_wraps_length_witness :
  verify_user_addr 1 (0x8000 * 0x1000) 0xFFFFFFFF (Z.lor PTE_U PTE_W) (demo_mm 5 4) = Done 0 (demo_mm 5 4).
Proof. apply (verify_wraps_length 1 0x8000). lia. Defined.

(** ** segment_alloc *)

(** segment_alloc cannot fail cleanly inside one page table: when memory runs
    out after its page table was created, the table is not given back (the loop
    over directory entries stops before the last one) and the assertion on the
    kernel page count stops the kernel instead of returning -ENOMEM; a failure
    before that is reported. *)
Theorem segment_alloc_failure_asserts :
  segment_alloc 1 0x1000 0x4000 7 (demo_mm 5 3) = Stop AssertFailed /\
  (exists s, segment_alloc 1 0x1000 0x4000 7 (demo_mm 5 1) = Done (- ENOMEM) s) /\
  (exists s, segment_alloc 1 0x1000 0x4000 7 (demo_mm 5 5) = Done 0 s).
Proof.
  split; [vm_compute; reflexivity|].
  split; eexists; vm_compute; reflexivity.
Qed.
