(* ===== verification/UserMem.v ===== *)
(** User memory: words and bytes at the addresses of the running program, through its
    page tables, as the kernel reads and writes them behind user_to_kernel_check. A store
    to a page without PTE_W faults in the kernel as well: vm_init sets CR0_WP.

    The second half relates the bytes at virtual addresses to those of the page
    frames, and says what verify_user_addr (kernel/memory/virtual.cpp) is good for. *)

From S2P Require Import Prelude Spinlock Util PhysMem VirtMem VirtRefs VirtMap VirtProps.

(** * Definitions *)

(** A word at a user address. An address that is not mapped is a page fault in kernel
    mode, which stops the kernel; so is a store to a page without PTE_W, since vm_init
    sets CR0_WP (the entries of a directory for user tables always have PTE_W,
    pde_alloc). Words the model has not seen written read as zero. *)
Definition umem_entry (ua : Z) : M mm Z :=
  s ← get;
  o ← page_get (cr3_dir s) (uaddr2va ua);
  l ← deref o; w ← pte_rd l;
  if present w then mret w else stop BadAccess.
Definition umem_frame (ua : Z) : M mm Z := w ← umem_entry ua; mret (phys_page w).
Definition umem_store_frame (ua : Z) : M mm Z :=
  w ← umem_entry ua; if Z.testbit w 1 then mret (phys_page w) else stop BadAccess.
Definition umem_word (ua : Z) : nat := Z.to_nat (ua mod 0x1000 / 4).
Definition umem_rd (ua : Z) : M mm Z :=
  p ← umem_frame ua; s ← get;
  mret (default 0 (default [] (frames s !! p) !! umem_word ua)).
Definition frame_set (p : Z) (n : nat) (v : Z) (f : gmap Z (list Z)) : gmap Z (list Z) :=
  let c := default [] (f !! p) in <[p := <[n := v]> (resize (Nat.max (length c) (S n)) 0 c)]> f.
Definition umem_wr (ua v : Z) : M mm unit :=
  p ← umem_store_frame ua; modify (fun s => set_frames (frame_set p (umem_word ua) v (frames s)) s).

(** Byte [k] of a word. *)
Definition byte_of (w k : Z) : Z := Z.land (Z.shiftr w (8 * k)) 0xff.
Definition set_byte (w k v : Z) : Z :=
  Z.lor (Z.land w (Z.lxor 0xFFFFFFFF (Z.shiftl 0xff (8 * k)))) (Z.shiftl (u8 v) (8 * k)).

Definition umem_rdb (ua : Z) : M mm Z := w ← umem_rd ua; mret (byte_of w (ua mod 4)).
Definition umem_wrb (ua v : Z) : M mm unit := w ← umem_rd ua; umem_wr ua (set_byte w (ua mod 4) v).

Fixpoint user_bytes (n : nat) (ua : Z) : M mm (list Z) :=
  match n with
  | O => mret []
  | S n => b ← umem_rdb ua; s ← user_bytes n (u32 (ua + 1)); mret (b :: s)
  end.
Fixpoint user_store (ua : Z) (bs : list Z) : M mm unit :=
  match bs with
  | [] => mret tt
  | b :: bs => umem_wrb ua b ;; user_store (u32 (ua + 1)) bs
  end.

(** A string of at most [n] bytes, without its final zero: all [n] when there is none. *)
Fixpoint user_str (n : nat) (ua : Z) : M mm (list Z) :=
  match n with
  | O => mret []
  | S n => b ← umem_rdb ua; if b =? 0 then mret [] else s ← user_str n (u32 (ua + 1)); mret (b :: s)
  end.

(** The bytes of a little-endian word. *)
Definition bytes_of (n : nat) (v : Z) : list Z := (fun i => byte_of v (Z.of_nat i)) <$> seq 0 n.
Definition word_of (bs : list Z) : Z := foldr (fun b w => b + 256 * w) 0 bs.

(** A word at any address, aligned or not. *)
Definition user_word (ua : Z) : M mm Z := bs ← user_bytes 4 ua; mret (word_of bs).
Definition user_put (ua v : Z) : M mm unit := user_store ua (bytes_of 4 v).

(** * Bytes of words *)

Lemma byte_of_bits w k i : 0 <= k -> 0 <= i -> Z.testbit (byte_of w k) i = (i <? 8) && Z.testbit w (8 * k + i).
Proof.
  intros Hk Hi. unfold byte_of. change 0xff with (Z.ones 8). rewrite Z.land_spec, Z.shiftr_spec by lia.
  rewrite Z.add_comm. destruct (Z.ltb_spec i 8).
  - by rewrite Z.ones_spec_low, andb_true_r by lia.
  - by rewrite Z.ones_spec_high, andb_false_r by lia.
Qed.

Lemma set_byte_bits w k v i : 0 <= k < 4 -> 0 <= i ->
  Z.testbit (set_byte w k v) i =
    (if (8 * k <=? i) && (i <? 8 * k + 8) then Z.testbit v (i - 8 * k) else (i <? 32) && Z.testbit w i).
Proof.
  intros Hk Hi. unfold set_byte. change 0xff with (Z.ones 8). change 0xFFFFFFFF with (Z.ones 32).
  rewrite Z.lor_spec, Z.land_spec, Z.lxor_spec, !Z.shiftl_spec by lia. unfold u8.
  destruct (Z.leb_spec (8 * k) i) as [H1|H1]; cbn [andb].
  - destruct (Z.ltb_spec i (8 * k + 8)) as [H2|H2].
    + rewrite !Z.ones_spec_low by lia. cbn. rewrite andb_false_r. cbn. apply Z.mod_pow2_bits_low. lia.
    + rewrite (Z.ones_spec_high 8) by lia. rewrite Z.mod_pow2_bits_high, orb_false_r, xorb_false_r by lia.
      destruct (Z.ltb_spec i 32); [by rewrite Z.ones_spec_low, andb_true_r by lia|by rewrite Z.ones_spec_high, andb_false_r by lia].
  - rewrite !(Z.testbit_neg_r _ (i - 8 * k)) by lia. rewrite orb_false_r, xorb_false_r.
    destruct (Z.ltb_spec i 32); [by rewrite Z.ones_spec_low, andb_true_r by lia|by rewrite Z.ones_spec_high, andb_false_r by lia].
Qed.

Lemma byte_of_set w k j v : 0 <= k < 4 -> 0 <= j < 4 ->
  byte_of (set_byte w k v) j = if j =? k then u8 v else byte_of w j.
Proof.
  intros Hk Hj. apply Z.bits_inj'. intros i Hi.
  rewrite byte_of_bits, set_byte_bits by lia. destruct (Z.eqb_spec j k) as [->|Hne].
  - unfold u8. destruct (Z.ltb_spec i 8); cbn [andb].
    + rewrite (proj2 (Z.leb_le _ _)), (proj2 (Z.ltb_lt _ _)) by lia. cbn. rewrite Z.mod_pow2_bits_low by lia. f_equal. lia.
    + by rewrite Z.mod_pow2_bits_high by lia.
  - rewrite byte_of_bits by lia. destruct (Z.ltb_spec i 8); cbn [andb]; [|done].
    rewrite (proj2 (Z.ltb_lt (8 * j + i) 32)) by lia.
    destruct (Z.leb_spec (8 * k) (8 * j + i)); cbn [andb]; [|done].
    by rewrite (proj2 (Z.ltb_ge _ _)) by lia.
Qed.

Lemma byte_of_range w k : 0 <= byte_of w k < 256.
Proof.
  unfold byte_of. change 0xff with (Z.ones 8). rewrite Z.land_ones by lia. apply Z.mod_pos_bound. lia.
Qed.

(** * Where user addresses lead *)

(** The frame of a user address, and the byte in it. *)
Definition utrans (s : mm) (ua : Z) : option Z :=
  l ← loc_of s (cr3_dir s) (uaddr2va ua);
  if bool_decide (l.1 ∈ tables s) && present (pte_at (ptes s) l) then Some (phys_page (pte_at (ptes s) l)) else None.
Definition uloc (s : mm) (ua : Z) : option (Z * Z) := p ← utrans s ua; Some (p, ua mod 0x1000).

(** The byte at offset [l.2] of frame [l.1]. *)
Definition memb (s : mm) (l : Z * Z) : Z :=
  byte_of (default 0 (default [] (frames s !! l.1) !! Z.to_nat (l.2 / 4))) (l.2 mod 4).

Lemma utrans_frames f s ua : utrans (set_frames f s) ua = utrans s ua.
Proof. done. Qed.
Lemma uloc_frames f s ua : uloc (set_frames f s) ua = uloc s ua.
Proof. done. Qed.

(** Whether the page of a user address can be stored to. *)
Definition can_store (s : mm) (ua : Z) : bool :=
  match loc_of s (cr3_dir s) (uaddr2va ua) with Some l => Z.testbit (pte_at (ptes s) l) 1 | None => false end.

Lemma can_store_frames f s ua : can_store (set_frames f s) ua = can_store s ua.
Proof. done. Qed.

Lemma umem_entry_run s ua p : utrans s ua = Some p ->
  exists w, umem_entry ua s = Done w s /\ phys_page w = p /\ Z.testbit w 1 = can_store s ua.
Proof.
  unfold utrans, umem_entry, can_store. destruct (loc_of s (cr3_dir s) (uaddr2va ua)) as [l|] eqn:El; [|done]. cbn [mbind option_bind].
  intros Hp. destruct (bool_decide (l.1 ∈ tables s)) eqn:Ht; [|done]. apply bool_decide_eq_true in Ht.
  destruct (present (pte_at (ptes s) l)) eqn:Hpr; [|done]. injection Hp as <-. exists (pte_at (ptes s) l).
  destruct (loc_of_tabs _ _ _ _ El) as [ts Hts]. split; [|done]. unfold mbind, M_bind, get.
  rewrite (page_get_run _ _ _ _ Hts), El. cbn [deref mret M_ret]. by rewrite (pte_rd_run _ _ Ht), Hpr.
Qed.

Lemma umem_frame_run s ua p : utrans s ua = Some p -> umem_frame ua s = Done p s.
Proof. intros (w & E & Hp & _)%umem_entry_run. unfold umem_frame. rewrite (bind_done _ _ _ _ _ E). by rewrite Hp. Qed.

Lemma umem_store_frame_run s ua p : utrans s ua = Some p ->
  umem_store_frame ua s = if can_store s ua then Done p s else Stop BadAccess.
Proof.
  intros (w & E & Hp & Hw)%umem_entry_run. unfold umem_store_frame. rewrite (bind_done _ _ _ _ _ E), Hw.
  destruct (can_store s ua); [by rewrite <- Hp|done].
Qed.

Lemma uloc_inv s ua l : uloc s ua = Some l -> utrans s ua = Some l.1 /\ l.2 = ua mod 0x1000.
Proof. unfold uloc. destruct (utrans s ua); [|done]. by intros [= <-]. Qed.

Lemma uloc_word ua : umem_word ua = Z.to_nat (ua mod 0x1000 / 4) /\ (ua mod 0x1000) mod 4 = ua mod 4.
Proof.
  split; [done|]. rewrite <- (Znumtheory.Zmod_div_mod 4 0x1000 ua); [done|lia|lia|]. by exists 1024.
Qed.

Lemma umem_rdb_run s ua l : uloc s ua = Some l -> umem_rdb ua s = Done (memb s l) s.
Proof.
  intros [Hp Ho]%uloc_inv. destruct (uloc_word ua) as [Hw Hm]. unfold umem_rdb, umem_rd, mbind, M_bind, get.
  rewrite (umem_frame_run _ _ _ Hp). cbn. unfold memb. by rewrite Hw, Ho, Hm.
Qed.

(** Storing a byte. *)
Definition store_b (l : Z * Z) (v : Z) (s : mm) : mm :=
  let w := default 0 (default [] (frames s !! l.1) !! Z.to_nat (l.2 / 4)) in
  set_frames (frame_set l.1 (Z.to_nat (l.2 / 4)) (set_byte w (l.2 mod 4) v) (frames s)) s.

Lemma umem_wrb_run s ua v l : uloc s ua = Some l ->
  umem_wrb ua v s = if can_store s ua then Done tt (store_b l v s) else Stop BadAccess.
Proof.
  intros [Hp Ho]%uloc_inv. destruct (uloc_word ua) as [Hw Hm].
  unfold umem_wrb, umem_rd, umem_wr, mbind, M_bind, get, modify.
  rewrite (umem_frame_run _ _ _ Hp). cbn. rewrite (umem_store_frame_run _ _ _ Hp). destruct (can_store s ua); [|done].
  unfold store_b. by rewrite Hw, Ho, Hm.
Qed.

Lemma frame_set_lookup p n v f q m : default 0 (default [] (frame_set p n v f !! q) !! m) =
  if decide (q = p /\ m = n) then v else default 0 (default [] (f !! q) !! m).
Proof.
  unfold frame_set. destruct (decide (q = p)) as [->|Hq].
  - rewrite lookup_insert_eq. cbn [default from_option id]. set (c := default [] (f !! p)).
    destruct (decide (m = n)) as [->|Hm].
    + rewrite decide_True by done. rewrite list_lookup_insert_eq; [done|]. rewrite length_resize. lia.
    + rewrite decide_False by tauto. rewrite list_lookup_insert_ne by done.
      destruct (decide (m < length c)%nat) as [Hlt|Hge].
      * by rewrite lookup_resize by lia.
      * rewrite (lookup_ge_None_2 c m) by lia. destruct (resize (length c `max` S n) 0 c !! m) as [x|] eqn:E; [|done].
        rewrite resize_ge in E by lia. rewrite lookup_app_r in E by lia. by apply lookup_replicate in E as [-> _].
  - rewrite decide_False by tauto. by rewrite lookup_insert_ne.
Qed.

Lemma memb_store s l v l' : 0 <= l.2 -> 0 <= l'.2 ->
  memb (store_b l v s) l' = if decide (l' = l) then u8 v else memb s l'.
Proof.
  intros H0 H1. unfold memb, store_b. cbn [frames set_frames]. rewrite frame_set_lookup.
  pose proof (Z.mod_pos_bound l.2 4 ltac:(lia)). pose proof (Z.mod_pos_bound l'.2 4 ltac:(lia)).
  pose proof (Z.div_mod l.2 4 ltac:(lia)). pose proof (Z.div_mod l'.2 4 ltac:(lia)).
  pose proof (Z.div_pos l.2 4 H0 ltac:(lia)). pose proof (Z.div_pos l'.2 4 H1 ltac:(lia)).
  destruct (decide (l'.1 = l.1 /\ Z.to_nat (l'.2 / 4) = Z.to_nat (l.2 / 4))) as [[E1 E2]|Hne].
  - rewrite byte_of_set by lia. apply Z2Nat.inj in E2; [|done..].
    destruct (Z.eqb_spec (l'.2 mod 4) (l.2 mod 4)) as [E3|E3].
    + rewrite decide_True; [done|]. destruct l, l'; cbn in *. subst. f_equal. lia.
    + rewrite decide_False by (intros ->; done). by rewrite E1, E2.
  - rewrite decide_False; [done|]. intros ->. tauto.
Qed.

(** * Windows

    A window is a mapped range of addresses whose pages are different frames: there,
    user memory is a function from addresses to bytes. *)

Definition ub (s : mm) (a : Z) : Z := match uloc s a with Some l => memb s l | None => 0 end.

Definition mapped (s : mm) (lo hi : Z) : Prop := forall a, lo <= a < hi -> is_Some (utrans s a).
Definition apart (s : mm) (lo hi : Z) : Prop := forall a b p,
  lo <= a < hi -> lo <= b < hi -> utrans s a = Some p -> utrans s b = Some p -> a / 0x1000 = b / 0x1000.
Record window (s : mm) (lo hi : Z) : Prop := {
  wi_range : 0 <= lo /\ hi <= 2 ^ 32;
  wi_mapped : mapped s lo hi;
  wi_apart : apart s lo hi;
}.

(** Every page of the addresses from [lo] to below [hi] can be stored to. *)
Definition writable (s : mm) (lo hi : Z) : Prop := forall a, lo <= a < hi -> can_store s a = true.

(** A store of bytes at [a]. *)
Definition mstore (m : Z -> Z) (a : Z) (bs : list Z) (b : Z) : Z :=
  if (a <=? b) && (b <? a + Z.of_nat (length bs)) then u8 (default 0 (bs !! Z.to_nat (b - a))) else m b.

(** [s'] is [s] with other contents of the frames. *)
Definition frames_only (s s' : mm) : Prop := exists f, s' = set_frames f s.

#[export] Instance frames_only_refl : Reflexive frames_only.
Proof. intros s. exists (frames s). by destruct s. Qed.
#[export] Instance frames_only_trans : Transitive frames_only.
Proof. intros s1 s2 s3 [f ->] [g ->]. by exists g. Qed.

Lemma window_frames s s' lo hi : frames_only s s' -> window s lo hi -> window s' lo hi.
Proof. intros [f ->] []. by split. Qed.

Lemma writable_frames s s' lo hi : frames_only s s' -> writable s lo hi -> writable s' lo hi.
Proof. by intros [f ->]. Qed.
Lemma writable_sub s lo hi lo' hi' : writable s lo hi -> lo <= lo' -> hi' <= hi -> writable s lo' hi'.
Proof. intros W H1 H2 a Ha. apply W. lia. Qed.

Lemma window_sub s lo hi lo' hi' : window s lo hi -> lo <= lo' -> hi' <= hi -> window s lo' hi'.
Proof.
  intros [[? ?] Hm Ha] H1 H2. split; [lia|intros a ?; apply Hm; lia|intros a b p ? ?; apply Ha; lia].
Qed.

Lemma store_b_frames l v s : frames_only s (store_b l v s).
Proof. by eexists. Qed.

Section window.
Context (lo hi : Z).
Implicit Types s : mm.

Lemma window_uloc s a : window s lo hi -> lo <= a < hi -> exists l, uloc s a = Some l /\ 0 <= l.2.
Proof.
  intros W Ha. destruct (wi_mapped _ _ _ W a Ha) as [p Hp]. exists (p, a mod 0x1000). unfold uloc. rewrite Hp.
  split; [done|]. apply Z.mod_pos_bound. lia.
Qed.

Lemma window_inj s a b l : window s lo hi -> lo <= a < hi -> lo <= b < hi ->
  uloc s a = Some l -> uloc s b = Some l -> a = b.
Proof.
  intros W Ha Hb [Pa Oa]%uloc_inv [Pb Ob]%uloc_inv. pose proof (wi_apart _ _ _ W a b _ Ha Hb Pa Pb).
  pose proof (Z.div_mod a 0x1000 ltac:(lia)). pose proof (Z.div_mod b 0x1000 ltac:(lia)). lia.
Qed.

Lemma rdb_win s a : window s lo hi -> lo <= a < hi -> umem_rdb a s = Done (ub s a) s.
Proof.
  intros W Ha. destruct (window_uloc s a W Ha) as (l & Hl & _). rewrite (umem_rdb_run _ _ _ Hl). unfold ub. by rewrite Hl.
Qed.

Lemma wrb_win s a v : window s lo hi -> lo <= a < hi -> can_store s a = true ->
  exists s', umem_wrb a v s = Done tt s' /\ frames_only s s' /\
    (forall b, lo <= b < hi -> ub s' b = if b =? a then u8 v else ub s b) /\
    forall l, 0 <= l.2 -> uloc s a <> Some l -> memb s' l = memb s l.
Proof.
  intros W Ha Hw. destruct (window_uloc s a W Ha) as (l & Hl & H0). exists (store_b l v s).
  split_and!; [by rewrite (umem_wrb_run _ _ _ _ Hl), Hw|apply store_b_frames| |].
  2: { intros l' H0' Hne. rewrite memb_store by done. rewrite decide_False; [done|]. intros ->. by apply Hne. }
  intros b Hb.
  destruct (window_uloc s b W Hb) as (l' & Hl' & H0'). unfold ub at 1. change (uloc (store_b l v s) b) with (uloc s b).
  rewrite Hl', memb_store by done. destruct (Z.eqb_spec b a) as [->|Hne].
  - rewrite decide_True by congruence. done.
  - rewrite decide_False by (intros ->; by apply Hne, (window_inj s b a l)). unfold ub. by rewrite Hl'.
Qed.

Lemma user_bytes_win s n a : window s lo hi -> lo <= a -> a + Z.of_nat n <= hi ->
  user_bytes n a s = Done ((fun i => ub s (a + i)) <$> seqZ 0 (Z.of_nat n)) s.
Proof.
  intros W. pose proof (wi_range _ _ _ W). revert a. induction n as [|n IH]; intros a H1 H2; [done|].
  cbn [user_bytes]. rewrite (bind_done _ _ _ _ _ (rdb_win s a W ltac:(lia))).
  rewrite (seqZ_cons 0) by lia. rewrite fmap_cons, Z.add_0_r. destruct n as [|n].
  { done. }
  rewrite u32_small by lia. rewrite (bind_done _ _ _ _ _ (IH (a + 1) ltac:(lia) ltac:(lia))).
  unfold mret, M_ret. f_equal. f_equal. replace (Z.pred (Z.of_nat (S (S n)))) with (Z.of_nat (S n)) by lia.
  change (Z.succ 0) with (1 + 0). rewrite <- (fmap_add_seqZ 1 0), <- list_fmap_compose. apply list_fmap_ext.
  intros _ i _. unfold compose. f_equal. lia.
Qed.

Lemma mstore_cons m a v bs b : mstore (fun b => if b =? a then u8 v else m b) (a + 1) bs b = mstore m a (v :: bs) b.
Proof.
  unfold mstore. cbn [length]. destruct (Z.eqb_spec b a) as [->|Hne].
  - destruct (Z.leb_spec (a + 1) a); [lia|]. cbn [andb]. destruct (Z.leb_spec a a); [|lia].
    destruct (Z.ltb_spec a (a + Z.of_nat (S (length bs)))); [|lia]. cbn [andb]. by rewrite Z.sub_diag.
  - replace (a + 1 <=? b) with (a <=? b) by (destruct (Z.leb_spec (a + 1) b), (Z.leb_spec a b); lia || done).
    replace (a + Z.of_nat (S (length bs))) with (a + 1 + Z.of_nat (length bs)) by lia.
    destruct (Z.leb_spec a b); cbn [andb]; [|done]. destruct (b <? a + 1 + Z.of_nat (length bs)); [|done].
    replace (Z.to_nat (b - a)) with (S (Z.to_nat (b - (a + 1)))) by lia. done.
Qed.

Lemma mstore_ext m m' a bs b : m b = m' b -> mstore m a bs b = mstore m' a bs b.
Proof. intros E. unfold mstore. by rewrite E. Qed.

Lemma user_store_win s a bs : window s lo hi -> lo <= a -> a + Z.of_nat (length bs) <= hi ->
  writable s a (a + Z.of_nat (length bs)) ->
  exists s', user_store a bs s = Done tt s' /\ frames_only s s' /\
    (forall b, lo <= b < hi -> ub s' b = mstore (ub s) a bs b) /\
    forall l, 0 <= l.2 -> (forall b, a <= b < a + Z.of_nat (length bs) -> uloc s b <> Some l) -> memb s' l = memb s l.
Proof.
  pose proof (wi_range s lo hi) as Hr. revert s a Hr. induction bs as [|v bs IH]; intros s a Hr W H1 H2 Hw.
  - exists s. split_and!; [done|reflexivity| |done]. intros b _. unfold mstore. cbn [length].
    destruct (Z.leb_spec a b), (Z.ltb_spec b (a + Z.of_nat 0)); cbn [andb]; lia || done.
  - cbn [length] in *. destruct (wrb_win s a v W ltac:(lia) ltac:(apply Hw; lia)) as (s1 & E1 & F1 & U1 & M1).
    destruct bs as [|w bs].
    + exists s1. cbn [user_store]. rewrite (bind_done _ _ _ _ _ E1). split_and!; [done|done| |].
      * intros b Hb. rewrite U1 by done. rewrite <- (mstore_cons (ub s) a v [] b). unfold mstore. cbn [length].
        by destruct (Z.leb_spec (a + 1) b), (Z.ltb_spec b (a + 1 + Z.of_nat 0)); cbn [andb]; try lia.
      * intros l Hl Hn. apply M1; [done|]. apply Hn. cbn. lia.
    + destruct (IH s1 (a + 1)) as (s2 & E2 & F2 & U2 & M2); [apply wi_range|by eapply window_frames|lia|cbn [length] in *; lia| |].
      { eapply writable_frames; [exact F1|]. eapply writable_sub; [exact Hw|lia|cbn [length]; lia]. }
      specialize (Hr W). cbn [user_store length] in *.
      exists s2. rewrite (bind_done _ _ _ _ _ E1). rewrite (u32_small (a + 1)) by lia. split_and!; [done|by etrans| |].
      * intros b Hb. rewrite U2 by done. rewrite <- (mstore_cons (ub s) a v (w :: bs) b). apply mstore_ext. by apply U1.
      * intros l Hl Hn. rewrite M2; [apply M1; [done|apply Hn; lia]|done|].
        destruct F1 as [f ->]. intros b Hb. change (uloc (set_frames f s) b) with (uloc s b). apply Hn. lia.
Qed.

(** A page that cannot be stored to stops the store. *)
Lemma user_store_stops s a bs x : window s lo hi -> lo <= a -> a + Z.of_nat (length bs) <= hi ->
  a <= x < a + Z.of_nat (length bs) -> can_store s x = false -> user_store a bs s = Stop BadAccess.
Proof.
  intros W. pose proof (wi_range _ _ _ W) as Hr. revert s a W. induction bs as [|v bs IH]; intros s a W H1 H2 Hx Hs; cbn [length] in *; [lia|].
  cbn [user_store]. destruct (window_uloc s a W ltac:(lia)) as (l & Hl & _). pose proof (umem_wrb_run s a v l Hl) as E.
  destruct (can_store s a) eqn:Ha; [|by apply bind_stop]. rewrite (bind_done _ _ _ _ _ E).
  assert (Hne : x <> a) by congruence. rewrite u32_small by lia.
  apply IH; [|lia|lia|lia|done]. by eapply window_frames; [apply store_b_frames|].
Qed.

(** What was stored is read. *)
Lemma stored_bytes s s' a bs : lo <= a -> a + Z.of_nat (length bs) <= hi -> Forall (fits 8) bs ->
  (forall b, lo <= b < hi -> ub s' b = mstore (ub s) a bs b) ->
  (fun i => ub s' (a + i)) <$> seqZ 0 (Z.of_nat (length bs)) = bs.
Proof.
  intros H1 H2 Hbs U. apply list_eq. intros i. rewrite list_lookup_fmap.
  destruct (decide (i < length bs)%nat) as [Hi|Hi].
  - rewrite lookup_seqZ_lt by lia. cbn. rewrite U by lia. unfold mstore.
    rewrite (proj2 (Z.leb_le _ _)), (proj2 (Z.ltb_lt _ _)) by lia. cbn [andb].
    replace (Z.to_nat (a + (0 + Z.of_nat i) - a)) with i by lia. destruct (lookup_lt_is_Some_2 bs i Hi) as [c Hc].
    rewrite Hc. cbn. f_equal. unfold u8. apply Z.mod_small. by eapply Forall_lookup_1 in Hbs.
  - rewrite lookup_seqZ_ge by lia. by rewrite lookup_ge_None_2 by lia.
Qed.

Lemma user_str_win s n a t : window s lo hi -> lo <= a -> a + Z.of_nat (length t) < hi -> (length t < n)%nat ->
  (forall i c, t !! i = Some c -> ub s (a + Z.of_nat i) = c /\ c <> 0) -> ub s (a + Z.of_nat (length t)) = 0 ->
  user_str n a s = Done t s.
Proof.
  intros W. pose proof (wi_range _ _ _ W). revert n a. induction t as [|c t IH]; intros n a H1 H2 Hn Ht Hz; cbn [length] in *.
  - destruct n as [|n]; [lia|]. cbn [user_str]. rewrite (bind_done _ _ _ _ _ (rdb_win s a W ltac:(lia))).
    rewrite Z.add_0_r in Hz. by rewrite Hz.
  - destruct n as [|n]; [lia|]. cbn [user_str]. rewrite (bind_done _ _ _ _ _ (rdb_win s a W ltac:(lia))).
    destruct (Ht O c eq_refl) as [E Hc]. rewrite Z.add_0_r in E. rewrite E, (proj2 (Z.eqb_neq c 0)) by done.
    rewrite u32_small by lia. rewrite (bind_done _ _ _ _ _ (IH n (a + 1) ltac:(lia) ltac:(lia) ltac:(lia)
      ltac:(intros i d Hi; replace (a + 1 + Z.of_nat i) with (a + Z.of_nat (S i)) by lia; by apply (Ht (S i)))
      ltac:(rewrite <- Hz; f_equal; lia))). done.
Qed.
End window.

(** * verify_user_addr *)

Lemma uaddr2va_id ua : fits 32 ua -> uaddr2va ua = ua.
Proof. intros H. unfold uaddr2va, MMAP_USER_BASE. rewrite Z.add_0_r. by apply u32_small. Qed.

(** Addresses of one page have one entry and one translation. *)
Lemma loc_page s d a b : fits 32 a -> fits 32 b -> a / 0x1000 = b / 0x1000 -> loc_of s d a = loc_of s d b.
Proof.
  intros Ha Hb E. unfold loc_of.
  assert (Hp : ptx a = ptx b) by (unfold ptx; rewrite !Z.shiftr_div_pow2 by lia; change (2 ^ 12) with 0x1000; by rewrite E).
  assert (Hd : pdx a = pdx b).
  { unfold pdx. rewrite !Z.shiftr_div_pow2 by lia. change (2 ^ 22) with (0x1000 * 2 ^ 10).
    rewrite <- !Z.div_div by lia. by rewrite E. }
  by rewrite Hp, Hd.
Qed.
Lemma utrans_page s a b : fits 32 a -> fits 32 b -> a / 0x1000 = b / 0x1000 -> utrans s a = utrans s b.
Proof. intros Ha Hb E. unfold utrans. by rewrite !uaddr2va_id, (loc_page s _ a b) by done. Qed.

Lemma can_store_page s a b : fits 32 a -> fits 32 b -> a / 0x1000 = b / 0x1000 -> can_store s a = can_store s b.
Proof. intros Ha Hb E. unfold can_store. by rewrite !uaddr2va_id, (loc_page s _ a b) by done. Qed.

(** The running task's page tables can be walked, whatever the interrupt flag. *)
Definition walkable (s : mm) : Prop :=
  is_Some (dirs s !! cr3_dir s) /\ forall a l, loc_of s (cr3_dir s) a = Some l -> l.1 ∈ tables s.

Lemma mm_ok_walkable base c d s : mm_ok base (set_cpu c s) -> is_Some (dirs s !! d) -> walkable (set_cr3 d s).
Proof.
  intros O Hd. split; [exact Hd|]. intros a l Hl.
  by destruct (loc_of_table base (set_cpu c s) d a l O Hl).
Qed.

Lemma walkable_frames f s : walkable s -> walkable (set_frames f s).
Proof. done. Qed.

Lemma verify_page_run s pm a : walkable s -> fits 32 a ->
  verify_page (cr3_dir s) pm a s = Done (if utrans s a then None else Some (-1)) s.
Proof.
  intros [[i Hi] O] Ha.
  assert (Hts : tabs_of s (cr3_dir s) = Some (pgtables i)) by (unfold tabs_of; by rewrite Hi).
  unfold verify_page, utrans. rewrite uaddr2va_id by done.
  rewrite (bind_done _ _ _ _ _ (page_get_run _ _ _ _ Hts)).
  destruct (loc_of s (cr3_dir s) a) as [l|] eqn:El; cbn [mbind option_bind]; [|done].
  pose proof (O _ _ El) as Hl. rewrite (bind_done _ _ _ _ _ (pte_rd_run _ _ Hl)).
  rewrite bool_decide_true by done. cbn [andb]. set (w := pte_at (ptes s) l).
  destruct (present w) eqn:Hp; [|done]. cbn [negb orb].
  replace (Z.land pm (lnot (Z.land (perm w) pm)) =? 0) with true; [done|]. symmetry. apply Z.eqb_eq.
  unfold lnot. destruct (Z.eqb_spec (Z.land (perm w) pm) 0) as [Hz|Hz]; [|by rewrite Z.land_0_r].
  change 1 with (Z.ones 1). rewrite Z.land_ones by lia. rewrite <- Z.bit0_mod.
  apply (f_equal (fun z => Z.testbit z 0)) in Hz. rewrite Z.land_spec, Z.bits_0 in Hz.
  replace (Z.testbit (perm w) 0) with true in Hz; [cbn [andb] in Hz; by rewrite Hz|]. unfold perm. rewrite Z.land_spec. by unfold present in Hp; rewrite Hp.
Qed.

Lemma verify_user_addr_run s ua n pm : walkable s -> fits 32 ua -> 0 < n -> ua + n <= 0xC0000000 ->
  exists r, verify_user_addr (cr3_dir s) ua n pm s = Done r s /\ (r = 0 \/ r = -1) /\
    (r = 0 <-> forall a, a ∈ range_step ua (roundUp (ua + n)) 0x1000 -> is_Some (utrans s a)).
Proof.
  intros O Hu Hn Hl. unfold fits in Hu. unfold verify_user_addr. rewrite uaddr2va_id by done. rewrite u32_small by lia.
  unfold MMAP_USER_TOP, MMAP_USER_BASE.
  destruct (Z.leb_spec 0xC0000000 ua); [lia|]. destruct (Z.ltb_spec 0xC0000000 (ua + n)); [lia|].
  destruct (Z.ltb_spec ua 0); [lia|]. destruct (Z.ltb_spec (ua + n) 0); [lia|]. cbn [orb].
  assert (Hru : roundUp (ua + n) <= 0xC0000000).
  { rewrite roundUp_spec by (unfold fits; lia). pose proof (Z.div_mod (ua + n + 4095) 4096 ltac:(lia)).
    assert ((ua + n + 4095) / 4096 <= 0xC0000); [|lia]. apply Z.lt_succ_r, Z.div_lt_upper_bound; lia. }
  set (l := range_step _ _ _). set (f := verify_page (cr3_dir s) pm).
  assert (Hin : forall a, a ∈ l -> fits 32 a).
  { intros a [Ha _]%elem_of_range_step; [|lia]. unfold fits. lia. }
  assert (Hf : forall a, a ∈ l -> f a s = Done (if utrans s a then None else Some (-1)) s).
  { intros a Ha. apply verify_page_run; auto. }
  destruct (iter_until_split f (fun a => negb (bool_decide (is_Some (utrans s a)))) l s) as [(l1 & x & l2 & E & Hx & _ & Hr)|[Hno Hr]].
  - intros a Ha Hp. rewrite (Hf a Ha). apply negb_false_iff, bool_decide_eq_true in Hp as [p ->]. done.
  - apply negb_true_iff, bool_decide_eq_false in Hx. assert (Hxl : x ∈ l) by (rewrite E; set_solver).
    exists (-1). rewrite (bind_done _ _ _ _ _ (eq_trans Hr (eq_trans (bind_done _ _ _ _ _ (Hf x Hxl)) ltac:(by destruct (utrans s x) eqn:Ex; [destruct Hx; eauto|])))).
    split_and!; [done|by right|]. split; [done|]. intros Hall. destruct Hx. by apply Hall.
  - exists 0. rewrite (bind_done _ _ _ _ _ Hr). split_and!; [done|by left|]. split; [|done].
    intros _ a Ha. specialize (Hno a Ha). by apply negb_false_iff, bool_decide_eq_true in Hno.
Qed.

Lemma range_covers s ua n : fits 32 ua -> 0 < n -> ua + n <= 0xC0000000 ->
  mapped s ua (ua + n) <->
  forall a, a ∈ range_step ua (roundUp (ua + n)) 0x1000 -> is_Some (utrans s a).
Proof.
  intros Hu Hn Hl. unfold fits in Hu. rewrite roundUp_spec by (unfold fits; lia).
  set (lim := ua + n) in *. pose proof (Z.div_mod (lim + 4095) 4096 ltac:(lia)) as Hd.
  pose proof (Z.mod_pos_bound (lim + 4095) 4096 ltac:(lia)).
  assert (Htop : (lim + 4095) / 4096 <= 0xC0000) by (apply Z.lt_succ_r, Z.div_lt_upper_bound; lia).
  split.
  - intros Hm a [Ha _]%elem_of_range_step; [|lia]. destruct (Z.ltb_spec a lim).
    + apply Hm. lia.
    + destruct (Hm (lim - 1) ltac:(lia)) as [p Hp]. exists p. rewrite <- Hp.
      apply utrans_page; [unfold fits; lia..|].
      replace ((lim - 1) / 0x1000) with ((lim + 4095) / 4096 - 1).
      * symmetry. apply (Z.div_unique _ _ _ (a - ((lim + 4095) / 4096 - 1) * 4096)); lia.
      * apply (Z.div_unique _ _ _ (lim - 1 - ((lim + 4095) / 4096 - 1) * 4096)); lia.
  - intros Hall x Hx. set (k := x / 4096 - ua / 4096).
    pose proof (Z.div_mod x 4096 ltac:(lia)). pose proof (Z.div_mod ua 4096 ltac:(lia)).
    pose proof (Z.mod_pos_bound x 4096 ltac:(lia)). pose proof (Z.mod_pos_bound ua 4096 ltac:(lia)).
    assert (x / 4096 <= (lim + 4095) / 4096 - 1).
    { apply Z.lt_succ_r. apply Z.div_lt_upper_bound; [lia|]. unfold Z.succ. lia. }
    assert (ua / 4096 <= x / 4096) by (apply Z.div_le_mono; lia).
    destruct (Hall (ua + k * 4096)) as [p Hp].
    { apply elem_of_range_step; [lia|]. split; [lia|]. replace (ua + k * 4096 - ua) with (k * 4096) by lia. apply Z.mod_mul. lia. }
    exists p. rewrite <- Hp. apply utrans_page; [unfold fits; lia..|].
    apply (Z.div_unique _ _ _ (ua mod 4096)); lia.
Qed.

(** C2. verify_user_addr on a range of at least one byte that does not wrap around:
    it changes nothing, and accepts exactly the ranges below 3 GB whose pages are all
    mapped, whatever permissions it is asked for. The kernel can read an accepted range.
    If every page of it has PTE_W and no two share a frame, the kernel can store any
    bytes there and finds them afterwards, with every byte of memory outside of the
    range as before. If a page of an accepted range is read-only, the same store stops
    the kernel: it faults in kernel mode, since CR0_WP is set. *)
Theorem verified_range_is_usable s ua pm bs :
  let n := Z.of_nat (length bs) in
  walkable s -> 0 <= ua -> 0 < n -> ua + n < 2 ^ 32 -> Forall (fits 8) bs ->
  exists r, verify_user_addr (cr3_dir s) ua n pm s = Done r s /\ (r = 0 \/ r = -1) /\
    (r = 0 <-> ua + n <= 0xC0000000 /\ mapped s ua (ua + n)) /\
    (r = 0 -> apart s ua (ua + n) ->
       (exists old, user_bytes (length bs) ua s = Done old s /\ length old = length bs) /\
       (writable s ua (ua + n) -> exists s', user_store ua bs s = Done tt s' /\
          user_bytes (length bs) ua s' = Done bs s' /\
          forall l, 0 <= l.2 -> (forall a, ua <= a < ua + n -> uloc s a <> Some l) -> memb s' l = memb s l) /\
       (forall a, ua <= a < ua + n -> can_store s a = false -> user_store ua bs s = Stop BadAccess)).
Proof.
  intros n O Hu Hn Hw Hbs. assert (Hfit : fits 32 ua) by (unfold fits; lia).
  assert (Hv : exists r, verify_user_addr (cr3_dir s) ua n pm s = Done r s /\ (r = 0 \/ r = -1) /\
    (r = 0 <-> ua + n <= 0xC0000000 /\ mapped s ua (ua + n))).
  { destruct (Z.leb_spec (ua + n) 0xC0000000) as [Hle|Hgt].
    - destruct (verify_user_addr_run s ua n pm O Hfit Hn Hle) as (r & H1 & H2 & H3).
      exists r. split_and!; [done..|]. rewrite H3, (range_covers s ua n) by done. tauto.
    - exists (-1). split_and!; [|by right|lia]. unfold verify_user_addr.
      rewrite uaddr2va_id by done. rewrite u32_small by lia. unfold MMAP_USER_TOP.
      by rewrite (proj2 (Z.ltb_lt _ _) Hgt), orb_true_r. }
  destruct Hv as (r & H1 & H2 & H3). exists r. split_and!; [done..|]. intros H0 Hap. apply H3 in H0 as [Hle Hm].
  assert (W : window s ua (ua + n)) by (split; [lia|done|done]). split_and!.
  - eexists. split; [apply (user_bytes_win ua (ua + n)); [done|lia..]|]. rewrite length_fmap, length_seqZ. lia.
  - intros Hwr. destruct (user_store_win ua (ua + n) s ua bs W) as (s' & E & F & U & L); [lia|lia|done|].
    exists s'. split_and!; [done| |done].
    rewrite (user_bytes_win ua (ua + n) s' (length bs) ua (window_frames _ _ _ _ F W)) by lia. f_equal. apply (stored_bytes ua (ua + n) s); (done || lia).
  - intros a Ha Hs. by apply (user_store_stops ua (ua + n) s ua bs a W); [lia|lia| |].
Qed.

(** * User addresses and directories *)

Lemma user_va va : 0 <= va < 0xC0000000 -> accountable (va_addr va) = true /\ pdx va <> TMPX.
Proof.
  intros H. unfold va_addr.
  assert (Hd : pdx va = va / 2 ^ 22 /\ 0 <= va / 2 ^ 22 < 768).
  { assert (0 <= va / 2 ^ 22 < 768) by (split; [apply Z.div_pos; lia|apply Z.div_lt_upper_bound; lia]).
    split; [|done]. unfold pdx. rewrite Z.shiftr_div_pow2 by lia. change 0x3FF with (Z.ones 10).
    rewrite Z.land_ones by lia. apply Z.mod_small. lia. }
  assert (Hp : 0 <= ptx va < 1024).
  { unfold ptx. change 0x3FF with (Z.ones 10). rewrite Z.land_ones by lia. apply Z.mod_pos_bound. lia. }
  destruct Hd as [Hd Hr]. rewrite <- Hd in Hr. rewrite u32_small by lia. split; [|unfold TMPX; vm_compute (pdx MMAP_KERNEL_TMP_PAGE_BASE); lia].
  unfold accountable, MMAP_KERNEL_TOP. rewrite (proj2 (Z.leb_le _ _)), (proj2 (Z.ltb_lt _ _)) by lia. done.
Qed.

(** A change to a directory that keeps its tables. *)
Definition dir_upd (d : Z) (g : PageDirInfo -> PageDirInfo) (s : mm) : mm :=
  match dirs s !! d with Some i => set_dirs (<[d := g i]> (dirs s)) s | None => s end.

Section update.
Context (d : Z) (g : PageDirInfo -> PageDirInfo) (Hg : forall i, pgtables (g i) = pgtables i).
Implicit Types s : mm.

Lemma dir_upd_tabs s d' : tabs_of (dir_upd d g s) d' = tabs_of s d'.
Proof using Hg.
  unfold dir_upd. destruct (dirs s !! d) as [i|] eqn:Hi; [|done]. unfold tabs_of. cbn.
  destruct (decide (d' = d)) as [->|Hne]; [rewrite lookup_insert_eq, Hi; cbn; by rewrite Hg|by rewrite lookup_insert_ne].
Qed.
Lemma dir_upd_rest s : phys (dir_upd d g s) = phys s /\ ptes (dir_upd d g s) = ptes s /\ tables (dir_upd d g s) = tables s /\
  tmp_pages (dir_upd d g s) = tmp_pages s /\ cr3_dir (dir_upd d g s) = cr3_dir s /\ frames (dir_upd d g s) = frames s /\
  cpu_of (dir_upd d g s) = cpu_of s.
Proof. unfold dir_upd. by destruct (dirs s !! d). Qed.
Lemma dir_upd_loc s d' va : loc_of (dir_upd d g s) d' va = loc_of s d' va.
Proof using Hg. unfold loc_of. by rewrite dir_upd_tabs. Qed.
Lemma dir_upd_utrans s a : utrans (dir_upd d g s) a = utrans s a.
Proof using Hg.
  destruct (dir_upd_rest s) as (_ & Ep & Et & _ & Ec & _). unfold utrans. rewrite Ec, dir_upd_loc.
  destruct (loc_of s _ _); cbn; [|done]. by rewrite Ep, Et.
Qed.
Lemma dir_upd_ok base s : mm_ok base s -> mm_ok base (dir_upd d g s).
Proof using Hg.
  destruct (dir_upd_rest s) as (Eh & Ep & Et & Eb & Ec & _ & _).
  assert (Ek : tmp_table (dir_upd d g s) = tmp_table s) by (unfold tmp_table; by rewrite dir_upd_tabs).
  intros [R H1 H2 H3 H4 H5 H6 H7]. split.
  - by rewrite Eh, Ep.
  - intros l w. rewrite Ep, Et. apply H1.
  - by rewrite Eb.
  - by rewrite Ek, Et.
  - intros d' ts n t. rewrite dir_upd_tabs, Ek, Et. apply H4.
  - intros t r. rewrite Ek, Ep, Eb. apply H5.
  - intros r. rewrite Et, Eb. apply H6.
  - rewrite Ec. unfold dir_upd. destruct (dirs s !! d); [|done]. cbn. apply lookup_insert_is_Some'. by right.
Qed.
End update.

(** * Which directory is loaded, where the breaks are, what the frames hold

    Mapping and unmapping pages does not touch cr3, nor the breaks of a directory and the
    counts of its program and stack pages, nor what is in the frames. *)

Definition breaks (i : PageDirInfo) : Z * Z * Z * Z := (start_brk i, end_brk i, count_stack i, count_program i).
Definition loaded (s : mm) : Z * gmap Z (Z * Z * Z * Z) * gmap Z (list Z) := (cr3_dir s, breaks <$> dirs s, frames s).

Section keeps_loaded.
Notation keeps := (keeps_proj loaded).

Lemma keeps_zp {A} (m : M pm A) : keeps (zp m).
Proof. intros s. unfold zp, zoom. by destruct (m (phys s)). Qed.
Lemma keeps_dir_rd d : keeps (dir_rd d).
Proof. apply keeps_get. intros s. by destruct (dirs s !! d). Qed.
Lemma keeps_dir_wr d g : (forall i, breaks (g i) = breaks i) -> keeps (dir_wr d g).
Proof.
  intros Hg s. unfold dir_wr, dir_rd. m_unfold. destruct (dirs s !! d) as [i|] eqn:Hi; [|done].
  unfold loaded. cbn. do 2 f_equal. rewrite fmap_insert, Hg. apply insert_id. by rewrite lookup_fmap, Hi.
Qed.
Lemma keeps_pte_rd l : keeps (pte_rd l).
Proof. apply keeps_get. intros s. by case_bool_decide. Qed.
Lemma keeps_pte_wr l w : keeps (pte_wr l w).
Proof. apply keeps_get. intros s. by case_bool_decide. Qed.
Lemma keeps_pushcli : keeps pushcli.
Proof. by intros s. Qed.
Lemma keeps_popcli : keeps popcli.
Proof. intros s. unfold popcli. m_unfold. by destruct (do_popcli _). Qed.
Lemma keeps_int_disable : keeps ASSERT_int_disable.
Proof. intros s. unfold ASSERT_int_disable, eflags_read. m_unfold. by destruct (IF (cpu_of s)). Qed.
#[local] Hint Extern 1 (keeps_proj loaded (dir_wr _ _)) => (apply keeps_dir_wr; by intros []) : keeps.
Hint Resolve keeps_zp keeps_dir_rd keeps_pte_rd keeps_pte_wr keeps_pushcli keeps_popcli keeps_int_disable : keeps.

Lemma keeps_page_get d va : keeps (page_get d va).
Proof. unfold page_get. keeps_go. Qed.
Lemma keeps_account d v n : keeps (account d v n).
Proof. unfold account. keeps_go. Qed.
Lemma keeps_tmp_page_get : keeps tmp_page_get.
Proof.
  unfold tmp_page_get. apply keeps_bind; [apply keeps_int_disable|]. intros _. apply keeps_get. intros s. cbv zeta.
  m_unfold. repeat (case_match; simplify_eq; try done).
Qed.
Hint Resolve keeps_page_get keeps_account keeps_tmp_page_get : keeps.

Lemma keeps_page_remove d va b : keeps (page_remove d va b).
Proof.
  unfold page_remove. keeps_go.
Qed.
Lemma keeps_tmp_page_put va : keeps (tmp_page_put va).
Proof.
  unfold tmp_page_put. keeps_go.
Qed.
Lemma keeps_table_clear k : keeps (table_clear k).
Proof. by apply keeps_modify. Qed.
Lemma keeps_insert_entry d p va pm l : keeps (insert_entry d p va pm l).
Proof. unfold insert_entry. pose proof keeps_page_remove. keeps_go. Qed.
Hint Resolve keeps_tmp_page_put keeps_table_clear keeps_insert_entry : keeps.

Lemma keeps_page_insert n d p va pm : keeps (page_insert_fuel n d p va pm).
Proof.
  revert d p va pm. induction n as [|n IH]; intros d p va pm; cbn [page_insert_fuel]; [apply keeps_stop|].
  unfold page_insert_with, page_get_c_with, pde_alloc_with, tmp_page_alloc_map_with. keeps_go.
Qed.
Lemma keeps_page_alloc_insert d va pm : keeps (page_alloc_insert d va pm).
Proof. pose proof keeps_page_insert. unfold page_alloc_insert, page_insert. keeps_go. Qed.
Lemma keeps_tmp_page_alloc_map pm : keeps (tmp_page_alloc_map pm).
Proof. pose proof keeps_page_insert. unfold tmp_page_alloc_map, tmp_page_alloc_map_with, page_insert. keeps_go. Qed.
Lemma keeps_tmp_page_free va : keeps (tmp_page_free va).
Proof.
  assert (Hu : forall k, keeps (table_unmap k)) by (intros k; by apply keeps_modify).
  pose proof keeps_page_remove. unfold tmp_page_free. keeps_go.
Qed.
End keeps_loaded.

Lemma loaded_cr3 s s' : loaded s' = loaded s -> cr3_dir s' = cr3_dir s.
Proof. by intros [= ? _ _]. Qed.
Lemma loaded_frames s s' : loaded s' = loaded s -> frames s' = frames s.
Proof. by intros [= _ _ ?]. Qed.
Lemma loaded_breaks s s' d i : loaded s' = loaded s -> dirs s !! d = Some i ->
  exists i', dirs s' !! d = Some i' /\ start_brk i' = start_brk i /\ end_brk i' = end_brk i.
Proof.
  intros [= _ E _] Hi. apply (f_equal (.!! d)) in E. rewrite !lookup_fmap, Hi in E.
  destruct (dirs s' !! d) as [i'|]; [|done]. injection E as ? ? _ _. by exists i'.
Qed.

(** Directory 1 with one user page, which can be written or not. *)
Definition demo_page (pm n : Z) : mm :=
  match page_alloc_insert 1 0x1000 pm (demo_mm 5 n) with Done _ s => set_cr3 1 s | Stop _ => demo_mm 5 n end.
Definition demo_user_n (n : Z) : mm := demo_page 7 n.
Definition demo_user : mm := demo_user_n 4.
Definition demo_read_only : mm := demo_page 5 4.

Lemma mm_ok_cr3 base d s : mm_ok base s -> is_Some (dirs s !! d) -> mm_ok base (set_cr3 d s).
Proof. by intros [? ? ? ? ? ? ? _] Hd. Qed.

Lemma demo_page_ok pm n : pm = 5 \/ pm = 7 -> n = 4 \/ n = 8 -> mm_ok 5 (demo_page pm n).
Proof.
  intros Hp Hn.
  assert (Hpre : vm_op_pre 5 (VAllocInsert 1 0x1000 pm) (demo_mm 5 n)).
  { split; [eexists; reflexivity|]. split; [by destruct Hp as [-> | ->]|]. split; [reflexivity|].
    split; [vm_compute; discriminate|]. intros l Hl. vm_compute in Hl. discriminate. }
  destruct (vm_op_ok 5 (demo_mm 5 n) _ (demo_mm_ok_n n Hn) Hpre) as (z & s & Hr & O & _ & _). cbn [vm_op_run] in Hr.
  assert (E : demo_page pm n = set_cr3 1 s) by (unfold demo_page; by rewrite Hr). rewrite E.
  apply mm_ok_cr3; [done|].
  assert (Ed : bool_decide (is_Some (dirs (demo_page pm n) !! 1)) = true) by (destruct Hp as [-> | ->], Hn as [-> | ->]; vm_compute; reflexivity).
  apply bool_decide_eq_true in Ed. by rewrite E in Ed.
Qed.

Lemma demo_user_ok_n n : n = 4 \/ n = 8 -> mm_ok 5 (demo_user_n n).
Proof. apply demo_page_ok. by right. Qed.

Lemma demo_user_ok : mm_ok 5 demo_user.
Proof. apply demo_user_ok_n. by left. Qed.

Lemma demo_page_walkable pm : pm = 5 \/ pm = 7 -> walkable (demo_page pm 4).
Proof.
  intros Hp. assert (E : demo_page pm 4 = set_cr3 1 (demo_page pm 4)) by (destruct Hp as [-> | ->]; vm_compute; reflexivity). rewrite E.
  pose proof (demo_page_ok pm 4 Hp ltac:(by left)) as O.
  apply (mm_ok_walkable 5 (cpu_of (demo_page pm 4))); [by rewrite set_cpu_of|].
  pose proof (mo_cr3 _ _ O) as Hc. by destruct Hp as [-> | ->].
Qed.
Lemma demo_user_walkable : walkable demo_user.
Proof. apply demo_page_walkable. by right. Qed.

(** The page 0x1000 is one frame. *)
Lemma demo_page_window pm : pm = 5 \/ pm = 7 -> mapped (demo_page pm 4) 0x1ffe 0x2000 /\ apart (demo_page pm 4) 0x1ffe 0x2000.
Proof.
  intros Hp. split.
  - intros a Ha. assert (a = 0x1ffe \/ a = 0x1fff) as [-> | ->] by lia; destruct Hp as [-> | ->]; eexists; vm_compute; reflexivity.
  - intros a b p Ha Hb _ _. assert (H : forall x, 0x1ffe <= x < 0x2000 -> x / 0x1000 = 1).
    { intros x Hx. symmetry. apply (Z.div_unique _ _ _ (x - 0x1000)); lia. }
    by rewrite !H.
Qed.

Lemma verified_range_is_usable_witness :
  verify_user_addr 1 0x1ffe 2 PTE_U demo_user = Done 0 demo_user /\
  (exists s', user_store 0x1ffe [7; 8] demo_user = Done tt s' /\ user_bytes 2 0x1ffe s' = Done [7; 8] s') /\
  verify_user_addr 1 0x1ffe 2 PTE_W demo_read_only = Done 0 demo_read_only /\
  user_store 0x1ffe [7; 8] demo_read_only = Stop BadAccess.
Proof.
  assert (Hbs : Forall (fits 8) [7; 8]) by (repeat constructor; lia).
  destruct (demo_page_window 7) as [M7 A7]; [by right|]. destruct (demo_page_window 5) as [M5 A5]; [by left|].
  destruct (verified_range_is_usable demo_user 0x1ffe PTE_U [7; 8] demo_user_walkable) as (r & H1 & _ & H2 & H3); [lia|cbn; lia|cbn; lia|done|].
  destruct (verified_range_is_usable demo_read_only 0x1ffe PTE_W [7; 8] (demo_page_walkable 5 ltac:(by left))) as (r' & H1' & _ & H2' & H3'); [lia|cbn; lia|cbn; lia|done|].
  assert (E : r = 0) by (apply H2; split; [cbn; lia|exact M7]). subst r.
  assert (E' : r' = 0) by (apply H2'; split; [cbn; lia|exact M5]). subst r'.
  destruct (H3 eq_refl) as (_ & Hs & _); [exact A7|].
  destruct (H3' eq_refl) as (_ & _ & Hn); [exact A5|].
  split_and!; [exact H1| |exact H1'|].
  - destruct Hs as (s' & E1 & E2 & _); [|exists s'; split; [exact E1|exact E2]].
    intros a Ha. assert (a = 0x1ffe \/ a = 0x1fff) as [-> | ->] by (cbn in Ha; lia); vm_compute; reflexivity.
  - assert (Hc : can_store demo_read_only 0x1ffe = false) by (vm_compute; reflexivity).
    refine (Hn 0x1ffe _ Hc). split; [apply Z.le_refl|reflexivity].
Defined.
