(* ===== verification/Descr.v ===== *)
(** Segment and gate descriptors (kernel/trap.h), the GDT of vm_init
    (kernel/memory/virtual.cpp), the IDT of init_traps (kernel/trap.cpp) and what its entry
    points push (kernel/traphandler.S).

    A descriptor is the record of its bit fields; [seg_words] and [gate_words]
    are the two words the compiler lays the fields out in, and the [intel_]
    functions read base, limit and offset back out of those words the way the
    processor does (Intel 80386 Programmer's Reference, figures 5-3 and 9-3). *)

From S2P Require Import Prelude PhysMem VirtMem.

(** * Definitions *)

Definition bits (w z : Z) : Z := z mod 2 ^ w.

Definition STA_X : Z := 0x8.
Definition STA_W : Z := 0x2.
Definition STA_R : Z := 0x2.
Definition STS_T32A : Z := 0x9.
Definition STS_TG32 : Z := 0xF.
Definition GD_KT : Z := 0x08.
Definition GD_KD : Z := 0x10.
Definition GD_UT : Z := 0x18.
Definition GD_UD : Z := 0x20.
Definition GD_TSS : Z := 0x28.

(** ** Segments *)

Record SegmentDesc := mkSeg {
  lim_15_0 : Z; base_15_0 : Z; base_23_16 : Z; seg_type : Z; seg_s : Z; seg_dpl : Z; seg_p : Z;
  lim_19_16 : Z; seg_avl : Z; seg_21 : Z; seg_x : Z; seg_g : Z; base_31_24 : Z;
}.

(** The constructor: what does not fit a field is cut off by the assignment. *)
Definition new_seg (type base lim dpl g : Z) : SegmentDesc :=
  mkSeg (bits 16 (Z.land lim 0xffff)) (bits 16 (Z.land base 0xffff))
        (bits 8 (Z.land (Z.shiftr base 16) 0xff)) (bits 4 type) 1 (bits 2 dpl) 1
        (bits 4 (Z.land (Z.shiftr lim 16) 0xff)) 0 0 1 (bits 1 g) (bits 8 (Z.shiftr base 24)).
Definition set_seg (type base lim dpl : Z) : SegmentDesc := new_seg type base (Z.shiftr lim 12) dpl 1.
Definition set_seg16 (type base lim dpl : Z) : SegmentDesc := new_seg type base lim dpl 0.
Definition set_segNull : SegmentDesc := mkSeg 0 0 0 0 0 0 0 0 0 0 0 0 0.
Definition set_s (v : Z) (d : SegmentDesc) : SegmentDesc :=
  mkSeg (lim_15_0 d) (base_15_0 d) (base_23_16 d) (seg_type d) v (seg_dpl d) (seg_p d)
        (lim_19_16 d) (seg_avl d) (seg_21 d) (seg_x d) (seg_g d) (base_31_24 d).

(** The layout of the struct: fields from the lowest bit up. *)
Definition seg_words (d : SegmentDesc) : Z * Z :=
  (lim_15_0 d + base_15_0 d * 2 ^ 16,
   base_23_16 d + seg_type d * 2 ^ 8 + seg_s d * 2 ^ 12 + seg_dpl d * 2 ^ 13 + seg_p d * 2 ^ 15
   + lim_19_16 d * 2 ^ 16 + seg_avl d * 2 ^ 20 + seg_21 d * 2 ^ 21 + seg_x d * 2 ^ 22 + seg_g d * 2 ^ 23
   + base_31_24 d * 2 ^ 24).

(** ** Gates *)

Record GateDesc := mkGate {
  off_15_0 : Z; seg_selector : Z; gate_37_33 : Z; gate_40_38 : Z; gate_type : Z; gate_s : Z; gate_dpl : Z;
  gate_p : Z; off_31_16 : Z;
}.

Definition gate_zero : GateDesc := mkGate 0 0 0 0 0 0 0 0 0.
Definition set_gate (type sel off dpl : Z) : GateDesc :=
  mkGate (bits 16 (Z.land off 0xffff)) (bits 16 sel) 0 0 (bits 4 type) 0 (bits 2 dpl) 1
         (bits 16 (Z.land (Z.shiftr off 16) 0xffff)).
Definition set_trap_gate (off : Z) : GateDesc := set_gate STS_TG32 GD_KT off 0.
Definition set_system_gate (off : Z) : GateDesc := set_gate STS_TG32 GD_KT off 3.
Definition set_int_gate (off : Z) : GateDesc := set_gate STS_TG32 GD_KT off 0.

Definition gate_words (d : GateDesc) : Z * Z :=
  (off_15_0 d + seg_selector d * 2 ^ 16,
   gate_37_33 d + gate_40_38 d * 2 ^ 5 + gate_type d * 2 ^ 8 + gate_s d * 2 ^ 12 + gate_dpl d * 2 ^ 13
   + gate_p d * 2 ^ 15 + off_31_16 d * 2 ^ 16).

(** ** The tables *)

Definition MMAP_SEG_KERNEL_BASE : Z := MMAP_KERNEL_BASE.
Definition MMAP_SEG_USER_BASE : Z := MMAP_USER_BASE.

(** The ten entries vm_init leaves. *)
Definition vm_gdt : list SegmentDesc :=
  let l := replicate 10 set_segNull in
  let l := <[Z.to_nat (Z.shiftr GD_KT 3) := set_seg (Z.lor STA_X STA_R) MMAP_SEG_KERNEL_BASE 0xffffffff 0]> l in
  let l := <[Z.to_nat (Z.shiftr GD_KD 3) := set_seg STA_W MMAP_SEG_KERNEL_BASE 0xffffffff 0]> l in
  let l := <[Z.to_nat (Z.shiftr GD_UT 3) := set_seg (Z.lor STA_X STA_R) MMAP_SEG_USER_BASE 0xffffffff 3]> l in
  let l := <[Z.to_nat (Z.shiftr GD_UD 3) := set_seg STA_W MMAP_SEG_USER_BASE 0xffffffff 3]> l in
  <[Z.to_nat (Z.shiftr GD_TSS 3) := set_segNull]> l.

(** The entry points of traphandler.S. *)
Inductive entry :=
| divide_error | debug | nmi | int3 | overflow | bounds_check | invalid_opcode | device_not_available
| double_fault | coprecosser_segment_overrun | invalid_TSS | segment_not_present | stack_exception
| general_protection | page_fault | reserved | floating_point_error | alignment_check | machine_check
| SIMD_floating_point_error | irq_timer | irq_keyboard | syscall_trap.

Definition T_SYSCALL : Z := 0x80.
Definition IRQ_OFFSET : Z := 32.
Definition IRQ_TIMER : Z := 0.
Definition IRQ_KBD : Z := 1.

(** traphandler.S: the number an entry point pushes, and whether it is a
    TRAPHANDLER_NO_ERROR_CODE, which pushes a zero in front of it. *)
Definition entry_num (e : entry) : Z :=
  match e with
  | divide_error => 0 | debug => 1 | nmi => 2 | int3 => 3 | overflow => 4 | bounds_check => 5 | invalid_opcode => 6
  | device_not_available => 7 | double_fault => 8 | coprecosser_segment_overrun => 9 | invalid_TSS => 10
  | segment_not_present => 11 | stack_exception => 12 | general_protection => 13 | page_fault => 14 | reserved => 15
  | floating_point_error => 16 | alignment_check => 17 | machine_check => 18 | SIMD_floating_point_error => 19
  | syscall_trap => T_SYSCALL | irq_timer => IRQ_OFFSET + IRQ_TIMER | irq_keyboard => IRQ_OFFSET + IRQ_KBD
  end.
Definition entry_zero (e : entry) : bool :=
  match e with
  | double_fault | coprecosser_segment_overrun | invalid_TSS | segment_not_present | stack_exception
  | general_protection | page_fault | reserved | alignment_check => false
  | _ => true
  end.
(** The stack in front of _alltraps, the top first. *)
Definition entry_push (e : entry) (stack : list Z) : list Z :=
  entry_num e :: (if entry_zero e then 0 :: stack else stack).

(** The calls of init_traps: the vector, the gate and its entry point. *)
Inductive gate_kind := TrapGate | SystemGate | IntGate.
Definition idt_entries : list (Z * gate_kind * entry) :=
  [(0, TrapGate, divide_error); (1, TrapGate, debug); (2, TrapGate, nmi); (3, SystemGate, int3);
   (4, SystemGate, overflow); (5, SystemGate, bounds_check); (6, TrapGate, invalid_opcode);
   (7, TrapGate, device_not_available); (8, TrapGate, double_fault); (9, TrapGate, coprecosser_segment_overrun);
   (10, TrapGate, invalid_TSS); (11, TrapGate, segment_not_present); (12, TrapGate, stack_exception);
   (13, TrapGate, general_protection); (14, TrapGate, page_fault); (15, TrapGate, reserved);
   (16, TrapGate, floating_point_error); (17, TrapGate, alignment_check); (18, TrapGate, machine_check);
   (19, TrapGate, SIMD_floating_point_error)]
  ++ ((fun i => (i, TrapGate, reserved)) <$> seqZ 21 11)
  ++ [(IRQ_OFFSET + IRQ_TIMER, IntGate, irq_timer); (IRQ_OFFSET + IRQ_KBD, IntGate, irq_keyboard);
      (T_SYSCALL, SystemGate, syscall_trap)].

Section idt.
(** Where the linker puts the entry points. *)
Context (addr : entry -> Z).

Definition gate_of (k : gate_kind) (e : entry) : GateDesc :=
  match k with
  | TrapGate => set_trap_gate (addr e)
  | SystemGate => set_system_gate (addr e)
  | IntGate => set_int_gate (addr e)
  end.
Definition init_idt : list GateDesc :=
  foldl (fun l ve => <[Z.to_nat ve.1.1 := gate_of ve.1.2 ve.2]> l) (replicate 256 gate_zero) idt_entries.
End idt.

Definition sizeof_TSS : Z := 104.
(** init_traps on the GDT: the descriptor of the task state segment. *)
Definition init_tss_desc (tss : Z) (gdt : list SegmentDesc) : list SegmentDesc :=
  <[Z.to_nat (Z.shiftr GD_TSS 3) := set_s 0 (set_seg16 STS_T32A (kaddr2va tss) sizeof_TSS 0)]> gdt.

(** ** What the processor reads *)

Definition field (lo w z : Z) : Z := z / 2 ^ lo mod 2 ^ w.

Definition intel_base (w : Z * Z) : Z :=
  field 16 16 w.1 + field 0 8 w.2 * 2 ^ 16 + field 24 8 w.2 * 2 ^ 24.
Definition intel_limit20 (w : Z * Z) : Z := field 0 16 w.1 + field 16 4 w.2 * 2 ^ 16.
(** The last valid offset: the limit counts pages when G is set. *)
Definition intel_limit (w : Z * Z) : Z :=
  if field 23 1 w.2 =? 1 then intel_limit20 w * 0x1000 + 0xfff else intel_limit20 w.
Definition intel_offset (w : Z * Z) : Z := field 0 16 w.1 + field 16 16 w.2 * 2 ^ 16.
Definition intel_selector (w : Z * Z) : Z := field 16 16 w.1.
Definition intel_type (w : Z * Z) : Z := field 8 4 w.2.
Definition intel_s (w : Z * Z) : Z := field 12 1 w.2.
Definition intel_dpl (w : Z * Z) : Z := field 13 2 w.2.
Definition intel_present (w : Z * Z) : bool := field 15 1 w.2 =? 1.

(** The vectors for which the processor pushes an error code behind the return address
    (80386 Programmer's Reference, table 9-7; 17 since the 80486), and its stack, the top
    first, for the [frame] it pushes in every case: eip, cs, eflags, esp, ss. *)
Definition cpu_error_code (v : Z) : bool := bool_decide (v ∈ [8; 10; 11; 12; 13; 14; 17]).
Definition cpu_push (v err : Z) (frame : list Z) : list Z := if cpu_error_code v then err :: frame else frame.

(** * Properties *)

Lemma bits_range w z : 0 <= w -> 0 <= bits w z < 2 ^ w.
Proof. intros. apply Z.mod_pos_bound. lia. Qed.

Lemma land_bits z w m : 0 <= w -> m = 2 ^ w - 1 -> Z.land z m = bits w z.
Proof. intros Hw ->. by apply land_ones_mod. Qed.

Lemma bits_bits w z : bits w (bits w z) = bits w z.
Proof. apply Zmod_mod. Qed.

Lemma bits_sub v w z : 0 <= v <= w -> bits v (bits w z) = bits v z.
Proof.
  intros H. unfold bits. replace (2 ^ w) with (2 ^ v * 2 ^ (w - v)) by (rewrite <- Z.pow_add_r by lia; f_equal; lia).
  rewrite Z.rem_mul_r by lia. rewrite Z.mul_comm, Z.mod_add by lia. apply Zmod_mod.
Qed.

(** The fields of a segment as numbers. *)
Lemma seg_words_new type base lim dpl g :
  seg_words (new_seg type base lim dpl g) =
    (bits 16 lim + bits 16 base * 2 ^ 16,
     bits 8 (base / 2 ^ 16) + bits 4 type * 2 ^ 8 + 1 * 2 ^ 12 + bits 2 dpl * 2 ^ 13 + 1 * 2 ^ 15
     + bits 4 (lim / 2 ^ 16) * 2 ^ 16 + 1 * 2 ^ 22 + bits 1 g * 2 ^ 23 + bits 8 (base / 2 ^ 24) * 2 ^ 24).
Proof.
  unfold seg_words, new_seg; cbn [lim_15_0 base_15_0 base_23_16 seg_type seg_s seg_dpl seg_p lim_19_16 seg_avl seg_21 seg_x seg_g base_31_24].
  rewrite !Z.shiftr_div_pow2 by lia.
  rewrite (land_bits lim 16), (land_bits base 16), (land_bits (base / 2 ^ 16) 8), (land_bits (lim / 2 ^ 16) 8) by (lia || reflexivity).
  rewrite !bits_bits, bits_sub by lia. f_equal. lia.
Qed.

Ltac fields_lia :=
  unfold intel_base, intel_limit20, intel_offset, intel_selector, intel_type, intel_s, intel_dpl, field;
  cbn [fst snd]; Z.to_euclidean_division_equations; lia.

Lemma seg_fields type base lim dpl g :
  let w := seg_words (new_seg type base lim dpl g) in
  fits 32 base ->
  intel_base w = base /\ intel_limit20 w = bits 20 lim /\ intel_dpl w = bits 2 dpl /\
  intel_type w = bits 4 type /\ intel_s w = 1 /\ intel_present w = true /\ field 23 1 w.2 = bits 1 g.
Proof.
  intros w [Hb0 Hb1]. unfold w. rewrite seg_words_new. unfold intel_present.
  assert (Hbase : bits 16 base + bits 8 (base / 2 ^ 16) * 2 ^ 16 + bits 8 (base / 2 ^ 24) * 2 ^ 24 = base).
  { unfold bits. Z.to_euclidean_division_equations; lia. }
  assert (Hlim : bits 16 lim + bits 4 (lim / 2 ^ 16) * 2 ^ 16 = bits 20 lim).
  { unfold bits. Z.to_euclidean_division_equations; lia. }
  rewrite <- Hlim. rewrite <- Hbase at 4.
  pose proof (bits_range 16 lim ltac:(lia)). pose proof (bits_range 16 base ltac:(lia)).
  pose proof (bits_range 8 (base / 2 ^ 16) ltac:(lia)). pose proof (bits_range 4 type ltac:(lia)).
  pose proof (bits_range 2 dpl ltac:(lia)). pose proof (bits_range 4 (lim / 2 ^ 16) ltac:(lia)).
  pose proof (bits_range 1 g ltac:(lia)). pose proof (bits_range 8 (base / 2 ^ 24) ltac:(lia)).
  generalize dependent (bits 16 lim). generalize dependent (bits 16 base).
  generalize dependent (bits 8 (base / 2 ^ 16)). generalize dependent (bits 4 type).
  generalize dependent (bits 2 dpl). generalize dependent (bits 4 (lim / 2 ^ 16)).
  generalize dependent (bits 1 g). generalize dependent (bits 8 (base / 2 ^ 24)).
  clear. intros. rewrite Z.eqb_eq. split_and!; fields_lia.
Qed.

Lemma gate_fields type sel off dpl :
  let w := gate_words (set_gate type sel off dpl) in
  fits 32 off ->
  intel_offset w = off /\ intel_selector w = bits 16 sel /\ intel_dpl w = bits 2 dpl /\
  intel_type w = bits 4 type /\ intel_s w = 0 /\ intel_present w = true.
Proof.
  intros w [Ho0 Ho1]. unfold w, gate_words, set_gate, intel_present.
  cbn [off_15_0 seg_selector gate_37_33 gate_40_38 gate_type gate_s gate_dpl gate_p off_31_16].
  rewrite Z.shiftr_div_pow2 by lia.
  rewrite (land_bits off 16), (land_bits (off / 2 ^ 16) 16), !bits_bits by (lia || reflexivity).
  assert (Hoff : bits 16 off + bits 16 (off / 2 ^ 16) * 2 ^ 16 = off).
  { unfold bits. Z.to_euclidean_division_equations; lia. }
  rewrite <- Hoff at 3.
  pose proof (bits_range 16 off ltac:(lia)). pose proof (bits_range 16 sel ltac:(lia)).
  pose proof (bits_range 4 type ltac:(lia)). pose proof (bits_range 2 dpl ltac:(lia)).
  pose proof (bits_range 16 (off / 2 ^ 16) ltac:(lia)).
  generalize dependent (bits 16 off). generalize dependent (bits 16 sel). generalize dependent (bits 4 type).
  generalize dependent (bits 2 dpl). generalize dependent (bits 16 (off / 2 ^ 16)).
  clear. intros. rewrite Z.eqb_eq. split_and!; fields_lia.
Qed.

(** Filling a table entry by entry. *)
Lemma fill_lookup {A B} (f : B -> nat) (g : B -> A) (es : list B) (l : list A) i :
  NoDup (f <$> es) -> (forall e, e ∈ es -> (f e < length l)%nat) ->
  let l' := foldl (fun l e => <[f e := g e]> l) l es in
  (forall e, e ∈ es -> l' !! f e = Some (g e)) /\ (i ∉ f <$> es -> l' !! i = l !! i).
Proof.
  revert l. induction es as [|e es IH]; intros l Hnd Hlen; simpl.
  { split; [intros e He; set_solver|done]. }
  apply NoDup_cons in Hnd as [He Hnd].
  destruct (IH (<[f e := g e]> l) Hnd) as [H1 H2].
  { intros x Hx. rewrite length_insert. apply Hlen. by apply elem_of_cons; right. }
  split.
  - intros x [->|Hx]%elem_of_cons; [|by apply H1].
    assert (Hk : foldl (fun l e => <[f e := g e]> l) (<[f e := g e]> l) es !! f e = <[f e := g e]> l !! f e).
    { clear H1 H2 IH. revert He. generalize (<[f e := g e]> l). clear. induction es as [|y es IH]; intros l He; simpl; [done|].
      rewrite IH by set_solver. apply list_lookup_insert_ne. set_solver. }
    rewrite Hk. apply list_lookup_insert_eq, Hlen. by apply elem_of_cons; left.
  - intros Hi. rewrite H2 by set_solver. apply list_lookup_insert_ne. set_solver.
Qed.

(** C39. Segment descriptors round trip: for every base and limit the processor
    reads back from the descriptor words of set_seg the base, the limit rounded up
    to the end of its page, the privilege level and the type that were put in, and
    from those of set_seg16 the exact limit, when it fits 20 bits. *)
Theorem segment_roundtrip type base lim dpl :
  fits 32 base -> fits 32 lim -> fits 2 dpl -> fits 4 type ->
  let w := seg_words (set_seg type base lim dpl) in
  let w16 := seg_words (set_seg16 type base lim dpl) in
  intel_base w = base /\ intel_limit w = lim / 0x1000 * 0x1000 + 0xfff /\ intel_dpl w = dpl /\
  intel_type w = type /\ intel_present w = true /\
  intel_base w16 = base /\ (fits 20 lim -> intel_limit w16 = lim) /\ intel_present w16 = true.
Proof.
  intros Hb [Hl0 Hl1] Hd Ht w w16. unfold w, w16, set_seg, set_seg16.
  destruct (seg_fields type base (Z.shiftr lim 12) dpl 1 Hb) as (-> & El & -> & -> & _ & -> & Eg).
  destruct (seg_fields type base lim dpl 0 Hb) as (-> & El' & _ & _ & _ & -> & Eg').
  unfold intel_limit. rewrite El, El', Eg, Eg'. change (bits 1 1 =? 1) with true. change (bits 1 0 =? 1) with false.
  cbv iota. rewrite Z.shiftr_div_pow2 by lia. unfold bits. unfold fits in *.
  rewrite (Z.mod_small dpl), (Z.mod_small type) by lia.
  split_and!; try done; [|intros Hl; by rewrite Z.mod_small].
  rewrite Z.mod_small; [done|]. split; [by apply Z.div_pos|]. apply Z.div_lt_upper_bound; lia.
Qed.

Lemma segment_roundtrip_witness :
  let w := seg_words (set_seg 2 0xC0000000 0xffffffff 0) in
  let w16 := seg_words (set_seg16 2 0xC0000000 0xffffffff 0) in
  intel_base w = 0xC0000000 /\ intel_limit w = 0xffffffff / 0x1000 * 0x1000 + 0xfff /\ intel_dpl w = 0 /\
  intel_type w = 2 /\ intel_present w = true /\
  intel_base w16 = 0xC0000000 /\ (fits 20 0xffffffff -> intel_limit w16 = 0xffffffff) /\ intel_present w16 = true.
Proof. apply (segment_roundtrip 2 0xC0000000 0xffffffff 0); unfold fits; lia. Defined.

(** The segments that vm_init installs mean what the kernel's address
    conversions assume: through the kernel's code and data segments the address
    [a] is the linear address kaddr2va(a), through the user's segments it is
    uaddr2va(a); all four cover the whole address space, and only the user's can
    be used at privilege level 3. *)
Theorem gdt_matches_conversions a :
  Forall (fun sel => exists d, vm_gdt !! Z.to_nat (Z.shiftr sel 3) = Some d /\
      let w := seg_words d in
      u32 (a + intel_base w) = kaddr2va a /\ intel_limit w = 0xffffffff /\ intel_dpl w = 0 /\ intel_present w = true)
    [GD_KT; GD_KD] /\
  Forall (fun sel => exists d, vm_gdt !! Z.to_nat (Z.shiftr sel 3) = Some d /\
      let w := seg_words d in
      u32 (a + intel_base w) = uaddr2va a /\ intel_limit w = 0xffffffff /\ intel_dpl w = 3 /\ intel_present w = true)
    [GD_UT; GD_UD] /\
  (forall i d, vm_gdt !! i = Some d -> i ∉ [1; 2; 3; 4]%nat -> intel_present (seg_words d) = false).
Proof.
  split_and!; [repeat constructor..|].
  1-4: eexists; split; [reflexivity|]; split_and!; reflexivity.
  intros i d Hd Hi. do 10 (destruct i as [|i]; [by simplify_eq/=; set_solver|]). by simplify_eq/=.
Qed.

Section idt_spec.
Context (addr : entry -> Z) (Haddr : forall e, fits 32 (addr e)).

Lemma idt_vectors : NoDup ((fun ve : Z * gate_kind * entry => Z.to_nat ve.1.1) <$> idt_entries) /\
  Forall (fun ve : Z * gate_kind * entry => 0 <= ve.1.1 < 256) idt_entries.
Proof. split; apply (bool_decide_unpack _); vm_compute; exact I. Qed.

Lemma init_idt_lookup v k e : (v, k, e) ∈ idt_entries -> init_idt addr !! Z.to_nat v = Some (gate_of addr k e).
Proof.
  intros He. destruct idt_vectors as [Hnd Hr].
  destruct (fill_lookup (fun ve : Z * gate_kind * entry => Z.to_nat ve.1.1) (fun ve => gate_of addr ve.1.2 ve.2)
    idt_entries (replicate 256 gate_zero) 0%nat Hnd) as [H1 _]; [|by apply (H1 (v, k, e))].
  intros x Hx. rewrite Forall_forall in Hr. apply Hr in Hx. rewrite length_replicate. lia.
Qed.

Lemma init_idt_other v : 0 <= v < 256 -> (forall k e, (v, k, e) ∉ idt_entries) ->
  init_idt addr !! Z.to_nat v = Some gate_zero.
Proof.
  intros Hv Hno. destruct idt_vectors as [Hnd Hr].
  destruct (fill_lookup (fun ve : Z * gate_kind * entry => Z.to_nat ve.1.1) (fun ve => gate_of addr ve.1.2 ve.2)
    idt_entries (replicate 256 gate_zero) (Z.to_nat v) Hnd) as [_ H2].
  - intros x Hx. rewrite Forall_forall in Hr. apply Hr in Hx. rewrite length_replicate. lia.
  - unfold init_idt. rewrite H2; [apply lookup_replicate_2; lia|].
    intros ([[w k] e] & E & Hx)%list_elem_of_fmap. cbn in E. rewrite Forall_forall in Hr. pose proof (Hr _ Hx) as Hw.
    cbn in Hw. apply (Hno k e). by replace v with w by lia.
Qed.

(** What a gate of [k] to [e] is for the processor. *)
Lemma gate_of_fields k e : let w := gate_words (gate_of addr k e) in
  intel_offset w = addr e /\ intel_selector w = 0x08 /\ intel_type w = 0xF /\ intel_present w = true /\
  intel_dpl w = match k with SystemGate => 3 | _ => 0 end.
Proof using Haddr.
  intros w. unfold w. destruct k; cbn [gate_of]; unfold set_trap_gate, set_system_gate, set_int_gate;
    edestruct (gate_fields STS_TG32 GD_KT (addr e)) as (-> & -> & -> & -> & _ & ->); try apply Haddr; done.
Qed.

(** The processor takes vector [v] through a present trap gate in the kernel's code
    segment to the entry point [e]. *)
Definition leads_to (v : Z) (e : entry) (user : bool) : Prop :=
  exists g, init_idt addr !! Z.to_nat v = Some g /\ let w := gate_words g in
    intel_offset w = addr e /\ intel_selector w = 0x08 /\ intel_type w = 0xF /\ intel_present w = true /\
    intel_dpl w = if user then 3 else 0.

Lemma leads_to_entry v k e : (v, k, e) ∈ idt_entries ->
  leads_to v e (match k with SystemGate => true | _ => false end).
Proof using Haddr.
  intros He. exists (gate_of addr k e). split; [by apply init_idt_lookup|].
  pose proof (gate_of_fields k e) as Hw. cbv zeta in Hw |- *. destruct Hw as (-> & -> & -> & -> & ->). by destruct k.
Qed.

(** C40. The IDT of init_traps and the entry points of traphandler.S agree. Each of the
    vectors 0 to 19, 32, 33 and 0x80 leads through a present trap gate in the kernel's
    code segment (the gates for interrupts too: nothing masks interrupts on the way) to
    an entry point that leaves this vector's number on the stack, in front of the
    processor's error code or of a zero in its place, with the processor's frame behind;
    user programs can raise only 3, 4, 5 and 0x80 themselves. Vectors 9 and 15 are the
    exception: their entry points leave out the zero although the processor pushes no
    error code, so that trap_handler finds every field of the frame one word off. The
    vectors 21 to 31 lead to the entry point of 15; every other vector has no gate. *)
Theorem idt_dispatches :
  (forall v, 0 <= v < 20 \/ v = 32 \/ v = 33 \/ v = 0x80 ->
     exists e, leads_to v e (bool_decide (v ∈ [3; 4; 5; 0x80])) /\
       forall err frame, entry_push e (cpu_push v err frame) =
         if bool_decide (v ∈ [9; 15]) then v :: frame else v :: (if cpu_error_code v then err else 0) :: frame) /\
  (forall v, 21 <= v < 32 -> leads_to v reserved false /\ forall err frame, entry_push reserved (cpu_push v err frame) = 15 :: frame) /\
  (forall v, v = 20 \/ 34 <= v < 0x80 \/ 0x80 < v < 256 ->
     exists g, init_idt addr !! Z.to_nat v = Some g /\ intel_present (gate_words g) = false).
Proof using Haddr.
  assert (Hin : forall v k e, In (v, k, e) idt_entries -> (v, k, e) ∈ idt_entries) by (intros; by apply list_elem_of_In).
  split_and!.
  - assert (Hall : Forall (fun v => exists k e, In (v, k, e) idt_entries /\
      match k with SystemGate => true | _ => false end = bool_decide (v ∈ [3; 4; 5; 0x80]) /\
      forall err frame, entry_push e (cpu_push v err frame) =
        if bool_decide (v ∈ [9; 15]) then v :: frame else v :: (if cpu_error_code v then err else 0) :: frame)
      (seqZ 0 20 ++ [32; 33; 0x80])).
    { change (seqZ 0 20) with [0; 1; 2; 3; 4; 5; 6; 7; 8; 9; 10; 11; 12; 13; 14; 15; 16; 17; 18; 19]. cbn [app].
      repeat (apply Forall_cons; split; [eexists _, _; split; [repeat first [left; reflexivity|right]|split; reflexivity]|]). by apply Forall_nil. }
    intros v Hv. rewrite Forall_forall in Hall. destruct (Hall v) as (k & e & He & Hk & Hpush).
    { rewrite elem_of_app, elem_of_seqZ, !elem_of_cons. lia. }
    exists e. split; [|exact Hpush]. rewrite <- Hk. by apply leads_to_entry, Hin.
  - intros v Hv. split.
    + apply (leads_to_entry v TrapGate). unfold idt_entries. apply elem_of_app. right. apply elem_of_app. left.
      apply list_elem_of_fmap. exists v. split; [done|]. apply elem_of_seqZ. lia.
    + intros err frame. unfold cpu_push, cpu_error_code. rewrite bool_decide_false; [done|]. rewrite !elem_of_cons, elem_of_nil. lia.
  - intros v Hv. exists gate_zero. split; [|done]. apply init_idt_other; [lia|]. intros k e He.
    assert (Hvs : v ∈ (seqZ 0 20 ++ seqZ 21 11 ++ [32; 33; 0x80])).
    { apply (list_elem_of_fmap_2' (fun ve : Z * gate_kind * entry => ve.1.1) _ _ v) in He; [|done].
      replace (seqZ 0 20 ++ seqZ 21 11 ++ [32; 33; 0x80]) with ((fun ve : Z * gate_kind * entry => ve.1.1) <$> idt_entries) by (vm_compute; reflexivity). exact He. }
    rewrite !elem_of_app, !elem_of_seqZ, !elem_of_cons, elem_of_nil in Hvs. lia.
Qed.
End idt_spec.

Definition demo_entries (e : entry) : Z := match e with syscall_trap => 0x101234 | _ => 0x100040 end.

(** The general protection fault with the error code 0x18, and vector 9. *)
Lemma idt_dispatches_witness :
  (exists e, leads_to demo_entries 13 e false /\ entry_push e (cpu_push 13 0x18 [0x8000; 0x1b]) = [13; 0x18; 0x8000; 0x1b]) /\
  (exists e, leads_to demo_entries 9 e false /\ entry_push e (cpu_push 9 0x18 [0x8000; 0x1b]) = [9; 0x8000; 0x1b]).
Proof.
  destruct (idt_dispatches demo_entries) as (H & _); [intros []; unfold fits; simpl; lia|]. split.
  - destruct (H 13) as (e & He & Hp); [lia|]. exists e. split; [exact He|apply (Hp 0x18 [0x8000; 0x1b])].
  - destruct (H 9) as (e & He & Hp); [lia|]. exists e. split; [exact He|apply (Hp 0x18 [0x8000; 0x1b])].
Defined.
