(* ===== verification/Kmalloc.v ===== *)
(** The kernel heap (kernel/memory/kmalloc.h, kernel/memory/kmalloc.cpp): a buddy
    allocator on temporary pages, with blocks of 32 to 2048 bytes.

    A block is named by its kernel address. [words] holds the header word at the
    start of every block; the free lists are lists of ListSpec keyed by the size
    number, and the [__list] field of a block's node is its owner there. The
    pages come from the interface [TmpPages]; VirtMem implements it at the end. *)

From S2P Require Import Prelude Spinlock ListSpec Util PhysMem VirtMem.

(** * Definitions *)

(** tmp_page_alloc_map(&p, &va, PTE_P | PTE_W) and tmp_page_free. *)
Class TmpPages (S : Type) := {
  tp_cpu :: HasCpu S;
  tp_alloc : M S (Z * option Z * Z);
  tp_free : Z -> M S Z;
}.

#[export] Instance TmpPages_mm : TmpPages mm := {
  tp_cpu := HasCpu_mm;
  tp_alloc := tmp_page_alloc_map (Z.lor PTE_P PTE_W);
  tp_free := tmp_page_free;
}.

Definition FIRST_SIZENO : Z := 0.
Definition LAST_SIZENO : Z := 6.

(** ** Counters: PH_count, seven bit fields *)

Definition ph_width (sizeno : Z) : Z := if sizeno <? 4 then 8 else 4.
Definition PH_count := list Z.
Definition ph_zero : PH_count := replicate 7 0.
(** -1 as an unsigned for a size number above 6 *)
Definition ph_get (c : PH_count) (sizeno : Z) : Z :=
  if 6 <? sizeno then 0xFFFFFFFF else default 0 (c !! Z.to_nat sizeno).
Definition ph_add (sizeno i : Z) (c : PH_count) : PH_count :=
  if 6 <? sizeno then c
  else alter (fun v => (v + i) mod 2 ^ ph_width sizeno) (Z.to_nat sizeno) c.

Record PageHeader := mkPageHeader { count : PH_count; count_used : PH_count }.
Definition ph_empty : PageHeader := mkPageHeader ph_zero ph_zero.

(** ** Headers: BlockHeader as its 32-bit word *)

Definition BlockFlag_free : Z := Z.land 0x0055aaff 0xfffc3fff.
Definition BlockFlag_used : Z := Z.land 0xffaa5500 0xfffc3fff.
Definition sizeno_of (w : Z) : Z := Z.land (Z.shiftr w 14) 0xF.
Definition flags_of (w : Z) : Z := Z.land w 0xFFFC3FFF.
Definition with_sizeno (n w : Z) : Z := Z.lor (flags_of w) (Z.shiftl (Z.land n 0xF) 14).
Definition with_free (w : Z) : Z := Z.lor (Z.shiftl (sizeno_of w) 14) BlockFlag_free.
Definition with_used (w : Z) : Z := Z.lor (Z.shiftl (sizeno_of w) 14) BlockFlag_used.
Definition is_free_word (w : Z) : bool := flags_of w =? BlockFlag_free.

(** ** State *)

Record ks (S : Type) := mkKs {
  words : gmap Z Z;
  lists : lstore Z;
  page_headers : gmap Z PageHeader;
  kmalloc_lock : Z;
  env : S;
}.
Arguments mkKs {S} _ _ _ _ _.
Arguments words {S} _.
Arguments lists {S} _.
Arguments page_headers {S} _.
Arguments kmalloc_lock {S} _.
Arguments env {S} _.

#[export] Instance HasCpu_ks {S} `{!HasCpu S} : HasCpu (ks S).
Proof.
  refine {| cpu_of k := cpu_of (env k);
            set_cpu c k := mkKs (words k) (lists k) (page_headers k) (kmalloc_lock k) (set_cpu c (env k)) |}.
  - intros c k. apply cpu_of_set.
  - intros [w l p q e]. simpl. by rewrite set_cpu_of.
  - intros c c' k. simpl. by rewrite set_cpu_set.
Defined.

Section kmalloc.
Context {S : Type} `{!TmpPages S}.
Implicit Types b : Z.

Definition in_env {A} (m : M S A) : M (ks S) A :=
  zoom env (fun e k => mkKs (words k) (lists k) (page_headers k) (kmalloc_lock k) e) m.

(** *** Memory of a block *)

Definition hd_rd b : M (ks S) Z := k ← get; deref (words k !! b).
Definition hd_wr b (w : Z) : M (ks S) unit :=
  modify (fun k => mkKs (<[b := w]> (words k)) (lists k) (page_headers k) (kmalloc_lock k) (env k)).
Definition sizeno b : M (ks S) Z := w ← hd_rd b; mret (sizeno_of w).
Definition set_lists (l : lstore Z) : M (ks S) unit :=
  modify (fun k => mkKs (words k) l (page_headers k) (kmalloc_lock k) (env k)).
(** A list operation that reports success or error(). *)
Definition lop (f : lstore Z -> bool * lstore Z) : M (ks S) bool :=
  k ← get; let '(r, l) := f (lists k) in set_lists l ;; mret r.
Definition node_is_free b : M (ks S) bool := k ← get; mret (ls_is_free b (lists k)).
(** list_node.init() and list_node.set_free() *)
Definition node_init b : M (ks S) unit := k ← get; set_lists (ls_node_init b (lists k)).
(** The list the node says it is in. *)
Definition node_list b : M (ks S) (option Z) := k ← get; mret (ls_owner (lists k) !! b).

(** *** BlockHeader, FreeBlock *)

Definition block_page_addr b : Z := Z.land (kaddr2va b) (Z.lxor 0xFFFFFFFF 0xFFF).

(** BlockHeader::ph: the index of the page's counters *)
Definition ph_index b : M (ks S) Z :=
  n ← sizeno b;
  let index := u32 (kaddr2va b - MMAP_KERNEL_TMP_PAGE_BASE) / 0x1000 in
  ASSERT (n <? LAST_SIZENO + 2) ;;
  ASSERT (index <? 1024) ;;
  mret index.
Definition ph_rd b : M (ks S) PageHeader :=
  i ← ph_index b; k ← get; mret (default ph_empty (page_headers k !! i)).
Definition ph_wr b (f : PageHeader -> PageHeader) : M (ks S) unit :=
  i ← ph_index b; k ← get;
  put (mkKs (words k) (lists k) (<[i := f (default ph_empty (page_headers k !! i))]> (page_headers k))
            (kmalloc_lock k) (env k)).
Definition add_to_count (n i : Z) (h : PageHeader) : PageHeader :=
  mkPageHeader (ph_add n i (count h)) (count_used h).
Definition add_to_used (n i : Z) (h : PageHeader) : PageHeader :=
  mkPageHeader (count h) (ph_add n i (count_used h)).

Definition get_no b : M (ks S) Z :=
  n ← sizeno b; mret (Z.modulo b 0x1000 / Z.shiftl 1 (n + 5)).

Definition block_size b : M (ks S) Z := n ← sizeno b; mret (Z.shiftl 1 (5 + n)).
Definition right b : M (ks S) Z := sz ← block_size b; mret (u32 (b + sz)).
Definition left b : M (ks S) Z := sz ← block_size b; mret (u32 (b - sz)).
Definition pair b : M (ks S) Z :=
  sz ← block_size b;
  mret (if sz =? 0x1000 then NULL
        else if (b / sz) mod 2 =? 0 then u32 (b + sz) else u32 (b - sz)).

Definition block_set_used b : M (ks S) unit :=
  f ← node_is_free b; ASSERT f ;;
  w ← hd_rd b; hd_wr b (with_used w) ;;
  n ← sizeno b; ph_wr b (add_to_used n 1).

Definition block_set_free b : M (ks S) unit :=
  w ← hd_rd b; ASSERT (negb (is_free_word w)) ;;
  hd_wr b (with_free w) ;;
  n ← sizeno b; ph_wr b (add_to_used n (-1)) ;;
  node_init b.

Definition split b : M (ks S) Z :=
  ASSERT_int_disable ;;
  n ← sizeno b;
  h ← ph_rd b;
  let used := i32 (ph_get (count_used h) (u32 (n - 1))) in
  let cnt := i32 (ph_get (count h) (u32 (n - 1))) in
  ASSERT (cnt =? used) ;;
  o ← node_list b;
  (match o with Some l => _ ← lop (ls_erase l b); mret tt | None => mret tt end) ;;
  w ← hd_rd b; hd_wr b (with_sizeno (n - 1) w) ;;
  n ← sizeno b;
  ph_wr b (add_to_count (n + 1) (-1)) ;;
  ph_wr b (add_to_count n 2) ;;
  p ← pair b; r ← right b;
  ASSERT (p =? r) ;;
  w ← hd_rd b; hd_wr r w ;;
  node_init r ;;
  ok ← lop (ls_push_back n r);
  ASSERT ok ;;
  mret b.

(** FreeBlock::init of a page that has just been mapped, whatever it holds. *)
Definition block_init b (garbage : Z) : M (ks S) unit :=
  ASSERT_int_disable ;;
  hd_wr b (with_free (with_sizeno (LAST_SIZENO + 1) garbage)) ;;
  ph_wr b (fun _ => ph_empty) ;;
  node_init b ;;
  b' ← split b;
  n ← sizeno b';
  ok ← lop (ls_push_back n b');
  ASSERT ok.

Definition merge b : M (ks S) Z :=
  ASSERT_int_disable ;;
  p ← pair b;
  wp ← hd_rd p; ASSERT (is_free_word wp) ;;
  w ← hd_rd b; ASSERT (is_free_word w) ;;
  ASSERT (sizeno_of wp =? sizeno_of w) ;;
  f ← node_is_free b; ASSERT f ;;
  fp ← node_is_free p; ASSERT (negb fp) ;;
  o ← node_list p; l ← deref o;
  _ ← lop (ls_erase l p);
  n ← sizeno b;
  ph_wr b (add_to_count n (-2)) ;;
  ph_wr b (add_to_count (n + 1) 1) ;;
  lf ← left b;
  let r := if p =? lf then p else b in
  wr ← hd_rd r; hd_wr r (with_sizeno (sizeno_of wr + 1) wr) ;;
  fr ← node_is_free r; ASSERT fr ;;
  mret r.

(** *** The allocator *)

Definition sizes (i : Z) : Z := 32 * 2 ^ i.
Definition sizeof_BlockHeader : Z := 4.

Definition klock_view (k : ks S) : Z := kmalloc_lock k.
Definition klock_upd (v : Z) (k : ks S) : ks S := mkKs (words k) (lists k) (page_headers k) v (env k).

Definition kmalloc_init : M (ks S) unit :=
  spinlock_init klock_upd ;;
  (* sizeof(FreeBlock) is 16 *)
  ASSERT (16 <=? Z.shiftl 1 (FIRST_SIZENO + 5)) ;;
  iterM (fun i => k ← get; set_lists (ls_init i (lists k))) (seqZ 0 7).

Fixpoint kmalloc_size_loop (fuel : nat) (size s : Z) : option Z :=
  match fuel with
  | O => None
  | Datatypes.S f =>
      let s := u32 (Z.shiftl s 1) in
      if s <? u32 (size + sizeof_BlockHeader) then kmalloc_size_loop f size s else Some s
  end.
(** None: the loop does not end within 32 doublings. *)
Definition kmalloc_size (size : Z) : option (option Z) :=
  s ← kmalloc_size_loop 32 size 32; Some (if s <? 0x1000 then Some s else None).

(** The search of kmalloc: the first fitting size number, and the first list
    from there on that is not empty, with its first block taken off. *)
Fixpoint kmalloc_find (ns : list Z) (size uygun : Z) : M (ks S) (Z * Z * option Z) :=
  match ns with
  | [] => mret (LAST_SIZENO + 1, uygun, None)
  | i :: ns' =>
      if size <=? sizes i - sizeof_BlockHeader then
        let uygun := if uygun =? -1 then i else uygun in
        k ← get;
        if 0 <? ls_size (lists k) i then
          b ← deref (ls_front (lists k) i);
          n ← sizeno b; ASSERT (n =? i) ;;
          ok ← lop (ls_pop_front i); ASSERT ok ;;
          mret (i, uygun, Some b)
        else kmalloc_find ns' size uygun
      else kmalloc_find ns' size uygun
  end.

(** for ( ; i > uygun_sizeno ; i--) b = b->split() *)
Fixpoint split_down (fuel : nat) (b i uygun : Z) : M (ks S) Z :=
  match fuel with
  | O => stop OutOfFuel
  | Datatypes.S f =>
      if uygun <? i then
        n ← sizeno b; ASSERT (n =? i) ;;
        b' ← split b;
        split_down f b' (i - 1) uygun
      else mret b
  end.

(** The contents of a fresh page are not known: [garbage] is its first word. *)
Definition kmalloc_page (garbage : Z) : M (ks S) (option Z) :=
  k ← get; ASSERT (ls_size (lists k) LAST_SIZENO =? 0) ;;
  '(err, _, va) ← in_env tp_alloc;
  if err <? 0 then mret None else
  let b := va2kaddr va in
  block_init b garbage ;;
  o ← node_list b; l ← deref o;
  ok ← lop (ls_erase l b); ASSERT ok ;;
  mret (Some b).

Definition kmalloc (garbage size : Z) : M (ks S) Z :=
  if 2048 - sizeof_BlockHeader <? size then mret NULL else
  spinlock_acquire klock_view klock_upd ;;
  '(i, uygun, ob) ← kmalloc_find (seqZ 0 7) size (-1);
  ASSERT (negb (uygun =? -1)) ;;
  r ← (match ob with
       | Some b => mret (Some (i, b))
       | None => o ← kmalloc_page garbage; mret ((fun b => (LAST_SIZENO, b)) <$> o)
       end);
  match r with
  | None => mret NULL    (* the lock is still held *)
  | Some (i, b) =>
      f ← node_is_free b; ASSERT f ;;
      b ← split_down 8 b i uygun;
      block_set_used b ;;
      spinlock_release klock_upd ;;
      mret (b + sizeof_BlockHeader)
  end.

(** The loop of kfree: merge while the buddy is free and whole. *)
Fixpoint merge_up (fuel : nat) (b : Z) : M (ks S) Z :=
  match fuel with
  | O => stop OutOfFuel
  | Datatypes.S f =>
      n ← sizeno b;
      if negb (n <? LAST_SIZENO + 1) then mret b else
      p ← pair b; wp ← hd_rd p;
      if negb (is_free_word wp) then mret b else
      if negb (sizeno_of wp =? n) then mret b else
      b' ← merge b; merge_up f b'
  end.

(** The header words of a page that is unmapped are gone. *)
Definition drop_words (page : Z) (ws : gmap Z Z) : gmap Z Z :=
  filter (fun aw => aw.1 / 0x1000 <> page / 0x1000) ws.

Definition kfree (v : Z) : M (ks S) unit :=
  spinlock_acquire klock_view klock_upd ;;
  let bh := v - sizeof_BlockHeader in
  w ← hd_rd bh;
  ASSERT (flags_of w =? BlockFlag_used) ;;
  block_set_free bh ;;
  fb ← merge_up 8 bh;
  f ← node_is_free fb; ASSERT f ;;
  n ← sizeno fb;
  (if n <=? LAST_SIZENO then ok ← lop (ls_push_front n fb); ASSERT ok
   else
     let va := kaddr2va (block_page_addr fb) in
     sz ← block_size fb; ASSERT (sz =? 0x1000) ;;
     _ ← in_env (tp_free (va2kaddr va));
     modify (fun k => mkKs (drop_words fb (words k)) (lists k) (page_headers k) (kmalloc_lock k) (env k))) ;;
  spinlock_release klock_upd.
End kmalloc.
