(* ===== verification/Buddy.v ===== *)
(** The abstract heap of the buddy allocator (kernel/memory/kmalloc.cpp).

    A heap is a finite map from block addresses to a size number and a used
    flag; block number [blk n b] is the position of [b] in units of 2^(n+5)
    bytes. [shape] says that the blocks of every page are a dyadic partition of
    it: pairwise disjoint, and the buddy of every block at every level is cut at
    least as fine. [coalesced] says that no two free buddies of one size lie
    side by side, apart from the block in hand of the running operation. The
    four changes the allocator makes (a page appears, a block is cut, two blocks
    are joined, a page disappears) keep both. *)

From S2P Require Import Prelude Kmalloc.

(** ** Geometry *)

Definition HEAP_BASE : Z := 0x10000000.
Definition HEAP_TOP : Z := 0x10400000.

Definition bsize (n : Z) : Z := 2 ^ (n + 5).
Definition blk (n b : Z) : Z := b / bsize n.
Definition flip (q : Z) : Z := q + 1 - 2 * (q mod 2).
Definition buddy (n b : Z) : Z := flip (blk n b) * bsize n.
Definition aligned (n b : Z) : Prop := b = blk n b * bsize n.

Lemma bsize_pos n : 0 <= n -> 0 < bsize n.
Proof. intros. apply Z.pow_pos_nonneg; lia. Qed.

Lemma bsize_succ n : 0 <= n -> bsize (n + 1) = 2 * bsize n.
Proof. intros. unfold bsize. replace (n + 1 + 5) with (Z.succ (n + 5)) by lia. apply Z.pow_succ_r. lia. Qed.

Lemma blk_succ n b : 0 <= n -> blk (n + 1) b = blk n b / 2.
Proof.
  intros. pose proof (bsize_pos n H). unfold blk. rewrite bsize_succ, Z.mul_comm by done.
  by rewrite <- Z.div_div by lia.
Qed.

Lemma blk_mono n m x y : 0 <= n <= m -> blk n x = blk n y -> blk m x = blk m y.
Proof.
  intros [Hn Hm] E. replace m with (n + (m - n)) by lia.
  assert (Hd : 0 <= m - n) by lia. revert Hd. generalize (m - n). clear m Hm.
  apply natlike_ind; [by rewrite Z.add_0_r|].
  intros d Hd IH. replace (n + Z.succ d) with (n + d + 1) by lia.
  rewrite !blk_succ by lia. by rewrite IH.
Qed.

Lemma flip_flip q : flip (flip q) = q.
Proof. unfold flip. Z.to_euclidean_division_equations; lia. Qed.
Lemma flip_ne q : flip q <> q.
Proof. unfold flip. Z.to_euclidean_division_equations; lia. Qed.
Lemma flip_half q : flip q / 2 = q / 2.
Proof. unfold flip. Z.to_euclidean_division_equations; lia. Qed.
Lemma half_cases q q' : q / 2 = q' / 2 -> q = q' \/ q = flip q'.
Proof. unfold flip. Z.to_euclidean_division_equations; lia. Qed.

Lemma blk_of_mul n q : 0 <= n -> blk n (q * bsize n) = q.
Proof. intros. unfold blk. apply Z.div_mul. pose proof (bsize_pos n). lia. Qed.

Lemma buddy_blk n b : 0 <= n -> blk n (buddy n b) = flip (blk n b).
Proof. intros. by apply blk_of_mul. Qed.

Lemma buddy_aligned n b : 0 <= n -> aligned n (buddy n b).
Proof. intros. unfold aligned. by rewrite buddy_blk. Qed.

Lemma buddy_buddy n b : 0 <= n -> aligned n b -> buddy n (buddy n b) = b.
Proof. intros Hn Ha. unfold buddy at 1. by rewrite buddy_blk, flip_flip by done. Qed.

Lemma buddy_blk_succ n b : 0 <= n -> blk (n + 1) (buddy n b) = blk (n + 1) b.
Proof. intros. by rewrite !blk_succ, buddy_blk, flip_half. Qed.

Lemma aligned_eq n x y : aligned n x -> aligned n y -> blk n x = blk n y -> x = y.
Proof. unfold aligned. intros Hx Hy E. by rewrite Hx, Hy, E. Qed.

Lemma aligned_even n m b : 0 <= n < m -> aligned m b -> blk n b mod 2 = 0.
Proof.
  intros [Hn Hm] Ha. rewrite Ha. unfold blk at 1.
  replace (bsize m) with (2 ^ (m - n - 1) * 2 * bsize n).
  - rewrite Z.mul_assoc, Z.div_mul by (pose proof (bsize_pos n); lia).
    rewrite Z.mul_assoc. by apply Z.mod_mul.
  - unfold bsize. rewrite (Z.mul_comm _ 2), <- (Z.pow_succ_r 2 (m - n - 1)), <- Z.pow_add_r by lia. f_equal. lia.
Qed.

Lemma aligned_down n m b : 0 <= n <= m -> aligned m b -> aligned n b.
Proof.
  intros [Hn Hm] Ha. unfold aligned. rewrite Ha. unfold blk at 2.
  replace (bsize m) with (2 ^ (m - n) * bsize n).
  - rewrite Z.mul_assoc, Z.div_mul by (pose proof (bsize_pos n); lia). done.
  - unfold bsize. rewrite <- Z.pow_add_r by lia. f_equal. lia.
Qed.

(** The upper half of a block. *)
Lemma half_facts n b :
  0 <= n -> aligned (n + 1) b ->
  let r := b + bsize n in
  aligned n b /\ aligned n r /\ blk n r = flip (blk n b) /\ r = buddy n b /\ b = buddy n r /\
  (blk n b mod 2 = 0) /\ (blk n r mod 2 = 1) /\ r <> b.
Proof.
  intros Hn Ha r. pose proof (bsize_pos n Hn).
  assert (Ha' : aligned n b) by (apply (aligned_down n (n + 1)); [lia|done]).
  assert (He : blk n b mod 2 = 0) by (apply (aligned_even n (n + 1)); [lia|done]).
  assert (Hr : r = (blk n b + 1) * bsize n) by (unfold r, aligned in *; lia).
  assert (Hf : flip (blk n b) = blk n b + 1) by (unfold flip; lia).
  assert (Hbr : blk n r = blk n b + 1) by (rewrite Hr; by apply blk_of_mul).
  assert (Har : aligned n r) by (unfold aligned; lia).
  assert (Hrb : r = buddy n b) by (unfold buddy; rewrite Hf; lia).
  split_and!; try done; [lia|..|unfold r; lia].
  - rewrite Hrb. symmetry. by apply buddy_buddy.
  - rewrite Hbr. revert He. Z.to_euclidean_division_equations. lia.
Qed.

(** A block is the lower or the upper half of the block above it. *)
Lemma buddy_cases n b : 0 <= n -> aligned n b ->
  (aligned (n + 1) b /\ buddy n b = b + bsize n) \/
  (aligned (n + 1) (buddy n b) /\ b = buddy n b + bsize n).
Proof.
  intros Hn Ha. unfold aligned, buddy in *. rewrite !blk_succ, bsize_succ, blk_of_mul by done.
  set (q := blk n b) in *. pose proof (Z.mod_pos_bound q 2 ltac:(lia)). pose proof (Z.div_mod q 2 ltac:(lia)) as Hq.
  unfold flip. set (t := q / 2) in *. destruct (decide (q mod 2 = 0)) as [E|E].
  - left. rewrite E in *. split; nia.
  - right. replace (q mod 2) with 1 in * by lia. replace (q + 1 - 2 * 1) with (t * 2) by lia.
    rewrite Z.div_mul by lia. split; nia.
Qed.

(** ** The shape of the heap *)

Implicit Types sz : gmap Z Z.

Record shape sz : Prop := {
  sh_range : forall b n, sz !! b = Some n -> 0 <= n <= 7 /\ aligned n b /\ HEAP_BASE <= b < HEAP_TOP;
  sh_disj : forall x y nx ny, sz !! x = Some nx -> sz !! y = Some ny ->
    blk (Z.max nx ny) x = blk (Z.max nx ny) y -> x = y;
  sh_buddy : forall x n m, sz !! x = Some n -> n <= m <= 6 ->
    exists n', sz !! buddy m x = Some n' /\ n' <= m;
}.

Lemma shape_same sz b n x nx :
  shape sz -> sz !! b = Some n -> sz !! x = Some nx -> blk n x = blk n b -> x = b.
Proof.
  intros Sh Hb Hx E. apply (sh_disj _ Sh x b nx n Hx Hb).
  destruct (sh_range _ Sh _ _ Hb). by apply (blk_mono n); [lia|].
Qed.

Lemma shape_empty : shape ∅.
Proof. split; intros *; rewrite lookup_empty; discriminate. Qed.

(** A page appears as one block of size number 7. *)
Lemma shape_new_page sz p :
  shape sz -> aligned 7 p -> HEAP_BASE <= p < HEAP_TOP ->
  (forall x n, sz !! x = Some n -> blk 7 x <> blk 7 p) ->
  shape (<[p := 7]> sz).
Proof.
  intros Sh Ha Hr Hf. assert (Hp : sz !! p = None).
  { destruct (sz !! p) as [n|] eqn:E; [|done]. by destruct (Hf p n E). }
  split.
  - intros b n [[<- <-]|[_ Hb]]%lookup_insert_Some; [split_and!; (lia || done)|by apply Sh].
  - intros x y nx ny [[<- <-]|[Hxp Hx]]%lookup_insert_Some [[<- <-]|[Hyp Hy]]%lookup_insert_Some E;
      [done|..|by apply (sh_disj _ Sh x y nx ny)].
    + destruct (sh_range _ Sh _ _ Hy). rewrite Z.max_l in E by lia. by destruct (Hf y ny Hy).
    + destruct (sh_range _ Sh _ _ Hx). rewrite Z.max_r in E by lia. by destruct (Hf x nx Hx).
  - intros x n m [[<- <-]|[Hxp Hx]]%lookup_insert_Some Hm; [lia|].
    destruct (sh_buddy _ Sh x n m Hx Hm) as (n' & Hn' & Hle). exists n'.
    rewrite lookup_insert_ne by congruence. done.
Qed.

(** A page disappears. *)
Lemma shape_drop_page sz p : shape sz -> sz !! p = Some 7 -> shape (delete p sz).
Proof.
  intros Sh Hp. split.
  - intros b n [_ Hb]%lookup_delete_Some. by apply Sh.
  - intros x y nx ny [_ Hx]%lookup_delete_Some [_ Hy]%lookup_delete_Some. by apply Sh.
  - intros x n m [_ Hx]%lookup_delete_Some Hm.
    destruct (sh_buddy _ Sh x n m Hx Hm) as (n' & Hn' & Hle). exists n'.
    rewrite lookup_delete_ne; [done|]. intros Hpt. rewrite <- Hpt in Hn'. simplify_eq. lia.
Qed.

Definition cut (b n : Z) sz : gmap Z Z := <[b + bsize n := n]> (<[b := n]> sz).

Lemma cut_fresh sz b n :
  shape sz -> 0 <= n -> sz !! b = Some (n + 1) -> sz !! (b + bsize n) = None.
Proof.
  intros Sh Hn Hb. destruct (sh_range _ Sh _ _ Hb) as (_ & Ha & _).
  destruct (half_facts n b Hn Ha) as (_ & _ & _ & Hr & _ & _ & _ & Hne).
  destruct (sz !! (b + bsize n)) as [n'|] eqn:E; [|done]. destruct Hne.
  apply (shape_same sz b (n + 1) _ n' Sh Hb E). rewrite Hr. by apply buddy_blk_succ.
Qed.

(** A block is cut in two. *)
Lemma shape_cut sz b n :
  shape sz -> 0 <= n -> sz !! b = Some (n + 1) -> shape (cut b n sz).
Proof.
  intros Sh Hn Hb. pose proof (cut_fresh sz b n Sh Hn Hb) as Hfr.
  destruct (sh_range _ Sh _ _ Hb) as (Hn7 & Ha & Hrg).
  destruct (half_facts n b Hn Ha) as (Ha1 & Ha2 & Hf & Hr & Hb' & He & Ho & Hne).
  pose proof (bsize_pos n Hn) as Hpos. set (r := b + bsize n) in *.
  assert (Hup : forall m, n + 1 <= m -> blk m r = blk m b).
  { intros m Hm. apply (blk_mono (n + 1)); [lia|]. rewrite Hr. by apply buddy_blk_succ. }
  assert (Hout : forall h y ny, (h = b \/ h = r) -> sz !! y = Some ny -> y <> b ->
    blk (Z.max n ny) h <> blk (Z.max n ny) y).
  { intros h y ny Hh Hy Hyb E. destruct Hyb.
    assert (E' : blk (Z.max (n + 1) ny) y = blk (Z.max (n + 1) ny) b).
    { rewrite <- (blk_mono (Z.max n ny) (Z.max (n + 1) ny) h y) by (lia || done).
      destruct Hh as [->| ->]; [done|]. apply Hup. lia. }
    rewrite Z.max_comm in E'. by apply (sh_disj _ Sh y b ny (n + 1)). }
  assert (Hlk : forall x nx, cut b n sz !! x = Some nx ->
    ((x = b \/ x = r) /\ nx = n) \/ (x <> b /\ sz !! x = Some nx)).
  { unfold cut. fold r. intros x nx [[<- <-]|[Hxr [[<- <-]|[Hxb Hx]]%lookup_insert_Some]]%lookup_insert_Some; auto. }
  split.
  - intros x nx [[[->| ->] ->]|[_ Hx]]%Hlk; [split_and!; (lia || done)| |by apply Sh].
    split_and!; (lia || done || idtac).
    assert (HEAP_TOP = blk (n + 1) HEAP_TOP * bsize (n + 1)).
    { assert (Hc : Forall (fun n => HEAP_TOP = blk (n + 1) HEAP_TOP * bsize (n + 1)) (seqZ 0 7)).
      { apply (bool_decide_unpack _). vm_compute. exact I. }
      rewrite Forall_forall in Hc. apply Hc, elem_of_seqZ. lia. }
    pose proof (bsize_succ n Hn). unfold aligned in Ha. unfold r.
    assert (blk (n + 1) b + 1 <= blk (n + 1) HEAP_TOP) by nia.
    assert (b + 2 * bsize n <= HEAP_TOP) by nia. lia.
  - intros x y nx ny Hx%Hlk Hy%Hlk E.
    destruct Hx as [[Hx ->]|[Hxb Hx]], Hy as [[Hy ->]|[Hyb Hy]].
    + rewrite Z.max_id in E. destruct Hx as [->| ->], Hy as [->| ->]; try done;
        by rewrite Hf in E; destruct (flip_ne (blk n b)).
    + by destruct (Hout x y ny Hx Hy Hyb).
    + destruct (Hout y x nx Hy Hx Hxb). by rewrite Z.max_comm.
    + by apply (sh_disj _ Sh x y nx ny).
  - assert (Hnew : forall t m, (exists n', sz !! t = Some n' /\ n' <= m) -> n <= m ->
      exists n', cut b n sz !! t = Some n' /\ n' <= m).
    { intros t m (n' & Ht & Hle) Hm. unfold cut. fold r. destruct (decide (t = r)) as [->|Htr].
      - exists n. by rewrite lookup_insert_eq.
      - rewrite lookup_insert_ne by done. destruct (decide (t = b)) as [->|Htb].
        + exists n. by rewrite lookup_insert_eq.
        + exists n'. by rewrite lookup_insert_ne. }
    assert (Hcb : cut b n sz !! b = Some n /\ cut b n sz !! r = Some n).
    { unfold cut. fold r. rewrite lookup_insert_eq, lookup_insert_ne, lookup_insert_eq by done. done. }
    intros x nx m [[Hx ->]|[Hxb Hx]]%Hlk Hm.
    + destruct (decide (m = n)) as [->|Hmn].
      * exists n. destruct Hx as [->| ->]; [rewrite <- Hr|rewrite <- Hb']; split; (lia || apply Hcb).
      * assert (Hbm : buddy m x = buddy m b)
          by (destruct Hx as [->| ->]; [done|unfold buddy; rewrite Hup by lia; done]).
        rewrite Hbm. apply Hnew; [|lia]. apply (sh_buddy _ Sh b (n + 1)); [done|lia].
    + destruct (sh_buddy _ Sh x nx m Hx Hm) as (n' & Ht & Hle).
      destruct (decide (buddy m x = b)) as [E|E].
      * rewrite E in *. exists n. split; [apply Hcb|]. simplify_eq. lia.
      * exists n'. split; [|done]. unfold cut. fold r.
        rewrite lookup_insert_ne by congruence. by rewrite lookup_insert_ne.
Qed.

Definition join (b n : Z) sz : gmap Z Z := delete (b + bsize n) (<[b := n + 1]> sz).

(** A block and its upper buddy of the same size are joined. *)
Lemma shape_join sz b n :
  shape sz -> 0 <= n <= 6 -> aligned (n + 1) b ->
  sz !! b = Some n -> sz !! (b + bsize n) = Some n -> shape (join b n sz).
Proof.
  intros Sh Hn Ha Hb Hr. destruct (sh_range _ Sh _ _ Hb) as (_ & _ & Hrg).
  destruct (half_facts n b ltac:(lia) Ha) as (Ha1 & Ha2 & Hf & Hrb & Hbr & He & Ho & Hne).
  set (r := b + bsize n) in *.
  assert (Hlk : forall x nx, join b n sz !! x = Some nx ->
    (x = b /\ nx = n + 1) \/ (x <> b /\ x <> r /\ sz !! x = Some nx)).
  { unfold join. fold r. intros x nx [Hxr [[<- <-]|[Hxb Hx]]%lookup_insert_Some]%lookup_delete_Some; auto. }
  assert (Hout : forall y ny, sz !! y = Some ny -> y <> b -> y <> r ->
    blk (Z.max (n + 1) ny) b <> blk (Z.max (n + 1) ny) y).
  { intros y ny Hy Hyb Hyr E. destruct (decide (n + 1 <= ny)) as [Hle|Hle].
    - destruct Hyb. symmetry. apply (sh_disj _ Sh b y n ny Hb Hy).
      replace (Z.max n ny) with (Z.max (n + 1) ny) by lia. done.
    - rewrite Z.max_l in E by lia. rewrite !blk_succ in E by lia.
      destruct (half_cases _ _ (eq_sym E)) as [E1|E1].
      + destruct Hyb. by apply (shape_same sz b n y ny).
      + destruct Hyr. apply (shape_same sz r n y ny); [done..|]. by rewrite Hf. }
  split.
  - intros x nx [[-> ->]|(_ & _ & Hx)]%Hlk; [split_and!; (lia || done)|by apply Sh].
  - intros x y nx ny Hx%Hlk Hy%Hlk E.
    destruct Hx as [[-> ->]|(Hxb & Hxr & Hx)], Hy as [[-> ->]|(Hyb & Hyr & Hy)]; [done|..].
    + by destruct (Hout y ny Hy Hyb Hyr).
    + destruct (Hout x nx Hx Hxb Hxr). by rewrite Z.max_comm.
    + by apply (sh_disj _ Sh x y nx ny).
  - assert (Hhi : forall m x, n < m -> buddy m x <> r).
    { intros m x Hm E. pose proof (buddy_aligned m x ltac:(lia)) as Hal. rewrite E in Hal.
      pose proof (aligned_even n m r ltac:(lia) Hal). lia. }
    assert (Hnew : forall t m, (exists n', sz !! t = Some n' /\ n' <= m) -> t <> r -> (t = b -> n < m) ->
      exists n', join b n sz !! t = Some n' /\ n' <= m).
    { intros t m (n' & Ht & Hle) Htr Htb. unfold join. fold r.
      rewrite lookup_delete_ne by done. destruct (decide (t = b)) as [->|Htb'].
      - exists (n + 1). rewrite lookup_insert_eq. split; [done|]. specialize (Htb eq_refl). lia.
      - exists n'. by rewrite lookup_insert_ne. }
    intros x nx m [[-> ->]|(Hxb & Hxr & Hx)]%Hlk Hm.
    + apply Hnew; [apply (sh_buddy _ Sh b n); [done|lia]|apply Hhi; lia|lia].
    + pose proof (sh_range _ Sh _ _ Hx) as (Hnx & _).
      assert (Hmn : buddy m x = b \/ buddy m x = r -> m = n -> False).
      { intros Ht ->. pose proof (buddy_blk n x ltac:(lia)) as Hfb.
        destruct Ht as [Ht|Ht]; rewrite Ht in Hfb.
        - destruct Hxr. apply (shape_same sz r n x nx); [done..|]. rewrite Hf, Hfb. by rewrite flip_flip.
        - destruct Hxb. apply (shape_same sz b n x nx); [done..|].
          rewrite <- (flip_flip (blk n b)), <- Hf, Hfb, flip_flip. done. }
      destruct (sh_buddy _ Sh x nx m Hx Hm) as (n' & Ht & Hle).
      apply Hnew; [eauto|..].
      * intros E. rewrite E in Ht. simplify_eq.
        destruct (decide (m = n)) as [Hmn'|Hmn']; [by apply Hmn; [right|]|].
        by apply (Hhi m x); [lia|].
      * intros E. rewrite E in Ht. simplify_eq.
        destruct (decide (m = n)) as [Hmn'|Hmn']; [by destruct Hmn; [left|]|lia].
Qed.

(** ** Blocks with their flags *)

Notation heap := (gmap Z (Z * bool)).
Implicit Types (bl : heap) (hand : option Z).

Definition sizes_of bl : gmap Z Z := fst <$> bl.

(** Two free buddies of one size: one of them is in hand. *)
Definition coalesced hand bl : Prop := forall b n,
  n <= 6 -> bl !! b = Some (n, false) -> bl !! buddy n b = Some (n, false) ->
  hand = Some b \/ hand = Some (buddy n b).

Record heap_ok hand bl : Prop := {
  ho_shape : shape (sizes_of bl);
  ho_coal : coalesced hand bl;
  ho_whole : forall b u, bl !! b = Some (7, u) -> hand = Some b;
  ho_hand : forall b, hand = Some b -> exists n, bl !! b = Some (n, false);
}.

Lemma sizes_lookup bl b n u : bl !! b = Some (n, u) -> sizes_of bl !! b = Some n.
Proof. intros Hb. unfold sizes_of. by rewrite lookup_fmap, Hb. Qed.

Lemma sizes_inv bl b n : sizes_of bl !! b = Some n -> exists u, bl !! b = Some (n, u).
Proof. unfold sizes_of. intros ([n' u] & <- & Hb)%lookup_fmap_Some. by exists u. Qed.

Lemma sizes_insert bl b n u : sizes_of (<[b := (n, u)]> bl) = <[b := n]> (sizes_of bl).
Proof. unfold sizes_of. by rewrite fmap_insert. Qed.

Lemma sizes_same bl b n u u' : bl !! b = Some (n, u) -> sizes_of (<[b := (n, u')]> bl) = sizes_of bl.
Proof. intros Hb. rewrite sizes_insert. apply insert_id. by eapply sizes_lookup. Qed.

Section heap_ok.
Context {hand bl} (Ok : heap_ok hand bl).

Lemma ho_range b n u : bl !! b = Some (n, u) -> 0 <= n <= 7 /\ aligned n b /\ HEAP_BASE <= b < HEAP_TOP.
Proof. intros Hb. eapply sh_range; [apply Ok|by eapply sizes_lookup]. Qed.

Lemma ho_disjoint x y nx ny ux uy :
  bl !! x = Some (nx, ux) -> bl !! y = Some (ny, uy) ->
  blk (Z.max nx ny) x = blk (Z.max nx ny) y -> x = y.
Proof. intros Hx Hy. eapply sh_disj; [apply Ok|by eapply sizes_lookup..]. Qed.

Lemma ho_buddy b n u :
  bl !! b = Some (n, u) -> n <= 6 -> exists n' u', bl !! buddy n b = Some (n', u') /\ n' <= n.
Proof.
  intros Hb Hn. destruct (sh_buddy _ (ho_shape _ _ Ok) b n n) as (n' & H & Hle);
    [by eapply sizes_lookup|lia|]. destruct (sizes_inv _ _ _ H) as [u' Hu]. eauto.
Qed.

(** The ranges of two blocks do not overlap. *)
Lemma ho_no_overlap x y nx ny ux uy :
  bl !! x = Some (nx, ux) -> bl !! y = Some (ny, uy) -> x <> y ->
  x + bsize nx <= y \/ y + bsize ny <= x.
Proof.
  intros Hx Hy Hne. destruct (ho_range _ _ _ Hx) as (Hnx & Hax & _). destruct (ho_range _ _ _ Hy) as (Hny & Hay & _).
  pose proof (bsize_pos nx ltac:(lia)). pose proof (bsize_pos ny ltac:(lia)).
  unfold aligned in Hax, Hay. set (q := blk nx x) in *. set (p := blk ny y) in *.
  assert (Hd : blk (Z.max nx ny) x <> blk (Z.max nx ny) y) by (intros E; by eapply Hne, ho_disjoint).
  destruct (decide (nx <= ny)) as [Hle|Hle].
  - rewrite Z.max_r in Hd by lia. fold p in Hd. unfold blk in Hd.
    assert (Hc : bsize ny = 2 ^ (ny - nx) * bsize nx) by (unfold bsize; rewrite <- Z.pow_add_r by lia; f_equal; lia).
    destruct (Z.le_gt_cases y x) as [Hyx|Hyx].
    + right. destruct (Z.le_gt_cases (y + bsize ny) x) as [|Hlt]; [done|]. destruct Hd.
      symmetry. apply (Z.div_unique x (bsize ny) p (x - y)); lia.
    + left. assert (q < p * 2 ^ (ny - nx)) by nia. nia.
  - rewrite Z.max_l in Hd by lia. fold q in Hd. unfold blk in Hd.
    assert (Hc : bsize nx = 2 ^ (nx - ny) * bsize ny) by (unfold bsize; rewrite <- Z.pow_add_r by lia; f_equal; lia).
    destruct (Z.le_gt_cases x y) as [Hyx|Hyx].
    + left. destruct (Z.le_gt_cases (x + bsize nx) y) as [|Hlt]; [done|]. destruct Hd.
      apply (Z.div_unique y (bsize nx) q (y - x)); lia.
    + right. assert (p < q * 2 ^ (nx - ny)) by nia. nia.
Qed.
End heap_ok.

Lemma heap_ok_empty : heap_ok None ∅.
Proof.
  split; [unfold sizes_of; rewrite fmap_empty; apply shape_empty|..].
  - intros b n _ H. by rewrite lookup_empty in H.
  - intros b u H. by rewrite lookup_empty in H.
  - discriminate.
Qed.

(** *** What the allocator does to the blocks *)

Definition bcut b n bl : heap := <[b + bsize n := (n, false)]> (<[b := (n, false)]> bl).
Definition bjoin b n bl : heap := delete (b + bsize n) (<[b := (n + 1, false)]> bl).

(** A free block of a list is taken in hand, or put back. *)
Lemma heap_ok_take bl b n : heap_ok None bl -> bl !! b = Some (n, false) -> heap_ok (Some b) bl.
Proof.
  intros Ok Hb. split; [apply Ok|..].
  - intros x m Hm Hx Hy. by destruct (ho_coal _ _ Ok x m Hm Hx Hy).
  - intros x u Hx. by pose proof (ho_whole _ _ Ok x u Hx).
  - intros ? [= <-]. eauto.
Qed.

Lemma heap_ok_put bl b n :
  heap_ok (Some b) bl -> bl !! b = Some (n, false) -> n <= 6 -> bl !! buddy n b <> Some (n, false) ->
  heap_ok None bl.
Proof.
  intros Ok Hb Hn Hbd. split; [apply Ok|..|done].
  - intros x m Hm Hx Hy. destruct (ho_coal _ _ Ok x m Hm Hx Hy) as [[= ->]|[= ->]]; exfalso; simplify_eq.
    apply Hbd. destruct (ho_range Ok _ _ _ Hx) as (Hr & Ha & _).
    by rewrite buddy_buddy by (lia || done).
  - intros x u Hx. by pose proof (ho_whole _ _ Ok x u Hx); simplify_eq.
Qed.

Lemma heap_ok_use bl b n :
  heap_ok (Some b) bl -> bl !! b = Some (n, false) -> n <= 6 -> heap_ok None (<[b := (n, true)]> bl).
Proof.
  intros Ok Hb Hn. split; [|..|done].
  - rewrite (sizes_same _ _ _ _ _ Hb). apply Ok.
  - intros x m Hm [[_ ?]|[Hxb Hx]]%lookup_insert_Some [[_ ?]|[Hyb Hy]]%lookup_insert_Some; [done..|].
    destruct (ho_coal _ _ Ok x m Hm Hx Hy); by simplify_eq.
  - intros x u [[<- [= ->]]|[Hxb Hx]]%lookup_insert_Some; [lia|].
    pose proof (ho_whole _ _ Ok x u Hx). by simplify_eq.
Qed.

Lemma heap_ok_release bl b n :
  heap_ok None bl -> bl !! b = Some (n, true) -> heap_ok (Some b) (<[b := (n, false)]> bl).
Proof.
  intros Ok Hb. split.
  - rewrite (sizes_same _ _ _ _ _ Hb). apply Ok.
  - intros x m Hm [[<- ?]|[Hxb Hx]]%lookup_insert_Some; [by left|].
    intros [[-> ?]|[Hyb Hy]]%lookup_insert_Some; [by right|]. by destruct (ho_coal _ _ Ok x m Hm Hx Hy).
  - intros x u [[<- [= ->]]|[Hxb Hx]]%lookup_insert_Some; [done|].
    by pose proof (ho_whole _ _ Ok x u Hx).
  - intros ? [= <-]. exists n. by rewrite lookup_insert_eq.
Qed.

Lemma heap_ok_cut bl b n :
  heap_ok (Some b) bl -> 0 <= n -> bl !! b = Some (n + 1, false) -> heap_ok (Some b) (bcut b n bl).
Proof.
  intros Ok Hn Hb. destruct (ho_range Ok _ _ _ Hb) as (Hn7 & Ha & _).
  destruct (half_facts n b Hn Ha) as (Ha1 & Ha2 & Hf & Hr & Hb' & He & Ho & Hne).
  assert (Hlk : forall x v, bcut b n bl !! x = Some v ->
    x = b \/ (x = b + bsize n /\ v = (n, false)) \/ (x <> b /\ x <> b + bsize n /\ bl !! x = Some v)).
  { unfold bcut. intros x v [[<- <-]|[Hxr [[<- <-]|[Hxb Hx]]%lookup_insert_Some]]%lookup_insert_Some; auto. }
  assert (Hbb : bcut b n bl !! b = Some (n, false)).
  { unfold bcut. by rewrite lookup_insert_ne, lookup_insert_eq by done. }
  split.
  - unfold bcut. rewrite !sizes_insert. apply shape_cut; [apply Ok|done|by eapply sizes_lookup].
  - intros x m Hm Hx Hy. destruct (Hlk _ _ Hx) as [->|[[-> [= ->]]|(Hxb & Hxr & Hx')]]; [by left|right; by rewrite <- Hb'|].
    destruct (Hlk _ _ Hy) as [->|[[E [= ->]]|(Hyb & Hyr & Hy')]]; [by right|..].
    + (* the buddy of the upper half is the lower half *)
      destruct Hxb. destruct (ho_range Ok _ _ _ Hx') as (Hr0 & Hax & _).
      rewrite Hb', <- E. symmetry. by apply buddy_buddy; [lia|].
    + destruct (ho_coal _ _ Ok x m Hm Hx' Hy') as [[= ->]|[= E]]; [done|by rewrite <- E in Hyb].
  - intros x u [->|[[-> [= <- _]]|(Hxb & Hxr & Hx')]]%Hlk; [done|lia|by apply (ho_whole _ _ Ok x u)].
  - intros ? [= <-]. eauto.
Qed.

Lemma heap_ok_join bl b n x :
  heap_ok (Some x) bl -> (x = b \/ x = b + bsize n) -> 0 <= n <= 6 -> aligned (n + 1) b ->
  bl !! b = Some (n, false) -> bl !! (b + bsize n) = Some (n, false) ->
  heap_ok (Some b) (bjoin b n bl).
Proof.
  intros Ok Hx Hn Ha Hb Hr.
  assert (Hlk : forall y v, bjoin b n bl !! y = Some v ->
    (y = b /\ v = (n + 1, false)) \/ (y <> b /\ y <> b + bsize n /\ bl !! y = Some v)).
  { unfold bjoin. intros y v [Hyr [[<- <-]|[Hyb Hy]]%lookup_insert_Some]%lookup_delete_Some; auto. }
  assert (Hkeep : forall y, Some x = Some y -> y = b \/ y = b + bsize n) by (intros y [= <-]; done).
  split.
  - unfold bjoin, sizes_of. rewrite fmap_delete, fmap_insert. simpl.
    apply shape_join; [apply Ok|done|done|by eapply sizes_lookup..].
  - intros y m Hm [[-> _]|(Hyb & Hyr & Hy)]%Hlk [[-> _]|(Hzb & Hzr & Hz)]%Hlk; [by left..|by right|].
    destruct (ho_coal _ _ Ok y m Hm Hy Hz) as [[->| ->]%Hkeep|[E|E]%Hkeep]; done.
  - intros y u [[-> _]|(Hyb & Hyr & Hy)]%Hlk; [done|].
    destruct (Hkeep y (ho_whole _ _ Ok y u Hy)); done.
  - intros ? [= <-]. exists (n + 1). unfold bjoin. rewrite lookup_delete_ne, lookup_insert_eq; [done|].
    pose proof (bsize_pos n). lia.
Qed.

Lemma heap_ok_new_page bl p :
  heap_ok None bl -> aligned 7 p -> HEAP_BASE <= p < HEAP_TOP ->
  (forall x v, bl !! x = Some v -> blk 7 x <> blk 7 p) ->
  heap_ok (Some p) (<[p := (7, false)]> bl).
Proof.
  intros Ok Ha Hp Hf. split.
  - rewrite sizes_insert. apply shape_new_page; [apply Ok|done|done|].
    intros x n [u Hx]%sizes_inv. by eapply Hf.
  - intros x m Hm [[_ E]|[Hxb Hx]]%lookup_insert_Some [[_ E']|[Hyb Hy]]%lookup_insert_Some;
      [injection E; lia..|injection E'; lia|].
    by destruct (ho_coal _ _ Ok x m Hm Hx Hy).
  - intros x u [[<- _]|[Hxb Hx]]%lookup_insert_Some; [done|]. by pose proof (ho_whole _ _ Ok x u Hx).
  - intros ? [= <-]. exists 7. by rewrite lookup_insert_eq.
Qed.

Lemma heap_ok_drop_page bl p :
  heap_ok (Some p) bl -> bl !! p = Some (7, false) -> heap_ok None (delete p bl).
Proof.
  intros Ok Hp. split; [|..|done].
  - unfold sizes_of. rewrite fmap_delete. apply shape_drop_page; [apply Ok|by eapply sizes_lookup].
  - intros x m Hm [Hxp Hx]%lookup_delete_Some [Hyp Hy]%lookup_delete_Some.
    destruct (ho_coal _ _ Ok x m Hm Hx Hy) as [[= ->]|[= E]]; done.
  - intros x u [Hxp Hx]%lookup_delete_Some. pose proof (ho_whole _ _ Ok x u Hx). by simplify_eq.
Qed.

(** Every page of a heap at rest holds a used block. *)
Lemma page_has_used bl b v :
  heap_ok None bl -> bl !! b = Some v -> exists x n, bl !! x = Some (n, true) /\ blk 7 x = blk 7 b.
Proof.
  intros Ok Hb. destruct v as [n u]. destruct (ho_range Ok _ _ _ Hb) as ([Hn0 Hn7] & _). revert b u Hb Hn7.
  pattern n. apply Zlt_0_ind; [|done]. clear n Hn0. intros n IH Hn0 b u Hb Hn7.
  destruct u; [by exists b, n|]. destruct (decide (n = 7)) as [->|Hne]; [by pose proof (ho_whole _ _ Ok _ _ Hb)|].
  destruct (ho_buddy Ok _ _ _ Hb) as (n' & u' & Hb' & Hle); [lia|].
  destruct (ho_range Ok _ _ _ Hb') as ([Hn'0 _] & _).
  assert (Hpg : blk 7 (buddy n b) = blk 7 b) by (apply (blk_mono (n + 1)); [lia|by apply buddy_blk_succ]).
  destruct (decide (n' = n)) as [->|Hlt].
  - destruct u'; [by exists (buddy n b), n|]. by destruct (ho_coal _ _ Ok b n ltac:(lia) Hb Hb').
  - destruct (IH n' ltac:(lia) _ _ Hb' ltac:(lia)) as (x & m & Hx & Hxp). exists x, m. by rewrite Hxp.
Qed.

(** ** Views of a heap: the blocks in use, the pages, the numbers of blocks *)

Definition used bl : gmap Z Z := omap (fun v : Z * bool => if v.2 then Some v.1 else None) bl.
Definition page_of (b : Z) : Z := blk 7 b * bsize 7.
Definition heap_pages bl : gset Z := set_map page_of (dom bl).
Definition page_index (b : Z) : Z := (b - HEAP_BASE) / 0x1000.

Lemma used_lookup bl b n : used bl !! b = Some n <-> bl !! b = Some (n, true).
Proof.
  unfold used. rewrite lookup_omap. destruct (bl !! b) as [[m []]|]; simpl; naive_solver.
Qed.

Lemma used_ext bl bl' :
  (forall b n, bl' !! b = Some (n, true) <-> bl !! b = Some (n, true)) -> used bl' = used bl.
Proof.
  intros E. apply map_eq. intros b. apply option_eq. intros n. by rewrite !used_lookup.
Qed.

Lemma used_set bl b n : used (<[b := (n, true)]> bl) = <[b := n]> (used bl).
Proof. unfold used. by apply omap_insert_Some. Qed.

Lemma used_unset bl b n : used (<[b := (n, false)]> bl) = delete b (used bl).
Proof. unfold used. by apply omap_insert_None. Qed.

Lemma used_cut bl b n :
  bl !! (b + bsize n) = None -> (forall m, bl !! b <> Some (m, true)) -> used (bcut b n bl) = used bl.
Proof.
  intros Hr Hb. unfold bcut. rewrite !used_unset, (delete_id (used bl)), delete_id; [done|..];
    apply eq_None_not_Some; intros [m Hm%used_lookup]; [congruence|by destruct (Hb m)].
Qed.

Lemma used_join bl b n :
  (forall m, bl !! (b + bsize n) <> Some (m, true)) -> (forall m, bl !! b <> Some (m, true)) ->
  used (bjoin b n bl) = used bl.
Proof.
  intros Hr Hb. unfold bjoin, used. rewrite omap_delete. fold (used bl).
  change (omap _ (<[b := _]> bl)) with (used (<[b := (n + 1, false)]> bl)).
  rewrite used_unset, (delete_id (used bl)), delete_id; [done|..];
    apply eq_None_not_Some; intros [m Hm%used_lookup]; [by destruct (Hr m)|by destruct (Hb m)].
Qed.

Lemma elem_of_heap_pages bl p : p ∈ heap_pages bl <-> exists b v, bl !! b = Some v /\ p = page_of b.
Proof.
  unfold heap_pages. rewrite elem_of_map. split.
  - intros (b & -> & [v Hv]%elem_of_dom). eauto.
  - intros (b & v & Hv & ->). exists b. split; [done|]. by apply elem_of_dom.
Qed.

Lemma pages_dom bl bl' : dom bl' = dom bl -> heap_pages bl' = heap_pages bl.
Proof. unfold heap_pages. by intros ->. Qed.

Lemma pages_same bl b v v' : bl !! b = Some v -> heap_pages (<[b := v']> bl) = heap_pages bl.
Proof. intros Hb. apply pages_dom. rewrite dom_insert_L. apply elem_of_dom_2 in Hb. set_solver. Qed.

Lemma page_of_half n b : 0 <= n <= 6 -> aligned (n + 1) b -> page_of (b + bsize n) = page_of b.
Proof.
  intros Hn Ha. destruct (half_facts n b ltac:(lia) Ha) as (_ & _ & _ & Hr & _).
  unfold page_of. f_equal. apply (blk_mono (n + 1)); [lia|]. rewrite Hr. apply buddy_blk_succ. lia.
Qed.

Lemma pages_cut bl b n v :
  0 <= n <= 6 -> aligned (n + 1) b -> bl !! b = Some v -> heap_pages (bcut b n bl) = heap_pages bl.
Proof.
  intros Hn Ha Hb. unfold heap_pages, bcut. rewrite !dom_insert_L, !set_map_union_L, !set_map_singleton_L.
  rewrite page_of_half by done. apply elem_of_dom_2 in Hb.
  apply (elem_of_map_2 (D := gset Z) page_of) in Hb. set_solver.
Qed.

Lemma pages_join bl b n v v' :
  0 <= n <= 6 -> aligned (n + 1) b -> bl !! b = Some v -> bl !! (b + bsize n) = Some v' ->
  heap_pages (bjoin b n bl) = heap_pages bl.
Proof.
  intros Hn Ha Hb Hr. pose proof (page_of_half n b Hn Ha) as Hp. pose proof (bsize_pos n ltac:(lia)).
  apply set_eq. intros p. rewrite !elem_of_heap_pages. unfold bjoin. split.
  - intros (x & w & [Hxr [[<- <-]|[Hxb Hx]]%lookup_insert_Some]%lookup_delete_Some & ->); eauto.
  - intros (x & w & Hx & ->). destruct (decide (x = b)) as [->|Hxb];
      [|destruct (decide (x = b + bsize n)) as [->|Hxr]].
    + exists b, (n + 1, false). rewrite lookup_delete_ne, lookup_insert_eq by lia. done.
    + exists b, (n + 1, false). rewrite lookup_delete_ne, lookup_insert_eq by lia. done.
    + exists x, w. by rewrite lookup_delete_ne, lookup_insert_ne by done.
Qed.

(** The number of blocks with a property. *)
Definition count_if (f : Z -> Z * bool -> bool) bl : Z :=
  Z.of_nat (size (filter (fun bv : Z * (Z * bool) => Is_true (f bv.1 bv.2)) bl)).

Lemma count_new f bl b v : bl !! b = None -> count_if f (<[b := v]> bl) = count_if f bl + Z.b2z (f b v).
Proof.
  intros Hb. unfold count_if. destruct (f b v) eqn:E.
  - rewrite map_filter_insert_True by (simpl; by rewrite E).
    rewrite map_size_insert_None; [simpl; lia|]. apply map_lookup_filter_None. by left.
  - rewrite map_filter_insert_not'; [simpl; lia|cbn|intros v' Hv'; congruence]. rewrite E. intros [].
Qed.

Lemma count_delete f bl b v : bl !! b = Some v -> count_if f (delete b bl) = count_if f bl - Z.b2z (f b v).
Proof.
  intros Hb. rewrite <- (insert_delete_id bl b v Hb) at 2.
  rewrite count_new by apply lookup_delete_eq. lia.
Qed.

Lemma count_update f bl b v v' :
  bl !! b = Some v -> count_if f (<[b := v']> bl) = count_if f bl - Z.b2z (f b v) + Z.b2z (f b v').
Proof.
  intros Hb. rewrite <- insert_delete_eq, count_new by apply lookup_delete_eq.
  by rewrite (count_delete f bl b v Hb).
Qed.

Lemma count_cut f bl b n v :
  0 <= n -> bl !! b = Some v -> bl !! (b + bsize n) = None ->
  count_if f (bcut b n bl) =
    count_if f bl - Z.b2z (f b v) + Z.b2z (f b (n, false)) + Z.b2z (f (b + bsize n) (n, false)).
Proof.
  intros Hn Hb Hr. pose proof (bsize_pos n Hn). unfold bcut.
  rewrite count_new by (rewrite lookup_insert_ne; [done|lia]). by rewrite (count_update f bl b v).
Qed.

Lemma count_join f bl b n v v' :
  0 <= n -> bl !! b = Some v -> bl !! (b + bsize n) = Some v' ->
  count_if f (bjoin b n bl) =
    count_if f bl - Z.b2z (f b v) + Z.b2z (f b (n + 1, false)) - Z.b2z (f (b + bsize n) v').
Proof.
  intros Hn Hb Hr. pose proof (bsize_pos n Hn). unfold bjoin.
  rewrite (count_delete f _ _ v') by (rewrite lookup_insert_ne; [done|lia]). by rewrite (count_update f bl b v).
Qed.

Lemma count_ext f g bl :
  (forall b v, bl !! b = Some v -> f b v = g b v) -> count_if f bl = count_if g bl.
Proof.
  intros E. unfold count_if. do 2 f_equal. apply map_filter_ext. intros b v Hv. simpl. by rewrite (E b v Hv).
Qed.

Lemma count_zero f bl : (forall b v, bl !! b = Some v -> f b v = false) -> count_if f bl = 0.
Proof.
  intros E. unfold count_if. rewrite map_empty_filter_2; [done|].
  intros b v Hv HP%Is_true_true. cbn in HP. by rewrite (E b v Hv) in HP.
Qed.
