(* ===== verification/KmallocTest.v ===== *)
(** The self-test the kernel runs at boot (kernel/memory/kmalloc.cpp, test_kmalloc).

    [tst] holds the static arrays of the test. The arrays [x_size] and
    [x_sizeno] have [bound] entries, 30 in the source; an access outside of an
    array is [BadAccess]. *)

From S2P Require Import Prelude Spinlock ListSpec Util PhysMem VirtMem VirtMap VirtProps Kmalloc.

(** * Definitions *)

Record tst := mkTst {
  tk : ks mm;
  tx : gmap Z Z;          (* x[100]; bh[i] is x[i] - 4 at the time it was set *)
  tbh : gmap Z Z;
  tsize : gmap Z Z;       (* x_size *)
  tsizeno : gmap Z Z;     (* x_sizeno *)
}.

Section test.
Context (bound : Z).

Definition on_k {A} (m : M (ks mm) A) : M tst A :=
  zoom tk (fun k t => mkTst k (tx t) (tbh t) (tsize t) (tsizeno t)) m.
Definition km (size : Z) : M tst Z := on_k (kmalloc 0 size).
Definition kf (i : Z) : M tst unit := t ← get; v ← deref (tx t !! i); on_k (kfree v).
Definition x_get (i : Z) : M tst Z := t ← get; deref (tx t !! i).
Definition x_set (i v : Z) : M tst unit :=
  ASSERT (i <? 100) ;;
  modify (fun t => mkTst (tk t) (<[i := v]> (tx t)) (tbh t) (tsize t) (tsizeno t)).
Definition bh_get (i : Z) : M tst Z := t ← get; deref (tbh t !! i).
Definition bh_set (i : Z) : M tst unit :=
  v ← x_get i;
  modify (fun t => mkTst (tk t) (tx t) (<[i := v - sizeof_BlockHeader]> (tbh t)) (tsize t) (tsizeno t)).
Definition in_bound (i : Z) : M tst unit := if i <? bound then mret tt else stop BadAccess.
Definition size_set (i v : Z) : M tst unit :=
  in_bound i ;;
  modify (fun t => mkTst (tk t) (tx t) (tbh t) (<[i := v]> (tsize t)) (tsizeno t)).
Definition sizeno_set (i v : Z) : M tst unit :=
  in_bound i ;;
  modify (fun t => mkTst (tk t) (tx t) (tbh t) (tsize t) (<[i := v]> (tsizeno t))).
Definition sizes_clear : M tst unit :=
  modify (fun t => mkTst (tk t) (tx t) (tbh t) ∅ ∅).

(** ASSERT( x_size[j] == b); ASSERT( x_sizeno[j] == BlockHeader::bh(x[j])->sizeno); *)
Definition check_size (j b : Z) : M tst unit :=
  in_bound j ;;
  t ← get; ASSERT (default 0 (tsize t !! j) =? b) ;;
  v ← x_get j; n ← on_k (sizeno (v - sizeof_BlockHeader));
  ASSERT (default 0 (tsizeno t !! j) =? n).

(** ASSERT( x[i] == kmalloc(b) ); *)
Definition again (i b : Z) : M tst unit :=
  v ← x_get i; w ← km b; ASSERT (v =? w).

Definition is_free_at (i : Z) : M tst bool :=
  b ← bh_get i; w ← on_k (hd_rd b); mret (is_free_word w).
Definition ph_at (i : Z) : M tst PageHeader := b ← bh_get i; on_k (ph_rd b).
Definition ph_no (i : Z) : M tst PageHeader :=
  t ← get; mret (default ph_empty (page_headers (tk t) !! i)).

(** do { [skip]; kfree(x[i]); } while (--i > 0); *)
Fixpoint free_down (skip : Z -> bool) (fuel : nat) (i : Z) : M tst unit :=
  match fuel with
  | O => stop OutOfFuel
  | S f =>
      let i := if skip i then i - 1 else i in
      kf i ;;
      if 0 <? i - 1 then free_down skip f (i - 1) else mret tt
  end.
(** for ( ; i < hi ; ) { if (i == skip) i++; ASSERT( x[++i] = kmalloc(1) ); } *)
Fixpoint malloc_up (skip : Z) (hi : Z) (fuel : nat) (i : Z) : M tst Z :=
  match fuel with
  | O => stop OutOfFuel
  | S f =>
      if i <? hi then
        let i := if i =? skip then i + 1 else i in
        v ← km 1; x_set (i + 1) v ;; ASSERT (negb (v =? 0)) ;;
        malloc_up skip hi f (i + 1)
      else mret i
  end.
Definition test_fuel : nat := 32.

Definition test1 : M tst unit :=
  iterM (fun i =>
    v ← km 1; x_set i v ;; bh_set i ;; kf i ;; again i 1 ;;
    b ← bh_get i; no ← on_k (get_no b); ASSERT (no =? i - 1) ;;
    f ← is_free_at i; ASSERT (negb f) ;;
    h ← ph_at i; ASSERT (ph_get (count_used h) 0 =? i)) (seqZ 1 5) ;;
  kf 3 ;;
  f ← is_free_at 3; ASSERT f ;;
  b3 ← bh_get 3; no ← on_k (get_no b3); ASSERT (no =? 2) ;;
  h ← ph_at 3; ASSERT (ph_get (count_used h) 0 =? 4) ;; ASSERT (ph_get (count h) 0 =? 6) ;;
  r ← on_k (right b3); wr ← on_k (hd_rd r); ASSERT (negb (is_free_word wr)) ;;
  l ← on_k (left b3); wl ← on_k (hd_rd l); ASSERT (negb (is_free_word wl)) ;;
  again 3 1 ;;
  kf 1 ;; again 1 1 ;;
  kf 5 ;; again 5 1 ;;
  free_down (fun _ => false) test_fuel 5 ;;
  _ ← malloc_up (-1) 5 test_fuel 0;
  iterM (fun i =>
    v ← km (i * 7); x_set i v ;; bh_set i ;; kf i ;; again i (i * 7)) (seqZ 6 5) ;;
  free_down (fun i => (i =? 3) || (i =? 9)) test_fuel 10 ;;
  i ← malloc_up 2 5 test_fuel 0;
  _ ← malloc_up 8 10 test_fuel i;
  free_down (fun _ => false) test_fuel 10.

(** The frees and mallocs of the blocks [j] in a residue set. *)
Definition free_some (p : Z -> bool) (lo hi : Z) : M tst unit :=
  iterM (fun j => when (p j) (kf j)) (seqZ lo (hi - lo)).
Definition malloc_some (p : Z -> bool) (size : Z -> Z) (lo hi : Z) : M tst unit :=
  iterM (fun j => when (p j) (v ← km (size j); x_set j v ;; check_size j (size j))) (seqZ lo (hi - lo)).
Definition mod5_23 (j : Z) : bool := (j mod 5 =? 2) || (j mod 5 =? 3).
Definition mod5_12 (j : Z) : bool := (j mod 5 =? 1) || (j mod 5 =? 2).
(** switch (j % 3) with its breaks *)
Definition size3 (j : Z) : Z := if j mod 3 =? 0 then j / 5 else if j mod 3 =? 1 then 45 else j * 11.

Definition alloc_free_alloc (size : Z -> Z) (i : Z) : M tst unit :=
  v ← km (size i); x_set i v ;; bh_set i ;;
  size_set i (size i) ;;
  n ← on_k (sizeno (v - sizeof_BlockHeader)); sizeno_set i n ;;
  kf i ;; again i (size i).

(** memcmp of the counters: [c] and [cu] are both entries of the saved arrays. *)
Definition same_counts (c cu : PH_count) (h : PageHeader) : bool :=
  bool_decide (count h = c) && bool_decide (count_used h = cu).

Definition test2 : M tst unit :=
  sizes_clear ;;
  iterM (alloc_free_alloc (fun i => i * 11)) (seqZ 1 30) ;;
  h0 ← ph_no 0;
  free_some mod5_23 7 23 ;;
  malloc_some mod5_23 (fun j => j * 11) 7 23 ;;
  h ← ph_at 7; ASSERT (same_counts (count h0) (count_used h0) h) ;;
  free_some mod5_12 7 23 ;;
  (* every case of the switch falls through to the last *)
  malloc_some mod5_12 (fun j => j * 11) 7 23 ;;
  h ← ph_at 7; ASSERT (same_counts (count h0) (count_used h0) h) ;;
  free_down (fun _ => false) test_fuel 30.

Definition check_pages (h0 h1 : PageHeader) : M tst unit :=
  a ← ph_no 0; b ← ph_no 1;
  ASSERT (same_counts (count h0) (count_used h0) a) ;;
  ASSERT (same_counts (count h1) (count_used h1) b).

Definition test3 : M tst (PageHeader * PageHeader) :=
  iterM (alloc_free_alloc size3) (seqZ 1 30) ;;
  h0 ← ph_no 0; h1 ← ph_no 1;
  free_some mod5_23 3 19 ;;
  malloc_some mod5_23 size3 3 19 ;;
  check_pages h0 h1 ;;
  free_some mod5_12 3 19 ;;
  malloc_some mod5_12 size3 3 19 ;;
  check_pages h0 h1 ;;
  mret (h0, h1).

Definition compare_total_count (h0 h1 : PageHeader) : M tst unit :=
  a ← ph_no 0; b ← ph_no 1;
  iterM (fun i => ASSERT (ph_get (count h0) i + ph_get (count h1) i =?
                          ph_get (count a) i + ph_get (count b) i)) (seqZ 0 7).

Definition every (_ : Z) : bool := true.

Definition test4 (h0 h1 : PageHeader) : M tst unit :=
  iterM (fun lo => free_some mod5_23 lo 30 ;; malloc_some mod5_23 size3 lo 30 ;; check_pages h0 h1)
    (seqZ 1 29) ;;
  iterM (fun lo => free_some every lo 30 ;; malloc_some every size3 lo 30 ;;
                   compare_total_count h0 h1 ;; check_pages h0 h1) (seqZ 1 29) ;;
  iterM (fun k => let hi := 30 - k in
                  free_some every 1 hi ;; malloc_some every size3 1 hi ;;
                  compare_total_count h0 h1) (seqZ 0 29) ;;
  free_down (fun _ => false) test_fuel 30 ;;
  a ← ph_no 0; b ← ph_no 1;
  ASSERT (same_counts (count a) (count_used a) b) ;;
  on_k (modify (fun k => mkKs (words k) (lists k) (<[0 := ph_empty]> (page_headers k)) (kmalloc_lock k) (env k))) ;;
  a ← ph_no 0; b ← ph_no 1;
  ASSERT (same_counts (count a) (count_used a) b) ;;
  t ← get; w ← deref (tmp_pages (env (tk t)) !! 0%nat);
  ASSERT (Z.land w 0x3 =? 0).

Definition test_kmalloc : M tst unit :=
  test1 ;; test2 ;; '(h0, h1) ← test3; test4 h0 h1.
End test.

(** kmalloc_init, then the test, on a machine with [n] free frames. *)
Definition boot_test (bound n : Z) : outcome tst unit :=
  (on_k kmalloc_init ;; test_kmalloc bound)
    (mkTst (mkKs ∅ (mkLstore ∅ ∅) ∅ 1 (demo_mm 5 n)) ∅ ∅ ∅ ∅).

(** The heap after the test: no block in any list, every counter at zero, and
    the free frames back in the page allocator. *)
Definition all_returned (n : Z) (o : outcome tst unit) : bool :=
  match o with
  | Done _ t =>
      let k := tk t in
      forallb (fun i => ls_size (lists k) i =? 0) (seqZ 0 7) &&
      forallb (fun p => same_counts ph_zero ph_zero p.2) (map_to_list (page_headers k)) &&
      bool_decide (words k = ∅) &&
      (fl_count (phys (env k)) =? fl_count (phys (demo_mm 5 n))) &&
      (kmalloc_lock k =? 0)
  | Stop _ => false
  end.

(** * Properties *)

(** The allocator's own self-test (kernel/memory/kmalloc.cpp, 250-690), run on
    the model after kmalloc_init with eight free frames: with arrays of 31 entries
    for [x_size] and [x_sizeno] all of its assertions hold, and it leaves every
    list empty, every counter zero, the page frames returned and the lock free;
    with the 30 entries that are declared, the first loop of test2 already stores
    out of bounds (index 30). *)
Theorem self_test_needs_31_entries :
  all_returned 8 (boot_test 31 8) = true /\ boot_test 30 8 = Stop BadAccess.
Proof. split; vm_compute; reflexivity. Qed.
