(* ===== verification/KmallocProps.v ===== *)
(** The heap of kernel/memory/kmalloc.cpp implements the abstract heap of Buddy.

    [PageSource] is what the allocator needs of the temporary pages; VirtMap's
    lemmas discharge it for the kernel's virtual memory at the end. [link] relates
    the header words, the free lists and the page counters of a state to an
    abstract heap and the block in hand; every function of kmalloc.cpp keeps it. *)

From S2P Require Import Prelude Spinlock ListSpec PhysMem VirtMem VirtMap Kmalloc Buddy.

(** ** Pages *)

Definition is_heap_page (p : Z) : Prop := aligned 7 p /\ HEAP_BASE <= p < HEAP_TOP.

Class PageSource (S : Type) `{!TmpPages S} := {
  (** the pages the heap has got and not given back *)
  ps_ok : gset Z -> S -> Prop;
  ps_cpu P s c : ps_ok P s -> ps_ok P (set_cpu c s);
  ps_alloc P s : ps_ok P s -> cpu_ok (cpu_of s) -> IF (cpu_of s) = false ->
    (exists e o va s', tp_alloc s = Done (e, o, va) s' /\ e < 0 /\
       ps_ok P s' /\ cpu_equiv (cpu_of s') (cpu_of s)) \/
    (exists e o p s', tp_alloc s = Done (e, o, kaddr2va p) s' /\ 0 <= e /\ is_heap_page p /\ p ∉ P /\
       ps_ok ({[p]} ∪ P) s' /\ cpu_equiv (cpu_of s') (cpu_of s));
  ps_free P s p : ps_ok P s -> cpu_ok (cpu_of s) -> IF (cpu_of s) = false -> p ∈ P -> is_heap_page p ->
    exists r s', tp_free (kaddr2va p) s = Done r s' /\ ps_ok (P ∖ {[p]}) s' /\ cpu_equiv (cpu_of s') (cpu_of s);
}.

(** ** Addresses *)

Lemma kaddr_heap b : HEAP_BASE <= b < HEAP_TOP ->
  kaddr2va b = b + MMAP_KERNEL_BASE /\ va2kaddr (kaddr2va b) = b.
Proof.
  unfold HEAP_BASE, HEAP_TOP. intros Hb.
  assert (E : kaddr2va b = b + MMAP_KERNEL_BASE)
    by (unfold kaddr2va; apply u32_small; unfold MMAP_KERNEL_BASE; lia).
  split; [done|]. rewrite E. unfold va2kaddr.
  replace (b + MMAP_KERNEL_BASE - MMAP_KERNEL_BASE) with b by lia. apply u32_small. lia.
Qed.

Lemma block_page_addr_heap p : is_heap_page p -> block_page_addr p = kaddr2va p.
Proof.
  intros [Ha Hr]. unfold block_page_addr. destruct (kaddr_heap p Hr) as [-> _].
  change 0xFFFFFFFF with (2 ^ 32 - 1). change 0xFFF with (2 ^ 12 - 1).
  unfold HEAP_BASE, HEAP_TOP, MMAP_KERNEL_BASE in *.
  rewrite land_clear_low by (unfold fits; lia).
  unfold aligned in Ha. change (bsize 7) with 4096 in Ha. change (2 ^ 12) with 4096.
  Z.to_euclidean_division_equations. lia.
Qed.

Lemma page_index_range b : HEAP_BASE <= b < HEAP_TOP ->
  u32 (kaddr2va b - MMAP_KERNEL_TMP_PAGE_BASE) / 0x1000 = page_index b /\ 0 <= page_index b < 1024.
Proof.
  intros Hb. destruct (kaddr_heap b Hb) as [-> _]. unfold page_index, HEAP_BASE, HEAP_TOP in *.
  unfold MMAP_KERNEL_BASE, MMAP_KERNEL_TMP_PAGE_BASE. rewrite u32_small by lia.
  replace (b + 3221225472 - 3489660928) with (b - 268435456) by lia.
  split; [done|]. Z.to_euclidean_division_equations. lia.
Qed.

Lemma page_index_blk x y :
  HEAP_BASE <= x -> HEAP_BASE <= y -> page_index x = page_index y <-> blk 7 x = blk 7 y.
Proof.
  unfold page_index, blk, HEAP_BASE. change (bsize 7) with 4096. intros.
  Z.to_euclidean_division_equations. lia.
Qed.

(** ** Header words *)

Definition hdr (n : Z) (u : bool) : Z := Z.lor (Z.shiftl n 14) (if u then BlockFlag_used else BlockFlag_free).

Record hdr_ok n u : Prop := {
  hdr_sizeno : sizeno_of (hdr n u) = n;
  hdr_flags : flags_of (hdr n u) = if u then BlockFlag_used else BlockFlag_free;
  hdr_with_used : with_used (hdr n u) = hdr n true;
  hdr_with_free : with_free (hdr n u) = hdr n false;
  hdr_is_free : is_free_word (hdr n u) = negb u;
  hdr_up : n < 7 -> with_sizeno (n + 1) (hdr n u) = hdr (n + 1) u;
  hdr_down : 0 < n -> with_sizeno (n - 1) (hdr n u) = hdr (n - 1) u;
}.

Lemma hdr_facts n u : 0 <= n <= 7 -> hdr_ok n u.
Proof.
  intros Hn. assert (Hc : n = 0 \/ n = 1 \/ n = 2 \/ n = 3 \/ n = 4 \/ n = 5 \/ n = 6 \/ n = 7) by lia.
  destruct_or! Hc; subst n; destruct u; split; intros; try reflexivity; exfalso; lia.
Qed.

(** Whatever a fresh page holds, its first word is set right. *)
Lemma hdr_init g : with_free (with_sizeno (LAST_SIZENO + 1) g) = hdr 7 false.
Proof.
  unfold with_free. replace (sizeno_of (with_sizeno (LAST_SIZENO + 1) g)) with 7; [done|].
  unfold with_sizeno, sizeno_of, flags_of. rewrite Z.shiftr_lor, Z.shiftr_land, Z.land_lor_distr_l.
  rewrite <- Z.land_assoc. change (Z.land (Z.shiftr 0xFFFC3FFF 14) 15) with 0. by rewrite Z.land_0_r.
Qed.

(** ** Counters *)

Definition in_page (j n b : Z) (v : Z * bool) : bool := (page_index b =? j) && (v.1 =? n).
Definition used_in (j n b : Z) (v : Z * bool) : bool := in_page j n b v && v.2.

(** The bit fields hold the numbers [x] of blocks and [xu] of used blocks. *)
Definition holds (h : PageHeader) (x xu : Z -> Z) : Prop :=
  length (count h) = 7%nat /\ length (count_used h) = 7%nat /\
  forall n, 0 <= n <= 6 ->
    ph_get (count h) n = x n mod 2 ^ ph_width n /\ ph_get (count_used h) n = xu n mod 2 ^ ph_width n.

Lemma ph_width_pos n : 0 < 2 ^ ph_width n.
Proof. unfold ph_width. destruct (n <? 4); lia. Qed.

Lemma ph_get_add c s i n : length c = 7%nat -> 0 <= s -> 0 <= n <= 6 ->
  ph_get (ph_add s i c) n = if s =? n then (ph_get c n + i) mod 2 ^ ph_width n else ph_get c n.
Proof.
  intros Hl Hs Hn. unfold ph_get, ph_add, PH_count in *. destruct (Z.ltb_spec 6 n); [lia|].
  destruct (Z.ltb_spec 6 s); [by destruct (Z.eqb_spec s n); [lia|]|].
  destruct (Z.eqb_spec s n) as [->|Hne].
  - destruct (lookup_lt_is_Some_2 c (Z.to_nat n)) as [v Hv]; [lia|].
    by rewrite list_lookup_alter_eq, Hv.
  - rewrite list_lookup_alter_ne by lia. done.
Qed.

Lemma ph_add_length s i c : length (ph_add s i c) = length c.
Proof. unfold ph_add, PH_count in *. destruct (6 <? s); [done|]. apply length_alter. Qed.

Lemma holds_empty : holds ph_empty (fun _ => 0) (fun _ => 0).
Proof.
  split_and!; [done..|]. intros n Hn. rewrite Z.mod_0_l by (pose proof (ph_width_pos n); lia).
  unfold ph_get, ph_empty, ph_zero, PH_count; cbn [count count_used]. destruct (Z.ltb_spec 6 n); [lia|].
  change (7%nat) with (Z.to_nat 7). rewrite lookup_replicate_2 by lia. done.
Qed.

Lemma holds_ext h x xu y yu :
  holds h x xu -> (forall n, 0 <= n <= 6 -> x n = y n) -> (forall n, 0 <= n <= 6 -> xu n = yu n) -> holds h y yu.
Proof.
  intros (H1 & H2 & H) E Eu. split_and!; [done..|]. intros n Hn. rewrite <- E, <- Eu by done. by apply H.
Qed.

Lemma holds_add_count h x xu s i :
  holds h x xu -> 0 <= s -> holds (add_to_count s i h) (fun n => x n + if s =? n then i else 0) xu.
Proof.
  intros (H1 & H2 & H) Hs. split_and!; cbn [add_to_count count count_used]; [by rewrite ph_add_length|done|].
  intros n Hn. destruct (H n Hn) as [E Eu]. split; [|done]. rewrite ph_get_add, E by done.
  destruct (s =? n); [apply Zplus_mod_idemp_l|by rewrite Z.add_0_r].
Qed.

Lemma holds_add_used h x xu s i :
  holds h x xu -> 0 <= s -> holds (add_to_used s i h) x (fun n => xu n + if s =? n then i else 0).
Proof.
  intros (H1 & H2 & H) Hs. split_and!; cbn [add_to_used count count_used]; [done|by rewrite ph_add_length|].
  intros n Hn. destruct (H n Hn) as [E Eu]. split; [done|]. rewrite ph_get_add, Eu by done.
  destruct (s =? n); [apply Zplus_mod_idemp_l|by rewrite Z.add_0_r].
Qed.

Definition ph_at (ph : gmap Z PageHeader) (j : Z) : PageHeader := default ph_empty (ph !! j).

Definition counters (bl : heap) (ph : gmap Z PageHeader) : Prop := forall j, 0 <= j < 1024 ->
  holds (ph_at ph j) (fun n => count_if (in_page j n) bl) (fun n => count_if (used_in j n) bl).

Lemma ph_at_insert ph j h : ph_at (<[j := h]> ph) j = h.
Proof. unfold ph_at. by rewrite lookup_insert_eq. Qed.

Lemma counters_upd bl bl' ph j h' :
  counters bl ph ->
  holds h' (fun n => count_if (in_page j n) bl') (fun n => count_if (used_in j n) bl') ->
  (forall j' n, j' <> j -> count_if (in_page j' n) bl' = count_if (in_page j' n) bl) ->
  (forall j' n, j' <> j -> count_if (used_in j' n) bl' = count_if (used_in j' n) bl) ->
  counters bl' (<[j := h']> ph).
Proof.
  intros Hc Hh E Eu j' Hj'. destruct (decide (j' = j)) as [->|Hne].
  - by rewrite ph_at_insert.
  - unfold ph_at. rewrite lookup_insert_ne by done. eapply holds_ext; [by apply Hc|..]; intros n _; [by rewrite E|by rewrite Eu].
Qed.

(** The changes of the counters that go with the changes of the heap. *)
Lemma counters_cut bl ph b n :
  counters bl ph -> 0 <= n -> bl !! b = Some (n + 1, false) -> bl !! (b + bsize n) = None ->
  page_index (b + bsize n) = page_index b -> 0 <= page_index b < 1024 ->
  counters (bcut b n bl) (<[page_index b := add_to_count n 2 (add_to_count (n + 1) (-1) (ph_at ph (page_index b)))]> ph).
Proof.
  intros Hc Hn Hb Hr Hp Hj. apply (counters_upd bl); [done|..].
  - eapply holds_ext; [apply holds_add_count; [apply holds_add_count; [by apply Hc|lia]|lia]|..]; intros m Hm; simpl.
    + rewrite (count_cut _ _ _ _ _ Hn Hb Hr). unfold in_page; cbn [fst]. rewrite Hp, Z.eqb_refl.
      destruct (n + 1 =? m) eqn:E1, (n =? m) eqn:E2; cbn; lia.
    + rewrite (count_cut _ _ _ _ _ Hn Hb Hr). unfold used_in; cbn [snd]. rewrite !andb_false_r. cbn. lia.
  - intros j' m Hne. rewrite (count_cut _ _ _ _ _ Hn Hb Hr). unfold in_page. rewrite Hp.
    rewrite (proj2 (Z.eqb_neq (page_index b) j')) by done. cbn. lia.
  - intros j' m Hne. rewrite (count_cut _ _ _ _ _ Hn Hb Hr). unfold used_in, in_page. rewrite Hp.
    rewrite (proj2 (Z.eqb_neq (page_index b) j')) by done. cbn. lia.
Qed.

Lemma counters_join bl ph b n j :
  counters bl ph -> 0 <= n -> bl !! b = Some (n, false) -> bl !! (b + bsize n) = Some (n, false) ->
  page_index (b + bsize n) = j -> page_index b = j -> 0 <= j < 1024 ->
  counters (bjoin b n bl) (<[j := add_to_count (n + 1) 1 (add_to_count n (-2) (ph_at ph j))]> ph).
Proof.
  intros Hc Hn Hb Hr Hp <- Hj. apply (counters_upd bl); [done|..].
  - eapply holds_ext; [apply holds_add_count; [apply holds_add_count; [by apply Hc|lia]|lia]|..]; intros m Hm; simpl.
    + rewrite (count_join _ _ _ _ _ _ Hn Hb Hr). unfold in_page; cbn [fst]. rewrite Hp, Z.eqb_refl.
      destruct (n + 1 =? m) eqn:E1, (n =? m) eqn:E2; cbn; lia.
    + rewrite (count_join _ _ _ _ _ _ Hn Hb Hr). unfold used_in; cbn [snd]. rewrite !andb_false_r. cbn. lia.
  - intros j' m Hne. rewrite (count_join _ _ _ _ _ _ Hn Hb Hr). unfold in_page. rewrite Hp.
    rewrite (proj2 (Z.eqb_neq (page_index b) j')) by done. cbn. lia.
  - intros j' m Hne. rewrite (count_join _ _ _ _ _ _ Hn Hb Hr). unfold used_in, in_page. rewrite Hp.
    rewrite (proj2 (Z.eqb_neq (page_index b) j')) by done. cbn. lia.
Qed.

Lemma counters_flag bl ph b n u :
  counters bl ph -> 0 <= n -> bl !! b = Some (n, negb u) -> 0 <= page_index b < 1024 ->
  counters (<[b := (n, u)]> bl)
    (<[page_index b := add_to_used n (if u then 1 else -1) (ph_at ph (page_index b))]> ph).
Proof.
  intros Hc Hn Hb Hj. apply (counters_upd bl); [done|..].
  - eapply holds_ext; [apply holds_add_used; [by apply Hc|lia]|..]; intros m Hm; simpl.
    + rewrite (count_update _ _ _ _ _ Hb). unfold in_page; cbn [fst]. lia.
    + rewrite (count_update _ _ _ _ _ Hb). unfold used_in, in_page; cbn [fst snd]. rewrite Z.eqb_refl.
      destruct (n =? m), u; cbn; lia.
  - intros j' m Hne. rewrite (count_update _ _ _ _ _ Hb). unfold in_page; cbn [fst]. lia.
  - intros j' m Hne. rewrite (count_update _ _ _ _ _ Hb). unfold used_in, in_page.
    rewrite (proj2 (Z.eqb_neq (page_index b) j')) by done. cbn. lia.
Qed.

(** A page without blocks. *)
Lemma counters_new_page bl ph p :
  counters bl ph -> bl !! p = None -> (forall x v, bl !! x = Some v -> page_index x <> page_index p) ->
  counters (<[p := (7, false)]> bl) (<[page_index p := ph_empty]> ph).
Proof.
  intros Hc Hp Hf. assert (Hn : forall f, f p (7, false) = false -> count_if f (<[p := (7, false)]> bl) = count_if f bl).
  { intros f Hfp. rewrite count_new, Hfp by done. cbn. lia. }
  assert (Hz : forall n, in_page (page_index p) n p (7, false) = false \/ n = 7).
  { intros n. unfold in_page; cbn [fst]. destruct (Z.eqb_spec 7 n); [by right|left; apply andb_false_r]. }
  apply (counters_upd bl); [done|..].
  - eapply holds_ext; [apply holds_empty|..]; intros n Hn6; simpl; symmetry; rewrite Hn.
    + apply count_zero. intros x v Hx. unfold in_page. rewrite (proj2 (Z.eqb_neq _ _)); [done|by eapply Hf].
    + destruct (Hz n) as [| ->]; [done|lia].
    + apply count_zero. intros x v Hx. unfold used_in, in_page. rewrite (proj2 (Z.eqb_neq _ _)); [done|by eapply Hf].
    + unfold used_in. apply andb_false_r.
  - intros j n Hne. apply Hn. unfold in_page. rewrite (proj2 (Z.eqb_neq _ _)); done.
  - intros j n Hne. apply Hn. unfold used_in. apply andb_false_r.
Qed.

Lemma counters_drop_page bl ph p : counters bl ph -> bl !! p = Some (7, false) -> counters (delete p bl) ph.
Proof.
  intros Hc Hp j Hj. eapply holds_ext; [by apply Hc|..]; intros n Hn; rewrite (count_delete _ _ _ _ Hp).
  - unfold in_page; cbn [fst]. rewrite (proj2 (Z.eqb_neq 7 n)) by lia. rewrite andb_false_r. cbn. lia.
  - unfold used_in. rewrite andb_false_r. cbn. lia.
Qed.

(** ** The state and the abstract heap *)

Record link {S} (hand : option Z) (bl : heap) (k : ks S) : Prop := {
  lk_word : forall b n u, bl !! b = Some (n, u) -> words k !! b = Some (hdr n u);
  lk_wf : ls_wf (lists k);
  lk_list : forall b i, b ∈ ls_get (lists k) i <-> bl !! b = Some (i, false) /\ hand <> Some b;
  lk_count : counters bl (page_headers k);
}.

(** The next command of a run is known. *)
Ltac go H := rewrite (bind_done _ _ _ _ _ H).

Section ops.
Context {S : Type} `{!TmpPages S}.
Implicit Types k : ks S.

(** Only the words, the lists and the counters differ. *)
Definition same_env k k' : Prop := env k' = env k /\ kmalloc_lock k' = kmalloc_lock k.

#[local] Instance same_env_preorder : PreOrder same_env.
Proof. split; [done|]. intros k1 k2 k3 [] []. split; congruence. Qed.

Lemma hd_rd_run k b w : words k !! b = Some w -> hd_rd b k = Done w k.
Proof. intros Hw. unfold hd_rd. m_unfold. by rewrite Hw. Qed.

Lemma sizeno_run k b n u : words k !! b = Some (hdr n u) -> 0 <= n <= 7 -> sizeno b k = Done n k.
Proof.
  intros Hw Hn. unfold sizeno. rewrite (bind_done _ _ _ _ _ (hd_rd_run k b _ Hw)).
  by rewrite (hdr_sizeno _ _ (hdr_facts n u Hn)).
Qed.

Lemma block_size_run k b n u : words k !! b = Some (hdr n u) -> 0 <= n <= 7 -> block_size b k = Done (bsize n) k.
Proof.
  intros Hw Hn. unfold block_size. rewrite (bind_done _ _ _ _ _ (sizeno_run k b n u Hw Hn)).
  unfold bsize. rewrite Z.shiftl_mul_pow2, Z.add_comm by lia. by rewrite Z.mul_1_l.
Qed.

Lemma bsize_le n : 0 <= n <= 7 -> 32 <= bsize n <= 4096.
Proof.
  intros Hn. unfold bsize. change 32 with (2 ^ 5). change 4096 with (2 ^ 12).
  split; apply Z.pow_le_mono_r; lia.
Qed.

Lemma bsize_page n : 0 <= n <= 6 -> (bsize n =? 0x1000) = false.
Proof.
  intros Hn. apply Z.eqb_neq. pose proof (bsize_le (n + 1) ltac:(lia)). rewrite bsize_succ in H by lia. lia.
Qed.

Lemma right_run k b n u :
  words k !! b = Some (hdr n u) -> 0 <= n <= 7 -> HEAP_BASE <= b < HEAP_TOP -> right b k = Done (b + bsize n) k.
Proof.
  intros Hw Hn Hb. unfold right. rewrite (bind_done _ _ _ _ _ (block_size_run k b n u Hw Hn)).
  pose proof (bsize_le n Hn). unfold HEAP_BASE, HEAP_TOP in *. rewrite u32_small by lia. done.
Qed.

Lemma left_run k b n u :
  words k !! b = Some (hdr n u) -> 0 <= n <= 7 -> HEAP_BASE <= b < HEAP_TOP -> left b k = Done (b - bsize n) k.
Proof.
  intros Hw Hn Hb. unfold left. rewrite (bind_done _ _ _ _ _ (block_size_run k b n u Hw Hn)).
  pose proof (bsize_le n Hn). unfold HEAP_BASE, HEAP_TOP in *. rewrite u32_small by lia. done.
Qed.

Lemma pair_run k b n u :
  words k !! b = Some (hdr n u) -> 0 <= n <= 6 -> aligned n b -> HEAP_BASE <= b < HEAP_TOP ->
  pair b k = Done (buddy n b) k.
Proof.
  intros Hw Hn Ha Hb. unfold pair. rewrite (bind_done _ _ _ _ _ (block_size_run k b n u Hw ltac:(lia))).
  rewrite bsize_page by done. pose proof (bsize_le n ltac:(lia)). unfold aligned, blk in Ha.
  unfold buddy, flip, blk. set (q := b / bsize n) in *. set (s := bsize n) in *.
  unfold HEAP_BASE, HEAP_TOP in *. pose proof (Z.mod_pos_bound q 2 ltac:(lia)).
  destruct (Z.eqb_spec (q mod 2) 0) as [E|E]; rewrite u32_small by lia; unfold mret, M_ret; f_equal.
  - rewrite E. lia.
  - replace (q mod 2) with 1 by lia. lia.
Qed.

Lemma ph_index_run k b n u :
  words k !! b = Some (hdr n u) -> 0 <= n <= 7 -> HEAP_BASE <= b < HEAP_TOP ->
  ph_index b k = Done (page_index b) k.
Proof.
  intros Hw Hn Hb. unfold ph_index. rewrite (bind_done _ _ _ _ _ (sizeno_run k b n u Hw Hn)).
  destruct (page_index_range b Hb) as [-> Hi]. unfold LAST_SIZENO.
  rewrite (proj2 (Z.ltb_lt n (6 + 2))) by lia. rewrite (proj2 (Z.ltb_lt (page_index b) 1024)) by lia. done.
Qed.

Lemma ph_rd_run k b n u :
  words k !! b = Some (hdr n u) -> 0 <= n <= 7 -> HEAP_BASE <= b < HEAP_TOP ->
  ph_rd b k = Done (ph_at (page_headers k) (page_index b)) k.
Proof. intros Hw Hn Hb. unfold ph_rd. by rewrite (bind_done _ _ _ _ _ (ph_index_run k b n u Hw Hn Hb)). Qed.

Definition upd_ph (b : Z) (f : PageHeader -> PageHeader) k : ks S :=
  mkKs (words k) (lists k) (<[page_index b := f (ph_at (page_headers k) (page_index b))]> (page_headers k))
    (kmalloc_lock k) (env k).
Definition upd_word (b w : Z) k : ks S :=
  mkKs (<[b := w]> (words k)) (lists k) (page_headers k) (kmalloc_lock k) (env k).
Definition upd_lists (l : lstore Z) k : ks S :=
  mkKs (words k) l (page_headers k) (kmalloc_lock k) (env k).

Lemma ph_wr_run k b n u f :
  words k !! b = Some (hdr n u) -> 0 <= n <= 7 -> HEAP_BASE <= b < HEAP_TOP ->
  ph_wr b f k = Done tt (upd_ph b f k).
Proof. intros Hw Hn Hb. unfold ph_wr. by rewrite (bind_done _ _ _ _ _ (ph_index_run k b n u Hw Hn Hb)). Qed.

Lemma lop_run k f r l : f (lists k) = (r, l) -> lop f k = Done r (upd_lists l k).
Proof. intros Hf. unfold lop. m_unfold. rewrite Hf. done. Qed.

Lemma int_off k : IF (cpu_of k) = false -> ASSERT_int_disable k = Done tt k.
Proof. intros Hi. unfold ASSERT_int_disable, eflags_read. m_unfold. by rewrite Hi. Qed.

(** A node that is no free block of a list has no owner. *)
Lemma link_not_listed hand bl k b :
  link hand bl k -> (hand = Some b \/ forall n, bl !! b <> Some (n, false)) -> ls_owner (lists k) !! b = None.
Proof.
  intros L Hb. apply eq_None_not_Some. intros [i Hi]. destruct (lk_wf _ _ _ L) as [_ Hown].
  apply Hown, (lk_list _ _ _ L) in Hi as [Hi Hh]. destruct Hb as [Hb|Hb]; [done|by apply (Hb i)].
Qed.

Lemma link_listed hand bl k b n :
  link hand bl k -> bl !! b = Some (n, false) -> hand <> Some b -> ls_owner (lists k) !! b = Some n.
Proof. intros L Hb Hh. apply (lk_wf _ _ _ L), (lk_list _ _ _ L). done. Qed.

(** The block in hand goes to the list of its size, or comes from it. *)
Lemma link_put bl k b n pos :
  link (Some b) bl k -> bl !! b = Some (n, false) ->
  let l := (ls_insert n pos b (lists k)).2 in
  ls_insert n pos b (lists k) = (true, l) /\ link None bl (upd_lists l k).
Proof.
  intros L Hb l. assert (Hf : ls_owner (lists k) !! b = None) by (apply (link_not_listed (Some b) bl); auto).
  split; [by apply ls_insert_free|]. split; cbn [upd_lists words lists page_headers]; try apply L.
  - apply ls_insert_wf, L.
  - intros x i. unfold l. rewrite ls_insert_elem, (lk_list _ _ _ L) by done. split.
    + intros [[Hx _]|[-> ->]]; done.
    + intros [Hx _]. destruct (decide (x = b)) as [->|Hne]; [right; split; congruence|].
      left. split; [done|congruence].
Qed.

Lemma link_take bl k b n :
  link None bl k -> bl !! b = Some (n, false) ->
  let l := (ls_erase n b (lists k)).2 in
  ls_erase n b (lists k) = (true, l) /\ link (Some b) bl (upd_lists l k).
Proof.
  intros L Hb l. pose proof (link_listed None bl k b n L Hb ltac:(done)) as Ho.
  split; [by apply ls_erase_owned|]. split; cbn [upd_lists words lists page_headers]; try apply L.
  - apply ls_erase_wf, L.
  - intros x i. unfold l. rewrite ls_erase_elem, (lk_list _ _ _ L) by (done || apply L). naive_solver.
Qed.

Lemma link_env hand bl k (e : S) lock :
  link hand bl k -> link hand bl (mkKs (words k) (lists k) (page_headers k) lock e).
Proof. intros L. split; apply L. Qed.

(** *** FreeBlock::split *)
Lemma split_run b n bl k :
  link (Some b) bl k -> heap_ok (Some b) bl -> IF (cpu_of k) = false ->
  0 <= n -> bl !! b = Some (n + 1, false) -> (forall x, bl !! x <> Some (n, false)) ->
  exists k', split b k = Done b k' /\ link (Some b) (bcut b n bl) k' /\ same_env k k'.
Proof.
  intros L Ok Hi Hn Hb Hno. destruct (ho_range Ok _ _ _ Hb) as (Hn7 & Ha & Hrg).
  pose proof (lk_word _ _ _ L _ _ _ Hb) as Hw.
  destruct (half_facts n b Hn Ha) as (Ha1 & Ha2 & Hf & Hr & Hb' & He & Ho & Hne).
  assert (Hfr : bl !! (b + bsize n) = None).
  { destruct (bl !! (b + bsize n)) as [[m u]|] eqn:E; [|done]. exfalso.
    pose proof (cut_fresh (sizes_of bl) b n (ho_shape _ _ Ok) Hn (sizes_lookup _ _ _ _ Hb)) as E'.
    by rewrite (sizes_lookup _ _ _ _ E) in E'. }
  assert (Hrr : HEAP_BASE <= b + bsize n < HEAP_TOP).
  { pose proof (heap_ok_cut bl b n Ok Hn Hb) as Ok'. eapply (ho_range Ok'). unfold bcut. by rewrite lookup_insert_eq. }
  destruct (page_index_range b Hrg) as [_ Hj].
  assert (Hpi : page_index (b + bsize n) = page_index b).
  { apply page_index_blk; [lia..|]. apply (blk_mono (n + 1)); [lia|]. rewrite Hr. by apply buddy_blk_succ. }
  assert (Hcnt : ph_get (count (ph_at (page_headers k) (page_index b))) n =
                 ph_get (count_used (ph_at (page_headers k) (page_index b))) n).
  { destruct (lk_count _ _ _ L (page_index b) Hj) as (_ & _ & Hh). destruct (Hh n ltac:(lia)) as [-> ->].
    f_equal. apply count_ext. intros x [m u] Hx. unfold used_in. destruct (in_page (page_index b) n x (m, u)) eqn:E; [|done].
    unfold in_page in E. apply andb_prop in E as [_ E%Z.eqb_eq]. simpl in E. subst m.
    destruct u; [done|by destruct (Hno x)]. }
  pose proof (link_not_listed _ _ _ b L (or_introl eq_refl)) as Hob.
  assert (Hor : ls_owner (lists k) !! (b + bsize n) = None).
  { apply (link_not_listed _ _ _ _ L). right. intros m. by rewrite Hfr. }
  set (r := b + bsize n) in *.
  set (k1 := upd_word b (hdr n false) k). set (k2 := upd_ph b (add_to_count (n + 1) (-1)) k1).
  set (k3 := upd_ph b (add_to_count n 2) k2). set (k4 := upd_word r (hdr n false) k3).
  set (k5 := upd_lists (ls_node_init r (lists k4)) k4).
  set (k6 := upd_lists (ls_push_back n r (lists k5)).2 k5).
  assert (Hw1 : words k1 !! b = Some (hdr n false)) by apply lookup_insert_eq.
  exists k6. split_and!; [|split|done].
  - unfold split. go (int_off k Hi). go (sizeno_run k b _ _ Hw ltac:(lia)). go (ph_rd_run k b _ _ Hw ltac:(lia) Hrg).
    replace (n + 1 - 1) with n by lia. rewrite (u32_small n) by lia. rewrite Hcnt, Z.eqb_refl.
    cbn [ASSERT]. go (eq_refl : (mret tt : M (ks S) unit) k = Done tt k).
    go (eq_refl : node_list b k = Done (ls_owner (lists k) !! b) k). rewrite Hob.
    go (eq_refl : (mret tt : M (ks S) unit) k = Done tt k).
    go (hd_rd_run k b _ Hw). pose proof (hdr_down _ _ (hdr_facts (n + 1) false ltac:(lia)) ltac:(lia)) as Hd.
    replace (n + 1 - 1) with n in Hd by lia. rewrite Hd.
    go (eq_refl : hd_wr b (hdr n false) k = Done tt k1).
    go (sizeno_run k1 b _ _ Hw1 ltac:(lia)). go (ph_wr_run k1 b _ _ (add_to_count (n + 1) (-1)) Hw1 ltac:(lia) Hrg).
    go (ph_wr_run k2 b _ _ (add_to_count n 2) Hw1 ltac:(lia) Hrg).
    go (pair_run k3 b _ _ Hw1 ltac:(lia) Ha1 Hrg). go (right_run k3 b _ _ Hw1 ltac:(lia) Hrg).
    rewrite <- Hr. unfold r at 1. rewrite Z.eqb_refl. cbn [ASSERT].
    go (eq_refl : (mret tt : M (ks S) unit) k3 = Done tt k3). go (hd_rd_run k3 b _ Hw1).
    go (eq_refl : hd_wr r (hdr n false) k3 = Done tt k4). go (eq_refl : node_init r k4 = Done tt k5).
    assert (Hp : ls_push_back n r (lists k5) = (true, (ls_push_back n r (lists k5)).2))
      by (apply ls_insert_free, lookup_delete_eq).
    go (lop_run k5 _ _ _ Hp). done.
  - cbn. unfold bcut. fold r. intros x m u [[<- [= <- <-]]|[Hxr [[<- [= <- <-]]|[Hxb Hx]]%lookup_insert_Some]]%lookup_insert_Some.
    + apply lookup_insert_eq.
    + rewrite lookup_insert_ne by done. apply lookup_insert_eq.
    + rewrite !lookup_insert_ne by done. by apply (lk_word _ _ _ L).
  - cbn. rewrite ls_node_init_free by done. apply ls_insert_wf, L.
  - cbn. intros x i. rewrite ls_node_init_free by done. unfold ls_push_back.
    rewrite ls_insert_elem, (lk_list _ _ _ L) by done. unfold bcut. fold r.
    destruct (decide (x = r)) as [->|Hxr]; [rewrite lookup_insert_eq, Hfr; naive_solver|].
    rewrite lookup_insert_ne by done. destruct (decide (x = b)) as [->|Hxb]; [naive_solver|].
    rewrite lookup_insert_ne by done. naive_solver.
  - cbn. rewrite ph_at_insert, insert_insert_eq. apply counters_cut; try done. apply L.
Qed.

(** *** FreeBlock::set_used, UsedBlock::set_free *)
Lemma set_used_run b n bl k :
  link (Some b) bl k -> heap_ok (Some b) bl -> bl !! b = Some (n, false) ->
  exists k', block_set_used b k = Done tt k' /\ link None (<[b := (n, true)]> bl) k' /\ same_env k k'.
Proof.
  intros L Ok Hb. destruct (ho_range Ok _ _ _ Hb) as (Hn & Ha & Hrg).
  pose proof (lk_word _ _ _ L _ _ _ Hb) as Hw. destruct (page_index_range b Hrg) as [_ Hj].
  pose proof (link_not_listed _ _ _ b L (or_introl eq_refl)) as Hob.
  set (k1 := upd_word b (hdr n true) k). set (k2 := upd_ph b (add_to_used n 1) k1).
  assert (Hw1 : words k1 !! b = Some (hdr n true)) by apply lookup_insert_eq.
  exists k2. split_and!; [|split|done].
  - unfold block_set_used. go (eq_refl : node_is_free b k = Done (ls_is_free b (lists k)) k).
    rewrite (proj2 (ls_owner_free _ _) Hob). cbn [ASSERT].
    go (eq_refl : (mret tt : M (ks S) unit) k = Done tt k). go (hd_rd_run k b _ Hw).
    rewrite (hdr_with_used _ _ (hdr_facts n false Hn)). go (eq_refl : hd_wr b (hdr n true) k = Done tt k1).
    go (sizeno_run k1 b _ _ Hw1 Hn). exact (ph_wr_run k1 b _ _ _ Hw1 Hn Hrg).
  - cbn. intros x m u [[<- [= <- <-]]|[Hxb Hx]]%lookup_insert_Some; [apply lookup_insert_eq|].
    rewrite lookup_insert_ne by done. by apply (lk_word _ _ _ L).
  - apply L.
  - cbn. intros x i. rewrite (lk_list _ _ _ L), lookup_insert_Some. naive_solver.
  - cbn. apply (counters_flag bl _ b n true); try done; [apply L|lia].
Qed.

Lemma set_free_run b n bl k :
  link None bl k -> heap_ok None bl -> bl !! b = Some (n, true) ->
  exists k', block_set_free b k = Done tt k' /\ link (Some b) (<[b := (n, false)]> bl) k' /\ same_env k k' /\
    words k' !! b = Some (hdr n false).
Proof.
  intros L Ok Hb. destruct (ho_range Ok _ _ _ Hb) as (Hn & Ha & Hrg).
  pose proof (lk_word _ _ _ L _ _ _ Hb) as Hw. destruct (page_index_range b Hrg) as [_ Hj].
  assert (Hob : ls_owner (lists k) !! b = None).
  { apply (link_not_listed _ _ _ b L). right. intros m. by rewrite Hb. }
  set (k1 := upd_word b (hdr n false) k). set (k2 := upd_ph b (add_to_used n (-1)) k1).
  set (k3 := upd_lists (ls_node_init b (lists k2)) k2).
  assert (Hw1 : words k1 !! b = Some (hdr n false)) by apply lookup_insert_eq.
  exists k3. split_and!; [|split|done|exact Hw1].
  - unfold block_set_free. go (hd_rd_run k b _ Hw). rewrite (hdr_is_free _ _ (hdr_facts n true Hn)).
    cbn [ASSERT negb]. go (eq_refl : (mret tt : M (ks S) unit) k = Done tt k).
    rewrite (hdr_with_free _ _ (hdr_facts n true Hn)). go (eq_refl : hd_wr b (hdr n false) k = Done tt k1).
    go (sizeno_run k1 b _ _ Hw1 Hn). go (ph_wr_run k1 b _ _ (add_to_used n (-1)) Hw1 Hn Hrg). done.
  - cbn. intros x m u [[<- [= <- <-]]|[Hxb Hx]]%lookup_insert_Some; [apply lookup_insert_eq|].
    rewrite lookup_insert_ne by done. by apply (lk_word _ _ _ L).
  - cbn. rewrite ls_node_init_free by done. apply L.
  - cbn. intros x i. rewrite ls_node_init_free by done. rewrite (lk_list _ _ _ L), lookup_insert_Some. naive_solver.
  - cbn. apply (counters_flag bl _ b n false); try done; [apply L|lia].
Qed.

(** *** FreeBlock::merge *)

(** The words, lists and counters after a join, whichever half was in hand. *)
Lemma link_join bl k x p b n (ph : gmap Z PageHeader) :
  link (Some x) bl k -> 0 <= n -> (x = b /\ p = b + bsize n) \/ (p = b /\ x = b + bsize n) ->
  bl !! b = Some (n, false) -> bl !! (b + bsize n) = Some (n, false) ->
  counters (bjoin b n bl) ph ->
  link (Some b) (bjoin b n bl)
    (mkKs (<[b := hdr (n + 1) false]> (words k)) (ls_erase n p (lists k)).2 ph (kmalloc_lock k) (env k)).
Proof.
  intros L Hn Hxp Hb Hr Hc. pose proof (bsize_pos n Hn) as Hpos.
  assert (Hlk : forall y v, bjoin b n bl !! y = Some v <->
    (y = b /\ v = (n + 1, false)) \/ (y <> b /\ y <> b + bsize n /\ bl !! y = Some v)).
  { intros y v. unfold bjoin. rewrite lookup_delete_Some, lookup_insert_Some. split; [naive_solver|].
    intros [[-> ->]|?]; [|naive_solver]. split; [lia|by left]. }
  assert (Hp : ls_owner (lists k) !! p = Some n).
  { apply (link_listed _ _ _ _ _ L); destruct Hxp as [[-> ->]|[-> ->]]; try done; intros [= E]; lia. }
  split; cbn; [|apply ls_erase_wf, L| |done].
  - intros y m u [[-> [= -> ->]]|(Hyb & Hyr & Hy)]%Hlk; [apply lookup_insert_eq|].
    rewrite lookup_insert_ne by done. by apply (lk_word _ _ _ L).
  - intros y i. rewrite ls_erase_elem, (lk_list _ _ _ L), Hlk by (done || apply L).
    destruct Hxp as [[-> ->]|[-> ->]]; naive_solver lia.
Qed.

(** Header words of free blocks, stale ones included, keep the flag of a free block. *)
Definition free_kept k k' : Prop := forall x m, 0 <= m <= 7 -> words k !! x = Some (hdr m false) ->
  exists m', 0 <= m' <= 7 /\ words k' !! x = Some (hdr m' false).

Lemma free_kept_refl k : free_kept k k.
Proof. intros x m Hm Hx. eauto. Qed.

Lemma merge_run b n bl k :
  link (Some b) bl k -> heap_ok (Some b) bl -> IF (cpu_of k) = false -> n <= 6 ->
  bl !! b = Some (n, false) -> bl !! buddy n b = Some (n, false) ->
  exists lo k', merge b k = Done lo k' /\ aligned (n + 1) lo /\ (b = lo \/ b = lo + bsize n) /\
    bl !! lo = Some (n, false) /\ bl !! (lo + bsize n) = Some (n, false) /\
    link (Some lo) (bjoin lo n bl) k' /\ same_env k k' /\ words k' = <[lo := hdr (n + 1) false]> (words k).
Proof.
  intros L Ok Hi Hn6 Hb Hp. destruct (ho_range Ok _ _ _ Hb) as (Hn & Ha & Hrg).
  destruct (ho_range Ok _ _ _ Hp) as (_ & Hap & Hrgp). destruct (page_index_range b Hrg) as [_ Hj].
  pose proof (lk_word _ _ _ L _ _ _ Hb) as Hw. pose proof (lk_word _ _ _ L _ _ _ Hp) as Hwp.
  pose proof (link_not_listed _ _ _ b L (or_introl eq_refl)) as Hob.
  pose proof (bsize_pos n ltac:(lia)) as Hpos. pose proof (buddy_cases n b ltac:(lia) Ha) as Hcases.
  assert (Hpi : page_index (buddy n b) = page_index b).
  { apply page_index_blk; [lia..|]. apply (blk_mono (n + 1)); [lia|]. apply buddy_blk_succ. lia. }
  set (p := buddy n b) in *.
  assert (Hpb : p <> b) by (destruct Hcases as [[_ E]|[_ E]]; lia).
  assert (Hop : ls_owner (lists k) !! p = Some n) by (apply (link_listed _ _ _ _ _ L); [done|congruence]).
  assert (Hfp : ls_is_free p (lists k) = false) by (unfold ls_is_free; rewrite Hop; done).
  set (k1 := upd_lists (ls_erase n p (lists k)).2 k).
  set (k2 := upd_ph b (add_to_count n (-2)) k1). set (k3 := upd_ph b (add_to_count (n + 1) 1) k2).
  set (lo := if p =? b - bsize n then p else b).
  assert (Hlo : (lo = b /\ p = lo + bsize n /\ aligned (n + 1) lo) \/ (lo = p /\ b = lo + bsize n /\ aligned (n + 1) lo)).
  { unfold lo. destruct Hcases as [[Hal E]|[Hal E]]; destruct (Z.eqb_spec p (b - bsize n)); [lia|by left|by right|lia]. }
  assert (Hlob : bl !! lo = Some (n, false)) by (by destruct Hlo as [(-> & _)|(-> & _)]).
  assert (Hhib : bl !! (lo + bsize n) = Some (n, false))
    by (destruct Hlo as [(E & <- & _)|(E & <- & _)]; done).
  assert (Hwl : words k3 !! lo = Some (hdr n false)) by (by apply (lk_word _ _ _ L)).
  exists lo, (upd_word lo (hdr (n + 1) false) k3). split_and!; [|by destruct Hlo as [(_ & _ & ?)|(_ & _ & ?)]|..|done|done].
  - unfold merge. go (int_off k Hi). go (pair_run k b _ _ Hw ltac:(lia) Ha Hrg). fold p.
    go (hd_rd_run k p _ Hwp). rewrite (hdr_is_free _ _ (hdr_facts n false Hn)). cbn [ASSERT negb].
    go (eq_refl : (mret tt : M (ks S) unit) k = Done tt k). go (hd_rd_run k b _ Hw).
    rewrite (hdr_is_free _ _ (hdr_facts n false Hn)). cbn [ASSERT negb].
    go (eq_refl : (mret tt : M (ks S) unit) k = Done tt k). rewrite Z.eqb_refl. cbn [ASSERT].
    go (eq_refl : (mret tt : M (ks S) unit) k = Done tt k).
    go (eq_refl : node_is_free b k = Done (ls_is_free b (lists k)) k).
    rewrite (proj2 (ls_owner_free _ _) Hob). cbn [ASSERT]. go (eq_refl : (mret tt : M (ks S) unit) k = Done tt k).
    go (eq_refl : node_is_free p k = Done (ls_is_free p (lists k)) k). rewrite Hfp. cbn [ASSERT negb].
    go (eq_refl : (mret tt : M (ks S) unit) k = Done tt k).
    go (eq_refl : node_list p k = Done (ls_owner (lists k) !! p) k). rewrite Hop. cbn [deref].
    go (eq_refl : (mret n : M (ks S) Z) k = Done n k).
    go (lop_run k _ _ _ (ls_erase_owned n p _ Hop)). fold k1.
    go (sizeno_run k1 b _ _ Hw Hn). go (ph_wr_run k1 b _ _ (add_to_count n (-2)) Hw Hn Hrg).
    go (ph_wr_run k2 b _ _ (add_to_count (n + 1) 1) Hw Hn Hrg). go (left_run k3 b _ _ Hw Hn Hrg).
    cbv zeta. fold lo. go (hd_rd_run k3 lo _ Hwl). rewrite (hdr_sizeno _ _ (hdr_facts n false Hn)).
    rewrite (hdr_up _ _ (hdr_facts n false Hn)) by lia.
    go (eq_refl : hd_wr lo (hdr (n + 1) false) k3 = Done tt (upd_word lo (hdr (n + 1) false) k3)).
    set (k4 := upd_word lo (hdr (n + 1) false) k3).
    assert (Hfl : ls_is_free lo (lists k4) = true).
    { apply ls_owner_free. change (lists k4) with (ls_erase n p (lists k)).2. unfold ls_erase.
      rewrite bool_decide_true by done. simpl. destruct (decide (lo = p)) as [->|Hne]; [apply lookup_delete_eq|].
      rewrite lookup_delete_ne by done. destruct Hlo as [(-> & _)|(-> & _)]; done. }
    go (eq_refl : node_is_free lo k4 = Done (ls_is_free lo (lists k4)) k4). rewrite Hfl. done.
  - destruct Hlo as [(-> & _)|(_ & ? & _)]; auto.
  - done.
  - done.
  - cbn. apply (link_join bl k b p); try done; [lia|destruct Hlo as [(-> & ? & _)|(-> & ? & _)]; auto|].
    unfold k3, k2, k1; cbn. rewrite ph_at_insert, insert_insert_eq. apply counters_join; try done; [apply L|lia|..];
      destruct Hlo as [(E & Eh & _)|(E & Eh & _)]; rewrite <- ?Eh, ?E; done.
Qed.

(** No block of size number [n] is free. *)
Definition free_none (bl : heap) (n : Z) : Prop := forall x, bl !! x <> Some (n, false).

Lemma link_empty_list bl k n : link None bl k -> ls_get (lists k) n = [] <-> free_none bl n.
Proof.
  intros L. split.
  - intros E x Hx. assert (Hin : x ∈ ls_get (lists k) n) by (apply (lk_list _ _ _ L); done).
    rewrite E in Hin. set_solver.
  - intros Hf. destruct (ls_get (lists k) n) as [|x l] eqn:E; [done|]. exfalso. apply (Hf x).
    apply (lk_list _ _ _ L). rewrite E. set_solver.
Qed.

(** *** FreeBlock::init: a fresh page becomes two blocks of 2048 bytes *)

Lemma fresh_page_blocks bl p x v :
  is_heap_page p -> p ∉ heap_pages bl -> bl !! x = Some v -> blk 7 x <> blk 7 p.
Proof.
  intros [Ha Hr] Hp Hx E. apply Hp. apply elem_of_heap_pages. exists x, v. split; [done|].
  unfold page_of. by rewrite E.
Qed.

Definition with_page (p : Z) (bl : heap) : heap := bcut p 6 (<[p := (7, false)]> bl).

Lemma block_init_run p g bl k :
  link None bl k -> heap_ok None bl -> IF (cpu_of k) = false ->
  is_heap_page p -> p ∉ heap_pages bl -> free_none bl 6 ->
  exists k', block_init p g k = Done tt k' /\ link None (with_page p bl) k' /\
    heap_ok (Some p) (with_page p bl) /\ same_env k k'.
Proof.
  intros L Ok Hi Hpg Hp Hno. destruct Hpg as [Ha Hrg].
  assert (Hfr : forall x v, bl !! x = Some v -> blk 7 x <> blk 7 p) by (intros; by eapply fresh_page_blocks).
  assert (Hbp : bl !! p = None) by (destruct (bl !! p) as [v|] eqn:E; [by destruct (Hfr p v)|done]).
  pose proof (link_not_listed _ _ _ p L) as Hop. specialize (Hop ltac:(right; intros m; by rewrite Hbp)).
  set (k1 := upd_word p (hdr 7 false) k). set (k2 := upd_ph p (fun _ => ph_empty) k1).
  set (k3 := upd_lists (ls_node_init p (lists k2)) k2). set (bl7 := <[p := (7, false)]> bl).
  assert (Hw1 : words k1 !! p = Some (hdr 7 false)) by apply lookup_insert_eq.
  pose proof (heap_ok_new_page bl p Ok Ha Hrg Hfr) as Ok7. fold bl7 in Ok7.
  assert (L3 : link (Some p) bl7 k3).
  { split; cbn; rewrite ?ls_node_init_free by done.
    - intros x n u [[<- [= <- <-]]|[Hxp Hx]]%lookup_insert_Some; [apply lookup_insert_eq|].
      rewrite lookup_insert_ne by done. by apply (lk_word _ _ _ L).
    - apply L.
    - intros x i. rewrite (lk_list _ _ _ L). unfold bl7. rewrite lookup_insert_Some. naive_solver.
    - apply counters_new_page; [apply L|done|]. intros x [n u] Hx E. apply (Hfr _ _ Hx).
      destruct (ho_range Ok _ _ _ Hx) as (_ & _ & Hxr). apply page_index_blk; [lia..|done]. }
  assert (Hb7 : bl7 !! p = Some (6 + 1, false)) by apply lookup_insert_eq.
  destruct (split_run p 6 bl7 k3 L3 Ok7 Hi ltac:(lia) Hb7) as (k4 & Hs & L4 & E4).
  { intros x [[_ ?]|[_ Hx]]%lookup_insert_Some; [done|by apply (Hno x)]. }
  pose proof (heap_ok_cut bl7 p 6 Ok7 ltac:(lia) Hb7) as Okc. fold (with_page p bl) in L4, Okc.
  assert (Hbc : with_page p bl !! p = Some (6, false)).
  { unfold with_page, bcut. rewrite lookup_insert_ne, lookup_insert_eq; [done|]. pose proof (bsize_pos 6). lia. }
  destruct (link_put _ _ _ _ None L4 Hbc) as [Hput L5].
  exists (upd_lists (ls_insert 6 None p (lists k4)).2 k4). split_and!; [|done|done|exact E4].
  unfold block_init. go (int_off k Hi). rewrite hdr_init. go (eq_refl : hd_wr p (hdr 7 false) k = Done tt k1).
  go (ph_wr_run k1 p _ _ (fun _ => ph_empty) Hw1 ltac:(lia) Hrg). go (eq_refl : node_init p k2 = Done tt k3).
  go Hs. go (sizeno_run k4 p 6 false (lk_word _ _ _ L4 _ _ _ Hbc) ltac:(lia)).
  go (lop_run k4 (ls_push_back 6 p) _ _ Hput). done.
Qed.

(** *** The search for a block *)

Lemma sizes_bsize i : 0 <= i -> sizes i = bsize i.
Proof. intros. unfold sizes, bsize. rewrite Z.pow_add_r by lia. lia. Qed.

Lemma bsize_mono i j : 0 <= i <= j -> bsize i <= bsize j.
Proof. intros. unfold bsize. apply Z.pow_le_mono_r; lia. Qed.

(** [n] is the smallest size number whose blocks hold [size] bytes. *)
Definition best_fit (size n : Z) : Prop :=
  0 <= n <= 6 /\ size <= bsize n - 4 /\ forall j, 0 <= j < n -> bsize j - 4 < size.

Lemma take_front bl k i x l :
  link None bl k -> ls_get (lists k) i = x :: l ->
  bl !! x = Some (i, false) /\ lop (ls_pop_front i) k = Done true (upd_lists (ls_erase i x (lists k)).2 k) /\
  link (Some x) bl (upd_lists (ls_erase i x (lists k)).2 k).
Proof.
  intros L E. assert (Hb : bl !! x = Some (i, false)) by (apply (lk_list _ _ _ L); rewrite E; set_solver).
  destruct (link_take _ _ _ _ L Hb) as [He L']. split_and!; [done| |done].
  apply lop_run. unfold ls_pop_front, ls_front. by rewrite E.
Qed.

Lemma kmalloc_find_run bl size i u k :
  link None bl k -> heap_ok None bl -> size <= bsize 6 - 4 -> 0 <= i <= 7 ->
  (u = -1 /\ forall j, 0 <= j < i -> bsize j - 4 < size) \/
  (u < i /\ best_fit size u /\ forall j, u <= j < i -> free_none bl j) ->
  exists k' i' u' ob, kmalloc_find (seqZ i (7 - i)) size u k = Done (i', u', ob) k' /\ best_fit size u' /\ same_env k k' /\
    ((ob = None /\ k' = k /\ forall j, u' <= j <= 6 -> free_none bl j) \/
     (exists b, ob = Some b /\ u' <= i' <= 6 /\ bl !! b = Some (i', false) /\ link (Some b) bl k' /\
        forall j, u' <= j < i' -> free_none bl j)).
Proof.
  intros L Ok Hsz Hi. remember (Z.to_nat (7 - i)) as m eqn:Hm. revert i u Hi Hm.
  induction m as [|m IH]; intros i u Hi Hm Hu.
  { assert (i = 7) as -> by lia. destruct Hu as [[_ Hu]|(Hu & Hf & Hno)]; [specialize (Hu 6); lia|].
    exists k, 7, u, None. split_and!; [done..|]. left. split_and!; [done..|]. intros j Hj. apply Hno. lia. }
  rewrite (seqZ_cons i) by lia. cbn [kmalloc_find]. unfold sizeof_BlockHeader. rewrite sizes_bsize by lia.
  replace (Z.succ i) with (i + 1) by lia. replace (Z.pred (7 - i)) with (7 - (i + 1)) by lia.
  destruct (Z.leb_spec size (bsize i - 4)) as [Hfit|Hfit].
  2: { apply IH; [lia..|]. destruct Hu as [[-> Hu]|(Hui & [Hb1 [Hb2 Hb3]] & _)].
       - left. split; [done|]. intros j Hj. destruct (decide (j = i)) as [->|]; [lia|]. apply Hu. lia.
       - pose proof (bsize_mono u i). lia. }
  set (u1 := if u =? -1 then i else u).
  assert (Hu1 : u1 <= i /\ best_fit size u1 /\ forall j, u1 <= j < i -> free_none bl j).
  { unfold u1. destruct Hu as [[-> Hu]|(Hui & Hb & Hno)].
    - rewrite Z.eqb_refl. split_and!; [lia|split_and!; [lia..|done]|intros; lia].
    - destruct (Z.eqb_spec u (-1)) as [->|]; [destruct Hb; lia|]. split_and!; [lia|done..]. }
  destruct Hu1 as (Hu1i & Hb & Hno). cbv zeta. go (eq_refl : get k = Done k k). unfold ls_size.
  destruct (ls_get (lists k) i) as [|x l] eqn:El.
  - cbn [length]. change (0 <? Z.of_nat 0) with false. cbv iota. apply IH; [lia..|]. right.
    split_and!; [lia|done|]. intros j Hj. destruct (decide (j = i)) as [->|]; [by apply (link_empty_list bl k)|].
    apply Hno. lia.
  - rewrite (proj2 (Z.ltb_lt 0 _)) by (cbn [length]; lia). unfold ls_front. rewrite El. cbn [head deref].
    go (eq_refl : (mret x : M (ks S) Z) k = Done x k). destruct (take_front _ _ _ _ _ L El) as (Hx & Hpop & L').
    go (sizeno_run k x i false (lk_word _ _ _ L _ _ _ Hx) ltac:(lia)). rewrite Z.eqb_refl. cbn [ASSERT].
    go (eq_refl : (mret tt : M (ks S) unit) k = Done tt k). go Hpop. cbn [ASSERT].
    eexists _, i, u1, (Some x). split; [done|]. split_and!; [done..|].
    right. exists x. split_and!; [done|lia|lia|done..].
Qed.

(** *** Cutting a block down *)
Lemma split_down_run fuel b i u bl k :
  link (Some b) bl k -> heap_ok (Some b) bl -> IF (cpu_of k) = false -> bl !! b = Some (i, false) ->
  0 <= u <= i -> i <= 6 -> (Z.to_nat (i - u) < fuel)%nat -> (forall j, u <= j < i -> free_none bl j) ->
  exists bl' k', split_down fuel b i u k = Done b k' /\ link (Some b) bl' k' /\ heap_ok (Some b) bl' /\
    bl' !! b = Some (u, false) /\ used bl' = used bl /\ heap_pages bl' = heap_pages bl /\ same_env k k'.
Proof.
  revert i bl k. induction fuel as [|fuel IH]; intros i bl k L Ok Hi Hb Hu Hi6 Hf Hno; [lia|]. cbn [split_down].
  destruct (Z.ltb_spec u i) as [Hlt|Hge].
  2: { assert (i = u) as -> by lia. by exists bl, k. }
  assert (Hb' : bl !! b = Some (i - 1 + 1, false)) by (by replace (i - 1 + 1) with i by lia).
  destruct (split_run b (i - 1) bl k L Ok Hi ltac:(lia) Hb' ltac:(apply Hno; lia)) as (k1 & Hs & L1 & E1).
  destruct (ho_range Ok _ _ _ Hb') as (_ & Ha & _).
  pose proof (heap_ok_cut bl b (i - 1) Ok ltac:(lia) Hb') as Ok1. pose proof (bsize_pos (i - 1) ltac:(lia)).
  assert (Hfr : bl !! (b + bsize (i - 1)) = None).
  { destruct (bl !! (b + bsize (i - 1))) as [[n v]|] eqn:E; [|done]. exfalso.
    pose proof (cut_fresh _ b (i - 1) (ho_shape _ _ Ok) ltac:(lia) (sizes_lookup _ _ _ _ Hb')) as E'.
    by rewrite (sizes_lookup _ _ _ _ E) in E'. }
  destruct (IH (i - 1) (bcut b (i - 1) bl) k1) as (bl' & k' & Hr & L' & Ok' & Hbu & Hus & Hpg & E'); try done; [..|].
  - unfold cpu_of; cbn. destruct E1 as [-> _]. exact Hi.
  - unfold bcut. rewrite lookup_insert_ne by lia. apply lookup_insert_eq.
  - lia.
  - lia.
  - lia.
  - intros j Hj x Hx. unfold bcut in Hx.
    apply lookup_insert_Some in Hx as [[_ [= E]]|[_ [[_ [= E]]|[_ Hx]]%lookup_insert_Some]]; [lia..|].
    eapply (Hno j); [lia|done].
  - exists bl', k'. split_and!; try done.
    + go (sizeno_run k b i false (lk_word _ _ _ L _ _ _ Hb) ltac:(lia)). rewrite Z.eqb_refl. cbn [ASSERT].
      go (eq_refl : (mret tt : M (ks S) unit) k = Done tt k). by go Hs.
    + rewrite Hus. apply used_cut; [done|]. intros m. by rewrite Hb.
    + rewrite Hpg. by apply (pages_cut bl b (i - 1) _ ltac:(lia) Ha Hb).
    + by etrans.
Qed.

(** *** Joining blocks up *)
Lemma merge_up_run fuel b n bl k :
  link (Some b) bl k -> heap_ok (Some b) bl -> IF (cpu_of k) = false -> bl !! b = Some (n, false) ->
  (Z.to_nat (7 - n) < fuel)%nat ->
  exists b' n' bl' k', merge_up fuel b k = Done b' k' /\ link (Some b') bl' k' /\ heap_ok (Some b') bl' /\
    bl' !! b' = Some (n', false) /\ (n' = 7 \/ n' <= 6 /\ bl' !! buddy n' b' <> Some (n', false)) /\
    used bl' = used bl /\ heap_pages bl' = heap_pages bl /\ same_env k k' /\ free_kept k k'.
Proof.
  revert b n bl k. induction fuel as [|fuel IH]; intros b n bl k L Ok Hi Hb Hf; [lia|]. cbn [merge_up].
  destruct (ho_range Ok _ _ _ Hb) as (Hn & Ha & Hrg). pose proof (lk_word _ _ _ L _ _ _ Hb) as Hw.
  go (sizeno_run k b n false Hw Hn). unfold LAST_SIZENO. destruct (Z.ltb_spec n (6 + 1)) as [Hlt|Hge]; cbn [negb].
  2: { assert (n = 7) as -> by lia. exists b, 7, bl, k. split_and!; try done; [by left|apply free_kept_refl]. }
  destruct (ho_buddy Ok _ _ _ Hb ltac:(lia)) as (n' & u' & Hp & Hle).
  destruct (ho_range Ok _ _ _ Hp) as (Hn' & _ & _).
  go (pair_run k b n false Hw ltac:(lia) Ha Hrg). go (hd_rd_run k _ _ (lk_word _ _ _ L _ _ _ Hp)).
  rewrite (hdr_is_free _ _ (hdr_facts n' u' Hn')), (hdr_sizeno _ _ (hdr_facts n' u' Hn')).
  destruct u'; cbn [negb].
  { exists b, n, bl, k. split_and!; try done; [|apply free_kept_refl]. right. split; [lia|congruence]. }
  destruct (Z.eqb_spec n' n) as [->|Hne]; cbn [negb].
  2: { exists b, n, bl, k. split_and!; try done; [|apply free_kept_refl]. right. split; [lia|congruence]. }
  destruct (merge_run b n bl k L Ok Hi ltac:(lia) Hb Hp) as (lo & k1 & Hm & Hal & Hlo & Hl & Hr & L1 & E1 & Hw1).
  pose proof (heap_ok_join bl lo n b Ok Hlo ltac:(lia) Hal Hl Hr) as Ok1. pose proof (bsize_pos n ltac:(lia)).
  destruct (IH lo (n + 1) (bjoin lo n bl) k1) as (b' & m & bl' & k' & Hrun & L' & Ok' & Hb' & Hend & Hus & Hpg & E' & Hk'); try done.
  - unfold cpu_of; cbn. destruct E1 as [-> _]. exact Hi.
  - unfold bjoin. rewrite lookup_delete_ne by lia. apply lookup_insert_eq.
  - lia.
  - exists b', m, bl', k'. split_and!; try done; [by go Hm|rewrite Hus|rewrite Hpg|by etrans|].
    + apply used_join; intros j; rewrite ?Hl, ?Hr; done.
    + by eapply pages_join; [lia|..].
    + intros x i Hi' Hx. destruct (decide (x = lo)) as [->|Hne].
      * apply (Hk' lo (n + 1)); [lia|]. rewrite Hw1. apply lookup_insert_eq.
      * apply (Hk' x i); [done|]. by rewrite Hw1, lookup_insert_ne.
Qed.
End ops.

(** ** kmalloc and kfree *)

Section heap.
Context {S : Type} `{PS : PageSource S}.
Implicit Types (k : ks S) (A : gmap Z Z).

(** The state of a heap at rest whose used blocks are [A]: block address to size
    number. The address kmalloc hands out is four bytes further on. *)
Definition heap_state A k : Prop := exists bl,
  link None bl k /\ heap_ok None bl /\ used bl = A /\ ps_ok (heap_pages bl) (env k).

Definition locked k : ks S := klock_upd 1 (set_cpu (do_pushcli (cpu_of k)) k).

Lemma acquire_run k : spinlock_acquire klock_view klock_upd k = Done tt (locked k).
Proof. apply spinlock_acquire_run. Qed.

Lemma release_run k k' :
  cpu_ok (cpu_of k) -> cpu_equiv (cpu_of (env k')) (do_pushcli (cpu_of k)) ->
  exists c, spinlock_release klock_upd k' =
    Done tt (mkKs (words k') (lists k') (page_headers k') 0 (set_cpu c (env k'))) /\ cpu_equiv c (cpu_of k).
Proof.
  intros Hok He. destruct (popcli_run k (klock_upd 0 k') Hok He) as (c & Hp & Hc).
  exists c. split; [|done]. unfold spinlock_release. by go (eq_refl : modify (klock_upd 0) k' = Done tt (klock_upd 0 k')).
Qed.

(** A page that is new to the heap, cut in two, with its lower half in hand. *)
Lemma kmalloc_page_run g bl k :
  link None bl k -> heap_ok None bl -> ps_ok (heap_pages bl) (env k) ->
  cpu_ok (cpu_of k) -> IF (cpu_of k) = false -> free_none bl 6 ->
  exists o bl' k', kmalloc_page g k = Done o k' /\ cpu_equiv (cpu_of k') (cpu_of k) /\
    ps_ok (heap_pages bl') (env k') /\ used bl' = used bl /\
    ((o = None /\ bl' = bl /\ link None bl k' /\ kmalloc_lock k' = kmalloc_lock k /\
        exists e p va s, tp_alloc (env k) = Done (e, p, va) s /\ e < 0) \/
     exists p, o = Some p /\ link (Some p) bl' k' /\ heap_ok (Some p) bl' /\ bl' !! p = Some (6, false) /\
       (forall j, j < 6 -> free_none bl j -> free_none bl' j)).
Proof.
  intros L Ok Hps Hc Hi Hno. unfold kmalloc_page. go (eq_refl : get k = Done k k). unfold ls_size, LAST_SIZENO.
  rewrite (proj2 (link_empty_list bl k 6 L) Hno). cbn [length]. change (Z.of_nat 0 =? 0) with true. cbn [ASSERT].
  go (eq_refl : (mret tt : M (ks S) unit) k = Done tt k). unfold in_env, zoom, mbind at 1, M_bind at 1.
  destruct (ps_alloc _ _ Hps Hc Hi) as [(e & p & va & s & Hal & Hneg & Hps' & Hce)|(e & o & p & s & Hal & Hge & Hpg & Hp & Hps' & Hce)];
    rewrite Hal.
  - rewrite (proj2 (Z.ltb_lt e 0)) by done. exists None, bl. eexists. split; [done|]. split_and!; [done..|].
    left. split_and!; [done..|by apply link_env|done|]. by exists e, p, va, s.
  - rewrite (proj2 (Z.ltb_ge e 0)) by done. destruct (kaddr_heap p ltac:(apply Hpg)) as [_ ->].
    set (k1 := mkKs (words k) (lists k) (page_headers k) (kmalloc_lock k) s).
    assert (Hi1 : IF (cpu_of k1) = false) by (destruct Hce as [Hif _]; exact (eq_trans Hif Hi)).
    destruct (block_init_run p g bl k1 (link_env _ _ _ _ _ L) Ok Hi1 Hpg Hp Hno) as (k2 & Hr & L2 & Ok2 & [E2 E2']).
    destruct Hpg as [Ha Hrg]. pose proof (bsize_pos 6 ltac:(lia)).
    assert (Hbp : bl !! p = None).
    { destruct (bl !! p) as [v|] eqn:E; [|done]. exfalso. by eapply fresh_page_blocks. }
    assert (Hb : with_page p bl !! p = Some (6, false)).
    { unfold with_page, bcut. rewrite lookup_insert_ne by lia. apply lookup_insert_eq. }
    assert (Hr6 : bl !! (p + bsize 6) = None).
    { destruct (bl !! (p + bsize 6)) as [v|] eqn:E; [|done]. exfalso.
      apply (fresh_page_blocks bl p _ _ ltac:(done) Hp E). destruct (half_facts 6 p ltac:(lia) Ha) as (_ & _ & _ & -> & _).
      by apply buddy_blk_succ. }
    destruct (link_take _ _ _ _ L2 Hb) as [Hel L3]. go Hr.
    go (eq_refl : node_list p k2 = Done (ls_owner (lists k2) !! p) k2).
    rewrite (link_listed _ _ _ _ _ L2 Hb ltac:(done)). cbn [deref].
    go (eq_refl : (mret 6 : M (ks S) Z) k2 = Done 6 k2). go (lop_run k2 (ls_erase 6 p) _ _ Hel). cbn [ASSERT].
    exists (Some p), (with_page p bl). eexists. split; [done|]. split_and!.
    + unfold cpu_of; cbn. rewrite E2. done.
    + cbn. rewrite E2. replace (heap_pages (with_page p bl)) with ({[p]} ∪ heap_pages bl); [done|].
      unfold with_page. rewrite (pages_cut _ p 6 (7, false)) by (done || lia || apply lookup_insert_eq).
      unfold heap_pages. rewrite dom_insert_L, set_map_union_L, set_map_singleton_L. by unfold page_of; rewrite <- Ha.
    + unfold with_page. rewrite used_cut, used_unset.
      * apply delete_id. apply eq_None_not_Some. intros [m Hm%used_lookup]. congruence.
      * by rewrite lookup_insert_ne by lia.
      * intros m. by rewrite lookup_insert_eq.
    + right. exists p. split_and!; [done..|]. intros j Hj Hnj x Hx. unfold with_page, bcut in Hx.
      apply lookup_insert_Some in Hx as [[_ [= E]]|[_ [[_ [= E]]|[_ Hx]]%lookup_insert_Some]]; [lia..|].
      apply lookup_insert_Some in Hx as [[_ [= E]]|[_ Hx]]; [lia|]. by apply (Hnj x).
Qed.

(** The block a request of [size] bytes gets. *)
Definition fresh_block A (size b n : Z) : Prop :=
  best_fit size n /\ aligned n b /\ HEAP_BASE <= b /\ b + bsize n <= HEAP_TOP /\ A !! b = None /\
  (forall x m, A !! x = Some m -> x + bsize m <= b \/ b + bsize n <= x).

Lemma top_aligned n b : 0 <= n <= 7 -> aligned n b -> b < HEAP_TOP -> b + bsize n <= HEAP_TOP.
Proof.
  intros Hn Ha Hb. assert (HT : HEAP_TOP = blk n HEAP_TOP * bsize n).
  { assert (Hc : Forall (fun n => HEAP_TOP = blk n HEAP_TOP * bsize n) (seqZ 0 8)).
    { apply (bool_decide_unpack _). vm_compute. exact I. }
    rewrite Forall_forall in Hc. apply Hc, elem_of_seqZ. lia. }
  pose proof (bsize_pos n ltac:(lia)). unfold aligned in Ha. assert (blk n b + 1 <= blk n HEAP_TOP) by nia. nia.
Qed.

Lemma kmalloc_run A g size k :
  heap_state A k -> cpu_ok (cpu_of k) -> size <= 2044 ->
  (exists k', kmalloc g size k = Done NULL k' /\ heap_state A k' /\ kmalloc_lock k' = 1 /\
     cpu_equiv (cpu_of k') (do_pushcli (cpu_of k)) /\
     exists e p va s, tp_alloc (set_cpu (do_pushcli (cpu_of k)) (env k)) = Done (e, p, va) s /\ e < 0) \/
  (exists b n k', kmalloc g size k = Done (b + 4) k' /\ heap_state (<[b := n]> A) k' /\ kmalloc_lock k' = 0 /\
     cpu_equiv (cpu_of k') (cpu_of k) /\ fresh_block A size b n).
Proof.
  intros (bl & L & Ok & <- & Hps) Hc Hsz.
  assert (Hs6 : size <= bsize 6 - 4) by (change (bsize 6) with 2048; lia).
  unfold kmalloc. change (2048 - sizeof_BlockHeader) with 2044. rewrite (proj2 (Z.ltb_ge 2044 size)) by done.
  go (acquire_run k). set (k1 := locked k).
  assert (L1 : link None bl k1) by (exact (link_env _ _ _ _ 1 L)).
  assert (Hcp : cpu_of k1 = do_pushcli (cpu_of k)) by (apply cpu_of_set).
  destruct (kmalloc_find_run bl size 0 (-1) k1 L1 Ok Hs6 ltac:(lia)) as (k2 & i & u & ob & Hf & Hbf & [E2 _] & Hob).
  { left. split; [done|lia]. }
  change (seqZ 0 (7 - 0)) with (seqZ 0 7) in Hf. go Hf. destruct Hbf as (Hu & Hfit).
  destruct (Z.eqb_spec u (-1)); [lia|]. cbn [ASSERT negb]. go (eq_refl : (mret tt : M (ks S) unit) k2 = Done tt k2).
  assert (Hps1 : ps_ok (heap_pages bl) (env k1)) by (by apply ps_cpu).
  (* the block in hand, or no page *)
  assert (Hmid : exists r bl1 k3, (match ob with
      | Some b => mret (Some (i, b))
      | None => o ← kmalloc_page g; mret ((fun b => (LAST_SIZENO, b)) <$> o)
      end) k2 = Done r k3 /\ cpu_equiv (cpu_of (env k3)) (do_pushcli (cpu_of k)) /\
      ps_ok (heap_pages bl1) (env k3) /\ used bl1 = used bl /\
      ((r = None /\ bl1 = bl /\ link None bl k3 /\ kmalloc_lock k3 = 1 /\
          exists e p va s, tp_alloc (env k1) = Done (e, p, va) s /\ e < 0) \/
       exists i' b, r = Some (i', b) /\ u <= i' <= 6 /\ link (Some b) bl1 k3 /\ heap_ok (Some b) bl1 /\
         bl1 !! b = Some (i', false) /\ forall j, u <= j < i' -> free_none bl1 j)).
  { destruct Hob as [(-> & -> & Hno)|(b & -> & Hi & Hb & L2 & Hno)].
    - destruct (kmalloc_page_run g bl k1 L1 Ok Hps1) as (o & bl1 & k3 & Hr & Hce & Hp3 & Hus & Hcase).
      { rewrite Hcp. by apply do_pushcli_ok. } { by rewrite Hcp. } { apply Hno. lia. }
      go Hr. eexists _, bl1, k3. split; [done|]. rewrite Hcp in Hce. split_and!; [done..|].
      destruct Hcase as [(-> & -> & L3 & Hlk & Hfail)|(p & -> & L3 & Ok3 & Hb3 & Hno3)]; [by left|right].
      exists 6, p. split_and!; [done|lia|lia|done..|]. intros j Hj. apply Hno3; [lia|]. apply Hno. lia.
    - eexists _, bl, k2. split; [done|]. rewrite E2. split_and!; [change (cpu_equiv (cpu_of k1) (do_pushcli (cpu_of k))); rewrite Hcp; reflexivity|done..|].
      right. exists i, b. split_and!; try done; [lia|lia|]. by eapply heap_ok_take. }
  destruct Hmid as (r & bl1 & k3 & Hr & Hce & Hp3 & Hus & Hcase). go Hr.
  destruct Hcase as [(-> & -> & L3 & Hlk & Hfail)|(i' & b & -> & Hi & L3 & Ok3 & Hb & Hno)].
  { left. exists k3. split_and!; [done|by exists bl|done..]. }
  right. assert (Hi3 : IF (cpu_of k3) = false) by (destruct Hce as [Hif _]; exact Hif).
  go (eq_refl : node_is_free b k3 = Done (ls_is_free b (lists k3)) k3).
  rewrite (proj2 (ls_owner_free _ _) (link_not_listed _ _ _ b L3 (or_introl eq_refl))). cbn [ASSERT].
  go (eq_refl : (mret tt : M (ks S) unit) k3 = Done tt k3).
  destruct (split_down_run 8 b i' u bl1 k3 L3 Ok3 Hi3 Hb ltac:(lia) ltac:(lia) ltac:(lia) Hno)
    as (bl4 & k4 & Hs & L4 & Ok4 & Hb4 & Hus4 & Hpg4 & [E4 _]). go Hs.
  destruct (set_used_run b u bl4 k4 L4 Ok4 Hb4) as (k5 & Hset & L5 & [E5 _]). go Hset.
  pose proof (heap_ok_use _ _ _ Ok4 Hb4 ltac:(lia)) as Ok5.
  assert (E53 : env k5 = env k3) by congruence.
  destruct (release_run k k5 Hc) as (c & Hrel & Hc'); [by rewrite E53|]. go Hrel.
  destruct (ho_range Ok4 _ _ _ Hb4) as (_ & Ha & Hrg).
  eexists b, u, _. split; [done|]. split_and!; [|done|cbn; by rewrite cpu_of_set|].
  - exists (<[b := (u, true)]> bl4). split_and!; [by apply link_env|done| |].
    + by rewrite used_set, Hus4, Hus.
    + cbn. apply ps_cpu. rewrite (pages_same _ _ _ _ Hb4), Hpg4, E53. done.
  - split_and!; [split; done|done|lia|apply top_aligned; (lia || done)|..].
    + apply eq_None_not_Some. intros [m Hm]. rewrite <- Hus, <- Hus4 in Hm. apply used_lookup in Hm. congruence.
    + intros x m Hm. rewrite <- Hus, <- Hus4 in Hm. apply used_lookup in Hm.
      apply (ho_no_overlap Ok4 _ _ _ _ _ _ Hm Hb4). congruence.
Qed.

(** What kfree does with the block it has joined: into a list, or back to the pages. *)
Definition give_back (fb n : Z) : M (ks S) unit :=
  if n <=? LAST_SIZENO then ok ← lop (ls_push_front n fb); ASSERT ok
  else
    let va := kaddr2va (block_page_addr fb) in
    sz ← block_size fb; ASSERT (sz =? 0x1000) ;;
    _ ← in_env (tp_free (va2kaddr va));
    modify (fun k => mkKs (drop_words fb (words k)) (lists k) (page_headers k) (kmalloc_lock k) (env k)).

Lemma kaddr_twice f : HEAP_BASE <= f < HEAP_TOP -> va2kaddr (kaddr2va (kaddr2va f)) = kaddr2va f.
Proof.
  intros Hrg. destruct (kaddr_heap f Hrg) as [-> _].
  unfold kaddr2va, va2kaddr, HEAP_BASE, HEAP_TOP, MMAP_KERNEL_BASE in *. rewrite u32_sub_l.
  replace (f + 3221225472 + 3221225472 - 3221225472) with (f + 3221225472) by lia. apply u32_small. lia.
Qed.

Lemma drop_words_lookup p (ws : gmap Z Z) b w :
  ws !! b = Some w -> aligned 7 p -> blk 7 b <> blk 7 p -> drop_words p ws !! b = Some w.
Proof. intros Hw Ha Hne. unfold drop_words. apply map_lookup_filter_Some. split; [done|]. exact Hne. Qed.

Lemma give_back_run f m bl k :
  link (Some f) bl k -> heap_ok (Some f) bl -> bl !! f = Some (m, false) ->
  m = 7 \/ m <= 6 /\ bl !! buddy m f <> Some (m, false) ->
  ps_ok (heap_pages bl) (env k) -> cpu_ok (cpu_of k) -> IF (cpu_of k) = false ->
  exists bl' k', give_back f m k = Done tt k' /\ link None bl' k' /\ heap_ok None bl' /\ used bl' = used bl /\
    ps_ok (heap_pages bl') (env k') /\ cpu_equiv (cpu_of k') (cpu_of k) /\
    (forall x w, words k !! x = Some w -> words k' !! x = None \/ words k' !! x = Some w).
Proof.
  intros L Ok Hf Hend Hps Hc Hi. destruct (ho_range Ok _ _ _ Hf) as (Hm & Ha & Hrg).
  unfold give_back, LAST_SIZENO. destruct Hend as [->|[Hm6 Hbd]].
  - change (7 <=? 6) with false. cbv iota zeta. rewrite block_page_addr_heap by done. rewrite kaddr_twice by done.
    go (block_size_run k f 7 false (lk_word _ _ _ L _ _ _ Hf) ltac:(lia)). change (bsize 7 =? 0x1000) with true.
    cbn [ASSERT]. go (eq_refl : (mret tt : M (ks S) unit) k = Done tt k).
    assert (Hin : f ∈ heap_pages bl).
    { apply elem_of_heap_pages. exists f, (7, false). split; [done|]. exact Ha. }
    destruct (ps_free (heap_pages bl) (env k) f Hps Hc Hi Hin (conj Ha Hrg)) as (r & s & Hfree & Hps' & Hce).
    assert (Hie : in_env (tp_free (kaddr2va f)) k = Done r (mkKs (words k) (lists k) (page_headers k) (kmalloc_lock k) s)).
    { unfold in_env, zoom. by rewrite Hfree. }
    go Hie. eexists (delete f bl), _. split; [done|].
    assert (Hother : forall x v, bl !! x = Some v -> x <> f -> blk 7 x <> blk 7 f).
    { intros x [n u] Hx Hne E. destruct Hne. eapply (ho_disjoint Ok x f n 7); [done..|].
      destruct (ho_range Ok _ _ _ Hx). by rewrite Z.max_r by lia. }
    split_and!; [split|by apply heap_ok_drop_page| | |done|].
    + cbn. intros x n u [Hne Hx]%lookup_delete_Some. apply drop_words_lookup; [by apply (lk_word _ _ _ L)|done|].
      eapply Hother; [done|congruence].
    + apply L.
    + cbn. intros x i. rewrite (lk_list _ _ _ L), lookup_delete_Some. naive_solver.
    + cbn. apply counters_drop_page; [apply L|done].
    + unfold used. rewrite omap_delete. apply delete_id. apply eq_None_not_Some.
      intros [n Hn]. apply (used_lookup bl) in Hn. congruence.
    + cbn. replace (heap_pages (delete f bl)) with (heap_pages bl ∖ {[f]}); [done|].
      apply set_eq. intros q. rewrite elem_of_difference, elem_of_singleton, !elem_of_heap_pages. split.
      * intros [(x & v & Hx & ->) Hne]. exists x, v. split; [|done]. apply lookup_delete_Some. split; [|done].
        intros <-. apply Hne. symmetry. exact Ha.
      * intros (x & v & [Hne Hx]%lookup_delete_Some & ->). split; [by exists x, v|]. intros E.
        apply (Hother x v Hx ltac:(congruence)). unfold page_of in E. unfold aligned in Ha.
        pose proof (bsize_pos 7 ltac:(lia)). nia.
    + intros x w Hx. cbn. destruct (drop_words f (words k) !! x) as [w'|] eqn:E; [right|by left].
      unfold drop_words in E. apply map_lookup_filter_Some in E as [E _]. congruence.
  - rewrite (proj2 (Z.leb_le m 6)) by done. unfold ls_push_front.
    destruct (link_put bl k f m (ls_front (lists k) m) L Hf) as [Hput L'].
    go (lop_run k (fun l => ls_insert m (ls_front l m) f l) _ _ Hput). eexists bl, _. split; [done|].
    split_and!; [done|by eapply heap_ok_put|done..|]. intros x w Hx. by right.
Qed.

Lemma kfree_run A b n k :
  heap_state A k -> cpu_ok (cpu_of k) -> A !! b = Some n ->
  exists k', kfree (b + 4) k = Done tt k' /\ heap_state (delete b A) k' /\ kmalloc_lock k' = 0 /\
    cpu_equiv (cpu_of k') (cpu_of k) /\
    (words k' !! b = None \/ exists m, 0 <= m <= 7 /\ words k' !! b = Some (hdr m false)).
Proof.
  intros (bl & L & Ok & <- & Hps) Hc Hb%used_lookup. unfold kfree. go (acquire_run k). set (k1 := locked k).
  assert (L1 : link None bl k1) by (exact (link_env _ _ _ _ 1 L)).
  assert (Hcp : cpu_of k1 = do_pushcli (cpu_of k)) by (apply cpu_of_set).
  assert (Hps1 : ps_ok (heap_pages bl) (env k1)) by (by apply ps_cpu).
  destruct (ho_range Ok _ _ _ Hb) as (Hn & _ & _).
  replace (b + 4 - sizeof_BlockHeader) with b by (unfold sizeof_BlockHeader; lia).
  go (hd_rd_run k1 b _ (lk_word _ _ _ L1 _ _ _ Hb)). rewrite (hdr_flags _ _ (hdr_facts n true Hn)), Z.eqb_refl.
  cbn [ASSERT]. go (eq_refl : (mret tt : M (ks S) unit) k1 = Done tt k1).
  destruct (set_free_run b n bl k1 L1 Ok Hb) as (k2 & Hr2 & L2 & [E2 _] & Hw2). go Hr2.
  pose proof (heap_ok_release _ _ _ Ok Hb) as Ok2.
  assert (Hi2 : IF (cpu_of k2) = false) by (unfold cpu_of; cbn; rewrite E2; change (IF (cpu_of k1) = false); by rewrite Hcp).
  destruct (merge_up_run 8 b n _ k2 L2 Ok2 Hi2 (lookup_insert_eq _ _ _) ltac:(lia))
    as (f & m & bl3 & k3 & Hr3 & L3 & Ok3 & Hf & Hend & Hus & Hpg & [E3 _] & Hk3). go Hr3.
  rewrite used_unset in Hus. rewrite (pages_same _ _ _ _ Hb) in Hpg.
  assert (E31 : env k3 = env k1) by congruence. destruct (ho_range Ok3 _ _ _ Hf) as (Hm & Ha & Hrg).
  go (eq_refl : node_is_free f k3 = Done (ls_is_free f (lists k3)) k3).
  rewrite (proj2 (ls_owner_free _ _) (link_not_listed _ _ _ f L3 (or_introl eq_refl))). cbn [ASSERT].
  go (eq_refl : (mret tt : M (ks S) unit) k3 = Done tt k3).
  go (sizeno_run k3 f m false (lk_word _ _ _ L3 _ _ _ Hf) Hm).
  assert (Hc3 : cpu_of k3 = do_pushcli (cpu_of k)).
  { rewrite <- Hcp. change (cpu_of (env k3) = cpu_of (env k1)). by rewrite E31. }
  destruct (give_back_run f m bl3 k3 L3 Ok3 Hf Hend) as (bl4 & k4 & Hr4 & L4 & Ok4 & Hus4 & Hps4 & Hce4 & Hk4).
  { by rewrite Hpg, E31. } { rewrite Hc3. by apply do_pushcli_ok. } { by rewrite Hc3. }
  unfold give_back in Hr4. go Hr4. rewrite Hc3 in Hce4.
  destruct (release_run k k4 Hc Hce4) as (c & Hrel & Hc'). eexists. split; [exact Hrel|].
  split_and!; [|done|cbn; by rewrite cpu_of_set|].
  { exists bl4. split_and!; [by apply link_env|done|congruence|by apply ps_cpu]. }
  cbn. destruct (ho_range Ok2 b n false (lookup_insert_eq _ _ _)) as (Hnr & _).
  destruct (Hk3 b n Hnr Hw2) as (i & Hir & Hwi). destruct (Hk4 _ _ Hwi) as [E|E]; [by left|right; by exists i].
Qed.
End heap.
