(* ===== verification/HeapProps.v ===== *)
(** The properties of the kernel heap: what kmalloc and kfree promise, on any
    source of pages and on the kernel's own virtual memory. *)

From S2P Require Import Prelude Spinlock ListSpec PhysMem VirtMem VirtRefs VirtMap VirtProps Kmalloc Buddy KmallocProps.

(** ** The temporary pages of the virtual memory are a source of pages *)

Definition quiet : Cpu := mkCpu false 0 false.

Definition mm_pages (P : gset Z) (s : mm) : Prop := exists base K,
  mm_ok base (set_cpu quiet s) /\ tmp_table s = Some K /\
  forall p, p ∈ P -> exists r, 0 <= r < 1024 /\ p = va2kaddr (tmp_va r) /\
    present (pte_at (ptes s) (K, r)) = true /\ p ∉ tables s.

Lemma tmp_heap_page r : 0 <= r < 1024 ->
  va2kaddr (tmp_va r) = HEAP_BASE + r * 4096 /\ is_heap_page (va2kaddr (tmp_va r)).
Proof.
  intros Hr. assert (E : va2kaddr (tmp_va r) = HEAP_BASE + r * 4096).
  { unfold va2kaddr, tmp_va, HEAP_BASE, MMAP_KERNEL_BASE, MMAP_KERNEL_TMP_PAGE_BASE.
    rewrite u32_small by lia. lia. }
  split; [done|]. rewrite E. unfold is_heap_page, aligned, blk, HEAP_BASE, HEAP_TOP. change (bsize 7) with 4096.
  split; [|lia]. replace (268435456 + r * 4096) with ((65536 + r) * 4096) by lia. by rewrite Z.div_mul.
Qed.

Lemma mm_ok_of_quiet base s :
  mm_ok base (set_cpu quiet s) -> cpu_ok (cpu_of s) -> IF (cpu_of s) = false -> mm_ok base s.
Proof.
  intros O Hc Hi. pose proof (mm_ok_cpu base _ (cpu_of s) O Hc Hi) as O'.
  by rewrite set_cpu_set, set_cpu_of in O'.
Qed.

Lemma quiet_ok : cpu_ok quiet.
Proof. split; simpl; [lia|done]. Qed.

#[export] Instance PageSource_mm : PageSource mm.
Proof.
  refine {| ps_ok := mm_pages |}.
  - intros P s c (base & K & O & HK & HP). exists base, K. by rewrite set_cpu_set.
  - intros P s (base & K & O & HK & HP) Hc Hi. pose proof (mm_ok_of_quiet _ _ O Hc Hi) as Os.
    destruct (tmp_alloc_run base (page_insert_fuel 1) s (Z.lor PTE_P PTE_W) Os eq_refl)
      as [(o & va & s' & Hrun & O' & Sm & He & Hph)|(K' & r & p & s' & Hrun & Hr & HK' & Hb & Hd)].
    + left. exists (- ENOMEM), o, va, s'. split_and!; [exact Hrun|done| |].
      * exists base, K. split_and!; [by apply mm_ok_cpu; [|apply quiet_ok|]|by rewrite (same_maps_tmp _ _ Sm)|].
        rewrite He, (sm_tables _ _ Sm). exact HP.
      * unfold cpu_of; simpl. by rewrite Hph.
    + right. rewrite HK in HK'. injection HK' as <-.
      destruct Hd as (O' & Htab & Htabs & _ & He & Hup & _ & Hpb & _ & _ & _ & Hcpu).
      destruct (free_slot base s r K Os HK Hr Hb) as [Habs Hnin].
      assert (Hdist : va2kaddr (tmp_va r) ∉ P).
      { intros Hin. destruct (HP _ Hin) as (r' & Hr' & E & Hpr & _). apply tmp_kaddr_inj in E as ->; [|done..]. congruence. }
      exists 0, (Some p), (va2kaddr (tmp_va r)), s'. destruct (tmp_kaddr r Hr) as [_ Hka].
      split_and!; [by rewrite Hka|done|by apply tmp_heap_page|done| |done].
      exists base, K. split_and!; [by apply mm_ok_cpu; [|apply quiet_ok|]|unfold tmp_table in *; by rewrite Htabs|].
      rewrite Htab, He. intros q [->%elem_of_singleton|Hq]%elem_of_union.
      * exists r. split_and!; [lia|lia|done| |done]. unfold pte_at. rewrite lookup_insert_eq. cbn.
        rewrite PTE_t_present; [done|]. by eapply (frame_range base s'), Hup.
      * destruct (HP q Hq) as (r' & Hr' & -> & Hpr & Hnt). exists r'. split_and!; [lia|lia|done| |done].
        unfold pte_at. rewrite lookup_insert_ne; [done|]. intros [= ->]. congruence.
  - intros P s p (base & K & O & HK & HP) Hc Hi Hp Hpg. pose proof (mm_ok_of_quiet _ _ O Hc Hi) as Os.
    destruct (HP p Hp) as (r & Hr & -> & Hpr & Hnt). destruct (tmp_kaddr r Hr) as [_ Hka].
    destruct (tmp_page_free_run base s r K Os HK Hr Hpr Hnt) as (s' & Hrun & O' & He & Htab & Htabs & _ & _ & Hcpu).
    eexists _, s'. split_and!; [by rewrite Hka| |done].
    exists base, K. split_and!; [by apply mm_ok_cpu; [|apply quiet_ok|]|unfold tmp_table in *; by rewrite Htabs|].
    rewrite Htab, He. intros q [Hq Hne]%elem_of_difference. rewrite elem_of_singleton in Hne.
    destruct (HP q Hq) as (r' & Hr' & -> & Hpr' & Hnt'). exists r'. split_and!; [lia|lia|done| |done].
    unfold pte_at. rewrite lookup_insert_ne; [done|]. by intros [= ->].
Defined.

(** ** Scripts: a client of the heap *)

(** kmalloc(size) on a page that may hold [garbage], and kfree of the [i]-th
    pointer the client still has. *)
Inductive heap_call := Malloc (garbage size : Z) | Free (i : nat).

Section scripts.
Context {S : Type} `{PS : PageSource S}.
Implicit Types (k : ks S) (A : gmap Z Z) (live : list Z).

Fixpoint run_script (cs : list heap_call) (live : list Z) : M (ks S) (list Z) :=
  match cs with
  | [] => mret live
  | Malloc g size :: cs' =>
      v ← kmalloc g size; run_script cs' (if v =? NULL then live else v :: live)
  | Free i :: cs' =>
      match live !! i with
      | Some v => kfree v ;; run_script cs' (base.delete i live)
      | None => run_script cs' live
      end
  end.

(** The client's pointers are the blocks in use. *)
Definition owns live A : Prop := NoDup live /\ forall v, v ∈ live <-> is_Some (A !! (v - 4)).

Definition apart A : Prop := forall x y n m, A !! x = Some n -> A !! y = Some m -> x <> y ->
  x + bsize n <= y \/ y + bsize m <= x.

Lemma heap_apart A k : heap_state A k -> apart A.
Proof.
  intros (bl & _ & Ok & <- & _) x y n m Hx%used_lookup Hy%used_lookup Hne. by apply (ho_no_overlap Ok _ _ _ _ _ _ Hx Hy).
Qed.

(** A heap without used blocks has no page left. *)
Lemma heap_empty k : heap_state ∅ k -> ps_ok ∅ (env k).
Proof.
  intros (bl & _ & Ok & Hus & Hps). replace (∅ : gset Z) with (heap_pages bl); [done|].
  replace bl with (∅ : heap); [done|]. symmetry. apply map_empty. intros b.
  destruct (bl !! b) as [v|] eqn:E; [|done]. destruct (page_has_used _ _ _ Ok E) as (x & n & Hx & _).
  apply used_lookup in Hx. by rewrite Hus in Hx.
Qed.

Lemma kmalloc_null g size k : 2044 < size -> kmalloc g size k = Done NULL k.
Proof. intros Hs. unfold kmalloc. change (2048 - sizeof_BlockHeader) with 2044. by rewrite (proj2 (Z.ltb_lt 2044 size)). Qed.

Lemma owns_malloc live A b n : owns live A -> A !! b = None -> owns (b + 4 :: live) (<[b := n]> A).
Proof.
  intros [Hnd Ho] Hb. split.
  - apply NoDup_cons. split; [|done]. rewrite Ho. replace (b + 4 - 4) with b by lia. rewrite Hb. by intros [? ?].
  - intros v. rewrite elem_of_cons, Ho, lookup_insert_is_Some. split.
    + intros [->|Hv]; [left; lia|]. destruct (decide (b = v - 4)); [by left|by right].
    + intros [E|[_ Hv]]; [left; lia|by right].
Qed.

Lemma owns_free live A i v : owns live A -> live !! i = Some v -> owns (base.delete i live) (base.delete (v - 4) A).
Proof.
  intros [Hnd Ho] Hi. pose proof (delete_Permutation live i v Hi) as Hp. rewrite Hp in Hnd.
  apply NoDup_cons in Hnd as [Hv Hnd]. split; [done|]. intros w. rewrite lookup_delete_is_Some, <- Ho.
  assert (Hin : w ∈ live <-> w = v \/ w ∈ base.delete i live).
  { transitivity (w ∈ v :: base.delete i live); [by apply elem_of_Permutation_proper|apply elem_of_cons]. }
  rewrite Hin. split; [|intros [Hne [->|Hw]]; [by destruct Hne|done]].
  intros Hw. split; [|by right]. intros E. apply Hv. by replace v with w by lia.
Qed.

Lemma run_script_ok cs live k A :
  heap_state A k -> cpu_ok (cpu_of k) -> owns live A ->
  exists live' k' A', run_script cs live k = Done live' k' /\ heap_state A' k' /\ owns live' A'.
Proof.
  revert live k A. induction cs as [|[g size|i] cs IH]; intros live k A H Hc Ho; cbn [run_script].
  - by exists live, k, A.
  - destruct (Z.ltb_spec 2044 size) as [Hs|Hs].
    { go (kmalloc_null g size k Hs). by apply (IH live k A). }
    destruct (kmalloc_run A g size k H Hc Hs) as [(k' & Hr & H' & _ & Hce & _)|(b & n & k' & Hr & H' & _ & Hce & Hf)]; go Hr.
    + apply (IH live k' A); [done| |done]. rewrite Hce. by apply do_pushcli_ok.
    + destruct Hf as (_ & _ & Hb & _ & HA & _). unfold HEAP_BASE in Hb.
      rewrite (proj2 (Z.eqb_neq (b + 4) NULL)) by (unfold NULL; lia).
      apply (IH (b + 4 :: live) k' (<[b := n]> A)); [done|by rewrite Hce|by apply owns_malloc].
  - destruct (live !! i) as [v|] eqn:Hi; [|by apply (IH live k A)].
    assert (Hv : is_Some (A !! (v - 4))) by (apply Ho; by eapply list_elem_of_lookup_2). destruct Hv as [n Hv].
    destruct (kfree_run A (v - 4) n k H Hc Hv) as (k' & Hr & H' & _ & Hce & _).
    replace (v - 4 + 4) with v in Hr by lia. go Hr.
    apply (IH _ k' (base.delete (v - 4) A)); [done|by rewrite Hce|by apply owns_free].
Qed.

(** The heap as kmalloc_init leaves it: zeroed globals, seven empty lists. *)
Definition boot_heap (e : S) : ks S := mkKs ∅ (mkLstore ∅ ∅) ∅ 0 e.

Lemma init_lists (ns : list Z) l : ls_wf l -> (forall j, ls_get l j = []) ->
  let l' := foldl (fun l i => ls_init i l) l ns in ls_wf l' /\ forall j, ls_get l' j = [].
Proof.
  revert l. induction ns as [|i ns IH]; intros l Hwf Hl; [done|]. apply IH; [by apply ls_wf_init|].
  intros j. unfold ls_init. destruct (decide (i = j)) as [->|Hne]; [by rewrite ls_get_insert|by rewrite ls_get_insert_ne].
Qed.

Lemma kmalloc_init_ok e : ps_ok ∅ e ->
  exists k, kmalloc_init (boot_heap e) = Done tt k /\ heap_state ∅ k /\ env k = e.
Proof.
  intros Hps. exists (mkKs ∅ (foldl (fun l i => ls_init i l) (mkLstore ∅ ∅) (seqZ 0 7)) ∅ 0 e).
  split_and!; [reflexivity| |done].
  destruct (init_lists (seqZ 0 7) (mkLstore ∅ ∅) ls_wf_empty ltac:(done)) as [Hwf Hl].
  exists ∅. split_and!; [split|apply heap_ok_empty| |].
  - intros b n u Hb. by rewrite lookup_empty in Hb.
  - exact Hwf.
  - intros b i. cbn [lists]. rewrite Hl, lookup_empty. split; [set_solver|by intros [? _]].
  - intros j Hj. eapply holds_ext; [apply holds_empty|done|done].
  - unfold used. apply omap_empty.
  - exact Hps.
Qed.

(** C8. kmalloc, on every heap at rest: a request above 2044 bytes is refused and
    changes nothing; any other request returns a block that is not in use, of the
    smallest size that holds it with its header, aligned to that size, inside the
    temporary pages and apart from every block in use, and changes no other used
    block; or it returns NULL because no block fits and no page is left, and then
    the lock stays taken and interrupts stay masked. It never stops the kernel. *)
Theorem kmalloc_correct A g size k :
  heap_state A k -> cpu_ok (cpu_of k) ->
  (2044 < size /\ kmalloc g size k = Done NULL k) \/
  (size <= 2044 /\ exists b n k', kmalloc g size k = Done (b + 4) k' /\ heap_state (<[b := n]> A) k' /\
     fresh_block A size b n /\ kmalloc_lock k' = 0 /\ cpu_equiv (cpu_of k') (cpu_of k)) \/
  (size <= 2044 /\ exists k', kmalloc g size k = Done NULL k' /\ heap_state A k' /\
     kmalloc_lock k' = 1 /\ IF (cpu_of k') = false /\ n_cli (cpu_of k') = n_cli (cpu_of k) + 1 /\
     exists e p va s, tp_alloc (set_cpu (do_pushcli (cpu_of k)) (env k)) = Done (e, p, va) s /\ e < 0).
Proof.
  intros H Hc. destruct (Z.ltb_spec 2044 size) as [Hs|Hs]; [left; split; [done|by apply kmalloc_null]|right].
  destruct (kmalloc_run A g size k H Hc Hs)
    as [(k' & Hr & H' & Hl & (Hi & Hn & _) & Hf)|(b & n & k' & Hr & H' & Hl & Hce & Hf)]; [right|left].
  - split; [done|]. exists k'. split_and!; done.
  - split; [done|]. exists b, n, k'. split_and!; (done || apply Hf).
Qed.

(** C9. kfree of a block in use returns it and nothing else, releases the lock and
    restores the interrupt state; the same call again, with nothing in between,
    stops the kernel: a double free does not go unnoticed. *)
Theorem kfree_correct A b n k :
  heap_state A k -> cpu_ok (cpu_of k) -> A !! b = Some n ->
  exists k', kfree (b + 4) k = Done tt k' /\ heap_state (base.delete b A) k' /\ kmalloc_lock k' = 0 /\
    cpu_equiv (cpu_of k') (cpu_of k) /\
    (kfree (b + 4) k' = Stop AssertFailed \/ kfree (b + 4) k' = Stop BadAccess).
Proof.
  intros H Hc Hb. destruct (kfree_run A b n k H Hc Hb) as (k' & Hr & H' & Hl & Hce & Hw).
  exists k'. split_and!; [done..|]. unfold kfree. go (acquire_run k').
  replace (b + 4 - sizeof_BlockHeader) with b by (unfold sizeof_BlockHeader; lia).
  assert (Hrd : hd_rd b (locked k') = match words k' !! b with Some w => Done w (locked k') | None => Stop BadAccess end).
  { unfold hd_rd. m_unfold. change (words (locked k')) with (words k'). by destruct (words k' !! b). }
  unfold mbind, M_bind. rewrite Hrd. destruct Hw as [->|(m & Hm & ->)]; [by right|left].
  by rewrite (hdr_flags _ _ (hdr_facts m false Hm)).
Qed.

(** C7. Any sequence of kmalloc and kfree calls of one client, from kmalloc_init on,
    runs to its end without stopping the kernel. The pointers the client holds at
    the end are exactly the blocks in use, their ranges do not overlap, and when it
    has freed them all every page has gone back to the page allocator. *)
Theorem heap_scripts_run cs (e : S) :
  ps_ok ∅ e -> cpu_ok (cpu_of e) ->
  exists live k A, (kmalloc_init ;; run_script cs []) (boot_heap e) = Done live k /\
    heap_state A k /\ owns live A /\ apart A /\ (live = [] -> ps_ok ∅ (env k)).
Proof.
  intros Hps Hc. destruct (kmalloc_init_ok e Hps) as (k0 & Hr & H & He). go Hr.
  assert (Hc0 : cpu_ok (cpu_of k0)) by (change (cpu_ok (cpu_of (env k0))); by rewrite He).
  destruct (run_script_ok cs [] k0 ∅ H Hc0) as (live & k & A & Hrun & H' & Ho).
  { split; [constructor|]. intros v. rewrite lookup_empty. split; [set_solver|by intros [? ?]]. }
  exists live, k, A. split_and!; [done..|by eapply heap_apart|]. intros ->. apply heap_empty.
  replace (∅ : gmap Z Z) with A; [done|]. apply map_empty. intros b. apply eq_None_not_Some.
  intros Hb. destruct Ho as [_ Ho]. replace b with (b + 4 - 4) in Hb by lia. apply Ho in Hb. set_solver.
Qed.
End scripts.

(** *** The properties at a heap of four free page frames *)

Definition demo_e : mm := demo_mm 5 4.

Lemma demo_pages : ps_ok ∅ demo_e.
Proof.
  exists 5, 0x1000. split_and!; [apply mm_ok_cpu; [apply demo_mm_ok|apply quiet_ok|done]|reflexivity|set_solver].
Qed.

Lemma demo_e_cpu : cpu_ok (cpu_of demo_e).
Proof. split; simpl; [lia|done]. Qed.

Lemma heap_scripts_run_witness :
  exists live k A, (kmalloc_init ;; run_script [Malloc 7 100; Malloc 0 20; Malloc 3 2044; Free 1; Free 0; Free 0] [])
      (boot_heap demo_e) = Done live k /\
    heap_state A k /\ owns live A /\ apart A /\ (live = [] -> ps_ok ∅ (env k)).
Proof. apply (heap_scripts_run _ demo_e demo_pages demo_e_cpu). Defined.

Definition demo_heap : ks mm :=
  mkKs ∅ (foldl (fun l i => ls_init i l) (mkLstore ∅ ∅) (seqZ 0 7)) ∅ 0 demo_e.

Lemma demo_heap_ok : heap_state ∅ demo_heap.
Proof.
  destruct (kmalloc_init_ok demo_e demo_pages) as (k & Hr & H & _). replace demo_heap with k; [done|].
  change (kmalloc_init (boot_heap demo_e)) with (@Done (ks mm) unit tt demo_heap) in Hr. by injection Hr.
Qed.

Lemma kmalloc_correct_witness :
  (2044 < 100 /\ kmalloc 7 100 demo_heap = Done NULL demo_heap) \/
  (100 <= 2044 /\ exists b n k', kmalloc 7 100 demo_heap = Done (b + 4) k' /\ heap_state (<[b := n]> ∅) k' /\
     fresh_block ∅ 100 b n /\ kmalloc_lock k' = 0 /\ cpu_equiv (cpu_of k') (cpu_of demo_heap)) \/
  (100 <= 2044 /\ exists k', kmalloc 7 100 demo_heap = Done NULL k' /\ heap_state ∅ k' /\
     kmalloc_lock k' = 1 /\ IF (cpu_of k') = false /\ n_cli (cpu_of k') = n_cli (cpu_of demo_heap) + 1 /\
     exists e p va s, tp_alloc (set_cpu (do_pushcli (cpu_of demo_heap)) (env demo_heap)) = Done (e, p, va) s /\ e < 0).
Proof. apply (kmalloc_correct ∅ 7 100 demo_heap demo_heap_ok demo_e_cpu). Defined.

(** A heap with one block in use. *)
Lemma demo_used : exists b n k, heap_state {[b := n]} k /\ cpu_ok (cpu_of k).
Proof.
  destruct (kmalloc_run ∅ 7 100 demo_heap demo_heap_ok demo_e_cpu ltac:(lia))
    as [(k' & _ & _ & _ & _ & e & p & va & s & Hr & He)|(b & n & k' & _ & H' & _ & Hce & _)].
  - exfalso. apply (f_equal (fun o => match o with Done (e, _, _) _ => e | Stop _ => 0 end)) in Hr.
    vm_compute in Hr. subst e. lia.
  - exists b, n, k'. split; [done|]. rewrite Hce. apply demo_e_cpu.
Qed.

Lemma kfree_correct_witness : exists b n k, heap_state {[b := n]} k /\
  exists k', kfree (b + 4) k = Done tt k' /\ heap_state (base.delete b {[b := n]}) k' /\ kmalloc_lock k' = 0 /\
    cpu_equiv (cpu_of k') (cpu_of k) /\
    (kfree (b + 4) k' = Stop AssertFailed \/ kfree (b + 4) k' = Stop BadAccess).
Proof.
  destruct demo_used as (b & n & k & H & Hc). exists b, n, k. split; [done|].
  apply (kfree_correct {[b := n]} b n k H Hc). apply lookup_singleton_eq.
Defined.
