(* ===== verification/FsHeap.v ===== *)
(** The kernel heap keeps the promise the file system needs: an instance of
    AllocSpec from the lemmas of KmallocProps. *)

From S2P Require Import Prelude Spinlock ListSpec PhysMem VirtMem Kmalloc Buddy KmallocProps Fs.

(** The kernel heap, on pages that hold [garbage]. *)
Definition Alloc_ks {S : Type} `{!TmpPages S} (garbage : Z) : Alloc (ks S) :=
  {| al_malloc := kmalloc garbage; al_free := kfree |}.

Section heap.
Context {S : Type} `{PS : PageSource S} (garbage : Z).

(** The pointers the heap has handed out: the headers of its blocks plus four. *)
Definition pointers (A : gmap Z Z) : gset Z := set_map (fun b => b + 4) (dom A).

Definition heap_in_use (L : gset Z) (k : ks S) : Prop :=
  exists A, heap_state A k /\ cpu_ok (cpu_of k) /\ L = pointers A.

Lemma elem_of_pointers A p : p ∈ pointers A <-> is_Some (A !! (p - 4)).
Proof.
  unfold pointers. rewrite elem_of_map. setoid_rewrite elem_of_dom. split.
  - intros (b & -> & Hb). by replace (b + 4 - 4) with b by lia.
  - intros Hb. exists (p - 4). split; [lia|done].
Qed.

Lemma heap_malloc_ok L k size : heap_in_use L k -> size <= 2044 ->
  (exists k', kmalloc garbage size k = Done NULL k') \/
  (exists p k', kmalloc garbage size k = Done p k' /\ p <> NULL /\ p ∉ L /\ heap_in_use ({[p]} ∪ L) k').
Proof.
  intros (A & Hs & Hc & ->) Hsz.
  destruct (kmalloc_run A garbage size k Hs Hc Hsz)
    as [(k' & Hr & _)|(b & n & k' & Hr & Hs' & _ & Hce & _ & _ & Hb & _ & Hfree & _)].
  { left. by exists k'. }
  right. exists (b + 4), k'. split_and!; [done| | |].
  - unfold HEAP_BASE in Hb. unfold NULL. lia.
  - rewrite elem_of_pointers. replace (b + 4 - 4) with b by lia. rewrite Hfree. by intros [? ?].
  - exists (<[b := n]> A). split_and!; [done|by rewrite Hce|].
    apply set_eq. intros p. rewrite elem_of_union, elem_of_singleton, !elem_of_pointers, lookup_insert_is_Some'.
    split; (intros [E|Hp]; [left; lia|by right]).
Qed.

Lemma heap_free_ok L k p : heap_in_use L k -> p ∈ L ->
  exists k', kfree p k = Done tt k' /\ heap_in_use (L ∖ {[p]}) k'.
Proof.
  intros (A & Hs & Hc & ->) [n Hn]%elem_of_pointers.
  destruct (kfree_run A (p - 4) n k Hs Hc Hn) as (k' & Hr & Hs' & _ & Hce & _).
  replace (p - 4 + 4) with p in Hr by lia. exists k'. split; [done|].
  exists (base.delete (p - 4) A). split_and!; [done|by rewrite Hce|].
  apply set_eq. intros q. rewrite elem_of_difference, elem_of_singleton, !elem_of_pointers, lookup_delete_is_Some.
  split; [intros [Hq Hne]; split; [lia|done]|intros [Hne Hq]; split; [done|lia]].
Qed.

Definition AllocSpec_ks : @AllocSpec (ks S) (Alloc_ks garbage) :=
  @Build_AllocSpec (ks S) (Alloc_ks garbage) heap_in_use heap_malloc_ok heap_free_ok.
End heap.
