(* ===== verification/PathProps.v ===== *)
(** Path resolution: what the cache of directory entries (kernel/fs/dirent.cpp) finds is
    what walking the abstract tree of the file system finds, from every state of the
    cache, and the cache stays consistent with the tree. *)

From S2P Require Import Prelude Spinlock ListSpec Util Fs DenemeFs DenemeSpec DenemeProps DenemeRefine Vfs VfsFile VfsProps.
From S2P Require Import PhysMem VirtMem Kmalloc Buddy KmallocProps FsHeap.

Local Ltac go H := rewrite (bind_done _ _ _ _ _ H).

(** parse_path_i ends at the zero as it does at the length. *)
Lemma parse_path_stop pre text buf :
  parse_path_loop (S (length text)) (pre ++ text ++ [0]) (Z.of_nat (length pre)) buf =
  parse_path_loop (length text) (pre ++ text ++ [0]) (Z.of_nat (length pre)) buf.
Proof.
  assert (HS : forall n p i b, parse_path_loop (S n) p i b =
    (c ← p !! Z.to_nat i; if c =? 0 then buf_close 0 b else if (0 <? Z.of_nat (length b)) && (c =? 47) then buf_close (i + 1) b
     else b' ← (if negb (c =? 47) then buf_put c b else Some b); parse_path_loop n p (i + 1) b')) by done.
  revert pre buf. induction text as [|x text IH]; intros pre buf; cbn [length]; rewrite HS.
  - rewrite Nat2Z.id, lookup_app_r, Nat.sub_diag by done. done.
  - rewrite HS. destruct (_ !! _) as [c|]; [|done]. cbn [mbind option_bind]. case_match; [done|]. case_match; [done|].
    destruct (if negb (c =? 47) then _ else _) as [b'|]; [|done]. cbn [mbind option_bind].
    specialize (IH (pre ++ [x]) b'). rewrite <- !app_assoc, length_app in IH. cbn [app length] in IH.
    replace (Z.of_nat (length pre) + 1) with (Z.of_nat (length pre + 1)) by lia. exact IH.
Qed.

(** * The specification *)

(** Where a path leads from the place [st]: the inodes from the place up to the root,
    which is not in the list. Every name is looked up in the directory that was
    reached; "." stays, ".." goes up, and stays at the root. *)
Fixpoint resolve (a : afs) (st : list Z) (names : list cstr) : option (list Z) :=
  match names with
  | [] => Some st
  | name :: names =>
      if streq name str_dot then resolve a st names
      else if streq name str_dotdot then resolve a (tail st) names
      else match a !! default 0 (head st) with
           | Some (ADir _ _ m) => no ← m !! name; resolve a (no :: st) names
           | _ => None
           end
  end.

(** ** The heap, under a processor that changes *)

Class AllocCpu (H : Type) `{!HasCpu H} `{AS : AllocSpec H} := {
  al_ok_cpu : forall L h c, al_ok L h -> cpu_ok c -> al_ok L (set_cpu c h);
  al_malloc_cpu : forall L h size p h', al_ok L h -> cpu_ok (cpu_of h) -> size <= 2044 ->
    al_malloc size h = Done p h' -> p <> NULL -> cpu_equiv (cpu_of h') (cpu_of h);
}.

(** The number of references that a list of holders keeps. *)
Definition count (d : Z) (hs : list Z) : Z := Z.of_nat (length (filter (.= d) hs)).

Lemma count_cons d x hs : count d (x :: hs) = (if bool_decide (x = d) then 1 else 0) + count d hs.
Proof. unfold count. rewrite filter_cons. case_bool_decide; case_decide; try done; cbn [length]; lia. Qed.
Lemma count_bound d hs : 0 <= count d hs <= Z.of_nat (length hs).
Proof. unfold count. pose proof (length_filter (.= d) hs). lia. Qed.
Lemma count_notin d hs : d ∉ hs -> count d hs = 0.
Proof.
  induction hs as [|x hs IH]; [done|]. rewrite count_cons, not_elem_of_cons. intros [? ?].
  rewrite bool_decide_false by done. rewrite IH by done. done.
Qed.

Section path.
Context {H : Type} `{!HasCpu H} `{AS : AllocSpec H} `{!AllocCpu H}.
Notation V := (vfs H).
Implicit Types (s : V) (a : afs) (h : H).

(** The next [n] allocations succeed, whatever the processor's state is. *)
Fixpoint room (n : nat) h : Prop :=
  match n with
  | O => True
  | S n => forall c size, cpu_ok c -> size <= 2044 ->
      exists p h', al_malloc size (set_cpu c h) = Done p h' /\ p <> NULL /\ room n h'
  end.

(** The number of the inode of an entry. *)
Definition num s (d : Z) : option Z := e ← v_dirents s !! d; ino <$> v_inodes s !! d_inode e.

(** The entry [d] of the cache is the place [st]. *)
Fixpoint at_path s (root d : Z) (st : list Z) : Prop :=
  match st with
  | [] => d = root
  | no :: st => d <> root /\ num s d = Some no /\ exists e, v_dirents s !! d = Some e /\ at_path s root (d_parent e) st
  end.

(** ** The cache and the tree

    [X] is the inode that is locked, [rf] counts the references to every entry, but for
    those of the holders [hs], [n] allocations are left, and the processor is
    in the state [c]. *)
Record cached a (root : Z) (X : option Z) (rf : Z -> Z) (hs : list Z) (n : nat) (c : Cpu) s : Prop := mkCached {
  ca_ok : cpu_ok c;
  ca_cpu : cpu_equiv (cpu_of s) c;
  ca_repr : repr a (v_fs s);
  ca_heap : exists L, al_ok L (fs_heap (v_fs s)) /\
    (forall i d, is_Some (a !! i) -> fs_di (v_fs s) !! Z.to_nat i = Some d -> d_data d ∈ L) /\
    (forall d, is_Some (v_dirents s !! d) -> d ∈ L) /\ (forall p, is_Some (v_inodes s !! p) -> p ∈ L);
  ca_room : room n (fs_heap (v_fs s));
  ca_dirent : forall d e, v_dirents s !! d = Some e ->
    d_inode e <> NULL /\ d_refs e = rf d + count d hs /\
    exists i nd, v_inodes s !! d_inode e = Some i /\ a !! ino i = Some nd /\ op i = Some (anode_op nd);
  ca_refs : forall d, 1 <= rf d < 2 ^ 30;
  ca_fresh : forall d, v_dirents s !! d = None -> rf d = 1;
  ca_held : forall d, d ∈ hs -> is_Some (v_dirents s !! d);
  ca_inode : forall p i, v_inodes s !! p = Some i ->
    wait_list i = [] /\ lock_val i = if bool_decide (X = Some p) then 0 else 1;
  ca_child : forall d c, c ∈ ls_get (v_childs s) d -> exists e no no',
    v_dirents s !! c = Some e /\ d_parent e = d /\ num s d = Some no /\ num s c = Some no' /\ entry a no (d_name e) no';
  ca_root : num s root = Some 0;
  ca_nodes : forall c, is_Some (ls_owner (v_childs s) !! c) -> is_Some (v_dirents s !! c);
}.

(** What stays while paths are looked up. *)
Definition ext s s' : Prop :=
  (forall d e, v_dirents s !! d = Some e -> exists e', v_dirents s' !! d = Some e' /\
     d_inode e' = d_inode e /\ d_parent e' = d_parent e /\ d_name e' = d_name e) /\
  (forall p i, v_inodes s !! p = Some i -> exists i', v_inodes s' !! p = Some i' /\ ino i' = ino i) /\
  v_tasks s' = v_tasks s.

Lemma ext_refl s : ext s s.
Proof. split_and!; eauto 6. Qed.
Lemma ext_trans s1 s2 s3 : ext s1 s2 -> ext s2 s3 -> ext s1 s3.
Proof.
  intros (D & I & T) (D' & I' & T'). split_and!.
  - intros d e E. destruct (D d e E) as (e1 & E1 & ? & ? & ?). destruct (D' d e1 E1) as (e2 & E2 & ? & ? & ?).
    exists e2. split_and!; congruence.
  - intros p i E. destruct (I p i E) as (i1 & E1 & ?). destruct (I' p i1 E1) as (i2 & E2 & ?). exists i2. split; congruence.
  - congruence.
Qed.

Lemma num_ext s s' d no : ext s s' -> num s d = Some no -> num s' d = Some no.
Proof.
  intros (D & I & _). unfold num. destruct (v_dirents s !! d) as [e|] eqn:E; [|done]. cbn [mbind option_bind].
  destruct (v_inodes s !! d_inode e) as [i|] eqn:Ei; [|done]. intros [= <-].
  destruct (D d e E) as (e' & -> & Hi & _). destruct (I _ i Ei) as (i' & Ei' & Hn). cbn [mbind option_bind].
  rewrite Hi, Ei'. cbn. by rewrite Hn.
Qed.
Lemma at_path_ext s s' root st d : ext s s' -> at_path s root d st -> at_path s' root d st.
Proof.
  intros E. revert d. induction st as [|no st IH]; intros d; [done|]. intros (Hr & Hn & e & He & Hp).
  split; [done|]. split; [by eapply num_ext|]. destruct (proj1 E d e He) as (e' & He' & _ & Hpar & _).
  exists e'. split; [done|]. rewrite Hpar. by apply IH.
Qed.

(** ** Preservation by the updates of the state *)

Lemma cached_cpu a root X rf hs n c s c' : cached a root X rf hs n c s -> cpu_ok c' ->
  cached a root X rf hs n c' (set_cpu c' s).
Proof.
  intros [Hok Hc HR (L & HL & Hrest) Hroom Hd Hrf Hfr Hh Hi Hch Hr Hn] Hok'. split; try done.
  - by rewrite cpu_of_set.
  - destruct HR as (T & C & U). split_and!; [done| |done].
    apply (core_frame a (v_fs s)); try done; [by destruct C|]. exists L. split; [by apply al_ok_cpu|apply Hrest].
  - exists L. split; [by apply al_ok_cpu|done].
  - destruct n as [|n]; [done|]. cbn [room]. intros c0 size H1 H2. cbn. rewrite set_cpu_set. by apply Hroom.
Qed.

Lemma ext_cpu s c : ext s (set_cpu c s).
Proof. split_and!; cbn; eauto 6. Qed.

Lemma num_dr s d e e' x : v_dirents s !! d = Some e -> d_inode e' = d_inode e -> num (upd_dr d e' s) x = num s x.
Proof.
  intros E Hi. unfold num; cbn. destruct (decide (x = d)) as [->|Hx].
  - rewrite lookup_insert_eq, E. cbn. by rewrite Hi.
  - by rewrite lookup_insert_ne.
Qed.
Lemma num_ino s p i i' x : v_inodes s !! p = Some i -> ino i' = ino i -> num (upd_ino p i' s) x = num s x.
Proof.
  intros E Hi. unfold num; cbn. destruct (v_dirents s !! x) as [e|]; [|done]. cbn [mbind option_bind].
  destruct (decide (d_inode e = p)) as [->|Hx].
  - rewrite lookup_insert_eq, E. cbn. by rewrite Hi.
  - by rewrite lookup_insert_ne.
Qed.

Lemma cached_dr a root X rf hs n c s d e e' hs' : cached a root X rf hs n c s -> v_dirents s !! d = Some e ->
  d_inode e' = d_inode e -> d_parent e' = d_parent e -> d_name e' = d_name e ->
  d_refs e' = rf d + count d hs' ->
  (forall x, x <> d -> count x hs' = count x hs) -> (forall x, x ∈ hs' -> x = d \/ x ∈ hs) ->
  cached a root X rf hs' n c (upd_dr d e' s) /\ ext s (upd_dr d e' s).
Proof.
  intros C E Hi Hp Hn Hr Hc Hh. split.
  - assert (Hsome : forall x, is_Some (v_dirents (upd_dr d e' s) !! x) <-> is_Some (v_dirents s !! x)).
    { intros x. cbn. rewrite lookup_insert_is_Some'. split; [intros [<-|]; eauto|eauto]. }
    destruct C as [Hok Hcpu HR (L & HL & Hd1 & Hd2 & Hd3) Hroom Hde Hrf Hfr Hhe Hin Hch Hro Hno]. split; try done.
    + exists L. split_and!; try done. intros x Hx. apply Hd2, Hsome, Hx.
    + intros x ex. cbn. destruct (decide (x = d)) as [->|Hx].
      * rewrite lookup_insert_eq. intros [= <-]. rewrite Hi. destruct (Hde d e E) as (? & _ & Hnd). done.
      * rewrite lookup_insert_ne by done. intros Ex. destruct (Hde x ex Ex) as (? & ? & Hnd). rewrite (Hc x Hx).
        done.
    + intros x. cbn. destruct (decide (x = d)) as [->|Hx]; [by rewrite lookup_insert_eq|]. rewrite lookup_insert_ne by done. apply Hfr.
    + intros x Hx. apply Hsome. destruct (Hh x Hx) as [->|]; eauto.
    + intros x y Hy. destruct (Hch x y Hy) as (ey & no & no' & Ey & Hpar & N1 & N2 & Hent).
      setoid_rewrite (num_dr s d e e' _ E Hi). cbn. destruct (decide (y = d)) as [->|Hy'].
      * rewrite lookup_insert_eq. rewrite E in Ey. injection Ey as <-. exists e', no, no'. rewrite Hp, Hn. done.
      * rewrite lookup_insert_ne by done. by exists ey, no, no'.
    + by rewrite (num_dr s d e e' _ E Hi).
    + intros x Hx. apply Hsome. by apply Hno.
  - split_and!; cbn; [|eauto|done]. intros x ex Ex. destruct (decide (x = d)) as [->|Hx].
    + rewrite lookup_insert_eq. rewrite E in Ex. injection Ex as <-. by exists e'.
    + rewrite lookup_insert_ne by done. by exists ex.
Qed.

Lemma cached_ino a root X rf hs n c s p i i' X' : cached a root X rf hs n c s -> v_inodes s !! p = Some i ->
  ino i' = ino i -> op i' = op i -> wait_list i' = [] -> lock_val i' = (if bool_decide (X' = Some p) then 0 else 1) ->
  (forall q, q <> p -> X' = Some q <-> X = Some q) ->
  cached a root X' rf hs n c (upd_ino p i' s) /\ ext s (upd_ino p i' s).
Proof.
  intros C E Hi Ho Hw Hl HX. split.
  - destruct C as [Hok Hcpu HR (L & HL & Hd1 & Hd2 & Hd3) Hroom Hde Hrf Hfr Hhe Hin Hch Hro Hno]. split; try done.
    + exists L. split_and!; try done. intros x. cbn. rewrite lookup_insert_is_Some'. intros [<-|]; eauto.
    + intros x ex Ex. destruct (Hde x ex Ex) as (? & ? & j & nd & Ej & Hnd & Hop). split_and!; try done; try lia. cbn.
      destruct (decide (p = d_inode ex)) as [->|Hne].
      * rewrite E in Ej. injection Ej as <-. exists i', nd. rewrite lookup_insert_eq, Hi, Ho. done.
      * exists j, nd. by rewrite lookup_insert_ne.
    + intros q j. cbn. destruct (decide (p = q)) as [->|Hne].
      * rewrite lookup_insert_eq. by intros [= <-].
      * rewrite lookup_insert_ne by done. intros Ej. destruct (Hin q j Ej) as [? ->]. split; [done|].
        by rewrite (bool_decide_ext _ _ (HX q (not_eq_sym Hne))).
    + intros x y Hy. setoid_rewrite (num_ino s p i i' _ E Hi). by apply Hch.
    + by rewrite (num_ino s p i i' _ E Hi).
  - split_and!; cbn; [eauto 6| |done]. intros q j Ej. destruct (decide (q = p)) as [->|Hne].
    + rewrite lookup_insert_eq. rewrite E in Ej. injection Ej as <-. by exists i'.
    + rewrite lookup_insert_ne by done. by exists j.
Qed.

(** ** The operations *)

(** Another state of the processor. *)
Lemma cached_move a root X rf hs n c s c' c2 : cached a root X rf hs n c s -> cpu_equiv c' c2 -> cpu_ok c2 ->
  cached a root X rf hs n c2 (set_cpu c' s).
Proof.
  intros C Hc Hok. assert (Hok' : cpu_ok c') by (by rewrite Hc).
  destruct (cached_cpu _ _ _ _ _ _ _ _ _ C Hok'). split; try done. by rewrite cpu_of_set.
Qed.
Lemma cached_veq a root X rf hs n c s s' : cached a root X rf hs n c s -> veq s s' ->
  cached a root X rf hs n c s' /\ ext s s'.
Proof.
  intros C (c' & -> & Hc). split; [|apply ext_cpu]. apply (cached_move _ _ _ _ _ _ c _ _ _ C); [|apply C].
  by rewrite Hc, (ca_cpu _ _ _ _ _ _ _ _ C).
Qed.
Lemma cached_cpu_ok a root X rf hs n c s : cached a root X rf hs n c s -> cpu_ok (cpu_of s).
Proof. intros C. rewrite (ca_cpu _ _ _ _ _ _ _ _ C). apply C. Qed.

Lemma push_cached a root X rf hs n c s : cached a root X rf hs n c s ->
  exists s', pushcli s = Done tt s' /\ cached a root X rf hs n (do_pushcli c) s' /\ ext s s'.
Proof.
  intros C. eexists. split; [apply pushcli_done|]. split; [|apply ext_cpu]. apply (cached_move _ _ _ _ _ _ c _ _ _ C).
  - by rewrite (ca_cpu _ _ _ _ _ _ _ _ C).
  - by apply do_pushcli_ok, C.
Qed.

Lemma pop_cached a root X rf hs n c s : cached a root X rf hs n (do_pushcli c) s -> cpu_ok c ->
  exists s', popcli s = Done tt s' /\ cached a root X rf hs n c s' /\ ext s s'.
Proof.
  intros C Hok. destruct (popcli_run (set_cpu c s) s) as (c' & Hp & Hc); [by rewrite cpu_of_set|rewrite cpu_of_set; apply C|].
  rewrite cpu_of_set in Hc. exists (set_cpu c' s). split; [done|]. split; [|apply ext_cpu].
  by apply (cached_move _ _ _ _ _ _ _ _ _ _ C).
Qed.

Lemma inode_lock_cached a root rf hs n c s p i : cached a root None rf hs n c s -> v_inodes s !! p = Some i ->
  exists s', inode_lock p s = Done tt s' /\ cached a root (Some p) rf hs n c s' /\ ext s s'.
Proof.
  intros C E. destruct (ca_inode _ _ _ _ _ _ _ _ C p i E) as [Hw Hl]. change (lock_val i = 1) in Hl.
  destruct (inode_lock_run p i s E Hl (cached_cpu_ok _ _ _ _ _ _ _ _ C)) as (s' & Hr & Hv).
  destruct (cached_ino a root None rf hs n c s p i (set_lock_val 0 i) (Some p) C E eq_refl eq_refl Hw) as [C' E'].
  { cbn. by rewrite bool_decide_true. }
  { intros q Hq. split; [by intros [=]|done]. }
  destruct (cached_veq _ _ _ _ _ _ _ _ _ C' Hv) as [C'' E'']. exists s'. eauto using ext_trans.
Qed.

Lemma inode_unlock_cached a root rf hs n c s p i : cached a root (Some p) rf hs n c s -> v_inodes s !! p = Some i ->
  exists s', inode_unlock p s = Done tt s' /\ cached a root None rf hs n c s' /\ ext s s'.
Proof.
  intros C E. destruct (ca_inode _ _ _ _ _ _ _ _ C p i E) as [Hw Hl]. rewrite bool_decide_true in Hl by done.
  destruct (inode_unlock_run p i s E Hl Hw (cached_cpu_ok _ _ _ _ _ _ _ _ C)) as (s' & Hr & Hv).
  destruct (cached_ino a root (Some p) rf hs n c s p i (set_lock_val 1 i) None C E eq_refl eq_refl Hw) as [C' E'].
  { done. }
  { intros q Hq. split; [done|by intros [=]]. }
  destruct (cached_veq _ _ _ _ _ _ _ _ _ C' Hv) as [C'' E'']. exists s'. eauto using ext_trans.
Qed.

(** dirent->lock of an entry that is there *)
Lemma acquire_cached a root X rf hs n c s d e : cached a root X rf hs n c s -> v_dirents s !! d = Some e ->
  exists s', dr_acquire d s = Done tt s' /\ cached a root X rf hs n (do_pushcli c) s' /\ ext s s' /\
    v_dirents s' !! d = Some (set_d_lock 1 e).
Proof.
  intros C E. unfold dr_acquire. go (dr_rd_run d e s E). rewrite spinlock_acquire_run.
  destruct (push_cached _ _ _ _ _ _ _ _ C) as (s1 & [= <-] & C1 & E1). eexists. split; [reflexivity|].
  set (s1 := set_cpu _ s) in *. assert (Hd1 : v_dirents s1 !! d = Some e) by done.
  assert (Hs : set_v_dirents (alter (set_d_lock 1) d (v_dirents s1)) s1 = upd_dr d (set_d_lock 1 e) s1).
  { unfold upd_dr. f_equal. apply map_eq. intros x. destruct (decide (x = d)) as [->|Hx].
    - by rewrite lookup_alter_eq, lookup_insert_eq, Hd1.
    - by rewrite lookup_alter_ne, lookup_insert_ne. }
  rewrite Hs. destruct (ca_dirent _ _ _ _ _ _ _ _ C1 d e Hd1) as (_ & Hr & _).
  destruct (cached_dr a root X rf hs n _ s1 d e (set_d_lock 1 e) hs C1 Hd1) as [C2 E2]; try done; [by intros ? ?; right|].
  split; [done|]. split; [exact (ext_trans _ _ _ E1 E2)|]. apply upd_dr_lookup.
Qed.

Lemma release_cached a root X rf hs n c s d : cached a root X rf hs n (do_pushcli c) s -> cpu_ok c ->
  is_Some (v_dirents s !! d) ->
  exists s', dr_release d s = Done tt s' /\ cached a root X rf hs n c s' /\ ext s s'.
Proof.
  intros C Hok [e E]. unfold dr_release. go (dr_rd_run d e s E). unfold spinlock_release.
  go (eq_refl : modify (fun s => set_v_dirents (alter (set_d_lock 0) d (v_dirents s)) s) s
                = Done tt (set_v_dirents (alter (set_d_lock 0) d (v_dirents s)) s)).
  assert (Hs : set_v_dirents (alter (set_d_lock 0) d (v_dirents s)) s = upd_dr d (set_d_lock 0 e) s).
  { unfold upd_dr. f_equal. apply map_eq. intros x. destruct (decide (x = d)) as [->|Hx].
    - by rewrite lookup_alter_eq, lookup_insert_eq, E.
    - by rewrite lookup_alter_ne, lookup_insert_ne. }
  rewrite Hs. destruct (ca_dirent _ _ _ _ _ _ _ _ C d e E) as (_ & Hr & _).
  destruct (cached_dr a root X rf hs n _ s d e (set_d_lock 0 e) hs C E) as [C2 E2]; try done; [by intros ? ?; right|].
  destruct (pop_cached _ _ _ _ _ _ _ _ C2 Hok) as (s3 & H3 & C3 & E3). exists s3. eauto using ext_trans.
Qed.

Lemma dirent_dup_cached a root X rf hs n c s d : cached a root X rf hs n c s -> is_Some (v_dirents s !! d) -> Z.of_nat (length hs) < 2 ^ 30 ->
  exists s', dirent_dup d s = Done d s' /\ cached a root X rf (d :: hs) n c s' /\ ext s s'.
Proof.
  intros C [e E] HB. unfold dirent_dup. destruct (acquire_cached _ _ _ _ _ _ _ _ _ _ C E) as (s1 & H1 & C1 & X1 & E1). go H1.
  go (dr_wr_run d _ (fun e => set_d_refs (i32 (d_refs e + 1)) e) s1 E1).
  destruct (ca_dirent _ _ _ _ _ _ _ _ C d e E) as (_ & Hr & _). pose proof (count_bound d hs) as Hc0. pose proof (ca_refs _ _ _ _ _ _ _ _ C d) as Hrf.
  set (e' := set_d_refs _ _). change (set_v_dirents _ s1) with (upd_dr d e' s1).
  assert (He' : d_refs e' = d_refs e + 1) by (cbn; apply i32_small; lia).
  destruct (cached_dr a root X rf hs n _ s1 d _ e' (d :: hs) C1 E1) as [C2 X2]; try done.
  - rewrite count_cons, bool_decide_true by done. rewrite He'. lia.
  - intros x Hx. rewrite count_cons, bool_decide_false by done. done.
  - intros x. rewrite elem_of_cons. naive_solver.
  - destruct (release_cached a root X rf (d :: hs) n c _ d C2 (ca_ok _ _ _ _ _ _ _ _ C)) as (s3 & H3 & C3 & X3).
    { rewrite upd_dr_lookup. eauto. }
    go H3. exists s3. eauto using ext_trans.
Qed.

Lemma dirent_free_cached a root X rf hs n c s d : cached a root X rf (d :: hs) n c s -> Z.of_nat (length hs) < 2 ^ 30 ->
  exists s', dirent_free d s = Done tt s' /\ cached a root X rf hs n c s' /\ ext s s'.
Proof.
  intros C HB. destruct (ca_held _ _ _ _ _ _ _ _ C d) as [e E]; [by left|].
  destruct (ca_dirent _ _ _ _ _ _ _ _ C d e E) as (_ & Hr & _). pose proof (count_bound d hs) as Hc0. pose proof (ca_refs _ _ _ _ _ _ _ _ C d) as Hrf.
  rewrite count_cons, bool_decide_true in Hr by done.
  destruct (dirent_free_run d e s E ltac:(lia) (cached_cpu_ok _ _ _ _ _ _ _ _ C)) as (s1 & H1 & V1).
  destruct (cached_dr a root X rf (d :: hs) n c s d e (set_d_refs (d_refs e - 1) e) hs C E) as [C2 X2]; try done.
  - cbn. lia.
  - intros x Hx. by rewrite count_cons, bool_decide_false.
  - intros x Hx. right. by right.
  - destruct (cached_veq _ _ _ _ _ _ _ _ _ C2 V1) as [C3 X3]. exists s1. eauto using ext_trans.
Qed.

(** ** Allocation *)

(** [p] is from the heap, and the heap knows all that is in use. *)
Definition owned a s (p : Z) : Prop := exists L, al_ok L (fs_heap (v_fs s)) /\ p ∈ L /\
  (forall i d, is_Some (a !! i) -> fs_di (v_fs s) !! Z.to_nat i = Some d -> d_data d ∈ L) /\
  (forall d, is_Some (v_dirents s !! d) -> d ∈ L) /\ (forall p, is_Some (v_inodes s !! p) -> p ∈ L).

Lemma malloc_cached a root X rf hs n c s size : cached a root X rf hs (S n) c s -> size <= 2044 ->
  exists p h', kmalloc_struct size s = Done p (set_v_fs (mkDfs (fs_di (v_fs s)) (fs_data (v_fs s)) h') s) /\
    let s' := set_v_fs (mkDfs (fs_di (v_fs s)) (fs_data (v_fs s)) h') s in
    cached a root X rf hs n c s' /\ ext s s' /\ owned a s' p /\ p <> NULL /\ v_inodes s !! p = None /\ v_dirents s !! p = None.
Proof.
  intros C Hsz. pose proof (cached_cpu_ok _ _ _ _ _ _ _ _ C) as Hcok.
  destruct C as [Hok Hcpu HR (L & HL & Hd1 & Hd2 & Hd3) Hroom Hde Hrf Hfr Hhe Hin Hch Hro Hno].
  destruct (Hroom (cpu_of s) size Hcok Hsz) as (p & h' & Hm & Hp & Hroom').
  change (set_cpu (cpu_of s) (fs_heap (v_fs s))) with (set_cpu (cpu_of (fs_heap (v_fs s))) (fs_heap (v_fs s))) in Hm.
  rewrite set_cpu_of in Hm.
  destruct (al_malloc_run L _ size HL Hsz) as [(h2 & E2)|(p2 & h2 & E2 & _ & HpL & HL')]; rewrite Hm in E2.
  { by injection E2. }
  injection E2 as <- <-. pose proof (al_malloc_cpu L _ size p h' HL Hcok Hsz Hm Hp) as Hce.
  assert (HD : forall (T : Type) (m : gmap Z T), (forall x, is_Some (m !! x) -> x ∈ L) -> m !! p = None).
  { intros T m Hx. apply eq_None_not_Some. intros Hs. by apply HpL, Hx. }
  exists p, h'. split.
  { unfold kmalloc_struct, in_dfs, in_alloc, zoom. m_unfold. rewrite Hm. by rewrite (proj2 (Z.eqb_neq p NULL)). }
  cbv zeta. split_and!; [split; try done|split_and!; cbn; eauto 6| |done|by apply HD|by apply HD].
  - by etrans; [exact Hce|].
  - destruct HR as (T & C & U). split_and!; [done| |done].
    apply (core_frame a (v_fs s)); try done; [by destruct C|]. exists ({[p]} ∪ L). split; [done|].
    intros i d Hi Hd. cbn in Hd. set_solver.
  - exists ({[p]} ∪ L). split_and!; [done|..]; intros; cbn in *; set_solver.
  - exists ({[p]} ∪ L). split_and!; [done|set_solver|..]; intros; cbn in *; set_solver.
Qed.

Lemma cached_new_ino a root X rf hs n c s p i : cached a root X rf hs n c s -> owned a s p -> v_inodes s !! p = None ->
  wait_list i = [] -> lock_val i = 1 -> X <> Some p ->
  cached a root X rf hs n c (upd_ino p i s) /\ ext s (upd_ino p i s).
Proof.
  intros C (L' & HL' & Hp' & H1 & H2 & H3) Hp Hw Hl HX.
  assert (Hother : forall q j, v_inodes s !! q = Some j -> v_inodes (upd_ino p i s) !! q = Some j).
  { intros q j Hj. cbn. rewrite lookup_insert_ne; [done|]. intros ->. congruence. }
  assert (E : ext s (upd_ino p i s)) by (split_and!; cbn; eauto 6). split; [|done].
  destruct C as [Hok Hcpu HR _ Hroom Hde Hrf Hfr Hhe Hin Hch Hro Hno]. split; try done.
  - exists L'. split_and!; try done. intros x. cbn. rewrite lookup_insert_is_Some'. intros [<-|]; auto.
  - intros x ex Ex. destruct (Hde x ex Ex) as (? & ? & j & nd & Ej & ? & ?). split_and!; try done. exists j, nd. auto.
  - intros q j. cbn. destruct (decide (p = q)) as [->|Hne].
    + rewrite lookup_insert_eq. intros [= <-]. by rewrite bool_decide_false.
    + rewrite lookup_insert_ne by done. apply Hin.
  - intros x y Hy. destruct (Hch x y Hy) as (ey & no & no' & ? & ? & N1 & N2 & ?). exists ey, no, no'.
    split_and!; try done; by eapply num_ext.
  - by eapply num_ext.
Qed.

Definition new_inode : inode := set_lock_val 1 (set_ref_count 1 inode_zero).

Lemma inode_alloc_cached a root X rf hs n c s : cached a root X rf hs (S n) c s ->
  exists p s1, inode_alloc s = Done p (upd_ino p new_inode s1) /\ cached a root X rf hs n c s1 /\ ext s s1 /\
    owned a s1 p /\ p <> NULL /\ v_inodes s1 !! p = None.
Proof.
  intros C. destruct (malloc_cached _ _ _ _ _ _ _ _ sizeof_inode C ltac:(done)) as (p & h' & Hm & C1 & E1 & Ow & Hp & Hi & _).
  unfold inode_alloc. go Hm. eexists _, _. split; [reflexivity|]. done.
Qed.

Lemma inode_free_run p i s : v_inodes s !! p = Some i -> ino_free i -> 0 < ref_count i < 2 ^ 31 -> cpu_ok (cpu_of s) ->
  exists s', inode_free p s = Done tt s' /\ veq (upd_ino p (set_ref_count (ref_count i - 1) i) s) s'.
Proof.
  intros Hi [Hl Hw] Hr Hok. unfold inode_free. destruct (inode_lock_run p i s Hi Hl Hok) as (s1 & H1 & V1). go H1.
  destruct (veq_fields _ _ V1) as (F1 & _).
  assert (Hi1 : v_inodes s1 !! p = Some (set_lock_val 0 i)) by (by rewrite F1, upd_ino_lookup).
  go (ino_wr_run p _ (fun i => set_ref_count (i32 (ref_count i - 1)) i) s1 Hi1).
  set (i2 := set_ref_count (i32 (ref_count i - 1)) (set_lock_val 0 i)). change (set_v_inodes _ s1) with (upd_ino p i2 s1).
  assert (Hi2 : ref_count i2 = ref_count i - 1) by (cbn; apply i32_small; lia).
  go (ino_rd_run p i2 (upd_ino p i2 s1) (upd_ino_lookup _ _ _)). rewrite Hi2, (proj2 (Z.ltb_ge _ 0)) by lia.
  destruct (inode_unlock_run p i2 (upd_ino p i2 s1) (upd_ino_lookup _ _ _) eq_refl Hw) as (s2 & H2 & V2).
  { by apply (veq_ok _ _ V1). }
  exists s2. split; [done|]. eapply veq_trans; [|exact V2]. rewrite upd_ino_twice.
  eapply (veq_upd_ino p (set_lock_val 1 i2)) in V1. rewrite upd_ino_twice in V1.
  assert (Ei : set_lock_val 1 i2 = set_ref_count (ref_count i - 1) i).
  { unfold i2. rewrite i32_small by lia. destruct i; cbn in *; by subst. }
  by rewrite Ei in *.
Qed.

Lemma num_some s d no : num s d = Some no -> is_Some (v_dirents s !! d).
Proof. unfold num. destruct (v_dirents s !! d); [eauto|done]. Qed.

(** The new entry [d] below [par]. *)
Definition added s (d : Z) (e : dirent) (par : Z) : V :=
  set_v_childs (ls_push_back par d (ls_init d (v_childs s))).2 (upd_dr d e s).

Lemma added_childs s d e par : ls_owner (v_childs s) !! d = None -> par <> d ->
  ls_push_back par d (ls_init d (v_childs s)) = (true, v_childs (added s d e par)) /\
  (forall x y, y ∈ ls_get (v_childs (added s d e par)) x -> (x <> d /\ y ∈ ls_get (v_childs s) x) \/ (x = par /\ y = d)) /\
  (forall y, is_Some (ls_owner (v_childs (added s d e par)) !! y) -> y = d \/ is_Some (ls_owner (v_childs s) !! y)).
Proof.
  intros Ho Hd. assert (Hfree : ls_is_free d (ls_init d (v_childs s)) = true) by (by apply ls_owner_free).
  unfold added. rewrite (ls_push_back_get par d _ Hfree). split; [done|]. cbn. split.
  - intros x y. unfold ls_get. cbn. destruct (decide (x = par)) as [->|Hx].
    + rewrite lookup_insert_eq, lookup_insert_ne by done. cbn. rewrite elem_of_app, list_elem_of_singleton.
      intros [Hy| ->]; [by left|by right].
    + rewrite lookup_insert_ne by done. destruct (decide (x = d)) as [->|Hx'].
      * rewrite lookup_insert_eq. cbn. by intros ?%elem_of_nil.
      * rewrite lookup_insert_ne by done. by left.
  - intros y. rewrite lookup_insert_is_Some'. intros [->|]; auto.
Qed.

Lemma cached_added a root X rf hs n c s d p name par i nd no : cached a root X rf hs n c s -> owned a s d ->
  v_dirents s !! d = None -> p <> NULL -> v_inodes s !! p = Some i -> a !! ino i = Some nd -> op i = Some (anode_op nd) ->
  num s par = Some no -> entry a no name (ino i) ->
  let e := mkDirent 0 1 p name par 0 in
  cached a root X rf hs n c (added s d e par) /\ ext s (added s d e par).
Proof.
  intros C (L' & HL' & Hd' & H1 & H2 & H3) Hd Hp Hi Hnd Hop Hpar Hent e.
  assert (Hother : forall q j, v_dirents s !! q = Some j -> v_dirents (added s d e par) !! q = Some j).
  { intros q j Hj. cbn. rewrite lookup_insert_ne; [done|]. intros ->. congruence. }
  assert (E : ext s (added s d e par)).
  { split_and!; cbn; [|eauto|done]. intros x ex Ex. exists ex. split; [by apply Hother|done]. }
  split; [|done].
  destruct C as [Hok Hcpu HR _ Hroom Hde Hrf Hfr Hhe Hin Hch Hro Hno].
  assert (Ho : ls_owner (v_childs s) !! d = None).
  { apply eq_None_not_Some. intros Hs%Hno. rewrite Hd in Hs. by destruct Hs. }
  assert (Hpd : par <> d) by (intros ->; apply num_some in Hpar as [? ?]; congruence).
  destruct (added_childs s d e par Ho Hpd) as (_ & Hc & Hown).
  assert (Hd_new : v_dirents (added s d e par) !! d = Some e) by (cbn; apply lookup_insert_eq).
  assert (Hn_new : num (added s d e par) d = Some (ino i)) by (unfold num; rewrite Hd_new; cbn; by rewrite Hi).
  assert (Hcount : count d hs = 0) by (apply count_notin; intros Hh%Hhe; rewrite Hd in Hh; by destruct Hh).
  split; try done.
  - exists L'. split_and!; try done. intros x. cbn. rewrite lookup_insert_is_Some'. intros [<-|]; auto.
  - intros x ex. destruct (decide (x = d)) as [->|Hx].
    + rewrite Hd_new. intros [= <-]. rewrite Hcount. cbn. split_and!; [done|by rewrite (Hfr d Hd)|]. exists i, nd. done.
    + cbn. rewrite lookup_insert_ne by done. apply Hde.
  - intros x. cbn. destruct (decide (x = d)) as [->|Hx]; [by rewrite lookup_insert_eq|]. rewrite lookup_insert_ne by done. apply Hfr.
  - intros x Hx. destruct (Hhe x Hx) as [ex Ex]. rewrite (Hother x ex Ex). eauto.
  - intros x y [[Hx Hy]|[-> ->]]%Hc.
    + destruct (Hch x y Hy) as (ey & no1 & no2 & Ey & Hp1 & N1 & N2 & Hent'). exists ey, no1, no2.
      split_and!; [by apply Hother|done|by eapply num_ext|by eapply num_ext|done].
    + exists e, no, (ino i). split_and!; try done. by eapply num_ext.
  - by eapply num_ext.
  - intros y [->|Hy]%Hown; [rewrite Hd_new; eauto|]. destruct (Hno y Hy) as [ey Ey]. rewrite (Hother y ey Ey). eauto.
Qed.

Lemma cache_add_cached a root rf hs n c s q p name par ep iq i nd no :
  cached a root (Some q) rf hs (S n) c s -> v_dirents s !! par = Some ep -> d_inode ep = q -> v_inodes s !! q = Some iq ->
  ino iq = no -> p <> NULL -> v_inodes s !! p = Some i -> a !! ino i = Some nd -> op i = Some (anode_op nd) ->
  entry a no name (ino i) -> Z.of_nat (length name) < MAX_DIRENTRY_NAME_SIZE ->
  exists d s' e, dirent_cache_add par name p s = Done d s' /\ cached a root (Some q) rf hs n c s' /\ ext s s' /\
    v_dirents s' !! d = Some e /\ d_parent e = par /\ num s' d = Some (ino i) /\ v_dirents s !! d = None.
Proof.
  intros C Hpar <- Hq Hno Hp Hi Hnd Hop Hent Hlen. unfold dirent_cache_add. go (dr_rd_run par ep s Hpar). go (ino_rd_run _ iq s Hq).
  destruct (ca_inode _ _ _ _ _ _ _ _ C _ _ Hq) as [_ Hl]. rewrite bool_decide_true in Hl by done. rewrite Hl.
  go (eq_refl : ASSERT (0 =? 0) s = Done tt s).
  destruct (malloc_cached _ _ _ _ _ _ _ _ sizeof_dirent C ltac:(done)) as (d & h' & Hm & C1 & E1 & Ow & Hd0 & _ & Hd).
  set (s1 := set_v_fs _ s) in *.
  assert (Ho : ls_owner (v_childs s1) !! d = None).
  { apply eq_None_not_Some. intros Hs%(ca_nodes _ _ _ _ _ _ _ _ C1). change (v_dirents s1) with (v_dirents s) in Hs.
    rewrite Hd in Hs. by destruct Hs. }
  assert (Hn1 : num s1 par = Some no) by (unfold num; change (v_dirents s1) with (v_dirents s); change (v_inodes s1) with (v_inodes s); rewrite Hpar; cbn; rewrite Hq; cbn; by rewrite Hno).
  assert (Hpd : par <> d) by congruence. set (e := mkDirent 0 1 p name par 0).
  destruct (cached_added _ _ _ _ _ _ _ s1 d p name par i nd no C1 Ow Hd Hp Hi Hnd Hop Hn1 Hent) as [C2 E2]. fold e in C2, E2.
  destruct (added_childs s1 d e par Ho Hpd) as (Hpush & _).
  exists d, (added s1 d e par), e. split; [|split; [exact C2|]; split; [exact (ext_trans _ _ _ E1 E2)|]; split_and!; [cbn; apply lookup_insert_eq|done| |done]].
  - assert (Ha : dirent_alloc s = Done d (set_v_childs (ls_init d (v_childs s1)) (upd_dr d (mkDirent 0 1 NULL [] NULL 0) s1))).
    { unfold dirent_alloc. go Hm. fold s1. unfold dr_put. m_unfold. cbn. by rewrite ls_node_init_free by exact Ho. }
    go Ha. rewrite (proj2 (Z.ltb_lt _ _) Hlen). unfold dr_wr, dr_rd, dr_put, ch_op. m_unfold.
    repeat (cbn; rewrite ?lookup_insert_eq, ?insert_insert_eq).
    unfold set_d_name, set_d_inode, set_d_parent, upd_dr, added. cbn.
    change (v_childs s1) with (v_childs s) in Hpush. rewrite Hpush. cbn. rewrite lookup_insert_eq. cbn.
    by rewrite insert_insert_eq.
  - unfold num. cbn. rewrite lookup_insert_eq. cbn. change (v_inodes s1) with (v_inodes s). by rewrite Hi.
Qed.

(** ** Looking a name up *)

Lemma room_mono n h : room (S n) h -> room n h.
Proof.
  revert h. induction n as [|n IH]; intros h R; [done|]. intros c size H1 H2.
  destruct (R c size H1 H2) as (p & h' & Hm & Hp & R'). exists p, h'. split_and!; auto.
Qed.
Lemma cached_room a root X rf hs n c s : cached a root X rf hs (S n) c s -> cached a root X rf hs n c s.
Proof. intros []. split; auto using room_mono. Qed.

(** What the tree holds under a name. *)
Definition child_no (nd : anode) (name : cstr) : option Z := match nd with ADir _ _ m => m !! name | AFile _ _ => None end.

Lemma denemefs_lookup_run a f i no nd name dest : repr a f -> ino i = no -> a !! no = Some nd -> name <> [] ->
  match child_no nd name with
  | Some no' => exists nd', a !! no' = Some nd' /\ entry a no name no' /\
      denemefs_lookup i name dest f = Done (0, afound (superblock i) no' nd' dest) f
  | None => exists r, r < 0 /\ denemefs_lookup i name dest f = Done (r, dest) f
  end.
Proof.
  intros R Hi Ha Hn. destruct nd as [rw bs|rw u m].
  - destruct R as (_ & C & _). destruct (co_node a f C _ _ Ha) as (_ & d & Hd & [_ Hm _ _ _]). exists (-2). split; [done|].
    unfold denemefs_lookup. rewrite Hi. go (di_rd_run _ _ _ Hd). by rewrite Hm.
  - pose proof (repr_lookup a f i no rw u m name dest R Hi Ha Hn) as Hl. cbn [child_no].
    destruct (m !! name) as [no'|] eqn:Em; cbn [mbind option_bind] in Hl.
    + assert (He : entry a no name no') by (by exists rw, u, m).
      destruct (tr_refs a (proj1 R) no name no' He) as ([nd' Hnd'] & _). rewrite Hnd' in Hl. by exists nd'.
    + by exists (-1).
Qed.

Lemma op_lookup_run i nd name p dest s r dest' : op i = Some (anode_op nd) -> v_inodes s !! p = Some dest ->
  denemefs_lookup i name dest (v_fs s) = Done (r, dest') (v_fs s) ->
  op_lookup i name p s = Done r (upd_ino p dest' s).
Proof.
  intros Ho Hp Hl. unfold op_lookup. rewrite Ho. go (eq_refl : deref (Some (anode_op nd)) s = Done (anode_op nd) s).
  assert (Hz : in_dfs (denemefs_lookup i name dest) s = Done (r, dest') s).
  { unfold in_dfs, zoom. rewrite Hl. f_equal. by destruct s. }
  destruct nd; cbn [anode_op]; go (ino_rd_run p dest s Hp); by go Hz.
Qed.

Lemma ca_node a root X rf hs n c s d e i : cached a root X rf hs n c s -> v_dirents s !! d = Some e ->
  v_inodes s !! d_inode e = Some i -> num s d = Some (ino i) /\ exists nd, a !! ino i = Some nd /\ op i = Some (anode_op nd).
Proof.
  intros C E Ei. destruct (ca_dirent _ _ _ _ _ _ _ _ C d e E) as (_ & _ & j & nd & Ej & Hnd & Hop).
  rewrite Ei in Ej. injection Ej as <-. split; [|eauto]. unfold num. rewrite E. cbn. by rewrite Ei.
Qed.

(** The lock of the entry and of its inode, taken and given back around [lookup_disk]'s
    work. *)
Lemma disk_enter a root rf hs n c s d e : cached a root None rf hs n (do_pushcli c) s -> cpu_ok c ->
  v_dirents s !! d = Some e ->
  exists s', (forall T (k : dirent -> M V T), (dr_acquire d ;; e ← dr_rd d; inode_lock (d_inode e) ;; popcli ;; k e) s =
      k (set_d_lock 1 e) s') /\
    cached a root (Some (d_inode e)) rf hs n (do_pushcli c) s' /\ ext s s'.
Proof.
  intros C Hok E. destruct (acquire_cached _ _ _ _ _ _ _ _ _ _ C E) as (s1 & H1 & C1 & X1 & E1).
  destruct (ca_dirent _ _ _ _ _ _ _ _ C1 d _ E1) as (_ & _ & i & nd & Ei & _).
  destruct (inode_lock_cached _ _ _ _ _ _ _ _ _ C1 Ei) as (s2 & H2 & C2 & X2).
  destruct (pop_cached _ _ _ _ _ _ _ _ C2 (do_pushcli_ok _ Hok)) as (s3 & H3 & C3 & X3).
  exists s3. split; [|eauto using ext_trans]. intros T k. go H1. go (dr_rd_run d _ s1 E1). go H2. by go H3.
Qed.

Lemma disk_leave a root rf hs n c s d e : cached a root (Some (d_inode e)) rf hs n (do_pushcli c) s -> cpu_ok c ->
  v_dirents s !! d = Some e ->
  exists s', (forall T (o : T), (e ← dr_rd d; inode_unlock (d_inode e) ;; dr_release d ;; mret o) s = Done o s') /\
    cached a root None rf hs n c s' /\ ext s s'.
Proof.
  intros C Hok E. destruct (ca_dirent _ _ _ _ _ _ _ _ C d _ E) as (_ & _ & i & nd & Ei & _).
  destruct (inode_unlock_cached _ _ _ _ _ _ _ _ _ C Ei) as (s1 & H1 & C1 & X1).
  destruct (proj1 X1 d e E) as (e1 & E1 & _).
  destruct (release_cached _ _ _ _ _ _ _ _ d C1 Hok) as (s2 & H2 & C2 & X2); [eauto|].
  exists s2. split; [|eauto using ext_trans]. intros T o. go (dr_rd_run d _ s E). go H1. by go H2.
Qed.

(** The found inode gets its entry; the one that was not needed stays in the heap. *)
Lemma disk_found a root rf hs n c s1 p d e i no no' nd nd' name dest : cached a root (Some (d_inode e)) rf hs (S n) c s1 ->
  owned a s1 p -> p <> NULL -> v_inodes s1 !! p = None -> v_dirents s1 !! d = Some e -> v_inodes s1 !! d_inode e = Some i ->
  ino i = no -> a !! no = Some nd -> a !! no' = Some nd' -> entry a no name no' -> Z.of_nat (length name) < 256 -> Z.of_nat (length hs) < 2 ^ 30 ->
  dest = afound (superblock i) no' nd' new_inode ->
  exists d' s' e', (c ← dirent_cache_add d name p; d ← dirent_dup c; mret (Some d)) (upd_ino p dest s1) = Done (Some d') s' /\
    cached a root (Some (d_inode e)) rf (d' :: hs) n c s' /\ ext s1 s' /\ v_dirents s' !! d' = Some e' /\ d_parent e' = d /\
    num s' d' = Some no' /\ v_dirents s1 !! d' = None.
Proof.
  intros C Ow Hp Hpi E Ei Hno Hnd Hnd' Hent Hlen HB ->. set (dest := afound _ _ _ _).
  assert (Hne : d_inode e <> p) by congruence.
  destruct (cached_new_ino _ _ _ _ _ _ _ _ p dest C Ow Hpi eq_refl eq_refl) as [C2 X2]; [congruence|].
  assert (Ei2 : v_inodes (upd_ino p dest s1) !! d_inode e = Some i) by (cbn; by rewrite lookup_insert_ne).
  destruct (cache_add_cached _ _ _ _ _ _ _ _ p name d e i dest nd' no C2 E eq_refl Ei2 Hno Hp
    (upd_ino_lookup _ _ _) Hnd' eq_refl Hent Hlen) as (d' & s3 & e' & H3 & C3 & X3 & E3 & Hpar & Hn3 & Hnew).
  destruct (dirent_dup_cached _ _ _ _ _ _ _ _ d' C3) as (s4 & H4 & C4 & X4); [eauto|done|].
  destruct (proj1 X4 d' e' E3) as (e4 & E4 & _ & Hpar4 & _).
  exists d', s4, e4. split; [go H3; by go H4|]. split; [done|].
  split; [eauto using ext_trans|]. split_and!; [done|congruence|by eapply num_ext|done].
Qed.

Lemma lookup_disk_cached a root rf hs n c s d e i nd name : cached a root None rf hs (S (S n)) (do_pushcli c) s -> cpu_ok c ->
  v_dirents s !! d = Some e -> v_inodes s !! d_inode e = Some i -> a !! ino i = Some nd -> name <> [] ->
  Z.of_nat (length name) < 256 -> Z.of_nat (length hs) < 2 ^ 30 ->
  match child_no nd name with
  | Some no' => exists d' s' e', lookup_disk d name s = Done (0, Some d') s' /\ cached a root None rf (d' :: hs) n c s' /\
      ext s s' /\ v_dirents s' !! d' = Some e' /\ d_parent e' = d /\ num s' d' = Some no' /\ d' <> root
  | None => exists r s', r < 0 /\ lookup_disk d name s = Done (r, None) s' /\ cached a root None rf hs n c s' /\ ext s s'
  end.
Proof.
  intros C Hok E Ei Hnd Hname Hlen HB.
  destruct (disk_enter _ _ _ _ _ _ _ _ _ C Hok E) as (s1 & H1 & C1 & X1).
  unfold lookup_disk. rewrite (H1 _ _). change (d_inode (set_d_lock 1 e)) with (d_inode e).
  destruct (inode_alloc_cached _ _ _ _ _ _ _ _ C1) as (p & s2 & H2 & C2 & X2 & Ow & Hp & Hpi). go H2.
  pose proof (ext_trans _ _ _ X1 X2) as X12.
  destruct (proj1 X12 d e E) as (e2 & E2 & Hie & _). destruct (proj1 (proj2 X12) _ i Ei) as (i2 & Ei2 & Hno2).
  assert (Hne : d_inode e <> p) by congruence.
  assert (Ei3 : v_inodes (upd_ino p new_inode s2) !! d_inode e = Some i2) by (cbn; by rewrite lookup_insert_ne).
  go (ino_rd_run _ _ _ Ei3). rewrite <- Hie in *.
  destruct (ca_node _ _ _ _ _ _ _ _ _ _ _ C2 E2 Ei2) as (_ & nd2 & Hnd2 & Hop2).
  rewrite Hno2, Hnd in Hnd2. injection Hnd2 as <-.
  pose proof (denemefs_lookup_run a (v_fs s2) i2 (ino i) nd name new_inode (ca_repr _ _ _ _ _ _ _ _ C2) Hno2 Hnd Hname) as Hl.
  destruct (child_no nd name) as [no'|].
  - destruct Hl as (nd' & Hnd' & Hent & Hl).
    go (op_lookup_run i2 nd name p new_inode (upd_ino p new_inode s2) _ _ Hop2 (upd_ino_lookup _ _ _) Hl).
    rewrite upd_ino_twice. cbn [Z.ltb Z.compare].
    destruct (disk_found _ _ _ _ _ _ _ p d e2 i2 (ino i) no' nd nd' name _ C2 Ow Hp Hpi E2 Ei2 Hno2 Hnd Hnd' Hent Hlen HB eq_refl)
      as (d' & s4 & e' & H4 & C4 & X4 & E4 & Hpar & Hn4 & Hnew). go H4.
    destruct (proj1 X4 d e2 E2) as (e4 & Ed4 & Hie4 & _). rewrite <- Hie4 in C4.
    destruct (disk_leave _ _ _ _ _ _ _ _ _ C4 Hok Ed4) as (s5 & H5 & C5 & X5).
    destruct (proj1 X5 d' e' E4) as (e5 & E5 & _ & Hpar5 & _).
    exists d', s5, e5. split_and!; [|exact C5|eauto using ext_trans|exact E5|congruence|by eapply num_ext|].
    + apply H5.
    + intros ->. destruct (num_some _ _ _ (ca_root _ _ _ _ _ _ _ _ C2)). congruence.
  - destruct Hl as (r & Hr & Hl).
    go (op_lookup_run i2 nd name p new_inode (upd_ino p new_inode s2) _ _ Hop2 (upd_ino_lookup _ _ _) Hl).
    rewrite upd_ino_twice. rewrite (proj2 (Z.ltb_lt r 0)) by done.
    destruct (cached_new_ino _ _ _ _ _ _ _ _ p new_inode C2 Ow Hpi eq_refl eq_refl) as [C3 X3]; [congruence|].
    pose proof (upd_ino_lookup p new_inode s2) as Hin.
    destruct (inode_free_run p new_inode _ Hin (conj eq_refl eq_refl)) as (s4 & H4 & V4);
      [cbn; lia|exact (cached_cpu_ok _ _ _ _ _ _ _ _ C3)|].
    destruct (cached_ino _ _ _ _ _ _ _ _ p _ (set_ref_count (ref_count new_inode - 1) new_inode) (Some (d_inode e2)) C3 Hin)
      as [C5 X5]; try done; [by rewrite bool_decide_false by congruence|].
    destruct (cached_veq _ _ _ _ _ _ _ _ _ C5 V4) as [C6 X6].
    pose proof (ext_trans _ _ _ (ext_trans _ _ _ X3 X5) X6) as X36. destruct (proj1 X36 d e2 E2) as (e6 & E6 & Hie6 & _).
    rewrite <- Hie6 in C6. destruct (disk_leave _ _ _ _ _ _ _ _ _ C6 Hok E6) as (s7 & H7 & C7 & X7).
    exists r, s7. split_and!; [done| |by apply cached_room|eauto using ext_trans].
    rewrite (bind_done _ _ _ None s4) by (by go H4). apply H7.
Qed.

Lemma at_path_num s root d st : num s root = Some 0 -> at_path s root d st -> num s d = Some (default 0 (head st)).
Proof. destruct st as [|no st]; [by intros ? ->|]. by intros _ (_ & ? & _). Qed.

Lemma num_node a root X rf hs n c s d no : cached a root X rf hs n c s -> num s d = Some no ->
  exists e i nd, v_dirents s !! d = Some e /\ d_inode e <> NULL /\ v_inodes s !! d_inode e = Some i /\ ino i = no /\ a !! no = Some nd.
Proof.
  intros C N. destruct (num_some _ _ _ N) as [e E]. destruct (ca_dirent _ _ _ _ _ _ _ _ C d e E) as (Hp & _ & i & nd & Ei & Hnd & _).
  exists e, i, nd. unfold num in N. rewrite E in N. cbn in N. rewrite Ei in N. cbn in N. injection N as <-. done.
Qed.

Lemma lookup_cache_cached a root X rf hs n c s d no nd name : cached a root X rf hs n c s -> num s d = Some no ->
  a !! no = Some nd -> Z.of_nat (length hs) < 2 ^ 30 ->
  (exists d' s' e' no', lookup_cache d name s = Done (Some d') s' /\ cached a root X rf (d' :: hs) n c s' /\ ext s s' /\
     child_no nd name = Some no' /\ v_dirents s' !! d' = Some e' /\ d_parent e' = d /\ num s' d' = Some no' /\ d' <> root) \/
  lookup_cache d name s = Done None s.
Proof.
  intros C N Ha HB. unfold lookup_cache, childs.
  go (eq_refl : gets (fun s => ls_get (v_childs s) d) s = Done (ls_get (v_childs s) d) s).
  pose proof (ca_child _ _ _ _ _ _ _ _ C d) as Hch. revert Hch. generalize (ls_get (v_childs s) d) as l. intros l.
  induction l as [|x l IH]; intros Hch; [by right|]. cbn [iter_until].
  destruct (Hch x) as (e & no1 & no' & E & Hpar & N1 & N2 & Hent); [by left|].
  rewrite bind_assoc. go (dr_rd_run x e s E). unfold streq. case_bool_decide as Hname.
  - left. destruct (dirent_dup_cached _ _ _ _ _ _ _ _ x C) as (s1 & H1 & C1 & X1); [eauto|done|].
    destruct (proj1 X1 x e E) as (e1 & E1 & _ & Hpar1 & _).
    exists x, s1, e1, no'. split; [rewrite bind_assoc; by go H1|]. rewrite N in N1. injection N1 as <-. subst name.
    destruct Hent as (rw & u & m & Ha' & Hm). rewrite Ha in Ha'. injection Ha' as ->.
    split_and!; [done|done|done|done|congruence|by eapply num_ext|]. intros ->.
    rewrite (ca_root _ _ _ _ _ _ _ _ C) in N2. injection N2 as <-.
    destruct (tr_refs a (proj1 (ca_repr _ _ _ _ _ _ _ _ C)) no (d_name e) 0) as (_ & ? & _); [|done]. by exists rw, u, m.
  - go (eq_refl : (mret None : M V (option Z)) s = Done None s). apply IH. intros y Hy. apply Hch. by right.
Qed.

Context (cur : Z).

Lemma lookup_dots_cached a root X rf hs n c s t d st name : cached a root X rf hs n c s -> v_tasks s !! cur = Some t ->
  fs_root t = root -> at_path s root d st -> Z.of_nat (length hs) < 2 ^ 30 ->
  if streq name str_dot || streq name str_dotdot then
    exists d' s', lookup_dots cur d name s = Done (Some d') s' /\ cached a root X rf (d' :: hs) n c s' /\ ext s s' /\
      at_path s' root d' (if streq name str_dot then st else tail st)
  else lookup_dots cur d name s = Done None s.
Proof.
  intros C Ht Hroot Hat HB. pose proof (ca_root _ _ _ _ _ _ _ _ C) as N0. unfold lookup_dots.
  destruct (streq name str_dot); cbn [orb]; [|destruct (streq name str_dotdot); [|done]].
  - destruct (dirent_dup_cached _ _ _ _ _ _ _ _ d C) as (s1 & H1 & C1 & X1); [|done|].
    { eapply num_some, (at_path_num s root d st N0 Hat). }
    exists d, s1. split; [by go H1|]. eauto using at_path_ext.
  - assert (Hc : curr_fs cur s = Done t s) by (unfold curr_fs; m_unfold; by rewrite Ht). go Hc. rewrite Hroot.
    destruct st as [|no st].
    + cbn in Hat. subst d. rewrite Z.eqb_refl.
      destruct (dirent_dup_cached _ _ _ _ _ _ _ _ root C) as (s1 & H1 & C1 & X1); [by eapply num_some|done|].
      exists root, s1. split; [by go H1|]. done.
    + destruct Hat as (Hd & Hn & e & E & Hat). rewrite (proj2 (Z.eqb_neq d root)) by done. go (dr_rd_run d e s E).
      destruct (dirent_dup_cached _ _ _ _ _ _ _ _ (d_parent e) C) as (s1 & H1 & C1 & X1); [|done|].
      { eapply num_some, (at_path_num s root _ st N0 Hat). }
      exists (d_parent e), s1. split; [by go H1|]. eauto using at_path_ext.
Qed.

Lemma dirent_lookup_cached a root rf hs n c s t d st name : cached a root None rf hs (S (S n)) c s -> v_tasks s !! cur = Some t ->
  fs_root t = root -> at_path s root d st -> name <> [] -> Z.of_nat (length name) < 256 -> Z.of_nat (length hs) < 2 ^ 30 ->
  match resolve a st [name] with
  | Some st' => exists d' s', dirent_lookup cur d name s = Done (0, Some d') s' /\
      cached a root None rf (d' :: hs) n c s' /\ ext s s' /\ at_path s' root d' st'
  | None => exists r s', r < 0 /\ dirent_lookup cur d name s = Done (r, None) s' /\ cached a root None rf hs n c s' /\ ext s s'
  end.
Proof.
  intros C Ht Hroot Hat Hname Hlen HB. pose proof (ca_ok _ _ _ _ _ _ _ _ C) as Hok.
  pose proof (at_path_num s root d st (ca_root _ _ _ _ _ _ _ _ C) Hat) as N.
  destruct (num_node _ _ _ _ _ _ _ _ _ _ C N) as (e & i & nd & E & Hi & Ei & Hno & Hnd).
  unfold dirent_lookup. go (dr_rd_run d e s E). rewrite (proj2 (Z.eqb_neq _ NULL) Hi).
  destruct (push_cached _ _ _ _ _ _ _ _ C) as (s1 & H1 & C1 & X1). go H1.
  pose proof (at_path_ext _ _ _ _ _ X1 Hat) as Hat1. assert (Ht1 : v_tasks s1 !! cur = Some t) by (by rewrite (proj2 (proj2 X1))).
  pose proof (lookup_dots_cached _ _ _ _ _ _ _ _ t d st name C1 Ht1 Hroot Hat1 HB) as Hdots. cbn [resolve].
  destruct (streq name str_dot || streq name str_dotdot) eqn:Edots.
  - destruct Hdots as (d' & s2 & H2 & C2 & X2 & Hat2). go H2.
    destruct (pop_cached _ _ _ _ _ _ _ _ C2 Hok) as (s3 & H3 & C3 & X3).
    assert (Hres : (if streq name str_dot then Some st else if streq name str_dotdot then Some (tail st) else
        match a !! default 0 (head st) with Some (ADir _ _ m) => no ← m !! name; Some (no :: st) | _ => None end) =
      Some (if streq name str_dot then st else tail st)).
    { destruct (streq name str_dot); [done|]. cbn in Edots. by rewrite Edots. }
    rewrite Hres. exists d', s3. split; [by go H3|]. split; [by do 2 apply cached_room|]. eauto using ext_trans, at_path_ext.
  - apply orb_false_iff in Edots as [-> ->]. go Hdots. rewrite Hnd.
    pose proof (num_ext _ _ _ _ X1 N) as N1.
    destruct (lookup_cache_cached _ _ _ _ _ _ _ _ d _ nd name C1 N1 Hnd HB)
      as [(d' & s2 & e' & no' & H2 & C2 & X2 & Hc & E2 & Hpar & N2 & Hd')|H2].
    + go H2. destruct (pop_cached _ _ _ _ _ _ _ _ C2 Hok) as (s3 & H3 & C3 & X3).
      destruct nd as [|rw u m]; [done|]. cbn in Hc. rewrite Hc. cbn [mbind option_bind].
      exists d', s3. split; [by go H3|]. split; [by do 2 apply cached_room|]. split; [eauto using ext_trans|].
      apply (at_path_ext s2); [done|]. split; [done|]. split; [done|]. exists e'. rewrite Hpar. eauto using at_path_ext.
    + go H2. destruct (num_node _ _ _ _ _ _ _ _ _ _ C1 N1) as (e1 & i1 & nd1 & E1 & _ & Ei1 & Hno1 & Hnd1).
      rewrite Hnd in Hnd1. injection Hnd1 as <-. rewrite <- Hno1 in Hnd.
      pose proof (lookup_disk_cached _ _ _ _ _ _ _ d e1 i1 nd name C1 Hok E1 Ei1 Hnd Hname Hlen HB) as Hdisk.
      assert (Hres : match nd with ADir _ _ m => no ← m !! name; Some (no :: st) | AFile _ _ => None end =
        (no ← child_no nd name; Some (no :: st))) by by destruct nd.
      rewrite Hres. clear Hres. destruct (child_no nd name) as [no'|]; cbn [mbind option_bind].
      * destruct Hdisk as (d' & s2 & e' & H3 & C2 & X2 & E2 & Hpar & N2 & Hd'). exists d', s2. split; [done|]. split; [done|].
        split; [eauto using ext_trans|]. split; [done|]. split; [done|]. exists e'. rewrite Hpar. eauto using at_path_ext.
      * destruct Hdisk as (r & s2 & Hr & H3 & C2 & X2). exists r, s2. split_and!; [done|done|exact C2|eauto using ext_trans].
Qed.

(** ** A whole path *)

Lemma resolve_cons a st name names : resolve a st (name :: names) = (st' ← resolve a st [name]; resolve a st' names).
Proof.
  cbn [resolve]. destruct (streq name str_dot); [done|]. destruct (streq name str_dotdot); [done|].
  destruct (a !! default 0 (head st)) as [[]|]; try done. by destruct (_ !! name).
Qed.

Lemma cached_swap a root X rf x y hs n c s : cached a root X rf (x :: y :: hs) n c s -> cached a root X rf (y :: x :: hs) n c s.
Proof.
  intros [? ? ? ? ? Hd ? ? Hh ? ? ? ?]. split; try done.
  - intros d e E. destruct (Hd d e E) as (? & Hr & ?). rewrite !count_cons in *. split_and!; [done|lia|done].
  - intros d Hin. apply Hh. set_solver.
Qed.
Lemma cached_weaken a root X rf hs k n c s : cached a root X rf hs (k + n) c s -> cached a root X rf hs n c s.
Proof. intros C. induction k; [done|]. by apply IHk, cached_room. Qed.

(** What the rest [text] of a path asks for next. *)
Lemma parse_next_run path len pre text (st : V) : Forall (.≠ 0) path -> path = pre ++ text ->
  (forall x, x ∈ path_comps [] text -> (length x < 256)%nat) -> Z.of_nat (length path) < len ->
  exists r b, parse_next path len (Z.of_nat (length pre)) st = Done (r, b) st /\
    ((r = 0 /\ path_comps [] text = if bool_decide (b = []) then [] else [b]) \/
     (b <> [] /\ exists t1 t2, text = t1 ++ t2 /\ t1 <> [] /\ r = Z.of_nat (length pre + length t1) /\
        path_comps [] text = b :: path_comps [] t2)).
Proof.
  intros Hz -> Hb Hlen. apply Forall_app in Hz as [_ Hz].
  destruct (parse_path_loop_spec pre text [0] [] Hz Hb) as (r & b & Hr & Hcase). exists r, b. split; [|done].
  unfold parse_next, parse_path_i. rewrite length_app in *.
  replace (Z.to_nat (Z.min len (Z.of_nat (length pre + length text) + 1) - Z.of_nat (length pre))) with (S (length text)) by lia.
  rewrite <- app_assoc, parse_path_stop, Hr. done.
Qed.

Lemma find_loop_cached a root rf hs n t names : forall fuel s c path len pre text st d,
  path_comps [] text = names -> (length text < fuel)%nat -> Forall (.≠ 0) path -> path = pre ++ text -> Z.of_nat (length path) < len ->
  (forall x, x ∈ names -> (length x < 256)%nat) ->
  cached a root None rf (d :: hs) (2 * length names + n) c s -> v_tasks s !! cur = Some t -> fs_root t = root ->
  at_path s root d st -> Z.of_nat (length hs) + 1 < 2 ^ 30 ->
  match resolve a st names with
  | Some st' => exists d' s', find_loop cur fuel path len (Z.of_nat (length pre)) d 0 s = Done (0, d') s' /\
      cached a root None rf (d' :: hs) n c s' /\ ext s s' /\ at_path s' root d' st'
  | None => exists r s', r < 0 /\ find_loop cur fuel path len (Z.of_nat (length pre)) d 0 s = Done (r, NULL) s' /\
      cached a root None rf hs n c s' /\ ext s s'
  end.
Proof.
  induction fuel as [|fuel IH] in names |- *; intros s c path len pre text st d Hc Hf Hz Hp Hlen Hb C Ht Hroot Hat HB; [lia|].
  cbn [find_loop]. subst names.
  destruct (parse_next_run path len pre text s Hz Hp Hb Hlen) as (r & b & Hr & Hcase). go Hr.
  case_bool_decide as Hbn.
  { destruct Hcase as [[-> Hc]|[? _]]; [|done]. rewrite Hc in *. cbn [resolve].
    exists d, s. cbn [length] in *. auto using ext_refl. }
  assert (Hsplit : exists t1 t2, text = t1 ++ t2 /\ (r = 0 /\ t2 = [] \/ 0 < r /\ t1 <> [] /\ r = Z.of_nat (length (pre ++ t1))) /\
    path_comps [] text = b :: path_comps [] t2).
  { destruct Hcase as [[-> Hc]|(_ & t1 & t2 & -> & Ht1 & -> & Hc)].
    - exists text, []. rewrite app_nil_r, Hc. auto.
    - exists t1, t2. split; [done|]. split; [right|done]. rewrite length_app. destruct t1; [done|]. cbn [length]. split_and!; [lia|done|lia]. }
  destruct Hsplit as (t1 & t2 & -> & Hr' & Hc). rewrite Hc in *. set (names := path_comps [] t2) in *.
  replace (2 * length (b :: names) + n)%nat with (S (S (2 * length names + n))) in C by (cbn [length]; lia).
  pose proof (dirent_lookup_cached a root rf _ _ c s t d st b C Ht Hroot Hat Hbn) as Hl.
  specialize (Hl ltac:(pose proof (Hb b ltac:(by left)); lia) ltac:(cbn [length]; lia)). rewrite resolve_cons.
  destruct (resolve a st [b]) as [st1|]; cbn [mbind option_bind].
  - destruct Hl as (d1 & s1 & H1 & C1 & X1 & Hat1). go H1.
    destruct (dirent_free_cached _ _ _ _ _ _ _ _ _ (cached_swap _ _ _ _ _ _ _ _ _ _ C1)) as (s2 & H2 & C2 & X2); [cbn [length]; lia|]. go H2.
    cbn [Z.ltb Z.compare]. go (eq_refl : (deref (Some d1) : M V Z) s2 = Done d1 s2).
    pose proof (ext_trans _ _ _ X1 X2) as X12. pose proof (at_path_ext _ _ _ _ _ X2 Hat1) as Hat2.
    destruct Hr' as [[-> ->]|(Hr' & Ht1 & ->)].
    + cbn [Z.ltb Z.compare]. cbn in names. subst names. cbn [resolve]. exists d1, s2. auto.
    + rewrite (proj2 (Z.ltb_lt 0 _)) by done.
      specialize (IH names s2 c path len (pre ++ t1) t2 st1 d1 eq_refl).
      rewrite length_app in Hf. assert (length t1 <> 0)%nat by (by destruct t1).
      specialize (IH ltac:(lia) Hz ltac:(by rewrite <- app_assoc) Hlen ltac:(intros; apply Hb; by right) C2).
      specialize (IH ltac:(by rewrite (proj2 (proj2 X12))) Hroot Hat2 HB).
      destruct (resolve a st1 names) as [st2|].
      * destruct IH as (d' & s3 & H3 & C3 & X3 & Hat3). exists d', s3. eauto 6 using ext_trans.
      * destruct IH as (r & s3 & Hrn & H3 & C3 & X3). exists r, s3. eauto 6 using ext_trans.
  - destruct Hl as (r1 & s1 & Hr1 & H1 & C1 & X1). go H1.
    destruct (dirent_free_cached _ _ _ _ _ _ _ _ _ C1) as (s2 & H2 & C2 & X2); [lia|]. go H2.
    rewrite (proj2 (Z.ltb_lt r1 0)) by done. exists r1, s2. split_and!; [done|done| |eauto using ext_trans].
    by eapply cached_weaken.
Qed.

Lemma curr_fs_run s t : v_tasks s !! cur = Some t -> curr_fs cur s = Done t s.
Proof. intros E. unfold curr_fs. m_unfold. by rewrite E. Qed.

(** The place where a path starts. *)
Definition start_of (t : Task_FS) (path : cstr) : Z := if bool_decide (head path = Some SLASH) then fs_root t else fs_pwd t.

Lemma dirent_find_cached a root rf hs n c s t path len st : 
  cached a root None rf hs (2 * length (path_comps [] path) + n) c s -> v_tasks s !! cur = Some t -> fs_root t = root ->
  at_path s root (start_of t path) st -> Forall (.≠ 0) path -> Forall (fun x => (length x < 256)%nat) (path_comps [] path) ->
  Z.of_nat (length path) < len -> Z.of_nat (length hs) + 1 < 2 ^ 30 ->
  match resolve a st (path_comps [] path) with
  | Some st' => exists d s', dirent_find cur path len s = Done (0, d) s' /\ cached a root None rf (d :: hs) n c s' /\ ext s s' /\
      at_path s' root d st'
  | None => exists r s', r < 0 /\ dirent_find cur path len s = Done (r, NULL) s' /\ cached a root None rf hs n c s' /\ ext s s'
  end.
Proof.
  intros C Ht Hroot Hat Hz Hb Hlen HB. unfold dirent_find. go (curr_fs_run s t Ht). fold (start_of t path).
  destruct (dirent_dup_cached _ _ _ _ _ _ _ _ (start_of t path) C) as (s1 & H1 & C1 & X1); [|lia|].
  { eapply num_some, (at_path_num s root _ st (ca_root _ _ _ _ _ _ _ _ C) Hat). }
  go H1. rewrite Forall_forall in Hb.
  pose proof (find_loop_cached a root rf hs n t (path_comps [] path) (S (S (length path))) s1 c path len [] path st
    (start_of t path) eq_refl ltac:(lia) Hz eq_refl Hlen Hb C1 ltac:(by rewrite (proj2 (proj2 X1))) Hroot
    (at_path_ext _ _ _ _ _ X1 Hat) HB) as Hl. change (Z.of_nat (length [])) with 0 in Hl.
  destruct (resolve a st (path_comps [] path)) as [st'|].
  - destruct Hl as (d & s2 & H2 & C2 & X2 & Hat2). exists d, s2. eauto using ext_trans.
  - destruct Hl as (r & s2 & Hr & H2 & C2 & X2). exists r, s2. eauto using ext_trans.
Qed.

(** C4. Path resolution walks the tree. From every state in which the cache of directory
    entries agrees with the tree of the file system, whatever is in the cache, inode_find
    on a path whose names are shorter than 256 characters returns an inode with the number
    that walking the names of the path through the tree from the root or the working
    directory ends at, and an error exactly when the walk meets a name that is not there or
    a file in the middle of the path. The cache still agrees with the tree, every entry that
    was there is still there and in its place, the locks are free again and the interrupt
    state is as before, and every reference that was taken on the way has been given
    back. *)
Theorem path_resolution a root rf hs n c s t path st :
  cached a root None rf hs (2 * length (path_comps [] path) + n) c s -> v_tasks s !! cur = Some t -> fs_root t = root ->
  at_path s root (start_of t path) st -> Forall (.≠ 0) path -> Forall (fun x => (length x < 256)%nat) (path_comps [] path) ->
  Z.of_nat (length path) < 2 ^ 32 - 1 -> Z.of_nat (length hs) + 1 < 2 ^ 30 ->
  match resolve a st (path_comps [] path) with
  | Some st' => exists p i s', inode_find cur path (u32 (-1)) s = Done (0, p) s' /\ v_inodes s' !! p = Some i /\
      ino i = default 0 (head st') /\ cached a root None rf hs n c s' /\ ext s s'
  | None => exists r s', r < 0 /\ inode_find cur path (u32 (-1)) s = Done (r, NULL) s' /\
      cached a root None rf hs n c s' /\ ext s s'
  end.
Proof.
  intros C Ht Hroot Hat Hz Hb Hlen HB.
  pose proof (dirent_find_cached a root rf hs n c s t path (u32 (-1)) st C Ht Hroot Hat Hz Hb Hlen HB) as Hf.
  unfold inode_find. destruct (resolve a st (path_comps [] path)) as [st'|].
  - destruct Hf as (d & s1 & H1 & C1 & X1 & Hat1). go H1. cbn [Z.ltb Z.compare].
    pose proof (at_path_num s1 root d st' (ca_root _ _ _ _ _ _ _ _ C1) Hat1) as N.
    destruct (num_node _ _ _ _ _ _ _ _ _ _ C1 N) as (e & i & nd & E & Hp & Ei & Hno & _). go (dr_rd_run d e s1 E).
    destruct (ca_inode _ _ _ _ _ _ _ _ C1 _ i Ei) as [Hw Hl].
    destruct (inode_dup_run _ i s1 Hp Ei (conj Hl Hw) (cached_cpu_ok _ _ _ _ _ _ _ _ C1)) as (s2 & H2 & V2). go H2.
    destruct (cached_ino _ _ _ _ _ _ _ _ (d_inode e) i (set_ref_count (i32 (ref_count i + 1)) i) None C1 Ei) as [C2 X2]; try done.
    destruct (cached_veq _ _ _ _ _ _ _ _ _ C2 V2) as [C3 X3].
    destruct (dirent_free_cached _ _ _ _ _ _ _ _ _ C3) as (s4 & H4 & C4 & X4); [lia|]. go H4.
    rewrite (proj2 (Z.eqb_neq _ NULL) Hp). destruct (proj1 (proj2 (ext_trans _ _ _ X3 X4)) _ _ (upd_ino_lookup _ _ _)) as (i4 & Ei4 & Hi4).
    exists (d_inode e), i4, s4. split_and!; [done|exact Ei4|rewrite Hi4; exact Hno|exact C4|eauto 6 using ext_trans].
  - destruct Hf as (r & s1 & Hr & H1 & C1 & X1). go H1. rewrite (proj2 (Z.ltb_lt r 0)) by done. by exists r, s1.
Qed.
End path.

(** * Heaps *)

(** The kernel's heap is such a heap. *)
Lemma AllocCpu_ks {S : Type} `{PS : PageSource S} (garbage : Z) :
  @AllocCpu (ks S) _ (Alloc_ks garbage) (AllocSpec_ks garbage).
Proof.
  split.
  - intros L k c (A & (bl & [Lw Lwf Ll Lc] & Hok & Hu & Hps) & _ & ->) Hc. exists A. split_and!; [|by rewrite cpu_of_set|done].
    exists bl. split_and!; [by split|done|done|]. by apply ps_cpu.
  - intros L k size p k' (A & Hs & _ & ->) Hc Hsz Hm Hp.
    destruct (kmalloc_run A garbage size k Hs Hc Hsz) as [(k2 & E & _)|(b & n & k2 & E & _ & _ & Hce & _)].
    + change (kmalloc garbage size k = Done p k') in Hm. rewrite Hm in E. by injection E.
    + change (kmalloc garbage size k = Done p k') in Hm. rewrite Hm in E. by injection E as -> ->.
Qed.

#[export] Instance AllocCpu_bump : AllocCpu bump.
Proof. split; [done|]. by intros L h size p h' _ _ _ [= <- <-]. Qed.
Lemma room_bump n b : 0 < next b -> room n b.
Proof.
  revert b. induction n as [|n IH]; intros b Hb; [done|]. intros c size _ _. exists (next b), (mkBump (next b + 2048) c).
  split_and!; [done|unfold NULL; lia|]. apply IH. cbn. lia.
Qed.

(** * A cache with the root alone *)

Definition root_inode : inode := afound 0 0 (ADir (1, 0) 4 ∅) new_inode.
Definition root_cache : vfs bump :=
  mkVfs demo_dfs {[ 0x30 := root_inode ]} {[ 0x40 := mkDirent 0 3 0x30 [] NULL 1 ]} (mkLstore ∅ ∅) ∅
    {[ 1 := mkTaskFs 0x40 0x40 [] ]} 0x40 [] [] [].
Definition root_refs (d : Z) : Z := if d =? 0x40 then 3 else 1.

Lemma root_cached n : cached boot_tree 0x40 None root_refs [] n (mkCpu true 0 false) root_cache.
Proof.
  assert (HC : cpu_of root_cache = mkCpu true 0 false) by (vm_compute; reflexivity).
  assert (HN : next (fs_heap demo_dfs) = 0x10003000) by (vm_compute; reflexivity).
  split.
  - split; [done|]. cbn. lia.
  - by rewrite HC.
  - exact demo_dfs_repr.
  - destruct demo_dfs_repr as (_ & C & _). destruct (co_heap _ _ C) as (L & [Hn HL] & Hd). exists ({[0x30; 0x40]} ∪ L). split_and!.
    + split; [done|]. intros p. rewrite !elem_of_union, !elem_of_singleton. cbn. rewrite HN. cbn in HL. setoid_rewrite HN in HL.
      intros [[->| ->]|Hp]; [lia|lia|by apply HL].
    + intros i d Hi Hid. apply elem_of_union_r. exact (Hd i d Hi Hid).
    + intros d. cbn. intros [? [<- _]%lookup_singleton_Some]. apply elem_of_union_l, elem_of_union_r, elem_of_singleton_2, eq_refl.
    + intros d. cbn. intros [? [<- _]%lookup_singleton_Some]. apply elem_of_union_l, elem_of_union_l, elem_of_singleton_2, eq_refl.
  - apply room_bump. cbn. rewrite HN. lia.
  - intros d e. cbn. intros [<- <-]%lookup_singleton_Some. split_and!; [done|done|]. exists root_inode, (ADir (1, 0) 4 {[str_home := 1; str_dosya1 := 2; str_dosya2 := 3; str_dir1 := 4]}). 
    split_and!; reflexivity.
  - intros d. unfold root_refs. case_match; lia.
  - intros d. cbn. intros Hd%lookup_singleton_None. unfold root_refs. by rewrite (proj2 (Z.eqb_neq d 0x40)).
  - intros d Hd. destruct (not_elem_of_nil d Hd).
  - intros p i. cbn. intros [<- <-]%lookup_singleton_Some. split; reflexivity.
  - intros d x Hx. cbn in Hx. destruct (not_elem_of_nil x Hx).
  - reflexivity.
  - intros x. cbn. by intros [? ?].
Qed.

(** /dir1/./dir11/..//dir11/ *)
Lemma path_resolution_witness :
  exists p i s', inode_find 1 [47;100;105;114;49;47;46;47;100;105;114;49;49;47;46;46;47;47;100;105;114;49;49;47] (u32 (-1)) root_cache = Done (0, p) s' /\
    v_inodes s' !! p = Some i /\ ino i = 5 /\ cached boot_tree 0x40 None root_refs [] 0 (mkCpu true 0 false) s' /\ ext root_cache s'.
Proof.
  refine (path_resolution 1 boot_tree 0x40 root_refs [] 0 (mkCpu true 0 false) root_cache (mkTaskFs 0x40 0x40 [])
    [47;100;105;114;49;47;46;47;100;105;114;49;49;47;46;46;47;47;100;105;114;49;49;47] [] (root_cached _) eq_refl eq_refl eq_refl _ _ _ _).
  - apply (bool_decide_unpack _). vm_compute. exact I.
  - apply (bool_decide_unpack _). vm_compute. exact I.
  - cbn. lia.
  - cbn. lia.
Defined.
