(* ===== verification/Task.v ===== *)
(** The tasks and the kernel's process state (kernel/task.h, kernel/signal.h,
    kernel/ipc/ipc.h): the structures, and their place in one kernel state.

    A task is named by the address of its structure, which is also the name of
    its page directory in VirtMem. The kernel stack of a task that waits in
    schedule() is a [frame]: the call of schedule() it returns from. The
    component below the processes - memory, and the files of a task - is reached
    through the interface [KernEnv]. *)

From S2P Require Import Prelude Spinlock ListSpec IdHash Util Cga PhysMem VirtMem Kmalloc.

(** * Definitions *)

(** Task::State *)
Inductive State :=
| State_not_runnable | State_running | State_interruptible
| State_uninterruptible | State_zombie | State_stopped.

#[export] Instance State_eq_dec : EqDecision State.
Proof. solve_decision. Defined.

(** The registers of a trap frame that the kernel reads or writes. *)
Record Trapframe := mkTf {
  tf_edi : Z; tf_esi : Z; tf_ebx : Z; tf_edx : Z; tf_ecx : Z; tf_eax : Z;
  tf_trapno : Z; tf_err : Z; tf_eip : Z; tf_cs : Z; tf_esp : Z;
}.
Definition get_param1 (tf : Trapframe) : Z := tf_edx tf.
Definition get_param2 (tf : Trapframe) : Z := tf_ecx tf.
Definition get_param3 (tf : Trapframe) : Z := tf_ebx tf.
Definition get_param4 (tf : Trapframe) : Z := tf_edi tf.
Definition get_param5 (tf : Trapframe) : Z := tf_esi tf.
Definition set_return (ret : Z) (tf : Trapframe) : Trapframe :=
  mkTf (tf_edi tf) (tf_esi tf) (tf_ebx tf) (tf_edx tf) (tf_ecx tf) (u32 ret)
       (tf_trapno tf) (tf_err tf) (tf_eip tf) (tf_cs tf) (tf_esp tf).
Definition tf_jump (eip esp : Z) (tf : Trapframe) : Trapframe :=
  mkTf (tf_edi tf) (tf_esi tf) (tf_ebx tf) (tf_edx tf) (tf_ecx tf) (tf_eax tf)
       (tf_trapno tf) (tf_err tf) eip (tf_cs tf) esp.

(** Where a task that is not running continues: behind the call of schedule() in
    pause, do_timer and schedule's other tail callers; in yield; in sleep; in
    wait, with the kernel address of its argument; in do_exit and in the stop
    branch of check_signals, which are not meant to return; in cgetc; in one of
    the two waits of sys_semwait, with the saved eflags; or, for a new task, in
    do_fork behind read_eip(). *)
Inductive frame :=
| FReturn | FYield | FSleep | FWait (state : Z) | FExit | FStop | FGetc
| FSemTaken (sem : Z) (eflags : bool) | FSemWait (eflags : bool) | FChild.

(** struct Task. The registers of the user program are in [t_tf]. *)
Record Task := mkTask {
  t_id : Z;
  t_parent : Z;
  t_state : State;
  t_run_count : Z;
  t_k_eip : bool;   (* k_eip is set: not run yet *)
  t_frame : frame;   (* where it continues *)
  t_time_start : Z;
  t_time_end : Z;
  t_time_user : Z;
  t_time_kernel : Z;
  t_counter : Z;
  t_priority : Z;
  t_waiting_child : bool;
  t_popped_kstack : bool;
  t_sigstack : list Z;   (* SignalState, the newest first *)
  t_sig : Z;
  t_pending : Z;
  t_action : list Z;
  t_alarm : Z;
  t_sleep : Z;
  t_exit_code : Z;
  t_exit_signal : Z;
  t_before_switch : option Z;   (* run_before_switch_f: do_sempost of a semaphore *)
  t_wait_notify_next : Z;
  t_n_cli : Z;   (* while it is not running *)
  t_before_pushcli : bool;
  t_tf : Trapframe;
  t_shared_mem : list Z;
}.

(** Assignments to the fields. *)
Definition set_t_id (v : Z) (r : Task) : Task :=
    mkTask v (t_parent r) (t_state r) (t_run_count r) (t_k_eip r) (t_frame r) (t_time_start r)
    (t_time_end r) (t_time_user r) (t_time_kernel r) (t_counter r) (t_priority r)
    (t_waiting_child r) (t_popped_kstack r) (t_sigstack r) (t_sig r) (t_pending r) (t_action r)
    (t_alarm r) (t_sleep r) (t_exit_code r) (t_exit_signal r) (t_before_switch r)
    (t_wait_notify_next r) (t_n_cli r) (t_before_pushcli r) (t_tf r) (t_shared_mem r).
Definition set_t_parent (v : Z) (r : Task) : Task :=
    mkTask (t_id r) v (t_state r) (t_run_count r) (t_k_eip r) (t_frame r) (t_time_start r)
    (t_time_end r) (t_time_user r) (t_time_kernel r) (t_counter r) (t_priority r)
    (t_waiting_child r) (t_popped_kstack r) (t_sigstack r) (t_sig r) (t_pending r) (t_action r)
    (t_alarm r) (t_sleep r) (t_exit_code r) (t_exit_signal r) (t_before_switch r)
    (t_wait_notify_next r) (t_n_cli r) (t_before_pushcli r) (t_tf r) (t_shared_mem r).
Definition set_t_state (v : State) (r : Task) : Task :=
    mkTask (t_id r) (t_parent r) v (t_run_count r) (t_k_eip r) (t_frame r) (t_time_start r)
    (t_time_end r) (t_time_user r) (t_time_kernel r) (t_counter r) (t_priority r)
    (t_waiting_child r) (t_popped_kstack r) (t_sigstack r) (t_sig r) (t_pending r) (t_action r)
    (t_alarm r) (t_sleep r) (t_exit_code r) (t_exit_signal r) (t_before_switch r)
    (t_wait_notify_next r) (t_n_cli r) (t_before_pushcli r) (t_tf r) (t_shared_mem r).
Definition set_t_run_count (v : Z) (r : Task) : Task :=
    mkTask (t_id r) (t_parent r) (t_state r) v (t_k_eip r) (t_frame r) (t_time_start r)
    (t_time_end r) (t_time_user r) (t_time_kernel r) (t_counter r) (t_priority r)
    (t_waiting_child r) (t_popped_kstack r) (t_sigstack r) (t_sig r) (t_pending r) (t_action r)
    (t_alarm r) (t_sleep r) (t_exit_code r) (t_exit_signal r) (t_before_switch r)
    (t_wait_notify_next r) (t_n_cli r) (t_before_pushcli r) (t_tf r) (t_shared_mem r).
Definition set_t_k_eip (v : bool) (r : Task) : Task :=
    mkTask (t_id r) (t_parent r) (t_state r) (t_run_count r) v (t_frame r) (t_time_start r)
    (t_time_end r) (t_time_user r) (t_time_kernel r) (t_counter r) (t_priority r)
    (t_waiting_child r) (t_popped_kstack r) (t_sigstack r) (t_sig r) (t_pending r) (t_action r)
    (t_alarm r) (t_sleep r) (t_exit_code r) (t_exit_signal r) (t_before_switch r)
    (t_wait_notify_next r) (t_n_cli r) (t_before_pushcli r) (t_tf r) (t_shared_mem r).
Definition set_t_frame (v : frame) (r : Task) : Task :=
    mkTask (t_id r) (t_parent r) (t_state r) (t_run_count r) (t_k_eip r) v (t_time_start r)
    (t_time_end r) (t_time_user r) (t_time_kernel r) (t_counter r) (t_priority r)
    (t_waiting_child r) (t_popped_kstack r) (t_sigstack r) (t_sig r) (t_pending r) (t_action r)
    (t_alarm r) (t_sleep r) (t_exit_code r) (t_exit_signal r) (t_before_switch r)
    (t_wait_notify_next r) (t_n_cli r) (t_before_pushcli r) (t_tf r) (t_shared_mem r).
Definition set_t_time_start (v : Z) (r : Task) : Task :=
    mkTask (t_id r) (t_parent r) (t_state r) (t_run_count r) (t_k_eip r) (t_frame r) v
    (t_time_end r) (t_time_user r) (t_time_kernel r) (t_counter r) (t_priority r)
    (t_waiting_child r) (t_popped_kstack r) (t_sigstack r) (t_sig r) (t_pending r) (t_action r)
    (t_alarm r) (t_sleep r) (t_exit_code r) (t_exit_signal r) (t_before_switch r)
    (t_wait_notify_next r) (t_n_cli r) (t_before_pushcli r) (t_tf r) (t_shared_mem r).
Definition set_t_time_end (v : Z) (r : Task) : Task :=
    mkTask (t_id r) (t_parent r) (t_state r) (t_run_count r) (t_k_eip r) (t_frame r)
    (t_time_start r) v (t_time_user r) (t_time_kernel r) (t_counter r) (t_priority r)
    (t_waiting_child r) (t_popped_kstack r) (t_sigstack r) (t_sig r) (t_pending r) (t_action r)
    (t_alarm r) (t_sleep r) (t_exit_code r) (t_exit_signal r) (t_before_switch r)
    (t_wait_notify_next r) (t_n_cli r) (t_before_pushcli r) (t_tf r) (t_shared_mem r).
Definition set_t_time_user (v : Z) (r : Task) : Task :=
    mkTask (t_id r) (t_parent r) (t_state r) (t_run_count r) (t_k_eip r) (t_frame r)
    (t_time_start r) (t_time_end r) v (t_time_kernel r) (t_counter r) (t_priority r)
    (t_waiting_child r) (t_popped_kstack r) (t_sigstack r) (t_sig r) (t_pending r) (t_action r)
    (t_alarm r) (t_sleep r) (t_exit_code r) (t_exit_signal r) (t_before_switch r)
    (t_wait_notify_next r) (t_n_cli r) (t_before_pushcli r) (t_tf r) (t_shared_mem r).
Definition set_t_time_kernel (v : Z) (r : Task) : Task :=
    mkTask (t_id r) (t_parent r) (t_state r) (t_run_count r) (t_k_eip r) (t_frame r)
    (t_time_start r) (t_time_end r) (t_time_user r) v (t_counter r) (t_priority r)
    (t_waiting_child r) (t_popped_kstack r) (t_sigstack r) (t_sig r) (t_pending r) (t_action r)
    (t_alarm r) (t_sleep r) (t_exit_code r) (t_exit_signal r) (t_before_switch r)
    (t_wait_notify_next r) (t_n_cli r) (t_before_pushcli r) (t_tf r) (t_shared_mem r).
Definition set_t_counter (v : Z) (r : Task) : Task :=
    mkTask (t_id r) (t_parent r) (t_state r) (t_run_count r) (t_k_eip r) (t_frame r)
    (t_time_start r) (t_time_end r) (t_time_user r) (t_time_kernel r) v (t_priority r)
    (t_waiting_child r) (t_popped_kstack r) (t_sigstack r) (t_sig r) (t_pending r) (t_action r)
    (t_alarm r) (t_sleep r) (t_exit_code r) (t_exit_signal r) (t_before_switch r)
    (t_wait_notify_next r) (t_n_cli r) (t_before_pushcli r) (t_tf r) (t_shared_mem r).
Definition set_t_priority (v : Z) (r : Task) : Task :=
    mkTask (t_id r) (t_parent r) (t_state r) (t_run_count r) (t_k_eip r) (t_frame r)
    (t_time_start r) (t_time_end r) (t_time_user r) (t_time_kernel r) (t_counter r) v
    (t_waiting_child r) (t_popped_kstack r) (t_sigstack r) (t_sig r) (t_pending r) (t_action r)
    (t_alarm r) (t_sleep r) (t_exit_code r) (t_exit_signal r) (t_before_switch r)
    (t_wait_notify_next r) (t_n_cli r) (t_before_pushcli r) (t_tf r) (t_shared_mem r).
Definition set_t_waiting_child (v : bool) (r : Task) : Task :=
    mkTask (t_id r) (t_parent r) (t_state r) (t_run_count r) (t_k_eip r) (t_frame r)
    (t_time_start r) (t_time_end r) (t_time_user r) (t_time_kernel r) (t_counter r) (t_priority
    r) v (t_popped_kstack r) (t_sigstack r) (t_sig r) (t_pending r) (t_action r) (t_alarm r)
    (t_sleep r) (t_exit_code r) (t_exit_signal r) (t_before_switch r) (t_wait_notify_next r)
    (t_n_cli r) (t_before_pushcli r) (t_tf r) (t_shared_mem r).
Definition set_t_popped_kstack (v : bool) (r : Task) : Task :=
    mkTask (t_id r) (t_parent r) (t_state r) (t_run_count r) (t_k_eip r) (t_frame r)
    (t_time_start r) (t_time_end r) (t_time_user r) (t_time_kernel r) (t_counter r) (t_priority
    r) (t_waiting_child r) v (t_sigstack r) (t_sig r) (t_pending r) (t_action r) (t_alarm r)
    (t_sleep r) (t_exit_code r) (t_exit_signal r) (t_before_switch r) (t_wait_notify_next r)
    (t_n_cli r) (t_before_pushcli r) (t_tf r) (t_shared_mem r).
Definition set_t_sigstack (v : list Z) (r : Task) : Task :=
    mkTask (t_id r) (t_parent r) (t_state r) (t_run_count r) (t_k_eip r) (t_frame r)
    (t_time_start r) (t_time_end r) (t_time_user r) (t_time_kernel r) (t_counter r) (t_priority
    r) (t_waiting_child r) (t_popped_kstack r) v (t_sig r) (t_pending r) (t_action r) (t_alarm
    r) (t_sleep r) (t_exit_code r) (t_exit_signal r) (t_before_switch r) (t_wait_notify_next r)
    (t_n_cli r) (t_before_pushcli r) (t_tf r) (t_shared_mem r).
Definition set_t_sig (v : Z) (r : Task) : Task :=
    mkTask (t_id r) (t_parent r) (t_state r) (t_run_count r) (t_k_eip r) (t_frame r)
    (t_time_start r) (t_time_end r) (t_time_user r) (t_time_kernel r) (t_counter r) (t_priority
    r) (t_waiting_child r) (t_popped_kstack r) (t_sigstack r) v (t_pending r) (t_action r)
    (t_alarm r) (t_sleep r) (t_exit_code r) (t_exit_signal r) (t_before_switch r)
    (t_wait_notify_next r) (t_n_cli r) (t_before_pushcli r) (t_tf r) (t_shared_mem r).
Definition set_t_pending (v : Z) (r : Task) : Task :=
    mkTask (t_id r) (t_parent r) (t_state r) (t_run_count r) (t_k_eip r) (t_frame r)
    (t_time_start r) (t_time_end r) (t_time_user r) (t_time_kernel r) (t_counter r) (t_priority
    r) (t_waiting_child r) (t_popped_kstack r) (t_sigstack r) (t_sig r) v (t_action r) (t_alarm
    r) (t_sleep r) (t_exit_code r) (t_exit_signal r) (t_before_switch r) (t_wait_notify_next r)
    (t_n_cli r) (t_before_pushcli r) (t_tf r) (t_shared_mem r).
Definition set_t_action (v : list Z) (r : Task) : Task :=
    mkTask (t_id r) (t_parent r) (t_state r) (t_run_count r) (t_k_eip r) (t_frame r)
    (t_time_start r) (t_time_end r) (t_time_user r) (t_time_kernel r) (t_counter r) (t_priority
    r) (t_waiting_child r) (t_popped_kstack r) (t_sigstack r) (t_sig r) (t_pending r) v (t_alarm
    r) (t_sleep r) (t_exit_code r) (t_exit_signal r) (t_before_switch r) (t_wait_notify_next r)
    (t_n_cli r) (t_before_pushcli r) (t_tf r) (t_shared_mem r).
Definition set_t_alarm (v : Z) (r : Task) : Task :=
    mkTask (t_id r) (t_parent r) (t_state r) (t_run_count r) (t_k_eip r) (t_frame r)
    (t_time_start r) (t_time_end r) (t_time_user r) (t_time_kernel r) (t_counter r) (t_priority
    r) (t_waiting_child r) (t_popped_kstack r) (t_sigstack r) (t_sig r) (t_pending r) (t_action
    r) v (t_sleep r) (t_exit_code r) (t_exit_signal r) (t_before_switch r) (t_wait_notify_next
    r) (t_n_cli r) (t_before_pushcli r) (t_tf r) (t_shared_mem r).
Definition set_t_sleep (v : Z) (r : Task) : Task :=
    mkTask (t_id r) (t_parent r) (t_state r) (t_run_count r) (t_k_eip r) (t_frame r)
    (t_time_start r) (t_time_end r) (t_time_user r) (t_time_kernel r) (t_counter r) (t_priority
    r) (t_waiting_child r) (t_popped_kstack r) (t_sigstack r) (t_sig r) (t_pending r) (t_action
    r) (t_alarm r) v (t_exit_code r) (t_exit_signal r) (t_before_switch r) (t_wait_notify_next
    r) (t_n_cli r) (t_before_pushcli r) (t_tf r) (t_shared_mem r).
Definition set_t_exit_code (v : Z) (r : Task) : Task :=
    mkTask (t_id r) (t_parent r) (t_state r) (t_run_count r) (t_k_eip r) (t_frame r)
    (t_time_start r) (t_time_end r) (t_time_user r) (t_time_kernel r) (t_counter r) (t_priority
    r) (t_waiting_child r) (t_popped_kstack r) (t_sigstack r) (t_sig r) (t_pending r) (t_action
    r) (t_alarm r) (t_sleep r) v (t_exit_signal r) (t_before_switch r) (t_wait_notify_next r)
    (t_n_cli r) (t_before_pushcli r) (t_tf r) (t_shared_mem r).
Definition set_t_exit_signal (v : Z) (r : Task) : Task :=
    mkTask (t_id r) (t_parent r) (t_state r) (t_run_count r) (t_k_eip r) (t_frame r)
    (t_time_start r) (t_time_end r) (t_time_user r) (t_time_kernel r) (t_counter r) (t_priority
    r) (t_waiting_child r) (t_popped_kstack r) (t_sigstack r) (t_sig r) (t_pending r) (t_action
    r) (t_alarm r) (t_sleep r) (t_exit_code r) v (t_before_switch r) (t_wait_notify_next r)
    (t_n_cli r) (t_before_pushcli r) (t_tf r) (t_shared_mem r).
Definition set_t_before_switch (v : option Z) (r : Task) : Task :=
    mkTask (t_id r) (t_parent r) (t_state r) (t_run_count r) (t_k_eip r) (t_frame r)
    (t_time_start r) (t_time_end r) (t_time_user r) (t_time_kernel r) (t_counter r) (t_priority
    r) (t_waiting_child r) (t_popped_kstack r) (t_sigstack r) (t_sig r) (t_pending r) (t_action
    r) (t_alarm r) (t_sleep r) (t_exit_code r) (t_exit_signal r) v (t_wait_notify_next r)
    (t_n_cli r) (t_before_pushcli r) (t_tf r) (t_shared_mem r).
Definition set_t_wait_notify_next (v : Z) (r : Task) : Task :=
    mkTask (t_id r) (t_parent r) (t_state r) (t_run_count r) (t_k_eip r) (t_frame r)
    (t_time_start r) (t_time_end r) (t_time_user r) (t_time_kernel r) (t_counter r) (t_priority
    r) (t_waiting_child r) (t_popped_kstack r) (t_sigstack r) (t_sig r) (t_pending r) (t_action
    r) (t_alarm r) (t_sleep r) (t_exit_code r) (t_exit_signal r) (t_before_switch r) v (t_n_cli
    r) (t_before_pushcli r) (t_tf r) (t_shared_mem r).
Definition set_t_n_cli (v : Z) (r : Task) : Task :=
    mkTask (t_id r) (t_parent r) (t_state r) (t_run_count r) (t_k_eip r) (t_frame r)
    (t_time_start r) (t_time_end r) (t_time_user r) (t_time_kernel r) (t_counter r) (t_priority
    r) (t_waiting_child r) (t_popped_kstack r) (t_sigstack r) (t_sig r) (t_pending r) (t_action
    r) (t_alarm r) (t_sleep r) (t_exit_code r) (t_exit_signal r) (t_before_switch r)
    (t_wait_notify_next r) v (t_before_pushcli r) (t_tf r) (t_shared_mem r).
Definition set_t_before_pushcli (v : bool) (r : Task) : Task :=
    mkTask (t_id r) (t_parent r) (t_state r) (t_run_count r) (t_k_eip r) (t_frame r)
    (t_time_start r) (t_time_end r) (t_time_user r) (t_time_kernel r) (t_counter r) (t_priority
    r) (t_waiting_child r) (t_popped_kstack r) (t_sigstack r) (t_sig r) (t_pending r) (t_action
    r) (t_alarm r) (t_sleep r) (t_exit_code r) (t_exit_signal r) (t_before_switch r)
    (t_wait_notify_next r) (t_n_cli r) v (t_tf r) (t_shared_mem r).
Definition set_t_tf (v : Trapframe) (r : Task) : Task :=
    mkTask (t_id r) (t_parent r) (t_state r) (t_run_count r) (t_k_eip r) (t_frame r)
    (t_time_start r) (t_time_end r) (t_time_user r) (t_time_kernel r) (t_counter r) (t_priority
    r) (t_waiting_child r) (t_popped_kstack r) (t_sigstack r) (t_sig r) (t_pending r) (t_action
    r) (t_alarm r) (t_sleep r) (t_exit_code r) (t_exit_signal r) (t_before_switch r)
    (t_wait_notify_next r) (t_n_cli r) (t_before_pushcli r) v (t_shared_mem r).
Definition set_t_shared_mem (v : list Z) (r : Task) : Task :=
    mkTask (t_id r) (t_parent r) (t_state r) (t_run_count r) (t_k_eip r) (t_frame r)
    (t_time_start r) (t_time_end r) (t_time_user r) (t_time_kernel r) (t_counter r) (t_priority
    r) (t_waiting_child r) (t_popped_kstack r) (t_sigstack r) (t_sig r) (t_pending r) (t_action
    r) (t_alarm r) (t_sleep r) (t_exit_code r) (t_exit_signal r) (t_before_switch r)
    (t_wait_notify_next r) (t_n_cli r) (t_before_pushcli r) (t_tf r) v.

(** SignalState: a kernel stack put aside by push_stack, with the point in
    check_signals it was taken at and the copied trap frame. *)
Record SignalState := mkSigState {
  ss_stack : list Z;      (* the frames of the pages *)
  ss_sig : Z;             (* the signal check_signals is at *)
  ss_frame : frame;       (* the caller of schedule() *)
  ss_tf : Trapframe;
  ss_sleep : Z;
}.

Record SemInfo := mkSem { sem_value : Z; sem_sem : Z }.

(** SharedMemInfo and SharedMemDesc; the lists are in [shm_state]. *)
Record SharedMemInfo := mkShm {
  shm_id : Z; shm_key : Z; shm_size : Z; shm_page : Z; shm_tasks : list Z;
}.
Record SharedMemDesc := mkDesc { d_start : Z; d_end : Z; d_info : Z; d_task : Z }.

Record shm_state := mkShmState {
  shm_infos : gmap Z SharedMemInfo;
  shm_descs : gmap Z SharedMemDesc;
  shm_id_ht : idht;
  shm_key_ht : idht;
  next_shm_id : Z;
}.

(** The lists a task's [list_node] can be in. *)
Inductive queue :=
| QRun (priority : Z) | QSleep | QZombie | QConsole | QSem (sem : Z) | QInode (inode : Z).

#[export] Instance queue_eq_dec : EqDecision queue.
Proof. solve_decision. Defined.
#[export] Instance queue_countable : Countable queue.
Proof.
  refine (inj_countable'
    (fun q => match q with
              | QRun p => (0, p) | QSleep => (1, 0) | QZombie => (2, 0) | QConsole => (3, 0)
              | QSem a => (4, a) | QInode a => (5, a) end)
    (fun p => if p.1 =? 0 then QRun p.2 else if p.1 =? 1 then QSleep else if p.1 =? 2 then QZombie
              else if p.1 =? 3 then QConsole else if p.1 =? 4 then QSem p.2 else QInode p.2) _).
  by intros [].
Defined.

(** The kernel state above memory. [k_cpu] is the processor's interrupt flag with
    the running task's n_cli and before_pushcli; the fields of the other tasks
    are in their structures. *)
Record kern (H : Type) := mkKern {
  k_heap : H;
  k_tasks : gmap Z Task;
  k_queues : lstore queue;     (* list_node *)
  k_alarms : lstore unit;      (* alarm_list_node, one list *)
  k_childs : lstore Z;         (* childlist_node, by parent *)
  k_ids : idht;                (* task_id_ht *)
  k_curr : Z;                  (* task_curr *)
  k_cpu : Cpu;
  k_jiffies : Z;
  k_next_id : Z;
  k_sigs : gmap Z SignalState;
  k_sems : gmap Z SemInfo;
  k_shm : shm_state;
}.
Arguments mkKern {H} _ _ _ _ _ _ _ _ _ _ _ _ _.
Arguments k_heap {H} _. Arguments k_tasks {H} _. Arguments k_queues {H} _.
Arguments k_alarms {H} _. Arguments k_childs {H} _. Arguments k_ids {H} _.
Arguments k_curr {H} _. Arguments k_cpu {H} _. Arguments k_jiffies {H} _.
Arguments k_next_id {H} _. Arguments k_sigs {H} _. Arguments k_sems {H} _. Arguments k_shm {H} _.

Section kern_fields.
Context {H : Type}.

Definition set_k_heap (v : H) (r : kern H) : kern H :=
    mkKern v (k_tasks r) (k_queues r) (k_alarms r) (k_childs r) (k_ids r) (k_curr r) (k_cpu r)
    (k_jiffies r) (k_next_id r) (k_sigs r) (k_sems r) (k_shm r).
Definition set_k_tasks (v : gmap Z Task) (r : kern H) : kern H :=
    mkKern (k_heap r) v (k_queues r) (k_alarms r) (k_childs r) (k_ids r) (k_curr r) (k_cpu r)
    (k_jiffies r) (k_next_id r) (k_sigs r) (k_sems r) (k_shm r).
Definition set_k_queues (v : lstore queue) (r : kern H) : kern H :=
    mkKern (k_heap r) (k_tasks r) v (k_alarms r) (k_childs r) (k_ids r) (k_curr r) (k_cpu r)
    (k_jiffies r) (k_next_id r) (k_sigs r) (k_sems r) (k_shm r).
Definition set_k_alarms (v : lstore unit) (r : kern H) : kern H :=
    mkKern (k_heap r) (k_tasks r) (k_queues r) v (k_childs r) (k_ids r) (k_curr r) (k_cpu r)
    (k_jiffies r) (k_next_id r) (k_sigs r) (k_sems r) (k_shm r).
Definition set_k_childs (v : lstore Z) (r : kern H) : kern H :=
    mkKern (k_heap r) (k_tasks r) (k_queues r) (k_alarms r) v (k_ids r) (k_curr r) (k_cpu r)
    (k_jiffies r) (k_next_id r) (k_sigs r) (k_sems r) (k_shm r).
Definition set_k_ids (v : idht) (r : kern H) : kern H :=
    mkKern (k_heap r) (k_tasks r) (k_queues r) (k_alarms r) (k_childs r) v (k_curr r) (k_cpu r)
    (k_jiffies r) (k_next_id r) (k_sigs r) (k_sems r) (k_shm r).
Definition set_k_curr (v : Z) (r : kern H) : kern H :=
    mkKern (k_heap r) (k_tasks r) (k_queues r) (k_alarms r) (k_childs r) (k_ids r) v (k_cpu r)
    (k_jiffies r) (k_next_id r) (k_sigs r) (k_sems r) (k_shm r).
Definition set_k_cpu (v : Cpu) (r : kern H) : kern H :=
    mkKern (k_heap r) (k_tasks r) (k_queues r) (k_alarms r) (k_childs r) (k_ids r) (k_curr r) v
    (k_jiffies r) (k_next_id r) (k_sigs r) (k_sems r) (k_shm r).
Definition set_k_jiffies (v : Z) (r : kern H) : kern H :=
    mkKern (k_heap r) (k_tasks r) (k_queues r) (k_alarms r) (k_childs r) (k_ids r) (k_curr r)
    (k_cpu r) v (k_next_id r) (k_sigs r) (k_sems r) (k_shm r).
Definition set_k_next_id (v : Z) (r : kern H) : kern H :=
    mkKern (k_heap r) (k_tasks r) (k_queues r) (k_alarms r) (k_childs r) (k_ids r) (k_curr r)
    (k_cpu r) (k_jiffies r) v (k_sigs r) (k_sems r) (k_shm r).
Definition set_k_sigs (v : gmap Z SignalState) (r : kern H) : kern H :=
    mkKern (k_heap r) (k_tasks r) (k_queues r) (k_alarms r) (k_childs r) (k_ids r) (k_curr r)
    (k_cpu r) (k_jiffies r) (k_next_id r) v (k_sems r) (k_shm r).
Definition set_k_sems (v : gmap Z SemInfo) (r : kern H) : kern H :=
    mkKern (k_heap r) (k_tasks r) (k_queues r) (k_alarms r) (k_childs r) (k_ids r) (k_curr r)
    (k_cpu r) (k_jiffies r) (k_next_id r) (k_sigs r) v (k_shm r).
Definition set_k_shm (v : shm_state) (r : kern H) : kern H :=
    mkKern (k_heap r) (k_tasks r) (k_queues r) (k_alarms r) (k_childs r) (k_ids r) (k_curr r)
    (k_cpu r) (k_jiffies r) (k_next_id r) (k_sigs r) (k_sems r) v.
End kern_fields.

(** ** The component below the processes *)

(** What the processes use of memory and of the files of a task: the kernel heap
    with its page tables, fs_fork and task_curr_free_files (kernel/fs/task_fs.cpp),
    and the console with the devices behind it. *)
Class KernEnv (H : Type) := {
  ke_heap : H -> ks mm;
  ke_set_heap : ks mm -> H -> H;
  ke_heap_set : forall k h, ke_heap (ke_set_heap k h) = k;
  ke_fs_fork : Z -> Z -> M H Z;
  ke_free_files : Z -> M H unit;
  ke_dev : Type;
  ke_ports :: Ports ke_dev;
  ke_con : H -> con ke_dev;
  ke_set_con : con ke_dev -> H -> H;
  ke_con_set : forall c h, ke_con (ke_set_con c h) = c;
}.

(** The structure task0 is static; its address is none of a heap object. *)
Definition task0 : Z := 4.
(** A task's page directory in VirtMem; kernel_dir is task0's. *)
Definition pgdir_of (t : Z) : Z := if t =? task0 then KDIR else t.

Section state.
Context {H : Type}.

#[export] Instance HasCpu_kern : HasCpu (kern H).
Proof.
  refine {| cpu_of := k_cpu; set_cpu := set_k_cpu |}.
  - done.
  - by intros [].
  - done.
Defined.

Definition t_rd (t : Z) : M (kern H) Task := k ← get; deref (k_tasks k !! t).
Definition t_wr (t : Z) (f : Task -> Task) : M (kern H) unit :=
  r ← t_rd t; modify (fun k => set_k_tasks (<[t := f r]> (k_tasks k)) k).
Definition task_curr : M (kern H) Z := gets k_curr.
Definition curr_rd : M (kern H) Task := t ← task_curr; t_rd t.
Definition curr_wr (f : Task -> Task) : M (kern H) unit := t ← task_curr; t_wr t f.
(** SYSCALL_RETURN(val) *)
Definition SYSCALL_RETURN (v : Z) : M (kern H) unit := curr_wr (fun t => set_t_tf (set_return v (t_tf t)) t).

(** Operations on the lists of tasks. *)
Definition q_get (q : queue) : M (kern H) (list Z) := gets (fun k => ls_get (k_queues k) q).
Definition q_op (f : lstore queue -> bool * lstore queue) : M (kern H) bool :=
  k ← get; let '(r, l) := f (k_queues k) in put (set_k_queues l k) ;; mret r.
(** list_node.__list and list_node.is_free() *)
Definition q_of (t : Z) : M (kern H) (option queue) := gets (fun k => ls_owner (k_queues k) !! t).
Definition q_free (t : Z) : M (kern H) bool := gets (fun k => ls_is_free t (k_queues k)).
Definition a_op (f : lstore unit -> bool * lstore unit) : M (kern H) bool :=
  k ← get; let '(r, l) := f (k_alarms k) in put (set_k_alarms l k) ;; mret r.
Definition in_ids {A} (m : M idht A) : M (kern H) A := zoom k_ids set_k_ids m.

Context `{!KernEnv H}.

(** A call of the heap or of the page tables, under the same interrupt flag. *)
Definition in_heap {A} (m : M (ks mm) A) : M (kern H) A := fun k =>
  match m (set_cpu (k_cpu k) (ke_heap (k_heap k))) with
  | Done a h => Done a (set_k_cpu (cpu_of h) (set_k_heap (ke_set_heap h (k_heap k)) k))
  | Stop f => Stop f
  end.
Definition in_mm {A} (m : M mm A) : M (kern H) A := in_heap (in_env m).
(** A call of the console's devices, under the same interrupt flag. *)
Definition in_con {A} (m : M (con ke_dev) A) : M (kern H) A := fun k =>
  match m (set_cpu (k_cpu k) (ke_con (k_heap k))) with
  | Done a c => Done a (set_k_cpu (cpu_of c) (set_k_heap (ke_set_con c (k_heap k)) k))
  | Stop f => Stop f
  end.
(** A call of the file component, under the same interrupt flag: that of its heap. *)
Definition in_files {A} (m : M H A) : M (kern H) A := fun k =>
  match m (ke_set_heap (set_cpu (k_cpu k) (ke_heap (k_heap k))) (k_heap k)) with
  | Done a h => Done a (set_k_cpu (cpu_of (ke_heap h)) (set_k_heap h k))
  | Stop f => Stop f
  end.
End state.

(** Task::init of a structure that was copied from the running task. *)
Definition SignalInfo_init (t : Task) : Task := set_t_sig 0 (set_t_pending 0 t).
Definition Task_init (t : Task) : Task :=
  let t := set_t_time_start 0 (set_t_time_user 0 (set_t_time_kernel 0 (set_t_time_end 0 t))) in
  let t := set_t_run_count 0 (set_t_counter 0 (set_t_alarm 0 t)) in
  let t := set_t_waiting_child false (SignalInfo_init t) in
  let t := set_t_wait_notify_next NULL (set_t_before_switch None (set_t_sigstack [] t)) in
  set_t_n_cli 0 t.
