(* ===== verification/Sched.v ===== *)
(** The scheduler (kernel/sched.cpp, kernel/time.h) and send_signal
    (kernel/signal.cpp).

    schedule() returns on the stack of another task. The part of a function in
    front of it is an operation of this file, the part behind it the [frame] the
    task is left with; Process closes the circle. *)

From S2P Require Import Prelude Spinlock ListSpec IdHash Util PhysMem VirtMem Kmalloc Task.

(** * Definitions *)

Definition HZ : Z := 100.
Definition jiffies_to_seconds (j : Z) : Z := j / HZ.
Definition jiffies_to_milliseconds (j : Z) : Z := u32 (j * 1000) / HZ.

Definition EINVAL : Z := 22.
Definition SIGKILL : Z := 9.
Definition SIGALRM : Z := 14.
Definition SIGCHLD : Z := 17.
Definition SIGCONT : Z := 18.
Definition SIGSTOP : Z := 19.
Definition SIGTSTP : Z := 20.
Definition SIGTTIN : Z := 21.
Definition SIGTTOU : Z := 22.
Definition SIGURG : Z := 23.
Definition SIG_DFL : Z := 0.
Definition SIG_IGN : Z := 1.

(** 1<<x on the processor, which counts modulo 32 *)
Definition S_ (x : Z) : Z := Z.shiftl 1 (x mod 32).
Definition SIG_DI : Z := Z.lor (S_ SIGCHLD) (S_ SIGURG).
Definition SIG_DS : Z := Z.lor (S_ SIGSTOP) (Z.lor (S_ SIGTSTP) (Z.lor (S_ SIGTTIN) (S_ SIGTTOU))).
Definition SIG_DC : Z := S_ SIGCONT.
(** A test of a bit: [x & _S(sig)] as a condition. *)
Definition has_sig (x sig : Z) : bool := negb (Z.land x (S_ sig) =? 0).

Section sched.
Context {H : Type}.
Notation K := (kern H).

(** ** Runnable queues *)

Definition add_to_runnable_list (t : Z) : M K unit :=
  pushcli ;;
  f ← q_free t; ASSERT f ;;
  t_wr t (set_t_state State_running) ;;
  r ← t_rd t;
  ok ← q_op (ls_push_back (QRun (t_priority r)) t); ASSERT ok ;;
  popcli.

Definition remove_from_runnable_list (t : Z) : M K unit :=
  pushcli ;;
  r ← t_rd t; q ← q_of t;
  ASSERT (bool_decide (q = Some (QRun (t_priority r)))) ;;
  ASSERT (bool_decide (t_state r = State_running)) ;;
  ok ← q_op (ls_erase (QRun (t_priority r)) t); ASSERT ok ;;
  f ← q_free t; ASSERT f ;;
  popcli.

Definition schedule_init : M K unit :=
  modify (fun k => set_k_alarms (ls_init tt (k_alarms k)) k) ;;
  modify (fun k => set_k_queues (ls_init QSleep (k_queues k)) k) ;;
  iterM (fun i => modify (fun k => set_k_queues (ls_init (QRun i) (k_queues k)) k)) (seqZ 1 40).

(** The priority levels from 40 down to 1. *)
Definition levels : list Z := reverse (seqZ 1 40).

Definition first_level (ls : lstore queue) : option Z :=
  head (filter (fun i => 0 < ls_size ls (QRun i)) levels).

Definition find_runnable_task : M K (option Z) :=
  pushcli ;;
  k ← get;
  r ← (match first_level (k_queues k) with
       | None => mret None
       | Some i =>
           t ← deref (ls_front (k_queues k) (QRun i));
           b ← q_op (ls_pop_front (QRun i)); ASSERT b ;;
           b ← q_op (ls_push_back (QRun i) t); ASSERT b ;;
           t_wr t (fun r => set_t_counter (t_priority r) r) ;;
           r ← t_rd t; ASSERT (bool_decide (t_state r = State_running)) ;;
           mret (Some t)
       end);
  popcli ;;
  mret r.

(** ** Signals to a task *)

Definition send_signal (sig t : Z) : M K Z :=
  if (t =? NULL) || (32 <? sig) then mret (- EINVAL) else
  pushcli ;;
  r ← t_rd t;
  if has_sig (t_pending r) sig then popcli ;; mret 0 else
  t_wr t (fun r => set_t_sig (Z.lor (t_sig r) (S_ sig)) r) ;;
  (if bool_decide (t_state r = State_interruptible) then
     c ← curr_rd;
     h ← deref (t_action c !! Z.to_nat sig);
     if (h =? SIG_DFL) && has_sig (Z.lor SIG_DI SIG_DC) sig && negb (t_waiting_child r) then mret tt
     else
       e ← eflags_read; cli ;;
       q ← q_of t;
       (match q with Some q => _ ← q_op (ls_erase q t); mret tt | None => mret tt end) ;;
       add_to_runnable_list t ;;
       eflags_load e
   else if bool_decide (t_state r = State_running) then mret tt
   else if bool_decide (t_state r = State_zombie) then mret tt
   else PANIC) ;;
  popcli ;; mret 0.

(** sys_signal *)
Definition sys_signal : M K unit :=
  c ← curr_rd;
  let signum := i32 (get_param1 (t_tf c)) in
  let handler := get_param2 (t_tf c) in
  if (signum <? 0) || (32 <? signum) || (signum =? SIGKILL) || (signum =? SIGSTOP)
  then SYSCALL_RETURN (- EINVAL)
  else
    _ ← deref (t_action c !! Z.to_nat signum);
    curr_wr (fun c => set_t_action (<[Z.to_nat signum := handler]> (t_action c)) c) ;;
    SYSCALL_RETURN 0.

Definition sys_kill : M K unit :=
  c ← curr_rd;
  let pid := i32 (get_param1 (t_tf c)) in
  let sig := get_param2 (t_tf c) in
  pushcli ;;
  t ← in_ids (ht_get (u32 pid));
  popcli ;;
  if t =? NULL then SYSCALL_RETURN (-1)
  else _ ← send_signal sig t; SYSCALL_RETURN 0.

(** ** Alarms *)

Definition check_alarm : M K unit :=
  pushcli ;;
  k ← get;
  let seconds := jiffies_to_seconds (k_jiffies k) in
  _ ← iter_until (fun t =>
        r ← t_rd t;
        if seconds <? t_alarm r then mret (Some tt) else
        _ ← send_signal SIGALRM t;
        _ ← a_op (ls_erase tt t);
        mret None) (ls_get (k_alarms k) tt);
  popcli.

(** The position of the new alarm: before every element with a later time than
    [seconds], the argument of the call; [insert] fails the second time. *)
Definition alarm_insert (seconds t : Z) : M K unit :=
  l ← gets (fun k => ls_get (k_alarms k) tt);
  iterM (fun x =>
    r ← t_rd x;
    when (seconds <? t_alarm r)
      (ok ← a_op (ls_insert tt (Some x) t); ASSERT ok)) l ;;
  _ ← a_op (ls_push_back tt t); mret tt.

Definition sys_alarm : M K unit :=
  t ← task_curr; c ← curr_rd;
  let seconds := get_param1 (t_tf c) in
  pushcli ;;
  k ← get;
  (if negb (ls_is_free t (k_alarms k))
   then ok ← a_op (ls_erase tt t); ASSERT ok else mret tt) ;;
  if seconds =? 0 then popcli ;; SYSCALL_RETURN 0 else
  curr_wr (set_t_alarm (u32 (jiffies_to_seconds (k_jiffies k) + seconds))) ;;
  alarm_insert seconds t ;;
  popcli ;;
  SYSCALL_RETURN 0.

(** ** Sleeping *)

(** sleep_interruptible and sleep_uninterruptible up to schedule(). *)
Definition sleep_on (st : State) (q : queue) : M K unit :=
  pushcli ;;
  t ← task_curr; c ← curr_rd;
  ASSERT (bool_decide (t_state c = State_running)) ;;
  remove_from_runnable_list t ;;
  _ ← q_op (ls_push_back q t);
  t_wr t (set_t_state st) ;;
  popcli.

(** front() of an empty list is the value of its end(). *)
Definition wakeup_interruptible (q : queue) : M K unit :=
  pushcli ;;
  k ← get;
  match ls_front (k_queues k) q with
  | None => popcli
  | Some t =>
      ok ← q_op (ls_pop_front q); ASSERT ok ;;
      add_to_runnable_list t ;;
      popcli
  end.

Definition wakeup_uninterruptible (q : queue) : M K unit :=
  pushcli ;;
  k ← get;
  let o := ls_front (k_queues k) q in
  ok ← q_op (ls_pop_front q); ASSERT ok ;;
  t ← deref o;
  add_to_runnable_list t ;;
  popcli.

Definition check_sleep_list : M K unit :=
  pushcli ;;
  k ← get;
  let seconds := jiffies_to_seconds (k_jiffies k) in
  _ ← iter_until (fun t =>
        r ← t_rd t;
        if seconds <? t_sleep r then mret (Some tt) else
        _ ← q_op (ls_erase QSleep t);
        f ← q_free t; ASSERT f ;;
        t_wr t (set_t_sleep 0) ;;
        add_to_runnable_list t ;;
        mret None) (ls_get (k_queues k) QSleep);
  popcli.

(** The position in the sleep list; here the results of insert are ignored. *)
Definition sleep_insert (seconds t : Z) : M K unit :=
  l ← q_get QSleep;
  iterM (fun x =>
    r ← t_rd x;
    when (seconds <? t_sleep r) (_ ← q_op (ls_insert QSleep (Some x) t); mret tt)) l ;;
  _ ← q_op (ls_push_back QSleep t); mret tt.

(** sys_sleep up to schedule(), for a time that is not zero. *)
Definition sleep_enter (seconds : Z) : M K unit :=
  pushcli ;;
  t ← task_curr;
  remove_from_runnable_list t ;;
  sleep_insert seconds t ;;
  k ← get;
  t_wr t (fun r => set_t_sleep (u32 (jiffies_to_seconds (k_jiffies k) + seconds))
                     (set_t_state State_interruptible r)) ;;
  popcli.

(** sys_sleep behind schedule(). *)
Definition sleep_return : M K unit :=
  c ← curr_rd; k ← get;
  let r := i32 (t_sleep c - jiffies_to_seconds (k_jiffies k)) in
  SYSCALL_RETURN (if r <? 1 then 0 else r).

(** sys_pause up to schedule(); the boolean tells whether it is called. *)
Definition pause_enter : M K bool :=
  t ← task_curr; c ← curr_rd;
  if (1 <? length (t_sigstack c))%nat then mret false else
  pushcli ;;
  remove_from_runnable_list t ;;
  t_wr t (set_t_state State_interruptible) ;;
  popcli ;;
  SYSCALL_RETURN (-1) ;;
  ASSERT_int_enable ;;
  mret true.

(** do_timer up to schedule(). [user]: the trap came from user mode. *)
Definition timer_enter (user : bool) : M K bool :=
  ASSERT_int_enable ;;
  modify (fun k => set_k_jiffies (u32 (k_jiffies k + 1)) k) ;;
  curr_wr (fun c => set_t_counter (t_counter c - 1) c) ;;
  curr_wr (fun c => if user then set_t_time_user (u32 (t_time_user c + 1)) c
                    else set_t_time_kernel (u32 (t_time_kernel c + 1)) c) ;;
  c ← curr_rd;
  mret (t_counter c <? 0).

(** ** do_sempost (kernel/ipc/semaphore.cpp): a delayed post *)
Definition do_sempost (sem : Z) : M K unit :=
  k ← get; s ← deref (k_sems k !! sem);
  let v := i32 (sem_value s - 1) in
  modify (fun k => set_k_sems (<[sem := mkSem v (sem_sem s)]> (k_sems k)) k) ;;
  ASSERT (v =? 0) ;;
  wakeup_uninterruptible (QSem sem).

(** schedule() up to the switch: the task that will run. *)
Definition schedule_pick : M K Z :=
  c ← curr_rd;
  (match t_before_switch c with
   | Some sem => do_sempost sem ;; curr_wr (set_t_before_switch None)
   | None => mret tt
   end) ;;
  check_alarm ;;
  check_sleep_list ;;
  o ← find_runnable_task;
  match o with None => PANIC | Some t => cli ;; mret t end.

(** switch_to_task: the processor's state is saved in the old task and loaded
    from the new one. cr3 is loaded from its page directory. *)
Definition switch_to_task `{!KernEnv H} (f : frame) (new : Z) : M K unit :=
  ASSERT_int_disable ;;
  curr_wr (set_t_frame f) ;;
  k ← get;
  curr_wr (fun c => set_t_n_cli (n_cli (k_cpu k)) (set_t_before_pushcli (before_pushcli (k_cpu k)) c)) ;;
  modify (set_k_curr new) ;;
  curr_wr (fun c => set_t_run_count (u32 (t_run_count c + 1)) c) ;;
  c ← curr_rd;
  modify (fun k => set_k_cpu (mkCpu (IF (k_cpu k)) (t_n_cli c) (t_before_pushcli c)) k) ;;
  in_mm (modify (set_cr3 (pgdir_of new))).
End sched.
