(* ===== verification/SchedProps.v ===== *)
(** Correctness of the scheduler's queues (model in Sched). *)

From S2P Require Import Prelude Spinlock ListSpec IdHash Util PhysMem VirtMem Kmalloc Task Sched.

(** * The invariant

    A task's state says which list it is in; a task is runnable exactly when it
    is in the queue of its priority. *)

Definition in_queue_state (q : queue) (r : Task) : Prop :=
  match q with
  | QRun p => t_state r = State_running /\ t_priority r = p
  | QSleep | QConsole => t_state r = State_interruptible
  | QZombie => t_state r = State_zombie
  | QSem _ | QInode _ => t_state r = State_uninterruptible
  end.

Record queues_ok (ts : gmap Z Task) (ls : lstore queue) : Prop := {
  qo_wf : ls_wf ls;
  qo_member : forall t q, ls_owner ls !! t = Some q ->
    exists r, ts !! t = Some r /\ in_queue_state q r;
  qo_running : forall t r, ts !! t = Some r -> t_state r = State_running ->
    ls_owner ls !! t = Some (QRun (t_priority r));
  qo_priority : forall t r, ts !! t = Some r -> 1 <= t_priority r <= 40;
}.

(** Run a monadic operation on a state given by its fields. *)
Ltac k_simp :=
  cbv beta iota zeta delta
    [ASSERT PANIC deref when stop get gets put modify mbind M_bind mret M_ret negb andb orb
     k_heap k_tasks k_queues k_alarms k_childs k_ids k_curr k_cpu k_jiffies k_next_id k_sigs
     k_sems k_shm set_k_heap set_k_tasks set_k_queues set_k_alarms set_k_childs set_k_ids
     set_k_curr set_k_cpu set_k_jiffies set_k_next_id set_k_sigs set_k_sems set_k_shm
     cpu_of set_cpu HasCpu_kern fst snd
     pushcli q_free q_of q_op q_get a_op t_rd t_wr task_curr curr_rd curr_wr].
Tactic Notation "k_fields" constr(k) :=
  destruct k as [?h ?ts ?qs ?al ?ch ?ids ?cur ?cpu ?j ?nid ?sg ?se ?sh];
  cbn [k_heap k_tasks k_queues k_alarms k_childs k_ids k_curr k_cpu k_jiffies k_next_id k_sigs
       k_sems k_shm] in *.

Section runs.
Context {H : Type}.
Implicit Types k : kern H.

Lemma q_op_run f k : q_op f k = Done (f (k_queues k)).1 (set_k_queues (f (k_queues k)).2 k).
Proof. unfold q_op. m_unfold. by destruct (f (k_queues k)). Qed.

Lemma a_op_run f k : a_op f k = Done (f (k_alarms k)).1 (set_k_alarms (f (k_alarms k)).2 k).
Proof. unfold a_op. m_unfold. by destruct (f (k_alarms k)). Qed.

Lemma t_wr_run t f k r :
  k_tasks k !! t = Some r -> t_wr t f k = Done tt (set_k_tasks (<[t := f r]> (k_tasks k)) k).
Proof. intros Hr. unfold t_wr, t_rd. m_unfold. by rewrite Hr. Qed.

Lemma t_rd_run t k r : k_tasks k !! t = Some r -> t_rd t k = Done r k.
Proof. intros Hr. unfold t_rd. m_unfold. by rewrite Hr. Qed.

Lemma curr_rd_run k r : k_tasks k !! k_curr k = Some r -> curr_rd k = Done r k.
Proof. intros Hr. unfold curr_rd, task_curr. m_unfold. by apply t_rd_run. Qed.

Lemma curr_wr_run f k r :
  k_tasks k !! k_curr k = Some r ->
  curr_wr f k = Done tt (set_k_tasks (<[k_curr k := f r]> (k_tasks k)) k).
Proof. intros Hr. unfold curr_wr, task_curr. m_unfold. by apply t_wr_run. Qed.

Lemma pushcli_run k : pushcli k = Done tt (set_k_cpu (do_pushcli (k_cpu k)) k).
Proof. done. Qed.

(** [m] returns [a] in [k'], with an interrupt state equivalent to [c0]. *)
Definition runs {A} (m : M (kern H) A) k (a : A) (k' : kern H) (c0 : Cpu) : Prop :=
  exists c, m k = Done a (set_k_cpu c k') /\ cpu_equiv c c0.
(** ... to the one it was called in. *)
Definition runs_to {A} (m : M (kern H) A) k (a : A) (k' : kern H) : Prop := runs m k a k' (k_cpu k).

Lemma runs_push {A} (m : M (kern H) A) k a k' c0 :
  runs m (set_k_cpu (do_pushcli (k_cpu k)) k) a k' c0 -> runs (pushcli ;; m) k a k' c0.
Proof. intros (c & Hm & Hc). exists c. split; [|done]. by rewrite (bind_done _ _ _ _ _ (pushcli_run k)). Qed.

(** The states compared up to the interrupt state. *)
Lemma runs_pop k k' c0 :
  cpu_ok c0 -> cpu_equiv (k_cpu k) (do_pushcli c0) ->
  set_k_cpu c0 k = set_k_cpu c0 k' -> runs popcli k tt k' c0.
Proof.
  intros Hok He Hk.
  destruct (popcli_run (S:=kern H) (set_k_cpu c0 k) k) as (c & Hp & Hc); [exact Hok|exact He|].
  exists c. split; [|done]. rewrite Hp. f_equal.
  transitivity (set_k_cpu c (set_k_cpu c0 k)); [done|]. by rewrite Hk.
Qed.

Lemma runs_ret {A} (a : A) k k' c0 :
  cpu_equiv (k_cpu k) c0 -> set_k_cpu c0 k = set_k_cpu c0 k' -> runs (mret a) k a k' c0.
Proof.
  intros He Hk. exists (k_cpu k). split; [|done]. unfold mret, M_ret. f_equal.
  transitivity (set_k_cpu (k_cpu k) (set_k_cpu c0 k')); [|done]. rewrite <- Hk. by destruct k.
Qed.

Lemma runs_bind {A B} (m : M (kern H) A) (f : A -> M (kern H) B) k a k1 b k2 c0 :
  runs_to m k a k1 ->
  (forall c, cpu_equiv c (k_cpu k) -> runs (f a) (set_k_cpu c k1) b k2 c0) ->
  runs (m ≫= f) k b k2 c0.
Proof.
  intros (c & Hm & Hc) Hf. destruct (Hf c Hc) as (c2 & Hr & Hc2).
  exists c2. split; [|done]. by rewrite (bind_done _ _ _ _ _ Hm).
Qed.

Lemma runs_step {A B} (m : M (kern H) A) (f : A -> M (kern H) B) k a k1 b k2 c0 :
  m k = Done a k1 -> runs (f a) k1 b k2 c0 -> runs (m ≫= f) k b k2 c0.
Proof. intros Hm (c2 & Hr & Hc2). exists c2. split; [|done]. by rewrite (bind_done _ _ _ _ _ Hm). Qed.

Lemma runs_equiv {A} (m : M (kern H) A) k a k' c0 c1 :
  runs m k a k' c0 -> cpu_equiv c0 c1 -> runs m k a k' c1.
Proof. intros (c & Hm & Hc) He. exists c. split; [done|]. by rewrite Hc. Qed.

Lemma runs_change {A} (m : M (kern H) A) k a k' k'' c0 :
  runs m k a k' c0 -> set_k_cpu c0 k' = set_k_cpu c0 k'' -> runs m k a k'' c0.
Proof.
  intros (c & Hm & Hc) He. exists c. split; [|done]. rewrite Hm. f_equal.
  transitivity (set_k_cpu c (set_k_cpu c0 k')); [done|]. by rewrite He.
Qed.

Lemma push_ok c c1 : cpu_ok c -> cpu_equiv c1 (do_pushcli c) -> cpu_ok c1.
Proof. intros Hok ->. by apply do_pushcli_ok. Qed.

Definition runnable (t : Z) (r : Task) k : kern H :=
  set_k_queues (ls_push_back (QRun (t_priority r)) t (k_queues k)).2
    (set_k_tasks (<[t := set_t_state State_running r]> (k_tasks k)) k).

Lemma add_to_runnable_run t r k :
  cpu_ok (k_cpu k) -> k_tasks k !! t = Some r -> ls_is_free t (k_queues k) = true ->
  runs_to (add_to_runnable_list t) k tt (runnable t r k).
Proof.
  intros Hok Hr Hf.
  destruct (popcli_run k (set_k_cpu (do_pushcli (k_cpu k)) (runnable t r k))) as (c & Hp & Hc); [done|reflexivity|].
  exists c. split; [|done].
  unfold runnable, add_to_runnable_list in *. rewrite ls_push_back_get in * by done.
  k_fields k. k_simp. rewrite Hf, Hr. k_simp. rewrite lookup_insert_eq. k_simp.
  cbn [t_priority set_t_state]. rewrite ls_push_back_get by done. exact Hp.
Qed.

Lemma q_free_run t k : q_free t k = Done (ls_is_free t (k_queues k)) k.
Proof. done. Qed.

Lemma remove_run t r k :
  cpu_ok (k_cpu k) -> k_tasks k !! t = Some r -> t_state r = State_running ->
  ls_owner (k_queues k) !! t = Some (QRun (t_priority r)) ->
  runs_to (remove_from_runnable_list t) k tt
    (set_k_queues (ls_erase (QRun (t_priority r)) t (k_queues k)).2 k).
Proof.
  intros Hok Hr Hs Ho.
  set (k' := set_k_queues (ls_erase (QRun (t_priority r)) t (k_queues k)).2 k).
  destruct (popcli_run k (set_k_cpu (do_pushcli (k_cpu k)) k')) as (c & Hp & Hc); [done|reflexivity|].
  exists c. split; [|done]. subst k'. unfold remove_from_runnable_list.
  unfold ls_erase in *. rewrite bool_decide_true in * by done.
  k_fields k. k_simp. rewrite Hr, Ho. k_simp. rewrite bool_decide_true by done.
  rewrite (bool_decide_true (t_state r = State_running)) by done. k_simp.
  unfold ls_erase. rewrite bool_decide_true by done. k_simp.
  unfold ls_is_free. cbn [ls_owner]. rewrite lookup_delete_eq, bool_decide_true by done. exact Hp.
Qed.
End runs.

(** * Preservation *)

(** What an operation on one task [t] has to respect. *)
Lemma queues_ok_update ts ls ls' t r' :
  queues_ok ts ls -> ls_wf ls' ->
  (forall t', t' <> t -> ls_owner ls' !! t' = ls_owner ls !! t') ->
  (forall q, ls_owner ls' !! t = Some q -> in_queue_state q r') ->
  (t_state r' = State_running -> ls_owner ls' !! t = Some (QRun (t_priority r'))) ->
  1 <= t_priority r' <= 40 ->
  queues_ok (<[t := r']> ts) ls'.
Proof.
  intros [Hwf Hm Hr Hp] Hwf' Ho Hq Hrun Hpr. split; [done| | |].
  - intros t' q Ht'. destruct (decide (t' = t)) as [->|Hne].
    + exists r'. rewrite lookup_insert_eq. auto.
    + rewrite Ho in Ht' by done. rewrite lookup_insert_ne by done. by apply Hm.
  - intros t' r Ht' Hs. destruct (decide (t' = t)) as [->|Hne].
    + rewrite lookup_insert_eq in Ht'. simplify_eq. auto.
    + rewrite lookup_insert_ne in Ht' by done. rewrite Ho by done. by apply Hr.
  - intros t' r Ht'. destruct (decide (t' = t)) as [->|Hne].
    + rewrite lookup_insert_eq in Ht'. by simplify_eq.
    + rewrite lookup_insert_ne in Ht' by done. by eapply Hp.
Qed.

(** The lists change a task at a time. *)
Lemma push_back_owner (ls : lstore queue) q t :
  ls_is_free t ls = true -> ls_owner (ls_push_back q t ls).2 = <[t := q]> (ls_owner ls).
Proof. intros Hf. by rewrite ls_push_back_get. Qed.

Lemma erase_owner (ls : lstore queue) q t :
  ls_owner ls !! t = Some q -> ls_owner (ls_erase q t ls).2 = delete t (ls_owner ls).
Proof. intros Ho. unfold ls_erase. by rewrite bool_decide_true. Qed.

Lemma erase_free (ls : lstore queue) q t :
  ls_owner ls !! t = Some q -> ls_is_free t (ls_erase q t ls).2 = true.
Proof. intros Ho. apply ls_owner_free. rewrite erase_owner by done. apply lookup_delete_eq. Qed.

(** Waking: a task that is in no list and not running becomes runnable. *)
Lemma queues_ok_runnable {H} (k : kern H) t r :
  queues_ok (k_tasks k) (k_queues k) -> ls_is_free t (k_queues k) = true ->
  1 <= t_priority r <= 40 ->
  queues_ok (k_tasks (runnable t r k)) (k_queues (runnable t r k)).
Proof.
  intros Hq Hf Hp. cbn [runnable k_tasks k_queues set_k_tasks set_k_queues].
  apply (queues_ok_update _ (k_queues k)); [done|apply ls_insert_wf, Hq| | | |done];
    rewrite push_back_owner by done.
  - intros. by rewrite lookup_insert_ne.
  - intros q. rewrite lookup_insert_eq. intros [= <-]. done.
  - intros _. by rewrite lookup_insert_eq.
Qed.

(** Leaving the lists: the task must not be running any more. *)
Lemma queues_ok_erase ts ls q t r' :
  queues_ok ts ls -> ls_owner ls !! t = Some q -> t_state r' <> State_running ->
  1 <= t_priority r' <= 40 ->
  queues_ok (<[t := r']> ts) (ls_erase q t ls).2.
Proof.
  intros Hq Ho Hs Hp. apply (queues_ok_update _ ls); [done|apply ls_erase_wf, Hq| | |done..];
    rewrite erase_owner by done.
  - intros. by rewrite lookup_delete_ne.
  - intros q'. by rewrite lookup_delete_eq.
Qed.

(** Moving from one list to the back of another. *)
Lemma queues_ok_move ts ls q q' t r' :
  queues_ok ts ls -> ls_owner ls !! t = Some q -> in_queue_state q' r' ->
  t_state r' <> State_running -> 1 <= t_priority r' <= 40 ->
  queues_ok (<[t := r']> ts) (ls_push_back q' t (ls_erase q t ls).2).2.
Proof.
  intros Hq Ho Hin Hs Hp. pose proof (erase_free ls q t Ho) as Hf.
  apply (queues_ok_update _ ls); [done|apply ls_insert_wf, ls_erase_wf, Hq| | |done..];
    rewrite push_back_owner, erase_owner by done.
  - intros. rewrite lookup_insert_ne by done. by rewrite lookup_delete_ne.
  - intros q2. rewrite lookup_insert_eq. by intros [= <-].
Qed.

Section operations.
Context {H : Type}.
Implicit Types k : kern H.

Definition slept (st : State) (q : queue) (t : Z) (r : Task) k : kern H :=
  set_k_tasks (<[t := set_t_state st r]> (k_tasks k))
    (set_k_queues (ls_push_back q t (ls_erase (QRun (t_priority r)) t (k_queues k)).2).2 k).

Lemma sleep_on_run st q r k :
  cpu_ok (k_cpu k) -> k_tasks k !! k_curr k = Some r -> t_state r = State_running ->
  ls_owner (k_queues k) !! k_curr k = Some (QRun (t_priority r)) ->
  runs_to (sleep_on st q) k tt (slept st q (k_curr k) r k).
Proof.
  intros Hok Hr Hs Ho. unfold sleep_on. apply runs_push.
  eapply runs_step; [done|]. eapply runs_step; [by apply curr_rd_run|].
  rewrite bool_decide_true by done. eapply runs_step; [done|].
  eapply runs_bind; [by apply remove_run; [apply do_pushcli_ok|..]|]. intros c Hc.
  eapply runs_step; [apply q_op_run|]. eapply runs_step; [by apply t_wr_run|].
  apply runs_pop; [done|exact Hc|reflexivity].
Qed.

Definition woken (q : queue) (t : Z) (r : Task) k : kern H :=
  runnable t r (set_k_queues (ls_pop_front q (k_queues k)).2 k).

Lemma front_facts k q t r :
  queues_ok (k_tasks k) (k_queues k) -> ls_front (k_queues k) q = Some t -> k_tasks k !! t = Some r ->
  ls_owner (k_queues k) !! t = Some q /\
  ls_pop_front q (k_queues k) = (true, (ls_erase q t (k_queues k)).2) /\ in_queue_state q r.
Proof.
  intros Hq Hf Hr. pose proof (ls_front_owner _ _ _ (qo_wf _ _ Hq) Hf) as Ho.
  split_and!; [done| |].
  - unfold ls_pop_front, ls_erase. rewrite Hf. by rewrite bool_decide_true.
  - destruct (qo_member _ _ Hq _ _ Ho) as (r' & Hr' & Hin). by simplify_eq.
Qed.

Lemma wakeup_body_run q t r k c0 :
  cpu_ok c0 -> cpu_equiv (k_cpu k) (do_pushcli c0) ->
  queues_ok (k_tasks k) (k_queues k) -> ls_front (k_queues k) q = Some t -> k_tasks k !! t = Some r ->
  runs (ok ← q_op (ls_pop_front q); ASSERT ok ;; add_to_runnable_list t ;; popcli) k tt (woken q t r k) c0.
Proof.
  intros Hok Hc Hq Hf Hr. destruct (front_facts k q t r Hq Hf Hr) as (Ho & Hp & _).
  eapply runs_step; [apply q_op_run|]. rewrite Hp. cbn [fst snd ASSERT].
  eapply runs_step; [done|]. eapply runs_bind.
  { apply add_to_runnable_run; [by eapply push_ok|done|]. by apply erase_free. }
  intros c Hc'. unfold woken. rewrite Hp. apply runs_pop; [done|exact (transitivity Hc' Hc)|reflexivity].
Qed.

Lemma wakeup_interruptible_run q t r k :
  cpu_ok (k_cpu k) -> queues_ok (k_tasks k) (k_queues k) ->
  ls_front (k_queues k) q = Some t -> k_tasks k !! t = Some r ->
  runs_to (wakeup_interruptible q) k tt (woken q t r k).
Proof.
  intros Hok Hq Hf Hr. unfold wakeup_interruptible. apply runs_push.
  eapply runs_step; [done|]. change (k_queues (set_k_cpu _ k)) with (k_queues k). rewrite Hf.
  destruct (wakeup_body_run q t r (set_k_cpu (do_pushcli (k_cpu k)) k) (k_cpu k)) as (c & He & Hc);
    [done..|].
  by exists c.
Qed.

Lemma wakeup_interruptible_empty q k :
  cpu_ok (k_cpu k) -> ls_front (k_queues k) q = None ->
  runs_to (wakeup_interruptible q) k tt k.
Proof.
  intros Hok Hf. unfold wakeup_interruptible. apply runs_push.
  eapply runs_step; [done|]. change (k_queues (set_k_cpu _ k)) with (k_queues k). rewrite Hf.
  by apply runs_pop.
Qed.

Lemma wakeup_uninterruptible_run q t r k :
  cpu_ok (k_cpu k) -> queues_ok (k_tasks k) (k_queues k) ->
  ls_front (k_queues k) q = Some t -> k_tasks k !! t = Some r ->
  runs_to (wakeup_uninterruptible q) k tt (woken q t r k).
Proof.
  intros Hok Hq Hf Hr. destruct (front_facts k q t r Hq Hf Hr) as (Ho & Hp & _).
  unfold wakeup_uninterruptible. apply runs_push.
  eapply runs_step; [done|]. eapply runs_step; [apply q_op_run|].
  change (k_queues (set_k_cpu _ k)) with (k_queues k). rewrite Hp, Hf. cbn [fst snd ASSERT].
  eapply runs_step; [done|]. eapply runs_step; [done|]. eapply runs_bind.
  { apply add_to_runnable_run; [by apply do_pushcli_ok|done|]. by apply erase_free. }
  intros c Hc'. unfold woken. rewrite Hp. apply runs_pop; [done|exact Hc'|reflexivity].
Qed.

Lemma queues_ok_woken k q t r :
  queues_ok (k_tasks k) (k_queues k) -> ls_front (k_queues k) q = Some t -> k_tasks k !! t = Some r ->
  t_state r <> State_running ->
  queues_ok (k_tasks (woken q t r k)) (k_queues (woken q t r k)).
Proof.
  intros Hq Hf Hr Hs. destruct (front_facts k q t r Hq Hf Hr) as (Ho & Hpop & _).
  pose proof (qo_priority _ _ Hq _ _ Hr) as Hp. unfold woken. rewrite Hpop. cbn [snd]. apply queues_ok_runnable; [|by apply erase_free|done].
  cbn [k_tasks k_queues set_k_queues]. rewrite <- (insert_id (k_tasks k) t r) by done.
  by apply queues_ok_erase.
Qed.
End operations.

(** * Choosing the next task *)

Lemma head_filter_split {A} (P : A -> Prop) `{forall x, Decision (P x)} (l : list A) x :
  head (filter P l) = Some x -> exists l1 l2, l = l1 ++ x :: l2 /\ P x /\ Forall (fun y => ~ P y) l1.
Proof.
  induction l as [|y l IH]; [done|]. rewrite filter_cons. case_decide as Hy.
  - intros [= ->]. by exists [], l.
  - intros (l1 & l2 & -> & Hx & Hl)%IH. exists (y :: l1), l2. auto.
Qed.

Lemma levels_above i j l1 l2 : levels = l1 ++ i :: l2 -> i < j <= 40 -> 1 <= i -> j ∈ l1.
Proof.
  intros Hl Hj Hi.
  assert (Hs : forall n, levels !! Z.to_nat (40 - n) = if (1 <=? n) && (n <=? 40) then Some n else levels !! Z.to_nat (40 - n)).
  { intros n. destruct (Z.leb_spec 1 n), (Z.leb_spec n 40); simpl; [|done..].
    unfold levels. rewrite reverse_lookup by (rewrite length_seqZ; lia).
    rewrite length_seqZ. rewrite lookup_seqZ_lt by lia. f_equal. lia. }
  assert (Hi40 : i <= 40) by lia.
  assert (Hli : length l1 = Z.to_nat (40 - i)).
  { apply (NoDup_lookup levels _ _ i).
    - unfold levels. eapply NoDup_Permutation_proper; [apply reverse_Permutation|apply NoDup_seqZ].
    - rewrite Hl. by rewrite list_lookup_middle.
    - rewrite Hs. destruct (Z.leb_spec 1 i), (Z.leb_spec i 40); done || lia. }
  assert (Hjl : levels !! Z.to_nat (40 - j) = Some j).
  { rewrite Hs. destruct (Z.leb_spec 1 j), (Z.leb_spec j 40); done || lia. }
  rewrite Hl in Hjl. rewrite lookup_app_l in Hjl by lia. by eapply list_elem_of_lookup_2.
Qed.

(** The level chosen is not empty, and every higher one is. *)
Lemma first_level_spec ls i :
  first_level ls = Some i ->
  1 <= i <= 40 /\ ls_get ls (QRun i) <> [] /\ forall j, i < j <= 40 -> ls_get ls (QRun j) = [].
Proof.
  unfold first_level. intros (l1 & l2 & Hl & Hi & Hf)%head_filter_split.
  assert (Hin : i ∈ levels) by (rewrite Hl; set_solver).
  unfold levels in Hin. rewrite elem_of_reverse, elem_of_seqZ in Hin.
  split_and!; [lia|lia| |].
  - intros He. unfold ls_size in Hi. rewrite He in Hi. simpl in Hi. lia.
  - intros j Hj. rewrite Forall_forall in Hf.
    specialize (Hf j (levels_above i j l1 l2 Hl ltac:(lia) ltac:(lia))).
    unfold ls_size in Hf. destruct (ls_get ls (QRun j)); [done|]. simpl in Hf. lia.
Qed.

Section find.
Context {H : Type}.
Implicit Types k : kern H.

(** The store with the contents of one list changed, for the same nodes. *)
Definition relist (q : queue) (l : list Z) (ls : lstore queue) : lstore queue :=
  mkLstore (<[q := l]> (ls_lists ls)) (ls_owner ls).

Lemma rotate_store ls i t xs :
  ls_wf ls -> ls_get ls (QRun i) = t :: xs ->
  ls_pop_front (QRun i) ls =
    (true, mkLstore (<[QRun i := xs]> (ls_lists ls)) (delete t (ls_owner ls))) /\
  ls_push_back (QRun i) t (mkLstore (<[QRun i := xs]> (ls_lists ls)) (delete t (ls_owner ls))) =
    (true, relist (QRun i) (xs ++ [t]) ls).
Proof.
  intros Hwf Hg. split; [by apply ls_pop_front_get|].
  assert (Ho : ls_owner ls !! t = Some (QRun i)) by (apply Hwf; rewrite Hg; set_solver).
  rewrite ls_push_back_get.
  - rewrite ls_get_insert. cbn [ls_lists ls_owner]. rewrite insert_insert_eq.
    rewrite insert_delete_eq, (insert_id (ls_owner ls)) by done. done.
  - apply ls_owner_free. cbn [ls_owner]. apply lookup_delete_eq.
Qed.

Lemma find_run k i t xs r :
  cpu_ok (k_cpu k) -> queues_ok (k_tasks k) (k_queues k) ->
  first_level (k_queues k) = Some i -> ls_get (k_queues k) (QRun i) = t :: xs ->
  k_tasks k !! t = Some r ->
  runs_to find_runnable_task k (Some t)
    (set_k_queues (relist (QRun i) (xs ++ [t]) (k_queues k))
      (set_k_tasks (<[t := set_t_counter (t_priority r) r]> (k_tasks k)) k)).
Proof.
  intros Hok Hq Hl Hg Hr. unfold find_runnable_task. apply runs_push.
  eapply runs_step; [done|]. change (k_queues (set_k_cpu _ k)) with (k_queues k). rewrite Hl.
  destruct (rotate_store _ _ _ _ (qo_wf _ _ Hq) Hg) as [Hpop Hpush].
  assert (Ho : ls_owner (k_queues k) !! t = Some (QRun i)) by (apply (qo_wf _ _ Hq); rewrite Hg; set_solver).
  destruct (qo_member _ _ Hq _ _ Ho) as (r' & Hr' & Hs & _). simplify_eq.
  eapply (runs_step _ _ _ (Some t) (set_k_cpu (do_pushcli (k_cpu k))
    (set_k_queues (relist (QRun i) (xs ++ [t]) (k_queues k))
      (set_k_tasks (<[t := set_t_counter (t_priority r) r]> (k_tasks k)) k)))).
  { unfold ls_front. rewrite Hg. clear Hok Hq Hl Hg Ho. k_fields k. k_simp. cbn [head].
    rewrite Hpop. k_simp. rewrite Hpush. k_simp. rewrite Hr. k_simp.
    rewrite lookup_insert_eq. k_simp. cbn [t_state set_t_counter].
    rewrite bool_decide_true by done. reflexivity. }
  destruct (runs_pop (set_k_cpu (do_pushcli (k_cpu k))
    (set_k_queues (relist (QRun i) (xs ++ [t]) (k_queues k))
      (set_k_tasks (<[t := set_t_counter (t_priority r) r]> (k_tasks k)) k))) _ (k_cpu k) Hok
    (reflexivity _) eq_refl) as (c & Hp & Hc).
  exists c. split; [|done]. by rewrite (bind_done _ _ _ _ _ Hp).
Qed.

Lemma relist_get q l ls q' :
  ls_get (relist q l ls) q' = if bool_decide (q' = q) then l else ls_get ls q'.
Proof.
  unfold relist. case_bool_decide as Hq; [subst; apply ls_get_insert|by apply ls_get_insert_ne].
Qed.

Lemma relist_relist q l l' ls : relist q l' (relist q l ls) = relist q l' ls.
Proof. unfold relist; simpl. by rewrite insert_insert_eq. Qed.

Lemma relist_id q ls : ls_get ls q <> [] -> relist q (ls_get ls q) ls = ls.
Proof.
  intros Hne. destruct ls as [l o]. unfold relist, ls_get in *; simpl in *. f_equal.
  apply insert_id. by destruct (l !! q).
Qed.

Lemma first_level_relist i l ls :
  length l = length (ls_get ls (QRun i)) -> first_level (relist (QRun i) l ls) = first_level ls.
Proof.
  intros Hl. unfold first_level. f_equal. apply list_filter_iff. intros x.
  unfold ls_size. rewrite relist_get. case_bool_decide as Hx; simplify_eq; by rewrite ?Hl.
Qed.

Lemma queues_ok_rotate ts ls i t xs r :
  queues_ok ts ls -> ls_get ls (QRun i) = t :: xs -> ts !! t = Some r ->
  queues_ok (<[t := set_t_counter (t_priority r) r]> ts) (relist (QRun i) (xs ++ [t]) ls).
Proof.
  intros Hq Hg Hr.
  assert (Hp : xs ++ [t] ≡ₚ ls_get ls (QRun i)) by (rewrite Hg; symmetry; apply Permutation_cons_append).
  assert (Ho : ls_owner ls !! t = Some (QRun i)) by (apply (qo_wf _ _ Hq); rewrite Hg; set_solver).
  destruct (qo_member _ _ Hq _ _ Ho) as (r' & Hr' & Hs & Hpr). simplify_eq.
  apply (queues_ok_update _ ls); [done| |done|..|exact (qo_priority _ _ Hq _ _ Hr)].
  - split; intros q; rewrite relist_get; case_bool_decide; subst.
    + rewrite Hp. apply (qo_wf _ _ Hq).
    + apply (qo_wf _ _ Hq).
    + intros n. change (ls_owner (relist _ _ ls)) with (ls_owner ls). rewrite Hp. apply (qo_wf _ _ Hq).
    + apply (qo_wf _ _ Hq).
  - intros q. cbn [relist ls_owner]. rewrite Ho. by intros [= <-].
  - done.
Qed.

(** [n] consecutive choices. *)
Fixpoint picks (n : nat) : M (kern H) (list Z) :=
  match n with
  | O => mret []
  | S n => o ← find_runnable_task; t ← deref o; l ← picks n; mret (t :: l)
  end.

Definition counters (ts : gmap Z Task) (l : list Z) : gmap Z Task :=
  foldl (fun ts t => alter (fun r => set_t_counter (t_priority r) r) t ts) ts l.

Lemma counters_notin ts l t : t ∉ l -> counters ts l !! t = ts !! t.
Proof.
  revert ts. induction l as [|x l IH]; intros ts Ht; [done|]. simpl.
  rewrite IH by set_solver. apply lookup_alter_ne. set_solver.
Qed.

Lemma counters_in ts l t r :
  NoDup l -> t ∈ l -> ts !! t = Some r -> counters ts l !! t = Some (set_t_counter (t_priority r) r).
Proof.
  intros Hnd. revert ts. induction Hnd as [|x l Hx Hnd IH]; intros ts Ht Hr; [set_solver|]. simpl.
  destruct (decide (t = x)) as [->|Hne].
  - rewrite counters_notin by done. rewrite lookup_alter_eq, Hr. done.
  - apply IH; [set_solver|]. by rewrite lookup_alter_ne.
Qed.

Lemma picks_run i ys zs k :
  cpu_ok (k_cpu k) -> queues_ok (k_tasks k) (k_queues k) ->
  first_level (k_queues k) = Some i -> ls_get (k_queues k) (QRun i) = ys ++ zs ->
  exists k', picks (length ys) k = Done ys k' /\
    k_tasks k' = counters (k_tasks k) ys /\
    ((ys = [] /\ k_queues k' = k_queues k) \/ k_queues k' = relist (QRun i) (zs ++ ys) (k_queues k)).
Proof.
  revert zs k. induction ys as [|t ys IH]; intros zs k Hok Hq Hl Hg; [by eauto 6|].
  cbn [picks length]. rewrite <- app_comm_cons in Hg.
  assert (Ho : ls_owner (k_queues k) !! t = Some (QRun i)) by (apply (qo_wf _ _ Hq); rewrite Hg; set_solver).
  destruct (qo_member _ _ Hq _ _ Ho) as (r & Hr & Hin).
  destruct (find_run k i t (ys ++ zs) r Hok Hq Hl Hg Hr) as (c & Hf & Hc).
  set (k1 := set_k_cpu c _) in Hf.
  destruct (IH (zs ++ [t]) k1) as (k' & Hp & Ht & Hqs).
  - cbn. by rewrite Hc.
  - by apply queues_ok_rotate.
  - cbn. rewrite first_level_relist; [done|]. rewrite Hg. simpl. rewrite !length_app; simpl. lia.
  - cbn. rewrite relist_get, bool_decide_true by done. by rewrite app_assoc.
  - exists k'. rewrite (bind_done _ _ _ _ _ Hf). unfold deref.
    rewrite (bind_done _ _ _ t k1) by done. rewrite (bind_done _ _ _ _ _ Hp). split_and!; [done| |].
    + rewrite Ht. cbn. unfold counters; simpl. f_equal.
      rewrite <- (insert_id (k_tasks k) t r) at 2 by done. by rewrite alter_insert_eq.
    + right. destruct Hqs as [[-> ->] | ->]; cbn; [done|]. rewrite relist_relist. by rewrite <- app_assoc.
Qed.
End find.

(** * Signals *)

Section signals.
Context {H : Type}.
Implicit Types k : kern H.

(** The signal is not worth waking the task: the running task has the default
    action for it, which is to ignore it, and the task does not wait for a child. *)
Definition not_woken (c : Task) (sig : Z) (r : Task) : bool :=
  match t_action c !! Z.to_nat sig with
  | Some h => (h =? SIG_DFL) && has_sig (Z.lor SIG_DI SIG_DC) sig && negb (t_waiting_child r)
  | None => false
  end.

(** Out of the list it waits in, and into the queue of its priority. *)
Definition roused (t : Z) (r : Task) k : kern H :=
  runnable t r
    (match ls_owner (k_queues k) !! t with
     | Some q => set_k_queues (ls_erase q t (k_queues k)).2 k
     | None => k
     end).

Definition sent (c : Task) (sig t : Z) (r : Task) k : kern H :=
  if has_sig (t_pending r) sig then k else
  let r' := set_t_sig (Z.lor (t_sig r) (S_ sig)) r in
  let k' := set_k_tasks (<[t := r']> (k_tasks k)) k in
  if bool_decide (t_state r = State_interruptible) && negb (not_woken c sig r) then roused t r' k' else k'.

Lemma rouse_run t r k c0 (e : bool) :
  cpu_ok c0 -> cpu_equiv (k_cpu k) c0 -> e = IF c0 -> k_tasks k !! t = Some r -> IF c0 = false ->
  runs (cli ;; q ← q_of t;
        (match q with Some q => _ ← q_op (ls_erase q t); mret tt | None => mret tt end) ;;
        add_to_runnable_list t ;; eflags_load e) k tt (roused t r k) c0.
Proof.
  intros Hok Hc -> Hr HI. eapply runs_step; [done|].
  set (c1 := mkCpu false (n_cli (k_cpu k)) (before_pushcli (k_cpu k))).
  assert (Hc1 : cpu_equiv c1 c0).
  { destruct Hc as (Hi & Hn & Hb). split; [by rewrite HI|done]. }
  change (set_cpu _ k) with (set_k_cpu c1 k).
  eapply runs_step; [done|]. change (k_queues (set_k_cpu c1 k)) with (k_queues k). unfold roused.
  assert (Hend : forall k2 k3 c, cpu_equiv c c0 -> set_k_cpu c0 k2 = set_k_cpu c0 k3 ->
    runs (eflags_load (IF c0)) (set_k_cpu c k2) tt k3 c0).
  { intros k2 k3 c (Hi & Hn & Hb) He. exists (mkCpu (IF c0) (n_cli c) (before_pushcli c)).
    split; [|done]. change (Done tt (set_k_cpu (mkCpu (IF c0) (n_cli c) (before_pushcli c)) (set_k_cpu c0 k2)) =
      Done tt (set_k_cpu (mkCpu (IF c0) (n_cli c) (before_pushcli c)) (set_k_cpu c0 k3))).
    by rewrite He. }
  destruct (ls_owner (k_queues k) !! t) as [q|] eqn:Ho.
  - eapply runs_step.
    { eapply eq_trans; [eapply bind_done, q_op_run|]. reflexivity. }
    change (k_queues (set_k_cpu c1 k)) with (k_queues k).
    eapply runs_bind.
    { apply add_to_runnable_run; [cbn; by rewrite Hc1|exact Hr|]. cbn. by apply erase_free. }
    intros c Hcc. apply Hend; [exact (transitivity Hcc Hc1)|reflexivity].
  - eapply runs_step; [done|]. eapply runs_bind.
    { apply add_to_runnable_run; [cbn; by rewrite Hc1|exact Hr|]. by apply ls_owner_free. }
    intros c Hcc. apply Hend; [exact (transitivity Hcc Hc1)|reflexivity].
Qed.

Definition can_signal (r : Task) : bool :=
  match t_state r with State_interruptible | State_running | State_zombie => true | _ => false end.

Lemma send_signal_run sig t r c k :
  cpu_ok (k_cpu k) -> t <> NULL -> 0 <= sig < 32 -> k_tasks k !! t = Some r ->
  k_tasks k !! k_curr k = Some c -> length (t_action c) = 32%nat -> can_signal r = true ->
  runs_to (send_signal sig t) k 0 (sent c sig t r k).
Proof.
  intros Hok Ht Hsig Hr Hcur Hlen Hcan. unfold send_signal.
  destruct (Z.eqb_spec t NULL); [done|]. destruct (Z.ltb_spec 32 sig); [lia|]. cbn [orb].
  apply runs_push. eapply runs_step; [by apply t_rd_run|]. unfold sent.
  set (k1 := set_k_cpu (do_pushcli (k_cpu k)) k). destruct (has_sig (t_pending r) sig).
  { destruct (runs_pop k1 k (k_cpu k)) as (c1 & Hp & Hc1); [done..|].
    exists c1. split; [|done]. by rewrite (bind_done _ _ _ _ _ Hp). }
  eapply runs_step; [by apply t_wr_run|].
  set (r' := set_t_sig _ r). set (k2 := set_k_tasks (<[t:=r']> (k_tasks k)) k).
  change (set_k_tasks _ k1) with (set_k_cpu (do_pushcli (k_cpu k)) k2).
  assert (Hfin : forall (body : M (kern H) unit) k3,
    runs body (set_k_cpu (do_pushcli (k_cpu k)) k2) tt k3 (do_pushcli (k_cpu k)) ->
    runs (body ;; popcli ;; mret 0) (set_k_cpu (do_pushcli (k_cpu k)) k2) 0 k3 (k_cpu k)).
  { intros body k3 Hb. eapply runs_bind; [exact Hb|]. intros c1 Hc1. cbn in Hc1.
    destruct (runs_pop (set_k_cpu c1 k3) k3 (k_cpu k)) as (c2 & Hp & Hc2); [done..|].
    exists c2. split; [|done]. by rewrite (bind_done _ _ _ _ _ Hp). }
  apply Hfin. clear Hfin. unfold can_signal in Hcan.
  destruct (t_state r) eqn:Hs; try done; cbn [andb];
    repeat (first [rewrite bool_decide_true by done | rewrite bool_decide_false by done]); cbn [andb].
  1, 3: by apply runs_ret.
  assert (Hh : exists h, t_action c !! Z.to_nat sig = Some h).
  { apply lookup_lt_is_Some. lia. }
  destruct Hh as [h Hh].
  assert (Hc2 : exists c', k_tasks k2 !! k_curr k = Some c' /\ t_action c' = t_action c).
  { unfold k2. cbn. destruct (decide (k_curr k = t)) as [Heq|].
    - rewrite Heq in Hcur |- *. rewrite lookup_insert_eq. exists r'. split; [done|].
      cbn. congruence.
    - rewrite lookup_insert_ne by done. eauto. }
  destruct Hc2 as (c' & Hc' & Ha).
  eapply runs_step; [by apply curr_rd_run|]. rewrite Ha, Hh. eapply runs_step; [done|].
  unfold not_woken. rewrite Hh.
  destruct ((h =? SIG_DFL) && has_sig (Z.lor SIG_DI SIG_DC) sig && negb (t_waiting_child r)); cbn [negb].
  { by apply runs_ret. }
  eapply runs_step; [done|]. eapply runs_change.
  - apply rouse_run; [by apply do_pushcli_ok|done|done| |done]. unfold k2. apply lookup_insert_eq.
  - unfold roused. cbn. by destruct (ls_owner (k_queues k) !! t).
Qed.

(** Whoever is signalled, the queues stay consistent. *)
Lemma queues_ok_field ts ls t r r' :
  queues_ok ts ls -> ts !! t = Some r -> t_state r' = t_state r -> t_priority r' = t_priority r ->
  queues_ok (<[t := r']> ts) ls.
Proof.
  intros Hq Hr Hs Hp. apply (queues_ok_update _ ls); [done|apply Hq|done|..].
  - intros q (r0 & Hr0 & Hin)%(qo_member _ _ Hq). simplify_eq.
    unfold in_queue_state in *. by destruct q; rewrite ?Hs, ?Hp.
  - rewrite Hs, Hp. by apply (qo_running _ _ Hq).
  - rewrite Hp. by apply (qo_priority _ _ Hq t).
Qed.

Lemma queues_ok_roused k t r :
  queues_ok (k_tasks k) (k_queues k) -> k_tasks k !! t = Some r -> t_state r <> State_running ->
  queues_ok (k_tasks (roused t r k)) (k_queues (roused t r k)).
Proof.
  intros Hq Hr Hs. pose proof (qo_priority _ _ Hq _ _ Hr) as Hp. unfold roused.
  destruct (ls_owner (k_queues k) !! t) as [q|] eqn:Ho.
  - apply queues_ok_runnable; [|by apply erase_free|done]. cbn [k_tasks k_queues set_k_queues].
    rewrite <- (insert_id (k_tasks k) t r) by done. by apply queues_ok_erase.
  - apply queues_ok_runnable; [done|by apply ls_owner_free|done].
Qed.

Lemma queues_ok_sent k c sig t r :
  queues_ok (k_tasks k) (k_queues k) -> k_tasks k !! t = Some r ->
  queues_ok (k_tasks (sent c sig t r k)) (k_queues (sent c sig t r k)).
Proof.
  intros Hq Hr. unfold sent. destruct (has_sig (t_pending r) sig); [done|].
  assert (Hq' : queues_ok (<[t := set_t_sig (Z.lor (t_sig r) (S_ sig)) r]> (k_tasks k)) (k_queues k)).
  { by eapply queues_ok_field. }
  destruct (bool_decide_reflect (t_state r = State_interruptible)) as [Hs|]; [|done]. cbn [andb].
  destruct (negb _); [|done]. apply queues_ok_roused; [done|apply lookup_insert_eq|].
  cbn. by rewrite Hs.
Qed.
End signals.

(** * Sleeping *)

Section sleeping.
Context {H : Type}.
Implicit Types k : kern H.

(** The parts of the state that the sleep queue has nothing to do with. *)
Definition same_rest k k' : Prop :=
  k_alarms k' = k_alarms k /\ k_curr k' = k_curr k /\ k_jiffies k' = k_jiffies k.

Lemma same_rest_trans k1 k2 k3 : same_rest k1 k2 -> same_rest k2 k3 -> same_rest k1 k3.
Proof. unfold same_rest. naive_solver congruence. Qed.

Definition awake (r : Task) : Task := set_t_state State_running (set_t_sleep 0 r).

Definition check_sleep_body (seconds t : Z) : M (kern H) (option unit) :=
  r ← t_rd t;
  if seconds <? t_sleep r then mret (Some tt) else
  _ ← q_op (ls_erase QSleep t);
  f ← q_free t; ASSERT f ;;
  t_wr t (set_t_sleep 0) ;;
  add_to_runnable_list t ;;
  mret None.

Lemma erase_head ls (q : queue) t l :
  ls_wf ls -> ls_get ls q = t :: l ->
  ls_owner ls !! t = Some q /\ ls_get (ls_erase q t ls).2 q = l /\
  forall q', q' <> q -> ls_get (ls_erase q t ls).2 q' = ls_get ls q'.
Proof.
  intros Hwf Hg.
  assert (Ho : ls_owner ls !! t = Some q) by (apply Hwf; rewrite Hg; set_solver).
  unfold ls_erase. rewrite bool_decide_true by done. cbn [snd]. split_and!; [done| |].
  - rewrite ls_get_insert, Hg. apply filter_ne_cons. rewrite <- Hg. apply Hwf.
  - intros q' Hne. by apply ls_get_insert_ne.
Qed.

Lemma push_back_get_ne ls (q q' : queue) t :
  ls_is_free t ls = true -> q' <> q -> ls_get (ls_push_back q t ls).2 q' = ls_get ls q'.
Proof. intros Hf Hne. rewrite ls_push_back_get by done. by apply ls_get_insert_ne. Qed.

(** One sleeper wakes. *)
Lemma wake_one k t l r seconds :
  cpu_ok (k_cpu k) -> queues_ok (k_tasks k) (k_queues k) -> ls_get (k_queues k) QSleep = t :: l ->
  k_tasks k !! t = Some r -> t_sleep r <= seconds ->
  exists k', runs_to (check_sleep_body seconds t) k None k' /\ queues_ok (k_tasks k') (k_queues k') /\
    ls_get (k_queues k') QSleep = l /\ k_tasks k' = <[t := awake r]> (k_tasks k) /\ same_rest k k'.
Proof.
  intros Hok Hq Hg Hr Hs.
  destruct (erase_head _ _ _ _ (qo_wf _ _ Hq) Hg) as (Ho & Hg' & Hge).
  pose proof (erase_free _ _ _ Ho) as Hf.
  destruct (qo_member _ _ Hq _ _ Ho) as (r0 & Hr0 & Hin). simplify_eq. cbn in Hin.
  set (k1 := set_k_tasks (<[t := set_t_sleep 0 r]> (k_tasks k))
               (set_k_queues (ls_erase QSleep t (k_queues k)).2 k)).
  exists (runnable t (set_t_sleep 0 r) k1). split_and!.
  - unfold check_sleep_body. eapply runs_step; [by apply t_rd_run|].
    destruct (Z.ltb_spec seconds (t_sleep r)); [lia|].
    eapply runs_step; [apply q_op_run|]. eapply runs_step; [apply q_free_run|].
    cbn [k_queues set_k_queues]. change (k_queues (set_k_queues ?x k)) with x. rewrite Hf.
    eapply runs_step; [done|]. eapply runs_step; [by apply t_wr_run|]. eapply runs_bind.
    { apply (add_to_runnable_run t (set_t_sleep 0 r) k1); [done| |done]. apply lookup_insert_eq. }
    intros c Hc. by apply runs_ret.
  - apply queues_ok_runnable; [|done|].
    + unfold k1. cbn. apply queues_ok_erase; [done|done| |].
      * cbn. by rewrite Hin.
      * apply (qo_priority _ _ Hq _ _ Hr).
    + apply (qo_priority _ _ Hq _ _ Hr).
  - unfold runnable. cbn. rewrite push_back_get_ne by done. done.
  - unfold runnable, k1. cbn. rewrite insert_insert_eq. by destruct r.
  - done.
Qed.

(** The loop wakes the longest expired prefix of the list. *)
Lemma sleep_loop seconds l k :
  cpu_ok (k_cpu k) -> queues_ok (k_tasks k) (k_queues k) -> ls_get (k_queues k) QSleep = l ->
  exists pre suf k' o, l = pre ++ suf /\ runs_to (iter_until (check_sleep_body seconds) l) k o k' /\
    queues_ok (k_tasks k') (k_queues k') /\ ls_get (k_queues k') QSleep = suf /\ same_rest k k' /\
    (forall t, t ∈ pre -> exists r, k_tasks k !! t = Some r /\ t_sleep r <= seconds /\
       k_tasks k' !! t = Some (awake r)) /\
    (forall t, t ∉ pre -> k_tasks k' !! t = k_tasks k !! t) /\
    (forall t, head suf = Some t -> exists r, k_tasks k !! t = Some r /\ seconds < t_sleep r).
Proof.
  revert k. induction l as [|t l IH]; intros k Hok Hq Hg.
  { exists [], [], k, None. split_and!; try done; [by apply runs_ret|set_solver]. }
  assert (Ho : ls_owner (k_queues k) !! t = Some QSleep) by (apply (qo_wf _ _ Hq); rewrite Hg; set_solver).
  destruct (qo_member _ _ Hq _ _ Ho) as (r & Hr & Hin).
  assert (Hnd : t ∉ l).
  { assert (NoDup (t :: l)) as [? _]%NoDup_cons by (rewrite <- Hg; apply (qo_wf _ _ Hq)). done. }
  destruct (Z.leb_spec (t_sleep r) seconds) as [Hle|Hgt].
  - destruct (wake_one k t l r seconds Hok Hq Hg Hr Hle) as (k1 & (c & H1 & Hc) & Hq1 & Hg1 & Ht1 & Hs1).
    destruct (IH (set_k_cpu c k1)) as (pre & suf & k' & o & -> & (c' & Hrun & Hc') & Hq' & Hg' & Hs' & Hin' & Hout & Hhd);
      [cbn; by rewrite Hc|done|done|].
    exists (t :: pre), suf, k', o. split_and!; [done| |done|done| | | |].
    + exists c'. split; [|exact (transitivity Hc' Hc)]. cbn [iter_until].
      by rewrite (bind_done _ _ _ _ _ H1).
    + by eapply same_rest_trans.
    + intros u [->|Hu]%elem_of_cons.
      * exists r. split_and!; [done|lia|]. rewrite Hout by set_solver. cbn. rewrite Ht1. apply lookup_insert_eq.
      * destruct (Hin' u Hu) as (ru & Hru & Hsl & Hru'). exists ru. split_and!; [|done|done].
        cbn in Hru. rewrite Ht1 in Hru. rewrite lookup_insert_ne in Hru by set_solver. done.
    + intros u Hu. rewrite Hout by set_solver. cbn. rewrite Ht1. apply lookup_insert_ne. set_solver.
    + intros u Hu. destruct (Hhd u Hu) as (ru & Hru & Hsl). exists ru. split; [|done].
      cbn in Hru. rewrite Ht1, lookup_insert_ne in Hru; [done|].
      destruct suf; simplify_eq/=. set_solver.
  - exists [], (t :: l), k, (Some tt). split_and!; try done.
    + assert (Hb : check_sleep_body seconds t k = Done (Some tt) k).
      { unfold check_sleep_body. rewrite (bind_done _ _ _ _ _ (t_rd_run _ _ _ Hr)).
        destruct (Z.ltb_spec seconds (t_sleep r)); [done|lia]. }
      exists (k_cpu k). split; [|done]. cbn [iter_until]. rewrite (bind_done _ _ _ _ _ Hb).
      by destruct k.
    + set_solver.
    + intros u [= ->]. eauto.
Qed.

Lemma check_sleep_run k :
  cpu_ok (k_cpu k) -> queues_ok (k_tasks k) (k_queues k) ->
  exists pre suf k', ls_get (k_queues k) QSleep = pre ++ suf /\ runs_to check_sleep_list k tt k' /\
    queues_ok (k_tasks k') (k_queues k') /\ ls_get (k_queues k') QSleep = suf /\ same_rest k k' /\
    (forall t, t ∈ pre -> exists r, k_tasks k !! t = Some r /\ t_sleep r <= jiffies_to_seconds (k_jiffies k) /\
       k_tasks k' !! t = Some (awake r)) /\
    (forall t, t ∉ pre -> k_tasks k' !! t = k_tasks k !! t) /\
    (forall t, head suf = Some t -> exists r, k_tasks k !! t = Some r /\
       jiffies_to_seconds (k_jiffies k) < t_sleep r).
Proof.
  intros Hok Hq.
  destruct (sleep_loop (jiffies_to_seconds (k_jiffies k)) (ls_get (k_queues k) QSleep)
              (set_k_cpu (do_pushcli (k_cpu k)) k)) as (pre & suf & k' & o & Hl & Hrun & Hq' & Hg' & Hs' & Hrest);
    [by apply do_pushcli_ok|done|done|].
  exists pre, suf, k'. split_and!; [done| |done|done|done|apply Hrest..].
  unfold check_sleep_list. apply runs_push. eapply runs_step; [done|].
  eapply runs_bind; [exact Hrun|]. intros c Hc. by apply runs_pop.
Qed.
End sleeping.
