(* ===== verification/SchedOps.v ===== *)
(** The scheduler's theorems: its queues under every sequence of its operations,
    the order it runs tasks in, and the lists ordered by time. *)

From S2P Require Import Prelude Spinlock ListSpec IdHash Util Cga CgaProps PhysMem VirtMem VirtMap VirtProps Kmalloc Task.
From S2P Require Import Sched SchedProps.

Section ops.
Context {H : Type} `{!KernEnv H}.
Implicit Types k : kern H.

(** ** What no operation of the scheduler touches *)

Definition kept (r : Task) : list Z * Z := (t_action r, t_n_cli r).

Lemma kept_insert ts t r r' :
  ts !! t = Some r -> kept r' = kept r -> kept <$> <[t := r']> ts = kept <$> (ts : gmap Z Task).
Proof. intros Hr Hk. rewrite fmap_insert, Hk. apply insert_id. by rewrite lookup_fmap, Hr. Qed.

Record sched_ok k : Prop := {
  so_queues : queues_ok (k_tasks k) (k_queues k);
  so_cpu : cpu_ok (k_cpu k);
  so_curr : is_Some (k_tasks k !! k_curr k);
  so_kept : forall t r, k_tasks k !! t = Some r -> length (t_action r) = 32%nat /\ 0 <= t_n_cli r;
}.

Lemma sched_ok_keep k k' c :
  sched_ok k -> cpu_equiv c (k_cpu k) -> queues_ok (k_tasks k') (k_queues k') ->
  kept <$> k_tasks k' = kept <$> k_tasks k -> k_curr k' = k_curr k -> sched_ok (set_k_cpu c k').
Proof.
  intros [Hq Hc Hcur Hk] He Hq' Hk' Hcu. split; cbn.
  - done.
  - by rewrite He.
  - rewrite Hcu. destruct Hcur as [r Hr]. assert (Hf : (kept <$> k_tasks k') !! k_curr k = Some (kept r)).
    { by rewrite Hk', lookup_fmap, Hr. }
    rewrite lookup_fmap in Hf. destruct (k_tasks k' !! k_curr k); [eauto|done].
  - intros t r Hr. assert (Hf : (kept <$> k_tasks k) !! t = Some (kept r)).
    { by rewrite <- Hk', lookup_fmap, Hr. }
    rewrite lookup_fmap in Hf. destruct (k_tasks k !! t) as [r0|] eqn:Hr0; [|done].
    injection Hf as Ha Hn. destruct (Hk t r0 Hr0). rewrite <- Ha, <- Hn. done.
Qed.

(** ** The place in the sleep list *)

Definition wakes_after (ts : gmap Z Task) (seconds x : Z) : Prop :=
  seconds < default 0 (t_sleep <$> ts !! x).
#[local] Instance wakes_after_dec ts seconds x : Decision (wakes_after ts seconds x).
Proof. unfold wakes_after. apply _. Defined.

Lemma wakes_after_lookup ts seconds x r : ts !! x = Some r -> wakes_after ts seconds x <-> seconds < t_sleep r.
Proof. intros Hr. unfold wakes_after. by rewrite Hr. Qed.

Definition sleep_pos (ts : gmap Z Task) (seconds : Z) (l : list Z) : option Z :=
  head (filter (wakes_after ts seconds) l).

Definition insert_body (seconds t x : Z) : M (kern H) unit :=
  r ← t_rd x;
  when (seconds <? t_sleep r) (_ ← q_op (ls_insert QSleep (Some x) t); mret tt).

Lemma insert_body_run seconds t x k r :
  k_tasks k !! x = Some r ->
  insert_body seconds t x k =
    Done tt (if bool_decide (wakes_after (k_tasks k) seconds x)
             then set_k_queues (ls_insert QSleep (Some x) t (k_queues k)).2 k else k).
Proof.
  intros Hr. unfold insert_body. rewrite (bind_done _ _ _ _ _ (t_rd_run _ _ _ Hr)).
  pose proof (wakes_after_lookup _ seconds _ _ Hr) as Hw. unfold when.
  destruct (Z.ltb_spec seconds (t_sleep r)); case_bool_decide as Hd;
    rewrite Hw in Hd; try lia; try done.
  by rewrite (bind_done _ _ _ _ _ (q_op_run _ _)).
Qed.

Lemma insert_taken (ls : lstore queue) q pos t : ls_is_free t ls = false -> (ls_insert q pos t ls).2 = ls.
Proof. intros Hf. unfold ls_insert. by rewrite Hf. Qed.

Lemma set_queues_id k : set_k_queues (k_queues k) k = k.
Proof. by destruct k. Qed.

Lemma insert_loop_taken seconds t l k :
  ls_is_free t (k_queues k) = false -> (forall x, x ∈ l -> is_Some (k_tasks k !! x)) ->
  iterM (insert_body seconds t) l k = Done tt k.
Proof.
  intros Hf. induction l as [|x l IH]; intros Hl; [done|]. cbn [iterM].
  destruct (Hl x ltac:(set_solver)) as [r Hr].
  rewrite (bind_done _ _ _ _ _ (insert_body_run _ _ _ _ _ Hr)), insert_taken, set_queues_id by done.
  destruct (bool_decide _); apply IH; set_solver.
Qed.

Lemma insert_not_free (ls : lstore queue) q pos t :
  ls_is_free t ls = true -> ls_is_free t (ls_insert q pos t ls).2 = false.
Proof.
  intros Hf. unfold ls_insert. rewrite Hf. cbn [snd]. unfold ls_is_free. cbn [ls_owner].
  by rewrite lookup_insert_eq, bool_decide_false.
Qed.

(** The first place that fits is taken, the later attempts fail quietly. *)
Lemma sleep_insert_run seconds t k :
  ls_is_free t (k_queues k) = true ->
  (forall x, x ∈ ls_get (k_queues k) QSleep -> is_Some (k_tasks k !! x)) ->
  sleep_insert seconds t k =
    Done tt (set_k_queues
      (ls_insert QSleep (sleep_pos (k_tasks k) seconds (ls_get (k_queues k) QSleep)) t (k_queues k)).2 k).
Proof.
  intros Hf Hl. unfold sleep_insert, q_get.
  rewrite (bind_done _ _ _ (ls_get (k_queues k) QSleep) k) by done.
  change (fun x => r ← t_rd x; when (seconds <? t_sleep r) _) with (insert_body seconds t).
  assert (Hloop : forall l, (forall x, x ∈ l -> is_Some (k_tasks k !! x)) ->
    iterM (insert_body seconds t) l k =
      Done tt (match sleep_pos (k_tasks k) seconds l with
               | Some p => set_k_queues (ls_insert QSleep (Some p) t (k_queues k)).2 k
               | None => k end)).
  { induction l as [|x l IH]; intros Hin; [done|]. cbn [iterM].
    destruct (Hin x ltac:(set_solver)) as [r Hr].
    rewrite (bind_done _ _ _ _ _ (insert_body_run _ _ _ _ _ Hr)). unfold sleep_pos. rewrite filter_cons.
    case_bool_decide as Hw; case_decide; try done.
    - cbn [head]. apply insert_loop_taken; [by apply insert_not_free|]. cbn. set_solver.
    - apply IH. set_solver. }
  rewrite (bind_done _ _ _ _ _ (Hloop _ Hl)).
  destruct (sleep_pos (k_tasks k) seconds (ls_get (k_queues k) QSleep)) as [p|].
  - rewrite (bind_done _ _ _ _ _ (q_op_run _ _)). unfold ls_push_back.
    rewrite insert_taken by (cbn; by apply insert_not_free). by destruct k.
  - by rewrite (bind_done _ _ _ _ _ (q_op_run _ _)).
Qed.

Definition asleep (seconds : Z) (r : Task) k : kern H :=
  let t := k_curr k in
  let ls := (ls_erase (QRun (t_priority r)) t (k_queues k)).2 in
  set_k_tasks (<[t := set_t_sleep (u32 (jiffies_to_seconds (k_jiffies k) + seconds))
                        (set_t_state State_interruptible r)]> (k_tasks k))
    (set_k_queues (ls_insert QSleep (sleep_pos (k_tasks k) seconds (ls_get (k_queues k) QSleep)) t ls).2 k).

Lemma sleep_members k x :
  queues_ok (k_tasks k) (k_queues k) -> x ∈ ls_get (k_queues k) QSleep -> is_Some (k_tasks k !! x).
Proof.
  intros Hq Hx%(qo_wf _ _ Hq). destruct (qo_member _ _ Hq _ _ Hx) as (r & Hr & _). eauto.
Qed.

Lemma erase_get_ne (ls : lstore queue) q q' t : q' <> q -> ls_get (ls_erase q t ls).2 q' = ls_get ls q'.
Proof. intros Hne. unfold ls_erase. case_bool_decide; [by apply ls_get_insert_ne|done]. Qed.

Lemma sleep_enter_run seconds k r :
  sched_ok k -> k_tasks k !! k_curr k = Some r -> t_state r = State_running ->
  runs_to (sleep_enter seconds) k tt (asleep seconds r k).
Proof.
  intros [Hq Hok _ _] Hr Hs. pose proof (qo_running _ _ Hq _ _ Hr Hs) as Ho.
  unfold sleep_enter. apply runs_push. eapply runs_step; [done|].
  eapply runs_bind; [by apply remove_run; [apply do_pushcli_ok|..]|]. intros c Hc.
  eapply runs_step.
  { apply sleep_insert_run; [by apply erase_free|]. cbn. intros x Hx.
    rewrite erase_get_ne in Hx by done. by apply sleep_members. }
  eapply runs_step; [done|]. eapply runs_step; [by apply t_wr_run|].
  apply runs_pop; [done|exact Hc|]. unfold asleep. cbn. by rewrite erase_get_ne.
Qed.

Lemma queues_ok_asleep seconds r k :
  queues_ok (k_tasks k) (k_queues k) -> k_tasks k !! k_curr k = Some r -> t_state r = State_running ->
  queues_ok (k_tasks (asleep seconds r k)) (k_queues (asleep seconds r k)).
Proof.
  intros Hq Hr Hs. pose proof (qo_running _ _ Hq _ _ Hr Hs) as Ho.
  pose proof (erase_free _ _ _ Ho) as Hf. unfold asleep. cbn.
  assert (Hi : forall pos, ls_owner (ls_insert QSleep pos (k_curr k)
      (ls_erase (QRun (t_priority r)) (k_curr k) (k_queues k)).2).2 =
      <[k_curr k := QSleep]> (delete (k_curr k) (ls_owner (k_queues k)))).
  { intros pos. unfold ls_insert. rewrite Hf. cbn [snd ls_owner]. by rewrite erase_owner. }
  apply (queues_ok_update _ (k_queues k)); [done|apply ls_insert_wf, ls_erase_wf, Hq| | |done|].
  - intros t' Hne. by rewrite Hi, lookup_insert_ne, lookup_delete_ne.
  - intros q. rewrite Hi, lookup_insert_eq. by intros [= <-].
  - apply (qo_priority _ _ Hq _ _ Hr).
Qed.

(** ** Sequences of operations *)

Inductive sched_op :=
| OSwitch (f : frame)                 (* find_runnable_task, then the switch *)
| OSleepOn (st : State) (q : queue)   (* sleep_interruptible, sleep_uninterruptible *)
| OWake (q : queue)                   (* wakeup_interruptible *)
| OSend (sig t : Z)
| OCheckSleep
| OSleep (seconds : Z)
| OTick (user : bool).

Definition op_run (o : sched_op) : M (kern H) unit :=
  match o with
  | OSwitch f =>
      o ← find_runnable_task;
      match o with None => PANIC | Some t => cli ;; switch_to_task f t end
  | OSleepOn st q => sleep_on st q
  | OWake q => wakeup_interruptible q
  | OSend sig t => _ ← send_signal sig t; mret tt
  | OCheckSleep => check_sleep_list
  | OSleep seconds => sleep_enter seconds
  | OTick user => _ ← timer_enter user; mret tt
  end.

Definition runnable_curr k : Prop :=
  exists r, k_tasks k !! k_curr k = Some r /\ t_state r = State_running.

(** What the callers owe: only a running task goes to sleep, with the state its
    list stands for; some task is runnable at a switch; signals are numbers the
    action table has, for a task in a state send_signal handles. *)
Definition op_pre (o : sched_op) k : Prop :=
  match o with
  | OSwitch _ => first_level (k_queues k) <> None
  | OSleepOn st q =>
      runnable_curr k /\
      match q with
      | QConsole => st = State_interruptible
      | QSem _ | QInode _ => st = State_uninterruptible
      | _ => False
      end
  | OWake q => match q with QRun _ | QZombie => False | _ => True end
  | OSend sig t => t <> NULL /\ 0 <= sig < 32 /\ exists r, k_tasks k !! t = Some r /\ can_signal r = true
  | OCheckSleep => True
  | OSleep _ => runnable_curr k
  | OTick _ => IF (k_cpu k) = true
  end.

Definition op_step k k' : Prop := exists o, op_pre o k /\ op_run o k = Done tt k'.

Lemma in_mm_cr3 d k : exists h, in_mm (modify (set_cr3 d)) k = Done tt (set_k_heap h k).
Proof.
  unfold in_mm, in_heap, in_env, zoom, modify. cbn [env]. eexists.
  match goal with |- Done tt (set_k_cpu ?c _) = _ => replace c with (k_cpu k) end.
  - destruct k. reflexivity.
  - destruct (ke_heap (k_heap k)) as [w l p lk [ph e t f dd tp cr tl]]. cbn. by destruct ph.
Qed.

Lemma insert_kept k t r r' :
  (forall t r, k_tasks k !! t = Some r -> length (t_action r) = 32%nat /\ 0 <= t_n_cli r) ->
  k_tasks k !! t = Some r -> t_action r' = t_action r -> 0 <= t_n_cli r' ->
  forall u ru, <[t := r']> (k_tasks k) !! u = Some ru -> length (t_action ru) = 32%nat /\ 0 <= t_n_cli ru.
Proof.
  intros Hk Hr Ha Hn u ru. destruct (decide (u = t)) as [->|Hne].
  - rewrite lookup_insert_eq. intros [= <-]. rewrite Ha. split; [by eapply Hk|done].
  - rewrite lookup_insert_ne by done. apply Hk.
Qed.

(** The switch: the new task runs, with interrupts masked. *)
Lemma switch_run f t k :
  sched_ok k -> IF (k_cpu k) = false -> is_Some (k_tasks k !! t) ->
  exists k', switch_to_task f t k = Done tt k' /\ sched_ok k' /\ k_curr k' = t /\
    k_queues k' = k_queues k.
Proof.
  intros [Hq Hc [r Hr] Hk] HI [rt Hrt].
  unfold switch_to_task. rewrite (bind_done _ _ _ tt k) by (unfold ASSERT_int_disable, eflags_read; m_unfold; cbn; by rewrite HI).
  rewrite (bind_done _ _ _ _ _ (curr_wr_run _ _ _ Hr)).
  rewrite (bind_done get _ _ _ _ eq_refl).
  set (r1 := set_t_n_cli (n_cli (k_cpu k)) (set_t_before_pushcli (before_pushcli (k_cpu k)) (set_t_frame f r))).
  set (ts := <[k_curr k := r1]> (k_tasks k)).
  set (k1 := set_k_tasks ts k).
  rewrite (bind_done _ _ _ tt k1).
  2: { erewrite curr_wr_run; [|apply lookup_insert_eq]. unfold k1, ts, r1. cbn. by rewrite insert_insert_eq. }
  assert (Hf : forall r', t_state r' = t_state r -> t_priority r' = t_priority r ->
    queues_ok (<[k_curr k := r']> (k_tasks k)) (k_queues k)) by (intros; by eapply queues_ok_field).
  assert (Hts : exists r2, ts !! t = Some r2 /\ t_n_cli r2 >= 0 /\ length (t_action r2) = 32%nat).
  { unfold ts. destruct (decide (t = k_curr k)) as [->|Hne].
    - rewrite lookup_insert_eq. exists r1. cbn. destruct Hc. destruct (Hk _ _ Hr). split_and!; [done|lia|done].
    - rewrite lookup_insert_ne by done. destruct (Hk _ _ Hrt). exists rt. split_and!; [done|lia|done]. }
  destruct Hts as (r2 & Hr2 & Hn2 & Ha2).
  rewrite (bind_done _ _ _ tt (set_k_curr t k1)) by done.
  set (r3 := set_t_run_count (u32 (t_run_count r2 + 1)) r2).
  rewrite (bind_done _ _ _ tt (set_k_tasks (<[t := r3]> ts) (set_k_curr t k1))).
  2: { by erewrite curr_wr_run. }
  set (k2 := set_k_tasks (<[t := r3]> ts) (set_k_curr t k1)).
  rewrite (bind_done _ _ _ r3 k2) by (apply curr_rd_run, lookup_insert_eq).
  set (k3 := set_k_cpu (mkCpu (IF (k_cpu k2)) (t_n_cli r3) (t_before_pushcli r3)) k2).
  rewrite (bind_done _ _ _ tt k3) by done.
  destruct (in_mm_cr3 (pgdir_of t) k3) as (h & Hh). exists (set_k_heap h k3).
  split_and!; [done| |done|done].
  assert (Hq1 : queues_ok ts (k_queues k)) by (apply Hf; done).
  split; cbn.
  - eapply queues_ok_field; [done|exact Hr2|done|done].
  - split; cbn; [lia|]. by rewrite HI.
  - rewrite lookup_insert_eq. eauto.
  - intros u ru. apply (insert_kept k1 t r2 r3).
    + unfold k1. cbn. apply (insert_kept k (k_curr k) r r1); [done|done|done|]. cbn. apply Hc.
    + done.
    + done.
    + cbn. lia.
Qed.

Lemma run_keep {A} (m : M (kern H) A) k a k' :
  sched_ok k -> runs_to m k a k' -> queues_ok (k_tasks k') (k_queues k') ->
  kept <$> k_tasks k' = kept <$> k_tasks k -> k_curr k' = k_curr k ->
  exists k2, m k = Done a k2 /\ sched_ok k2.
Proof.
  intros Hok (c & Hm & Hc) Hq Hkp Hcu. exists (set_k_cpu c k'). split; [done|]. by eapply sched_ok_keep.
Qed.

Lemma first_level_front k i :
  queues_ok (k_tasks k) (k_queues k) -> first_level (k_queues k) = Some i ->
  exists t xs r, ls_get (k_queues k) (QRun i) = t :: xs /\ k_tasks k !! t = Some r.
Proof.
  intros Hq (_ & Hne & _)%first_level_spec.
  destruct (ls_get (k_queues k) (QRun i)) as [|t xs] eqn:Hg; [done|].
  assert (Ho : ls_owner (k_queues k) !! t = Some (QRun i)) by (apply (qo_wf _ _ Hq); rewrite Hg; set_solver).
  destruct (qo_member _ _ Hq _ _ Ho) as (r & Hr & _). eauto.
Qed.

Lemma op_switch_ok f k :
  sched_ok k -> first_level (k_queues k) <> None ->
  exists k', op_run (OSwitch f) k = Done tt k' /\ sched_ok k'.
Proof.
  intros Hok Hl. pose proof (so_queues _ Hok) as Hq.
  destruct (first_level (k_queues k)) as [i|] eqn:Hi; [|done].
  destruct (first_level_front _ _ Hq Hi) as (t & xs & r & Hg & Hr).
  pose proof (find_run k i t xs r (so_cpu _ Hok) Hq Hi Hg Hr) as Hrun.
  destruct (run_keep _ _ _ _ Hok Hrun) as (k2 & H2 & Hok2); [by apply queues_ok_rotate| |done|].
  { by eapply kept_insert. }
  cbn [op_run]. rewrite (bind_done _ _ _ _ _ H2).
  set (k3 := set_k_cpu (mkCpu false (n_cli (k_cpu k2)) (before_pushcli (k_cpu k2))) k2).
  rewrite (bind_done _ _ _ tt k3) by done.
  destruct (switch_run f t k3) as (k4 & H4 & Hok4 & _); [|done| |by exists k4].
  - destruct Hok2 as [Hq2 [Hn2 Hi2] Hc2 Hk2]. split; [done|done|done|done].
  - destruct Hrun as (c & Hf & _). rewrite Hf in H2. injection H2 as <-. cbn.
    rewrite lookup_insert_eq. eauto.
Qed.

Lemma op_sleep_on_ok st q k :
  sched_ok k -> op_pre (OSleepOn st q) k -> exists k', op_run (OSleepOn st q) k = Done tt k' /\ sched_ok k'.
Proof.
  intros Hok [(r & Hr & Hs) Hst]. pose proof (so_queues _ Hok) as Hq.
  pose proof (qo_running _ _ Hq _ _ Hr Hs) as Ho. cbn [op_run].
  apply (run_keep _ _ _ (slept st q (k_curr k) r k) Hok); [by apply sleep_on_run; [apply Hok|..]| | |done].
  - apply queues_ok_move; [done|done| | |by apply (qo_priority _ _ Hq _ _ Hr)]; destruct q; naive_solver.
  - by eapply kept_insert.
Qed.

Lemma op_wake_ok q k :
  sched_ok k -> op_pre (OWake q) k -> exists k', op_run (OWake q) k = Done tt k' /\ sched_ok k'.
Proof.
  intros Hok Hp. pose proof (so_queues _ Hok) as Hq. cbn [op_run].
  destruct (ls_front (k_queues k) q) as [t|] eqn:Hf.
  - pose proof (ls_front_owner _ _ _ (qo_wf _ _ Hq) Hf) as Ho.
    destruct (qo_member _ _ Hq _ _ Ho) as (r & Hr & Hin).
    apply (run_keep _ _ _ (woken q t r k) Hok); [by apply wakeup_interruptible_run; [apply Hok|..]| | |done].
    + apply queues_ok_woken; [done|done|done|]. unfold in_queue_state in Hin.
      destruct q; naive_solver congruence.
    + by eapply kept_insert.
  - by apply (run_keep _ _ _ k Hok); [apply wakeup_interruptible_empty; [apply Hok|]|..].
Qed.

Lemma op_send_ok sig t k :
  sched_ok k -> op_pre (OSend sig t) k -> exists k', op_run (OSend sig t) k = Done tt k' /\ sched_ok k'.
Proof.
  intros Hok (Ht & Hsig & r & Hr & Hcan). destruct (so_curr _ Hok) as [c Hc].
  destruct (so_kept _ Hok _ _ Hc) as [Hlen _]. pose proof (so_queues _ Hok) as Hq.
  destruct (run_keep _ _ _ _ Hok (send_signal_run sig t r c k (so_cpu _ Hok) Ht Hsig Hr Hc Hlen Hcan))
    as (k2 & H2 & Hok2); [by apply queues_ok_sent| | |].
  - unfold sent. destruct (has_sig _ _); [done|]. cbn zeta.
    set (r' := set_t_sig _ r). assert (Hk : kept r' = kept r) by done.
    destruct (_ && _); [|by eapply kept_insert]. unfold roused. cbn [k_queues set_k_tasks].
    destruct (ls_owner (k_queues k) !! t); cbn; rewrite insert_insert_eq; by eapply kept_insert.
  - unfold sent. destruct (has_sig _ _); [done|]. destruct (_ && _); [|done]. unfold roused.
    cbn. by destruct (ls_owner (k_queues k) !! t).
  - exists k2. cbn [op_run]. by rewrite (bind_done _ _ _ _ _ H2).
Qed.

Lemma op_check_sleep_ok k :
  sched_ok k -> exists k', op_run OCheckSleep k = Done tt k' /\ sched_ok k'.
Proof.
  intros Hok. destruct (check_sleep_run k (so_cpu _ Hok) (so_queues _ Hok))
    as (pre & suf & k' & _ & Hrun & Hq' & _ & (_ & Hcu & _) & Hin & Hout & _).
  apply (run_keep _ _ _ k' Hok Hrun Hq'); [|done]. apply map_eq. intros t.
  rewrite !lookup_fmap. destruct (decide (t ∈ pre)) as [Ht|Ht].
  - destruct (Hin t Ht) as (r & -> & _ & ->). done.
  - by rewrite Hout.
Qed.

Lemma op_sleep_ok seconds k :
  sched_ok k -> op_pre (OSleep seconds) k -> exists k', op_run (OSleep seconds) k = Done tt k' /\ sched_ok k'.
Proof.
  intros Hok (r & Hr & Hs). cbn [op_run].
  apply (run_keep _ _ _ _ Hok (sleep_enter_run seconds k r Hok Hr Hs)); [|by eapply kept_insert|done].
  apply queues_ok_asleep; [apply Hok|done|done].
Qed.

Lemma op_tick_ok user k :
  sched_ok k -> op_pre (OTick user) k -> exists k', op_run (OTick user) k = Done tt k' /\ sched_ok k'.
Proof.
  intros Hok HI. destruct (so_curr _ Hok) as [r Hr]. cbn [op_run op_pre] in *.
  set (r1 := set_t_counter (t_counter r - 1) r).
  set (r2 := if user then set_t_time_user (u32 (t_time_user r1 + 1)) r1
             else set_t_time_kernel (u32 (t_time_kernel r1 + 1)) r1).
  set (k1 := set_k_jiffies (u32 (k_jiffies k + 1)) k).
  set (k2 := set_k_tasks (<[k_curr k := r2]> (k_tasks k)) k1).
  assert (Hrun : timer_enter user k = Done (t_counter r2 <? 0) k2).
  { unfold timer_enter.
    rewrite (bind_done _ _ _ tt k) by (unfold ASSERT_int_enable, eflags_read; m_unfold; cbn; by rewrite HI).
    rewrite (bind_done _ _ _ tt k1) by done.
    rewrite (bind_done _ _ _ tt (set_k_tasks (<[k_curr k := r1]> (k_tasks k)) k1)) by (by erewrite curr_wr_run).
    rewrite (bind_done _ _ _ tt k2).
    2: { erewrite curr_wr_run; [|apply lookup_insert_eq]. cbn. by rewrite insert_insert_eq. }
    rewrite (bind_done _ _ _ r2 k2) by (apply curr_rd_run, lookup_insert_eq). done. }
  exists k2. rewrite (bind_done _ _ _ _ _ Hrun). split; [done|].
  assert (H2 : t_state r2 = t_state r /\ t_priority r2 = t_priority r /\ kept r2 = kept r) by (by destruct user).
  destruct H2 as (Hs2 & Hp2 & Hk2). change k2 with (set_k_cpu (k_cpu k) k2).
  apply (sched_ok_keep k); [done|done| |by eapply kept_insert|done].
  eapply queues_ok_field; [apply Hok|exact Hr|done|done].
Qed.

(** Every operation returns, and keeps the invariant. *)
Lemma op_ok o k : sched_ok k -> op_pre o k -> exists k', op_run o k = Done tt k' /\ sched_ok k'.
Proof.
  intros Hok Hp. destruct o.
  - by apply op_switch_ok.
  - by apply op_sleep_on_ok.
  - by apply op_wake_ok.
  - by apply op_send_ok.
  - by apply op_check_sleep_ok.
  - by apply op_sleep_ok.
  - by apply op_tick_ok.
Qed.

Lemma sched_ok_reachable k0 k : sched_ok k0 -> rtc op_step k0 k -> sched_ok k.
Proof.
  intros Hok Hr. induction Hr as [k|k k1 k2 (o & Hp & Hrun) Hr IH]; [done|].
  apply IH. destruct (op_ok o k Hok Hp) as (k' & Hrun' & Hok'). congruence.
Qed.
End ops.

(** * Alarms *)

Section alarms.
Context {H : Type}.
Implicit Types k : kern H.

Definition alarm_body (seconds t x : Z) : M (kern H) unit :=
  r ← t_rd x;
  when (seconds <? t_alarm r) (ok ← a_op (ls_insert tt (Some x) t); ASSERT ok).

Lemma alarm_body_later seconds t x r k :
  k_tasks k !! x = Some r -> seconds < t_alarm r -> ls_is_free t (k_alarms k) = true ->
  alarm_body seconds t x k = Done tt (set_k_alarms (ls_insert tt (Some x) t (k_alarms k)).2 k).
Proof.
  intros Hr Hs Hf. unfold alarm_body. rewrite (bind_done _ _ _ _ _ (t_rd_run _ _ _ Hr)). unfold when.
  destruct (Z.ltb_spec seconds (t_alarm r)); [|lia].
  rewrite (bind_done _ _ _ _ _ (a_op_run _ _)). unfold ls_insert. by rewrite Hf.
Qed.

Lemma alarm_body_second seconds t x r k :
  k_tasks k !! x = Some r -> seconds < t_alarm r -> ls_is_free t (k_alarms k) = false ->
  alarm_body seconds t x k = Stop AssertFailed.
Proof.
  intros Hr Hs Hf. unfold alarm_body. rewrite (bind_done _ _ _ _ _ (t_rd_run _ _ _ Hr)). unfold when.
  destruct (Z.ltb_spec seconds (t_alarm r)); [|lia].
  rewrite (bind_done _ _ _ _ _ (a_op_run _ _)). unfold ls_insert. by rewrite Hf.
Qed.
End alarms.

(** * The states of the witnesses *)

(** The kernel without open files, with a console. *)
Record demo_env := mkEnv { env_heap : ks mm; env_con : con pc }.
#[export] Instance KernEnv_demo : KernEnv demo_env := {
  ke_heap := env_heap;
  ke_set_heap k e := mkEnv k (env_con e);
  ke_heap_set _ _ := eq_refl;
  ke_fs_fork _ _ := mret 0;
  ke_free_files _ := mret tt;
  ke_dev := pc;
  ke_ports := Ports_pc;
  ke_con := env_con;
  ke_set_con c e := mkEnv (env_heap e) c;
  ke_con_set _ _ := eq_refl;
}.

Definition demo_task (id : Z) (st : State) (alarm sleep : Z) : Task :=
  mkTask id task0 st 0 false FReturn 0 0 0 0 3 3 false false [] 0 0 (replicate 32 0) alarm sleep 0 0
    None NULL 0 false (mkTf 0 0 0 5 0 0 0 0 0 0 0) [].

(** Three runnable tasks of priority 3 at 10 seconds; the first one runs. *)
Definition demo_kern : kern demo_env :=
  mkKern (mkEnv (mkKs ∅ (mkLstore ∅ ∅) ∅ 0 (demo_mm 5 4)) (demo_con 0 [] []))
    {[ 100 := demo_task 1 State_running 0 0; 200 := demo_task 2 State_running 0 0;
       300 := demo_task 3 State_running 0 0 ]}
    (mkLstore {[ QRun 3 := [100; 200; 300] ]} {[ 100 := QRun 3; 200 := QRun 3; 300 := QRun 3 ]})
    (mkLstore ∅ ∅) (mkLstore ∅ ∅) (mkIdht [] 0 ∅) 100 (mkCpu true 0 false) 1000 4 ∅ ∅
    (mkShmState ∅ ∅ (mkIdht [] 0 ∅) (mkIdht [] 0 ∅) 1).

Definition after {A} (m : M (kern demo_env) A) (k : kern demo_env) : kern demo_env :=
  match m k with Done _ k' => k' | Stop _ => k end.

(** The first task sleeps, the second runs, reads the console, the third runs
    and signals it. *)
Definition demo1 := after (op_run (OSleep 5)) demo_kern.
Definition demo2 := after (op_run (OSwitch FSleep)) demo1.
Definition demo3 := after (op_run (OSleepOn State_interruptible QConsole)) demo2.
Definition demo4 := after (op_run (OSwitch FGetc)) demo3.
Definition demo5 := after (op_run (OSend 10 200)) demo4.

Lemma demo_ok : sched_ok demo_kern.
Proof.
  assert (Ht : forall t r, k_tasks demo_kern !! t = Some r ->
    (t = 100 \/ t = 200 \/ t = 300) /\ t_state r = State_running /\ t_priority r = 3 /\
    length (t_action r) = 32%nat /\ 0 <= t_n_cli r).
  { intros t r. unfold demo_kern; cbn [k_tasks]. rewrite !lookup_insert_Some, lookup_singleton_Some.
    intros Hr. repeat (destruct_or?; destruct_and?); subst; split_and!;
      first [done | by auto | cbn; lia]. }
  assert (Hw : ls_wf (k_queues demo_kern)).
  { split.
    - intros q. unfold ls_get. cbn [k_queues demo_kern ls_lists].
      destruct (decide (q = QRun 3)) as [->|]; simplify_map_eq; [|constructor].
      apply (bool_decide_unpack _). by vm_compute.
    - intros q n. unfold ls_get. cbn [k_queues demo_kern ls_lists ls_owner].
      rewrite !lookup_insert_Some, lookup_singleton_Some.
      destruct (decide (q = QRun 3)) as [->|]; simplify_map_eq; [|set_solver].
      cbn. rewrite !elem_of_cons, elem_of_nil. split; [|naive_solver].
      intros Hn. destruct (decide (n = 100)), (decide (n = 200)), (decide (n = 300)); naive_solver. }
  split; [split| | |].
  - done.
  - intros t q. cbn [k_queues demo_kern ls_owner]. rewrite !lookup_insert_Some, lookup_singleton_Some.
    intros Ho. exists (demo_task (t / 100) State_running 0 0).
    repeat (destruct_or?; destruct_and?); subst; split; done.
  - intros t r Hr _. destruct (Ht t r Hr) as (Hc & _ & -> & _). by destruct_or! Hc; subst.
  - intros t r Hr. destruct (Ht t r Hr) as (_ & _ & -> & _). lia.
  - split; cbn; lia.
  - by eexists.
  - intros t r Hr. by apply (Ht t).
Qed.

(** * Properties *)

(** C10. The scheduler's queues are consistent under every sequence of context
    switches, sleeps, wake-ups, signals, timer ticks and checks of the sleep
    list: no operation stops the kernel, a task is runnable exactly when it is in
    the queue of its priority, no task is in two lists, and the tasks in the sleep
    list are interruptible. *)
Theorem scheduler_invariant {H} `{!KernEnv H} (k0 k : kern H) :
  sched_ok k0 -> rtc op_step k0 k ->
  (forall o, op_pre o k -> exists k', op_run o k = Done tt k') /\
  (forall t r, k_tasks k !! t = Some r ->
     (t_state r = State_running <-> t ∈ ls_get (k_queues k) (QRun (t_priority r)))) /\
  (forall t q q', t ∈ ls_get (k_queues k) q -> t ∈ ls_get (k_queues k) q' -> q = q') /\
  (forall t, t ∈ ls_get (k_queues k) QSleep ->
     exists r, k_tasks k !! t = Some r /\ t_state r = State_interruptible).
Proof.
  intros Hok Hr. pose proof (sched_ok_reachable _ _ Hok Hr) as Hk. pose proof (so_queues _ Hk) as Hq.
  split_and!.
  - intros o Hp. destruct (op_ok o k Hk Hp) as (k' & Hrun & _). eauto.
  - intros t r Ht. rewrite (proj2 (qo_wf _ _ Hq)). split; [by apply (qo_running _ _ Hq)|].
    intros (r' & Hr' & Hs & _)%(qo_member _ _ Hq). by simplify_eq.
  - intros t q q' Ht%(qo_wf _ _ Hq) Ht'%(qo_wf _ _ Hq). congruence.
  - intros t (r & Hr' & Hs)%(qo_wf _ _ Hq)%(qo_member _ _ Hq). eauto.
Qed.

Lemma scheduler_invariant_witness :
  (exists k', op_run (OWake QConsole) demo5 = Done tt k') /\
  (exists r, k_tasks demo5 !! 100 = Some r /\ t_state r = State_interruptible).
Proof.
  assert (Hr : rtc op_step demo_kern demo5).
  { apply (rtc_l _ _ demo1).
    { exists (OSleep 5). split; [by eexists|]. vm_compute. reflexivity. }
    apply (rtc_l _ _ demo2).
    { exists (OSwitch FSleep). split; [by vm_compute|]. vm_compute. reflexivity. }
    apply (rtc_l _ _ demo3).
    { exists (OSleepOn State_interruptible QConsole). split; [|vm_compute; reflexivity].
      split; [|done]. eexists. split; vm_compute; reflexivity. }
    apply (rtc_l _ _ demo4).
    { exists (OSwitch FGetc). split; [by vm_compute|]. vm_compute. reflexivity. }
    apply (rtc_l _ _ demo5); [|apply rtc_refl].
    exists (OSend 10 200). split; [|vm_compute; reflexivity].
    split; [done|]. split; [lia|]. eexists. split; vm_compute; reflexivity. }
  destruct (scheduler_invariant demo_kern demo5 demo_ok Hr) as (H1 & _ & _ & H4).
  split; [by apply H1|]. apply H4. vm_compute. apply list_elem_of_here.
Defined.

(** C11. Round robin: as many consecutive choices as the highest non-empty priority
    level has tasks choose every task of that level exactly once, in queue order,
    give each its time slice, and leave all queues as they were; tasks of lower
    levels are not chosen. *)
Theorem round_robin {H} (k : kern H) i :
  sched_ok k -> first_level (k_queues k) = Some i ->
  exists k', picks (length (ls_get (k_queues k) (QRun i))) k = Done (ls_get (k_queues k) (QRun i)) k' /\
    k_queues k' = k_queues k /\
    (forall t, t ∈ ls_get (k_queues k) (QRun i) -> exists r, k_tasks k !! t = Some r /\
       k_tasks k' !! t = Some (set_t_counter i r)) /\
    (forall t, t ∉ ls_get (k_queues k) (QRun i) -> k_tasks k' !! t = k_tasks k !! t) /\
    (forall j, i < j <= 40 -> ls_get (k_queues k) (QRun j) = []).
Proof.
  intros Hok Hi. pose proof (so_queues _ Hok) as Hq.
  destruct (first_level_spec _ _ Hi) as (_ & Hne & Habove).
  destruct (picks_run i (ls_get (k_queues k) (QRun i)) [] k (so_cpu _ Hok) Hq Hi) as (k' & Hp & Ht & Hqs).
  { by rewrite app_nil_r. }
  exists k'. split_and!; [done| | | |done].
  - destruct Hqs as [[He _] | ->]; [done|]. by apply relist_id.
  - intros t Hin. pose proof (proj1 (proj2 (qo_wf _ _ Hq) _ _) Hin) as Ho.
    destruct (qo_member _ _ Hq _ _ Ho) as (r & Hr & _ & <-). exists r. split; [done|].
    rewrite Ht. apply counters_in; [apply (qo_wf _ _ Hq)|done|done].
  - intros t Hin. rewrite Ht. by apply counters_notin.
Qed.

Lemma round_robin_witness :
  exists k', picks 3 demo_kern = Done [100; 200; 300] k' /\ k_queues k' = k_queues demo_kern.
Proof.
  destruct (round_robin demo_kern 3 demo_ok ltac:(vm_compute; reflexivity)) as (k' & Hp & Hq & _).
  by exists k'.
Defined.

(** The sleep list is not ordered by time: sys_sleep compares the absolute
    wake-up times of the list with the number of seconds it is asked for. With
    every sleeper due later than that number - always so once the clock is past
    it - the new sleeper goes to the front, and until it is due check_sleep_list
    wakes nobody, however long ago the others were due. *)
Theorem sleep_front_blocks {H} (k : kern H) r seconds :
  sched_ok k -> k_tasks k !! k_curr k = Some r -> t_state r = State_running ->
  (forall t rt, t ∈ ls_get (k_queues k) QSleep -> k_tasks k !! t = Some rt -> seconds < t_sleep rt) ->
  exists k', runs_to (sleep_enter seconds) k tt k' /\
    ls_get (k_queues k') QSleep = k_curr k :: ls_get (k_queues k) QSleep /\
    forall j, jiffies_to_seconds j < u32 (jiffies_to_seconds (k_jiffies k) + seconds) ->
      runs_to check_sleep_list (set_k_jiffies j k') tt (set_k_jiffies j k').
Proof.
  intros Hok Hr Hs Hlate. pose proof (so_queues _ Hok) as Hq.
  pose proof (sleep_enter_run seconds k r Hok Hr Hs) as Hrun. exists (asleep seconds r k).
  assert (Hq' : queues_ok (k_tasks (asleep seconds r k)) (k_queues (asleep seconds r k)))
    by (by apply queues_ok_asleep).
  assert (Hg : ls_get (k_queues (asleep seconds r k)) QSleep = k_curr k :: ls_get (k_queues k) QSleep).
  { unfold asleep. cbn. pose proof (qo_running _ _ Hq _ _ Hr Hs) as Ho.
    unfold ls_insert. rewrite erase_free by done. cbn [snd]. rewrite ls_get_insert, erase_get_ne by done.
    assert (Hp : sleep_pos (k_tasks k) seconds (ls_get (k_queues k) QSleep) = head (ls_get (k_queues k) QSleep)).
    { unfold sleep_pos. destruct (ls_get (k_queues k) QSleep) as [|x l] eqn:Hl; [done|].
      destruct (sleep_members k x Hq) as [rx Hx]; [rewrite Hl; set_solver|].
      rewrite filter_cons_True; [done|]. rewrite wakes_after_lookup by done. apply (Hlate x); set_solver. }
    rewrite Hp. apply ins_before_head. }
  split_and!; [done|done|]. intros j Hj.
  set (kj := set_k_jiffies j (asleep seconds r k)).
  assert (Hcpu : cpu_ok (k_cpu kj)) by apply (so_cpu _ Hok).
  destruct (check_sleep_run kj Hcpu Hq') as (pre & suf & k2 & Hsplit & _ & _ & _ & _ & Hin & _).
  change (ls_get (k_queues kj) QSleep) with (ls_get (k_queues (asleep seconds r k)) QSleep) in Hsplit.
  assert (Hcur : k_tasks kj !! k_curr k =
    Some (set_t_sleep (u32 (jiffies_to_seconds (k_jiffies k) + seconds)) (set_t_state State_interruptible r))).
  { unfold kj, asleep. cbn. apply lookup_insert_eq. }
  unfold check_sleep_list. apply runs_push. eapply runs_step; [done|].
  eapply (runs_step _ _ _ (Some tt) (set_k_cpu (do_pushcli (k_cpu kj)) kj)); [|by apply runs_pop].
  change (ls_get (k_queues (set_k_cpu _ kj)) QSleep) with (ls_get (k_queues (asleep seconds r k)) QSleep).
  rewrite Hg. cbn [iter_until].
  rewrite (bind_done _ _ _ (Some tt) (set_k_cpu (do_pushcli (k_cpu kj)) kj)); [done|].
  rewrite (bind_done _ _ _ _ _ (t_rd_run _ (set_k_cpu (do_pushcli (k_cpu kj)) kj) _ Hcur)).
  cbn [t_sleep set_t_sleep]. change (k_jiffies (set_k_cpu _ kj)) with j.
  destruct (Z.ltb_spec (jiffies_to_seconds j) (u32 (jiffies_to_seconds (k_jiffies k) + seconds))); [done|lia].
Qed.

Lemma sleep_front_blocks_witness :
  exists k', runs_to (sleep_enter 6) demo2 tt k' /\ ls_get (k_queues k') QSleep = [200; 100] /\
    (exists r, k_tasks demo2 !! 100 = Some r /\ t_sleep r = 15) /\
    runs_to check_sleep_list (set_k_jiffies 1500 k') tt (set_k_jiffies 1500 k').
Proof.
  assert (Hok : sched_ok demo2).
  { apply (sched_ok_reachable demo_kern); [apply demo_ok|]. apply (rtc_l _ _ demo1).
    { exists (OSleep 5). split; [by eexists|]. vm_compute. reflexivity. }
    apply (rtc_l _ _ demo2); [|apply rtc_refl].
    exists (OSwitch FSleep). split; [by vm_compute|]. vm_compute. reflexivity. }
  destruct (sleep_front_blocks demo2
    (default (demo_task 0 State_zombie 0 0) (k_tasks demo2 !! 200)) 6 Hok) as (k' & Hr & Hg & Hj).
  - vm_compute. reflexivity.
  - vm_compute. reflexivity.
  - intros t rt Ht. replace (ls_get (k_queues demo2) QSleep) with [100] in Ht by (vm_compute; reflexivity).
    rewrite list_elem_of_singleton in Ht. subst t. vm_compute. intros [= <-]. reflexivity.
  - exists k'. split; [exact Hr|]. split; [rewrite Hg; vm_compute; reflexivity|].
    split; [eexists; split; vm_compute; reflexivity|]. apply Hj. vm_compute. reflexivity.
Defined.

(** alarm() stops the kernel when two pending alarms are due later than the
    number of seconds asked for: its loop goes on after the insertion, and the
    second insertion of the same node fails its assertion. *)
Theorem alarm_second_insert_panics {H} (k : kern H) seconds t x y l rx ry :
  ls_get (k_alarms k) tt = x :: y :: l -> ls_is_free t (k_alarms k) = true ->
  k_tasks k !! x = Some rx -> seconds < t_alarm rx ->
  k_tasks k !! y = Some ry -> seconds < t_alarm ry ->
  alarm_insert seconds t k = Stop AssertFailed.
Proof.
  intros Hl Hf Hx Hsx Hy Hsy. unfold alarm_insert.
  rewrite (bind_done _ _ _ (x :: y :: l) k) by (unfold gets; by rewrite Hl).
  change (fun x => r ← t_rd x; when (seconds <? t_alarm r) _) with (@alarm_body H seconds t).
  set (k1 := set_k_alarms (ls_insert tt (Some x) t (k_alarms k)).2 k).
  assert (H2 : alarm_body seconds t y k1 = Stop AssertFailed).
  { apply (alarm_body_second seconds t y ry); [done|done|].
    unfold k1, ls_insert. rewrite Hf. cbn. unfold ls_is_free. cbn.
    by rewrite lookup_insert_eq, bool_decide_false. }
  assert (Hloop : iterM (alarm_body seconds t) (x :: y :: l) k = Stop AssertFailed).
  { cbn [iterM]. rewrite (bind_done _ _ _ _ _ (alarm_body_later _ _ _ _ _ Hx Hsx Hf)).
    fold k1. unfold mbind, M_bind. by rewrite H2. }
  unfold mbind, M_bind. by rewrite Hloop.
Qed.

Lemma alarm_second_insert_panics_witness :
  alarm_insert 5 300 (set_k_alarms (mkLstore {[ tt := [100; 200] ]} {[ 100 := tt; 200 := tt ]})
    (set_k_tasks {[ 100 := demo_task 1 State_running 20 0; 200 := demo_task 2 State_running 30 0 ]}
       demo_kern)) = Stop AssertFailed.
Proof.
  apply (alarm_second_insert_panics _ 5 300 100 200 [] (demo_task 1 State_running 20 0)
           (demo_task 2 State_running 30 0)); try (vm_compute; reflexivity).
Defined.

(** C17. What send_signal does to a task: nothing while the handler of the same
    signal runs; otherwise the signal is recorded, an interruptible task leaves
    its list and becomes runnable - unless the signal is ignored by default, the
    default action is in force for the task that sends, and the receiver does
    not wait for a child; a task that sleeps uninterruptibly stops the kernel. *)
Theorem send_signal_cases {H} (k : kern H) sig t r c :
  sched_ok k -> t <> NULL -> 0 <= sig < 32 -> k_tasks k !! t = Some r -> k_tasks k !! k_curr k = Some c ->
  (can_signal r = true -> runs_to (send_signal sig t) k 0 (sent c sig t r k)) /\
  (t_state r = State_uninterruptible -> has_sig (t_pending r) sig = false ->
     send_signal sig t k = Stop PanicCalled) /\
  (t_state r = State_interruptible -> has_sig (t_pending r) sig = false -> not_woken c sig r = false ->
     exists r', k_tasks (sent c sig t r k) !! t = Some r' /\ t_state r' = State_running /\
       has_sig (t_sig r') sig = true /\
       ls_get (k_queues (sent c sig t r k)) (QRun (t_priority r)) =
         ls_get (k_queues k) (QRun (t_priority r)) ++ [t]).
Proof.
  intros Hok Ht Hsig Hr Hc. destruct (so_kept _ Hok _ _ Hc) as [Hlen _].
  pose proof (so_queues _ Hok) as Hq. split_and!.
  - intros Hcan. by apply send_signal_run; [apply Hok|..].
  - intros Hs Hp. unfold send_signal. destruct (Z.eqb_spec t NULL); [done|].
    destruct (Z.ltb_spec 32 sig); [lia|]. cbn [orb].
    rewrite (bind_done _ _ _ _ _ (pushcli_run k)).
    rewrite (bind_done _ _ _ r (set_k_cpu (do_pushcli (k_cpu k)) k)) by (by apply t_rd_run).
    rewrite Hp.
    rewrite (bind_done _ _ _ _ _ (t_wr_run t _ (set_k_cpu (do_pushcli (k_cpu k)) k) r Hr)).
    rewrite Hs. repeat (rewrite bool_decide_false by done). done.
  - intros Hs Hp Hn. unfold sent. rewrite Hp, Hn, Hs. rewrite bool_decide_true by done. cbn [andb negb].
    set (r' := set_t_sig _ r). exists (set_t_state State_running r').
    assert (Hbit : has_sig (t_sig r') sig = true).
    { unfold r', has_sig. cbn. rewrite negb_true_iff, Z.eqb_neq. intros H0.
      assert (Hb : Z.testbit (Z.land (Z.lor (t_sig r) (S_ sig)) (S_ sig)) sig = true).
      { rewrite Z.land_spec, Z.lor_spec. unfold S_. rewrite Z.mod_small by lia.
        rewrite Z.shiftl_1_l, Z.pow2_bits_true by lia. by rewrite orb_true_r. }
      by rewrite H0, Z.bits_0 in Hb. }
    assert (Hown : ls_owner (k_queues k) !! t <> Some (QRun (t_priority r))).
    { intros (r0 & Hr0 & Hs0 & _)%(qo_member _ _ Hq). simplify_eq. congruence. }
    unfold roused. cbn [k_queues set_k_tasks].
    destruct (ls_owner (k_queues k) !! t) as [q|] eqn:Ho.
    + assert (Hqne : QRun (t_priority r) <> q) by congruence.
      split_and!; [cbn; by rewrite lookup_insert_eq|done|done|]. unfold runnable. cbn.
      rewrite ls_push_back_get by (by apply erase_free). cbn [snd]. rewrite ls_get_insert.
      by rewrite erase_get_ne.
    + split_and!; [cbn; by rewrite lookup_insert_eq|done|done|]. unfold runnable. cbn.
      rewrite ls_push_back_get by (by apply ls_owner_free). cbn [snd]. by rewrite ls_get_insert.
Qed.

Lemma send_signal_cases_witness :
  runs_to (send_signal 10 200) demo_kern 0
    (sent (demo_task 1 State_running 0 0) 10 200 (demo_task 2 State_running 0 0) demo_kern).
Proof.
  apply (send_signal_cases demo_kern 10 200 (demo_task 2 State_running 0 0)
           (demo_task 1 State_running 0 0) demo_ok); done.
Defined.
