(* ===== verification/Console.v ===== *)
(** The console (kernel/console.cpp): its input buffer, the interrupt that fills it
    and wakes the readers, console_getc, and __kernel_print (kernel/print.c).

    The buffer and the devices are in the console's part of the environment; the
    readers sleep in the queue [QConsole] of the scheduler. *)

From S2P Require Import Prelude Spinlock ListSpec Vsprintf Cga Keyboard PhysMem VirtMem Kmalloc Task Sched.

(** * Definitions *)

(** ** The input buffer *)

Section ring.
Context {D : Type}.
Notation C := (con D).

(** Console::init *)
Definition console_init : M C unit := modify (fun c => set_console (con_buff c) 0 0 c).

(** console.buff[console.wpos++] = c: the reader's position is not looked at. *)
Definition con_put (ch : Z) : M C unit :=
  c ← get;
  _ ← deref (con_buff c !! Z.to_nat (con_wpos c));
  let w := u32 (con_wpos c + 1) in
  modify (set_console (<[Z.to_nat (con_wpos c) := u8 ch]> (con_buff c)) (con_rpos c)
            (if w =? 512 then 0 else w)).

(** The character, 0 when the positions are equal. *)
Definition con_take : M C Z :=
  c ← get;
  if negb (con_rpos c =? con_wpos c) then
    ch ← deref (con_buff c !! Z.to_nat (con_rpos c));
    let r := u32 (con_rpos c + 1) in
    modify (set_console (con_buff c) (if r =? 512 then 0 else r) (con_wpos c)) ;;
    mret ch
  else mret 0.
End ring.

(** for (; *c != '\0'; c++) *)
Fixpoint until_nul (s : cstr) : cstr :=
  match s with
  | c :: s' => if c =? 0 then [] else c :: until_nul s'
  | [] => []
  end.

(** ** __kernel_print

    buf has 1024 bytes; what vsprintf stores behind it is on the stack. The formats
    of the kernel have no n conversion. *)
Definition kernel_print {D} `{!Ports D} (fmt : cstr) (args : list va_value) : M (con D) Z :=
  match vsprintf fmt args with
  | VsDone o =>
      if bool_decide (length (vs_text o) < 1024)%nat then
        iterM console_putc (until_nul (vs_text o)) ;;
        mret (Z.of_nat (length (vs_text o)))
      else stop BadAccess
  | VsUndefined => stop BadAccess
  | VsOutOfFuel => stop OutOfFuel
  end.

(** ** The interrupt and the readers *)

Section console.
Context {H : Type} `{!KernEnv H}.
Notation K := (kern H).

Definition console_acquire : M K unit :=
  spinlock_acquire (fun k => console_lock (ke_con (k_heap k)))
    (fun v k => set_k_heap (ke_set_con (set_console_lock v (ke_con (k_heap k))) (k_heap k)) k).
Definition console_release : M K unit :=
  spinlock_release
    (fun v k => set_k_heap (ke_set_con (set_console_lock v (ke_con (k_heap k))) (k_heap k)) k).

(** while ((c = proc()) != -1) *)
Fixpoint console_loop (fuel : nat) (proc : M (con ke_dev) Z) : M K unit :=
  match fuel with
  | O => stop OutOfFuel
  | S f =>
      c ← in_con proc;
      if c =? -1 then mret tt
      else if c =? 0 then console_loop f proc
      else in_con (con_put c) ;; wakeup_interruptible QConsole ;; console_loop f proc
  end.

(** A device has at most [p_ready] bytes, and one more call finds it empty. *)
Definition console_interrupt (proc : M (con ke_dev) Z) : M K unit :=
  console_acquire ;;
  k ← get;
  console_loop (S (p_ready (con_dev (ke_con (k_heap k))))) proc ;;
  console_release.

Definition keyboard_interrupt : M K unit := console_interrupt keyboard_getc.
Definition do_irq_keyboard : M K unit := console_interrupt keyboard_getc.

Definition console_getc : M K Z :=
  keyboard_interrupt ;;
  k ← get;
  when (negb (COM1 (ke_con (k_heap k)) =? 0)) (console_interrupt (COM_N_getc COM1)) ;;
  console_acquire ;;
  c ← in_con con_take;
  console_release ;;
  mret c.

(** The tables are read before they are filled. *)
Definition keyboard_init : M K unit := keyboard_interrupt ;; in_con kb_init_codes.

(** [bda]: the words of the BIOS data area. *)
Definition init_console (bda : list Z) : M K unit :=
  in_con (modify (set_console_lock 0)) ;;
  in_con console_init ;;
  in_con (serial_init bda) ;;
  keyboard_init ;;
  modify (fun k => set_k_queues (ls_init QConsole (k_queues k)) k).
End console.
