(* ===== verification/ConsoleProps.v ===== *)
(** The console's input: the ring buffer is a queue of 511 characters that is emptied
    by the 512th, every interrupt returns, and typed text is read back.

    [Inputs] states what the keyboard controller and the serial port do: a status bit
    says whether there is a byte, and reading the data port takes the first one. *)

From S2P Require Import Prelude Spinlock ListSpec Cga CgaProps Keyboard PhysMem VirtMem Kmalloc.
From S2P Require Import Task Sched SchedProps SchedOps Console.

(** * Definitions *)

(** The queue: one character more than fit empties it. *)
Definition push (q : list Z) (ch : Z) : list Z :=
  if bool_decide (length q = 511%nat) then [] else q ++ [ch].

(** The buffer [b] with reader [r] and writer [w] holds [q]. *)
Record ring (b : list Z) (r w : Z) (q : list Z) : Prop := {
  ring_len : length b = 512%nat;
  ring_r : 0 <= r < 512;
  ring_q : (length q < 512)%nat;
  ring_w : w = (r + Z.of_nat (length q)) mod 512;
  ring_at : forall i x, q !! i = Some x -> b !! Z.to_nat ((r + Z.of_nat i) mod 512) = Some x;
}.
Definition con_ring {D} (c : con D) (q : list Z) : Prop := ring (con_buff c) (con_rpos c) (con_wpos c) q.

(** One scan code with the tables of keyboard_init: the modifiers, and what
    keyboard_getc returns; None for the keys of the kernel monitor. *)
Definition kb_press (shift data : Z) : option (Z * Z) :=
  let n := Z.to_nat data in
  let shift := Z.lxor (Z.lor shift (nth n kb_shiftcode 0)) (nth n kb_togglecode 0) in
  let ch := nth n (nth (Z.to_nat (Z.land shift 3)) charcode []) 0 in
  let ch :=
    if kb_has shift CAPSLOCK then
      if (97 <=? ch) && (ch <=? 122) then ch - 32
      else if (65 <=? ch) && (ch <=? 90) then ch + 32 else ch
    else ch in
  if (Z.land (Z.lxor 0xFFFFFFFF shift) 6 =? 0) && (ch =? KEY_DEL) then None else Some (shift, ch).
Definition kb_code (shift data : Z) : option (Z * Z) :=
  if data =? 0xE0 then Some (Z.lor shift E0ESC, 0)
  else if 128 <=? data then
    let n := Z.to_nat (if kb_has shift E0ESC then data else data - 128) in
    Some (kb_clear shift (Z.lor (nth n kb_shiftcode 0) E0ESC), 0)
  else if kb_has shift E0ESC then kb_press (kb_clear shift E0ESC) (data + 128)
  else kb_press shift data.
Fixpoint kb_codes (shift : Z) (ds : list Z) : option (Z * list Z) :=
  match ds with
  | [] => Some (shift, [])
  | d :: ds => '(s, ch) ← kb_code shift d; '(s', l) ← kb_codes s ds; Some (s', ch :: l)
  end.

(** The characters of the results of a device. *)
Definition chars (l : list Z) : list Z := u8 <$> filter (fun ch => ch <> 0) l.

(** * Lemmas *)

(** ** The ring *)

Lemma ring_put b r w q ch : ring b r w q ->
  is_Some (b !! Z.to_nat w) /\
  ring (<[Z.to_nat w := ch]> b) r (if u32 (w + 1) =? 512 then 0 else u32 (w + 1)) (push q ch).
Proof.
  intros [Hl Hr Hq Hw Hat]. pose proof (Z.mod_pos_bound (r + Z.of_nat (length q)) 512 ltac:(lia)) as Hwb.
  rewrite <- Hw in Hwb. rewrite u32_small by lia.
  assert (Hw' : (if w + 1 =? 512 then 0 else w + 1) = (r + Z.of_nat (length q) + 1) mod 512).
  { rewrite <- (Zplus_mod_idemp_l (r + Z.of_nat (length q)) 1), <- Hw.
    destruct (Z.eqb_spec (w + 1) 512) as [->|]; [done|]. by rewrite Z.mod_small by lia. }
  split; [apply lookup_lt_is_Some; lia|]. rewrite Hw'. unfold push. case_bool_decide as Hf.
  - split; [by rewrite length_insert|done|simpl; lia| |done]. simpl.
    rewrite Hf. change (Z.of_nat 511) with 511. rewrite <- Z.add_assoc, Z.add_0_r.
    change (511 + 1) with (1 * 512). by rewrite Z.mod_add.
  - split; [by rewrite length_insert|done|rewrite length_app; simpl; lia|rewrite length_app; simpl; f_equal; lia|].
    intros i x Hi. destruct (decide (i = length q)) as [->|Hne].
    + rewrite list_lookup_middle in Hi by done. injection Hi as ->. rewrite <- Hw.
      apply list_lookup_insert_eq. lia.
    + assert (i < length q)%nat.
      { apply lookup_lt_Some in Hi. rewrite length_app in Hi. simpl in Hi. lia. }
      rewrite lookup_app_l in Hi by done. rewrite list_lookup_insert_ne; [by apply Hat|].
      intros E. apply Z2Nat.inj in E; [|lia|apply Z.mod_pos_bound; lia]. rewrite Hw in E.
      Z.to_euclidean_division_equations. lia.
Qed.

Lemma ring_take b r w x q : ring b r w (x :: q) ->
  r <> w /\ b !! Z.to_nat r = Some x /\
  ring b (if u32 (r + 1) =? 512 then 0 else u32 (r + 1)) w q.
Proof.
  intros [Hl Hr Hq Hw Hat]. simpl length in *. rewrite u32_small by lia.
  assert (Hr' : (if r + 1 =? 512 then 0 else r + 1) = (r + 1) mod 512).
  { destruct (Z.eqb_spec (r + 1) 512) as [->|]; [done|]. by rewrite Z.mod_small by lia. }
  split_and!.
  - rewrite Hw. Z.to_euclidean_division_equations. lia.
  - specialize (Hat O x eq_refl). simpl in Hat. by rewrite Z.add_0_r, Z.mod_small in Hat by lia.
  - rewrite Hr'. split; [done|apply Z.mod_pos_bound; lia|lia| |].
    + rewrite Zplus_mod_idemp_l, Hw. f_equal. lia.
    + intros i y Hi. rewrite Zplus_mod_idemp_l.
      replace (r + 1 + Z.of_nat i) with (r + Z.of_nat (S i)) by lia. by apply Hat.
Qed.

Lemma ring_nil b r w : ring b r w [] -> r = w.
Proof. intros [_ Hr _ Hw _]. simpl in Hw. rewrite Z.add_0_r, Z.mod_small in Hw by lia. done. Qed.

Section ring_ops.
Context {D : Type}.
Implicit Types c : con D.

Lemma con_put_run ch q c : con_ring c q ->
  exists b r w, con_put ch c = Done tt (set_console b r w c) /\ ring b r w (push q (u8 ch)).
Proof.
  intros Hq. destruct (ring_put _ _ _ _ (u8 ch) Hq) as [[x Hx] Hr].
  do 3 eexists. split; [|exact Hr]. unfold con_put. m_unfold. by rewrite Hx.
Qed.

Lemma con_take_run q c : con_ring c q ->
  exists b r w, con_take c = Done (default 0 (head q)) (set_console b r w c) /\ ring b r w (tail q).
Proof.
  intros Hq. unfold con_take. destruct q as [|x q].
  - pose proof (ring_nil _ _ _ Hq) as E. exists (con_buff c), (con_rpos c), (con_wpos c). split; [|done].
    m_unfold. rewrite (proj2 (Z.eqb_eq _ _) E). by destruct c.
  - destruct (ring_take _ _ _ _ _ Hq) as (Hne & Hx & Hr). do 3 eexists. split; [|exact Hr].
    m_unfold. by rewrite (proj2 (Z.eqb_neq _ _) Hne), Hx.
Qed.
End ring_ops.

(** ** The devices *)

(** [keys]: what the keyboard controller has; [serial]: what the first serial port,
    at 0x3f8, has received. *)
Class Inputs (D : Type) `{!Ports D} := {
  keys : D -> list Z;
  serial : D -> list Z;
  in_kb_status d : (Z.land (u8 (p_in 0x64 d).1) 1 =? 0) = bool_decide (keys d = []) /\
    keys (p_in 0x64 d).2 = keys d /\ serial (p_in 0x64 d).2 = serial d;
  in_kb_data d x l : keys d = x :: l ->
    u8 (p_in 0x60 d).1 = x /\ keys (p_in 0x60 d).2 = l /\ serial (p_in 0x60 d).2 = serial d;
  in_com_status d : (Z.land (u8 (p_in 0x3fd d).1) 1 =? 0) = bool_decide (serial d = []) /\
    keys (p_in 0x3fd d).2 = keys d /\ serial (p_in 0x3fd d).2 = serial d;
  in_com_data d x l : serial d = x :: l ->
    u8 (p_in 0x3f8 d).1 = x /\ keys (p_in 0x3f8 d).2 = keys d /\ serial (p_in 0x3f8 d).2 = l;
  in_ready d : (length (keys d) <= p_ready d)%nat /\ (length (serial d) <= p_ready d)%nat;
}.

Lemma nth_lookup_def (l : list Z) n : (n < length l)%nat -> l !! n = Some (nth n l 0).
Proof. intros Hn. apply lookup_lt_is_Some in Hn as [x Hx]. by rewrite Hx, (nth_lookup_Some _ _ 0 _ Hx). Qed.

Lemma charcode_lookup i n : 0 <= i < 4 -> (n < 256)%nat ->
  exists m, charcode !! Z.to_nat i = Some m /\ m !! n = Some (nth n (nth (Z.to_nat i) charcode []) 0) /\
    0 <= nth n (nth (Z.to_nat i) charcode []) 0 < 256.
Proof.
  intros Hi Hn. assert (i = 0 \/ i = 1 \/ i = 2 \/ i = 3) as Hc by lia.
  assert (Hall : Forall (Forall (fun x => 0 <= x < 256)) charcode).
  { apply (bool_decide_unpack _). vm_compute. exact I. }
  rewrite Forall_forall in Hall.
  assert (Hm : exists m, charcode !! Z.to_nat i = Some m /\ length m = 256%nat /\ nth (Z.to_nat i) charcode [] = m).
  { destruct Hc as [-> | [-> | [-> | ->]]]; eexists; by split_and!. }
  destruct Hm as (m & Hm & Hlen & ->). exists m. split; [done|].
  pose proof (nth_lookup_def m n ltac:(lia)) as Hx. split; [done|].
  apply list_elem_of_lookup_2 in Hm. apply Hall in Hm. rewrite Forall_lookup in Hm. by eapply Hm.
Qed.

Section keyboard.
Context {D : Type} `{Inputs D}.
Notation C := (con D).
Implicit Types (c : C) (d : D).

(** What a device's read routine leaves alone. *)
Definition keeps c c' : Prop :=
  con_buff c' = con_buff c /\ con_rpos c' = con_rpos c /\ con_wpos c' = con_wpos c /\
  COM1 c' = COM1 c /\ shiftcode c' = shiftcode c /\ togglecode c' = togglecode c /\
  cga_memory c' = cga_memory c /\ cpu_equiv (con_cpu c') (con_cpu c).

Definition codes_ready c : Prop := shiftcode c = kb_shiftcode /\ togglecode c = kb_togglecode.

Local Ltac go H := rewrite (bind_done _ _ _ _ _ H).

Lemma bind_deref {S A B} (a : A) (k : A -> M S B) s : (deref (Some a) ≫= k) s = k a s.
Proof. done. Qed.

Lemma kb_key_run data c : codes_ready c -> 0 <= data < 256 ->
  kb_key data c = match kb_press (kb_shift c) data with
                  | Some (s, ch) => Done ch (set_kb_shift s c)
                  | None => Stop MonitorEntered
                  end.
Proof.
  intros [Hs Ht] Hd. unfold kb_key, kb_press. cbv zeta. set (n := Z.to_nat data).
  assert (Hn : (n < 256)%nat) by lia.
  go (eq_refl : get c = Done c c). rewrite Hs, Ht.
  rewrite (nth_lookup_def kb_shiftcode n Hn), (nth_lookup_def kb_togglecode n Hn). rewrite bind_deref.
  set (s1 := Z.lor (kb_shift c) _). set (s := Z.lxor s1 _).
  go (eq_refl : modify (set_kb_shift s1) c = Done tt (set_kb_shift s1 c)). rewrite bind_deref.
  go (eq_refl : modify (set_kb_shift s) (set_kb_shift s1 c) = Done tt (set_kb_shift s c)).
  change (Z.lor CTL SHIFT) with 3. change (Z.lor CTL ALT) with 6.
  destruct (charcode_lookup (Z.land s 3) n) as (m & Hm & Hx & Hb); [|done|].
  { change 3 with (2 ^ 2 - 1). rewrite land_ones_mod by lia. apply Z.mod_pos_bound. lia. }
  fold s. rewrite Hm, bind_deref, Hx, bind_deref.
  set (ch0 := nth n (nth (Z.to_nat (Z.land s 3)) charcode []) 0) in *. clearbody ch0 s.
  assert (E : forall z, 0 <= z < 256 -> i32 z = z) by (intros; apply i32_small; lia).
  change (97 - 65) with 32. change (65 - 97) with (-32).
  assert (Hlow : 97 <= ch0 -> u32 (ch0 + -32) = ch0 - 32) by (intros; apply u32_small; lia).
  assert (Hup : u32 (ch0 + 32) = ch0 + 32) by (apply u32_small; lia).
  rewrite Hup. destruct (kb_has s CAPSLOCK);
    [destruct (Z.leb_spec 97 ch0), (Z.leb_spec ch0 122), (Z.leb_spec 65 ch0), (Z.leb_spec ch0 90); cbn [andb]|];
    rewrite ?Hlow by done; (destruct (_ && _); [done|]); unfold mret, M_ret; rewrite E by lia; done.
Qed.

Lemma keeps_dev d c : keeps c (set_con_dev d c).
Proof. done. Qed.

Lemma keeps_cpu d cpu c : cpu_equiv cpu (con_cpu c) -> keeps c (set_con_cpu cpu (set_con_dev d c)).
Proof. done. Qed.

Lemma int_disabled c : IF (con_cpu c) = false -> ASSERT_int_disable c = Done tt c.
Proof. intros E. unfold ASSERT_int_disable, eflags_read. m_unfold. cbn [cpu_of HasCpu_con]. by rewrite E. Qed.

Lemma keyboard_getc_empty c : IF (con_cpu c) = false -> keys (con_dev c) = [] ->
  exists c', keyboard_getc c = Done (-1) c' /\ keeps c c' /\ kb_shift c' = kb_shift c /\
    keys (con_dev c') = [] /\ serial (con_dev c') = serial (con_dev c).
Proof.
  intros Hif Hk. destruct (in_kb_status (con_dev c)) as (Hs & Hk' & Hs').
  exists (set_con_dev (p_in 0x64 (con_dev c)).2 c).
  split; [|split_and!; try done; cbn; congruence].
  unfold keyboard_getc. go (int_disabled c Hif). go (inb_run KBSTATP c).
  change (u16 KBSTATP) with 0x64. change KBS_DIB with 1. rewrite Hs, bool_decide_true by done. done.
Qed.

Lemma land_128 x : 0 <= x < 256 -> (Z.land x 0x80 =? 0) = negb (128 <=? x).
Proof.
  intros Hx. assert (Hall : Forall (fun x => (Z.land x 0x80 =? 0) = negb (128 <=? x)) (seqZ 0 256)).
  { apply (bool_decide_unpack _). vm_compute. exact I. }
  rewrite Forall_forall in Hall. apply Hall, elem_of_seqZ. lia.
Qed.

(** The next byte of the controller is decoded. *)
Lemma keyboard_getc_run c x l : IF (con_cpu c) = false -> codes_ready c -> keys (con_dev c) = x :: l ->
  match kb_code (kb_shift c) x with
  | Some (s, ch) => exists c', keyboard_getc c = Done ch c' /\ keeps c c' /\ kb_shift c' = s /\
      keys (con_dev c') = l /\ serial (con_dev c') = serial (con_dev c)
  | None => keyboard_getc c = Stop MonitorEntered
  end.
Proof.
  intros Hif Hc Hk. destruct (in_kb_status (con_dev c)) as (Hs & Hk' & Hs').
  set (d1 := (p_in 0x64 (con_dev c)).2) in *. rewrite Hk in Hk'.
  destruct (in_kb_data d1 x l Hk') as (Hx & Hk2 & Hs2). set (d2 := (p_in 0x60 d1).2) in *.
  assert (Hb : 0 <= x < 256) by (rewrite <- Hx; apply Z.mod_pos_bound; lia).
  unfold keyboard_getc. go (int_disabled c Hif). go (inb_run KBSTATP c).
  change (u16 KBSTATP) with 0x64. change KBS_DIB with 1. rewrite Hs, Hk, bool_decide_false by done.
  fold d1. go (inb_run KBDATAP (set_con_dev d1 c)).
  change (u16 KBDATAP) with 0x60. cbn [con_dev set_con_dev]. rewrite Hx. fold d2.
  change (set_con_dev d2 (set_con_dev d1 c)) with (set_con_dev d2 c).
  set (c2 := set_con_dev d2 c). assert (Hc2 : codes_ready c2) by done.
  assert (Hser : serial d2 = serial (con_dev c)) by congruence.
  go (eq_refl : get c2 = Done c2 c2). cbv zeta. change (kb_shift c2) with (kb_shift c).
  unfold kb_code. destruct (Z.eqb_spec x 0xE0); [|rewrite land_128, negb_involutive by done;
    destruct (Z.leb_spec 128 x); [|destruct (kb_has (kb_shift c) E0ESC) eqn:He]].
  - eexists. split; [done|]. by split_and!.
  - change 0x7F with (2 ^ 7 - 1). rewrite land_ones_mod by lia.
    replace (x mod 2 ^ 7) with (x - 128) by (Z.to_euclidean_division_equations; lia).
    destruct Hc2 as [-> _]. rewrite nth_lookup_def by (case_match; change (length kb_shiftcode) with 256%nat; lia).
    rewrite bind_deref. eexists. split; [done|]. by split_and!.
  - set (c3 := set_kb_shift (kb_clear (kb_shift c) E0ESC) c2).
    go (eq_refl : modify (set_kb_shift (kb_clear (kb_shift c) E0ESC)) c2 = Done tt c3).
    replace (Z.lor x 0x80) with (x + 128)
      by (rewrite Z.lor_comm; change 0x80 with (1 * 2 ^ 7); rewrite lor_fields by (unfold fits; lia); lia).
    rewrite (kb_key_run (x + 128) c3 Hc2) by lia. change (kb_shift c3) with (kb_clear (kb_shift c) E0ESC).
    destruct (kb_press _ _) as [[s ch]|]; [|done]. eexists. split; [done|]. by split_and!.
  - rewrite (kb_key_run x c2 Hc2) by lia. change (kb_shift c2) with (kb_shift c).
    destruct (kb_press _ _) as [[s ch]|]; [|done]. eexists. split; [done|]. by split_and!.
Qed.

(** The serial port: one byte or none. *)
Lemma COM1_getc_run c : cpu_ok (con_cpu c) -> COM1 c = 0x3f8 ->
  exists c', COM_N_getc COM1 c = Done (default (-1) (head (serial (con_dev c)))) c' /\ keeps c c' /\
    kb_shift c' = kb_shift c /\ keys (con_dev c') = keys (con_dev c) /\
    serial (con_dev c') = tail (serial (con_dev c)).
Proof.
  intros Hok Hp. unfold COM_N_getc. go (eq_refl : get c = Done c c). rewrite Hp.
  go (eq_refl : ASSERT (negb (0x3f8 =? 0)) c = Done tt c).
  set (c1 := set_con_cpu (do_pushcli (con_cpu c)) c).
  go (eq_refl : pushcli c = Done tt c1). go (inb_run (0x3f8 + 5) c1). change (u16 (0x3f8 + 5)) with 0x3fd.
  change (con_dev c1) with (con_dev c).
  destruct (in_com_status (con_dev c)) as (Hs & Hk & Hser). set (d1 := (p_in 0x3fd (con_dev c)).2) in *.
  rewrite Hs. destruct (serial (con_dev c)) as [|x l] eqn:Hl.
  - rewrite bool_decide_true by done.
    destruct (@popcli_run (con D) HasCpu_con c (set_con_dev d1 c1) Hok) as (cpu & Hpop & Hcpu); [reflexivity|].
    eexists. split; [|split_and!].
    + erewrite bind_done; [|reflexivity]. go Hpop. reflexivity.
    + exact (keeps_cpu d1 cpu c Hcpu).
    + done.
    + exact Hk.
    + cbn. congruence.
  - rewrite bool_decide_false by done.
    destruct (in_com_data d1 x l) as (Hx & Hk2 & Hs2); [congruence|]. set (d2 := (p_in 0x3f8 d1).2) in *.
    destruct (@popcli_run (con D) HasCpu_con c (set_con_dev d2 c1) Hok) as (cpu & Hpop & Hcpu); [reflexivity|].
    eexists. split; [|split_and!].
    + rewrite (bind_done _ _ _ x (set_con_dev d2 c1)).
      * go Hpop. reflexivity.
      * rewrite inb_run. change (u16 0x3f8) with 0x3f8. cbn [con_dev set_con_dev]. by rewrite Hx.
    + exact (keeps_cpu d2 cpu c Hcpu).
    + done.
    + cbn. congruence.
    + exact Hs2.
Qed.
End keyboard.

(** ** The kernel's side *)

Section kernel.
Context {H : Type} `{!KernEnv H} `{!Inputs ke_dev}.
Implicit Types k : kern H.

Definition kcon k : con ke_dev := ke_con (k_heap k).
Definition set_kcon (c : con ke_dev) k : kern H := set_k_heap (ke_set_con c (k_heap k)) k.

Lemma kcon_set c k : kcon (set_kcon c k) = c.
Proof. apply ke_con_set. Qed.

Lemma in_con_run {A} (m : M (con ke_dev) A) k a c :
  m (set_con_cpu (k_cpu k) (kcon k)) = Done a c -> in_con m k = Done a (set_k_cpu (con_cpu c) (set_kcon c k)).
Proof. intros E. unfold in_con. cbn [set_cpu HasCpu_con]. fold (kcon k). by rewrite E. Qed.

Lemma in_con_stop {A} (m : M (con ke_dev) A) k f :
  m (set_con_cpu (k_cpu k) (kcon k)) = Stop f -> in_con m k = Stop f.
Proof. intros E. unfold in_con. cbn [set_cpu HasCpu_con]. fold (kcon k). by rewrite E. Qed.

(** The readers that wait. *)
Definition readers k : list Z := ls_get (k_queues k) QConsole.

Lemma wake_reader k : sched_ok k ->
  exists k', wakeup_interruptible QConsole k = Done tt k' /\ sched_ok k' /\
    cpu_equiv (k_cpu k') (k_cpu k) /\ k_heap k' = k_heap k /\ readers k' = tail (readers k).
Proof.
  intros Hok. pose proof (so_queues _ Hok) as Hq. destruct (op_wake_ok QConsole k Hok I) as (k' & Hrun & Hok').
  exists k'. split; [exact Hrun|]. split; [exact Hok'|]. cbn [op_run] in Hrun. unfold readers.
  destruct (ls_front (k_queues k) QConsole) as [t|] eqn:Hf.
  - pose proof (ls_front_owner _ _ _ (qo_wf _ _ Hq) Hf) as Ho.
    destruct (qo_member _ _ Hq _ _ Ho) as (r & Hr & _).
    destruct (wakeup_interruptible_run QConsole t r k (so_cpu _ Hok) Hq Hf Hr) as (c & Hrun2 & Hc).
    rewrite Hrun in Hrun2. injection Hrun2 as ->.
    split_and!; [exact Hc|done|]. cbn [woken runnable k_queues set_k_cpu set_k_queues set_k_tasks].
    destruct (front_facts k QConsole t r Hq Hf Hr) as (_ & Hpop & _).
    rewrite push_back_get_ne by (rewrite ?Hpop; done || by apply erase_free). unfold ls_front in Hf.
    destruct (ls_get (k_queues k) QConsole) as [|t' l] eqn:Hg; [done|].
    rewrite (ls_pop_front_get _ _ _ _ (qo_wf _ _ Hq) Hg). cbn [snd]. by rewrite ls_get_insert.
  - destruct (wakeup_interruptible_empty QConsole k (so_cpu _ Hok) Hf) as (c & Hrun2 & Hc).
    rewrite Hrun in Hrun2. injection Hrun2 as ->. split_and!; [exact Hc|done|].
    unfold ls_front in Hf. cbn. by destruct (ls_get (k_queues k) QConsole).
Qed.

(** What holds of the kernel between two bytes: the console's buffer holds [q]. *)
Record input_ok k (q : list Z) : Prop := {
  io_sched : sched_ok k;
  io_ring : con_ring (kcon k) q;
  io_codes : codes_ready (kcon k);
}.

Lemma input_ok_con k q c q' : input_ok k q -> codes_ready c -> con_ring c q' ->
  cpu_equiv (con_cpu c) (k_cpu k) -> input_ok (set_k_cpu (con_cpu c) (set_kcon c k)) q'.
Proof.
  intros [Hs _ _] Hc Hr He. split; [|by change (con_ring (kcon (set_kcon c k)) q'); rewrite kcon_set
    |by change (codes_ready (kcon (set_kcon c k))); rewrite kcon_set].
  apply (sched_ok_keep k (set_kcon c k) (con_cpu c) Hs He); [apply Hs|done|done].
Qed.

(** ** The loop of the interrupt, for any device

    [P c l]: the results of the routine [proc] are [l], then -1. *)
Section loop.
Context (proc : M (con ke_dev) Z) (P : con ke_dev -> list Z -> Prop).
Hypothesis P_ring : forall c b r w l, P c l -> P (set_console b r w c) l.
Hypothesis P_cpu : forall c cpu l, P c l -> P (set_con_cpu cpu c) l.
Hypothesis P_lock : forall c v l, P c l -> P (set_console_lock v c) l.
Hypothesis P_step : forall c l, cpu_ok (con_cpu c) -> IF (con_cpu c) = false -> codes_ready c -> P c l ->
  exists c', proc c = Done (default (-1) (head l)) c' /\ keeps c c' /\ P c' (tail l).

Lemma console_loop_run l : forall k q fuel, (length l < fuel)%nat -> -1 ∉ l ->
  input_ok k q -> IF (k_cpu k) = false -> P (kcon k) l ->
  exists k', console_loop fuel proc k = Done tt k' /\
    input_ok k' (foldl push q (chars l)) /\ P (kcon k') [] /\ cpu_equiv (k_cpu k') (k_cpu k) /\
    COM1 (kcon k') = COM1 (kcon k) /\ readers k' = drop (length (chars l)) (readers k).
Proof.
  induction l as [|x l IH]; intros k q fuel Hf Hno Hio Hif HP; (destruct fuel as [|f]; [simpl in Hf; lia|]);
    cbn [console_loop];
    destruct (P_step (set_con_cpu (k_cpu k) (kcon k)) _ (so_cpu _ (io_sched _ _ Hio)) Hif (io_codes _ _ Hio)
                (P_cpu _ _ _ HP)) as (c & Hp & (Hb & Hr & Hw & Hcom & Hsc & Htc & _ & Hcpu) & HP');
    cbn [head default from_option id tail] in Hp, HP';
    rewrite (bind_done _ _ _ _ _ (in_con_run _ _ _ _ Hp));
    set (k1 := set_k_cpu (con_cpu c) (set_kcon c k)) in *;
    assert (Hk1 : kcon k1 = c) by (exact (kcon_set c k));
    assert (Hio1 : input_ok k1 q)
      by (apply (input_ok_con k q c q Hio); [by split; [rewrite Hsc|rewrite Htc]; apply (io_codes _ _ Hio)
          |unfold con_ring; rewrite Hb, Hr, Hw; apply (io_ring _ _ Hio)|exact Hcpu]).
  - cbn. exists k1. rewrite Hk1. by split_and!.
  - destruct (Z.eqb_spec x (-1)) as [->|Hx1]; [set_solver|].
    assert (Hif1 : IF (k_cpu k1) = false) by (rewrite (proj1 Hcpu : IF (k_cpu k1) = _); exact Hif).
    rewrite <- Hk1 in HP'. unfold chars. rewrite filter_cons.
    destruct (Z.eqb_spec x 0) as [->|Hx0].
    + rewrite decide_False by (intros E; by apply E).
      destruct (IH k1 q f) as (k' & Hk' & Hio' & HPk & Hc' & Hcom' & Hrd); [simpl in Hf; lia|set_solver|done..|].
      exists k'. split_and!; [done..| | |].
      * by rewrite Hc'.
      * rewrite Hcom', Hk1. exact Hcom.
      * exact Hrd.
    + rewrite decide_True by done. cbn [fmap list_fmap foldl length].
      destruct (con_put_run x q (set_con_cpu (k_cpu k1) (kcon k1)) (io_ring _ _ Hio1)) as (b & r & w & Hput & Hring).
      rewrite (bind_done _ _ _ _ _ (in_con_run _ _ _ _ Hput)).
      set (c2 := set_console b r w (set_con_cpu (k_cpu k1) (kcon k1))) in *.
      set (k2 := set_k_cpu (con_cpu c2) (set_kcon c2 k1)) in *.
      assert (Hk2 : kcon k2 = c2) by (exact (kcon_set c2 k1)).
      assert (Hio2 : input_ok k2 (push q (u8 x))).
      { apply (input_ok_con k1 q c2); [exact Hio1|apply (io_codes _ _ Hio1)|exact Hring|reflexivity]. }
      destruct (wake_reader k2 (io_sched _ _ Hio2)) as (k3 & Hwake & Hok3 & Hcpu3 & Hheap3 & Hrd3).
      rewrite (bind_done _ _ _ _ _ Hwake).
      assert (Hk3 : kcon k3 = kcon k2) by (unfold kcon; by rewrite Hheap3).
      assert (Hio3 : input_ok k3 (push q (u8 x))).
      { split; [done|rewrite Hk3; apply Hio2|rewrite Hk3; apply Hio2]. }
      destruct (IH k3 (push q (u8 x)) f) as (k' & Hk' & Hio' & HPk & Hc' & Hcom' & Hrd);
        [simpl in Hf; lia|set_solver|done| | |].
      * rewrite (proj1 Hcpu3). exact Hif1.
      * rewrite Hk3, Hk2. by apply P_ring, P_cpu.
      * exists k'. split_and!; [done|exact Hio'|done| | |].
        -- rewrite Hc', Hcpu3. exact Hcpu.
        -- rewrite Hcom', Hk3, Hk2. change (COM1 c2) with (COM1 (kcon k1)). rewrite Hk1. exact Hcom.
        -- rewrite Hrd, Hrd3. change (readers k2) with (readers k).
           destruct (readers k); cbn [tail]; [by rewrite !drop_nil|done].
Qed.

(** The whole interrupt. *)
Lemma console_interrupt_run k q l :
  input_ok k q -> P (kcon k) l -> -1 ∉ l -> (length l <= p_ready (con_dev (kcon k)))%nat ->
  exists k', console_interrupt proc k = Done tt k' /\
    input_ok k' (foldl push q (chars l)) /\ P (kcon k') [] /\ cpu_equiv (k_cpu k') (k_cpu k) /\
    COM1 (kcon k') = COM1 (kcon k) /\ readers k' = drop (length (chars l)) (readers k).
Proof.
  intros Hio HP Hno Hl. unfold console_interrupt, console_acquire.
  pose proof (so_cpu _ (io_sched _ _ Hio)) as Hok.
  rewrite (bind_done _ _ _ _ _ (spinlock_acquire_run _ _ k)). cbn [cpu_of set_cpu HasCpu_kern].
  set (k1 := set_k_heap _ _).
  assert (Hk1 : kcon k1 = set_console_lock 1 (kcon k)) by exact (ke_con_set _ _).
  assert (Hio1 : input_ok k1 q).
  { split; [|rewrite Hk1; apply Hio|rewrite Hk1; apply Hio].
    destruct Hio as [[Hq Hc Hcur Hkept] _ _]. split; [done|by apply do_pushcli_ok|done|done]. }
  rewrite (bind_done _ _ _ k1 k1) by done.
  destruct (console_loop_run l k1 q (S (p_ready (con_dev (ke_con (k_heap k1))))))
    as (k2 & Hloop & Hio2 & HP2 & Hcpu2 & Hcom2 & Hrd2); [|done|done|done| |].
  { fold (kcon k1). rewrite Hk1. cbn. lia. }
  { rewrite Hk1. by apply P_lock. }
  rewrite (bind_done _ _ _ _ _ Hloop). unfold console_release, spinlock_release.
  set (k3 := set_k_heap (ke_set_con (set_console_lock 0 (ke_con (k_heap k2))) (k_heap k2)) k2).
  rewrite (bind_done _ _ _ tt k3) by done.
  assert (Hk3 : kcon k3 = set_console_lock 0 (kcon k2)) by exact (ke_con_set _ _).
  destruct (@popcli_run (kern H) HasCpu_kern k k3 Hok) as (cpu & Hpop & Hcpu); [exact Hcpu2|].
  exists (set_k_cpu cpu k3). rewrite Hpop.
  assert (Hk4 : kcon (set_k_cpu cpu k3) = kcon k3) by done. rewrite Hk4, Hk3.
  split_and!; [done| |by apply P_lock|exact Hcpu| |exact Hrd2].
  - split; [|rewrite Hk4, Hk3; apply Hio2|rewrite Hk4, Hk3; apply Hio2].
    destruct Hio2 as [[Hq Hc Hcur Hkept] _ _]. split; [done| |done|done]. cbn. rewrite Hcpu. exact Hok.
  - rewrite <- (f_equal COM1 Hk1 : COM1 (kcon k1) = COM1 (kcon k)). exact Hcom2.
Qed.
End loop.

(** ** The two devices *)

Lemma keys_bytes l : forall d, keys d = l -> Forall (fits 8) l.
Proof.
  induction l as [|x l IH]; intros d Hd; [constructor|].
  destruct (in_kb_data d x l Hd) as (Hx & Hk & _). constructor; [rewrite <- Hx; apply u8_fits|by apply (IH _ Hk)].
Qed.
Lemma serial_bytes l : forall d, serial d = l -> Forall (fits 8) l.
Proof.
  induction l as [|x l IH]; intros d Hd; [constructor|].
  destruct (in_com_data d x l Hd) as (Hx & _ & Hk). constructor; [rewrite <- Hx; apply u8_fits|by apply (IH _ Hk)].
Qed.
Lemma bytes_no_error l : Forall (fits 8) l -> -1 ∉ l.
Proof. intros Hl Hin. rewrite Forall_forall in Hl. apply Hl in Hin. unfold fits in Hin. lia. Qed.

Definition keyboard_has (s' : Z) (ser : list Z) (c : con ke_dev) (l : list Z) : Prop :=
  kb_codes (kb_shift c) (keys (con_dev c)) = Some (s', l) /\ serial (con_dev c) = ser.
Definition serial_has (s' : Z) (ks : list Z) (c : con ke_dev) (l : list Z) : Prop :=
  serial (con_dev c) = l /\ keys (con_dev c) = ks /\ kb_shift c = s' /\ COM1 c = 0x3f8.

Lemma kb_codes_length s ds s' l : kb_codes s ds = Some (s', l) -> length l = length ds.
Proof.
  revert s l. induction ds as [|d ds IH]; intros s l; cbn [kb_codes]; [by intros [= <- <-]|].
  destruct (kb_code s d) as [[s1 ch]|]; [|done]. cbn [mbind option_bind].
  destruct (kb_codes s1 ds) as [[s2 l2]|] eqn:E; [|done]. cbn [mbind option_bind]. intros [= <- <-].
  simpl. f_equal. by eapply IH.
Qed.

Lemma keyboard_step s' ser c l : cpu_ok (con_cpu c) -> IF (con_cpu c) = false -> codes_ready c ->
  keyboard_has s' ser c l ->
  exists c', keyboard_getc c = Done (default (-1) (head l)) c' /\ keeps c c' /\ keyboard_has s' ser c' (tail l).
Proof.
  intros _ Hif Hc [Hk Hs]. destruct (keys (con_dev c)) as [|x ks] eqn:Hks; cbn [kb_codes] in Hk.
  - injection Hk as Hk <-. destruct (keyboard_getc_empty c Hif Hks) as (c' & Hr & Hkp & Hsh & Hk' & Hs').
    exists c'. split_and!; [done..|]. split; [by rewrite Hk', Hsh, <- Hk|congruence].
  - pose proof (keyboard_getc_run c x ks Hif Hc Hks) as Hr.
    destruct (kb_code (kb_shift c) x) as [[s1 ch]|]; [|done]. cbn [mbind option_bind] in Hk.
    destruct (kb_codes s1 ks) as [[s2 l2]|] eqn:E; [|done]. injection Hk as <- <-.
    destruct Hr as (c' & Hr & Hkp & Hsh & Hk' & Hs'). exists c'. split_and!; [done..|].
    split; [by rewrite Hk', Hsh|congruence].
Qed.

Lemma serial_step s' ks c l : cpu_ok (con_cpu c) -> IF (con_cpu c) = false -> codes_ready c ->
  serial_has s' ks c l ->
  exists c', COM_N_getc COM1 c = Done (default (-1) (head l)) c' /\ keeps c c' /\ serial_has s' ks c' (tail l).
Proof.
  intros Hok _ _ (Hs & Hk & Hsh & Hcom).
  destruct (COM1_getc_run c Hok Hcom) as (c' & Hr & Hkp & Hsh' & Hk' & Hs'). rewrite Hs in Hr, Hs'.
  exists c'. split_and!; [done..|]. split_and!; [done|congruence|congruence|].
  by rewrite (proj1 (proj2 (proj2 (proj2 Hkp)))).
Qed.

Lemma kb_press_byte s d s' ch : 0 <= d < 256 -> kb_press s d = Some (s', ch) -> fits 8 ch.
Proof.
  intros Hd. unfold kb_press. cbv zeta.
  set (s1 := Z.lxor (Z.lor s (nth (Z.to_nat d) kb_shiftcode 0)) (nth (Z.to_nat d) kb_togglecode 0)).
  destruct (charcode_lookup (Z.land s1 3) (Z.to_nat d)) as (m & _ & _ & Hb); [|lia|].
  { change 3 with (2 ^ 2 - 1). rewrite land_ones_mod by lia. apply Z.mod_pos_bound. lia. }
  set (ch0 := nth (Z.to_nat d) (nth (Z.to_nat (Z.land s1 3)) charcode []) 0) in *. unfold fits.
  destruct (kb_has s1 CAPSLOCK); [destruct (Z.leb_spec 97 ch0), (Z.leb_spec ch0 122),
    (Z.leb_spec 65 ch0), (Z.leb_spec ch0 90)|]; cbn [andb]; (destruct (_ && _); [done|]); intros [= _ <-]; lia.
Qed.

Lemma kb_codes_bytes ds : forall s s' l, Forall (fits 8) ds -> kb_codes s ds = Some (s', l) -> Forall (fits 8) l.
Proof.
  induction ds as [|d ds IH]; intros s s' l Hds; cbn [kb_codes]; [intros [= _ <-]; constructor|].
  apply Forall_cons in Hds as [Hd Hds]. unfold fits in Hd.
  destruct (kb_code s d) as [[s1 ch]|] eqn:E; [|done]. cbn [mbind option_bind].
  destruct (kb_codes s1 ds) as [[s2 l2]|] eqn:E2; [|done]. cbn [mbind option_bind]. intros [= _ <-].
  constructor; [|by eapply IH]. unfold kb_code in E.
  destruct (d =? 0xE0); [injection E as _ <-; done|]. destruct (Z.leb_spec 128 d); [injection E as _ <-; done|].
  destruct (kb_has s E0ESC); apply kb_press_byte in E; lia || done.
Qed.

(** What the devices still have for the console. *)
Definition pending (k : kern H) (l1 l2 : list Z) : list Z :=
  chars (l1 ++ if COM1 (kcon k) =? 0 then [] else l2).

Lemma chars_app l1 l2 : chars (l1 ++ l2) = chars l1 ++ chars l2.
Proof. unfold chars. by rewrite filter_app, fmap_app. Qed.

(** The keyboard's interrupt. *)
Lemma keyboard_irq_run k q s' l : input_ok k q ->
  kb_codes (kb_shift (kcon k)) (keys (con_dev (kcon k))) = Some (s', l) ->
  exists k', keyboard_interrupt k = Done tt k' /\ input_ok k' (foldl push q (chars l)) /\
    keyboard_has s' (serial (con_dev (kcon k))) (kcon k') [] /\ cpu_equiv (k_cpu k') (k_cpu k) /\
    COM1 (kcon k') = COM1 (kcon k) /\ readers k' = drop (length (chars l)) (readers k).
Proof.
  intros Hio Hk. unfold keyboard_interrupt.
  apply (console_interrupt_run keyboard_getc (keyboard_has s' (serial (con_dev (kcon k))))); try done.
  - intros. by apply keyboard_step.
  - apply bytes_no_error. eapply kb_codes_bytes; [|exact Hk]. by eapply keys_bytes.
  - rewrite (kb_codes_length _ _ _ _ Hk). apply in_ready.
Qed.

Lemma keyboard_has_empty s' ser c : keyboard_has s' ser c [] ->
  keys (con_dev c) = [] /\ kb_shift c = s' /\ serial (con_dev c) = ser.
Proof.
  intros [Hk Hs]. pose proof (kb_codes_length _ _ _ _ Hk) as Hl.
  destruct (keys (con_dev c)) eqn:E; [|done]. cbn [kb_codes] in Hk. by injection Hk.
Qed.

Lemma input_ok_take k q b r w : input_ok k q -> ring b r w (tail q) ->
  let c := set_console b r w (set_con_cpu (k_cpu k) (kcon k)) in
  input_ok (set_k_cpu (con_cpu c) (set_kcon c k)) (tail q).
Proof. intros Hio Hr c. apply (input_ok_con k q c); [done|apply (io_codes _ _ Hio)|done|reflexivity]. Qed.

Lemma console_getc_run k q s' l : input_ok k q ->
  kb_codes (kb_shift (kcon k)) (keys (con_dev (kcon k))) = Some (s', l) ->
  COM1 (kcon k) = 0 \/ COM1 (kcon k) = 0x3f8 ->
  let ser := serial (con_dev (kcon k)) in
  let q' := foldl push q (pending k l ser) in
  exists k', console_getc k = Done (default 0 (head q')) k' /\ input_ok k' (tail q') /\
    keys (con_dev (kcon k')) = [] /\ kb_shift (kcon k') = s' /\
    serial (con_dev (kcon k')) = (if COM1 (kcon k) =? 0 then ser else []) /\
    cpu_equiv (k_cpu k') (k_cpu k) /\ COM1 (kcon k') = COM1 (kcon k) /\
    readers k' = drop (length (pending k l ser)) (readers k).
Proof.
  intros Hio Hk Hcom ser q'. unfold console_getc.
  destruct (keyboard_irq_run k q s' l Hio Hk) as (k1 & H1 & Hio1 & Hhas1 & Hcpu1 & Hcom1 & Hrd1).
  rewrite (bind_done _ _ _ _ _ H1). rewrite (bind_done _ _ _ k1 k1) by done.
  apply keyboard_has_empty in Hhas1 as (Hkeys1 & Hsh1 & Hser1). fold (kcon k1). rewrite Hcom1.
  assert (Hmid : exists k2,
    (when (negb (COM1 (kcon k) =? 0)) (console_interrupt (COM_N_getc COM1)) : M (kern H) unit) k1 = Done tt k2 /\
    input_ok k2 q' /\ keys (con_dev (kcon k2)) = [] /\ kb_shift (kcon k2) = s' /\
    serial (con_dev (kcon k2)) = (if COM1 (kcon k) =? 0 then ser else []) /\
    cpu_equiv (k_cpu k2) (k_cpu k) /\ COM1 (kcon k2) = COM1 (kcon k) /\
    readers k2 = drop (length (pending k l ser)) (readers k)).
  { unfold q', pending. destruct Hcom as [E|E]; rewrite E; cbn [Z.eqb negb when].
    - exists k1. rewrite app_nil_r. rewrite E in Hcom1. by split_and!.
    - change (0x3f8 =? 0) with false. cbn [negb].
      destruct (console_interrupt_run (COM_N_getc COM1) (serial_has s' [])) with (k := k1) (q := foldl push q (chars l)) (l := ser)
        as (k2 & H2 & Hio2 & (Hs2 & Hk2 & Hsh2 & _) & Hcpu2 & Hcom2 & Hrd2); try done.
      + intros. by apply serial_step.
      + split_and!; [done..|]. by rewrite Hcom1.
      + apply bytes_no_error. by eapply (serial_bytes _ (con_dev (kcon k))).
      + unfold ser; rewrite <- Hser1. apply in_ready.
      + exists k2. rewrite chars_app, foldl_app. split_and!; [exact H2|done..| | |].
        * rewrite Hcpu2. exact Hcpu1.
        * by rewrite Hcom2, Hcom1.
        * rewrite Hrd2, Hrd1, drop_drop, length_app. done. }
  destruct Hmid as (k2 & H2 & Hio2 & Hk2 & Hsh2 & Hs2 & Hcpu2 & Hcom2 & Hrd2).
  rewrite (bind_done _ _ _ _ _ H2). unfold console_acquire.
  pose proof (so_cpu _ (io_sched _ _ Hio2)) as Hok.
  rewrite (bind_done _ _ _ _ _ (spinlock_acquire_run _ _ k2)). cbn [cpu_of set_cpu HasCpu_kern].
  set (k3 := set_k_heap _ _).
  assert (Hk3 : kcon k3 = set_console_lock 1 (kcon k2)) by exact (ke_con_set _ _).
  assert (Hio3 : input_ok k3 q').
  { split; [|rewrite Hk3; apply Hio2|rewrite Hk3; apply Hio2].
    destruct Hio2 as [[Hq Hc Hcur Hkept] _ _]. split; [done|by apply do_pushcli_ok|done|done]. }
  destruct (con_take_run q' (set_con_cpu (k_cpu k3) (kcon k3)) (io_ring _ _ Hio3)) as (b & r & w & Htake & Hring).
  rewrite (bind_done _ _ _ _ _ (in_con_run _ _ _ _ Htake)).
  set (c4 := set_console b r w _). set (k4 := set_k_cpu (con_cpu c4) (set_kcon c4 k3)).
  pose proof (input_ok_take k3 q' b r w Hio3 Hring) as Hio4. cbv zeta in Hio4. fold c4 k4 in Hio4.
  assert (Hk4 : kcon k4 = c4) by exact (kcon_set c4 k3).
  unfold console_release, spinlock_release.
  set (k5 := set_k_heap (ke_set_con (set_console_lock 0 (ke_con (k_heap k4))) (k_heap k4)) k4).
  assert (Hk5 : kcon k5 = set_console_lock 0 (kcon k4)) by exact (ke_con_set _ _).
  destruct (@popcli_run (kern H) HasCpu_kern k2 k5 Hok) as (cpu & Hpop & Hcpu); [reflexivity|].
  exists (set_k_cpu cpu k5).
  assert (Hk6 : kcon (set_k_cpu cpu k5) = set_console_lock 0 c4) by (rewrite <- Hk4; exact Hk5).
  rewrite Hk6. unfold c4. cbn [con_dev kb_shift COM1 set_console_lock set_console set_con_cpu]. rewrite Hk3.
  split; [|split; [|split_and!; [done..| | |]]].
  - erewrite bind_done; [reflexivity|]. rewrite (bind_done _ _ _ tt k5) by done. exact Hpop.
  - split; [|rewrite Hk6; exact Hring|rewrite Hk6; unfold c4; rewrite Hk3; apply Hio2].
    destruct Hio4 as [[Hq Hc Hcur Hkept] _ _]. split; [done| |done|done]. cbn. rewrite Hcpu. exact Hok.
  - exact (transitivity Hcpu Hcpu2).
  - exact Hcom2.
  - exact Hrd2.
Qed.
End kernel.

(** ** Typing

    A keyboard of the US layout, by the scan codes (set 1) its keys send, not by the tables
    of keyboard.cpp: the code of the first key of a row, what its keys mean, and what they
    mean with shift. *)
Definition us_rows : list (Z * list Z * list Z) :=
  [(0x02, [49; 50; 51; 52; 53; 54; 55; 56; 57; 48; 45; 61],
          [33; 64; 35; 36; 37; 94; 38; 42; 40; 41; 95; 43]);
   (0x10, [113; 119; 101; 114; 116; 121; 117; 105; 111; 112; 91; 93],
          [81; 87; 69; 82; 84; 89; 85; 73; 79; 80; 123; 125]);
   (0x1E, [97; 115; 100; 102; 103; 104; 106; 107; 108; 59; 39; 96],
          [65; 83; 68; 70; 71; 72; 74; 75; 76; 58; 34; 126]);
   (0x2B, [92; 122; 120; 99; 118; 98; 110; 109; 44; 46; 47],
          [124; 90; 88; 67; 86; 66; 78; 77; 60; 62; 63]);
   (0x39, [32], []); (0x0E, [8], []); (0x0F, [9], []); (0x1C, [10], [])].
Definition key_in (ch : Z) (row : Z) (l : list Z) : option Z := (fun x => row + Z.of_nat x.1) <$> list_find (fun x => x = ch) l.

(** The codes of the key of a character, with the left shift key held when it has to be. *)
Definition strokes (ch : Z) : list Z :=
  match list_find (fun r => ch ∈ r.1.2 ++ r.2) us_rows with
  | Some (_, (row, plain, shifted)) =>
      match key_in ch row plain, key_in ch row shifted with
      | Some n, _ => [n; n + 128]
      | None, Some n => [0x2A; n; n + 128; 0x2A + 128]
      | None, None => []
      end
  | None => []
  end.
(** Printable ASCII, backspace, tab and newline. *)
Definition typeable (ch : Z) : Prop := ch ∈ seqZ 32 95 ++ [8; 9; 10].

Lemma strokes_codes ch : typeable ch -> exists l, kb_codes 0 (strokes ch) = Some (0, l) /\ chars l = [ch].
Proof.
  intros Hch.
  assert (Hall : Forall (fun ch => prod_map id chars <$> kb_codes 0 (strokes ch) = Some (0, [ch]))
                   (seqZ 32 95 ++ [8; 9; 10])).
  { apply (bool_decide_unpack _). vm_compute. exact I. }
  rewrite Forall_forall in Hall. specialize (Hall ch Hch).
  destruct (kb_codes 0 (strokes ch)) as [[s l]|]; [|done]. injection Hall as -> Hl. by exists l.
Qed.

Lemma kb_codes_app a b : forall s, kb_codes s (a ++ b) =
  '(s1, l1) ← kb_codes s a; '(s2, l2) ← kb_codes s1 b; Some (s2, l1 ++ l2).
Proof.
  induction a as [|d a IH]; intros s; cbn [app kb_codes mbind option_bind].
  - by destruct (kb_codes s b) as [[]|].
  - destruct (kb_code s d) as [[s1 ch]|]; [|done]. cbn [mbind option_bind]. rewrite IH.
    destruct (kb_codes s1 a) as [[s2 l2]|]; [|done]. cbn [mbind option_bind].
    by destruct (kb_codes s2 b) as [[]|].
Qed.

Lemma typed_codes s : Forall typeable s -> exists l, kb_codes 0 (s ≫= strokes) = Some (0, l) /\ chars l = s.
Proof.
  induction 1 as [|ch s Hch Hs IH]; [by exists []|].
  destruct (strokes_codes ch Hch) as (l1 & H1 & E1). destruct IH as (l2 & H2 & E2).
  exists (l1 ++ l2). rewrite bind_cons, kb_codes_app, H1. cbn [mbind option_bind]. rewrite H2.
  split; [done|]. by rewrite chars_app, E1, E2.
Qed.

Lemma foldl_push q s : (length q + length s < 512)%nat -> foldl push q s = q ++ s.
Proof.
  revert q. induction s as [|x s IH]; intros q Hl; simpl in *; [by rewrite app_nil_r|].
  unfold push at 2. rewrite bool_decide_false by lia. rewrite IH by (rewrite length_app; simpl; lia).
  by rewrite <- app_assoc.
Qed.

(** The buffer after 512 characters without a reader. *)
Lemma foldl_push_full s : length s = 512%nat -> foldl push [] s = [].
Proof.
  intros Hl. destruct s as [|x s] using rev_ind; [done|]. clear IHs. rewrite length_app in Hl. cbn [length] in Hl.
  rewrite foldl_app, (foldl_push [] s) by (cbn [length]; lia). cbn [app foldl]. unfold push. by rewrite bool_decide_true by lia.
Qed.

Section reading.
Context {H : Type} `{!KernEnv H} `{!Inputs ke_dev}.
Implicit Types k : kern H.

(** [n] calls of console_getc. *)
Fixpoint getcs (n : nat) : M (kern H) (list Z) :=
  match n with O => mret [] | S n => c ← console_getc; l ← getcs n; mret (c :: l) end.

Definition COM1_ok k : Prop := COM1 (kcon k) = 0 \/ COM1 (kcon k) = 0x3f8.

Lemma getcs_run q : forall k, input_ok k q -> COM1_ok k ->
  keys (con_dev (kcon k)) = [] -> serial (con_dev (kcon k)) = [] ->
  exists k', getcs (length q) k = Done q k' /\ input_ok k' [] /\ cpu_equiv (k_cpu k') (k_cpu k).
Proof.
  induction q as [|x q IH]; intros k Hio Hcom Hk Hs; [by exists k|].
  destruct (console_getc_run k (x :: q) (kb_shift (kcon k)) []) as (k1 & H1 & Hio1 & Hk1 & _ & Hs1 & Hc1 & Hcom1 & _);
    [done|by rewrite Hk|done|].
  assert (Hp : pending k [] (serial (con_dev (kcon k))) = []).
  { unfold pending. rewrite Hs. by case_match. }
  rewrite Hp in H1, Hio1. cbn [foldl head tail default from_option id] in H1, Hio1.
  destruct (IH k1 Hio1) as (k2 & H2 & Hio2 & Hc2).
  { unfold COM1_ok. by rewrite Hcom1. }
  { done. }
  { rewrite Hs1, Hs. by case_match. }
  exists k2. split_and!; [|done|exact (transitivity Hc2 Hc1)]. cbn [length getcs].
  rewrite (bind_done _ _ _ _ _ H1). by rewrite (bind_done _ _ _ _ _ H2).
Qed.
End reading.

(** ** The states of the witnesses *)

#[export] Instance Inputs_pc : Inputs pc.
Proof.
  refine {| keys d := u8 <$> pc_keys d; serial d := u8 <$> pc_serial d |}.
  - intros d. cbn. by destruct (pc_keys d).
  - intros d x l. cbn. by destruct (pc_keys d); intros [= <- <-].
  - intros d. cbn. by destruct (pc_serial d).
  - intros d x l. cbn. by destruct (pc_serial d); intros [= <- <-].
  - intros d. rewrite !length_fmap. cbn. lia.
Defined.

(** The three tasks of [demo_kern] with a keyboard. *)
Definition typing_kern (ks : list Z) : kern demo_env :=
  set_k_heap (mkEnv (env_heap (k_heap demo_kern)) (set_kb_codes kb_shiftcode kb_togglecode (demo_con 0 ks [])))
    demo_kern.

Lemma typing_ok ks : input_ok (typing_kern ks) [].
Proof.
  split; [|split; cbn|done].
  - destruct demo_ok as [Hq Hc Hcur Hkept]. by split.
  - done.
  - lia.
  - lia.
  - done.
  - done.
Qed.

(** * Properties *)

(** C33. The console's input is a queue that the 512th unread character empties
    ([push]). The keyboard's interrupt returns after the bytes the controller has, in
    order and decoded, adds their characters and wakes one reader for each;
    console_getc does the same for the keyboard and the serial port and takes the
    first character, 0 when there is none. Both restore the interrupt state and leave
    the scheduler's queues consistent. *)
Theorem console_input_is_queue {H} `{!KernEnv H} `{!Inputs ke_dev} (k : kern H) q s' l :
  input_ok k q -> COM1_ok k ->
  kb_codes (kb_shift (kcon k)) (keys (con_dev (kcon k))) = Some (s', l) ->
  let ser := serial (con_dev (kcon k)) in
  let q1 := foldl push q (chars l) in
  let q2 := foldl push q (pending k l ser) in
  (exists k', do_irq_keyboard k = Done tt k' /\ input_ok k' q1 /\ cpu_equiv (k_cpu k') (k_cpu k) /\
     keys (con_dev (kcon k')) = [] /\ serial (con_dev (kcon k')) = ser /\
     readers k' = drop (length (chars l)) (readers k)) /\
  (exists k', console_getc k = Done (default 0 (head q2)) k' /\ input_ok k' (tail q2) /\
     cpu_equiv (k_cpu k') (k_cpu k) /\ keys (con_dev (kcon k')) = [] /\
     serial (con_dev (kcon k')) = (if COM1 (kcon k) =? 0 then ser else []) /\
     readers k' = drop (length (pending k l ser)) (readers k)).
Proof.
  intros Hio Hcom Hk ser q1 q2. split.
  - destruct (keyboard_irq_run k q s' l Hio Hk) as (k' & Hr & Hio' & Hhas & Hc & _ & Hrd).
    apply keyboard_has_empty in Hhas as (Hk' & _ & Hs'). exists k'. by split_and!.
  - destruct (console_getc_run k q s' l Hio Hk Hcom) as (k' & Hr & Hio' & Hk' & _ & Hs' & Hc & _ & Hrd).
    exists k'. by split_and!.
Qed.

Lemma console_input_is_queue_witness :
  exists k', console_getc (typing_kern (strokes 65)) = Done 65 k' /\ input_ok k' [].
Proof.
  destruct (console_input_is_queue (KernEnv0 := KernEnv_demo) (Inputs0 := Inputs_pc) (typing_kern (strokes 65)) [] 0 [0; 65; 0; 0])
    as (_ & k' & Hr & Hio & _).
  - apply typing_ok.
  - by right.
  - vm_compute. reflexivity.
  - exists k'. split; [exact Hr|exact Hio].
Defined.

(** C34. Text that is typed is read: on a US keyboard ([us_rows]) the scan codes of up to 511
    characters of printable ASCII, backspace, tab and newline, with the shift key where it is
    needed, are read back by as many calls of console_getc. With 512 characters
    typed before the first call, all of them are lost. *)
Theorem typed_text_is_read {H} `{!KernEnv H} `{!Inputs ke_dev} (k : kern H) s :
  input_ok k [] -> COM1_ok k -> kb_shift (kcon k) = 0 -> serial (con_dev (kcon k)) = [] ->
  Forall typeable s -> keys (con_dev (kcon k)) = s ≫= strokes ->
  ((length s <= 511)%nat -> exists k', getcs (length s) k = Done s k' /\ input_ok k' [] /\
     cpu_equiv (k_cpu k') (k_cpu k)) /\
  (length s = 512%nat -> exists k', console_getc k = Done 0 k' /\ input_ok k' []).
Proof.
  intros Hio Hcom Hsh Hser Hs Hkeys. destruct (typed_codes s Hs) as (l & Hl & Hch).
  rewrite <- Hkeys, <- Hsh in Hl.
  destruct (console_getc_run k [] _ l Hio Hl Hcom) as (k1 & H1 & Hio1 & Hk1 & _ & Hs1 & Hc1 & Hcom1 & _).
  assert (Hp : pending k l (serial (con_dev (kcon k))) = s).
  { unfold pending. rewrite Hser, <- Hch. f_equal. case_match; apply app_nil_r. }
  rewrite Hp in H1, Hio1. split; intros Hlen.
  - rewrite foldl_push in H1, Hio1 by (simpl; lia). destruct s as [|x s]; [by exists k|].
    cbn [app head tail default from_option id] in H1, Hio1.
    destruct (getcs_run s k1 Hio1) as (k2 & H2 & Hio2 & Hc2).
    { unfold COM1_ok. by rewrite Hcom1. }
    { done. }
    { rewrite Hs1, Hser. by case_match. }
    exists k2. split_and!; [|done|exact (transitivity Hc2 Hc1)]. cbn [length getcs].
    rewrite (bind_done _ _ _ _ _ H1). by rewrite (bind_done _ _ _ _ _ H2).
  - rewrite foldl_push_full in H1, Hio1 by done. by exists k1.
Qed.

(** "Hi!" and a newline. *)
Lemma typed_text_is_read_witness :
  exists k', getcs 4 (typing_kern ([72; 105; 33; 10] ≫= strokes)) = Done [72; 105; 33; 10] k'.
Proof.
  destruct (typed_text_is_read (KernEnv0 := KernEnv_demo) (Inputs0 := Inputs_pc) (typing_kern ([72; 105; 33; 10] ≫= strokes)) [72; 105; 33; 10])
    as [Hr _].
  - apply typing_ok.
  - by right.
  - done.
  - done.
  - repeat constructor; apply (bool_decide_unpack _); vm_compute; exact I.
  - vm_compute. reflexivity.
  - destruct Hr as (k' & Hr & _); [simpl; lia|]. exists k'. exact Hr.
Defined.
