(* ===== verification/Ipc.v ===== *)
(** Shared memory and semaphores (kernel/ipc/shared_memory.cpp,
    kernel/ipc/semaphore.cpp).

    A SharedMemInfo, SharedMemDesc or SemInfo is named by its heap address. The
    lists of descriptors are sequences in [t_shared_mem] of a task and in
    [shm_tasks] of a segment. A wait that calls schedule() ends in the frame it
    leaves; Process continues it. *)

From S2P Require Import Prelude Spinlock ListSpec IdHash Util PhysMem VirtMem UserMem Kmalloc Task Sched.

(** * Definitions *)

(** What the compiler decides: the sizes of the structures; and the first word of
    a page the heap has just got, which the code does not rely on. *)
Record build := mkBuild {
  sizeof_Task : Z; sizeof_SignalState : Z; sizeof_SemInfo : Z;
  sizeof_SharedMemInfo : Z; sizeof_SharedMemDesc : Z;
  garbage : Z;
}.

Definition MMAP_USER_SHARED_MEM_BASE : Z := u32 (MMAP_USER_BASE + 0x60000000).
Definition MMAP_USER_SHARED_MEM_TOP : Z := u32 (MMAP_USER_BASE + 0x70000000).

Section ipc.
Context {H : Type} `{!KernEnv H} (B : build).
Notation K := (kern H).

(** ** Shared memory: the tables *)

Definition shm_upd (f : shm_state -> shm_state) : M K unit := modify (fun k => set_k_shm (f (k_shm k)) k).
Definition set_infos (v : gmap Z SharedMemInfo) (s : shm_state) : shm_state :=
  mkShmState v (shm_descs s) (shm_id_ht s) (shm_key_ht s) (next_shm_id s).
Definition set_descs (v : gmap Z SharedMemDesc) (s : shm_state) : shm_state :=
  mkShmState (shm_infos s) v (shm_id_ht s) (shm_key_ht s) (next_shm_id s).
Definition set_id_ht (v : idht) (s : shm_state) : shm_state :=
  mkShmState (shm_infos s) (shm_descs s) v (shm_key_ht s) (next_shm_id s).
Definition set_key_ht (v : idht) (s : shm_state) : shm_state :=
  mkShmState (shm_infos s) (shm_descs s) (shm_id_ht s) v (next_shm_id s).
Definition in_id_ht {A} (m : M idht A) : M K A :=
  zoom (fun k => shm_id_ht (k_shm k)) (fun t k => set_k_shm (set_id_ht t (k_shm k)) k) m.
Definition in_key_ht {A} (m : M idht A) : M K A :=
  zoom (fun k => shm_key_ht (k_shm k)) (fun t k => set_k_shm (set_key_ht t (k_shm k)) k) m.
(** A hash node of a new object: init() and the id it will be found by. *)
Definition node_at (n id : Z) : M idht unit :=
  modify (fun t => mkIdht (tab t) (hcount t) (<[n := mkHnode NULL NULL id]> (hnodes t))).

Definition info_rd (i : Z) : M K SharedMemInfo := k ← get; deref (shm_infos (k_shm k) !! i).
Definition info_wr (i : Z) (v : SharedMemInfo) : M K unit :=
  shm_upd (fun s => set_infos (<[i := v]> (shm_infos s)) s).
Definition desc_rd (d : Z) : M K SharedMemDesc := k ← get; deref (shm_descs (k_shm k) !! d).
Definition desc_wr (d : Z) (v : SharedMemDesc) : M K unit :=
  shm_upd (fun s => set_descs (<[d := v]> (shm_descs s)) s).
Definition set_shm_tasks (l : list Z) (i : SharedMemInfo) : SharedMemInfo :=
  mkShm (shm_id i) (shm_key i) (shm_size i) (shm_page i) l.
Definition add_shared (n : Z) (i : PageDirInfo) : PageDirInfo :=
  mkDir (pgdir_pa i) (pgdir i) (pgtables i) (count_user i) (count_kernel i) (count_stack i)
        (count_program i) (u32 (count_shared i + n)) (start_brk i) (end_brk i).

Definition shm_init : M K unit := in_id_ht (ht_init 4096) ;; in_key_ht (ht_init 4096).

Definition curr_tf : M K Trapframe := c ← curr_rd; mret (t_tf c).

(** The error end of sys_shmget. *)
Definition bad_sys_shmget (e : bool) (shm : Z) (p : option Z) : M K unit :=
  (if shm =? NULL then mret tt else in_heap (kfree shm)) ;;
  (match p with Some p => in_mm (zp (page_free p)) | None => mret tt end) ;;
  eflags_load e ;;
  SYSCALL_RETURN (-1).

Definition sys_shmget : M K unit :=
  tf ← curr_tf;
  let key := get_param2 tf in let size := get_param3 tf in let shmflg := i32 (get_param4 tf) in
  if 0x1000 <? size then SYSCALL_RETURN (-1) else
  if negb (shmflg =? 0) && negb (shmflg =? 1) then SYSCALL_RETURN (-1) else
  e ← eflags_read; cli ;;
  if shmflg =? 0 then
    shm ← in_key_ht (ht_get key);
    eflags_load e ;;
    if shm =? NULL then SYSCALL_RETURN (-1) else
    i ← info_rd shm; SYSCALL_RETURN (shm_id i)
  else
  shm ← in_key_ht (ht_get key);
  if negb (shm =? NULL) then SYSCALL_RETURN (-1) else      (* eflags stay masked *)
  k ← get;
  let shmid := next_shm_id (k_shm k) in
  shm_upd (fun s => mkShmState (shm_infos s) (shm_descs s) (shm_id_ht s) (shm_key_ht s) (u32 (shmid + 1))) ;;
  if 1023 <? i32 shmid then SYSCALL_RETURN (-1) else       (* here, too *)
  shm ← in_heap (kmalloc (garbage B) (sizeof_SharedMemInfo B));
  if shm =? NULL then bad_sys_shmget e shm None else
  '(r, p) ← in_mm (zp page_alloc);
  if r <? 0 then bad_sys_shmget e shm None else
  pg ← deref p;
  _ ← in_mm (zp (refcount_inc pg));
  info_wr shm (mkShm shmid key size pg []) ;;
  in_key_ht (node_at shm key) ;; in_id_ht (node_at shm shmid) ;;
  _ ← in_key_ht (ht_put shm);
  _ ← in_id_ht (ht_put shm);
  eflags_load e ;;
  SYSCALL_RETURN shmid.

Definition sys_shmctl : M K unit := SYSCALL_RETURN (-1).

(** The first page of the shared region that is not mapped; the loop makes the
    page tables it looks at. *)
Definition shm_find_page (d i : Z) : M mm (option Z) :=
  o ← page_get_c d i; l ← deref o; w ← pte_rd l;
  mret (if present w then None else Some i).

Definition sys_shmat : M K unit :=
  tf ← curr_tf; t ← task_curr;
  let shmid := get_param2 tf in
  e ← eflags_read; cli ;;
  shm ← in_id_ht (ht_get shmid);
  if shm =? NULL then eflags_load e ;; SYSCALL_RETURN (-1) else
  if negb (get_param3 tf =? NULL) then eflags_load e ;; SYSCALL_RETURN (-1) else
  if negb (i32 (get_param4 tf) =? 0) then eflags_load e ;; SYSCALL_RETURN (-1) else
  desc ← in_heap (kmalloc (garbage B) (sizeof_SharedMemDesc B));
  if desc =? NULL then eflags_load e ;; SYSCALL_RETURN (-1) else
  o ← in_mm (iter_until (shm_find_page (pgdir_of t))
               (range_step MMAP_USER_SHARED_MEM_BASE MMAP_USER_SHARED_MEM_TOP 0x1000));
  match o with
  | None => in_heap (kfree desc) ;; eflags_load e ;; SYSCALL_RETURN (-1)
  | Some va =>
      i ← info_rd shm;
      _ ← in_mm (page_insert (pgdir_of t) (shm_page i) va (Z.lor PTE_P (Z.lor PTE_U PTE_W)));
      in_mm (dir_wr (pgdir_of t) (add_shared 1)) ;;
      let start := va2uaddr va in
      desc_wr desc (mkDesc start (u32 (start + shm_size i)) shm t) ;;
      curr_wr (fun c => set_t_shared_mem (t_shared_mem c ++ [desc]) c) ;;
      info_wr shm (set_shm_tasks (shm_tasks i ++ [desc]) i) ;;
      eflags_load e ;;
      SYSCALL_RETURN start
  end.

Definition detach_shared_mem (d : Z) : M K Z :=
  ASSERT_int_disable ;;
  desc ← desc_rd d; t ← task_curr;
  iterM (fun i =>
    r ← in_mm (page_remove (pgdir_of (d_task desc)) i true);
    (if r <? 0 then PANIC else mret tt) ;;
    in_mm (dir_wr (pgdir_of t) (add_shared (-1))) ;;
    ASSERT (0 <? r)) (range_step (uaddr2va (d_start desc)) (uaddr2va (d_end desc)) 0x1000) ;;
  t_wr (d_task desc) (fun c => set_t_shared_mem (filter (.≠ d) (t_shared_mem c)) c) ;;
  i ← info_rd (d_info desc);
  info_wr (d_info desc) (set_shm_tasks (filter (.≠ d) (shm_tasks i)) i) ;;
  mret 0.

Definition sys_shmdt : M K unit :=
  tf ← curr_tf; c ← curr_rd;
  let shmaddr := get_param2 tf in
  e ← eflags_read; cli ;;
  r ← iter_until (fun d => x ← desc_rd d; mret (if d_start x =? shmaddr then Some d else None))
        (t_shared_mem c);
  match r with
  | None => eflags_load e ;; SYSCALL_RETURN (-1)
  | Some d => _ ← detach_shared_mem d; eflags_load e ;; SYSCALL_RETURN 0
  end.

(** The descriptors of the child: [None] once the loop has run through. *)
Definition shm_fork_desc (child t d : Z) : M K (option unit) :=
  desc ← in_heap (kmalloc (garbage B) (sizeof_SharedMemDesc B));
  if desc =? NULL then mret (Some tt) else
  x ← desc_rd d;
  desc_wr desc (mkDesc (d_start x) (d_end x) (d_info x) child) ;;
  _ ← in_mm (link_pages (pgdir_of child) (pgdir_of t) MMAP_USER_SHARED_MEM_BASE
               MMAP_USER_SHARED_MEM_TOP (Z.lor PTE_P (Z.lor PTE_U PTE_W)));
  t_wr child (fun c => set_t_shared_mem (t_shared_mem c ++ [desc]) c) ;;
  i ← info_rd (d_info x);
  info_wr (d_info x) (set_shm_tasks (shm_tasks i ++ [desc]) i) ;;
  mret None.

Definition shm_fork (child : Z) : M K Z :=
  ASSERT_int_disable ;;
  t_wr child (set_t_shared_mem []) ;;
  t ← task_curr; c ← curr_rd;
  r ← iter_until (shm_fork_desc child t) (t_shared_mem c);
  match r with
  | None => mret 0
  | Some _ =>
      ch ← t_rd child;
      iterM (fun d => in_heap (kfree d)) (t_shared_mem ch) ;;
      t_wr child (set_t_shared_mem []) ;;
      mret (-1)
  end.

(** The list shrinks with every turn of the loop. *)
Definition shm_task_free (t : Z) : M K unit :=
  cur ← task_curr; ASSERT (t =? cur) ;;
  c ← t_rd t;
  iterM (fun d => _ ← detach_shared_mem d; mret tt) (t_shared_mem c) ;;
  c ← t_rd t; ASSERT (bool_decide (t_shared_mem c = [])).

(** mem_shm: kilobytes of all segments, walking the buckets of the id table. *)
Fixpoint mem_chain (fuel : nat) (n size : Z) : M K Z :=
  match fuel with
  | O => stop OutOfFuel
  | S f =>
      if n =? NULL then mret size else
      i ← info_rd n; nd ← in_id_ht (hrd n);
      a ← deref (kmalloc_size (sizeof_SharedMemInfo B) ≫= id);
      b ← deref (kmalloc_size (sizeof_SharedMemDesc B) ≫= id);
      mem_chain f (h_next nd) (u32 (size + 0x1000 + a + Z.of_nat (length (shm_tasks i)) * b))
  end.
Definition mem_shm : M K Z :=
  k ← get;
  let t := shm_id_ht (k_shm k) in
  size ← foldM (fun size n => mem_chain (ht_fuel t) n size) 0 (tab t);
  mret (Z.shiftr size 10).

(** ** Semaphores *)

Definition sem_rd (s : Z) : M K SemInfo := k ← get; deref (k_sems k !! s).
Definition sem_wr (s : Z) (v : Z) : M K unit :=
  i ← sem_rd s; modify (fun k => set_k_sems (<[s := mkSem v (sem_sem i)]> (k_sems k)) k).

Definition sys_semget : M K unit :=
  tf ← curr_tf; t ← task_curr;
  let sem := get_param2 tf in let value := get_param4 tf in
  r ← in_mm (verify_user_addr (pgdir_of t) sem 4 PTE_U);
  if r <? 0 then SYSCALL_RETURN (-1) else
  e ← eflags_read; cli ;;
  info ← in_heap (kmalloc (garbage B) (sizeof_SemInfo B));
  in_mm (user_put sem info) ;;
  (if info =? NULL then stop BadAccess else mret tt) ;;
  modify (fun k => set_k_queues (ls_init (QSem info) (k_queues k)) k) ;;
  modify (fun k => set_k_sems (<[info := mkSem (i32 value) (uaddr2kaddr sem)]> (k_sems k)) k) ;;
  eflags_load e ;;
  SYSCALL_RETURN 0.

Definition sys_sem_destroy : M K unit := PANIC.

(** The semaphore a user address stands for, with its self reference checked. *)
Definition sem_of (sem : Z) : M K Z :=
  s ← in_mm (user_word sem); i ← sem_rd s;
  ASSERT (sem_sem i =? uaddr2kaddr sem) ;;
  mret s.

(** sys_semwait up to schedule(): the frame it waits in, if it waits. *)
Definition semwait_enter : M K (option frame) :=
  tf ← curr_tf; c ← curr_rd;
  s ← sem_of (get_param2 tf); i ← sem_rd s;
  e ← eflags_read; cli ;;
  if 0 <? sem_value i then
    if bool_decide (is_Some (t_before_switch c)) && (t_counter c =? 0) then
      sleep_on State_uninterruptible (QSem s) ;; mret (Some (FSemTaken s e))
    else
      sem_wr s (sem_value i - 1) ;;
      ASSERT (sem_value i - 1 =? 0) ;;
      eflags_load e ;; SYSCALL_RETURN 0 ;; mret None
  else
    ASSERT (bool_decide (t_before_switch c = None)) ;;
    SYSCALL_RETURN 0 ;;
    sleep_on State_uninterruptible (QSem s) ;; mret (Some (FSemWait e)).

Definition sys_sempost : M K unit :=
  tf ← curr_tf; c ← curr_rd;
  s ← sem_of (get_param2 tf); i ← sem_rd s;
  e ← eflags_read; cli ;;
  k ← get;
  (if 0 <? ls_size (k_queues k) (QSem s) then
     ASSERT (sem_value i =? 0) ;;
     if 0 <? t_counter c then
       sem_wr s (i32 (sem_value i + 1)) ;;
       curr_wr (set_t_before_switch (Some s))
     else
       curr_wr (set_t_before_switch None) ;;
       wakeup_uninterruptible (QSem s)
   else sem_wr s (i32 (sem_value i + 1))) ;;
  eflags_load e ;;
  SYSCALL_RETURN 0.

Definition sys_semgetvalue : M K unit := SYSCALL_RETURN (-1).
Definition sys_semop : M K unit := SYSCALL_RETURN (-1).
Definition sys_semctl : M K unit := PANIC.

Definition ipc_fork (child : Z) : M K Z := r ← shm_fork child; mret (if r <? 0 then r else 0).
Definition ipc_task_free (t : Z) : M K unit := shm_task_free t.
End ipc.
