(* ===== verification/Process.v ===== *)
(** Processes: signal delivery (kernel/signal.cpp), exit and wait
    (kernel/task_exit.cpp), fork and the memory of a task (kernel/task.cpp), and
    schedule() itself (kernel/sched.cpp).

    [schedule f] runs until some task is about to return to user mode: it saves
    the running task with the frame [f], loads another one, delivers its signals,
    and continues it behind its own call of schedule(). A task that exits while
    signals are delivered schedules again; [sched_fuel] bounds this nesting, and
    one level for every task is enough because every level ends one. *)

From S2P Require Import Prelude Spinlock ListSpec IdHash Util PhysMem VirtMem UserMem Kmalloc Task Sched Console Ipc.

(** * Definitions *)

Definition MMAP_KERNEL_STACK_SIZE : Z := 0x2000.
Definition MMAP_KERNEL_STACK_BASE : Z := MMAP_KERNEL_TOP - MMAP_KERNEL_STACK_SIZE.
Definition MMAP_KERNEL_STACK_OFFSET : Z := 0x1000 + MMAP_KERNEL_STACK_SIZE.
Definition MMAP_KERNEL_STACK_2_BASE : Z := MMAP_KERNEL_STACK_BASE - MMAP_KERNEL_STACK_OFFSET.
Definition MMAP_USER_STACK_TOP : Z := MMAP_USER_TOP.
Definition MMAP_USER_STACK_LIMIT : Z := 0x00800000 - 0x1000.
Definition MMAP_USER_STACK_BASE_LIMIT : Z := MMAP_USER_STACK_TOP - MMAP_USER_STACK_LIMIT.

Section process.
Context {H : Type} `{!KernEnv H} (B : build).
Notation K := (kern H).

(** ** Kernel stacks put aside for signal handlers *)

(** The pages of the second kernel stack. *)
Definition stack_2_pages : list Z := range_step 0 MMAP_KERNEL_STACK_SIZE 0x1000.

(** push_stack up to read_eip(): the running stack, in the middle of
    check_signals at [sig], called from schedule() that [f] called. *)
Definition push_stack (sig : Z) (f : frame) : M K unit :=
  t ← task_curr; c ← curr_rd;
  ASSERT (negb (t_popped_kstack c)) ;;
  ASSERT (Z.of_nat (length (t_sigstack c)) <? 32) ;;
  s ← in_heap (kmalloc (garbage B) (sizeof_SignalState B));
  (if s =? NULL then stop BadAccess else mret tt) ;;
  r ← in_mm (segment_alloc (pgdir_of t) MMAP_KERNEL_STACK_2_BASE MMAP_KERNEL_STACK_SIZE
               (Z.lor PTE_P PTE_W));
  ASSERT (-1 <? r) ;;
  stack ← in_mm (foldM (fun l i =>
            o ← page_get (pgdir_of t) (MMAP_KERNEL_STACK_2_BASE + i);
            p ← deref o; w ← pte_rd p;
            _ ← zp (refcount_inc (phys_page w));
            mret (l ++ [phys_page w])) [] stack_2_pages);
  modify (fun k => set_k_sigs (<[s := mkSigState stack sig f (t_tf c) (t_sleep c)]> (k_sigs k)) k) ;;
  curr_wr (fun c => set_t_sigstack (s :: t_sigstack c) c).

(** pop_stack: the newest stack is the running one again. *)
Definition pop_stack : M K SignalState :=
  t ← task_curr; c ← curr_rd;
  ASSERT (negb (t_popped_kstack c)) ;;
  ASSERT (0 <? Z.of_nat (length (t_sigstack c))) ;;
  s ← deref (head (t_sigstack c)); k ← get; st ← deref (k_sigs k !! s);
  curr_wr (fun c => set_t_sigstack (tail (t_sigstack c))
                      (set_t_popped_kstack true (set_t_sleep (ss_sleep st) c))) ;;
  in_mm (iterM (fun ip =>
    r ← page_insert (pgdir_of t) ip.2 (MMAP_KERNEL_STACK_2_BASE + ip.1) (Z.lor PTE_P PTE_W);
    ASSERT (r =? 2) ;;
    _ ← zp (refcount_dec ip.2); mret tt) (zip stack_2_pages (ss_stack st))) ;;
  in_heap (kfree s) ;;
  curr_wr (set_t_tf (ss_tf st)) ;;
  mret st.

(** free_sigstack works on the running task, whichever task is freed. *)
Definition free_sigstate (s : Z) : M K unit :=
  k ← get; st ← deref (k_sigs k !! s);
  curr_wr (fun c => set_t_sigstack (tail (t_sigstack c)) c) ;;
  in_mm (iterM (fun p =>
    _ ← zp (refcount_dec p);
    pg ← zp (page_rd p); ASSERT (refcount_get pg <? 2) ;;
    zp (page_free p)) (ss_stack st)) ;;
  in_heap (kfree s).
Definition free_sigstack : M K unit := c ← curr_rd; iterM free_sigstate (t_sigstack c).

(** ** The memory of a task *)

Definition memset_pgdir (t pa : Z) : M mm unit :=
  modify (fun s => set_dirs (<[t := mkDir pa ∅ ∅ 0 0 0 0 0 0 0]> (dirs s)) s).

Definition set_pgdir_pa (pa : Z) (i : PageDirInfo) : PageDirInfo :=
  mkDir pa (pgdir i) (pgtables i) (count_user i) (count_kernel i) (count_stack i) (count_program i)
        (count_shared i) (start_brk i) (end_brk i).

(** The two pages of a directory: [o] remembers their kernel addresses. *)
Definition task_setup_vm (t parent : Z) : M mm (Z * (Z * Z)) :=
  ASSERT_int_disable ;;
  memset_pgdir t 0 ;;
  '(err, p, va) ← tmp_page_alloc_map (Z.lor PTE_P PTE_W);
  if err <? 0 then mret (err, (NULL, NULL)) else
  i ← deref p;
  dir_wr t (set_pgdir_pa (page_addr i)) ;;
  dir_wr t (add_kernel 1) ;;
  '(err, _, va2) ← tmp_page_alloc_map (Z.lor PTE_P PTE_W);
  if err <? 0 then mret (err, (va2kaddr va, NULL)) else
  dir_wr t (add_kernel 1) ;;
  err ← link_pgtables t parent MMAP_KERNEL_BASE MMAP_KERNEL_STACK_BASE;
  ASSERT (err =? 0) ;;
  mret (0, (va2kaddr va, va2kaddr va2)).

Definition free_dir_page (t ka : Z) : M mm unit :=
  if 0 <? ka then
    r ← tmp_page_free (kaddr2va ka); ASSERT (r =? 0) ;; dir_wr t (add_kernel (-1))
  else mret tt.

(** [pages]: pgdir.pgdir and pgdir.pgtables. *)
Definition task_delete_vm (t : Z) (pages : Z * Z) : M K unit :=
  ASSERT_int_disable ;;
  cur ← task_curr; ASSERT (negb (t =? cur)) ;;
  in_mm (free_dir_page (pgdir_of t) pages.1 ;;
         free_dir_page (pgdir_of t) pages.2 ;;
         i ← dir_rd (pgdir_of t);
         ASSERT (count_user i =? 0) ;; ASSERT (count_kernel i =? 0)).

Definition task_free_kernel_stack (t : Z) : M K unit :=
  ASSERT_int_disable ;;
  let d := pgdir_of t in
  in_mm (segment_free d MMAP_KERNEL_STACK_BASE MMAP_KERNEL_STACK_SIZE) ;;
  i ← in_mm (dir_rd d);
  let va := pgtable_of i (pdx MMAP_KERNEL_STACK_BASE) in
  (if 0 <? va then in_mm (r ← tmp_page_free (kaddr2va va); ASSERT (r =? 0) ;; dir_wr d (add_kernel (-1)))
   else mret tt) ;;
  free_sigstack.

Definition free_user_page (d pde pte : Z) : M mm unit :=
  i ← dir_rd d;
  ASSERT (negb (pgtable_of i pde =? NULL)) ;;
  w ← pte_rd (pgtable_of i pde, pte);
  if present w then r ← page_remove d (pde * 0x400000 + pte * 0x1000) false; ASSERT (r =? 0)
  else mret tt.
Definition free_user_table (d pde : Z) : M mm unit :=
  i ← dir_rd d;
  if negb (present (default 0 (pgdir i !! pde))) then mret tt else
  iterM (free_user_page d pde) (seqZ 0 1024) ;;
  _ ← pde_free d pde; mret tt.
Definition clear_counts (i : PageDirInfo) : PageDirInfo :=
  mkDir (pgdir_pa i) (pgdir i) (pgtables i) (count_user i) (count_kernel i) 0 0 0 (start_brk i) (end_brk i).
Definition task_free_vm_user (d : Z) : M mm unit :=
  ASSERT_int_disable ;;
  iterM (free_user_table d) (range_step (pdx MMAP_USER_BASE) (pdx MMAP_USER_TOP) 1) ;;
  dir_wr d clear_counts.

Definition task_free (t : Z) : M K unit :=
  ASSERT_int_disable ;;
  cur ← task_curr; ASSERT (t =? cur) ;;
  ipc_task_free t ;;
  in_files (ke_free_files t) ;;
  let d := pgdir_of t in
  i ← in_mm (dir_rd d);
  let count_brk := u32 (roundUp (end_brk i) - roundDown (start_brk i)) / 0x1000 in
  ASSERT (u32 (count_stack i + count_program i + count_brk) =? count_user i) ;;
  in_mm (task_free_vm_user d) ;;
  i ← in_mm (dir_rd d); ASSERT (count_user i =? 0) ;;
  o ← q_of t; q ← deref o;
  _ ← q_op (ls_erase q t);
  t_wr t (set_t_state State_zombie) ;;
  _ ← q_op (ls_push_back QZombie t);
  k ← get;
  if ls_is_free t (k_alarms k) then mret tt else _ ← a_op (ls_erase tt t); mret tt.

(** ** Exit and wait, around schedule() *)

Definition notify_parent (t : Z) : M K unit :=
  c ← t_rd t;
  let parent := t_parent c in
  ASSERT (negb (parent =? NULL)) ;;
  ASSERT (negb (parent =? t)) ;;
  r ← send_signal (t_exit_signal c) parent;
  ASSERT (-1 <? r) ;;
  p ← t_rd parent;
  if t_waiting_child p then
    t_wr t (set_t_wait_notify_next (t_wait_notify_next p)) ;;
    t_wr parent (set_t_wait_notify_next t)
  else mret tt.

(** do_exit up to schedule(). *)
Definition exit_enter (code : Z) : M K unit :=
  pushcli ;;
  t ← task_curr; c ← curr_rd;
  (if t_id c =? 1 then PANIC else mret tt) ;;
  remove_from_runnable_list t ;;
  curr_wr (set_t_state State_zombie) ;;
  _ ← q_op (ls_push_back QZombie t);
  task_free t ;;
  k ← get;
  curr_wr (fun c => set_t_exit_code code (set_t_time_end (k_jiffies k) c)) ;;
  curr_wr (fun c => if t_exit_signal c =? 0 then set_t_exit_signal SIGCHLD c else c) ;;
  notify_parent t ;;
  popcli.

(** sys_wait up to schedule(). *)
Inductive wait_result := WaitNone | WaitSleep | WaitBad.
Definition wait_enter (state : Z) : M K wait_result :=
  t ← task_curr;
  r ← in_mm (verify_user_addr (pgdir_of t) state 4 PTE_U);
  if r <? 0 then mret WaitBad else
  pushcli ;;
  k ← get;
  if ls_size (k_childs k) t =? 0 then popcli ;; SYSCALL_RETURN (-1) ;; mret WaitNone else
  remove_from_runnable_list t ;;
  curr_wr (fun c => set_t_waiting_child true (set_t_state State_interruptible c)) ;;
  popcli ;; mret WaitSleep.

(** sys_wait behind schedule(). *)
Definition wait_return (state : Z) : M K unit :=
  curr_wr (set_t_waiting_child false) ;;
  c ← curr_rd;
  let t := t_wait_notify_next c in
  ASSERT (negb (t =? NULL)) ;;
  r ← t_rd t;
  curr_wr (set_t_wait_notify_next (t_wait_notify_next r)) ;;
  in_mm (user_put state (u32 (t_exit_code r))) ;;
  SYSCALL_RETURN (t_id r).

(** ** Signal delivery *)

(** The part of check_signals behind push_stack(): the user stack gets the old
    eip, the signal and a return address that faults. *)
Definition deliver (sig : Z) : M K unit :=
  c ← curr_rd;
  let esp := tf_esp (t_tf c) in
  h ← deref (t_action c !! Z.to_nat sig);
  curr_wr (fun c => set_t_sig (Z.ldiff (t_sig c) (S_ sig)) (set_t_pending (Z.lor (t_pending c) (S_ sig)) c)) ;;
  in_mm (user_put (u32 (esp - 4)) (tf_eip (t_tf c)) ;;
         user_put (u32 (esp - 8)) sig ;;
         user_put (u32 (esp - 12)) (va2uaddr 0xfffffffe)) ;;
  curr_wr (fun c => set_t_tf (tf_jump h (u32 (esp - 12)) (t_tf c)) c).

Section open.
(** schedule(), for the calls below it. *)
Context (schedule : frame -> M K unit).

Definition do_exit_with (code : Z) : M K unit := exit_enter code ;; schedule FExit.

(** The loop of check_signals. The result tells whether the task goes on behind
    check_signals; if not, the run has been continued by another task. *)
Fixpoint check_loop (f : frame) (sigs : list Z) : M K bool :=
  match sigs with
  | [] => popcli ;; mret true
  | sig :: sigs' =>
      t ← task_curr; c ← curr_rd;
      if t_sig c =? 0 then popcli ;; mret true else
      if negb (has_sig (t_sig c) sig) then check_loop f sigs' else
      h ← deref (t_action c !! Z.to_nat sig);
      if h =? SIG_DFL then
        if t_id c =? 1 then check_loop f sigs' else
        if has_sig SIG_DI sig then check_loop f sigs' else
        if has_sig SIG_DS sig then
          curr_wr (set_t_state State_stopped) ;;
          remove_from_runnable_list t ;;
          curr_wr (set_t_exit_code (Z.lor (Z.shiftl sig 8) 0x7f)) ;;
          notify_parent t ;;
          popcli ;;
          schedule FStop ;; mret false
        else
        if has_sig SIG_DC sig then check_loop f sigs' else
        curr_wr (fun c => set_t_sig (Z.lor (t_sig c) (S_ sig)) c) ;;
        popcli ;;
        do_exit_with sig ;; mret false
      else
        push_stack sig f ;;
        deliver sig ;;
        check_loop f sigs'
  end.

(** The signals from 31 down to 1. *)
Definition all_sigs : list Z := reverse (seqZ 1 31).

Definition check_signals (f : frame) : M K bool :=
  ASSERT_int_enable ;;
  pushcli ;;
  c ← curr_rd;
  if negb (t_sig c =? 0) then check_loop f all_sigs else popcli ;; mret true.

(** What is left of the function that called schedule(). *)
Definition resume (f : frame) : M K unit :=
  match f with
  | FReturn => mret tt
  | FYield | FChild => SYSCALL_RETURN 0
  | FSleep => sleep_return
  | FWait state => wait_return state
  | FExit | FStop => PANIC
  | FGetc => v ← console_getc; SYSCALL_RETURN v
  | FSemTaken s e => i ← sem_rd s; ASSERT (sem_value i =? 0) ;; eflags_load e ;; SYSCALL_RETURN 0
  | FSemWait e => eflags_load e ;; SYSCALL_RETURN 0
  end.

(** schedule() behind check_signals. *)
Definition schedule_end (f : frame) (go_on : bool) : M K unit :=
  if go_on then
    c ← curr_rd;
    ASSERT (negb ((t_pending c =? 0) && negb (Z.of_nat (length (t_sigstack c)) =? 0))) ;;
    resume f
  else mret tt.

(** The task that was switched to. A new one continues in do_fork instead. *)
Definition schedule_switched : M K unit :=
  c ← curr_rd;
  if t_k_eip c then curr_wr (set_t_k_eip false) ;; resume FChild
  else sti ;; go_on ← check_signals (t_frame c); schedule_end (t_frame c) go_on.

(** push_stack() returns a second time, on the stack put aside. Without another
    signal check_signals is left, without the popif() of its end. *)
Definition signal_resume (st : SignalState) : M K unit :=
  c ← curr_rd;
  if t_sig c =? 0 then schedule_end (ss_frame st) true
  else
    deliver (ss_sig st) ;;
    go_on ← check_loop (ss_frame st) (filter (fun s => s < ss_sig st) all_sigs);
    schedule_end (ss_frame st) go_on.

(** A handler has returned: the stack that push_stack put aside runs on in
    check_signals. *)
Definition signal_return_with : M K unit :=
  c ← curr_rd;
  let esp := tf_esp (t_tf c) in
  w0 ← in_mm (user_word esp); w1 ← in_mm (user_word (u32 (esp + 4)));
  curr_wr (fun c => set_t_tf (tf_jump w1 (u32 (esp + 8)) (t_tf c))
                      (set_t_pending (Z.ldiff (t_pending c) (S_ w0)) c)) ;;
  st ← pop_stack;
  signal_resume st.
End open.

Fixpoint schedule_fuel (fuel : nat) (f : frame) : M K unit :=
  match fuel with
  | O => stop OutOfFuel
  | S n =>
      t ← schedule_pick;
      switch_to_task f t ;;
      schedule_switched (schedule_fuel n)
  end.
Definition sched_fuel (k : K) : nat := S (size (k_tasks k)).
Definition schedule (f : frame) : M K unit := fun k => schedule_fuel (sched_fuel k) f k.

Definition do_exit (code : Z) : M K unit := do_exit_with schedule code.
Definition signal_return : M K unit := signal_return_with schedule.

(** ** System calls that schedule *)

Definition sys_pause : M K unit := b ← pause_enter; if b : bool then schedule FReturn else mret tt.
Definition sys_yield : M K unit := schedule FYield.
Definition sys_sleep : M K unit :=
  c ← curr_rd;
  let seconds := get_param1 (t_tf c) in
  if seconds =? 0 then SYSCALL_RETURN 0 else sleep_enter seconds ;; schedule FSleep.
Definition sys_exit : M K unit :=
  c ← curr_rd;
  do_exit (Z.shiftl (Z.land (get_param1 (t_tf c)) 0xff) 8).
Definition sys_wait : M K unit :=
  c ← curr_rd;
  let state := get_param1 (t_tf c) in
  r ← wait_enter state;
  match r with
  | WaitNone => mret tt
  | WaitSleep => schedule (FWait state)
  | WaitBad => do_exit 111
  end.
Definition sys_cgetc : M K unit :=
  sleep_on State_interruptible QConsole ;; ASSERT_int_enable ;; schedule FGetc.
Definition sys_semwait : M K unit :=
  o ← semwait_enter; match o with Some f => schedule f | None => mret tt end.
Definition do_timer (user : bool) : M K unit :=
  b ← timer_enter user; if b : bool then schedule FReturn else mret tt.
Definition sys_getpid : M K unit := c ← curr_rd; SYSCALL_RETURN (t_id c).

(** ** Fork *)

Definition set_task_id (t : Z) : M K unit :=
  ASSERT_int_disable ;;
  k ← get;
  let id := k_next_id k in
  modify (set_k_next_id (id + 1)) ;;
  t_wr t (set_t_id id) ;;
  in_ids (node_at t id) ;;
  r ← in_ids (ht_put t); ASSERT (r =? 0).

(** memcpy of the running task's structure, and Task::init. The copy of
    alarm_list_node is not initialised. *)
Definition copy_task (t : Z) : M K unit :=
  cur ← task_curr; c ← curr_rd;
  modify (fun k => set_k_tasks (<[t := set_t_state State_not_runnable (set_t_parent cur (Task_init c))]> (k_tasks k)) k) ;;
  modify (fun k => set_k_queues (ls_node_init t (k_queues k)) k) ;;
  modify (fun k => set_k_childs (ls_init t (ls_node_init t (k_childs k))) k) ;;
  modify (fun k => match ls_owner (k_alarms k) !! cur with
                   | Some q => set_k_alarms (mkLstore (ls_lists (k_alarms k)) (<[t := q]> (ls_owner (k_alarms k)))) k
                   | None => set_k_alarms (ls_node_init t (k_alarms k)) k end).

Definition mem_free_now : M mm Z := s ← get; mret (mem_free (phys s)).

(** The user part of the address space, without the shared region. *)
Definition fork_user_pages (d dc : Z) : M mm Z :=
  r ← copy_pages d dc MMAP_USER_BASE MMAP_USER_SHARED_MEM_BASE;
  if r <? 0 then mret r else
  copy_pages d dc MMAP_USER_SHARED_MEM_TOP MMAP_USER_TOP.
Definition fork_counts (d dc : Z) : M mm unit :=
  s ← dir_rd dc;
  dir_wr d (fun i => mkDir (pgdir_pa i) (pgdir i) (pgtables i) (count_user i) (count_kernel i)
    (count_stack s) (count_program s) (count_shared i) (start_brk s) (end_brk s)).

(** The error ends of do_fork, from the last one a label falls through to. *)
Definition bad_fork_setup_vm (t before : Z) (pages : Z * Z) : M K Z :=
  task_delete_vm t pages ;;
  m ← in_mm mem_free_now; ASSERT (m =? before) ;;
  in_heap (kfree t) ;;
  popcli ;; mret (-1).
Definition bad_fork_copy_vm_user (t before_copy before_setup : Z) (pages : Z * Z) : M K Z :=
  in_mm (task_free_vm_user (pgdir_of t)) ;;
  m ← in_mm mem_free_now; ASSERT (m =? before_copy) ;;
  bad_fork_setup_vm t before_setup pages.
Definition bad_fork_copy_kernel_stack (t before_stack before_copy before_setup : Z) (pages : Z * Z) : M K Z :=
  task_free_kernel_stack t ;;
  m ← in_mm mem_free_now; ASSERT (m =? before_stack) ;;
  bad_fork_copy_vm_user t before_copy before_setup pages.

(** do_fork behind the copy of the user pages, in the parent: the new task continues with
    [FChild]. *)
Definition fork_finish (t before_copy before_setup : Z) (pages : Z * Z) : M K Z :=
  cur ← task_curr;
  r ← ipc_fork B t;
  if r <? 0 then bad_fork_copy_vm_user t before_copy before_setup pages else
  r ← in_files (ke_fs_fork cur t);
  if r <? 0 then bad_fork_copy_vm_user t before_copy before_setup pages else
  m3 ← in_mm mem_free_now;
  r ← in_mm (copy_pages (pgdir_of t) (pgdir_of cur) MMAP_KERNEL_STACK_BASE MMAP_KERNEL_TOP);
  if r <? 0 then bad_fork_copy_kernel_stack t m3 before_copy before_setup pages else
  k ← get;
  t_wr t (fun c => set_t_time_start (k_jiffies k) (set_t_frame FChild (set_t_k_eip true c))) ;;
  k ← get;
  (let '(ok, l) := ls_push_back cur t (k_childs k) in put (set_k_childs l k) ;; ASSERT ok) ;;
  set_task_id t ;;
  add_to_runnable_list t ;;
  popcli ;;
  c ← t_rd t; mret (t_id c).

Definition do_fork : M K Z :=
  pushcli ;;
  cur ← task_curr;
  t ← in_heap (kmalloc (garbage B) (sizeof_Task B));
  if t =? NULL then popcli ;; mret (-1) else
  copy_task t ;;
  m1 ← in_mm mem_free_now;
  '(r, pages) ← in_mm (task_setup_vm (pgdir_of t) (pgdir_of cur));
  if r <? 0 then bad_fork_setup_vm t m1 pages else
  m2 ← in_mm mem_free_now;
  r ← in_mm (fork_user_pages (pgdir_of t) (pgdir_of cur));
  if r <? 0 then bad_fork_copy_vm_user t m2 m1 pages else
  in_mm (fork_counts (pgdir_of t) (pgdir_of cur)) ;;
  fork_finish t m2 m1 pages.

Definition sys_fork : M K unit := pid ← do_fork; SYSCALL_RETURN pid.

(** free_zombie_tasks: the kernel stack and the structure of ended tasks. *)
Fixpoint free_zombies (pages : Z -> Z * Z) (l : list Z) : M K unit :=
  match l with
  | [] => mret tt
  | t :: l' =>
      cur ← task_curr;
      if t =? cur then mret tt else
      _ ← q_op (ls_pop_front QZombie);
      task_free_kernel_stack t ;;
      task_delete_vm t (pages t) ;;
      t_wr t (set_t_state State_not_runnable) ;;
      in_heap (kfree t) ;;
      modify (fun k => set_k_tasks (delete t (k_tasks k)) k) ;;
      free_zombies pages l'
  end.
Definition free_zombie_tasks (pages : Z -> Z * Z) : M K unit :=
  ASSERT_int_disable ;; l ← q_get QZombie; free_zombies pages l.

Definition task_init : M K unit :=
  in_ids (ht_init 4096) ;;
  modify (fun k => set_k_queues (ls_init QZombie (k_queues k)) k).

(** ** Page faults of user programs (kernel/trap.cpp) *)

Inductive fault_end := FaultExit (code : Z) | FaultReturn.

(** The growth of the stack: a fault in the page below it. *)
Definition grow_stack (fault_va : Z) : M K (option Z) :=
  t ← task_curr; i ← in_mm (dir_rd (pgdir_of t));
  let stack_base := u32 (MMAP_USER_STACK_TOP - count_stack i * 0x1000) in
  if u32 (stack_base - fault_va) <? 0x1000 then
    if fault_va <? MMAP_USER_STACK_BASE_LIMIT then mret (Some 111) else
    r ← in_mm (page_alloc_insert (pgdir_of t) (u32 (stack_base - 0x1000)) (Z.lor PTE_P (Z.lor PTE_U PTE_W)));
    if r <? 0 then mret (Some 222) else
    in_mm (dir_wr (pgdir_of t) (fun i =>
      mkDir (pgdir_pa i) (pgdir i) (pgtables i) (count_user i) (count_kernel i) (u32 (count_stack i + 1))
            (count_program i) (count_shared i) (start_brk i) (end_brk i))) ;;
    mret None
  else mret None.

Definition do_page_fault (fault_va : Z) : M K unit :=
  c ← curr_rd;
  if tf_eip (t_tf c) =? va2uaddr 0xffffffff then do_exit 0 else
  if (tf_eip (t_tf c) =? va2uaddr 0xfffffffe) && negb (t_pending c =? 0) then signal_return else
  pushcli ;;
  o ← grow_stack fault_va;
  match o with
  | Some code => do_exit code
  | None => popcli ;; do_exit 111
  end.
End process.
