(* ===== verification/ProcessProps.v ===== *)
(** What signal delivery, wait and semaphores do (model in Process and Ipc). *)

From S2P Require Import Prelude Spinlock ListSpec IdHash Util Cga CgaProps PhysMem VirtMem VirtMap VirtProps UserMem Kmalloc Task.
From S2P Require Import Sched SchedProps SchedOps Ipc Process.

Section signals.
Context {H : Type} `{!KernEnv H} (B : build) (sch : frame -> M (kern H) unit).
Implicit Types k : kern H.

(** ** The loop of check_signals *)

Lemma check_loop_clear f sig sigs k c :
  k_tasks k !! k_curr k = Some c -> has_sig (t_sig c) sig = false -> t_sig c <> 0 ->
  check_loop B sch f (sig :: sigs) k = check_loop B sch f sigs k.
Proof.
  intros Hc Hs Hz. cbn [check_loop].
  rewrite (bind_done task_curr _ k (k_curr k) k) by done.
  rewrite (bind_done _ _ _ _ _ (curr_rd_run k c Hc)).
  destruct (Z.eqb_spec (t_sig c) 0); [done|]. by rewrite Hs.
Qed.

Lemma check_loop_clears f l sigs k c :
  k_tasks k !! k_curr k = Some c -> Forall (fun s => has_sig (t_sig c) s = false) l -> t_sig c <> 0 ->
  check_loop B sch f (l ++ sigs) k = check_loop B sch f sigs k.
Proof.
  intros Hc Hl Hz. induction Hl as [|s l Hs Hl IH]; [done|]. cbn [app].
  rewrite (check_loop_clear f s _ k c) by done. apply IH.
Qed.

(** The signal at hand, with its action. *)
Lemma check_loop_dfl f sig sigs k c :
  k_tasks k !! k_curr k = Some c -> has_sig (t_sig c) sig = true -> t_sig c <> 0 ->
  t_action c !! Z.to_nat sig = Some SIG_DFL -> t_id c <> 1 -> has_sig SIG_DI sig = false ->
  has_sig SIG_DS sig = true ->
  check_loop B sch f (sig :: sigs) k =
    (curr_wr (set_t_state State_stopped) ;;
     remove_from_runnable_list (k_curr k) ;;
     curr_wr (set_t_exit_code (Z.lor (Z.shiftl sig 8) 0x7f)) ;;
     notify_parent (k_curr k) ;;
     popcli ;;
     sch FStop ;; mret false) k.
Proof.
  intros Hc Hs Hz Ha Hid Hdi Hds. cbn [check_loop].
  rewrite (bind_done task_curr _ k (k_curr k) k) by done.
  rewrite (bind_done _ _ _ _ _ (curr_rd_run k c Hc)).
  destruct (Z.eqb_spec (t_sig c) 0); [done|]. rewrite Hs. cbn [negb]. rewrite Ha.
  rewrite (bind_done (deref (Some SIG_DFL)) _ k SIG_DFL k) by done.
  destruct (Z.eqb_spec (t_id c) 1); [done|]. change (SIG_DFL =? SIG_DFL) with true. cbn iota.
  by rewrite Hdi, Hds.
Qed.

(** remove_from_runnable_list insists on a running task. *)
Lemma remove_not_running t r k :
  k_tasks k !! t = Some r -> t_state r <> State_running ->
  ls_owner (k_queues k) !! t = Some (QRun (t_priority r)) ->
  remove_from_runnable_list t k = Stop AssertFailed.
Proof.
  intros Hr Hs Ho. unfold remove_from_runnable_list.
  rewrite (bind_done _ _ _ _ _ (pushcli_run k)). set (k1 := set_k_cpu _ k).
  rewrite (bind_done _ _ _ r k1) by (by apply t_rd_run).
  rewrite (bind_done _ _ _ (Some (QRun (t_priority r))) k1) 
    by (unfold q_of, gets; change (k_queues k1) with (k_queues k); by rewrite Ho).
  rewrite (bool_decide_true (Some (QRun (t_priority r)) = Some _)) by reflexivity.
  rewrite (bind_done _ _ _ tt k1) by done.
  rewrite (bool_decide_false (t_state r = State_running)) by done. reflexivity.
Qed.

Lemma check_loop_ignored f sig sigs k c :
  k_tasks k !! k_curr k = Some c -> has_sig (t_sig c) sig = true -> t_sig c <> 0 ->
  t_action c !! Z.to_nat sig = Some SIG_DFL -> has_sig SIG_DS sig = false ->
  has_sig SIG_DI sig = true \/ has_sig SIG_DC sig = true ->
  check_loop B sch f (sig :: sigs) k = check_loop B sch f sigs k.
Proof.
  intros Hc Hs Hz Ha Hds Hi. cbn [check_loop].
  rewrite (bind_done task_curr _ k (k_curr k) k) by done.
  rewrite (bind_done _ _ _ _ _ (curr_rd_run k c Hc)).
  destruct (Z.eqb_spec (t_sig c) 0); [done|]. rewrite Hs. cbn [negb]. rewrite Ha.
  rewrite (bind_done (deref (Some SIG_DFL)) _ k SIG_DFL k) by done.
  change (SIG_DFL =? SIG_DFL) with true. cbn iota. rewrite Hds.
  destruct (t_id c =? 1); [done|]. destruct (has_sig SIG_DI sig); [done|].
  destruct Hi as [|Hi]; [done|]. by rewrite Hi.
Qed.

Lemma remove_needs_running t r k a k' :
  k_tasks k !! t = Some r -> remove_from_runnable_list t k = Done a k' -> t_state r = State_running.
Proof.
  intros Hr Hrun. unfold remove_from_runnable_list in Hrun.
  rewrite (bind_done _ _ _ _ _ (pushcli_run k)) in Hrun. set (k1 := set_k_cpu _ k) in Hrun.
  rewrite (bind_done _ _ _ r k1) in Hrun by (by apply t_rd_run).
  rewrite (bind_done (q_of t) _ k1 (ls_owner (k_queues k1) !! t) k1) in Hrun by done.
  bind_inv Hrun. destruct (bool_decide _); [|done]. injection Hrun0 as _ <-.
  bind_inv Hrun. by destruct (bool_decide_reflect (t_state r = State_running)).
Qed.

(** ** Memory operations that only reach the page tables leave the rest alone *)

(** The running task and its interrupt state are what they were. *)
Definition same_task k k' : Prop :=
  k_curr k' = k_curr k /\ k_tasks k' = k_tasks k /\ k_cpu k' = k_cpu k.

Lemma umem_entry_state ua s w s' : umem_entry ua s = Done w s' -> s' = s.
Proof.
  unfold umem_entry, page_get, dir_rd, pte_rd. m_unfold.
  destruct (dirs s !! cr3_dir s) as [i|]; [|done].
  destruct (pgtable_of i (pdx (uaddr2va ua)) =? NULL); [done|].
  destruct (bool_decide _); [|done]. destruct (present _); congruence.
Qed.

Lemma umem_frame_state ua s p s' : umem_frame ua s = Done p s' -> s' = s.
Proof. unfold umem_frame. intros Hr. bind_inv Hr. apply umem_entry_state in Hrun as ->. by injection Hr as _ <-. Qed.
Lemma umem_store_frame_state ua s p s' : umem_store_frame ua s = Done p s' -> s' = s.
Proof.
  unfold umem_store_frame. intros Hr. bind_inv Hr. apply umem_entry_state in Hrun as ->.
  destruct (Z.testbit _ 1) in Hr; [by injection Hr as _ <-|done].
Qed.

Lemma umem_wr_cpu ua v s a s' : umem_wr ua v s = Done a s' -> cpu_of s' = cpu_of s.
Proof.
  unfold umem_wr. intros Hr. bind_inv Hr. apply umem_store_frame_state in Hrun as ->.
  unfold modify in Hr. by simplify_eq.
Qed.

Lemma user_put_cpu ua v s a s' : user_put ua v s = Done a s' -> cpu_of s' = cpu_of s.
Proof.
  unfold user_put. generalize (bytes_of 4 v) as bs. intros bs. revert ua s. induction bs as [|b bs IH]; intros ua s; [by intros [= _ <-]|].
  cbn [user_store]. intros Hr. bind_inv Hr. apply IH in Hr. rewrite Hr. unfold umem_wrb, umem_rd in Hrun. bind_inv Hrun. bind_inv Hrun0.
  apply umem_frame_state in Hrun1 as ->. injection Hrun0 as _ <-. by apply umem_wr_cpu in Hrun.
Qed.

Lemma in_mm_keeps {A} (m : M mm A) k a k' :
  (forall s a s', m s = Done a s' -> cpu_of s' = cpu_of s) -> in_mm m k = Done a k' -> same_task k k'.
Proof.
  intros Hm Hr. unfold in_mm, in_heap, in_env, zoom in Hr.
  destruct (set_cpu (k_cpu k) (ke_heap (k_heap k))) as [w l p lk e] eqn:He.
  cbn [env] in Hr. destruct (m e) as [a0 e'|] eqn:Hme; [|done]. injection Hr as -> <-.
  assert (Hc : cpu_of e = k_cpu k).
  { change (cpu_of (mkKs w l p lk e) = k_cpu k). rewrite <- He. apply cpu_of_set. }
  split_and!; [done|done|]. cbn. rewrite <- Hc. by apply (Hm e a).
Qed.

(** deliver only changes the signal masks and the trap frame. *)
Lemma deliver_keeps sig k c a k' :
  k_tasks k !! k_curr k = Some c -> deliver sig k = Done a k' ->
  k_curr k' = k_curr k /\ k_cpu k' = k_cpu k /\
  exists c', k_tasks k' !! k_curr k = Some c' /\ t_popped_kstack c' = t_popped_kstack c.
Proof.
  intros Hc Hr. unfold deliver in Hr.
  rewrite (bind_done _ _ _ _ _ (curr_rd_run k c Hc)) in Hr.
  destruct (t_action c !! Z.to_nat sig) as [h|]; [|done].
  rewrite (bind_done (deref (Some h)) _ k h k) in Hr by done.
  rewrite (bind_done _ _ _ _ _ (curr_wr_run _ k c Hc)) in Hr.
  bind_inv Hr. apply in_mm_keeps in Hrun as (Hcu & Hts & Hcpu).
  - assert (Hc2 : k_tasks s !! k_curr s = Some (set_t_sig (Z.ldiff (t_sig c) (S_ sig))
       (set_t_pending (Z.lor (t_pending c) (S_ sig)) c))).
    { rewrite Hts, Hcu. cbn. apply lookup_insert_eq. }
    rewrite (curr_wr_run _ _ _ Hc2) in Hr. injection Hr as _ <-. split_and!; [done|done|].
    eexists. cbn. rewrite Hcu. cbn. rewrite lookup_insert_eq. split; [done|]. done.
  - intros s0 a1 s' Hw. bind_inv Hw. bind_inv Hw.
    apply user_put_cpu in Hrun0, Hrun1, Hw. congruence.
Qed.

(** Behind push_stack's second return the interrupt state is already restored:
    every end of the loop unbalances it, and another stack cannot be pushed. *)
Lemma check_loop_unbalanced f sigs k c :
  k_tasks k !! k_curr k = Some c -> t_popped_kstack c = true -> n_cli (k_cpu k) = 0 ->
  forall a k', check_loop B sch f sigs k <> Done a k'.
Proof.
  intros Hc Hp Hn a k'.
  assert (Hpop : forall A (m : M (kern H) A), (popcli ;; m) k = Stop PanicCalled).
  { intros A m. unfold popcli. m_unfold. unfold do_popcli.
    change (n_cli (cpu_of k)) with (n_cli (k_cpu k)). by rewrite Hn. }
  induction sigs as [|sig sigs IH]; cbn [check_loop]; [by rewrite Hpop|].
  rewrite (bind_done task_curr _ k (k_curr k) k) by done.
  rewrite (bind_done _ _ _ _ _ (curr_rd_run k c Hc)).
  destruct (t_sig c =? 0); [by rewrite Hpop|]. destruct (has_sig (t_sig c) sig); [|done]. cbn [negb].
  destruct (t_action c !! Z.to_nat sig) as [h|]; [|done].
  rewrite (bind_done (deref (Some h)) _ k h k) by done.
  destruct (h =? SIG_DFL).
  - destruct (t_id c =? 1); [done|]. destruct (has_sig SIG_DI sig); [done|].
    destruct (has_sig SIG_DS sig).
    + rewrite (bind_done _ _ _ _ _ (curr_wr_run _ k c Hc)).
      intros Hr. bind_inv Hr. clear Hr.
      apply (remove_needs_running _ (set_t_state State_stopped c)) in Hrun; [done|].
      cbn. apply lookup_insert_eq.
    + destruct (has_sig SIG_DC sig); [done|].
      rewrite (bind_done _ _ _ _ _ (curr_wr_run _ k c Hc)).
      unfold popcli. m_unfold. unfold do_popcli.
      match goal with |- context [n_cli (cpu_of ?s)] => change (n_cli (cpu_of s)) with (n_cli (k_cpu k)) end.
      by rewrite Hn.
  - intros Hr. bind_inv Hr. clear Hr. unfold push_stack in Hrun.
    rewrite (bind_done task_curr _ k (k_curr k) k) in Hrun by done.
    rewrite (bind_done _ _ _ _ _ (curr_rd_run k c Hc)) in Hrun. by rewrite Hp in Hrun.
Qed.
End signals.

(** * Properties *)

(** C18. A stop signal with the default action stops the kernel, not the task:
    check_signals marks the task stopped before it takes it out of its runnable
    queue, where only running tasks may be. *)
Theorem stop_signal_panics {H} `{!KernEnv H} B sch f (k : kern H) c sig :
  sched_ok k -> IF (k_cpu k) = true -> k_tasks k !! k_curr k = Some c -> t_state c = State_running ->
  t_id c <> 1 -> 19 <= sig <= 22 -> t_sig c = S_ sig -> t_action c !! Z.to_nat sig = Some SIG_DFL ->
  check_signals B sch f k = Stop AssertFailed.
Proof.
  intros Hok HI Hc Hs Hid Hsig Hts Ha. unfold check_signals.
  rewrite (bind_done _ _ _ tt k) by (unfold ASSERT_int_enable, eflags_read; m_unfold; cbn; by rewrite HI).
  rewrite (bind_done _ _ _ _ _ (pushcli_run k)). set (k1 := set_k_cpu _ k).
  rewrite (bind_done _ _ _ c k1) by (by apply curr_rd_run).
  assert (Hz : t_sig c <> 0).
  { rewrite Hts. unfold S_. rewrite Z.mod_small, Z.shiftl_1_l by lia. pose proof (Z.pow_pos_nonneg 2 sig). lia. }
  destruct (Z.eqb_spec (t_sig c) 0); [done|]. cbn [negb].
  assert (Hsplit : exists l1 l2, all_sigs = l1 ++ sig :: l2 /\ Forall (fun s => has_sig (S_ sig) s = false) l1 /\
    has_sig (S_ sig) sig = true /\ has_sig SIG_DI sig = false /\ has_sig SIG_DS sig = true).
  { assert (Hcase : sig = 19 \/ sig = 20 \/ sig = 21 \/ sig = 22) by lia.
    exists (reverse (seqZ (sig + 1) (31 - sig))), (reverse (seqZ 1 (sig - 1))).
    destruct Hcase as [-> | [-> | [-> | ->]]];
      (split; [vm_compute; reflexivity|]; split; [|vm_compute; auto]);
      apply (bool_decide_unpack _); vm_compute; exact I. }
  destruct Hsplit as (l1 & l2 & -> & Hl1 & Hbit & Hdi & Hds).
  rewrite <- Hts in Hl1, Hbit.
  rewrite (check_loop_clears B sch f l1 _ k1 c Hc Hl1 Hz).
  rewrite (check_loop_dfl B sch f sig l2 k1 c Hc Hbit Hz Ha Hid Hdi Hds).
  rewrite (bind_done _ _ _ tt (set_k_tasks (<[k_curr k := set_t_state State_stopped c]> (k_tasks k)) k1))
    by (by erewrite curr_wr_run).
  unfold mbind at 1, M_bind at 1.
  rewrite (remove_not_running (k_curr k) (set_t_state State_stopped c)); [done| |done|].
  - cbn. apply lookup_insert_eq.
  - cbn. by apply (qo_running _ _ (so_queues _ Hok)).
Qed.

Lemma stop_signal_panics_witness :
  let c := set_t_sig (S_ 20) (demo_task 2 State_running 0 0) in
  check_signals (mkBuild 400 32 24 48 44 0) (fun _ => mret tt) FReturn
    (set_k_curr 200 (set_k_tasks (<[200 := c]> (k_tasks demo_kern)) demo_kern)) = Stop AssertFailed.
Proof.
  intros c. apply (stop_signal_panics _ _ _ _ c 20); try done.
  destruct demo_ok as [Hq Hc Hcur Hk]. split; [|done|by eexists|].
  - by apply (queues_ok_field _ _ 200 (demo_task 2 State_running 0 0)).
  - intros t r. cbn [k_tasks set_k_tasks set_k_curr]. destruct (decide (t = 200)) as [->|Hne].
    + rewrite lookup_insert_eq. intros [= <-]. cbn. split; [done|lia].
    + rewrite lookup_insert_ne by done. apply Hk.
Defined.

(** A second signal at the end of a handler stops the kernel: when the stack
    put aside by push_stack runs again and the task has any signal recorded -
    sent during the handler, or left over because ignored signals are never
    cleared - check_signals goes on although its interrupt state was already
    restored and no stack may be pushed; no path through it returns. *)
Theorem signal_resume_stops {H} `{!KernEnv H} B sch st (k : kern H) c :
  k_tasks k !! k_curr k = Some c -> t_popped_kstack c = true -> n_cli (k_cpu k) = 0 -> t_sig c <> 0 ->
  forall a k', signal_resume B sch st k <> Done a k'.
Proof.
  intros Hc Hp Hn Hz a k' Hr. unfold signal_resume in Hr.
  rewrite (bind_done _ _ _ _ _ (curr_rd_run k c Hc)) in Hr.
  destruct (Z.eqb_spec (t_sig c) 0); [done|]. bind_inv Hr. bind_inv Hr.
  destruct (deliver_keeps (ss_sig st) k c _ _ Hc Hrun) as (Hcu & Hcpu & c' & Hc' & Hp').
  rewrite <- Hcu in Hc'.
  eapply (check_loop_unbalanced B sch _ _ s c' Hc'); [congruence|by rewrite Hcpu|exact Hrun0].
Qed.

Definition demo_build : build := mkBuild 400 32 24 48 44 0.

Definition resume_task : Task := set_t_popped_kstack true (set_t_sig (S_ SIGCHLD) (demo_task 1 State_running 0 0)).

Lemma signal_resume_stops_witness :
  ~ (exists a k', signal_resume demo_build (fun _ => mret tt) (mkSigState [] 10 FReturn (t_tf resume_task) 0)
       (set_k_tasks (<[100 := resume_task]> (k_tasks demo_kern)) demo_kern) = Done a k').
Proof.
  intros (a & k' & Hrun). revert Hrun. apply (signal_resume_stops _ _ _ _ resume_task); try done.
Defined.

(** A task that waits for a child is woken by SIGCONT, SIGCHLD and SIGURG even
    when no child has ended; sys_wait then finds an empty list and the kernel
    stops. Any process can do this to its waiting parent with kill(). *)
Theorem wait_woken_panics {H} `{!KernEnv H} B sch (k : kern H) c sig state :
  sched_ok k -> n_cli (k_cpu k) = 0 -> k_tasks k !! k_curr k = Some c ->
  t_k_eip c = false -> t_frame c = FWait state -> t_sigstack c = [] -> t_wait_notify_next c = NULL ->
  sig = SIGCONT \/ sig = SIGCHLD \/ sig = SIGURG ->
  t_sig c = S_ sig -> t_action c !! Z.to_nat sig = Some SIG_DFL ->
  schedule_switched B sch k = Stop AssertFailed.
Proof.
  intros Hok Hn Hc He Hf Hst Hw Hsig Hts Ha. unfold schedule_switched.
  rewrite (bind_done _ _ _ _ _ (curr_rd_run k c Hc)), He.
  set (k1 := set_k_cpu (mkCpu true (n_cli (k_cpu k)) (before_pushcli (k_cpu k))) k).
  rewrite (bind_done sti _ k tt k1) by done.
  assert (Hz : t_sig c <> 0) by (rewrite Hts; by destruct_or! Hsig; subst sig).
  set (k2 := set_k_cpu (do_pushcli (k_cpu k1)) k1).
  assert (Hloop : check_loop B sch (FWait state) all_sigs k2 = (popcli ;; mret true) k2).
  { assert (Hsplit : exists l1 l2, all_sigs = l1 ++ sig :: l2 /\
      Forall (fun s => has_sig (S_ sig) s = false) l1 /\ Forall (fun s => has_sig (S_ sig) s = false) l2 /\
      has_sig (S_ sig) sig = true /\ has_sig SIG_DS sig = false /\
      (has_sig SIG_DI sig = true \/ has_sig SIG_DC sig = true)).
    { exists (reverse (seqZ (sig + 1) (31 - sig))), (reverse (seqZ 1 (sig - 1))).
      destruct Hsig as [-> | [-> | ->]];
        (split; [vm_compute; reflexivity|]; split_and!; [| |vm_compute; by auto..]);
        apply (bool_decide_unpack _); vm_compute; exact I. }
    destruct Hsplit as (l1 & l2 & -> & Hl1 & Hl2 & Hbit & Hds & Hdi). rewrite <- Hts in Hl1, Hl2, Hbit.
    rewrite (check_loop_clears B sch _ l1 _ k2 c Hc Hl1 Hz).
    transitivity (check_loop B sch (FWait state) (l2 ++ []) k2).
    - rewrite app_nil_r. by apply (check_loop_ignored B sch _ sig l2 k2 c).
    - by rewrite (check_loop_clears B sch _ l2 [] k2 c Hc Hl2 Hz). }
  destruct (popcli_run k1 k2) as (c2 & Hpop & Hc2); [split; cbn; [lia|intros; lia]|done|].
  assert (Hcheck : check_signals B sch (t_frame c) k1 = Done true (set_k_cpu c2 k2)).
  { unfold check_signals. rewrite (bind_done _ _ k1 tt k1) by done.
    rewrite (bind_done _ _ _ _ _ (pushcli_run k1)). fold k2.
    rewrite (bind_done _ _ k2 _ _ (curr_rd_run k2 c Hc)).
    destruct (Z.eqb_spec (t_sig c) 0); [done|]. cbn [negb]. rewrite Hf, Hloop.
    by rewrite (bind_done _ _ _ _ _ Hpop). }
  rewrite (bind_done _ _ _ _ _ Hcheck). unfold schedule_end. set (k3 := set_k_cpu c2 k2).
  rewrite (bind_done _ _ k3 _ _ (curr_rd_run k3 c Hc)), Hst, andb_false_r.
  rewrite (bind_done _ _ k3 tt k3) by done. rewrite Hf. cbn [resume]. unfold wait_return.
  rewrite (bind_done _ _ k3 _ _ (curr_wr_run _ k3 c Hc)).
  erewrite (bind_done curr_rd); [|apply curr_rd_run; cbn; apply lookup_insert_eq].
  cbn [t_wait_notify_next set_t_waiting_child]. rewrite Hw. done.
Qed.

Lemma wait_woken_panics_witness :
  let c := set_t_frame (FWait 0x1000) (set_t_waiting_child true
             (set_t_sig (S_ SIGCONT) (demo_task 1 State_running 0 0))) in
  schedule_switched demo_build (fun _ => mret tt)
    (set_k_tasks (<[100 := c]> (k_tasks demo_kern)) demo_kern) = Stop AssertFailed.
Proof.
  intros c. apply (wait_woken_panics _ _ _ c SIGCONT 0x1000); try done; [|by left].
  destruct demo_ok as [Hq Hc Hcur Hk]. split; [|done|by eexists|].
  - by apply (queues_ok_field _ _ 100 (demo_task 1 State_running 0 0)).
  - intros t r. cbn [k_tasks set_k_tasks]. destruct (decide (t = 100)) as [->|Hne].
    + rewrite lookup_insert_eq. intros [= <-]. cbn. split; [done|lia].
    + rewrite lookup_insert_ne by done. apply Hk.
Defined.

(** ** Semaphores *)

Section semaphores.
Context {H : Type} `{!KernEnv H}.
Implicit Types k : kern H.

Definition masked k : kern H :=
  set_k_cpu (mkCpu false (n_cli (k_cpu k)) (before_pushcli (k_cpu k))) k.

(** sys_semwait up to the test of the value. *)
Lemma semwait_start k c s i :
  k_tasks k !! k_curr k = Some c -> sem_of (get_param2 (t_tf c)) k = Done s k ->
  k_sems k !! s = Some i -> t_before_switch c = None ->
  semwait_enter k =
    (if 0 <? sem_value i then
       sem_wr s (sem_value i - 1) ;; ASSERT (sem_value i - 1 =? 0) ;;
       eflags_load (IF (k_cpu k)) ;; SYSCALL_RETURN 0 ;; mret None
     else
       SYSCALL_RETURN 0 ;;
       sleep_on State_uninterruptible (QSem s) ;; mret (Some (FSemWait (IF (k_cpu k))))) (masked k).
Proof.
  intros Hc Hs Hi Hb. unfold semwait_enter.
  rewrite (bind_done curr_tf _ k (t_tf c) k) by (unfold curr_tf; by rewrite (bind_done _ _ _ _ _ (curr_rd_run k c Hc))).
  rewrite (bind_done _ _ _ _ _ (curr_rd_run k c Hc)). rewrite (bind_done _ _ _ _ _ Hs).
  rewrite (bind_done (sem_rd s) _ k i k) by (unfold sem_rd; m_unfold; by rewrite Hi).
  rewrite (bind_done eflags_read _ k (IF (k_cpu k)) k) by done.
  rewrite (bind_done cli _ k tt (masked k)) by done. rewrite Hb.
  rewrite (bool_decide_false (is_Some None)) by (by intros [? ?]).
  rewrite (bool_decide_true (@None Z = None)) by done. cbn [andb ASSERT].
  destruct (0 <? sem_value i); [done|]. by rewrite (bind_done (mret tt) _ (masked k) tt (masked k)).
Qed.

Lemma sem_wr_run s v i k :
  k_sems k !! s = Some i ->
  sem_wr s v k = Done tt (set_k_sems (<[s := mkSem v (sem_sem i)]> (k_sems k)) k).
Proof. intros Hi. unfold sem_wr, sem_rd. m_unfold. by rewrite Hi. Qed.
End semaphores.

(** C19. What sys_semwait does, outside of a delayed post: a semaphore of value one
    is taken without waiting; one of value zero puts the task at the end of the
    semaphore's list, uninterruptible, and leads to schedule(); a semaphore that
    was given a larger initial value stops the kernel at its first wait. *)
Theorem semwait_cases {H} `{!KernEnv H} (k : kern H) c s i :
  sched_ok k -> k_tasks k !! k_curr k = Some c -> t_state c = State_running ->
  sem_of (get_param2 (t_tf c)) k = Done s k -> k_sems k !! s = Some i -> t_before_switch c = None ->
  (sem_value i = 1 -> exists k', semwait_enter k = Done None k' /\ k_queues k' = k_queues k /\
     k_sems k' = <[s := mkSem 0 (sem_sem i)]> (k_sems k) /\ k_cpu k' = k_cpu k) /\
  (2 <= sem_value i -> semwait_enter k = Stop AssertFailed) /\
  (sem_value i <= 0 -> exists k' c', semwait_enter k = Done (Some (FSemWait (IF (k_cpu k)))) k' /\
     ls_get (k_queues k') (QSem s) = ls_get (k_queues k) (QSem s) ++ [k_curr k] /\
     k_tasks k' !! k_curr k = Some c' /\ t_state c' = State_uninterruptible /\ k_sems k' = k_sems k).
Proof.
  intros Hok Hc Hst Hs Hi Hb. rewrite (semwait_start k c s i Hc Hs Hi Hb).
  set (k0 := masked k). assert (Hc0 : k_tasks k0 !! k_curr k0 = Some c) by done. split_and!.
  - intros ->. change (0 <? 1) with true. cbn iota. change (1 - 1) with 0.
    rewrite (bind_done _ _ _ _ _ (sem_wr_run s 0 i k0 Hi)). set (k1 := set_k_sems _ k0).
    rewrite (bind_done (ASSERT _) _ k1 tt k1) by done.
    set (k2 := set_k_cpu (mkCpu (IF (k_cpu k)) (n_cli (k_cpu k1)) (before_pushcli (k_cpu k1))) k1).
    rewrite (bind_done (eflags_load _) _ k1 tt k2) by done.
    unfold SYSCALL_RETURN. rewrite (bind_done _ _ k2 _ _ (curr_wr_run _ k2 c Hc)).
    eexists. split; [reflexivity|]. split_and!; [done|done|]. cbn. by destruct (k_cpu k).
  - intros Hv. destruct (Z.ltb_spec 0 (sem_value i)); [|lia].
    rewrite (bind_done _ _ _ _ _ (sem_wr_run s _ i k0 Hi)).
    destruct (Z.eqb_spec (sem_value i - 1) 0); [lia|]. done.
  - intros Hv. destruct (Z.ltb_spec 0 (sem_value i)); [lia|].
    unfold SYSCALL_RETURN. rewrite (bind_done _ _ k0 _ _ (curr_wr_run _ k0 c Hc)).
    set (c1 := set_t_tf (set_return 0 (t_tf c)) c). set (k1 := set_k_tasks _ k0).
    assert (Hc1 : k_tasks k1 !! k_curr k1 = Some c1) by (cbn; apply lookup_insert_eq).
    pose proof (qo_running _ _ (so_queues _ Hok) _ _ Hc Hst) as Ho.
    destruct (sleep_on_run State_uninterruptible (QSem s) c1 k1) as (c2 & Hrun & _); [|done|done|done|].
    { destruct (so_cpu _ Hok). split; cbn; [done|done]. }
    rewrite (bind_done _ _ _ _ _ Hrun). eexists _, _. split; [reflexivity|].
    unfold slept. cbn. rewrite lookup_insert_eq. split_and!; [|reflexivity|done|done].
    rewrite ls_push_back_get by (by apply erase_free). cbn [snd]. rewrite ls_get_insert.
    by rewrite erase_get_ne.
Qed.

(** The first task has a semaphore of value two at its address 0x2000. *)
Definition sem_mm : mm :=
  set_frames {[ 9 := [500] ]}
    (set_ptes {[ (0x5000, 2) := PTE_t 0x9000 7 ]} {[ 0x1000; 0x5000 ]}
      (set_cr3 100 (set_dirs (<[100 := mkDir 0x4000 ∅ {[0 := 0x5000]} 0 0 0 0 0 0 0]> (dirs (demo_mm 5 4)))
        (demo_mm 5 4)))).
Definition sem_kern : kern demo_env :=
  set_k_sems {[ 500 := mkSem 2 (uaddr2kaddr 0x2000) ]}
    (set_k_heap (mkEnv (mkKs ∅ (mkLstore ∅ ∅) ∅ 0 (set_cpu (mkCpu true 0 false) sem_mm)) (demo_con 0 [] []))
      (set_k_tasks (<[100 := set_t_tf (mkTf 0 0 0 5 0x2000 0 0 0 0 0 0) (demo_task 1 State_running 0 0)]>
         (k_tasks demo_kern)) demo_kern)).

Lemma semwait_cases_witness : semwait_enter sem_kern = Stop AssertFailed.
Proof.
  set (c := set_t_tf (mkTf 0 0 0 5 0x2000 0 0 0 0 0 0) (demo_task 1 State_running 0 0)).
  assert (Hok : sched_ok sem_kern).
  { destruct demo_ok as [Hq Hc Hcur Hk]. split; [|done|by eexists|].
    - by apply (queues_ok_field _ _ 100 (demo_task 1 State_running 0 0)).
    - intros t r. cbn [k_tasks sem_kern set_k_tasks set_k_heap set_k_sems].
      destruct (decide (t = 100)) as [->|Hne].
      + rewrite lookup_insert_eq. intros [= <-]. cbn. split; [done|lia].
      + rewrite lookup_insert_ne by done. apply Hk. }
  apply (semwait_cases sem_kern c 500 (mkSem 2 (uaddr2kaddr 0x2000)) Hok); done.
Defined.
