(* ===== verification/ForkProps.v ===== *)
(** The memory of a forked program (do_fork of kernel/task.cpp, copy_pages of
    kernel/memory/virtual.cpp), from the task structure to the breaks: the child's pages hold what
    the parent's hold, in frames of their own. *)

From S2P Require Import Prelude Spinlock ListSpec IdHash Util Bitmap Cga CgaProps PhysMem VirtMem VirtRefs VirtMap VirtProps UserMem Kmalloc Task Ipc Process SchedOps.

Implicit Types (s : mm) (l : Z * Z) (d va a : Z).

#[local] Arguments present : simpl never.
#[local] Ltac go H := rewrite (bind_done _ _ _ _ _ H).

(** * Entries *)

(** A user address, and its entry in a directory if there is one. *)
Definition user a : Prop := 0 <= a < 0xC0000000.
Definition entry_at s l : option Z := if present (pte_at (ptes s) l) then Some (pte_at (ptes s) l) else None.
Definition dentry s d a : option Z := l ← loc_of s d a; entry_at s l.

(** A frame that some entry leads to. *)
Definition mapped_frame s (x : Z) : Prop := exists l, present (pte_at (ptes s) l) = true /\ phys_page (pte_at (ptes s) l) = x.

(** The user tables of [d] are no other directory's, and no table is there twice. *)
Definition private s d : Prop := forall n k ts, tabs_of s d = Some ts -> 0 <= n < 768 -> table_at ts n = Some k ->
  forall d' ts' n', tabs_of s d' = Some ts' -> table_at ts' n' = Some k -> d' = d /\ n' = n.

Lemma user_arith a : user a -> pdx a = a / 2 ^ 22 /\ 0 <= pdx a < 768 /\ ptx a = a / 2 ^ 12 mod 2 ^ 10 /\ a / 0x1000 = pdx a * 1024 + ptx a.
Proof.
  intros Ha. unfold user in Ha. assert (Hr : 0 <= a / 2 ^ 22 < 768).
  { split; [apply Z.div_pos; lia|apply Z.div_lt_upper_bound; lia]. }
  unfold pdx, ptx. rewrite !Z.shiftr_div_pow2 by lia. change 0x3FF with (Z.ones 10). rewrite !Z.land_ones by lia.
  rewrite (Z.mod_small (a / 2 ^ 22)) by lia. split_and!; [done|lia|lia|done|].
  change 0x1000 with (2 ^ 12). change (2 ^ 22) with (2 ^ 12 * 2 ^ 10). rewrite <- Z.div_div by lia.
  pose proof (Z.div_mod (a / 2 ^ 12) (2 ^ 10) ltac:(lia)). lia.
Qed.

Lemma user_page a b : user a -> user b -> a / 0x1000 = b / 0x1000 <-> pdx a = pdx b /\ ptx a = ptx b.
Proof.
  intros Ha Hb. destruct (user_arith a Ha) as (_ & Hp & Ht & Ea), (user_arith b Hb) as (_ & Hp' & Ht' & Eb).
  pose proof (Z.mod_pos_bound (a / 2 ^ 12) (2 ^ 10) ltac:(lia)). pose proof (Z.mod_pos_bound (b / 2 ^ 12) (2 ^ 10) ltac:(lia)).
  rewrite Ea, Eb. lia.
Qed.

Lemma dentry_page s d a b : user a -> user b -> a / 0x1000 = b / 0x1000 -> dentry s d a = dentry s d b.
Proof. intros Ha Hb [Ep Et]%user_page; [|done..]. unfold dentry, loc_of. by rewrite Ep, Et. Qed.

Lemma loc_inv s d a l : loc_of s d a = Some l -> exists ts k, tabs_of s d = Some ts /\ table_at ts (pdx a) = Some k /\ l = (k, ptx a).
Proof.
  unfold loc_of. destruct (tabs_of s d) as [ts|]; cbn; [|done]. destruct (table_at ts (pdx a)) as [k|] eqn:Ek; cbn; [|done].
  intros [= <-]. by exists ts, k.
Qed.

Lemma private_inj s d d' a b l : private s d -> user a -> user b -> loc_of s d a = Some l -> loc_of s d' b = Some l ->
  d' = d /\ b / 0x1000 = a / 0x1000.
Proof.
  intros P Ha Hb (ts & k & Hts & Hk & ->)%loc_inv (ts' & k' & Hts' & Hk' & E)%loc_inv. injection E as <- Et.
  destruct (P _ _ _ Hts (proj1 (proj2 (user_arith a Ha))) Hk _ _ _ Hts' Hk') as [-> Ep]. split; [done|]. by apply user_page.
Qed.

(** The entry of a user address is in a table of pages, not of temporary ones. *)
Lemma user_loc base s d a l : mm_ok base s -> user a -> loc_of s d a = Some l -> l.1 ∈ tables s /\ tmp_table s <> Some l.1.
Proof.
  intros O Ha Hl. destruct (loc_of_table base s d a l O Hl) as (Hin & _ & Hx). split; [done|]. intros Ht.
  by apply (proj2 (user_va a Ha)), Hx.
Qed.

Lemma utrans_dentry base s a : mm_ok base s -> user a -> utrans s a = phys_page <$> dentry s (cr3_dir s) a.
Proof.
  intros O Ha. unfold utrans, dentry, entry_at. rewrite uaddr2va_id by (unfold user, fits in *; lia).
  destruct (loc_of s (cr3_dir s) a) as [l|] eqn:Hl; [|done]. cbn.
  pose proof (user_loc base s (cr3_dir s) a l O Ha Hl) as [Hin _]. rewrite (bool_decide_true _ Hin).
  cbn. by destruct (present (pte_at (ptes s) l)).
Qed.

Lemma dentry_inv s d a w : dentry s d a = Some w -> exists l, loc_of s d a = Some l /\ pte_at (ptes s) l = w /\ present w = true.
Proof.
  unfold dentry, entry_at. destruct (loc_of s d a) as [l|]; cbn; [|done]. destruct (present _) eqn:Hp; [|done]. intros [= <-]. by exists l.
Qed.

Lemma can_store_dentry s a w : user a -> dentry s (cr3_dir s) a = Some w -> can_store s a = Z.testbit w 1.
Proof.
  intros Ha (l & Hl & <- & _)%dentry_inv. unfold can_store. rewrite uaddr2va_id by (unfold user, fits in *; lia). by rewrite Hl.
Qed.

Lemma dentry_mapped s d a w : dentry s d a = Some w -> mapped_frame s (phys_page w).
Proof. intros (l & _ & <- & Hp)%dentry_inv. by exists l. Qed.

Lemma nrefs_zero s x : nrefs (ptes s) x = 0 <-> ~ mapped_frame s x.
Proof.
  unfold nrefs. split.
  - intros H0 (l & Hp & Hx). assert (E : filter (maps_to x) (ptes s) = ∅) by (apply map_size_empty_inv; lia).
    assert (Hl : filter (maps_to x) (ptes s) !! l = Some (pte_at (ptes s) l)); [|by rewrite E in Hl].
    apply map_lookup_filter_Some. split; [|done]. unfold pte_at in *. by destruct (ptes s !! l).
  - intros Hn. assert (E : filter (maps_to x) (ptes s) = ∅); [|by rewrite E].
    apply map_empty. intros l. apply map_lookup_filter_None. right. intros w Hw [Hp Hx]. apply Hn. exists l. unfold pte_at. by rewrite Hw.
Qed.

(** * Insertion into the tables of one directory *)

Section insert.
Context (base : Z).

Lemma new_table_private s s' d va : mm_ok base s -> private s d -> d <> KDIR -> new_table s s' d va ->
  private s' d /\ tmp_table s' = tmp_table s.
Proof.
  intros O P Hk [[Et Es]|(ts & K & r & Hts & Hn & HK & Hr & Hp & Hnin & Et & Hd & Ho)].
  - split; [|unfold tmp_table; by rewrite Es]. intros n k ts Hts Hn Hk' d' ts' n' Hts'. rewrite Es in Hts, Hts'. eauto.
  - split; [|unfold tmp_table; by rewrite Ho]. destruct (tmp_kaddr r Hr) as [Hk0 _]. set (k := va2kaddr (tmp_va r)) in *.
    assert (Hold : forall d' ts' n', tabs_of s d' = Some ts' -> table_at ts' n' <> Some k).
    { intros d' ts' n' H1 H2. by apply Hnin, (mo_tabs _ _ O d' ts' n' k). }
    intros n k' ts1 Hts1 Hn1 Hk1 d' ts' n' Hts' Hk'. rewrite Hd in Hts1. apply (inj Some) in Hts1 as <-.
    rewrite table_at_insert in Hk1 by done. case_bool_decide as En.
    + injection Hk1 as <-. destruct (decide (d' = d)) as [->|Hne].
      * rewrite Hd in Hts'. apply (inj Some) in Hts' as <-. rewrite table_at_insert in Hk' by done. case_bool_decide; [by subst|].
        by destruct (Hold _ _ _ Hts Hk').
      * rewrite Ho in Hts' by done. by destruct (Hold _ _ _ Hts' Hk').
    + destruct (decide (d' = d)) as [->|Hne].
      * rewrite Hd in Hts'. apply (inj Some) in Hts' as <-. rewrite table_at_insert in Hk' by done. case_bool_decide; [|by apply (P n k' ts Hts Hn1 Hk1 d ts)].
        injection Hk' as <-. by destruct (Hold _ _ _ Hts Hk1).
      * rewrite Ho in Hts' by done. by apply (P n k' ts Hts Hn1 Hk1 d' ts').
Qed.

Lemma new_table_loc s s' d va d' a : d' <> d -> new_table s s' d va -> loc_of s' d' a = loc_of s d' a.
Proof. intros Hne [[_ Es]|(ts & K & r & _ & _ & _ & _ & _ & _ & _ & _ & Ho)]; unfold loc_of; [by rewrite Es|by rewrite Ho]. Qed.

(** A location that was not there before is empty. *)
Lemma new_table_empty s s' d va a l : mm_ok base s -> new_table s s' d va -> loc_of s d a = None -> loc_of s' d a = Some l ->
  pte_at (ptes s) l = 0 /\ tmp_table s <> Some l.1.
Proof.
  intros O [[_ Es]|(ts & K & r & Hts & Hn & HK & Hr & _ & Hnin & _ & Hd & _)] H0 H1; [unfold loc_of in *; congruence|].
  destruct (tmp_kaddr r Hr) as [Hk0 _]. set (k := va2kaddr (tmp_va r)) in *.
  apply loc_inv in H1 as (ts' & k' & Hts' & Hk' & ->). rewrite Hd in Hts'. apply (inj Some) in Hts' as <-.
  rewrite table_at_insert in Hk' by done. case_bool_decide as En.
  - injection Hk' as <-. split.
    + unfold pte_at. destruct (ptes s !! (k, ptx a)) as [w|] eqn:Ew; [|done]. by destruct (Hnin (mo_live _ _ O _ _ Ew)).
    + cbn. rewrite HK. intros [= E]. destruct (mo_tmp _ _ O) as (K' & HK' & Hin). apply Hnin. congruence.
  - exfalso. unfold loc_of in H0. rewrite Hts in H0. cbn in H0. by rewrite Hk' in H0.
Qed.

Lemma insert_dentry s s' d va p pm rc : mm_ok base s -> mm_ok base s' -> private s d -> d <> KDIR -> user va ->
  insert_done s s' d va p pm rc -> 0 <= p < 2 ^ 20 -> Z.testbit pm 0 = true ->
  dentry s' d va = Some (PTE_t (page_addr p) pm) /\
  (forall d' a, user a -> d' <> d \/ a / 0x1000 <> va / 0x1000 -> dentry s' d' a = dentry s d' a) /\
  private s' d /\ tmp_table s' = tmp_table s.
Proof.
  intros O O' P Hk Hu (l0 & Hl0 & Hw & Hold & Hsame & _ & _ & _ & Hnt) Hp Hpm.
  destruct (new_table_private s s' d va O P Hk Hnt) as [P' Htmp]. split_and!; [..|done|done].
  - unfold dentry. rewrite Hl0. cbn. unfold entry_at. by rewrite Hw, PTE_t_present, Hpm.
  - intros d' a Ha Hne.
    assert (Hne' : forall l, loc_of s' d' a = Some l -> l <> l0).
    { intros l Hl ->. destruct (private_inj s' d d' va a l0 P' Hu Ha Hl0 Hl). tauto. }
    unfold dentry. destruct (loc_of s d' a) as [l|] eqn:Hl.
    + rewrite (Hold _ _ _ Hl). cbn. unfold entry_at. rewrite Hsame; [done|by apply Hne', Hold|by apply (user_loc base s d' a)].
    + destruct (loc_of s' d' a) as [l|] eqn:Hl'; [|done]. cbn. unfold entry_at.
      destruct (decide (d' = d)) as [->|Hd]; [|rewrite (new_table_loc s s' d va d' a Hd Hnt) in Hl'; congruence].
      destruct (new_table_empty s s' d va a l O Hnt Hl Hl') as [E0 Et].
      rewrite Hsame by auto. by rewrite E0.
Qed.
End insert.

(** A change of the temporary slots alone. *)
Lemma tmp_dentry base s s' K r w : mm_ok base s -> tmp_table s = Some K -> (forall d, tabs_of s' d = tabs_of s d) ->
  ptes s' = <[(K, r) := w]> (ptes s) -> forall d a, user a -> dentry s' d a = dentry s d a.
Proof.
  intros O HK Ht He d a Ha. unfold dentry, loc_of. rewrite Ht. fold (loc_of s d a).
  destruct (loc_of s d a) as [l|] eqn:Hl; [|done]. cbn. unfold entry_at. rewrite He, pte_at_insert, bool_decide_false; [done|].
  intros ->. by apply (proj2 (user_loc base s d a _ O Ha Hl)).
Qed.

(** * One page *)

(** What copying into the directory [d] leaves: the other directories' user addresses lead where
    they led, no frame that was in use has changed. *)
Record grows (base : Z) d s s' : Prop := {
  gw_ok : mm_ok base s';
  gw_cpu : cpu_equiv (cpu_of s') (cpu_of s);
  gw_cr3 : cr3_dir s' = cr3_dir s;
  gw_breaks : forall d', d' <> d -> breaks <$> dirs s' !! d' = breaks <$> dirs s !! d';
  gw_dir : is_Some (dirs s !! d) -> is_Some (dirs s' !! d);
  gw_private : private s' d;
  gw_other : forall d' a, d' <> d -> user a -> dentry s' d' a = dentry s d' a;
  gw_keep : forall l, present (pte_at (ptes s) l) = true -> pte_at (ptes s') l = pte_at (ptes s) l;
  gw_frames : forall x, mapped_frame s x -> frames s' !! x = frames s !! x;
}.

Lemma gw_mapped base d s s' x : grows base d s s' -> mapped_frame s x -> mapped_frame s' x.
Proof. intros G (l & Hp & Hx). exists l. by rewrite (gw_keep _ _ _ _ G). Qed.

Lemma gw_trans base d s1 s2 s3 : grows base d s1 s2 -> grows base d s2 s3 -> grows base d s1 s3.
Proof.
  intros G H. split; try apply H.
  - by rewrite (gw_cpu _ _ _ _ H), (gw_cpu _ _ _ _ G).
  - by rewrite (gw_cr3 _ _ _ _ H), (gw_cr3 _ _ _ _ G).
  - intros d' Hne. by rewrite (gw_breaks _ _ _ _ H), (gw_breaks _ _ _ _ G).
  - intros Hs. by apply (gw_dir _ _ _ _ H), (gw_dir _ _ _ _ G).
  - intros d' a Hne Ha. rewrite (gw_other _ _ _ _ H) by done. by apply (gw_other _ _ _ _ G).
  - intros l Hp. rewrite (gw_keep _ _ _ _ H); by rewrite (gw_keep _ _ _ _ G).
  - intros x Hx. rewrite (gw_frames _ _ _ _ H) by (by eapply gw_mapped). by apply (gw_frames _ _ _ _ G).
Qed.

Lemma gw_some base d s s' d' : grows base d s s' -> is_Some (dirs s !! d') -> is_Some (dirs s' !! d').
Proof.
  intros G Hs. destruct (decide (d' = d)) as [->|Hne]; [by apply (gw_dir _ _ _ _ G)|]. destruct Hs as [i Hi].
  pose proof (gw_breaks _ _ _ _ G d' Hne) as E. rewrite Hi in E. by destruct (dirs s' !! d').
Qed.

Lemma loaded_dirs s s' : loaded s' = loaded s ->
  (forall d, breaks <$> dirs s' !! d = breaks <$> dirs s !! d) /\ forall d, is_Some (dirs s !! d) -> is_Some (dirs s' !! d).
Proof.
  intros [= _ E _]. assert (H : forall d, breaks <$> dirs s' !! d = breaks <$> dirs s !! d) by (intros d; by rewrite <- !lookup_fmap, E).
  split; [done|]. intros d [i Hi]. specialize (H d). rewrite Hi in H. by destruct (dirs s' !! d).
Qed.

Section copy.
Context (base d : Z) (Hd : d <> KDIR).

(** The state behind tmp_page_alloc_map and behind copy_frame. *)
Lemma copy_frame_run s va p w : mm_ok base s -> user va -> dentry s (cr3_dir s) va = Some w ->
  copy_frame va p s = Done tt (set_frames (<[p := default [] (frames s !! phys_page w)]> (frames s)) s).
Proof.
  intros O Ha (l & Hl & <- & Hp)%dentry_inv. unfold copy_frame. go (eq_refl : get s = Done s s).
  destruct (loc_of_tabs _ _ _ _ Hl) as [ts Ht]. go (page_get_run s (cr3_dir s) va ts Ht). rewrite Hl. cbn [deref].
  go (eq_refl : (mret l : M mm _) s = Done l s). by go (pte_rd_run s l (proj1 (user_loc base s _ va l O Ha Hl))).
Qed.

Lemma mm_ok_frames f s : mm_ok base s -> mm_ok base (set_frames f s).
Proof. by intros [? ? ? ? ? ? ? ?]. Qed.

(** The temporary slot is given back. *)
Lemma drop_slot s s3 K r p : mm_ok base s -> tmp_table s = Some K -> 0 <= r < 1024 -> present (pte_at (ptes s) (K, r)) = false ->
  mm_ok base s3 -> tmp_table s3 = Some K -> pte_at (ptes s3) (K, r) = PTE_t (page_addr p) (Z.lor PTE_P PTE_W) -> 0 <= p < 2 ^ 20 ->
  va2kaddr (tmp_va r) ∉ tables s3 ->
  cpu_equiv (cpu_of s3) (cpu_of s) -> (exists g, loaded s3 = loaded (set_frames g s)) -> private s3 d ->
  (forall d' a, d' <> d -> user a -> dentry s3 d' a = dentry s d' a) ->
  (forall l, present (pte_at (ptes s) l) = true -> pte_at (ptes s3) l = pte_at (ptes s) l) ->
  (forall x, mapped_frame s x -> frames s3 !! x = frames s !! x) ->
  exists s4, tmp_page_free (tmp_va r) s3 = Done (nrefs (ptes s3) p - 1) s4 /\ grows base d s s4 /\
    (forall d' a, user a -> dentry s4 d' a = dentry s3 d' a) /\ frames s4 = frames s3.
Proof.
  intros O HK Hr Habs O3 HK3 Hw Hp Hnin Hc [g Hl3] P3 Hoth Hkeep Hfr.
  destruct (tmp_page_free_run base s3 r K O3 HK3 Hr) as (s4 & E & O4 & He & Htb & Hts & _ & _ & Hc4); [by rewrite Hw, PTE_t_present|done|].
  rewrite Hw, PTE_t_page in E by done. pose proof (keeps_done _ _ _ _ _ (keeps_tmp_page_free (tmp_va r)) E) as L. pose proof (loaded_frames _ _ L) as L3.
  assert (L4 : loaded s4 = loaded (set_frames (frames s4) s)).
  { pose proof (loaded_cr3 _ _ L) as L1. pose proof (loaded_cr3 _ _ Hl3) as L2. destruct (loaded_dirs _ _ L) as [L5 _]. destruct (loaded_dirs _ _ Hl3) as [L6 _].
    unfold loaded. rewrite L1, L2. do 2 f_equal. apply map_eq. intros d'. rewrite !lookup_fmap. by rewrite L5, L6. }
  destruct (loaded_dirs _ _ L4) as [B1 B2]. pose proof (loaded_cr3 _ _ L4) as L1.
  pose proof (tmp_dentry base s3 s4 K r _ O3 HK3 Hts He) as De.
  exists s4. split; [exact E|]. split; [|split; [exact De|done]]. split; try done.
  - by rewrite Hc4.
  - exact (B2 d).
  - intros n k ts. rewrite Hts. intros H1 H2 H3 d' ts' n'. rewrite Hts. by apply (P3 n k ts).
  - intros d' a Hne Ha. rewrite De by done. by apply Hoth.
  - intros l Hl. rewrite He, pte_at_insert, bool_decide_false; [by apply Hkeep|]. intros ->. congruence.
  - intros x Hx. rewrite L3. by apply Hfr.
Qed.

Lemma copy_page_run s va w pm : mm_ok base s -> private s d -> is_Some (dirs s !! d) -> user va ->
  dentry s d va = None -> dentry s (cr3_dir s) va = Some w -> Z.testbit pm 0 = true ->
  exists z s', copy_page_from_current d va pm s = Done z s' /\ grows base d s s' /\
    ((z = - ENOMEM /\ forall a, user a -> dentry s' d a = dentry s d a) \/
     (z = 0 /\ exists q, 0 <= q < 2 ^ 20 /\ ~ mapped_frame s q /\
        dentry s' d va = Some (PTE_t (page_addr q) (Z.land pm 7)) /\
        (forall a, user a -> a / 0x1000 <> va / 0x1000 -> dentry s' d a = dentry s d a) /\
        frames s' !! q = Some (default [] (frames s !! phys_page w)))).
Proof.
  intros O P [i Hi] Ha Hn Hw Hpm. destruct (mm_cpu _ _ O) as [Hok HIF]. destruct (user_va va Ha) as [Hacc Hx].
  unfold copy_page_from_current. go (int_disable_run s HIF).
  pose proof (keeps_tmp_page_alloc_map (Z.lor PTE_P PTE_W)) as K1.
  destruct (tmp_alloc_run base (page_insert_fuel 1) s (Z.lor PTE_P PTE_W) O eq_refl)
    as [(o & tva & s1 & E1 & O1 & Sm & He & Hph)|(K & r & p & s1 & E1 & Hr & HK & Hb & Dn)].
  - change (tmp_page_alloc_map (Z.lor PTE_P PTE_W) s = Done (- ENOMEM, o, tva) s1) in E1.
    pose proof (keeps_done _ _ _ _ _ K1 E1) as L. go E1. change (- ENOMEM <? 0) with true. cbv iota.
    assert (De : forall d' a, dentry s1 d' a = dentry s d' a).
    { intros d' a. unfold dentry, entry_at. rewrite (same_maps_loc _ _ _ _ Sm). by rewrite He. }
    exists (- ENOMEM), s1. split; [done|]. split; [|left; by auto].
    pose proof (loaded_cr3 _ _ L) as L1. pose proof (loaded_frames _ _ L) as L3. destruct (loaded_dirs _ _ L) as [B1 B2]. split; try done.
    + unfold cpu_of. cbn. by rewrite Hph.
    + exact (B2 d).
    + intros n k ts. rewrite (sm_tabs _ _ Sm). intros H1 H2 H3 d' ts' n'. rewrite (sm_tabs _ _ Sm). by apply (P n k ts).
    + intros l _. by rewrite He.
    + intros x _. by rewrite L3.
  - change (tmp_page_alloc_map (Z.lor PTE_P PTE_W) s = Done (0, Some p, tmp_va r) s1) in E1.
    pose proof (keeps_done _ _ _ _ _ K1 E1) as L. pose proof L as [= L1 L2 L3]. go E1. change (0 <? 0) with false. cbv iota. cbn [deref].
    go (eq_refl : (mret p : M mm _) s1 = Done p s1).
    destruct Dn as (O1 & Htb & Hts & _ & He & Hu & _ & Hpb & Hnp & _ & _ & Hc1).
    destruct (free_slot base s r K O HK Hr Hb) as [Habs Hnin].
    pose proof (frame_range base s1 p _ O1 Hpb (proj1 Hu)) as Hpr. apply nrefs_zero in Hnp as Hfresh.
    pose proof (tmp_dentry base s s1 K r _ O HK Hts He) as D1.
    rewrite <- (D1 d va Ha) in Hn. rewrite <- (D1 _ va Ha), <- L1 in Hw.
    go (copy_frame_run s1 va p w O1 Ha Hw). rewrite L3. set (g := <[p := _]> (frames s)). set (s2 := set_frames g s1).
    assert (HK2 : tmp_table s2 = Some K) by (unfold tmp_table; change (tabs_of s2 KDIR) with (tabs_of s1 KDIR); by rewrite Hts).
    assert (P2 : private s2 d).
    { intros n k ts. change (tabs_of s2) with (tabs_of s1). rewrite Hts. intros H1 H2 H3 d' ts' n'. rewrite Hts. by apply (P n k ts). }
    assert (Hslot : pte_at (ptes s2) (K, r) = PTE_t (page_addr p) (Z.lor PTE_P PTE_W)).
    { change (ptes s2) with (ptes s1). by rewrite He, pte_at_insert, bool_decide_true. }
    assert (K2 : forall l, present (pte_at (ptes s) l) = true -> pte_at (ptes s2) l = pte_at (ptes s) l).
    { intros l Hl. change (ptes s2) with (ptes s1). rewrite He, pte_at_insert, bool_decide_false; [done|]. intros ->. congruence. }
    assert (F2 : forall x, mapped_frame s x -> g !! x = frames s !! x).
    { intros x Hmx. apply lookup_insert_ne. intros ->. by apply Hfresh. }
    pose proof (mm_ok_frames g s1 O1) as O2. change (mm_ok base s2) in O2.
    assert (Ht2 : tabs_of s2 d = Some (pgtables i)) by (change (tabs_of s2) with (tabs_of s1); rewrite Hts; unfold tabs_of; by rewrite Hi).
    destruct (page_insert_run base s2 d va p (Z.land pm 7) 1 (pgtables i) O2 Ht2 Hpb Hu ltac:(lia)) as (z & s3 & E3 & O3 & Hc3 & Hcase); try done.
    { rewrite Z.land_spec, Hpm. done. }
    { intros l Hl. change (loc_of s1 d va = Some l) in Hl. unfold dentry, entry_at in Hn. rewrite Hl in Hn. cbn in Hn.
      change (ptes s2) with (ptes s1). by destruct (present _). }
    pose proof (keeps_page_insert 2 d p va (Z.land pm 7)) as K3. change (page_insert_fuel 2) with page_insert in K3.
    pose proof (keeps_done _ _ _ _ _ K3 E3) as [= M1 M2 M3]. go E3.
    assert (C3 : cpu_equiv (cpu_of s3) (cpu_of s)) by (etransitivity; [exact Hc3|exact Hc1]).
    destruct Hcase as [[-> (Hloc & Sm & He3 & _)]|[-> Dn]].
    + change (- ENOMEM <? 0) with true. cbv iota.
      assert (De : forall d' a, dentry s3 d' a = dentry s1 d' a).
      { intros d' a. unfold dentry, entry_at. rewrite (same_maps_loc _ _ _ _ Sm). by rewrite He3. }
      destruct (drop_slot s s3 K r p O HK Hr Habs O3) as (s4 & E4 & G & D4 & _); try done.
      * by rewrite (same_maps_tmp _ _ Sm).
      * by rewrite He3.
      * rewrite (sm_tables _ _ Sm). change (tables s2) with (tables s1). by rewrite Htb.
      * exists (frames s2). unfold loaded. rewrite M1, M2, M3. cbn. by rewrite L1, L2.
      * intros n k ts. rewrite (sm_tabs _ _ Sm). intros H1 H2 H3 d' ts' n'. rewrite (sm_tabs _ _ Sm). by apply (P2 n k ts).
      * intros d' a _ Hua. rewrite De. by apply D1.
      * intros l Hl. rewrite He3. by apply K2.
      * intros x Hmx. rewrite M3. by apply F2.
      * exists (- ENOMEM), s4. split; [|split; [exact G|left; split; [done|]]].
        -- go E4. rewrite He3. change (ptes s2) with (ptes s1). rewrite He, nrefs_set, Hnp.
           rewrite bool_decide_false, bool_decide_true; [done|..].
           ++ split; cbn; [by rewrite PTE_t_present|by apply PTE_t_page].
           ++ intros [Hx' _]. cbn in Hx'. congruence.
        -- intros a Hua. rewrite D4 by done. rewrite De. by apply D1.
    + change (1 + 1 <? 0) with false. cbv iota. change (1 + 1) with 2 in Dn.
      destruct (insert_dentry base s2 s3 d va p (Z.land pm 7) 2 O2 O3 P2 Hd Ha Dn Hpr) as (Da & Do & P3 & HK3); [by rewrite Z.land_spec, Hpm|].
      destruct Dn as (l0 & Hl0 & _ & Hold & _ & _ & _ & Hk3 & Hnt).
      assert (Hl0K : l0 <> (K, r)).
      { intros ->. apply (proj2 (user_loc base s3 d va _ O3 Ha Hl0)). by rewrite HK3. }
      assert (Hs3 : pte_at (ptes s3) (K, r) = PTE_t (page_addr p) (Z.lor PTE_P PTE_W)).
      { rewrite Hk3; [done|done|]. by rewrite Hslot, PTE_t_present. }
      destruct (drop_slot s s3 K r p O HK Hr Habs O3) as (s4 & E4 & G & D4 & F4); try done.
      * by rewrite HK3.
      * destruct Hnt as [[Et _]|(ts & K' & r' & _ & _ & HK' & Hr' & Hab' & _ & Et & _)]; rewrite Et; change (tables s2) with (tables s1); rewrite Htb; [done|].
        rewrite not_elem_of_union, not_elem_of_singleton. split; [|done]. intros Er. apply tmp_kaddr_inj in Er; [|done..]. subst r'.
        rewrite HK2 in HK'. injection HK' as <-. rewrite Hslot, PTE_t_present in Hab' by done. done.
      * exists (frames s2). unfold loaded. rewrite M1, M2, M3. cbn. by rewrite L1, L2.
      * intros d' a Hne Hua. rewrite Do by auto. by apply D1.
      * intros l Hl. rewrite Hk3; [by apply K2| |by rewrite K2]. intros ->.
        destruct (loc_of s2 d va) as [l1|] eqn:Hl1.
        -- pose proof (Hold _ _ _ Hl1) as Hl1'. assert (l1 = l0) as -> by congruence. change (loc_of s1 d va = Some l0) in Hl1.
           unfold dentry, entry_at in Hn. rewrite Hl1 in Hn. cbn in Hn. change (ptes s1) with (ptes s2) in Hn. by rewrite K2, Hl in Hn.
        -- destruct (new_table_empty base s2 s3 d va va l0 O2 Hnt Hl1 Hl0) as [E0 _]. rewrite <- K2 in Hl by done. by rewrite E0 in Hl.
      * intros x Hmx. rewrite M3. by apply F2.
      * exists 0, s4. split; [|split; [exact G|right; split; [done|]]].
        -- go E4. rewrite (proj2 (Z.ltb_lt _ _)); [done|].
           assert (nrefs (ptes s3) p <> 0); [|pose proof (nrefs_nonneg (ptes s3) p); lia].
           intros H0. apply nrefs_zero in H0. apply H0. exists (K, r). rewrite Hs3. by rewrite PTE_t_present, PTE_t_page.
        -- exists p. split_and!; [lia|lia|done|by rewrite D4|..].
           ++ intros a Hua Hne. rewrite D4, Do by auto. by apply D1.
           ++ rewrite F4, M3. apply lookup_insert_eq.
Qed.
End copy.

(** * A range of pages *)

Section pages.
Context (base d : Z) (Hd : d <> KDIR) (s0 : mm) (Hds : d <> cr3_dir s0) (Hcr : is_Some (dirs s0 !! cr3_dir s0)) (Hdd : is_Some (dirs s0 !! d)).
Notation src := (cr3_dir s0).
Implicit Types (D : Z -> Prop).

(** The child's page at [a]: none if the parent has none; else with the parent's contents in a frame that
    nothing led to. *)
Definition copy_of s a : Prop :=
  match dentry s0 src a with
  | None => dentry s d a = None
  | Some w => exists q, dentry s d a = Some (PTE_t (page_addr q) (Z.land (perm w) 7)) /\ 0 <= q < 2 ^ 20 /\ ~ mapped_frame s0 q /\
      frames s !! q = Some (default [] (frames s0 !! phys_page w))
  end.

(** The pages of [D] are copied, the others are as they were. *)
Record copied D s : Prop := {
  co_grows : grows base d s0 s;
  co_done : forall a, user a -> D a -> copy_of s a;
  co_todo : forall a, user a -> ~ D a -> dentry s d a = dentry s0 d a;
}.

Lemma perm_low w : present w = true -> Z.testbit (perm w) 0 = true /\ Z.testbit (Z.land (perm w) 7) 0 = true.
Proof. intros Hp. unfold present, perm in *. rewrite !Z.land_spec, Hp. done. Qed.

Lemma copy_of_kept s s' a : copy_of s a -> grows base d s s' -> dentry s' d a = dentry s d a -> copy_of s' a.
Proof.
  unfold copy_of. intros H G E. rewrite E. destruct (dentry s0 src a) as [w|] eqn:Hw; [|done].
  destruct H as (q & Hq & Hr & Hf & Hc). exists q. split_and!; [done|lia|lia|done|]. rewrite (gw_frames _ _ _ _ G); [done|].
  pose proof (dentry_mapped _ _ _ _ Hq) as Hm. by rewrite PTE_t_page in Hm.
Qed.

Lemma copy_step D s i : copied D s -> user i -> (forall a, user a -> a / 0x1000 = i / 0x1000 -> ~ D a) -> dentry s0 d i = None ->
  exists r s', copy_pages_page d src i s = Done r s' /\
    (r = Some (- ENOMEM) /\ grows base d s0 s' \/ r = None /\ copied (fun a => D a \/ a / 0x1000 = i / 0x1000) s').
Proof.
  intros [G Hdone Htodo] Hi HnD Hn0. pose proof (gw_ok _ _ _ _ G) as O. pose proof (gw_cr3 _ _ _ _ G) as Ec.
  assert (Hn : dentry s d i = None) by (rewrite Htodo; auto).
  assert (Hs : dentry s src i = dentry s0 src i) by (apply (gw_other _ _ _ _ G); auto).
  assert (Hi' : forall a, user a -> a / 0x1000 = i / 0x1000 -> dentry s0 src a = dentry s0 src i) by (intros a Ha E; by apply dentry_page).
  destruct (gw_some _ _ _ _ _ G Hcr) as [j Hj].
  assert (Ht : tabs_of s src = Some (pgtables j)) by (unfold tabs_of; by rewrite Hj).
  unfold copy_pages_page. go (page_get_run s src i _ Ht).
  assert (Hnone : dentry s src i = None -> copied (fun a => D a \/ a / 0x1000 = i / 0x1000) s).
  { intros Hsn. split; [done| |].
    - intros a Ha [HD|HE]; [by apply Hdone|]. unfold copy_of. rewrite Hi', <- Hs, Hsn by done. rewrite <- Hn. by apply dentry_page.
    - intros a Ha Hno. apply Htodo; tauto. }
  destruct (loc_of s src i) as [l|] eqn:Hl.
  2:{ exists None, s. split; [done|right]. split; [done|]. apply Hnone. unfold dentry. by rewrite Hl. }
  go (pte_rd_run s l (proj1 (user_loc base s src i l O Hi Hl))). destruct (present (pte_at (ptes s) l)) eqn:Hp; cbn [negb].
  2:{ exists None, s. split; [done|right]. split; [done|]. apply Hnone. unfold dentry, entry_at. rewrite Hl. cbn. by rewrite Hp. }
  set (w := pte_at (ptes s) l) in *. assert (Hw : dentry s src i = Some w) by (unfold dentry, entry_at; rewrite Hl; cbn; fold w; by rewrite Hp).
  destruct (copy_page_run base d Hd s i w (perm w) O (gw_private _ _ _ _ G) (gw_some _ _ _ _ _ G Hdd) Hi Hn)
    as (z & s' & E & G' & Hcase); [by rewrite Ec|by apply perm_low|]. go E.
  pose proof (gw_trans _ _ _ _ _ G G') as G2.
  destruct Hcase as [[-> _]|(-> & q & Hq & Hnq & Hdq & Hoth & Hfq)]; [by exists (Some (- ENOMEM)), s'; auto|].
  exists None, s'. split; [done|right]. split; [done|]. split; [done| |].
  - intros a Ha HDa. destruct (decide (a / 0x1000 = i / 0x1000)) as [HE|HE].
    + unfold copy_of. rewrite Hi', <- Hs, Hw by done. exists q. split_and!; [|lia|lia| |].
      * rewrite <- Hdq. by apply dentry_page.
      * intros Hm. by apply Hnq, (gw_mapped base d s0 s).
      * rewrite Hfq. f_equal. f_equal. apply (gw_frames _ _ _ _ G). rewrite Hs in Hw. by apply dentry_mapped in Hw.
    + destruct HDa as [HDa|]; [|done]. apply (copy_of_kept s); auto.
  - intros a Ha Hno. rewrite Hoth by tauto. apply Htodo; tauto.
Qed.

(** The pages from [lo] on. *)
Context (lo N : Z) (Hal : lo mod 0x1000 = 0) (H0 : 0 <= lo) (H1 : lo + N * 0x1000 <= 0xC0000000).
Notation pg k := (lo + k * 0x1000).

Lemma in_page_iff k a : a / 0x1000 = pg k / 0x1000 <-> pg k <= a < pg (k + 1).
Proof.
  rewrite Z.div_add by lia. pose proof (Z.div_mod lo 0x1000 ltac:(lia)) as El. rewrite Hal in El. set (q := lo / 0x1000) in *.
  pose proof (Z.div_mod a 0x1000 ltac:(lia)). pose proof (Z.mod_pos_bound a 0x1000 ltac:(lia)). lia.
Qed.

Lemma copy_loop D m s k : copied (fun a => D a \/ lo <= a < pg k) s -> 0 <= k -> N = k + Z.of_nat m ->
  (forall a, lo <= a < pg N -> ~ D a /\ dentry s0 d a = None) ->
  exists r s', iter_until (copy_pages_page d src) (range_step (pg k) (pg N) 0x1000) s = Done r s' /\
    (r = Some (- ENOMEM) /\ grows base d s0 s' \/ r = None /\ copied (fun a => D a \/ lo <= a < pg N) s').
Proof.
  intros C Hk Hm HD. revert s k C Hk Hm. induction m as [|m IH]; intros s k C Hk Hm.
  - assert (N = k) as -> by lia. rewrite range_step_nil by lia. exists None, s. auto.
  - rewrite range_step_cons by lia. replace (pg k + 0x1000) with (pg (k + 1)) by lia. cbn [iter_until].
    destruct (copy_step _ s (pg k) C) as (r & s1 & E & [[-> G]|[-> C1]]).
    + unfold user. lia.
    + intros a _ Ea%in_page_iff [Ha|Ha]; [|lia]. by apply (HD a); [lia|].
    + apply HD. lia.
    + exists (Some (- ENOMEM)), s1. split; [by go E|by left].
    + destruct (IH s1 (k + 1)) as (r & s2 & E2 & H2); [|lia|lia|].
      * destruct C1 as [G1 X1 Y1]. split; [done| |].
        -- intros a Ha Hin. apply X1; [done|]. rewrite in_page_iff. destruct Hin as [?|?]; [by left; left|].
           destruct (Z.ltb_spec a (pg k)); [left; right; lia|right; lia].
        -- intros a Ha Hno. apply Y1; [done|]. rewrite in_page_iff. intros Hin. apply Hno. destruct Hin as [[?|?]|?]; [by left|right; lia..].
      * exists r, s2. split; [by go E|done].
Qed.

Lemma copy_pages_run D s : copied D s -> 0 <= N -> (forall a, lo <= a < pg N -> ~ D a /\ dentry s0 d a = None) ->
  exists r s', copy_pages d src lo (pg N) s = Done r s' /\
    (r = - ENOMEM /\ grows base d s0 s' \/ r = 0 /\ copied (fun a => D a \/ lo <= a < pg N) s').
Proof.
  intros C HN HD. pose proof (co_grows _ _ C) as G. destruct (mm_cpu _ _ (gw_ok _ _ _ _ G)) as [_ HIF].
  destruct (gw_some _ _ _ _ _ G Hcr) as [j Hj].
  unfold copy_pages. go (int_disable_run s HIF). go (eq_refl : get s = Done s s). rewrite (gw_cr3 _ _ _ _ G).
  go (dir_rd_run s src j Hj). go (dir_rd_run s src j Hj). rewrite Z.eqb_refl.
  destruct (copy_loop D (Z.to_nat N) s 0) as (r & s' & E & H); [|lia|lia|done|].
  { destruct C as [X Y Z]. split; [done| |].
    - intros a Ha [?|?]; [by apply Y|lia].
    - intros a Ha Hno. apply Z; tauto. }
  replace (pg 0) with lo in E by lia. exists (default 0 r), s'. split; [by go E|]. destruct H as [[-> H]|[-> H]]; auto.
Qed.
End pages.

Lemma copied_nothing base d s : mm_ok base s -> private s d -> copied base d s (fun _ => False) s.
Proof. intros O P. by split. Qed.

(** * A new directory *)

Section setup.
Context (base d : Z) (Hd : d <> KDIR).

(** No user tables; the others are in the places where they were. *)
Definition clean s (i : PageDirInfo) : Prop := forall n k, table_at (pgtables i) n = Some k ->
  ~ 0 <= n < 768 /\ k ∈ tables s /\ (tmp_table s = Some k -> n = TMPX).

Lemma dir_put_grows s i : mm_ok base s -> clean s i -> let s' := set_dirs (<[d := i]> (dirs s)) s in
  grows base d s s' /\ (forall a, user a -> dentry s' d a = None) /\ clean s' i.
Proof.
  intros O C s'. assert (Hts : forall d', d' <> d -> tabs_of s' d' = tabs_of s d').
  { intros d' Hne. unfold tabs_of. cbn. by rewrite lookup_insert_ne. }
  assert (Htd : tabs_of s' d = Some (pgtables i)) by (unfold tabs_of; cbn; by rewrite lookup_insert_eq).
  assert (HK : tmp_table s' = tmp_table s) by (unfold tmp_table; by rewrite Hts).
  split_and!.
  - pose proof O as [R H1 H2 H3 H4 H5 H6 H7]. split; try done.
    + split; try done.
      * by rewrite HK.
      * intros d' ts n k. rewrite HK. destruct (decide (d' = d)) as [->|Hne].
        -- rewrite Htd. intros E Hk. apply (inj Some) in E as <-. by apply (C n k).
        -- rewrite Hts by done. apply H4.
      * intros t r. rewrite HK. apply H5.
      * cbn. apply lookup_insert_is_Some'. by right.
    + intros d' Hne. cbn. by rewrite lookup_insert_ne.
    + intros _. cbn. by rewrite lookup_insert_eq.
    + intros n k ts E Hn Hk. rewrite Htd in E. apply (inj Some) in E as <-. by destruct (C n k Hk).
    + intros d' a Hne Ha. unfold dentry, loc_of. by rewrite Hts.
  - intros a Ha. unfold dentry, loc_of. rewrite Htd. cbn. destruct (table_at (pgtables i) (pdx a)) as [k|] eqn:Ek; [|done].
    destruct (C _ _ Ek) as [Hn _]. destruct (user_arith a Ha) as (_ & Hr & _). by destruct Hn.
  - intros n k Hk. rewrite HK. by apply C.
Qed.

(** The directory is there, with no user tables, and nothing else has changed. *)
Record fresh s s' : Prop := {
  fr_grows : grows base d s s';
  fr_none : forall a, user a -> dentry s' d a = None;
  fr_clean : exists i, dirs s' !! d = Some i /\ clean s' i;
}.

Lemma fresh_put s s1 i g : mm_ok base s -> fresh s s1 -> dirs s1 !! d = Some i -> (clean s1 i -> clean s1 (g i)) ->
  exists s2, dir_wr d g s1 = Done tt s2 /\ fresh s s2 /\ dirs s2 = <[d := g i]> (dirs s1).
Proof.
  intros O [G Hn (j & Hj & C)] Hi Hg. assert (j = i) as -> by congruence.
  exists (set_dirs (<[d := g i]> (dirs s1)) s1). split; [by apply dir_wr_run|]. split; [|done].
  destruct (dir_put_grows s1 (g i) (gw_ok _ _ _ _ G) (Hg C)) as (G' & Hn' & C'). split; [by eapply gw_trans|done|].
  exists (g i). split; [apply lookup_insert_eq|done].
Qed.

Lemma clean_same s i i' : pgtables i' = pgtables i -> clean s i -> clean s i'.
Proof. intros E C n k. rewrite E. apply C. Qed.

Lemma tmp_alloc_grows s s1 : mm_ok base s -> fresh s s1 ->
  exists z o va s2, tmp_page_alloc_map (Z.lor PTE_P PTE_W) s1 = Done (z, o, va) s2 /\ fresh s s2 /\
    (z = - ENOMEM \/ z = 0 /\ exists p, o = Some p).
Proof.
  intros O [G Hn (i & Hi & C)]. pose proof (gw_ok _ _ _ _ G) as O1.
  pose proof (keeps_tmp_page_alloc_map (Z.lor PTE_P PTE_W)) as K1.
  assert (Fin : forall z o va s2, tmp_page_alloc_map (Z.lor PTE_P PTE_W) s1 = Done (z, o, va) s2 -> mm_ok base s2 ->
    cpu_equiv (cpu_of s2) (cpu_of s1) -> tables s2 = tables s1 -> (forall d', tabs_of s2 d' = tabs_of s1 d') ->
    (forall d' a, user a -> dentry s2 d' a = dentry s1 d' a) ->
    (forall l, present (pte_at (ptes s1) l) = true -> pte_at (ptes s2) l = pte_at (ptes s1) l) -> fresh s s2).
  { intros z o va s2 E O2 Hc Htb Hts De Hk. pose proof (keeps_done _ _ _ _ _ K1 E) as L. destruct (loaded_dirs _ _ L) as [B1 B2].
    assert (HK : tmp_table s2 = tmp_table s1) by (unfold tmp_table; by rewrite Hts).
    split.
    - apply (gw_trans base d s s1 s2 G). split; try done.
      + by apply (loaded_cr3 _ _ L).
      + exact (B2 d).
      + intros n k ts. rewrite Hts. intros H1 H2 H3 d' ts' n'. rewrite Hts. by apply (gw_private _ _ _ _ G n k ts).
      + intros d' a _ Ha. by apply De.
      + intros x _. by rewrite (loaded_frames _ _ L).
    - intros a Ha. rewrite De by done. by apply Hn.
    - destruct (B2 d) as [i2 Hi2]; [by exists i|]. exists i2. split; [done|]. intros n k Hk'.
      pose proof (Hts d) as Ht. unfold tabs_of in Ht. rewrite Hi2, Hi in Ht. cbn in Ht. apply (inj Some) in Ht. rewrite Ht in Hk'.
      rewrite HK, Htb. by apply C. }
  destruct (tmp_alloc_run base (page_insert_fuel 1) s1 (Z.lor PTE_P PTE_W) O1 eq_refl)
    as [(o & tva & s2 & E & O2 & Sm & He & Hph)|(K & r & p & s2 & E & Hr & HK & Hb & Dn)].
  - exists (- ENOMEM), o, tva, s2. split; [exact E|]. split; [|by left]. apply (Fin _ _ _ _ E O2); try apply Sm.
    + unfold cpu_of. cbn. by rewrite Hph.
    + intros d' a _. unfold dentry, entry_at. rewrite (same_maps_loc _ _ _ _ Sm). by rewrite He.
    + intros l _. by rewrite He.
  - destruct Dn as (O2 & Htb & Hts & _ & He & _ & _ & _ & _ & _ & _ & Hc).
    exists 0, (Some p), (tmp_va r), s2. split; [exact E|]. split; [|right; eauto]. apply (Fin _ _ _ _ E O2 Hc Htb Hts).
    + by apply (tmp_dentry base s1 s2 K r _ O1 HK Hts He).
    + destruct (free_slot base s1 r K O1 HK Hr Hb) as [Habs _]. intros l Hl. rewrite He, pte_at_insert, bool_decide_false; [done|].
      intros ->. congruence.
Qed.

(** The kernel's tables of the parent. *)
Lemma link_loop s s1 dc ns : mm_ok base s -> fresh s s1 -> d <> dc -> is_Some (dirs s1 !! dc) -> Forall (fun n => 768 <= n) ns ->
  exists s2, iterM (fun n =>
    si ← dir_rd dc;
    dir_wr d (set_pde n (default 0 (pgdir si !! n))) ;;
    dir_wr d (set_pgtable n (pgtable_of si n))) ns s1 = Done tt s2 /\ fresh s s2.
Proof.
  intros O F Hne Hdc Hns. revert s1 F Hdc. induction Hns as [|n ns Hn _ IH]; intros s1 F Hdc; [by exists s1|].
  destruct Hdc as [j Hj]. destruct (fr_clean _ _ F) as (i & Hi & _).
  destruct (fresh_put s s1 i (set_pde n (default 0 (pgdir j !! n))) O F Hi) as (s2 & E2 & F2 & D2); [by apply clean_same|].
  assert (Hi2 : dirs s2 !! d = Some (set_pde n (default 0 (pgdir j !! n)) i)) by (rewrite D2; apply lookup_insert_eq).
  assert (Hj2 : dirs s2 !! dc = Some j) by (rewrite D2; by rewrite lookup_insert_ne).
  destruct (fresh_put s s2 _ (set_pgtable n (pgtable_of j n)) O F2 Hi2) as (s3 & E3 & F3 & D3).
  { intros C m k. cbn. unfold table_at. destruct (decide (m = n)) as [->|Hm].
    - rewrite lookup_insert_eq. cbn. intros Hk. destruct (mo_tabs base s2 (gw_ok _ _ _ _ (fr_grows _ _ F2)) dc (pgtables j) n k) as [H1 H2].
      + unfold tabs_of. by rewrite Hj2.
      + exact Hk.
      + split; [lia|done].
    - rewrite lookup_insert_ne by done. exact (C m k). }
  destruct (IH s3 F3) as (s4 & E4 & F4).
  { rewrite D3. rewrite lookup_insert_ne by done. eauto. }
  exists s4. split; [|done]. cbn [iterM]. rewrite bind_assoc. go (dir_rd_run s1 dc j Hj). rewrite bind_assoc. go E2. by go E3.
Qed.

Lemma setup_run s dc : mm_ok base s -> d <> dc -> d <> cr3_dir s -> is_Some (dirs s !! dc) ->
  exists r pages s', task_setup_vm d dc s = Done (r, pages) s' /\ fresh s s' /\ (r = - ENOMEM \/ r = 0).
Proof.
  intros O Hne Hcr Hdc. destruct (mm_cpu _ _ O) as [_ HIF]. unfold task_setup_vm. go (int_disable_run s HIF).
  set (i0 := mkDir 0 ∅ ∅ 0 0 0 0 0 0 0). assert (C0 : clean s i0) by (intros n k; done).
  destruct (dir_put_grows s i0 O C0) as (G1 & N1 & C1). set (s1 := set_dirs (<[d := i0]> (dirs s)) s) in *.
  assert (F1 : fresh s s1) by (split; [done..|]; exists i0; split; [apply lookup_insert_eq|done]).
  go (eq_refl : memset_pgdir d 0 s = Done tt s1).
  destruct (tmp_alloc_grows s s1 O F1) as (z & o & va & s2 & E2 & F2 & Hz). go E2.
  destruct Hz as [->|[-> [p ->]]]; [by exists (- ENOMEM), (NULL, NULL), s2; auto|]. change (0 <? 0) with false. cbv iota. cbn [deref].
  go (eq_refl : (mret p : M mm _) s2 = Done p s2). destruct (fr_clean _ _ F2) as (i2 & Hi2 & _).
  destruct (fresh_put s s2 i2 (set_pgdir_pa (page_addr p)) O F2 Hi2) as (s3 & E3 & F3 & D3); [by apply clean_same|]. go E3.
  destruct (fr_clean _ _ F3) as (i3 & Hi3 & _). destruct (fresh_put s s3 i3 (add_kernel 1) O F3 Hi3) as (s4 & E4 & F4 & D4); [by apply clean_same|]. go E4.
  destruct (tmp_alloc_grows s s4 O F4) as (z & o & va2 & s5 & E5 & F5 & Hz). go E5.
  destruct Hz as [->|[-> [p2 ->]]]; [by eexists _, _, s5; auto|]. change (0 <? 0) with false. cbv iota.
  destruct (fr_clean _ _ F5) as (i5 & Hi5 & _). destruct (fresh_put s s5 i5 (add_kernel 1) O F5 Hi5) as (s6 & E6 & F6 & D6); [by apply clean_same|]. go E6.
  pose proof (gw_ok _ _ _ _ (fr_grows _ _ F6)) as O6. destruct (mm_cpu _ _ O6) as [_ HIF6].
  destruct (link_loop s s6 dc (range_step (pdx MMAP_KERNEL_BASE) (pdx MMAP_KERNEL_STACK_BASE) 1) O F6 Hne) as (s7 & E7 & F7).
  { by apply (gw_some _ _ _ _ _ (fr_grows _ _ F6)). }
  { apply (bool_decide_unpack _). vm_compute. exact I. }
  eexists 0, _, s7. split; [|split; [exact F7|by right]].
  assert (El : link_pgtables d dc MMAP_KERNEL_BASE MMAP_KERNEL_STACK_BASE s6 = Done 0 s7).
  { unfold link_pgtables. go (int_disable_run s6 HIF6). by go E7. }
  go El. done.
Qed.
End setup.

(** * The memory of the child *)

(** A user address outside the shared region. *)
Definition own a : Prop := user a /\ ~ MMAP_USER_SHARED_MEM_BASE <= a < MMAP_USER_SHARED_MEM_TOP.

Section fork.
Context (base d : Z) (Hd : d <> KDIR) (s : mm) (O : mm_ok base s) (Hds : d <> cr3_dir s).
Notation src := (cr3_dir s).

Lemma fork_pages_run s1 : fresh base d s s1 -> exists r s2, fork_user_pages d src s1 = Done r s2 /\
  (r = - ENOMEM /\ grows base d s1 s2 \/ r = 0 /\ grows base d s1 s2 /\
     (forall a, own a -> copy_of d s1 s2 a) /\ forall a, user a -> ~ own a -> dentry s2 d a = None).
Proof.
  intros [G Hn (i & Hi & _)]. pose proof (gw_ok _ _ _ _ G) as O1. pose proof (gw_cr3 _ _ _ _ G) as Ec. rewrite <- Ec.
  assert (Hds1 : d <> cr3_dir s1) by (by rewrite Ec).
  assert (Hcr : is_Some (dirs s1 !! cr3_dir s1)) by apply (mo_cr3 _ _ O1). assert (Hdd : is_Some (dirs s1 !! d)) by eauto.
  unfold fork_user_pages, MMAP_USER_TOP, MMAP_USER_BASE.
  change MMAP_USER_SHARED_MEM_BASE with (0 + 0x60000 * 0x1000). change MMAP_USER_SHARED_MEM_TOP with 0x70000000.
  change 0xC0000000 with (0x70000000 + 0x50000 * 0x1000).
  pose proof (copied_nothing base d s1 O1 (gw_private _ _ _ _ G)) as C0.
  destruct (copy_pages_run base d Hd s1 Hds1 Hcr Hdd 0 0x60000 eq_refl ltac:(lia) ltac:(lia) _ s1 C0) as (r & s2 & E & Hr); [lia| |].
  { intros a Ha. split; [tauto|]. apply Hn. unfold user. lia. }
  go E. destruct Hr as [[-> G2]|[-> C2]]; [by exists (- ENOMEM), s2; auto|]. change (0 <? 0) with false. cbv iota.
  destruct (copy_pages_run base d Hd s1 Hds1 Hcr Hdd 0x70000000 0x50000 eq_refl ltac:(lia) ltac:(lia) _ s2 C2) as (r & s3 & E3 & Hr); [lia| |].
  { intros a Ha. split; [intros [?|?]; lia|]. apply Hn. unfold user. lia. }
  exists r, s3. split; [exact E3|]. destruct Hr as [[-> G3]|[-> [G3 X3 Y3]]]; [by left|right]. split; [done|]. split; [done|].
  unfold own, user. change MMAP_USER_SHARED_MEM_BASE with 0x60000000. change MMAP_USER_SHARED_MEM_TOP with 0x70000000. split.
  - intros a [Ha Hno]. apply X3; [done|]. destruct (Z.ltb_spec a 0x60000000); [left; right; lia|right; lia].
  - intros a Ha Hno. rewrite Y3; [by apply Hn|done|]. intros [[?|?]|?]; [done|apply Hno; lia..].
Qed.

(** The view of the child, once its directory is loaded. *)
Lemma child_utrans s' a : mm_ok base s' -> is_Some (dirs s' !! d) -> user a -> utrans (set_cr3 d s') a = phys_page <$> dentry s' d a.
Proof. intros O' Hs Ha. rewrite (utrans_dentry base); [done|by apply mm_ok_cr3|done]. Qed.
End fork.

(** A store changes only frames its program has. *)
Lemma umem_entry_inv s ua w s' : umem_entry ua s = Done w s' -> s' = s /\ utrans s ua = Some (phys_page w).
Proof.
  unfold umem_entry, utrans. go (eq_refl : get s = Done s s). destruct (dirs s !! cr3_dir s) as [i|] eqn:Hi.
  2:{ unfold mbind at 1, M_bind, page_get. m_unfold. unfold dir_rd. m_unfold. by rewrite Hi. }
  assert (Ht : tabs_of s (cr3_dir s) = Some (pgtables i)) by (unfold tabs_of; by rewrite Hi).
  go (page_get_run s (cr3_dir s) (uaddr2va ua) _ Ht). destruct (loc_of s (cr3_dir s) (uaddr2va ua)) as [l|]; [|done].
  cbn [deref]. go (eq_refl : (mret l : M mm _) s = Done l s). cbn [mbind option_bind].
  case_bool_decide as Hin; [|unfold mbind, M_bind, pte_rd; m_unfold; by rewrite bool_decide_false].
  go (pte_rd_run s l Hin). cbn [andb]. destruct (present (pte_at (ptes s) l)); [|done]. by intros [= <- <-].
Qed.

Lemma umem_frame_inv s ua p s' : umem_frame ua s = Done p s' -> s' = s /\ utrans s ua = Some p.
Proof. unfold umem_frame. intros (w & s1 & [-> Hw]%umem_entry_inv & E)%bind_inv. by injection E as <- <-. Qed.
Lemma umem_store_frame_inv s ua p s' : umem_store_frame ua s = Done p s' -> s' = s /\ utrans s ua = Some p.
Proof.
  unfold umem_store_frame. intros (w & s1 & [-> Hw]%umem_entry_inv & E)%bind_inv. destruct (Z.testbit w 1); [|done].
  by injection E as <- <-.
Qed.

Lemma store_elsewhere ua bs s s' x : user_store ua bs s = Done tt s' -> 0 <= ua -> ua + Z.of_nat (length bs) <= 0xC0000000 ->
  (forall b, user b -> utrans s b <> Some x) -> frames s' !! x = frames s !! x.
Proof.
  revert ua s. induction bs as [|b bs IH]; intros ua s E H0 Hl Hx; [by injection E as <-|]. cbn [length] in Hl.
  cbn [user_store] in E. apply bind_inv in E as (u & s1 & E1 & E2).
  assert (H : exists f, s1 = set_frames f s /\ f !! x = frames s !! x).
  { unfold umem_wrb in E1. apply bind_inv in E1 as (w & s2 & Er & Ew). unfold umem_rd in Er. apply bind_inv in Er as (p & s3 & Ef & Er).
    apply umem_frame_inv in Ef as [-> _]. injection Er as _ <-.
    unfold umem_wr in Ew. apply bind_inv in Ew as (p' & s3 & Ef & Ew). apply umem_store_frame_inv in Ef as [-> Hp].
    injection Ew as _ <-. eexists. split; [reflexivity|]. unfold frame_set. apply lookup_insert_ne. intros ->. apply (Hx ua); [unfold user; lia|done]. }
  destruct H as (f & -> & Hf). rewrite <- Hf. rewrite u32_small in E2 by lia. apply (IH _ (set_frames f s) E2); [lia|lia|done].
Qed.

Lemma memb_frames s s' x y o : default [] (frames s' !! x) = default [] (frames s !! y) -> memb s' (x, o) = memb s (y, o).
Proof. intros E. unfold memb. cbn. by rewrite E. Qed.

Lemma uloc_own s a l : uloc s a = Some l -> utrans s a = Some l.1.
Proof. unfold uloc. destruct (utrans s a); [|done]. by intros [= <-]. Qed.

(** ** The counters and the breaks *)
Lemma fork_counts_run base d dc s i j : mm_ok base s -> dirs s !! d = Some i -> dirs s !! dc = Some j ->
  exists s', fork_counts d dc s = Done tt s' /\ mm_ok base s' /\ cr3_dir s' = cr3_dir s /\ frames s' = frames s /\
    (forall d' a, dentry s' d' a = dentry s d' a) /\
    exists i', dirs s' !! d = Some i' /\ breaks i' = breaks j.
Proof.
  intros O Hi Hj. unfold fork_counts. go (dir_rd_run s dc j Hj). set (g := fun i : PageDirInfo => _).
  assert (Hg : forall i, pgtables (g i) = pgtables i) by done.
  assert (E : dir_upd d g s = set_dirs (<[d := g i]> (dirs s)) s) by (unfold dir_upd; by rewrite Hi).
  exists (dir_upd d g s). destruct (dir_upd_rest d g s) as (_ & Ep & _ & _ & Ec & Ef & _). split_and!.
  - rewrite E. by apply dir_wr_run.
  - by apply dir_upd_ok.
  - done.
  - done.
  - intros d' a. unfold dentry, entry_at. rewrite dir_upd_loc by done. by rewrite Ep.
  - exists (g i). split; [|done]. rewrite E. apply lookup_insert_eq.
Qed.

(** What the steps of do_fork leave to everybody else: exact reference counts, the loaded directory, the
    entries of the user addresses of every directory but [d], and the bytes of every frame in use. *)
Definition undisturbed (base d : Z) s s' : Prop :=
  mm_ok base s' /\ cr3_dir s' = cr3_dir s /\
  (forall d' a, d' <> d -> user a -> dentry s' d' a = dentry s d' a) /\
  (forall l, mapped_frame s l.1 -> memb s' l = memb s l).

Lemma grows_undisturbed base d s s' : grows base d s s' -> undisturbed base d s s'.
Proof. intros G. split_and!; try apply G. intros [x o] Hx. apply memb_frames. by rewrite (gw_frames _ _ _ _ G). Qed.

(** fork_counts after the copy, on the entries. *)
Lemma fork_end_run base s d i s1 s2 : dirs s !! cr3_dir s = Some i -> d <> KDIR -> d <> cr3_dir s ->
  fresh base d s s1 -> grows base d s1 s2 -> (forall a, own a -> copy_of d s1 s2 a) ->
  exists s3, fork_counts d (cr3_dir s) s2 = Done tt s3 /\ undisturbed base d s s3 /\
    (forall a, own a -> copy_of d s s3 a) /\ (forall a, dentry s3 d a = dentry s2 d a) /\
    exists i', dirs s3 !! d = Some i' /\ breaks i' = breaks i.
Proof.
  intros Hi Hd Hds F1 G2 Hown. pose proof (fr_grows _ _ _ _ F1) as G1. pose proof (gw_trans _ _ _ _ _ G1 G2) as G.
  destruct (gw_some _ _ _ _ (cr3_dir s) G) as [j2 Hj2]; [by eexists|].
  destruct (fr_clean _ _ _ _ F1) as (i1 & Hi1 & _). destruct (gw_dir _ _ _ _ G2) as [i2 Hi2]; [by eexists|].
  destruct (fork_counts_run base d (cr3_dir s) s2 i2 j2 (gw_ok _ _ _ _ G) Hi2 Hj2) as (s3 & E3 & O3 & C3 & Fr3 & D3 & i3 & Hi3 & Hb3).
  exists s3. split; [done|]. split; [|split; [|split]].
  - split_and!; [done|rewrite C3; apply G| |].
    + intros d' a Hne Ha. rewrite D3. by apply (gw_other _ _ _ _ G).
    + intros [x o] Hx. apply memb_frames. rewrite Fr3. by rewrite (gw_frames _ _ _ _ G).
  - intros a Ha. pose proof (Hown a Ha) as Hc. unfold copy_of in *. rewrite (gw_cr3 _ _ _ _ G1) in Hc.
    rewrite (gw_other _ _ _ _ G1), D3 in * by (auto; apply Ha). destruct (dentry s (cr3_dir s) a) as [w|] eqn:Hw; [|done].
    destruct Hc as (q & Hq & Hqr & Hnm & Hfq). exists q. split_and!; [done|lia|lia| |].
    + intros Hm. by apply Hnm, (gw_mapped base d s s1).
    + rewrite Fr3, Hfq. do 2 f_equal. apply (gw_frames _ _ _ _ G1). by eapply dentry_mapped.
  - intros a. apply D3.
  - exists i3. split; [done|]. pose proof (gw_breaks _ _ _ _ G (cr3_dir s) ltac:(auto)) as Eb. rewrite Hj2, Hi in Eb.
    apply (inj Some) in Eb. by rewrite Hb3.
Qed.

(** What the child finds in the directory [d], made from the parent's directory loaded in [s]: the pages
    of the parent with the same bytes, in frames that nothing led to, writable where the parent's are, none in the
    shared region, and the parent's breaks and counts. What one of the two stores leaves what the other reads. *)
Definition child_of (d : Z) (i : PageDirInfo) s s' : Prop :=
  let child := set_cr3 d s' in
  (forall a, own a -> match utrans s a with
     | None => utrans child a = None
     | Some p => can_store child a = can_store s a /\
         exists q, utrans child a = Some q /\ ~ mapped_frame s q /\ forall o, memb s' (q, o) = memb s (p, o)
     end) /\
  (forall a, user a -> ~ own a -> utrans child a = None) /\
  (exists i', dirs s' !! d = Some i' /\ start_brk i' = start_brk i /\ end_brk i' = end_brk i /\
     count_program i' = count_program i /\ count_stack i' = count_stack i) /\
  (forall ua bs s4, user_store ua bs s' = Done tt s4 -> 0 <= ua -> ua + Z.of_nat (length bs) <= 0xC0000000 ->
     forall a l, user a -> uloc child a = Some l -> memb s4 l = memb s' l) /\
  (forall ua bs s4, user_store ua bs child = Done tt s4 -> 0 <= ua -> ua + Z.of_nat (length bs) <= 0xC0000000 ->
     forall a l, user a -> uloc s' a = Some l -> memb s4 l = memb s' l).

(** The steps of do_fork from task_setup_vm to the breaks. *)
Lemma fork_steps base s d i :
  mm_ok base s -> d <> KDIR -> d <> cr3_dir s -> dirs s !! cr3_dir s = Some i ->
  exists r1 pages s1, task_setup_vm d (cr3_dir s) s = Done (r1, pages) s1 /\ undisturbed base d s s1 /\ (r1 = - ENOMEM \/ r1 = 0 /\
  exists r2 s2, fork_user_pages d (cr3_dir s) s1 = Done r2 s2 /\ undisturbed base d s s2 /\ (r2 = - ENOMEM \/ r2 = 0 /\
  exists s', fork_counts d (cr3_dir s) s2 = Done tt s' /\ undisturbed base d s s' /\ child_of d i s s')).
Proof.
  intros O Hd Hds Hi. destruct (setup_run base d Hd s (cr3_dir s) O Hds Hds) as (r1 & pages & s1 & E1 & F1 & Hr1); [by eexists|].
  pose proof (fr_grows _ _ _ _ F1) as G1. exists r1, pages, s1. split; [done|]. split; [by apply grows_undisturbed|].
  destruct Hr1 as [-> | ->]; [by left|]. right. split; [done|].
  destruct (fork_pages_run base d Hd s Hds s1 F1) as (r2 & s2 & E2 & [[-> G2]|(-> & G2 & Hown1 & Hshr2)]); exists r2 || eexists _, s2;
    (split; [exact E2|]); (split; [by eapply grows_undisturbed, gw_trans|]); [by left|]. right. split; [done|].
  destruct (fork_end_run base s d i s1 s2 Hi Hd Hds F1 G2 Hown1) as (s3 & E3 & U3 & Hown & D3 & i3 & Hi3 & Hb3).
  exists s3. split; [done|]. split; [done|]. destruct U3 as (O3 & C3 & Hoth & _). unfold child_of; cbv zeta. set (child := set_cr3 d s3).
  assert (Hshr : forall a, user a -> ~ own a -> dentry s3 d a = None) by (intros a Ha Hno; rewrite D3; by apply Hshr2).
  assert (Uc : forall a, user a -> utrans child a = phys_page <$> dentry s3 d a).
  { intros a Ha. apply (child_utrans base d s3); [done|by eexists|done]. }
  assert (Up : forall a, user a -> utrans s3 a = utrans s a).
  { intros a Ha. rewrite (utrans_dentry base s3), (utrans_dentry base s) by done. rewrite C3. by rewrite Hoth. }
  assert (Pm : forall a p, user a -> utrans s a = Some p -> mapped_frame s p).
  { intros a p Ha. rewrite (utrans_dentry base) by done. destruct (dentry s (cr3_dir s) a) as [w|] eqn:Hw; [|done]. cbn. intros [= <-]. by eapply dentry_mapped. }
  assert (Copy : forall a, own a -> match utrans s a with
    | None => utrans child a = None
    | Some p => can_store child a = can_store s a /\
        exists q, utrans child a = Some q /\ ~ mapped_frame s q /\ forall o, memb s3 (q, o) = memb s (p, o) end).
  { intros a Ha. pose proof (Hown a Ha) as Hc. unfold copy_of in Hc. rewrite Uc, (utrans_dentry base s) by (done || apply Ha).
    destruct (dentry s (cr3_dir s) a) as [w|] eqn:Hw; cbn; [|by rewrite Hc].
    destruct Hc as (q & Hq & Hqr & Hnm & Hfq). split.
    { rewrite (can_store_dentry s a w (proj1 Ha) Hw), (can_store_dentry child a _ (proj1 Ha) Hq), PTE_t_bit by lia.
      unfold perm. by rewrite !Z.land_spec, !andb_true_r. }
    rewrite Hq. exists q. cbn. rewrite PTE_t_page by done. split_and!; [done..|].
    intros o. apply memb_frames. by rewrite Hfq. }
  assert (Shr : forall a, user a -> ~ own a -> utrans child a = None) by (intros a Ha Hno; rewrite Uc, Hshr by done; done).
  assert (Apart : forall a b q, user a -> user b -> utrans child a = Some q -> utrans s3 b <> Some q).
  { intros a b q Ha Hb Hq Hp. rewrite Up in Hp by done. apply (Pm _ _ Hb) in Hp. destruct (decide (MMAP_USER_SHARED_MEM_BASE <= a < MMAP_USER_SHARED_MEM_TOP)) as [Hs|Hs].
    - rewrite Shr in Hq; [done|done|]. by intros [_ ?].
    - pose proof (Copy a (conj Ha Hs)) as Hc. destruct (utrans s a); [|congruence]. destruct Hc as (_ & q' & Hq' & Hn & _). congruence. }
  split_and!; [exact Copy|exact Shr|exists i3; unfold breaks in Hb3; by injection Hb3|..].
  - intros ua bs s4 E4 H1 Hl a [x o] Ha Hloc. apply memb_frames. f_equal. apply (store_elsewhere ua bs s3 s4 x E4 H1 Hl).
    intros b Hb. by apply (Apart a b x Ha Hb), (uloc_own _ _ (x, o)).
  - intros ua bs s4 E4 H1 Hl a [x o] Ha Hloc. apply memb_frames. f_equal. apply (store_elsewhere ua bs child s4 x E4 H1 Hl).
    intros b Hb Hx. apply (Apart b a x Hb Ha Hx). by apply (uloc_own _ _ (x, o)).
Qed.

(** * In the kernel *)

Section kernel.
Context {H : Type} `{!KernEnv H} (B : build).
Notation K := (kern H).
Implicit Types k : K.

(** The memory of the running task. *)
Definition mem_of k : mm := env (set_cpu (k_cpu k) (ke_heap (k_heap k))).

Lemma in_mm_mem {A} (m : M mm A) k (a : A) s' : m (mem_of k) = Done a s' ->
  exists k', in_mm m k = Done a k' /\ mem_of k' = s' /\ k_curr k' = k_curr k.
Proof.
  intros E. unfold in_mm, in_heap, in_env, zoom. fold (mem_of k). rewrite E. eexists. split; [reflexivity|]. split; [|done].
  unfold mem_of. cbn [k_heap k_cpu set_k_cpu set_k_heap]. rewrite ke_heap_set. exact (set_cpu_of (S := mm) s').
Qed.

Lemma copy_task_run t k c : k_tasks k !! k_curr k = Some c ->
  exists k', copy_task t k = Done tt k' /\ mem_of k' = mem_of k /\ k_curr k' = k_curr k.
Proof.
  intros Hc. unfold copy_task. go (eq_refl : task_curr k = Done (k_curr k) k).
  assert (E : curr_rd k = Done c k) by (unfold curr_rd, task_curr, t_rd, gets; m_unfold; by rewrite Hc). go E.
  eexists. split; [reflexivity|]. by case_match.
Qed.

End kernel.

(** ** Witness *)

Lemma done_inj {A} (a b : A) (s t : mm) : Done a s = Done b t -> a = b /\ s = t.
Proof. by intros [= -> ->]. Qed.

Lemma copy_nothing base d s lo hi : mm_ok base s -> (forall a, lo <= a < hi -> dentry s (cr3_dir s) a = None) ->
  iter_until (copy_pages_page d (cr3_dir s)) (range_step lo hi 0x1000) s = Done None s.
Proof.
  intros O Hn. assert (Hall : Forall (fun a => dentry s (cr3_dir s) a = None) (range_step lo hi 0x1000)).
  { apply Forall_forall. intros a Ha. apply elem_of_range_step in Ha as [Ha _]; [exact (Hn a Ha)|lia]. }
  induction Hall as [|a l Ha _ IH]; [done|]. cbn [iter_until]. destruct (mo_cr3 _ _ O) as [j Hj].
  assert (Ht : tabs_of s (cr3_dir s) = Some (pgtables j)) by (unfold tabs_of; by rewrite Hj).
  assert (E : copy_pages_page d (cr3_dir s) a s = Done None s); [|by go E].
  unfold copy_pages_page. go (page_get_run s _ a _ Ht). unfold dentry, entry_at in Ha. destruct (loc_of s _ a) as [l'|] eqn:Hl; [|done].
  go (pte_rd_run s l' (proj1 (loc_of_table base s _ a l' O Hl))). cbn in Ha. by destruct (present (pte_at (ptes s) l')).
Qed.

(** Directory 1 with the page 0x1000, as demo_user, with six frames left. Directory 2 is new. *)
Definition demo_parent : mm := set_frames {[6 := [3; 4]]} (demo_user_n 8).
Lemma demo_parent_ok : mm_ok 5 demo_parent.
Proof. apply mm_ok_frames, demo_user_ok_n. by right. Qed.
Definition demo_setup : mm := match task_setup_vm 2 1 demo_parent with Done _ s => s | Stop _ => demo_parent end.
Definition demo_copied : mm := match copy_pages_page 2 1 0x1000 demo_setup with Done _ s => s | Stop _ => demo_parent end.

Lemma demo_setup_run : exists pages, task_setup_vm 2 1 demo_parent = Done (0, pages) demo_setup /\ mm_ok 5 demo_setup /\ cr3_dir demo_setup = 1.
Proof.
  assert (E : exists pages, task_setup_vm 2 1 demo_parent = Done (0, pages) demo_setup) by (eexists; vm_compute; reflexivity). destruct E as [pages E].
  exists pages. split; [exact E|]. destruct (setup_run 5 2 ltac:(done) demo_parent 1 demo_parent_ok) as (r & p & s' & E' & F & _); [done|by vm_compute|by eexists; vm_compute|].
  rewrite E in E'. apply done_inj in E' as [_ <-]. split; [apply F|by vm_compute].
Qed.

Lemma demo_copied_run : copy_pages_page 2 1 0x1000 demo_setup = Done None demo_copied /\ mm_ok 5 demo_copied.
Proof.
  assert (E : copy_pages_page 2 1 0x1000 demo_setup = Done None demo_copied) by (vm_compute; reflexivity). split; [exact E|].
  destruct demo_setup_run as (pages & E1 & O & Ec).
  assert (Hn : dentry demo_setup 2 0x1000 = None) by (vm_compute; reflexivity).
  destruct (setup_run 5 2 ltac:(done) demo_parent 1 demo_parent_ok) as (r & p & s' & E' & F & _); [done|by vm_compute|by eexists; vm_compute|].
  rewrite E1 in E'. apply done_inj in E' as [_ <-]. pose proof (fr_grows _ _ _ _ F) as G.
  assert (Hc : 2 <> cr3_dir demo_setup) by (rewrite Ec; lia).
  assert (Hs : is_Some (dirs demo_setup !! 2)) by (destruct (fr_clean _ _ _ _ F) as (i & Hi & _); by exists i).
  pose proof (copied_nothing 5 2 demo_setup O (gw_private _ _ _ _ G)) as C.
  destruct (copy_step 5 2 ltac:(done) demo_setup Hc (mo_cr3 _ _ O) Hs _ _ 0x1000 C) as (r' & s' & E' & H).
  - unfold user. lia.
  - by intros a _ _ [].
  - exact Hn.
  - rewrite Ec, E in E'. apply done_inj in E' as [<- <-]. destruct H as [[_ H]|[_ H]]; apply H.
Qed.

Lemma demo_copied_rest a : 0x2000 <= a < 0xC0000000 -> dentry demo_copied (cr3_dir demo_copied) a = None.
Proof.
  intros Ha. assert (Ec : cr3_dir demo_copied = 1) by (vm_compute; reflexivity). rewrite Ec.
  assert (Ht : exists k, tabs_of demo_copied 1 = Some {[0 := k]}) by (eexists; vm_compute; reflexivity). destruct Ht as [k Ht].
  destruct (decide (a < 0x400000)) as [Hlt|Hge].
  - assert (Hall : Forall (fun j => dentry demo_copied 1 (j * 0x1000) = None) (seqZ 2 1022)) by (apply (bool_decide_unpack _); vm_compute; exact I).
    rewrite (dentry_page demo_copied 1 a (a / 0x1000 * 0x1000)).
    + rewrite Forall_forall in Hall. apply Hall, elem_of_seqZ.
      assert (2 <= a / 0x1000 < 1024) by (split; [apply Z.div_le_lower_bound; lia|apply Z.div_lt_upper_bound; lia]). lia.
    + unfold user. lia.
    + pose proof (Z.div_mod a 0x1000 ltac:(lia)). pose proof (Z.mod_pos_bound a 0x1000 ltac:(lia)). unfold user. lia.
    + by rewrite Z.div_mul.
  - unfold dentry, loc_of. rewrite Ht. cbn [mbind option_bind]. destruct (user_arith a ltac:(unfold user; lia)) as (Ep & _).
    assert (1 <= pdx a) by (rewrite Ep; apply Z.div_le_lower_bound; lia). unfold table_at. by rewrite lookup_singleton_ne by lia.
Qed.

(** With a directory 2 the copy succeeds. *)
Lemma demo_fork_run : exists pages s2, task_setup_vm 2 1 demo_parent = Done (0, pages) demo_setup /\ fork_user_pages 2 1 demo_setup = Done 0 s2.
Proof.
  destruct demo_setup_run as (pages & E1 & O1 & Ec1), demo_copied_run as (E2 & O2).
  assert (Ec2 : cr3_dir demo_copied = 1) by (vm_compute; reflexivity).
  assert (E0 : copy_pages_page 2 1 0 demo_setup = Done None demo_setup) by (vm_compute; reflexivity).
  assert (Cp : forall s lo hi, (exists i, dirs s !! 1 = Some i) -> IF (cpu_of s) = false -> cr3_dir s = 1 ->
    iter_until (copy_pages_page 2 1) (range_step lo hi 0x1000) s = Done None demo_copied -> copy_pages 2 1 lo hi s = Done 0 demo_copied).
  { intros s lo hi [i Hi] HIF Ec Ei. unfold copy_pages. go (int_disable_run s HIF). go (eq_refl : get s = Done s s). rewrite Ec.
    go (dir_rd_run s 1 i Hi). go (dir_rd_run s 1 i Hi). rewrite Z.eqb_refl. by go Ei. }
  assert (N : forall lo hi, 0x2000 <= lo -> hi <= 0xC0000000 ->
    iter_until (copy_pages_page 2 1) (range_step lo hi 0x1000) demo_copied = Done None demo_copied).
  { intros lo hi Hlo Hhi. pose proof (copy_nothing 5 2 demo_copied lo hi O2) as N. rewrite Ec2 in N. apply N.
    intros a Ha. rewrite <- Ec2. apply demo_copied_rest. lia. }
  exists pages, demo_copied. split; [exact E1|]. unfold fork_user_pages.
  change MMAP_USER_SHARED_MEM_BASE with 0x60000000. change MMAP_USER_SHARED_MEM_TOP with 0x70000000. change MMAP_USER_TOP with 0xC0000000. change MMAP_USER_BASE with 0.
  rewrite (bind_done _ _ _ _ _ (Cp demo_setup 0 0x60000000 ltac:(eexists; vm_compute; reflexivity) ltac:(vm_compute; reflexivity) Ec1
    ltac:(rewrite range_step_cons by lia; rewrite range_step_cons by lia; cbn [iter_until]; rewrite (bind_done _ _ _ _ _ E0);
          change (0 + 0x1000) with 0x1000; rewrite (bind_done _ _ _ _ _ E2); by apply N))).
  change (0 <? 0) with false. cbv iota.
  by rewrite (Cp demo_copied 0x70000000 0xC0000000 ltac:(eexists; vm_compute; reflexivity) ltac:(vm_compute; reflexivity) Ec2 ltac:(by apply N)).
Qed.

(** A kernel whose only task is 1, with the page 0x1000, and an empty heap: do_fork allocates a page for it. *)
Definition demo_build : build := mkBuild 400 32 24 48 44 0.
Definition demo_fork_kern : kern demo_env :=
  mkKern (mkEnv (mkKs ∅ (foldl (fun q i => ls_init i q) (mkLstore ∅ ∅) (seqZ 0 7)) ∅ 0 demo_parent) (demo_con 0 [] []))
    {[1 := demo_task 1 State_running 0 0]} (mkLstore {[QRun 3 := [1]]} {[1 := QRun 3]}) (mkLstore ∅ ∅) (mkLstore ∅ ∅)
    (mkIdht [] 0 ∅) 1 (mkCpu true 0 false) 1000 4 ∅ ∅ (mkShmState ∅ ∅ (mkIdht [] 0 ∅) (mkIdht [] 0 ∅) 1).
Definition demo_alloc : M (kern demo_env) Z := pushcli ;; in_heap (kmalloc (garbage demo_build) (sizeof_Task demo_build)).
Definition demo_task_at : Z := match demo_alloc demo_fork_kern with Done t _ => t | Stop _ => NULL end.
Definition demo_alloc_mm : mm := match demo_alloc demo_fork_kern with Done _ k => mem_of k | Stop _ => demo_parent end.

(** Its memory is the one a temporary page leaves. *)
Lemma demo_alloc_ok : mm_ok 5 demo_alloc_mm.
Proof.
  set (s0 := set_cpu (mkCpu false 2 true) demo_parent).
  assert (O : mm_ok 5 s0) by (apply mm_ok_cpu; [exact demo_parent_ok|split; cbn; [lia|done]|done]).
  assert (E : exists o va s1, tmp_page_alloc_map (Z.lor PTE_P PTE_W) s0 = Done (0, o, va) s1 /\ demo_alloc_mm = set_cpu (mkCpu false 1 true) s1).
  { eexists _, _, _. split; [vm_compute; reflexivity|vm_compute; reflexivity]. }
  destruct E as (o & va & s1 & E & ->). apply mm_ok_cpu; [|split; cbn; [lia|done]|done].
  destruct (tmp_alloc_run 5 (page_insert_fuel 1) s0 (Z.lor PTE_P PTE_W) O eq_refl) as [(o' & va' & s' & E' & O' & _)|(K & r & p & s' & E' & _ & _ & _ & O' & _)].
  - pose proof (eq_trans (eq_sym E) E') as E2. by injection E2.
  - pose proof (eq_trans (eq_sym E) E') as E2. apply done_inj in E2 as [_ ->]. exact O'.
Qed.

