(* ===== verification/Syscall.v ===== *)
(** System calls (kernel/syscall.cpp, kernel/syscall_table.c, the dispatcher of
    kernel/ipc/ipc.cpp): the checks of user pointers, the calls of syscall.cpp, and
    the tables.

    The tables hold the names of the functions; [run_syscall] is the function of a
    name. The file system's calls and execve are reached through [UserCalls], which
    System implements for the file system. *)

From S2P Require Import Prelude Spinlock ListSpec IdHash Util Cga PhysMem VirtMem UserMem Kmalloc Task Sched Console Ipc Process.

(** * Definitions *)

Definition ENOSYS : Z := 38.

(** The calls of kernel/fs that are in the table. *)
Inductive user_call :=
| Uread | Uwrite | Uopen | Uclose | Uexecve | Uchdir | Ureaddir | Ustat | Ulseek
| Ugetcwd | Umkdir | Urmdir | Ucreat | Uunlink | Ufstat.

(** What the table calls of the file system, with the parameters in the trap frame
    of the running task. *)
Class UserCalls (H : Type) := run_user_call : user_call -> M (kern H) unit.

(** The functions the tables point to. *)
Inductive sys_fn :=
| sys_fn_nosys | sys_fn_exit | sys_fn_fork | sys_fn_getpid | sys_fn_alarm | sys_fn_pause | sys_fn_kill
| sys_fn_brk | sys_fn_signal | sys_fn_ipc | sys_fn_gettimeofday | sys_fn_cputs | sys_fn_cgetc
| sys_fn_yield | sys_fn_wait | sys_fn_dongu | sys_fn_sleep | sys_fn_user (c : user_call).

Inductive ipc_fn :=
| no_ipc | ipc_semget | ipc_semctl | ipc_semop | ipc_semwait | ipc_sempost | ipc_semgetvalue
| ipc_shmget | ipc_shmat | ipc_shmdt | ipc_shmctl.

#[export] Instance user_call_eq_dec : EqDecision user_call.
Proof. solve_decision. Defined.
#[export] Instance sys_fn_eq_dec : EqDecision sys_fn.
Proof. solve_decision. Defined.
#[export] Instance ipc_fn_eq_dec : EqDecision ipc_fn.
Proof. solve_decision. Defined.

Definition MAX_SYSCALL_COUNT : Z := 1000.

(** The initialisers of syscall_table.c, with the numbers of
    include/kernel/syscall.h. *)
Definition syscall_inits : list (Z * sys_fn) :=
  [(1, sys_fn_exit); (2, sys_fn_fork); (3, sys_fn_user Uread); (4, sys_fn_user Uwrite);
   (5, sys_fn_user Uopen); (6, sys_fn_user Uclose); (11, sys_fn_user Uexecve); (12, sys_fn_user Uchdir);
   (20, sys_fn_getpid); (27, sys_fn_alarm); (29, sys_fn_pause); (37, sys_fn_kill); (45, sys_fn_brk);
   (48, sys_fn_signal); (89, sys_fn_user Ureaddir); (106, sys_fn_user Ustat); (19, sys_fn_user Ulseek);
   (117, sys_fn_ipc); (183, sys_fn_user Ugetcwd); (39, sys_fn_user Umkdir); (40, sys_fn_user Urmdir);
   (8, sys_fn_user Ucreat); (10, sys_fn_user Uunlink); (108, sys_fn_user Ufstat);
   (169, sys_fn_gettimeofday); (901, sys_fn_cputs); (902, sys_fn_cgetc); (903, sys_fn_yield);
   (904, sys_fn_wait); (905, sys_fn_dongu); (906, sys_fn_sleep)].

(** [0 ... MAX_SYSCALL_COUNT] = sys_nosys, then the others. *)
Definition syscalls : list sys_fn :=
  foldl (fun t e => <[Z.to_nat e.1 := e.2]> t)
    (replicate (Z.to_nat (MAX_SYSCALL_COUNT + 1)) sys_fn_nosys) syscall_inits.

Definition ipc_func : list ipc_fn :=
  [no_ipc;
   ipc_semget; ipc_semctl; ipc_semop; no_ipc; ipc_semwait;
   ipc_sempost; ipc_semgetvalue; no_ipc; no_ipc; ipc_shmget;
   ipc_shmat; ipc_shmdt; ipc_shmctl].
Definition sizeof_ipc_func : Z := 4 * 14.

Section syscalls.
Context {H : Type} `{!KernEnv H} (B : build).
Notation K := (kern H).

Definition curr_dir : M K PageDirInfo := t ← task_curr; in_mm (dir_rd (pgdir_of t)).

(** user_to_kernel_check: [rest] is the call behind it. The task ends at a bad
    address, and another one goes on. *)
Definition user_to_kernel_check (base limit : Z) (rw : bool) (rest : M K unit) : M K unit :=
  let perm := if rw then Z.lor PTE_W PTE_U else PTE_U in
  t ← task_curr;
  r ← in_mm (verify_user_addr (pgdir_of t) base limit perm);
  if r <? 0 then do_exit B 111 else rest.

Definition sys_nosys : M K unit := SYSCALL_RETURN (- ENOSYS).

(** for (i = 0; i < len && *s != 0; i++, s++) console_putc( *s) *)
Definition cputs_loop (len : Z) (s : Z) : M K unit :=
  loop_upto len (fun s =>
    ch ← in_mm (umem_rdb s);
    if ch =? 0 then mret None else
    in_con (console_putc ch) ;; mret (Some (u32 (s + 1)))) s.
Definition sys_cputs : M K unit :=
  tf ← curr_tf;
  let s := get_param1 tf in let len := get_param2 tf in
  user_to_kernel_check s len false (cputs_loop len s).

(** The loop of sys_dongu does nothing. *)
Definition sys_dongu : M K unit := SYSCALL_RETURN (-1).

Definition set_end_brk (v : Z) (i : PageDirInfo) : PageDirInfo :=
  mkDir (pgdir_pa i) (pgdir i) (pgtables i) (count_user i) (count_kernel i) (count_stack i)
        (count_program i) (count_shared i) (start_brk i) v.

(** The growing loop: the page that could not be had. *)
Definition brk_grow (d lo hi : Z) : M mm (option Z) :=
  iter_until (fun i =>
    r ← page_alloc_insert d (uaddr2va i) (Z.lor PTE_P (Z.lor PTE_U PTE_W));
    mret (if r <? 0 then Some i else None)) (range_step lo hi 0x1000).

(** for ( ; i >= lo; i -= 0x1000) page_remove(uaddr2va(i)), unsigned: [strict] asserts
    that the page was there. *)
Fixpoint brk_shrink (fuel : nat) (strict : bool) (d i lo : Z) : M mm unit :=
  match fuel with
  | O => stop OutOfFuel
  | S f =>
      if i <? lo then mret tt else
      r ← page_remove d (uaddr2va i) true;
      ASSERT (negb strict || (-1 <? r)) ;;
      brk_shrink f strict d (u32 (i - 0x1000)) lo
  end.
Definition brk_fuel (i lo : Z) : nat := Z.to_nat ((i - lo) / 0x1000 + 3).

Definition sys_brk : M K unit :=
  t ← task_curr; tf ← curr_tf;
  let brk := get_param1 tf in let d := pgdir_of t in
  eflags ← eflags_read; cli ;;
  i ← curr_dir;
  if brk <? start_brk i then eflags_load eflags ;; SYSCALL_RETURN (end_brk i) else
  bad ← (if end_brk i <? brk then in_mm (brk_grow d (roundUp (end_brk i)) (roundUp brk))
         else
           let p := u32 (roundUp (end_brk i) - 0x1000) in
           in_mm (brk_shrink (brk_fuel p (roundUp brk)) true d p (roundUp brk)) ;; mret None);
  match bad with
  | None =>
      in_mm (dir_wr d (set_end_brk brk)) ;;
      eflags_load eflags ;;
      SYSCALL_RETURN brk
  | Some p =>
      in_mm (brk_shrink (brk_fuel p (end_brk i)) false d p (end_brk i)) ;;
      SYSCALL_RETURN 0
  end.

Definition sys_gettimeofday : M K unit :=
  tf ← curr_tf;
  let tv := get_param1 tf in let tz := get_param2 tf in
  user_to_kernel_check tv 8 true
    (k ← get;
     in_mm (user_put tv (jiffies_to_seconds (k_jiffies k))) ;;
     in_mm (user_put (u32 (tv + 4)) (jiffies_to_milliseconds (k_jiffies k) mod 1000 * 1000)) ;;
     if tz =? NULL then SYSCALL_RETURN 0 else
     user_to_kernel_check tz 8 true
       (in_mm (user_put tz 0 ;; user_put (u32 (tz + 4)) 0) ;; SYSCALL_RETURN 0)).

(** ** The dispatchers *)

Definition run_ipc (f : ipc_fn) : M K unit :=
  match f with
  | no_ipc => PANIC
  | ipc_semget => sys_semget B
  | ipc_semctl => sys_semctl
  | ipc_semop => sys_semop
  | ipc_semwait => sys_semwait B
  | ipc_sempost => sys_sempost
  | ipc_semgetvalue => sys_semgetvalue
  | ipc_shmget => sys_shmget B
  | ipc_shmat => sys_shmat B
  | ipc_shmdt => sys_shmdt
  | ipc_shmctl => sys_shmctl
  end.
Definition sys_ipc : M K unit :=
  tf ← curr_tf;
  let no := get_param1 tf in
  if no <? sizeof_ipc_func + 1 then f ← deref (ipc_func !! Z.to_nat no); run_ipc f
  else run_ipc no_ipc.

Definition run_syscall `{!UserCalls H} (f : sys_fn) : M K unit :=
  match f with
  | sys_fn_nosys => sys_nosys
  | sys_fn_exit => sys_exit B
  | sys_fn_fork => sys_fork B
  | sys_fn_getpid => sys_getpid
  | sys_fn_alarm => sys_alarm
  | sys_fn_pause => sys_pause B
  | sys_fn_kill => sys_kill
  | sys_fn_brk => sys_brk
  | sys_fn_signal => sys_signal
  | sys_fn_ipc => sys_ipc
  | sys_fn_gettimeofday => sys_gettimeofday
  | sys_fn_cputs => sys_cputs
  | sys_fn_cgetc => sys_cgetc B
  | sys_fn_yield => sys_yield B
  | sys_fn_wait => sys_wait B
  | sys_fn_dongu => sys_dongu
  | sys_fn_sleep => sys_sleep B
  | sys_fn_user c => run_user_call c
  end.
Definition do_syscall `{!UserCalls H} (no : Z) : M K unit :=
  if no <? MAX_SYSCALL_COUNT then f ← deref (syscalls !! Z.to_nat no); run_syscall f
  else sys_nosys.
End syscalls.
