(* ===== verification/Trap.v ===== *)
(** Traps (kernel/trap.cpp): the tables of handlers and trap_handler.

    A trap from user mode finds the registers of the program in the trap frame of
    the running task. A kernel path that calls schedule() comes back when some task
    is about to return to its program; the end of trap_handler is the one of that
    task. The kernel monitor's flag is a parameter: Monitor, which sets it, comes behind
    this file. *)

From S2P Require Import Prelude Spinlock ListSpec IdHash Util Cga PhysMem VirtMem Kmalloc Task Sched Console Ipc.
From S2P Require Import Process Syscall Descr.

(** * Definitions *)

(** The handlers of the tables. *)
Inductive trap_fn := do_error_fn | do_unknown_fn | do_page_fault_fn | do_timer_fn | do_irq_keyboard_fn.

#[export] Instance trap_fn_eq_dec : EqDecision trap_fn.
Proof. solve_decision. Defined.

(** exceptions[]: the functions, by vector. *)
Definition exceptions : list trap_fn :=
  [do_error_fn; do_error_fn; do_error_fn; do_error_fn; do_error_fn; do_error_fn; do_error_fn;
   do_error_fn; do_error_fn; do_error_fn; do_error_fn; do_error_fn; do_error_fn; do_error_fn;
   do_page_fault_fn; do_unknown_fn; do_error_fn; do_error_fn; do_error_fn; do_error_fn].

(** irq_handlers[], 13 entries. *)
Definition irq_handlers : list trap_fn :=
  [do_timer_fn; do_irq_keyboard_fn; do_unknown_fn; do_unknown_fn; do_unknown_fn; do_unknown_fn;
   do_unknown_fn; do_unknown_fn; do_unknown_fn; do_unknown_fn; do_unknown_fn; do_unknown_fn;
   do_unknown_fn].

(** (tf->cs & 3) == 3 *)
Definition user_mode (tf : Trapframe) : bool := Z.land (tf_cs tf) 3 =? 3.
Definition is_irq (tf : Trapframe) : bool := (IRQ_OFFSET <=? tf_trapno tf) && (tf_trapno tf <? 48).

Section trap.
Context {H : Type} `{!KernEnv H} `{!UserCalls H} (B : build).
Notation K := (kern H).

Definition do_error : M K unit := do_exit B 111.

Definition do_unknown (tf : Trapframe) : M K unit := if is_irq tf then mret tt else PANIC.

(** A handler; [fault_va] is cr2. *)
Definition run_trap_fn (fault_va : Z) (tf : Trapframe) (f : trap_fn) : M K unit :=
  match f with
  | do_error_fn => do_error
  | do_unknown_fn => do_unknown tf
  | do_page_fault_fn => do_page_fault B fault_va
  | do_timer_fn => do_timer B (user_mode tf)
  | do_irq_keyboard_fn => do_irq_keyboard
  end.

(** return_trap_handler *)
Definition trap_end : M K unit := k ← get; ASSERT (n_cli (k_cpu k) =? 0).

Definition trap_handler (kernel_monitor_running : bool) (fault_va : Z) (tf : Trapframe) : M K unit :=
  if kernel_monitor_running then mret tt else
  curr_wr (set_t_popped_kstack false) ;;
  if is_irq tf then
    ASSERT_int_enable ;;
    f ← deref (irq_handlers !! Z.to_nat (tf_trapno tf - IRQ_OFFSET));
    run_trap_fn fault_va tf f ;;
    trap_end
  else if user_mode tf then
    (if tf_trapno tf =? T_SYSCALL then do_syscall B (tf_eax tf)
     else if tf_trapno tf <? Z.of_nat (length exceptions) then
       f ← deref (exceptions !! Z.to_nat (tf_trapno tf)); run_trap_fn fault_va tf f
     else do_unknown tf) ;;
    trap_end
  else PANIC.
End trap.
