(* ===== verification/TrapProps.v ===== *)
(** The dispatch of system calls and traps: every number and every vector. *)

From S2P Require Import Prelude Spinlock ListSpec IdHash Util Cga CgaProps PhysMem VirtMem Kmalloc Task.
From S2P Require Import Sched SchedProps SchedOps Console Ipc Process Syscall Descr Trap.

(** * Lemmas *)

Lemma syscalls_lookup n : 0 <= n <= 1000 ->
  syscalls !! Z.to_nat n = Some (default sys_fn_nosys ((list_to_map syscall_inits : gmap Z sys_fn) !! n)).
Proof.
  intros Hn.
  assert (Hall : Forall (fun n => syscalls !! Z.to_nat n =
      Some (default sys_fn_nosys ((list_to_map syscall_inits : gmap Z sys_fn) !! n))) (seqZ 0 1001)).
  { apply (bool_decide_unpack _). vm_compute. exact I. }
  rewrite Forall_forall in Hall. apply Hall, elem_of_seqZ. lia.
Qed.

Lemma syscall_inits_nodup : NoDup syscall_inits.*1.
Proof. apply (bool_decide_unpack _). vm_compute. exact I. Qed.
Lemma syscall_inits_range : Forall (fun e => 0 <= e.1 < 1000) syscall_inits.
Proof. apply (bool_decide_unpack _). vm_compute. exact I. Qed.

Section dispatch.
Context {H : Type} `{!KernEnv H} `{!UserCalls H} (B : build).
Implicit Types k : kern H.

(** The running task's frame with a result. *)
Definition returned (v : Z) k (c : Task) : kern H :=
  set_k_tasks (<[k_curr k := set_t_tf (set_return v (t_tf c)) c]> (k_tasks k)) k.

Lemma syscall_return_run v k c : k_tasks k !! k_curr k = Some c -> SYSCALL_RETURN v k = Done tt (returned v k c).
Proof. intros Hc. unfold SYSCALL_RETURN. by erewrite curr_wr_run. Qed.

Definition unpopped k (c : Task) : kern H :=
  set_k_tasks (<[k_curr k := set_t_popped_kstack false c]> (k_tasks k)) k.

Lemma irq_handlers_lookup n : 2 <= n <= 12 -> irq_handlers !! Z.to_nat n = Some do_unknown_fn.
Proof.
  intros Hn. assert (Hall : Forall (fun n => irq_handlers !! Z.to_nat n = Some do_unknown_fn) (seqZ 2 11)).
  { apply (bool_decide_unpack _). vm_compute. exact I. }
  rewrite Forall_forall in Hall. apply Hall, elem_of_seqZ. lia.
Qed.
Lemma exceptions_lookup n : 0 <= n < 20 -> n <> 14 -> n <> 15 -> exceptions !! Z.to_nat n = Some do_error_fn.
Proof.
  intros Hn H1 H2.
  assert (Hall : Forall (fun n => n = 14 \/ n = 15 \/ exceptions !! Z.to_nat n = Some do_error_fn) (seqZ 0 20)).
  { apply (bool_decide_unpack _). vm_compute. exact I. }
  rewrite Forall_forall in Hall. destruct (Hall n) as [?|[?|?]]; [apply elem_of_seqZ; lia|done..].
Qed.

(** trap_handler behind its first assignment. *)
Lemma trap_handler_run va tf k c :
  k_tasks k !! k_curr k = Some c ->
  trap_handler B false va tf k =
    (if is_irq tf then
       ASSERT_int_enable ;;
       f ← deref (irq_handlers !! Z.to_nat (tf_trapno tf - IRQ_OFFSET));
       run_trap_fn B va tf f ;; trap_end
     else if user_mode tf then
       (if tf_trapno tf =? T_SYSCALL then do_syscall B (tf_eax tf)
        else if tf_trapno tf <? Z.of_nat (length exceptions) then
          f ← deref (exceptions !! Z.to_nat (tf_trapno tf)); run_trap_fn B va tf f
        else do_unknown tf) ;; trap_end
     else PANIC) (unpopped k c).
Proof.
  intros Hc. unfold trap_handler. by rewrite (bind_done _ _ _ _ _ (curr_wr_run (set_t_popped_kstack false) _ _ Hc)).
Qed.

(** The entry of a number, and the numbers without one. *)
Lemma do_syscall_entry no f k : (no, f) ∈ syscall_inits -> do_syscall B no k = run_syscall B f k.
Proof.
  intros Hf. pose proof syscall_inits_range as Hr. rewrite Forall_forall in Hr. specialize (Hr _ Hf).
  cbn in Hr. unfold do_syscall. destruct (Z.ltb_spec no MAX_SYSCALL_COUNT) as [|Hge]; [|unfold MAX_SYSCALL_COUNT in Hge; lia].
  rewrite syscalls_lookup by lia.
  by rewrite (elem_of_list_to_map_1 _ _ f syscall_inits_nodup Hf).
Qed.
Lemma do_syscall_none no k : 0 <= no -> no ∉ syscall_inits.*1 -> do_syscall B no k = SYSCALL_RETURN (- ENOSYS) k.
Proof.
  intros Hno Hn. unfold do_syscall. destruct (Z.ltb_spec no MAX_SYSCALL_COUNT) as [Hlt|Hge]; [|done].
  unfold MAX_SYSCALL_COUNT in Hlt. rewrite syscalls_lookup by lia.
  by rewrite (not_elem_of_list_to_map_1 _ _ Hn).
Qed.

Lemma int_enabled k : IF (k_cpu k) = true -> ASSERT_int_enable k = Done tt k.
Proof. intros E. unfold ASSERT_int_enable, eflags_read. m_unfold. cbn [cpu_of HasCpu_kern]. by rewrite E. Qed.
End dispatch.

(** * Properties *)

(** C30. Every system call number up to the largest 32-bit number: the 31 numbers of
    include/kernel/syscall.h that the kernel serves run their functions, every other one
    returns -38 (ENOSYS) to the program and changes nothing else. Of the numbers of
    sys_ipc, the first parameter, ten run the function of the semaphore or of the shared
    memory, 0, 4, 8 and 9 stop the kernel, those from 14 to 56 call what is in memory
    behind the table, since the table's size in bytes is taken for its length, and the
    larger ones stop the kernel. *)
Theorem syscall_dispatch {H} `{!KernEnv H} `{!UserCalls H} B (k : kern H) c no :
  k_tasks k !! k_curr k = Some c -> 0 <= no ->
  Forall (fun '(n, m) => no = n -> do_syscall B no k = m k)
    [(1, sys_exit B); (2, sys_fork B); (3, run_user_call Uread); (4, run_user_call Uwrite); (5, run_user_call Uopen);
     (6, run_user_call Uclose); (8, run_user_call Ucreat); (10, run_user_call Uunlink); (11, run_user_call Uexecve);
     (12, run_user_call Uchdir); (19, run_user_call Ulseek); (20, sys_getpid); (27, sys_alarm); (29, sys_pause B);
     (37, sys_kill); (39, run_user_call Umkdir); (40, run_user_call Urmdir); (45, sys_brk); (48, sys_signal);
     (89, run_user_call Ureaddir); (106, run_user_call Ustat); (108, run_user_call Ufstat); (117, sys_ipc B);
     (169, sys_gettimeofday B); (183, run_user_call Ugetcwd); (901, sys_cputs B); (902, sys_cgetc B); (903, sys_yield B);
     (904, sys_wait B); (905, sys_dongu); (906, sys_sleep B)] /\
  (no ∉ [1; 2; 3; 4; 5; 6; 8; 10; 11; 12; 19; 20; 27; 29; 37; 39; 40; 45; 48; 89; 106; 108; 117; 169; 183;
         901; 902; 903; 904; 905; 906] -> do_syscall B no k = Done tt (returned (- 38) k c)) /\
  (no = get_param1 (t_tf c) ->
    Forall (fun '(n, m) => no = n -> sys_ipc B k = m k)
      [(1, sys_semget B); (2, sys_semctl); (3, sys_semop); (5, sys_semwait B); (6, sys_sempost); (7, sys_semgetvalue);
       (10, sys_shmget B); (11, sys_shmat B); (12, sys_shmdt); (13, sys_shmctl)] /\
    (no ∈ [0; 4; 8; 9] \/ 56 < no -> sys_ipc B k = Stop PanicCalled) /\
    (14 <= no <= 56 -> sys_ipc B k = Stop BadAccess)).
Proof.
  intros Hc Hno. split_and!.
  - repeat (apply Forall_cons; split;
      [intros ->; etransitivity; [eapply (do_syscall_entry B); apply list_elem_of_In; repeat first [left; reflexivity|right]|reflexivity]|]).
    by apply Forall_nil.
  - intros Hn. rewrite do_syscall_none; [by apply syscall_return_run|done|].
    intros Hin. apply Hn. revert Hin. change (syscall_inits.*1) with
      ([1; 2; 3; 4; 5; 6; 11; 12; 20; 27; 29; 37; 45; 48; 89; 106; 19; 117; 183; 39; 40; 8; 10; 108; 169; 901; 902; 903; 904; 905; 906]).
    rewrite !elem_of_cons, elem_of_nil. tauto.
  - intros Hp. assert (Hi : sys_ipc B k = (if no <? sizeof_ipc_func + 1 then f ← deref (ipc_func !! Z.to_nat no); run_ipc B f else PANIC) k).
    { unfold sys_ipc, curr_tf. rewrite bind_assoc. rewrite (bind_done _ _ _ _ _ (curr_rd_run k c Hc)).
      unfold mbind at 1, M_bind, mret at 1, M_ret. rewrite <- Hp. by destruct (no <? sizeof_ipc_func + 1). }
    unfold sizeof_ipc_func in Hi. change (4 * 14 + 1) with 57 in Hi. split_and!.
    + repeat (apply Forall_cons; split; [intros ->; rewrite Hi; reflexivity|]). by apply Forall_nil.
    + rewrite !elem_of_cons, elem_of_nil. intros Hn. rewrite Hi. destruct (Z.ltb_spec no 57); [|done].
      destruct Hn as [[->|[->|[->|[->|[]]]]]|?]; [done..|lia].
    + intros Hn. rewrite Hi. destruct (Z.ltb_spec no 57); [|lia].
      rewrite lookup_ge_None_2; [done|]. change (length ipc_func) with 14%nat. lia.
Qed.

(** C31. Every trap with interrupts enabled outside of critical sections. From user
    mode: the exceptions of the table end the task, a page fault goes to
    do_page_fault, vector 0x80 to do_syscall, and every other vector stops the kernel.
    From both modes: the timer and the keyboard are served, the IRQs 2 to 12 are
    ignored, and 13 to 15 are read behind the table of 13 handlers. Any other trap
    from kernel mode stops the kernel. *)
Theorem trap_dispatch {H} `{!KernEnv H} `{!UserCalls H} B (k : kern H) c va tf :
  k_tasks k !! k_curr k = Some c -> IF (k_cpu k) = true -> n_cli (k_cpu k) = 0 -> 0 <= tf_trapno tf ->
  let v := tf_trapno tf in
  let run := trap_handler B false va tf k in
  let to (m : M (kern H) unit) := (m ;; trap_end) (unpopped k c) in
  (v = 32 -> run = to (do_timer B (user_mode tf))) /\
  (v = 33 -> run = to do_irq_keyboard) /\
  (34 <= v <= 44 -> run = Done tt (unpopped k c)) /\
  (45 <= v <= 47 -> run = Stop BadAccess) /\
  (v < 32 \/ 48 <= v -> user_mode tf = false -> run = Stop PanicCalled) /\
  (user_mode tf = true ->
     (v < 20 -> v <> 14 -> v <> 15 -> run = to (do_exit B 111)) /\
     (v = 14 -> run = to (do_page_fault B va)) /\
     (v = T_SYSCALL -> run = to (do_syscall B (tf_eax tf))) /\
     (v = 15 \/ 20 <= v < 32 \/ 48 <= v /\ v <> T_SYSCALL -> run = Stop PanicCalled)).
Proof.
  intros Hc Hif Hn Hv v run to. unfold run. rewrite (trap_handler_run B va tf k c Hc). fold v.
  assert (Hirq : is_irq tf = bool_decide (32 <= v < 48)).
  { unfold is_irq, IRQ_OFFSET. fold v. case_bool_decide; destruct (Z.leb_spec 32 v), (Z.ltb_spec v 48); done || lia. }
  rewrite Hirq. set (k1 := unpopped k c).
  assert (Hen : ASSERT_int_enable k1 = Done tt k1) by by apply int_enabled.
  assert (Hend : (trap_end : M (kern H) unit) k1 = Done tt k1).
  { unfold trap_end. m_unfold. change (n_cli (k_cpu k1)) with (n_cli (k_cpu k)). by rewrite Hn. }
  split_and!.
  - intros E. rewrite bool_decide_true by lia. rewrite (bind_done _ _ _ _ _ Hen). by rewrite E.
  - intros E. rewrite bool_decide_true by lia. rewrite (bind_done _ _ _ _ _ Hen). by rewrite E.
  - intros E. rewrite bool_decide_true by lia. rewrite (bind_done _ _ _ _ _ Hen). unfold IRQ_OFFSET.
    rewrite irq_handlers_lookup by lia. rewrite (bind_done _ _ _ do_unknown_fn k1) by done.
    rewrite (bind_done _ _ _ tt k1); [exact Hend|]. cbn [run_trap_fn]. unfold do_unknown.
    by rewrite Hirq, bool_decide_true by lia.
  - intros E. rewrite bool_decide_true by lia. rewrite (bind_done _ _ _ _ _ Hen). unfold IRQ_OFFSET.
    rewrite lookup_ge_None_2 by (change (length irq_handlers) with 13%nat; lia). done.
  - intros E Hu. rewrite bool_decide_false by lia. by rewrite Hu.
  - intros Hu. rewrite Hu. change (Z.of_nat (length exceptions)) with 20. split_and!.
    + intros H20 H14 H15. rewrite bool_decide_false by lia. unfold T_SYSCALL.
      destruct (Z.eqb_spec v 0x80); [lia|]. destruct (Z.ltb_spec v 20); [|lia].
      by rewrite exceptions_lookup by lia.
    + intros E. rewrite bool_decide_false by lia. by rewrite E.
    + intros E. rewrite bool_decide_false by (unfold T_SYSCALL in E; lia). by rewrite E.
    + intros E. assert (E' : v <> T_SYSCALL) by (destruct_or? E; unfold T_SYSCALL; lia || naive_solver).
      rewrite bool_decide_false by lia. destruct (Z.eqb_spec v T_SYSCALL); [done|].
      assert (Hun : (do_unknown tf : M (kern H) unit) k1 = Stop PanicCalled)
        by (unfold do_unknown; by rewrite Hirq, bool_decide_false by lia).
      destruct (Z.ltb_spec v 20); [|by apply bind_stop].
      assert (v = 15) as -> by lia. by apply bind_stop.
Qed.

(** ** Witnesses *)

#[local] Instance UserCalls_none : UserCalls demo_env := fun _ => mret tt.

Lemma syscall_dispatch_witness :
  do_syscall (mkBuild 400 32 24 48 44 0) 45 demo_kern = sys_brk demo_kern /\
  exists k', do_syscall (mkBuild 400 32 24 48 44 0) 7 demo_kern = Done tt k' /\
    (exists c, k_tasks k' !! 100 = Some c /\ tf_eax (t_tf c) = 0xFFFFFFDA).
Proof.
  assert (Hc : k_tasks demo_kern !! k_curr demo_kern = Some (demo_task 1 State_running 0 0)) by (vm_compute; reflexivity). split.
  - destruct (syscall_dispatch (mkBuild 400 32 24 48 44 0) demo_kern _ 45 Hc ltac:(lia)) as (H & _).
    apply (proj1 (Forall_forall _ _) H (45, sys_brk)); [|reflexivity].
    apply list_elem_of_In. repeat first [left; reflexivity|right].
  - eexists. split.
    + apply (syscall_dispatch (mkBuild 400 32 24 48 44 0) demo_kern _ 7 Hc); [lia|].
      rewrite !elem_of_cons, elem_of_nil. lia.
    + eexists. split; vm_compute; reflexivity.
Defined.

(** The general protection fault of a program, and an IRQ without a driver. *)
Lemma trap_dispatch_witness :
  let tf v cs := mkTf 0 0 0 0 0 0 v 0 0 cs 0 in
  let B := mkBuild 400 32 24 48 44 0 in
  trap_handler B false 0 (tf 13 0x1b) demo_kern =
    (do_exit B 111 ;; trap_end) (unpopped demo_kern (demo_task 1 State_running 0 0)) /\
  trap_handler B false 0 (tf 39 0x1b) demo_kern = Done tt (unpopped demo_kern (demo_task 1 State_running 0 0)) /\
  trap_handler B false 0 (tf 13 0x8) demo_kern = Stop PanicCalled.
Proof.
  intros tf B.
  assert (Hc : k_tasks demo_kern !! k_curr demo_kern = Some (demo_task 1 State_running 0 0)) by (vm_compute; reflexivity).
  split_and!.
  - destruct (trap_dispatch B demo_kern _ 0 (tf 13 0x1b) Hc eq_refl eq_refl ltac:(cbn; lia))
      as (_ & _ & _ & _ & _ & Hu). destruct (Hu ltac:(vm_compute; reflexivity)) as (He & _). apply He; [reflexivity|discriminate..].
  - destruct (trap_dispatch B demo_kern _ 0 (tf 39 0x1b) Hc eq_refl eq_refl ltac:(cbn; lia))
      as (_ & _ & Hi & _). apply Hi. split; discriminate.
  - destruct (trap_dispatch B demo_kern _ 0 (tf 13 0x8) Hc eq_refl eq_refl ltac:(cbn; lia))
      as (_ & _ & _ & _ & Hk & _). apply Hk; [left; reflexivity|vm_compute; reflexivity].
Defined.
