(* ===== verification/System.v ===== *)
(** The whole kernel: the file system on the kernel heap, with the console, as the
    environment of the processes, and the file system's system calls with user
    memory (kernel/fs/sys_fs.cpp).

    VfsFile models a call behind user_to_kernel_check, with its strings as values.
    Here the strings are read from the running task's memory, and the results are
    stored there, byte by byte in the layout of the i386 ABI. *)

From S2P Require Import Prelude Spinlock ListSpec IdHash Util Fs DenemeFs Vfs VfsFile Cga PhysMem VirtMem UserMem Kmalloc FsHeap.
From S2P Require Import Task Sched Console Ipc Process Syscall.

(** * Definitions *)

Definition MAX_PATH_SIZE : Z := 1536.
Definition sizeof_stat : Z := 48.
Definition sizeof_DIR : Z := 24.
Definition sizeof_dirent_user : Z := 268.

Record sys (D : Type) := mkSys { sys_vfs : vfs (ks mm); sys_con : con D }.
Arguments mkSys {D}. Arguments sys_vfs {D}. Arguments sys_con {D}.

Section system.
Context {D : Type} `{!Ports D} (B : build).
Notation V := (vfs (ks mm)).
#[local] Instance Alloc_system : Alloc (ks mm) := Alloc_ks (garbage B).

Definition set_vfs (v : V) (s : sys D) : sys D := mkSys v (sys_con s).
Definition set_vfs_heap (h : ks mm) (v : V) : V := set_v_fs (mkDfs (fs_di (v_fs v)) (fs_data (v_fs v)) h) v.

(** The processes' environment. *)
#[export] Instance KernEnv_sys : KernEnv (sys D) := {
  ke_heap s := fs_heap (v_fs (sys_vfs s));
  ke_set_heap h s := set_vfs (set_vfs_heap h (sys_vfs s)) s;
  ke_heap_set _ _ := eq_refl;
  ke_fs_fork cur c := zoom sys_vfs set_vfs (fs_fork cur c);
  ke_free_files cur := zoom sys_vfs set_vfs (task_curr_free_files cur);
  ke_dev := D;
  ke_con := sys_con;
  ke_set_con c s := mkSys (sys_vfs s) c;
  ke_con_set _ _ := eq_refl;
}.

Notation K := (kern (sys D)).

Definition in_vfs {A} (m : M V A) : M K A := in_files (zoom sys_vfs set_vfs m).

(** ** User memory *)

(** A string, without its final zero. [user_string_max] bounds the model, not the
    code: a longer string ends the model's run. *)
Definition user_string_max : nat := Z.to_nat 0x4000.
Definition user_cstr (ua : Z) : M K cstr :=
  s ← in_mm (user_str user_string_max ua);
  if (length s <? user_string_max)%nat then mret s else stop OutOfFuel.

(** struct stat, as file_stat_inode fills it; the two bytes of padding stay. *)
Definition store_stat (ua : Z) (s : stat) : M mm unit :=
  user_store ua (bytes_of 2 123 ++ bytes_of 2 (st_ino s) ++ bytes_of 4 0x8000 ++ bytes_of 4 1 ++
                 bytes_of 4 1000 ++ bytes_of 4 1000 ++ bytes_of 2 0) ;;
  user_store (u32 (ua + 24)) (bytes_of 4 (st_size s) ++ bytes_of 4 512 ++ bytes_of 4 (st_blocks s) ++
                 bytes_of 4 100000 ++ bytes_of 4 100000 ++ bytes_of 4 100000).

(** struct dirent_user, as denemefs_readdir fills it. *)
Definition store_dirent (ua : Z) (e : Z * cstr) : M mm unit :=
  user_store ua (bytes_of 2 e.1) ;;
  user_store (u32 (ua + 11)) (e.2 ++ [0]) ;;
  user_store (u32 (ua + 4)) (bytes_of 4 0) ;;
  user_store (u32 (ua + 8)) (bytes_of 2 0) ;;
  user_store (u32 (ua + 10)) [0].

(** ** The calls *)

(** A call whose first parameter is a path, checked for [limit] bytes. *)
Definition path_call (limit : Z) (m : Z -> cstr -> Trapframe -> M V Z) : M K unit :=
  tf ← curr_tf;
  user_to_kernel_check B (get_param1 tf) limit false
    (t ← task_curr; path ← user_cstr (get_param1 tf);
     r ← in_vfs (m t path tf); SYSCALL_RETURN r).

Definition u_open : M K unit := path_call (u32 (-1)) (fun t path tf => sys_open t path (i32 (get_param2 tf))).
Definition u_creat : M K unit := path_call MAX_PATH_SIZE (fun t path tf => sys_creat t path (i32 (get_param2 tf))).
Definition u_mkdir : M K unit := path_call MAX_PATH_SIZE (fun t path tf => sys_mkdir t path (i32 (get_param2 tf))).
Definition u_unlink : M K unit := path_call MAX_PATH_SIZE (fun t path _ => sys_unlink t path).
Definition u_rmdir : M K unit := path_call MAX_PATH_SIZE (fun t path _ => sys_rmdir t path).
Definition u_chdir : M K unit := path_call MAX_PATH_SIZE (fun t path _ => sys_chdir t path).

Definition u_close : M K unit :=
  tf ← curr_tf; t ← task_curr; r ← in_vfs (sys_close t (get_param1 tf)); SYSCALL_RETURN r.
Definition u_lseek : M K unit :=
  tf ← curr_tf; t ← task_curr;
  r ← in_vfs (sys_lseek t (i32 (get_param1 tf)) (i32 (get_param2 tf)) (i32 (get_param3 tf)));
  SYSCALL_RETURN r.

Definition u_read : M K unit :=
  tf ← curr_tf;
  let buf := get_param2 tf in let size := get_param3 tf in
  user_to_kernel_check B buf size true
    (t ← task_curr; '(r, bs) ← in_vfs (sys_read t (get_param1 tf) size);
     in_mm (user_store buf bs) ;; SYSCALL_RETURN r).
Definition u_write : M K unit :=
  tf ← curr_tf;
  let buf := get_param2 tf in let size := get_param3 tf in
  user_to_kernel_check B buf size true
    (t ← task_curr; bs ← in_mm (user_bytes (Z.to_nat size) buf);
     r ← in_vfs (sys_write t (get_param1 tf) bs); SYSCALL_RETURN r).

Definition stat_result (ua : Z) (x : Z * option stat) : M K unit :=
  (match x.2 with Some s => in_mm (store_stat ua s) | None => mret tt end) ;; SYSCALL_RETURN x.1.
Definition u_stat : M K unit :=
  tf ← curr_tf;
  user_to_kernel_check B (get_param1 tf) (u32 (-1)) false
    (user_to_kernel_check B (get_param2 tf) sizeof_stat true
      (t ← task_curr; path ← user_cstr (get_param1 tf);
       x ← in_vfs (sys_stat t path); stat_result (get_param2 tf) x)).
Definition u_fstat : M K unit :=
  tf ← curr_tf;
  user_to_kernel_check B (get_param2 tf) sizeof_stat true
    (t ← task_curr; x ← in_vfs (sys_fstat t (i32 (get_param1 tf))); stat_result (get_param2 tf) x).

(** The whole buffer is read first: with a size that wraps the check the model stops
    at a page that is not there, where the code stores only the path. *)
Definition u_getcwd : M K unit :=
  tf ← curr_tf;
  let buf := get_param1 tf in let size := get_param2 tf in
  user_to_kernel_check B buf size true
    (t ← task_curr; old ← in_mm (user_bytes (Z.to_nat size) buf);
     '(r, bs) ← in_vfs (sys_getcwd t old);
     in_mm (user_store buf bs) ;; SYSCALL_RETURN r).

Definition u_readdir : M K unit :=
  tf ← curr_tf;
  let dirp := get_param1 tf in let ent := get_param2 tf in
  user_to_kernel_check B dirp sizeof_DIR true
    (user_to_kernel_check B ent sizeof_dirent_user true
      (t ← task_curr; fd ← in_mm (user_word dirp);
       '(r, o) ← in_vfs (sys_readdir t (i32 fd));
       (match o with Some e => in_mm (store_dirent ent e) | None => mret tt end) ;;
       SYSCALL_RETURN r)).

(** [execve] is given by Exec, which comes behind this file. *)
Definition user_calls (execve : M K unit) : UserCalls (sys D) := fun c =>
  match c with
  | Uread => u_read | Uwrite => u_write | Uopen => u_open | Uclose => u_close | Uexecve => execve
  | Uchdir => u_chdir | Ureaddir => u_readdir | Ustat => u_stat | Ulseek => u_lseek
  | Ugetcwd => u_getcwd | Umkdir => u_mkdir | Urmdir => u_rmdir | Ucreat => u_creat
  | Uunlink => u_unlink | Ufstat => u_fstat
  end.
End system.
