(* ===== verification/Exec.v ===== *)
(** Program loading (kernel/fs/exec.cpp, kernel/elf.h): execve, the segments of an ELF
    file, and the first stack of a program.

    A structure read from a file is its bytes; a field of a part that was not read is
    undefined. Kernel addresses of user memory are used as the code does and turned
    into the program's addresses for the access. The jump to trapret sets the task's
    trap frame: the model's do_execve then returns [None]. *)

From S2P Require Import Prelude Spinlock ListSpec IdHash Util Fs DenemeFs Vfs VfsFile Cga PhysMem VirtMem UserMem Descr Kmalloc FsHeap.
From S2P Require Import Task Sched Console Ipc Process Syscall System.

(** * Definitions *)

(** ** elf.h *)

Definition field (bs : list Z) (off n : nat) : option Z :=
  if (off + n <=? length bs)%nat then Some (word_of (take n (drop off bs))) else None.

(** Elf32_Ehdr: the fields the kernel reads. *)
Definition sizeof_Elf32_Ehdr : Z := 52.
Definition eh_entry (h : list Z) : option Z := field h 24 4.
Definition eh_phoff (h : list Z) : option Z := field h 28 4.
Definition eh_phnum (h : list Z) : option Z := field h 44 2.

Record Elf32_Phdr := mkPhdr {
  ph_type : Z; ph_offset : Z; ph_vaddr : Z; ph_paddr : Z;
  ph_filesz : Z; ph_memsz : Z; ph_flags : Z; ph_align : Z;
}.
Definition sizeof_Elf32_Phdr : Z := 32.
Definition phdr_of (bs : list Z) : option Elf32_Phdr :=
  t ← field bs 0 4; o ← field bs 4 4; v ← field bs 8 4; p ← field bs 12 4;
  fs ← field bs 16 4; ms ← field bs 20 4; fl ← field bs 24 4; al ← field bs 28 4;
  Some (mkPhdr t o v p fs ms fl al).
Definition Type_LOAD : Z := 1.

Definition PUW : Z := Z.lor PTE_P (Z.lor PTE_U PTE_W).

Definition set_count_stack (v : Z) (i : PageDirInfo) : PageDirInfo :=
  mkDir (pgdir_pa i) (pgdir i) (pgtables i) (count_user i) (count_kernel i) v
        (count_program i) (count_shared i) (start_brk i) (end_brk i).
Definition add_count_program (n : Z) (i : PageDirInfo) : PageDirInfo :=
  mkDir (pgdir_pa i) (pgdir i) (pgtables i) (count_user i) (count_kernel i) (count_stack i)
        (u32 (count_program i + n)) (count_shared i) (start_brk i) (end_brk i).
Definition set_brks (v : Z) (i : PageDirInfo) : PageDirInfo :=
  mkDir (pgdir_pa i) (pgdir i) (pgtables i) (count_user i) (count_kernel i) (count_stack i)
        (count_program i) (count_shared i) v v.

(** ** init_user_stack *)

(** The store of bytes at a kernel address of user memory. *)
Definition kstore (ka : Z) (bs : list Z) : M mm unit := user_store (kaddr2uaddr ka) bs.

Definition arg_ptr_size : nat := 20.

(** The strings: the stack pointer and arg_ptr. A string that no zero ends is [None]. *)
Fixpoint push_strings (argv : list (option (list Z))) (esp : Z) (ptrs : list Z) : M mm (Z * list Z) :=
  match argv with
  | [] => mret (esp, ptrs)
  | a :: argv =>
      s ← deref a;
      let esp := u32 (esp - (Z.of_nat (length s) + 1)) in
      kstore esp (s ++ [0]) ;;
      if (length ptrs <? arg_ptr_size)%nat then push_strings argv esp (ptrs ++ [esp]) else stop BadAccess
  end.

(** while (--i > -1), over the reversed array. *)
Fixpoint push_ptrs (ptrs : list Z) (esp : Z) : M mm Z :=
  match ptrs with
  | [] => mret esp
  | p :: ptrs =>
      let esp := u32 (esp - 4) in
      kstore esp (bytes_of 4 (kaddr2uaddr p)) ;; push_ptrs ptrs esp
  end.

(** argv on the stack, then its address, argc and the return address: the program's
    stack pointer. *)
Definition fill_stack (argv : list (option (list Z))) : M mm (Z * Z) :=
  '(esp, ptrs) ← push_strings argv (va2kaddr MMAP_USER_STACK_TOP) [];
  esp ← push_ptrs (reverse ptrs) esp;
  kstore (u32 (esp - 4)) (bytes_of 4 (kaddr2uaddr esp)) ;;
  kstore (u32 (esp - 8)) (bytes_of 4 (Z.of_nat (length argv))) ;;
  kstore (u32 (esp - 12)) (bytes_of 4 (va2uaddr 0xffffffff)) ;;
  mret (0, kaddr2uaddr (u32 (esp - 12))).

(** The error, or 0 and the stack pointer. *)
Definition init_user_stack (d : Z) (argv : list (option (list Z))) : M mm (Z * Z) :=
  r ← page_alloc_insert d (MMAP_USER_STACK_TOP - 0x1000) PUW;
  if r <? 0 then mret (r, 0) else
  dir_wr d (set_count_stack 1) ;;
  fill_stack argv.

Section exec.
Context {D : Type} `{!Ports D} (B : build).
Notation V := (vfs (ks mm)).
Notation K := (kern (sys D)).
#[local] Instance Alloc_exec : Alloc (ks mm) := Alloc_ks (garbage B).
#[local] Instance KernEnv_exec : KernEnv (sys D) := KernEnv_sys B.

Definition fpos_rd (f : Z) : M K Z := in_vfs B (x ← fl_rd f; mret (f_pos x)).
Definition fpos_wr (f v : Z) : M K unit := in_vfs B (x ← fl_rd f; fl_put f (set_f_pos (i32 v) x)).

(** ** load_program *)

(** One program header of type LOAD: None, or the error of segment_alloc. *)
Definition load_segment (d f : Z) (ph : Elf32_Phdr) : M K (option Z) :=
  r ← in_mm (segment_alloc d (uaddr2va (ph_vaddr ph)) (ph_memsz ph) PUW);
  if r <? 0 then mret (Some r) else
  in_mm (dir_wr d (add_count_program (roundUp (ph_memsz ph) / 0x1000))) ;;
  old_pos ← fpos_rd f;
  fpos_wr f (ph_offset ph) ;;
  '(r, bs) ← in_vfs B (file_read f (ph_memsz ph));
  in_mm (kstore (uaddr2kaddr (ph_vaddr ph)) bs) ;;
  ASSERT (u32 r =? ph_memsz ph) ;;
  fpos_wr f old_pos ;;
  when (ph_filesz ph <? ph_memsz ph)
    (in_mm (kstore (u32 (uaddr2kaddr (ph_vaddr ph) + ph_filesz ph))
              (replicate (Z.to_nat (ph_memsz ph - ph_filesz ph)) 0))) ;;
  mret None.

(** The loop over the [n] headers that are left, with *last_addr. *)
Fixpoint load_headers (n : nat) (d f last_addr : Z) : M K (Z * Z) :=
  match n with
  | O => mret (0, last_addr)
  | S n =>
      '(r, bs) ← in_vfs B (file_read f sizeof_Elf32_Phdr);
      ASSERT (u32 r =? sizeof_Elf32_Phdr) ;;
      ph ← deref (phdr_of bs);
      if ph_type ph =? Type_LOAD then
        e ← load_segment d f ph;
        match e with
        | Some r => mret (r, last_addr)
        | None =>
            let top := roundUp (u32 (ph_vaddr ph + ph_memsz ph)) in
            load_headers n d f (if last_addr <? top then top else last_addr)
        end
      else load_headers n d f last_addr
  end.

Definition load_program (d f : Z) (header : list Z) : M K (Z * Z) :=
  phoff ← deref (eh_phoff header);
  fpos_wr f phoff ;;
  phnum ← deref (eh_phnum header);
  load_headers (Z.to_nat phnum) d f 0.

(** ** execve *)

(** The program's first registers. *)
Definition exec_regs (entry esp : Z) : Trapframe := mkTf 0 0 0 0 0 0 0 0 entry (Z.lor GD_UT 3) esp.

(** None: the jump into the program. *)
Definition do_execve (path : option cstr) (argv : list (option cstr)) : M K (option Z) :=
  t ← task_curr;
  let d := pgdir_of t in
  cli ;;
  path ← deref path;
  '(r, f) ← in_vfs B (file_open t path 1);
  if r <? 0 then mret (Some r) else
  '(r, header) ← in_vfs B (file_read f sizeof_Elf32_Ehdr);
  if i32 r <? 0 then mret (Some r) else
  entry ← deref (eh_entry header);
  in_vfs B (task_curr_free_files t) ;;
  in_mm (task_free_vm_user d) ;;
  '(r, esp) ← in_mm (init_user_stack d argv);
  if r <? 0 then mret (Some r) else
  '(r, last_addr) ← load_program d f header;
  if r <? 0 then mret (Some r) else
  _ ← in_vfs B (file_close f);
  in_mm (dir_wr d (set_brks last_addr)) ;;
  curr_wr (set_t_tf (exec_regs entry esp)) ;;
  mret None.

(** strncpy into an array of [n] bytes. *)
Definition user_strncpy (n : nat) (ua : Z) : M mm (option cstr) :=
  s ← user_str n ua; mret (if (length s <? n)%nat then Some s else None).

(** The loop over argv, [n] rows of _a and entries of _argv from [i] on. *)
Fixpoint copy_argv (n : nat) (argv : Z) : M mm (list (option cstr)) :=
  match n with
  | O => stop BadAccess
  | S n =>
      p ← user_word argv;
      a ← user_strncpy 256 p;
      let argv := u32 (argv + 4) in
      p ← user_word argv;
      if p =? NULL then match n with O => stop BadAccess | _ => mret [a] end
      else l ← copy_argv n argv; mret (a :: l)
  end.

Definition sys_execve : M K unit :=
  tf ← curr_tf;
  cli ;;
  path ← in_mm (user_strncpy (Z.to_nat MAX_PATH_SIZE) (get_param1 tf));
  argv ← in_mm (copy_argv 16 (get_param2 tf));
  r ← do_execve path argv;
  match r with None => mret tt | Some r => SYSCALL_RETURN r end.

(** The system calls of the table, none left open. *)
Definition kernel_calls : UserCalls (sys D) := user_calls B sys_execve.
End exec.
