(* ===== verification/ExecProps.v ===== *)
(** What a program finds when it starts: its arguments on the first stack
    (init_user_stack), and which files execve can load. *)

From S2P Require Import Prelude Spinlock ListSpec IdHash Util Fs DenemeFs DenemeSpec DenemeProps DenemeRefine Vfs VfsFile VfsProps.
From S2P Require Import Cga CgaProps PhysMem VirtMem VirtRefs VirtMap VirtProps UserMem Kmalloc FsHeap.
From S2P Require Import Task Sched SchedOps Console Ipc Process Syscall System Exec.

Local Ltac go H := rewrite (bind_done _ _ _ _ _ H).

(** * Words and strings in memory *)

Lemma length_bytes_of n v : length (bytes_of n v) = n.
Proof. unfold bytes_of. by rewrite length_fmap, length_seq. Qed.

Lemma bytes_of_fit n v : Forall (fits 8) (bytes_of n v).
Proof. unfold bytes_of. apply Forall_fmap, Forall_forall. intros i _. apply byte_of_range. Qed.

Lemma bytes_of_S n v : 0 <= v -> bytes_of (S n) v = v mod 256 :: bytes_of n (v / 256).
Proof.
  intros Hv. unfold bytes_of. cbn [seq]. rewrite fmap_cons. f_equal.
  - unfold byte_of. rewrite Z.shiftr_0_r. change 0xff with (Z.ones 8). by rewrite Z.land_ones by lia.
  - rewrite <- fmap_S_seq, <- list_fmap_compose. apply list_fmap_ext. intros _ i _. unfold compose, byte_of. f_equal.
    rewrite !Z.shiftr_div_pow2 by lia. replace (8 * Z.of_nat (S i)) with (8 + 8 * Z.of_nat i) by lia.
    rewrite Z.pow_add_r by lia. rewrite <- Z.div_div by lia. done.
Qed.

Lemma word_of_bytes n v : 0 <= v < 256 ^ Z.of_nat n -> word_of (bytes_of n v) = v.
Proof.
  revert v. induction n as [|n IH]; intros v Hv; [cbn in *; lia|].
  rewrite bytes_of_S by lia. cbn [word_of foldr]. fold (word_of (bytes_of n (v / 256))).
  rewrite Nat2Z.inj_succ, Z.pow_succ_r in Hv by lia.
  rewrite IH; [pose proof (Z.div_mod v 256); lia|]. split; [apply Z.div_pos; lia|apply Z.div_lt_upper_bound; lia].
Qed.

(** [m] is the bytes of user memory. *)
Definition word_in (m : Z -> Z) (a v : Z) : Prop := (fun i => m (a + i)) <$> seqZ 0 4 = bytes_of 4 v.
Definition str_in (m : Z -> Z) (a : Z) (t : list Z) : Prop :=
  (forall i c, t !! i = Some c -> m (a + Z.of_nat i) = c) /\ m (a + Z.of_nat (length t)) = 0.

Lemma word_in_ext m m' a v : (forall b, a <= b < a + 4 -> m' b = m b) -> word_in m a v -> word_in m' a v.
Proof.
  unfold word_in. intros E H. rewrite <- H. apply list_fmap_ext. intros i x [-> Hx]%lookup_seqZ. apply E. lia.
Qed.

Lemma str_in_ext m m' a t : (forall b, a <= b <= a + Z.of_nat (length t) -> m' b = m b) -> str_in m a t -> str_in m' a t.
Proof.
  intros E [Ht Hz]. split; [|rewrite E by lia; done].
  intros i c Hi. pose proof (lookup_lt_Some _ _ _ Hi). rewrite E by lia. by apply Ht.
Qed.

(** * The first stack *)

Definition STACK_LO : Z := MMAP_USER_STACK_TOP - 0x1000.
Record stack_window (s : mm) : Prop := {
  sw_win : window s STACK_LO MMAP_USER_STACK_TOP;
  sw_store : writable s STACK_LO MMAP_USER_STACK_TOP;
}.

Lemma stack_frames s s' : frames_only s s' -> stack_window s -> stack_window s'.
Proof. intros F [W S]. split; [by eapply window_frames|by eapply writable_frames]. Qed.

(** The kernel's address of a user address. *)
Definition kaddr (x : Z) : Z := u32 (x - MMAP_KERNEL_BASE).

Lemma kaddr_sub x n : u32 (kaddr x - n) = kaddr (x - n).
Proof. unfold kaddr. rewrite u32_sub_l. f_equal. lia. Qed.

Lemma kaddr2uaddr_kaddr x : fits 32 x -> kaddr2uaddr (kaddr x) = x.
Proof.
  intros Hx. unfold kaddr2uaddr, va2uaddr, kaddr2va, kaddr, MMAP_USER_BASE. rewrite u32_add_l, Z.sub_0_r, u32_u32.
  replace (x - MMAP_KERNEL_BASE + MMAP_KERNEL_BASE) with x by lia. by apply u32_small.
Qed.

(** A store in the window: nothing else changes. *)
Lemma kstore_run s x bs : stack_window s -> STACK_LO <= x -> x + Z.of_nat (length bs) <= MMAP_USER_STACK_TOP ->
  Forall (fits 8) bs ->
  exists s', kstore (kaddr x) bs s = Done tt s' /\ frames_only s s' /\
    (fun i => ub s' (x + i)) <$> seqZ 0 (Z.of_nat (length bs)) = bs /\
    forall b, STACK_LO <= b < MMAP_USER_STACK_TOP -> b < x \/ x + Z.of_nat (length bs) <= b -> ub s' b = ub s b.
Proof.
  intros W H1 H2 Hbs. unfold STACK_LO, MMAP_USER_STACK_TOP, MMAP_USER_TOP in *.
  destruct (user_store_win _ _ s x bs (sw_win _ W) H1 H2) as (s' & E & F & U & _).
  { eapply writable_sub; [exact (sw_store _ W)|done|done]. }
  exists s'.
  unfold kstore. rewrite kaddr2uaddr_kaddr by (unfold fits; lia). split_and!; [done|done| |].
  - by apply (stored_bytes _ _ s s' x bs H1 H2 Hbs U).
  - intros b Hb Hout. rewrite U by done. unfold mstore.
    destruct (Z.leb_spec x b), (Z.ltb_spec b (x + Z.of_nat (length bs))); cbn [andb]; lia || done.
Qed.

Definition arg_ok (t : list Z) : Prop := Forall (fun c => 0 < c < 256) t.
Definition arg_bytes (argv : list (list Z)) : Z := foldr (fun t n => Z.of_nat (length t) + 1 + n) 0 argv.

Lemma arg_bytes_nonneg argv : 0 <= arg_bytes argv.
Proof. induction argv as [|t argv IH]; [done|]. cbn [arg_bytes foldr]. fold (arg_bytes argv). lia. Qed.

Lemma push_strings_run argv x ptrs s : stack_window s -> Forall arg_ok argv ->
  STACK_LO + arg_bytes argv <= x <= MMAP_USER_STACK_TOP -> (length ptrs + length argv <= arg_ptr_size)%nat ->
  exists ps s', push_strings (Some <$> argv) (kaddr x) ptrs s = Done (kaddr (x - arg_bytes argv), ptrs ++ (kaddr <$> ps)) s' /\
    frames_only s s' /\
    Forall2 (fun p t => x - arg_bytes argv <= p /\ p + Z.of_nat (length t) < x /\ str_in (ub s') p t) ps argv /\
    forall b, x <= b < MMAP_USER_STACK_TOP -> ub s' b = ub s b.
Proof.
  revert x ptrs s. induction argv as [|t argv IH]; intros x ptrs s W Hok Hx Hl.
  - exists [], s. cbn. rewrite Z.sub_0_r, app_nil_r. split_and!; [done|reflexivity|constructor|done].
  - apply Forall_cons in Hok as [Ht Hok]. cbn [arg_bytes foldr length] in *. fold (arg_bytes argv) in *.
    pose proof (arg_bytes_nonneg argv). set (y := x - (Z.of_nat (length t) + 1)).
    destruct (kstore_run s y (t ++ [0]) W) as (s1 & E1 & F1 & S1 & U1).
    { lia. } { rewrite length_app. cbn [length]. lia. }
    { apply Forall_app. split; [|by repeat constructor]. eapply Forall_impl; [exact Ht|]. unfold fits. cbn. lia. }
    rewrite length_app in S1, U1. cbn [length] in S1, U1.
    destruct (IH y (ptrs ++ [kaddr y]) s1) as (ps & s2 & E2 & F2 & P2 & U2).
    { by eapply stack_frames. } { done. } { lia. } { rewrite length_app. cbn. lia. }
    exists (y :: ps), s2. cbn [fmap list_fmap push_strings]. go (eq_refl : deref (Some t) s = Done t s).
    rewrite kaddr_sub. fold y. go E1. rewrite (proj2 (Nat.ltb_lt _ _)) by lia.
    replace (x - (Z.of_nat (length t) + 1 + arg_bytes argv)) with (y - arg_bytes argv) by lia.
    split_and!; [by rewrite E2, <- app_assoc|by etrans| |].
    + constructor.
      * split_and!; [lia|lia|]. apply (str_in_ext (ub s1)); [intros b Hb; apply U2; lia|].
        assert (Hc : forall i, (i < length t + 1)%nat -> ub s1 (y + Z.of_nat i) = (t ++ [0%Z]) !!! i).
        { intros i Hi. rewrite <- S1.
          symmetry. apply list_lookup_total_correct. rewrite list_lookup_fmap, lookup_seqZ_lt by lia. cbn. f_equal. }
        split.
        -- intros i c Hi. pose proof (lookup_lt_Some _ _ _ Hi). rewrite Hc by lia.
           apply list_lookup_total_correct. by rewrite lookup_app_l.
        -- rewrite Hc by lia. by rewrite lookup_total_app_r, Nat.sub_diag by lia.
      * eapply Forall2_impl; [exact P2|]. cbn. intros p u (? & ? & ?). split_and!; [lia|lia|done].
    + intros b Hb. rewrite U2 by lia. apply U1; lia.
Qed.

Lemma push_ptrs_run ps x s : stack_window s -> Forall (fits 32) ps ->
  STACK_LO + 4 * Z.of_nat (length ps) <= x <= MMAP_USER_STACK_TOP ->
  exists s', push_ptrs (kaddr <$> ps) (kaddr x) s = Done (kaddr (x - 4 * Z.of_nat (length ps))) s' /\
    frames_only s s' /\
    (forall i p, ps !! i = Some p -> word_in (ub s') (x - 4 * (Z.of_nat i + 1)) p) /\
    forall b, x <= b < MMAP_USER_STACK_TOP -> ub s' b = ub s b.
Proof.
  revert x s. induction ps as [|p ps IH]; intros x s W Hps Hx.
  - exists s. cbn. rewrite Z.sub_0_r. by split_and!.
  - apply Forall_cons in Hps as [Hp Hps]. cbn [length] in Hx.
    destruct (kstore_run s (x - 4) (bytes_of 4 p) W) as (s1 & E1 & F1 & S1 & U1).
    { lia. } { rewrite length_bytes_of. lia. } { apply bytes_of_fit. }
    rewrite length_bytes_of in S1, U1.
    destruct (IH (x - 4) s1) as (s2 & E2 & F2 & P2 & U2); [by eapply stack_frames|done|lia|].
    exists s2. cbn [fmap list_fmap push_ptrs]. rewrite kaddr_sub, kaddr2uaddr_kaddr by done. go E1.
    rewrite E2. cbn [length]. replace (x - 4 - 4 * Z.of_nat (length ps)) with (x - 4 * Z.of_nat (S (length ps))) by lia.
    split_and!; [done|by etrans| |].
    + intros [|i] q Hq.
      * injection Hq as <-. change (4 * (Z.of_nat 0 + 1)) with 4. apply (word_in_ext (ub s1)); [|exact S1].
        intros b Hb. apply U2. lia.
      * replace (x - 4 * (Z.of_nat (S i) + 1)) with (x - 4 - 4 * (Z.of_nat i + 1)) by lia. by apply P2.
    + intros b Hb. rewrite U2 by lia. apply U1; lia.
Qed.

(** ** The program's side *)

(** What the start of a program reads from its stack: argc, and the strings of argv.
    [max] bounds the strings. *)
Fixpoint read_argv (n : nat) (argv : Z) : M mm (list (list Z)) :=
  match n with
  | O => mret []
  | S n => p ← user_word argv; t ← user_str 0x1000 p; l ← read_argv n (u32 (argv + 4)); mret (t :: l)
  end.
Definition read_args (esp : Z) : M mm (Z * list (list Z)) :=
  argc ← user_word (u32 (esp + 4)); argv ← user_word (u32 (esp + 8));
  l ← read_argv (Z.to_nat argc) argv; mret (argc, l).

Lemma user_word_run s a v : stack_window s -> fits 32 v -> STACK_LO <= a -> a + 4 <= MMAP_USER_STACK_TOP ->
  word_in (ub s) a v -> user_word a s = Done v s.
Proof.
  intros W Hv H1 H2 Hw. unfold user_word. go (user_bytes_win _ _ s 4 a (sw_win _ W) H1 H2).
  unfold word_in in Hw. change (Z.of_nat 4) with 4. rewrite Hw. rewrite word_of_bytes; [done|]. unfold fits in Hv. lia.
Qed.

Lemma read_argv_run s ps argv a : stack_window s -> STACK_LO <= a -> a + 4 * Z.of_nat (length argv) <= MMAP_USER_STACK_TOP ->
  Forall arg_ok argv -> (forall i p, ps !! i = Some p -> word_in (ub s) (a + 4 * Z.of_nat i) p) ->
  Forall2 (fun p t => STACK_LO <= p /\ p + Z.of_nat (length t) < MMAP_USER_STACK_TOP /\ str_in (ub s) p t) ps argv ->
  read_argv (length argv) a s = Done argv s.
Proof.
  intros W Ha Hb Hok Hps Hst. revert a Ha Hb Hps. induction Hst as [|p t ps argv (H1 & H2 & Ht & Hz) Hst IH]; intros a Ha Hb Hps; [done|].
  apply Forall_cons in Hok as [Hat Hok]. cbn [length read_argv] in *.
  assert (Hpf : fits 32 p) by (unfold fits, STACK_LO, MMAP_USER_STACK_TOP, MMAP_USER_TOP in *; lia).
  assert (Hw : word_in (ub s) a p) by (rewrite <- (Z.add_0_r a); apply (Hps O p eq_refl)).
  go (user_word_run s a p W Hpf ltac:(lia) ltac:(lia) Hw).
  assert (Es : user_str 0x1000 p s = Done t s).
  { apply (user_str_win STACK_LO MMAP_USER_STACK_TOP); [by apply sw_win|lia|lia| | |done].
    - unfold STACK_LO in *. apply Nat2Z.inj_lt. change (Z.of_nat 0x1000) with 0x1000. lia.
    - intros i c Hi. split; [by apply Ht|]. eapply Forall_lookup_1 in Hat; [|exact Hi]. cbn in Hat. lia. }
  go Es. destruct argv as [|u argv].
  - by destruct ps.
  - cbn [length] in *. assert (a + 4 < 2 ^ 32) by (unfold MMAP_USER_STACK_TOP, MMAP_USER_TOP in *; lia).
    assert (0 <= a) by (unfold STACK_LO, MMAP_USER_STACK_TOP, MMAP_USER_TOP in *; lia).
    rewrite u32_small by lia. rewrite (bind_done _ _ _ (u :: argv) s); [done|]. apply IH; [done|lia|lia|].
    intros i q Hq. replace (a + 4 + 4 * Z.of_nat i) with (a + 4 * Z.of_nat (S i)) by lia. by apply Hps.
Qed.

Lemma stack_page_window base s d p :
  mm_ok base s -> base <= p -> cr3_dir s = d -> (exists s0 rc, insert_done s0 s d STACK_LO p PUW rc) -> stack_window s.
Proof.
  intros O Hb Hd (s0 & rc & l & Hl & Hpte & _ & _ & Hu & _).
  pose proof (frame_range base s p _ O Hb (proj1 Hu)) as Hpr.
  assert (ET : MMAP_USER_STACK_TOP = 0xC0000000) by done. assert (EL : STACK_LO = 0xBFFFF000) by done.
  assert (Hpage : forall a, STACK_LO <= a < MMAP_USER_STACK_TOP -> a / 0x1000 = 0xBFFFF).
  { intros a Ha. symmetry. apply (Z.div_unique _ _ _ (a - 0xBFFFF000)); lia. }
  assert (Ht : forall a, STACK_LO <= a < MMAP_USER_STACK_TOP -> utrans s a = Some p).
  { intros a Ha. rewrite (utrans_page s a STACK_LO) by (rewrite ?Hpage by lia; unfold fits; lia).
    unfold utrans. rewrite uaddr2va_id by (unfold fits; lia).
    rewrite Hd, Hl. cbn [mbind option_bind]. destruct (loc_of_table _ _ _ _ _ O Hl) as (Hin & _).
    rewrite bool_decide_true by done. rewrite Hpte, PTE_t_present by done. cbn [andb]. by rewrite PTE_t_page. }
  split; [split|].
  - lia.
  - intros a Ha. exists p. by apply Ht.
  - intros a b q Ha Hb' _ _. by rewrite !Hpage.
  - intros a Ha. rewrite (can_store_page s a STACK_LO) by (rewrite ?Hpage by lia; unfold fits; lia).
    unfold can_store. rewrite uaddr2va_id by (unfold fits; lia). rewrite Hd, Hl, Hpte. by rewrite PTE_t_bit.
Qed.

(** Counting the stack page does not move it. *)
Lemma count_stack_run s d : stack_window s -> is_Some (dirs s !! d) ->
  exists s', dir_wr d (set_count_stack 1) s = Done tt s' /\ stack_window s' /\ cr3_dir s' = cr3_dir s /\
    (forall d', tabs_of s' d' = tabs_of s d') /\ is_Some (dirs s' !! d).
Proof.
  intros W [i Hi]. eexists. split; [by apply dir_wr_run|].
  assert (Hts : forall d', tabs_of (set_dirs (<[d := set_count_stack 1 i]> (dirs s)) s) d' = tabs_of s d').
  { intros d'. unfold tabs_of. cbn. destruct (decide (d' = d)) as [->|Hne]; [by rewrite lookup_insert_eq, Hi|by rewrite lookup_insert_ne]. }
  assert (Hu : forall a, utrans (set_dirs (<[d := set_count_stack 1 i]> (dirs s)) s) a = utrans s a).
  { intros a. unfold utrans, loc_of. by rewrite Hts. }
  split_and!; [|done|done|cbn; rewrite lookup_insert_eq; eauto]. destruct W as [[Hr Hm Ha] Hw]. split.
  - split; [done|intros a Hx; rewrite Hu; by apply Hm|]. intros a b q H1 H2. rewrite !Hu. by apply Ha.
  - intros a Hx. specialize (Hw a Hx). unfold can_store, loc_of in *. by rewrite Hts.
Qed.

Definition stack_room (argv : list (list Z)) : Prop :=
  (length argv <= arg_ptr_size)%nat /\ arg_bytes argv + 4 * Z.of_nat (length argv) + 12 <= 0x1000.

Lemma fill_stack_run s argv : stack_window s -> Forall arg_ok argv -> stack_room argv ->
  exists esp s', fill_stack (Some <$> argv) s = Done (0, esp) s' /\ frames_only s s' /\
    STACK_LO <= esp /\ esp + 12 <= MMAP_USER_STACK_TOP /\ word_in (ub s') esp 0xffffffff /\
    read_args esp s' = Done (Z.of_nat (length argv), argv) s'.
Proof.
  intros W Hok [Hl Hroom]. pose proof (arg_bytes_nonneg argv) as Hab. set (n := Z.of_nat (length argv)) in *.
  set (T := MMAP_USER_STACK_TOP) in *. assert (ET : T = 0xC0000000) by done. assert (EL : STACK_LO = 0xBFFFF000) by done.
  change (va2kaddr T) with (kaddr T).
  destruct (push_strings_run argv T [] s W Hok) as (ps & s1 & E1 & F1 & P1 & _); [lia|cbn; lia|].
  cbn [app] in E1. set (y := T - arg_bytes argv) in *. pose proof (Forall2_length _ _ _ P1) as Hlen.
  assert (Hps : Forall (fits 32) ps).
  { apply Forall_forall. intros p Hp. apply list_elem_of_lookup in Hp as [i Hi].
    destruct (Forall2_lookup_l _ _ _ _ _ P1 Hi) as (t & _ & ? & ? & _). unfold fits. lia. }
  destruct (push_ptrs_run (reverse ps) y s1) as (s2 & E2 & F2 & P2 & U2);
    [by eapply stack_frames|by apply Forall_reverse|rewrite length_reverse; lia|].
  rewrite length_reverse in E2. set (e := y - 4 * Z.of_nat (length ps)) in *.
  assert (W2 : stack_window s2) by (eapply stack_frames; [|exact W]; by etrans).
  destruct (kstore_run s2 (e - 4) (bytes_of 4 e) W2) as (s3 & E3 & F3 & S3 & U3);
    [lia|rewrite length_bytes_of; lia|apply bytes_of_fit|].
  assert (W3 : stack_window s3) by (by eapply stack_frames).
  destruct (kstore_run s3 (e - 8) (bytes_of 4 n) W3) as (s4 & E4 & F4 & S4 & U4);
    [lia|rewrite length_bytes_of; lia|apply bytes_of_fit|].
  assert (W4 : stack_window s4) by (by eapply stack_frames).
  destruct (kstore_run s4 (e - 12) (bytes_of 4 0xffffffff) W4) as (s5 & E5 & F5 & S5 & U5);
    [lia|rewrite length_bytes_of; lia|apply bytes_of_fit|].
  assert (W5 : stack_window s5) by (by eapply stack_frames).
  rewrite length_bytes_of in *. change (Z.of_nat 4) with 4 in *.
  assert (Hhigh : forall b, e <= b < T -> ub s5 b = ub s2 b).
  { intros b Hb. rewrite U5, U4, U3 by lia. done. }
  assert (Hargv : forall b, y <= b < T -> ub s5 b = ub s1 b) by (intros b Hb; rewrite Hhigh, U2 by lia; done).
  exists (e - 12), s5. split_and!.
  - unfold fill_stack. change (va2kaddr T) with (kaddr T). go E1. rewrite <- fmap_reverse. go E2.
    rewrite !kaddr_sub, !kaddr2uaddr_kaddr by (unfold fits; lia). rewrite length_fmap. fold n. go E3. go E4.
    change (va2uaddr 0xffffffff) with 0xffffffff. by go E5.
  - do 4 (etrans; [eassumption|]). exact F5.
  - lia.
  - lia.
  - exact S5.
  - unfold read_args.
    assert (Hw4 : word_in (ub s5) (e - 8) n) by (eapply word_in_ext; [|exact S4]; intros b Hb; rewrite U5 by lia; done).
    assert (Hw3 : word_in (ub s5) (e - 4) e) by (eapply word_in_ext; [|exact S3]; intros b Hb; rewrite U5, U4 by lia; done).
    assert (Hn : n <= 0x1000) by lia.
    rewrite !u32_small by lia. replace (e - 12 + 4) with (e - 8) by lia. replace (e - 12 + 8) with (e - 4) by lia.
    go (user_word_run s5 (e - 8) n W5 ltac:(unfold fits; lia) ltac:(lia) ltac:(lia) Hw4).
    go (user_word_run s5 (e - 4) e W5 ltac:(unfold fits; lia) ltac:(lia) ltac:(lia) Hw3).
    unfold n. rewrite Nat2Z.id. rewrite (bind_done _ _ _ argv s5); [done|].
    apply (read_argv_run s5 ps); [done|lia|lia|done| |].
    + intros i p Hi. pose proof (lookup_lt_Some _ _ _ Hi) as Hi'.
      replace (e + 4 * Z.of_nat i) with (y - 4 * (Z.of_nat (length ps - S i) + 1)) by lia.
      eapply word_in_ext; [|apply P2].
      * intros b Hb. apply Hhigh. lia.
      * rewrite reverse_lookup by lia. rewrite <- Hi. f_equal. lia.
    + eapply Forall2_impl; [exact P1|]. cbn. intros p t (? & ? & Ht). split_and!; [lia|lia|].
      eapply str_in_ext; [|exact Ht]. intros b Hb. apply Hargv. lia.
Qed.

(** C16. A program finds its arguments: for every argument vector of non-empty bytes
    that has room on the first page of the stack, init_user_stack either reports that
    memory has run out, or returns a stack pointer behind which the program's start
    code finds the return address 0xffffffff, the number of its arguments, and the
    argument vector, each string ended by its zero. *)
Theorem program_finds_its_arguments base s argv :
  mm_ok base s -> vm_op_pre base (VAllocInsert (cr3_dir s) STACK_LO PUW) s -> entry_absent s (cr3_dir s) STACK_LO ->
  Forall arg_ok argv -> stack_room argv ->
  (exists s', init_user_stack (cr3_dir s) (Some <$> argv) s = Done (- ENOMEM, 0) s' /\ ptes s' = ptes s) \/
  (exists esp s', init_user_stack (cr3_dir s) (Some <$> argv) s = Done (0, esp) s' /\
     STACK_LO <= esp /\ user_word esp s' = Done 0xffffffff s' /\
     read_args esp s' = Done (Z.of_nat (length argv), argv) s').
Proof.
  intros O ([ts Ht] & Hpm & Hv & Hx & _) Habs Hok Hroom. set (d := cr3_dir s) in *.
  destruct (page_alloc_insert_run base s d STACK_LO PUW ts O Ht Hpm Hv Hx Habs) as (z & s1 & E1 & O1 & _ & Hcase).
  unfold init_user_stack. change (MMAP_USER_STACK_TOP - 0x1000) with STACK_LO. go E1.
  destruct Hcase as [(-> & Sm & He)|(-> & p & Hb & _ & Hins)]; [left; by exists s1|right].
  change (1 <? 0) with false. cbv iota.
  pose proof (loaded_cr3 _ _ (keeps_done _ _ _ _ _ (keeps_page_alloc_insert d STACK_LO PUW) E1)) as Hcr.
  pose proof (stack_page_window base s1 d p O1 Hb Hcr ltac:(by exists s, 1)) as W1.
  assert (Hd1 : is_Some (dirs s1 !! d)) by (change d with (cr3_dir s); rewrite <- Hcr; exact (mo_cr3 _ _ O1)).
  destruct (count_stack_run s1 d W1 Hd1) as (s2 & E2 & W2 & _). go E2.
  destruct (fill_stack_run s2 argv W2 Hok Hroom) as (esp & s3 & E3 & F3 & Hesp & Htop & Hret & Hread).
  exists esp, s3. split_and!; [exact E3|done| |exact Hread].
  apply user_word_run; [by eapply stack_frames|unfold fits; lia|done|lia|done].
Qed.

(** Directory 1 is loaded, four frames are free. *)
Definition demo_loaded : mm := set_cr3 1 (demo_mm 5 4).

Lemma demo_loaded_ok : mm_ok 5 demo_loaded.
Proof.
  apply mm_ok_cr3; [exact demo_mm_ok|]. apply (bool_decide_unpack _). vm_compute. exact I.
Qed.

(** The program "AB" with the argument "C". *)
Lemma program_finds_its_arguments_witness :
  (exists s', init_user_stack 1 [Some [65; 66]; Some [67]] demo_loaded = Done (- ENOMEM, 0) s' /\ ptes s' = ptes demo_loaded) \/
  (exists esp s', init_user_stack 1 [Some [65; 66]; Some [67]] demo_loaded = Done (0, esp) s' /\
     STACK_LO <= esp /\ user_word esp s' = Done 0xffffffff s' /\
     read_args esp s' = Done (2, [[65; 66]; [67]]) s').
Proof.
  apply (program_finds_its_arguments 5 demo_loaded [[65; 66]; [67]] demo_loaded_ok).
  - split; [eexists; reflexivity|]. split; [reflexivity|]. split; [reflexivity|].
    split; [vm_compute; discriminate|]. intros l Hl. vm_compute in Hl. discriminate.
  - intros l Hl. vm_compute in Hl. discriminate.
  - repeat constructor; lia.
  - split; [vm_compute; lia|vm_compute; discriminate].
Defined.

(** * Segments *)

Section segments.
Context {D : Type} `{!Ports D} (B : build).
Notation V := (vfs (ks mm)).
Notation K := (kern (sys D)).
#[local] Instance KernEnv_seg : KernEnv (sys D) := KernEnv_sys B.
#[local] Instance Alloc_seg : Alloc (ks mm) := Alloc_ks (garbage B).
Implicit Types k : K.

(** The files of a kernel state, and an open one. *)
Definition kfiles k : V := sys_vfs (k_heap k).
Definition kopen k (f : Z) (x : file) (bs : list Z) : Prop := exists rw d, open_file (kfiles k) f x rw bs d.

Lemma open_file_heap h (v : V) f x rw bs d : open_file v f x rw bs d -> open_file (set_vfs_heap h v) f x rw bs d.
Proof. intros (i & Hf & Hfo & Hi & Ha). exists i. by split_and!. Qed.

(** Memory and files are different parts of the state. *)
Lemma in_mm_files {A} (m : M mm A) k a k' : in_mm m k = Done a k' -> exists h, kfiles k' = set_vfs_heap h (kfiles k).
Proof.
  unfold in_mm, in_heap. destruct (in_env m _) as [a' h|]; [|done]. intros [= _ <-]. by exists h.
Qed.
Lemma in_mm_open {A} (m : M mm A) k a k' f x bs : in_mm m k = Done a k' -> kopen k f x bs -> kopen k' f x bs.
Proof.
  intros E (rw & d & Ho). destruct (in_mm_files _ _ _ _ E) as [h Eh]. exists rw, d. rewrite Eh. by apply open_file_heap.
Qed.

Lemma in_vfs_run {A} (m : M V A) k a v :
  m (set_vfs_heap (set_cpu (k_cpu k) (fs_heap (v_fs (kfiles k)))) (kfiles k)) = Done a v ->
  exists k', in_vfs B m k = Done a k' /\ kfiles k' = v.
Proof.
  intros E. unfold in_vfs, in_files, zoom. unfold kfiles in E. cbn [ke_set_heap ke_heap KernEnv_seg KernEnv_sys set_vfs sys_vfs].
  rewrite E. eexists. split; [reflexivity|]. done.
Qed.

Lemma fpos_rd_run k f x bs : kopen k f x bs -> exists k', fpos_rd B f k = Done (f_pos x) k' /\ kopen k' f x bs.
Proof.
  intros (rw & d & Ho). pose proof (open_file_heap (set_cpu (k_cpu k) (fs_heap (v_fs (kfiles k)))) _ _ _ _ _ _ Ho) as Ho1.
  set (v := set_vfs_heap _ _) in Ho1. destruct (in_vfs_run (x ← fl_rd f; mret (f_pos x)) k (f_pos x) v) as (k' & Hr & Hk).
  - destruct Ho1 as (i & Hf & _). fold v. unfold fl_rd. m_unfold. by rewrite Hf.
  - exists k'. split; [exact Hr|]. exists rw, d. by rewrite Hk.
Qed.

Lemma fpos_wr_run k f v x bs : kopen k f x bs ->
  exists k', fpos_wr B f v k = Done tt k' /\ kopen k' f (set_f_pos (i32 v) x) bs.
Proof.
  intros (rw & d & Ho). pose proof (open_file_heap (set_cpu (k_cpu k) (fs_heap (v_fs (kfiles k)))) _ _ _ _ _ _ Ho) as Ho1.
  set (w := set_vfs_heap _ _) in Ho1. destruct Ho1 as (i & Hf & Hfo & Hi & Ha).
  destruct (in_vfs_run (x ← fl_rd f; fl_put f (set_f_pos (i32 v) x)) k tt
              (set_v_files (<[f := set_f_pos (i32 v) x]> (v_files w)) w)) as (k' & Hr & Hk).
  - fold w. unfold fl_rd, fl_put. m_unfold. by rewrite Hf.
  - exists k'. split; [exact Hr|]. exists rw, d, i. rewrite Hk. split_and!; [apply lookup_insert_eq|done|done|done].
Qed.

Lemma open_read_run k f x bs size : kopen k f x bs -> Z.land (f_flags x) 1 = 1 ->
  0 <= f_pos x < 2 ^ 31 - Z.of_nat (length bs) -> let out := aread (f_pos x) size bs in
  exists k', in_vfs B (file_read f size) k = Done (Z.of_nat (length out), out) k' /\
    kopen k' f (set_f_pos (f_pos x + Z.of_nat (length out)) x) bs.
Proof.
  intros (rw & d & Ho) Hfl Hp out. pose proof (open_file_heap (set_cpu (k_cpu k) (fs_heap (v_fs (kfiles k)))) _ _ _ _ _ _ Ho) as Ho1.
  pose proof (file_read_at _ f x rw bs d size Ho1 Hfl Hp) as Hr. cbv zeta in Hr. fold out in Hr.
  destruct (in_vfs_run _ k _ _ Hr) as (k' & Hrun & Hk). exists k'. split; [exact Hrun|].
  destruct Ho1 as (i & Hf & Hfo & Hi & Ha). exists rw, d, i. rewrite Hk. split_and!; [apply lookup_insert_eq|done|done|done].
Qed.
End segments.

(** A segment has to be in its file to the last byte of memory: load_segment reads
    [ph_memsz] bytes, not the [ph_filesz] that are there, and asserts that it got them.
    For an open ELF file that ends before that (the usual place of bss), the segment is
    not loaded: the kernel stops, or reports that memory has run out. *)
Theorem segment_needs_memsz_bytes {D} `{!Ports D} (B : build) (k : kern (sys D)) d f ph x bs :
  kopen k f x bs -> Z.land (f_flags x) 1 = 1 ->
  0 <= ph_offset ph < 2 ^ 31 - Z.of_nat (length bs) -> fits 32 (ph_memsz ph) ->
  Z.of_nat (length bs) < ph_offset ph + ph_memsz ph -> 0 < ph_memsz ph ->
  match load_segment B d f ph k with Done r _ => exists e, r = Some e /\ e < 0 | Stop _ => True end.
Proof.
  intros Ho Hfl Hoff Hfit Hshort Hpos. destruct (load_segment B d f ph k) as [r k'|] eqn:E; [|done].
  unfold load_segment in E. bind_inv E. destruct (Z.ltb_spec a 0); [injection E as <- <-; by exists a|exfalso].
  pose proof (in_mm_open B _ _ _ _ _ _ _ Hrun Ho) as Ho1. bind_inv E.
  pose proof (in_mm_open B _ _ _ _ _ _ _ Hrun0 Ho1) as Ho2.
  destruct (fpos_rd_run B _ _ _ _ Ho2) as (k3 & H3 & Ho3). rewrite (bind_done _ _ _ _ _ H3) in E.
  destruct (fpos_wr_run B k3 f (ph_offset ph) x bs Ho3) as (k4 & H4 & Ho4). rewrite (bind_done _ _ _ _ _ H4) in E.
  rewrite i32_small in Ho4 by lia.
  destruct (open_read_run B k4 f _ bs (ph_memsz ph) Ho4 Hfl Hoff) as (k5 & H5 & _). cbn [f_pos set_f_pos] in H5.
  rewrite (bind_done _ _ _ _ _ H5) in E. set (out := aread (ph_offset ph) (ph_memsz ph) bs) in *.
  assert (Hlen : Z.of_nat (length out) < ph_memsz ph).
  { unfold out, aread. rewrite length_take, length_drop, u32_small by (unfold fits in *; lia). lia. }
  bind_inv E. bind_inv E. unfold fits in Hfit. rewrite u32_small in Hrun2 by lia.
  rewrite (proj2 (Z.eqb_neq _ _)) in Hrun2 by lia. done.
Qed.

(** A task with an empty directory, and an open file of 90 bytes. *)
Definition demo_build : build := mkBuild 400 32 24 48 44 0.
Definition demo_prog_mm : mm :=
  set_cr3 100 (set_dirs (<[100 := mkDir 0x4000 ∅ ∅ 0 0 0 0 0 0 0]> (dirs (demo_mm 5 60))) (demo_mm 5 60)).
Definition demo_prog (v : vfs (ks mm)) : kern (sys pc) :=
  mkKern (mkSys v (demo_con 0 [] [])) {[100 := demo_task 1 State_running 0 0]}
    (mkLstore {[QRun 3 := [100]]} {[100 := QRun 3]}) (mkLstore ∅ ∅) (mkLstore ∅ ∅) (mkIdht (replicate 1024 0) 0 ∅) 100
    (mkCpu false 0 false) 1000 4 ∅ ∅ (mkShmState ∅ ∅ (mkIdht [] 0 ∅) (mkIdht [] 0 ∅) 1).
Definition demo_open : vfs (ks mm) :=
  mkVfs (mkDfs [mkDi (mkMode 1 0 0 FT_regular) 1 90 0 0x500] {[0x500 := OBytes (replicate 90 7)]}
           (mkKs ∅ (mkLstore ∅ ∅) ∅ 0 demo_prog_mm))
    {[0x600 := mkInode 0 1 (Some denemefs_file_inode_op) (mkMode 1 0 0 FT_regular) 0 0 90 0 []]} ∅ (mkLstore ∅ ∅)
    {[0x700 := mkFile denemefs_file_op 0x600 84 1]} ∅ NULL [] [] [].

Lemma segment_needs_memsz_bytes_witness :
  match load_segment demo_build 100 0x700 (mkPhdr 1 84 0x8000 0x8000 6 8 7 0x1000) (demo_prog demo_open) with
  | Done r _ => exists e, r = Some e /\ e < 0
  | Stop _ => True
  end.
Proof.
  apply (segment_needs_memsz_bytes demo_build (demo_prog demo_open) 100 0x700 (mkPhdr 1 84 0x8000 0x8000 6 8 7 0x1000)
           (mkFile denemefs_file_op 0x600 84 1) (replicate 90 7)).
  - exists (1, 0), (mkDi (mkMode 1 0 0 FT_regular) 1 90 0 0x500),
      (mkInode 0 1 (Some denemefs_file_inode_op) (mkMode 1 0 0 FT_regular) 0 0 90 0 []). done.
  - reflexivity.
  - rewrite length_replicate. cbn. lia.
  - unfold fits. cbn. lia.
  - rewrite length_replicate. cbn. lia.
  - cbn. lia.
Defined.
