(* ===== verification/Pic.v ===== *)
(** The interrupt controllers and the timer (kernel/picirq.cpp, kernel/timer.cpp).

    The two 8259A and the 8253 are devices behind the ports. [Pic8259] and [Pit8253]
    state what their data sheets say of the bytes the kernel writes: the command
    words that start the initialisation, the mask, the special mask mode, and the
    loading of a counter. The theorems hold for every machine with such devices. *)

From S2P Require Import Prelude Spinlock Cga Descr Sched.

(** * Definitions *)

Definition IO_PIC1 : Z := 0x20.
Definition IO_PIC2 : Z := 0xA0.
Definition IRQ_SLAVE : Z := 2.
Definition T_IRQ0 : Z := 32.

Definition IO_TIMER1 : Z := 0x040.
Definition TIMER_FREQ : Z := 1193182.
Definition TIMER_DIV (x : Z) : Z := (TIMER_FREQ + x / 2) / x.
Definition TIMER_MODE : Z := IO_TIMER1 + 3.
Definition TIMER_SEL0 : Z := 0x00.
Definition TIMER_RATEGEN : Z := 0x04.
Definition TIMER_16BIT : Z := 0x30.

(** The ports, and the variables of the two files. *)
Record irqs (D : Type) := mkIrqs { irq_dev : D; irqmask : Z; jiffies : Z }.
Arguments mkIrqs {D}. Arguments irq_dev {D}. Arguments irqmask {D}. Arguments jiffies {D}.

(** The initial value of irqmask. *)
Definition irqmask0 : Z := Z.land 0xFFFF (Z.lnot (Z.shiftl 1 IRQ_SLAVE)).

Section pic.
Context {D : Type} `{!Ports D}.
Notation I := (irqs D).

Definition irq_outb (port v : Z) : M I unit :=
  modify (fun s => mkIrqs (p_out (u16 port) (u8 v) (irq_dev s)) (irqmask s) (jiffies s)).

Definition pic_setmask (mask : Z) : M I unit :=
  modify (fun s => mkIrqs (irq_dev s) (u16 mask) (jiffies s)) ;;
  irq_outb (IO_PIC1 + 1) mask ;;
  irq_outb (IO_PIC2 + 1) (Z.shiftr mask 8).

Definition pic_enable (irq : Z) : M I unit :=
  s ← get; pic_setmask (u16 (Z.land (irqmask s) (Z.lnot (Z.shiftl 1 irq)))).

(** picirq_init up to its last statement. *)
Definition picirq_commands : M I unit :=
  irq_outb (IO_PIC1 + 1) 0xFF ;;
  irq_outb (IO_PIC2 + 1) 0xFF ;;
  irq_outb IO_PIC1 0x11 ;;
  irq_outb (IO_PIC1 + 1) T_IRQ0 ;;
  irq_outb (IO_PIC1 + 1) (Z.shiftl 1 IRQ_SLAVE) ;;
  irq_outb (IO_PIC1 + 1) 0x3 ;;
  irq_outb IO_PIC2 0x11 ;;
  irq_outb (IO_PIC2 + 1) (T_IRQ0 + 8) ;;
  irq_outb (IO_PIC2 + 1) IRQ_SLAVE ;;
  irq_outb (IO_PIC2 + 1) 0x3 ;;
  irq_outb IO_PIC1 0x68 ;;
  irq_outb IO_PIC1 0x0a ;;
  irq_outb IO_PIC2 0x68 ;;
  irq_outb IO_PIC2 0x0a.
Definition picirq_init : M I unit :=
  picirq_commands ;;
  s ← get;
  when (negb (irqmask s =? 0xFFFF)) (pic_setmask (irqmask s)).

Definition timer_init : M I unit :=
  modify (fun s => mkIrqs (irq_dev s) (irqmask s) 0) ;;
  irq_outb TIMER_MODE (Z.lor TIMER_SEL0 (Z.lor TIMER_RATEGEN TIMER_16BIT)) ;;
  irq_outb IO_TIMER1 (TIMER_DIV 100 mod 256) ;;
  irq_outb IO_TIMER1 (TIMER_DIV 100 / 256) ;;
  pic_enable IRQ_TIMER ;;
  pic_enable IRQ_KBD.
End pic.

(** ** The 8259A *)

(** What the next byte at the odd port is: an initialisation command word, or the
    mask. *)
Inductive icw_state := Ready | Icw2 (single ic4 : bool) | Icw3 (ic4 : bool) | Icw4.

Record chip := mkChip {
  ch_icw : icw_state;
  ch_vector : Z;      (* ICW2 *)
  ch_cascade : Z;     (* ICW3 *)
  ch_aeoi : bool;     (* automatic end of interrupt, ICW4 *)
  ch_x86 : bool;      (* 8086 mode, ICW4 *)
  ch_imr : Z;         (* the mask *)
  ch_smm : bool;      (* special mask mode *)
}.

Definition chip_write (a0 : bool) (v : Z) (c : chip) : chip :=
  if a0 then
    match ch_icw c with
    | Ready => mkChip Ready (ch_vector c) (ch_cascade c) (ch_aeoi c) (ch_x86 c) v (ch_smm c)
    | Icw2 single ic4 =>
        mkChip (if single then (if ic4 then Icw4 else Ready) else Icw3 ic4)
               (Z.land v 0xf8) (ch_cascade c) (ch_aeoi c) (ch_x86 c) (ch_imr c) (ch_smm c)
    | Icw3 ic4 =>
        mkChip (if ic4 then Icw4 else Ready) (ch_vector c) v (ch_aeoi c) (ch_x86 c) (ch_imr c) (ch_smm c)
    | Icw4 =>
        mkChip Ready (ch_vector c) (ch_cascade c) (Z.testbit v 1) (Z.testbit v 0) (ch_imr c) (ch_smm c)
    end
  else if Z.testbit v 4 then
    mkChip (Icw2 (Z.testbit v 1) (Z.testbit v 0)) (ch_vector c) (ch_cascade c) false false 0 false
  else if Z.testbit v 3 && Z.testbit v 6 then
    mkChip (ch_icw c) (ch_vector c) (ch_cascade c) (ch_aeoi c) (ch_x86 c) (ch_imr c) (Z.testbit v 5)
  else c.

(** A write to a port, as the two chips of a PC see it. *)
Definition pics_write (port v : Z) (c : chip * chip) : chip * chip :=
  if port =? 0x20 then (chip_write false v c.1, c.2)
  else if port =? 0x21 then (chip_write true v c.1, c.2)
  else if port =? 0xA0 then (c.1, chip_write false v c.2)
  else if port =? 0xA1 then (c.1, chip_write true v c.2)
  else c.

Class Pic8259 (D : Type) `{!Ports D} := {
  pics : D -> chip * chip;
  pics_out port v d : pics (p_out port v d) = pics_write port v (pics d);
}.

(** The interrupt vector of line [i] of the sixteen, or None when it is masked: the
    slave's lines go through the line of the master it is connected to. *)
Definition line_open (c : chip) (i : Z) : bool :=
  match ch_icw c with Ready => ch_x86 c && negb (Z.testbit (ch_imr c) i) | _ => false end.
Definition irq_vector (c : chip * chip) (i : Z) : option Z :=
  if i <? 8 then
    if line_open c.1 i && negb (Z.testbit (ch_cascade c.1) i) then Some (ch_vector c.1 + i) else None
  else
    let up := ch_cascade c.2 in
    if line_open c.1 up && Z.testbit (ch_cascade c.1) up && line_open c.2 (i - 8)
    then Some (ch_vector c.2 + (i - 8)) else None.

(** ** The 8253

    Counter 0: what its next byte is, its mode, and the value it is loaded with. *)
Inductive pit_state := PitNone | PitLow | PitHigh (low : Z) | PitLoaded.
Record pit := mkPit { pit_st : pit_state; pit_mode : Z; pit_count : Z }.

Definition pit_write (port v : Z) (p : pit) : pit :=
  if port =? 0x43 then
    if (Z.shiftr v 6 =? 0) && (Z.land (Z.shiftr v 4) 3 =? 3)
    then mkPit PitLow (Z.land (Z.shiftr v 1) 7) (pit_count p) else p
  else if port =? 0x40 then
    match pit_st p with
    | PitLow => mkPit (PitHigh v) (pit_mode p) (pit_count p)
    | PitHigh l => mkPit PitLoaded (pit_mode p) (l + 256 * v)
    | _ => p
    end
  else p.

Class Pit8253 (D : Type) `{!Ports D} := {
  pit_of : D -> pit;
  pit_out port v d : pit_of (p_out port v d) = pit_write port v (pit_of d);
}.

(** * Properties *)

Section props.
Context {D : Type} `{!Ports D} `{!Pic8259 D}.
Implicit Types s : irqs D.

Lemma irq_outb_run port v s :
  irq_outb port v s = Done tt (mkIrqs (p_out (u16 port) (u8 v) (irq_dev s)) (irqmask s) (jiffies s)).
Proof. done. Qed.

Lemma u16_small z : 0 <= z < 2 ^ 16 -> u16 z = z.
Proof. apply Z.mod_small. Qed.

(** A chip as picirq_init leaves it, with the mask [m]. *)
Definition chip_up (v cascade m : Z) : chip := mkChip Ready v cascade true true m true.
Definition pics_up (m : Z) : chip * chip := (chip_up 32 4 (u8 m), chip_up 40 2 (u8 (Z.shiftr m 8))).

Lemma pic_setmask_run m0 m s : pics (irq_dev s) = pics_up m0 -> 0 <= m < 2 ^ 16 ->
  exists d, pic_setmask m s = Done tt (mkIrqs d m (jiffies s)) /\ pics d = pics_up m.
Proof.
  intros Hp Hm. eexists. split.
  - unfold pic_setmask, irq_outb. m_unfold. cbn [irq_dev irqmask jiffies]. rewrite (u16_small m) by done. reflexivity.
  - rewrite !pics_out, Hp. reflexivity.
Qed.

Definition outs (l : list (Z * Z)) (d : D) : D := foldl (fun d pv => p_out pv.1 pv.2 d) d l.

Lemma pics_outs l d : pics (outs l d) = foldl (fun c pv => pics_write pv.1 pv.2 c) (pics d) l.
Proof.
  revert d. unfold outs. induction l as [|[p v] l IH]; intros d; [done|]. cbn [foldl fst snd].
  by rewrite IH, pics_out.
Qed.

Definition picirq_bytes : list (Z * Z) :=
  [(0x21, 0xFF); (0xA1, 0xFF); (0x20, 0x11); (0x21, 32); (0x21, 4); (0x21, 3); (0xA0, 0x11); (0xA1, 40);
   (0xA1, 2); (0xA1, 3); (0x20, 0x68); (0x20, 0x0a); (0xA0, 0x68); (0xA0, 0x0a)].

Lemma picirq_commands_run s :
  picirq_commands s = Done tt (mkIrqs (outs picirq_bytes (irq_dev s)) (irqmask s) (jiffies s)).
Proof. reflexivity. Qed.

Lemma picirq_bytes_up c : foldl (fun c pv => pics_write pv.1 pv.2 c) c picirq_bytes = pics_up 0.
Proof. destruct c as [[] []]. vm_compute. reflexivity. Qed.

Lemma picirq_init_run s : 0 <= irqmask s < 2 ^ 16 -> irqmask s <> 0xFFFF ->
  exists d, picirq_init s = Done tt (mkIrqs d (irqmask s) (jiffies s)) /\ pics d = pics_up (irqmask s).
Proof.
  intros Hm Hne. set (s1 := mkIrqs (outs picirq_bytes (irq_dev s)) (irqmask s) (jiffies s)).
  assert (H1 : pics (irq_dev s1) = pics_up 0) by (cbn [irq_dev s1]; by rewrite pics_outs, picirq_bytes_up).
  destruct (pic_setmask_run 0 (irqmask s) s1 H1 Hm) as (d & Hset & Hd). exists d. split; [|done].
  unfold picirq_init. rewrite (bind_done _ _ _ _ _ (picirq_commands_run s)).
  rewrite (bind_done _ _ _ s1 s1) by done. cbn [irqmask s1]. by rewrite (proj2 (Z.eqb_neq _ _) Hne).
Qed.

(** The mask after a list of pic_enable. *)
Definition unmask (m irq : Z) : Z := u16 (Z.land m (Z.lnot (Z.shiftl 1 irq))).

Lemma unmask_range m irq : 0 <= unmask m irq < 2 ^ 16.
Proof. apply Z.mod_pos_bound. lia. Qed.

Lemma unmask_bit m irq i : 0 <= irq -> 0 <= i < 16 ->
  Z.testbit (unmask m irq) i = Z.testbit m i && negb (i =? irq).
Proof.
  intros Hq Hi. unfold unmask, u16. rewrite Z.mod_pow2_bits_low, Z.land_spec, Z.lnot_spec, Z.shiftl_1_l by lia.
  by rewrite Z.pow2_bits_eqb, Z.eqb_sym by lia.
Qed.

Lemma unmask_all l m i : Forall (fun q => 0 <= q) l -> 0 <= i < 16 ->
  Z.testbit (foldl unmask m l) i = Z.testbit m i && bool_decide (i ∉ l).
Proof.
  intros Hl Hi. revert m. induction Hl as [|q l Hq Hl IH]; intros m; cbn [foldl].
  - rewrite bool_decide_true by set_solver. by rewrite andb_true_r.
  - rewrite IH, unmask_bit by done. destruct (Z.eqb_spec i q) as [->|Hne]; cbn [negb].
    + rewrite (bool_decide_false (q ∉ q :: l)) by set_solver. by rewrite andb_false_r.
    + rewrite andb_true_r. f_equal. apply bool_decide_ext. set_solver.
Qed.

Lemma pic_enables_run l s : pics (irq_dev s) = pics_up (irqmask s) ->
  exists d, iterM pic_enable l s = Done tt (mkIrqs d (foldl unmask (irqmask s) l) (jiffies s)) /\
    pics d = pics_up (foldl unmask (irqmask s) l).
Proof.
  revert s. induction l as [|q l IH]; intros s Hs; cbn [iterM foldl].
  - exists (irq_dev s). by destruct s.
  - destruct (pic_setmask_run (irqmask s) (unmask (irqmask s) q) s Hs (unmask_range _ _)) as (d & Hr & Hd).
    destruct (IH (mkIrqs d (unmask (irqmask s) q) (jiffies s)) Hd) as (d' & Hr' & Hd').
    exists d'. split; [|done]. rewrite (bind_done _ _ _ tt (mkIrqs d (unmask (irqmask s) q) (jiffies s))); [exact Hr'|].
    exact Hr.
Qed.

(** What the processor gets from a line, for a mask of the kernel. *)
Lemma pics_up_vector m i : 0 <= m < 2 ^ 16 -> Z.testbit m 2 = false -> 0 <= i < 16 -> i <> 2 ->
  irq_vector (pics_up m) i = if Z.testbit m i then None else Some (IRQ_OFFSET + i).
Proof.
  intros Hm H2 Hi Hne. assert (Hlow : forall j, 0 <= j < 8 -> Z.testbit (u8 m) j = Z.testbit m j).
  { intros j Hj. unfold u8. by rewrite Z.mod_pow2_bits_low by lia. }
  assert (Hhigh : forall j, 0 <= j < 8 -> Z.testbit (u8 (Z.shiftr m 8)) j = Z.testbit m (j + 8)).
  { intros j Hj. unfold u8. rewrite Z.mod_pow2_bits_low by lia. by rewrite Z.shiftr_spec by lia. }
  unfold irq_vector, line_open, pics_up, chip_up. cbn [fst snd ch_icw ch_x86 ch_imr ch_cascade ch_vector andb].
  destruct (Z.ltb_spec i 8).
  - rewrite Hlow by lia. change 4 with (2 ^ 2). rewrite Z.pow2_bits_eqb by lia.
    rewrite (proj2 (Z.eqb_neq 2 i)) by lia. rewrite andb_true_r. by destruct (Z.testbit m i).
  - rewrite Hlow, Hhigh, H2 by lia. replace (i - 8 + 8) with i by lia. cbn.
    destruct (Z.testbit m i); [done|]. cbn. unfold IRQ_OFFSET. f_equal. lia.
Qed.
End props.

(** A machine: the keyboard and screen of [pc] with the two chips and the counter. *)
Record pc_irq := mkPcIrq { pi_pc : Z -> Z; pi_pics : chip * chip; pi_pit : pit }.
#[export] Instance Ports_pc_irq : Ports pc_irq := {
  p_in port d := (pi_pc d port, d);
  p_out port v d := mkPcIrq (pi_pc d) (pics_write port v (pi_pics d)) (pit_write port v (pi_pit d));
  p_ready d := 0%nat;
}.
#[export] Instance Pic8259_pc : Pic8259 pc_irq.
Proof. by refine {| pics := pi_pics |}. Defined.
#[export] Instance Pit8253_pc : Pit8253 pc_irq.
Proof. by refine {| pit_of := pi_pit |}. Defined.

(** Chips and counter in any state before the boot. *)
Definition demo_irqs : irqs pc_irq :=
  mkIrqs (mkPcIrq (fun _ => 0) (mkChip (Icw3 true) 8 9 false false 0 true, mkChip Ready 112 0 true true 7 false)
            (mkPit PitNone 0 0)) irqmask0 77.

(** timer_init up to pic_enable. *)
Definition timer_ports {D} `{!Ports D} (s : irqs D) : irqs D :=
  mkIrqs (p_out 0x40 46 (p_out 0x40 156 (p_out 0x43 0x34 (irq_dev s)))) (irqmask s) 0.

Lemma timer_init_enables {D} `{!Ports D} (s : irqs D) :
  timer_init s = iterM pic_enable [IRQ_TIMER; IRQ_KBD] (timer_ports s).
Proof. reflexivity. Qed.

Lemma irqmask0_bits i : 0 <= i < 16 -> i <> 2 -> Z.testbit irqmask0 i = true.
Proof.
  intros Hi Hne.
  assert (Hall : Forall (fun i => i = 2 \/ Z.testbit irqmask0 i = true) (seqZ 0 16)).
  { apply (bool_decide_unpack _). vm_compute. exact I. }
  rewrite Forall_forall in Hall. destruct (Hall i); [apply elem_of_seqZ; lia|done|done].
Qed.

Lemma enabled_vector l i : Forall (fun q => 0 <= q < 16) l -> 0 <= i < 16 -> i <> 2 ->
  irq_vector (pics_up (foldl unmask irqmask0 l)) i = if bool_decide (i ∈ l) then Some (IRQ_OFFSET + i) else None.
Proof.
  intros Hl Hi Hne. assert (Hl' : Forall (fun q => 0 <= q) l) by (eapply Forall_impl; [exact Hl|]; cbn; lia).
  assert (Hr : 0 <= foldl unmask irqmask0 l < 2 ^ 16).
  { destruct l as [|q l _] using rev_ind; [vm_compute; split; congruence|]. rewrite foldl_app. apply unmask_range. }
  assert (H2 : Z.testbit (foldl unmask irqmask0 l) 2 = false) by (by rewrite unmask_all).
  rewrite pics_up_vector, unmask_all, irqmask0_bits by done. cbn [andb]. by repeat case_bool_decide.
Qed.

(** C27. The interrupts reach their entry points. From any state of the controllers,
    picirq_init and pic_enable of any lines leave both chips initialised, with the
    end of an interrupt signalled by the chip itself (the handlers never do it), in
    the special mask mode, and with exactly the enabled lines open: line [i] raises
    the vector 32 + i. After picirq_init and the timer_init of the boot line 0 raises
    vector 32 and line 1 vector 33, and every other line is closed; in the table that
    init_traps fills the two vectors lead, through trap gates that leave interrupts
    enabled, to irq_timer and irq_keyboard, which push these numbers. *)
Theorem irqs_reach_their_gates {D} `{Pic8259 D} (s : irqs D) l addr :
  irqmask s = irqmask0 -> Forall (fun q => 0 <= q < 16) l -> (forall e, fits 32 (addr e)) ->
  (exists s', (picirq_init ;; iterM pic_enable l) s = Done tt s' /\
     Forall (fun c => ch_icw c = Ready /\ ch_aeoi c = true /\ ch_smm c = true)
            [(pics (irq_dev s')).1; (pics (irq_dev s')).2] /\
     forall i, 0 <= i < 16 -> i <> IRQ_SLAVE ->
       irq_vector (pics (irq_dev s')) i = if bool_decide (i ∈ l) then Some (32 + i) else None) /\
  (exists s', (picirq_init ;; timer_init) s = Done tt s' /\
     forall i, 0 <= i < 16 -> i <> IRQ_SLAVE ->
       irq_vector (pics (irq_dev s')) i = if i =? 0 then Some 32 else if i =? 1 then Some 33 else None) /\
  leads_to addr 32 irq_timer false /\ leads_to addr 33 irq_keyboard false /\
  forall frame, entry_push irq_timer (cpu_push 32 0 frame) = 32 :: 0 :: frame /\
    entry_push irq_keyboard (cpu_push 33 0 frame) = 33 :: 0 :: frame.
Proof.
  intros Hm Hl Haddr.
  assert (Hm0 : 0 <= irqmask s < 2 ^ 16) by (rewrite Hm; vm_compute; split; congruence).
  assert (Hne : irqmask s <> 0xFFFF) by (rewrite Hm; vm_compute; congruence).
  destruct (picirq_init_run s Hm0 Hne) as (d & Hrun & Hd). set (s1 := mkIrqs d (irqmask s) (jiffies s)) in *.
  split_and!; [| | | |done].
  - destruct (pic_enables_run l s1 Hd) as (d' & Hr & Hd'). eexists. split_and!.
    + rewrite (bind_done _ _ _ _ _ Hrun). exact Hr.
    + cbn [irq_dev]. rewrite Hd'. by repeat constructor.
    + intros i Hi Hn. cbn [irq_dev s1 irqmask] in *. rewrite Hd', Hm. by apply enabled_vector.
  - destruct (pic_enables_run [IRQ_TIMER; IRQ_KBD] (timer_ports s1)) as (d' & Hr & Hd').
    { cbn [timer_ports irq_dev irqmask]. rewrite !pics_out. change (irq_dev s1) with d. by rewrite Hd. }
    eexists. split.
    + rewrite (bind_done _ _ _ _ _ Hrun). rewrite timer_init_enables. exact Hr.
    + intros i Hi Hn. cbn [irq_dev]. rewrite Hd'. cbn [timer_ports irqmask s1]. rewrite Hm.
      rewrite enabled_vector; [|by repeat constructor|done|done].
      destruct (Z.eqb_spec i 0) as [->|H0]; [done|]. destruct (Z.eqb_spec i 1) as [->|H1]; [done|].
      rewrite bool_decide_false; [done|]. rewrite !elem_of_cons, elem_of_nil. unfold IRQ_TIMER, IRQ_KBD. lia.
  - apply (leads_to_entry addr Haddr 32 IntGate). apply list_elem_of_lookup. by exists 31%nat.
  - apply (leads_to_entry addr Haddr 33 IntGate). apply list_elem_of_lookup. by exists 32%nat.
Qed.

Lemma irqs_reach_their_gates_witness :
  (exists s', (picirq_init ;; iterM pic_enable [0; 1; 14]) demo_irqs = Done tt s' /\
     irq_vector (pics (irq_dev s')) 14 = Some 46 /\ irq_vector (pics (irq_dev s')) 15 = None) /\
  (exists s', (picirq_init ;; timer_init) demo_irqs = Done tt s' /\ irq_vector (pics (irq_dev s')) 1 = Some 33) /\
  leads_to demo_entries 33 irq_keyboard false.
Proof.
  destruct (irqs_reach_their_gates demo_irqs [0; 1; 14] demo_entries eq_refl) as ((s' & Hr & _ & Hv) & (t' & Hr' & Hv') & _ & Hg & _).
  - repeat constructor; lia.
  - intros []; unfold fits; simpl; lia.
  - split; [|split; [|exact Hg]].
    + exists s'. split; [exact Hr|]. split; apply Hv; unfold IRQ_SLAVE; lia.
    + exists t'. split; [exact Hr'|]. apply (Hv' 1); unfold IRQ_SLAVE; lia.
Defined.

(** The timer runs at the rate the kernel counts with: from any state of the
    counter, timer_init loads counter 0 as a rate generator with the divisor of
    1193182 Hz that is nearest to HZ interrupts in a second, and starts jiffies
    at 0. *)
Theorem timer_runs_at_hz {D} `{Pit8253 D} (s : irqs D) :
  exists s', timer_init s = Done tt s' /\ jiffies s' = 0 /\
    pit_st (pit_of (irq_dev s')) = PitLoaded /\ pit_mode (pit_of (irq_dev s')) = 2 /\
    let n := pit_count (pit_of (irq_dev s')) in
    0 < n < 2 ^ 16 /\ forall n', 0 < n' -> Z.abs (HZ * n - TIMER_FREQ) <= Z.abs (HZ * n' - TIMER_FREQ).
Proof.
  eexists. split; [reflexivity|]. split; [reflexivity|]. cbn [irq_dev]. rewrite !pit_out.
  destruct (pit_of (irq_dev s)) as [st m c]. split; [reflexivity|]. split; [reflexivity|].
  set (n := pit_count _). assert (E : n = 11932) by reflexivity. cbv zeta. rewrite E.
  unfold HZ, TIMER_FREQ. split; lia.
Qed.

Lemma timer_runs_at_hz_witness :
  exists s', timer_init demo_irqs = Done tt s' /\ jiffies s' = 0 /\ pit_count (pit_of (irq_dev s')) = 11932.
Proof.
  destruct (timer_runs_at_hz demo_irqs) as (s' & Hr & Hj & _). exists s'. split; [exact Hr|]. split; [exact Hj|].
  injection Hr as <-. vm_compute. reflexivity.
Defined.
