(* ===== verification/Monitor.v ===== *)
(** The kernel monitor (kernel/kernel_monitor.cpp) and the panics that lead into it
    (kernel/panic.cpp): the line editor, the command table and the commands.

    [mach] is the whole machine: the kernel state with the variables of the monitor,
    the boot and the interrupt controller. [polls] is how often getchar asks for a
    character, and bounds the loops around it: with no more input the code waits. *)

From S2P Require Import Prelude Spinlock ListSpec IdHash Util Vsprintf Fs DenemeFs Vfs VfsFile Cga PhysMem VirtMem UserMem Descr Kmalloc FsHeap.
From S2P Require Import Task Sched Console Ipc Process Syscall System Exec.

(** * Definitions *)

(** ** The machine *)

(** What the boot loader, the linker and the BIOS leave, and the monitor shows. *)
Record platform := mkPlat {
  pl_mb : multiboot;
  multiboot_magic : Z; boot_device : Z; cmdline : cstr;
  pl_layout : layout;    (* __text_start, __rodata_end *)
  rodata_start : Z; data_start : Z; bss_start : Z; kernel_end : Z;
  pl_bda : list Z;      (* the BIOS data area *)
  pl_initrd : list Z;   (* the bytes of the RAM disk *)
}.

Record mach (D : Type) := mkMach {
  m_kern : kern (sys D);
  kernel_monitor_running : bool;
  free_memory_start : Z;
  m_info : meminfo;     (* what detect_memory found *)
  m_irqmask : Z;
  m_gdt : list SegmentDesc;
  m_idt : list GateDesc;
}.
Arguments mkMach {D}. Arguments m_kern {D}. Arguments kernel_monitor_running {D}.
Arguments free_memory_start {D}. Arguments m_info {D}. Arguments m_irqmask {D}.
Arguments m_gdt {D}. Arguments m_idt {D}.

Section mach_fields.
Context {D : Type}.
Implicit Types m : mach D.

Definition set_m_kern (v : kern (sys D)) m : mach D :=
  mkMach v (kernel_monitor_running m) (free_memory_start m) (m_info m) (m_irqmask m) (m_gdt m) (m_idt m).
Definition set_running (v : bool) m : mach D :=
  mkMach (m_kern m) v (free_memory_start m) (m_info m) (m_irqmask m) (m_gdt m) (m_idt m).
Definition set_free_memory_start (v : Z) m : mach D :=
  mkMach (m_kern m) (kernel_monitor_running m) v (m_info m) (m_irqmask m) (m_gdt m) (m_idt m).
Definition set_m_info (v : meminfo) m : mach D :=
  mkMach (m_kern m) (kernel_monitor_running m) (free_memory_start m) v (m_irqmask m) (m_gdt m) (m_idt m).
Definition set_m_irqmask (v : Z) m : mach D :=
  mkMach (m_kern m) (kernel_monitor_running m) (free_memory_start m) (m_info m) v (m_gdt m) (m_idt m).
Definition set_m_gdt (v : list SegmentDesc) m : mach D :=
  mkMach (m_kern m) (kernel_monitor_running m) (free_memory_start m) (m_info m) (m_irqmask m) v (m_idt m).
Definition set_m_idt (v : list GateDesc) m : mach D :=
  mkMach (m_kern m) (kernel_monitor_running m) (free_memory_start m) (m_info m) (m_irqmask m) (m_gdt m) v.

#[export] Instance HasCpu_mach : HasCpu (mach D).
Proof.
  refine {| cpu_of m := k_cpu (m_kern m); set_cpu c m := set_m_kern (set_k_cpu c (m_kern m)) m |}.
  - done.
  - by intros [[] ? ? ? ? ?].
  - done.
Defined.
End mach_fields.

(** ** The commands *)

Inductive command_fn :=
| command_help | command_kernelinfo | command_backtrace | command_sysinfo | command_info | command_create
| command_tasks | command_taskinfo | command_continue | command_memdebug.

#[export] Instance command_fn_eq_dec : EqDecision command_fn.
Proof. solve_decision. Defined.

Record Command := mkCommand { cmd_name : cstr; shortname : cstr; description : cstr; cmd_func : command_fn }.

Definition commands : list Command :=
  [mkCommand (c_str "help") (c_str "h") (c_str "") command_help;
   mkCommand (c_str "kernelinfo") (c_str "ki") (c_str "kernel info") command_kernelinfo;
   mkCommand (c_str "backtrace") (c_str "bt") (c_str "") command_backtrace;
   mkCommand (c_str "sysinfo") (c_str "si") (c_str "") command_sysinfo;
   mkCommand (c_str "info") (c_str "i") (c_str "") command_info;
   mkCommand (c_str "create") (c_str "cr") (c_str "create process") command_create;
   mkCommand (c_str "tasks") (c_str "ts") (c_str "") command_tasks;
   mkCommand (c_str "task") (c_str "t") (c_str "task info") command_taskinfo;
   mkCommand (c_str "continue") (c_str "c") (c_str "continue") command_continue;
   mkCommand (c_str "memdebug") (c_str "md") (c_str "memory debug") command_memdebug].

Definition state_no (s : State) : Z :=
  match s with
  | State_not_runnable => -1 | State_running => 0 | State_interruptible => 1
  | State_uninterruptible => 2 | State_zombie => 3 | State_stopped => 4
  end.
Definition task_state_name : list cstr :=
  [c_str "running"; c_str "interruptible"; c_str "uninterruptible"; c_str "zombie"; c_str "stopped"].

Definition MULTIBOOT_BOOTLOADER_MAGIC : Z := 0x2BADB002.
Definition MULTIBOOT_INFO_MEMORY : Z := 1.
Definition MULTIBOOT_INFO_BOOTDEV : Z := 2.
Definition MULTIBOOT_INFO_CMDLINE : Z := 4.
Definition MULTIBOOT_INFO_MEM_MAP : Z := 0x40.
Definition MULTIBOOT_MEMORY_AVAILABLE : Z := 1.
Definition MULTIBOOT_MEMORY_RESERVED : Z := 2.

Section monitor.
Context {D : Type} `{!Ports D} (B : build) (P : platform) (polls : nat).
(** The register ebp and the words of the kernel's memory, for the backtrace; the
    byte in front of the line buffer. *)
Context (ebp0 : Z) (word_at : Z -> option Z) (before : Z).
Notation K := (kern (sys D)).
Notation X := (mach D).
#[local] Instance KernEnv_monitor : KernEnv (sys D) := KernEnv_sys B.

Definition in_kern {A} (m : M K A) : M X A := zoom m_kern set_m_kern m.

(** #define printf(args...) __kernel_print(args) *)
Definition printf (fmt : string) (args : list va_value) : M X unit :=
  _ ← in_kern (in_con (kernel_print (c_str fmt) args)); mret tt.
Definition putchar (c : Z) : M X unit := in_kern (in_con (console_putc c)).

Fixpoint getchar_loop (n : nat) : M X Z :=
  match n with
  | O => stop OutOfFuel
  | S n => c ← in_kern console_getc; if c =? 0 then getchar_loop n else mret c
  end.
Definition getchar : M X Z := getchar_loop polls.

(** ** readline *)

Definition buf_store (i v : Z) (buf : list Z) : M X (list Z) :=
  _ ← deref (buf !! Z.to_nat i); mret (<[Z.to_nat i := u8 v]> buf).

Fixpoint readline_loop (n : nat) (buf : list Z) (buflen i : Z) : M X (Z * list Z) :=
  match n with
  | O => stop OutOfFuel
  | S n =>
      c ← getchar;
      if c <? 0 then printf "read error: %e\n" [VInt c] ;; mret (-1, buf)
      else if ((c =? 8) || (c =? 127)) && (0 <? i) then
        putchar 8 ;; readline_loop n buf buflen (i - 1)
      else if (32 <=? c) && (i <? buflen - 1) then
        putchar c ;; buf ← buf_store i c buf; readline_loop n buf buflen (i + 1)
      else if (c =? 10) || (c =? 13) then
        putchar 10 ;; buf ← buf_store i 0 buf; mret (i, buf)
      else readline_loop n buf buflen i
  end.

(** [polls] characters at most. *)
Definition readline (prompt : option string) (buf : list Z) (buflen : Z) : M X (Z * list Z) :=
  (match prompt with Some p => printf "%s" [VStr (c_str p)] | None => mret tt end) ;;
  readline_loop polls buf buflen 0.

(** ** The commands *)

Definition do_help : M X Z :=
  printf "command list:\n" [] ;;
  iterM (fun c => printf "%s (%s) - %s\n" [VStr (cmd_name c); VStr (shortname c); VStr (description c)]) commands ;;
  mret 0.

Definition do_kernelinfo : M X Z :=
  let kernelSize := Z.shiftr (u32 (kernel_end P - text_start (pl_layout P))) 10 in
  printf "kernel size: %d kb\n" [VInt kernelSize] ;;
  printf "text\t0x%08x\n" [VInt (text_start (pl_layout P))] ;;
  printf "rodata\t0x%08x\n" [VInt (rodata_start P)] ;;
  printf "data\t0x%08x\n" [VInt (data_start P)] ;;
  printf "bss\t0x%08x\n" [VInt (bss_start P)] ;;
  printf "end\t0x%08x\n" [VInt (kernel_end P)] ;;
  mret 0.

Definition MMAP_KERNEL_STACK_TOP : Z := MMAP_KERNEL_TOP.

(** The frames on the kernel stack; a chain of frames may be circular. *)
Fixpoint backtrace_loop (n : nat) (ebp : Z) : M X unit :=
  match n with
  | O => stop OutOfFuel
  | S n =>
      if u32 (va2kaddr MMAP_KERNEL_STACK_TOP - ebp) <? MMAP_KERNEL_STACK_SIZE then
        eip ← deref (word_at (u32 (ebp + 4)));
        args ← foldM (fun l i => a ← deref (word_at (u32 (ebp + 8 + 4 * i))); mret (l ++ [a])) [] (seqZ 0 5);
        printf "    %08x  %08x  args:" [VInt ebp; VInt eip] ;;
        iterM (fun a => printf " %08x" [VInt a]) args ;;
        printf "\n" [] ;;
        up ← deref (word_at ebp);
        backtrace_loop n up
      else mret tt
  end.
Definition do_backtrace : M X Z :=
  printf "ebp: %08x\n" [VInt ebp0] ;; backtrace_loop polls ebp0 ;; mret 0.

Definition mb_has (f : Z) : bool := negb (Z.land (mb_flags (pl_mb P)) f =? 0).

Definition show_mmap (e : mmap_entry) : M X unit :=
  printf "    0x%08x - 0x%08x  " [VInt (addr_low e); VInt (u32 (addr_low e + len_low e))] ;;
  if mm_type e =? MULTIBOOT_MEMORY_AVAILABLE then printf "available\n" []
  else if mm_type e =? MULTIBOOT_MEMORY_RESERVED then printf "reserved\n" []
  else printf "unknown\n" [].
Definition do_sysinfo : M X Z :=
  if negb (multiboot_magic P =? MULTIBOOT_BOOTLOADER_MAGIC) then
    printf "Invalid magic number: 0x%x\n" [VInt (multiboot_magic P)] ;; mret (-1)
  else
  when (mb_has MULTIBOOT_INFO_BOOTDEV) (printf "boot_device: 0x%08x\n" [VInt (boot_device P)]) ;;
  when (mb_has MULTIBOOT_INFO_CMDLINE) (printf "grub cmdline: %s\n" [VStr (cmdline P)]) ;;
  when (mb_has MULTIBOOT_INFO_MEMORY)
    (printf "low_mem: %d kb\n" [VInt (mem_lower (pl_mb P))] ;;
     printf "upper_mem: %d kb\n" [VInt (mem_upper (pl_mb P))]) ;;
  when (mb_has MULTIBOOT_INFO_MEM_MAP)
    (printf "Physical Memory Map:\n" [] ;; iterM show_mmap (mmap (pl_mb P))) ;;
  mret 0.

Definition mem_free_k : M X Z := in_kern (in_mm mem_free_now).

Definition do_info : M X Z :=
  s ← get; free ← mem_free_k;
  let low := mem_lowFree (pl_mb P) in
  let total := mem_total (m_info s) in
  let unusable := u32 (Z.shiftl 1 20 - low) in
  let used_mem := u32 (total - free - unusable - low) in
  printf "Memory Info:\n" [] ;;
  printf "total: %d kb\n" [VInt (Z.shiftr total 10)] ;;
  printf "free: %d kb\n" [VInt (Z.shiftr free 10)] ;;
  printf "used: %d kb\n" [VInt (Z.shiftr used_mem 10)] ;;
  printf "unusable: %d kb\n" [VInt (Z.shiftr unusable 10)] ;;
  printf "free low mem: %d kb\n" [VInt (Z.shiftr low 10)] ;;
  mret 0.

(** The new process, when it runs: it is the child of do_fork, and goes on here. *)
Definition create_child (args : list cstr) : M X unit :=
  r ← in_kern (do_execve B (head args) (Some <$> args));
  match r with
  | None => mret tt
  | Some r => if r <? 0 then in_kern (do_exit B 0) else PANIC
  end.

Definition do_create (argc : Z) : M X Z :=
  if 1 <? argc then
    r ← in_kern (do_fork B);
    if r <? 0 then mret r else mret 0
  else
    printf "run [program name] [program args]\n" [] ;; mret 0.

Definition id_of (t : Z) : M X Z := if t =? NULL then mret 0 else r ← in_kern (t_rd t); mret (t_id r).

(** The nodes of task_id_ht, bucket by bucket. *)
Fixpoint task_chain {A} (f : A -> Task -> Z -> M X A) (n : nat) (node : Z) (a : A) : M X A :=
  match n with
  | O => stop OutOfFuel
  | S n =>
      if node =? NULL then mret a else
      r ← in_kern (t_rd node); a ← f a r node;
      nd ← in_kern (in_ids (hrd node));
      task_chain f n (h_next nd) a
  end.
Definition all_tasks {A} (f : A -> Task -> Z -> M X A) (a : A) : M X A :=
  s ← get;
  let t := k_ids (m_kern s) in
  foldM (fun a n => task_chain f (ht_fuel t) n a) a (tab t).

Definition state_name (s : State) : M X cstr :=
  if state_no s <? 0 then stop BadAccess else deref (task_state_name !! Z.to_nat (state_no s)).

Definition do_tasks : M X Z :=
  s ← get;
  i ← id_of (k_curr (m_kern s));
  printf "current task: %8d\n" [VInt i] ;;
  printf "zombie task: %d\n" [VInt (ls_size (k_queues (m_kern s)) QZombie)] ;;
  printf "\n" [] ;;
  all_tasks (fun _ r _ =>
    n ← state_name (t_state r);
    printf " %8d  %20s\n" [VInt (t_id r); VStr n]) tt ;;
  mret 0.

(** The memory lines of a task. *)
Definition show_memory (i : PageDirInfo) : M X unit :=
  printf "memory usage: %d kb\n" [VInt (u32 (u32 (count_kernel i + count_user i) * 4))] ;;
  printf "  user: %d kb\n" [VInt (u32 (count_user i * 4))] ;;
  printf "    stack: %d kb\n" [VInt (u32 (count_stack i * 4))] ;;
  printf "    program: %d kb\n" [VInt (u32 (count_program i * 4))] ;;
  printf "    shared: %d kb\n" [VInt (u32 (count_shared i * 4))] ;;
  printf "  kernel: %d kb\n" [VInt (u32 (count_kernel i * 4))] ;;
  printf "    kernel stack: 4 kb\n" [] ;;
  printf "    task struct %d b(?)\n" [VInt (sizeof_Task B)] ;;
  printf "    page table vb.\n" [].

(** [arg]: the argument of a number. *)
Definition do_taskinfo (argc : Z) (arg : nat -> M X cstr) : M X Z :=
  if argc =? 0 then a ← arg 0%nat; printf "%s [task id]\n" [VStr a] ;; mret (-1) else
  a ← arg 1%nat;
  t ← in_kern (in_ids (ht_get (u32 (atoi (a ++ [0])))));
  if t =? NULL then printf ">> girilen idli task yok\n" [] ;; mret (-1) else
  r ← in_kern (t_rd t);
  printf "id:%d  " [VInt (t_id r)] ;;
  pid ← id_of (t_parent r);
  printf "parent id:%d  " [VInt pid] ;;
  printf "status:%d  " [VInt (state_no (t_state r))] ;;
  printf "run count:%d  " [VInt (t_run_count r)] ;;
  printf "priority:%d\n" [VInt (t_priority r)] ;;
  printf "time_start: %d\n" [VInt (t_time_start r)] ;;
  printf "time_end: %d\n" [VInt (t_time_end r)] ;;
  printf "time_kernel: %d\n" [VInt (t_time_kernel r)] ;;
  printf "time_user:   %d\n" [VInt (t_time_user r)] ;;
  i ← in_kern (in_mm (dir_rd (pgdir_of t)));
  show_memory i ;;
  s ← get;
  let childs := ls_get (k_childs (m_kern s)) t in
  when (0 <? Z.of_nat (length childs))
    (printf "childs:\n" [] ;;
     iterM (fun c => i ← id_of c; printf "  %8d\n" [VInt i]) childs) ;;
  mret 0.

(** size_tasks and size_tasks_zombie of command_memdebug. *)
Definition task_size (sizes : Z * Z) (r : Task) (t : Z) : M X (Z * Z) :=
  i ← in_kern (in_mm (dir_rd (pgdir_of t)));
  k ← deref (kmalloc_size (sizeof_Task B) ≫= id);
  let size := u32 (Z.shiftl (count_kernel i) 12 + Z.shiftl (u32 (count_user i - count_shared i)) 12 + k) in
  mret (u32 (sizes.1 + size), if bool_decide (t_state r = State_zombie) then u32 (sizes.2 + size) else sizes.2).

Definition do_memdebug : M X Z :=
  printf "memory debug:\n" [] ;;
  ipc_mem ← in_kern (mem_shm B);
  '(size_tasks, size_tasks_zombie) ← all_tasks task_size (0, 0);
  s ← get; free ← mem_free_k;
  printf "start free memory: %d k\n" [VInt (Z.shiftr (free_memory_start s) 10)] ;;
  printf "current free memory: %d kb\n" [VInt (Z.shiftr free 10)] ;;
  printf "zombie tasks: %d kb\n" [VInt (Z.shiftr size_tasks_zombie 10)] ;;
  printf "tasks: %d kb\n" [VInt (Z.shiftr size_tasks 10)] ;;
  printf "ipc: %d kb\n" [VInt ipc_mem] ;;
  let unknown_mem := i32 (free_memory_start s - free - ipc_mem - size_tasks) in
  printf "unknown memory: %d kb\n" [VInt (Z.quot unknown_mem 1024)] ;;
  mret 0.

Definition do_continue : M X Z := modify (set_running false) ;; mret 0.

Definition run_command (f : command_fn) (argc : Z) (arg : nat -> M X cstr) : M X Z :=
  match f with
  | command_help => do_help
  | command_kernelinfo => do_kernelinfo
  | command_backtrace => do_backtrace
  | command_sysinfo => do_sysinfo
  | command_info => do_info
  | command_create => do_create argc
  | command_tasks => do_tasks
  | command_taskinfo => do_taskinfo argc arg
  | command_continue => do_continue
  | command_memdebug => do_memdebug
  end.

(** ** The prompt *)

(** The entry of a name or short name. *)
Definition find_command (a0 : cstr) : option Command :=
  head (filter (fun c => shortname c = a0 \/ cmd_name c = a0) commands).

(** argv has ten entries here. *)
Definition runcmd (cmd : list Z) : M X (Z * list Z) :=
  match parse_cmd before cmd with
  | None => stop BadAccess
  | Some (cmd, a) =>
      if 9 <? argc a then stop BadAccess else
      let arg k := o ← deref (argv a !! k); p ← deref o; mret (until_nul (drop (Z.to_nat p) cmd)) in
      a0 ← arg 0%nat;
      match find_command a0 with
      | Some c => r ← run_command (cmd_func c) (argc a) arg; mret (r, cmd)
      | None => printf "%s: command not found\n" [VStr a0] ;; mret (0, cmd)
      end
  end.

Fixpoint monitor_loop (n : nat) (buf : list Z) : M X unit :=
  match n with
  | O => stop OutOfFuel
  | S n =>
      s ← get;
      if kernel_monitor_running s then
        printf "\n" [] ;;
        '(r, buf) ← readline (Some "$:"%string) buf 1000;
        buf ← (if 0 <? r then '(_, buf) ← runcmd buf; mret buf else mret buf);
        monitor_loop n buf
      else mret tt
  end.

(** [buf]: what is on the stack in the buffer's place. *)
Definition start_kernel_monitor (buf : list Z) : M X unit :=
  pushcli ;;
  modify (set_running true) ;;
  monitor_loop polls buf ;;
  popcli.

(** ** Panics

    The halt behind the monitor does not end. *)
Definition __panic (msg file : cstr) (line : Z) (buf : list Z) : M X unit :=
  cli ;;
  printf "Panic: %s:%d\n" [VStr file; VInt line] ;;
  printf "%s\n" [VStr msg] ;;
  start_kernel_monitor buf ;;
  stop Blocked.
Definition __panic_assert3 (file : cstr) (line : Z) (c_a : cstr) (v_a : Z) (op c_b : cstr) (v_b : Z)
    (buf : list Z) : M X unit :=
  cli ;;
  printf "Panic: %s:%d\n" [VStr file; VInt line] ;;
  printf "assertion failed: %s %s %s\n" [VStr c_a; VStr op; VStr c_b] ;;
  printf "%s=%08x, %s=%08x\n" [VStr c_a; VInt v_a; VStr c_b; VInt v_b] ;;
  start_kernel_monitor buf ;;
  stop Blocked.
Definition __panic_assert (file : cstr) (line : Z) (d : cstr) (buf : list Z) : M X unit :=
  cli ;;
  printf "Panic: %s:%d\n" [VStr file; VInt line] ;;
  printf "assertion failed: %s\n" [VStr d] ;;
  start_kernel_monitor buf ;;
  stop Blocked.
End monitor.
