(* ===== verification/MonitorLine.v ===== *)
(** The line editor of the kernel monitor (readline, kernel/kernel_monitor.cpp) on a
    machine with a keyboard, a serial port and a screen.

    [Echo] states that these devices are independent of each other, and that the
    serial port is always ready to send. *)

From S2P Require Import Prelude Spinlock ListSpec IdHash Util Vsprintf Fs DenemeFs Vfs VfsFile Cga CgaProps Keyboard.
From S2P Require Import PhysMem VirtMem VirtMap VirtProps UserMem Kmalloc FsHeap Task Sched SchedProps SchedOps Console ConsoleProps.
From S2P Require Import Ipc Process Syscall System Exec ExecProps Monitor.

Local Ltac go H := rewrite (bind_done _ _ _ _ _ H).

(** * Definitions *)

Class Echo (D : Type) `{!Ports D} `{!Crt D} `{!Inputs D} := {
  echo_in d : keys (p_in 0x3d5 d).2 = keys d /\ serial (p_in 0x3d5 d).2 = serial d;
  echo_out port v d : port = 0x3d4 \/ port = 0x3d5 \/ port = 0x3f8 ->
    keys (p_out port v d) = keys d /\ serial (p_out port v d) = serial d;
  echo_crt_in port d r : crt_reg (p_in port d).2 r = crt_reg d r;
  echo_crt_out v d r : crt_reg (p_out 0x3f8 v d) r = crt_reg d r;
  echo_ready d : (Z.land (u8 (p_in 0x3fd d).1) 0x20 =? 0) = false;
}.

(** One typed character on the line so far; the line has room for [room]. *)
Definition edit (room : Z) (line : list Z) (c : Z) : list Z :=
  if ((c =? 8) || (c =? 127)) && (0 <? Z.of_nat (length line)) then take (length line - 1) line
  else if (32 <=? c) && (Z.of_nat (length line) <? room) then line ++ [c]
  else line.

Section devices.
Context {D : Type} `{Echo D}.
Notation C := (con D).

(** ** What the screen leaves to the keyboard, and the other way round *)

Definition input_of (c : C) : list Z * list Z := (keys (con_dev c), serial (con_dev c)).
Definition cursor_of (c : C) : Z := crt_cursor (con_dev c).

Notation keeps_input := (keeps_proj input_of).
Notation keeps_cursor := (keeps_proj cursor_of).

Lemma keeps_input_outb port v : port = 0x3d4 \/ port = 0x3d5 \/ port = 0x3f8 -> keeps_input (outb port v).
Proof.
  intros Hp. apply keeps_modify. intros c. unfold input_of. cbn [con_dev set_con_dev].
  assert (E : u16 port = port) by (destruct Hp as [-> | [-> | ->]]; reflexivity). rewrite E.
  destruct (echo_out port (u8 v) (con_dev c) Hp) as [-> ->]. done.
Qed.
Lemma keeps_input_inb : keeps_input (inb 0x3d5).
Proof.
  intros c. rewrite inb_run. unfold input_of. cbn [con_dev set_con_dev]. change (u16 0x3d5) with 0x3d5.
  destruct (echo_in (con_dev c)) as [-> ->]. done.
Qed.
Lemma keeps_con_cpu {X} (f : D -> X) : keeps_proj (fun c : C => f (con_dev c)) pushcli /\ keeps_proj (fun c : C => f (con_dev c)) popcli.
Proof. split; intros c; [done|]. unfold popcli. m_unfold. by destruct (do_popcli _). Qed.
Lemma keeps_cga_wr {X} (f : D -> X) y x v : keeps_proj (fun c : C => f (con_dev c)) (cga_wr y x v).
Proof. by apply keeps_modify. Qed.

Lemma keeps_input_cga_putc ch : keeps_input (cga_putc ch).
Proof.
  pose proof (keeps_con_cpu (fun d => (keys d, serial d))) as [Hpush Hpop].
  pose proof (keeps_cga_wr (fun d => (keys d, serial d))) as Hwr. fold input_of in Hpush, Hpop, Hwr.
  pose proof keeps_input_inb as Hin.
  assert (Hout : forall v, keeps_input (outb CRTPORT v)) by (intros v; apply keeps_input_outb; by left).
  assert (Hout' : forall v, keeps_input (outb (CRTPORT + 1) v)) by (intros v; apply keeps_input_outb; right; by left).
  assert (Hchar : forall ch x y, keeps_input (cga_char ch x y)) by (intros; unfold cga_char; keeps_go).
  assert (Hscroll : forall x y, keeps_input (cga_scroll x y)).
  { intros x y. unfold cga_scroll. destruct (24 <? y); [|apply keeps_ret].
    apply keeps_bind; [by apply keeps_modify|]. intros _. apply keeps_bind; [by apply keeps_modify|]. intros _. apply keeps_ret. }
  unfold cga_putc. keeps_go.
Qed.

(** What a printed character leaves alone. *)
Record put_ok (c c' : C) : Prop := {
  pt_cpu : cpu_equiv (con_cpu c') (con_cpu c);
  pt_input : input_of c' = input_of c;
  pt_cursor : cursor_of c' <= 2000;
  pt_buff : con_buff c' = con_buff c /\ con_rpos c' = con_rpos c /\ con_wpos c' = con_wpos c;
  pt_kb : kb_shift c' = kb_shift c /\ shiftcode c' = shiftcode c /\ togglecode c' = togglecode c;
  pt_com : COM1 c' = COM1 c;
}.

Lemma put_ok_trans c1 c2 c3 : put_ok c1 c2 -> put_ok c2 c3 -> put_ok c1 c3.
Proof.
  intros [? ? ? (? & ? & ?) (? & ? & ?) ?] [? ? ? (? & ? & ?) (? & ? & ?) ?].
  split; [by etrans|congruence|done|split_and!; congruence|split_and!; congruence|congruence].
Qed.

Lemma cga_put c ch : cpu_ok (con_cpu c) -> cursor_of c <= 2000 ->
  exists c', cga_putc ch c = Done tt c' /\ put_ok c c'.
Proof.
  intros Hcpu Hp. destruct (tty_step (cga_memory c, cursor_of c) ch) as [m q] eqn:E.
  destruct (cga_putc_run ch c m q Hcpu Hp E) as (d & cpu & Hr & Hq & Hc & Hb).
  eexists. split; [exact Hr|].
  pose proof (keeps_done _ _ _ _ _ (keeps_input_cga_putc ch) Hr) as Hin.
  split; [exact Hc|exact Hin|unfold cursor_of; cbn; rewrite Hq; lia|done..].
Qed.

Lemma serial_put c ch : cpu_ok (con_cpu c) -> cursor_of c <= 2000 -> COM1 c = 0x3f8 ->
  exists c', COM_N_putc COM1 ch c = Done tt c' /\ put_ok c c'.
Proof.
  intros Hcpu Hp Hcom. unfold COM_N_putc. go (eq_refl : get c = Done c c). rewrite Hcom.
  go (eq_refl : ASSERT (negb (0x3f8 =? 0)) c = Done tt c).
  set (c1 := set_con_cpu (do_pushcli (con_cpu c)) c). go (eq_refl : pushcli c = Done tt c1).
  set (d1 := (p_in 0x3fd (con_dev c)).2). set (d2 := p_out 0x3f8 (u8 ch) d1).
  destruct (in_com_status (con_dev c)) as (_ & Hk1 & Hs1). fold d1 in Hk1, Hs1.
  destruct (echo_out 0x3f8 (u8 ch) d1 ltac:(tauto)) as [Hk2 Hs2]. fold d2 in Hk2, Hs2.
  assert (Hcur : forall r, crt_reg d2 r = crt_reg (con_dev c) r).
  { intros r. unfold d2, d1. by rewrite echo_crt_out, echo_crt_in. }
  assert (Hw : com_wait (S (p_ready (con_dev c))) 0x3f8 c1 = Done tt (set_con_dev d1 c1)).
  { cbn [com_wait]. go (inb_run (0x3f8 + 5) c1). change (u16 (0x3f8 + 5)) with 0x3fd.
    change (con_dev c1) with (con_dev c). by rewrite echo_ready. }
  go Hw. go (eq_refl : outb 0x3f8 ch (set_con_dev d1 c1) = Done tt (set_con_dev d2 c1)).
  destruct (@popcli_run C HasCpu_con c (set_con_dev d2 c1) Hcpu) as (cpu & Hpop & Hc); [reflexivity|].
  eexists. split; [exact Hpop|].
  assert (Ecur : crt_cursor d2 = crt_cursor (con_dev c)) by (unfold crt_cursor; by rewrite !Hcur).
  split; [exact Hc|unfold input_of; cbn; congruence|unfold cursor_of in *; cbn; by rewrite Ecur|done..].
Qed.

Definition com_ok (c : C) : Prop := COM1 c = 0 \/ COM1 c = 0x3f8.

Lemma console_put c ch : cpu_ok (con_cpu c) -> cursor_of c <= 2000 -> com_ok c ->
  exists c', console_putc ch c = Done tt c' /\ put_ok c c'.
Proof.
  intros Hcpu Hp Hcom. destruct (cga_put c ch Hcpu Hp) as (c1 & Hr & Hok). unfold console_putc. go Hr.
  go (eq_refl : get c1 = Done c1 c1). rewrite (pt_com _ _ Hok). destruct Hcom as [E|E]; rewrite E.
  - by exists c1.
  - change (negb (0x3f8 =? 0)) with true. cbv iota.
    destruct (serial_put c1 ch) as (c2 & Hr2 & Hok2).
    + by rewrite (pt_cpu _ _ Hok).
    + apply Hok.
    + by rewrite (pt_com _ _ Hok).
    + exists c2. split; [done|]. by eapply put_ok_trans.
Qed.

Lemma text_put t : forall c, cpu_ok (con_cpu c) -> cursor_of c <= 2000 -> com_ok c ->
  exists c', iterM console_putc t c = Done tt c' /\ put_ok c c'.
Proof.
  induction t as [|ch t IH]; intros c Hcpu Hp Hcom.
  - exists c. split; [done|]. by split.
  - destruct (console_put c ch Hcpu Hp Hcom) as (c1 & Hr & Hok).
    destruct (IH c1) as (c2 & Hr2 & Hok2).
    + by rewrite (pt_cpu _ _ Hok).
    + apply Hok.
    + unfold com_ok. by rewrite (pt_com _ _ Hok).
    + exists c2. cbn [iterM]. go Hr. split; [done|]. by eapply put_ok_trans.
Qed.
End devices.

(** ** The kernel *)

Section kernel.
Context {H : Type} `{!KernEnv H} `{!Crt ke_dev} `{!Inputs ke_dev} `{!Echo ke_dev}.
Implicit Types k : kern H.

Definition kcursor k : Z := cursor_of (kcon k).
Notation keeps := (keeps_proj kcursor).

(** An operation that does not touch the environment. *)
Lemma keeps_heap (g : kern H -> kern H) : (forall k, k_heap (g k) = k_heap k) -> keeps (modify g).
Proof. intros E. apply keeps_modify. intros k. unfold kcursor, kcon. by rewrite E. Qed.
Lemma keeps_k_pushcli : keeps pushcli.
Proof. by intros k. Qed.
Lemma keeps_k_popcli : keeps popcli.
Proof. intros k. unfold popcli. m_unfold. by destruct (do_popcli _). Qed.
Lemma keeps_t_rd t : keeps (t_rd t).
Proof. apply keeps_get. intros k. by destruct (k_tasks k !! t). Qed.
Lemma keeps_t_wr t f : keeps (t_wr t f).
Proof. apply keeps_bind; [apply keeps_t_rd|]. intros r. by apply keeps_heap. Qed.
Lemma keeps_q_op f : keeps (q_op f).
Proof. apply keeps_get. intros k. by destruct (f (k_queues k)). Qed.
Lemma keeps_q_free t : keeps (q_free t).
Proof. by intros k. Qed.
Hint Resolve keeps_k_pushcli keeps_k_popcli keeps_t_rd keeps_t_wr keeps_q_op keeps_q_free : keeps.

Lemma keeps_add_runnable t : keeps (add_to_runnable_list t).
Proof. unfold add_to_runnable_list. keeps_go. Qed.
Lemma keeps_wakeup q : keeps (wakeup_interruptible q).
Proof.
  pose proof keeps_add_runnable. unfold wakeup_interruptible. apply keeps_bind; [apply keeps_k_pushcli|]. intros _.
  intros k. unfold mbind at 1, M_bind at 1. cbn [get].
  match goal with |- match ?m k with _ => _ end => assert (Hm : keeps m) by keeps_go end. apply (Hm k).
Qed.

Lemma keeps_in_con {A} (m : M (con ke_dev) A) : keeps_proj cursor_of m -> keeps (in_con m).
Proof.
  intros Hm k. unfold in_con. specialize (Hm (set_cpu (k_cpu k) (ke_con (k_heap k)))).
  destruct (m _) as [a c|]; [|done]. unfold kcursor, kcon. cbn. rewrite ke_con_set. exact Hm.
Qed.

Notation keeps_c := (keeps_proj (cursor_of (D := ke_dev))).

Lemma keeps_cursor_inb port : keeps_c (inb port).
Proof. intros c. rewrite inb_run. unfold cursor_of, crt_cursor. cbn [con_dev set_con_dev]. by rewrite !echo_crt_in. Qed.
Lemma keeps_cursor_modify (g : con ke_dev -> con ke_dev) : (forall c, con_dev (g c) = con_dev c) -> keeps_c (modify g).
Proof. intros E. apply keeps_modify. intros c. unfold cursor_of. by rewrite E. Qed.
Lemma keeps_cursor_get {A} (f : con ke_dev -> M (con ke_dev) A) : (forall c, keeps_c (f c)) -> keeps_c (get ≫= f).
Proof. intros Hf. apply keeps_get. intros c. apply (Hf c c). Qed.
Lemma keeps_cursor_cpu : keeps_c ASSERT_int_disable /\ keeps_c pushcli /\ keeps_c popcli.
Proof.
  split_and!; intros c; [|done|].
  - unfold ASSERT_int_disable, eflags_read. m_unfold. by destruct (IF _).
  - unfold popcli. m_unfold. by destruct (do_popcli _).
Qed.

Lemma keeps_cursor_keyboard : keeps_c keyboard_getc.
Proof.
  pose proof keeps_cursor_inb as Hin. destruct keeps_cursor_cpu as (Hint & _ & _).
  assert (Hkey : forall d, keeps_c (kb_key d)).
  { intros d. unfold kb_key. apply keeps_cursor_get. intros c. keeps_go; by apply keeps_cursor_modify. }
  unfold keyboard_getc. apply keeps_bind; [done|]. intros _. apply keeps_bind; [apply Hin|]. intros st.
  destruct (_ =? 0); [apply keeps_ret|]. apply keeps_bind; [apply Hin|]. intros data.
  apply keeps_cursor_get. intros c. keeps_go; by apply keeps_cursor_modify.
Qed.
Lemma keeps_cursor_serial COM : keeps_c (COM_N_getc COM).
Proof.
  pose proof keeps_cursor_inb as Hin. destruct keeps_cursor_cpu as (_ & Hpush & Hpop).
  unfold COM_N_getc. apply keeps_cursor_get. intros c. keeps_go.
Qed.
Lemma keeps_cursor_put ch : keeps_c (con_put ch).
Proof. unfold con_put. apply keeps_cursor_get. intros c. keeps_go. by apply keeps_cursor_modify. Qed.
Lemma keeps_cursor_take : keeps_c con_take.
Proof. unfold con_take. apply keeps_cursor_get. intros c. keeps_go. by apply keeps_cursor_modify. Qed.

Lemma keeps_lock v : keeps (modify (fun k => set_k_heap (ke_set_con (set_console_lock v (ke_con (k_heap k))) (k_heap k)) k)).
Proof. apply keeps_modify. intros k. unfold kcursor, kcon. cbn. by rewrite ke_con_set. Qed.

Lemma keeps_acquire : keeps console_acquire.
Proof.
  unfold console_acquire, spinlock_acquire. apply keeps_bind; [apply keeps_k_pushcli|]. intros _.
  apply keeps_bind; [by intros k|]. intros l. destruct (spin spin_fuel l) as [v|]; [exact (keeps_lock v)|apply keeps_stop].
Qed.

Lemma keeps_interrupt proc : keeps_c proc -> keeps (console_interrupt proc).
Proof.
  intros Hproc. pose proof keeps_k_pushcli as Hpush. pose proof keeps_k_popcli as Hpop.
  pose proof (fun c => keeps_in_con _ (keeps_cursor_put c)) as Hput. pose proof (keeps_in_con _ Hproc) as Hp.
  pose proof keeps_lock as Hlock. pose proof keeps_wakeup as Hwake.
  assert (Hloop : forall n, keeps (console_loop n proc)) by (induction n; cbn [console_loop]; keeps_go).
  unfold console_interrupt. apply keeps_bind; [apply keeps_acquire|].
  intros _. apply keeps_get. intros k. cbv beta.
  set (n := S _). clearbody n. revert k. change (keeps (console_loop n proc ;; console_release)).
  apply keeps_bind; [apply Hloop|]. intros _. unfold console_release, spinlock_release. keeps_go.
Qed.

Lemma keeps_getc : keeps console_getc.
Proof.
  pose proof keeps_k_popcli as Hpop. pose proof keeps_lock as Hlock.
  unfold console_getc. apply keeps_bind; [by apply keeps_interrupt, keeps_cursor_keyboard|]. intros _.
  apply keeps_get. intros k. cbv beta.
  assert (Hrest : keeps (when (negb (COM1 (ke_con (k_heap k)) =? 0)) (console_interrupt (COM_N_getc COM1)) ;;
    console_acquire ;; c ← in_con con_take; console_release ;; mret c)).
  { apply keeps_bind; [by apply keeps_when, keeps_interrupt, keeps_cursor_serial|]. intros _.
    apply keeps_bind; [apply keeps_acquire|]. intros _. apply keeps_bind; [apply keeps_in_con, keeps_cursor_take|].
    intros c. unfold console_release, spinlock_release. keeps_go. }
  apply (Hrest k).
Qed.
End kernel.

(** * Reading with echo *)

Section lines.
Context {H : Type} `{!KernEnv H} `{!Crt ke_dev} `{!Inputs ke_dev} `{!Echo ke_dev}.
Implicit Types k : kern H.

(** The characters the console will deliver: those in its buffer, and those the
    devices still have. *)
Record line_input k (full : list Z) : Prop := {
  li_input : exists q s' l, input_ok k q /\
    kb_codes (kb_shift (kcon k)) (keys (con_dev (kcon k))) = Some (s', l) /\
    full = foldl push q (pending k l (serial (con_dev (kcon k))));
  li_com : COM1_ok k;
  li_cursor : kcursor k <= 2000;
}.

Lemma getc_step k x full : line_input k (x :: full) ->
  exists k', console_getc k = Done x k' /\ line_input k' full /\ cpu_equiv (k_cpu k') (k_cpu k).
Proof.
  intros [(q & s' & l & Hio & Hkb & Hfull) Hcom Hcur].
  destruct (console_getc_run k q s' l Hio Hkb Hcom) as (k' & Hr & Hio' & Hk' & Hsh & Hs' & Hc & Hcom' & _).
  rewrite <- Hfull in Hr, Hio'. exists k'. split_and!; [exact Hr| |exact Hc].
  split.
  - exists full, s', []. split_and!; [exact Hio'|by rewrite Hk', Hsh|].
    unfold pending. rewrite Hs', Hcom'. by destruct (COM1 (kcon k) =? 0).
  - unfold COM1_ok. by rewrite Hcom'.
  - rewrite (keeps_done _ _ _ _ _ keeps_getc Hr). exact Hcur.
Qed.

Lemma text_step k t full : line_input k full ->
  exists k', in_con (iterM console_putc t) k = Done tt k' /\ line_input k' full /\ cpu_equiv (k_cpu k') (k_cpu k).
Proof.
  intros [(q & s' & l & Hio & Hkb & Hfull) Hcom Hcur].
  destruct (text_put t (set_con_cpu (k_cpu k) (kcon k))) as (c & Hr & Hok);
    [exact (so_cpu _ (io_sched _ _ Hio))|exact Hcur|exact Hcom|].
  destruct Hok as [Hc Hin Hp (Hb & Hrp & Hwp) (Hsh & Hsc & Htc) Hcm]. injection Hin as Hkeys Hser.
  cbn in Hb, Hrp, Hwp, Hsh, Hsc, Htc, Hcm, Hkeys, Hser.
  exists (set_k_cpu (con_cpu c) (set_kcon c k)). split_and!; [by apply in_con_run| |exact Hc].
  assert (Ek : kcon (set_k_cpu (con_cpu c) (set_kcon c k)) = c) by exact (kcon_set c k).
  split.
  - exists q, s', l. split_and!.
    + apply (input_ok_con k q c q Hio); [|unfold con_ring; rewrite Hb, Hrp, Hwp; apply (io_ring _ _ Hio)|exact Hc].
      destruct (io_codes _ _ Hio) as [Hs Ht]. by split; [rewrite Hsc|rewrite Htc].
    + by rewrite Ek, Hsh, Hkeys.
    + unfold pending. rewrite Ek, Hcm, Hser. exact Hfull.
  - unfold COM1_ok. rewrite Ek, Hcm. exact Hcom.
  - unfold kcursor. rewrite Ek. exact Hp.
Qed.

Lemma char_step k ch full : line_input k full ->
  exists k', in_con (console_putc ch) k = Done tt k' /\ line_input k' full /\ cpu_equiv (k_cpu k') (k_cpu k).
Proof.
  intros Hl. destruct (text_step k [ch] full Hl) as (k' & Hr & Hl' & Hc). exists k'. split_and!; [|done|done].
  revert Hr. unfold in_con. cbn [iterM]. unfold mbind, M_bind. by destruct (console_putc ch _) as [[] ?|].
Qed.
End lines.

(** ** readline *)

Section readline.
Context {D : Type} `{!Ports D} `{!Crt D} `{!Inputs D} `{!Echo D} (B : build) (polls : nat).
#[local] Instance KernEnv_line : KernEnv (sys D) := KernEnv_sys B.
Implicit Types s : mach D.

Lemma in_kern_run {A} (m : M (kern (sys D)) A) s a k : m (m_kern s) = Done a k -> in_kern m s = Done a (set_m_kern k s).
Proof. intros E. unfold in_kern, zoom. by rewrite E. Qed.

Definition mach_input s (full : list Z) : Prop := line_input (m_kern s) full.
(** Only the kernel's state changes, with the interrupt state restored. *)
Definition kern_only s s' : Prop := exists k, s' = set_m_kern k s /\ cpu_equiv (k_cpu k) (k_cpu (m_kern s)).

#[local] Instance kern_only_trans : Transitive kern_only.
Proof. intros s1 s2 s3 (k1 & -> & H1) (k2 & -> & H2). exists k2. split; [done|]. exact (transitivity H2 H1). Qed.

Lemma getchar_step s x full : mach_input s (x :: full) -> x <> 0 -> (0 < polls)%nat ->
  exists s', getchar B polls s = Done x s' /\ mach_input s' full /\ kern_only s s'.
Proof.
  intros Hl Hx Hp. destruct (getc_step _ _ _ Hl) as (k & Hr & Hl' & Hc). exists (set_m_kern k s).
  split_and!; [|done|by exists k]. unfold getchar. destruct polls as [|n]; [lia|]. cbn [getchar_loop].
  go (in_kern_run console_getc s x k Hr). by rewrite (proj2 (Z.eqb_neq _ _) Hx).
Qed.

Lemma putchar_step s ch full : mach_input s full ->
  exists s', putchar B ch s = Done tt s' /\ mach_input s' full /\ kern_only s s'.
Proof.
  intros Hl. destruct (char_step _ ch _ Hl) as (k & Hr & Hl' & Hc). exists (set_m_kern k s).
  split_and!; [|done|by exists k]. exact (in_kern_run _ s tt k Hr).
Qed.

Lemma printf_step s fmt args o full : mach_input s full -> vsprintf (c_str fmt) args = VsDone o ->
  (length (vs_text o) < 1024)%nat ->
  exists s', printf B fmt args s = Done tt s' /\ mach_input s' full /\ kern_only s s'.
Proof.
  intros Hl Hv Hlen. destruct (text_step _ (until_nul (vs_text o)) _ Hl) as (k & Hr & Hl' & Hc).
  exists (set_m_kern k s). split_and!; [|done|by exists k]. unfold printf.
  assert (E : in_con (kernel_print (c_str fmt) args) (m_kern s) = Done (Z.of_nat (length (vs_text o))) k).
  { revert Hr. unfold in_con, kernel_print. rewrite Hv, bool_decide_true by done.
    unfold mbind, M_bind. by destruct (iterM console_putc _ _) as [[] c|]; [intros [= <-]|]. }
  by go (in_kern_run _ s _ k E).
Qed.

Lemma edit_eq room line c : edit room line c =
  if ((c =? 8) || (c =? 127)) && (0 <? Z.of_nat (length line)) then take (length line - 1) line
  else if (32 <=? c) && (Z.of_nat (length line) <? room) then line ++ [c] else line.
Proof. reflexivity. Qed.

Lemma edit_length room line c : Z.of_nat (length line) <= room -> Z.of_nat (length (edit room line c)) <= room.
Proof.
  intros Hl. unfold edit. destruct (_ && _); [rewrite length_take; lia|].
  destruct (32 <=? c); [destruct (Z.ltb_spec (Z.of_nat (length line)) room)|]; cbn [andb]; try lia.
  rewrite length_app. cbn [length]. lia.
Qed.

Lemma readline_loop_run nl rest cs : forall n s line buf buflen,
  mach_input s (cs ++ nl :: rest) -> nl = 10 \/ nl = 13 ->
  Forall (fun c => 0 < c < 256 /\ c <> 10 /\ c <> 13) cs -> (length cs < n)%nat -> (0 < polls)%nat ->
  length buf = Z.to_nat buflen -> Z.of_nat (length line) <= buflen - 1 -> take (length line) buf = line ->
  exists s' tl, let line' := foldl (edit (buflen - 1)) line cs in
    readline_loop B polls n buf buflen (Z.of_nat (length line)) s = Done (Z.of_nat (length line'), line' ++ 0 :: tl) s' /\
    length (line' ++ 0 :: tl) = Z.to_nat buflen /\ mach_input s' rest /\ kern_only s s'.
Proof.
  induction cs as [|c cs IH]; intros n s line buf buflen Hl Hnl Hcs Hn Hp Hbuf Hlen Htake;
    (destruct n as [|n]; [cbn in Hn; lia|]); cbn [app foldl readline_loop length] in *.
  - destruct (getchar_step s nl rest Hl) as (s1 & E1 & Hl1 & K1); [lia|done|]. go E1.
    destruct (putchar_step s1 10 rest Hl1) as (s2 & E2 & Hl2 & K2).
    assert (Hst : buf_store (Z.of_nat (length line)) 0 buf s2 = Done (line ++ 0 :: drop (S (length line)) buf) s2).
    { unfold buf_store. destruct (lookup_lt_is_Some_2 buf (length line) ltac:(lia)) as [x Hx].
      rewrite Nat2Z.id, Hx. cbn [deref]. go (eq_refl : (mret x : M (mach D) Z) s2 = Done x s2).
      rewrite insert_take_drop, Htake by lia. done. }
    exists s2, (drop (S (length line)) buf). split_and!.
    + assert (Ec : (nl <? 0) = false /\ ((nl =? 8) || (nl =? 127)) = false /\ (32 <=? nl) = false /\
        ((nl =? 10) || (nl =? 13)) = true) by (destruct Hnl as [-> | ->]; done).
      destruct Ec as (-> & -> & -> & ->). cbn [andb]. go E2. by go Hst.
    + rewrite length_app. cbn [length]. rewrite length_drop. lia.
    + done.
    + by etrans.
  - apply Forall_cons in Hcs as [(Hc & H10 & H13) Hcs].
    destruct (getchar_step s c (cs ++ nl :: rest) Hl) as (s1 & E1 & Hl1 & K1); [lia|done|]. go E1.
    rewrite (proj2 (Z.ltb_ge c 0)) by lia. set (i := Z.of_nat (length line)) in *. rewrite edit_eq. fold i.
    destruct (((c =? 8) || (c =? 127)) && (0 <? i)) eqn:Eb; [|destruct ((32 <=? c) && (i <? buflen - 1)) eqn:Ep].
    + apply andb_true_iff in Eb as [_ Hi%Z.ltb_lt].
      destruct (putchar_step s1 8 _ Hl1) as (s2 & E2 & Hl2 & K2). go E2.
      destruct (IH n s2 (take (length line - 1) line) buf buflen) as (s' & tl & Hr & Hr'); [done|done|done|lia|done|done| | |].
      { rewrite length_take. lia. }
      { rewrite length_take, Nat.min_l by lia. rewrite <- (f_equal (take (length line - 1)) Htake), take_take. f_equal. lia. }
      rewrite length_take, Nat.min_l in Hr by lia. replace (Z.of_nat (length line - 1)) with (i - 1) in Hr by lia.
      exists s', tl. destruct Hr' as (? & ? & ?). split_and!; [exact Hr|done|done|]. do 2 (etrans; [eassumption|]). done.
    + apply andb_true_iff in Ep as [H32%Z.leb_le Hi%Z.ltb_lt].
      destruct (putchar_step s1 c _ Hl1) as (s2 & E2 & Hl2 & K2). go E2.
      assert (Hst : buf_store i c buf s2 = Done (<[length line := c]> buf) s2).
      { unfold buf_store. destruct (lookup_lt_is_Some_2 buf (length line) ltac:(lia)) as [x Hx].
        unfold i. rewrite Nat2Z.id, Hx. cbn [deref]. go (eq_refl : (mret x : M (mach D) Z) s2 = Done x s2).
        unfold u8. by rewrite Z.mod_small by lia. }
      go Hst.
      destruct (IH n s2 (line ++ [c]) (<[length line := c]> buf) buflen) as (s' & tl & Hr & Hr'); [done|done|done|lia|done| | | |].
      { by rewrite length_insert. }
      { rewrite length_app. cbn [length]. lia. }
      { rewrite length_app. cbn [length]. rewrite Nat.add_1_r.
        rewrite (take_S_r _ _ c) by (apply list_lookup_insert_eq; lia). by rewrite take_insert_ge, Htake by lia. }
      rewrite length_app in Hr. cbn [length] in Hr. replace (Z.of_nat (length line + 1)) with (i + 1) in Hr by lia.
      exists s', tl. destruct Hr' as (? & ? & ?). split_and!; [exact Hr|done|done|]. do 2 (etrans; [eassumption|]). done.
    + rewrite (proj2 (Z.eqb_neq c 10)), (proj2 (Z.eqb_neq c 13)) by done. cbn [orb].
      destruct (IH n s1 line buf buflen) as (s' & tl & Hr & ? & ? & ?); [done|done|done|lia|done|done|done|done|].
      exists s', tl. split_and!; [exact Hr|done|done|]. by etrans.
Qed.
End readline.

#[export] Instance Echo_pc : Echo pc.
Proof.
  split.
  - done.
  - intros port v d [-> | [-> | ->]]; done.
  - intros port d r. cbn. by repeat case_match.
  - done.
  - intros d. cbn. by destruct (pc_serial d).
Defined.

(** The three tasks of [demo_kern], empty files, a keyboard and a screen, in the
    whole machine. *)
Definition demo_mach (ks : list Z) : mach pc :=
  mkMach
    (mkKern (mkSys (mkVfs (mkDfs [] ∅ (env_heap (k_heap demo_kern))) ∅ ∅ (mkLstore ∅ ∅) ∅ ∅ NULL [] [] [])
               (set_kb_codes kb_shiftcode kb_togglecode (demo_con 0 ks [])))
       (k_tasks demo_kern) (k_queues demo_kern) (k_alarms demo_kern) (k_childs demo_kern) (k_ids demo_kern)
       (k_curr demo_kern) (k_cpu demo_kern) (k_jiffies demo_kern) (k_next_id demo_kern) (k_sigs demo_kern)
       (k_sems demo_kern) (k_shm demo_kern))
    false 0 (mkMeminfo 1024 0 0 0) 0 [] [].

(** "helq", backspace, "p" and a newline, and what is typed behind it. *)
Definition demo_typed : list Z := [104; 101; 108; 113; 8; 112; 10; 99].

Lemma demo_mach_input : mach_input demo_build (demo_mach (demo_typed ≫= strokes)) demo_typed.
Proof.
  split.
  - eexists [], _, _. split_and!.
    + destruct demo_ok as [Hq Hc Hcur Hkept]. split; [by split| |by split].
      split; [done|cbn; lia|cbn; lia|done|done].
    + vm_compute. reflexivity.
    + vm_compute. reflexivity.
  - by right.
  - vm_compute. discriminate.
Qed.

(** C25. The line editor. On a machine with a keyboard, a serial port and a screen, with
    enough input for a line: readline shows the prompt, echoes what is typed, and
    returns the line that typing leaves ([edit]: printable characters are added while
    there is room, backspace takes the last one away, other control characters are
    dropped), ended by its zero, with what is typed behind the line left for the next
    call. Nothing behind the buffer is written, and the interrupt state is restored. *)
Theorem readline_edits {D} `{!Ports D} `{!Crt D} `{!Inputs D} `{!Echo D} (B : build) polls cs nl rest buf buflen (s : mach D) :
  mach_input B s (cs ++ nl :: rest) -> nl = 10 \/ nl = 13 ->
  Forall (fun c => 0 < c < 256 /\ c <> 10 /\ c <> 13) cs -> (length cs < polls)%nat ->
  1 <= buflen -> length buf = Z.to_nat buflen ->
  exists s' tl, let line := foldl (edit (buflen - 1)) [] cs in
    readline B polls (Some "$:"%string) buf buflen s = Done (Z.of_nat (length line), line ++ 0 :: tl) s' /\
    length (line ++ 0 :: tl) = Z.to_nat buflen /\ mach_input B s' rest /\ kern_only s s'.
Proof.
  intros Hl Hnl Hcs Hp Hpos Hbuf. unfold readline.
  destruct (printf_step B s "%s" [VStr (c_str "$:")] (mkOut (c_str "$:") []) _ Hl) as (s1 & E1 & Hl1 & K1);
    [vm_compute; reflexivity|apply Nat.ltb_lt; vm_compute; reflexivity|].
  go E1. destruct (readline_loop_run B polls nl rest cs polls s1 [] buf buflen) as (s' & tl & Hr & Hlen & Hl' & K');
    [done|done|done|done|lia|done|cbn; lia|done|].
  exists s', tl. split_and!; [exact Hr|exact Hlen|exact Hl'|]. exact (kern_only_trans _ _ _ K1 K').
Qed.

Lemma readline_edits_witness :
  exists s' tl, readline demo_build 50 (Some "$:"%string) (replicate 1000 7) 1000 (demo_mach (demo_typed ≫= strokes)) =
      Done (4, [104; 101; 108; 112] ++ 0 :: tl) s' /\ mach_input demo_build s' [99].
Proof.
  destruct (readline_edits demo_build 50 [104; 101; 108; 113; 8; 112] 10 [99] (replicate 1000 7) 1000
              (demo_mach (demo_typed ≫= strokes)) demo_mach_input) as (s' & tl & Hr & _ & Hl & _).
  - by left.
  - repeat constructor; lia.
  - cbn. lia.
  - lia.
  - by rewrite length_replicate.
  - exists s', tl. split; [exact Hr|exact Hl].
Defined.
