(* ===== verification/MonitorProps.v ===== *)
(** The kernel monitor: its line editor, the words of a command line, and the command
    that runs. *)

From S2P Require Import Prelude Spinlock ListSpec IdHash Util Vsprintf Fs DenemeFs Vfs VfsFile Cga CgaProps Keyboard.
From S2P Require Import PhysMem VirtMem VirtMap VirtProps UserMem Kmalloc FsHeap Task Sched SchedProps SchedOps Console ConsoleProps.
From S2P Require Import Ipc Process Syscall System Exec ExecProps Monitor MonitorLine.

Local Ltac go H := rewrite (bind_done _ _ _ _ _ H).

(** * The words of a command line *)

(** [cur]: the word that has begun. *)
Fixpoint words (cur s : list Z) : list (list Z) :=
  match s with
  | [] => match cur with [] => [] | _ => [cur] end
  | c :: s =>
      if is_blank c then match cur with [] => words [] s | _ => cur :: words [] s end
      else words (cur ++ [c]) s
  end.

Lemma until_nul_app w l : Forall (.≠ 0) w -> until_nul (w ++ 0 :: l) = w.
Proof.
  induction 1 as [|c w Hc _ IH]; cbn [app until_nul]; [done|].
  by rewrite (proj2 (Z.eqb_neq _ _) Hc), IH.
Qed.

(** The word [w] with its zero at offset [p] of [pre]. *)
Definition word_at (pre : list Z) (p : Z) (w : list Z) : Prop :=
  exists l1 l2, pre = l1 ++ w ++ 0 :: l2 /\ p = Z.of_nat (length l1) /\ Forall (.≠ 0) w.

Lemma word_at_app pre x p w : word_at pre p w -> word_at (pre ++ x) p w.
Proof. intros (l1 & l2 & -> & -> & Hw). exists l1, (l2 ++ x). by rewrite <- !app_assoc. Qed.

Lemma word_at_read pre p w : word_at pre p w -> until_nul (drop (Z.to_nat p) pre) = w.
Proof. intros (l1 & l2 & -> & -> & Hw). rewrite Nat2Z.id, drop_app_length. by apply until_nul_app. Qed.

(** Between two characters: the zeroed part [pre] of the line, the word [cur] that
    has begun, and the words [ws] before it. *)
Record parse_ok (pre cur : list Z) (ws : list (list Z)) (a : args) : Prop := {
  po_argc : argc a = Z.of_nat (length ws);
  po_len : length (argv a) = 11%nat;
  po_words : forall i w, ws !! i = Some w -> exists p, argv a !! i = Some (Some p) /\ word_at pre p w;
  po_next : argv a !! length ws = Some (Some (Z.of_nat (length pre)));
  po_cur : Forall (.≠ 0) cur;
}.

(** The words so far, with the one that has begun. *)
Definition with_word (ws : list (list Z)) (cur : list Z) : list (list Z) :=
  match cur with [] => ws | _ => ws ++ [cur] end.

Lemma words_blank cur ws s : ws ++ match cur with [] => words [] s | _ => cur :: words [] s end = with_word ws cur ++ words [] s.
Proof. destruct cur; [done|]. cbn [with_word]. by rewrite <- app_assoc. Qed.

Lemma parse_blank pre cur ws a : parse_ok pre cur ws a -> (length (with_word ws cur) <= 10)%nat ->
  let n := Z.of_nat (length (with_word ws cur)) in
  let pre' := pre ++ cur ++ [0] in
  exists a', argv_set n (Some (Z.of_nat (length pre'))) (mkArgs n (argv a)) = Some a' /\
    parse_ok pre' [] (with_word ws cur) a'.
Proof.
  intros [Hc Hl Hw Hn Hz] Hlt n pre'. eexists. split.
  - unfold argv_set. cbn [argv argc]. unfold n. rewrite Nat2Z.id. rewrite bool_decide_true by lia. reflexivity.
  - split; cbn [argc argv].
    + done.
    + by rewrite length_insert.
    + intros i w Hi. pose proof (lookup_lt_Some _ _ _ Hi).
      rewrite list_lookup_insert_ne by lia. unfold pre' in *.
      assert (Hold : ws !! i = Some w -> exists p, argv a !! i = Some (Some p) /\ word_at (pre ++ cur ++ [0]) p w).
      { intros Hi'. destruct (Hw i w Hi') as (p & Hp & Hat). exists p. split; [done|]. by apply word_at_app. }
      destruct cur as [|c cur]; [by apply Hold|]. cbn [with_word] in Hi.
      apply lookup_snoc_Some in Hi as [[Hi Hi']|[-> <-]]; [by apply Hold|].
      exists (Z.of_nat (length pre)). split; [done|]. exists pre, []. by split_and!.
    + rewrite list_lookup_insert_eq by lia. done.
    + done.
Qed.

Lemma insert_at (pre cur : list Z) c l :
  <[length (pre ++ cur) := 0]> (pre ++ cur ++ c :: l) = (pre ++ cur ++ [0]) ++ [] ++ l.
Proof.
  rewrite (app_assoc pre cur (c :: l)), insert_app_r_alt by done. rewrite Nat.sub_diag. cbn [app].
  by rewrite <- !app_assoc.
Qed.

Lemma parse_loop tl rest : forall pre cur ws prev a,
  parse_ok pre cur ws a -> Forall (.≠ 0) rest -> (length (ws ++ words cur rest) <= 10)%nat ->
  (cur <> [] -> prev <> 0) ->
  (cur = [] -> prev = 0 \/ forall c, head rest = Some c -> is_blank c = false) ->
  exists pre' cur' ws' a',
    parse_cmd_loop (rest ++ 0 :: tl) (Z.of_nat (length (pre ++ cur))) prev (pre ++ cur ++ rest ++ 0 :: tl) a =
      Some (pre' ++ cur' ++ 0 :: tl, a') /\
    parse_ok pre' cur' ws' a' /\ ws ++ words cur rest = with_word ws' cur'.
Proof.
  induction rest as [|c rest IH]; intros pre cur ws prev a Hok Hz Hlen Hp1 Hp2.
  - exists pre, cur, ws, a. cbn [app parse_cmd_loop words]. split_and!; [done|done|].
    destruct cur; [apply app_nil_r|done].
  - apply Forall_cons in Hz as [Hc Hz]. cbn [app parse_cmd_loop words] in *.
    rewrite (proj2 (Z.eqb_neq _ _) Hc). destruct (is_blank c) eqn:Hb.
    + rewrite words_blank in *. rewrite length_app in Hlen.
      destruct (parse_blank pre cur ws a Hok ltac:(lia)) as (a1 & Hset & Hok1).
      assert (Hn : (if negb (prev =? 0) && (argc a <? 10) then mkArgs (argc a + 1) (argv a) else a) =
                   mkArgs (Z.of_nat (length (with_word ws cur))) (argv a)).
      { rewrite (po_argc _ _ _ _ Hok). destruct cur as [|x cur]; cbn [with_word].
        - destruct (Hp2 eq_refl) as [-> | Hh]; [|by rewrite (Hh c eq_refl) in Hb].
          destruct a. by rewrite <- (po_argc _ _ _ _ Hok).
        - rewrite (proj2 (Z.eqb_neq _ _) (Hp1 ltac:(done))). cbn [with_word] in Hlen.
          rewrite length_app in *. cbn [length] in *. cbn [negb andb].
          rewrite (proj2 (Z.ltb_lt _ _)) by lia. f_equal. lia. }
      rewrite Hn. cbn [argc].
      assert (Epos : Z.of_nat (length (pre ++ cur)) + 1 = Z.of_nat (length (pre ++ cur ++ [0]))).
      { rewrite !length_app. cbn [length]. lia. }
      rewrite Epos. cbn [mbind option_bind]. rewrite Hset. cbn [mbind option_bind].
      rewrite Nat2Z.id, insert_at.
      destruct (IH (pre ++ cur ++ [0]) [] (with_word ws cur) 0 a1) as (pre' & cur' & ws' & a' & Hr & H');
        [done|done|by rewrite length_app|done|by left|].
      exists pre', cur', ws', a'. split; [|done]. rewrite app_nil_r in Hr. exact Hr.
    + assert (Hok1 : parse_ok pre (cur ++ [c]) ws a).
      { destruct Hok as [? ? ? ? Hcur]. split; try done. apply Forall_app. by split; [|constructor]. }
      destruct (IH pre (cur ++ [c]) ws c a) as (pre' & cur' & ws' & a' & Hr & H');
        [done|done|done|done|by destruct cur|].
      exists pre', cur', ws', a'. split; [|done]. rewrite <- Hr. rewrite <- !app_assoc. f_equal.
      rewrite !length_app. cbn [length]. lia.
Qed.

(** parse_cmd finds the words: [argc] is their number, argv[k] is the [k]-th of them
    as a string, and NULL ends argv. *)
Lemma parse_cmd_words before line tl :
  Forall (.≠ 0) line -> before = 0 \/ (forall c, head line = Some c -> is_blank c = false) ->
  (length (words [] line) <= 10)%nat ->
  exists cmd a, parse_cmd before (line ++ 0 :: tl) = Some (cmd, a) /\
    argc a = Z.of_nat (length (words [] line)) /\ argv a !! length (words [] line) = Some None /\
    forall k w, words [] line !! k = Some w ->
      exists p, argv a !! k = Some (Some p) /\ until_nul (drop (Z.to_nat p) cmd) = w.
Proof.
  intros Hz Hb Hlen. unfold parse_cmd.
  destruct (parse_loop tl line [] [] [] before (mkArgs 0 (Some 0 :: replicate 10 None)))
    as (pre & cur & ws & a & Hr & Hok & Ew); [by split|done|done|done|by intros _|].
  cbn [app length] in Hr. change (Z.of_nat 0) with 0 in Hr. rewrite Hr. cbn [mbind option_bind]. clear Hr.
  destruct Hok as [Hc Hl Hw Hn Hcur]. rewrite Hc, Nat2Z.id, Hn. cbn [mbind option_bind].
  rewrite Nat2Z.id, lookup_app_r, Nat.sub_diag by lia.
  cbn [app] in Ew. rewrite Ew in *.
  destruct cur as [|x cur]; cbn [app lookup list_lookup mbind option_bind with_word] in *.
  - change (0 =? 0) with true. cbn [negb]. cbv iota. unfold argv_set. rewrite Hc, Nat2Z.id, bool_decide_true by lia.
    cbn [mbind option_bind]. eexists _, _. split; [reflexivity|]. cbn [argc argv]. split_and!; [done| |].
    + by rewrite list_lookup_insert_eq by lia.
    + intros k w Hk. pose proof (lookup_lt_Some _ _ _ Hk). destruct (Hw k w Hk) as (p & Hp & Hat).
      exists p. rewrite list_lookup_insert_ne by lia. split; [done|]. by apply word_at_read, word_at_app.
  - apply Forall_cons in Hcur as [Hx Hcur]. rewrite (proj2 (Z.eqb_neq _ _) Hx). cbn [negb]. cbv iota.
    rewrite length_app in *. cbn [length] in *.
    unfold argv_set. cbn [argc argv]. replace (Z.to_nat (Z.of_nat (length ws) + 1)) with (length ws + 1)%nat by lia.
    rewrite bool_decide_true by lia.
    cbn [mbind option_bind]. eexists _, _. split; [reflexivity|]. cbn [argc argv]. split_and!; [lia| |].
    + by rewrite list_lookup_insert_eq by lia.
    + intros k w Hk. pose proof (lookup_lt_Some _ _ _ Hk) as Hlt. rewrite length_app in Hlt. cbn [length] in Hlt.
      rewrite list_lookup_insert_ne by lia. apply lookup_snoc_Some in Hk as [[Hk Hk']|[-> <-]].
      * destruct (Hw k w Hk') as (p & Hp & Hat). exists p. split; [done|]. by apply word_at_read, word_at_app.
      * exists (Z.of_nat (length pre)). split; [done|]. rewrite Nat2Z.id, drop_app_length.
        apply (until_nul_app (x :: cur)). by constructor.
Qed.

(** * The command that runs *)

Section run.
Context {D : Type} `{!Ports D} (B : build) (P : platform) (polls : nat) (ebp0 : Z) (word_at : Z -> option Z).
Notation X := (mach D).

Lemma bind_ext {S A C} (m m' : M S A) (k : A -> M S C) s : m s = m' s -> (m ≫= k) s = (m' ≫= k) s.
Proof. unfold mbind, M_bind. by intros ->. Qed.

Lemma run_command_ext f n (arg arg' : nat -> M X cstr) s :
  (forall k s, (k < 2)%nat -> arg k s = arg' k s) ->
  run_command B P polls ebp0 word_at f n arg s = run_command B P polls ebp0 word_at f n arg' s.
Proof.
  intros E. destruct (decide (f = command_taskinfo)) as [->|Hf].
  2:{ destruct f; first [exfalso; apply Hf; reflexivity|cbn [run_command]; reflexivity]. }
  cbn [run_command]. unfold do_taskinfo. destruct (n =? 0); apply bind_ext, E; lia.
Qed.

Lemma commands_found : Forall (fun c => find_command (cmd_name c) = Some c /\ find_command (shortname c) = Some c) commands.
Proof. repeat constructor; vm_compute; reflexivity. Qed.
End run.

(** C26. The prompt runs what is typed. A line without zeros is split into its words.
    With one to nine words, runcmd runs the command whose name or short name is the
    first word, with the number of words and the words themselves as its arguments, or
    reports that there is none; every command of the table is found by both names. A
    blank line and a line of ten words are not handled: argv[0] is NULL for the first,
    and the second stores behind the ten entries of argv. *)
Theorem runcmd_runs_words {D} `{!Ports D} (B : build) (P : platform) polls ebp0 mem before line tl (s : mach D) :
  Forall (.≠ 0) line -> before = 0 \/ (forall c, head line = Some c -> is_blank c = false) ->
  let ws := words [] line in
  let run := runcmd B P polls ebp0 mem before (line ++ 0 :: tl) s in
  (ws = [] \/ length ws = 10%nat -> run = Stop BadAccess) /\
  (forall w, head ws = Some w -> (length ws < 10)%nat -> exists cmd,
     run = (match find_command w with
            | Some c => r ← run_command B P polls ebp0 mem (cmd_func c) (Z.of_nat (length ws)) (fun k => deref (ws !! k));
                        mret (r, cmd)
            | None => printf B "%s: command not found\n" [VStr w] ;; mret (0, cmd)
            end) s) /\
  forall c, c ∈ commands -> find_command (cmd_name c) = Some c /\ find_command (shortname c) = Some c.
Proof.
  intros Hz Hb ws run. split; [|split].
  - intros Hws. assert (Hlen : (length ws <= 10)%nat) by (destruct Hws as [-> | ->]; cbn; lia).
    destruct (parse_cmd_words before line tl Hz Hb Hlen) as (cmd & a & Hp & Hc & Hend & _). fold ws in Hc, Hend.
    unfold run, runcmd. rewrite Hp, Hc. destruct Hws as [E|E]; rewrite E in Hend |- *; [|done].
    cbn [length] in *. change (9 <? Z.of_nat 0) with false. cbv iota zeta. by rewrite Hend.
  - intros w Hw Hlen. destruct (parse_cmd_words before line tl Hz Hb) as (cmd & a & Hp & Hc & Hend & Harg); [fold ws; lia|].
    fold ws in Hc, Hend, Harg. exists cmd. unfold run, runcmd. rewrite Hp, Hc.
    rewrite (proj2 (Z.ltb_ge _ _)) by lia. cbv iota zeta.
    set (arg := fun k => o ← deref (argv a !! k); p ← deref o; mret (until_nul (drop (Z.to_nat p) cmd))).
    assert (E : forall k s, (k <= length ws)%nat -> arg k s = (deref (ws !! k) : M (mach D) cstr) s).
    { intros k s' Hk. unfold arg. destruct (decide (k = length ws)) as [->|].
      - rewrite Hend, (lookup_ge_None_2 ws) by done. done.
      - destruct (lookup_lt_is_Some_2 ws k ltac:(lia)) as [x Hx].
        destruct (Harg k x Hx) as (p & Hp' & Hu). rewrite Hp', Hx, <- Hu. done. }
    assert (H0 : ws !! 0%nat = Some w) by (by rewrite <- head_lookup).
    assert (Ha : arg 0%nat s = Done w s) by (rewrite E by lia; by rewrite H0).
    etransitivity; [exact (bind_done (arg 0%nat) _ s w s Ha)|]. cbv beta.
    destruct (find_command w) as [c|]; [|done]. apply bind_ext, run_command_ext.
    intros k s' Hk. apply E. destruct ws; [done|]. cbn [length]. lia.
  - intros c Hc. pose proof commands_found as Hall. rewrite Forall_forall in Hall. by apply Hall.
Qed.

Definition demo_platform : platform :=
  mkPlat (mkMultiboot 0x47 [] 640 4096 [mkMmap 0 0 0x9fc00 1]) 0x2BADB002 7 (c_str "root")
         (mkLayout 0x100000 0x110000) 0x108000 0x110000 0x118000 0x120000 [] [].

(** "help" with an argument, and a line of spaces. *)
Lemma runcmd_runs_words_witness :
  (exists cmd, runcmd demo_build demo_platform 5 0 (fun _ => None) 0 (c_str "help me" ++ 0 :: []) (demo_mach []) =
     (r ← run_command demo_build demo_platform 5 0 (fun _ => None) command_help 2 (fun k => deref (words [] (c_str "help me") !! k));
      mret (r, cmd)) (demo_mach [])) /\
  runcmd demo_build demo_platform 5 0 (fun _ => None) 0 (c_str "   " ++ 0 :: []) (demo_mach []) = Stop BadAccess.
Proof.
  destruct (runcmd_runs_words demo_build demo_platform 5 0 (fun _ => None) 0 (c_str "help me") [] (demo_mach []))
    as (_ & Hrun & _).
  { apply (bool_decide_unpack _). vm_compute. exact I. }
  { by left. }
  destruct (runcmd_runs_words demo_build demo_platform 5 0 (fun _ => None) 0 (c_str "   ") [] (demo_mach []))
    as (Hblank & _).
  { apply (bool_decide_unpack _). vm_compute. exact I. }
  { by left. }
  split.
  - destruct (Hrun (c_str "help")) as (cmd & E); [vm_compute; reflexivity|vm_compute; lia|]. exists cmd.
    assert (Ef : exists c, find_command (c_str "help") = Some c /\ cmd_func c = command_help)
      by (eexists; split; vm_compute; reflexivity).
    destruct Ef as (c & Ef & Efn). rewrite Ef, Efn in E.
    replace (Z.of_nat (length (words [] (c_str "help me")))) with 2 in E by (vm_compute; reflexivity). exact E.
  - apply Hblank. left. vm_compute. reflexivity.
Defined.
