(* ===== verification/Boot.v ===== *)
(** The boot (kernel/init.cpp, kernel/memory/memory.cpp, init_kernel_task of
    kernel/task.cpp): the order in which the parts of the kernel are set up, the first
    task, and the start of /initrd/init.

    main forks: the parent goes on as the kernel task, which waits for interrupts, and
    the child runs on in main when it is switched to ([main_child]). *)

From S2P Require Import Prelude Spinlock ListSpec IdHash Util Vsprintf Fs DenemeFs Vfs VfsFile Cga Keyboard PhysMem VirtMem UserMem Descr Kmalloc.
From S2P Require Import VirtProps KmallocTest FsHeap Task Sched Console Ipc Process Syscall System Exec Pic Monitor.

(** * Definitions *)

(** What the linker and the compiler decide for the boot: the entry points of the
    traps, the address of the TSS, the contents of the first free block of the heap,
    the address of superblocks[0], and how many entries of the heap test's arrays can
    be written before something else is. *)
Record image := mkImage {
  im_entry : entry -> Z; im_tss : Z; im_junk : subdentry; im_superblocks : Z; im_test_bound : Z;
}.

(** The statics before main, and interrupts masked by boot.S. *)
Definition task_zero : Task :=
  mkTask 0 NULL State_running 0 false FReturn 0 0 0 0 0 0 false false [] 0 0 (replicate 32 0) 0 0 0 0
    None NULL 0 false (mkTf 0 0 0 0 0 0 0 0 0 0 0) [].
Definition dir_zero : PageDirInfo := mkDir 0 ∅ ∅ 0 0 0 0 0 0 0.
Definition mm_zero : mm :=
  mkMM (mkPm ∅ None None 0 (mkCpu false 0 false)) ∅ ∅ ∅ {[KDIR := dir_zero]} (replicate 32 0) KDIR [].
Definition con_zero {D} (d : D) : con D :=
  mkCon d (mkCpu false 0 false) (fun _ => 0) (replicate 512 0) 0 0 0 0 0 0 0 0 (replicate 256 0) (replicate 256 0).
Definition kern_zero {D} (d : D) : kern (sys D) :=
  mkKern (mkSys (mkVfs (mkDfs [] ∅ (mkKs ∅ (mkLstore ∅ ∅) ∅ 0 mm_zero)) ∅ ∅ (mkLstore ∅ ∅) ∅
                   {[task0 := mkTaskFs NULL NULL (replicate 32 NULL)]} NULL [] [] []) (con_zero d))
    {[task0 := task_zero]} (mkLstore ∅ ∅) (mkLstore ∅ ∅) (mkLstore ∅ ∅) (mkIdht [] 0 ∅) task0
    (mkCpu false 0 false) 0 0 ∅ ∅ (mkShmState ∅ ∅ (mkIdht [] 0 ∅) (mkIdht [] 0 ∅) 1).
Definition mach_zero {D} (d : D) : mach D :=
  mkMach (kern_zero d) false 0 (mkMeminfo 0 0 0 0) irqmask0 [] [].

Section boot.
Context {D : Type} `{!Ports D} (B : build) (P : platform) (G : image).
Notation K := (kern (sys D)).
Notation X := (mach D).
#[local] Instance KernEnv_boot : KernEnv (sys D) := KernEnv_sys B.
#[local] Instance Alloc_boot : Alloc (ks mm) := Alloc_ks (garbage B).

(** ** memory.cpp *)

(** test_kmalloc, its static arrays zero. *)
Definition heap_test : M (ks mm) unit := fun h =>
  match test_kmalloc (im_test_bound G) (mkTst h ∅ ∅ ∅ ∅) with
  | Done _ t => Done tt (tk t)
  | Stop f => Stop f
  end.

Definition memory_init : M X Z :=
  info ← in_kern (in_mm (zp (detect_memory (pl_mb P) (kernel_end P))));
  modify (set_m_info info) ;;
  in_kern (in_mm (zp (pm_init (pl_mb P) (memoryEnd info)))) ;;
  in_kern (in_mm (vm_init (pl_layout P) (memoryEnd info))) ;;
  modify (set_m_gdt vm_gdt) ;;
  in_kern (in_heap kmalloc_init) ;;
  in_kern (in_heap heap_test) ;;
  mret 0.

(** ** The other parts *)

Definition init_traps : M X unit :=
  modify (fun m => set_m_idt (init_idt (im_entry G)) m) ;;
  modify (fun m => set_m_gdt (init_tss_desc (im_tss G) (m_gdt m)) m).

(** sem_init does nothing. *)
Definition ipc_init : M X unit := in_kern shm_init.

(** The ports and variables of the interrupt controller and the timer. *)
Definition in_irqs {A} (m : M (irqs D) A) : M X A :=
  zoom (fun s => mkIrqs (con_dev (sys_con (k_heap (m_kern s)))) (m_irqmask s) (k_jiffies (m_kern s)))
    (fun i s =>
       let k := m_kern s in
       let y := k_heap k in
       set_m_irqmask (irqmask i)
         (set_m_kern (set_k_jiffies (jiffies i) (set_k_heap (mkSys (sys_vfs y) (set_con_dev (irq_dev i) (sys_con y))) k)) s)) m.

(** task_curr->init() of task0, whose other fields are zero. *)
Definition init_task0 : M K unit :=
  t_wr task0 (fun c => set_t_priority 3 (set_t_shared_mem [] (Task_init c))) ;;
  modify (fun k => set_k_queues (ls_node_init task0 (k_queues k)) k) ;;
  modify (fun k => set_k_childs (ls_init task0 (ls_node_init task0 (k_childs k))) k).

(** The stack moves to its new place with its contents. *)
Definition init_kernel_task (root : Z) : M K unit :=
  ASSERT_int_disable ;;
  modify (set_k_curr task0) ;;
  init_task0 ;;
  _ ← in_vfs B (fs_task_init task0 root);
  in_vfs B (modify (set_v_task0_root root)) ;;
  r ← in_mm (segment_alloc KDIR MMAP_KERNEL_STACK_BASE MMAP_KERNEL_STACK_SIZE (Z.lor PTE_P PTE_W));
  ASSERT (r =? 0) ;;
  set_task_id task0 ;;
  add_to_runnable_list task0.

(** ** main *)

(** main up to do_fork. *)
Definition main_setup : M X unit :=
  in_kern task_init ;;
  in_kern (init_console (pl_bda P)) ;;
  _ ← memory_init;
  init_traps ;;
  in_kern schedule_init ;;
  ipc_init ;;
  in_irqs picirq_init ;;
  in_irqs timer_init ;;
  s ← get;
  root ← in_kern (in_vfs B (init_fs (initrd_start (m_info s)) (pl_initrd P) (im_junk G) (im_superblocks G)));
  free ← mem_free_k B;
  modify (set_free_memory_start free) ;;
  in_kern (init_kernel_task root).

(** Interrupts on, and the wait for one; behind it cli() and again. *)
Definition kernel_task : M X unit := sti.

Definition main : M X unit :=
  main_setup ;;
  r ← in_kern (do_fork B);
  ASSERT (-1 <? r) ;;
  sti ;;
  kernel_task.

Definition str_init : cstr := c_str "/initrd/init".

(** None: the jump into the program. *)
Definition init_task : M X unit :=
  r ← in_kern (do_execve B (Some str_init) []);
  match r with None => mret tt | Some _ => PANIC end.

(** main behind do_fork in the child. *)
Definition main_child : M X unit := sti ;; init_task.

(** schedule() in the kernel task when the child has not run yet. *)
Definition start_init : M X unit :=
  in_kern (t ← schedule_pick;
           switch_to_task FReturn t;;
           c ← curr_rd;
           ASSERT (t_k_eip c) ;;
           curr_wr (set_t_k_eip false)) ;;
  main_child.

(** ** The kernel's tests *)

Inductive kernel_test_fn := kernel_test_fs.
Definition kernel_test : list (cstr * kernel_test_fn) := [(c_str "fs", kernel_test_fs)].
Definition get_kernel_test (name : cstr) : option (cstr * kernel_test_fn) :=
  head (filter (fun t => t.1 = name) kernel_test).
Definition run_kernel_test_fn (f : kernel_test_fn) : M X unit :=
  match f with kernel_test_fs => printf B "kernel_test_fs\n" [] end.
Definition run_kernel_test (name : cstr) : M X unit :=
  match get_kernel_test name with
  | None => PANIC
  | Some t => run_kernel_test_fn t.2 ;; PANIC
  end.
End boot.
