(* ===== verification/BootProps.v ===== *)
(** A recorded run of the boot and the first program on a small machine: 2 MB of memory, a keyboard and
    a screen, the interrupt controllers and the timer, and a RAM disk that holds the
    program /initrd/init. *)

From S2P Require Import Prelude Spinlock ListSpec IdHash Util Vsprintf Fs DenemeFs DenemeRefine Vfs VfsFile VfsProps Cga CgaProps Keyboard.
From S2P Require Import PhysMem VirtMem VirtMap VirtProps UserMem Descr Kmalloc FsHeap Task Sched SchedOps Console Ipc Process Syscall.
From S2P Require Import System Exec ExecProps Pic Monitor MonitorLine Boot.

(** * The machine *)

(** The devices of a PC: those of [pc], the two interrupt controllers, the timer. *)
Record pc_all := mkPcAll { pa_pc : pc; pa_pics : chip * chip; pa_pit : pit }.
#[export] Instance Ports_pc_all : Ports pc_all := {
  p_in port d := let '(v, c) := p_in port (pa_pc d) in (v, mkPcAll c (pa_pics d) (pa_pit d));
  p_out port v d := mkPcAll (p_out port v (pa_pc d)) (pics_write port v (pa_pics d)) (pit_write port v (pa_pit d));
  p_ready d := p_ready (pa_pc d);
}.
#[export] Instance Pic8259_pc_all : Pic8259 pc_all.
Proof. by refine {| pics := pa_pics |}. Defined.
#[export] Instance Pit8253_pc_all : Pit8253 pc_all.
Proof. by refine {| pit_of := pa_pit |}. Defined.

Definition demo_dev : pc_all :=
  mkPcAll (mkPc 0 (fun _ => 0) [] [] [])
    (mkChip (Icw3 true) 8 9 false false 0 true, mkChip Ready 112 0 true true 7 false) (mkPit PitNone 0 0).

Definition pad (n : nat) (l : list Z) : list Z := l ++ replicate (n - length l) 0.

(** An ELF file with one segment: eight bytes at 0x8000, the last two not from the
    file; it starts at 0x8004. *)
Definition demo_elf (code : list Z) : list Z :=
  pad 24 (c_str "~ELF") ++ bytes_of 4 0x8004 ++ bytes_of 4 52 ++ pad 12 [] ++ bytes_of 2 1 ++ pad 6 [] ++
  bytes_of 4 1 ++ bytes_of 4 84 ++ bytes_of 4 0x8000 ++ bytes_of 4 0x8000 ++ bytes_of 4 6 ++ bytes_of 4 8 ++
  bytes_of 4 7 ++ bytes_of 4 0x1000 ++ code.
(** The RAM disk: a tar file with "./init" of the octal [size]. *)
Definition demo_initrd (size : string) (code : list Z) : list Z :=
  pad 124 (c_str "./init") ++ pad 32 (c_str size) ++ pad 356 [48] ++ pad 512 (demo_elf code) ++ replicate 512 0.
Definition demo_disk : list Z := demo_initrd "00000000134" [1; 2; 3; 4; 5; 6; 7; 8].

Definition boot_platform : platform :=
  mkPlat (mkMultiboot 0x47 [(0x105000, 0x105600)] 639 1024 [mkMmap 0 0 0x9fc00 1; mkMmap 0x100000 0 0x100000 1])
    0x2BADB002 7 (c_str "root") (mkLayout 0x100000 0x102000) 0x101000 0x102000 0x103000 0x104000 [0x3f8; 0; 0; 0]
    demo_disk.
(** [bound]: the entries of the arrays of the heap's self-test. *)
Definition boot_image (bound : Z) : image := mkImage (fun _ => 0x100500) 0x103000 demo_junk 0x500 bound.

Definition booted (bound : Z) : outcome (mach pc_all) unit :=
  main_setup demo_build boot_platform (boot_image bound) (mach_zero demo_dev).

#[local] Instance Alloc_demo : Alloc (ks mm) := Alloc_ks 0.

(** The first bytes of /initrd/init, read through a file. *)
Definition init_file (s : mach pc_all) : option (list Z) :=
  match in_vfs demo_build
          ('(_, f) ← file_open (H := ks mm) task0 str_init 1; file_read f 28) (m_kern s) with
  | Done (r, bs) _ => if r =? 28 then Some bs else None
  | Stop _ => None
  end.

(** What a successful set-up leaves, as a test. *)
Definition set_up (s : mach pc_all) : bool :=
  let k := m_kern s in
  let d := con_dev (sys_con (k_heap k)) in
  let m := env (fs_heap (v_fs (sys_vfs (k_heap k)))) in
  bool_decide (ls_lists (k_queues k) !! QRun 3 = Some [task0]) &&
  (k_curr k =? task0) && negb (IF (k_cpu k)) && (n_cli (k_cpu k) =? 0) && (k_jiffies k =? 0) &&
  forallb (fun i => (i =? 2) || bool_decide (irq_vector (pics d) i = if i <? 2 then Some (32 + i) else None)) (seqZ 0 16) &&
  (pit_count (pit_of d) =? 11932) &&
  (free_memory_start s =? mem_free (phys m) + 3 * 0x1000) &&
  bool_decide (length (m_idt s) = 256%nat /\ length (m_gdt s) = 10%nat) &&
  bool_decide (init_file s = Some (take 28 (demo_elf []))).

(** The kernel boots. On the machine of this file, main up to its fork runs without
    an assertion that fails: memory is found and mapped, the heap passes its
    self-test, the file system holds the RAM disk, and the kernel task is the only one
    that is ready, with interrupts still masked, the timer and the keyboard the only
    lines that are open, and three pages (the kernel stack and its table) taken since
    the amount of free memory was noted. With the 30 entries that the arrays of the
    self-test have, the set-up stops in the test. *)
Theorem kernel_boots :
  match booted 31 with Done _ s => set_up s | Stop _ => false end = true /\
  match booted 30 with Stop BadAccess => true | _ => false end = true.
Proof. split; vm_compute; reflexivity. Qed.

(** ** The first program

    A task with an empty directory, the RAM disk [disk], and execve. *)
Definition start_program (disk : list Z) (argv : list (option cstr)) : outcome (kern (sys pc)) (option Z) :=
  (in_heap (KernEnv0 := KernEnv_sys demo_build) kmalloc_init ;;
   root ← in_vfs demo_build (init_fs (H := ks mm) 0x1000 disk demo_junk 0x500);
   _ ← in_vfs demo_build (fs_task_init (H := ks mm) 100 root);
   in_vfs demo_build (modify (set_v_task0_root root)) ;;
   do_execve demo_build (Some str_init) argv)
    (demo_prog (mkVfs (mkDfs [] ∅ (mkKs ∅ (mkLstore ∅ ∅) ∅ 0 demo_prog_mm)) ∅ ∅ (mkLstore ∅ ∅) ∅
       {[100 := mkTaskFs NULL NULL (replicate 32 NULL)]} NULL [] [] [])).

(** The program as it finds itself: where it starts, its arguments, its segment. *)
Definition program_view (o : outcome (kern (sys pc)) (option Z)) : option (Z * (Z * list (list Z)) * list Z) :=
  match o with
  | Done None k =>
      c ← k_tasks k !! 100;
      let m := env (fs_heap (v_fs (sys_vfs (k_heap k)))) in
      match read_args (tf_esp (t_tf c)) m, user_bytes 8 0x8000 m with
      | Done args _, Done bs _ => Some (tf_eip (t_tf c), args, bs)
      | _, _ => None
      end
  | _ => None
  end.

(** execve loads the program and gives it its arguments; the bytes of the segment
    behind those of the file are zero. *)
Example exec_starts_init :
  program_view (start_program demo_disk [Some (c_str "init"); Some (c_str "-v")]) =
    Some (0x8004, (2, [c_str "init"; c_str "-v"]), [1; 2; 3; 4; 5; 6; 0; 0]).
Proof. vm_compute. reflexivity. Qed.

(** The same program in a file without the two bytes of the segment that are not the
    file's: execve stops the kernel. *)
Example exec_stops_at_bss :
  match start_program (demo_initrd "00000000132" [1; 2; 3; 4; 5; 6]) [] with Stop AssertFailed => true | _ => false end = true.
Proof. vm_compute. reflexivity. Qed.
