(* ===== verification/Lib.v ===== *)
(** The library of the programs (lib/syscall.cpp, lib/lib.cpp, lib/stdio.c, and the
    numbers and macros of include/kernel/syscall.h): system calls from a program's side.

    A function of the library is a computation on the kernel's state in which its
    program is the running task. int $0x80 stores the registers into the task's trap
    frame and runs trap_handler; when the trap ends in another task, in a signal
    handler or in a new program, the function has not returned and the model's run of
    it is [Blocked]. The program's memory is the loaded directory's. *)

From S2P Require Import Prelude Spinlock ListSpec IdHash Util Vsprintf Fs DenemeFs Vfs VfsFile Cga PhysMem VirtMem UserMem Descr Kmalloc.
From S2P Require Import FsHeap Task Sched Console Ipc Process Syscall Trap System Exec.

(** * Definitions *)

Definition SYS_exit : Z := 1.
Definition SYS_fork : Z := 2.
Definition SYS_read : Z := 3.
Definition SYS_write : Z := 4.
Definition SYS_open : Z := 5.
Definition SYS_close : Z := 6.
Definition SYS_creat : Z := 8.
Definition SYS_unlink : Z := 10.
Definition SYS_execve : Z := 11.
Definition SYS_chdir : Z := 12.
Definition SYS_chmod : Z := 15.
Definition SYS_lseek : Z := 19.
Definition SYS_getpid : Z := 20.
Definition SYS_alarm : Z := 27.
Definition SYS_pause : Z := 29.
Definition SYS_access : Z := 33.
Definition SYS_kill : Z := 37.
Definition SYS_mkdir : Z := 39.
Definition SYS_rmdir : Z := 40.
Definition SYS_brk : Z := 45.
Definition SYS_signal : Z := 48.
Definition SYS_readdir : Z := 89.
Definition SYS_stat : Z := 106.
Definition SYS_lstat : Z := 107.
Definition SYS_fstat : Z := 108.
Definition SYS_ipc : Z := 117.
Definition SYS_gettimeofday : Z := 169.
Definition SYS_getcwd : Z := 183.
Definition SYS_cputs : Z := 901.
Definition SYS_cgetc : Z := 902.
Definition SYS_yield : Z := 903.
Definition SYS_wait : Z := 904.
Definition SYS_dongu : Z := 905.
Definition SYS_sleep : Z := 906.

Definition SEMGET : Z := 1.
Definition SEMOP : Z := 3.
Definition SEMDT : Z := 4.
Definition SEMWAIT : Z := 5.
Definition SEMPOST : Z := 6.
Definition SEMGETVAL : Z := 7.
Definition SHMGET : Z := 10.
Definition SHMAT : Z := 11.
Definition SHMDT : Z := 12.
Definition SHMCTL : Z := 12.

(** The frame of a trap: the parameters go into edx, ecx, ebx, edi and esi. *)
Definition enter (num a1 a2 a3 a4 a5 : Z) (tf : Trapframe) : Trapframe :=
  mkTf (u32 a4) (u32 a5) (u32 a3) (u32 a1) (u32 a2) (u32 num) T_SYSCALL 0 (tf_eip tf) (tf_cs tf) (tf_esp tf).

Section lib.
Context {D : Type} `{!Ports D} (B : build).
Notation K := (kern (sys D)).
#[local] Instance KernEnv_lib : KernEnv (sys D) := KernEnv_sys B.
#[local] Instance UserCalls_lib : UserCalls (sys D) := kernel_calls B.

(** The return to the program of the task [t], whose interrupts are on. *)
Definition trapret (t eip esp : Z) : M K Z :=
  t' ← task_curr; tf ← curr_tf;
  if (t' =? t) && (tf_eip tf =? eip) && (tf_esp tf =? esp) then sti ;; mret (i32 (tf_eax tf)) else stop Blocked.

Definition syscall (num a1 a2 a3 a4 a5 : Z) : M K Z :=
  t ← task_curr;
  curr_wr (fun c => set_t_tf (enter num a1 a2 a3 a4 a5 (t_tf c)) c) ;;
  tf ← curr_tf;
  trap_handler B false 0 tf ;;
  trapret t (tf_eip tf) (tf_esp tf).

Definition _syscall0 (num : Z) : M K Z := syscall num 0 0 0 0 0.
Definition _syscall1 (num p1 : Z) : M K Z := syscall num p1 0 0 0 0.
Definition _syscall2 (num p1 p2 : Z) : M K Z := syscall num p1 p2 0 0 0.
Definition _syscall3 (num p1 p2 p3 : Z) : M K Z := syscall num p1 p2 p3 0 0.
Definition _syscall5 (num p1 p2 p3 p4 p5 : Z) : M K Z := syscall num p1 p2 p3 p4 p5.

(** (r)syscall(...) for an unsigned type or a pointer. *)
Definition unsigned (m : M K Z) : M K Z := r ← m; mret (u32 r).

(** ** syscall.cpp *)

Definition getpid : M K Z := _syscall0 SYS_getpid.
Definition exit (error_no : Z) : M K Z := _syscall1 SYS_exit error_no.
Definition fork : M K Z := _syscall0 SYS_fork.
Definition wait (status : Z) : M K Z := _syscall1 SYS_wait status.
Definition signal (signum func : Z) : M K Z := unsigned (_syscall2 SYS_signal signum func).
Definition alarm (seconds : Z) : M K Z := unsigned (_syscall1 SYS_alarm seconds).
Definition kill (pid sig : Z) : M K Z := _syscall2 SYS_kill pid sig.
Definition pause : M K Z := _syscall0 SYS_pause.
Definition ipc (ipc_no a1 a2 a3 a4 : Z) : M K Z := _syscall5 SYS_ipc ipc_no a1 a2 a3 a4.
Definition sleep (seconds : Z) : M K Z := _syscall1 SYS_sleep seconds.
Definition open (filename flags mode : Z) : M K Z := _syscall3 SYS_open filename flags mode.
Definition close (fd : Z) : M K Z := _syscall1 SYS_close fd.
Definition read (fd buf size : Z) : M K Z := unsigned (_syscall3 SYS_read fd buf size).
Definition write (fd buf size : Z) : M K Z := unsigned (_syscall3 SYS_write fd buf size).
Definition chdir (path : Z) : M K Z := _syscall1 SYS_chdir path.
Definition getcwd (buf size : Z) : M K Z := unsigned (_syscall2 SYS_getcwd buf size).
Definition stat (path buf : Z) : M K Z := _syscall2 SYS_stat path buf.
Definition execve (path argv : Z) : M K Z := _syscall2 SYS_execve path argv.
Definition mkdir (pathname mode : Z) : M K Z := _syscall2 SYS_mkdir pathname mode.
Definition rmdir (pathname : Z) : M K Z := _syscall1 SYS_rmdir pathname.
Definition creat (pathname mode : Z) : M K Z := _syscall2 SYS_creat pathname mode.
Definition unlink (pathname : Z) : M K Z := _syscall1 SYS_unlink pathname.

Definition brk (addr : Z) : M K Z :=
  new_brk ← unsigned (syscall SYS_brk addr 0 0 0 0);
  if negb (new_brk =? addr) then mret (-1) else mret 0.

Definition sbrk (increment : Z) : M K Z :=
  brk ← unsigned (syscall SYS_brk 0 0 0 0 0);
  unsigned (syscall SYS_brk (u32 (brk + increment)) 0 0 0 0).

Definition sys_cputs (s len : Z) : M K unit := _ ← syscall SYS_cputs s len 0 0 0; mret tt.

(** [n] bounds how often a reader is woken without a character. *)
Fixpoint sys_cgetc (n : nat) : M K Z :=
  match n with
  | O => stop OutOfFuel
  | S n => c ← syscall SYS_cgetc 0 0 0 0 0; if c =? 0 then sys_cgetc n else mret c
  end.

Definition sys_yield : M K unit := _ ← syscall SYS_yield 0 0 0 0 0; mret tt.
Definition sys_dongu : M K unit := _ ← syscall SYS_dongu 0 0 0 0 0; mret tt.

(** A word of the program's memory. *)
Definition load (a : Z) : M K Z := in_mm (user_word a).
Definition store (a v : Z) : M K unit := in_mm (user_store a (bytes_of 4 v)).

(** [dirents], [dirents_i]: where the two statics are. *)
Definition readdir (dirents dirents_i dirp : Z) : M K Z :=
  i ← load dirents_i;
  store dirents_i (u32 (i + 1)) ;;
  let dirent := u32 (dirents + sizeof_dirent_user * (i mod 16)) in
  r ← syscall SYS_readdir dirp dirent 0 0 0;
  if r <? 0 then
    i ← load dirents_i; store dirents_i (u32 (i - 1)) ;; mret NULL
  else mret dirent.

(** ** lib.cpp *)

Definition shmget (key size shmflg : Z) : M K Z := ipc SHMGET key size shmflg 0.
Definition shmat (shmid shmaddr shmflg : Z) : M K Z := unsigned (ipc SHMAT shmid shmaddr shmflg 0).
Definition shmdt (shmaddr : Z) : M K Z := ipc SHMDT shmaddr 0 0 0.
Definition shmctl (shmid cmd buf : Z) : M K Z := ipc SHMCTL shmid cmd buf 0.
Definition sem_init (sem pshared value : Z) : M K Z := ipc SEMGET sem pshared value 0.
Definition sem_destroy (sem : Z) : M K Z := ipc SEMDT sem 0 0 0.
Definition sem_wait (sem : Z) : M K Z := ipc SEMWAIT sem 0 0 0.
Definition sem_trywait (sem : Z) : M K Z := ipc SEMOP sem 0 0 0.
Definition sem_post (sem : Z) : M K Z := ipc SEMPOST sem 0 0 0.
(** [val] is not used. *)
Definition sem_getvalue (sem val : Z) : M K Z := ipc SEMGETVAL sem 0 0 0.

Definition opendir (dirs dirs_i path : Z) : M K Z :=
  i ← load dirs_i;
  store dirs_i (u32 (i + 1)) ;;
  let dirp := u32 (dirs + sizeof_DIR * (i mod 16)) in
  fd ← open path 1 0;
  store dirp (u32 fd) ;;
  dd_fd ← load dirp;
  if i32 dd_fd <? 0 then
    i ← load dirs_i; store dirs_i (u32 (i - 1)) ;; mret NULL
  else mret dirp.

Definition closedir (dirp : Z) : M K Z :=
  dd_fd ← load dirp;
  r ← close dd_fd;
  if r <? 0 then mret r else mret 0.

(** ** stdio.c *)

(** [buf]: the static buffer of 1024 bytes. What vsprintf stores behind it is in the
    memory that follows. *)
Definition printf (buf : Z) (fmt : cstr) (args : list va_value) : M K Z :=
  match vsprintf fmt args with
  | VsDone o =>
      in_mm (user_store buf (vs_text o ++ [0])) ;;
      sys_cputs buf (-1) ;;
      mret (Z.of_nat (length (vs_text o)))
  | VsUndefined => stop BadAccess
  | VsOutOfFuel => stop OutOfFuel
  end.
Definition getchar (n : nat) : M K Z := sys_cgetc n.
Definition putchar (buf c : Z) : M K unit := _ ← printf buf [37; 99] [VInt c]; mret tt.
Definition iscons (fdnum : Z) : Z := 1.
End lib.
