(* ===== verification/Newlib.v ===== *)
(** The system calls of the newlib port (user_programs/lib/sys/): the functions that
    differ from those of Lib, by file. The others are the same macros. *)

From S2P Require Import Prelude Spinlock ListSpec IdHash Util Fs DenemeFs Vfs VfsFile Cga PhysMem VirtMem UserMem Kmalloc FsHeap.
From S2P Require Import Task Sched Console Ipc Process Syscall Trap System Exec Lib.

(** * Definitions *)

Section newlib.
Context {D : Type} `{!Ports D} (B : build).
Notation K := (kern (sys D)).
#[local] Instance KernEnv_newlib : KernEnv (sys D) := KernEnv_sys B.

(** brk.c *)
Definition _brk (addr : Z) : M K Z := unsigned (_syscall1 B SYS_brk addr).
Definition brk (addr : Z) : M K Z :=
  new_brk ← _brk addr;
  if negb (new_brk =? addr) then mret (-1) else mret 0.
Definition sbrk (increment : Z) : M K Z :=
  old_brk ← _brk 0;
  new_brk ← _brk (u32 (old_brk + increment));
  if negb (new_brk =? u32 (old_brk + increment)) then mret (u32 (-1)) else mret old_brk.

(** file.c *)
Definition open (filename flags mode : Z) : M K Z := _syscall3 B SYS_open filename flags mode.
Definition close (fd : Z) : M K Z := _syscall1 B SYS_close fd.
Definition lseek (fd offset whence : Z) : M K Z := _syscall3 B SYS_lseek fd offset whence.

(** The loop is the one of Lib's sys_cgetc. *)
Definition read (n : nat) (fd buf count : Z) : M K Z :=
  if fd =? 0 then
    c ← sys_cgetc B n; in_mm (user_store buf [u8 c]) ;; mret 1
  else unsigned (syscall B SYS_read fd buf count 0 0).
Definition write (fd buf nbytes : Z) : M K Z :=
  if (fd =? 1) || (fd =? 2) then
    _ ← syscall B SYS_cputs buf nbytes 0 0 0; mret (u32 nbytes)
  else unsigned (syscall B (1000 + fd) buf nbytes 0 0 0).

Definition chmod (path mode : Z) : M K Z := _syscall2 B SYS_chmod path mode.
Definition access (pathname mode : Z) : M K Z := _syscall2 B SYS_access pathname mode.

(** inode.c *)
Definition chdir (path : Z) : M K Z := _syscall1 B SYS_chdir path.
Definition getcwd (buf size : Z) : M K Z := _syscall2 B SYS_getcwd buf size.
Definition chown : M K unit := _ ← syscall B (2000 + 50) 0 0 0 0 0; mret tt.
Definition link : M K unit := _ ← syscall B (2000 + 54) 0 0 0 0 0; mret tt.
Definition readlink : M K unit := _ ← syscall B (2000 + 56) 0 0 0 0 0; mret tt.
Definition symlink : M K unit := _ ← syscall B (2000 + 57) 0 0 0 0 0; mret tt.
Definition unlink : M K unit := _ ← syscall B (2000 + 58) 0 0 0 0 0; mret tt.

(** process.c: return is while(1) in _exit. *)
Definition getpid : M K Z := _syscall0 B SYS_getpid.
Definition fork : M K Z := _syscall0 B SYS_fork.
Definition execve (path argv envp : Z) : M K Z := _syscall3 B SYS_execve path argv envp.
Fixpoint _exit (n : nat) (error_no : Z) : M K unit :=
  match n with O => stop OutOfFuel | S n => _ ← _syscall1 B SYS_exit error_no; _exit n error_no end.

(** signal.c, sleep.c, wait.c *)
Definition signal (signum func : Z) : M K Z := unsigned (_syscall2 B SYS_signal signum func).
Definition alarm (seconds : Z) : M K Z := unsigned (_syscall1 B SYS_alarm seconds).
Definition kill (pid sig : Z) : M K Z := _syscall2 B SYS_kill pid sig.
Definition pause : M K Z := _syscall0 B SYS_pause.
Definition sleep (seconds : Z) : M K Z := _syscall1 B SYS_sleep seconds.
Definition wait (status : Z) : M K Z := _syscall1 B SYS_wait status.

(** stat.c *)
Definition stat (path buf : Z) : M K Z := _syscall2 B SYS_stat path buf.
Definition fstat (fd buf : Z) : M K Z := _syscall2 B SYS_fstat fd buf.
Definition lstat (path buf : Z) : M K Z := _syscall2 B SYS_lstat path buf.

(** sys.c *)
Definition ipc (ipc_no a1 a2 a3 a4 : Z) : M K Z := _syscall5 B SYS_ipc ipc_no a1 a2 a3 a4.
Definition gettimeofday (tv tz : Z) : M K Z := _syscall2 B SYS_gettimeofday tv tz.
Definition sys_dongu : M K unit := _ ← syscall B SYS_dongu 0 0 0 0 0; mret tt.
Definition sys_yield : M K unit := _ ← syscall B SYS_yield 0 0 0 0 0; mret tt.
Definition isatty : M K unit := _ ← syscall B 53 0 0 0 0 0; mret tt.
Definition dup2 (oldfd newfd : Z) : M K Z := syscall B 54 0 0 0 0 0.
Definition pipe (pipefd : Z) : M K Z := syscall B 55 0 0 0 0 0.
Definition fcntl (fd cmd : Z) : M K Z := syscall B (4000 + fd) 0 0 0 0 0.
Definition sigaction (signum act oldact : Z) : M K Z := syscall B 57 0 0 0 0 0.
Definition getppid : M K Z := syscall B 58 0 0 0 0 0.
Definition geteuid : Z := 1000.
Definition getgid : Z := 1000.
Definition getegid : Z := 1000.
Definition getuid : Z := 1000.
Definition getgroups (size list : Z) : M K Z := syscall B 62 0 0 0 0 0.
Definition sigprocmask (how set oldset : Z) : M K Z := syscall B 65 0 0 0 0 0.
Definition opendir (name : Z) : M K Z := unsigned (syscall B 66 0 0 0 0 0).
Definition readdir (dirp : Z) : M K Z := unsigned (syscall B 67 0 0 0 0 0).
Definition closedir (dirp : Z) : M K Z := syscall B 68 0 0 0 0 0.
Definition sigsuspend (mask : Z) : M K Z := syscall B 69 0 0 0 0 0.
Definition wait3 (status options rusage : Z) : M K Z := syscall B 70 0 0 0 0 0.
Definition setpgid (pid : Z) : M K Z := syscall B 72 0 0 0 0 0.
Definition umask (mask : Z) : M K Z := syscall B 73 0 0 0 0 0.
Definition getpgrp : M K Z := syscall B 74 0 0 0 0 0.
Definition tcsetpgrp (fd pgrp : Z) : M K Z := syscall B 75 0 0 0 0 0.
Definition tcgetpgrp (fd : Z) : M K Z := syscall B 76 0 0 0 0 0.
Definition pathconf (path name : Z) : Z := 0.
End newlib.
