(* ===== verification/LibProps.v ===== *)
(** What a program gets from its library: every function enters the kernel with its
    number and its parameters in the registers where the kernel's function of its name
    reads them. *)

From S2P Require Import Prelude Spinlock ListSpec IdHash Util Fs DenemeFs DenemeProps Vfs VfsFile VfsProps Cga CgaProps PhysMem VirtMem UserMem Descr Kmalloc.
From S2P Require Import FsHeap Task Sched SchedProps SchedOps Console ConsoleProps Ipc Process Syscall Trap TrapProps System Exec ExecProps Lib Newlib.

(** * The way into the kernel *)

(** A task that runs its program. *)
Record in_program {H} (k : kern H) (c : Task) : Prop := {
  ip_curr : k_tasks k !! k_curr k = Some c;
  ip_user : user_mode (t_tf c) = true;
  ip_if : IF (k_cpu k) = true;
  ip_cli : n_cli (k_cpu k) = 0;
}.

(** The state in which the kernel's function starts: the registers are in the frame. *)
Definition entered {H} (tf : Trapframe) (c : Task) (k : kern H) : kern H :=
  set_k_tasks (<[k_curr k := set_t_popped_kstack false (set_t_tf tf c)]> (k_tasks k)) k.

#[local] Ltac go H := rewrite (bind_done _ _ _ _ _ H).

Lemma task_curr_run {H} (k : kern H) : task_curr k = Done (k_curr k) k.
Proof. done. Qed.

Ltac each := repeat (apply Forall_cons; split); [..|apply Forall_nil_2].
Ltac in_table := clear; apply list_elem_of_In; vm_compute; tauto.

Ltac in_inits := apply list_elem_of_In; repeat first [left; reflexivity|right].

Lemma not_in_inits num : num < 2 ^ 32 -> 0 <= num -> Forall (.≠ num) syscall_inits.*1 -> u32 num ∉ syscall_inits.*1.
Proof. intros H1 H2 Hf. rewrite u32_small by lia. rewrite Forall_forall in Hf. intros Hin. by apply (Hf _ Hin). Qed.
Ltac not_in_table :=
  apply not_in_inits; [..|change (syscall_inits.*1) with
    ([1; 2; 3; 4; 5; 6; 11; 12; 20; 27; 29; 37; 45; 48; 89; 106; 19; 117; 183; 39; 40; 8; 10; 108; 169] ++ [901; 902; 903; 904; 905; 906]);
    cbn [app]; each]; unfold SYS_chmod, SYS_access, SYS_lstat; lia.

Section calls.
Context {D : Type} `{!Ports D} (B : build).
Notation K := (kern (sys D)).
#[local] Instance KernEnv_calls : KernEnv (sys D) := KernEnv_lib B.
#[local] Instance UserCalls_calls : UserCalls (sys D) := UserCalls_lib B.
Implicit Types k : K.

(** The frame of the system call [num] of a program whose frame was [tf0]: the
    parameters in edx, ecx, ebx, edi and esi, which the kernel's functions read as
    their parameters 1 to 5, and zeros for those that are not given. *)
Record call_frame (tf tf0 : Trapframe) (num : Z) (args : list Z) : Prop := {
  cf_eax : tf_eax tf = num;
  cf_regs : [tf_edx tf; tf_ecx tf; tf_ebx tf; tf_edi tf; tf_esi tf] =
            [u32 (nth 0 args 0); u32 (nth 1 args 0); u32 (nth 2 args 0); u32 (nth 3 args 0); u32 (nth 4 args 0)];
  cf_params : [get_param1 tf; get_param2 tf; get_param3 tf; get_param4 tf; get_param5 tf] =
              [u32 (nth 0 args 0); u32 (nth 1 args 0); u32 (nth 2 args 0); u32 (nth 3 args 0); u32 (nth 4 args 0)];
  cf_trap : tf_trapno tf = 0x80;
  cf_user : (tf_eip tf, tf_cs tf, tf_esp tf) = (tf_eip tf0, tf_cs tf0, tf_esp tf0);
}.

(** [m] is the system call [num] from the program, which runs [run]: [args] are the
    parameters, what the kernel returns is converted by [conv]. *)
Definition calls {A} k c (m : M K A) (conv : Z -> A) (num : Z) (run : M K unit) (args : list Z) : Prop :=
  exists tf, call_frame tf (t_tf c) num args /\
    m k = (run ;; trap_end ;; r ← trapret (k_curr k) (tf_eip (t_tf c)) (tf_esp (t_tf c)); mret (conv r)) (entered tf c k).

Lemma enter_frame num args tf0 : fits 32 num ->
  call_frame (enter num (nth 0 args 0) (nth 1 args 0) (nth 2 args 0) (nth 3 args 0) (nth 4 args 0) tf0) tf0 num args.
Proof. intros Hn. split; try reflexivity. by apply u32_small. Qed.

Definition signed (r : Z) : Z := r.
Definition nothing (r : Z) : unit := tt.

Lemma syscall_run num a1 a2 a3 a4 a5 k c : in_program k c ->
  syscall B num a1 a2 a3 a4 a5 k =
    (do_syscall B (u32 num) ;; trap_end ;; trapret (k_curr k) (tf_eip (t_tf c)) (tf_esp (t_tf c)))
      (entered (enter num a1 a2 a3 a4 a5 (t_tf c)) c k).
Proof.
  intros [Hc Hu Hif Hn]. set (tf := enter num a1 a2 a3 a4 a5 (t_tf c)).
  set (k1 := set_k_tasks (<[k_curr k := set_t_tf tf c]> (k_tasks k)) k).
  assert (Hc1 : k_tasks k1 !! k_curr k1 = Some (set_t_tf tf c)) by apply lookup_insert_eq.
  unfold syscall. go (task_curr_run k).
  go (curr_wr_run (fun c => set_t_tf (enter num a1 a2 a3 a4 a5 (t_tf c)) c) k c Hc). fold tf. fold k1.
  assert (Htf : curr_tf k1 = Done tf k1) by (unfold curr_tf; by go (curr_rd_run k1 _ Hc1)). go Htf.
  pose proof (trap_handler_run (KernEnv0 := KernEnv_lib B) (UserCalls0 := UserCalls_lib B) B 0 tf k1 _ Hc1) as Ht. change (is_irq tf) with false in Ht.
  change (user_mode tf) with (user_mode (t_tf c)) in Ht. rewrite Hu in Ht. cbv iota in Ht.
  change (tf_trapno tf =? T_SYSCALL) with true in Ht. cbv iota in Ht.
  assert (E : unpopped k1 (set_t_tf tf c) = entered tf c k).
  { unfold unpopped, entered, k1. cbn. by rewrite insert_insert_eq. }
  rewrite E in Ht. rewrite <- bind_assoc. unfold mbind at 1, M_bind. rewrite Ht. done.
Qed.

Lemma entered_curr tf k c : in_program k c ->
  k_tasks (entered tf c k) !! k_curr (entered tf c k) = Some (set_t_popped_kstack false (set_t_tf tf c)).
Proof. intros _. apply lookup_insert_eq. Qed.

Lemma calls_sys {A} k c (m : M K A) conv num fn args : in_program k c -> (num, fn) ∈ syscall_inits ->
  m k = (r ← syscall B num (nth 0 args 0) (nth 1 args 0) (nth 2 args 0) (nth 3 args 0) (nth 4 args 0); mret (conv r)) k ->
  calls k c m conv num (run_syscall B fn) args.
Proof.
  intros Hk Hf Hm. eexists. split.
  { apply enter_frame. pose proof syscall_inits_range as Hr. rewrite Forall_forall in Hr. specialize (Hr _ Hf). cbn in Hr. unfold fits. lia. }
  rewrite Hm. unfold mbind at 1, M_bind. rewrite (syscall_run _ _ _ _ _ _ k c Hk).
  pose proof syscall_inits_range as Hr. rewrite Forall_forall in Hr. specialize (Hr _ Hf). cbn in Hr.
  rewrite u32_small by lia. set (k1 := entered _ c k).
  pose proof (do_syscall_entry B num fn k1 Hf) as E.
  unfold mbind, M_bind. rewrite E. destruct (run_syscall B fn k1) as [[] k2|]; [|done].
  destruct (trap_end k2) as [[] k3|]; [|done]. by destruct (trapret _ _ _ k3).
Qed.

Lemma calls_sys_signed k c (m : M K Z) num fn args : in_program k c -> (num, fn) ∈ syscall_inits ->
  m k = syscall B num (nth 0 args 0) (nth 1 args 0) (nth 2 args 0) (nth 3 args 0) (nth 4 args 0) k ->
  calls k c m signed num (run_syscall B fn) args.
Proof. intros Hk Hf Hm. apply (calls_sys k c m signed num fn args Hk Hf). rewrite Hm. symmetry. apply bind_ret_r. Qed.

Lemma calls_ipc k c (m : M K Z) f no args : in_program k c -> fits 32 no ->
  ipc_func !! Z.to_nat no = Some f -> (no <? sizeof_ipc_func + 1) = true ->
  m k = Lib.ipc B no (nth 0 args 0) (nth 1 args 0) (nth 2 args 0) (nth 3 args 0) k ->
  calls k c m signed SYS_ipc (run_ipc B f) (no :: args).
Proof.
  intros Hk Hno Hf Hlt Hm.
  destruct (calls_sys_signed k c m SYS_ipc sys_fn_ipc (no :: args) Hk) as (tf & Hfr & Hc); [by apply list_elem_of_In; vm_compute; tauto|exact Hm|].
  exists tf. split; [done|]. rewrite Hc.
  unfold mbind at 1, M_bind. unfold mbind at 5, M_bind.
  assert (E : run_syscall B sys_fn_ipc (entered tf c k) = run_ipc B f (entered tf c k)).
  { cbn [run_syscall]. unfold sys_ipc, curr_tf. rewrite bind_assoc. go (curr_rd_run _ _ (entered_curr tf k c Hk)).
    unfold mbind at 1, M_bind, mret, M_ret. cbn [t_tf]. pose proof (cf_params _ _ _ _ Hfr) as Hp. cbn [nth] in Hp. injection Hp as Hp _ _ _ _.
    change (t_tf (set_t_popped_kstack false (set_t_tf tf c))) with tf. rewrite Hp.
    rewrite u32_small by exact Hno. rewrite Hlt. by rewrite Hf. }
  by rewrite E.
Qed.

(** An ipc number without a function. *)
Lemma calls_panics k c (m : M K Z) sem : in_program k c -> m k = Lib.ipc B SEMDT sem 0 0 0 k -> m k = Stop PanicCalled.
Proof.
  intros Hk Hm. destruct (calls_ipc k c m no_ipc SEMDT [sem; 0; 0; 0] Hk) as (tf & _ & Hc); [done|done|done|exact Hm|].
  rewrite Hc. done.
Qed.

(** The return to the program, with interrupts on. *)
Definition running_cpu (c : Cpu) : Cpu := mkCpu true (n_cli c) (before_pushcli c).

Lemma trapret_sti k c' : k_tasks k !! k_curr k = Some c' ->
  trapret (k_curr k) (tf_eip (t_tf c')) (tf_esp (t_tf c')) k = Done (i32 (tf_eax (t_tf c'))) (set_k_cpu (running_cpu (k_cpu k)) k).
Proof.
  intros Hc. unfold trapret. go (task_curr_run k).
  assert (E : curr_tf k = Done (t_tf c') k) by (unfold curr_tf; by go (curr_rd_run k _ Hc)). go E.
  by rewrite !Z.eqb_refl.
Qed.
Lemma running_cpu_id k : IF (k_cpu k) = true -> set_k_cpu (running_cpu (k_cpu k)) k = k.
Proof. destruct k as [h ts q al ch ids cur [b n bp] j ni sg se sh]. cbn. by intros ->. Qed.
Lemma trapret_run k c' : k_tasks k !! k_curr k = Some c' -> IF (k_cpu k) = true ->
  trapret (k_curr k) (tf_eip (t_tf c')) (tf_esp (t_tf c')) k = Done (i32 (tf_eax (t_tf c'))) k.
Proof. intros Hc Hif. by rewrite (trapret_sti k c' Hc), running_cpu_id. Qed.

(** A call without an entry in the table. *)
Lemma calls_none {A} k c (m : M K A) conv num a1 a2 a3 a4 a5 : in_program k c -> u32 num ∉ syscall_inits.*1 ->
  m k = (r ← syscall B num a1 a2 a3 a4 a5; mret (conv r)) k ->
  exists c', m k = Done (conv (- ENOSYS)) (set_k_tasks (<[k_curr k := c']> (k_tasks k)) k).
Proof.
  intros Hk Hn Hm. rewrite Hm. unfold mbind at 1, M_bind. rewrite (syscall_run _ _ _ _ _ _ k c Hk).
  set (tf := enter num a1 a2 a3 a4 a5 (t_tf c)). pose proof (entered_curr tf k c Hk) as Hc. set (k1 := entered tf c k) in *.
  assert (E : do_syscall B (u32 num) k1 = Done tt (returned (- ENOSYS) k1 (set_t_popped_kstack false (set_t_tf tf c)))).
  { rewrite do_syscall_none; [by apply syscall_return_run|apply u32_fits|done]. }
  go E. set (k2 := returned _ _ _).
  assert (Et : (trap_end : M K unit) k2 = Done tt k2).
  { unfold trap_end. m_unfold. change (n_cli (k_cpu k2)) with (n_cli (k_cpu k)). by rewrite (ip_cli _ _ Hk). }
  go Et.
  pose proof (trapret_run k2 (set_t_tf (set_return (- ENOSYS) tf) (set_t_popped_kstack false (set_t_tf tf c)))
    ltac:(apply lookup_insert_eq) (ip_if _ _ Hk)) as Hr.
  change (trapret (k_curr k) (tf_eip (t_tf c)) (tf_esp (t_tf c)) k2 = Done (- ENOSYS) k2) in Hr.
  rewrite Hr. eexists. unfold mret, M_ret. f_equal. unfold k2, k1, returned, entered. cbn.
  by rewrite insert_insert_eq.
Qed.
(** A call by the function its number runs. *)
Lemma calls_fn {A} k c (m : M K A) conv num fn run args : in_program k c -> (num, fn) ∈ syscall_inits ->
  m k = (r ← syscall B num (nth 0 args 0) (nth 1 args 0) (nth 2 args 0) (nth 3 args 0) (nth 4 args 0); mret (conv r)) k ->
  run_syscall B fn = run -> calls k c m conv num run args.
Proof. intros Hk Hf Hm <-. by apply calls_sys. Qed.
Lemma calls_ipc_fn k c (m : M K Z) f run no args : in_program k c -> fits 32 no ->
  ipc_func !! Z.to_nat no = Some f -> (no <? sizeof_ipc_func + 1) = true ->
  m k = Lib.ipc B no (nth 0 args 0) (nth 1 args 0) (nth 2 args 0) (nth 3 args 0) k -> run_ipc B f = run ->
  calls k c m signed SYS_ipc run (no :: args).
Proof. intros Hk H1 H2 H3 H4 <-. by apply calls_ipc. Qed.

(** * Properties *)

End calls.

(** ** Witness

    A program in directory 1 with one page, whose descriptor 3 is a file of 90 bytes
    at the position 80. *)

Definition demo_data : list Z := [104; 101; 108; 108; 111].
Definition demo_reader_mm : mm :=
  set_frames (match user_store 0x1ffb demo_data demo_user with Done _ s => frames s | Stop _ => ∅ end) demo_user.
Definition demo_reader_task : Task := set_t_tf (mkTf 0 0 0 0 0 0 0 0 0x8000 0x1b 0x1000) (demo_task 1 State_running 0 0).
Definition demo_program (m : mm) : kern (sys pc) :=
  mkKern (mkSys (mkVfs (mkDfs [mkDi (mkMode 1 1 0 FT_regular) 1 90 0 0x500] {[0x500 := OBytes (replicate 90 7)]}
                          (mkKs ∅ (mkLstore ∅ ∅) ∅ 0 m))
                   {[0x600 := mkInode 0 1 (Some denemefs_file_inode_op) (mkMode 1 1 0 FT_regular) 0 0 90 0 []]} ∅ (mkLstore ∅ ∅)
                   {[0x700 := mkFile denemefs_file_op 0x600 80 3]} {[1 := mkTaskFs NULL NULL [0; 0; 0; 0x700]]} NULL [] [] [])
                (demo_con 0 [] []))
    {[1 := demo_reader_task]} (mkLstore {[QRun 3 := [1]]} {[1 := QRun 3]}) (mkLstore ∅ ∅) (mkLstore ∅ ∅)
    (mkIdht (replicate 1024 0) 0 ∅) 1 (mkCpu true 0 false) 1000 4 ∅ ∅ (mkShmState ∅ ∅ (mkIdht [] 0 ∅) (mkIdht [] 0 ∅) 1).
Definition demo_reader : kern (sys pc) := demo_program demo_reader_mm.

Lemma demo_in_program m : in_program (demo_program m) demo_reader_task.
Proof. split; vm_compute; reflexivity. Qed.

