(* ===== verification/LibFiles.v ===== *)
(** What a program writes to a file it reads back: write, lseek and read of the library,
    through the check of the program's addresses, the open file and the file system. *)

From S2P Require Import Prelude Spinlock ListSpec IdHash Util Fs DenemeFs DenemeSpec DenemeProps DenemeRefine Vfs VfsFile VfsProps Cga CgaProps PhysMem VirtMem UserMem Kmalloc.
From S2P Require Import FsHeap Task Sched SchedProps SchedOps Console ConsoleProps Ipc Process Syscall Trap TrapProps System Exec ExecProps Lib Newlib LibProps.

#[local] Ltac go H := rewrite (bind_done _ _ _ _ _ H).

Section files.
Context {D : Type} `{!Ports D} (B : build).
Notation V := (vfs (ks mm)).
Notation K := (kern (sys D)).
#[local] Instance KernEnv_files : KernEnv (sys D) := KernEnv_lib B.
#[local] Instance UserCalls_files : UserCalls (sys D) := UserCalls_lib B.
Implicit Types k : K.

(** The memory under the running program. *)
Definition kmm k : mm := env (set_cpu (k_cpu k) (fs_heap (v_fs (kfiles k)))).

(** The processes and the tables of descriptors are untouched. *)
Record quiet k k' : Prop := {
  qt_tasks : k_tasks k' = k_tasks k;
  qt_curr : k_curr k' = k_curr k;
  qt_cpu : k_cpu k' = k_cpu k;
  qt_fds : v_tasks (kfiles k') = v_tasks (kfiles k);
}.

Lemma kmm_cpu k : cpu_of (kmm k) = k_cpu k.
Proof. apply (cpu_of_set (S := mm)). Qed.

Lemma in_mm_run {A} (m : M mm A) k a s' : m (kmm k) = Done a s' ->
  exists k', in_mm m k = Done a k' /\ kmm k' = s' /\ k_tasks k' = k_tasks k /\ k_curr k' = k_curr k /\ k_cpu k' = cpu_of s' /\
    v_tasks (kfiles k') = v_tasks (kfiles k).
Proof.
  intros E. assert (Hr : in_mm m k = match m (kmm k) with
    | Done a s' => let h := fs_heap (v_fs (kfiles k)) in
        let h' := mkKs (words h) (lists h) (page_headers h) (kmalloc_lock h) s' in
        Done a (set_k_cpu (cpu_of h') (set_k_heap (ke_set_heap h' (k_heap k)) k))
    | Stop f => Stop f end).
  { unfold in_mm, in_heap, in_env, zoom. change (ke_heap (k_heap k)) with (fs_heap (v_fs (kfiles k))). fold (kmm k).
    by destruct (m (kmm k)). }
  rewrite E in Hr. eexists. split; [exact Hr|]. split_and!; try done. by destruct s' as [[] ? ? ? ? ? ? ?].
Qed.

Lemma in_mm_quiet {A} (m : M mm A) k a s' : m (kmm k) = Done a s' -> cpu_of s' = k_cpu k ->
  exists k', in_mm m k = Done a k' /\ kmm k' = s' /\ quiet k k' /\ forall f x bs, kopen k f x bs -> kopen k' f x bs.
Proof.
  intros E Hc. destruct (in_mm_run m k a s' E) as (k' & Hr & Hm & Ht & Hcu & Hcp & Hv). exists k'.
  split_and!; [done|done|split; congruence|]. intros f x bs. exact (in_mm_open B m k a k' f x bs Hr).
Qed.

(** ** What a program has: its memory and an open file *)

Record memory k (lo hi : Z) : Prop := {
  me_walk : walkable (kmm k);
  me_cr3 : cr3_dir (kmm k) = pgdir_of (k_curr k);
  me_win : window (kmm k) lo hi;
}.
Definition fd_open k (fd f : Z) : Prop :=
  exists t, v_tasks (kfiles k) !! k_curr k = Some t /\ fs_files t !! Z.to_nat fd = Some f /\ 0 <= fd < Z.of_nat (length (fs_files t)).

Lemma quiet_fd k k' fd f : quiet k k' -> fd_open k fd f -> fd_open k' fd f.
Proof. intros [Ht Hc _ Hf] (t & H1 & H2 & H3). exists t. rewrite Hf, Hc. exact (conj H1 (conj H2 H3)). Qed.

Lemma memory_frames k k' lo hi : k_curr k' = k_curr k -> frames_only (kmm k) (kmm k') -> memory k lo hi -> memory k' lo hi.
Proof.
  intros Hc F [Hw Hr W]. pose proof (window_frames _ _ _ _ F W) as W'. destruct F as [f F]. split; [|rewrite Hc|done]; rewrite F; [exact Hw|exact Hr].
Qed.

(** A mapped range passes the check. *)
Lemma check_run k ua n rw rest : memory k ua (ua + n) -> fits 32 ua -> 0 < n -> ua + n <= 0xC0000000 ->
  exists k', kmm k' = kmm k /\ quiet k k' /\ (forall f x bs, kopen k f x bs -> kopen k' f x bs) /\
    user_to_kernel_check B ua n rw rest k = rest k'.
Proof.
  intros [Hw Hr W] Hu Hn Hl. unfold user_to_kernel_check. go (task_curr_run k). rewrite <- Hr.
  set (pm := if rw then _ else _).
  destruct (verify_user_addr_run (kmm k) ua n pm Hw Hu Hn Hl) as (r & E & _ & Hiff).
  assert (r = 0) as -> by (apply Hiff, (range_covers (kmm k)); [done..|apply (wi_mapped _ _ _ W)]).
  destruct (in_mm_quiet _ k _ _ E (kmm_cpu k)) as (k' & E' & Hm & Hq & Ho).
  exists k'. split_and!; [done..|]. by go E'.
Qed.

(** ** The calls on the open file *)

Lemma in_vfs_quiet {A} (m : M V A) k a v :
  m (set_vfs_heap (set_cpu (k_cpu k) (fs_heap (v_fs (kfiles k)))) (kfiles k)) = Done a v ->
  fs_heap (v_fs v) = set_cpu (k_cpu k) (fs_heap (v_fs (kfiles k))) -> v_tasks v = v_tasks (kfiles k) ->
  exists k', in_vfs B m k = Done a k' /\ kmm k' = kmm k /\ kfiles k' = v /\ quiet k k'.
Proof.
  intros E Hh Ht. unfold in_vfs, in_files, zoom. unfold kfiles in E.
  cbn [ke_set_heap ke_heap KernEnv_sys set_vfs sys_vfs]. rewrite E. eexists. split; [reflexivity|].
  assert (Hc : cpu_of (fs_heap (v_fs v)) = k_cpu k) by (rewrite Hh; apply (cpu_of_set (S := ks mm))).
  split_and!; [|done|by split].
  unfold kmm. change (k_cpu _) with (cpu_of (fs_heap (v_fs v))) at 1. change (kfiles _) with v at 1. rewrite Hc, Hh.
  by rewrite (set_cpu_set (S := ks mm)).
Qed.

Lemma fd_rd_run (s : V) cur fd f t : v_tasks s !! cur = Some t -> fs_files t !! Z.to_nat fd = Some f ->
  0 <= fd < Z.of_nat (length (fs_files t)) -> fd_rd cur fd s = Done f s.
Proof.
  intros Ht Hf Hr. unfold fd_rd, curr_fs. m_unfold. rewrite Ht. cbn.
  rewrite (proj2 (Z.leb_gt _ _)) by lia. by rewrite Hf.
Qed.

Lemma vfs_read_run k fd f x bs size : fd_open k fd f -> kopen k f x bs -> Z.land (f_flags x) 1 = 1 ->
  0 <= f_pos x < 2 ^ 31 - Z.of_nat (length bs) -> let out := aread (f_pos x) size bs in
  exists k', in_vfs B (sys_read (k_curr k) fd size) k = Done (Z.of_nat (length out), out) k' /\
    kmm k' = kmm k /\ quiet k k' /\ kopen k' f (set_f_pos (f_pos x + Z.of_nat (length out)) x) bs.
Proof.
  intros (t & Ht & Hf & Hr) (rw & d & Ho) Hfl Hp out.
  pose proof (open_file_heap (set_cpu (k_cpu k) (fs_heap (v_fs (kfiles k)))) _ _ _ _ _ _ Ho) as Ho1.
  pose proof (file_read_at _ f x rw bs d size Ho1 Hfl Hp) as Hrun. cbv zeta in Hrun. fold out in Hrun.
  set (v := set_vfs_heap _ _) in Ho1, Hrun.
  destruct (in_vfs_quiet (sys_read (k_curr k) fd size) k (Z.of_nat (length out), out)
    (set_v_files (<[f := set_f_pos (f_pos x + Z.of_nat (length out)) x]> (v_files v)) v)) as (k' & E & Hm & Hk & Hq); [|done|done|].
  - unfold sys_read. fold v. by rewrite (bind_done _ _ _ _ _ (fd_rd_run v (k_curr k) fd f t Ht Hf Hr)).
  - exists k'. split_and!; [done..|]. destruct Ho1 as (i & Hf1 & Hfo & Hi & Ha).
    exists rw, d, i. rewrite Hk. split_and!; [apply lookup_insert_eq|done|done|done].
Qed.

Lemma vfs_write_run k fd f x bs buf : fd_open k fd f -> kopen k f x bs -> Z.land (f_flags x) 2 = 2 ->
  0 <= f_pos x -> f_pos x + Z.of_nat (length buf) <= Z.of_nat (length bs) < 2 ^ 30 ->
  exists k', in_vfs B (sys_write (k_curr k) fd buf) k = Done (Z.of_nat (length buf)) k' /\
    kmm k' = kmm k /\ quiet k k' /\ kopen k' f (set_f_pos (f_pos x + Z.of_nat (length buf)) x) (awrite (f_pos x) buf bs).
Proof.
  intros (t & Ht & Hf & Hr) (rw & d & Ho) Hfl Hp Hlen.
  pose proof (open_file_heap (set_cpu (k_cpu k) (fs_heap (v_fs (kfiles k)))) _ _ _ _ _ _ Ho) as Ho1.
  pose proof (file_write_at _ f x rw bs d buf Ho1 Hfl ltac:(lia)) as Hrun. cbv zeta in Hrun. rewrite take_ge in Hrun by lia.
  set (v := set_vfs_heap _ _) in Ho1, Hrun. match type of Hrun with _ = Done _ ?x => set (v' := x) in Hrun end.
  destruct (in_vfs_quiet (sys_write (k_curr k) fd buf) k (Z.of_nat (length buf)) v') as (k' & E & Hm & Hk & Hq); [|done|done|].
  - unfold sys_write. fold v. by rewrite (bind_done _ _ _ _ _ (fd_rd_run v (k_curr k) fd f t Ht Hf Hr)).
  - exists k'. split_and!; [done..|]. destruct Ho1 as (i & Hf1 & Hfo & Hi & H1 & H2 & H3 & H4 & H5).
    exists rw, d, i. rewrite Hk. split_and!; [apply lookup_insert_eq|done|done|].
    split_and!; [done|done|by rewrite length_awrite|apply lookup_insert_eq|by rewrite length_awrite].
Qed.

(** SEEK_SET *)
Lemma vfs_seek_run k fd f x bs pos : fd_open k fd f -> fd < 32 -> kopen k f x bs ->
  exists k', in_vfs B (sys_lseek (k_curr k) fd pos 0) k = Done 0 k' /\
    kmm k' = kmm k /\ quiet k k' /\ kopen k' f (set_f_pos pos x) bs.
Proof.
  intros (t & Ht & Hf & Hr) Hfd (rw & d & Ho).
  pose proof (open_file_heap (set_cpu (k_cpu k) (fs_heap (v_fs (kfiles k)))) _ _ _ _ _ _ Ho) as Ho1.
  set (v := set_vfs_heap _ _) in Ho1. destruct Ho1 as (i & Hf1 & Hrest).
  destruct (in_vfs_quiet (sys_lseek (k_curr k) fd pos 0) k 0
    (set_v_files (<[f := set_f_pos pos x]> (v_files v)) v)) as (k' & E & Hm & Hk & Hq); [|done|done|].
  - unfold sys_lseek, file_lseek, task_curr_get_file, curr_fs. fold v. unfold TASK_MAX_FILE_NR. rewrite (proj2 (Z.ltb_lt fd 32)), (proj2 (Z.leb_le 0 fd)) by lia.
    m_unfold. change (v_tasks v) with (v_tasks (kfiles k)). rewrite Ht. cbn [fs_files mret M_ret deref]. rewrite Hf.
    change (0 =? 0) with true. cbv iota. unfold fl_rd, fl_put. m_unfold. by rewrite Hf1.
  - exists k'. split_and!; [done..|]. destruct Hrest as (Hfo & Hi & Ha).
    exists rw, d, i. rewrite Hk. split_and!; [apply lookup_insert_eq|done|done|done].
Qed.

(** ** The way back to the program *)

Lemma syscall_back k c num a1 a2 a3 a4 a5 fn v k2 : in_program k c -> (num, fn) ∈ syscall_inits ->
  let tf := enter num a1 a2 a3 a4 a5 (t_tf c) in
  run_syscall B fn (entered tf c k) = SYSCALL_RETURN v k2 -> k_tasks k2 = k_tasks (entered tf c k) -> k_curr k2 = k_curr k ->
  n_cli (k_cpu k2) = 0 ->
  exists c' k', syscall B num a1 a2 a3 a4 a5 k = Done (i32 (u32 v)) k' /\ in_program k' c' /\ k_heap k' = k_heap k2 /\
    k_curr k' = k_curr k /\ k_cpu k' = running_cpu (k_cpu k2).
Proof.
  intros Hk Hf tf Hrun Ht Hc Hn. set (c1 := set_t_popped_kstack false (set_t_tf tf c)). pose proof (entered_curr tf k c Hk) as Hc1.
  fold c1 in Hc1. change (k_curr (entered tf c k)) with (k_curr k) in Hc1.
  rewrite <- Ht, <- Hc in Hc1. set (c2 := set_t_tf (set_return v tf) c1).
  rewrite (syscall_return_run v k2 _ Hc1) in Hrun. set (k3 := returned v k2 _) in Hrun.
  assert (Hc3 : k_tasks k3 !! k_curr k3 = Some c2) by apply lookup_insert_eq.
  exists c2, (set_k_cpu (running_cpu (k_cpu k3)) k3). split_and!; [| |done|exact Hc|done].
  - rewrite (syscall_run B _ _ _ _ _ _ k c Hk). fold tf.
    pose proof syscall_inits_range as Hr. rewrite Forall_forall in Hr. specialize (Hr _ Hf). cbn in Hr.
    rewrite u32_small by lia.
    go (eq_trans (do_syscall_entry B num fn _ Hf) Hrun).
    assert (Et : (trap_end : M K unit) k3 = Done tt k3) by (unfold trap_end; m_unfold; change (k_cpu k3) with (k_cpu k2); by rewrite Hn). go Et.
    pose proof (trapret_sti k3 c2 Hc3) as Hb. change (k_curr k3) with (k_curr k2) in Hb at 1. rewrite Hc in Hb. exact Hb.
  - split; [exact Hc3|exact (ip_user _ _ Hk)|done|exact Hn].
Qed.

Lemma syscall_returns k c num a1 a2 a3 a4 a5 fn v k2 : in_program k c -> (num, fn) ∈ syscall_inits ->
  let tf := enter num a1 a2 a3 a4 a5 (t_tf c) in
  run_syscall B fn (entered tf c k) = SYSCALL_RETURN v k2 -> quiet (entered tf c k) k2 ->
  exists c' k', syscall B num a1 a2 a3 a4 a5 k = Done (i32 (u32 v)) k' /\ in_program k' c' /\ k_heap k' = k_heap k2 /\
    k_curr k' = k_curr k /\ k_cpu k' = k_cpu k.
Proof.
  intros Hk Hf tf Hrun [Ht Hc Hu _]. change (k_cpu (entered tf c k)) with (k_cpu k) in Hu.
  destruct (syscall_back k c num a1 a2 a3 a4 a5 fn v k2 Hk Hf Hrun Ht Hc) as (c' & k' & E & Hp & Hh & Hc' & Hu').
  { rewrite Hu. apply (ip_cli _ _ Hk). }
  exists c', k'. split_and!; [done..|]. rewrite Hu', Hu. pose proof (ip_if _ _ Hk) as Hif. destruct (k_cpu k) as [b n bp]. cbn in *. by subst b.
Qed.

(** ** The calls of the program *)

Lemma quiet_trans k1 k2 k3 : quiet k1 k2 -> quiet k2 k3 -> quiet k1 k3.
Proof. intros [A1 A2 A3 A4] [B1 B2 B3 B4]. split; congruence. Qed.
Lemma memory_quiet k k' lo hi : quiet k k' -> kmm k' = kmm k -> memory k lo hi -> memory k' lo hi.
Proof. intros Q E. apply memory_frames; [apply Q|]. rewrite E. reflexivity. Qed.

Lemma memory_entered tf c k lo hi : memory k lo hi -> memory (entered tf c k) lo hi.
Proof. intros [H1 H2 H3]. by split. Qed.

Lemma entered_tf tf c k : in_program k c -> curr_tf (entered tf c k) = Done tf (entered tf c k).
Proof. intros Hk. unfold curr_tf. by go (curr_rd_run _ _ (entered_curr tf k c Hk)). Qed.

(** What a program has in the state behind a call: the same memory but for the frames'
    contents, the same descriptors. *)
Record goes_on k k' (m : mm) (f : Z) (x : file) (bs : list Z) : Prop := {
  go_program : exists c, in_program k' c;
  go_curr : k_curr k' = k_curr k;
  go_mm : kmm k' = m;
  go_fds : v_tasks (kfiles k') = v_tasks (kfiles k);
  go_file : kopen k' f x bs;
}.

Lemma goes_on_intro k c tf k2 c' k' m f x bs : quiet (entered tf c k) k2 -> in_program k' c' -> k_heap k' = k_heap k2 ->
  k_curr k' = k_curr k -> k_cpu k' = k_cpu k -> kmm k2 = m -> kopen k2 f x bs -> goes_on k k' m f x bs.
Proof.
  intros [_ _ Hcpu Hfd] Hp Hh Hc Hu Hm Ho.
  assert (Ef : kfiles k' = kfiles k2) by (unfold kfiles; by rewrite Hh).
  split; [by exists c'|done| | |].
  - rewrite <- Hm. unfold kmm. by rewrite Ef, Hu, Hcpu.
  - by rewrite Ef, Hfd.
  - destruct Ho as (rw & d & Ho). exists rw, d. by rewrite Ef.
Qed.

Lemma u32_u32_i32 n : 0 <= n < 2 ^ 31 -> i32 (u32 n) = n /\ u32 n = n.
Proof. intros H. rewrite u32_small by lia. by rewrite i32_small by lia. Qed.

Lemma read_call k c fd f x bs buf size : in_program k c -> fd_open k fd f -> fits 32 fd -> kopen k f x bs ->
  Z.land (f_flags x) 1 = 1 -> 0 <= f_pos x -> f_pos x + size <= Z.of_nat (length bs) < 2 ^ 30 ->
  fits 32 buf -> 0 < size -> buf + size <= 0xC0000000 -> memory k buf (buf + size) -> writable (kmm k) buf (buf + size) ->
  let out := aread (f_pos x) size bs in
  exists k' m, Lib.read B fd buf size k = Done size k' /\
    user_store buf out (kmm k) = Done tt m /\ goes_on k k' m f (set_f_pos (f_pos x + size) x) bs.
Proof.
  intros Hk Hfd Hf32 Ho Hfl Hp Hlen Hbuf Hs Htop Hm Hwr out.
  assert (Hout : length out = Z.to_nat size) by (unfold out, aread; rewrite length_take, length_drop, u32_small by lia; lia).
  set (tf := enter SYS_read fd buf size 0 0 (t_tf c)). set (k1 := entered tf c k).
  destruct (check_run k1 buf size true
    (t ← task_curr; '(r, o) ← in_vfs B (sys_read t fd size); in_mm (user_store buf o) ;; SYSCALL_RETURN r) (memory_entered tf c k _ _ Hm) Hbuf Hs Htop)
    as (k2 & M2 & Q2 & O2 & E2).
  destruct (vfs_read_run k2 fd f x bs size (quiet_fd _ _ _ _ Q2 Hfd) (O2 _ _ _ Ho) Hfl ltac:(lia)) as (k3 & E3 & M3 & Q3 & O3).
  cbv zeta in E3, O3. fold out in E3, O3. rewrite Hout, Z2Nat.id in E3, O3 by lia.
  destruct (user_store_win buf (buf + size) (kmm k3) buf out) as (m & Em & Fm & _).
  { rewrite M3, M2. exact (me_win _ _ _ Hm). }
  { lia. }
  { lia. }
  { rewrite M3, M2. eapply writable_sub; [exact Hwr|lia|lia]. }
  destruct (in_mm_quiet (user_store buf out) k3 tt m Em) as (k4 & E4 & M4 & Q4 & O4).
  { destruct Fm as [fr ->]. exact (kmm_cpu k3). }
  assert (Q : quiet k1 k4) by (eapply quiet_trans; [exact Q2|]; by eapply quiet_trans).
  assert (Hrun : run_syscall B (sys_fn_user Uread) k1 = SYSCALL_RETURN size k4).
  { cbn [run_syscall run_user_call UserCalls_files UserCalls_lib kernel_calls user_calls]. unfold u_read. go (entered_tf tf c k Hk). cbv zeta.
    change (get_param1 tf) with (u32 fd). change (get_param2 tf) with (u32 buf). change (get_param3 tf) with (u32 size).
    rewrite !u32_small by (unfold fits in *; lia).
    etransitivity; [exact E2|]. go (task_curr_run k2). go E3. by go E4. }
  destruct (syscall_returns k c SYS_read fd buf size 0 0 (sys_fn_user Uread) size k4 Hk ltac:(in_table) Hrun Q) as (c' & k' & Ek & Hp' & Hh & Hcu & Hcp).
  destruct (u32_u32_i32 size ltac:(lia)) as [Hi Hu].
  exists k', m. split_and!.
  - unfold Lib.read, unsigned, _syscall3. rewrite (bind_done _ _ _ _ _ Ek), Hi. unfold mret, M_ret. by rewrite Hu.
  - rewrite M3, M2 in Em. exact Em.
  - eapply goes_on_intro; [exact Q|exact Hp'|exact Hh|exact Hcu|exact Hcp|exact M4|exact (O4 _ _ _ O3)].
Qed.

Lemma write_call k c fd f x bs buf data : in_program k c -> fd_open k fd f -> fits 32 fd -> kopen k f x bs ->
  let size := Z.of_nat (length data) in
  Z.land (f_flags x) 2 = 2 -> 0 <= f_pos x -> f_pos x + size <= Z.of_nat (length bs) < 2 ^ 30 ->
  fits 32 buf -> 0 < size -> buf + size <= 0xC0000000 -> memory k buf (buf + size) ->
  user_bytes (length data) buf (kmm k) = Done data (kmm k) ->
  exists k', Lib.write B fd buf size k = Done size k' /\
    goes_on k k' (kmm k) f (set_f_pos (f_pos x + size) x) (awrite (f_pos x) data bs).
Proof.
  intros Hk Hfd Hf32 Ho size Hfl Hp Hlen Hbuf Hs Htop Hm Hdata.
  set (tf := enter SYS_write fd buf size 0 0 (t_tf c)). set (k1 := entered tf c k).
  destruct (check_run k1 buf size true
    (t ← task_curr; o ← in_mm (user_bytes (Z.to_nat size) buf); r ← in_vfs B (sys_write t fd o); SYSCALL_RETURN r)
    (memory_entered tf c k _ _ Hm) Hbuf Hs Htop) as (k2 & M2 & Q2 & O2 & E2).
  destruct (in_mm_quiet (user_bytes (length data) buf) k2 data (kmm k)) as (k3 & E3 & M3 & Q3 & O3).
  { rewrite M2. exact Hdata. }
  { rewrite (qt_cpu _ _ Q2). exact (kmm_cpu k). }
  destruct (vfs_write_run k3 fd f x bs data (quiet_fd _ _ _ _ (quiet_trans _ _ _ Q2 Q3) Hfd) (O3 _ _ _ (O2 _ _ _ Ho)) Hfl Hp Hlen)
    as (k4 & E4 & M4 & Q4 & O4). fold size in E4, O4.
  assert (Q : quiet k1 k4) by (eapply quiet_trans; [exact Q2|]; by eapply quiet_trans).
  assert (Hrun : run_syscall B (sys_fn_user Uwrite) k1 = SYSCALL_RETURN size k4).
  { cbn [run_syscall run_user_call UserCalls_files UserCalls_lib kernel_calls user_calls]. unfold u_write. go (entered_tf tf c k Hk). cbv zeta.
    change (get_param1 tf) with (u32 fd). change (get_param2 tf) with (u32 buf). change (get_param3 tf) with (u32 size).
    rewrite !u32_small by (unfold fits in *; lia).
    etransitivity; [exact E2|]. go (task_curr_run k2). unfold size. rewrite Nat2Z.id. go E3.
    rewrite <- (qt_curr _ _ Q3). by go E4. }
  destruct (syscall_returns k c SYS_write fd buf size 0 0 (sys_fn_user Uwrite) size k4 Hk ltac:(in_table) Hrun Q) as (c' & k' & Ek & Hp' & Hh & Hcu & Hcp).
  destruct (u32_u32_i32 size ltac:(lia)) as [Hi Hu].
  exists k'. split.
  - unfold Lib.write, unsigned, _syscall3. rewrite (bind_done _ _ _ _ _ Ek), Hi. unfold mret, M_ret. by rewrite Hu.
  - eapply goes_on_intro; [exact Q|exact Hp'|exact Hh|exact Hcu|exact Hcp|rewrite M4; exact M3|exact O4].
Qed.

Lemma seek_call k c fd f x bs pos : in_program k c -> fd_open k fd f -> fd < 32 -> kopen k f x bs -> 0 <= pos < 2 ^ 31 ->
  exists k', Newlib.lseek B fd pos 0 k = Done 0 k' /\ goes_on k k' (kmm k) f (set_f_pos pos x) bs.
Proof.
  intros Hk Hfd Hlt Ho Hpos. assert (H0 : 0 <= fd) by (destruct Hfd as (? & _ & _ & ?); lia).
  set (tf := enter SYS_lseek fd pos 0 0 0 (t_tf c)). set (k1 := entered tf c k).
  destruct (vfs_seek_run k1 fd f x bs pos Hfd Hlt Ho) as (k2 & E2 & M2 & Q2 & O2).
  assert (Hrun : run_syscall B (sys_fn_user Ulseek) k1 = SYSCALL_RETURN 0 k2).
  { cbn [run_syscall run_user_call UserCalls_files UserCalls_lib kernel_calls user_calls]. unfold u_lseek. go (entered_tf tf c k Hk).
    go (task_curr_run k1). change (get_param1 tf) with (u32 fd). change (get_param2 tf) with (u32 pos). change (get_param3 tf) with 0.
    rewrite !u32_small by lia. rewrite !i32_small by lia. by go E2. }
  destruct (syscall_returns k c SYS_lseek fd pos 0 0 0 (sys_fn_user Ulseek) 0 k2 Hk ltac:(in_table) Hrun Q2) as (c' & k' & Ek & Hp' & Hh & Hcu & Hcp).
  exists k'. split; [exact Ek|].
  eapply goes_on_intro; [exact Q2|exact Hp'|exact Hh|exact Hcu|exact Hcp|exact M2|exact O2].
Qed.

Lemma goes_on_memory k k' m f x bs lo hi : goes_on k k' m f x bs -> frames_only (kmm k) m -> memory k lo hi -> memory k' lo hi.
Proof. intros [_ Hc Hm _ _] F. apply memory_frames; [exact Hc|]. by rewrite Hm. Qed.
Lemma goes_on_fd k k' m f x bs fd g : goes_on k k' m f x bs -> fd_open k fd g -> fd_open k' fd g.
Proof. intros [_ Hc _ Hf _] (t & Ht & Hg). exists t. by rewrite Hc, Hf. Qed.
End files.

Lemma user_bytes_fit s lo hi n a : window s lo hi -> lo <= a -> a + Z.of_nat n <= hi ->
  exists bs, user_bytes n a s = Done bs s /\ length bs = n /\ Forall (fits 8) bs.
Proof.
  intros W H1 H2. eexists. split; [by apply (user_bytes_win lo hi)|]. split.
  - rewrite length_fmap, length_seqZ. lia.
  - apply Forall_fmap, Forall_forall. intros i _. cbn. unfold ub. destruct (uloc s (a + i)); [apply byte_of_range|done].
Qed.

(** * Properties *)

(** C12. What a program writes to a file it reads back. A program with an open regular
    file that it may read and write, and two mapped buffers (which may overlap), the second of which can be stored to: write
    of the first buffer at the file's position, lseek back to it and read into the
    second buffer transfer all bytes, after which the second buffer holds what the
    first one held, the file holds it too, and no other byte of memory has changed. *)
Theorem program_reads_what_it_wrote {D} `{!Ports D} (B : build) (k : kern (sys D)) c fd f x bs src dst n :
  in_program k c -> fd_open k fd f -> fd < 32 -> kopen k f x bs -> Z.land (f_flags x) 3 = 3 ->
  0 <= f_pos x -> f_pos x + n <= Z.of_nat (length bs) < 2 ^ 30 -> 0 < n ->
  fits 32 src -> src + n <= 0xC0000000 -> memory k src (src + n) ->
  fits 32 dst -> dst + n <= 0xC0000000 -> memory k dst (dst + n) -> writable (kmm k) dst (dst + n) ->
  exists data k',
    user_bytes (Z.to_nat n) src (kmm k) = Done data (kmm k) /\
    (w ← Lib.write B fd src n; s ← Newlib.lseek B fd (f_pos x) 0; r ← Lib.read B fd dst n; mret (w, s, r)) k = Done (n, 0, n) k' /\
    user_bytes (Z.to_nat n) dst (kmm k') = Done data (kmm k') /\
    kopen k' f (set_f_pos (f_pos x + n) x) (awrite (f_pos x) data bs) /\
    forall l, 0 <= l.2 -> (forall a, dst <= a < dst + n -> uloc (kmm k) a <> Some l) -> memb (kmm k') l = memb (kmm k) l.
Proof.
  intros Hk Hfd Hlt Ho Hfl Hp Hlen Hn Hs Hs3 Hms Hd Hd3 Hmd Hwr.
  assert (Hfd32 : fits 32 fd) by (destruct Hfd as (? & _ & _ & ?); unfold fits; lia).
  assert (F1 : Z.land (f_flags x) 1 = 1) by (apply (f_equal (fun z => Z.land z 1)) in Hfl; by rewrite <- Z.land_assoc in Hfl).
  assert (F2 : Z.land (f_flags x) 2 = 2) by (apply (f_equal (fun z => Z.land z 2)) in Hfl; by rewrite <- Z.land_assoc in Hfl).
  destruct (user_bytes_fit (kmm k) src (src + n) (Z.to_nat n) src (me_win _ _ _ Hms)) as (data & Hdata & Hl & Hbs); [lia|lia|].
  assert (En : Z.of_nat (length data) = n) by lia.
  destruct (write_call B k c fd f x bs src data) as (k1 & E1 & G1); rewrite ?En, ?Hl; try assumption.
  rewrite En in E1, G1. pose proof G1 as [(c1 & P1) C1 M1 T1 O1].
  assert (R0 : frames_only (kmm k) (kmm k)) by reflexivity.
  destruct (seek_call B k1 c1 fd f _ _ (f_pos x) P1 (goes_on_fd _ _ _ _ _ _ _ _ G1 Hfd) Hlt O1 ltac:(lia)) as (k2 & E2 & G2).
  pose proof G2 as [(c2 & P2) C2 M2 T2 O2]. rewrite M1 in M2.
  assert (R1 : frames_only (kmm k1) (kmm k1)) by reflexivity.
  destruct (read_call B k2 c2 fd f _ _ dst n P2 (goes_on_fd _ _ _ _ _ _ _ _ G2 (goes_on_fd _ _ _ _ _ _ _ _ G1 Hfd)) Hfd32 O2)
    as (k3 & m & E3 & Em & G3); cbn [f_flags f_pos set_f_pos]; rewrite ?length_awrite; try assumption.
  { apply (goes_on_memory _ _ _ _ _ _ _ _ G2 R1), (goes_on_memory _ _ _ _ _ _ _ _ G1 R0), Hmd. }
  { rewrite M2. exact Hwr. }
  cbn [f_pos set_f_pos] in Em, G3.
  assert (Er : aread (f_pos x) n (awrite (f_pos x) data bs) = data) by (rewrite <- En; apply aread_awrite; lia).
  rewrite Er, M2 in Em. destruct G3 as [_ _ M3 _ O3].
  destruct (user_store_win dst (dst + n) (kmm k) dst data (me_win _ _ _ Hmd)) as (m' & Em' & Fm & Um & Lm); [lia|lia|by rewrite En|].
  rewrite Em in Em'. injection Em' as <-.
  exists data, k3. split_and!; [exact Hdata| | |exact O3|].
  - rewrite (bind_done _ _ _ _ _ E1), (bind_done _ _ _ _ _ E2), (bind_done _ _ _ _ _ E3). done.
  - rewrite M3, (user_bytes_win dst (dst + n) m (Z.to_nat n) dst (window_frames _ _ _ _ Fm (me_win _ _ _ Hmd))) by lia.
    f_equal. rewrite <- Hl. apply (stored_bytes dst (dst + n) (kmm k)); (done || lia).
  - intros l H0 Hno. rewrite M3. apply Lm; [exact H0|]. by rewrite En.
Qed.

(** ** Witness *)

Lemma walkable_cpu c s : walkable s -> walkable (set_cpu c s).
Proof. by destruct s. Qed.

(** A range inside one mapped page. *)
Lemma page_window s p q lo hi : utrans s (p * 0x1000) = Some q -> 0 <= p < 2 ^ 20 -> p * 0x1000 <= lo -> hi <= (p + 1) * 0x1000 ->
  window s lo hi.
Proof.
  intros Ht Hp Hlo Hhi.
  assert (Hd : forall a, lo <= a < hi -> a / 0x1000 = p).
  { intros a Ha. symmetry. apply (Z.div_unique a 0x1000 p (a - p * 0x1000)); lia. }
  split; [lia| |].
  - intros a Ha. exists q. rewrite <- Ht. apply utrans_page; [unfold fits; lia..|]. rewrite (Hd a Ha).
    symmetry. apply Z.div_mul. lia.
  - intros a b r Ha Hb _ _. by rewrite (Hd a Ha), (Hd b Hb).
Qed.

Lemma demo_reader_memory lo hi : 0x1000 <= lo -> hi <= 0x2000 -> memory demo_reader lo hi.
Proof.
  intros H1 H2. assert (E : exists q, utrans demo_user (1 * 0x1000) = Some q) by (eexists; vm_compute; reflexivity).
  destruct E as [q E]. split.
  - apply walkable_cpu, walkable_frames, demo_user_walkable.
  - vm_compute. reflexivity.
  - apply (page_window _ 1 q); [|lia|lia|lia].
    transitivity (utrans demo_user (1 * 0x1000)); [vm_compute; reflexivity|exact E].
Qed.

Lemma demo_reader_writable lo hi : 0x1000 <= lo -> hi <= 0x2000 -> writable (kmm demo_reader) lo hi.
Proof.
  intros H1 H2 a Ha. rewrite (can_store_page _ a 0x1000).
  - vm_compute. reflexivity.
  - unfold fits. lia.
  - unfold fits. lia.
  - symmetry. apply (Z.div_unique a 0x1000 1 (a - 0x1000)); lia.
Qed.

Lemma program_reads_what_it_wrote_witness :
  exists data k', user_bytes 5 0x1ffb (kmm demo_reader) = Done data (kmm demo_reader) /\
    (w ← Lib.write demo_build 3 0x1ffb 5; s ← Newlib.lseek demo_build 3 80 0; r ← Lib.read demo_build 3 0x1800 5; mret (w, s, r)) demo_reader =
      Done (5, 0, 5) k' /\
    user_bytes 5 0x1800 (kmm k') = Done data (kmm k').
Proof.
  destruct (program_reads_what_it_wrote demo_build demo_reader demo_reader_task 3 0x700 (mkFile denemefs_file_op 0x600 80 3) (replicate 90 7)
              0x1ffb 0x1800 5) as (data & k' & H1 & H2 & H3 & _).
  - split; vm_compute; reflexivity.
  - eexists. split; [vm_compute; reflexivity|]. split; [vm_compute; reflexivity|cbn; lia].
  - lia.
  - exists (1, 1), (mkDi (mkMode 1 1 0 FT_regular) 1 90 0 0x500), (mkInode 0 1 (Some denemefs_file_inode_op) (mkMode 1 1 0 FT_regular) 0 0 90 0 []).
    split_and!; vm_compute; reflexivity || (split_and!; reflexivity).
  - reflexivity.
  - cbn. lia.
  - cbn. lia.
  - lia.
  - unfold fits. lia.
  - lia.
  - apply demo_reader_memory; lia.
  - unfold fits. lia.
  - lia.
  - apply demo_reader_memory; lia.
  - apply demo_reader_writable; lia.
  - exists data, k'. split; [exact H1|]. split; [exact H2|exact H3].
Defined.
