(* ===== verification/BrkProps.v ===== *)
(** The break of a program: sys_brk (kernel/syscall.cpp) and the two sbrk of the
    libraries. The new pages lie in page tables that the directory has. *)

From S2P Require Import Prelude Spinlock ListSpec IdHash Util Fs DenemeFs Vfs VfsFile VfsProps Cga CgaProps PhysMem VirtMem VirtRefs VirtMap VirtProps UserMem Kmalloc.
From S2P Require Import FsHeap Task Sched SchedProps Console ConsoleProps Ipc Process Syscall Trap TrapProps System Exec ExecProps Lib Newlib LibProps LibFiles.

#[local] Ltac go H := rewrite (bind_done _ _ _ _ _ H).

(** * The pages of the heap *)

Lemma PUW_present : Z.testbit (Z.lor PTE_P (Z.lor PTE_U PTE_W)) 0 = true.
Proof. done. Qed.

Section pages.
Context (base d : Z) (s0 : mm) (lo : Z) (N : Z).
Implicit Types s : mm.

Definition pg (k : Z) : Z := lo + k * 0x1000.

(** [N] unmapped pages from [lo] on, below 3 GB, in tables that are there. *)
Record heap_room : Prop := {
  hr_range : 0 <= lo /\ lo + N * 0x1000 <= 0xC0000000 /\ 0 <= N;
  hr_loc : forall k, 0 <= k < N -> exists l, loc_of s0 d (pg k) = Some l /\ present (pte_at (ptes s0) l) = false;
  hr_inj : forall j k l, 0 <= j < N -> 0 <= k < N -> loc_of s0 d (pg j) = Some l -> loc_of s0 d (pg k) = Some l -> j = k;
}.

(** [s] is [s0] with the first [n] pages mapped. *)
Record grew s (n : Z) : Prop := {
  gr_ok : mm_ok base s;
  gr_loaded : loaded s = loaded s0;
  gr_cpu : cpu_equiv (cpu_of s) (cpu_of s0);
  gr_tmp : tmp_table s = tmp_table s0;
  gr_locs : forall d' va l, loc_of s0 d' va = Some l -> loc_of s d' va = Some l;
  gr_in : forall k l, 0 <= k < n -> loc_of s0 d (pg k) = Some l ->
    present (pte_at (ptes s) l) = true /\ base <= phys_page (pte_at (ptes s) l);
  gr_above : forall k l, n <= k < N -> loc_of s0 d (pg k) = Some l -> present (pte_at (ptes s) l) = false;
  gr_out : forall l, tmp_table s0 <> Some l.1 -> (forall k, 0 <= k < N -> loc_of s0 d (pg k) <> Some l) ->
    pte_at (ptes s) l = pte_at (ptes s0) l;
}.

Context (R : heap_room) (O0 : mm_ok base s0).

Lemma pg_user k : 0 <= k < N -> 0 <= pg k < 0xC0000000.
Proof. destruct (hr_range R). unfold pg. lia. Qed.

Lemma pg_loc k : 0 <= k < N -> exists l, loc_of s0 d (pg k) = Some l /\ tmp_table s0 <> Some l.1.
Proof.
  intros Hk. destruct (hr_loc R k Hk) as (l & Hl & _). exists l. split; [done|]. intros Ht.
  destruct (loc_of_table base _ _ _ _ O0 Hl) as (_ & _ & Hx). by apply (user_va (pg k) (pg_user k Hk)), Hx.
Qed.

Lemma grew_0 : grew s0 0.
Proof.
  split; try done.
  - intros k l Hk Hl. lia.
  - intros k l Hk Hl. destruct (hr_loc R k ltac:(lia)) as (l' & Hl' & Hp). by simplify_eq.
Qed.

Lemma grew_tabs s n k : grew s n -> 0 <= k < N -> exists ts, tabs_of s d = Some ts.
Proof. intros G Hk. destruct (pg_loc k Hk) as (l & Hl & _). by eapply loc_of_tabs, (gr_locs _ _ G). Qed.

(** One more page. *)
Lemma grow_step s n pm : grew s n -> 0 <= n < N -> Z.testbit pm 0 = true ->
  exists z s', page_alloc_insert d (pg n) pm s = Done z s' /\ (z = - ENOMEM /\ grew s' n \/ z = 1 /\ grew s' (n + 1)).
Proof.
  intros G Hn Hpm. destruct (grew_tabs s n n G Hn) as [ts Ht]. destruct (user_va (pg n) (pg_user n Hn)) as [Hacc Hx].
  destruct (pg_loc n Hn) as (ln & Hln & Hnt). pose proof (gr_locs _ _ G _ _ _ Hln) as Hln'.
  destruct (page_alloc_insert_run base s d (pg n) pm ts (gr_ok _ _ G) Ht Hpm Hacc Hx) as (z & s' & E & O' & Hc & Hcase).
  { intros l Hl. rewrite Hln' in Hl. injection Hl as <-. apply (gr_above _ _ G n ln); [lia|done]. }
  pose proof (keeps_done _ _ _ _ _ (keeps_page_alloc_insert d (pg n) pm) E) as Hcr.
  exists z, s'. split; [done|]. destruct Hcase as [(-> & Sm & He)|(-> & p & Hb & Hnr & l & Hl & Hpte & Hlocs & Hoth & Hu & _)]; [left|right]; (split; [done|]).
  - destruct G as [G1 G2 G3 G4 G5 G6 G7 G8]. split; rewrite ?He; try done.
    + congruence.
    + by rewrite Hc.
    + by rewrite (same_maps_tmp _ _ Sm).
    + intros d' va l Hl. rewrite (same_maps_loc _ _ _ _ Sm). by apply G5.
  - assert (l = ln) as -> by (pose proof (Hlocs _ _ _ Hln'); congruence).
    destruct G as [G1 G2 G3 G4 G5 G6 G7 G8]. split; try done.
    + congruence.
    + by rewrite Hc.
    + destruct (mo_tmp _ _ O0) as (K & HK & _). rewrite HK. rewrite HK in G4.
      pose proof (Hlocs _ _ _ (loc_tmp s 0 K G4 ltac:(lia))) as H0. unfold loc_of, tmp_table in *.
      destruct (tabs_of s' KDIR) as [ts'|]; [|done]. cbn in H0 |- *. destruct (tmp_va_arith 0 ltac:(lia)) as (Hp0 & _).
      rewrite Hp0 in H0. destruct (table_at ts' TMPX); cbn in H0; congruence.
    + intros d' va l Hl'. by apply Hlocs, G5.
    + intros k l Hk Hlk. destruct (decide (k = n)) as [->|Hne].
      * simplify_eq. rewrite Hpte. pose proof (frame_range base s' p _ O' Hb (proj1 Hu)) as Hpr.
        split; [by rewrite PTE_t_present|by rewrite PTE_t_page].
      * rewrite Hoth; [by apply (G6 k); [lia|]| |].
        -- intros ->. apply Hne, (hr_inj R k n ln); (done || lia).
        -- rewrite G4. destruct (pg_loc k ltac:(lia)) as (l2 & Hl2 & ?). by simplify_eq.
    + intros k l Hk Hlk. rewrite Hoth; [by apply (G7 k); [lia|]| |].
      * intros ->. assert (k = n) by (apply (hr_inj R k n ln); (done || lia)). lia.
      * rewrite G4. destruct (pg_loc k ltac:(lia)) as (l2 & Hl2 & ?). by simplify_eq.
    + intros l Hlt Hno. rewrite Hoth; [by apply G8| |by rewrite G4]. intros ->. by apply (Hno n Hn).
Qed.

Lemma grew_cpu_set s n c : grew s n -> cpu_equiv c (cpu_of s) -> grew (set_cpu c s) n.
Proof.
  intros [G1 G2 G3 G4 G5 G6 G7 G8] Hc. split; try done.
  - destruct (mm_cpu _ _ G1) as [Hok HIF]. by apply (mm_ok_equiv base s c (cpu_of s)).
  - change (cpu_of (set_cpu c s)) with c. by rewrite Hc.
Qed.

(** One page less. *)
Lemma shrink_step s n : grew s (n + 1) -> 0 <= n < N ->
  exists r s', page_remove d (pg n) true s = Done r s' /\ 0 <= r /\ grew s' n.
Proof.
  intros G Hn. destruct (pg_loc n Hn) as (ln & Hln & Hnt). pose proof (gr_locs _ _ G _ _ _ Hln) as Hln'.
  destruct (gr_in _ _ G n ln ltac:(lia) Hln) as [Hp Hb]. destruct (user_va (pg n) (pg_user n Hn)) as [Hacc _].
  destruct (page_remove_run base s d (pg n) true ln (gr_ok _ _ G) Hln' Hp Hb Hacc) as (s' & E & O' & Sm & He & _ & Hr & Hc).
  pose proof (keeps_done _ _ _ _ _ (keeps_page_remove d (pg n) true) E) as Hcr.
  assert (Hat : forall l, l <> ln -> pte_at (ptes s') l = pte_at (ptes s) l).
  { intros l Hne. rewrite He. unfold pte_at. by rewrite lookup_insert_ne. }
  assert (Hat0 : present (pte_at (ptes s') ln) = false) by (rewrite He; unfold pte_at; by rewrite lookup_insert_eq).
  eexists _, s'. split; [exact E|]. split; [lia|].
  destruct G as [G1 G2 G3 G4 G5 G6 G7 G8]. split; try done.
  - congruence.
  - by rewrite Hc.
  - by rewrite (same_maps_tmp _ _ Sm).
  - intros d' va l Hl. rewrite (same_maps_loc _ _ _ _ Sm). by apply G5.
  - intros k l Hk Hlk. rewrite Hat; [by apply (G6 k); [lia|]|]. intros ->.
    assert (k = n) by (apply (hr_inj R k n ln); (done || lia)). lia.
  - intros k l Hk Hlk. destruct (decide (l = ln)) as [->|Hne]; [done|]. rewrite Hat by done.
    apply (G7 k); [|done]. destruct (decide (k = n)) as [->|]; [|lia]. congruence.
  - intros l Hlt Hno. rewrite Hat; [by apply G8|]. intros ->. by apply (Hno n Hn).
Qed.

Lemma pg_uaddr k : 0 <= k < N -> uaddr2va (pg k) = pg k.
Proof. intros Hk. apply uaddr2va_id. pose proof (pg_user k Hk). unfold fits. lia. Qed.

Lemma grow_loop m s n : grew s n -> 0 <= n -> N = n + Z.of_nat m -> forall pm, Z.testbit pm 0 = true ->
  let f i := (r ← page_alloc_insert d (uaddr2va i) pm; mret (if r <? 0 then Some i else None)) in
  (exists s', iter_until f (range_step (pg n) (pg N) 0x1000) s = Done None s' /\ grew s' N) \/
  (exists k s', n <= k < N /\ iter_until f (range_step (pg n) (pg N) 0x1000) s = Done (Some (pg k)) s' /\ grew s' k).
Proof.
  intros G Hn Hm pm Hpm f.
  assert (Hf : forall k s z s1, 0 <= k < N -> page_alloc_insert d (pg k) pm s = Done z s1 ->
    f (pg k) s = Done (if z <? 0 then Some (pg k) else None) s1).
  { intros k s' z s1 Hk E. unfold f. rewrite pg_uaddr by done. by go E. }
  revert s n G Hn Hm. induction m as [|m IH]; intros s n G Hn Hm.
  - left. exists s. assert (n = N) as -> by lia. rewrite range_step_nil by lia. done.
  - rewrite range_step_cons by (unfold pg; lia). replace (pg n + 0x1000) with (pg (n + 1)) by (unfold pg; lia). cbn [iter_until].
    destruct (grow_step s n pm G ltac:(lia) Hpm) as (z & s1 & E & [[-> G1]|[-> G1]]).
    + right. exists n, s1. split; [lia|]. split; [|done]. by go (Hf n s _ s1 ltac:(lia) E).
    + destruct (IH s1 (n + 1) G1 ltac:(lia) ltac:(lia)) as [(s2 & E2 & G2)|(k & s2 & Hk & E2 & G2)].
      * left. exists s2. split; [|done]. go (Hf n s _ s1 ltac:(lia) E). exact E2.
      * right. exists k, s2. split; [lia|]. split; [|done]. go (Hf n s _ s1 ltac:(lia) E). exact E2.
Qed.

(** The pages from the [n]-th down to [e], which lies on the page in front of [lo]. *)
Lemma shrink_loop strict e n s fuel : grew s (Z.of_nat n) -> Z.of_nat n <= N -> lo - 0x1000 < e <= lo -> 0x1000 <= lo -> (n < fuel)%nat ->
  exists s', brk_shrink fuel strict d (pg (Z.of_nat n - 1)) e s = Done tt s' /\ grew s' 0.
Proof.
  intros G Hn He Hlo. revert s fuel G Hn. induction n as [|n IH]; intros s fuel G Hn Hf; (destruct fuel as [|fuel]; [lia|]); cbn [brk_shrink].
  - rewrite (proj2 (Z.ltb_lt _ _)) by (unfold pg; lia). by exists s.
  - replace (Z.of_nat (S n) - 1) with (Z.of_nat n) by lia. rewrite (proj2 (Z.ltb_ge _ _)) by (unfold pg; lia).
    destruct (shrink_step s (Z.of_nat n)) as (r & s1 & E & Hr & G1); [by replace (Z.of_nat n + 1) with (Z.of_nat (S n)) by lia|lia|].
    destruct (IH s1 fuel G1 ltac:(lia) ltac:(lia)) as (s2 & E2 & G2).
    exists s2. split; [|done]. rewrite pg_uaddr by lia. go E. rewrite (proj2 (Z.ltb_lt (-1) r)) by lia. rewrite orb_true_r.
    pose proof (pg_user (Z.of_nat n) ltac:(lia)). rewrite u32_small by (unfold pg in *; lia).
    replace (pg (Z.of_nat n) - 0x1000) with (pg (Z.of_nat n - 1)) by (unfold pg; lia). exact E2.
Qed.

(** sys_brk's loops: all pages, or none. *)
Lemma brk_grow_cases e pm : Z.testbit pm 0 = true -> lo - 0x1000 < e <= lo -> 0x1000 <= lo ->
  let f i := (r ← page_alloc_insert d (uaddr2va i) pm; mret (if r <? 0 then Some i else None)) in
  (exists s', iter_until f (range_step lo (pg N) 0x1000) s0 = Done None s' /\ grew s' N) \/
  (exists p s1 s', iter_until f (range_step lo (pg N) 0x1000) s0 = Done (Some p) s1 /\
     brk_shrink (brk_fuel p e) false d p e s1 = Done tt s' /\ grew s' 0).
Proof.
  intros Hpm He Hlo f. destruct (hr_range R) as (H0 & H1 & H2). assert (E0 : pg 0 = lo) by (unfold pg; lia).
  destruct (grow_loop (Z.to_nat N) s0 0 grew_0 ltac:(lia) ltac:(lia) pm Hpm) as [(s' & E & G)|(k & s1 & Hk & E & G)]; rewrite E0 in E; [left; by exists s'|right].
  destruct (grew_tabs s1 k k G ltac:(lia)) as [ts Ht]. destruct (pg_loc k ltac:(lia)) as (l & Hl & _).
  destruct (page_remove_absent base s1 d (pg k) ts (gr_ok _ _ G) Ht) as (c & Er & Hc).
  { intros l' Hl'. rewrite (gr_locs _ _ G _ _ _ Hl) in Hl'. injection Hl' as <-. apply (gr_above _ _ G k l); [lia|done]. }
  pose proof (grew_cpu_set s1 k c G Hc) as G1. pose proof (pg_user k ltac:(lia)) as Hu.
  assert (Hfuel : k <= (pg k - e) / 0x1000) by (apply Z.div_le_lower_bound; [lia|unfold pg; lia]).
  destruct (shrink_loop false e (Z.to_nat k) (set_cpu c s1) (Nat.pred (brk_fuel (pg k) e))) as (s' & E' & G'); try done.
  { by rewrite Z2Nat.id by lia. }
  { lia. }
  { unfold brk_fuel. lia. }
  exists (pg k), s1, s'. split; [exact E|]. split; [|done].
  destruct (brk_fuel (pg k) e) as [|fuel] eqn:Ef; [unfold brk_fuel in Ef; lia|]. cbn [brk_shrink].
  rewrite (proj2 (Z.ltb_ge _ _)) by (unfold pg; lia). rewrite pg_uaddr by lia. go Er.
  change (negb false || _) with true. rewrite u32_small by (unfold pg in *; lia).
  replace (pg k - 0x1000) with (pg (k - 1)) by (unfold pg; lia). rewrite Z2Nat.id in E' by lia. exact E'.
Qed.

(** ** Translations *)

Context (Hd : cr3_dir s0 = d) (Hal : lo mod 0x1000 = 0).

Lemma grew_utrans s n a p : grew s n -> 0 <= a < 0xC0000000 -> utrans s0 a = Some p -> utrans s a = Some p.
Proof.
  intros G Ha. unfold utrans. rewrite uaddr2va_id by (unfold fits; lia). rewrite (loaded_cr3 _ _ (gr_loaded _ _ G)).
  destruct (loc_of s0 (cr3_dir s0) a) as [l|] eqn:El; [|done]. cbn [mbind option_bind].
  rewrite (gr_locs _ _ G _ _ _ El). cbn [mbind option_bind].
  destruct (loc_of_table base _ _ _ _ O0 El) as (_ & _ & Hx). pose proof (gr_locs _ _ G _ _ _ El) as El'.
  destruct (loc_of_table base _ _ _ _ (gr_ok _ _ G) El') as (Ht & _). rewrite (bool_decide_true _ Ht).
  case_bool_decide as Ht0; [|done]. cbn [andb]. destruct (present (pte_at (ptes s0) l)) eqn:Hp; [|done]. intros [= <-].
  assert (E : pte_at (ptes s) l = pte_at (ptes s0) l); [|by rewrite E, Hp].
  apply (gr_out _ _ G).
  - intros Htmp. by apply (user_va a Ha), Hx.
  - intros k Hk Hl. destruct (hr_loc R k Hk) as (l' & Hl' & Hp'). simplify_eq. congruence.
Qed.

Lemma in_page a : lo <= a < pg N -> exists k, 0 <= k < N /\ a / 0x1000 = pg k / 0x1000.
Proof.
  intros Ha. exists ((a - lo) / 0x1000). unfold pg in *.
  assert (H : 0 <= (a - lo) / 0x1000 < N) by (split; [apply Z.div_pos; lia|apply Z.div_lt_upper_bound; lia]).
  split; [done|]. pose proof (Z.div_mod lo 0x1000 ltac:(lia)) as El. rewrite Hal in El. set (q := lo / 0x1000) in *.
  replace (lo + (a - lo) / 0x1000 * 0x1000) with ((q + (a - lo) / 0x1000) * 0x1000) by lia. rewrite Z.div_mul by lia.
  replace a with (a - lo + q * 0x1000) at 1 by lia. rewrite Z.div_add by lia. lia.
Qed.

Lemma grew_page s n k : grew s n -> 0 <= k < N -> is_Some (utrans s (pg k)) <-> present (pte_at (ptes s) (default (0, 0) (loc_of s0 d (pg k)))) = true.
Proof.
  intros G Hk. unfold utrans. rewrite pg_uaddr by done. rewrite (loaded_cr3 _ _ (gr_loaded _ _ G)), Hd.
  destruct (pg_loc k Hk) as (l & Hl & _). rewrite Hl. cbn [default from_option id]. pose proof (gr_locs _ _ G _ _ _ Hl) as Hl'. rewrite Hl'.
  cbn [mbind option_bind]. destruct (loc_of_table base _ _ _ _ (gr_ok _ _ G) Hl') as (Ht & _). rewrite (bool_decide_true _ Ht). cbn [andb].
  unfold id. destruct (present (pte_at (ptes s) l)); by split.
Qed.

Lemma page_utrans s a k : lo <= a < pg N -> 0 <= k < N -> a / 0x1000 = pg k / 0x1000 -> utrans s a = utrans s (pg k).
Proof. intros Ha Hk. pose proof (pg_user k Hk). destruct (hr_range R) as (? & ? & ?). unfold pg in *. apply utrans_page; unfold fits; lia. Qed.

Lemma grew_mapped s : grew s N -> mapped s lo (pg N).
Proof.
  intros G a Ha. destruct (in_page a Ha) as (k & Hk & Ek). rewrite (page_utrans s a k Ha Hk Ek). apply (grew_page s N k G Hk).
  destruct (pg_loc k Hk) as (l & Hl & _). rewrite Hl. by apply (gr_in _ _ G k).
Qed.

Lemma grew_unmapped s a : grew s 0 -> lo <= a < pg N -> utrans s a = None.
Proof.
  intros G Ha. destruct (in_page a Ha) as (k & Hk & Ek). rewrite (page_utrans s a k Ha Hk Ek).
  destruct (utrans s (pg k)) eqn:Eu; [|done]. assert (Hs : is_Some (utrans s (pg k))) by by rewrite Eu.
  apply (grew_page s 0 k G Hk) in Hs. destruct (pg_loc k Hk) as (l & Hl & _). rewrite Hl in Hs. cbn [default from_option] in Hs.
  pose proof (gr_above _ _ G k l ltac:(lia) Hl). unfold id in Hs. congruence.
Qed.
End pages.

(** * sys_brk *)

Section brk.
Context {D : Type} `{!Ports D} (B : build).
Notation K := (kern (sys D)).
#[local] Instance KernEnv_brk : KernEnv (sys D) := KernEnv_lib B.
#[local] Instance UserCalls_brk : UserCalls (sys D) := UserCalls_lib B.
Implicit Types k : K.

(** The memory behind cli(). *)
Definition masked_cpu (c : Cpu) : Cpu := mkCpu false (n_cli c) (before_pushcli c).
Definition masked k : mm := set_cpu (masked_cpu (k_cpu k)) (kmm k).

Lemma kmm_set_cpu c k : kmm (set_k_cpu c k) = set_cpu c (kmm k).
Proof. done. Qed.
Lemma utrans_cpu c s a : utrans (set_cpu c s) a = utrans s a.
Proof. done. Qed.

(** What follows the reading of the breaks. *)
Definition brk_rest (t brk : Z) (eflags : bool) (i : PageDirInfo) : M K unit :=
  let d := pgdir_of t in
  if brk <? start_brk i then eflags_load eflags ;; SYSCALL_RETURN (end_brk i) else
  bad ← (if end_brk i <? brk then in_mm (brk_grow d (roundUp (end_brk i)) (roundUp brk))
         else
           let p := u32 (roundUp (end_brk i) - 0x1000) in
           in_mm (brk_shrink (brk_fuel p (roundUp brk)) true d p (roundUp brk)) ;; mret None);
  match bad with
  | None => in_mm (dir_wr d (set_end_brk brk)) ;; eflags_load eflags ;; SYSCALL_RETURN brk
  | Some p => in_mm (brk_shrink (brk_fuel p (end_brk i)) false d p (end_brk i)) ;; SYSCALL_RETURN 0
  end.

Lemma sys_brk_start k c a i : in_program k c -> fits 32 a -> dirs (kmm k) !! pgdir_of (k_curr k) = Some i ->
  let tf := enter SYS_brk a 0 0 0 0 (t_tf c) in
  exists k1, Syscall.sys_brk (entered tf c k) = brk_rest (k_curr k) a true i k1 /\
    kmm k1 = masked k /\ k_tasks k1 = k_tasks (entered tf c k) /\ k_curr k1 = k_curr k /\ k_cpu k1 = masked_cpu (k_cpu k).
Proof.
  intros Hk Ha Hi tf. set (ke := entered tf c k). set (k0 := set_k_cpu (masked_cpu (k_cpu k)) ke).
  destruct (in_mm_run B (dir_rd (pgdir_of (k_curr k))) k0 i (kmm k0)) as (k1 & E & Hm & Ht & Hc & Hu & _).
  { by apply dir_rd_run. }
  exists k1. split; [|split_and!; [by rewrite Hm|done|done|]].
  - unfold Syscall.sys_brk. go (task_curr_run ke). go (entered_tf tf c k Hk). change (get_param1 tf) with (u32 a). rewrite u32_small by exact Ha.
    assert (Ee : eflags_read ke = Done true ke) by (unfold eflags_read, gets; cbn; by rewrite (ip_if _ _ Hk)). go Ee.
    assert (Ec : (cli : M K unit) ke = Done tt k0) by done. go Ec.
    assert (Ed : curr_dir k0 = Done i k1) by (unfold curr_dir; by go (task_curr_run k0)). go Ed. reflexivity.
  - rewrite Hu. apply (kmm_cpu k0).
Qed.

(** What the call has left behind is what the program sees. *)
Lemma brk_back k c a v k2 s : in_program k c -> let tf := enter SYS_brk a 0 0 0 0 (t_tf c) in
  Syscall.sys_brk (entered tf c k) = SYSCALL_RETURN v k2 -> k_tasks k2 = k_tasks (entered tf c k) -> k_curr k2 = k_curr k ->
  kmm k2 = s -> n_cli (cpu_of s) = 0 ->
  exists c' k', syscall B SYS_brk a 0 0 0 0 k = Done (i32 (u32 v)) k' /\ in_program k' c' /\ k_curr k' = k_curr k /\
    k_cpu k' = running_cpu (cpu_of s) /\ kmm k' = set_cpu (running_cpu (cpu_of s)) s.
Proof.
  intros Hk tf E Ht Hc Hs Hn. pose proof (kmm_cpu k2) as Hu. rewrite Hs in Hu. rewrite Hu in Hn |- *.
  destruct (syscall_back B k c SYS_brk a 0 0 0 0 sys_fn_brk v k2 Hk ltac:(in_table) E Ht Hc Hn) as (c' & k' & E' & Hp & Hh & Hc' & Hu').
  exists c', k'. split_and!; [done..|]. unfold kmm at 1, kfiles. rewrite Hh, Hu', <- Hs. reflexivity.
Qed.

Lemma eflags_load_run b k : eflags_load b k = Done tt (set_k_cpu (mkCpu b (n_cli (k_cpu k)) (before_pushcli (k_cpu k))) k).
Proof. done. Qed.

(** Below the start of the heap: the break, nothing else. *)
Lemma brk_low k c a i : in_program k c -> fits 32 a -> dirs (kmm k) !! pgdir_of (k_curr k) = Some i -> a < start_brk i ->
  exists c' k', syscall B SYS_brk a 0 0 0 0 k = Done (i32 (u32 (end_brk i))) k' /\ in_program k' c' /\ k_curr k' = k_curr k /\
    kmm k' = kmm k /\ k_cpu k' = k_cpu k.
Proof.
  intros Hk Ha Hi Hlt. destruct (sys_brk_start k c a i Hk Ha Hi) as (k1 & E & Hm & Ht & Hc & Hu). cbv zeta in E, Ht.
  unfold brk_rest in E. rewrite (proj2 (Z.ltb_lt _ _) Hlt) in E. rewrite (bind_done _ _ _ _ _ (eflags_load_run true k1)) in E.
  set (k2 := set_k_cpu _ k1) in E.
  assert (Hk2 : k_cpu k2 = k_cpu k).
  { unfold k2. cbn. rewrite Hu. pose proof (ip_if _ _ Hk) as Hif. destruct (k_cpu k). cbn in *. by subst. }
  assert (Hm2 : kmm k2 = kmm k).
  { unfold k2. rewrite kmm_set_cpu, Hm. change (set_cpu (k_cpu k2) (kmm k) = kmm k). rewrite Hk2, <- kmm_cpu. by destruct (kmm k) as [[]]. }
  destruct (brk_back k c a (end_brk i) k2 (kmm k) Hk E Ht Hc Hm2) as (c' & k' & E' & Hp & Hc' & Hu' & Hm').
  { rewrite kmm_cpu. apply (ip_cli _ _ Hk). }
  assert (Hr : running_cpu (cpu_of (kmm k)) = k_cpu k).
  { rewrite kmm_cpu. pose proof (ip_if _ _ Hk) as Hif. destruct (k_cpu k). cbn in *. by subst. }
  exists c', k'. rewrite Hr in Hu', Hm'. split_and!; [done..| |done]. rewrite Hm', <- kmm_cpu. by destruct (kmm k) as [[]].
Qed.

(** ** The new break *)

Notation brk_set d v := (dir_upd d (set_end_brk v)).

(** The program goes on, with everything it had, and the break at [e]. *)
Record moved (base : Z) k k' (e : Z) : Prop := {
  mv_program : exists c, in_program k' c;
  mv_curr : k_curr k' = k_curr k;
  mv_ok : mm_ok base (masked k');
  mv_breaks : forall i, dirs (kmm k) !! pgdir_of (k_curr k) = Some i ->
    exists i', dirs (kmm k') !! pgdir_of (k_curr k) = Some i' /\ start_brk i' = start_brk i /\ end_brk i' = e;
  mv_trans : forall a p, 0 <= a < 0xC0000000 -> utrans (kmm k) a = Some p -> utrans (kmm k') a = Some p;
  mv_frames : frames (kmm k') = frames (kmm k);
}.

Section growth.
Context (k : K) (c : Task) (base : Z) (i : PageDirInfo) (a : Z).
Let d := pgdir_of (k_curr k).
Let lo := roundUp (end_brk i).
Let N := (roundUp a - lo) / 0x1000.
Context (Hk : in_program k c) (Hi : dirs (kmm k) !! d = Some i) (Hd : cr3_dir (kmm k) = d) (O : mm_ok base (masked k)).
Context (Hb : 0 < start_brk i <= end_brk i) (Ha : end_brk i < a) (Ht : a <= 0xC0000000).
Context (R : heap_room d (masked k) lo N).

Lemma growth_arith : fits 32 a /\ lo - 0x1000 < end_brk i <= lo /\ 0x1000 <= lo /\ lo mod 0x1000 = 0 /\ pg lo N = roundUp a /\ 0 <= lo.
Proof.
  assert (E : forall x, 0 < x <= 0xC0000000 -> exists q, roundUp x = 4096 * q /\ x <= 4096 * q < x + 4096).
  { intros x Hx. exists ((x + 4095) / 4096). rewrite roundUp_spec by (unfold fits; lia).
    pose proof (Z.div_mod (x + 4095) 4096 ltac:(lia)). pose proof (Z.mod_pos_bound (x + 4095) 4096 ltac:(lia)). lia. }
  destruct (E (end_brk i) ltac:(lia)) as (q & Eq & Hq), (E a ltac:(lia)) as (r & Er & Hr).
  unfold N, pg, fits. unfold lo in *. rewrite Eq, Er.
  replace (4096 * r - 4096 * q) with ((r - q) * 0x1000) by lia. rewrite Z.div_mul by lia.
  rewrite (Z.mul_comm 4096 q), Z.mod_mul by lia. lia.
Qed.

Lemma masked_cpu_id (s : mm) : IF (cpu_of s) = false -> masked_cpu (running_cpu (cpu_of s)) = cpu_of s.
Proof. by destruct (cpu_of s); cbn; intros ->. Qed.

(** The program behind the loops. *)
Lemma grew_moved (s : mm) n v c' k' (set : bool) : grew base d (masked k) lo N s n -> in_program k' c' -> k_curr k' = k_curr k ->
  let s1 := if set then brk_set d v s else s in
  k_cpu k' = running_cpu (cpu_of s1) -> kmm k' = set_cpu (running_cpu (cpu_of s1)) s1 ->
  moved base k k' (if set then v else end_brk i) /\ forall a, utrans (kmm k') a = utrans s a.
Proof.
  intros G Hp Hc s1 Hu Hm.
  pose proof (gr_ok _ _ _ _ _ _ _ G) as O1. destruct (loaded_breaks _ _ _ _ (gr_loaded _ _ _ _ _ _ _ G) Hi) as (i' & Hi' & Hs & He).
  assert (O2 : mm_ok base s1) by (unfold s1; destruct set; [by apply dir_upd_ok|done]).
  assert (Tr : forall a, utrans (kmm k') a = utrans s a).
  { intros b. rewrite Hm, utrans_cpu. unfold s1. destruct set; [by apply dir_upd_utrans|done]. }
  split; [|exact Tr]. destruct (mm_cpu _ _ O2) as [Hok HIF]. split.
  - by exists c'.
  - done.
  - unfold masked. rewrite Hm, Hu. rewrite (masked_cpu_id _ HIF).
    change (mm_ok base (set_cpu (cpu_of s1) s1)). by apply mm_ok_equiv with (cpu_of s1).
  - intros j Hj. fold d in Hj |- *. assert (j = i) as -> by congruence. rewrite Hm. change (dirs (set_cpu _ s1)) with (dirs s1).
    unfold s1. destruct set; [|by exists i']. unfold dir_upd. rewrite Hi'. cbn [dirs set_dirs].
    rewrite lookup_insert_eq. by exists (set_end_brk v i').
  - intros b p Hbr Hbp. rewrite Tr. eapply (grew_utrans base d (masked k) lo N R O); [exact G|exact Hbr|].
    exact Hbp.
  - rewrite Hm. change (frames (set_cpu _ s1)) with (frames s1). rewrite <- (loaded_frames _ _ (gr_loaded _ _ _ _ _ _ _ G) : frames s = frames (kmm k)).
    unfold s1. destruct set; [apply dir_upd_rest|done].
Qed.

(** The break above the heap: the new pages are there, or nothing has changed. *)
Lemma brk_high : exists k',
  (syscall B SYS_brk a 0 0 0 0 k = Done (i32 (u32 a)) k' /\ moved base k k' a /\ mapped (kmm k') lo (roundUp a)) \/
  (syscall B SYS_brk a 0 0 0 0 k = Done 0 k' /\ moved base k k' (end_brk i) /\ forall b, lo <= b < roundUp a -> utrans (kmm k') b = None).
Proof.
  pose proof growth_arith as (Hfa & Hlo & Hl & Hal & Hpg & Hl0).
  destruct (sys_brk_start k c a i Hk Hfa Hi) as (k1 & E & Hm & Hts & Hc & Hu). cbv zeta in E, Hts.
  unfold brk_rest in E. fold d lo in E. rewrite (proj2 (Z.ltb_ge a (start_brk i))) in E by lia. rewrite (proj2 (Z.ltb_lt (end_brk i) a)) in E by lia.
  assert (Hn0 : forall s n, grew base d (masked k) lo N s n -> n_cli (cpu_of s) = 0).
  { intros s n G. destruct (gr_cpu _ _ _ _ _ _ _ G) as (_ & -> & _). exact (ip_cli _ _ Hk). }
  destruct (brk_grow_cases base d (masked k) lo N R O (end_brk i) (Z.lor PTE_P (Z.lor PTE_U PTE_W)) PUW_present Hlo Hl)
    as [(s' & El & G)|(p & s1 & s' & El & Es & G)]; rewrite Hpg in El.
  - destruct (in_mm_run B (brk_grow d lo (roundUp a)) k1 None s') as (k2 & E2 & Hm2 & Ht2 & Hc2 & Hu2 & _); [by rewrite Hm|].
    rewrite (bind_done _ _ _ _ _ E2) in E.
    destruct (loaded_breaks _ _ _ _ (gr_loaded _ _ _ _ _ _ _ G) Hi) as (i' & Hi' & _).
    destruct (in_mm_run B (dir_wr d (set_end_brk a)) k2 tt (brk_set d a s')) as (k3 & E3 & Hm3 & Ht3 & Hc3 & Hu3 & _).
    { rewrite Hm2. unfold dir_upd. rewrite Hi'. by apply dir_wr_run. }
    rewrite (bind_done _ _ _ _ _ E3) in E. rewrite (bind_done _ _ _ _ _ (eflags_load_run true k3)) in E. set (k4 := set_k_cpu _ k3) in E.
    assert (Hm4 : kmm k4 = set_cpu (running_cpu (cpu_of (brk_set d a s'))) (brk_set d a s')).
    { unfold k4. rewrite kmm_set_cpu, Hm3. by rewrite Hu3. }
    destruct (brk_back k c a a k4 (set_cpu (running_cpu (cpu_of (brk_set d a s'))) (brk_set d a s')) Hk E) as (c' & k' & E' & Hp & Hc' & Hu' & Hm'); [transitivity (k_tasks k3); [done|congruence]|transitivity (k_curr k3); [done|congruence]|exact Hm4| |].
    { change (n_cli (cpu_of (brk_set d a s')) = 0). destruct (dir_upd_rest d (set_end_brk a) s') as (_ & _ & _ & _ & _ & _ & ->). by apply (Hn0 s' N). }
    destruct (grew_moved s' N a c' k' true G Hp Hc') as [Mv Tr]; [exact Hu'|exact Hm'|].
    exists k'. left. split_and!; [done..|]. intros b Hbr. rewrite Tr. rewrite <- Hpg in Hbr.
    by apply (grew_mapped base d (masked k) lo N R O Hd Hal s').
  - destruct (in_mm_run B (brk_grow d lo (roundUp a)) k1 (Some p) s1) as (k2 & E2 & Hm2 & Ht2 & Hc2 & Hu2 & _); [by rewrite Hm|].
    rewrite (bind_done _ _ _ _ _ E2) in E.
    destruct (in_mm_run B (brk_shrink (brk_fuel p (end_brk i)) false d p (end_brk i)) k2 tt s') as (k3 & E3 & Hm3 & Ht3 & Hc3 & Hu3 & _); [by rewrite Hm2|].
    rewrite (bind_done _ _ _ _ _ E3) in E.
    destruct (brk_back k c a 0 k3 s' Hk E) as (c' & k' & E' & Hp & Hc' & Hu' & Hm'); [congruence|congruence|exact Hm3|by apply (Hn0 s' 0)|].
    destruct (grew_moved s' 0 0 c' k' false G Hp Hc') as [Mv Tr]; [exact Hu'|exact Hm'|].
    exists k'. right. split_and!; [done..|]. intros b Hbr. rewrite Tr. rewrite <- Hpg in Hbr.
    by apply (grew_unmapped base d (masked k) lo N R O Hd Hal s').
Qed.
End growth.
End brk.

Lemma moved_from {D} `{!Ports D} base (k k1 k' : kern (sys D)) e :
  kmm k1 = kmm k -> k_curr k1 = k_curr k -> moved base k1 k' e -> moved base k k' e.
Proof.
  intros Em Ec [H1 H2 H3 H4 H5 H6]. split; [done|congruence|done|..].
  - intros i. rewrite <- Em, <- Ec. apply H4.
  - intros a p. rewrite <- Em. apply H5.
  - by rewrite <- Em.
Qed.

Lemma unsigned_run {D} (m : M (kern (sys D)) Z) k z k' : m k = Done (i32 (u32 z)) k' -> fits 32 z -> unsigned m k = Done z k'.
Proof.
  intros E Hz. unfold unsigned. rewrite (bind_done _ _ _ _ _ E). unfold mret, M_ret. f_equal.
  by rewrite (u32_small _ Hz), u32_i32, u32_small.
Qed.

(** * Property *)

(** C13. A program grows its heap. sbrk of an increment, by the library's system calls and
    the kernel's page tables, with the new pages in page tables that the directory has,
    either maps every page between the old break and the new one and moves the break, or, when memory runs out on the way, takes back the pages
    it had mapped and leaves the break. In both cases the program runs on with what it
    had: every page that was mapped leads to the frame it led to and no byte of any frame has
    changed, and the memory is one on which sbrk can be called again. lib/syscall.cpp's
    sbrk returns the new break, or 0 on failure; newlib's returns the old break, or -1. *)
Theorem sbrk_grows {D} `{!Ports D} (B : build) (k : kern (sys D)) c base i inc :
  let d := pgdir_of (k_curr k) in let e := end_brk i in
  let lo := roundUp e in let hi := roundUp (e + inc) in
  in_program k c -> dirs (kmm k) !! d = Some i -> cr3_dir (kmm k) = d -> mm_ok base (masked k) ->
  0 < start_brk i <= e -> 0 < inc -> e + inc <= 0xC0000000 -> heap_room d (masked k) lo ((hi - lo) / 0x1000) ->
  exists k',
    (Lib.sbrk B inc k = Done (e + inc) k' /\ Newlib.sbrk B inc k = Done e k' /\
     moved base k k' (e + inc) /\ mapped (kmm k') lo hi) \/
    (Lib.sbrk B inc k = Done 0 k' /\ Newlib.sbrk B inc k = Done (2 ^ 32 - 1) k' /\
     moved base k k' e /\ forall a, lo <= a < hi -> utrans (kmm k') a = None).
Proof.
  intros d e lo hi Hk Hi Hd O Hb Hinc Htop R.
  destruct (brk_low B k c 0 i Hk) as (c1 & k1 & E1 & Hk1 & Ec & Em & Eu); [unfold fits; lia|done|lia|].
  assert (F1 : fits 32 (end_brk i)) by (unfold fits; fold e; lia).
  pose proof (unsigned_run _ _ _ _ E1 F1) as U1. fold e in U1.
  assert (Ea : u32 (e + inc) = e + inc) by (apply u32_small; lia).
  assert (Emk : masked k1 = masked k) by (unfold masked; by rewrite Em, Eu).
  destruct (brk_high B k1 c1 base i (e + inc) Hk1) as (k' & [(E2 & Mv & Mp)|(E2 & Mv & Un)]);
    rewrite ?Em, ?Ec, ?Emk; try done; try (fold e; lia); exists k'; [left|right].
  - pose proof (unsigned_run _ _ _ _ E2 ltac:(unfold fits; lia)) as U2. split_and!; [..|by apply moved_from with k1|done].
    + unfold Lib.sbrk. rewrite (bind_done _ _ _ _ _ U1), Ea. exact U2.
    + unfold Newlib.sbrk. rewrite (bind_done _ _ _ _ _ U1), Ea, (bind_done _ _ _ _ _ U2). by rewrite Z.eqb_refl.
  - pose proof (unsigned_run _ _ 0 _ E2 ltac:(unfold fits; lia)) as U2. split_and!; [..|by apply moved_from with k1|done].
    + unfold Lib.sbrk. rewrite (bind_done _ _ _ _ _ U1), Ea. exact U2.
    + unfold Newlib.sbrk. rewrite (bind_done _ _ _ _ _ U1), Ea, (bind_done _ _ _ _ _ U2).
      by rewrite (proj2 (Z.eqb_neq 0 (e + inc))) by lia.
Qed.

(** ** Witness

    Directory 1 with one page and, behind it, a heap of no byte; two frames are free. *)

Definition demo_break_mm : mm :=
  dir_upd 1 (fun i => mkDir (pgdir_pa i) (pgdir i) (pgtables i) (count_user i) (count_kernel i) (count_stack i)
    (count_program i) (count_shared i) 0x2000 0x2000) demo_user.
Definition demo_break : kern (sys pc) := demo_program demo_break_mm.

Lemma demo_break_ok : mm_ok 5 (masked demo_break).
Proof.
  assert (E : masked demo_break = set_cpu (mkCpu false 0 false) demo_break_mm) by (vm_compute; reflexivity). rewrite E.
  apply mm_ok_cpu; [|by split|done]. apply dir_upd_ok; [by intros []|exact demo_user_ok].
Qed.

Lemma demo_break_room : heap_room 1 (masked demo_break) 0x2000 2.
Proof.
  split; [lia| |].
  - intros k Hk. assert (Ek : k = 0 \/ k = 1) by lia. destruct Ek as [-> | ->]; eexists; split; vm_compute; reflexivity.
  - assert (Hne : bool_decide (loc_of (masked demo_break) 1 (pg 0x2000 0) = loc_of (masked demo_break) 1 (pg 0x2000 1)) = false)
      by (vm_compute; reflexivity).
    apply bool_decide_eq_false in Hne. intros j k l Hj Hk Ej El. rewrite <- El in Ej.
    destruct (decide (j = 0)) as [->|Hj0], (decide (k = 0)) as [->|Hk0]; [reflexivity|..|lia]; exfalso; apply Hne.
    + by replace k with 1 in Ej by lia.
    + by replace j with 1 in Ej by lia.
Qed.

(** Of 0x1800 bytes: two pages. *)
Lemma sbrk_grows_witness : exists k',
  Lib.sbrk demo_build 0x1800 demo_break = Done 0x3800 k' /\ Newlib.sbrk demo_build 0x1800 demo_break = Done 0x2000 k' /\
  mapped (kmm k') 0x2000 0x4000.
Proof.
  assert (Hi : exists i, dirs (kmm demo_break) !! 1 = Some i /\ start_brk i = 0x2000 /\ end_brk i = 0x2000) by (eexists; vm_compute; done).
  destruct Hi as (i & Hi & Hs & He).
  destruct (sbrk_grows demo_build demo_break demo_reader_task 5 i 0x1800) as (k' & [(E1 & E2 & _ & M)|(E1 & _)]); rewrite ?Hs, ?He.
  - apply demo_in_program.
  - exact Hi.
  - vm_compute. reflexivity.
  - exact demo_break_ok.
  - lia.
  - lia.
  - lia.
  - exact demo_break_room.
  - exists k'. rewrite He in *. exact (conj E1 (conj E2 M)).
  - exfalso. assert (H0 : (if Lib.sbrk demo_build 0x1800 demo_break is Done z _ then z else 0) = 0x3800) by (vm_compute; reflexivity).
    rewrite E1 in H0. discriminate.
Defined.
