(* ===== verification/User.v ===== *)
(** Programs (user_programs/) as interaction trees, and the machine that runs them.

    A program is a tree of what it does to the world outside of its registers: int $0x80,
    reads and writes of its memory, exceptions. A pointer is a number; where the compiler
    and the linker put literals, variables and functions is the interface [Link].

    The library of the programs (lib/) is given here from the program's side, as trees;
    UserProps proves that it is the library of Lib. [machine] is the kernel with the
    programs of its tasks: an event of the running program, an interrupt or the return
    of a function is a step, every trap goes through trap_handler, and what runs next is
    what the kernel left in the trap frame of the task it came back to. *)

From S2P Require Import Prelude Spinlock ListSpec IdHash Util Vsprintf Fs DenemeFs Vfs VfsFile Cga PhysMem VirtMem UserMem Descr Kmalloc.
From S2P Require Import FsHeap Task Sched Console Ipc Process Syscall Trap System Exec Lib.
From ITree Require ITree.
Import ITree.Core.ITreeDefinition.

(** * Definitions *)

Definition T_DIVIDE : Z := 0.
Definition T_PGFLT : Z := 14.

(** ** Programs *)

(** int $0x80 with its registers, and eax behind it; memory; the stack pointer at the
    entry of the running function; an exception of the processor; an end of the model's
    run, where what the program does is not defined. *)
Variant userE : Type -> Type :=
| Int80 (num a1 a2 a3 a4 a5 : Z) : userE Z
| Fetch (n : nat) (a : Z) : userE (list Z)
| Store (a : Z) (bs : list Z) : userE unit
| Esp : userE Z
| Raise (trapno cr2 : Z) : userE Empty_set
| Crash (f : fault) : userE Empty_set.

Notation prog := (itree userE).
#[export] Instance prog_ret : MRet prog := fun A a => Ret a.
#[export] Instance prog_bind : MBind prog := fun A B k t => ITree.bind t k.

Definition do_ {A} (e : userE A) : prog A := ITree.trigger e.

(** for (;;): the body returns the next state of the loop, or its result. *)
Definition loop {A R} (body : A -> prog (A + R)) (a : A) : prog R := ITree.iter body a.
(** while (1); *)
Definition spin {R} : prog R := ITree.spin.

(** for (i = lo; i < hi; i++) *)
Definition for_range (lo hi : Z) (body : Z -> prog unit) : prog unit :=
  loop (fun i => if i <? hi then body i ;; mret (inl (i + 1)) else mret (inr tt)) lo.

Definition raise {R} (trapno cr2 : Z) : prog R := e ← do_ (Raise trapno cr2); match e : Empty_set with end.
Definition crash {R} (f : fault) : prog R := e ← do_ (Crash f); match e : Empty_set with end.

(** Where a program's string literals, variables and functions are. *)
Class Link := {
  lit : cstr -> Z;
  static : string -> Z;
  func : string -> Z;
}.

(** ** Memory *)

Definition load8 (a : Z) : prog Z := bs ← do_ (Fetch 1 (u32 a)); mret (default 0 (head bs)).
Definition store8 (a v : Z) : prog unit := do_ (Store (u32 a) [u8 v]).
(** A short. *)
Definition load16 (a : Z) : prog Z :=
  bs ← do_ (Fetch 2 (u32 a)); let w := word_of bs in mret (if w <? 2 ^ 15 then w else w - 2 ^ 16).
Definition load (a : Z) : prog Z := bs ← do_ (Fetch 4 (u32 a)); mret (word_of bs).
Definition store (a v : Z) : prog unit := do_ (Store (u32 a) (bytes_of 4 v)).

(** The string at [a], as the functions of the standard library read it. *)
Definition load_str (a : Z) : prog cstr :=
  loop (fun s => c ← load8 (a + Z.of_nat (length s));
                 if c =? 0 then mret (inr s) else mret (inl (s ++ [c]))) [].

(** string.h *)
Definition strlen (s : Z) : prog Z := l ← load_str s; mret (Z.of_nat (length l)).
Definition strcmp (p q : Z) : prog Z :=
  loop (fun i => a ← load8 (p + i); b ← load8 (q + i);
                 if negb (a =? b) then mret (inr (a - b))
                 else if a =? 0 then mret (inr 0) else mret (inl (i + 1))) 0.
Definition strncmp (p q n : Z) : prog Z :=
  loop (fun i => if n <=? i then mret (inr 0) else
                 a ← load8 (p + i); b ← load8 (q + i);
                 if negb (a =? b) then mret (inr (a - b))
                 else if a =? 0 then mret (inr 0) else mret (inl (i + 1))) 0.
Definition strcpy (d s : Z) : prog unit :=
  loop (fun i => c ← load8 (s + i); store8 (d + i) c ;;
                 if c =? 0 then mret (inr tt) else mret (inl (i + 1))) 0.
Definition strcat (d s : Z) : prog unit := n ← strlen d; strcpy (d + n) s.
Definition memset (d c n : Z) : prog unit := for_range 0 n (fun i => store8 (d + i) c).

(** ** The library (lib/syscall.cpp, lib/lib.cpp, lib/stdio.c) *)

Definition syscall (num a1 a2 a3 a4 a5 : Z) : prog Z := do_ (Int80 num a1 a2 a3 a4 a5).
Definition unsigned (m : prog Z) : prog Z := r ← m; mret (u32 r).

Definition getpid : prog Z := syscall SYS_getpid 0 0 0 0 0.
Definition exit (error_no : Z) : prog Z := syscall SYS_exit error_no 0 0 0 0.
Definition fork : prog Z := syscall SYS_fork 0 0 0 0 0.
Definition wait (status : Z) : prog Z := syscall SYS_wait status 0 0 0 0.
Definition signal (signum fn : Z) : prog Z := unsigned (syscall SYS_signal signum fn 0 0 0).
Definition alarm (seconds : Z) : prog Z := unsigned (syscall SYS_alarm seconds 0 0 0 0).
Definition kill (pid sig : Z) : prog Z := syscall SYS_kill pid sig 0 0 0.
Definition pause : prog Z := syscall SYS_pause 0 0 0 0 0.
Definition ipc (ipc_no a1 a2 a3 a4 : Z) : prog Z := syscall SYS_ipc ipc_no a1 a2 a3 a4.
Definition sleep (seconds : Z) : prog Z := syscall SYS_sleep seconds 0 0 0 0.
Definition open (filename flags mode : Z) : prog Z := syscall SYS_open filename flags mode 0 0.
Definition close (fd : Z) : prog Z := syscall SYS_close fd 0 0 0 0.
Definition read (fd buf size : Z) : prog Z := unsigned (syscall SYS_read fd buf size 0 0).
Definition write (fd buf size : Z) : prog Z := unsigned (syscall SYS_write fd buf size 0 0).
Definition chdir (path : Z) : prog Z := syscall SYS_chdir path 0 0 0 0.
Definition getcwd (buf size : Z) : prog Z := unsigned (syscall SYS_getcwd buf size 0 0 0).
Definition stat (path buf : Z) : prog Z := syscall SYS_stat path buf 0 0 0.
Definition execve (path argv : Z) : prog Z := syscall SYS_execve path argv 0 0 0.
Definition mkdir (pathname mode : Z) : prog Z := syscall SYS_mkdir pathname mode 0 0 0.
Definition rmdir (pathname : Z) : prog Z := syscall SYS_rmdir pathname 0 0 0 0.
Definition creat (pathname mode : Z) : prog Z := syscall SYS_creat pathname mode 0 0 0.
Definition unlink (pathname : Z) : prog Z := syscall SYS_unlink pathname 0 0 0 0.

Definition brk (addr : Z) : prog Z :=
  new_brk ← unsigned (syscall SYS_brk addr 0 0 0 0);
  if negb (new_brk =? addr) then mret (-1) else mret 0.
Definition sbrk (increment : Z) : prog Z :=
  brk ← unsigned (syscall SYS_brk 0 0 0 0 0);
  unsigned (syscall SYS_brk (u32 (brk + increment)) 0 0 0 0).

Definition sys_cputs (s len : Z) : prog unit := _ ← syscall SYS_cputs s len 0 0 0; mret tt.
Definition sys_cgetc : prog Z :=
  loop (fun _ : unit => c ← syscall SYS_cgetc 0 0 0 0 0;
                        if c =? 0 then mret (inl tt) else mret (inr c)) tt.
Definition sys_yield : prog unit := _ ← syscall SYS_yield 0 0 0 0 0; mret tt.
Definition sys_dongu : prog unit := _ ← syscall SYS_dongu 0 0 0 0 0; mret tt.

Definition shmget (key size shmflg : Z) : prog Z := ipc SHMGET key size shmflg 0.
Definition shmat (shmid shmaddr shmflg : Z) : prog Z := unsigned (ipc SHMAT shmid shmaddr shmflg 0).
Definition shmdt (shmaddr : Z) : prog Z := ipc SHMDT shmaddr 0 0 0.
Definition sem_init (sem pshared value : Z) : prog Z := ipc SEMGET sem pshared value 0.
Definition sem_wait (sem : Z) : prog Z := ipc SEMWAIT sem 0 0 0.
Definition sem_trywait (sem : Z) : prog Z := ipc SEMOP sem 0 0 0.
Definition sem_post (sem : Z) : prog Z := ipc SEMPOST sem 0 0 0.
Definition sem_getvalue (sem val : Z) : prog Z := ipc SEMGETVAL sem 0 0 0.

Section library.
Context {L : Link}.

Definition readdir (dirp : Z) : prog Z :=
  i ← load (static "dirents_i");
  store (static "dirents_i") (u32 (i + 1)) ;;
  let dirent := u32 (static "dirents" + sizeof_dirent_user * (i mod 16)) in
  r ← syscall SYS_readdir dirp dirent 0 0 0;
  if r <? 0 then
    i ← load (static "dirents_i"); store (static "dirents_i") (u32 (i - 1)) ;; mret NULL
  else mret dirent.

Definition opendir (path : Z) : prog Z :=
  i ← load (static "dirs_i");
  store (static "dirs_i") (u32 (i + 1)) ;;
  let dirp := u32 (static "dirs" + sizeof_DIR * (i mod 16)) in
  fd ← open path 1 0;
  store dirp (u32 fd) ;;
  dd_fd ← load dirp;
  if i32 dd_fd <? 0 then
    i ← load (static "dirs_i"); store (static "dirs_i") (u32 (i - 1)) ;; mret NULL
  else mret dirp.

Definition closedir (dirp : Z) : prog Z :=
  dd_fd ← load dirp;
  r ← close dd_fd;
  if r <? 0 then mret r else mret 0.

(** The text goes to a buffer of 1024 bytes. *)
Definition printf_buf : Z := static "printf.buf".
Definition printf (fmt : string) (args : list va_value) : prog Z :=
  match vsprintf (c_str fmt) args with
  | VsDone o =>
      do_ (Store printf_buf (vs_text o ++ [0])) ;;
      sys_cputs printf_buf (-1) ;;
      mret (Z.of_nat (length (vs_text o)))
  | VsUndefined => crash BadAccess
  | VsOutOfFuel => crash OutOfFuel
  end.
Definition getchar : prog Z := sys_cgetc.
Definition putchar (c : Z) : prog unit := _ ← printf "%c" [VInt c]; mret tt.
End library.

(** ** The access of a program to memory *)

(** The processor's check of a page in user mode: the entries of the directory and of the
    table are present, for users, and for a write writable. *)
Definition user_entry (w : bool) (e : Z) : bool :=
  present e && negb (Z.land e PTE_U =? 0) && (negb w || negb (Z.land e PTE_W =? 0)).
Definition user_page (s : mm) (w : bool) (ua : Z) : bool :=
  let va := uaddr2va ua in
  match dirs s !! cr3_dir s with
  | Some i =>
      let k := pgtable_of i (pdx va) in
      user_entry w (default 0 (pgdir i !! pdx va)) && bool_decide (k ∈ tables s) &&
      user_entry w (default 0 (ptes s !! (k, ptx va)))
  | None => false
  end.
(** The first of [n] addresses that faults. *)
Definition user_fault (s : mm) (w : bool) (n : nat) (ua : Z) : option Z :=
  head (filter (fun a => user_page s w a = false) ((fun i => u32 (ua + i)) <$> seqZ 0 (Z.of_nat n))).

(** ** The machine *)

(** What is suspended at a place of a task's program: it goes on with eax. *)
Record act := mkAct { a_eip : Z; a_esp : Z; a_cont : Z -> prog Z }.

Record machine (D : Type) := mkMachine {
  m_kern : kern (sys D);
  m_threads : gmap Z (list act);   (* of every task, the newest first *)
  m_cur : prog Z;                  (* what the processor runs in user mode *)
}.
Arguments mkMachine {D}. Arguments m_kern {D}. Arguments m_threads {D}. Arguments m_cur {D}.

Fixpoint find_act (eip esp : Z) (l : list act) : option (act * list act) :=
  match l with
  | [] => None
  | a :: l => if (a_eip a =? eip) && (a_esp a =? esp) then Some (a, l) else find_act eip esp l
  end.

(** The registers of a trap that is no system call, and of a return. *)
Definition trap_regs (trapno : Z) (tf : Trapframe) : Trapframe :=
  mkTf (tf_edi tf) (tf_esi tf) (tf_ebx tf) (tf_edx tf) (tf_ecx tf) (tf_eax tf) trapno 0 (tf_eip tf) (tf_cs tf) (tf_esp tf).

(** The processor goes on with its program, or a device interrupts it. *)
Inductive tick := Run | Irq (n : Z).

Section machine.
Context {D : Type} `{!Ports D} (B : build).
Notation K := (kern (sys D)).
#[local] Instance KernEnv_user : KernEnv (sys D) := KernEnv_lib B.
#[local] Instance UserCalls_user : UserCalls (sys D) := UserCalls_lib B.

(** The memory of the machine. *)
Definition memory_of (k : K) : mm := env (ke_heap (k_heap k)).

(** ** A program alone

    The run of a program whose system calls come back to it. What the machine follows
    and this does not: page faults, and execve, which comes back only with an error. *)
Definition handle {A} (e : userE A) : M K A :=
  match e with
  | Int80 num a1 a2 a3 a4 a5 =>
      r ← Lib.syscall B num a1 a2 a3 a4 a5;
      if (u32 num =? SYS_execve) && (0 <=? r) then stop Blocked else mret r
  | Fetch n a => k ← get; if user_fault (memory_of k) false n a then stop BadAccess else in_mm (user_bytes n a)
  | Store a bs => k ← get; if user_fault (memory_of k) true (length bs) a then stop BadAccess else in_mm (user_store a bs)
  | Esp => tf ← curr_tf; mret (tf_esp tf)
  | Raise _ _ => stop Blocked
  | Crash f => stop f
  end.

Fixpoint solo {R} (n : nat) (t : prog R) : M K R :=
  match n with
  | O => stop OutOfFuel
  | S n =>
      match observe t with
      | RetF r => mret r
      | TauF t => solo n t
      | VisF e c => x ← handle e; solo n (c x)
      end
  end.

(** ** All programs

    [code]: the function that starts at an address of the memory that is loaded; its
    parameters are on its stack. *)
Context (code : K -> Z -> option (Z -> prog Z)).
Notation W := (machine D).

Definition set_m_kern (k : K) (m : W) : W := mkMachine k (m_threads m) (m_cur m).
Definition on_kern {A} : M K A -> M W A := zoom m_kern set_m_kern.
Definition set_cur (t : prog Z) : M W unit := modify (fun m => mkMachine (m_kern m) (m_threads m) t).
Definition set_acts (t : Z) (l : list act) : M W unit :=
  modify (fun m => mkMachine (m_kern m) (<[t := l]> (m_threads m)) (m_cur m)).
Definition acts (t : Z) : M W (list act) := m ← get; mret (default [] (m_threads m !! t)).

(** Behind iret: the place in the trap frame is one where something of the task is
    suspended, the start of a function, or no code, and the fetch faults. *)
Definition land : M W unit :=
  t ← on_kern task_curr; tf ← on_kern curr_tf; on_kern sti ;;
  l ← acts t;
  match find_act (tf_eip tf) (tf_esp tf) l with
  | Some (a, l) => set_acts t l ;; set_cur (a_cont a (i32 (tf_eax tf)))
  | None =>
      m ← get;
      set_cur (match code (m_kern m) (tf_eip tf) with
               | Some f => f (tf_esp tf)
               | None => raise T_PGFLT (uaddr2va (tf_eip tf))
               end)
  end.

(** Tasks that were not there have a copy of what was suspended in the running one; a
    task that is not there any more has nothing. *)
Definition inherit (t : Z) (old : gmap Z Task) (m : W) : W :=
  let new := k_tasks (m_kern m) in
  mkMachine (m_kern m)
    (map_imap (fun c _ => Some (default [] (m_threads m !! (if bool_decide (is_Some (old !! c)) then c else t)))) new)
    (m_cur m).

(** execve has replaced the program: every error is negative. *)
Definition replaced (num t : Z) : M W unit :=
  t' ← on_kern task_curr; tf ← on_kern curr_tf;
  if (num =? SYS_execve) && (t' =? t) && (0 <=? i32 (tf_eax tf)) then set_acts t [] else mret tt.

(** A trap in the running program, which goes on with [c]. *)
Definition trap_from (regs : Trapframe -> Trapframe) (cr2 : Z) (c : Z -> prog Z) : M W unit :=
  t ← on_kern task_curr; tf ← on_kern curr_tf;
  l ← acts t; set_acts t (mkAct (tf_eip tf) (tf_esp tf) c :: l) ;;
  m ← get;
  on_kern (curr_wr (fun c => set_t_tf (regs (t_tf c)) c) ;;
           tf ← curr_tf; trap_handler B false cr2 tf) ;;
  modify (inherit t (k_tasks (m_kern m))) ;;
  replaced (tf_eax (regs tf)) t ;;
  land.

(** An instruction that accesses memory: it is started again behind a page fault. *)
Definition access {A} (w : bool) (n : nat) (a : Z) (m : M K A) (c : A -> prog Z) : M W unit :=
  s ← get;
  match user_fault (memory_of (m_kern s)) w n a with
  | None => x ← on_kern m; set_cur (c x)
  | Some b => trap_from (trap_regs T_PGFLT) (uaddr2va b) (fun _ => m_cur s)
  end.

Definition run_event {A} (e : userE A) (c : A -> prog Z) : M W unit :=
  match e in userE A return (A -> prog Z) -> M W unit with
  | Int80 num a1 a2 a3 a4 a5 => trap_from (enter num a1 a2 a3 a4 a5) 0
  | Fetch n a => access false n a (in_mm (user_bytes n a))
  | Store a bs => access true (length bs) a (in_mm (user_store a bs))
  | Esp => fun c => tf ← on_kern curr_tf; set_cur (c (tf_esp tf))
  | Raise trapno cr2 => fun c => s ← get; trap_from (trap_regs trapno) cr2 (fun _ => m_cur s)
  | Crash f => fun c => stop f
  end c.

(** ret: the return address is on the stack. *)
Definition return_from (v : Z) : M W unit :=
  tf ← on_kern curr_tf;
  let esp := tf_esp tf in
  s ← get;
  match user_fault (memory_of (m_kern s)) false 4 esp with
  | None =>
      w ← on_kern (in_mm (user_word esp));
      on_kern (curr_wr (fun c => set_t_tf (tf_jump w (u32 (esp + 4)) (set_return v (t_tf c))) c)) ;;
      land
  | Some b => trap_from (trap_regs T_PGFLT) (uaddr2va b) (fun _ => mret v)
  end.

Definition step (a : tick) : M W unit :=
  m ← get;
  match a with
  | Irq n => trap_from (trap_regs (IRQ_OFFSET + n)) 0 (fun _ => m_cur m)
  | Run =>
      match observe (m_cur m) with
      | RetF v => return_from v
      | TauF t => set_cur t
      | VisF e c => run_event e c
      end
  end.
Definition run (l : list tick) : M W unit := iterM step l.
End machine.
