(* ===== verification/TestFiles.v ===== *)
(** Programs on files (user_programs/test/fs.c, cat.c and include/test.h,
    user_programs/bin/file_newlib.c), and the table of tests that the main functions of
    the test programs share.

    A local array or structure is at the address of its name; its other uses are
    values. A string that is only printed is a value too. *)

From S2P Require Import Prelude Util Vsprintf System Lib User.

(** * Definitions *)

Definition as_int (m : prog Z) : prog Z := r ← m; mret (i32 r).

(** ** The main functions of the test programs *)

(** tests[]: the name, the description and the function. *)
Record test := mkTest { t_name : string; t_description : string; t_function : prog Z }.

Section main.
(** [printf]: that of the library the program is linked with. *)
Context {L : Link} (printf : string -> list va_value -> prog Z).

(** for (i = 0 ; i < TEST_COUNT ; i++) if (strcmp(argv[1], tests[i].name) == 0) *)
Fixpoint find_test (argv : Z) (tests : list test) : prog (option test) :=
  match tests with
  | [] => mret None
  | t :: tests =>
      a ← load (argv + 4);
      r ← strcmp a (lit (c_str (t_name t)));
      if r =? 0 then mret (Some t) else find_test argv tests
  end.
Fixpoint list_tests (tests : list test) : prog unit :=
  match tests with
  | [] => mret tt
  | t :: tests =>
      printf "  %s - %s\n" [VStr (c_str (t_name t)); VStr (c_str (t_description t))] ;;
      list_tests tests
  end.
Definition usage (argv : Z) (tests : list test) : prog Z :=
  a ← load argv; s ← load_str a;
  printf "%s [test]\n" [VStr s] ;;
  printf "tests:\n" [] ;;
  list_tests tests ;;
  mret (-1).

(** main of fs.c, ipctest.c, yield.c and processmemtest.cpp. *)
Definition test_main (tests : list test) (argc argv : Z) : prog Z :=
  o ← (if 1 <? argc then find_test argv tests else mret None);
  match o with
  | Some t => printf "%s:\n\n" [VStr (c_str (t_description t))] ;; t_function t
  | None => usage argv tests
  end.
(** main of signaltest.c, forktest.c and signal_newlib.c. *)
Definition named_test_main (tests : list test) (argc argv : Z) : prog Z :=
  o ← (if 1 <? argc then find_test argv tests else mret None);
  match o with
  | Some t =>
      a ← load argv; s ← load_str a;
      printf "%s: %s:\n\n" [VStr s; VStr (c_str (t_description t))] ;; t_function t
  | None => usage argv tests
  end.
End main.

(** ** include/test.h *)

(** The operator of an assertion, and its text. *)
Inductive cop := Eq | Ne | Lt | Gt | Ge.
Definition holds (op : cop) (a b : Z) : bool :=
  match op with Eq => a =? b | Ne => negb (a =? b) | Lt => a <? b | Gt => b <? a | Ge => b <=? a end.
Definition op_text (op : cop) : string :=
  match op with Eq => "==" | Ne => "!=" | Lt => "<" | Gt => ">" | Ge => ">=" end.

Section assertions.
(** [file]: what __FILE__ is; [printf] and [exit] are those of the library that the program
    includes. *)
Context (file : cstr) (printf : string -> list va_value -> prog Z) (exit : Z -> prog Z).

Definition panic_assert (line : Z) (d : string) : prog unit :=
  printf "user panic: %s:%d\n" [VStr file; VInt line] ;;
  printf "assertion failed: %s\n" [VStr (c_str d)] ;;
  _ ← exit 0; mret tt.
Definition panic_assert3 (line : Z) (c_a : string) (v_a : Z) (op c_b : string) (v_b : Z) : prog unit :=
  printf "user panic: %s:%d\n" [VStr file; VInt line] ;;
  printf "assertion failed: %s %s %s\n" [VStr (c_str c_a); VStr (c_str op); VStr (c_str c_b)] ;;
  printf "%s=%08x, %s=%08x\n" [VStr (c_str c_a); VInt (u32 v_a); VStr (c_str c_b); VInt (u32 v_b)] ;;
  _ ← exit 0; mret tt.
Definition ASSERT_ (line : Z) (b : bool) (d : string) : prog unit := if b then mret tt else panic_assert line d.
Definition ASSERT3 (line : Z) (c_a : string) (a : Z) (op : cop) (c_b : string) (b : Z) : prog unit :=
  if holds op a b then mret tt else panic_assert3 line c_a a (op_text op) c_b b.

(** The three with the value and the text of each argument. *)
Definition assertion_failed (line : Z) (c_a : string) (a : Z) (op c_b : string) (b : Z) : prog unit :=
  _ ← printf ("assertion failed! %s:%d\n  " ++ c_a ++ " (%d) " ++ op ++ " " ++ c_b ++ " (%d)\n")%string
        [VStr file; VInt line; VInt a; VInt b];
  mret tt.
Definition assertEquals (line : Z) (c_e : string) (expected : Z) (c_a : string) (actual : Z) : prog unit :=
  if negb (expected =? actual) then assertion_failed line c_e expected "==" c_a actual else mret tt.
Definition assertNotLess (line : Z) (c_v : string) (value : Z) (c_l : string) (limit : Z) : prog unit :=
  if value <? limit then assertion_failed line c_l limit "<" c_v value else mret tt.
Definition assertNotEquals (line : Z) (c_n : string) (notExpected : Z) (c_a : string) (actual : Z) : prog unit :=
  if notExpected =? actual then assertion_failed line c_n notExpected "!=" c_a actual else mret tt.

(** r = m; ASSERT3(r, op, 0) *)
Definition expect (line : Z) (m : prog Z) (op : cop) : prog unit := r ← m; ASSERT3 line "r" r op "0" 0.
End assertions.

Section programs.
Context {L : Link} (file : cstr).
Notation ASSERT_ := (ASSERT_ file printf exit).
Notation ASSERT3 := (ASSERT3 file printf exit).
Notation expect := (expect file printf exit).

(** ** fs.c *)

Definition quote : string := String (Ascii.ascii_of_nat 34) EmptyString.
Notation path s := (lit (c_str s)).
Notation say s := (printf s []).

Definition openfile : prog Z :=
  r ← open (path "dosya1") 1 0;
  printf "r %d\n" [VInt r] ;;
  r ← close r;
  printf "close r: %d\n" [VInt r] ;;
  mret 0.

(** r = read(fd, buf, 10) and what is printed of it. *)
Definition show_read (fd buf : Z) : prog unit :=
  r ← as_int (read fd buf 10);
  printf "r %d\n" [VInt r] ;;
  s ← load_str buf;
  _ ← printf "buf: %s\n" [VStr s]; mret tt.

Definition readfile (buf : Z) : prog Z :=
  say "open dosya1\n" ;;
  fd1 ← open (path "dosya1") 1 0;
  printf "fd1: %d\n" [VInt fd1] ;;
  if fd1 <? 0 then mret fd1 else
  show_read fd1 buf ;;
  say "\nopen forktest\n" ;;
  fd2 ← open (path "/bin/forktest") 1 0;
  printf "fd2: %d\n" [VInt fd2] ;;
  if fd2 <? 0 then mret fd2 else
  show_read fd2 buf ;;
  say "\nclose dosya1\n" ;;
  r ← close fd1;
  if r <? 0 then say "! close dosya1\n" ;; mret r else
  say "open dosya2\n" ;;
  fd1 ← open (path "dosya2") 1 0;
  if fd1 <? 0 then mret fd1 else
  printf "fd1: %d\n" [VInt fd1] ;;
  show_read fd1 buf ;;
  close fd1 ;;
  close fd2 ;;
  mret 0.

Definition writefile (buf : Z) : prog Z :=
  let yazi := path "dosyaya yazma deneme" in
  fd1 ← open (path "dosya1") 1 0;
  ASSERT3 136 "fd1" fd1 Ge "0" 0 ;;
  fd2 ← open (path "dosya1") 1 0;
  ASSERT3 139 "fd2" fd2 Ge "0" 0 ;;
  n ← strlen yazi; r ← as_int (write fd1 yazi n);
  ASSERT3 142 "r" r Eq "-1" (-1) ;;
  r ← as_int (read fd2 buf 10);
  ASSERT3 145 "r" r Eq "10" 10 ;;
  c ← strncmp buf yazi 10;
  ASSERT_ 146 (negb (c =? 0)) "strncmp(buf, yazi, 10) != 0" ;;
  close fd1 ;; close fd2 ;;
  say "ro file write error OK\n" ;;
  say "\n" ;;
  fd1 ← open (path "dosya2") 2 0;
  ASSERT3 159 "fd1" fd1 Ge "0" 0 ;;
  fd2 ← open (path "dosya2") 1 0;
  ASSERT3 162 "fd2" fd2 Ge "0" 0 ;;
  n ← strlen yazi; r ← as_int (write fd1 yazi n);
  ASSERT3 165 "r" r Ne "-1" (-1) ;;
  n ← strlen yazi; r ← as_int (read fd2 buf n);
  n ← strlen yazi;
  ASSERT3 168 "r" (u32 r) Eq "strlen(yazi)" n ;;
  c ← strcmp buf yazi;
  ASSERT_ 169 (c =? 0) "strcmp(buf, yazi) == 0" ;;
  say "rw file write OK\n" ;;
  close fd1 ;; close fd2 ;;
  say "\n" ;;
  fd1 ← open (path "dosya1") 2 0;
  ASSERT3 179 "fd1" fd1 Lt "0" 0 ;;
  fd1 ← open (path "dosya1") 3 0;
  ASSERT3 183 "fd1" fd1 Lt "0" 0 ;;
  say "ro file open rw error OK\n" ;;
  mret 0.

Definition test_readdir : prog Z :=
  dir ← opendir (path ".");
  ASSERT3 195 "(uint32_t)dir" dir Ne "0" 0 ;;
  loop (fun _ : unit =>
    dirent ← readdir dir;
    if dirent =? NULL then mret (inr tt) else
    s ← load_str (dirent + 11);   (* d_name *)
    printf "%s\n" [VStr s] ;; mret (inl tt)) tt ;;
  closedir dir ;;
  mret 0.

(** getcwd(buf, 256) and what is printed of it. *)
Definition show_cwd (buf : Z) (fmt : string) : prog unit :=
  getcwd buf 256 ;;
  s ← load_str buf;
  _ ← printf fmt [VStr s]; mret tt.
(** A step of test_chdir. *)
Definition chdir_or (text dir : string) (next : prog Z) : prog Z :=
  say text ;;
  r ← chdir (path dir);
  if r <? 0 then printf "r %d\n" [VInt r] ;; mret (-1) else next.

Definition test_chdir (buf : Z) : prog Z :=
  show_cwd buf "cwd %s\n\n" ;;
  chdir_or "chdir dir1\n" "dir1" (show_cwd buf "cwd %s\n\n" ;;
  chdir_or "chdir dir11\n" "dir11" (say "--\n" ;; show_cwd buf "cwd %s\n\n" ;;
  chdir_or "chdir .\n" "." (show_cwd buf "cwd %s\n\n" ;;
  chdir_or "chdir ..\n" ".." (show_cwd buf "cwd %s\n\n" ;;
  chdir_or "chdir /dir1/dir11\n" "/dir1/dir11" (show_cwd buf "cwd %s\n\n" ;;
  chdir_or "chdir //\n" "//" (show_cwd buf "cwd %s\n" ;;
  mret 0)))))).

(** struct stat: st_dev, st_ino, st_rdev and st_size. *)
Definition show_stat (s : Z) : prog unit :=
  dev ← load16 s; printf "dev\t%d\n" [VInt dev] ;;
  ino ← load16 (s + 2); printf "ino\t%d\n" [VInt ino] ;;
  rdev ← load16 (s + 20); printf "rdev\t%d\n" [VInt rdev] ;;
  size ← load (s + 24); printf "size\t%d\n" [VInt size] ;;
  _ ← say "\n"; mret tt.
Definition test_stat (s : Z) : prog Z :=
  r ← stat (path "/") s;
  if r <? 0 then mret r else
  say "/\n" ;; show_stat s ;;
  r ← stat (path "/dosya1") s;
  if r <? 0 then mret r else
  say "/dosya1\n" ;; show_stat s ;;
  mret 0.

Definition mkdir_rmdir : prog Z :=
  expect 303 (rmdir (path "/home")) Lt ;;
  expect 307 (mkdir (path "/home/dir2") 1) Eq ;;
  expect 310 (rmdir (path "/home/dir2")) Eq ;;
  expect 314 (chdir (path "/home/dir2")) Lt ;;
  expect 318 (mkdir (path "/home/dir2") 1) Eq ;;
  expect 320 (chdir (path "/home/dir2")) Eq ;;
  expect 322 (rmdir (path "/home/dir2")) Eq ;;
  expect 326 (chdir (path "/home/dir2")) Lt ;;
  expect 328 (rmdir (path "/home/dir2")) Lt ;;
  expect 332 (mkdir (path "/home/dir1") 3) Eq ;;
  expect 334 (mkdir (path "/home/dir1/dir11") 1) Eq ;;
  expect 338 (mkdir (path "/home/dir1/dir11/dir111") 1) Lt ;;
  expect 342 (mkdir (path "/home/home") 3) Eq ;;
  expect 344 (mkdir (path "/home/home/dir1") 3) Eq ;;
  expect 346 (rmdir (path "/home/home/dir1")) Eq ;;
  expect 350 (rmdir (path "/home/dir1")) Lt ;;
  say "mkdir_rmdir OK\n" ;;
  mret 0.

Definition creat_unlink (buf : Z) : prog Z :=
  let deneme := path "/home/deneme.txt" in let ro := path "/home/ro.txt" in
  expect 363 (creat deneme 3) Ge ;;
  fd ← open deneme 3 0;
  ASSERT3 367 "fd" fd Ge "0" 0 ;;
  r ← as_int (write fd (path "deneme") 6);
  ASSERT3 369 "r" r Eq "6" 6 ;;
  expect 371 (close fd) Eq ;;
  fd ← open deneme 1 0;
  ASSERT3 375 "fd" fd Ge "0" 0 ;;
  r ← as_int (write fd (path "aaaaa") 5);
  ASSERT3 379 "r" r Eq "-1" (-1) ;;
  r ← as_int (read fd buf 256);
  ASSERT3 382 "r" r Eq "256" 256 ;;
  c ← strcmp buf (path "deneme");
  ASSERT_ 383 (c =? 0) ("strcmp(buf, " ++ quote ++ "deneme" ++ quote ++ ") == 0")%string ;;
  expect 385 (close fd) Eq ;;
  expect 389 (unlink deneme) Eq ;;
  fd ← open deneme 1 0;
  ASSERT3 393 "fd" fd Lt "0" 0 ;;
  expect 397 (creat ro 1) Eq ;;
  fd ← open ro 3 0;
  ASSERT3 401 "fd" fd Lt "0" 0 ;;
  expect 405 (unlink ro) Eq ;;
  fd ← open ro 1 0;
  ASSERT3 409 "fd" fd Lt "0" 0 ;;
  mret 0.

Definition stdio : prog Z :=
  let yazi := path "stdout'a yazilan birsey\n" in
  fd ← open (path "/stdout") 1 0;
  assertNotLess file printf 420 "-1" (-1) "fd" fd ;;
  fd ← open (path "/stdout") 3 0;
  assertNotLess file printf 423 "-1" (-1) "fd" fd ;;
  say "open /stdout\n" ;;
  fd ← open (path "/stdout") 2 0;
  assertNotLess file printf 427 "fd" fd "0" 0 ;;
  n ← strlen yazi; r ← as_int (write fd yazi n);
  n ← strlen yazi;
  assertEquals file printf 430 "strlen(yazi)" n "r" (u32 r) ;;
  mret 0.

(** [buf], [s]: the local arrays of the functions. *)
Definition fs_tests (buf s : Z) : list test :=
  [mkTest "openfile" "openfile" openfile; mkTest "readfile" "readfile" (readfile buf);
   mkTest "readdir" "readdir" test_readdir; mkTest "chdir" "chdir" (test_chdir buf);
   mkTest "stat" "stat" (test_stat s); mkTest "writefile" "writefile" (writefile buf);
   mkTest "mkdir_rmdir" "mkdir_rmdir" mkdir_rmdir; mkTest "creat_unlink" "creat_unlink" (creat_unlink buf);
   mkTest "stdio" "stdio" stdio].
Definition fs_main (buf s : Z) : Z -> Z -> prog Z := test_main printf (fs_tests buf s).

(** ** cat.c *)

Definition cat_main (buf argc argv : Z) : prog Z :=
  a ← load (argv + 4); strcpy buf a ;;
  if negb (argc =? 2) then mret (-1) else
  fd ← open buf 1 0;
  ASSERT3 18 "fd" fd Gt "-1" (-1) ;;
  memset buf 0 1536 ;;
  r ← as_int (read fd buf 1536);
  ASSERT3 22 "r" r Gt "0" 0 ;;
  s ← load_str buf;
  printf "%s" [VStr s] ;;
  mret 0.

End programs.

(** ** file_newlib.c

    Here the library is newlib. [offset] is what offsetof gives. *)
Definition file_newlib_main {L : Link} (file : cstr) (printf : string -> list va_value -> prog Z)
    (exit : Z -> prog Z) (offset s : Z) : prog Z :=
  let field line name v op text x := ASSERT3 file printf exit line name v op text x in
  printf "%d\n" [VInt offset] ;;
  stat (lit (c_str "/initrd/objdump")) s ;;
  dev ← load16 s; printf "dev: %d\n" [VInt dev] ;;
  field 19 "s.st_dev" dev Eq "0" 0 ;;
  ino ← load16 (s + 2); printf "ino: %d\n" [VInt ino] ;;
  v ← load (s + 8); field 21 "s.st_nlink" v Eq "1" 1 ;;
  v ← load (s + 4); field 22 "s.st_mode" v Eq "0100000" 0x8000 ;;
  v ← load (s + 12); field 23 "s.st_uid" v Eq "1000" 1000 ;;
  v ← load (s + 16); field 24 "s.st_gid" v Eq "1000" 1000 ;;
  v ← load16 (s + 20); field 25 "s.st_rdev" v Eq "0" 0 ;;
  size ← load (s + 24); printf "size: %d\n" [VInt size] ;;
  mret 0.
