(* ===== verification/TestSignals.v ===== *)
(** Programs on signals (user_programs/test/signaltest.c, kill.c, dongu.c, sys_dongu.c and
    user_programs/bin/signal_newlib.c).

    signal_newlib.c has the tests 1, 2 and 7 of signaltest.c again, on newlib: the
    functions here are for any printf and any signal. A handler returns nothing, and so
    does its tree. *)

From S2P Require Import Prelude Util Vsprintf Sched Lib User TestFiles.

(** * Definitions *)

(** signal.h *)
Definition SIGHUP : Z := 1.
Definition SIGINT : Z := 2.
Definition SIGQUIT : Z := 3.
Definition SIGABRT : Z := 6.
Definition SIGUSR1 : Z := 10.
Definition SIGTERM : Z := 15.

(** What a program takes from the library it is linked with. *)
Record libc := mkLibc {
  c_printf : string -> list va_value -> prog Z;
  c_signal : Z -> Z -> prog Z;
  c_alarm : Z -> prog Z;
  c_sleep : Z -> prog Z;
  c_kill : Z -> Z -> prog Z;
  c_exit : Z -> prog Z;
  c_fork : prog Z;
  c_pause : prog Z;
}.
Definition makarna {L : Link} : libc := mkLibc printf signal alarm sleep kill exit fork pause.

Section signals.
Context {L : Link} (C : libc).
Notation printf := (c_printf C).
Notation signal := (c_signal C).
Notation alarm := (c_alarm C).
Notation sleep := (c_sleep C).
Notation kill := (c_kill C).
Notation exit := (c_exit C).
Notation fork := (c_fork C).
Notation pause := (c_pause C).
Notation say s := (printf s []).

(** r = m; printf(fmt, r) *)
Definition report (fmt : string) (m : prog Z) : prog unit :=
  r ← as_int m; _ ← printf fmt [VInt r]; mret tt.

(** *** test 1 *)

Definition catch (sig : Z) : prog unit :=
  i ← load (static "i_test1"); store (static "i_test1") (u32 (i + 1)) ;;
  i ← load (static "i_test1");
  printf "%d. catch_sig %d\n" [VInt i; VInt sig] ;;
  signal sig (func "catch") ;;
  alarm 1 ;;
  i ← load (static "i_test1");
  if i =? 10 then _ ← exit 0; mret tt else mret tt.
Definition test1 : prog Z :=
  report "sys_signal return: %08x\n" (signal SIGALRM (func "catch")) ;;
  report "sys_alarm return: %d\n" (alarm 1) ;;
  spin.

(** *** test 2 *)

Definition sigquit : prog unit :=
  say "CHILD: SIGQUIT received\n" ;; say "exiting\n" ;; _ ← exit 0; mret tt.
Definition sigint : prog unit := _ ← say "CHILD: SIGINT received\n"; mret tt.
Definition test2_handler (sig : Z) : prog unit := _ ← printf "CHILD: signal %d received\n" [VInt sig]; mret tt.

(** r = kill(pid, sig), with a message for an error. *)
Definition kill_or (pid sig : Z) : prog unit :=
  r ← kill pid sig;
  if r <? 0 then _ ← printf "sys_kill err: %d\n" [VInt r]; mret tt else mret tt.

Definition test2 : prog Z :=
  pid ← fork;
  if pid <? 0 then say "fork error\n" ;; mret (-2) else
  if pid =? 0 then
    say "child\n" ;;
    report "sys_signal return = %08x\n" (signal SIGINT (func "sigint")) ;;
    report "sys_signal return = %08x\n" (signal SIGQUIT (func "sigquit")) ;;
    signal SIGHUP (func "test2_handler") ;;
    spin
  else
    sleep 1 ;;
    say "PARENT: sendign SIGINT\n" ;; kill_or pid SIGINT ;;
    say "PARENT: sendign SIGQUIT\n" ;; kill_or pid SIGQUIT ;;
    say "PARENT: sendign SIGUP\n" ;; kill_or pid SIGHUP ;;
    sleep 2 ;;
    mret 0.

(** *** test 3 *)

Definition catch_alarm (sig : Z) : prog unit :=
  i ← load (static "i"); store (static "i") (u32 (i - 1)) ;;
  i ← load (static "i");
  (if i =? 0 then say "program sonlaniyor.\n" ;; _ ← exit 0; mret tt else mret tt) ;;
  printf "iptal icin %d saniye kaldi\n" [VInt i] ;;
  signal sig (func "catch_alarm") ;;
  _ ← alarm 1; mret tt.
Definition test3 : prog Z :=
  report "sys_signal return: %08x\n" (signal SIGALRM (func "catch_alarm")) ;;
  report "sys_alarm return: %d\n" (alarm 1) ;;
  say "program sonlanacak\n" ;;
  r ← getchar;
  printf "char: %d %c\n" [VInt r; VInt r] ;;
  alarm 0 ;;
  say "tusa basilarak iptal edildi\n" ;;
  sleep 3 ;;
  mret 0.

(** *** test 4 *)

Definition test4_handler (sig : Z) : prog unit :=
  printf "child, sig %d received\n" [VInt sig] ;; _ ← pause; mret tt.
Definition test4 : prog Z :=
  pid ← fork;
  if pid <? 0 then say "fork yapilamadi\n" ;; mret (-1) else
  if pid =? 0 then
    report "sys_signal return = %08x\n" (signal SIGINT (func "sigint")) ;;
    report "sys_signal return = %08x\n" (signal SIGQUIT (func "test4_handler")) ;;
    report "r: %d\n" pause ;;
    sleep 100 ;;
    say "HATA!!!\n" ;;
    spin
  else
    sleep 1 ;;
    say "PARENT: sendign SIGQUIT\n" ;; kill_or pid SIGQUIT ;;
    sleep 1 ;;
    say "PARENT: sendign SIGINT\n" ;; kill_or pid SIGINT ;;
    sleep 3 ;;
    say "PARENT: sendign SIGKILL\n" ;; kill pid SIGKILL ;;
    say "PARENT: OK\n" ;;
    sleep 3 ;;
    mret 0.

(** *** test 5 *)

Definition test5 : prog Z :=
  pid ← fork;
  if pid <? 0 then say "fork yapilamadi\n" ;; mret (-1) else
  if pid =? 0 then
    signal SIGINT (func "sigint") ;;
    s ← sleep 5;
    printf "sleep bitti kalan sure: %d\n" [VInt s] ;;
    (if negb (s =? 3) then say "!!! HATA: (child) kalan sure yanlis\n" else say "(child) kalan sure dogru\n") ;;
    say "child sonlaniyor\n" ;;
    mret 0
  else
    sleep 2 ;;
    kill pid SIGINT ;;
    s ← sleep 2;
    (if 0 <? s then printf "!!! HATA: (parent) kalan sure yanlis: %d\n" [VInt s] else mret 0) ;;
    say "parent sonlaniyor\n" ;;
    mret 0.

(** *** test 6 *)

Definition test6 : prog Z :=
  pid ← fork;
  if pid <? 0 then say "fork error\n" ;; mret (-2) else
  if pid =? 0 then
    say "child\n" ;;
    report "sys_signal return = %08x\n" (signal SIGINT (func "test4_handler")) ;;
    report "sys_signal return = %08x\n" (signal SIGQUIT (func "test4_handler")) ;;
    signal SIGHUP (func "test4_handler") ;;
    spin
  else
    sleep 1 ;;
    printf "PARENT: sendign %d\n" [VInt SIGQUIT] ;; kill_or pid SIGQUIT ;;
    printf "PARENT: sendign %d\n" [VInt SIGINT] ;; kill_or pid SIGINT ;;
    sleep 1 ;;
    printf "PARENT: sendign %d\n" [VInt SIGHUP] ;; kill_or pid SIGHUP ;;
    sleep 2 ;;
    say "PARENT: sendign SIGKILL\n" ;; kill pid SIGKILL ;;
    say "PARENT: OK\n" ;;
    sleep 3 ;;
    mret 0.

(** *** test 7 *)

Definition test7_h1 (sig : Z) : prog unit :=
  say "test7_h1 basladi\n" ;;
  r ← sleep 100;
  _ ← printf "test7_h1 bitti r:%d\n" [VInt r]; mret tt.
Definition test7_h2 (sig : Z) : prog unit :=
  say "test7_h2\n" ;;
  r ← sleep 10;
  _ ← printf "test7_h2 bitti r:%d\n" [VInt r]; mret tt.
Definition send_sig (sig pid : Z) : prog unit :=
  printf "PARENT: sendign %d\n" [VInt sig] ;; kill_or pid sig.
Definition test7 : prog Z :=
  pid ← fork;
  if pid <? 0 then say "fork error\n" ;; mret (-2) else
  if pid =? 0 then
    say "child\n" ;;
    signal SIGHUP (func "test7_h1") ;;
    signal SIGINT (func "test7_h1") ;;
    signal SIGQUIT (func "test7_h2") ;;
    signal SIGUSR1 (func "test7_h2") ;;
    report "pause r: %d\n" pause ;;
    spin
  else
    sleep 1 ;; send_sig SIGHUP pid ;;
    sleep 1 ;; send_sig SIGHUP pid ;;
    sleep 1 ;; send_sig SIGHUP pid ;;
    sleep 1 ;; send_sig SIGINT pid ;;
    sleep 1 ;; send_sig SIGQUIT pid ;;
    sleep 1 ;; send_sig SIGUSR1 pid ;;
    sleep 100 ;;
    mret 0.

Definition signal_tests : list test :=
  [mkTest "test1" "test1 - alarm testi" test1; mkTest "test2" "test2 - 3 signal testi" test2;
   mkTest "test3" "test3 - alarm + keyboard testi" test3; mkTest "test4" "test4 - pause + signal" test4;
   mkTest "test5" "test5 - sleep + signal" test5; mkTest "test6" "test6 - pause + 3 signal" test6;
   mkTest "test7" "test7" test7].
End signals.

(** ** signal_newlib.c

    The same functions on newlib. *)
Section newlib.
Context {L : Link} (newlib : libc).

Definition newlib_catch : Z -> prog unit := catch newlib.
Definition newlib_test1 : prog Z := test1 newlib.
Definition newlib_sigquit : prog unit := sigquit newlib.
Definition newlib_sigint : prog unit := sigint newlib.
Definition newlib_test2_handler : Z -> prog unit := test2_handler newlib.
Definition newlib_test2 : prog Z := test2 newlib.
Definition newlib_test7_h1 : Z -> prog unit := test7_h1 newlib.
Definition newlib_test7_h2 : Z -> prog unit := test7_h2 newlib.
Definition newlib_send_sig : Z -> Z -> prog unit := send_sig newlib.
Definition newlib_test7 : prog Z := test7 newlib.
Definition newlib_tests : list test :=
  [mkTest "test1" "test1 - alarm testi" newlib_test1; mkTest "test2" "test2 - 3 signal testi" newlib_test2;
   mkTest "test7" "test7" newlib_test7].
Definition signal_newlib_main : Z -> Z -> prog Z := named_test_main (c_printf newlib) newlib_tests.
End newlib.

Section programs.
Context {L : Link}.

Definition signaltest_main : Z -> Z -> prog Z := named_test_main printf (signal_tests makarna).

(** A function as the processor finds it at its address: its parameter is on the stack,
    above the return address. *)
Definition handler (f : Z -> prog unit) (esp : Z) : prog Z := sig ← load (esp + 4); f (i32 sig) ;; mret 0.
(** The functions of signaltest.c that signal() is given. *)
Definition signal_handlers (C : libc) : list (string * (Z -> prog unit)) :=
  [("catch", catch C); ("sigquit", fun _ => sigquit C); ("sigint", fun _ => sigint C);
   ("test2_handler", test2_handler C); ("catch_alarm", catch_alarm C); ("test4_handler", test4_handler C);
   ("test7_h1", test7_h1 C); ("test7_h2", test7_h2 C)]%string.

(** ** kill.c

    [atoi] is the library's; [r] is unsigned, and the test for an error is never true. *)
Definition atoi (a : Z) : prog Z := s ← load_str a; mret (Util.atoi s).
Definition kill_main (argc argv : Z) : prog Z :=
  if negb (1 <? argc) then mret 1 else
  a ← load (argv + 4); pid ← atoi a;
  printf "kill %d\n" [VInt pid] ;;
  r ← unsigned (kill pid SIGTERM);
  (if r <? 0 then printf "sys_kill err: %d\n" [VInt r] else mret 0) ;;
  mret 0.

(** ** dongu.c *)

Definition dongu_main (argc argv : Z) : prog Z :=
  pid ← getpid;
  bekleme ← (if 1 <? argc then a ← load (argv + 4); atoi a else mret 0);
  dongu_sayisi ← (if 2 <? argc then a ← load (argv + 8); n ← atoi a; mret (u32 n) else mret (u32 (-1)));
  for_range 0 dongu_sayisi (fun i =>
    (if negb (bekleme =? 0) then
       loop (fun r => r ← sleep r;
                      if 0 <? r then p ← getpid; printf "[%d] sleep kesildi\n" [VInt p] ;; mret (inl r)
                      else mret (inr tt)) bekleme
     else mret tt) ;;
    _ ← printf "pid:%d, %d\n" [VInt pid; VInt i]; mret tt) ;;
  mret 0.

(** ** sys_dongu.c

    The inner loop does nothing. *)
Definition sys_dongu_main (argc argv : Z) : prog Z :=
  (if 1 <? argc then a ← load (argv + 4); atoi a else mret 0) ;;
  dongu_sayisi ← (if 2 <? argc then a ← load (argv + 8); n ← atoi a; mret (u32 n) else mret (u32 (-1)));
  for_range 0 dongu_sayisi (fun _ => sys_dongu) ;;
  mret 0.
End programs.
