(* ===== verification/TestIpc.v ===== *)
(** Programs on shared memory and semaphores (user_programs/test/ipctest.c).

    A loop on shared memory is a loop of loads and stores: what other programs do
    between them is the machine's. sem is a variable of the program, or an address in
    shared memory. *)

From S2P Require Import Prelude Util Vsprintf Lib User TestFiles.

(** * Definitions *)

Definition shmflg_server : Z := 1.
Definition shmflg_client : Z := 0.
Definition sizeof_sem_t : Z := 32.

Section programs.
Context {L : Link}.
Notation say s := (printf s []).

Definition shmtest : prog Z :=
  shmid ← shmget 5000 100 shmflg_server;
  if shmid <? 0 then printf "shmget error %d\n" [VInt shmid] ;; mret (-1) else
  printf "shmid: %d\n" [VInt shmid] ;;
  shm ← shmat shmid NULL 0;
  if shm =? u32 (-1) then say "shmat error\n" ;; mret (-1) else
  printf "shm addr: %p\n" [VLoc shm] ;;
  strcpy shm (lit (c_str "deneme")) ;;
  say "write shared memory OK\n" ;;
  r ← shmdt shm;
  if r <? 0 then say "shmdt error\n" ;; mret (-1) else
  say "shmdt OK\n" ;;
  strcpy shm (lit (c_str "test")) ;;
  say "HATA: bu satir calismamali\n" ;;
  mret (-1).

(** The segment 3999: its address, or nothing behind a message. *)
Definition attach (pid flag : Z) (shmget_error : Z -> prog Z) : prog (option Z) :=
  shmid ← shmget 3999 100 flag;
  if shmid <? 0 then shmget_error shmid ;; mret None else
  printf "[%d] shmid: %d\n" [VInt pid; VInt shmid] ;;
  shm ← shmat shmid NULL 0;
  if shm =? u32 (-1) then printf "[%d] shmat error\n" [VInt pid] ;; mret None else
  printf "[%d] shm addr: %p\n" [VInt pid; VLoc shm] ;;
  mret (Some shm).

Definition shmserver : prog Z :=
  pid ← getpid;
  printf "server pid: %d\n" [VInt pid] ;;
  o ← attach pid shmflg_server (fun shmid => printf "[%d] shmget error %d\n" [VInt pid; VInt shmid]);
  match o with
  | None => mret (-1)
  | Some shm =>
      strcpy shm (lit (c_str "hello")) ;;
      printf "[%d] write shared memory OK\n" [VInt pid] ;;
      loop (fun _ : unit => c ← load8 (shm + 6); if c =? 0 then mret (inl tt) else mret (inr tt)) tt ;;
      sleep 1 ;;
      printf "[%d] shared memory changed\n" [VInt pid] ;;
      printf "[%d] printing shared memory\n" [VInt pid] ;;
      s ← load_str shm;
      printf "shared memory: %s\n" [VStr s] ;;
      mret 0
  end.

Definition shmclient (buf : Z) : prog Z :=
  pid ← getpid;
  printf "client pid: %d\n" [VInt pid] ;;
  o ← attach pid shmflg_client (fun _ => printf "[%d] shmget error\n" [VInt pid]);
  match o with
  | None => mret (-1)
  | Some shm =>
      printf "[%d] reading shared memory\n" [VInt pid] ;;
      strcpy buf shm ;;
      s ← load_str buf;
      printf "data: %s\n" [VStr s] ;;
      printf "[%d] directly printing shared memory\n" [VInt pid] ;;
      s ← load_str buf;
      printf "shared memory: %s\n" [VStr s] ;;
      printf "[%d] changing shared memory\n" [VInt pid] ;;
      strcat shm (lit (c_str " world!")) ;;
      printf "[%d] OK\n" [VInt pid] ;;
      mret 0
  end.

(** [sval]: the local variable that sem_getvalue is given. *)
Definition show_value (sval : Z) : prog unit :=
  r ← sem_getvalue (static "sem") sval;
  v ← load sval;
  _ ← printf "sem_getvalue r:%d val:%d\n" [VInt r; VInt (i32 v)]; mret tt.
Definition semtest (sval : Z) : prog Z :=
  r ← sem_init (static "sem") 0 1;
  printf "sem_init: %d\n" [VInt r] ;;
  (if r <? 0 then exit 1 else mret 0) ;;
  show_value sval ;;
  r ← sem_wait (static "sem"); printf "sem_wait %d\n" [VInt r] ;;
  show_value sval ;;
  r ← sem_trywait (static "sem"); printf "sem_trywait %d\n" [VInt r] ;;
  show_value sval ;;
  r ← sem_post (static "sem"); printf "sem_post %d\n" [VInt r] ;;
  show_value sval ;;
  mret 0.

Definition open_shm (key size flag : Z) : prog Z :=
  shmid ← shmget key size flag;
  (if shmid <? 0 then pid ← getpid; printf "[%d] shmget error (%d)\n" [VInt pid; VInt key] ;; exit 1 else mret 0) ;;
  shm ← shmat shmid NULL 0;
  (if shm =? u32 (-1) then pid ← getpid; printf "[%d] shmat error (%d)\n" [VInt pid; VInt shmid] ;; exit 1 else mret 0) ;;
  mret shm.

(** char: the bytes are signed in a comparison with each other and in %c alike. *)
Definition swap (shm : Z) : prog unit :=
  tmp ← load8 (shm + 1);
  c ← load8 shm; store8 (shm + 1) c ;;
  store8 shm tmp.
(** if (i % n == 0) printf("[%d] %d\n", getpid(), i) *)
Definition progress (n i : Z) : prog unit :=
  if i mod n =? 0 then pid ← getpid; _ ← printf "[%d] %d\n" [VInt pid; VInt i]; mret tt else mret tt.

Definition swap_loop (shm : Z) : prog unit :=
  for_range 1 0xFFFFFF (fun i => swap shm ;; progress 0x200000 i).
Definition show_pair (fmt : string) (shm : Z) : prog unit :=
  a ← load8 shm; b ← load8 (shm + 1); _ ← printf fmt [VInt a; VInt b]; mret tt.

Definition shmserver2 : prog Z :=
  pid ← getpid; printf "server pid: %d\n" [VInt pid] ;;
  shm ← open_shm 2999 100 shmflg_server;
  store8 shm 97 ;; store8 (shm + 1) 98 ;;
  sleep 1 ;;
  swap_loop shm ;;
  show_pair "server: shm[0]:%c shm[1]:%c\n" shm ;;
  sleep 1 ;;
  mret 0.
Definition shmclient2 : prog Z :=
  pid ← getpid; printf "client pid : %d\n" [VInt pid] ;;
  shm ← open_shm 2999 100 shmflg_client;
  sleep 1 ;;
  swap_loop shm ;;
  show_pair "client: shm[0]:%c shm[1]:%c\n" shm ;;
  sleep 1 ;;
  mret 0.

(** The loop of shmserver3 and shmclient3: whether the two bytes were found equal. *)
Definition sem_swap_loop (shm sem : Z) : prog bool :=
  loop (fun i =>
    if i <? 16000000 then
      sem_wait sem ;;
      swap shm ;;
      a ← load8 shm; b ← load8 (shm + 1);
      if a =? b then say "hata!!!\n" ;; mret (inr true) else
      sem_post sem ;;
      progress 1600000 i ;;
      mret (inl (i + 1))
    else mret (inr false)) 1.
Definition sem_swaps (fmt : string) (shm sem : Z) : prog Z :=
  sleep 1 ;;
  say "basladi\n" ;;
  hata ← sem_swap_loop shm sem;
  if hata : bool then mret 1 else
  say "bitti\n" ;;
  sem_wait sem ;;
  show_pair fmt shm ;;
  sem_post sem ;;
  sleep 1 ;;
  mret 0.

Definition shmserver3 : prog Z :=
  pid ← getpid; printf "server pid: %d\n" [VInt pid] ;;
  shm ← open_shm 2999 100 shmflg_server;
  sem ← open_shm 2998 sizeof_sem_t shmflg_server;
  r ← sem_init sem 1 1;
  if r <? 0 then say "sem init error\n" ;; mret (-1) else
  store8 shm 97 ;; store8 (shm + 1) 98 ;;
  sem_swaps "server: shm[0]:%c shm[1]:%c\n" shm sem.
Definition shmclient3 : prog Z :=
  pid ← getpid; printf "client pid : %d\n" [VInt pid] ;;
  shm ← open_shm 2999 100 shmflg_client;
  sem ← open_shm 2998 sizeof_sem_t shmflg_client;
  sem_swaps "client shm[0]:%c shm[1]:%c\n" shm sem.

Definition shmfork : prog Z :=
  shm ← open_shm 2999 100 shmflg_server;
  pid ← fork;
  if pid <? 0 then say "fork error\n" ;; mret (-1) else
  (if 0 <? pid then
     p ← getpid; printf "parent: %d\n" [VInt p] ;;
     store8 shm 97 ;;
     sleep 2
   else
     sleep 1 ;;
     p ← getpid; printf "child: %d\n" [VInt p] ;;
     c ← load8 shm;
     (if negb (c =? 97) then say "!!! HATA\n" else mret 0) ;;
     store8 (shm + 1) 98 ;;
     say "child shared memory OK\n") ;;
  shmdt shm ;;
  p ← getpid; printf "[%d] bitti\n" [VInt p] ;;
  mret 0.

Definition ipc_tests (buf sval : Z) : list test :=
  [mkTest "shmtest" "shared memory" shmtest; mkTest "shmserver" "shared memory server" shmserver;
   mkTest "shmclient" "shared memory client" (shmclient buf); mkTest "semtest" "semaphore" (semtest sval);
   mkTest "shmserver2" "shmserver2" shmserver2; mkTest "shmclient2" "shmclient2" shmclient2;
   mkTest "shmserver3" "semaphore - shm server" shmserver3; mkTest "shmclient3" "semaphore - shm client" shmclient3;
   mkTest "shmfork" "shmfork" shmfork].
Definition ipctest_main (buf sval : Z) : Z -> Z -> prog Z := test_main printf (ipc_tests buf sval).
End programs.
