(* ===== verification/TestTasks.v ===== *)
(** Programs on processes (user_programs/test/init.c, forktest.c, yield.c, hello.c,
    processmemtest.cpp, divide_error.c, user_programs/bin/hello_newlib.c and
    random_newlib.c), and the statuses of include/sys/wait.h.

    What a program takes from newlib beside printf is a parameter of it. *)

From S2P Require Import Prelude Util Vsprintf Lib User TestFiles TestSignals.

(** * Definitions *)

(** ** sys/wait.h *)

Definition WEXITSTATUS (status : Z) : Z := Z.shiftr (Z.land status 0xff00) 8.
Definition WTERMSIG (status : Z) : Z := Z.land status 0x7f.
Definition WSTOPSIG (status : Z) : Z := WEXITSTATUS status.
Definition WIFEXITED (status : Z) : bool := WTERMSIG status =? 0.
(** (signed char) of a value below 256 *)
Definition schar (v : Z) : Z := if v <? 128 then v else v - 256.
Definition WIFSIGNALED (status : Z) : bool := 0 <? Z.shiftr (schar (Z.land status 0x7f + 1)) 1.
Definition WIFSTOPPED (status : Z) : bool := Z.land status 0xff =? 0x7f.
Definition WIFCONTINUED (status : Z) : bool := status =? 0xffff.
Definition WCOREDUMP (status : Z) : bool := negb (Z.land status 0x80 =? 0).
Definition W_EXITCODE (ret sig : Z) : Z := Z.lor (Z.shiftl ret 8) sig.
Definition W_STOPCODE (sig : Z) : Z := Z.lor (Z.shiftl sig 8) 0x7f.

Section programs.
Context {L : Link}.
Notation say s := (printf s []).

(** ** init.c *)

(** parse_cmd on the string at [cmd], with the array at [argv]. *)
Fixpoint store_argv (cmd argv argc k : Z) (l : list (option Z)) : prog unit :=
  match l with
  | [] => mret tt
  | o :: l =>
      (match o with
       | Some p => store (argv + 4 * k) (u32 (cmd + p))
       | None => if k =? argc then store (argv + 4 * k) NULL else mret tt
       end) ;;
      store_argv cmd argv argc (k + 1) l
  end.
Definition parse_cmd (cmd argv : Z) : prog Z :=
  before ← load8 (cmd - 1); s ← load_str cmd;
  match Util.parse_cmd before (s ++ [0]) with
  | None => crash BadAccess
  | Some (s, a) =>
      do_ (Store (u32 cmd) s) ;;
      store_argv cmd argv (Util.argc a) 0 (Util.argv a) ;;
      mret (Util.argc a)
  end.

(** for (i = 0 ; i <= size ; i++): the lines of the script, and their number. *)
Definition split_lines (size : Z) : prog Z :=
  let buf := static "buf" in let lines := static "lines" in
  store lines buf ;;
  loop (fun '(i, i_line) =>
    if size <? i then mret (inr i_line) else
    c ← load8 (buf + i);
    if (c =? 10) || (i =? size) then
      store8 (buf + i) 0 ;;
      a ← load (lines + 4 * i_line); s ← load_str a;
      printf "  %s\n" [VStr s] ;;
      (if negb (i =? size) then store (lines + 4 * (i_line + 1)) (u32 (buf + i + 1)) else mret tt) ;;
      mret (inl (i + 1, i_line + 1))
    else mret (inl (i + 1, i_line))) (0, 0).

(** A line: a program that is forked, a comment, or nothing. [argv]: the local array. *)
Definition start_line (argv i : Z) : prog unit :=
  a ← load (static "lines" + 4 * i);
  c ← strcmp a (lit (c_str ""));
  if c =? 0 then mret tt else
  parse_cmd a argv ;;
  p ← load argv; h ← load8 p;
  if h =? 35 then mret tt else
  pid ← fork;
  if pid <? 0 then _ ← say "[init] fork yapilamadi\n"; mret tt
  else if pid =? 0 then
    p ← load argv;
    execve p argv ;;
    pid ← getpid; printf "[%d] execve error\n" [VInt pid] ;;
    _ ← exit 0; mret tt
  else mret tt.

Definition init_main (argv : Z) : prog Z :=
  fd ← open (lit (c_str "/initrd/init_programs")) 1 0;
  if fd <? 0 then say "/initrd/init_programs not found\n" ;; mret (-1) else
  size ← as_int (read fd (static "buf") 2048);
  if size <? 0 then say "/initrd/init_programs okunamadi\n" ;; mret (-1) else
  say "init_script:\n" ;;
  i_line ← split_lines size;
  for_range 0 i_line (start_line argv) ;;
  loop (fun _ : unit => pause ;; mret (inl tt)) tt.

(** ** forktest.c

    [status]: the local variable. *)
Definition fork_test1 (status : Z) : prog Z :=
  pid ← fork;
  if pid <? 0 then p ← getpid; printf "[%d] fork yapilamadi\n" [VInt p] ;; mret (-1) else
  (if 0 <? pid then
     say "parent process calisiyor\n" ;;
     printf "child id: %d\n" [VInt pid] ;;
     wait status
   else
     say "child process calisiyor\n" ;;
     sleep 1) ;;
  printf "%d\n" [VInt 11] ;;
  exit 0 ;;
  mret 0.

Definition show_status (w s : Z) : prog unit :=
  printf "pid %d: " [VInt w] ;;
  _ ← (if WIFEXITED s then printf "exited, status=%d\n" [VInt (WEXITSTATUS s)]
       else if WIFSIGNALED s then printf "killed by signal %d\n" [VInt (WTERMSIG s)]
       else if WIFSTOPPED s then printf "stopped by signal %d\n" [VInt (WSTOPSIG s)]
       else mret 0);
  mret tt.
Definition fork_test2 (status : Z) : prog Z :=
  pid ← fork;
  if pid <? 0 then say "fork yapilamadi\n" ;; mret (-1) else
  (if 0 <? pid then
     say "parent process calisiyor\n" ;;
     printf "child id: %d\n" [VInt pid] ;;
     loop (fun _ : unit =>
       w ← wait status;
       s ← load status; show_status w s ;;
       mret (if negb (WIFEXITED s) && negb (WIFSIGNALED s) then inl tt else inr tt)) tt
   else
     p ← getpid; printf "child process %d calisiyor\n" [VInt p] ;;
     sleep 1 ;;
     p ← getpid; kill p SIGABRT ;;
     spin) ;;
  p ← getpid; printf "%d, sonlaniyor\n" [VInt p] ;;
  mret 0.

Definition fork_tests (status : Z) : list test :=
  [mkTest "test1" "test1 - basit fork" (fork_test1 status); mkTest "test2" "test2 - fork - wait" (fork_test2 status)].
Definition forktest_main (status : Z) : Z -> Z -> prog Z := named_test_main printf (fork_tests status).

(** ** yield.c

    The last printf of both has no argument for its %d. *)
Definition y1 : prog Z :=
  for_range 1 6 (fun i =>
    p ← getpid; printf "task %d, %d. kez calisiyor\n" [VInt p; VInt i] ;;
    sys_yield) ;;
  printf "task %d bitti\n" [] ;;
  mret 0.
Definition y2 : prog Z :=
  for_range 1 6 (fun i =>
    p ← getpid; printf "task %d, %d. kez calisiyor\n" [VInt p; VInt i] ;;
    say "devam etmek icin bir tusa basin\n" ;;
    getchar ;;
    sys_yield) ;;
  printf "task %d bitti\n" [] ;;
  mret 0.
Definition yield_tests : list test :=
  [mkTest "y1" "y1" y1; mkTest "y2" "y2 - tusa basilmasini bekleyen" y2].
Definition yield_main : Z -> Z -> prog Z := test_main printf yield_tests.

(** ** divide_error.c *)

Definition divide_error_main : prog Z := raise T_DIVIDE 0.
End programs.

(** ** hello.c and hello_newlib.c *)

Section hello.
Context (printf : string -> list va_value -> prog Z) (getchar : prog Z) (putchar : Z -> prog unit).

Definition print_args (argc argv : Z) : prog unit :=
  printf "argc: %d\n" [VInt argc] ;;
  for_range 0 argc (fun i =>
    a ← load (argv + 4 * i); s ← load_str a;
    _ ← printf "argv[%d]: %s\n" [VInt i; VStr s]; mret tt).
Definition ask_char : prog unit :=
  printf "Hello World!\n" [] ;;
  printf "bir karakter girin:\n" [] ;;
  c ← getchar;
  printf "karakter:" [] ;;
  putchar c ;;
  _ ← printf "\nbitti\n" []; mret tt.
End hello.

Definition hello_main {L : Link} (argc argv : Z) : prog Z :=
  print_args printf argc argv ;; ask_char printf getchar putchar ;; mret 0.

Section newlib.
Context (printf : string -> list va_value -> prog Z) (getchar : prog Z) (putchar : Z -> prog unit).
Context (malloc : Z -> prog Z) (realloc : Z -> Z -> prog Z) (free : Z -> prog unit).
Context {L : Link}.
Notation say s := (printf s []).

Definition wait_key : prog unit := say "devam etmek icin bir tusa basin\n" ;; _ ← getchar; mret tt.
Definition malloc_test : prog unit :=
  say "newlib malloc test\n" ;;
  x ← malloc 0x5000; memset x 1 0x5000 ;; printf "x: %p\n" [VLoc x] ;;
  y ← malloc 0x100000; memset y 1 0x10000 ;; printf "y: %p\n" [VLoc y] ;;
  x ← realloc x 0x100000; printf "x: %p\n" [VLoc x] ;;
  strcpy x (lit (c_str "asd")) ;;
  free x ;; free y ;;
  y ← malloc 0x1000000; memset y 1 0x1000000 ;; printf "y: %p\n" [VLoc y] ;;
  wait_key ;;
  free y ;;
  wait_key ;;
  _ ← say "newlib malloc test OK\n"; mret tt.
Definition hello_newlib_main (argc argv : Z) : prog Z :=
  print_args printf argc argv ;; ask_char printf getchar putchar ;; malloc_test ;; mret 0.

(** random_newlib.c. [tv]: the local structure; the seed is an unsigned. *)
Definition random_main (gettimeofday : Z -> Z -> prog Z) (srand : Z -> prog unit) (rand : prog Z) (tv : Z) : prog Z :=
  gettimeofday tv NULL ;;
  s ← load tv; us ← load (tv + 4);
  srand (u32 (i32 s * 1000 + Z.quot (i32 us) 1000)) ;;
  let show := r ← rand; printf "%d\n" [VInt r] ;; mret r in
  show ;; show ;; show ;; show.
End newlib.

(** ** processmemtest.cpp

    [frame]: what a call of the function takes of the stack; the call stores its return
    address. *)
Section processmem.
Context {L : Link} (frame : Z).

Definition stacktest : prog Z :=
  esp ← do_ Esp;
  loop (fun esp =>
    if 0xefff0000 <? esp then store (esp - 4) (func "stacktest") ;; mret (inl (u32 (esp - frame)))
    else printf "stacktest OK.\nesp: %08x\n" [VInt esp] ;; mret (inr 123)) esp.
Definition stacklimit : prog Z :=
  esp ← do_ Esp;
  loop (fun esp => store (esp - 4) (func "stacklimit") ;; mret (inl (u32 (esp - frame)))) esp.

(** printf("brk = %08x\n", sbrk(0)), and r = brk(addr) with its report. *)
Definition show_brk : prog unit := b ← sbrk 0; _ ← printf "brk = %08x\n" [VInt b]; mret tt.
Definition try_brk (fmt : string) (addr : Z) : prog unit :=
  r ← brk (u32 addr); _ ← printf fmt [VInt r]; mret tt.

Definition brktest2 : prog Z :=
  start_brk ← sbrk 0;
  printf "brk = %08x\n" [VInt start_brk] ;;
  try_brk "brk(start-1) return: %d\n" (start_brk - 1) ;;
  try_brk "brk(start+0x3ffe)  return: %d\n" (start_brk + 0x3ffe) ;;
  store8 (start_brk + 0x3ff0) 97 ;;
  show_brk ;;
  try_brk "brk(start+0xF) return: %d\n" (start_brk + 0xf) ;;
  store8 (start_brk + 0xa) 97 ;;
  show_brk ;;
  mret 0.
Definition brktest : prog Z :=
  start_brk ← sbrk 0;
  printf "brk = %08x\n" [VInt start_brk] ;;
  try_brk "brk(start-1) return: %d\n" (start_brk - 1) ;;
  try_brk "brk(start+0x3000)  return: %d\n" (start_brk + 0x3000) ;;
  store8 (start_brk + 0x2000) 97 ;;
  show_brk ;;
  try_brk "brk(start+0x1000) return: %d\n" (start_brk + 0x1000) ;;
  store8 (start_brk + 0x800) 97 ;;
  show_brk ;;
  brktest2 ;;
  mret 0.

Definition mem_tests : list test :=
  [mkTest "stacktest" "stacktest" stacktest; mkTest "stacklimit" "stacklimit" stacklimit;
   mkTest "brktest" "brktest" brktest].
Definition processmemtest_main : Z -> Z -> prog Z := test_main printf mem_tests.
End processmem.
