(* ===== verification/UserProps.v ===== *)
(** What the machine of User promises to a program: its library is the one of Lib, and
    a program whose system calls come back to it runs on the machine as it runs alone. *)

From S2P Require Import Prelude Spinlock ListSpec IdHash Util Vsprintf Fs DenemeFs Vfs VfsFile Cga CgaProps PhysMem VirtMem UserMem Descr Kmalloc.
From S2P Require Import FsHeap Task Sched SchedProps Console ConsoleProps Ipc Process Syscall Trap TrapProps System Exec ExecProps Lib LibProps User.
From ITree Require ITree.
Import ITree.Core.ITreeDefinition.

Lemma observe_bind {A S} (t : prog A) (c : A -> prog S) :
  observe (ITree.bind t c) = observe (match observe t with
    RetF a => c a | TauF u => Tau (ITree.bind u c) | VisF e h => Vis e (fun x => ITree.bind (h x) c) end).
Proof.
  change (observe (ITree.bind t c)) with (observe (match observe t with
    RetF a => c a | TauF u => Tau (ITree.bind u c) | VisF e h => Vis e (fun x => ITree.bind (h x) c) end)).
  by destruct (observe t).
Qed.

Section solo.
Context {D : Type} `{!Ports D} (B : build).
Notation K := (kern (sys D)).
#[local] Instance KernEnv_solo : KernEnv (sys D) := KernEnv_lib B.
#[local] Instance UserCalls_solo : UserCalls (sys D) := UserCalls_lib B.
Implicit Types k : K.

(** * Programs alone *)

Lemma solo_mono {R} n n' (t : prog R) k r k' : (n <= n')%nat -> solo B n t k = Done r k' -> solo B n' t k = Done r k'.
Proof.
  revert n' t k. induction n as [|n IH]; intros n' t k Hn; [done|]. destruct n' as [|n']; [lia|].
  cbn [solo]. destruct (observe t) as [a|u|A e c]; [done|apply IH; lia|].
  unfold mbind, M_bind. destruct (handle B e k) as [x k1|]; [|done]. apply IH. lia.
Qed.

(** A sequence runs as its parts do. *)
Lemma solo_bind_inv {R T} n (t : prog R) (c : R -> prog T) k r k' :
  solo B n (t ≫= c) k = Done r k' -> exists a k1, solo B n t k = Done a k1 /\ solo B n (c a) k1 = Done r k'.
Proof.
  revert t k. induction n as [|n IH]; intros t k; [done|]. unfold mbind at 1, prog_bind.
  cbn [solo]. rewrite observe_bind. destruct (observe t) as [a|u|A e h]; cbn [observe _observe].
  - intros H. exists a, k. split; [done|exact H].
  - intros (a & k1 & H1 & H2)%IH. exists a, k1. split; [done|]. exact (solo_mono n (S n) (c a) _ r k' ltac:(lia) H2).
  - unfold mbind at 1 2, M_bind. destruct (handle B e k) as [x k1|]; [|done]. intros (a & k2 & H1 & H2)%IH.
    exists a, k2. split; [done|]. exact (solo_mono n (S n) (c a) _ r k' ltac:(lia) H2).
Qed.

(** ** The library

    [does t m]: what the tree [t] does when it runs alone is what [m] does. *)
Definition does {R} (t : prog R) (m : M K R) : Prop := forall n k r k', solo B n t k = Done r k' -> m k = Done r k'.

Lemma does_ret {R} (r : R) : does (mret r) (mret r).
Proof. by intros [|n] k r' k'. Qed.
Lemma does_bind {R T} (t : prog R) (m : M K R) (c : R -> prog T) (d : R -> M K T) :
  does t m -> (forall a, does (c a) (d a)) -> does (t ≫= c) (m ≫= d).
Proof.
  intros H1 H2 n k r k' (a & k1 & Ha & Hr)%solo_bind_inv. unfold mbind, M_bind. rewrite (H1 _ _ _ _ Ha).
  by apply (H2 a n).
Qed.
Lemma solo_do {A} n (e : userE A) k r k' : solo B n (do_ e) k = Done r k' -> handle B e k = Done r k'.
Proof.
  destruct n as [|[|n]]; [done| |]; cbn; unfold mbind, M_bind; by destruct (handle B e k).
Qed.
Lemma does_event {A} (e : userE A) (m : M K A) : (forall k r k', handle B e k = Done r k' -> m k = Done r k') -> does (do_ e) m.
Proof. intros H n k r k' E. by apply H, (solo_do n). Qed.

Lemma does_syscall num a1 a2 a3 a4 a5 : does (syscall num a1 a2 a3 a4 a5) (Lib.syscall B num a1 a2 a3 a4 a5).
Proof.
  apply does_event. intros k r k'. cbn [handle]. unfold mbind, M_bind. destruct (Lib.syscall _ _ _ _ _ _ _ k); [|done].
  case_match; [done|]. by intros [= -> ->].
Qed.
(** But for execve, the same in both directions. *)
Lemma syscall_is n num a1 a2 a3 a4 a5 k : u32 num <> SYS_execve -> (2 <= n)%nat ->
  solo B n (syscall num a1 a2 a3 a4 a5) k = Lib.syscall B num a1 a2 a3 a4 a5 k.
Proof.
  intros Hn Hle. destruct n as [|[|n]]; [lia..|]. cbn. unfold mbind, M_bind. apply Z.eqb_neq in Hn. rewrite Hn.
  destruct (Lib.syscall _ _ _ _ _ _ _ k); done.
Qed.
Lemma syscall_conv {A} n num a1 a2 a3 a4 a5 (f : Z -> A) k : u32 num <> SYS_execve -> (2 <= n)%nat ->
  solo B n (r ← syscall num a1 a2 a3 a4 a5; mret (f r)) k = (r ← Lib.syscall B num a1 a2 a3 a4 a5; mret (f r)) k.
Proof.
  intros Hn Hle. destruct n as [|[|n]]; [lia..|]. cbn. unfold mbind, M_bind. apply Z.eqb_neq in Hn. rewrite Hn.
  destruct (Lib.syscall _ _ _ _ _ _ _ k); done.
Qed.
Lemma does_unsigned t m : does t m -> does (unsigned t) (Lib.unsigned m).
Proof. intros H. apply does_bind; [done|]. intros a. apply does_ret. Qed.

Lemma does_load a : fits 32 a -> does (load a) (Lib.load B a).
Proof.
  intros Ha. unfold load, Lib.load. intros n k r k' H.
  apply (does_bind (do_ (Fetch 4 (u32 a))) (in_mm (user_bytes 4 a)) (fun bs => mret (word_of bs)) (fun bs => mret (word_of bs))) in H.
  - revert H. unfold user_word, in_mm, in_heap, in_env, zoom, mbind, M_bind. by destruct (user_bytes 4 a _).
  - apply does_event. intros k0 r0 k0'. cbn [handle]. unfold mbind, M_bind, get. rewrite (u32_small a Ha). by destruct (user_fault _ _ _ _).
  - intros bs. apply does_ret.
Qed.
Lemma does_put a bs : does (do_ (Store a bs)) (in_mm (user_store a bs)).
Proof.
  apply does_event. intros k0 r0 k0'. cbn [handle]. unfold mbind, M_bind, get. by destruct (user_fault _ _ _ _).
Qed.
Lemma does_store a v : fits 32 a -> does (store a v) (Lib.store B a v).
Proof. intros Ha. unfold store. rewrite (u32_small a Ha). apply does_put. Qed.

(** A loop: a turn, and the rest of it. *)
Lemma solo_loop {A R} n (body : A -> prog (A + R)) a k r k' : solo B n (loop body a) k = Done r k' ->
  exists x k1, solo B n (body a) k = Done x k1 /\
    match x with inl a' => exists m, (m < n)%nat /\ solo B m (loop body a') k1 = Done r k' | inr r' => r' = r /\ k1 = k' end.
Proof.
  intros H. assert (H' : solo B n (body a ≫= fun x => match x with inl a' => Tau (loop body a') | inr r' => Ret r' end) k = Done r k').
  { destruct n; [done|]. exact H. }
  apply solo_bind_inv in H' as (x & k1 & H1 & H2). exists x, k1. split; [done|].
  destruct n as [|n]; [done|]. destruct x as [a'|r']; cbn in H2.
  - exists n. split; [lia|done].
  - by injection H2 as -> ->.
Qed.

(** [n] turns are enough for getchar in a run of [n] events. *)
Lemma cgetc_does n k r k' : solo B n sys_cgetc k = Done r k' -> Lib.sys_cgetc B n k = Done r k'.
Proof.
  revert k. induction (lt_wf n) as [n _ IH]. intros k H. destruct n as [|n]; [done|].
  apply solo_loop in H as (x & k1 & H1 & H2).
  apply (does_bind _ (Lib.syscall B SYS_cgetc 0 0 0 0 0) _ (fun c => mret (if c =? 0 then inl tt else inr c)) (does_syscall _ _ _ _ _ _)) in H1.
  2: { intros c. destruct (c =? 0); apply does_ret. }
  cbn [Lib.sys_cgetc]. revert H1. unfold mbind, M_bind. destruct (Lib.syscall _ _ _ _ _ _ _ k) as [c k2|]; [|done].
  intros [= <- <-]. destruct (c =? 0); [|by destruct H2 as [-> ->]].
  destruct H2 as (m & Hm & H2). apply (IH n); [lia|]. by apply (solo_mono m); [lia|].
Qed.

Section link.
Context {L : Link}.
Context (Hstatic : forall s, fits 32 (static s)).

Lemma does_printf fmt args : does (printf fmt args) (Lib.printf B printf_buf (c_str fmt) args).
Proof.
  unfold printf, Lib.printf. destruct (vsprintf (c_str fmt) args) as [o| |].
  - apply does_bind; [apply does_put|]. intros []. apply does_bind.
    { apply does_bind; [apply does_syscall|]. intros a. apply does_ret. }
    intros []. apply does_ret.
  - intros [|[|n]] k r k'; done.
  - intros [|[|n]] k r k'; done.
Qed.

Lemma does_readdir dirp : does (readdir dirp) (Lib.readdir B (static "dirents") (static "dirents_i") dirp).
Proof using Hstatic.
  unfold readdir, Lib.readdir. apply does_bind; [by apply does_load|]. intros i.
  apply does_bind; [by apply does_store|]. intros []. apply does_bind; [apply does_syscall|]. intros r. destruct (r <? 0); [|apply does_ret].
  apply does_bind; [by apply does_load|]. intros j. apply does_bind; [by apply does_store|]. intros []. apply does_ret.
Qed.

Lemma does_opendir path : does (opendir path) (Lib.opendir B (static "dirs") (static "dirs_i") path).
Proof using Hstatic.
  unfold opendir, Lib.opendir. apply does_bind; [by apply does_load|]. intros i.
  apply does_bind; [by apply does_store|]. intros []. apply does_bind; [apply does_syscall|]. intros fd.
  apply does_bind; [apply does_store, u32_fits|]. intros []. apply does_bind; [apply does_load, u32_fits|]. intros dd.
  destruct (i32 dd <? 0); [|apply does_ret].
  apply does_bind; [by apply does_load|]. intros j. apply does_bind; [by apply does_store|]. intros []. apply does_ret.
Qed.

(** [same t m]: with fuel for its two events, what [t] does alone is what [m] does. *)
Definition same {R} (t : prog R) (m : M K R) : Prop := forall n k, (3 <= n)%nat -> solo B n t k = m k.

Lemma same_syscall num a1 a2 a3 a4 a5 : u32 num <> SYS_execve -> same (syscall num a1 a2 a3 a4 a5) (Lib.syscall B num a1 a2 a3 a4 a5).
Proof. intros Hne n k Hn. apply syscall_is; [done|lia]. Qed.
Lemma same_conv {A} num a1 a2 a3 a4 a5 (f : Z -> A) : u32 num <> SYS_execve ->
  same (r ← syscall num a1 a2 a3 a4 a5; mret (f r)) (r ← Lib.syscall B num a1 a2 a3 a4 a5; mret (f r)).
Proof. intros Hne n k Hn. apply syscall_conv; [done|lia]. Qed.

(** ** Properties *)

(** The library that programs are written with here is the library of Lib: a call run
    from its program does what the function of lib/ does to the kernel, and gives the
    program the same result, whatever the kernel's state is. The functions that use the
    memory of the program do so in every run in which that memory can be accessed from
    user mode, and execve, exit and the like in every run that comes back. *)
Theorem user_library_is_lib a b c fmt args : fits 32 a ->
  Forall (fun '(t, m) => same t m)
    [(getpid, Lib.getpid B); (exit a, Lib.exit B a); (fork, Lib.fork B); (wait a, Lib.wait B a);
     (signal a b, Lib.signal B a b); (alarm a, Lib.alarm B a); (kill a b, Lib.kill B a b); (pause, Lib.pause B);
     (sleep a, Lib.sleep B a); (open a b c, Lib.open B a b c); (close a, Lib.close B a); (read a b c, Lib.read B a b c);
     (write a b c, Lib.write B a b c); (chdir a, Lib.chdir B a); (getcwd a b, Lib.getcwd B a b); (stat a b, Lib.stat B a b);
     (mkdir a b, Lib.mkdir B a b); (rmdir a, Lib.rmdir B a); (creat a b, Lib.creat B a b); (unlink a, Lib.unlink B a);
     (brk a, Lib.brk B a); (sbrk a, Lib.sbrk B a); (shmget a b c, Lib.shmget B a b c); (shmat a b c, Lib.shmat B a b c);
     (shmdt a, Lib.shmdt B a); (sem_init a b c, Lib.sem_init B a b c); (sem_wait a, Lib.sem_wait B a);
     (sem_trywait a, Lib.sem_trywait B a); (sem_post a, Lib.sem_post B a); (sem_getvalue a b, Lib.sem_getvalue B a b)] /\
  Forall (fun '(t, m) => same t m)
    [(sys_cputs a b, Lib.sys_cputs B a b); (sys_yield, Lib.sys_yield B); (sys_dongu, Lib.sys_dongu B)] /\
  Forall (fun '(t, m) => does t m)
    [(execve a b, Lib.execve B a b); (readdir a, Lib.readdir B (static "dirents") (static "dirents_i") a);
     (opendir a, Lib.opendir B (static "dirs") (static "dirs_i") a); (closedir a, Lib.closedir B a);
     (printf fmt args, Lib.printf B printf_buf (c_str fmt) args)] /\
  does (putchar a) (Lib.putchar B printf_buf a) /\
  forall n k r k', solo B n getchar k = Done r k' -> Lib.getchar B n k = Done r k'.
Proof using Hstatic.
  intros Ha. split_and!.
  - repeat (apply Forall_cons; split); [..|by apply Forall_nil_2];
      first [apply same_syscall; done | apply same_conv; done | idtac].
    + intros n k Hn. destruct n as [|[|[|n]]]; [lia..|]. unfold brk, unsigned, syscall, do_, mbind, prog_bind. cbn.
      unfold Lib.brk, Lib.unsigned, mbind, M_bind, mret, M_ret, prog_ret. destruct (Lib.syscall _ _ _ _ _ _ _ k) as [r k1|]; [|done].
      change (u32 SYS_brk =? SYS_execve) with false. cbn.
      match goal with |- context [observe ?t] => change (observe t) with (observe (if negb (u32 r =? a) then Ret (-1) else Ret 0 : prog Z)) end.
      by destruct (u32 r =? a).
    + intros n k Hn. destruct n as [|[|[|n]]]; [lia..|]. unfold sbrk, unsigned, syscall, do_, mbind, prog_bind. cbn.
      unfold Lib.sbrk, Lib.unsigned, mbind, M_bind, mret, M_ret, prog_ret. destruct (Lib.syscall _ _ _ _ _ _ _ k) as [r k1|]; [|done].
      change (u32 SYS_brk =? SYS_execve) with false. cbn. destruct (Lib.syscall B _ _ _ _ _ _ k1) as [r' k2|]; done.
  - repeat (apply Forall_cons; split); [..|by apply Forall_nil_2]; by apply same_conv.
  - repeat (apply Forall_cons; split); [..|by apply Forall_nil_2].
    + apply does_syscall.
    + apply does_readdir.
    + apply does_opendir.
    + apply does_bind; [by apply does_load|]. intros fd. apply does_bind; [apply does_syscall|]. intros r.
      destruct (r <? 0); apply does_ret.
    + apply does_printf.
  - apply does_bind; [apply does_printf|]. intros _. apply does_ret.
  - apply cgetc_does.
Qed.
End link.

(** * Programs on the machine *)

Section machine.
Context (code : K -> Z -> option (Z -> prog Z)).
Notation W := (machine D).
Implicit Types w : W.

Definition acts_of w (t : Z) : list act := default [] (m_threads w !! t).

Lemma on_kern_run {A} (m : M K A) w a k : m (m_kern w) = Done a k -> on_kern m w = Done a (set_m_kern k w).
Proof. intros E. unfold on_kern, zoom. by rewrite E. Qed.

#[local] Ltac go H := rewrite (bind_done _ _ _ _ _ H).
Lemma on_kern_bind {A C} (m : M K A) (f : A -> M W C) k ths cur a k' : m k = Done a k' ->
  (on_kern m ≫= f) (mkMachine k ths cur) = f a (mkMachine k' ths cur).
Proof. intros E. unfold on_kern, zoom, mbind, M_bind. cbn [m_kern]. by rewrite E. Qed.
#[local] Ltac gok H := rewrite (on_kern_bind _ _ _ _ _ _ _ H).

Lemma curr_wr_none f k : k_tasks k !! k_curr k = None -> curr_wr f k = Stop BadAccess.
Proof. intros E. unfold curr_wr, t_wr, t_rd, task_curr. m_unfold. by rewrite E. Qed.
Lemma curr_tf_none k : k_tasks k !! k_curr k = None -> curr_tf k = Stop BadAccess.
Proof. intros E. unfold curr_tf, curr_rd, t_rd, task_curr. m_unfold. by rewrite E. Qed.

(** The way into the kernel and back, as Lib has it. *)
Lemma syscall_inv num a1 a2 a3 a4 a5 k r k' : Lib.syscall B num a1 a2 a3 a4 a5 k = Done r k' ->
  exists c k1 c1, let tf := enter num a1 a2 a3 a4 a5 (t_tf c) in
    k_tasks k !! k_curr k = Some c /\
    (curr_wr (fun c => set_t_tf (enter num a1 a2 a3 a4 a5 (t_tf c)) c) ;; tf ← curr_tf; trap_handler B false 0 tf) k = Done tt k1 /\
    k_tasks k1 !! k_curr k1 = Some c1 /\ k_curr k1 = k_curr k /\ tf_eip (t_tf c1) = tf_eip (t_tf c) /\
    tf_esp (t_tf c1) = tf_esp (t_tf c) /\ sti k1 = Done tt k' /\ r = i32 (tf_eax (t_tf c1)).
Proof.
  unfold Lib.syscall. go (task_curr_run k). intros H.
  destruct (k_tasks k !! k_curr k) as [c|] eqn:Hc.
  2: { by rewrite (bind_stop _ _ _ _ (curr_wr_none _ k Hc)) in H. }
  pose proof (curr_wr_run (fun c => set_t_tf (enter num a1 a2 a3 a4 a5 (t_tf c)) c) k c Hc) as Ew.
  set (k0 := set_k_tasks _ k) in Ew. rewrite (bind_done _ _ _ _ _ Ew) in H.
  assert (Et : curr_tf k0 = Done (enter num a1 a2 a3 a4 a5 (t_tf c)) k0).
  { unfold curr_tf. assert (Hc0 : k_tasks k0 !! k_curr k0 = Some (set_t_tf (enter num a1 a2 a3 a4 a5 (t_tf c)) c)) by apply lookup_insert_eq.
    by go (curr_rd_run k0 _ Hc0). }
  rewrite (bind_done _ _ _ _ _ Et) in H.
  unfold mbind at 1, M_bind in H. destruct (trap_handler _ _ _ _ k0) as [[] k1|] eqn:Eh; [|done].
  unfold trapret in H. rewrite (bind_done _ _ _ _ _ (task_curr_run k1)) in H.
  destruct (k_tasks k1 !! k_curr k1) as [c1|] eqn:Hc1.
  2: { by rewrite (bind_stop _ _ _ _ (curr_tf_none k1 Hc1)) in H. }
  assert (Et1 : curr_tf k1 = Done (t_tf c1) k1) by (unfold curr_tf; by go (curr_rd_run k1 _ Hc1)).
  rewrite (bind_done _ _ _ _ _ Et1) in H.
  destruct ((k_curr k1 =? k_curr k) && (tf_eip (t_tf c1) =? _) && (tf_esp (t_tf c1) =? _)) eqn:Hb; [|done].
  apply andb_true_iff in Hb as [[H1%Z.eqb_eq H2%Z.eqb_eq]%andb_true_iff H3%Z.eqb_eq].
  exists c, k1, c1. split_and!; try done.
  - go Ew. by go Et.
  - revert H. unfold mbind, M_bind. destruct (sti k1) as [[] k2|] eqn:Es; [|done]. by intros [= _ <-].
  - revert H. unfold mbind, M_bind. destruct (sti k1) as [[] k2|] eqn:Es; [|done]. by intros [= <- _].
Qed.

Lemma curr_tf_run k c : k_tasks k !! k_curr k = Some c -> curr_tf k = Done (t_tf c) k.
Proof. intros Hc. unfold curr_tf. by go (curr_rd_run k c Hc). Qed.
Lemma sti_run k k' : sti k = Done tt k' -> k' = set_k_cpu (cpu_of k') k.
Proof. unfold sti. m_unfold. by intros [= <-]. Qed.

(** A system call that comes back, as a step of the machine. *)
Lemma int80_step num a1 a2 a3 a4 a5 w c r k' :
  Lib.syscall B num a1 a2 a3 a4 a5 (m_kern w) = Done r k' -> (u32 num =? SYS_execve) && (0 <=? r) = false ->
  exists w', trap_from B code (enter num a1 a2 a3 a4 a5) 0 c w = Done tt w' /\ m_kern w' = k' /\ m_cur w' = c r /\
    k_curr k' = k_curr (m_kern w) /\ acts_of w' (k_curr k') = acts_of w (k_curr k').
Proof.
  intros H Hx. destruct w as [k ths cur]. cbn [m_kern] in H.
  destruct (syscall_inv _ _ _ _ _ _ _ _ _ H) as (t & k1 & t1 & Ht & Hrun & Ht1 & Hcur & Hip & Hsp & Hsti & Hr).
  set (tf := enter num a1 a2 a3 a4 a5 (t_tf t)) in *.
  set (l := acts_of (mkMachine k ths cur) (k_curr k)).
  unfold trap_from. gok (task_curr_run k). gok (curr_tf_run k t Ht).
  change ((acts (k_curr k) ≫= ?f) ?m) with (f l m). cbv beta.
  set (ths1 := <[k_curr k := mkAct (tf_eip (t_tf t)) (tf_esp (t_tf t)) c :: l]> ths).
  assert (Es : set_acts (k_curr k) (mkAct (tf_eip (t_tf t)) (tf_esp (t_tf t)) c :: l) (mkMachine k ths cur) = Done tt (mkMachine k ths1 cur)) by done.
  go Es. change ((get ≫= ?f) ?m) with (f m m). cbv beta. gok Hrun.
  change ((modify ?g ≫= ?f) ?m) with (f tt (g m)). cbv beta.
  set (ths2 := m_threads (inherit (k_curr k) (k_tasks k) (mkMachine k1 ths1 cur))).
  change (inherit _ _ _) with (mkMachine k1 ths2 cur).
  assert (Eths : ths2 !! k_curr k = Some (mkAct (tf_eip (t_tf t)) (tf_esp (t_tf t)) c :: l)).
  { unfold ths2, inherit. cbn. rewrite map_lookup_imap. rewrite <- Hcur at 1. rewrite Ht1. cbn. f_equal.
    rewrite bool_decide_eq_true_2 by (by rewrite Ht). unfold ths1. by rewrite lookup_insert_eq. }
  set (w1 := mkMachine k1 ths2 cur).
  assert (Erep : replaced (tf_eax tf) (k_curr k) w1 = Done tt w1).
  { unfold replaced, w1. gok (task_curr_run k1). gok (curr_tf_run k1 t1 Ht1). change (tf_eax tf) with (u32 num).
    rewrite Hcur, Z.eqb_refl, andb_true_r, <- Hr, Hx. done. }
  go Erep. unfold land, w1. gok (task_curr_run k1). gok (curr_tf_run k1 t1 Ht1). gok Hsti. rewrite Hcur.
  change ((acts (k_curr k) ≫= ?f) ?m) with (f (default [] (ths2 !! k_curr k)) m). cbv beta. rewrite Eths.
  cbn [default from_option id find_act a_eip a_esp]. rewrite Hip, Hsp, !Z.eqb_refl. cbn [andb]. rewrite <- Hr.
  eexists. split; [reflexivity|]. pose proof (sti_run _ _ Hsti) as ->. split_and!; [done|done|exact Hcur|].
  unfold acts_of at 1. cbn. rewrite Hcur, lookup_insert_eq. done.
Qed.

(** An event of the program alone. *)
Lemma in_mm_curr {A} (m : M mm A) k a k' : in_mm m k = Done a k' -> k_curr k' = k_curr k.
Proof. unfold in_mm, in_heap. destruct (in_env m _); [|done]. by intros [= _ <-]. Qed.

Lemma event_step {A} (e : userE A) w c x k' : handle B e (m_kern w) = Done x k' ->
  exists w', run_event B code e c w = Done tt w' /\ m_kern w' = k' /\ m_cur w' = c x /\
    k_curr k' = k_curr (m_kern w) /\ acts_of w' (k_curr k') = acts_of w (k_curr k').
Proof.
  destruct w as [k ths cur]. cbn [m_kern]. destruct e as [num a1 a2 a3 a4 a5|n a|a bs| |trapno cr2|f]; cbn [handle run_event]; intros H; [| | | |done..].
  - revert H. unfold mbind, M_bind. destruct (Lib.syscall _ _ _ _ _ _ _ k) as [r k1|] eqn:Es; [|done].
    destruct ((u32 num =? SYS_execve) && (0 <=? r)) eqn:Hx; [done|]. intros [= <- <-].
    exact (int80_step _ _ _ _ _ _ (mkMachine k ths cur) c _ _ Es Hx).
  - unfold access. change ((get ≫= ?f) ?m) with (f m m). cbv beta. change ((get ≫= ?f) k) with (f k k) in H. cbv beta in H. cbn [m_kern].
    destruct (user_fault _ _ _ _); [done|]. gok H. eexists. split; [reflexivity|]. split_and!; try done. exact (in_mm_curr _ _ _ _ H).
  - unfold access. change ((get ≫= ?f) ?m) with (f m m). cbv beta. change ((get ≫= ?f) k) with (f k k) in H. cbv beta in H. cbn [m_kern].
    destruct (user_fault _ _ _ _); [done|]. gok H. eexists. split; [reflexivity|]. split_and!; try done. exact (in_mm_curr _ _ _ _ H).
  - revert H. destruct (k_tasks k !! k_curr k) as [t|] eqn:Ht.
    2: { by rewrite (bind_stop _ _ _ _ (curr_tf_none k Ht)). }
    go (curr_tf_run k t Ht). intros [= <- <-]. gok (curr_tf_run k t Ht). by eexists.
Qed.

Lemma run_cons a l w : run B code (a :: l) w = (step B code a ;; run B code l) w.
Proof. done. Qed.

(** A program whose system calls come back to it runs on the machine, through traps
    and the return of the processor, as it runs alone: if the tree [t] alone ends with
    [r] in the kernel's state [k'], then a machine with that kernel whose processor is at
    [t], in front of any continuation [c], comes after finitely many steps to the
    beginning of [c r] with the kernel's state [k'], in the same task, and with what is
    suspended in that task unchanged. [code], what the memory holds as code, does not
    matter. *)
Theorem machine_runs_program {R} n (t : prog R) (c : R -> prog Z) w r k' :
  solo B n t (m_kern w) = Done r k' -> observe (m_cur w) = observe (t ≫= c) ->
  exists j w', run B code (replicate j Run) w = Done tt w' /\ m_kern w' = k' /\ observe (m_cur w') = observe (c r) /\
    k_curr k' = k_curr (m_kern w) /\ acts_of w' (k_curr k') = acts_of w (k_curr k').
Proof.
  revert t w. induction n as [|n IH]; intros t w H Hw; [done|]. unfold mbind at 1, prog_bind in Hw.
  rewrite observe_bind in Hw. cbn [solo] in H. destruct (observe t) as [a|u|A e h].
  - injection H as <- <-. by exists 0%nat, w.
  - cbn in Hw. assert (E : step B code Run w = Done tt (mkMachine (m_kern w) (m_threads w) (ITree.bind u c))).
    { unfold step. change ((get ≫= ?f) ?m) with (f m m). cbv beta. by rewrite Hw. }
    destruct (IH u (mkMachine (m_kern w) (m_threads w) (ITree.bind u c)) H eq_refl) as (j & w' & Hr & Hrest).
    exists (S j), w'. split; [|exact Hrest]. cbn [replicate]. rewrite run_cons. by go E.
  - cbn in Hw. revert H. unfold mbind at 1, M_bind. destruct (handle B e (m_kern w)) as [x k1|] eqn:Eh; [|done].
    intros H. destruct (event_step e w (fun x => ITree.bind (h x) c) x k1 Eh) as (w1 & E1 & Ek & Ec & Hcur & Ha).
    assert (E : step B code Run w = Done tt w1).
    { unfold step. change ((get ≫= ?f) ?m) with (f m m). cbv beta. by rewrite Hw. }
    rewrite <- Ek in H. destruct (IH (h x) w1 H) as (j & w' & Hr & Hk & Ho & Hcur' & Ha').
    { by rewrite Ec. }
    exists (S j), w'. rewrite Ek in *. split_and!; [|done|done|congruence|congruence].
    cbn [replicate]. rewrite run_cons. by go E.
Qed.
End machine.
End solo.

(** ** Witnesses

    A program that asks for its number and prints it. *)

Definition demo_link : Link := {| lit _ := 0x1100; static _ := 0x1200; func _ := 0x9000 |}.
Definition demo_tree : prog Z :=
  p ← getpid; printf (L := demo_link) "task %d\n" [VInt p] ;; sys_yield ;; mret (p + 1).
Definition demo_code (k : kern (sys pc)) (eip : Z) : option (Z -> prog Z) := None.
Definition demo_machine : machine pc := mkMachine demo_reader ∅ (demo_tree ≫= fun r => spin).

Lemma machine_runs_program_witness :
  match solo demo_build 20 demo_tree demo_reader with
  | Done r k' => r = 2 /\ exists j w', run demo_build demo_code (replicate j Run) demo_machine = Done tt w' /\ m_kern w' = k' /\
      observe (m_cur w') = observe (spin : prog Z) /\ k_curr k' = 1 /\ acts_of w' (k_curr k') = []
  | Stop _ => False
  end.
Proof.
  destruct (solo demo_build 20 demo_tree demo_reader) as [r k'|f] eqn:E.
  - assert (Er : match solo demo_build 20 demo_tree demo_reader with Done r _ => r =? 2 | Stop _ => false end = true) by (vm_compute; reflexivity).
    rewrite E in Er. split; [by apply Z.eqb_eq|].
    destruct (machine_runs_program demo_build demo_code 20 demo_tree (fun r => spin) demo_machine r k' E eq_refl)
      as (j & w' & H1 & H2 & H3 & H4 & H5).
    exists j, w'. split_and!; [exact H1|exact H2|exact H3|exact H4|exact H5].
  - assert (Er : match solo demo_build 20 demo_tree demo_reader with Done r _ => true | Stop _ => false end = true) by (vm_compute; reflexivity).
    rewrite E in Er. discriminate.
Defined.

Lemma user_library_is_lib_witness :
  same (D := pc) demo_build (sbrk 0x1100) (Lib.sbrk demo_build 0x1100) /\
  does (D := pc) demo_build (putchar (L := demo_link) 0x1100) (Lib.putchar demo_build (printf_buf (L := demo_link)) 0x1100).
Proof.
  assert (Hs : forall s, fits 32 (static (Link := demo_link) s)) by (intros s; by split).
  assert (Ha : fits 32 0x1100) by by split.
  destruct (user_library_is_lib (D := pc) demo_build (L := demo_link) Hs 0x1100 0 0 EmptyString [] Ha) as (H1 & _ & _ & H4 & _).
  split; [|exact H4]. do 21 (apply Forall_inv_tail in H1). exact (Forall_inv H1).
Defined.
