(* ===== verification/TestRuns.v ===== *)
(** Recorded runs of the test programs of the repository on the whole kernel, as tests of
    the model: a machine with a RAM disk, a
    serial port that records what is printed, a program in memory, and what each of
    the programs prints on it.

    The program under test is the kernel's only task, number 1, or the child of that task,
    which spins. The first program was loaded by execve, so that the stack is as execve leaves
    it; the pages at 0x100000 are what the linker would give the test programs: their literals, the
    variables of the library, and their arrays. *)

From S2P Require Import Prelude Spinlock ListSpec IdHash Util Vsprintf Fs DenemeFs DenemeRefine Vfs VfsFile VfsProps Cga CgaProps Keyboard.
From S2P Require Import PhysMem VirtMem VirtMap VirtProps UserMem Descr Kmalloc FsHeap Task Sched SchedProps Console ConsoleProps Ipc Process ProcessProps.
From S2P Require Import Syscall Trap System Exec ExecProps Pic Monitor MonitorLine Boot BootProps Lib LibProps User TestFiles TestSignals TestIpc TestTasks.
From ITree Require ITree.
Import ITree.Core.ITreeDefinition.

(** * Definitions *)

(** ** The program in memory *)

Definition literals : list cstr := c_str <$>
  ["fs"; "test1"; "test2"; "test3"; "test4"; "test5"; "test6"; "test7"; "y1"; "y2"; "shmtest"; "semtest"; "shmfork"; "brktest"; "stacktest"; "openfile"; "readfile";
   "readdir"; "chdir"; "stat"; "writefile"; "mkdir_rmdir"; "creat_unlink"; "stdio"; "dosya1"; "dosya2"; "/bin/forktest";
   "dosyaya yazma deneme"; "."; "dir1"; "dir11"; ".."; "/dir1/dir11"; "//"; "/"; "/dosya1"; "/home"; "/home/dir2";
   "/home/dir1"; "/home/dir1/dir11"; "/home/dir1/dir11/dir111"; "/home/home"; "/home/home/dir1"; "/home/deneme.txt";
   "/home/ro.txt"; "deneme"; "aaaaa"; "/stdout"; "stdout'a yazilan birsey\n"; "test"; ""; "/initrd/init_programs"]%string.
Definition literal_pool : list Z := literals ≫= fun s => s ++ [0].
Fixpoint offset_of (s : cstr) (l : list cstr) : Z :=
  match l with
  | [] => 0
  | x :: l => if bool_decide (x = s) then 0 else Z.of_nat (length x) + 1 + offset_of s l
  end.
(** The position of a name. *)
Fixpoint index_of (s : string) (l : list string) : Z :=
  match l with [] => 0 | x :: l => if bool_decide (x = s) then 0 else 1 + index_of s l end.

Definition handler_names : list string := (signal_handlers (L := {| lit _ := 0; static _ := 0; func _ := 0 |})
  (mkLibc (fun _ _ => mret 0) (fun _ _ => mret 0) (fun _ => mret 0) (fun _ => mret 0) (fun _ _ => mret 0) (fun _ => mret 0) (mret 0) (mret 0))).*1.
Definition variables : list (string * Z) :=
  [("printf.buf", 0x101000); ("dirs_i", 0x101800); ("dirents_i", 0x101804); ("i_test1", 0x101808); ("i", 0x10180c);
   ("sem", 0x101810); ("dirs", 0x101900); ("lines", 0x101c00); ("buf", 0x102000); ("dirents", 0x103000)]%string.
#[export] Instance test_link : Link := {
  lit s := 0x100000 + offset_of s literals;
  static v := default 0 (snd <$> head (filter (fun x => x.1 = v) variables));
  func f := 0x8100 + index_of f handler_names;
}.
(** The arrays of a main function, and its argv. *)
Definition local_array : Z := 0x102800.
Definition argv_array : Z := 0x100f00.

(** The program that the disk's file is: it prints its arguments, in its one page. *)
Definition exec_link : Link := {| lit _ := 0x8200; static _ := 0x8800; func _ := 0x8100 |}.
Definition exec_main (esp : Z) : prog Z :=
  argc ← load (esp + 4); argv ← load (esp + 8);
  print_args (printf (L := exec_link)) argc argv ;; mret 0.

(** What the processor finds at an address. *)
Definition test_code (k : kern (sys pc)) (eip : Z) : option (Z -> prog Z) :=
  if eip =? 0x8004 then Some exec_main
  else if (0x8100 <=? eip) && (eip <? 0x8108) then handler <$> (snd <$> signal_handlers makarna !! Z.to_nat (eip - 0x8100))
  else None.

(** ** The machine *)

(** A tar file: the name, the octal size and the bytes of every file. *)
Definition tar_file (name size : string) (data : list Z) : list Z :=
  pad 124 (c_str name) ++ pad 32 (c_str size) ++ pad 356 [48] ++ pad 512 data.
Definition init_script : cstr := c_str "# programs\n/initrd/init a bc\n\n".
Definition test_disk : list Z :=
  tar_file "./init" "00000000134" (demo_elf [1; 2; 3; 4; 5; 6; 7; 8]) ++
  tar_file "./init_programs" "00000000036" init_script ++ replicate 512 0.

Section machine.
#[local] Instance KernEnv_test : KernEnv (sys pc) := KernEnv_lib demo_build.
Notation K := (kern (sys pc)).

Definition test_pages : list Z := [0x100000; 0x101000; 0x102000; 0x103000; 0x104000].
Definition place_program : M K unit :=
  in_mm (iterM (fun va => _ ← page_alloc_insert 100 va PUW; mret tt) test_pages ;;
         dir_wr 100 (add_count_program 5) ;;
         user_store 0x100000 literal_pool ;;
         user_put (static "i") 5) ;;
  shm_init ;; sti.

(** The kernel with the program in its only task, or in the child of a task that spins. *)
Definition task_kernel : option K :=
  match start_program test_disk [Some (c_str "init")] with
  | Done None k => match place_program k with Done _ k => Some k | _ => None end
  | _ => None
  end.
Definition child_kernel : option K :=
  k ← task_kernel;
  match Lib.fork demo_build k with Done 4 k => Some k | _ => None end.
Definition child_of (k : K) : Z := default 0 (head (filter (fun t => t <> 100) (map_to_list (k_tasks k)).*1)).

(** [p] in the only task or in the child, with [keys] typed on the keyboard. *)
Definition type_keys (keys : list Z) (k : K) : K :=
  let s := k_heap k in let c := sys_con s in
  set_k_heap (mkSys (sys_vfs s) (set_con_dev (mkPc (pc_index (con_dev c)) (pc_regs (con_dev c)) keys [] []) c)) k.
Definition task_machine (keys : list Z) (p : prog Z) (k : K) : machine pc := mkMachine (type_keys keys k) ∅ p.
Definition child_machine (keys : list Z) (p : prog Z) (k : K) : machine pc :=
  let t := child_of k in
  let tf := t_tf <$> k_tasks k !! t in
  mkMachine (type_keys keys k) {[t := [mkAct (from_option tf_eip 0 tf) (from_option tf_esp 0 tf) (fun _ => p)]]} spin.

(** argv in memory, and the main function. *)
Fixpoint put_args (args : list string) (a s : Z) : prog unit :=
  match args with
  | [] => mret tt
  | x :: args =>
      do_ (User.Store s (c_str x ++ [0])) ;; store a s ;;
      put_args args (a + 4) (s + Z.of_nat (String.length x) + 1)
  end.
Definition call_main (main : Z -> Z -> prog Z) (args : list string) : prog Z :=
  put_args args argv_array (argv_array + 0x40) ;; main (Z.of_nat (length args)) argv_array.

(** [n] times thirty events of programs and a tick of the timer. *)
Definition ticks (n : nat) : list tick := mjoin (replicate n (replicate 30 Run ++ [Irq 0])).
(** The interrupt of the keyboard. *)
Definition key : list tick := [Irq 1].

(** How the program ended: main is about to return, the task is a zombie, the kernel
    stops, or the events are over. *)
Inductive test_end := Returned (v : Z) | Exited (status : Z) | Stops (f : fault) | Runs.
Definition main_returns (m : machine pc) : option test_end :=
  match observe (m_cur m) with RetF v => Some (Returned v) | _ => None end.
Definition task_exits (t : Z) (m : machine pc) : option test_end :=
  c ← k_tasks (m_kern m) !! t;
  if bool_decide (t_state c = State_zombie) then Some (Exited (t_exit_code c)) else None.

Fixpoint run_upto (ends : machine pc -> option test_end) (l : list tick) (m : machine pc) : test_end * machine pc :=
  match ends m, l with
  | Some e, _ => (e, m)
  | None, [] => (Runs, m)
  | None, a :: l =>
      match User.step demo_build test_code a m with Done _ m' => run_upto ends l m' | Stop f => (Stops f, m) end
  end.
(** The end, and what was printed. *)
Definition outcome_of (r : test_end * machine pc) : test_end * cstr :=
  (r.1, pc_sent (con_dev (sys_con (k_heap (m_kern r.2))))).
End machine.

(** ** The recorded runs *)

#[export] Instance fault_eq_decision : EqDecision fault.
Proof. solve_decision. Defined.
#[export] Instance test_end_eq_decision : EqDecision test_end.
Proof. solve_decision. Defined.

(** A program with its arguments, the keys and the events, and how it ended and what it
    printed. *)
Record test_run := mkRun {
  r_main : Z -> Z -> prog Z; r_args : list string; r_keys : list Z; r_ticks : list tick;
  r_end : test_end; r_text : string;
}.
Definition r_result (r : test_run) : test_end * cstr := (r_end r, c_str (r_text r)).
Definition run_task (k : kern (sys pc)) (r : test_run) : test_end * cstr :=
  outcome_of (run_upto main_returns (r_ticks r) (task_machine (r_keys r) (call_main (r_main r) (r_args r)) k)).
Definition run_child (k : kern (sys pc)) (r : test_run) : test_end * cstr :=
  outcome_of (run_upto (task_exits (child_of k)) (r_ticks r) (child_machine (r_keys r) (call_main (r_main r) (r_args r)) k)).

Definition no_irq (n : nat) : list tick := replicate n Run.
Definition fs_test (name : string) (e : test_end) (out : string) : test_run :=
  mkRun (fs_main (c_str "fs.c") local_array local_array) ["fs"%string; name] [] (no_irq 2000) e out.
Definition fs_runs : list test_run :=
  [fs_test "openfile" (Returned 0) "openfile:\n\nr 3\nclose r: 0\n";
   fs_test "readfile" (Returned (-1)) "readfile:\n\nopen dosya1\nfd1: 3\nr 10\nbuf: d1 icerik\n\nopen forktest\nfd2: -1\n";
   fs_test "readdir" (Returned 0) "readdir:\n\nhome\ndosya1\ndosya2\ndir1\ninitrd\n";
   fs_test "chdir" (Returned 0) ("chdir:\n\ncwd /\n\nchdir dir1\ncwd /dir1\n\nchdir dir11\n--\ncwd /dir1/dir11\n\n" ++
     "chdir .\ncwd /dir1/dir11\n\nchdir ..\ncwd /dir1\n\nchdir /dir1/dir11\ncwd /dir1/dir11\n\nchdir //\ncwd /\n");
   fs_test "stat" (Returned 0) ("stat:\n\n/\ndev\t123\nino\t0\nrdev\t0\nsize\t2020\n\n" ++
     "/dosya1\ndev\t123\nino\t2\nrdev\t0\nsize\t1000\n\n");
   fs_test "writefile" (Returned 0) ("writefile:\n\nro file write error OK\n\nrw file write OK\n\n" ++
     "ro file open rw error OK\n");
   fs_test "mkdir_rmdir" (Returned 0) "mkdir_rmdir:\n\nmkdir_rmdir OK\n";
   fs_test "creat_unlink" (Returned 0) "creat_unlink:\n\n";
   fs_test "stdio" (Stops BadAccess)
     "stdio:\n\nopen /stdout\nassertion failed! fs.c:427\n  0 (0) < fd (-1)\n";
   mkRun (cat_main (c_str "cat.c") local_array) ["cat"; "dosya1"] [] (no_irq 4000) (Returned 0) "d1 icerik"].

Definition memory_runs : list test_run :=
  [mkRun (ipctest_main local_array local_array) ["ipctest"; "semtest"] [] (no_irq 1000) (Returned 0)
     ("semaphore:\n\nsem_init: 0\nsem_getvalue r:-1 val:0\nsem_wait 0\nsem_getvalue r:-1 val:0\n" ++
      "sem_trywait -1\nsem_getvalue r:-1 val:0\nsem_post 0\nsem_getvalue r:-1 val:0\n");
   mkRun (processmemtest_main 64) ["processmemtest"; "brktest"] [] (no_irq 1000) (Returned 0)
     ("brktest:\n\nbrk = 00009000\nbrk(start-1) return: -1\nbrk(start+0x3000)  return: 0\nbrk = 0000c000\n" ++
      "brk(start+0x1000) return: 0\nbrk = 0000a000\nbrk = 0000a000\nbrk(start-1) return: 0\n" ++
      "brk(start+0x3ffe)  return: 0\nbrk = 0000dffe\nbrk(start+0xF) return: 0\nbrk = 0000a00f\n");
   mkRun (processmemtest_main 64) ["processmemtest"; "stacktest"] [] (no_irq 1000) (Returned 123)
     "stacktest:\n\nstacktest OK.\nesp: bfffffeb\n"].

(** The letter a is typed while the program waits, or before. *)
Definition task_runs : list test_run :=
  [mkRun (ipctest_main local_array local_array) ["ipctest"; "shmtest"] [] (ticks 20) (Exited 111)
     "shared memory:\n\nshmid: 1\nshm addr: 60000000\nwrite shared memory OK\nshmdt OK\n";
   mkRun (fun _ _ => divide_error_main) ["divide_error"] [] (ticks 10) (Exited 111) "";
   mkRun hello_main ["hello"; "x"] [0x1e] (ticks 20 ++ key ++ ticks 20) (Exited 0)
     "argc: 2\nargv[0]: hello\nargv[1]: x\nHello World!\nbir karakter girin:\nkarakter:a\nbitti\n";
   mkRun hello_main ["hello"; "x"] [0x1e] (key ++ ticks 40) Runs
     "argc: 2\nargv[0]: hello\nargv[1]: x\nHello World!\nbir karakter girin:\n";
   mkRun (forktest_main local_array) ["forktest"; "test2"] [] (ticks 250) (Exited 0)
     ("forktest: test2 - fork - wait:\n\nparent process calisiyor\nchild id: 5\nchild process 5 calisiyor\n" ++
      "pid 5: killed by signal 6\n4, sonlaniyor\n");
   mkRun signaltest_main ["signaltest"; "test2"] [] (ticks 250) Runs
     ("signaltest: test2 - 3 signal testi:\n\nchild\nsys_signal return = 00000000\nsys_signal return = 00000000\n" ++
      "PARENT: sendign SIGINT\nPARENT: sendign SIGQUIT\nPARENT: sendign SIGUP\nCHILD: signal 1 received\n" ++
      "CHILD: SIGINT received\nCHILD: SIGQUIT received\nexiting\n")].

(** * Theorems *)

(** The runs can be computed. *)
Lemma runs_computed {A} (o : option A) (run : A -> test_run -> test_end * cstr) (l : list test_run) :
  match o with Some k => bool_decide (run k <$> l = r_result <$> l) | None => false end = true ->
  exists k, o = Some k /\ run k <$> l = r_result <$> l.
Proof. destruct o as [k|]; [|done]. intros H%bool_decide_eq_true_1. eauto. Qed.

(** The programs of one task, run by the machine from their arguments in memory to the
    return of main on the kernel that execve started them on: each of the file system's
    tests but the last returns what it should and prints what is recorded (readfile
    returns -1 because the disk holds no /bin/forktest), cat prints the file; the test
    stdio stops the kernel, since it goes on with the descriptor -1 of a file that does not
    exist and the kernel indexes the task's files with it. Of the tests of the library,
    sem_getvalue and sem_trywait fail whatever the value is; brk moves the
    break up and down, to the byte, and fails below its start; and the test of the stack
    returns without growing it, since its bound is above the whole stack. *)
Theorem single_programs_run :
  exists k, task_kernel = Some k /\
    run_task k <$> (fs_runs ++ memory_runs) = r_result <$> (fs_runs ++ memory_runs).
Proof. apply runs_computed. vm_cast_no_check (eq_refl true). Qed.

(** The programs of several tasks, under the timer and the keyboard: the access to
    shared memory after shmdt and the division by zero end their task with the status 111;
    a character is read that is typed while the program waits for it, but one that was typed
    before is not, and the program waits for another; the child of the fork test sends itself
    SIGABRT and is killed, and wait tells the parent its number and the signal; a child that
    three signals are sent to runs the handlers of all of them, and ends in the one that
    calls exit. *)
Theorem task_programs_run :
  exists k, child_kernel = Some k /\ run_child k <$> task_runs = r_result <$> task_runs.
Proof. apply runs_computed. vm_cast_no_check (eq_refl true). Qed.
